(* ===== verification/_CoqProject ===== *)
-Q . S2P
Prelude.v
Text.v
Numutils.v
Types.v
Scheduler.v
Stat.v
Observe.v
SemanticLog.v
Tables.v
World.v
Catalog.v
StatHistory.v
ObserveStats.v
Decoding.v
TaskView.v
Recovery.v
Policy.v
Backends.v
ToolExec.v
ToolRunner.v
Envelope.v
Security.v
PolicyCommands.v
RecoveryHooks.v
Lifecycle.v
Planner.v
AgentCommands.v
Trace.v
Supervisor.v
TestHooks.v
SupervisorProps.v
LifecycleRules.v
LifecycleSpec.v
LifecycleProps.v
ReclaimProps.v
RetryProps.v
BudgetProps.v
ReplayProps.v
ScanProps.v
RunnerProps.v
Launch.v
ContainerProps.v
PolicyProps.v
SecurityProps.v
PlanProps.v
MemoryProps.v
TraceProps.v
WinLauncher.v
Utility.v
Keywords.v
Grammar.v
AgentGrammar.v
Effects.v
EngineEffects.v
EngineProps.v
Sql.v
Views.v
ViewProps.v
