(* ===== verification/Prelude.v ===== *)
(** * QhapaqXian DB: a verification of the agent engine

    QhapaqXian DB is a fork of PostgreSQL with an engine for agents in the
    server: agents, sessions, tasks and tools are rows of system catalogs,
    SQL statements create them and run them, tools are external programs whose
    answers carry signed receipts, and background workers watch over running
    tasks.  This library models that engine, from the statements down to the
    request file of a tool, and proves what makes it correct.  Paths below are
    relative to the repository's [src/].

    ** The parts and how they interact

    CREATE PROVIDER, PRINCIPAL, TOOL and NAMESPACE POLICY fill the catalogs a
    tool's execution depends on.  RUN TASK is planned
    ([backend/qx/planner]), which authorizes the agent's tools
    ([backend/qx/security]) and turns them into contracts, texts of
    [key=value] pairs; the executor ([backend/qx/executor]) checks the plan,
    chooses a contract for each phase and hands a request to the runtime
    ([backend/qx/runtime/qx_runtime.c]).  The runtime writes the task, its
    attempts and steps, the scheduler's ledger and a semantic log, charges the
    budget, runs the tool through the tool runner
    ([bin/qhapaqxian_tool_runner]) and stops at a checkpoint; RESUME TASK
    completes it.  When a worker is lost, the scheduler workers take the task
    over, and after a restart the recovery scan does.  The log reaches
    subscribers through a logical decoding plug-in
    ([contrib/qhapaqxian_output], beside [src/]).

    ** The files

    Foundations.
    - [Prelude]: scopes, hint databases, tactics, integers at their width
      ([int32] and the like, with wraparound written out), lists, options.
    - [Text]: the string functions of the C library the engine calls; a
      [char *] that may be NULL is a [cstr], an [option string].
    - [Numutils]: [pg_strtoint32] of [backend/utils/adt/numutils.c].
    - [Types]: the structures of [include/qx] that several parts share.
    - [Tables]: the rows of the catalogs [include/catalog/pg_qx_*.h].
    - [World]: the state a backend works on and the monad [M] of its code.
      A step reads and changes the world or raises an error.  Rows a command
      wrote become visible with [CommandCounterIncrement]; [run_command] is a
      statement, which keeps nothing of what it did when it fails.  OIDs come
      from the cluster's counter with its wraparound.

    Components, one file or two each, with the names of the code.
    - [Scheduler]: queue, lease and heartbeat snapshots
      ([backend/qx/scheduler/qx_scheduler.c]).
    - [Stat]: statistics slots and backend leases in shared memory
      ([backend/qx/observe/qx_stat.c],
      [backend/qx/runtime/qx_backend_supervisor.c]).
    - [StatHistory]: the SQL functions over the statistics and the history
      catalog (the same files).
    - [Observe], [ObserveStats]: trace details; statistics records, trace
      summaries and their texts ([backend/qx/observe/qx_observe.c]).
    - [SemanticLog], [Decoding]: the JSON records of the log
      ([backend/qx/replication/qx_semantic_log.c]) and the plug-in that decodes
      them.
    - [Catalog]: catalog access ([backend/qx/catalog/qx_catalog.c]).
    - [Recovery], [RecoveryHooks]: the scans and the runtime's hooks
      ([backend/qx/recovery/qx_recovery.c], [qx_runtime.c]).
    - [Policy], [Backends]: runtime policy, container and microVM requests
      ([backend/qx/runtime/qx_runtime_policy.c], [qx_container_backend.c],
      [qx_microvm_backend.c]).
    - [ToolExec], [Launch]: the execution of a contract, and the process it
      starts: the child's limits and the parent's wait ([qx_runtime.c]).
    - [ToolRunner]: the external program.
    - [Envelope], [Lifecycle]: submit and resume ([qx_runtime.c]).
    - [Supervisor]: the workers, the launcher and the retry cycle
      ([qx_runtime.c]).
    - [TestHooks]: the SQL functions the regression tests call
      ([qx_runtime.c]).
    - [Security], [PolicyCommands]: authorization and the DDL
      ([backend/qx/security/qx_security.c], [backend/commands/qxpolicycmds.c]).
    - [Planner]: plans, EXPLAIN AGENT and the executor's checks.
    - [AgentCommands]: CREATE AGENT, START SESSION, REMEMBER, FETCH MEMORY.
    - [Trace]: SHOW TRACE ([backend/commands/tracecmds.c]).
    - [Utility]: how a statement is classified, guarded and dispatched
      ([backend/tcop/utility.c]).
    - [Keywords]: the keyword table ([include/parser/kwlist.h]), its lookup,
      the scanner's rules for names and [quote_identifier]
      ([common/kwlookup.c], [backend/parser/scan.l], [scansup.c],
      [backend/utils/adt/ruleutils.c]).
    - [Grammar], [AgentGrammar]: grammar rules as data, what they derive and
      how they are parsed; the rules of the agent statements
      ([backend/parser/gram.y]).
    - [WinLauncher]: the launcher for Windows
      ([bin/qhapaqxian_launcher]).
    - [Sql], [Views]: the SQL the statistics views use, and the views
      ([backend/catalog/system_views.sql]).

    Proofs about single components stand at the end of their files; those
    that need more are in files of their own.  [TaskView] is the abstract
    state of the runtime's theorems: what the catalogs say about one task,
    with the effect of each catalog operation on it.  [Effects] is the
    vocabulary of the theorems about the whole engine: the few ways in which
    any operation changes the tasks, the registry and the log, with tactics
    that follow a command; [EngineEffects] applies them to every command.

    ** What the theorems show

    - The whole engine ([EngineProps]): a turn is a statement, an SQL function
      or an iteration of a worker, for any user, settings and tools.  After any
      sequence of turns, failed ones included, tasks have moved along the task
      state machine only, no task is above its budget, the registry of
      providers, principals and tools satisfies the rules of its DDL, and the
      plug-in decodes everything that was logged.
    - Statements ([Utility], [AgentGrammar], [Keywords]): a read-only
      transaction changes nothing; the parser accepts exactly what the grammar
      derives, with the exception that its declared conflicts make; a name
      that is written is read back, with the exception of two keywords.
    - Views ([ViewProps]): what a viewer may not see has no influence on what
      it is shown; a view's groups hold every task once, the slots of the
      workers' balance included; the latest entry of a task is the one the
      workers read; priorities are weighed as the scheduler does; what the
      percentages of the service levels can be.
    - Lifecycle ([LifecycleRules], [LifecycleSpec], [LifecycleProps]): under
      conditions on the request, the catalogs and the tool that are stated and
      satisfiable, a submission ends at a durable checkpoint and a resumption
      completes the task, with every row they leave behind; the two compose.
      These are total: the handlers return.
    - Loss of a worker ([SupervisorProps], [ReclaimProps], [RetryProps]): a
      task has one owner among the worker slots, a lost attempt is handed over,
      a retry reaches a checkpoint, delays are bounded, a task out of retries
      stays failed, the launcher keeps one worker per database and slot.
    - Recovery ([ScanProps], [ReplayProps]): the startup scan marks everything
      that waits for it and a second scan writes nothing; a checkpoint is
      replayed into the log once.
    - Trust in tools ([ToolExec], [RunnerProps], [ContainerProps], [Policy],
      [Backends]): a tool's result is only used with a valid receipt over the
      values used; the runner's answer to the engine's request is accepted; a
      container is confined; requests and answers can be read back; waiting for
      a program ends within its timeout ([Launch]).
    - Policies ([PolicyProps], [SecurityProps], [PlanProps]): tools are
      authorized exactly when the listed conditions hold; contracts are read
      back as written; a planned task is what the runtime is asked to run;
      EXPLAIN hides signers.
    - Budgets ([BudgetProps]), memory ([MemoryProps]), traces ([TraceProps],
      [ObserveStats]), statistics ([Stat], refinement of a map;
      [StatHistory], snapshots are read back), leases
      ([Scheduler]), the semantic log ([SemanticLog], round trip through a JSON
      reader) and the choice of a new OID
      ([World], termination).

    ** Fuel

    Loops that are not structural take fuel: the length of the text they walk
    ([tag_scan], [allowlist_scan], [display_loop], [replace_all_loop] and the
    like, which consume at least one character each time round), the size of
    the OID space for the choice of an OID, [supervise_fuel] for the runner's
    wait loop, which adds 100 ms to the elapsed time on every turn, and
    [launch_fuel] for the backend's, one round for every 10 ms of the timeout
    and one more, since every round sleeps as long.  The theorems about these
    functions cover the fuel: they state the result, not the result of a run
    that happens to end.

    ** What is a parameter

    Everything outside the repository's own code is an argument: [Env] (user,
    database, role membership, settings), [DdlEnv] (search path, privileges),
    [ToolEnv], [LaunchOS] and [RunnerEnv] (files, environment variables,
    processes, clocks, HMAC and Ed25519), [ScanEnv] (the generated hash of the
    keywords, the locale), [ExprGrammar] (PostgreSQL's expressions), [Viewer]
    (the role that reads a view, the clock, the collation).  Theorems that need a law of one of
    them state it as a hypothesis, and their witnesses run the code with concrete functions.

    ** What is not modelled

    - Concurrency within a command.  Commands and worker iterations interleave
      in any order, but each runs against one state; locks, snapshots of other
      transactions and signals are left out.  A critical
      section of the shared statistics is one step.
    - Memory management: copies and frees have no counterpart.  Where the
      code formats a value of a record it has cleared, the model has the text
      of the cleared record; a text that was freed is an arbitrary one.
    - Forming tuples: a function that returns rows is the list of them.
    - Records of dependencies ([pg_depend]) and object-access hooks of the
      DDL, and dropping objects, which generic PostgreSQL code does.
    - Of the parser: expressions, the statements that are PostgreSQL's own,
      source positions, and the scanner apart from names and keywords.  A
      theorem about a statement starts from its tokens or from its parse tree.
    - Of the views: the JSON column of the operators' export and the grants.
    - The branches for Windows in the engine and in the tool runner.
    - Waiting, signals and process management of the background workers; an
      iteration of a worker is a step.
    - The rest of PostgreSQL. *)

From stdpp Require Export base option list strings numbers pretty.
From Stdlib Require Export ZArith Lia.
From Stdlib Require Import Ascii.
Open Scope Z_scope.

(** ** Scopes, hint databases and tactics *)

Declare Scope qx_scope.
Delimit Scope qx_scope with qx.
Open Scope qx_scope.

Create HintDb qx.
Create Rewrite HintDb qx_str.

(** Destruct the first [match] or [if] of the goal, then of a hypothesis. *)
Ltac dm :=
  match goal with
  | |- context [match ?x with _ => _ end] => destruct x eqn:?
  | H : context [match ?x with _ => _ end] |- _ => destruct x eqn:?
  end.

Ltac dms := repeat (dm; simplify_eq/=; try done).

(** Turn the boolean tests the code branches on into propositions. *)
Ltac breflect :=
  repeat match goal with
  | H : (_ =? _)%Z = true |- _ => apply Z.eqb_eq in H
  | H : (_ =? _)%Z = false |- _ => apply Z.eqb_neq in H
  | H : (_ <? _)%Z = true |- _ => apply Z.ltb_lt in H
  | H : (_ <? _)%Z = false |- _ => apply Z.ltb_ge in H
  | H : (_ <=? _)%Z = true |- _ => apply Z.leb_le in H
  | H : (_ <=? _)%Z = false |- _ => apply Z.leb_gt in H
  | H : (_ && _)%bool = true |- _ => apply andb_true_iff in H; destruct H
  | H : (_ && _)%bool = false |- _ => apply andb_false_iff in H
  | H : (_ || _)%bool = true |- _ => apply orb_true_iff in H
  | H : (_ || _)%bool = false |- _ => apply orb_false_iff in H; destruct H
  | H : negb _ = true |- _ => apply negb_true_iff in H
  | H : negb _ = false |- _ => apply negb_false_iff in H
  | H : String.eqb _ _ = true |- _ => apply String.eqb_eq in H
  | H : String.eqb _ _ = false |- _ => apply String.eqb_neq in H
  end.

(** ** Machine integers

    The backend is compiled with [-fwrapv]: signed arithmetic wraps. *)

Definition wrap_signed (w z : Z) : Z := (z + 2 ^ (w - 1)) mod 2 ^ w - 2 ^ (w - 1).
Definition int16 (z : Z) : Z := wrap_signed 16 z.
Definition int32 (z : Z) : Z := wrap_signed 32 z.
Definition int64 (z : Z) : Z := wrap_signed 64 z.
Definition uint32 (z : Z) : Z := z mod 2 ^ 32.

Definition INT32_MAX : Z := 2 ^ 31 - 1.
Definition INT32_MIN : Z := - 2 ^ 31.

Definition in_int16 (z : Z) : Prop := - 2 ^ 15 <= z < 2 ^ 15.
Definition in_int32 (z : Z) : Prop := - 2 ^ 31 <= z < 2 ^ 31.
Definition in_int64 (z : Z) : Prop := - 2 ^ 63 <= z < 2 ^ 63.
Definition in_uint32 (z : Z) : Prop := 0 <= z < 2 ^ 32.

Lemma wrap_signed_small w z :
  0 < w -> - 2 ^ (w - 1) <= z < 2 ^ (w - 1) -> wrap_signed w z = z.
Proof.
  intros Hw Hz. unfold wrap_signed.
  assert (2 ^ w = 2 * 2 ^ (w - 1)) as E.
  { rewrite <- Z.pow_succ_r by lia. f_equal; lia. }
  rewrite Z.mod_small by lia. lia.
Qed.

Lemma wrap_signed_range w z :
  0 < w -> - 2 ^ (w - 1) <= wrap_signed w z < 2 ^ (w - 1).
Proof.
  intros Hw. unfold wrap_signed.
  assert (2 ^ w = 2 * 2 ^ (w - 1)) as E.
  { rewrite <- Z.pow_succ_r by lia. f_equal; lia. }
  assert (0 < 2 ^ (w - 1)) by (apply Z.pow_pos_nonneg; lia).
  pose proof (Z.mod_pos_bound (z + 2 ^ (w - 1)) (2 ^ w) ltac:(lia)). lia.
Qed.

Lemma int16_small z : in_int16 z -> int16 z = z.
Proof. intros. apply wrap_signed_small; [lia | exact H]. Qed.
Lemma int32_small z : in_int32 z -> int32 z = z.
Proof. intros. apply wrap_signed_small; [lia | exact H]. Qed.
Lemma int64_small z : in_int64 z -> int64 z = z.
Proof. intros. apply wrap_signed_small; [lia | exact H]. Qed.
Lemma int32_range z : in_int32 (int32 z).
Proof. apply (wrap_signed_range 32); lia. Qed.
Lemma int64_range z : in_int64 (int64 z).
Proof. apply (wrap_signed_range 64); lia. Qed.
Lemma int16_range z : in_int16 (int16 z).
Proof. apply (wrap_signed_range 16); lia. Qed.
Lemma uint32_range z : in_uint32 (uint32 z).
Proof. apply Z.mod_pos_bound. lia. Qed.
Lemma uint32_small z : in_uint32 z -> uint32 z = z.
Proof. intros. apply Z.mod_small. exact H. Qed.

#[export] Hint Resolve int16_range int32_range int64_range uint32_range : qx.

(** ** Object identifiers *)

Definition Oid := Z.
Definition InvalidOid : Oid := 0.
Definition OidIsValid (o : Oid) : bool := negb (o =? InvalidOid).

Lemma OidIsValid_true o : OidIsValid o = true <-> o <> 0.
Proof. unfold OidIsValid, InvalidOid. rewrite negb_true_iff, Z.eqb_neq. done. Qed.
Lemma OidIsValid_false o : OidIsValid o = false <-> o = 0.
Proof. unfold OidIsValid, InvalidOid. rewrite negb_false_iff, Z.eqb_eq. done. Qed.
