(* ===== verification/Text.v ===== *)
(** * C strings

    The string functions of the C library and of [src/src/port/pgstrcasecmp.c]
    that the engine calls, on Rocq strings, with the lemmas about searching and
    splitting that the components share. *)

From Stdlib Require Import Ascii String.
From S2P Require Import Prelude.
Open Scope string_scope.
Open Scope Z_scope.
Open Scope bool_scope.

(** ** Nullable strings

    A non-null [char *] is a [string]; a pointer that may be NULL is a [cstr]. *)

Definition cstr := option string.

(** [s == NULL || s[0] == '\0'] *)
Definition is_blank (s : cstr) : bool :=
  match s with None => true | Some t => String.eqb t "" end.

(** [s != NULL && strcmp(s, lit) == 0] *)
Definition cstr_is (s : cstr) (lit : string) : bool :=
  match s with None => false | Some t => String.eqb t lit end.

(** [s != NULL ? s : d] *)
Definition cstr_or (s : cstr) (d : string) : string :=
  match s with None => d | Some t => t end.

(** [(s != NULL && s[0] != '\0') ? s : d] *)
Definition text_or (s : cstr) (d : string) : string :=
  if is_blank s then d else cstr_or s d.

Definition ascii_lower (c : ascii) : ascii :=
  let n := N_of_ascii c in
  if (65 <=? n)%N && (n <=? 90)%N then ascii_of_N (n + 32) else c.

(** [pg_strcasecmp(a, b) == 0] in the C locale; bytes with the high bit set
    compare as themselves there. *)
Fixpoint pg_strcaseeq (a b : string) : bool :=
  match a, b with
  | EmptyString, EmptyString => true
  | String c a', String d b' =>
      Ascii.eqb (ascii_lower c) (ascii_lower d) && pg_strcaseeq a' b'
  | _, _ => false
  end.

(** [s != NULL && pg_strcasecmp(s, lit) == 0] *)
Definition cstr_case_is (s : cstr) (lit : string) : bool :=
  match s with None => false | Some t => pg_strcaseeq t lit end.

Lemma pg_strcaseeq_refl a : pg_strcaseeq a a = true.
Proof. induction a; simpl; [done|]. rewrite Ascii.eqb_refl. done. Qed.

Lemma pg_strcaseeq_sym a b : pg_strcaseeq a b = pg_strcaseeq b a.
Proof.
  revert b; induction a as [|c a IH]; intros [|d b]; simpl; try done.
  rewrite IH. f_equal. apply eq_true_iff_eq.
  rewrite !Ascii.eqb_eq. naive_solver.
Qed.

Lemma pg_strcaseeq_trans a b c :
  pg_strcaseeq a b = true -> pg_strcaseeq b c = true -> pg_strcaseeq a c = true.
Proof.
  revert b c; induction a as [|x a IH]; intros [|y b] [|z c]; simpl; try done.
  rewrite !andb_true_iff, !Ascii.eqb_eq. intros [-> ?] [-> ?]; eauto.
Qed.

Lemma pg_strcaseeq_length a b :
  pg_strcaseeq a b = true -> String.length a = String.length b.
Proof.
  revert b; induction a as [|x a IH]; intros [|y b]; simpl; try done.
  rewrite andb_true_iff. intros [_ ?]. f_equal; eauto.
Qed.

(** [isspace] in the C locale. *)
Definition isspace (c : ascii) : bool :=
  let n := N_of_ascii c in (n =? 32)%N || ((9 <=? n)%N && (n <=? 13)%N).

Fixpoint skip_spaces (s : string) : string :=
  match s with
  | String c t => if isspace c then skip_spaces t else s
  | EmptyString => EmptyString
  end.

(** *** Characters of a string *)

Fixpoint has_char (c : ascii) (s : string) : bool :=
  match s with
  | EmptyString => false
  | String d t => Ascii.eqb c d || has_char c t
  end.

(** Split at the first [c]: [strchr] gives the text after it, if there is one. *)
Fixpoint split_char (c : ascii) (s : string) : string * cstr :=
  match s with
  | EmptyString => (EmptyString, None)
  | String d t =>
      if Ascii.eqb c d then (EmptyString, Some t)
      else let '(pre, post) := split_char c t in (String d pre, post)
  end.

(** The text up to the first [c], or all of it: [strchr] then [pnstrdup]. *)
Definition upto (c : ascii) (s : string) : string := fst (split_char c s).

(** The last character of [s], or the one that was before it. *)
Fixpoint last_char (before : option ascii) (s : string) : option ascii :=
  match s with
  | EmptyString => before
  | String c t => last_char (Some c) t
  end.

(** The fields of [s] between separators [c]; there is always at least one. *)
Fixpoint fields (c : ascii) (s : string) : list string :=
  match s with
  | EmptyString => [EmptyString]
  | String d t =>
      if Ascii.eqb c d then EmptyString :: fields c t
      else match fields c t with
           | x :: rest => String d x :: rest
           | [] => [String d EmptyString]
           end
  end.

#[global] Arguments String.append : simpl nomatch.

Lemma append_nil_r s : s +:+ "" = s.
Proof. induction s; simpl; congruence. Qed.

Lemma append_assoc (a b c : string) : (a +:+ b) +:+ c = a +:+ (b +:+ c).
Proof. induction a; simpl; congruence. Qed.

Lemma append_inj_l (a b c : string) : a +:+ b = a +:+ c -> b = c.
Proof. induction a; simpl; intros; simplify_eq; auto. Qed.

Lemma append_length (a b : string) :
  String.length (a +:+ b) = (String.length a + String.length b)%nat.
Proof. induction a; simpl; congruence. Qed.

Lemma has_char_app c a b : has_char c (a +:+ b) = has_char c a || has_char c b.
Proof. induction a; simpl; [done|]. rewrite IHa, orb_assoc. done. Qed.

Lemma split_char_None c s : has_char c s = false -> split_char c s = (s, None).
Proof.
  induction s as [|d s IH]; simpl; [done|].
  intros [E H]%orb_false_iff. rewrite E, IH; done.
Qed.

Lemma split_char_app c s t :
  has_char c s = false -> split_char c (s +:+ String c t) = (s, Some t).
Proof.
  induction s as [|d s IH]; simpl; [rewrite Ascii.eqb_refl; done|].
  intros [E H]%orb_false_iff. rewrite E, IH; done.
Qed.

Lemma split_char_spec c s :
  match split_char c s with
  | (pre, None) => pre = s /\ has_char c s = false
  | (pre, Some post) => s = pre +:+ String c post /\ has_char c pre = false
  end.
Proof.
  induction s as [|d s IH]; simpl; [done|].
  destruct (Ascii.eqb c d) eqn:E.
  - apply Ascii.eqb_eq in E as ->. done.
  - destruct (split_char c s) as [pre [post|]]; simpl; rewrite ?E; destruct IH as [-> H]; auto.
Qed.

Lemma fields_app c x t :
  has_char c x = false -> fields c (x +:+ String c t) = x :: fields c t.
Proof.
  induction x as [|d x IH]; simpl; [rewrite Ascii.eqb_refl; done|].
  intros [E H]%orb_false_iff. rewrite E, IH; done.
Qed.

Lemma fields_single c x : has_char c x = false -> fields c x = [x].
Proof.
  induction x as [|d x IH]; simpl; [done|].
  intros [E H]%orb_false_iff. rewrite E, IH; done.
Qed.

Lemma fields_cons c s : exists r, fields c s = upto c s :: r.
Proof.
  unfold upto. induction s as [|d s IH]; simpl; [by eexists|].
  destruct (Ascii.eqb c d); [by eexists|]. destruct IH as [r ->].
  destruct (split_char c s). by eexists.
Qed.

Lemma upto_no_char c s : has_char c (upto c s) = false.
Proof.
  unfold upto. pose proof (split_char_spec c s) as H.
  destruct (split_char c s) as [pre [post|]]; simpl; destruct H as [-> H]; done.
Qed.

Lemma upto_app c s t : has_char c s = false -> upto c (s +:+ String c t) = s.
Proof. intros. unfold upto. rewrite split_char_app; done. Qed.

Lemma upto_id c s : has_char c s = false -> upto c s = s.
Proof. intros. unfold upto. rewrite split_char_None; done. Qed.

#[export] Hint Rewrite append_nil_r append_assoc has_char_app : qx_str.

(** ** Searching: [strstr]

    [strstr hay needle] is the text before the first occurrence of [needle]
    and the text after it. *)

Fixpoint strip_prefix (p s : string) : cstr :=
  match p, s with
  | EmptyString, _ => Some s
  | String c p', String d s' => if Ascii.eqb c d then strip_prefix p' s' else None
  | String _ _, EmptyString => None
  end.

Fixpoint strstr (hay needle : string) : option (string * string) :=
  match strip_prefix needle hay with
  | Some rest => Some ("", rest)
  | None =>
      match hay with
      | EmptyString => None
      | String c h =>
          match strstr h needle with
          | Some (pre, post) => Some (String c pre, post)
          | None => None
          end
      end
  end.

Definition contains (hay needle : string) : bool :=
  match strstr hay needle with Some _ => true | None => false end.

Definition starts_with (s p : string) : bool :=
  match strip_prefix p s with Some _ => true | None => false end.

Lemma strip_prefix_Some p s r : strip_prefix p s = Some r <-> s = p +:+ r.
Proof.
  revert s; induction p as [|c p IH]; intros s; simpl; [naive_solver|].
  destruct s as [|d s]; simpl; [naive_solver|].
  destruct (Ascii.eqb c d) eqn:E.
  - apply Ascii.eqb_eq in E as ->. rewrite IH. naive_solver.
  - apply Ascii.eqb_neq in E. naive_solver.
Qed.

Lemma strip_prefix_app p r : strip_prefix p (p +:+ r) = Some r.
Proof. apply strip_prefix_Some. done. Qed.

Lemma strip_prefix_None p s : strip_prefix p s = None <-> forall r, s <> p +:+ r.
Proof.
  split.
  - intros H r E. apply strip_prefix_Some in E. congruence.
  - intros H. destruct (strip_prefix p s) eqn:E; [|done].
    apply strip_prefix_Some in E. naive_solver.
Qed.

Lemma strstr_unfold hay needle :
  strstr hay needle =
  match strip_prefix needle hay with
  | Some rest => Some ("", rest)
  | None =>
      match hay with
      | EmptyString => None
      | String c h =>
          match strstr h needle with
          | Some (pre, post) => Some (String c pre, post)
          | None => None
          end
      end
  end.
Proof. destruct hay; done. Qed.

Lemma strstr_Some hay needle pre post :
  strstr hay needle = Some (pre, post) -> hay = pre +:+ (needle +:+ post).
Proof.
  revert pre; induction hay as [|c h IH]; intros pre; rewrite strstr_unfold;
    destruct (strip_prefix needle _) as [r|] eqn:E; intros; simplify_eq.
  - apply strip_prefix_Some in E. done.
  - apply strip_prefix_Some in E. done.
  - destruct (strstr h needle) as [[p q]|] eqn:E2; simplify_eq.
    simpl. f_equal. eauto.
Qed.

Lemma strstr_None hay needle :
  strstr hay needle = None <-> forall pre post, hay <> pre +:+ (needle +:+ post).
Proof.
  split.
  - induction hay as [|c h IH]; rewrite strstr_unfold;
      destruct (strip_prefix needle _) as [r|] eqn:E; try done;
      pose proof (proj1 (strip_prefix_None _ _) E) as Hn.
    + intros _ [|d pre] post; simpl; [apply Hn|done].
    + destruct (strstr h needle) as [[p q]|]; [done|].
      intros _ [|d pre] post; simpl; [apply Hn|].
      intros ?; simplify_eq. naive_solver.
  - intros H. destruct (strstr hay needle) as [[p q]|] eqn:E; [|done].
    apply strstr_Some in E. naive_solver.
Qed.

Lemma contains_true hay needle :
  contains hay needle = true <-> exists pre post, hay = pre +:+ (needle +:+ post).
Proof.
  unfold contains. destruct (strstr hay needle) as [[p q]|] eqn:E.
  - apply strstr_Some in E. naive_solver.
  - split; [done|]. intros (p & q & H).
    exfalso. exact (proj1 (strstr_None _ _) E p q H).
Qed.

(** *** A search for [key=] in a text cut at its [=] signs

    Such a needle ends in its only [=]; so each of its occurrences ends at an
    [=] of the text, just before which the key is read. *)

Fixpoint suffixb (k s : string) : bool :=
  String.eqb k s || match s with EmptyString => false | String _ t => suffixb k t end.

Lemma suffixb_spec k s : suffixb k s = true <-> exists p, s = p +:+ k.
Proof.
  induction s as [|c s IH]; simpl; rewrite orb_true_iff, String.eqb_eq.
  - split; [intros [->|?]; [by exists ""|done]|].
    intros [[|] ?]; simpl in *; naive_solver.
  - rewrite IH. split.
    + intros [->|[p ->]]; [by exists ""|by exists (String c p)].
    + intros [[|d p] ?]; simpl in *; simplify_eq; eauto.
Qed.

Lemma strip_prefix_sep (sep : ascii) k seg rest :
  has_char sep k = false -> has_char sep seg = false ->
  strip_prefix (k +:+ String sep "") (seg +:+ String sep rest) =
  if String.eqb k seg then Some rest else None.
Proof.
  revert seg; induction k as [|c k IH]; intros [|d seg]; simpl; intros Hk Hs.
  - rewrite Ascii.eqb_refl. done.
  - apply orb_false_iff in Hs as [-> _]. done.
  - apply orb_false_iff in Hk as [Hk _]. rewrite Ascii.eqb_sym, Hk. done.
  - apply orb_false_iff in Hk as [_ Hk]. apply orb_false_iff in Hs as [_ Hs].
    destruct (Ascii.eqb c d) eqn:E; [apply IH; done|done].
Qed.

Lemma strstr_sep (sep : ascii) k seg rest :
  has_char sep k = false -> has_char sep seg = false ->
  option_map snd (strstr (seg +:+ String sep rest) (k +:+ String sep "")) =
  if suffixb k seg then Some rest
  else option_map snd (strstr rest (k +:+ String sep "")).
Proof.
  intros Hk. induction seg as [|d seg IH]; intros Hs; rewrite strstr_unfold.
  - rewrite (strip_prefix_sep sep k "" rest) by done. simpl.
    destruct (String.eqb k ""); simpl; [done|].
    destruct (strstr rest _) as [[p q]|]; done.
  - rewrite (strip_prefix_sep sep k (String d seg) rest) by done.
    simpl in Hs. apply orb_false_iff in Hs as [_ Hs]. specialize (IH Hs).
    simpl. destruct (String.eqb k (String d seg)); simpl; [done|].
    rewrite <- IH. destruct (strstr (seg +:+ _) _) as [[p q]|]; done.
Qed.

(** ** Formatting

    [psprintf] and [appendStringInfo] as the concatenation of their pieces. *)

Definition cat (pieces : list string) : string := foldr String.append "" pieces.

(** A value between double quotes, as messages print names. *)
Definition quoted (s : string) : string :=
  String "034"%char (s +:+ String "034"%char "").

(** ["%u"] of an unsigned number and ["%d"] of a signed one. *)
Definition show_u (z : Z) : string := pretty (Z.to_N z).
Definition show_d (z : Z) : string := pretty z.
Definition show_bool (b : bool) : string := if b then "true" else "false".

(** [%X] of a 32-bit number, and the two halves of a WAL position. *)
Definition hex_upper (n : Z) : ascii :=
  ascii_of_N (Z.to_N (if n <? 10 then n + 48 else n + 55)).
Fixpoint hex_digits (fuel : nat) (z : Z) (acc : string) : string :=
  match fuel with
  | O => acc
  | S fuel' =>
      let acc := String (hex_upper (z mod 16)) acc in
      if z <? 16 then acc else hex_digits fuel' (z / 16) acc
  end.
Definition show_X (z : Z) : string := hex_digits 8 z "".
Definition show_lsn (lsn : Z) : string :=
  cat [show_X (lsn / 2 ^ 32); "/"; show_X (lsn mod 2 ^ 32)].

Lemma show_u_inj a b : 0 <= a -> 0 <= b -> show_u a = show_u b -> a = b.
Proof. unfold show_u. intros Ha Hb H%(inj pretty). lia. Qed.

Lemma show_d_inj a b : show_d a = show_d b -> a = b.
Proof. apply (inj pretty). Qed.

Lemma cat_app xs ys : cat (xs ++ ys) = cat xs +:+ cat ys.
Proof.
  induction xs as [|x xs IH]; simpl; [done|].
  unfold cat in *. simpl. rewrite IH, append_assoc. done.
Qed.

(** A decimal number is made of digits. *)
Definition is_digit (c : ascii) : bool :=
  let n := N_of_ascii c in (48 <=? n)%N && (n <=? 57)%N.

Fixpoint all_chars (f : ascii -> bool) (s : string) : bool :=
  match s with EmptyString => true | String c t => f c && all_chars f t end.

Lemma all_chars_no_char f c s :
  all_chars f s = true -> f c = false -> has_char c s = false.
Proof.
  intros H Hc. induction s as [|d s IH]; simpl in *; [done|].
  apply andb_true_iff in H as [Hd Hs]. rewrite IH by done.
  destruct (Ascii.eqb c d) eqn:E; [|done]. apply Ascii.eqb_eq in E. congruence.
Qed.

Lemma pretty_N_go_digits x s :
  all_chars is_digit s = true -> all_chars is_digit (pretty_N_go x s) = true.
Proof.
  revert s. induction (N.lt_wf_0 x) as [x _ IH]; intros s Hs.
  destruct (decide (x = 0)%N) as [->|Hx].
  - rewrite pretty_N_go_0. done.
  - rewrite pretty_N_go_step by lia. apply IH; [apply N.div_lt; lia|].
    simpl. rewrite Hs, andb_true_r.
    assert (x `mod` 10 < 10)%N as Hm by (apply N.mod_lt; lia).
    clear -Hm. unfold is_digit, pretty_N_char.
    destruct (x `mod` 10)%N as [|[[[[]|[]|]|[[]|[]|]|]|[[[]|[]|]|[[]|[]|]|]|]]; try lia; done.
Qed.

Lemma show_u_digits z : all_chars is_digit (show_u z) = true.
Proof.
  unfold show_u, pretty, pretty_N. case_decide; [done|]. apply pretty_N_go_digits. done.
Qed.

Lemma show_u_no_char c z : is_digit c = false -> has_char c (show_u z) = false.
Proof. apply all_chars_no_char, show_u_digits. Qed.

Lemma pretty_N_go_length x s : (String.length s <= String.length (pretty_N_go x s))%nat.
Proof.
  revert s. induction (N.lt_wf_0 x) as [x _ IH]; intros s.
  destruct (decide (x = 0)%N) as [->|Hx]; [rewrite pretty_N_go_0; done|].
  rewrite pretty_N_go_step by lia. etrans; [|apply IH, N.div_lt; lia]. simpl. lia.
Qed.

Lemma show_u_nonempty z : show_u z <> "".
Proof.
  unfold show_u, pretty, pretty_N. case_decide as E; [done|].
  rewrite pretty_N_go_step by lia. intros H%(f_equal String.length).
  pose proof (pretty_N_go_length (Z.to_N z / 10) (String (pretty_N_char (Z.to_N z mod 10)) "")).
  rewrite H in *. simpl in *. lia.
Qed.

(** Text before the first separator is determined by the whole text. *)
Lemma sep_inj c x y r r' :
  has_char c x = false -> has_char c y = false ->
  x +:+ String c r = y +:+ String c r' -> x = y /\ r = r'.
Proof.
  intros Hx Hy E. pose proof (split_char_app c x r Hx) as H1.
  rewrite E, (split_char_app c y r' Hy) in H1. naive_solver.
Qed.

(** *** [strstr] and text appended at the end *)

Lemma strip_prefix_app_r p s x r :
  strip_prefix p s = Some r -> strip_prefix p (s +:+ x) = Some (r +:+ x).
Proof. rewrite !strip_prefix_Some. intros ->. apply append_assoc. Qed.

Lemma strip_prefix_app_None p s x :
  (String.length p <= String.length s)%nat ->
  strip_prefix p s = None -> strip_prefix p (s +:+ x) = None.
Proof.
  revert s. induction p as [|c p IH]; intros [|d s]; simpl; intros Hl; try done; [lia|].
  destruct (Ascii.eqb c d); [|done]. apply IH. lia.
Qed.

Lemma strstr_length s m pre post :
  strstr s m = Some (pre, post) ->
  String.length s = (String.length pre + String.length m + String.length post)%nat.
Proof. intros ->%strstr_Some. rewrite !append_length. lia. Qed.

Lemma strstr_app_r s m x pre post :
  strstr s m = Some (pre, post) -> strstr (s +:+ x) m = Some (pre, post +:+ x).
Proof.
  revert pre. induction s as [|c s IH]; intros pre H; pose proof (strstr_length _ _ _ _ H) as Hl;
    rewrite strstr_unfold in H.
  - destruct (strip_prefix m "") as [r|] eqn:E; [|done]. injection H as <- <-.
    rewrite strstr_unfold. apply (strip_prefix_app_r _ _ x) in E. rewrite E. done.
  - rewrite strstr_unfold. destruct (strip_prefix m (String c s)) as [r|] eqn:E.
    + injection H as <- <-. apply (strip_prefix_app_r _ _ x) in E. rewrite E. done.
    + apply (strip_prefix_app_None _ _ x) in E; [|lia]. rewrite E. simpl.
      destruct (strstr s m) as [[p q]|] eqn:E2; [|done]. injection H as <- <-.
      rewrite (IH p) by done. done.
Qed.

(** The first occurrence of a text is the first one of any prefix that has it. *)
Lemma strstr_keep s m pre post x :
  strstr (s +:+ x) m = Some (pre, post +:+ x) -> s = pre +:+ (m +:+ post) ->
  strstr s m = Some (pre, post).
Proof.
  intros H ->. destruct (strstr (pre +:+ (m +:+ post)) m) as [[p q]|] eqn:E.
  - apply (strstr_app_r _ _ x) in E as E'. rewrite H in E'. injection E' as <- E'.
    apply strstr_Some, append_inj_l, append_inj_l in E. congruence.
  - exfalso. exact (proj1 (strstr_None _ _) E pre post eq_refl).
Qed.

Lemma strstr_pre_None s m pre post :
  m <> "" -> strstr s m = Some (pre, post) -> strstr pre m = None.
Proof.
  intros Hm H. pose proof (strstr_Some _ _ _ _ H) as Hs.
  destruct (strstr pre m) as [[p q]|] eqn:E; [|done].
  pose proof (strstr_length _ _ _ _ E) as Hl.
  apply (strstr_app_r _ _ (m +:+ post)) in E. rewrite <- Hs, H in E.
  injection E as -> _. destruct m; [done|]. simpl in Hl. lia.
Qed.
