(* ===== verification/Numutils.v ===== *)
(** * Reading integers

    [pg_strtoint32] of [src/src/backend/utils/adt/numutils.c], which the runtime
    uses to read the numbers of a principal's response: a fast path for plain
    decimal digits and a slow path for spaces, signs, other bases and
    underscores.  Also [strtoul] and [strtol] of the C library, as far as the
    runtime uses them. *)

From Stdlib Require Import Ascii String.
From stdpp Require Import pretty.
From S2P Require Import Prelude Text.
Open Scope string_scope.
Open Scope Z_scope.
Open Scope bool_scope.

Inductive num_result :=
  | NumOk (z : Z)
  | NumOutOfRange
  | NumInvalidSyntax.

Definition digit_value (c : ascii) : Z := Z.of_N (N_of_ascii c) - 48.

Definition hex_digit_value (c : ascii) : Z :=
  let n := Z.of_N (N_of_ascii c) in
  if n <=? 57 then n - 48 else if n <=? 70 then n - 55 else n - 87.

Definition in_chars (lo hi : N) (c : ascii) : bool :=
  (lo <=? N_of_ascii c)%N && (N_of_ascii c <=? hi)%N.

Definition isdigit (c : ascii) : bool := is_digit c.
Definition isxdigit (c : ascii) : bool := isdigit c || in_chars 65 70 c || in_chars 97 102 c.
Definition isodigit (c : ascii) : bool := in_chars 48 55 c.
Definition isbdigit (c : ascii) : bool := in_chars 48 49 c.

(** *** The fast path *)

(** The digits of [s] added to [tmp], and the text after them; [None] when the
    number does not fit. *)
Fixpoint fast_digits (tmp : Z) (s : string) : option (Z * string) :=
  match s with
  | String c t =>
      if isdigit c then
        if 214748364 <? tmp then None
        else fast_digits (uint32 (tmp * 10 + digit_value c)) t
      else Some (tmp, s)
  | EmptyString => Some (tmp, "")
  end.

(** [tmp] with its sign, when it is in range. *)
Definition finish_int32 (neg : bool) (tmp : Z) : num_result :=
  if neg then
    if 2147483648 <? tmp then NumOutOfRange else NumOk (int32 (- int32 tmp))
  else if 2147483647 <? tmp then NumOutOfRange else NumOk (int32 tmp).

(** *** The slow path *)

Inductive slow_result :=
  | SlowAt (tmp : Z) (any : bool) (rest : string)
  | SlowOutOfRange
  | SlowInvalid.

Definition starts_digit (is_d : ascii -> bool) (s : string) : bool :=
  match s with String c _ => is_d c | EmptyString => false end.

(** [any] tells whether the loop has moved past the first digit position;
    [lead] whether an underscore may be there. *)
Fixpoint slow_digits (base : Z) (is_d : ascii -> bool) (value : ascii -> Z) (lead : bool)
    (tmp : Z) (any : bool) (s : string) : slow_result :=
  match s with
  | String c t =>
      if is_d c then
        if 2147483648 / base <? tmp then SlowOutOfRange
        else slow_digits base is_d value lead (uint32 (tmp * base + value c)) true t
      else if Ascii.eqb c "_" then
        if negb lead && negb any then SlowInvalid
        else if negb (starts_digit is_d t) then SlowInvalid
        else slow_digits base is_d value lead tmp true t
      else SlowAt tmp any s
  | EmptyString => SlowAt tmp any ""
  end.

Definition is_letter (c : ascii) (lower upper : ascii) : bool :=
  Ascii.eqb c lower || Ascii.eqb c upper.

Definition slow_number (s : string) : slow_result :=
  let decimal := slow_digits 10 isdigit digit_value false 0 false s in
  match s with
  | String z (String x t) =>
      if Ascii.eqb z "0" then
        if is_letter x "x" "X" then slow_digits 16 isxdigit hex_digit_value true 0 false t
        else if is_letter x "o" "O" then slow_digits 8 isodigit digit_value true 0 false t
        else if is_letter x "b" "B" then slow_digits 2 isbdigit digit_value true 0 false t
        else decimal
      else decimal
  | _ => decimal
  end.

(** [neg] keeps what the fast path found. *)
Definition slow_path (neg : bool) (s : string) : num_result :=
  let s := skip_spaces s in
  let '(neg, s) :=
    match s with
    | String c t => if Ascii.eqb c "-" then (true, t) else if Ascii.eqb c "+" then (neg, t) else (neg, s)
    | EmptyString => (neg, s)
    end in
  match slow_number s with
  | SlowOutOfRange => NumOutOfRange
  | SlowInvalid => NumInvalidSyntax
  | SlowAt tmp any rest =>
      if negb any then NumInvalidSyntax
      else if negb (String.eqb (skip_spaces rest) "") then NumInvalidSyntax
      else finish_int32 neg tmp
  end.

Definition pg_strtoint32 (s : string) : num_result :=
  let '(neg, ptr) :=
    match s with
    | String c t => if Ascii.eqb c "-" then (true, t) else (false, s)
    | EmptyString => (false, s)
    end in
  match ptr with
  | String c t =>
      if isdigit c then
        match fast_digits (digit_value c) t with
        | None => NumOutOfRange
        | Some (tmp, rest) =>
            if negb (String.eqb rest "") then slow_path neg s else finish_int32 neg tmp
        end
      else slow_path neg s
  | EmptyString => slow_path neg s
  end.

(** ** The C library *)

Fixpoint digits_prefix (acc : Z) (s : string) : Z * string :=
  match s with
  | String c t => if isdigit c then digits_prefix (acc * 10 + digit_value c) t else (acc, s)
  | EmptyString => (acc, "")
  end.

Definition signed_text (s : string) : bool * string :=
  match skip_spaces s with
  | String c t =>
      if Ascii.eqb c "-" then (true, t) else if Ascii.eqb c "+" then (false, t)
      else (false, String c t)
  | EmptyString => (false, "")
  end.

(** [strtoul(s, NULL, 10)] with a 64-bit [unsigned long]: too large a number
    gives the largest one, a minus sign negates modulo 2^64. *)
Definition strtoul (s : string) : Z :=
  let '(neg, t) := signed_text s in
  let '(v, _) := digits_prefix 0 t in
  if 2 ^ 64 - 1 <? v then 2 ^ 64 - 1 else if neg then (- v) mod 2 ^ 64 else v.

(** [strtol(s, &endptr, 10)] as its callers check it: the whole text is one
    number in the range of a 64-bit [long]. *)
Definition strtol_whole (s : string) : option Z :=
  let '(neg, t) := signed_text s in
  if negb (starts_digit isdigit t) then None
  else
    let '(v, rest) := digits_prefix 0 t in
    let z := if neg then - v else v in
    if negb (String.eqb rest "") then None
    else if (z <? - 2 ^ 63) || (2 ^ 63 - 1 <? z) then None
    else Some z.

(** ** Decimal numbers *)

(** The number a text of digits stands for. *)
Fixpoint decimal (acc : Z) (s : string) : Z :=
  match s with
  | EmptyString => acc
  | String c t => decimal (acc * 10 + digit_value c) t
  end.

Lemma digit_value_range c : is_digit c = true -> 0 <= digit_value c <= 9.
Proof.
  unfold is_digit, digit_value. rewrite andb_true_iff, !N.leb_le. lia.
Qed.

Lemma decimal_ge acc s : all_chars is_digit s = true -> 0 <= acc -> acc <= decimal acc s.
Proof.
  revert acc. induction s as [|c t IH]; intros acc; simpl; [lia|].
  rewrite andb_true_iff. intros [Hc Ht] Ha. apply digit_value_range in Hc.
  specialize (IH (acc * 10 + digit_value c) Ht ltac:(lia)). lia.
Qed.

Lemma fast_digits_decimal tmp s :
  all_chars is_digit s = true -> 0 <= tmp < 2147483650 ->
  (fast_digits tmp s = None /\ 2147483648 < decimal tmp s) \/
  fast_digits tmp s = Some (decimal tmp s, "").
Proof.
  revert tmp. induction s as [|c t IH]; intros tmp; simpl; [by right|].
  rewrite andb_true_iff. intros [Hc Ht] Htmp. unfold isdigit. rewrite Hc.
  apply digit_value_range in Hc. destruct (Z.ltb_spec 214748364 tmp).
  - left. split; [done|]. pose proof (decimal_ge (tmp * 10 + digit_value c) t Ht ltac:(lia)). lia.
  - rewrite uint32_small by (unfold in_uint32; lia). apply IH; [done|lia].
Qed.

Definition read_reference (neg : bool) (v : Z) : num_result :=
  if neg then if v <=? 2147483648 then NumOk (- v) else NumOutOfRange
  else if v <=? 2147483647 then NumOk v else NumOutOfRange.

Lemma finish_int32_reference neg v : 0 <= v -> finish_int32 neg v = read_reference neg v.
Proof.
  intros Hv. unfold finish_int32, read_reference. destruct neg.
  - destruct (Z.ltb_spec 2147483648 v), (Z.leb_spec v 2147483648); try lia; [done|].
    f_equal. destruct (decide (v = 2147483648)) as [->|]; [done|].
    rewrite (int32_small v) by (unfold in_int32; lia). apply int32_small. unfold in_int32; lia.
  - destruct (Z.ltb_spec 2147483647 v), (Z.leb_spec v 2147483647); try lia; [done|].
    rewrite int32_small by (unfold in_int32; lia). done.
Qed.

Lemma read_digits neg s0 c t :
  all_chars is_digit (String c t) = true ->
  match fast_digits (digit_value c) t with
  | None => NumOutOfRange
  | Some (tmp, rest) => if negb (String.eqb rest "") then slow_path neg s0 else finish_int32 neg tmp
  end = read_reference neg (decimal 0 (String c t)).
Proof.
  change (decimal 0 (String c t)) with (decimal (digit_value c) t).
  cbn [all_chars]. rewrite andb_true_iff. intros [Hc Ht]. apply digit_value_range in Hc.
  pose proof (decimal_ge (digit_value c) t Ht ltac:(lia)).
  destruct (fast_digits_decimal (digit_value c) t Ht ltac:(lia)) as [[-> Hv]| ->].
  - unfold read_reference. rewrite !(proj2 (Z.leb_gt _ _)) by lia. destruct neg; done.
  - simpl. apply finish_int32_reference. lia.
Qed.

(** A text of decimal digits, with or without a minus sign, is read as the
    number it stands for when that fits 32 bits, and is out of range otherwise;
    intermediate sums of the fast path never wrap around. *)
Lemma strtoint32_decimal s :
  s <> "" -> all_chars is_digit s = true ->
  pg_strtoint32 s = read_reference false (decimal 0 s) /\
  pg_strtoint32 (String "-" s) = read_reference true (decimal 0 s).
Proof.
  intros Hne Hs. destruct s as [|c t]; [done|]. pose proof Hs as Hc. simpl in Hc.
  apply andb_true_iff in Hc as [Hc _].
  assert (Ascii.eqb c "-" = false) as Hm.
  { apply Ascii.eqb_neq. intros ->. done. }
  unfold pg_strtoint32. rewrite Hm. cbn [Ascii.eqb Bool.eqb]. unfold isdigit. rewrite Hc.
  split; apply read_digits; done.
Qed.

(** ** What is printed is read back *)

Lemma decimal_pretty_go x s : decimal 0 (pretty_N_go x s) = decimal (Z.of_N x) s.
Proof.
  revert s. induction (N.lt_wf_0 x) as [x _ IH]; intros s.
  destruct (decide (x = 0)%N) as [->|Hx]; [rewrite pretty_N_go_0; done|].
  rewrite pretty_N_go_step by lia. rewrite IH by (apply N.div_lt; lia). simpl. f_equal.
  assert (digit_value (pretty_N_char (x `mod` 10)) = Z.of_N (x `mod` 10)) as ->.
  { assert (x `mod` 10 < 10)%N by (apply N.mod_lt; lia).
    destruct (x `mod` 10)%N as [|[[[[]|[]|]|[[]|[]|]|]|[[[]|[]|]|[[]|[]|]|]|]]; try lia; done. }
  rewrite N2Z.inj_div, N2Z.inj_mod. pose proof (Z.div_mod (Z.of_N x) 10). lia.
Qed.

Lemma decimal_pretty x : decimal 0 (pretty x) = Z.of_N x.
Proof. unfold pretty, pretty_N. case_decide; [subst; done|]. apply decimal_pretty_go. Qed.

(** Every 32-bit number is read back from its decimal text. *)
Lemma strtoint32_roundtrip z : in_int32 z -> pg_strtoint32 (show_d z) = NumOk z.
Proof.
  intros Hz. unfold in_int32 in Hz.
  pose proof (show_u_digits (Z.abs z)) as Hd. pose proof (show_u_nonempty (Z.abs z)) as Hn.
  destruct (show_u (Z.abs z)) as [|c t] eqn:Es; [done|].
  assert (decimal 0 (String c t) = Z.abs z) as Hv.
  { rewrite <- Es. unfold show_u. rewrite decimal_pretty. lia. }
  simpl in Hd. pose proof Hd as Hc. apply andb_true_iff in Hc as [Hc _].
  assert (Ascii.eqb c "-" = false) as Hm by (apply Ascii.eqb_neq; intros ->; done).
  assert (show_d z = if z <? 0 then String "-" (String c t) else String c t) as ->.
  { rewrite <- Es. unfold show_d, show_u, pretty, pretty_Z. destruct z; done. }
  destruct (Z.ltb_spec z 0); unfold pg_strtoint32; rewrite ?Hm; cbn [Ascii.eqb Bool.eqb];
    unfold isdigit; rewrite Hc; rewrite read_digits by done; rewrite Hv; unfold read_reference.
  - rewrite (proj2 (Z.leb_le _ _)) by lia. f_equal. lia.
  - rewrite (proj2 (Z.leb_le _ _)) by lia. f_equal. lia.
Qed.
