(* ===== verification/Types.v ===== *)
(** * Structures shared between components

    The node trees the engine inspects; the plan structures of
    [src/src/include/qx/qx_agent_plan.h] that the planner fills and that the
    scheduler and the executor read; the recovery structures of
    [src/src/include/qx/qx_recovery.h]. *)

From Stdlib Require Import Ascii String.
From S2P Require Import Prelude Text.
Open Scope string_scope.
Open Scope Z_scope.
Open Scope bool_scope.

(** A node tree, as far as the engine's [IsA] and [nodeTag] tests tell nodes
    apart.  [NOther] is any other tag, with a number standing for its content. *)
Inductive pg_node :=
  | NString (s : string)
  | NInteger (z : Z)
  | NList (elems : list pg_node)
  | NDefElem (defname : string) (arg : option pg_node)
  | NFloat (s : string)
  | NBoolean (b : bool)
  | NAConst (val : option pg_node)      (* [None] is the constant NULL *)
  | NOther (tag : Z).

Inductive QxAgentPlanKind := QX_AGENT_PLAN_RUN_TASK | QX_AGENT_PLAN_RESUME_TASK.

#[export] Instance plan_kind_eq_dec : EqDecision QxAgentPlanKind.
Proof. solve_decision. Defined.

Record QxAgentPlanStep := MkPlanStep {
  ps_seqno : Z;
  ps_name : string;
  ps_detail : string;
  ps_estimated_cost : Z;
  ps_checkpoint_boundary : bool;
  ps_retryable : bool
}.

Record QxAgentPlanToolDecision := MkToolDecision {
  td_tool_name : cstr;
  td_handler_name : cstr;
  td_tool_sandbox_name : cstr;
  td_principal_name : cstr;
  td_principal_runtime_class : cstr;
  td_provider_name : cstr;
  td_provider_kind : cstr;
  td_provider_endpoint : cstr;
  td_receipt_schema : cstr;
  td_receipt_alg : cstr;
  td_attestation_mode : cstr;
  td_capability_class : cstr;
  td_require_attestation : bool
}.

Record QxAgentPlanRuntimeDecision := MkRuntimeDecision {
  rd_execution_surface : cstr;
  rd_provider_kinds : list string;
  rd_principal_runtime_classes : list string;
  rd_capability_tags : list string;
  rd_mixed_provider_kinds : bool;
  rd_mixed_principal_runtime_classes : bool;
  rd_any_attestation_required : bool
}.

Record QxAgentPlan := MkPlan {
  p_kind : QxAgentPlanKind;
  p_ownerid : Oid;
  p_agentoid : Oid;
  p_identityoid : Oid;
  p_namespace_policy_oid : Oid;
  p_sessionoid : Oid;
  p_taskoid : Oid;
  p_checkpointoid : Oid;
  p_input : option pg_node;
  p_command_name : cstr;
  p_identity_name : cstr;
  p_namespace_policy_name : cstr;
  p_task_name : cstr;
  p_goal : cstr;
  p_priority : cstr;
  p_checkpoint_label : cstr;
  p_target_state : cstr;
  p_result_mode : cstr;
  p_input_present : bool;
  p_checkpointable : bool;
  p_resumable : bool;
  p_returning_requested : bool;
  p_budget_tokens : Z;
  p_budget_cost : Z;
  p_estimated_tokens : Z;
  p_estimated_total_cost : Z;
  p_estimated_tool_calls : Z;
  p_authorized_tool_tokens : Z;
  p_authorized_tool_cost : Z;
  p_runtime_decision : QxAgentPlanRuntimeDecision;
  p_authorized_tools : list string;
  p_authorized_tool_oids : list Oid;
  p_tool_decisions : list QxAgentPlanToolDecision;
  p_steps : list QxAgentPlanStep
}.

(** ** Recovery *)

Record QxRecoveryStartupRequest := MkStartupRequest {
  sr_databaseoid : Oid;
  sr_ownerid : Oid;
  sr_include_attempts : bool;
  sr_include_checkpoints : bool;
  sr_fence_stale_attempts : bool;
  sr_requeue_checkpointed_tasks : bool;
  sr_rebuild_from_semantic_log : bool
}.

Record QxRecoveryFailoverRequest := MkFailoverRequest {
  fr_databaseoid : Oid;
  fr_ownerid : Oid;
  fr_rebuild_task_graph : bool;
  fr_rebuild_attempt_graph : bool;
  fr_rebuild_checkpoint_graph : bool;
  fr_replay_semantic_log : bool;
  fr_fence_orphaned_attempts : bool;
  fr_requeue_checkpointed_tasks : bool
}.

Record QxRecoveryTaskSummary := MkTaskSummary {
  ts_taskoid : Oid;
  ts_sessionoid : Oid;
  ts_agentoid : Oid;
  ts_ownerid : Oid;
  ts_namespace_policy_oid : Oid;
  ts_identityoid : Oid;
  ts_lastattemptoid : Oid;
  ts_lastcheckpointoid : Oid;
  ts_attempt_count : Z;
  ts_checkpoint_count : Z;
  ts_nextstepseqno : Z;
  ts_taskstate : ascii;
  ts_needs_requeue : bool;
  ts_needs_fence : bool;
  ts_scheduler_recovery_queued : bool;
  ts_scheduler_reclaimed : bool;
  ts_has_semantic_lsn : bool;
  ts_semantic_lsn : Z;
  ts_task_name : cstr;
  ts_goal : cstr;
  ts_priority : cstr;
  ts_recovery_reason : cstr
}.

Record QxRecoveryAttemptSummary := MkAttemptSummary {
  as_attemptoid : Oid;
  as_taskoid : Oid;
  as_sessionoid : Oid;
  as_ownerid : Oid;
  as_resume_checkpoint_oid : Oid;
  as_seqno : Z;
  as_state : ascii;
  as_resumable : bool;
  as_scheduler_reclaimed : bool;
  as_strategy : cstr;
  as_recovery_reason : cstr
}.

Record QxRecoveryCheckpointSummary := MkCheckpointSummary {
  cs_checkpointoid : Oid;
  cs_taskoid : Oid;
  cs_attemptoid : Oid;
  cs_stepoid : Oid;
  cs_ownerid : Oid;
  cs_state : ascii;
  cs_task_state : ascii;
  cs_nextstepseqno : Z;
  cs_has_semantic_lsn : bool;
  cs_semantic_replayed : bool;
  cs_semantic_lsn : Z;
  cs_label : cstr;
  cs_data : cstr
}.

Record QxRecoveryReport := MkReport {
  r_databaseoid : Oid;
  r_startup_scan : bool;
  r_failover_rebuild : bool;
  r_tasks_scanned : Z;
  r_attempts_scanned : Z;
  r_checkpoints_scanned : Z;
  r_tasks_requeued : Z;
  r_attempts_fenced : Z;
  r_checkpoints_replayed : Z;
  r_orphan_attempts : Z;
  r_semantic_replay_candidates : Z;
  r_checkpoints_replay_suppressed : Z;
  r_tasks_requeue_suppressed : Z;
  r_attempts_fence_suppressed : Z
}.
