(* ===== verification/Scheduler.v ===== *)
(** * The scheduler's envelopes and snapshots

    [src/src/backend/qx/scheduler/qx_scheduler.c] with the structures of
    [src/src/include/qx/qx_scheduler.h].  The C functions
    build snapshots in memory from an envelope; the clock they read with
    [GetCurrentTimestamp] is an argument here.  A pointer argument the C code
    compares with NULL is an [option]. *)

From Stdlib Require Import Ascii String.
From S2P Require Import Prelude Text Types.
Open Scope string_scope.
Open Scope Z_scope.
Open Scope bool_scope.

Definition TimestampTz := Z.
Definition USECS_PER_MSEC : Z := 1000.

Inductive QxSchedulerQueueKind :=
  | QX_SCHEDULER_QUEUE_PRIMARY
  | QX_SCHEDULER_QUEUE_RETRY
  | QX_SCHEDULER_QUEUE_RECOVERY
  | QX_SCHEDULER_QUEUE_MAINTENANCE.

Inductive QxSchedulerLeaseState :=
  | QX_SCHEDULER_LEASE_AVAILABLE
  | QX_SCHEDULER_LEASE_HELD
  | QX_SCHEDULER_LEASE_EXPIRED
  | QX_SCHEDULER_LEASE_RELEASED
  | QX_SCHEDULER_LEASE_RECLAIMED.

Inductive QxSchedulerHeartbeatState :=
  | QX_SCHEDULER_HEARTBEAT_HEALTHY
  | QX_SCHEDULER_HEARTBEAT_SLOW
  | QX_SCHEDULER_HEARTBEAT_STALE
  | QX_SCHEDULER_HEARTBEAT_MISSED.

#[export] Instance queue_kind_eq_dec : EqDecision QxSchedulerQueueKind.
Proof. solve_decision. Defined.
#[export] Instance lease_state_eq_dec : EqDecision QxSchedulerLeaseState.
Proof. solve_decision. Defined.
#[export] Instance heartbeat_state_eq_dec : EqDecision QxSchedulerHeartbeatState.
Proof. solve_decision. Defined.

(** The value of an enumerator, as C casts it to an integer. *)
Definition queue_kind_code (k : QxSchedulerQueueKind) : Z :=
  match k with
  | QX_SCHEDULER_QUEUE_PRIMARY => 0
  | QX_SCHEDULER_QUEUE_RETRY => 1
  | QX_SCHEDULER_QUEUE_RECOVERY => 2
  | QX_SCHEDULER_QUEUE_MAINTENANCE => 3
  end.

Definition lease_state_code (st : QxSchedulerLeaseState) : Z :=
  match st with
  | QX_SCHEDULER_LEASE_AVAILABLE => 0
  | QX_SCHEDULER_LEASE_HELD => 1
  | QX_SCHEDULER_LEASE_EXPIRED => 2
  | QX_SCHEDULER_LEASE_RELEASED => 3
  | QX_SCHEDULER_LEASE_RECLAIMED => 4
  end.

Definition heartbeat_state_code (st : QxSchedulerHeartbeatState) : Z :=
  match st with
  | QX_SCHEDULER_HEARTBEAT_HEALTHY => 0
  | QX_SCHEDULER_HEARTBEAT_SLOW => 1
  | QX_SCHEDULER_HEARTBEAT_STALE => 2
  | QX_SCHEDULER_HEARTBEAT_MISSED => 3
  end.

Record QxSchedulerTaskEnvelope := MkEnvelope {
  e_ownerid : Oid;
  e_sessionoid : Oid;
  e_agentoid : Oid;
  e_identityoid : Oid;
  e_namespace_policy_oid : Oid;
  e_taskoid : Oid;
  e_attemptoid : Oid;
  e_queue_name : cstr;
  e_task_name : cstr;
  e_agent_name : cstr;
  e_identity_name : cstr;
  e_namespace_policy_name : cstr;
  e_principal_name : cstr;
  e_provider_name : cstr;
  e_provider_kind : cstr;
  e_principal_runtime : cstr;
  e_priority : cstr;
  e_checkpoint_label : cstr;
  e_resume_label : cstr;
  e_resumable : bool;
  e_checkpointable : bool;
  e_urgent : bool;
  e_requires_heartbeat : bool;
  e_is_retry : bool;
  e_budget_tokens : Z;
  e_budget_cost : Z;
  e_estimated_tokens : Z;
  e_estimated_cost : Z;
  e_retry_count : Z;
  e_max_retries : Z;
  e_heartbeat_interval_ms : Z;
  e_lease_ttl_ms : Z
}.

Record QxSchedulerQueueSnapshot := MkQueue {
  q_queueoid : Oid;
  q_ownerid : Oid;
  q_namespace_policy_oid : Oid;
  q_agentoid : Oid;
  q_sessionoid : Oid;
  q_taskoid : Oid;
  q_attemptoid : Oid;
  q_queue_kind : QxSchedulerQueueKind;
  q_queue_name : cstr;
  q_agent_name : cstr;
  q_identity_name : cstr;
  q_namespace_policy_name : cstr;
  q_priority : cstr;
  q_principal_name : cstr;
  q_provider_name : cstr;
  q_provider_kind : cstr;
  q_principal_runtime : cstr;
  q_runnable_count : Z;
  q_leased_count : Z;
  q_blocked_count : Z;
  q_retry_count : Z;
  q_enqueued_at : TimestampTz;
  q_eligible_at : TimestampTz;
  q_updated_at : TimestampTz
}.

Record QxSchedulerLeaseSnapshot := MkLease {
  l_leaseoid : Oid;
  l_queueoid : Oid;
  l_ownerid : Oid;
  l_workeroid : Oid;
  l_sessionoid : Oid;
  l_taskoid : Oid;
  l_attemptoid : Oid;
  l_state : QxSchedulerLeaseState;
  l_queue_name : cstr;
  l_worker_name : cstr;
  l_lease_token : cstr;
  l_principal_name : cstr;
  l_provider_name : cstr;
  l_provider_kind : cstr;
  l_principal_runtime : cstr;
  l_acquired_at : TimestampTz;
  l_renewed_at : TimestampTz;
  l_expires_at : TimestampTz;
  l_last_heartbeat_at : TimestampTz;
  l_renewal_count : Z;
  l_needs_recovery : bool
}.

Record QxSchedulerHeartbeatSnapshot := MkHeartbeat {
  h_heartbeatoid : Oid;
  h_leaseoid : Oid;
  h_ownerid : Oid;
  h_workeroid : Oid;
  h_sessionoid : Oid;
  h_taskoid : Oid;
  h_attemptoid : Oid;
  h_state : QxSchedulerHeartbeatState;
  h_worker_name : cstr;
  h_queue_name : cstr;
  h_principal_runtime : cstr;
  h_provider_kind : cstr;
  h_receipt_mode : cstr;
  h_lag_ms : Z;
  h_observed_at : TimestampTz;
  h_expected_before : TimestampTz;
  h_stale : bool
}.

(** ** Names and weights *)

Definition qx_scheduler_safe_text (value : cstr) : string := text_or value "<unset>".

Definition qx_scheduler_priority_weight_internal (priority : cstr) : Z :=
  match priority with
  | None => 40
  | Some p =>
      if String.eqb p "" then 40
      else if pg_strcaseeq p "urgent" || pg_strcaseeq p "critical" then 100
      else if pg_strcaseeq p "high" then 80
      else if pg_strcaseeq p "normal" then 60
      else if pg_strcaseeq p "low" then 35
      else if pg_strcaseeq p "idle" then 10
      else 50
  end.

Definition QxSchedulerPriorityWeight (priority : cstr) : Z :=
  qx_scheduler_priority_weight_internal priority.

Definition qx_scheduler_queue_kind_for_priority (priority : cstr) : QxSchedulerQueueKind :=
  let weight := qx_scheduler_priority_weight_internal priority in
  if 80 <=? weight then QX_SCHEDULER_QUEUE_PRIMARY
  else if 50 <=? weight then QX_SCHEDULER_QUEUE_RETRY
  else if 25 <=? weight then QX_SCHEDULER_QUEUE_RECOVERY
  else QX_SCHEDULER_QUEUE_MAINTENANCE.

(** The interval depends on the envelope only through its priority. *)
Definition heartbeat_interval_for_priority (priority : cstr) : Z :=
  let weight := qx_scheduler_priority_weight_internal priority in
  if 80 <=? weight then 1500
  else if 50 <=? weight then 3000
  else if 25 <=? weight then 5000
  else 8000.

Definition QxSchedulerDefaultHeartbeatIntervalMs
    (envelope : option QxSchedulerTaskEnvelope) : Z :=
  match envelope with
  | None => 5000
  | Some e => heartbeat_interval_for_priority (e_priority e)
  end.

Definition QxSchedulerDefaultLeaseTtlMs (envelope : option QxSchedulerTaskEnvelope) : Z :=
  int32 (QxSchedulerDefaultHeartbeatIntervalMs envelope * 3).

Definition QxSchedulerBuildQueueKey (namespace_policy_name priority agent_name : cstr) : string :=
  cat [qx_scheduler_safe_text namespace_policy_name; ":";
       qx_scheduler_safe_text priority; ":"; qx_scheduler_safe_text agent_name].

(** ** Envelopes *)

(** A zeroed envelope: [MemSet(envelope, 0, ...)]. *)
Definition QxSchedulerInitTaskEnvelope : QxSchedulerTaskEnvelope :=
  {| e_ownerid := 0; e_sessionoid := 0; e_agentoid := 0; e_identityoid := 0;
     e_namespace_policy_oid := 0; e_taskoid := 0; e_attemptoid := 0;
     e_queue_name := None; e_task_name := None; e_agent_name := None;
     e_identity_name := None; e_namespace_policy_name := None;
     e_principal_name := None; e_provider_name := None; e_provider_kind := None;
     e_principal_runtime := None; e_priority := None; e_checkpoint_label := None;
     e_resume_label := None; e_resumable := false; e_checkpointable := false;
     e_urgent := false; e_requires_heartbeat := false; e_is_retry := false;
     e_budget_tokens := 0; e_budget_cost := 0; e_estimated_tokens := 0;
     e_estimated_cost := 0; e_retry_count := 0; e_max_retries := 0;
     e_heartbeat_interval_ms := 0; e_lease_ttl_ms := 0 |}.

Definition safe (value : cstr) : cstr := Some (qx_scheduler_safe_text value).

Definition QxSchedulerCopyTaskEnvelope (envelope : option QxSchedulerTaskEnvelope) :
    option QxSchedulerTaskEnvelope :=
  match envelope with
  | None => None
  | Some e => Some
    {| e_ownerid := e_ownerid e; e_sessionoid := e_sessionoid e;
       e_agentoid := e_agentoid e; e_identityoid := e_identityoid e;
       e_namespace_policy_oid := e_namespace_policy_oid e;
       e_taskoid := e_taskoid e; e_attemptoid := e_attemptoid e;
       e_queue_name := safe (e_queue_name e);
       e_task_name := safe (e_task_name e);
       e_agent_name := safe (e_agent_name e);
       e_identity_name := safe (e_identity_name e);
       e_namespace_policy_name := safe (e_namespace_policy_name e);
       e_principal_name := safe (e_principal_name e);
       e_provider_name := safe (e_provider_name e);
       e_provider_kind := safe (e_provider_kind e);
       e_principal_runtime := safe (e_principal_runtime e);
       e_priority := safe (e_priority e);
       e_checkpoint_label := safe (e_checkpoint_label e);
       e_resume_label := safe (e_resume_label e);
       e_resumable := e_resumable e; e_checkpointable := e_checkpointable e;
       e_urgent := e_urgent e; e_requires_heartbeat := e_requires_heartbeat e;
       e_is_retry := e_is_retry e; e_budget_tokens := e_budget_tokens e;
       e_budget_cost := e_budget_cost e; e_estimated_tokens := e_estimated_tokens e;
       e_estimated_cost := e_estimated_cost e; e_retry_count := e_retry_count e;
       e_max_retries := e_max_retries e;
       e_heartbeat_interval_ms := e_heartbeat_interval_ms e;
       e_lease_ttl_ms := e_lease_ttl_ms e |}
  end.

(** The interval and the lease time are computed from the envelope's own
    priority text, which is already ["<unset>"] when the plan had none. *)
Definition QxSchedulerEnvelopeFromAgentPlan (plan : option QxAgentPlan) :
    option QxSchedulerTaskEnvelope :=
  match plan with
  | None => None
  | Some p =>
    let interval := heartbeat_interval_for_priority (safe (p_priority p)) in
    Some
    {| e_ownerid := p_ownerid p; e_sessionoid := p_sessionoid p;
       e_agentoid := p_agentoid p; e_identityoid := p_identityoid p;
       e_namespace_policy_oid := p_namespace_policy_oid p;
       e_taskoid := p_taskoid p; e_attemptoid := 0;
       e_queue_name := Some (QxSchedulerBuildQueueKey (p_namespace_policy_name p)
                               (p_priority p) (p_identity_name p));
       e_task_name := safe (p_task_name p);
       e_agent_name := safe (p_identity_name p);
       e_identity_name := safe (p_identity_name p);
       e_namespace_policy_name := safe (p_namespace_policy_name p);
       e_principal_name := None; e_provider_name := None;
       e_provider_kind := None; e_principal_runtime := None;
       e_priority := safe (p_priority p);
       e_checkpoint_label := safe (p_checkpoint_label p);
       e_resume_label := None;
       e_resumable := p_resumable p; e_checkpointable := p_checkpointable p;
       e_urgent := 80 <=? qx_scheduler_priority_weight_internal (p_priority p);
       e_requires_heartbeat := true; e_is_retry := false;
       e_budget_tokens := p_budget_tokens p; e_budget_cost := p_budget_cost p;
       e_estimated_tokens := p_estimated_tokens p;
       e_estimated_cost := p_estimated_total_cost p;
       e_retry_count := 0; e_max_retries := 3;
       e_heartbeat_interval_ms := interval;
       e_lease_ttl_ms := int32 (interval * 3) |}
  end.

Definition QxSchedulerRuntimeContractIsValid (envelope : option QxSchedulerTaskEnvelope) : bool :=
  match envelope with
  | None => false
  | Some e =>
      if (e_sessionoid e =? InvalidOid) || (e_agentoid e =? InvalidOid) ||
         (e_identityoid e =? InvalidOid) || (e_namespace_policy_oid e =? InvalidOid)
      then false
      else match e_task_name e, e_priority e with
      | Some _, Some _ =>
          if (e_budget_tokens e <? 0) || (e_budget_cost e <? 0) then false
          else if (e_estimated_tokens e <? 0) || (e_estimated_cost e <? 0) then false
          else true
      | _, _ => false
      end
  end.

Definition QxSchedulerEnvelopeNeedsRetry (envelope : option QxSchedulerTaskEnvelope) : bool :=
  match envelope with
  | None => false
  | Some e =>
      if negb (e_resumable e) then false
      else if e_max_retries e <=? e_retry_count e then false
      else true
  end.

(** ** Snapshots *)

Definition queue_snapshot_of (now : TimestampTz) (e : QxSchedulerTaskEnvelope) :
    QxSchedulerQueueSnapshot :=
  {| q_queueoid := InvalidOid; q_ownerid := e_ownerid e;
     q_namespace_policy_oid := e_namespace_policy_oid e;
     q_agentoid := e_agentoid e; q_sessionoid := e_sessionoid e;
     q_taskoid := e_taskoid e; q_attemptoid := e_attemptoid e;
     q_queue_kind := qx_scheduler_queue_kind_for_priority (e_priority e);
     q_queue_name := safe (e_queue_name e);
     q_agent_name := safe (e_agent_name e);
     q_identity_name := safe (e_identity_name e);
     q_namespace_policy_name := safe (e_namespace_policy_name e);
     q_priority := safe (e_priority e);
     q_principal_name := safe (e_principal_name e);
     q_provider_name := safe (e_provider_name e);
     q_provider_kind := safe (e_provider_kind e);
     q_principal_runtime := safe (e_principal_runtime e);
     q_runnable_count := 1; q_leased_count := 0; q_blocked_count := 0;
     q_retry_count := e_retry_count e;
     q_enqueued_at := now; q_eligible_at := now; q_updated_at := now |}.

Definition QxSchedulerQueueSnapshotFromEnvelope (now : TimestampTz)
    (envelope : option QxSchedulerTaskEnvelope) : option QxSchedulerQueueSnapshot :=
  option_map (queue_snapshot_of now) envelope.

Definition lease_token_of (e : QxSchedulerTaskEnvelope) : string :=
  cat ["lease:"; show_u (e_sessionoid e); ":"; show_u (e_taskoid e); ":";
       show_u (e_attemptoid e)].

Definition lease_snapshot_of (now : TimestampTz) (e : QxSchedulerTaskEnvelope)
    (workeroid : Oid) (worker_name : cstr) : QxSchedulerLeaseSnapshot :=
  {| l_leaseoid := InvalidOid; l_queueoid := InvalidOid;
     l_ownerid := e_ownerid e; l_workeroid := workeroid;
     l_sessionoid := e_sessionoid e; l_taskoid := e_taskoid e;
     l_attemptoid := e_attemptoid e; l_state := QX_SCHEDULER_LEASE_HELD;
     l_queue_name := safe (e_queue_name e); l_worker_name := safe worker_name;
     l_lease_token := Some (lease_token_of e);
     l_principal_name := safe (e_principal_name e);
     l_provider_name := safe (e_provider_name e);
     l_provider_kind := safe (e_provider_kind e);
     l_principal_runtime := safe (e_principal_runtime e);
     l_acquired_at := now; l_renewed_at := now;
     l_expires_at := int64 (now + e_lease_ttl_ms e * USECS_PER_MSEC);
     l_last_heartbeat_at := now; l_renewal_count := 0; l_needs_recovery := false |}.

Definition QxSchedulerLeaseSnapshotFromEnvelope (now : TimestampTz)
    (envelope : option QxSchedulerTaskEnvelope) (workeroid : Oid) (worker_name : cstr) :
    option QxSchedulerLeaseSnapshot :=
  option_map (fun e => lease_snapshot_of now e workeroid worker_name) envelope.

Definition renew_lease_of (now : TimestampTz) (lease : QxSchedulerLeaseSnapshot)
    (lease_ttl_ms : Z) : QxSchedulerLeaseSnapshot :=
  {| l_leaseoid := InvalidOid; l_queueoid := l_queueoid lease;
     l_ownerid := l_ownerid lease; l_workeroid := l_workeroid lease;
     l_sessionoid := l_sessionoid lease; l_taskoid := l_taskoid lease;
     l_attemptoid := l_attemptoid lease; l_state := QX_SCHEDULER_LEASE_HELD;
     l_queue_name := safe (l_queue_name lease);
     l_worker_name := safe (l_worker_name lease);
     l_lease_token := safe (l_lease_token lease);
     l_principal_name := safe (l_principal_name lease);
     l_provider_name := safe (l_provider_name lease);
     l_provider_kind := safe (l_provider_kind lease);
     l_principal_runtime := safe (l_principal_runtime lease);
     l_acquired_at := l_acquired_at lease; l_renewed_at := now;
     l_expires_at := int64 (now + lease_ttl_ms * USECS_PER_MSEC);
     l_last_heartbeat_at := now;
     l_renewal_count := int32 (l_renewal_count lease + 1);
     l_needs_recovery := false |}.

Definition QxSchedulerRenewLeaseSnapshot (now : TimestampTz)
    (lease : option QxSchedulerLeaseSnapshot) (lease_ttl_ms : Z) :
    option QxSchedulerLeaseSnapshot :=
  option_map (fun l => renew_lease_of now l lease_ttl_ms) lease.

Definition release_lease_of (now : TimestampTz) (lease : QxSchedulerLeaseSnapshot)
    (needs_recovery : bool) : QxSchedulerLeaseSnapshot :=
  {| l_leaseoid := InvalidOid; l_queueoid := l_queueoid lease;
     l_ownerid := l_ownerid lease; l_workeroid := l_workeroid lease;
     l_sessionoid := l_sessionoid lease; l_taskoid := l_taskoid lease;
     l_attemptoid := l_attemptoid lease;
     l_state := if needs_recovery then QX_SCHEDULER_LEASE_RECLAIMED
                else QX_SCHEDULER_LEASE_RELEASED;
     l_queue_name := safe (l_queue_name lease);
     l_worker_name := safe (l_worker_name lease);
     l_lease_token := safe (l_lease_token lease);
     l_principal_name := safe (l_principal_name lease);
     l_provider_name := safe (l_provider_name lease);
     l_provider_kind := safe (l_provider_kind lease);
     l_principal_runtime := safe (l_principal_runtime lease);
     l_acquired_at := l_acquired_at lease; l_renewed_at := now;
     l_expires_at := now; l_last_heartbeat_at := now;
     l_renewal_count := l_renewal_count lease;
     l_needs_recovery := needs_recovery |}.

Definition QxSchedulerReleaseLeaseSnapshot (now : TimestampTz)
    (lease : option QxSchedulerLeaseSnapshot) (needs_recovery : bool) :
    option QxSchedulerLeaseSnapshot :=
  option_map (fun l => release_lease_of now l needs_recovery) lease.

Definition qx_scheduler_heartbeat_deadline (lease : option QxSchedulerLeaseSnapshot) :
    TimestampTz :=
  match lease with
  | None => 0
  | Some l => int64 (l_renewed_at l + 3000 * USECS_PER_MSEC)
  end.

Definition heartbeat_of_lease (now : TimestampTz) (lease : QxSchedulerLeaseSnapshot) :
    QxSchedulerHeartbeatSnapshot :=
  {| h_heartbeatoid := InvalidOid; h_leaseoid := l_leaseoid lease;
     h_ownerid := l_ownerid lease; h_workeroid := l_workeroid lease;
     h_sessionoid := l_sessionoid lease; h_taskoid := l_taskoid lease;
     h_attemptoid := l_attemptoid lease;
     h_state := QX_SCHEDULER_HEARTBEAT_HEALTHY;
     h_worker_name := safe (l_worker_name lease);
     h_queue_name := safe (l_queue_name lease);
     h_principal_runtime := safe (l_principal_runtime lease);
     h_provider_kind := safe (l_provider_kind lease);
     h_receipt_mode := Some "scheduler-ledger"; h_lag_ms := 0;
     h_observed_at := now;
     h_expected_before := qx_scheduler_heartbeat_deadline (Some lease);
     h_stale := false |}.

Definition QxSchedulerHeartbeatSnapshotFromLease (now : TimestampTz)
    (lease : option QxSchedulerLeaseSnapshot) : option QxSchedulerHeartbeatSnapshot :=
  option_map (heartbeat_of_lease now) lease.

Definition set_heartbeat_final (h : QxSchedulerHeartbeatSnapshot) (leaseoid : Oid)
    (now : TimestampTz) (receipt_mode : cstr) : QxSchedulerHeartbeatSnapshot :=
  {| h_heartbeatoid := h_heartbeatoid h; h_leaseoid := leaseoid;
     h_ownerid := h_ownerid h; h_workeroid := h_workeroid h;
     h_sessionoid := h_sessionoid h; h_taskoid := h_taskoid h;
     h_attemptoid := h_attemptoid h; h_state := h_state h;
     h_worker_name := h_worker_name h; h_queue_name := h_queue_name h;
     h_principal_runtime := h_principal_runtime h;
     h_provider_kind := h_provider_kind h;
     h_receipt_mode := safe receipt_mode; h_lag_ms := h_lag_ms h;
     h_observed_at := now; h_expected_before := now; h_stale := false |}.

(** The clock is read twice: [now] here, [now'] in the snapshot it refines. *)
Definition finalize_heartbeat_of (now now' : TimestampTz) (lease : QxSchedulerLeaseSnapshot)
    (receipt_mode : cstr) : QxSchedulerHeartbeatSnapshot :=
  set_heartbeat_final (heartbeat_of_lease now' lease) (l_leaseoid lease) now receipt_mode.

Definition QxSchedulerFinalizeHeartbeatSnapshot (now now' : TimestampTz)
    (lease : option QxSchedulerLeaseSnapshot) (receipt_mode : cstr) :
    option QxSchedulerHeartbeatSnapshot :=
  option_map (fun l => finalize_heartbeat_of now now' l receipt_mode) lease.

(** ** Tests on snapshots *)

Definition QxSchedulerLeaseExpired (lease : option QxSchedulerLeaseSnapshot)
    (now : TimestampTz) : bool :=
  match lease with
  | None => false
  | Some l => bool_decide (l_state l = QX_SCHEDULER_LEASE_EXPIRED) || (l_expires_at l <? now)
  end.

Definition QxSchedulerHeartbeatStale (heartbeat : option QxSchedulerHeartbeatSnapshot)
    (now : TimestampTz) : bool :=
  match heartbeat with
  | None => false
  | Some h =>
      if bool_decide (h_state h = QX_SCHEDULER_HEARTBEAT_STALE) ||
         bool_decide (h_state h = QX_SCHEDULER_HEARTBEAT_MISSED)
      then true
      else h_expected_before h <? now
  end.

Definition QxSchedulerQueueRunnable (snapshot : option QxSchedulerQueueSnapshot) : bool :=
  match snapshot with
  | None => false
  | Some q =>
      (0 <? q_runnable_count q) && (q_blocked_count q =? 0) &&
      negb (bool_decide (q_queue_kind q = QX_SCHEDULER_QUEUE_MAINTENANCE))
  end.

Definition QxSchedulerLeaseNeedsReclaim (lease : option QxSchedulerLeaseSnapshot)
    (now : TimestampTz) : bool :=
  match lease with
  | None => false
  | Some l =>
      if bool_decide (l_state l = QX_SCHEDULER_LEASE_RELEASED) then false
      else QxSchedulerLeaseExpired lease now || l_needs_recovery l
  end.

Definition QxSchedulerHeartbeatNeedsAttention
    (heartbeat : option QxSchedulerHeartbeatSnapshot) (now : TimestampTz) : bool :=
  QxSchedulerHeartbeatStale heartbeat now.

(** ** The in-memory ledger and its printed form *)

Record QxSchedulerLedger := MkLedger {
  ledger_queue_snapshots : list QxSchedulerQueueSnapshot;
  ledger_lease_snapshots : list QxSchedulerLeaseSnapshot;
  ledger_heartbeat_snapshots : list QxSchedulerHeartbeatSnapshot
}.

Definition QxSchedulerLedgerInit : QxSchedulerLedger := MkLedger [] [] [].

Definition QxSchedulerLedgerAddQueue (ledger : QxSchedulerLedger)
    (snapshot : option QxSchedulerQueueSnapshot) : QxSchedulerLedger :=
  match snapshot with
  | None => ledger
  | Some q => MkLedger (ledger_queue_snapshots ledger ++ [q])
                (ledger_lease_snapshots ledger) (ledger_heartbeat_snapshots ledger)
  end.

Definition QxSchedulerLedgerAddLease (ledger : QxSchedulerLedger)
    (snapshot : option QxSchedulerLeaseSnapshot) : QxSchedulerLedger :=
  match snapshot with
  | None => ledger
  | Some l => MkLedger (ledger_queue_snapshots ledger)
                (ledger_lease_snapshots ledger ++ [l]) (ledger_heartbeat_snapshots ledger)
  end.

Definition QxSchedulerLedgerAddHeartbeat (ledger : QxSchedulerLedger)
    (snapshot : option QxSchedulerHeartbeatSnapshot) : QxSchedulerLedger :=
  match snapshot with
  | None => ledger
  | Some h => MkLedger (ledger_queue_snapshots ledger)
                (ledger_lease_snapshots ledger) (ledger_heartbeat_snapshots ledger ++ [h])
  end.

Definition show_latest (label : string) (name : option cstr) : string :=
  match name with
  | None => ""
  | Some n => cat [label; qx_scheduler_safe_text n; ")"]
  end.

Definition QxSchedulerLedgerDescribe (ledger : option QxSchedulerLedger) : string :=
  match ledger with
  | None => "SchedulerLedger <null>"
  | Some g => cat
      ["SchedulerLedger queues="; show_d (Z.of_nat (List.length (ledger_queue_snapshots g)));
       " leases="; show_d (Z.of_nat (List.length (ledger_lease_snapshots g)));
       " heartbeats="; show_d (Z.of_nat (List.length (ledger_heartbeat_snapshots g)));
       show_latest " latest_queue=(" (q_queue_name <$> last (ledger_queue_snapshots g));
       show_latest " latest_lease=(" (l_worker_name <$> last (ledger_lease_snapshots g));
       show_latest " latest_heartbeat=("
         (h_worker_name <$> last (ledger_heartbeat_snapshots g))]
  end.

Definition flag (b : bool) (text : string) : string := if b then text else "".

Definition QxSchedulerDescribeTaskEnvelope (envelope : option QxSchedulerTaskEnvelope) : string :=
  match envelope with
  | None => "SchedulerEnvelope <null>"
  | Some e => cat
      ["SchedulerEnvelope task="; qx_scheduler_safe_text (e_task_name e);
       " session="; show_u (e_sessionoid e); " agent="; show_u (e_agentoid e);
       " identity="; show_u (e_identityoid e);
       " policy="; show_u (e_namespace_policy_oid e);
       " queue="; qx_scheduler_safe_text (e_queue_name e);
       " priority="; qx_scheduler_safe_text (e_priority e);
       " runtime="; qx_scheduler_safe_text (e_principal_runtime e);
       " provider="; qx_scheduler_safe_text (e_provider_name e);
       "/"; qx_scheduler_safe_text (e_provider_kind e);
       " budget="; show_d (e_budget_tokens e); ":"; show_d (e_budget_cost e);
       " estimated="; show_d (e_estimated_tokens e); ":"; show_d (e_estimated_cost e);
       " retry="; show_d (e_retry_count e); "/"; show_d (e_max_retries e);
       " heartbeat_ms="; show_d (e_heartbeat_interval_ms e);
       " lease_ttl_ms="; show_d (e_lease_ttl_ms e);
       flag (e_resumable e) " resumable"; flag (e_checkpointable e) " checkpointable";
       flag (e_urgent e) " urgent"; flag (e_requires_heartbeat e) " heartbeat"]
  end.

Definition QxSchedulerDescribeQueueSnapshot (snapshot : option QxSchedulerQueueSnapshot) : string :=
  match snapshot with
  | None => "QueueSnapshot <null>"
  | Some q => cat
      ["QueueSnapshot queue="; qx_scheduler_safe_text (q_queue_name q);
       " kind="; show_d (queue_kind_code (q_queue_kind q));
       " task="; show_u (q_taskoid q); " session="; show_u (q_sessionoid q);
       " runnable="; show_d (q_runnable_count q); " leased="; show_d (q_leased_count q);
       " blocked="; show_d (q_blocked_count q); " retry="; show_d (q_retry_count q);
       " runtime="; qx_scheduler_safe_text (q_principal_runtime q);
       " provider="; qx_scheduler_safe_text (q_provider_name q);
       "/"; qx_scheduler_safe_text (q_provider_kind q);
       " eligible_at="; show_d (q_eligible_at q);
       " updated_at="; show_d (q_updated_at q)]
  end.

Definition QxSchedulerDescribeLeaseSnapshot (snapshot : option QxSchedulerLeaseSnapshot) : string :=
  match snapshot with
  | None => "LeaseSnapshot <null>"
  | Some l => cat
      ["LeaseSnapshot lease="; show_u (l_leaseoid l);
       " queue="; qx_scheduler_safe_text (l_queue_name l);
       " worker="; qx_scheduler_safe_text (l_worker_name l);
       " task="; show_u (l_taskoid l); " state="; show_d (lease_state_code (l_state l));
       " runtime="; qx_scheduler_safe_text (l_principal_runtime l);
       " provider="; qx_scheduler_safe_text (l_provider_name l);
       "/"; qx_scheduler_safe_text (l_provider_kind l);
       " renewals="; show_d (l_renewal_count l);
       " recovery="; show_bool (l_needs_recovery l);
       " expires_at="; show_d (l_expires_at l)]
  end.

Definition QxSchedulerDescribeHeartbeatSnapshot
    (snapshot : option QxSchedulerHeartbeatSnapshot) : string :=
  match snapshot with
  | None => "HeartbeatSnapshot <null>"
  | Some h => cat
      ["HeartbeatSnapshot heartbeat="; show_u (h_heartbeatoid h);
       " lease="; show_u (h_leaseoid h);
       " worker="; qx_scheduler_safe_text (h_worker_name h);
       " task="; show_u (h_taskoid h); " state="; show_d (heartbeat_state_code (h_state h));
       " lag_ms="; show_d (h_lag_ms h);
       " runtime="; qx_scheduler_safe_text (h_principal_runtime h);
       " provider_kind="; qx_scheduler_safe_text (h_provider_kind h);
       " receipt_mode="; qx_scheduler_safe_text (h_receipt_mode h);
       " stale="; show_bool (h_stale h);
       " observed_at="; show_d (h_observed_at h)]
  end.

(** ** Theorems *)

(** *** Priorities *)

Lemma strcase_subst p q lit :
  pg_strcaseeq p q = true -> pg_strcaseeq p lit = pg_strcaseeq q lit.
Proof.
  intros H. apply eq_true_iff_eq. split; intros E.
  - apply (pg_strcaseeq_trans q p lit); [rewrite pg_strcaseeq_sym|]; done.
  - apply (pg_strcaseeq_trans p q lit); done.
Qed.

Lemma strcase_empty p q :
  pg_strcaseeq p q = true -> String.eqb p "" = String.eqb q "".
Proof. destruct p, q; simpl; done. Qed.

Lemma priority_weight_case p q :
  pg_strcaseeq p q = true ->
  qx_scheduler_priority_weight_internal (Some p) =
  qx_scheduler_priority_weight_internal (Some q).
Proof.
  intros H. unfold qx_scheduler_priority_weight_internal.
  rewrite (strcase_empty _ _ H), !(strcase_subst _ _ _ H). done.
Qed.

Lemma priority_weight_range priority :
  10 <= qx_scheduler_priority_weight_internal priority <= 100.
Proof. unfold qx_scheduler_priority_weight_internal. repeat case_match; lia. Qed.

Lemma heartbeat_interval_range priority :
  1500 <= heartbeat_interval_for_priority priority <= 8000.
Proof. unfold heartbeat_interval_for_priority. repeat case_match; lia. Qed.

Lemma default_interval_range envelope :
  1500 <= QxSchedulerDefaultHeartbeatIntervalMs envelope <= 8000.
Proof. destruct envelope; simpl; [apply heartbeat_interval_range|lia]. Qed.

Lemma default_ttl_eq envelope :
  QxSchedulerDefaultLeaseTtlMs envelope = 3 * QxSchedulerDefaultHeartbeatIntervalMs envelope.
Proof.
  unfold QxSchedulerDefaultLeaseTtlMs. pose proof (default_interval_range envelope).
  rewrite int32_small; [lia|]. unfold in_int32. lia.
Qed.

#[export] Hint Resolve heartbeat_interval_range default_interval_range priority_weight_range : qx.

(** *** Leases *)

(** A timestamp that leaves room for any lease time the scheduler hands out. *)
Definition ts_ok (now : TimestampTz) : Prop := - 2 ^ 62 <= now < 2 ^ 62.

Lemma expires_small now ttl :
  ts_ok now -> in_int32 ttl -> int64 (now + ttl * USECS_PER_MSEC) = now + ttl * 1000.
Proof.
  unfold ts_ok, in_int32, USECS_PER_MSEC. intros. apply int64_small. unfold in_int64. lia.
Qed.

(** A held lease, however obtained, is reclaimed exactly after its expiry. *)
Lemma held_needs_reclaim l t :
  l_state l = QX_SCHEDULER_LEASE_HELD -> l_needs_recovery l = false ->
  QxSchedulerLeaseNeedsReclaim (Some l) t = (l_expires_at l <? t).
Proof.
  intros Hs Hr. unfold QxSchedulerLeaseNeedsReclaim, QxSchedulerLeaseExpired.
  rewrite Hs, Hr. simpl. rewrite orb_false_r. done.
Qed.

(** The life of one lease: handed out, renewed, and at last given back. *)
Inductive lease_step : QxSchedulerLeaseSnapshot -> QxSchedulerLeaseSnapshot -> Prop :=
  | step_renew l now ttl :
      l_state l = QX_SCHEDULER_LEASE_HELD ->
      lease_step l (renew_lease_of now l ttl)
  | step_release l now needs_recovery :
      l_state l = QX_SCHEDULER_LEASE_HELD ->
      lease_step l (release_lease_of now l needs_recovery).

Inductive lease_reachable (e : QxSchedulerTaskEnvelope) (worker : cstr) :
    QxSchedulerLeaseSnapshot -> Prop :=
  | reach_issue now workeroid :
      lease_reachable e worker (lease_snapshot_of now e workeroid worker)
  | reach_step l l' :
      lease_reachable e worker l -> lease_step l l' -> lease_reachable e worker l'.

(** The state and the recovery flag of a snapshot agree, and the snapshot
    still names the task, the attempt and the token it was handed out for. *)
Definition lease_wf (e : QxSchedulerTaskEnvelope) (l : QxSchedulerLeaseSnapshot) : Prop :=
  (l_state l = QX_SCHEDULER_LEASE_HELD \/
   l_state l = QX_SCHEDULER_LEASE_RELEASED \/
   l_state l = QX_SCHEDULER_LEASE_RECLAIMED) /\
  (l_needs_recovery l = true <-> l_state l = QX_SCHEDULER_LEASE_RECLAIMED) /\
  l_sessionoid l = e_sessionoid e /\ l_taskoid l = e_taskoid e /\
  l_attemptoid l = e_attemptoid e /\ l_ownerid l = e_ownerid e /\
  l_lease_token l = Some (lease_token_of e).

Lemma safe_token e : safe (Some (lease_token_of e)) = Some (lease_token_of e).
Proof. done. Qed.

Lemma lease_step_wf e l l' : lease_wf e l -> lease_step l l' -> lease_wf e l'.
Proof.
  intros (Hs & Hr & H1 & H2 & H3 & H4 & H5) Hstep.
  destruct Hstep as [l now ttl Hh|l now nr Hh]; repeat split; simpl;
    rewrite ?H5, ?safe_token; auto; try done; destruct nr; naive_solver.
Qed.

Lemma lease_reachable_wf e worker l : lease_reachable e worker l -> lease_wf e l.
Proof.
  induction 1 as [now w|l l' _ IH Hs]; [|eauto using lease_step_wf].
  repeat split; simpl; auto; try done.
Qed.

(** A lease given back is final: nothing steps from it. *)
Lemma lease_released_final l l' :
  l_state l <> QX_SCHEDULER_LEASE_HELD -> lease_step l l' -> False.
Proof. intros H Hs. destruct Hs; done. Qed.

Lemma lease_token_of_inj e1 e2 :
  0 <= e_sessionoid e1 -> 0 <= e_sessionoid e2 -> 0 <= e_taskoid e1 ->
  0 <= e_taskoid e2 -> 0 <= e_attemptoid e1 -> 0 <= e_attemptoid e2 ->
  lease_token_of e1 = lease_token_of e2 ->
  e_sessionoid e1 = e_sessionoid e2 /\ e_taskoid e1 = e_taskoid e2 /\
  e_attemptoid e1 = e_attemptoid e2.
Proof.
  intros ?????? H. unfold lease_token_of, cat in H. simpl in H.
  rewrite !append_nil_r in H. injection H as H.
  apply sep_inj in H as [Hs H]; [|apply show_u_no_char; done..].
  apply sep_inj in H as [Ht H]; [|apply show_u_no_char; done..].
  apply show_u_inj in Hs, Ht, H; auto.
Qed.

(** Whatever sequence of renewals and releases a lease goes through, the
    scheduler reclaims it exactly when it should: while it is held, after its
    expiry time and not before; never once it has been released; always once
    it has been handed back for recovery.  No other state is reached. *)
Theorem lease_reclaimed_when_due e worker l t :
  lease_reachable e worker l ->
  QxSchedulerLeaseNeedsReclaim (Some l) t =
  match l_state l with
  | QX_SCHEDULER_LEASE_HELD => l_expires_at l <? t
  | QX_SCHEDULER_LEASE_RELEASED => false
  | _ => true
  end.
Proof.
  intros (Hs & Hr & _)%lease_reachable_wf.
  destruct (l_state l) eqn:E; try (exfalso; intuition congruence).
  - apply held_needs_reclaim; [done|].
    destruct (l_needs_recovery l); [discriminate (proj1 Hr eq_refl)|done].
  - unfold QxSchedulerLeaseNeedsReclaim. rewrite E. done.
  - unfold QxSchedulerLeaseNeedsReclaim. rewrite E, (proj2 Hr eq_refl), orb_true_r. done.
Qed.

Definition demo_envelope : QxSchedulerTaskEnvelope :=
  {| e_ownerid := 10; e_sessionoid := 16401; e_agentoid := 16390; e_identityoid := 16391;
     e_namespace_policy_oid := 16392; e_taskoid := 16410; e_attemptoid := 16411;
     e_queue_name := Some "default:normal:planner"; e_task_name := Some "ingest";
     e_agent_name := Some "planner"; e_identity_name := Some "planner";
     e_namespace_policy_name := Some "default"; e_principal_name := None;
     e_provider_name := None; e_provider_kind := None; e_principal_runtime := None;
     e_priority := Some "normal"; e_checkpoint_label := None; e_resume_label := None;
     e_resumable := true; e_checkpointable := true; e_urgent := false;
     e_requires_heartbeat := true; e_is_retry := false; e_budget_tokens := 0;
     e_budget_cost := 0; e_estimated_tokens := 40; e_estimated_cost := 71;
     e_retry_count := 0; e_max_retries := 3; e_heartbeat_interval_ms := 3000;
     e_lease_ttl_ms := 9000 |}.

Lemma lease_reclaimed_when_due_witness :
  QxSchedulerLeaseNeedsReclaim
    (Some (release_lease_of 5 (renew_lease_of 3 (lease_snapshot_of 1 demo_envelope 7 None) 9000) true))
    4 = true.
Proof.
  apply (lease_reclaimed_when_due demo_envelope None).
  eapply reach_step; [eapply reach_step; [apply reach_issue|]|].
  - apply step_renew. reflexivity.
  - apply step_release. reflexivity.
Defined.

(** A lease handed out or renewed at time [now] for [ttl] milliseconds is
    valid through [now + ttl] and reclaimable from the next microsecond on:
    the 64-bit expiry does not overflow for any 32-bit lease time. *)
Lemma lease_validity_window now ttl e workeroid worker l t :
  ts_ok now -> in_int32 ttl -> e_lease_ttl_ms e = ttl ->
  QxSchedulerLeaseNeedsReclaim (Some (lease_snapshot_of now e workeroid worker)) t =
    (now + ttl * 1000 <? t) /\
  QxSchedulerLeaseNeedsReclaim (Some (renew_lease_of now l ttl)) t =
    (now + ttl * 1000 <? t).
Proof.
  intros Hn Ht He. rewrite !held_needs_reclaim by done. simpl.
  rewrite He, expires_small by done. done.
Qed.

(** The token of a lease identifies the session, the task and the attempt
    it was handed out for, through any renewals and releases. *)
Lemma lease_token_identifies_attempt e1 w1 l1 e2 w2 l2 :
  lease_reachable e1 w1 l1 -> lease_reachable e2 w2 l2 ->
  0 <= l_sessionoid l1 -> 0 <= l_sessionoid l2 -> 0 <= l_taskoid l1 ->
  0 <= l_taskoid l2 -> 0 <= l_attemptoid l1 -> 0 <= l_attemptoid l2 ->
  l_lease_token l1 = l_lease_token l2 ->
  l_sessionoid l1 = l_sessionoid l2 /\ l_taskoid l1 = l_taskoid l2 /\
  l_attemptoid l1 = l_attemptoid l2.
Proof.
  intros (_ & _ & S1 & T1 & A1 & _ & K1)%lease_reachable_wf.
  intros (_ & _ & S2 & T2 & A2 & _ & K2)%lease_reachable_wf.
  rewrite S1, S2, T1, T2, A1, A2, K1, K2. intros ?????? E.
  apply lease_token_of_inj; first [done | congruence].
Qed.

(** A lease outlives three heartbeat intervals whatever the priority, and
    priorities are read without regard to case: the weight, the queue kind and
    the interval are those of any other spelling of the same name. *)
Lemma priority_case_insensitive p q :
  pg_strcaseeq p q = true ->
  QxSchedulerPriorityWeight (Some p) = QxSchedulerPriorityWeight (Some q) /\
  qx_scheduler_queue_kind_for_priority (Some p) = qx_scheduler_queue_kind_for_priority (Some q) /\
  forall e e', e_priority e = Some p -> e_priority e' = Some q ->
    QxSchedulerDefaultLeaseTtlMs (Some e) = 3 * QxSchedulerDefaultHeartbeatIntervalMs (Some e').
Proof.
  intros H. unfold QxSchedulerPriorityWeight, qx_scheduler_queue_kind_for_priority.
  rewrite (priority_weight_case _ _ H). repeat split.
  intros e e' He He'. rewrite default_ttl_eq. simpl.
  unfold heartbeat_interval_for_priority. rewrite He, He', (priority_weight_case _ _ H). done.
Qed.

(** The heartbeat's deadline is three seconds after the renewal whatever the
    heartbeat interval is, so a worker of a low or idle task that reports
    exactly on its interval is already stale. *)
Theorem low_priority_heartbeat_stale_before_interval now e workeroid worker :
  ts_ok now -> e_priority e = Some "low" ->
  QxSchedulerHeartbeatStale
    (Some (heartbeat_of_lease now (lease_snapshot_of now e workeroid worker)))
    (now + QxSchedulerDefaultHeartbeatIntervalMs (Some e) * USECS_PER_MSEC) = true.
Proof.
  intros Hn Hp. unfold QxSchedulerHeartbeatStale. simpl. rewrite Hp.
  change (heartbeat_interval_for_priority (Some "low")) with 5000.
  unfold USECS_PER_MSEC, ts_ok in *. rewrite int64_small by (unfold in_int64; lia).
  apply Z.ltb_lt. lia.
Qed.
