(* ===== verification/Stat.v ===== *)
(** * Shared statistics and backend leases

    [src/src/backend/qx/observe/qx_stat.c] and
    [src/src/backend/qx/runtime/qx_backend_supervisor.c]: a fixed table of
    counter slots and a fixed table of backend leases in shared memory, both
    searched linearly under one spinlock.  Each function below is one critical
    section, so the shared state is passed explicitly.  The theorems relate
    the slot table to a finite map from keys to counters. *)

From Stdlib Require Import Ascii String.
From S2P Require Import Prelude Text Types.
Open Scope string_scope.
Open Scope Z_scope.
Open Scope bool_scope.

Definition QX_STAT_RUNTIME_CLASS_LEN : nat := 64.
Definition QX_STAT_BACKEND_INSTANCE_ID_LEN : nat := 128.
Definition QX_STAT_BACKEND_LEASE_SLOT_COUNT : nat := 256.
Definition QX_STAT_SLOT_COUNT : nat := 512.

Inductive QxStatKind :=
  | QX_STAT_PROVIDER
  | QX_STAT_PRINCIPAL
  | QX_STAT_RUNTIME_CLASS
  | QX_STAT_SCHEDULER_ACTIVITY
  | QX_STAT_RECOVERY
  | QX_STAT_BACKEND_SUPERVISOR.

#[export] Instance stat_kind_eq_dec : EqDecision QxStatKind.
Proof. solve_decision. Defined.

Record QxStatCounters := MkCounters {
  submit_count : Z;
  resume_count : Z;
  checkpoint_count : Z;
  verified_receipts : Z;
  rejected_receipts : Z;
  renew_count : Z;
  reclaim_count : Z;
  release_count : Z;
  retry_dispatch_count : Z;
  dead_letter_count : Z;
  recovery_startup_scans : Z;
  recovery_failover_rebuilds : Z;
  recovery_tasks_requeued : Z;
  recovery_attempts_fenced : Z;
  recovery_tasks_requeue_suppressed : Z;
  recovery_attempts_fence_suppressed : Z;
  backend_supervisor_register_count : Z;
  backend_supervisor_release_count : Z;
  backend_supervisor_fence_count : Z
}.

Definition zero_counters : QxStatCounters :=
  MkCounters 0 0 0 0 0 0 0 0 0 0 0 0 0 0 0 0 0 0 0.

Inductive stat_field :=
  | F_submit | F_resume | F_checkpoint | F_verified | F_rejected | F_renew
  | F_reclaim | F_release | F_retry_dispatch | F_dead_letter | F_startup_scans
  | F_failover_rebuilds | F_tasks_requeued | F_attempts_fenced
  | F_requeue_suppressed | F_fence_suppressed | F_sup_register
  | F_sup_release | F_sup_fence.

#[export] Instance stat_field_eq_dec : EqDecision stat_field.
Proof. solve_decision. Defined.

(** [counters->f += n]; the counters are [int64]. *)
Definition bump (f : stat_field) (n : Z) (c : QxStatCounters) : QxStatCounters :=
  let add g x := if decide (f = g) then int64 (x + n) else x in
  {| submit_count := add F_submit (submit_count c);
     resume_count := add F_resume (resume_count c);
     checkpoint_count := add F_checkpoint (checkpoint_count c);
     verified_receipts := add F_verified (verified_receipts c);
     rejected_receipts := add F_rejected (rejected_receipts c);
     renew_count := add F_renew (renew_count c);
     reclaim_count := add F_reclaim (reclaim_count c);
     release_count := add F_release (release_count c);
     retry_dispatch_count := add F_retry_dispatch (retry_dispatch_count c);
     dead_letter_count := add F_dead_letter (dead_letter_count c);
     recovery_startup_scans := add F_startup_scans (recovery_startup_scans c);
     recovery_failover_rebuilds := add F_failover_rebuilds (recovery_failover_rebuilds c);
     recovery_tasks_requeued := add F_tasks_requeued (recovery_tasks_requeued c);
     recovery_attempts_fenced := add F_attempts_fenced (recovery_attempts_fenced c);
     recovery_tasks_requeue_suppressed :=
       add F_requeue_suppressed (recovery_tasks_requeue_suppressed c);
     recovery_attempts_fence_suppressed :=
       add F_fence_suppressed (recovery_attempts_fence_suppressed c);
     backend_supervisor_register_count :=
       add F_sup_register (backend_supervisor_register_count c);
     backend_supervisor_release_count :=
       add F_sup_release (backend_supervisor_release_count c);
     backend_supervisor_fence_count :=
       add F_sup_fence (backend_supervisor_fence_count c) |}.

Record QxStatSlot := MkSlot {
  slot_in_use : bool;
  slot_dboid : Oid;
  slot_kind : QxStatKind;
  slot_entity_oid : Oid;
  slot_runtime_class : string;
  slot_counters : QxStatCounters
}.

(** A slot after [MemSet] to zero; kind 0 is [QX_STAT_PROVIDER]. *)
Definition zero_slot : QxStatSlot := MkSlot false 0 QX_STAT_PROVIDER 0 "" zero_counters.

Record QxStatBackendLeaseSnapshot := MkBackendLease {
  bl_dboid : Oid;
  bl_taskoid : Oid;
  bl_kind : Z;
  bl_instance_id : string
}.

Definition zero_lease : QxStatBackendLeaseSnapshot := MkBackendLease 0 0 0 "".

Record QxStatSharedState := MkStatState {
  st_slots : list QxStatSlot;
  st_backend_leases : list QxStatBackendLeaseSnapshot
}.

Definition QxStatShmemInit : QxStatSharedState :=
  MkStatState (replicate QX_STAT_SLOT_COUNT zero_slot)
              (replicate QX_STAT_BACKEND_LEASE_SLOT_COUNT zero_lease).

Definition set_slots (l : list QxStatSlot) (s : QxStatSharedState) : QxStatSharedState :=
  MkStatState l (st_backend_leases s).
Definition set_leases (l : list QxStatBackendLeaseSnapshot) (s : QxStatSharedState) :
    QxStatSharedState :=
  MkStatState (st_slots s) l.

(** [strlcpy] into a buffer of [size] bytes. *)
Fixpoint str_take (n : nat) (s : string) : string :=
  match n, s with
  | S n', String c t => String c (str_take n' t)
  | _, _ => EmptyString
  end.

Definition strlcpy (size : nat) (s : string) : string := str_take (size - 1) s.

(** ** The slot table *)

Record stat_key := MkKey {
  key_dboid : Oid;
  key_kind : QxStatKind;
  key_entity : Oid;
  key_class : string
}.

#[export] Instance stat_key_eq_dec : EqDecision stat_key.
Proof. solve_decision. Defined.

(** The arguments of a report; a NULL runtime class is the empty string. *)
Definition mk_key (dboid : Oid) (kind : QxStatKind) (entity : Oid) (runtime_class : cstr) :
    stat_key :=
  MkKey dboid kind entity (cstr_or runtime_class "").

Definition qx_stat_slot_matches (slot : QxStatSlot) (k : stat_key) : bool :=
  if negb (slot_in_use slot) then false
  else if negb (slot_dboid slot =? key_dboid k) || negb (bool_decide (slot_kind slot = key_kind k))
  then false
  else if negb (slot_entity_oid slot =? key_entity k) then false
  else String.eqb (slot_runtime_class slot) (key_class k).

(** One pass over the slots: the index of the first match, or the index of the
    first free slot seen. *)
Fixpoint scan_slots (k : stat_key) (create : bool) (slots : list QxStatSlot) (i : nat)
    (free_slot : option nat) : nat + option nat :=
  match slots with
  | [] => inr free_slot
  | slot :: rest =>
      if qx_stat_slot_matches slot k then inl i
      else
        let free_slot' :=
          if create && negb (slot_in_use slot) && bool_decide (free_slot = None)
          then Some i else free_slot in
        scan_slots k create rest (S i) free_slot'
  end.

Definition fresh_slot (k : stat_key) : QxStatSlot :=
  MkSlot true (key_dboid k) (key_kind k) (key_entity k)
         (strlcpy QX_STAT_RUNTIME_CLASS_LEN (key_class k)) zero_counters.

Definition set_slot_counters (c : QxStatCounters) (slot : QxStatSlot) : QxStatSlot :=
  MkSlot (slot_in_use slot) (slot_dboid slot) (slot_kind slot) (slot_entity_oid slot)
         (slot_runtime_class slot) c.

(** Read-only lookup: [qx_stat_lookup_entry] with [create] false. *)
Definition qx_stat_lookup_entry (k : stat_key) (slots : list QxStatSlot) :
    option QxStatCounters :=
  match scan_slots k false slots 0 None with
  | inl i => slot_counters <$> slots !! i
  | inr _ => None
  end.

(** When the table is full a warning is raised and nothing is counted. *)
Definition qx_stat_with_entry (k : stat_key) (create : bool)
    (mutate : QxStatCounters -> QxStatCounters) (slots : list QxStatSlot) : list QxStatSlot :=
  match scan_slots k create slots 0 None with
  | inl i => alter (fun s => set_slot_counters (mutate (slot_counters s)) s) i slots
  | inr (Some i) =>
      if create then <[i := set_slot_counters (mutate zero_counters) (fresh_slot k)]> slots
      else slots
  | inr None => slots
  end.

(** ** Reports *)

Definition with_slots (f : list QxStatSlot -> list QxStatSlot) (s : QxStatSharedState) :
    QxStatSharedState := set_slots (f (st_slots s)) s.

Definition qx_stat_mutate_provider (resume receipt_verified : bool) (c : QxStatCounters) :
    QxStatCounters :=
  bump (if receipt_verified then F_verified else F_rejected) 1
    (bump (if resume then F_resume else F_submit) 1 c).

Definition QxStatReportProviderExecution (track : bool) (dboid provideroid : Oid)
    (resume receipt_verified : bool) (s : QxStatSharedState) : QxStatSharedState :=
  if negb track || negb (OidIsValid provideroid) then s
  else with_slots (qx_stat_with_entry (mk_key dboid QX_STAT_PROVIDER provideroid None) true
                     (qx_stat_mutate_provider resume receipt_verified)) s.

Definition qx_stat_mutate_principal (resume checkpointed receipt_verified : bool)
    (c : QxStatCounters) : QxStatCounters :=
  let c := bump (if resume then F_resume else F_submit) 1 c in
  let c := if checkpointed then bump F_checkpoint 1 c else c in
  if receipt_verified then bump F_verified 1 c else c.

Definition QxStatReportPrincipalExecution (track : bool) (dboid principaloid : Oid)
    (resume checkpointed receipt_verified : bool) (s : QxStatSharedState) : QxStatSharedState :=
  if negb track || negb (OidIsValid principaloid) then s
  else with_slots (qx_stat_with_entry (mk_key dboid QX_STAT_PRINCIPAL principaloid None) true
                     (qx_stat_mutate_principal resume checkpointed receipt_verified)) s.

Definition qx_stat_mutate_runtime_class (resume checkpointed receipt_verified : bool)
    (c : QxStatCounters) : QxStatCounters :=
  let c := bump (if resume then F_resume else F_submit) 1 c in
  let c := if checkpointed then bump F_checkpoint 1 c else c in
  if receipt_verified then bump F_verified 1 c else c.

Definition QxStatReportRuntimeClassExecution (track : bool) (dboid : Oid) (runtime_class : cstr)
    (resume checkpointed receipt_verified : bool) (s : QxStatSharedState) : QxStatSharedState :=
  if negb track then s
  else if is_blank runtime_class then s
  else with_slots (qx_stat_with_entry
                     (mk_key dboid QX_STAT_RUNTIME_CLASS InvalidOid runtime_class) true
                     (qx_stat_mutate_runtime_class resume checkpointed receipt_verified)) s.

Definition qx_stat_mutate_scheduler (event_name : string) (c : QxStatCounters) : QxStatCounters :=
  if String.eqb event_name "renew" then bump F_renew 1 c
  else if String.eqb event_name "reclaim" then bump F_reclaim 1 c
  else if String.eqb event_name "release" then bump F_release 1 c
  else if String.eqb event_name "retry_dispatch" then bump F_retry_dispatch 1 c
  else if String.eqb event_name "dead_letter" then bump F_dead_letter 1 c
  else c.

Definition QxStatReportSchedulerEvent (track : bool) (dboid : Oid) (event_name : cstr)
    (s : QxStatSharedState) : QxStatSharedState :=
  if negb track then s
  else if is_blank event_name then s
  else with_slots (qx_stat_with_entry
                     (mk_key dboid QX_STAT_SCHEDULER_ACTIVITY InvalidOid event_name) true
                     (qx_stat_mutate_scheduler (cstr_or event_name ""))) s.

Definition qx_stat_mutate_recovery (failover_rebuild : bool) (report : option QxRecoveryReport)
    (c : QxStatCounters) : QxStatCounters :=
  let c := bump (if failover_rebuild then F_failover_rebuilds else F_startup_scans) 1 c in
  match report with
  | None => c
  | Some r =>
      bump F_fence_suppressed (r_attempts_fence_suppressed r)
        (bump F_requeue_suppressed (r_tasks_requeue_suppressed r)
          (bump F_attempts_fenced (r_attempts_fenced r)
            (bump F_tasks_requeued (r_tasks_requeued r) c)))
  end.

Definition QxStatReportRecoveryScan (track : bool) (dboid : Oid)
    (report : option QxRecoveryReport) (failover_rebuild : bool) (s : QxStatSharedState) :
    QxStatSharedState :=
  if negb track then s
  else with_slots (qx_stat_with_entry (mk_key dboid QX_STAT_RECOVERY InvalidOid None) true
                     (qx_stat_mutate_recovery failover_rebuild report)) s.

Definition qx_stat_mutate_backend_supervisor (event_name : string) (c : QxStatCounters) :
    QxStatCounters :=
  if String.eqb event_name "register" then bump F_sup_register 1 c
  else if String.eqb event_name "release" then bump F_sup_release 1 c
  else if String.eqb event_name "fence" then bump F_sup_fence 1 c
  else c.

Definition QxStatReportBackendSupervisorEvent (track : bool) (dboid : Oid) (event_name : cstr)
    (s : QxStatSharedState) : QxStatSharedState :=
  if negb track then s
  else if is_blank event_name then s
  else with_slots (qx_stat_with_entry
                     (mk_key dboid QX_STAT_BACKEND_SUPERVISOR InvalidOid None) true
                     (qx_stat_mutate_backend_supervisor (cstr_or event_name ""))) s.

(** ** Resets and totals *)

Definition qx_stat_reset_kind_locked (kind : QxStatKind) (slots : list QxStatSlot) :
    list QxStatSlot :=
  (fun slot =>
     if negb (slot_in_use slot) || negb (bool_decide (slot_kind slot = kind)) then slot
     else set_slot_counters zero_counters slot) <$> slots.

Definition QxStatResetAll (s : QxStatSharedState) : QxStatSharedState :=
  set_slots (replicate QX_STAT_SLOT_COUNT zero_slot) s.

Definition QxStatReset (kind : QxStatKind) (s : QxStatSharedState) : QxStatSharedState :=
  with_slots (qx_stat_reset_kind_locked kind) s.

(** [pg_qx_stat_reset]: [None] for a scope that raises an error; a NULL
    argument means everything. *)
Definition pg_qx_stat_reset (scope : cstr) (s : QxStatSharedState) : option QxStatSharedState :=
  let scope := cstr_or scope "all" in
  if pg_strcaseeq scope "all" then Some (QxStatResetAll s)
  else if pg_strcaseeq scope "provider" then Some (QxStatReset QX_STAT_PROVIDER s)
  else if pg_strcaseeq scope "principal" then Some (QxStatReset QX_STAT_PRINCIPAL s)
  else if pg_strcaseeq scope "runtime_class" then Some (QxStatReset QX_STAT_RUNTIME_CLASS s)
  else if pg_strcaseeq scope "scheduler" || pg_strcaseeq scope "scheduler_activity"
  then Some (QxStatReset QX_STAT_SCHEDULER_ACTIVITY s)
  else if pg_strcaseeq scope "recovery" then Some (QxStatReset QX_STAT_RECOVERY s)
  else if pg_strcaseeq scope "backend_supervisor" || pg_strcaseeq scope "supervisor"
  then Some (QxStatReset QX_STAT_BACKEND_SUPERVISOR s)
  else None.

Definition add_scheduler_counters (totals c : QxStatCounters) : QxStatCounters :=
  bump F_dead_letter (dead_letter_count c)
    (bump F_retry_dispatch (retry_dispatch_count c)
      (bump F_release (release_count c)
        (bump F_reclaim (reclaim_count c)
          (bump F_renew (renew_count c) totals)))).

Definition qx_stat_aggregate_scheduler_locked (dboid : Oid) (slots : list QxStatSlot) :
    QxStatCounters :=
  fold_left (fun totals slot =>
    if negb (slot_in_use slot) ||
       negb (bool_decide (slot_kind slot = QX_STAT_SCHEDULER_ACTIVITY)) ||
       negb (slot_dboid slot =? dboid)
    then totals else add_scheduler_counters totals (slot_counters slot)) slots zero_counters.

(** ** Backend leases *)

Inductive lease_register_result :=
  | LeaseTooLong                              (* ERRCODE_NAME_TOO_LONG *)
  | LeaseRegistered (inserted : bool) (leases : list QxStatBackendLeaseSnapshot).

Definition lease_same (dboid taskoid : Oid) (instance_id : string)
    (slot : QxStatBackendLeaseSnapshot) : bool :=
  (bl_dboid slot =? dboid) && (bl_taskoid slot =? taskoid) &&
  String.eqb (bl_instance_id slot) instance_id.

Definition set_lease_kind (kind : Z) (l : QxStatBackendLeaseSnapshot) :
    QxStatBackendLeaseSnapshot :=
  MkBackendLease (bl_dboid l) (bl_taskoid l) kind (bl_instance_id l).

(** The loop of the registration: the index of the lease already held, or the
    index of the first free entry. *)
Fixpoint scan_leases (dboid taskoid : Oid) (instance_id : string)
    (leases : list QxStatBackendLeaseSnapshot) (i : nat) (free_slot : option nat) :
    nat + option nat :=
  match leases with
  | [] => inr free_slot
  | slot :: rest =>
      if negb (OidIsValid (bl_dboid slot)) then
        scan_leases dboid taskoid instance_id rest (S i)
          (if bool_decide (free_slot = None) then Some i else free_slot)
      else if lease_same dboid taskoid instance_id slot then inl i
      else scan_leases dboid taskoid instance_id rest (S i) free_slot
  end.

Definition QxStatBackendLeaseRegister (dboid taskoid : Oid) (instance_id : cstr) (kind : Z)
    (leases : list QxStatBackendLeaseSnapshot) : lease_register_result :=
  if negb (OidIsValid dboid) || negb (OidIsValid taskoid) || is_blank instance_id
  then LeaseRegistered false leases
  else
    let id := cstr_or instance_id "" in
    if (QX_STAT_BACKEND_INSTANCE_ID_LEN <=? String.length id)%nat then LeaseTooLong
    else match scan_leases dboid taskoid id leases 0 None with
    | inl i => LeaseRegistered false (alter (set_lease_kind kind) i leases)
    | inr (Some i) =>
        LeaseRegistered true
          (<[i := MkBackendLease dboid taskoid kind
                    (strlcpy QX_STAT_BACKEND_INSTANCE_ID_LEN id)]> leases)
    | inr None => LeaseRegistered false leases
    end.

Fixpoint release_first (dboid taskoid : Oid) (instance_id : cstr)
    (leases : list QxStatBackendLeaseSnapshot) : bool * list QxStatBackendLeaseSnapshot :=
  match leases with
  | [] => (false, [])
  | slot :: rest =>
      let continue_ :=
        let '(found, rest') := release_first dboid taskoid instance_id rest in
        (found, slot :: rest') in
      if negb (bl_dboid slot =? dboid) || negb (bl_taskoid slot =? taskoid) then continue_
      else if negb (is_blank instance_id) &&
              negb (String.eqb (bl_instance_id slot) (cstr_or instance_id ""))
      then continue_
      else (true, zero_lease :: rest)
  end.

Definition QxStatBackendLeaseRelease (dboid taskoid : Oid) (instance_id : cstr)
    (leases : list QxStatBackendLeaseSnapshot) : bool * list QxStatBackendLeaseSnapshot :=
  if negb (OidIsValid dboid) || negb (OidIsValid taskoid) then (false, leases)
  else release_first dboid taskoid instance_id leases.

Definition lease_of_task (dboid taskoid : Oid) (slot : QxStatBackendLeaseSnapshot) : bool :=
  (bl_dboid slot =? dboid) && (bl_taskoid slot =? taskoid).

Definition QxStatBackendLeaseFence (dboid taskoid : Oid)
    (leases : list QxStatBackendLeaseSnapshot) : Z * list QxStatBackendLeaseSnapshot :=
  if negb (OidIsValid dboid) || negb (OidIsValid taskoid) then (0, leases)
  else (Z.of_nat (List.length (filter (fun l => lease_of_task dboid taskoid l = true) leases)),
        (fun l => if lease_of_task dboid taskoid l then zero_lease else l) <$> leases).

Definition lease_counted (dboid taskoid : Oid) (slot : QxStatBackendLeaseSnapshot) : bool :=
  (bl_dboid slot =? dboid) && (negb (OidIsValid taskoid) || (bl_taskoid slot =? taskoid)).

Definition QxStatBackendLeaseCount (dboid taskoid : Oid)
    (leases : list QxStatBackendLeaseSnapshot) : Z :=
  Z.of_nat (List.length (filter (fun l => lease_counted dboid taskoid l = true) leases)).

Definition QxStatBackendLeaseGetSnapshots (dboid : Oid) (max_snapshots : Z)
    (leases : list QxStatBackendLeaseSnapshot) : list QxStatBackendLeaseSnapshot :=
  if max_snapshots <=? 0 then []
  else take (Z.to_nat max_snapshots) (filter (fun l => bl_dboid l = dboid) leases).

(** ** The supervisor over them *)

Inductive QxBackendLeaseKind :=
  | QX_BACKEND_LEASE_CONTAINER | QX_BACKEND_LEASE_MICROVM | QX_BACKEND_LEASE_HOST.

Definition backend_lease_kind_code (k : QxBackendLeaseKind) : Z :=
  match k with
  | QX_BACKEND_LEASE_CONTAINER => 0
  | QX_BACKEND_LEASE_MICROVM => 1
  | QX_BACKEND_LEASE_HOST => 2
  end.

Definition QxBackendSupervisorLeaseKindName (kind : Z) : string :=
  if kind =? backend_lease_kind_code QX_BACKEND_LEASE_CONTAINER then "container"
  else if kind =? backend_lease_kind_code QX_BACKEND_LEASE_MICROVM then "microvm"
  else if kind =? backend_lease_kind_code QX_BACKEND_LEASE_HOST then "host"
  else "unknown".

(** [None] is the error raised for a name that is none of the three. *)
Definition QxBackendSupervisorLeaseKindFromName (name : cstr) : option QxBackendLeaseKind :=
  match name with
  | None => Some QX_BACKEND_LEASE_HOST
  | Some n =>
      if pg_strcaseeq n "container" then Some QX_BACKEND_LEASE_CONTAINER
      else if pg_strcaseeq n "microvm" then Some QX_BACKEND_LEASE_MICROVM
      else if pg_strcaseeq n "host" then Some QX_BACKEND_LEASE_HOST
      else None
  end.

(** [None] is the error raised for an over-long identifier. *)
Definition qx_backend_supervisor_register (track : bool) (dboid taskoid : Oid)
    (instance_id : cstr) (kind : QxBackendLeaseKind) (s : QxStatSharedState) :
    option QxStatSharedState :=
  if negb (OidIsValid taskoid) || is_blank instance_id then Some s
  else match QxStatBackendLeaseRegister dboid taskoid instance_id
               (backend_lease_kind_code kind) (st_backend_leases s) with
  | LeaseTooLong => None
  | LeaseRegistered inserted leases =>
      let s := set_leases leases s in
      Some (if inserted
            then QxStatReportBackendSupervisorEvent track dboid (Some "register") s else s)
  end.

Definition qx_backend_supervisor_release (track : bool) (dboid taskoid : Oid)
    (instance_id : cstr) (s : QxStatSharedState) : QxStatSharedState :=
  let '(released, leases) :=
    QxStatBackendLeaseRelease dboid taskoid instance_id (st_backend_leases s) in
  let s := set_leases leases s in
  if released then QxStatReportBackendSupervisorEvent track dboid (Some "release") s else s.

Definition qx_backend_supervisor_fence_stale (track : bool) (dboid taskoid : Oid)
    (s : QxStatSharedState) : QxStatSharedState :=
  let '(removed, leases) := QxStatBackendLeaseFence dboid taskoid (st_backend_leases s) in
  let s := set_leases leases s in
  if 0 <? removed then QxStatReportBackendSupervisorEvent track dboid (Some "fence") s else s.

Definition qx_backend_supervisor_count_for_task (dboid taskoid : Oid) (s : QxStatSharedState) : Z :=
  QxStatBackendLeaseCount dboid taskoid (st_backend_leases s).

Definition qx_backend_supervisor_active_count (dboid : Oid) (s : QxStatSharedState) : Z :=
  QxStatBackendLeaseCount dboid InvalidOid (st_backend_leases s).

(** Task, identifier and kind of each lease of the database, as
    [QxBackendSupervisorBuildLeaseSnapshots] lists them. *)
Definition QxBackendSupervisorBuildLeaseSnapshots (dboid : Oid) (s : QxStatSharedState) :
    list (Oid * string * Z) :=
  (fun l => (bl_taskoid l, bl_instance_id l, bl_kind l)) <$>
    QxStatBackendLeaseGetSnapshots dboid (Z.of_nat QX_STAT_BACKEND_LEASE_SLOT_COUNT)
      (st_backend_leases s).

(** ** The slot table as a map from keys to counters *)

Definition slot_key (s : QxStatSlot) : stat_key :=
  MkKey (slot_dboid s) (slot_kind s) (slot_entity_oid s) (slot_runtime_class s).

Lemma slot_matches_spec s k :
  qx_stat_slot_matches s k = true <-> slot_in_use s = true /\ slot_key s = k.
Proof.
  unfold qx_stat_slot_matches, slot_key. destruct k as [d kd en rc], s as [u sd sk se sr c]; simpl.
  destruct u; simpl; [|naive_solver].
  destruct (sd =? d) eqn:E1; simpl; breflect; [|naive_solver].
  case_bool_decide as E2; simpl; [|naive_solver].
  destruct (se =? en) eqn:E3; simpl; breflect; [|naive_solver].
  rewrite String.eqb_eq. naive_solver.
Qed.

(** The two facts a scan of the table establishes. *)
Definition scan_post (k : stat_key) (slots : list QxStatSlot) (base : nat)
    (r : nat + option nat) : Prop :=
  match r with
  | inl i => exists j s, i = (base + j)%nat /\ slots !! j = Some s /\
               qx_stat_slot_matches s k = true /\
               forall j' s', (j' < j)%nat -> slots !! j' = Some s' ->
                 qx_stat_slot_matches s' k = false
  | inr free => forall s, s ∈ slots -> qx_stat_slot_matches s k = false
  end.

Lemma scan_slots_post k create slots base free :
  scan_post k slots base (scan_slots k create slots base free).
Proof.
  revert base free. induction slots as [|s rest IH]; intros base free; simpl.
  { intros s Hs. inversion Hs. }
  destruct (qx_stat_slot_matches s k) eqn:E.
  - exists 0%nat, s. repeat split; auto with lia.
  - specialize (IH (S base) (if create && negb (slot_in_use s) && bool_decide (free = None)
                             then Some base else free)).
    destruct (scan_slots k create rest (S base) _) as [i|f]; simpl in *.
    + destruct IH as (j & s' & -> & Hj & Hm & Hlt). exists (S j), s'.
      repeat split; auto with lia. intros [|j'] s'' Hj' Hl; simpl in *; simplify_eq; auto.
      eapply Hlt; [|done]. lia.
    + intros s' Hs'. apply elem_of_cons in Hs' as [->|]; auto.
Qed.

Lemma scan_slots_keep k create slots base i :
  match scan_slots k create slots base (Some i) with
  | inr f => f = Some i
  | inl _ => True
  end.
Proof.
  revert base. induction slots as [|s rest IH]; intros b; simpl; [done|].
  destruct (qx_stat_slot_matches s k); [done|]. rewrite andb_false_r. apply IH.
Qed.

(** The free slot a creating scan reports is an unused one, if there is any. *)
Lemma scan_slots_free k slots base :
  match scan_slots k true slots base None with
  | inr (Some i) => exists j s, i = (base + j)%nat /\ slots !! j = Some s /\ slot_in_use s = false
  | inr None => forall s, s ∈ slots -> slot_in_use s = true
  | inl _ => True
  end.
Proof.
  revert base. induction slots as [|s rest IH]; intros base; simpl.
  { intros s Hs. inversion Hs. }
  destruct (qx_stat_slot_matches s k) eqn:E; [done|].
  destruct (slot_in_use s) eqn:U; simpl.
  - specialize (IH (S base)). destruct (scan_slots k true rest (S base) None) as [?|[i|]]; auto.
    + destruct IH as (j & s' & -> & ? & ?). exists (S j), s'. auto with lia.
    + intros s' Hs'. apply elem_of_cons in Hs' as [->|]; auto.
  - pose proof (scan_slots_keep k true rest (S base) base) as Hkeep.
    destruct (scan_slots k true rest (S base) (Some base)) as [?|f]; [done|]. subst f.
    exists 0%nat, s. auto with lia.
Qed.

(** Each key has at most one slot in use. *)
Definition slots_wf (slots : list QxStatSlot) : Prop :=
  forall i j si sj, slots !! i = Some si -> slots !! j = Some sj ->
    slot_in_use si = true -> slot_in_use sj = true -> slot_key si = slot_key sj -> i = j.

Definition slot_at (slots : list QxStatSlot) (k : stat_key) (c : QxStatCounters) : Prop :=
  exists i s, slots !! i = Some s /\ slot_in_use s = true /\ slot_key s = k /\
    slot_counters s = c.

Lemma lookup_entry_iff slots k c :
  slots_wf slots -> qx_stat_lookup_entry k slots = Some c <-> slot_at slots k c.
Proof.
  intros Hwf. unfold qx_stat_lookup_entry.
  pose proof (scan_slots_post k false slots 0 None) as H.
  destruct (scan_slots k false slots 0 None) as [i|f]; simpl in H.
  - destruct H as (j & s & -> & Hj & Hm & _). apply slot_matches_spec in Hm as [Hu Hk].
    simpl. rewrite Hj. simpl. split.
    + intros [= <-]. exists j, s. auto.
    + intros (i & s' & Hi & Hu' & Hk' & <-). assert (i = j) as -> by (eapply Hwf; eauto; congruence).
      congruence.
  - split; [done|]. intros (i & s & Hi & Hu & Hk & _).
    specialize (H s ltac:(eapply list_elem_of_lookup_2; eauto)).
    apply not_true_iff_false in H. exfalso. apply H, slot_matches_spec. done.
Qed.

(** Writing a slot for [k] over the slot [k] had, or over an unused slot when
    [k] had none, changes the map at [k] only. *)
Lemma write_slot slots i s0 s' k :
  slots_wf slots -> slots !! i = Some s0 -> slot_in_use s' = true -> slot_key s' = k ->
  ((slot_in_use s0 = true /\ slot_key s0 = k) \/
   (slot_in_use s0 = false /\ forall s, s ∈ slots -> qx_stat_slot_matches s k = false)) ->
  slots_wf (<[i := s']> slots) /\
  forall k', qx_stat_lookup_entry k' (<[i := s']> slots) =
    if decide (k' = k) then Some (slot_counters s') else qx_stat_lookup_entry k' slots.
Proof.
  intros Hwf Hi Hu Hk Hold.
  assert (i < List.length slots)%nat as Hlt by (eapply lookup_lt_Some; eauto).
  assert (forall j s, j <> i -> slots !! j = Some s -> slot_in_use s = true -> slot_key s <> k)
    as Hother.
  { intros j s Hne Hj Hs Hks. destruct Hold as [[Hu0 Hk0]|[_ Hno]].
    - apply Hne. eapply Hwf; eauto. congruence.
    - apply list_elem_of_lookup_2, Hno, not_true_iff_false in Hj.
      apply Hj, slot_matches_spec. done. }
  assert (slots_wf (<[i := s']> slots)) as Hwf'.
  { intros a b sa sb Ha Hb Hua Hub Hab.
    rewrite !list_lookup_insert in Ha, Hb.
    case_decide as Db; case_decide as Da; [| | |by eapply Hwf].
    - destruct Da as [<- _], Db as [<- _]. done.
    - destruct Db as [<- _]. injection Hb as <-. destruct (Hother a sa); [|done..|congruence].
      intros ->. apply Da. done.
    - destruct Da as [<- _]. injection Ha as <-. destruct (Hother b sb); [|done..|congruence].
      intros ->. apply Db. done. }
  split; [done|]. intros k'. apply option_eq. intros c.
  rewrite lookup_entry_iff by done. case_decide as Dk; [subst k'|rewrite lookup_entry_iff by done].
  - split.
    + intros (j & s & Hj & Hus & Hks & <-). rewrite list_lookup_insert in Hj.
      case_decide as Dj; [by injection Hj as <-|].
      destruct (Hother j s); [|done..]. intros ->. by apply Dj.
    + intros [= <-]. exists i, s'. rewrite list_lookup_insert_eq by done. auto.
  - split; intros (j & s & Hj & Hus & Hks & <-); exists j, s.
    + rewrite list_lookup_insert in Hj. case_decide as Dj; [|done].
      injection Hj as <-. congruence.
    + rewrite list_lookup_insert_ne; [auto|]. intros <-. simplify_eq.
      destruct Hold as [[_ ?]|[? _]]; congruence.
Qed.

Lemma str_take_id n s : (String.length s <= n)%nat -> str_take n s = s.
Proof.
  revert s. induction n as [|n IH]; intros [|c s]; simpl; intros; try done; [lia|].
  f_equal. apply IH. lia.
Qed.

Lemma str_take_length n s : (String.length (str_take n s) <= n)%nat.
Proof. revert s. induction n as [|n IH]; intros [|c s]; simpl; try lia. specialize (IH s). lia. Qed.

Lemma strlcpy_id size s : (String.length s < size)%nat -> strlcpy size s = s.
Proof. intros. apply str_take_id. lia. Qed.

Lemma strlcpy_length size s : (0 < size)%nat -> (String.length (strlcpy size s) < size)%nat.
Proof. intros. unfold strlcpy. pose proof (str_take_length (size - 1) s). lia. Qed.

Lemma alter_insert {A} (f : A -> A) i (l : list A) x :
  l !! i = Some x -> alter f i l = <[i := f x]> l.
Proof.
  revert i. induction l as [|y l IH]; intros [|i] H; simpl in *; simplify_eq; try done.
  f_equal. apply IH. done.
Qed.

(** C27. Below the table's capacity the slot table is a map from keys to
    counters: a report updates the counters of its own key, starting from zero
    for a key seen for the first time, leaves every other key as it was, and
    keeps one slot per key.  Runtime class names must be shorter than the
    64-byte slot field. *)
Theorem stat_report_refines_map slots k mutate :
  slots_wf slots ->
  (String.length (key_class k) < QX_STAT_RUNTIME_CLASS_LEN)%nat ->
  (exists s, s ∈ slots /\ (qx_stat_slot_matches s k = true \/ slot_in_use s = false)) ->
  slots_wf (qx_stat_with_entry k true mutate slots) /\
  List.length (qx_stat_with_entry k true mutate slots) = List.length slots /\
  forall k', qx_stat_lookup_entry k' (qx_stat_with_entry k true mutate slots) =
    if decide (k' = k)
    then Some (mutate (default zero_counters (qx_stat_lookup_entry k slots)))
    else qx_stat_lookup_entry k' slots.
Proof.
  intros Hwf Hlen (s0 & Hin & Hroom). unfold qx_stat_with_entry.
  pose proof (scan_slots_post k true slots 0 None) as Hpost.
  pose proof (scan_slots_free k slots 0) as Hfree.
  destruct (scan_slots k true slots 0 None) as [i|[i|]]; simpl in Hpost, Hfree.
  - destruct Hpost as (j & s & -> & Hj & [Hu Hk]%slot_matches_spec & _). simpl.
    rewrite (alter_insert _ _ _ _ Hj), length_insert.
    destruct (write_slot slots j s (set_slot_counters (mutate (slot_counters s)) s) k)
      as [Hw Hl]; auto. repeat split; [done|]. intros k'. rewrite Hl. simpl.
    rewrite (proj2 (lookup_entry_iff slots k (slot_counters s) Hwf)) by (exists j, s; auto). done.
  - destruct Hfree as (j & s & -> & Hj & Hu). rewrite length_insert. simpl.
    destruct (write_slot slots j s (set_slot_counters (mutate zero_counters) (fresh_slot k)) k)
      as [Hw Hl]; auto.
    { unfold slot_key, fresh_slot. simpl. rewrite strlcpy_id by done. destruct k; done. }
    repeat split; [done|]. intros k'. rewrite Hl. simpl.
    destruct (qx_stat_lookup_entry k slots) as [c|] eqn:E; [|done].
    apply lookup_entry_iff in E as (a & sa & Ha & Hua & Hka & _); [|done].
    exfalso. apply list_elem_of_lookup_2, Hpost, not_true_iff_false in Ha.
    apply Ha, slot_matches_spec. done.
  - exfalso. destruct Hroom as [Hm|Hu]; [rewrite Hpost in Hm|rewrite Hfree in Hu]; done.
Qed.

Definition key_host : stat_key := mk_key 5 QX_STAT_RUNTIME_CLASS InvalidOid (Some "host").

Lemma stat_report_refines_map_witness :
  qx_stat_lookup_entry key_host
    (qx_stat_with_entry key_host true (bump F_submit 1) (replicate QX_STAT_SLOT_COUNT zero_slot)) =
  Some (bump F_submit 1 zero_counters).
Proof.
  refine (eq_trans (proj2 (proj2 (stat_report_refines_map
    (replicate QX_STAT_SLOT_COUNT zero_slot) key_host (bump F_submit 1) _ _ _)) key_host) _).
  - intros i j si sj Hi Hj Hu. apply lookup_replicate in Hi as [-> _]. discriminate.
  - vm_compute. lia.
  - exists zero_slot. split; [apply elem_of_replicate; vm_compute; split; [reflexivity|lia]|].
    right. reflexivity.
  - vm_compute. reflexivity.
Defined.

(** Slots hold truncated class names. *)
Definition classes_short (slots : list QxStatSlot) : Prop :=
  forall s, s ∈ slots -> (String.length (slot_runtime_class s) < QX_STAT_RUNTIME_CLASS_LEN)%nat.

Lemma with_entry_classes_short k create mutate slots :
  classes_short slots -> classes_short (qx_stat_with_entry k create mutate slots).
Proof.
  intros H. unfold qx_stat_with_entry.
  destruct (scan_slots k create slots 0 None) as [i|[i|]]; [|destruct create; [|done]|done].
  - intros s [j Hj]%list_elem_of_lookup. rewrite list_lookup_alter in Hj.
    case_decide; [|by apply H, list_elem_of_lookup; eauto].
    apply fmap_Some in Hj as (s0 & Hs0 & ->). simpl. apply H, list_elem_of_lookup. eauto.
  - intros s [j Hj]%list_elem_of_lookup. rewrite list_lookup_insert in Hj.
    case_decide; [|by apply H, list_elem_of_lookup; eauto].
    injection Hj as <-. simpl. apply strlcpy_length. unfold QX_STAT_RUNTIME_CLASS_LEN. lia.
Qed.

(** A report for a runtime class of 64 bytes or more is never found again: the
    slot keeps the first 63 bytes and is compared with the whole name.  Every
    such report takes one more unused slot of the table. *)
Theorem long_runtime_class_report_lost slots k mutate :
  classes_short slots ->
  (QX_STAT_RUNTIME_CLASS_LEN <= String.length (key_class k))%nat ->
  qx_stat_lookup_entry k (qx_stat_with_entry k true mutate slots) = None /\
  forall i, scan_slots k true slots 0 None <> inl i.
Proof.
  intros Hs Hk.
  assert (forall l, classes_short l -> forall c i, scan_slots k c l 0 None <> inl i) as Hno.
  { intros l Hl c i E. pose proof (scan_slots_post k c l 0 None) as H. rewrite E in H.
    destruct H as (j & s & _ & Hj & [_ <-]%slot_matches_spec & _).
    apply list_elem_of_lookup_2, Hl in Hj. simpl in Hk. lia. }
  split; [|by apply Hno]. unfold qx_stat_lookup_entry.
  destruct (scan_slots k false _ 0 None) as [i|] eqn:E; [|done].
  exfalso. eapply Hno; [|exact E]. apply with_entry_classes_short. done.
Qed.

(** ** Backend leases *)

Lemma scan_leases_spec d t id leases base free :
  match scan_leases d t id leases base free with
  | inl i => exists j l, i = (base + j)%nat /\ leases !! j = Some l /\ lease_same d t id l = true
  | inr f => (forall l, l ∈ leases -> OidIsValid (bl_dboid l) = true -> lease_same d t id l = false) /\
             (free = None -> forall i, f = Some i -> exists j l, i = (base + j)%nat /\
                leases !! j = Some l /\ bl_dboid l = 0) /\
             (forall i, free = Some i -> f = Some i)
  end.
Proof.
  revert base free. induction leases as [|l rest IH]; intros base free; simpl.
  { repeat split; [|naive_solver..]. intros ? Hin; inversion Hin. }
  destruct (OidIsValid (bl_dboid l)) eqn:V; simpl.
  - destruct (lease_same d t id l) eqn:E; [exists 0%nat, l; auto with lia|].
    specialize (IH (S base) free). destruct (scan_leases d t id rest (S base) free) as [i|f].
    + destruct IH as (j & l' & -> & ? & ?). exists (S j), l'. auto with lia.
    + destruct IH as (H1 & H2 & H3). repeat split; [|intros Hf i Hi|done].
      * intros l' [->|Hin]%elem_of_cons; auto.
      * destruct (H2 Hf i Hi) as (j & l' & -> & ? & ?). exists (S j), l'. auto with lia.
  - specialize (IH (S base) (if bool_decide (free = None) then Some base else free)).
    destruct (scan_leases d t id rest (S base) _) as [i|f].
    + destruct IH as (j & l' & -> & ? & ?). exists (S j), l'. auto with lia.
    + destruct IH as (H1 & _ & H3). repeat split.
      * intros l' [->|Hin]%elem_of_cons; [congruence|auto].
      * intros -> i Hi. rewrite (H3 base eq_refl) in Hi. simplify_eq.
        apply OidIsValid_false in V. exists 0%nat, l. auto with lia.
      * intros i ->. apply H3. done.
Qed.

(** An entry without a database is all zero. *)
Definition leases_wf (leases : list QxStatBackendLeaseSnapshot) : Prop :=
  forall l, l ∈ leases -> bl_dboid l = 0 -> l = zero_lease.

Lemma release_first_at d t id leases j l :
  leases !! j = Some l -> d <> 0 ->
  lease_same d t id l = true -> id <> "" ->
  (forall i l', i <> j -> leases !! i = Some l' -> lease_same d t id l' = false) ->
  release_first d t (Some id) leases = (true, <[j := zero_lease]> leases).
Proof.
  intros Hj Hd Hsame Hid. revert j Hj. induction leases as [|l0 rest IH]; intros j Hj Hother; [done|].
  unfold lease_same in *. simpl.
  destruct j as [|j]; simpl in Hj.
  - simplify_eq. breflect. rewrite !(proj2 (Z.eqb_eq _ _)) by done.
    rewrite (proj2 (String.eqb_neq id "")) by done. simpl.
    rewrite (proj2 (String.eqb_eq _ _)) by done. done.
  - assert (lease_same d t id l0 = false) as H0 by (apply (Hother 0%nat); done).
    rewrite (IH j Hj) by (intros i l' Hi Hl; apply (Hother (S i)); [lia|done]).
    unfold lease_same in H0. rewrite (proj2 (String.eqb_neq id "")) by done.
    destruct (bl_dboid l0 =? d); simpl in *; [|done].
    destruct (bl_taskoid l0 =? t); simpl in *; [|done]. rewrite H0. done.
Qed.

(** Releasing a backend lease undoes its registration: when a registration
    is accepted, giving the same lease back succeeds and restores the table,
    so no entry is leaked. *)
Lemma lease_register_release d t id kind leases leases' :
  leases_wf leases ->
  QxStatBackendLeaseRegister d t (Some id) kind leases = LeaseRegistered true leases' ->
  QxStatBackendLeaseRelease d t (Some id) leases' = (true, leases).
Proof.
  intros Hwf Hreg. unfold QxStatBackendLeaseRegister, QxStatBackendLeaseRelease in *.
  destruct (OidIsValid d) eqn:Vd; [|discriminate].
  destruct (OidIsValid t) eqn:Vt; [|discriminate].
  cbn [negb orb is_blank cstr_or] in Hreg |- *. apply OidIsValid_true in Vd, Vt.
  destruct (String.eqb id "") eqn:Eid; [discriminate|]. apply String.eqb_neq in Eid.
  destruct (QX_STAT_BACKEND_INSTANCE_ID_LEN <=? String.length id)%nat eqn:Elen; [discriminate|].
  apply Nat.leb_gt in Elen. rewrite strlcpy_id in Hreg by done.
  pose proof (scan_leases_spec d t id leases 0 None) as Hscan.
  destruct (scan_leases d t id leases 0 None) as [i|[i|]]; try discriminate.
  injection Hreg as <-. destruct Hscan as (Hno & Hfree & _).
  destruct (Hfree eq_refl i eq_refl) as (j & l & -> & Hj & Hz). simpl in *.
  assert (l = zero_lease) as -> by (apply Hwf; [eapply list_elem_of_lookup_2; eauto|done]).
  assert (j < List.length leases)%nat as Hlt by (eapply lookup_lt_Some; eauto).
  rewrite (release_first_at d t id _ j (MkBackendLease d t kind id)); auto.
  - rewrite list_insert_insert_eq, list_insert_id by done. done.
  - rewrite list_lookup_insert_eq by done. done.
  - unfold lease_same. simpl. rewrite !Z.eqb_refl, String.eqb_refl. done.
  - intros i l' Hne Hi. rewrite list_lookup_insert_ne in Hi by done.
    apply list_elem_of_lookup_2 in Hi. destruct (OidIsValid (bl_dboid l')) eqn:V; [by apply Hno|].
    apply OidIsValid_false in V. unfold lease_same.
    rewrite (proj2 (Z.eqb_neq _ _)) by lia. done.
Qed.

Lemma lease_counted_task d t l : t <> 0 -> lease_counted d t l = lease_of_task d t l.
Proof.
  intros Ht. unfold lease_counted, lease_of_task.
  rewrite (proj2 (OidIsValid_true t)) by done. done.
Qed.

Lemma lease_of_task_inj d t d' t' l :
  lease_of_task d t l = true -> lease_of_task d' t' l = true -> d = d' /\ t = t'.
Proof. unfold lease_of_task. intros. breflect. split; congruence. Qed.

Lemma lease_of_task_zero d t : d <> 0 -> lease_of_task d t zero_lease = false.
Proof. intros. unfold lease_of_task. rewrite (proj2 (Z.eqb_neq _ _)); [done|]. exact (not_eq_sym H). Qed.

(** Fencing a task removes exactly its leases: the number returned is the
    number it held, it holds none afterwards, and the leases of every other
    task are still counted. *)
Lemma lease_fence_exact d t leases :
  d <> 0 -> t <> 0 ->
  let '(removed, leases') := QxStatBackendLeaseFence d t leases in
  removed = QxStatBackendLeaseCount d t leases /\
  QxStatBackendLeaseCount d t leases' = 0 /\
  forall d' t', d' <> 0 -> t' <> 0 -> (d', t') <> (d, t) ->
    QxStatBackendLeaseCount d' t' leases' = QxStatBackendLeaseCount d' t' leases.
Proof.
  intros Hd Ht. unfold QxStatBackendLeaseFence, QxStatBackendLeaseCount.
  rewrite (proj2 (OidIsValid_true d)), (proj2 (OidIsValid_true t)) by done. cbn [negb orb].
  assert (forall d' t' (l : list QxStatBackendLeaseSnapshot), t' <> 0 ->
    filter (fun l => lease_counted d' t' l = true) l =
    filter (fun l => lease_of_task d' t' l = true) l) as Hc.
  { intros d' t' l Ht'. apply list_filter_iff. intros. rewrite lease_counted_task; done. }
  rewrite !Hc by done. repeat split.
  - induction leases as [|l rest IH]; [done|]. rewrite fmap_cons, filter_cons.
    rewrite decide_False; [done|].
    destruct (lease_of_task d t l) eqn:E; [rewrite lease_of_task_zero by done|]; congruence.
  - intros d' t' Hd' Ht' Hne. rewrite !Hc by done. f_equal.
    induction leases as [|l rest IH]; [done|]. rewrite fmap_cons, !filter_cons.
    destruct (lease_of_task d t l) eqn:E.
    + rewrite decide_False by (rewrite lease_of_task_zero by done; congruence).
      rewrite decide_False; [done|]. intros E'.
      destruct (lease_of_task_inj _ _ _ _ _ E E'). congruence.
    + case_decide; simpl; congruence.
Qed.
