(* ===== verification/Observe.v ===== *)
(** * Reading and normalising trace details

    [src/src/backend/qx/observe/qx_observe.c].  A trace detail is a text of
    [key=value] pairs separated by [;].  The lookup walks the occurrences of
    [key=] and takes the first one at the start of a pair; the normalisation
    cuts text repeated by a tool's receipt.  The searches loop on positions in
    the text; here the loops have a fuel that the length of the text bounds,
    and the theorems show it is never exhausted. *)

From Stdlib Require Import Ascii String.
From S2P Require Import Prelude Text.
Open Scope string_scope.
Open Scope Z_scope.
Open Scope bool_scope.

(** ** Looking a key up *)

Definition newline : ascii := "010"%char.

(** [scan == contract], or the character before the match ends a pair. *)
Definition pair_start (before : option ascii) : bool :=
  match before with
  | None => true
  | Some c => Ascii.eqb c ";" || Ascii.eqb c newline || Ascii.eqb c " "
  end.

(** The text up to the first character [strpbrk] stops at. *)
Fixpoint upto_set (stop : ascii -> bool) (s : string) : string :=
  match s with
  | EmptyString => EmptyString
  | String c t => if stop c then EmptyString else String c (upto_set stop t)
  end.

Definition pair_end (c : ascii) : bool := Ascii.eqb c ";" || Ascii.eqb c newline.

(** The [while] loop: [scan] is the text still to search and [before] the
    character before it. *)
Fixpoint observe_scan (fuel : nat) (marker : string) (before : option ascii) (scan : string) : cstr :=
  match fuel with
  | O => None
  | S fuel' =>
      match strstr scan marker with
      | None => None
      | Some (pre, post) =>
          if pair_start (last_char before pre) then Some (upto_set pair_end post)
          else observe_scan fuel' marker (last_char (last_char before pre) marker) post
      end
  end.

Definition qx_observe_contract_value (contract marker : cstr) : cstr :=
  match contract, marker with
  | Some c, Some m =>
      if String.eqb m "" then None
      else observe_scan (S (String.length c)) m None c
  | _, _ => None
  end.

Definition QxObserveTraceDetailValue (trace_detail key : cstr) : cstr :=
  match trace_detail, key with
  | Some d, Some k =>
      if String.eqb k "" then None
      else qx_observe_contract_value (Some d) (Some (k +:+ "="))
  | _, _ => None
  end.

(** ** Building texts of pairs *)

Definition qx_observe_append_pair (buf : string) (key value : cstr) : string :=
  match key, value with
  | Some k, Some v => cat [if String.eqb buf "" then "" else buf +:+ ";"; k; "="; v]
  | _, _ => buf
  end.

Definition observe_summary_keys : list string :=
  ["record_kind"; "state"; "phase"; "tool"; "scheduler_queue"; "scheduler_runtime";
   "scheduler_provider"; "scheduler_provider_kind"; "scheduler_worker"; "scheduler_retry";
   "scheduler_checkpoint"; "scheduler_resume"; "scheduler_heartbeat_ms";
   "scheduler_lease_ttl_ms"; "principal"; "principal_runtime"; "provider"; "provider_kind";
   "provider_endpoint"; "effective_sandbox"; "profile"; "env"; "cwd"; "timeout_ms";
   "process_limit"; "receipt_schema"; "receipt_alg"; "receipt_nonce"; "receipt_sig";
   "attestation"; "launch_mode"; "restricted_identity"; "checkpoint"; "semantic_lsn";
   "wall_ms"; "tokens"; "cost"].

Definition QxObserveSummarizeTraceDetail (trace_name trace_detail : cstr) : string :=
  fold_left (fun buf key =>
      match QxObserveTraceDetailValue trace_detail (Some key) with
      | None => buf
      | Some value =>
          let summary_key := if String.eqb key "effective_sandbox" then "sandbox" else key in
          qx_observe_append_pair buf (Some summary_key) (Some value)
      end)
    observe_summary_keys
    (qx_observe_append_pair "" (Some "trace_name") (Some (cstr_or trace_name "<unknown>"))).

(** ** Normalising the detail of an external execution *)

(** The text before the second occurrence of [marker]. *)
Definition before_second (marker source : string) : cstr :=
  match strstr source marker with
  | None => None
  | Some (pre, post) =>
      match strstr post marker with
      | None => None
      | Some (mid, _) => Some (cat [pre; marker; mid])
      end
  end.

Definition qx_observe_strip_duplicate_receipt_tail_once (source : string) : cstr :=
  match before_second ";detail=" source with
  | Some s => Some s
  | None =>
      match before_second ";tokens=" source with
      | Some s => Some s
      | None => before_second ";launch_mode=" source
      end
  end.

Fixpoint strip_duplicate_loop (fuel : nat) (stripped : string) : string :=
  match fuel with
  | O => stripped
  | S fuel' =>
      match qx_observe_strip_duplicate_receipt_tail_once stripped with
      | None => stripped
      | Some next => strip_duplicate_loop fuel' next
      end
  end.

Definition qx_observe_strip_duplicate_receipt_tail (source : string) : string :=
  strip_duplicate_loop (String.length source) source.

Fixpoint take_digits (s : string) : string :=
  match s with
  | String c t => if is_digit c then String c (take_digits t) else EmptyString
  | EmptyString => EmptyString
  end.

Definition qx_observe_truncate_detail_after_wall_ms (source : string) : string :=
  match strstr source ";wall_ms=" with
  | None => source
  | Some (pre, post) => cat [pre; ";wall_ms="; take_digits post]
  end.

(** [strstr] positions are compared by the length of the text before them. *)
Definition QxObserveNormalizeExternalTraceDetail (source : string) : string :=
  let stripped := qx_observe_strip_duplicate_receipt_tail source in
  match strstr stripped ";detail=" with
  | None => stripped
  | Some (outer, inner_detail) =>
      let tokens_in_inner := fst <$> strstr inner_detail ";tokens=" in
      let detail_dup := fst <$> strstr inner_detail ";detail=" in
      let truncate_at :=
        match tokens_in_inner, detail_dup with
        | Some t, None => Some t
        | Some t, Some d => if (String.length t <? String.length d)%nat then Some t else Some d
        | None, d => d
        end in
      match truncate_at with
      | Some kept => cat [outer; ";detail="; kept]
      | None =>
          let clean_inner := qx_observe_truncate_detail_after_wall_ms inner_detail in
          if negb (String.eqb clean_inner inner_detail)
          then cat [outer; ";detail="; clean_inner]
          else stripped
      end
  end.

(** ** The lookup finds the first pair with the key *)

(** Reference: the first position at the start of a pair where [marker] is read. *)
Fixpoint first_pair (marker : string) (before : option ascii) (s : string) : cstr :=
  match (if pair_start before then strip_prefix marker s else None) with
  | Some post => Some (upto_set pair_end post)
  | None =>
      match s with
      | EmptyString => None
      | String c t => first_pair marker (Some c) t
      end
  end.

Lemma first_pair_none marker before s :
  strstr s marker = None -> first_pair marker before s = None.
Proof.
  revert before. induction s as [|c t IH]; intros before; rewrite strstr_unfold; simpl;
    destruct (strip_prefix marker _) eqn:E; try done.
  - destruct (pair_start before); done.
  - destruct (strstr t marker) as [[p q]|]; [done|]. intros _.
    destruct (pair_start before); apply IH; done.
Qed.

(** Inside an occurrence of [key=] no other one starts. *)
Lemma first_pair_walk k before w post :
  has_char "=" k = false -> has_char "=" w = false -> (String.length w < String.length k)%nat ->
  first_pair (k +:+ "=") before (w +:+ String "=" post) =
  first_pair (k +:+ "=") (last_char before (w +:+ "=")) post.
Proof.
  intros Hk. revert before. induction w as [|c w IH]; intros before Hw Hlen.
  - simpl. pose proof (strip_prefix_sep "=" k "" post Hk eq_refl) as Hp. simpl in Hp.
    rewrite Hp. destruct k; [simpl in Hlen; lia|]. simpl. destruct (pair_start before); done.
  - pose proof (strip_prefix_sep "=" k (String c w) post Hk Hw) as Hp.
    assert (k <> String c w) as Hne by (intros ->; simpl in Hlen; lia).
    apply String.eqb_neq in Hne. rewrite Hne in Hp. simpl in Hp |- *. rewrite Hp.
    simpl in Hw, Hlen. apply orb_false_iff in Hw as [_ Hw].
    destruct (pair_start before); rewrite IH by (done || lia); done.
Qed.

Lemma first_pair_some k before s pre post :
  k <> "" -> has_char "=" k = false ->
  strstr s (k +:+ "=") = Some (pre, post) ->
  first_pair (k +:+ "=") before s =
  if pair_start (last_char before pre) then Some (upto_set pair_end post)
  else first_pair (k +:+ "=") (last_char (last_char before pre) (k +:+ "=")) post.
Proof.
  intros Hne Hk. revert before pre. induction s as [|c t IH]; intros before pre; rewrite strstr_unfold.
  - destruct k; [done|]. simpl. done.
  - destruct (strip_prefix (k +:+ "=") (String c t)) as [r|] eqn:E.
    + intros [= <- <-]. simpl. simpl in E. rewrite E. destruct (pair_start before) eqn:P; [done|].
      change (first_pair (k +:+ "=") (Some c) t =
              first_pair (k +:+ "=") (last_char before (k +:+ "=")) r).
      apply strip_prefix_Some in E. destruct k as [|d k]; [done|]. simpl in E. injection E as -> ->.
      rewrite append_assoc. simpl in Hk. apply orb_false_iff in Hk as Hk2. destruct Hk2 as [_ Hk2].
      change ("=" +:+ r) with (String "=" r).
      rewrite (first_pair_walk (String d k)); [done| |done|simpl; lia].
      simpl. done.
    + destruct (strstr t (k +:+ "=")) as [[p q]|] eqn:E2; [|done].
      intros [= <- <-]. simpl. simpl in E. rewrite E.
      destruct (pair_start before); apply IH; done.
Qed.

Lemma observe_scan_first_pair k fuel before s :
  k <> "" -> has_char "=" k = false -> (String.length s < fuel)%nat ->
  observe_scan fuel (k +:+ "=") before s = first_pair (k +:+ "=") before s.
Proof.
  intros Hne Hk. revert before s. induction fuel as [|fuel IH]; intros before s Hlen; [lia|]. simpl.
  destruct (strstr s (k +:+ "=")) as [[pre post]|] eqn:E.
  - rewrite (first_pair_some k before s pre post) by done.
    destruct (pair_start (last_char before pre)); [done|]. apply IH.
    apply strstr_Some in E. subst s. rewrite !append_length in Hlen. simpl in Hlen. lia.
  - rewrite first_pair_none; done.
Qed.

(** The lookup loop of a trace detail returns the value of the first pair of the
    text with that key: it skips the key where it ends a longer key or lies
    inside a value, and never skips a pair. *)
Lemma first_pair_lookup detail k :
  k <> "" -> has_char "=" k = false ->
  QxObserveTraceDetailValue (Some detail) (Some k) = first_pair (k +:+ "=") None detail.
Proof.
  intros Hne Hk. unfold QxObserveTraceDetailValue, qx_observe_contract_value.
  rewrite (proj2 (String.eqb_neq k "")) by done.
  rewrite (proj2 (String.eqb_neq (k +:+ "=") "")) by (destruct k; done).
  apply observe_scan_first_pair; [done|done|lia].
Qed.

(** ** The normalisation terminates, cuts, and is stable *)

Definition is_prefix (p s : string) : Prop := exists r, s = p +:+ r.

Lemma is_prefix_refl s : is_prefix s s.
Proof. exists "". rewrite append_nil_r. done. Qed.

Lemma is_prefix_trans a b c : is_prefix a b -> is_prefix b c -> is_prefix a c.
Proof. intros [r ->] [r' ->]. exists (r +:+ r'). rewrite append_assoc. done. Qed.

Lemma is_prefix_app a b c : is_prefix b c -> is_prefix (a +:+ b) (a +:+ c).
Proof. intros [r ->]. exists r. rewrite append_assoc. done. Qed.

#[export] Hint Resolve is_prefix_refl is_prefix_app : qx.

(** A text without an occurrence has none in its prefixes. *)
Lemma strstr_None_prefix p s marker :
  is_prefix p s -> strstr s marker = None -> strstr p marker = None.
Proof.
  intros [r ->] H. apply strstr_None. intros pre post ->.
  eapply (proj1 (strstr_None _ _) H pre (post +:+ r)). rewrite !append_assoc. done.
Qed.

Lemma before_second_prefix m s p :
  before_second m s = Some p -> is_prefix p s.
Proof.
  unfold before_second. destruct (strstr s m) as [[pre post]|] eqn:E; [|done].
  destruct (strstr post m) as [[mid q]|] eqn:E2; [|done]. intros [= <-].
  apply strstr_Some in E as ->. apply strstr_Some in E2 as ->.
  exists (m +:+ q). unfold cat. simpl. rewrite append_nil_r, !append_assoc. done.
Qed.

Lemma before_second_length m s p :
  m <> "" -> before_second m s = Some p -> (String.length p < String.length s)%nat.
Proof.
  intros Hm. unfold before_second. destruct (strstr s m) as [[pre post]|] eqn:E; [|done].
  destruct (strstr post m) as [[mid q]|] eqn:E2; [|done]. intros [= <-].
  apply strstr_length in E, E2. unfold cat. simpl. rewrite !append_length. simpl.
  destruct m; [done|]. simpl in *. lia.
Qed.

Lemma before_second_None_prefix m p s :
  is_prefix p s -> before_second m s = None -> before_second m p = None.
Proof.
  intros [x ->]. unfold before_second.
  destruct (strstr p m) as [[pre post]|] eqn:E; [|done].
  rewrite (strstr_app_r _ _ x _ _ E).
  destruct (strstr post m) as [[mid q]|] eqn:E2; [|done].
  rewrite (strstr_app_r _ _ x _ _ E2). done.
Qed.

Lemma strip_once_prefix s p :
  qx_observe_strip_duplicate_receipt_tail_once s = Some p ->
  is_prefix p s /\ (String.length p < String.length s)%nat.
Proof.
  unfold qx_observe_strip_duplicate_receipt_tail_once. intros H.
  destruct (before_second ";detail=" s) eqn:E1; [simplify_eq|];
    [|destruct (before_second ";tokens=" s) eqn:E2; [simplify_eq|]];
    (split; [eauto using before_second_prefix|]); (eapply before_second_length; [|eauto]); done.
Qed.

Lemma strip_once_None_prefix p s :
  is_prefix p s -> qx_observe_strip_duplicate_receipt_tail_once s = None ->
  qx_observe_strip_duplicate_receipt_tail_once p = None.
Proof.
  unfold qx_observe_strip_duplicate_receipt_tail_once. intros Hp H.
  destruct (before_second ";detail=" s) eqn:E1; [done|].
  destruct (before_second ";tokens=" s) eqn:E2; [done|].
  rewrite !(before_second_None_prefix _ _ _ Hp); done.
Qed.

(** The fuel of the strip loop is enough, and the loop only cuts. *)
Lemma strip_loop_spec fuel s :
  (String.length s <= fuel)%nat ->
  is_prefix (strip_duplicate_loop fuel s) s /\
  qx_observe_strip_duplicate_receipt_tail_once (strip_duplicate_loop fuel s) = None.
Proof.
  revert s. induction fuel as [|fuel IH]; intros s Hl; simpl.
  - destruct s; simpl in *; [|lia]. eauto with qx.
  - destruct (qx_observe_strip_duplicate_receipt_tail_once s) as [p|] eqn:E; [|eauto with qx].
    apply strip_once_prefix in E as [Hp Hlp]. destruct (IH p ltac:(lia)) as [H1 H2].
    eauto using is_prefix_trans.
Qed.

Lemma take_digits_prefix s : is_prefix (take_digits s) s.
Proof.
  induction s as [|c s IH]; simpl; [eauto with qx|].
  destruct (is_digit c); [apply (is_prefix_app (String c "")); done|by exists (String c s)].
Qed.

Lemma truncate_wall_prefix s : is_prefix (qx_observe_truncate_detail_after_wall_ms s) s.
Proof.
  unfold qx_observe_truncate_detail_after_wall_ms.
  destruct (strstr s ";wall_ms=") as [[pre post]|] eqn:E; [|eauto with qx].
  apply strstr_Some in E as ->. unfold cat. simpl. rewrite append_nil_r.
  apply is_prefix_app, (is_prefix_app ";wall_ms="), take_digits_prefix.
Qed.

Lemma strstr_pre_prefix s m pre post : strstr s m = Some (pre, post) -> is_prefix pre s.
Proof. intros ->%strstr_Some. exists (m +:+ post). done. Qed.

(** Normalising a trace detail terminates within its fuel; the result is a
    prefix of the text, and none of the receipt markers ([;detail=],
    [;tokens=], [;launch_mode=]) occurs in it twice. *)
Lemma normalize_trace_detail_cuts source :
  is_prefix (QxObserveNormalizeExternalTraceDetail source) source /\
  qx_observe_strip_duplicate_receipt_tail_once
    (QxObserveNormalizeExternalTraceDetail source) = None.
Proof.
  unfold QxObserveNormalizeExternalTraceDetail, qx_observe_strip_duplicate_receipt_tail.
  destruct (strip_loop_spec (String.length source) source) as [Hp Hs]; [done|].
  set (t := strip_duplicate_loop _ source) in *.
  assert (forall p, is_prefix p t -> is_prefix p source /\
            qx_observe_strip_duplicate_receipt_tail_once p = None) as Hcut
    by eauto using is_prefix_trans, strip_once_None_prefix.
  destruct (strstr t ";detail=") as [[outer inner]|] eqn:E; [|eauto with qx].
  apply strstr_Some in E as Et.
  assert (forall p, is_prefix p inner -> is_prefix (cat [outer; ";detail="; p]) t) as Hin.
  { intros p H. unfold cat. simpl. rewrite append_nil_r, Et.
    apply is_prefix_app, (is_prefix_app ";detail="), H. }
  destruct (strstr inner ";tokens=") as [[tk tq]|] eqn:E1;
    destruct (strstr inner ";detail=") as [[dk dq]|] eqn:E2; simpl;
    try (destruct (_ <? _)%nat); try (apply Hcut, Hin; eauto using strstr_pre_prefix).
  case_match; [|eauto with qx]. apply Hcut, Hin, truncate_wall_prefix.
Qed.
