(* ===== verification/SemanticLog.v ===== *)
(** * The semantic log

    [src/src/backend/qx/replication/qx_semantic_log.c]: events, traces and
    checkpoints are written to the WAL as logical messages holding one flat
    JSON object each, with strings escaped by [escape_json]
    ([src/src/backend/utils/adt/json.c]).  The C code appends the fields to a
    buffer, each followed by a comma except the last; here a record is its list
    of fields, joined by commas.  The theorem is that a reader of flat JSON
    objects gets every field back. *)

From Stdlib Require Import Ascii String.
From S2P Require Import Prelude Text.
Open Scope string_scope.
Open Scope Z_scope.
Open Scope bool_scope.

Definition quote : ascii := "034"%char.
Definition backslash : ascii := "092"%char.

(** ** Writing *)

Definition hex_digit (n : N) : ascii :=
  if (n <? 10)%N then ascii_of_N (48 + n) else ascii_of_N (87 + n).

(** The text [escape_json] appends for one character. *)
Definition escape_char (c : ascii) : string :=
  let n := N_of_ascii c in
  if (n =? 8)%N then String backslash "b"
  else if (n =? 12)%N then String backslash "f"
  else if (n =? 10)%N then String backslash "n"
  else if (n =? 13)%N then String backslash "r"
  else if (n =? 9)%N then String backslash "t"
  else if Ascii.eqb c quote then String backslash (String quote "")
  else if Ascii.eqb c backslash then String backslash (String backslash "")
  else if (n <? 32)%N
  then String backslash ("u00" +:+ String (hex_digit (n / 16)) (String (hex_digit (n mod 16)) ""))
  else String c "".

Fixpoint escape_chars (s : string) : string :=
  match s with
  | EmptyString => EmptyString
  | String c t => escape_char c +:+ escape_chars t
  end.

Definition escape_json (s : string) : string :=
  String quote (escape_chars s +:+ String quote "").

Inductive json_value :=
  | JString (value : cstr)
  | JOid (value : Oid)
  | JChar (value : ascii)
  | JBool (value : bool)
  | JInt (value : Z).

Definition json_value_text (v : json_value) : string :=
  match v with
  | JString None => "null"
  | JString (Some s) => escape_json s
  | JOid o => show_u o
  | JChar c => String quote (String c (String quote ""))
  | JBool b => show_bool b
  | JInt z => show_d z
  end.

Definition json_field := (string * json_value)%type.

Definition json_field_text (f : json_field) : string :=
  String quote (fst f +:+ String quote (String ":" (json_value_text (snd f)))).

Fixpoint json_fields_text (fs : list json_field) : string :=
  match fs with
  | [] => ""
  | [f] => json_field_text f
  | f :: rest => json_field_text f +:+ String "," (json_fields_text rest)
  end.

Definition json_object_text (fs : list json_field) : string :=
  String "{" (json_fields_text fs +:+ "}").

Record QxSemanticExecutionMetadata := MkMetadata {
  sm_provider_name : cstr;
  sm_provider_kind : cstr;
  sm_provider_endpoint : cstr;
  sm_principal_name : cstr;
  sm_principal_runtime : cstr;
  sm_sandbox_name : cstr;
  sm_profile_name : cstr;
  sm_environment_mode : cstr;
  sm_workdir_name : cstr;
  sm_launch_mode : cstr;
  sm_receipt_schema : cstr;
  sm_receipt_alg : cstr;
  sm_receipt_nonce : cstr;
  sm_attestation_mode : cstr;
  sm_timeout_ms : Z;
  sm_process_limit : Z;
  sm_wall_time_ms : Z;
  sm_token_charge : Z;
  sm_cost_charge : Z;
  sm_path_present : bool;
  sm_restricted_identity : bool
}.

Definition qx_json_append_execution_metadata_fields
    (metadata : option QxSemanticExecutionMetadata) : list json_field :=
  match metadata with
  | None => []
  | Some m =>
      [("provider_name", JString (sm_provider_name m));
       ("provider_kind", JString (sm_provider_kind m));
       ("provider_endpoint", JString (sm_provider_endpoint m));
       ("principal_name", JString (sm_principal_name m));
       ("principal_runtime", JString (sm_principal_runtime m));
       ("sandbox_name", JString (sm_sandbox_name m));
       ("profile_name", JString (sm_profile_name m));
       ("environment_mode", JString (sm_environment_mode m));
       ("workdir_name", JString (sm_workdir_name m));
       ("launch_mode", JString (sm_launch_mode m));
       ("receipt_schema", JString (sm_receipt_schema m));
       ("receipt_alg", JString (sm_receipt_alg m));
       ("receipt_nonce", JString (sm_receipt_nonce m));
       ("attestation_mode", JString (sm_attestation_mode m));
       ("timeout_ms", JInt (sm_timeout_ms m));
       ("process_limit", JInt (sm_process_limit m));
       ("wall_time_ms", JInt (sm_wall_time_ms m));
       ("token_charge", JInt (sm_token_charge m));
       ("cost_charge", JInt (sm_cost_charge m));
       ("path_present", JBool (sm_path_present m));
       ("restricted_identity", JBool (sm_restricted_identity m))]
  end.

Definition QX_SEMANTIC_PREFIX : string := "qhapaqxian".

Definition schema_name (metadata : option QxSemanticExecutionMetadata) : string :=
  match metadata with Some _ => "stage31.semantic.v2" | None => "stage9.semantic.v1" end.

Definition semantic_event_fields (eventoid sessionoid taskoid stepoid ownerid : Oid)
    (metadata : option QxSemanticExecutionMetadata) (kind payload : cstr) : list json_field :=
  [("schema", JString (Some (schema_name metadata)));
   ("record_kind", JString (Some "event")); ("channel", JString (Some "qx.event"));
   ("record_oid", JOid eventoid); ("session_oid", JOid sessionoid);
   ("task_oid", JOid taskoid); ("step_oid", JOid stepoid); ("owner_oid", JOid ownerid)] ++
  qx_json_append_execution_metadata_fields metadata ++
  [("kind", JString kind); ("payload", JString payload)].

Definition semantic_trace_fields (traceoid sessionoid taskoid stepoid ownerid : Oid)
    (metadata : option QxSemanticExecutionMetadata) (state : ascii) (name detail : cstr) :
    list json_field :=
  [("schema", JString (Some (schema_name metadata)));
   ("record_kind", JString (Some "trace")); ("channel", JString (Some "qx.trace"));
   ("record_oid", JOid traceoid); ("session_oid", JOid sessionoid);
   ("task_oid", JOid taskoid); ("step_oid", JOid stepoid); ("owner_oid", JOid ownerid);
   ("state", JChar state)] ++
  qx_json_append_execution_metadata_fields metadata ++
  [("name", JString name); ("detail", JString detail)].

Definition semantic_checkpoint_fields
    (checkpointoid sessionoid taskoid attemptoid stepoid ownerid : Oid)
    (metadata : option QxSemanticExecutionMetadata) (checkpoint_state task_state : ascii)
    (nextstepseqno : Z) (label data : cstr) : list json_field :=
  [("schema", JString (Some (schema_name metadata)));
   ("record_kind", JString (Some "checkpoint")); ("channel", JString (Some "qx.checkpoint"));
   ("record_oid", JOid checkpointoid); ("session_oid", JOid sessionoid);
   ("task_oid", JOid taskoid); ("attempt_oid", JOid attemptoid);
   ("step_oid", JOid stepoid); ("owner_oid", JOid ownerid)] ++
  qx_json_append_execution_metadata_fields metadata ++
  [("checkpoint_state", JChar checkpoint_state); ("task_state", JChar task_state);
   ("next_step_seqno", JInt nextstepseqno); ("label", JString label); ("data", JString data)].

(** ** Reading flat JSON objects *)

Inductive json_token :=
  | TString (s : string)     (* a quoted string, unescaped *)
  | TRaw (s : string).       (* a number, true, false or null, as written *)

Definition json_token_of (v : json_value) : json_token :=
  match v with
  | JString (Some s) => TString s
  | JChar c => TString (String c "")
  | _ => TRaw (json_value_text v)
  end.

Definition hex_value (c : ascii) : N :=
  let n := N_of_ascii c in if (n <? 58)%N then (n - 48)%N else (n - 87)%N.

Definition cons_read (c : ascii) (r : option (string * string)) : option (string * string) :=
  match r with Some (s, rest) => Some (String c s, rest) | None => None end.

(** The string up to its closing quote, and the text after it. *)
Fixpoint read_string (s : string) : option (string * string) :=
  match s with
  | EmptyString => None
  | String c t =>
      if Ascii.eqb c quote then Some ("", t)
      else if Ascii.eqb c backslash then
        match t with
        | EmptyString => None
        | String e t' =>
            if Ascii.eqb e "b" then cons_read "008" (read_string t')
            else if Ascii.eqb e "f" then cons_read "012" (read_string t')
            else if Ascii.eqb e "n" then cons_read "010" (read_string t')
            else if Ascii.eqb e "r" then cons_read "013" (read_string t')
            else if Ascii.eqb e "t" then cons_read "009" (read_string t')
            else if Ascii.eqb e quote then cons_read quote (read_string t')
            else if Ascii.eqb e backslash then cons_read backslash (read_string t')
            else if Ascii.eqb e "u" then
              match t' with
              | String _ (String _ (String h (String l t''))) =>
                  cons_read (ascii_of_N (16 * hex_value h + hex_value l)) (read_string t'')
              | _ => None
              end
            else None
        end
      else cons_read c (read_string t)
  end.

Definition raw_end (c : ascii) : bool := Ascii.eqb c "," || Ascii.eqb c "}".

Fixpoint read_raw (s : string) : string * string :=
  match s with
  | EmptyString => (EmptyString, EmptyString)
  | String c t =>
      if raw_end c then (EmptyString, s)
      else let '(a, b) := read_raw t in (String c a, b)
  end.

Definition read_value (s : string) : option (json_token * string) :=
  match s with
  | String c t =>
      if Ascii.eqb c quote
      then match read_string t with Some (v, rest) => Some (TString v, rest) | None => None end
      else let '(a, b) := read_raw s in Some (TRaw a, b)
  | EmptyString => None
  end.

(** [key] is read as it stands: the engine's keys need no escape. *)
Definition read_field (s : string) : option ((string * json_token) * string) :=
  match strip_prefix (String quote "") s with
  | None => None
  | Some t =>
      match split_char quote t with
      | (key, Some (String ":" t')) =>
          match read_value t' with
          | Some (v, rest) => Some ((key, v), rest)
          | None => None
          end
      | _ => None
      end
  end.

Fixpoint read_fields (fuel : nat) (s : string) : option (list (string * json_token) * string) :=
  match fuel with
  | O => None
  | S fuel' =>
      match read_field s with
      | None => None
      | Some (f, rest) =>
          match rest with
          | String "," rest' =>
              match read_fields fuel' rest' with
              | Some (fs, rest'') => Some (f :: fs, rest'')
              | None => None
              end
          | _ => Some ([f], rest)
          end
      end
  end.

Definition read_object (s : string) : option (list (string * json_token)) :=
  match s with
  | String "{" t =>
      match read_fields (String.length t) t with
      | Some (fs, "}") => Some fs
      | _ => None
      end
  | _ => None
  end.

(** ** What is written is read back *)

Lemma read_escape_char c r : read_string (escape_char c +:+ r) = cons_read c (read_string r).
Proof. destruct c as [[] [] [] [] [] [] [] []]; reflexivity. Qed.

Lemma read_escape_chars s r :
  read_string (escape_chars s +:+ String quote r) = Some (s, r).
Proof.
  induction s as [|c s IH]; [done|]. cbn [escape_chars].
  rewrite append_assoc, read_escape_char, IH. done.
Qed.

Lemma read_raw_app a c r :
  all_chars (fun d => negb (raw_end d)) a = true -> raw_end c = true ->
  read_raw (a +:+ String c r) = (a, String c r).
Proof.
  induction a as [|d a IH]; simpl; intros Ha Hc; [rewrite Hc; done|].
  apply andb_true_iff in Ha as [Hd Ha]. apply negb_true_iff in Hd. rewrite Hd, IH; done.
Qed.

Definition number_char (c : ascii) : bool := is_digit c || Ascii.eqb c "-".

Lemma all_chars_mono (f g : ascii -> bool) s :
  (forall c, f c = true -> g c = true) -> all_chars f s = true -> all_chars g s = true.
Proof.
  intros H. induction s as [|c s IH]; simpl; [done|].
  rewrite !andb_true_iff. naive_solver.
Qed.

Lemma number_char_raw c : number_char c = true -> negb (raw_end c) = true.
Proof. destruct c as [[] [] [] [] [] [] [] []]; done. Qed.

Lemma show_d_number z : all_chars number_char (show_d z) = true.
Proof.
  assert (forall n : N, all_chars number_char (pretty n) = true) as HN.
  { intros n. apply (all_chars_mono is_digit); [intros c H; unfold number_char; rewrite H; done|].
    pose proof (show_u_digits (Z.of_N n)) as H. unfold show_u in H. rewrite N2Z.id in H. done. }
  unfold show_d, pretty, pretty_Z. destruct z; [done|apply HN|].
  change ("-" +:+ pretty (N.pos p)) with (String "-" (pretty (N.pos p))). simpl. apply HN.
Qed.

Definition raw_char (c : ascii) : bool := negb (raw_end c) && negb (Ascii.eqb c quote).

Lemma number_char_raw_char c : number_char c = true -> raw_char c = true.
Proof. destruct c as [[] [] [] [] [] [] [] []]; done. Qed.

Lemma read_value_raw a c r :
  all_chars raw_char a = true -> raw_end c = true ->
  read_value (a +:+ String c r) = Some (TRaw a, String c r).
Proof.
  intros Ha Hc.
  assert (read_raw (a +:+ String c r) = (a, String c r)) as E.
  { apply read_raw_app; [|done]. eapply all_chars_mono; [|exact Ha].
    unfold raw_char. intros d [? _]%andb_true_iff. done. }
  unfold read_value. destruct a as [|d a].
  - simpl. simpl in E. rewrite E. destruct (Ascii.eqb c quote) eqn:Q; [|done].
    apply Ascii.eqb_eq in Q as ->. done.
  - simpl in Ha |- *. apply andb_true_iff in Ha as [Hd _]. unfold raw_char in Hd.
    apply andb_true_iff in Hd as [_ Hd]. apply negb_true_iff in Hd. rewrite Hd.
    simpl in E. rewrite E. done.
Qed.

(** A character field is written without escapes. *)
Definition json_value_ok (v : json_value) : Prop :=
  match v with JChar c => c <> quote /\ c <> backslash | _ => True end.

Lemma read_value_text v c r :
  json_value_ok v -> raw_end c = true ->
  read_value (json_value_text v +:+ String c r) = Some (json_token_of v, String c r).
Proof.
  intros Hv Hc. destruct v as [[s|]|o|ch|b|z]; cbn [json_value_text json_token_of].
  - unfold escape_json. simpl. rewrite append_assoc. simpl. rewrite read_escape_chars. done.
  - apply read_value_raw; done.
  - apply read_value_raw; [|done]. eapply all_chars_mono; [|apply show_u_digits].
    intros d Hd. apply number_char_raw_char. unfold number_char. rewrite Hd. done.
  - destruct Hv as [H1%Ascii.eqb_neq H2%Ascii.eqb_neq]. simpl. rewrite H1, H2. done.
  - apply read_value_raw; [destruct b; done|done].
  - apply read_value_raw; [|done]. eapply all_chars_mono; [|apply show_d_number].
    apply number_char_raw_char.
Qed.

Definition json_field_ok (f : json_field) : Prop :=
  has_char quote (fst f) = false /\ json_value_ok (snd f).

Lemma read_field_text f c r :
  json_field_ok f -> raw_end c = true ->
  read_field (json_field_text f +:+ String c r) =
  Some ((fst f, json_token_of (snd f)), String c r).
Proof.
  intros [Hk Hv] Hc. destruct f as [k v]. simpl in *. unfold read_field, json_field_text.
  simpl. rewrite append_assoc. simpl.
  rewrite split_char_app by done. rewrite read_value_text by done. done.
Qed.

Lemma json_fields_text_cons f g rest :
  json_fields_text (f :: g :: rest) = json_field_text f +:+ String "," (json_fields_text (g :: rest)).
Proof. done. Qed.

Lemma read_fields_text fs fuel :
  fs <> [] -> Forall json_field_ok fs -> (List.length fs <= fuel)%nat ->
  read_fields fuel (json_fields_text fs +:+ "}") =
  Some ((fun f => (fst f, json_token_of (snd f))) <$> fs, "}").
Proof.
  revert fuel. induction fs as [|f fs IH]; intros fuel Hne Hok Hl; [done|].
  apply Forall_cons in Hok as [Hf Hok]. destruct fuel as [|fuel]; [simpl in Hl; lia|].
  destruct fs as [|g fs].
  - cbn [json_fields_text read_fields]. change "}" with (String "}" "").
    rewrite read_field_text by done. done.
  - rewrite json_fields_text_cons, append_assoc. cbn [read_fields].
    change (String "," (json_fields_text (g :: fs)) +:+ "}")
      with (String "," (json_fields_text (g :: fs) +:+ "}")).
    rewrite read_field_text by done. rewrite IH by (done || simpl in *; lia). done.
Qed.

Lemma json_fields_text_length fs :
  (List.length fs <= String.length (json_fields_text fs))%nat.
Proof.
  induction fs as [|f [|g fs] IH]; [done| |].
  - cbn [json_fields_text json_field_text String.length List.length]. lia.
  - rewrite json_fields_text_cons, append_length. cbn [String.length List.length] in *. lia.
Qed.

Lemma read_object_text fs :
  fs <> [] -> Forall json_field_ok fs ->
  read_object (json_object_text fs) = Some ((fun f => (fst f, json_token_of (snd f))) <$> fs).
Proof.
  intros Hne Hok. unfold read_object, json_object_text.
  rewrite read_fields_text; [done..|]. rewrite append_length.
  pose proof (json_fields_text_length fs). lia.
Qed.

Lemma metadata_fields_ok metadata :
  Forall json_field_ok (qx_json_append_execution_metadata_fields metadata).
Proof. destruct metadata; simpl; repeat constructor. Qed.

(** Every checkpoint record written to the WAL is a JSON object from which
    all its fields are read back, whatever bytes the label, the data and the
    execution metadata contain; in particular it determines the checkpoint. *)
Theorem checkpoint_record_roundtrip ckpt sess task att step owner metadata cst tst next label data :
  json_value_ok (JChar cst) -> json_value_ok (JChar tst) ->
  let fs := semantic_checkpoint_fields ckpt sess task att step owner metadata cst tst next label data in
  read_object (json_object_text fs) = Some ((fun f => (fst f, json_token_of (snd f))) <$> fs).
Proof.
  intros Hc Ht fs. apply read_object_text; [done|]. unfold fs, semantic_checkpoint_fields.
  apply Forall_app. split; [repeat constructor|].
  apply Forall_app. split; [apply metadata_fields_ok|].
  repeat constructor; apply Hc || apply Ht.
Qed.

Lemma checkpoint_record_roundtrip_witness :
  read_object (json_object_text
    (semantic_checkpoint_fields 1 2 3 4 5 6 None "d" "k" 6 (Some "stage8.after_capture") None)) =
  Some ((fun f => (fst f, json_token_of (snd f))) <$>
    semantic_checkpoint_fields 1 2 3 4 5 6 None "d" "k" 6 (Some "stage8.after_capture") None).
Proof. apply checkpoint_record_roundtrip; split; discriminate. Defined.
