(* ===== verification/Tables.v ===== *)
(** * The catalog tables

    One record per row type of the [pg_qx_*] catalogs
    ([src/src/include/catalog/pg_qx_*.h]), with the catalogs' column names, and
    the record of all tables.  A table is the list of its rows in scan order; a
    row that is updated keeps its place.  Columns of type [pg_node_tree] hold
    the node tree itself: [nodeToString] and [stringToNode] are inverse and are
    not modelled.  The class [Table] gives the operations of a table uniform
    access to it. *)

From Stdlib Require Import Ascii String.
From S2P Require Import Prelude Text Types Scheduler.
Open Scope string_scope.
Open Scope Z_scope.
Open Scope bool_scope.
Open Scope list_scope.

Record pg_qx_agent := Mk_qx_agent {
  agent_oid : Oid;
  qxagentname : string;
  qxagentnamespace : Oid;
  qxnamespacepolicyid : Oid;
  qxidentityid : Oid;
  qxagentowner : Oid;
  qxidentity : cstr;
  qxmodeluri : cstr;
  qxmemoryprofile : cstr;
  qxpolicy : cstr;
  qxtools : option pg_node;
  qxbudget : option pg_node
}.

Record pg_qx_identity := Mk_qx_identity {
  identity_oid : Oid;
  qxidentityname : string;
  qxidentitynamespace : Oid;
  qxidentityowner : Oid;
  qxidentityauthrole : Oid;
  qxidentitypolicy : cstr;
  qxidentitybudget : option pg_node
}.

Record pg_qx_provider := Mk_qx_provider {
  provider_oid : Oid;
  qxprovidername : string;
  qxprovidernamespace : Oid;
  qxproviderowner : Oid;
  qxproviderenabled : bool;
  qxproviderattestationrequired : bool;
  qxproviderkind : cstr;
  qxproviderendpoint : cstr;
  qxproviderreceiptalg : cstr;
  qxproviderreceiptkey : cstr;
  qxproviderattestationprofile : cstr;
  qxproviderattestationversion : cstr;
  qxproviderattestationpolicy : cstr
}.

Record pg_qx_principal := Mk_qx_principal {
  principal_oid : Oid;
  qxprincipalname : string;
  qxprincipalnamespace : Oid;
  qxprincipalowner : Oid;
  qxprincipalproviderid : Oid;
  qxprincipalenabled : bool;
  qxprincipalsandbox : cstr;
  qxprincipalprogram : cstr;
  qxprincipalprovider : cstr;
  qxprincipalruntimeclass : cstr;
  qxprincipalreceiptsigner : cstr;
  qxprincipalattestationprofile : cstr;
  qxprincipalattestationversion : cstr;
  qxprincipalattestationpolicy : cstr
}.

Record pg_qx_namespace := Mk_qx_namespace {
  namespace_oid : Oid;
  qxnamespacepolicyname : string;
  qxnamespaceid : Oid;
  qxnamespaceowner : Oid;
  qxnamespaceauthrole : Oid;
  qxrequireknowntools : bool;
  qxenforcebudgets : bool;
  qxnamespacepolicy : cstr;
  qxallowedtools : option pg_node
}.

Record pg_qx_tool := Mk_qx_tool {
  tool_oid : Oid;
  qxtoolname : string;
  qxtoolnamespace : Oid;
  qxtoolowner : Oid;
  qxtoolprincipalid : Oid;
  qxtoolenabled : bool;
  qxtooltokencost : Z;
  qxtoolcostunits : Z;
  qxtoolhandler : cstr;
  qxtoolsandbox : cstr;
  qxtoolruntimeclass : cstr;
  qxtoolsandboxceiling : cstr;
  qxtoolcapabilitytags : cstr;
  qxtoolprincipal : cstr;
  qxtoolpolicy : cstr
}.

Record pg_qx_session := Mk_qx_session {
  session_oid : Oid;
  qxsessiondbid : Oid;
  qxsessionagentid : Oid;
  qxsessionnamespacepolicyid : Oid;
  qxsessionidentityid : Oid;
  qxsessionowner : Oid;
  qxsessionstatus : ascii;
  qxcontext : cstr
}.

Record pg_qx_task := Mk_qx_task {
  task_oid : Oid;
  qxtaskdbid : Oid;
  qxtasksessionid : Oid;
  qxtaskagentid : Oid;
  qxtasknamespacepolicyid : Oid;
  qxtaskidentityid : Oid;
  qxtaskowner : Oid;
  qxtasklastattemptid : Oid;
  qxtasklastcheckpointid : Oid;
  qxtaskbudgettokens : Z;
  qxtaskbudgetcost : Z;
  qxtaskauthorizedtooltokens : Z;
  qxtaskauthorizedtoolcost : Z;
  qxtaskestimatedtokens : Z;
  qxtaskestimatedcost : Z;
  qxtaskconsumedtokens : Z;
  qxtaskconsumedcost : Z;
  qxtaskstate : ascii;
  qxtaskname : cstr;
  qxtaskgoal : cstr;
  qxtaskinput : option pg_node;
  qxtaskpriority : cstr;
  qxtaskauthorizedtools : option pg_node;
  qxtasksubmitcontract : cstr;
  qxtaskresumecontract : cstr
}.

Record pg_qx_attempt := Mk_qx_attempt {
  attempt_oid : Oid;
  qxattemptdbid : Oid;
  qxattemptsessionid : Oid;
  qxattempttaskid : Oid;
  qxattemptowner : Oid;
  qxattemptresumecheckpointid : Oid;
  qxattemptseqno : Z;
  qxattemptstate : ascii;
  qxattemptstrategy : cstr
}.

Record pg_qx_step := Mk_qx_step {
  step_oid : Oid;
  qxstepdbid : Oid;
  qxstepsessionid : Oid;
  qxsteptaskid : Oid;
  qxstepseqno : Z;
  qxstepstate : ascii;
  qxstepname : cstr;
  qxstepdetail : cstr
}.

Record pg_qx_event := Mk_qx_event {
  event_oid : Oid;
  qxeventdbid : Oid;
  qxeventsessionid : Oid;
  qxeventtaskid : Oid;
  qxeventstepid : Oid;
  qxeventowner : Oid;
  qxeventlsn : Z;
  qxeventkind : cstr;
  qxeventpayload : cstr
}.

Record pg_qx_trace := Mk_qx_trace {
  trace_oid : Oid;
  qxtracedbid : Oid;
  qxtracesessionid : Oid;
  qxtracetaskid : Oid;
  qxtracestepid : Oid;
  qxtraceowner : Oid;
  qxtracestate : ascii;
  qxtracelsn : Z;
  qxtracename : cstr;
  qxtracedetail : cstr
}.

Record pg_qx_checkpoint := Mk_qx_checkpoint {
  checkpoint_oid : Oid;
  qxcheckpointdbid : Oid;
  qxcheckpointsessionid : Oid;
  qxcheckpointtaskid : Oid;
  qxcheckpointattemptid : Oid;
  qxcheckpointstepid : Oid;
  qxcheckpointowner : Oid;
  qxcheckpointstate : ascii;
  qxcheckpointtaskstate : ascii;
  qxcheckpointnextstepseqno : Z;
  qxcheckpointlsn : Z;
  qxcheckpointlabel : cstr;
  qxcheckpointdata : cstr
}.

Record pg_qx_memory := Mk_qx_memory {
  memory_oid : Oid;
  qxmemorydbid : Oid;
  qxmemoryagentid : Oid;
  qxmemorysessionid : Oid;
  qxmemorytaskid : Oid;
  qxmemoryowner : Oid;
  qxmemoryscope : ascii;
  qxmemorykey : cstr;
  qxmemoryvalue : cstr;
  qxmemorytags : cstr
}.

Record pg_qx_scheduler_queue := Mk_qx_scheduler_queue {
  queue_row_oid : Oid;
  qxqueueledgerdbid : Oid;
  qxqueueledgerowner : Oid;
  qxqueueledgernamespaceid : Oid;
  qxqueueledgeragentid : Oid;
  qxqueueledgersessionid : Oid;
  qxqueueledgertaskid : Oid;
  qxqueueledgerattemptid : Oid;
  qxqueueledgerkind : QxSchedulerQueueKind;
  qxqueueledgerrunnablecount : Z;
  qxqueueledgerleasedcount : Z;
  qxqueueledgerblockedcount : Z;
  qxqueueledgerretrycount : Z;
  qxqueueledgerenqueuedat : TimestampTz;
  qxqueueledgereligibleat : TimestampTz;
  qxqueueledgerupdatedat : TimestampTz;
  qxqueueledgername : cstr;
  qxqueueledgeragentname : cstr;
  qxqueueledgeridentityname : cstr;
  qxqueueledgernamespacepolicyname : cstr;
  qxqueueledgerpriority : cstr;
  qxqueueledgerprincipalname : cstr;
  qxqueueledgerprovidername : cstr;
  qxqueueledgerproviderkind : cstr;
  qxqueueledgerprincipalruntime : cstr
}.

Record pg_qx_scheduler_lease := Mk_qx_scheduler_lease {
  lease_row_oid : Oid;
  qxleaseledgerdbid : Oid;
  qxleaseledgerowner : Oid;
  qxleaseledgerqueueid : Oid;
  qxleaseledgerworkerid : Oid;
  qxleaseledgersessionid : Oid;
  qxleaseledgertaskid : Oid;
  qxleaseledgerattemptid : Oid;
  qxleaseledgerstate : QxSchedulerLeaseState;
  qxleaseledgeracquiredat : TimestampTz;
  qxleaseledgerrenewedat : TimestampTz;
  qxleaseledgerexpiresat : TimestampTz;
  qxleaseledgerlastheartbeatat : TimestampTz;
  qxleaseledgerrenewalcount : Z;
  qxleaseledgerneedsrecovery : bool;
  qxleaseledgerqueuename : cstr;
  qxleaseledgerworkername : cstr;
  qxleaseledgerleasetoken : cstr;
  qxleaseledgerprincipalname : cstr;
  qxleaseledgerprovidername : cstr;
  qxleaseledgerproviderkind : cstr;
  qxleaseledgerprincipalruntime : cstr
}.

Record pg_qx_scheduler_heartbeat := Mk_qx_scheduler_heartbeat {
  heartbeat_row_oid : Oid;
  qxheartbeatledgerdbid : Oid;
  qxheartbeatledgerowner : Oid;
  qxheartbeatledgerleaseid : Oid;
  qxheartbeatledgerworkerid : Oid;
  qxheartbeatledgersessionid : Oid;
  qxheartbeatledgertaskid : Oid;
  qxheartbeatledgerattemptid : Oid;
  qxheartbeatledgerstate : QxSchedulerHeartbeatState;
  qxheartbeatledgerlagms : Z;
  qxheartbeatledgerobservedat : TimestampTz;
  qxheartbeatledgerexpectedbefore : TimestampTz;
  qxheartbeatledgerstale : bool;
  qxheartbeatledgerworkername : cstr;
  qxheartbeatledgerqueuename : cstr;
  qxheartbeatledgerprincipalruntime : cstr;
  qxheartbeatledgerproviderkind : cstr;
  qxheartbeatledgerreceiptmode : cstr
}.

Record pg_qx_stat_history := Mk_qx_stat_history {
  history_oid : Oid;
  qxstathistorydbid : Oid;
  qxstathistorycaptured : TimestampTz;
  qxstathistoryentityoid : Oid;
  qxstathistorysubmitcount : Z;
  qxstathistoryresumecount : Z;
  qxstathistoryverifiedreceipts : Z;
  qxstathistoryrejectedreceipts : Z;
  qxstathistorycheckpointcount : Z;
  qxstathistoryrenewcount : Z;
  qxstathistoryreclaimcount : Z;
  qxstathistoryreleasecount : Z;
  qxstathistoryretrydispatchcount : Z;
  qxstathistorydeadlettercount : Z;
  qxstathistorystartupscancount : Z;
  qxstathistoryfailoverrebuildcount : Z;
  qxstathistorytasksrequeued : Z;
  qxstathistoryattemptsfenced : Z;
  qxstathistoryscope : cstr;
  qxstathistoryentity : cstr
}.

Record catalog := MkCatalog {
  c_agents : list pg_qx_agent;
  c_identities : list pg_qx_identity;
  c_providers : list pg_qx_provider;
  c_principals : list pg_qx_principal;
  c_namespaces : list pg_qx_namespace;
  c_tools : list pg_qx_tool;
  c_sessions : list pg_qx_session;
  c_tasks : list pg_qx_task;
  c_attempts : list pg_qx_attempt;
  c_steps : list pg_qx_step;
  c_events : list pg_qx_event;
  c_traces : list pg_qx_trace;
  c_checkpoints : list pg_qx_checkpoint;
  c_memories : list pg_qx_memory;
  c_queues : list pg_qx_scheduler_queue;
  c_leases : list pg_qx_scheduler_lease;
  c_heartbeats : list pg_qx_scheduler_heartbeat;
  c_histories : list pg_qx_stat_history
}.

Definition empty_catalog : catalog :=
  MkCatalog [] [] [] [] [] [] [] [] [] [] [] [] [] [] [] [] [] [].

(** Rows of [b] after those of [a], table by table. *)
Definition merge_catalog (a b : catalog) : catalog :=
  {| c_agents := c_agents a ++ c_agents b;
     c_identities := c_identities a ++ c_identities b;
     c_providers := c_providers a ++ c_providers b;
     c_principals := c_principals a ++ c_principals b;
     c_namespaces := c_namespaces a ++ c_namespaces b;
     c_tools := c_tools a ++ c_tools b;
     c_sessions := c_sessions a ++ c_sessions b;
     c_tasks := c_tasks a ++ c_tasks b;
     c_attempts := c_attempts a ++ c_attempts b;
     c_steps := c_steps a ++ c_steps b;
     c_events := c_events a ++ c_events b;
     c_traces := c_traces a ++ c_traces b;
     c_checkpoints := c_checkpoints a ++ c_checkpoints b;
     c_memories := c_memories a ++ c_memories b;
     c_queues := c_queues a ++ c_queues b;
     c_leases := c_leases a ++ c_leases b;
     c_heartbeats := c_heartbeats a ++ c_heartbeats b;
     c_histories := c_histories a ++ c_histories b |}.

(** The identifiers of all rows. *)
Definition all_oids (c : catalog) : list Oid :=
  map agent_oid (c_agents c) ++
  map identity_oid (c_identities c) ++
  map provider_oid (c_providers c) ++
  map principal_oid (c_principals c) ++
  map namespace_oid (c_namespaces c) ++
  map tool_oid (c_tools c) ++
  map session_oid (c_sessions c) ++
  map task_oid (c_tasks c) ++
  map attempt_oid (c_attempts c) ++
  map step_oid (c_steps c) ++
  map event_oid (c_events c) ++
  map trace_oid (c_traces c) ++
  map checkpoint_oid (c_checkpoints c) ++
  map memory_oid (c_memories c) ++
  map queue_row_oid (c_queues c) ++
  map lease_row_oid (c_leases c) ++
  map heartbeat_row_oid (c_heartbeats c) ++
  map history_oid (c_histories c).

Class Table (R : Type) := {
  rows : catalog -> list R;
  set_rows : list R -> catalog -> catalog;
  row_oid : R -> Oid;
  rows_set_rows : forall l c, rows (set_rows l c) = l;
  rows_merge : forall a b, rows (merge_catalog a b) = rows a ++ rows b;
  rows_empty : rows empty_catalog = [];
  row_oid_in : forall c r, r ∈ rows c -> row_oid r ∈ all_oids c;
  set_rows_oids : forall l c o, o ∈ all_oids (set_rows l c) ->
    o ∈ map row_oid l \/ o ∈ all_oids c
}.

Lemma elem_of_map {A B} (f : A -> B) l y : y ∈ map f l <-> exists x, y = f x /\ x ∈ l.
Proof. apply list_elem_of_fmap. Qed.

Ltac solve_row_oid :=
  intros c r H; unfold all_oids; cbn;
  repeat first
    [ apply elem_of_app; left; apply list_elem_of_fmap_2; exact H
    | apply list_elem_of_fmap_2; exact H
    | apply elem_of_app; right ].

Ltac solve_set_rows :=
  intros l c o H; unfold all_oids in H |- *; cbn in H |- *;
  repeat match type of H with
  | _ ∈ (_ ++ _) => apply elem_of_app in H as [H|H]
  end;
  first
    [ left; exact H
    | right; repeat first [ exact H | apply elem_of_app; left; exact H | apply elem_of_app; right ] ].

Definition set_agents (l : list pg_qx_agent) (c : catalog) : catalog :=
  {| c_agents := l; c_identities := c_identities c; c_providers := c_providers c;
     c_principals := c_principals c; c_namespaces := c_namespaces c; c_tools := c_tools c;
     c_sessions := c_sessions c; c_tasks := c_tasks c; c_attempts := c_attempts c;
     c_steps := c_steps c; c_events := c_events c; c_traces := c_traces c;
     c_checkpoints := c_checkpoints c; c_memories := c_memories c; c_queues := c_queues c;
     c_leases := c_leases c; c_heartbeats := c_heartbeats c;
     c_histories := c_histories c |}.

Definition set_identities (l : list pg_qx_identity) (c : catalog) : catalog :=
  {| c_agents := c_agents c; c_identities := l; c_providers := c_providers c;
     c_principals := c_principals c; c_namespaces := c_namespaces c; c_tools := c_tools c;
     c_sessions := c_sessions c; c_tasks := c_tasks c; c_attempts := c_attempts c;
     c_steps := c_steps c; c_events := c_events c; c_traces := c_traces c;
     c_checkpoints := c_checkpoints c; c_memories := c_memories c; c_queues := c_queues c;
     c_leases := c_leases c; c_heartbeats := c_heartbeats c;
     c_histories := c_histories c |}.

Definition set_providers (l : list pg_qx_provider) (c : catalog) : catalog :=
  {| c_agents := c_agents c; c_identities := c_identities c; c_providers := l;
     c_principals := c_principals c; c_namespaces := c_namespaces c; c_tools := c_tools c;
     c_sessions := c_sessions c; c_tasks := c_tasks c; c_attempts := c_attempts c;
     c_steps := c_steps c; c_events := c_events c; c_traces := c_traces c;
     c_checkpoints := c_checkpoints c; c_memories := c_memories c; c_queues := c_queues c;
     c_leases := c_leases c; c_heartbeats := c_heartbeats c;
     c_histories := c_histories c |}.

Definition set_principals (l : list pg_qx_principal) (c : catalog) : catalog :=
  {| c_agents := c_agents c; c_identities := c_identities c; c_providers := c_providers c;
     c_principals := l; c_namespaces := c_namespaces c; c_tools := c_tools c;
     c_sessions := c_sessions c; c_tasks := c_tasks c; c_attempts := c_attempts c;
     c_steps := c_steps c; c_events := c_events c; c_traces := c_traces c;
     c_checkpoints := c_checkpoints c; c_memories := c_memories c; c_queues := c_queues c;
     c_leases := c_leases c; c_heartbeats := c_heartbeats c;
     c_histories := c_histories c |}.

Definition set_namespaces (l : list pg_qx_namespace) (c : catalog) : catalog :=
  {| c_agents := c_agents c; c_identities := c_identities c; c_providers := c_providers c;
     c_principals := c_principals c; c_namespaces := l; c_tools := c_tools c;
     c_sessions := c_sessions c; c_tasks := c_tasks c; c_attempts := c_attempts c;
     c_steps := c_steps c; c_events := c_events c; c_traces := c_traces c;
     c_checkpoints := c_checkpoints c; c_memories := c_memories c; c_queues := c_queues c;
     c_leases := c_leases c; c_heartbeats := c_heartbeats c;
     c_histories := c_histories c |}.

Definition set_tools (l : list pg_qx_tool) (c : catalog) : catalog :=
  {| c_agents := c_agents c; c_identities := c_identities c; c_providers := c_providers c;
     c_principals := c_principals c; c_namespaces := c_namespaces c; c_tools := l;
     c_sessions := c_sessions c; c_tasks := c_tasks c; c_attempts := c_attempts c;
     c_steps := c_steps c; c_events := c_events c; c_traces := c_traces c;
     c_checkpoints := c_checkpoints c; c_memories := c_memories c; c_queues := c_queues c;
     c_leases := c_leases c; c_heartbeats := c_heartbeats c;
     c_histories := c_histories c |}.

Definition set_sessions (l : list pg_qx_session) (c : catalog) : catalog :=
  {| c_agents := c_agents c; c_identities := c_identities c; c_providers := c_providers c;
     c_principals := c_principals c; c_namespaces := c_namespaces c; c_tools := c_tools c;
     c_sessions := l; c_tasks := c_tasks c; c_attempts := c_attempts c; c_steps := c_steps c;
     c_events := c_events c; c_traces := c_traces c; c_checkpoints := c_checkpoints c;
     c_memories := c_memories c; c_queues := c_queues c; c_leases := c_leases c;
     c_heartbeats := c_heartbeats c;
     c_histories := c_histories c |}.

Definition set_tasks (l : list pg_qx_task) (c : catalog) : catalog :=
  {| c_agents := c_agents c; c_identities := c_identities c; c_providers := c_providers c;
     c_principals := c_principals c; c_namespaces := c_namespaces c; c_tools := c_tools c;
     c_sessions := c_sessions c; c_tasks := l; c_attempts := c_attempts c;
     c_steps := c_steps c; c_events := c_events c; c_traces := c_traces c;
     c_checkpoints := c_checkpoints c; c_memories := c_memories c; c_queues := c_queues c;
     c_leases := c_leases c; c_heartbeats := c_heartbeats c;
     c_histories := c_histories c |}.

Definition set_attempts (l : list pg_qx_attempt) (c : catalog) : catalog :=
  {| c_agents := c_agents c; c_identities := c_identities c; c_providers := c_providers c;
     c_principals := c_principals c; c_namespaces := c_namespaces c; c_tools := c_tools c;
     c_sessions := c_sessions c; c_tasks := c_tasks c; c_attempts := l; c_steps := c_steps c;
     c_events := c_events c; c_traces := c_traces c; c_checkpoints := c_checkpoints c;
     c_memories := c_memories c; c_queues := c_queues c; c_leases := c_leases c;
     c_heartbeats := c_heartbeats c;
     c_histories := c_histories c |}.

Definition set_steps (l : list pg_qx_step) (c : catalog) : catalog :=
  {| c_agents := c_agents c; c_identities := c_identities c; c_providers := c_providers c;
     c_principals := c_principals c; c_namespaces := c_namespaces c; c_tools := c_tools c;
     c_sessions := c_sessions c; c_tasks := c_tasks c; c_attempts := c_attempts c;
     c_steps := l; c_events := c_events c; c_traces := c_traces c;
     c_checkpoints := c_checkpoints c; c_memories := c_memories c; c_queues := c_queues c;
     c_leases := c_leases c; c_heartbeats := c_heartbeats c;
     c_histories := c_histories c |}.

Definition set_events (l : list pg_qx_event) (c : catalog) : catalog :=
  {| c_agents := c_agents c; c_identities := c_identities c; c_providers := c_providers c;
     c_principals := c_principals c; c_namespaces := c_namespaces c; c_tools := c_tools c;
     c_sessions := c_sessions c; c_tasks := c_tasks c; c_attempts := c_attempts c;
     c_steps := c_steps c; c_events := l; c_traces := c_traces c;
     c_checkpoints := c_checkpoints c; c_memories := c_memories c; c_queues := c_queues c;
     c_leases := c_leases c; c_heartbeats := c_heartbeats c;
     c_histories := c_histories c |}.

Definition set_traces (l : list pg_qx_trace) (c : catalog) : catalog :=
  {| c_agents := c_agents c; c_identities := c_identities c; c_providers := c_providers c;
     c_principals := c_principals c; c_namespaces := c_namespaces c; c_tools := c_tools c;
     c_sessions := c_sessions c; c_tasks := c_tasks c; c_attempts := c_attempts c;
     c_steps := c_steps c; c_events := c_events c; c_traces := l;
     c_checkpoints := c_checkpoints c; c_memories := c_memories c; c_queues := c_queues c;
     c_leases := c_leases c; c_heartbeats := c_heartbeats c;
     c_histories := c_histories c |}.

Definition set_checkpoints (l : list pg_qx_checkpoint) (c : catalog) : catalog :=
  {| c_agents := c_agents c; c_identities := c_identities c; c_providers := c_providers c;
     c_principals := c_principals c; c_namespaces := c_namespaces c; c_tools := c_tools c;
     c_sessions := c_sessions c; c_tasks := c_tasks c; c_attempts := c_attempts c;
     c_steps := c_steps c; c_events := c_events c; c_traces := c_traces c; c_checkpoints := l;
     c_memories := c_memories c; c_queues := c_queues c; c_leases := c_leases c;
     c_heartbeats := c_heartbeats c;
     c_histories := c_histories c |}.

Definition set_memories (l : list pg_qx_memory) (c : catalog) : catalog :=
  {| c_agents := c_agents c; c_identities := c_identities c; c_providers := c_providers c;
     c_principals := c_principals c; c_namespaces := c_namespaces c; c_tools := c_tools c;
     c_sessions := c_sessions c; c_tasks := c_tasks c; c_attempts := c_attempts c;
     c_steps := c_steps c; c_events := c_events c; c_traces := c_traces c;
     c_checkpoints := c_checkpoints c; c_memories := l; c_queues := c_queues c;
     c_leases := c_leases c; c_heartbeats := c_heartbeats c;
     c_histories := c_histories c |}.

Definition set_queues (l : list pg_qx_scheduler_queue) (c : catalog) : catalog :=
  {| c_agents := c_agents c; c_identities := c_identities c; c_providers := c_providers c;
     c_principals := c_principals c; c_namespaces := c_namespaces c; c_tools := c_tools c;
     c_sessions := c_sessions c; c_tasks := c_tasks c; c_attempts := c_attempts c;
     c_steps := c_steps c; c_events := c_events c; c_traces := c_traces c;
     c_checkpoints := c_checkpoints c; c_memories := c_memories c; c_queues := l;
     c_leases := c_leases c; c_heartbeats := c_heartbeats c;
     c_histories := c_histories c |}.

Definition set_leases (l : list pg_qx_scheduler_lease) (c : catalog) : catalog :=
  {| c_agents := c_agents c; c_identities := c_identities c; c_providers := c_providers c;
     c_principals := c_principals c; c_namespaces := c_namespaces c; c_tools := c_tools c;
     c_sessions := c_sessions c; c_tasks := c_tasks c; c_attempts := c_attempts c;
     c_steps := c_steps c; c_events := c_events c; c_traces := c_traces c;
     c_checkpoints := c_checkpoints c; c_memories := c_memories c; c_queues := c_queues c;
     c_leases := l; c_heartbeats := c_heartbeats c;
     c_histories := c_histories c |}.

Definition set_heartbeats (l : list pg_qx_scheduler_heartbeat) (c : catalog) : catalog :=
  {| c_agents := c_agents c; c_identities := c_identities c; c_providers := c_providers c;
     c_principals := c_principals c; c_namespaces := c_namespaces c; c_tools := c_tools c;
     c_sessions := c_sessions c; c_tasks := c_tasks c; c_attempts := c_attempts c;
     c_steps := c_steps c; c_events := c_events c; c_traces := c_traces c;
     c_checkpoints := c_checkpoints c; c_memories := c_memories c; c_queues := c_queues c;
     c_leases := c_leases c; c_heartbeats := l; c_histories := c_histories c |}.

Definition set_histories (l : list pg_qx_stat_history) (c : catalog) : catalog :=
  {| c_agents := c_agents c; c_identities := c_identities c; c_providers := c_providers c;
     c_principals := c_principals c; c_namespaces := c_namespaces c; c_tools := c_tools c;
     c_sessions := c_sessions c; c_tasks := c_tasks c; c_attempts := c_attempts c;
     c_steps := c_steps c; c_events := c_events c; c_traces := c_traces c;
     c_checkpoints := c_checkpoints c; c_memories := c_memories c; c_queues := c_queues c;
     c_leases := c_leases c; c_heartbeats := c_heartbeats c; c_histories := l |}.

#[export] Instance table_agent : Table pg_qx_agent.
Proof.
  refine {| rows := c_agents; set_rows := set_agents; row_oid := agent_oid |}; try (intros; reflexivity).
  - solve_row_oid.
  - solve_set_rows.
Defined.

#[export] Instance table_identity : Table pg_qx_identity.
Proof.
  refine {| rows := c_identities; set_rows := set_identities; row_oid := identity_oid |}; try (intros; reflexivity).
  - solve_row_oid.
  - solve_set_rows.
Defined.

#[export] Instance table_provider : Table pg_qx_provider.
Proof.
  refine {| rows := c_providers; set_rows := set_providers; row_oid := provider_oid |}; try (intros; reflexivity).
  - solve_row_oid.
  - solve_set_rows.
Defined.

#[export] Instance table_principal : Table pg_qx_principal.
Proof.
  refine {| rows := c_principals; set_rows := set_principals; row_oid := principal_oid |}; try (intros; reflexivity).
  - solve_row_oid.
  - solve_set_rows.
Defined.

#[export] Instance table_namespace : Table pg_qx_namespace.
Proof.
  refine {| rows := c_namespaces; set_rows := set_namespaces; row_oid := namespace_oid |}; try (intros; reflexivity).
  - solve_row_oid.
  - solve_set_rows.
Defined.

#[export] Instance table_tool : Table pg_qx_tool.
Proof.
  refine {| rows := c_tools; set_rows := set_tools; row_oid := tool_oid |}; try (intros; reflexivity).
  - solve_row_oid.
  - solve_set_rows.
Defined.

#[export] Instance table_session : Table pg_qx_session.
Proof.
  refine {| rows := c_sessions; set_rows := set_sessions; row_oid := session_oid |}; try (intros; reflexivity).
  - solve_row_oid.
  - solve_set_rows.
Defined.

#[export] Instance table_task : Table pg_qx_task.
Proof.
  refine {| rows := c_tasks; set_rows := set_tasks; row_oid := task_oid |}; try (intros; reflexivity).
  - solve_row_oid.
  - solve_set_rows.
Defined.

#[export] Instance table_attempt : Table pg_qx_attempt.
Proof.
  refine {| rows := c_attempts; set_rows := set_attempts; row_oid := attempt_oid |}; try (intros; reflexivity).
  - solve_row_oid.
  - solve_set_rows.
Defined.

#[export] Instance table_step : Table pg_qx_step.
Proof.
  refine {| rows := c_steps; set_rows := set_steps; row_oid := step_oid |}; try (intros; reflexivity).
  - solve_row_oid.
  - solve_set_rows.
Defined.

#[export] Instance table_event : Table pg_qx_event.
Proof.
  refine {| rows := c_events; set_rows := set_events; row_oid := event_oid |}; try (intros; reflexivity).
  - solve_row_oid.
  - solve_set_rows.
Defined.

#[export] Instance table_trace : Table pg_qx_trace.
Proof.
  refine {| rows := c_traces; set_rows := set_traces; row_oid := trace_oid |}; try (intros; reflexivity).
  - solve_row_oid.
  - solve_set_rows.
Defined.

#[export] Instance table_checkpoint : Table pg_qx_checkpoint.
Proof.
  refine {| rows := c_checkpoints; set_rows := set_checkpoints; row_oid := checkpoint_oid |}; try (intros; reflexivity).
  - solve_row_oid.
  - solve_set_rows.
Defined.

#[export] Instance table_memory : Table pg_qx_memory.
Proof.
  refine {| rows := c_memories; set_rows := set_memories; row_oid := memory_oid |}; try (intros; reflexivity).
  - solve_row_oid.
  - solve_set_rows.
Defined.

#[export] Instance table_scheduler_queue : Table pg_qx_scheduler_queue.
Proof.
  refine {| rows := c_queues; set_rows := set_queues; row_oid := queue_row_oid |}; try (intros; reflexivity).
  - solve_row_oid.
  - solve_set_rows.
Defined.

#[export] Instance table_scheduler_lease : Table pg_qx_scheduler_lease.
Proof.
  refine {| rows := c_leases; set_rows := set_leases; row_oid := lease_row_oid |}; try (intros; reflexivity).
  - solve_row_oid.
  - solve_set_rows.
Defined.

#[export] Instance table_scheduler_heartbeat : Table pg_qx_scheduler_heartbeat.
Proof.
  refine {| rows := c_heartbeats; set_rows := set_heartbeats; row_oid := heartbeat_row_oid |}; try (intros; reflexivity).
  - solve_row_oid.
  - solve_set_rows.
Defined.

#[export] Instance table_history : Table pg_qx_stat_history.
Proof.
  refine {| rows := c_histories; set_rows := set_histories; row_oid := history_oid |}; try (intros; reflexivity).
  - solve_row_oid.
  - solve_set_rows.
Defined.
