(* ===== verification/World.v ===== *)
(** * The world the engine runs in, and the monad of its code

    The state a backend sees: the catalog rows visible to the current command
    and those written by it and not yet visible, the cluster's OID counter, the
    clock, the logical messages sent to the WAL, the shared statistics and the
    backend's recovery snapshot.  Engine code that reads or writes any of it is
    a function in the monad [M], which either returns a value or raises an
    error; an error carries the world at the point it was raised.

    What a backend gets from PostgreSQL (its database and user, the clock, WAL
    positions, role membership) is the argument [Env]. *)

From Stdlib Require Import Ascii String.
From S2P Require Import Prelude Text Types Scheduler Stat Tables.
Open Scope string_scope.
Open Scope Z_scope.
Open Scope bool_scope.
Open Scope list_scope.

(** ** Errors and outcomes *)

Inductive errcode :=
  | ERRCODE_INTERNAL_ERROR
  | ERRCODE_INVALID_PARAMETER_VALUE
  | ERRCODE_UNDEFINED_OBJECT
  | ERRCODE_INSUFFICIENT_PRIVILEGE
  | ERRCODE_OBJECT_NOT_IN_PREREQUISITE_STATE
  | ERRCODE_CONFIGURATION_LIMIT_EXCEEDED
  | ERRCODE_EXTERNAL_ROUTINE_EXCEPTION
  | ERRCODE_FEATURE_NOT_SUPPORTED
  | ERRCODE_DUPLICATE_OBJECT
  | ERRCODE_UNIQUE_VIOLATION
  | ERRCODE_NAME_TOO_LONG
  | ERRCODE_RESERVED_NAME
  | ERRCODE_NUMERIC_VALUE_OUT_OF_RANGE
  | ERRCODE_INVALID_TEXT_REPRESENTATION
  | ERRCODE_QUERY_CANCELED
  | ERRCODE_WRONG_OBJECT_TYPE
  | ERRCODE_SYNTAX_ERROR
  | ERRCODE_UNDEFINED_SCHEMA
  | ERRCODE_READ_ONLY_SQL_TRANSACTION
  | ERRCODE_INVALID_TRANSACTION_STATE
  | ERRCODE_FILE_ACCESS.        (* [errcode_for_file_access()] *)

#[export] Instance errcode_eq_dec : EqDecision errcode.
Proof. solve_decision. Defined.

Record pg_error := PgError {
  err_code : errcode;
  err_msg : string;
  err_detail : cstr
}.

(** The cached result of the startup scan ([qx_runtime_recovery_snapshot]). *)
Record QxRuntimeRecoverySnapshot := MkRecoverySnapshot {
  rs_valid : bool;
  rs_databaseoid : Oid;
  rs_ownerid : Oid;
  rs_report : QxRecoveryReport
}.

Record world := MkWorld {
  w_vis : catalog;            (* rows visible to the current command *)
  w_new : catalog;            (* rows this command wrote, not visible yet *)
  w_next_oid : Z;             (* TransamVariables->nextOid *)
  w_ticks : nat;              (* how often the clock was read *)
  w_wal : list (string * string);  (* logical messages: prefix and text *)
  w_stat : QxStatSharedState;
  w_recovery : QxRuntimeRecoverySnapshot
}.

Record Env := MkEnv {
  MyDatabaseId : Oid;
  GetUserId : Oid;
  clock : nat -> TimestampTz;           (* GetCurrentTimestamp, call by call *)
  wal_lsn : nat -> Z;                   (* position of the n-th logical message *)
  qhapaqxian_track_stats : bool;
  has_privs_of_role : Oid -> Oid -> bool;
  public_namespace : Oid                (* get_namespace_oid("public", false) *)
}.

Inductive outcome (A : Type) :=
  | Ok (a : A) (w : world)
  | Err (e : pg_error) (w : world).
Arguments Ok {A} a w.
Arguments Err {A} e w.

Definition M (A : Type) := world -> outcome A.

Definition ret {A} (a : A) : M A := fun w => Ok a w.
Definition bind {A B} (m : M A) (k : A -> M B) : M B :=
  fun w => match m w with Ok a w' => k a w' | Err e w' => Err e w' end.

Notation "'let*' x ':=' m 'in' k" := (bind m (fun x => k))
  (at level 10, x name, m at level 100, k at level 200) : qx_scope.
Notation "m ;;; k" := (bind m (fun _ => k)) (at level 100, right associativity) : qx_scope.

Definition throw {A} (code : errcode) (msg : string) (detail : cstr) : M A :=
  fun w => Err (PgError code msg detail) w.

(** [elog(ERROR, ...)] *)
Definition elog_error {A} (msg : string) : M A := throw ERRCODE_INTERNAL_ERROR msg None.

Definition gets {A} (f : world -> A) : M A := fun w => Ok (f w) w.
Definition modify (f : world -> world) : M unit := fun w => Ok tt (f w).

Fixpoint mforeach {A} (f : A -> M unit) (l : list A) : M unit :=
  match l with
  | [] => ret tt
  | x :: rest => f x ;;; mforeach f rest
  end.

(** ** Parts of the world *)

Definition set_vis (c : catalog) (w : world) : world :=
  MkWorld c (w_new w) (w_next_oid w) (w_ticks w) (w_wal w) (w_stat w) (w_recovery w).
Definition set_new (c : catalog) (w : world) : world :=
  MkWorld (w_vis w) c (w_next_oid w) (w_ticks w) (w_wal w) (w_stat w) (w_recovery w).
Definition set_next_oid (n : Z) (w : world) : world :=
  MkWorld (w_vis w) (w_new w) n (w_ticks w) (w_wal w) (w_stat w) (w_recovery w).
Definition set_ticks (n : nat) (w : world) : world :=
  MkWorld (w_vis w) (w_new w) (w_next_oid w) n (w_wal w) (w_stat w) (w_recovery w).
Definition set_wal (l : list (string * string)) (w : world) : world :=
  MkWorld (w_vis w) (w_new w) (w_next_oid w) (w_ticks w) l (w_stat w) (w_recovery w).
Definition set_stat (s : QxStatSharedState) (w : world) : world :=
  MkWorld (w_vis w) (w_new w) (w_next_oid w) (w_ticks w) (w_wal w) s (w_recovery w).
Definition set_recovery (r : QxRuntimeRecoverySnapshot) (w : world) : world :=
  MkWorld (w_vis w) (w_new w) (w_next_oid w) (w_ticks w) (w_wal w) (w_stat w) r.

(** Rows written by this command become visible. *)
Definition cci_world (w : world) : world :=
  set_new empty_catalog (set_vis (merge_catalog (w_vis w) (w_new w)) w).
Definition CommandCounterIncrement : M unit := modify cci_world.

(** A command that fails leaves no rows and no decoded messages behind; the OID
    counter, the clock, the shared statistics and the backend's own variables
    are not rolled back. *)
Definition run_command {A} (m : M A) : world -> outcome A :=
  fun w => match m w with
  | Ok a w' => Ok a (cci_world w')
  | Err e w' => Err e (set_wal (w_wal w) (set_new (w_new w) (set_vis (w_vis w) w')))
  end.

Section WithEnv.
Context (E : Env).

Definition GetCurrentTimestamp : M TimestampTz :=
  fun w => Ok (clock E (w_ticks w)) (set_ticks (S (w_ticks w)) w).

(** [LogLogicalMessage(prefix, text, transactional, flush)]: the position of
    the message in the WAL. *)
Definition LogLogicalMessage (prefix text : string) : M Z :=
  fun w => Ok (wal_lsn E (List.length (w_wal w))) (set_wal (w_wal w ++ [(prefix, text)]) w).

Definition report_stat (f : QxStatSharedState -> QxStatSharedState) : M unit :=
  modify (fun w => set_stat (f (w_stat w)) w).

End WithEnv.

(** ** Object identifiers *)

Definition FirstNormalObjectId : Oid := 16384.

(** In normal operation: not in recovery, under a postmaster. *)
Definition GetNewObjectId : M Oid :=
  fun w =>
    let result := if w_next_oid w <? FirstNormalObjectId then FirstNormalObjectId
                  else w_next_oid w in
    Ok result (set_next_oid (uint32 (result + 1)) w).

(** All rows of a table, whatever their visibility ([SnapshotAny]). *)
Definition all_rows (R : Type) `{Table R} (w : world) : list R :=
  rows (w_vis w) ++ rows (w_new w).

Definition oid_taken (R : Type) `{Table R} (w : world) (o : Oid) : bool :=
  existsb (fun r => row_oid r =? o) (all_rows R w).

Fixpoint new_oid_loop (R : Type) `{Table R} (fuel : nat) : M Oid :=
  match fuel with
  | O => elog_error "still searching for an unused OID"
  | S fuel' =>
      let* newOid := GetNewObjectId in
      let* collides := gets (fun w => oid_taken R w newOid) in
      if collides then new_oid_loop R fuel' else ret newOid
  end.

(** One candidate more than there are rows is enough: see [new_oid_total]. *)
Definition GetNewOidWithIndex (R : Type) `{Table R} : M Oid :=
  fun w => new_oid_loop R (S (List.length (all_rows R w))) w.

Definition CatalogTupleInsert {R} `{Table R} (r : R) : M unit :=
  modify (fun w => set_new (set_rows (rows (w_new w) ++ [r]) (w_new w)) w).

(** A row built with a new identifier. *)
Definition insert_row {R} `{Table R} (mk : Oid -> R) : M Oid :=
  let* oid := GetNewOidWithIndex R in
  CatalogTupleInsert (mk oid) ;;;
  ret oid.

(** A unique index rejects a row whose key another row has. *)
Definition insert_row_unique {R} `{Table R} (conflict : R -> bool) (index : string)
    (mk : Oid -> R) : M Oid :=
  let* oid := GetNewOidWithIndex R in
  let* clash := gets (fun w => existsb conflict (all_rows R w)) in
  if clash
  then throw ERRCODE_UNIQUE_VIOLATION
         (cat ["duplicate key value violates unique constraint "; quoted index]) None
  else CatalogTupleInsert (mk oid) ;;; ret oid.

(** [SearchSysCache1] on a table's identifier. *)
Definition find_oid {R} `{Table R} (o : Oid) (l : list R) : option R :=
  List.find (fun r => row_oid r =? o) l.

Definition SearchSysCache (R : Type) `{Table R} (o : Oid) : M (option R) :=
  gets (fun w => find_oid o (rows (w_vis w))).

(** [CatalogTupleUpdate] of the row with identifier [o]. *)
Definition update_row {R} `{Table R} (o : Oid) (f : R -> R) : M unit :=
  modify (fun w => set_vis
    (set_rows ((fun r => if row_oid r =? o then f r else r) <$> rows (w_vis w)) (w_vis w)) w).

(** [CatalogTupleDelete] of the visible rows that [p] picks, and their number. *)
Definition delete_rows {R} `{Table R} (p : R -> bool) : M Z :=
  fun w => Ok (Z.of_nat (List.length (List.filter p (rows (w_vis w)))))
    (set_vis (set_rows (List.filter (fun r => negb (p r)) (rows (w_vis w))) (w_vis w)) w).

(** ** Weakest preconditions *)

(** [m] run in [w] returns a value and a world that satisfy [Q], or raises an
    error that satisfies [X]. *)
Definition wp {A} (m : M A) (Q : A -> world -> Prop) (X : pg_error -> world -> Prop)
    (w : world) : Prop :=
  match m w with Ok a w' => Q a w' | Err e w' => X e w' end.

(** No error is raised. *)
Definition no_error : pg_error -> world -> Prop := fun _ _ => False.

Lemma bind_ok {A B} (m : M A) (k : A -> M B) w b w' :
  bind m k w = Ok b w' -> exists a w1, m w = Ok a w1 /\ k a w1 = Ok b w'.
Proof. unfold bind. destruct (m w) as [a w1|e w1]; [|done]. eauto. Qed.

Lemma bind_run {A B} (m : M A) (k : A -> M B) w a w' :
  m w = Ok a w' -> bind m k w = k a w'.
Proof. unfold bind. intros ->. done. Qed.

Lemma wp_ret {A} (a : A) (Q : A -> world -> Prop) X w : Q a w -> wp (ret a) Q X w.
Proof. done. Qed.

Lemma wp_bind {A B} (m : M A) (k : A -> M B) Q X w :
  wp m (fun a => wp (k a) Q X) X w -> wp (bind m k) Q X w.
Proof. unfold wp, bind. destruct (m w); done. Qed.

Lemma wp_mono {A} (m : M A) (Q Q' : A -> world -> Prop) (X X' : pg_error -> world -> Prop) w :
  wp m Q X w -> (forall a w', Q a w' -> Q' a w') -> (forall e w', X e w' -> X' e w') ->
  wp m Q' X' w.
Proof. unfold wp. destruct (m w); eauto. Qed.

Lemma wp_ok {A} (m : M A) (Q : A -> world -> Prop) X w a w' :
  m w = Ok a w' -> Q a w' -> wp m Q X w.
Proof. unfold wp. intros ->. done. Qed.

Lemma wp_gets {A} (f : world -> A) (Q : A -> world -> Prop) X w : Q (f w) w -> wp (gets f) Q X w.
Proof. done. Qed.

Lemma wp_modify f (Q : unit -> world -> Prop) X w : Q tt (f w) -> wp (modify f) Q X w.
Proof. done. Qed.

Lemma wp_throw {A} code msg detail (Q : A -> world -> Prop) (X : pg_error -> world -> Prop) w :
  X (PgError code msg detail) w -> wp (throw code msg detail) Q X w.
Proof. done. Qed.

Lemma wp_mforeach {A} (f : A -> M unit) (I : list A -> world -> Prop) X l w :
  I [] w ->
  (forall pre x post w, l = pre ++ x :: post -> I pre w ->
     wp (f x) (fun _ w' => I (pre ++ [x]) w') X w) ->
  wp (mforeach f l) (fun _ w' => I l w') X w.
Proof.
  intros H0 Hstep.
  assert (forall pre post w, l = pre ++ post -> I pre w ->
            wp (mforeach f post) (fun _ w' => I l w') X w) as Hgen.
  { intros pre post. revert pre. induction post as [|x post IH]; intros pre w' Hl HI; simpl.
    - rewrite app_nil_r in Hl. subst. apply wp_ret. done.
    - apply wp_bind. eapply wp_mono; [by apply (Hstep pre x post)| |done].
      intros [] w'' HI'. apply (IH (pre ++ [x])); [|done]. rewrite Hl, <- app_assoc. done. }
  apply (Hgen [] l); done.
Qed.

(** *** Code that leaves the catalogs alone *)

(** Only the clock and the statistics may differ. *)
Definition same_catalogs (w w' : world) : Prop :=
  w_vis w' = w_vis w /\ w_new w' = w_new w /\ w_next_oid w' = w_next_oid w /\
  w_wal w' = w_wal w /\ w_recovery w' = w_recovery w.

Definition keeps {A} (m : M A) : Prop :=
  forall w, match m w with Ok _ w' => same_catalogs w w' | Err _ w' => same_catalogs w w' end.

Lemma same_catalogs_refl w : same_catalogs w w.
Proof. done. Qed.

Lemma same_catalogs_trans w1 w2 w3 :
  same_catalogs w1 w2 -> same_catalogs w2 w3 -> same_catalogs w1 w3.
Proof. unfold same_catalogs. intuition congruence. Qed.

Lemma keeps_ret {A} (a : A) : keeps (ret a).
Proof. intros w. apply same_catalogs_refl. Qed.

Lemma keeps_throw {A} code msg detail : keeps (@throw A code msg detail).
Proof. intros w. apply same_catalogs_refl. Qed.

Lemma keeps_gets {A} (f : world -> A) : keeps (gets f).
Proof. intros w. apply same_catalogs_refl. Qed.

Lemma keeps_set_stat f : keeps (modify (fun w => set_stat (f w) w)).
Proof. intros w. done. Qed.

Lemma keeps_bind {A B} (m : M A) (k : A -> M B) :
  keeps m -> (forall a, keeps (k a)) -> keeps (bind m k).
Proof.
  intros Hm Hk w. unfold bind. specialize (Hm w). destruct (m w) as [a w1|e w1]; [|done].
  specialize (Hk a w1). destruct (k a w1); eauto using same_catalogs_trans.
Qed.

Lemma keeps_clock E : keeps (GetCurrentTimestamp E).
Proof. intros w. done. Qed.

Lemma keeps_mforeach {A} (f : A -> M unit) l : (forall x, keeps (f x)) -> keeps (mforeach f l).
Proof.
  intros Hf. induction l as [|x l IH]; [apply keeps_ret|]. apply keeps_bind; [apply Hf|done].
Qed.

Lemma keeps_ok {A} (m : M A) w a w' : keeps m -> m w = Ok a w' -> same_catalogs w w'.
Proof. intros Hm E. specialize (Hm w). rewrite E in Hm. done. Qed.

#[export] Hint Resolve keeps_ret keeps_throw keeps_gets keeps_clock keeps_set_stat
  keeps_bind keeps_mforeach : qx.

(** Follow binds and case distinctions until each leaf is a known operation. *)
Ltac keeps_step :=
  match goal with
  | |- keeps (bind _ _) => apply keeps_bind
  | |- forall _, _ => intros
  | |- keeps (match ?x with _ => _ end) => destruct x
  | |- keeps (let '_ := ?x in _) => destruct x
  | |- keeps _ => solve [auto with qx nocore]
  end.
Ltac keeps_tac := repeat keeps_step.

(** ** New identifiers are unused *)

(** Every row's identifier is below the counter, which has [k] more to give
    before it wraps around. *)
Definition room (k : Z) (w : world) : Prop :=
  (forall o, o ∈ all_oids (w_vis w) ++ all_oids (w_new w) -> o < w_next_oid w) /\
  FirstNormalObjectId <= w_next_oid w /\ w_next_oid w + k < 2 ^ 32.

Lemma room_mono j k w : room k w -> j <= k -> room j w.
Proof. intros (H1 & H2 & H3) Hj. repeat split; auto; lia. Qed.

Lemma room_row k w R `{Table R} r : room k w -> r ∈ all_rows R w -> row_oid r < w_next_oid w.
Proof.
  intros (Hb & _) Hr. apply Hb. unfold all_rows in Hr.
  apply elem_of_app in Hr as [Hr|Hr]; apply elem_of_app; [left|right]; by apply row_oid_in.
Qed.

Lemma oid_taken_spec R `{Table R} w o :
  oid_taken R w o = true <-> o ∈ map row_oid (all_rows R w).
Proof.
  unfold oid_taken. rewrite existsb_exists, elem_of_map. split.
  - intros (r & Hr & E). apply Z.eqb_eq in E. exists r. split; [done|]. by apply list_elem_of_In.
  - intros (r & -> & Hr). exists r. rewrite Z.eqb_refl. split; [by apply list_elem_of_In|done].
Qed.

Lemma new_oid_room k w R `{Table R} :
  room k w -> 0 < k ->
  GetNewOidWithIndex R w = Ok (w_next_oid w) (set_next_oid (w_next_oid w + 1) w).
Proof.
  intros Hroom Hk. destruct (Hroom) as (_ & Hf & Hk').
  unfold GetNewOidWithIndex. simpl. unfold bind at 1, GetNewObjectId at 1.
  rewrite (proj2 (Z.ltb_ge _ _)) by done.
  rewrite uint32_small by (unfold in_uint32, FirstNormalObjectId in *; lia).
  unfold bind, gets, ret.
  destruct (oid_taken R _ (w_next_oid w)) eqn:T; [|done].
  apply oid_taken_spec, elem_of_map in T as (r & E & Hr).
  apply (room_row k w R) in Hr; [|done]. lia.
Qed.

Definition add_row {R} `{Table R} (r : R) (w : world) : world :=
  set_new (set_rows (rows (w_new w) ++ [r]) (w_new w)) (set_next_oid (w_next_oid w + 1) w).

Lemma room_add_row k w R `{Table R} (r : R) :
  room (k + 1) w -> row_oid r = w_next_oid w -> room k (add_row r w).
Proof.
  intros (Hb & Hf & Hk) Hr. repeat split; simpl; try lia.
  intros o Ho. apply elem_of_app in Ho as [Ho|Ho].
  - pose proof (Hb o ltac:(apply elem_of_app; auto)). lia.
  - apply set_rows_oids in Ho as [Ho|Ho].
    + apply elem_of_map in Ho as (r' & -> & Hr'). apply elem_of_app in Hr' as [Hr'|Hr'].
      * pose proof (Hb (row_oid r') ltac:(apply elem_of_app; right; by apply row_oid_in)). lia.
      * apply list_elem_of_singleton in Hr' as ->. lia.
    + pose proof (Hb o ltac:(apply elem_of_app; auto)). lia.
Qed.

Lemma insert_row_room k w R `{Table R} (mk : Oid -> R) :
  room k w -> 0 < k ->
  insert_row mk w = Ok (w_next_oid w) (add_row (mk (w_next_oid w)) w).
Proof. intros Hr Hk. unfold insert_row, bind. rewrite (new_oid_room k) by done. done. Qed.

Lemma all_rows_add_row R `{Table R} (r : R) w :
  all_rows R (add_row r w) = all_rows R w ++ [r].
Proof. unfold all_rows, add_row. simpl. rewrite rows_set_rows, app_assoc. done. Qed.

(** *** The search ends, also after the counter has wrapped around *)

Definition oid_space : Z := 2 ^ 32 - FirstNormalObjectId.

Definition next_candidate (n : Z) : Z := if n <? FirstNormalObjectId then FirstNormalObjectId else n.

Fixpoint candidates (fuel : nat) (n : Z) : list Z :=
  match fuel with
  | O => []
  | S fuel' => next_candidate n :: candidates fuel' (uint32 (next_candidate n + 1))
  end.

Lemma next_candidate_range n : in_uint32 n -> FirstNormalObjectId <= next_candidate n < 2 ^ 32.
Proof.
  unfold in_uint32, next_candidate, FirstNormalObjectId. intros.
  destruct (n <? 16384) eqn:E; breflect; lia.
Qed.

Lemma next_candidate_step n :
  in_uint32 n ->
  next_candidate (uint32 (next_candidate n + 1)) =
  FirstNormalObjectId + (next_candidate n - FirstNormalObjectId + 1) mod oid_space.
Proof.
  intros H%next_candidate_range. generalize dependent (next_candidate n). intros c Hc.
  unfold FirstNormalObjectId, oid_space in *. destruct (decide (c = 2 ^ 32 - 1)) as [->|Hne].
  - vm_compute. reflexivity.
  - rewrite uint32_small by (unfold in_uint32; lia). unfold next_candidate, FirstNormalObjectId.
    rewrite (proj2 (Z.ltb_ge _ _)) by lia. rewrite Z.mod_small by lia. lia.
Qed.

Lemma candidates_eq fuel n :
  in_uint32 n ->
  candidates fuel n =
  map (fun i => FirstNormalObjectId +
         (next_candidate n - FirstNormalObjectId + Z.of_nat i) mod oid_space) (seq 0 fuel).
Proof.
  revert n. induction fuel as [|fuel IH]; intros n Hn; [done|]. cbn [candidates seq map].
  pose proof (next_candidate_range n Hn) as Hr. f_equal.
  - unfold oid_space, FirstNormalObjectId in *. rewrite Z.mod_small by lia. lia.
  - rewrite IH by apply uint32_range. rewrite next_candidate_step by done.
    rewrite <- seq_shift, map_map. apply map_ext. intros i. f_equal.
    replace (FirstNormalObjectId + (next_candidate n - FirstNormalObjectId + 1) mod oid_space -
             FirstNormalObjectId)
      with ((next_candidate n - FirstNormalObjectId + 1) mod oid_space) by lia.
    rewrite Zplus_mod_idemp_l. f_equal. lia.
Qed.

Lemma candidates_NoDup fuel n :
  in_uint32 n -> Z.of_nat fuel <= oid_space -> List.NoDup (candidates fuel n).
Proof.
  intros Hn Hf. rewrite candidates_eq by done. apply NoDup_ListNoDup.
  apply NoDup_fmap_2_strong; [|apply NoDup_seq].
  intros i j Hi%elem_of_seq Hj%elem_of_seq E. apply Z.add_reg_l in E.
  pose proof (next_candidate_range n Hn) as Hr. unfold oid_space, FirstNormalObjectId in *.
  assert (forall a b, 0 <= a < 4294950912 -> 0 <= b < 4294950912 -> forall c,
    (c + a) mod 4294950912 = (c + b) mod 4294950912 -> a = b) as Hinj.
  { intros a b Ha Hb c Hab. pose proof (Z.div_mod (c + a) 4294950912 ltac:(lia)).
    pose proof (Z.div_mod (c + b) 4294950912 ltac:(lia)).
    assert (a - b = 4294950912 * ((c + a) / 4294950912 - (c + b) / 4294950912)) by lia.
    assert ((c + a) / 4294950912 - (c + b) / 4294950912 = 0) by nia. lia. }
  apply Nat2Z.inj. eapply Hinj; [| |exact E]; lia.
Qed.

Lemma new_oid_loop_S R `{Table R} fuel w :
  let c := next_candidate (w_next_oid w) in
  let w1 := set_next_oid (uint32 (c + 1)) w in
  new_oid_loop R (S fuel) w = if oid_taken R w c then new_oid_loop R fuel w1 else Ok c w1.
Proof.
  cbn [new_oid_loop]. unfold bind, GetNewObjectId, gets, next_candidate.
  change (oid_taken R (set_next_oid ?n w) ?o) with (oid_taken R w o).
  destruct (oid_taken R w _); done.
Qed.

Lemma new_oid_loop_spec R `{Table R} fuel w :
  in_uint32 (w_next_oid w) ->
  (exists o n, new_oid_loop R fuel w = Ok o (set_next_oid n w) /\
     oid_taken R w o = false /\ FirstNormalObjectId <= o < 2 ^ 32 /\ in_uint32 n) \/
  (forall c, c ∈ candidates fuel (w_next_oid w) -> oid_taken R w c = true).
Proof.
  revert w. induction fuel as [|fuel IH]; intros w Hn; [right; intros c Hc; inversion Hc|].
  rewrite new_oid_loop_S. cbn [candidates]. set (c := next_candidate (w_next_oid w)).
  set (w1 := set_next_oid (uint32 (c + 1)) w).
  assert (forall o, oid_taken R w1 o = oid_taken R w o) as Hsame by done.
  destruct (oid_taken R w c) eqn:T.
  - destruct (IH w1 (uint32_range _)) as [(o & n & E & Ho & Hr & Hn')|Hall].
    + left. exists o, n. split; [exact E|]. auto.
    + right. intros d [->|Hd]%elem_of_cons; [done|]. rewrite <- Hsame. apply Hall. done.
  - left. exists c, (uint32 (c + 1)). repeat split; auto; try apply next_candidate_range; auto;
      apply uint32_range.
Qed.

(** Allocating an identifier for a row always succeeds, whatever the
    counter's position, as long as the table does not use up the whole range of
    identifiers; the identifier is a normal one that no row of the table has,
    visible or not.  One search step per row, plus one, is enough. *)
Theorem new_oid_total R `{Table R} w :
  in_uint32 (w_next_oid w) ->
  Z.of_nat (List.length (all_rows R w)) < oid_space ->
  exists o n, GetNewOidWithIndex R w = Ok o (set_next_oid n w) /\
    (o ∉ map row_oid (all_rows R w)) /\ FirstNormalObjectId <= o < 2 ^ 32.
Proof.
  intros Hn Hlen. unfold GetNewOidWithIndex. set (fuel := S (List.length (all_rows R w))).
  destruct (new_oid_loop_spec R fuel w Hn) as [(o & n & E & Ho & Hr & _)|Hall].
  - exists o, n. split; [done|]. split; [|done]. intros Hin%oid_taken_spec. congruence.
  - exfalso.
    assert (incl (candidates fuel (w_next_oid w)) (map row_oid (all_rows R w))) as Hincl.
    { intros c Hc. apply list_elem_of_In, oid_taken_spec, Hall, list_elem_of_In. done. }
    apply NoDup_incl_length in Hincl; [|apply candidates_NoDup; [done|unfold fuel; lia]].
    rewrite length_map in Hincl. rewrite candidates_eq, length_map, length_seq in Hincl by done.
    unfold fuel in Hincl. lia.
Qed.

(** *** What a successful insert did *)

Lemma new_oid_loop_ok R `{Table R} fuel w o w' :
  new_oid_loop R fuel w = Ok o w' ->
  oid_taken R w o = false /\ FirstNormalObjectId <= o /\ exists n, w' = set_next_oid n w.
Proof.
  revert w. induction fuel as [|fuel IH]; intros w; [done|]. rewrite new_oid_loop_S.
  destruct (oid_taken R w _) eqn:T.
  - intros (Ho & Hf & n & ->)%IH. split; [exact Ho|]. split; [done|]. by exists n.
  - intros E. injection E as <- <-. split; [done|]. split; [|by eexists].
    unfold next_candidate. destruct (_ <? _) eqn:L; breflect; lia.
Qed.

Lemma insert_unique_ok R `{Table R} conflict index (mk : Oid -> R) w o w' :
  insert_row_unique conflict index mk w = Ok o w' ->
  oid_taken R w o = false /\ FirstNormalObjectId <= o /\
  existsb conflict (all_rows R w) = false /\
  exists n, w' = set_new (set_rows (rows (w_new w) ++ [mk o]) (w_new w)) (set_next_oid n w).
Proof.
  unfold insert_row_unique, GetNewOidWithIndex.
  intros (o1 & w1 & (Ho & Hf & n & ->)%new_oid_loop_ok & E)%bind_ok.
  apply bind_ok in E as (clash & w2 & E1 & E). injection E1 as <- <-.
  change (all_rows R (set_next_oid n w)) with (all_rows R w) in E.
  destruct (existsb conflict (all_rows R w)) eqn:C; [discriminate E|].
  injection E as <- <-. eauto 10.
Qed.

Definition empty_world (next : Z) : world :=
  MkWorld empty_catalog empty_catalog next 0 [] (MkStatState [] [])
    (MkRecoverySnapshot false 0 0
       (MkReport 0 false false 0 0 0 0 0 0 0 0 0 0 0)).

Lemma new_oid_total_witness :
  exists o n, GetNewOidWithIndex pg_qx_task (empty_world 12) = Ok o (set_next_oid n (empty_world 12)) /\
    (o ∉ map row_oid (all_rows pg_qx_task (empty_world 12))) /\ FirstNormalObjectId <= o < 2 ^ 32.
Proof.
  apply (new_oid_total pg_qx_task (empty_world 12)); vm_compute; split; congruence || lia.
Defined.
