(* ===== verification/Catalog.v ===== *)
(** * Catalog access

    [src/src/backend/qx/catalog/qx_catalog.c]: lookups, list builders, ledger
    lookups, inserts and updates on the [pg_qx_*] tables.  Reads are functions
    of the visible catalog; writes are in the monad of [World].  The [Free]
    functions of the file release memory and are not modelled; an info
    structure that only copies the columns of one row is that row. *)

From Stdlib Require Import Ascii String.
From S2P Require Import Prelude Text Types Scheduler Stat Observe SemanticLog Tables World.
Open Scope string_scope.
Open Scope Z_scope.
Open Scope bool_scope.
Open Scope list_scope.

(** ** Column values *)

Definition QX_SESSION_STATUS_ACTIVE : ascii := "a".
Definition QX_TASK_STATE_PENDING : ascii := "p".
Definition QX_TASK_STATE_QUEUED : ascii := "q".
Definition QX_TASK_STATE_RUNNING : ascii := "r".
Definition QX_TASK_STATE_CHECKPOINTED : ascii := "k".
Definition QX_TASK_STATE_COMPLETED : ascii := "c".
Definition QX_TASK_STATE_FAILED : ascii := "f".
Definition QX_ATTEMPT_STATE_RUNNING : ascii := "r".
Definition QX_ATTEMPT_STATE_CHECKPOINTED : ascii := "k".
Definition QX_ATTEMPT_STATE_COMPLETED : ascii := "c".
Definition QX_ATTEMPT_STATE_FAILED : ascii := "f".
Definition QX_STEP_STATE_COMPLETED : ascii := "c".
Definition QX_TRACE_STATE_OPEN : ascii := "o".
Definition QX_TRACE_STATE_CLOSED : ascii := "c".
Definition QX_CHECKPOINT_STATE_DURABLE : ascii := "d".
Definition InvalidXLogRecPtr : Z := 0.

(** ** Info structures *)

Definition QxCatalogAgentInfo := pg_qx_agent.
Definition QxCatalogIdentityInfo := pg_qx_identity.
Definition QxCatalogProviderInfo := pg_qx_provider.
Definition QxCatalogNamespacePolicyInfo := pg_qx_namespace.
Definition QxCatalogAttemptInfo := pg_qx_attempt.
Definition QxCatalogCheckpointInfo := pg_qx_checkpoint.

Record QxCatalogPrincipalInfo := MkPrincipalInfo {
  pr_oid : Oid;
  pr_name : cstr;
  pr_namespaceoid : Oid;
  pr_ownerid : Oid;
  pr_provideroid : Oid;
  pr_enabled : bool;
  pr_sandbox : cstr;
  pr_program : cstr;
  pr_provider_name : cstr;
  pr_provider_kind : cstr;
  pr_provider_endpoint : cstr;
  pr_provider_receipt_alg : cstr;
  pr_provider_enabled : bool;
  pr_provider_attestation_required : bool;
  pr_runtime_class : cstr;
  pr_receipt_signer : cstr;
  pr_attestation_profile : cstr;
  pr_attestation_version : cstr;
  pr_attestation_policy : cstr
}.

Record QxCatalogToolInfo := MkToolInfo {
  tl_oid : Oid;
  tl_name : cstr;
  tl_namespaceoid : Oid;
  tl_ownerid : Oid;
  tl_principaloid : Oid;
  tl_provideroid : Oid;
  tl_enabled : bool;
  tl_token_cost : Z;
  tl_cost_units : Z;
  tl_principal_enabled : bool;
  tl_provider_enabled : bool;
  tl_handler : cstr;
  tl_sandbox : cstr;
  tl_runtime_class : cstr;
  tl_sandbox_ceiling : cstr;
  tl_capability_tags : cstr;
  tl_principal_name : cstr;
  tl_principal_sandbox : cstr;
  tl_principal_runtime_class : cstr;
  tl_principal_program : cstr;
  tl_principal_receipt_signer : cstr;
  tl_provider_name : cstr;
  tl_provider_kind : cstr;
  tl_provider_endpoint : cstr;
  tl_provider_receipt_alg : cstr;
  tl_provider_attestation_required : bool;
  tl_policy : cstr
}.

(** The session's and the task's columns, and the names they refer to. *)
Record QxCatalogSessionInfo := MkSessionInfo {
  si_row : pg_qx_session;
  si_agent_name : cstr;
  si_identity_name : cstr;
  si_policy_name : cstr
}.

Record QxCatalogTaskInfo := MkTaskInfo {
  ti_row : pg_qx_task;
  ti_agent_name : cstr;
  ti_identity_name : cstr;
  ti_policy_name : cstr
}.

(** ** Lookups *)

Definition qx_catalog_merge_optional_pair (left right : cstr) : cstr :=
  if negb (is_blank left) then left
  else if negb (is_blank right) then right
  else None.

Definition qx_catalog_matches_filter (rowdbid rowownerid databaseoid ownerid : Oid) : bool :=
  if OidIsValid databaseoid && negb (rowdbid =? databaseoid) then false
  else if OidIsValid ownerid && negb (rowownerid =? ownerid) then false
  else true.

Definition qx_catalog_matches_namespace_filter (rownamespaceoid rowownerid namespaceoid ownerid : Oid) :
    bool :=
  if OidIsValid namespaceoid && negb (rownamespaceoid =? namespaceoid) then false
  else if OidIsValid ownerid && negb (rowownerid =? ownerid) then false
  else true.

(** A lookup by identifier, and one by name and schema. *)
Definition lookup_by_oid {R} `{Table R} (c : catalog) (o : Oid) : option R :=
  if negb (OidIsValid o) then None else find_oid o (rows c).

Definition lookup_by_name {R} `{Table R} (name_of : R -> string) (nsp_of : R -> Oid)
    (c : catalog) (namespaceoid : Oid) (name : cstr) : option R :=
  if negb (OidIsValid namespaceoid) || is_blank name then None
  else List.find (fun r => cstr_is name (name_of r) && (nsp_of r =? namespaceoid)) (rows c).

Definition QxCatalogLookupAgentByOid (c : catalog) (o : Oid) : option QxCatalogAgentInfo :=
  lookup_by_oid c o.
Definition QxCatalogLookupAgentByName (c : catalog) (namespaceoid : Oid) (name : cstr) :
    option QxCatalogAgentInfo :=
  lookup_by_name qxagentname qxagentnamespace c namespaceoid name.
Definition QxCatalogLookupIdentityByOid (c : catalog) (o : Oid) : option QxCatalogIdentityInfo :=
  lookup_by_oid c o.
Definition QxCatalogLookupIdentityByName (c : catalog) (namespaceoid : Oid) (name : cstr) :
    option QxCatalogIdentityInfo :=
  lookup_by_name qxidentityname qxidentitynamespace c namespaceoid name.
Definition QxCatalogLookupProviderByOid (c : catalog) (o : Oid) : option QxCatalogProviderInfo :=
  lookup_by_oid c o.
Definition QxCatalogLookupProviderByName (c : catalog) (namespaceoid : Oid) (name : cstr) :
    option QxCatalogProviderInfo :=
  lookup_by_name qxprovidername qxprovidernamespace c namespaceoid name.
Definition QxCatalogLookupNamespacePolicyByOid (c : catalog) (o : Oid) :
    option QxCatalogNamespacePolicyInfo := lookup_by_oid c o.
Definition QxCatalogLookupNamespacePolicyByName (c : catalog) (namespaceoid : Oid) (name : cstr) :
    option QxCatalogNamespacePolicyInfo :=
  lookup_by_name qxnamespacepolicyname qxnamespaceid c namespaceoid name.
Definition QxCatalogLookupAttemptByOid (c : catalog) (o : Oid) : option QxCatalogAttemptInfo :=
  lookup_by_oid c o.
Definition QxCatalogLookupCheckpointByOid (c : catalog) (o : Oid) : option QxCatalogCheckpointInfo :=
  lookup_by_oid c o.

(** Without a provider row the provider fields stay zero and NULL. *)
Definition qx_catalog_fill_principal_info (c : catalog) (r : pg_qx_principal) :
    QxCatalogPrincipalInfo :=
  let provider :=
    if OidIsValid (qxprincipalproviderid r)
    then QxCatalogLookupProviderByOid c (qxprincipalproviderid r) else None in
  {| pr_oid := principal_oid r; pr_name := Some (qxprincipalname r);
     pr_namespaceoid := qxprincipalnamespace r; pr_ownerid := qxprincipalowner r;
     pr_provideroid := qxprincipalproviderid r; pr_enabled := qxprincipalenabled r;
     pr_sandbox := qxprincipalsandbox r; pr_program := qxprincipalprogram r;
     pr_provider_name :=
       match provider with
       | Some p => qx_catalog_merge_optional_pair (qxprincipalprovider r) (Some (qxprovidername p))
       | None => qxprincipalprovider r
       end;
     pr_provider_kind := match provider with Some p => qxproviderkind p | None => None end;
     pr_provider_endpoint := match provider with Some p => qxproviderendpoint p | None => None end;
     pr_provider_receipt_alg :=
       match provider with Some p => qxproviderreceiptalg p | None => None end;
     pr_provider_enabled := match provider with Some p => qxproviderenabled p | None => false end;
     pr_provider_attestation_required :=
       match provider with Some p => qxproviderattestationrequired p | None => false end;
     pr_runtime_class := qxprincipalruntimeclass r;
     pr_receipt_signer := qxprincipalreceiptsigner r;
     pr_attestation_profile :=
       match provider with
       | Some p => qx_catalog_merge_optional_pair (qxprincipalattestationprofile r)
                     (qxproviderattestationprofile p)
       | None => qxprincipalattestationprofile r
       end;
     pr_attestation_version :=
       match provider with
       | Some p => qx_catalog_merge_optional_pair (qxprincipalattestationversion r)
                     (qxproviderattestationversion p)
       | None => qxprincipalattestationversion r
       end;
     pr_attestation_policy :=
       match provider with
       | Some p => qx_catalog_merge_optional_pair (qxprincipalattestationpolicy r)
                     (qxproviderattestationpolicy p)
       | None => qxprincipalattestationpolicy r
       end |}.

Definition QxCatalogLookupPrincipalByOid (c : catalog) (o : Oid) : option QxCatalogPrincipalInfo :=
  qx_catalog_fill_principal_info c <$> (lookup_by_oid c o : option pg_qx_principal).

Definition QxCatalogLookupPrincipalByName (c : catalog) (namespaceoid : Oid) (name : cstr) :
    option QxCatalogPrincipalInfo :=
  qx_catalog_fill_principal_info c <$>
    lookup_by_name qxprincipalname qxprincipalnamespace c namespaceoid name.

Definition qx_catalog_fill_tool_info (c : catalog) (r : pg_qx_tool) : QxCatalogToolInfo :=
  let principal :=
    if OidIsValid (qxtoolprincipalid r)
    then QxCatalogLookupPrincipalByOid c (qxtoolprincipalid r) else None in
  let from {A} (f : QxCatalogPrincipalInfo -> A) (zero : A) : A :=
    match principal with Some p => f p | None => zero end in
  {| tl_oid := tool_oid r; tl_name := Some (qxtoolname r);
     tl_namespaceoid := qxtoolnamespace r; tl_ownerid := qxtoolowner r;
     tl_principaloid := qxtoolprincipalid r;
     tl_provideroid := from pr_provideroid 0;
     tl_enabled := qxtoolenabled r; tl_token_cost := qxtooltokencost r;
     tl_cost_units := qxtoolcostunits r;
     tl_principal_enabled := from pr_enabled false;
     tl_provider_enabled := from pr_provider_enabled false;
     tl_handler := qxtoolhandler r; tl_sandbox := qxtoolsandbox r;
     tl_runtime_class := qxtoolruntimeclass r;
     tl_sandbox_ceiling := qxtoolsandboxceiling r;
     tl_capability_tags := qxtoolcapabilitytags r;
     tl_principal_name :=
       match principal with
       | Some p => qx_catalog_merge_optional_pair (qxtoolprincipal r) (pr_name p)
       | None => qxtoolprincipal r
       end;
     tl_principal_sandbox := from pr_sandbox None;
     tl_principal_runtime_class := from pr_runtime_class None;
     tl_principal_program := from pr_program None;
     tl_principal_receipt_signer := from pr_receipt_signer None;
     tl_provider_name := from pr_provider_name None;
     tl_provider_kind := from pr_provider_kind None;
     tl_provider_endpoint := from pr_provider_endpoint None;
     tl_provider_receipt_alg := from pr_provider_receipt_alg None;
     tl_provider_attestation_required := from pr_provider_attestation_required false;
     tl_policy := qxtoolpolicy r |}.

Definition QxCatalogLookupToolByOid (c : catalog) (o : Oid) : option QxCatalogToolInfo :=
  qx_catalog_fill_tool_info c <$> (lookup_by_oid c o : option pg_qx_tool).

Definition QxCatalogLookupToolByName (c : catalog) (namespaceoid : Oid) (name : cstr) :
    option QxCatalogToolInfo :=
  qx_catalog_fill_tool_info c <$> lookup_by_name qxtoolname qxtoolnamespace c namespaceoid name.

(** The names a session or a task shows for its agent, identity and policy. *)
Definition agent_name_of (c : catalog) (o : Oid) : cstr :=
  qxagentname <$> QxCatalogLookupAgentByOid c o.
Definition identity_name_of (c : catalog) (o : Oid) : cstr :=
  qxidentityname <$> QxCatalogLookupIdentityByOid c o.
Definition policy_name_of (c : catalog) (o : Oid) : cstr :=
  qxnamespacepolicyname <$> QxCatalogLookupNamespacePolicyByOid c o.

Definition qx_catalog_fill_session_info (c : catalog) (r : pg_qx_session) : QxCatalogSessionInfo :=
  MkSessionInfo r (agent_name_of c (qxsessionagentid r))
    (identity_name_of c (qxsessionidentityid r)) (policy_name_of c (qxsessionnamespacepolicyid r)).

Definition qx_catalog_fill_task_info (c : catalog) (r : pg_qx_task) : QxCatalogTaskInfo :=
  MkTaskInfo r (agent_name_of c (qxtaskagentid r))
    (identity_name_of c (qxtaskidentityid r)) (policy_name_of c (qxtasknamespacepolicyid r)).

Definition QxCatalogLookupSessionByOid (c : catalog) (o : Oid) : option QxCatalogSessionInfo :=
  qx_catalog_fill_session_info c <$> (lookup_by_oid c o : option pg_qx_session).

Definition QxCatalogLookupTaskByOid (c : catalog) (o : Oid) : option QxCatalogTaskInfo :=
  qx_catalog_fill_task_info c <$> (lookup_by_oid c o : option pg_qx_task).

(** ** List builders *)

Definition QxCatalogBuildTaskInfoList (c : catalog) (databaseoid ownerid : Oid) :
    list QxCatalogTaskInfo :=
  qx_catalog_fill_task_info c <$>
    List.filter (fun r => qx_catalog_matches_filter (qxtaskdbid r) (qxtaskowner r) databaseoid ownerid)
      (c_tasks c).

Definition QxCatalogBuildAttemptInfoList (c : catalog) (databaseoid ownerid : Oid) :
    list QxCatalogAttemptInfo :=
  List.filter (fun r => qx_catalog_matches_filter (qxattemptdbid r) (qxattemptowner r) databaseoid ownerid)
    (c_attempts c).

Definition QxCatalogBuildCheckpointInfoList (c : catalog) (databaseoid ownerid : Oid) :
    list QxCatalogCheckpointInfo :=
  List.filter (fun r =>
      qx_catalog_matches_filter (qxcheckpointdbid r) (qxcheckpointowner r) databaseoid ownerid)
    (c_checkpoints c).

Definition QxCatalogBuildProviderInfoList (c : catalog) (namespaceoid ownerid : Oid) :
    list QxCatalogProviderInfo :=
  List.filter (fun r =>
      qx_catalog_matches_namespace_filter (qxprovidernamespace r) (qxproviderowner r) namespaceoid ownerid)
    (c_providers c).

Definition QxCatalogBuildPrincipalInfoList (c : catalog) (namespaceoid ownerid : Oid) :
    list QxCatalogPrincipalInfo :=
  qx_catalog_fill_principal_info c <$>
    List.filter (fun r =>
        qx_catalog_matches_namespace_filter (qxprincipalnamespace r) (qxprincipalowner r)
          namespaceoid ownerid)
      (c_principals c).

Definition add_runtime_class (seen : list string) (info : QxCatalogPrincipalInfo) : list string :=
  match pr_runtime_class info with
  | None => seen
  | Some rc =>
      if String.eqb rc "" then seen
      else if existsb (String.eqb rc) seen then seen
      else seen ++ [rc]
  end.

Definition QxCatalogBuildDistinctRuntimeClassList (c : catalog) : list string :=
  fold_left add_runtime_class (QxCatalogBuildPrincipalInfoList c InvalidOid InvalidOid) [].

(** ** Replay marks *)

Definition QX_RECOVERY_SEMANTIC_REPLAY_TRACE : string := "recovery.semantic_replay".

Definition replay_key (checkpointoid : Oid) : string :=
  cat ["checkpoint_oid="; show_u checkpointoid; ";"].

Definition QxCatalogCheckpointHasSemanticReplay (c : catalog)
    (databaseoid taskoid checkpointoid : Oid) : bool :=
  if negb (OidIsValid databaseoid) || negb (OidIsValid taskoid) || negb (OidIsValid checkpointoid)
  then false
  else existsb (fun t =>
      if negb (qxtracedbid t =? databaseoid) || negb (qxtracetaskid t =? taskoid) then false
      else if negb (cstr_is (qxtracename t) QX_RECOVERY_SEMANTIC_REPLAY_TRACE) then false
      else match qxtracedetail t with
           | Some detail => contains detail (replay_key checkpointoid)
           | None => false
           end)
    (c_traces c).

(** ** Ledger lookups *)

Definition qx_catalog_copy_scheduler_queue_snapshot (r : pg_qx_scheduler_queue) :
    QxSchedulerQueueSnapshot :=
  {| q_queueoid := queue_row_oid r; q_ownerid := qxqueueledgerowner r;
     q_namespace_policy_oid := qxqueueledgernamespaceid r;
     q_agentoid := qxqueueledgeragentid r; q_sessionoid := qxqueueledgersessionid r;
     q_taskoid := qxqueueledgertaskid r; q_attemptoid := qxqueueledgerattemptid r;
     q_queue_kind := qxqueueledgerkind r;
     q_queue_name := qxqueueledgername r; q_agent_name := qxqueueledgeragentname r;
     q_identity_name := qxqueueledgeridentityname r;
     q_namespace_policy_name := qxqueueledgernamespacepolicyname r;
     q_priority := qxqueueledgerpriority r; q_principal_name := qxqueueledgerprincipalname r;
     q_provider_name := qxqueueledgerprovidername r;
     q_provider_kind := qxqueueledgerproviderkind r;
     q_principal_runtime := qxqueueledgerprincipalruntime r;
     q_runnable_count := qxqueueledgerrunnablecount r;
     q_leased_count := qxqueueledgerleasedcount r;
     q_blocked_count := qxqueueledgerblockedcount r;
     q_retry_count := qxqueueledgerretrycount r;
     q_enqueued_at := qxqueueledgerenqueuedat r;
     q_eligible_at := qxqueueledgereligibleat r;
     q_updated_at := qxqueueledgerupdatedat r |}.

Definition qx_catalog_copy_scheduler_lease_snapshot (r : pg_qx_scheduler_lease) :
    QxSchedulerLeaseSnapshot :=
  {| l_leaseoid := lease_row_oid r; l_queueoid := qxleaseledgerqueueid r;
     l_ownerid := qxleaseledgerowner r; l_workeroid := qxleaseledgerworkerid r;
     l_sessionoid := qxleaseledgersessionid r; l_taskoid := qxleaseledgertaskid r;
     l_attemptoid := qxleaseledgerattemptid r; l_state := qxleaseledgerstate r;
     l_queue_name := qxleaseledgerqueuename r; l_worker_name := qxleaseledgerworkername r;
     l_lease_token := qxleaseledgerleasetoken r;
     l_principal_name := qxleaseledgerprincipalname r;
     l_provider_name := qxleaseledgerprovidername r;
     l_provider_kind := qxleaseledgerproviderkind r;
     l_principal_runtime := qxleaseledgerprincipalruntime r;
     l_acquired_at := qxleaseledgeracquiredat r; l_renewed_at := qxleaseledgerrenewedat r;
     l_expires_at := qxleaseledgerexpiresat r;
     l_last_heartbeat_at := qxleaseledgerlastheartbeatat r;
     l_renewal_count := qxleaseledgerrenewalcount r;
     l_needs_recovery := qxleaseledgerneedsrecovery r |}.

(** The scan keeps the row with the largest identifier seen so far. *)
Definition pick_latest {R} `{Table R} (best : option R) (r : R) : option R :=
  let bestoid := match best with Some b => row_oid b | None => InvalidOid end in
  if negb (OidIsValid bestoid) || (bestoid <? row_oid r) then Some r else best.

Definition latest {R} `{Table R} (l : list R) : option R := fold_left pick_latest l None.

Definition queue_row_matches (dboid ownerid taskoid attemptoid : Oid) (r : pg_qx_scheduler_queue) :
    bool :=
  if negb (qxqueueledgerdbid r =? dboid) || negb (qxqueueledgertaskid r =? taskoid) ||
     negb (qxqueueledgerattemptid r =? attemptoid) then false
  else if OidIsValid ownerid && negb (qxqueueledgerowner r =? ownerid) then false
  else true.

Definition lease_row_matches (dboid ownerid taskoid attemptoid : Oid) (r : pg_qx_scheduler_lease) :
    bool :=
  if negb (qxleaseledgerdbid r =? dboid) || negb (qxleaseledgertaskid r =? taskoid) ||
     negb (qxleaseledgerattemptid r =? attemptoid) then false
  else if OidIsValid ownerid && negb (qxleaseledgerowner r =? ownerid) then false
  else true.

Definition QxCatalogLookupLatestSchedulerQueue (c : catalog)
    (dboid ownerid taskoid attemptoid : Oid) : option QxSchedulerQueueSnapshot :=
  qx_catalog_copy_scheduler_queue_snapshot <$>
    latest (List.filter (queue_row_matches dboid ownerid taskoid attemptoid) (c_queues c)).

(** The C function also returns the queue identifier of the lease, which is
    [l_queueoid] of the snapshot. *)
Definition QxCatalogLookupLatestSchedulerLease (c : catalog)
    (dboid ownerid taskoid attemptoid : Oid) : option QxSchedulerLeaseSnapshot :=
  qx_catalog_copy_scheduler_lease_snapshot <$>
    latest (List.filter (lease_row_matches dboid ownerid taskoid attemptoid) (c_leases c)).

Definition QxCatalogMaxStepSeqnoForTask (c : catalog) (dboid taskoid : Oid) : Z :=
  int16 (fold_left (fun maxseqno s =>
      if negb (qxstepdbid s =? dboid) || negb (qxsteptaskid s =? taskoid) then maxseqno
      else if maxseqno <? qxstepseqno s then qxstepseqno s else maxseqno)
    (c_steps c) 0 + 1).

(** ** Updates *)

Definition set_task_runtime (state : ascii) (lastattemptid : Oid) (replace_attempt : bool)
    (lastcheckpointid : Oid) (replace_checkpoint : bool) (t : pg_qx_task) : pg_qx_task :=
  {| task_oid := task_oid t; qxtaskdbid := qxtaskdbid t; qxtasksessionid := qxtasksessionid t;
     qxtaskagentid := qxtaskagentid t; qxtasknamespacepolicyid := qxtasknamespacepolicyid t;
     qxtaskidentityid := qxtaskidentityid t; qxtaskowner := qxtaskowner t;
     qxtasklastattemptid := if replace_attempt then lastattemptid else qxtasklastattemptid t;
     qxtasklastcheckpointid :=
       if replace_checkpoint then lastcheckpointid else qxtasklastcheckpointid t;
     qxtaskbudgettokens := qxtaskbudgettokens t; qxtaskbudgetcost := qxtaskbudgetcost t;
     qxtaskauthorizedtooltokens := qxtaskauthorizedtooltokens t;
     qxtaskauthorizedtoolcost := qxtaskauthorizedtoolcost t;
     qxtaskestimatedtokens := qxtaskestimatedtokens t;
     qxtaskestimatedcost := qxtaskestimatedcost t;
     qxtaskconsumedtokens := qxtaskconsumedtokens t;
     qxtaskconsumedcost := qxtaskconsumedcost t;
     qxtaskstate := state; qxtaskname := qxtaskname t; qxtaskgoal := qxtaskgoal t;
     qxtaskinput := qxtaskinput t; qxtaskpriority := qxtaskpriority t;
     qxtaskauthorizedtools := qxtaskauthorizedtools t;
     qxtasksubmitcontract := qxtasksubmitcontract t;
     qxtaskresumecontract := qxtaskresumecontract t |}.

Definition set_task_consumed (tokens cost : Z) (t : pg_qx_task) : pg_qx_task :=
  {| task_oid := task_oid t; qxtaskdbid := qxtaskdbid t; qxtasksessionid := qxtasksessionid t;
     qxtaskagentid := qxtaskagentid t; qxtasknamespacepolicyid := qxtasknamespacepolicyid t;
     qxtaskidentityid := qxtaskidentityid t; qxtaskowner := qxtaskowner t;
     qxtasklastattemptid := qxtasklastattemptid t;
     qxtasklastcheckpointid := qxtasklastcheckpointid t;
     qxtaskbudgettokens := qxtaskbudgettokens t; qxtaskbudgetcost := qxtaskbudgetcost t;
     qxtaskauthorizedtooltokens := qxtaskauthorizedtooltokens t;
     qxtaskauthorizedtoolcost := qxtaskauthorizedtoolcost t;
     qxtaskestimatedtokens := qxtaskestimatedtokens t;
     qxtaskestimatedcost := qxtaskestimatedcost t;
     qxtaskconsumedtokens := tokens; qxtaskconsumedcost := cost;
     qxtaskstate := qxtaskstate t; qxtaskname := qxtaskname t; qxtaskgoal := qxtaskgoal t;
     qxtaskinput := qxtaskinput t; qxtaskpriority := qxtaskpriority t;
     qxtaskauthorizedtools := qxtaskauthorizedtools t;
     qxtasksubmitcontract := qxtasksubmitcontract t;
     qxtaskresumecontract := qxtaskresumecontract t |}.

Definition set_attempt_state (state : ascii) (a : pg_qx_attempt) : pg_qx_attempt :=
  {| attempt_oid := attempt_oid a; qxattemptdbid := qxattemptdbid a;
     qxattemptsessionid := qxattemptsessionid a; qxattempttaskid := qxattempttaskid a;
     qxattemptowner := qxattemptowner a;
     qxattemptresumecheckpointid := qxattemptresumecheckpointid a;
     qxattemptseqno := qxattemptseqno a; qxattemptstate := state;
     qxattemptstrategy := qxattemptstrategy a |}.

Definition QxCatalogUpdateTaskRuntime (taskoid : Oid) (state : ascii)
    (lastattemptid : Oid) (replace_attempt : bool)
    (lastcheckpointid : Oid) (replace_checkpoint : bool) : M unit :=
  let* tasktup := SearchSysCache pg_qx_task taskoid in
  match tasktup with
  | None => elog_error (cat ["cache lookup failed for QhapaqXian task "; show_u taskoid])
  | Some _ =>
      update_row taskoid
        (set_task_runtime state lastattemptid replace_attempt lastcheckpointid replace_checkpoint) ;;;
      CommandCounterIncrement
  end.

Definition QxCatalogUpdateAttemptState (attemptoid : Oid) (state : ascii) : M unit :=
  let* attempttup := SearchSysCache pg_qx_attempt attemptoid in
  match attempttup with
  | None => elog_error (cat ["cache lookup failed for QhapaqXian attempt "; show_u attemptoid])
  | Some _ => update_row attemptoid (set_attempt_state state) ;;; CommandCounterIncrement
  end.

(** The error texts print the ceiling after the info structure was released,
    and released structures are zeroed: the ceiling shown is 0. *)
Definition QxCatalogChargeTaskBudget (taskoid : Oid) (token_delta cost_delta : Z)
    (charge_name : string) : M unit :=
  let* c := gets w_vis in
  match QxCatalogLookupTaskByOid c taskoid with
  | None => elog_error (cat ["cache lookup failed for QhapaqXian task "; show_u taskoid])
  | Some task =>
      let row := ti_row task in
      let new_tokens := int32 (qxtaskconsumedtokens row + token_delta) in
      let new_cost := int32 (qxtaskconsumedcost row + cost_delta) in
      if (0 <? qxtaskbudgettokens row) && (qxtaskbudgettokens row <? new_tokens) then
        throw ERRCODE_CONFIGURATION_LIMIT_EXCEEDED
          (cat ["runtime token budget exceeded for task "; show_u taskoid])
          (Some (cat ["Charge "; quoted charge_name; " would move token usage to "; show_d new_tokens;
                      ", above the ceiling "; show_d 0; "."]))
      else if (0 <? qxtaskbudgetcost row) && (qxtaskbudgetcost row <? new_cost) then
        throw ERRCODE_CONFIGURATION_LIMIT_EXCEEDED
          (cat ["runtime cost budget exceeded for task "; show_u taskoid])
          (Some (cat ["Charge "; quoted charge_name; " would move cost usage to "; show_d new_cost;
                      ", above the ceiling "; show_d 0; "."]))
      else
        let* tasktup := SearchSysCache pg_qx_task taskoid in
        match tasktup with
        | None => elog_error (cat ["cache lookup failed for QhapaqXian task "; show_u taskoid])
        | Some _ =>
            update_row taskoid (set_task_consumed new_tokens new_cost) ;;;
            CommandCounterIncrement
        end
  end.

(** ** Inserts *)

(** [namein] keeps the first [NAMEDATALEN - 1] bytes (single-byte encodings). *)
Definition NAMEDATALEN : nat := 64.
Definition namein (s : string) : string := str_take (NAMEDATALEN - 1) s.

Record QxCatalogTaskInsertParams := MkTaskInsert {
  tp_sessionoid : Oid;
  tp_agentoid : Oid;
  tp_identityoid : Oid;
  tp_namespace_policy_oid : Oid;
  tp_ownerid : Oid;
  tp_task_name : cstr;
  tp_goal : cstr;
  tp_input : option pg_node;
  tp_priority : cstr;
  tp_authorized_tools : option pg_node;
  tp_submit_contract : cstr;
  tp_resume_contract : cstr;
  tp_budget_tokens : Z;
  tp_budget_cost : Z;
  tp_authorized_tool_tokens : Z;
  tp_authorized_tool_cost : Z;
  tp_estimated_tokens : Z;
  tp_estimated_cost : Z
}.

Section WithEnv.
Context (E : Env).

Definition attempt_row (sessionoid taskoid ownerid resumecheckpointid : Oid) (seqno : Z)
    (state : ascii) (strategy : cstr) (attemptoid : Oid) : pg_qx_attempt :=
  Mk_qx_attempt attemptoid (MyDatabaseId E) sessionoid taskoid ownerid resumecheckpointid
    seqno state strategy.

Definition QxCatalogInsertAttempt (sessionoid taskoid ownerid resumecheckpointid : Oid)
    (seqno : Z) (state : ascii) (strategy : cstr) : M Oid :=
  insert_row_unique
    (fun a => (qxattempttaskid a =? taskoid) && (qxattemptseqno a =? seqno))
    "pg_qx_attempt_taskid_seqno_index"
    (attempt_row sessionoid taskoid ownerid resumecheckpointid seqno state strategy).

Definition step_row (sessionoid taskoid : Oid) (seqno : Z) (name detail : cstr) (stepoid : Oid) :
    pg_qx_step :=
  Mk_qx_step stepoid (MyDatabaseId E) sessionoid taskoid seqno QX_STEP_STATE_COMPLETED name detail.

Definition QxCatalogInsertStep (sessionoid taskoid : Oid) (seqno : Z) (name detail : cstr) :
    M Oid :=
  insert_row_unique
    (fun s => (qxsteptaskid s =? taskoid) && (qxstepseqno s =? seqno))
    "pg_qx_step_taskid_seqno_index"
    (step_row sessionoid taskoid seqno name detail).

Definition QxCatalogInsertEvent (sessionoid taskoid stepoid ownerid : Oid)
    (metadata : option QxSemanticExecutionMetadata) (kind payload : cstr) : M Oid :=
  let* eventoid := GetNewOidWithIndex pg_qx_event in
  let* eventlsn := LogLogicalMessage E QX_SEMANTIC_PREFIX
    (json_object_text (semantic_event_fields eventoid sessionoid taskoid stepoid ownerid
                         metadata kind payload)) in
  CatalogTupleInsert (Mk_qx_event eventoid (MyDatabaseId E) sessionoid taskoid stepoid ownerid
                        eventlsn kind payload) ;;;
  ret eventoid.

(** *** Statistics taken from traces *)

Definition qx_stat_lookup_provider_oid (c : catalog) (provider_name : cstr) : Oid :=
  if is_blank provider_name then InvalidOid
  else match QxCatalogLookupProviderByName c (public_namespace E) provider_name with
       | Some info => provider_oid info
       | None => InvalidOid
       end.

Definition qx_stat_lookup_principal_oid (c : catalog) (principal_name : cstr) : Oid :=
  if is_blank principal_name then InvalidOid
  else match QxCatalogLookupPrincipalByName c (public_namespace E) principal_name with
       | Some info => pr_oid info
       | None => InvalidOid
       end.

Definition qx_stat_report_from_trace (c : catalog) (trace_name trace_detail : cstr)
    (s : QxStatSharedState) : QxStatSharedState :=
  let track := qhapaqxian_track_stats E in
  if negb track then s
  else
    let provider_name := QxObserveTraceDetailValue trace_detail (Some "provider") in
    let principal_name := QxObserveTraceDetailValue trace_detail (Some "principal") in
    let principal_runtime := QxObserveTraceDetailValue trace_detail (Some "principal_runtime") in
    let receipt_sig := QxObserveTraceDetailValue trace_detail (Some "receipt_sig") in
    let resume := cstr_is trace_name "runtime.external_resume" in
    let checkpointed := cstr_is trace_name "runtime.checkpoint" ||
                        cstr_is trace_name "runtime.final_checkpoint" in
    let receipt_verified := cstr_is receipt_sig "verified" in
    if cstr_is trace_name "runtime.external_submit" ||
       cstr_is trace_name "runtime.external_resume" then
      let provideroid := qx_stat_lookup_provider_oid c provider_name in
      let s := if OidIsValid provideroid
               then QxStatReportProviderExecution track (MyDatabaseId E) provideroid resume
                      receipt_verified s
               else s in
      let principaloid := qx_stat_lookup_principal_oid c principal_name in
      let s := if OidIsValid principaloid
               then QxStatReportPrincipalExecution track (MyDatabaseId E) principaloid resume
                      checkpointed receipt_verified s
               else s in
      if negb (is_blank principal_runtime)
      then QxStatReportRuntimeClassExecution track (MyDatabaseId E) principal_runtime resume
             checkpointed receipt_verified s
      else s
    else if checkpointed && negb (is_blank principal_runtime) then
      QxStatReportRuntimeClassExecution track (MyDatabaseId E) principal_runtime false true false s
    else if cstr_is trace_name "runtime.retry_dispatch" then
      QxStatReportSchedulerEvent track (MyDatabaseId E) (Some "retry_dispatch") s
    else if cstr_is trace_name "runtime.dead_letter" then
      QxStatReportSchedulerEvent track (MyDatabaseId E) (Some "dead_letter") s
    else s.

Definition QxStatReportTrace (trace_name trace_detail : cstr) : M unit :=
  modify (fun w => set_stat (qx_stat_report_from_trace (w_vis w) trace_name trace_detail (w_stat w)) w).

(** *** Traces and checkpoints *)

Definition stored_trace_detail (name detail : cstr) : cstr :=
  match detail with
  | Some d =>
      if cstr_is name "runtime.external_submit" || cstr_is name "runtime.external_resume"
      then Some (QxObserveNormalizeExternalTraceDetail d) else detail
  | None => None
  end.

Definition QxCatalogInsertTrace (sessionoid taskoid stepoid ownerid : Oid)
    (metadata : option QxSemanticExecutionMetadata) (trace_state : ascii) (name detail : cstr) :
    M Oid :=
  let trace_detail := stored_trace_detail name detail in
  let* traceoid := GetNewOidWithIndex pg_qx_trace in
  let* tracelsn := LogLogicalMessage E QX_SEMANTIC_PREFIX
    (json_object_text (semantic_trace_fields traceoid sessionoid taskoid stepoid ownerid
                         metadata trace_state name trace_detail)) in
  CatalogTupleInsert (Mk_qx_trace traceoid (MyDatabaseId E) sessionoid taskoid stepoid ownerid
                        trace_state tracelsn name trace_detail) ;;;
  (if qhapaqxian_track_stats E then QxStatReportTrace name trace_detail else ret tt) ;;;
  ret traceoid.

Definition QxCatalogInsertCheckpoint (sessionoid taskoid attemptoid stepoid ownerid : Oid)
    (metadata : option QxSemanticExecutionMetadata) (taskstate : ascii) (nextstepseqno : Z)
    (label data : cstr) : M Oid :=
  let* checkpointoid := GetNewOidWithIndex pg_qx_checkpoint in
  let* checkpointlsn := LogLogicalMessage E QX_SEMANTIC_PREFIX
    (json_object_text (semantic_checkpoint_fields checkpointoid sessionoid taskoid attemptoid
                         stepoid ownerid metadata QX_CHECKPOINT_STATE_DURABLE taskstate
                         nextstepseqno label data)) in
  CatalogTupleInsert (Mk_qx_checkpoint checkpointoid (MyDatabaseId E) sessionoid taskoid
                        attemptoid stepoid ownerid QX_CHECKPOINT_STATE_DURABLE taskstate
                        nextstepseqno checkpointlsn label data) ;;;
  ret checkpointoid.

(** *** Ledger rows *)

Definition queue_ledger_row (s : QxSchedulerQueueSnapshot) (queueoid : Oid) :
    pg_qx_scheduler_queue :=
  {| queue_row_oid := queueoid; qxqueueledgerdbid := MyDatabaseId E;
     qxqueueledgerowner := q_ownerid s; qxqueueledgernamespaceid := q_namespace_policy_oid s;
     qxqueueledgeragentid := q_agentoid s; qxqueueledgersessionid := q_sessionoid s;
     qxqueueledgertaskid := q_taskoid s; qxqueueledgerattemptid := q_attemptoid s;
     qxqueueledgerkind := q_queue_kind s;
     qxqueueledgerrunnablecount := q_runnable_count s;
     qxqueueledgerleasedcount := q_leased_count s;
     qxqueueledgerblockedcount := q_blocked_count s;
     qxqueueledgerretrycount := q_retry_count s;
     qxqueueledgerenqueuedat := q_enqueued_at s; qxqueueledgereligibleat := q_eligible_at s;
     qxqueueledgerupdatedat := q_updated_at s;
     qxqueueledgername := q_queue_name s; qxqueueledgeragentname := q_agent_name s;
     qxqueueledgeridentityname := q_identity_name s;
     qxqueueledgernamespacepolicyname := q_namespace_policy_name s;
     qxqueueledgerpriority := q_priority s;
     qxqueueledgerprincipalname := q_principal_name s;
     qxqueueledgerprovidername := q_provider_name s;
     qxqueueledgerproviderkind := q_provider_kind s;
     qxqueueledgerprincipalruntime := q_principal_runtime s |}.

Definition QxCatalogInsertSchedulerQueue (s : QxSchedulerQueueSnapshot) : M Oid :=
  insert_row (queue_ledger_row s).

Definition lease_ledger_row (queueoid : Oid) (s : QxSchedulerLeaseSnapshot) (leaseoid : Oid) :
    pg_qx_scheduler_lease :=
  {| lease_row_oid := leaseoid; qxleaseledgerdbid := MyDatabaseId E;
     qxleaseledgerowner := l_ownerid s; qxleaseledgerqueueid := queueoid;
     qxleaseledgerworkerid := l_workeroid s; qxleaseledgersessionid := l_sessionoid s;
     qxleaseledgertaskid := l_taskoid s; qxleaseledgerattemptid := l_attemptoid s;
     qxleaseledgerstate := l_state s; qxleaseledgeracquiredat := l_acquired_at s;
     qxleaseledgerrenewedat := l_renewed_at s; qxleaseledgerexpiresat := l_expires_at s;
     qxleaseledgerlastheartbeatat := l_last_heartbeat_at s;
     qxleaseledgerrenewalcount := l_renewal_count s;
     qxleaseledgerneedsrecovery := l_needs_recovery s;
     qxleaseledgerqueuename := l_queue_name s; qxleaseledgerworkername := l_worker_name s;
     qxleaseledgerleasetoken := l_lease_token s;
     qxleaseledgerprincipalname := l_principal_name s;
     qxleaseledgerprovidername := l_provider_name s;
     qxleaseledgerproviderkind := l_provider_kind s;
     qxleaseledgerprincipalruntime := l_principal_runtime s |}.

Definition QxCatalogInsertSchedulerLease (queueoid : Oid) (s : QxSchedulerLeaseSnapshot) : M Oid :=
  insert_row (lease_ledger_row queueoid s).

Definition heartbeat_ledger_row (leaseoid : Oid) (s : QxSchedulerHeartbeatSnapshot)
    (heartbeatoid : Oid) : pg_qx_scheduler_heartbeat :=
  {| heartbeat_row_oid := heartbeatoid; qxheartbeatledgerdbid := MyDatabaseId E;
     qxheartbeatledgerowner := h_ownerid s; qxheartbeatledgerleaseid := leaseoid;
     qxheartbeatledgerworkerid := h_workeroid s; qxheartbeatledgersessionid := h_sessionoid s;
     qxheartbeatledgertaskid := h_taskoid s; qxheartbeatledgerattemptid := h_attemptoid s;
     qxheartbeatledgerstate := h_state s; qxheartbeatledgerlagms := h_lag_ms s;
     qxheartbeatledgerobservedat := h_observed_at s;
     qxheartbeatledgerexpectedbefore := h_expected_before s;
     qxheartbeatledgerstale := h_stale s; qxheartbeatledgerworkername := h_worker_name s;
     qxheartbeatledgerqueuename := h_queue_name s;
     qxheartbeatledgerprincipalruntime := h_principal_runtime s;
     qxheartbeatledgerproviderkind := h_provider_kind s;
     qxheartbeatledgerreceiptmode := h_receipt_mode s |}.

Definition QxCatalogInsertSchedulerHeartbeat (leaseoid : Oid) (s : QxSchedulerHeartbeatSnapshot) :
    M Oid :=
  insert_row (heartbeat_ledger_row leaseoid s).

(** *** Tasks and the objects of DDL

    The dependency records of [pg_depend] and the object access hooks are
    outside these tables and are not modelled. *)

Definition task_row (p : QxCatalogTaskInsertParams) (taskoid : Oid) : pg_qx_task :=
  {| task_oid := taskoid; qxtaskdbid := MyDatabaseId E; qxtasksessionid := tp_sessionoid p;
     qxtaskagentid := tp_agentoid p; qxtasknamespacepolicyid := tp_namespace_policy_oid p;
     qxtaskidentityid := tp_identityoid p; qxtaskowner := tp_ownerid p;
     qxtasklastattemptid := InvalidOid; qxtasklastcheckpointid := InvalidOid;
     qxtaskbudgettokens := tp_budget_tokens p; qxtaskbudgetcost := tp_budget_cost p;
     qxtaskauthorizedtooltokens := tp_authorized_tool_tokens p;
     qxtaskauthorizedtoolcost := tp_authorized_tool_cost p;
     qxtaskestimatedtokens := tp_estimated_tokens p;
     qxtaskestimatedcost := tp_estimated_cost p;
     qxtaskconsumedtokens := 0; qxtaskconsumedcost := 0;
     qxtaskstate := QX_TASK_STATE_QUEUED; qxtaskname := tp_task_name p;
     qxtaskgoal := tp_goal p; qxtaskinput := tp_input p; qxtaskpriority := tp_priority p;
     qxtaskauthorizedtools := tp_authorized_tools p;
     qxtasksubmitcontract := tp_submit_contract p;
     qxtaskresumecontract := tp_resume_contract p |}.

Definition QxCatalogInsertTask (params : QxCatalogTaskInsertParams) : M Oid :=
  insert_row (task_row params).

Definition QxCatalogInsertIdentity (namespaceoid ownerid authrole : Oid) (name : string)
    (policy_name : cstr) (budget_options : option pg_node) : M Oid :=
  insert_row_unique
    (fun r => String.eqb (qxidentityname r) (namein name) && (qxidentitynamespace r =? namespaceoid))
    "pg_qx_identity_name_nsp_index"
    (fun o => Mk_qx_identity o (namein name) namespaceoid ownerid authrole policy_name budget_options).

Definition QxCatalogInsertAgent (name : string)
    (namespaceoid namespacepolicyoid identityoid ownerid : Oid)
    (identity_name model_uri memory_profile policy_name : cstr)
    (tools budget_options : option pg_node) : M Oid :=
  insert_row_unique
    (fun r => String.eqb (qxagentname r) (namein name) && (qxagentnamespace r =? namespaceoid))
    "pg_qx_agent_name_nsp_index"
    (fun o => Mk_qx_agent o (namein name) namespaceoid namespacepolicyoid identityoid ownerid
                identity_name model_uri memory_profile policy_name tools budget_options).

Definition QxCatalogInsertSession (agentoid namespacepolicyoid identityoid ownerid : Oid)
    (status : ascii) (context_serialized : cstr) : M Oid :=
  insert_row (fun o => Mk_qx_session o (MyDatabaseId E) agentoid namespacepolicyoid identityoid
                         ownerid status context_serialized).

Definition QxCatalogInsertMemory (agentoid sessionoid ownerid : Oid) (scope : ascii)
    (memory_key serialized_value serialized_tags : cstr) : M Oid :=
  insert_row (fun o => Mk_qx_memory o (MyDatabaseId E) agentoid sessionoid InvalidOid ownerid
                         scope memory_key serialized_value serialized_tags).

Definition QxCatalogInsertNamespacePolicy (name : string) (namespaceoid ownerid authrole : Oid)
    (require_known_tools enforce_budgets : bool) (policy_contract : cstr)
    (allowed_tools : option pg_node) : M Oid :=
  insert_row_unique
    (fun r => String.eqb (qxnamespacepolicyname r) (namein name) && (qxnamespaceid r =? namespaceoid))
    "pg_qx_namespace_name_nsp_index"
    (fun o => Mk_qx_namespace o (namein name) namespaceoid ownerid authrole require_known_tools
                enforce_budgets policy_contract allowed_tools).

Definition QxCatalogInsertProvider (name : string) (namespaceoid ownerid : Oid)
    (enabled attestation_required : bool)
    (kind endpoint receipt_alg receipt_key attestation_profile attestation_version
     attestation_policy : cstr) : M Oid :=
  insert_row_unique
    (fun r => String.eqb (qxprovidername r) (namein name) && (qxprovidernamespace r =? namespaceoid))
    "pg_qx_provider_name_nsp_index"
    (fun o => Mk_qx_provider o (namein name) namespaceoid ownerid enabled attestation_required
                kind endpoint receipt_alg receipt_key attestation_profile attestation_version
                attestation_policy).

Definition QxCatalogInsertPrincipal (name : string) (namespaceoid ownerid provideroid : Oid)
    (enabled : bool)
    (sandbox_name program_name provider_name runtime_class receipt_signer attestation_profile
     attestation_version attestation_policy : cstr) : M Oid :=
  insert_row_unique
    (fun r => String.eqb (qxprincipalname r) (namein name) && (qxprincipalnamespace r =? namespaceoid))
    "pg_qx_principal_name_nsp_index"
    (fun o => Mk_qx_principal o (namein name) namespaceoid ownerid provideroid enabled sandbox_name
                program_name provider_name runtime_class receipt_signer attestation_profile
                attestation_version attestation_policy).

(** The runtime class, sandbox ceiling and capability tags columns stay NULL. *)
Definition QxCatalogInsertTool (name : string) (namespaceoid ownerid principaloid : Oid)
    (enabled : bool) (token_cost cost_units : Z)
    (handler_name sandbox_name principal_name policy_name : cstr) : M Oid :=
  insert_row_unique
    (fun r => String.eqb (qxtoolname r) (namein name) && (qxtoolnamespace r =? namespaceoid))
    "pg_qx_tool_name_nsp_index"
    (fun o => Mk_qx_tool o (namein name) namespaceoid ownerid principaloid enabled token_cost
                cost_units handler_name sandbox_name None None None principal_name policy_name).

End WithEnv.
