(* ===== verification/StatHistory.v ===== *)
(** * Statistics views and their history

    The SQL functions of [src/src/backend/qx/observe/qx_stat.c] and of
    [qx_backend_supervisor.c]: the rows that show the counters, the snapshots
    written to [pg_qx_stat_history], the reading of the history and its
    pruning.  A set-returning function is the list of its rows; the tuples hold
    the columns in the order of the function's result. *)

From Stdlib Require Import Ascii String.
From S2P Require Import Prelude Text Types Scheduler Stat Tables World Catalog.
Open Scope string_scope.
Open Scope Z_scope.
Open Scope bool_scope.
Open Scope list_scope.

(** [counters != NULL ? counters->f : 0] *)
Definition count_of (f : QxStatCounters -> Z) (counters : option QxStatCounters) : Z :=
  match counters with Some c => f c | None => 0 end.

Definition call_count (c : QxStatCounters) : Z := int64 (submit_count c + resume_count c).

Section Views.
Context (E : Env).

Definition entity_counters (s : QxStatSharedState) (kind : QxStatKind) (entity : Oid) (class : cstr) :
    option QxStatCounters :=
  qx_stat_lookup_entry (mk_key (MyDatabaseId E) kind entity class) (st_slots s).

(** ** Rows that show the counters *)

Record provider_stats := MkProviderStats {
  vp_oid : Oid; vp_name : string; vp_kind : string; vp_endpoint : string;
  vp_enabled : bool; vp_attestation_required : bool; vp_counts : list Z
}.

Definition provider_stats_row (s : QxStatSharedState) (info : QxCatalogProviderInfo) : provider_stats :=
  let counters := entity_counters s QX_STAT_PROVIDER (provider_oid info) None in
  {| vp_oid := provider_oid info; vp_name := qxprovidername info;
     vp_kind := cstr_or (qxproviderkind info) ""; vp_endpoint := cstr_or (qxproviderendpoint info) "";
     vp_enabled := qxproviderenabled info;
     vp_attestation_required := qxproviderattestationrequired info;
     vp_counts := [count_of submit_count counters; count_of resume_count counters;
                   count_of verified_receipts counters; count_of rejected_receipts counters;
                   count_of checkpoint_count counters; count_of call_count counters; 0; 0] |}.

Definition pg_qx_stat_get_provider_stats : M (list provider_stats) :=
  gets (fun w => provider_stats_row (w_stat w) <$>
                   QxCatalogBuildProviderInfoList (w_vis w) InvalidOid InvalidOid).

Record principal_stats := MkPrincipalStats {
  vr_oid : Oid; vr_name : string; vr_provider_name : string; vr_provider_kind : string;
  vr_runtime_class : string; vr_sandbox : string; vr_program : string;
  vr_enabled : bool; vr_has_signer : bool; vr_counts : list Z
}.

Definition principal_stats_row (s : QxStatSharedState) (info : QxCatalogPrincipalInfo) :
    principal_stats :=
  let counters := entity_counters s QX_STAT_PRINCIPAL (pr_oid info) None in
  {| vr_oid := pr_oid info; vr_name := cstr_or (pr_name info) "";
     vr_provider_name := cstr_or (pr_provider_name info) "";
     vr_provider_kind := cstr_or (pr_provider_kind info) "";
     vr_runtime_class := cstr_or (pr_runtime_class info) "";
     vr_sandbox := cstr_or (pr_sandbox info) ""; vr_program := cstr_or (pr_program info) "";
     vr_enabled := pr_enabled info; vr_has_signer := negb (is_blank (pr_receipt_signer info));
     vr_counts := [count_of submit_count counters; count_of resume_count counters;
                   count_of verified_receipts counters; count_of rejected_receipts counters;
                   count_of checkpoint_count counters; count_of call_count counters] |}.

Definition pg_qx_stat_get_principal_stats : M (list principal_stats) :=
  gets (fun w => principal_stats_row (w_stat w) <$>
                   QxCatalogBuildPrincipalInfoList (w_vis w) InvalidOid InvalidOid).

Definition runtime_class_row (s : QxStatSharedState) (class : string) : string * list Z :=
  let counters := entity_counters s QX_STAT_RUNTIME_CLASS InvalidOid (Some class) in
  (class, [count_of submit_count counters; count_of resume_count counters;
           count_of verified_receipts counters; count_of rejected_receipts counters;
           count_of checkpoint_count counters; count_of call_count counters; 0]).

Definition pg_qx_stat_get_runtime_class_stats : M (list (string * list Z)) :=
  gets (fun w => runtime_class_row (w_stat w) <$> QxCatalogBuildDistinctRuntimeClassList (w_vis w)).

Definition pg_qx_stat_get_scheduler_activity_stats : M (list Z) :=
  gets (fun w =>
    let totals := qx_stat_aggregate_scheduler_locked (MyDatabaseId E) (st_slots (w_stat w)) in
    [renew_count totals; reclaim_count totals; release_count totals; retry_dispatch_count totals;
     dead_letter_count totals]).

Definition pg_qx_stat_get_recovery_stats : M (list Z) :=
  gets (fun w =>
    let counters := entity_counters (w_stat w) QX_STAT_RECOVERY InvalidOid None in
    [count_of recovery_startup_scans counters; count_of recovery_failover_rebuilds counters;
     count_of recovery_tasks_requeued counters; count_of recovery_attempts_fenced counters;
     count_of recovery_tasks_requeue_suppressed counters;
     count_of recovery_attempts_fence_suppressed counters]).

Definition pg_qx_stat_get_backend_supervisor_stats : M (list Z) :=
  gets (fun w =>
    let counters := entity_counters (w_stat w) QX_STAT_BACKEND_SUPERVISOR InvalidOid None in
    [count_of backend_supervisor_register_count counters;
     count_of backend_supervisor_release_count counters;
     count_of backend_supervisor_fence_count counters;
     QxStatBackendLeaseCount (MyDatabaseId E) InvalidOid (st_backend_leases (w_stat w))]).

(** Task, instance and kind of each lease. *)
Definition pg_qx_backend_supervisor_list : M (list (Oid * cstr * string)) :=
  gets (fun w =>
    (fun l => (bl_taskoid l, if String.eqb (bl_instance_id l) "" then None else Some (bl_instance_id l),
               QxBackendSupervisorLeaseKindName (bl_kind l))) <$>
      QxStatBackendLeaseGetSnapshots (MyDatabaseId E) (Z.of_nat QX_STAT_BACKEND_LEASE_SLOT_COUNT)
        (st_backend_leases (w_stat w))).

Definition stat_reset (scope : cstr) : M unit :=
  let* s := gets w_stat in
  match pg_qx_stat_reset scope s with
  | Some s' => modify (set_stat s')
  | None => throw ERRCODE_INVALID_PARAMETER_VALUE
              (cat ["invalid QX stat reset scope "; quoted (cstr_or scope "all")]) None
  end.

(** ** Writing the history *)

Definition qx_stat_scope_matches (requested candidate : cstr) : bool :=
  match requested, candidate with
  | Some r, Some c => if pg_strcaseeq r "all" then true else pg_strcaseeq r c
  | _, _ => false
  end.

(** [(int32) Min(count, INT_MAX)] *)
Definition history_count (count : Z) : Z := int32 (Z.min count INT32_MAX).

(** The attempts fenced are not filled in and stay 0. *)
Definition history_row (captured : TimestampTz) (scope : string) (entityoid : Oid) (entity : cstr)
    (c : QxStatCounters) (rowoid : Oid) : pg_qx_stat_history :=
  {| history_oid := rowoid; qxstathistorydbid := MyDatabaseId E;
     qxstathistorycaptured := captured; qxstathistoryentityoid := entityoid;
     qxstathistorysubmitcount := history_count (submit_count c);
     qxstathistoryresumecount := history_count (resume_count c);
     qxstathistoryverifiedreceipts := history_count (verified_receipts c);
     qxstathistoryrejectedreceipts := history_count (rejected_receipts c);
     qxstathistorycheckpointcount := history_count (checkpoint_count c);
     qxstathistoryrenewcount := history_count (renew_count c);
     qxstathistoryreclaimcount := history_count (reclaim_count c);
     qxstathistoryreleasecount := history_count (release_count c);
     qxstathistoryretrydispatchcount := history_count (retry_dispatch_count c);
     qxstathistorydeadlettercount := history_count (dead_letter_count c);
     qxstathistorystartupscancount := history_count (recovery_startup_scans c);
     qxstathistoryfailoverrebuildcount := history_count (recovery_failover_rebuilds c);
     qxstathistorytasksrequeued := history_count (recovery_tasks_requeued c);
     qxstathistoryattemptsfenced := 0;
     qxstathistoryscope := Some scope;
     qxstathistoryentity := if is_blank entity then None else entity |}.

Definition qx_stat_insert_history_row (scope : string) (entityoid : Oid) (entity : cstr)
    (c : QxStatCounters) : M unit :=
  let* captured := GetCurrentTimestamp E in
  let* _ := insert_row (history_row captured scope entityoid entity c) in
  ret tt.

(** A row for an entity; one without a slot has counted nothing. *)
Definition snapshot_entity (scope : string) (kind : QxStatKind) (entityoid : Oid) (class entity : cstr) :
    M unit :=
  let* s := gets w_stat in
  qx_stat_insert_history_row scope entityoid entity
    (default zero_counters (entity_counters s kind entityoid class)).

Definition snapshot_each {A} (f : A -> M unit) (l : list A) : M Z :=
  mforeach f l ;;; ret (Z.of_nat (List.length l)).

Definition snapshot_providers : M Z :=
  let* c := gets w_vis in
  snapshot_each (fun info => snapshot_entity "provider" QX_STAT_PROVIDER (provider_oid info) None
                               (Some (qxprovidername info)))
    (QxCatalogBuildProviderInfoList c InvalidOid InvalidOid).

Definition snapshot_principals : M Z :=
  let* c := gets w_vis in
  snapshot_each (fun info => snapshot_entity "principal" QX_STAT_PRINCIPAL (pr_oid info) None (pr_name info))
    (QxCatalogBuildPrincipalInfoList c InvalidOid InvalidOid).

Definition snapshot_runtime_classes : M Z :=
  let* c := gets w_vis in
  snapshot_each (fun class => snapshot_entity "runtime_class" QX_STAT_RUNTIME_CLASS InvalidOid
                                (Some class) (Some class))
    (QxCatalogBuildDistinctRuntimeClassList c).

Definition snapshot_scheduler : M Z :=
  let* s := gets w_stat in
  qx_stat_insert_history_row "scheduler" InvalidOid (Some "scheduler_activity")
    (qx_stat_aggregate_scheduler_locked (MyDatabaseId E) (st_slots s)) ;;;
  ret 1.

Definition snapshot_recovery : M Z :=
  snapshot_entity "recovery" QX_STAT_RECOVERY InvalidOid None (Some "recovery") ;;; ret 1.

Definition snapshot_scopes : list string :=
  ["all"; "provider"; "principal"; "runtime_class"; "scheduler"; "scheduler_activity"; "recovery"].

Definition qx_stat_snapshot_scope (scope : cstr) : M Z :=
  match scope with
  | None => throw ERRCODE_INVALID_PARAMETER_VALUE "QX stat snapshot scope must not be null" None
  | Some requested =>
      let matches candidate := qx_stat_scope_matches scope (Some candidate) in
      let* providers := if matches "provider" then snapshot_providers else ret 0 in
      let* principals := if matches "principal" then snapshot_principals else ret 0 in
      let* classes := if matches "runtime_class" then snapshot_runtime_classes else ret 0 in
      let* scheduler :=
        if matches "scheduler" || matches "scheduler_activity" then snapshot_scheduler else ret 0 in
      let* recovery := if matches "recovery" then snapshot_recovery else ret 0 in
      let written := providers + principals + classes + scheduler + recovery in
      if (written =? 0) && negb (existsb (pg_strcaseeq requested) snapshot_scopes)
      then throw ERRCODE_INVALID_PARAMETER_VALUE
             (cat ["invalid QX stat snapshot scope "; quoted requested]) None
      else ret written
  end.

Definition pg_qx_stat_snapshot (scope : cstr) : M Z :=
  qx_stat_snapshot_scope (Some (cstr_or scope "all")).

(** ** Reading and pruning it *)

Definition qx_stat_history_scope_matches (requested row_scope : cstr) : bool :=
  match requested, row_scope with
  | Some r, Some c => if pg_strcaseeq r "all" then true else pg_strcaseeq r c
  | _, _ => false
  end.

Record history_view := MkHistoryView {
  hv_oid : Oid; hv_captured : TimestampTz; hv_scope : string; hv_entity : cstr;
  hv_entityoid : Oid; hv_counts : list Z
}.

Definition history_view_of (r : pg_qx_stat_history) (row_scope : string) : history_view :=
  MkHistoryView (history_oid r) (qxstathistorycaptured r) row_scope (qxstathistoryentity r)
    (qxstathistoryentityoid r)
    [qxstathistorysubmitcount r; qxstathistoryresumecount r; qxstathistoryverifiedreceipts r;
     qxstathistoryrejectedreceipts r; qxstathistorycheckpointcount r; qxstathistoryrenewcount r;
     qxstathistoryreclaimcount r; qxstathistoryreleasecount r; qxstathistoryretrydispatchcount r;
     qxstathistorydeadlettercount r; qxstathistorystartupscancount r;
     qxstathistoryfailoverrebuildcount r; qxstathistorytasksrequeued r].

(** [since] is [None] for a NULL argument, which is [DT_NOBEGIN]. *)
Definition history_output (scope : cstr) (since : option TimestampTz) (r : pg_qx_stat_history) :
    option history_view :=
  if negb (qxstathistorydbid r =? MyDatabaseId E) then None
  else if match since with Some t => qxstathistorycaptured r <? t | None => false end then None
  else match qxstathistoryscope r with
       | None => None
       | Some row_scope =>
           if negb (qx_stat_history_scope_matches scope (Some row_scope)) then None
           else Some (history_view_of r row_scope)
       end.

Definition pg_qx_stat_get_history (scope : cstr) (since : option TimestampTz) : M (list history_view) :=
  gets (fun w => omap (history_output (Some (cstr_or scope "all")) since) (c_histories (w_vis w))).

Definition history_prunable (cutoff : TimestampTz) (r : pg_qx_stat_history) : bool :=
  if negb (qxstathistorydbid r =? MyDatabaseId E) then false
  else if cutoff <=? qxstathistorycaptured r then false
  else true.

Definition pg_qx_stat_prune_history (cutoff : TimestampTz) : M Z :=
  delete_rows (history_prunable cutoff).

End Views.

(** ** A snapshot as a list of entries *)

Record entry := MkEntry {
  en_scope : string; en_oid : Oid; en_entity : cstr; en_counters : QxStatCounters
}.

Section History.
Context (E : Env).

Definition entry_row (e : entry) (captured : TimestampTz) (rowoid : Oid) : pg_qx_stat_history :=
  history_row E captured (en_scope e) (en_oid e) (en_entity e) (en_counters e) rowoid.

Definition record_entry (e : entry) (w : world) : world :=
  add_row (entry_row e (clock E (w_ticks w)) (w_next_oid w)) (set_ticks (S (w_ticks w)) w).

Definition record_entries (es : list entry) (w : world) : world :=
  fold_left (fun w e => record_entry e w) es w.

(** The rows of the entries: identifiers from the counter, clock readings in
    order. *)
Fixpoint entry_rows (es : list entry) (rowoid : Z) (tick : nat) : list pg_qx_stat_history :=
  match es with
  | [] => []
  | e :: rest => entry_row e (clock E tick) rowoid :: entry_rows rest (rowoid + 1) (S tick)
  end.

Definition counted_entry (s : QxStatSharedState) (scope : string) (kind : QxStatKind) (o : Oid)
    (class name : cstr) : entry :=
  MkEntry scope o name (default zero_counters (entity_counters E s kind o class)).

Definition provider_entry (s : QxStatSharedState) (p : QxCatalogProviderInfo) : entry :=
  counted_entry s "provider" QX_STAT_PROVIDER (provider_oid p) None (Some (qxprovidername p)).
Definition principal_entry (s : QxStatSharedState) (p : QxCatalogPrincipalInfo) : entry :=
  counted_entry s "principal" QX_STAT_PRINCIPAL (pr_oid p) None (pr_name p).
Definition class_entry (s : QxStatSharedState) (class : string) : entry :=
  counted_entry s "runtime_class" QX_STAT_RUNTIME_CLASS InvalidOid (Some class) (Some class).
Definition scheduler_entry (s : QxStatSharedState) : entry :=
  MkEntry "scheduler" InvalidOid (Some "scheduler_activity")
    (qx_stat_aggregate_scheduler_locked (MyDatabaseId E) (st_slots s)).
Definition recovery_entry (s : QxStatSharedState) : entry :=
  counted_entry s "recovery" QX_STAT_RECOVERY InvalidOid None (Some "recovery").

Definition snapshot_plan (s : QxStatSharedState) (c : catalog) : list entry :=
  (provider_entry s <$> QxCatalogBuildProviderInfoList c InvalidOid InvalidOid) ++
  (principal_entry s <$> QxCatalogBuildPrincipalInfoList c InvalidOid InvalidOid) ++
  (class_entry s <$> QxCatalogBuildDistinctRuntimeClassList c) ++
  [scheduler_entry s; recovery_entry s].

Lemma record_entries_app es fs w :
  record_entries (es ++ fs) w = record_entries fs (record_entries es w).
Proof. apply fold_left_app. Qed.

Lemma record_entries_frame es w :
  w_vis (record_entries es w) = w_vis w /\ w_stat (record_entries es w) = w_stat w /\
  w_wal (record_entries es w) = w_wal w.
Proof.
  revert w. induction es as [|e es IH]; intros w; [done|]. exact (IH (record_entry e w)).
Qed.

Lemma record_entries_new es w :
  w_new (record_entries es w) =
  set_histories (c_histories (w_new w) ++ entry_rows es (w_next_oid w) (w_ticks w)) (w_new w).
Proof.
  revert w. induction es as [|e es IH]; intros w.
  - cbn. rewrite app_nil_r. by destruct (w_new w).
  - cbn [record_entries fold_left]. change (fold_left _ es ?x) with (record_entries es x).
    rewrite IH. cbn. by rewrite <- app_assoc.
Qed.

Lemma room_entries k es w :
  room (k + Z.of_nat (List.length es)) w -> room k (record_entries es w).
Proof.
  revert w k. induction es as [|e es IH]; intros w k Hr; [by rewrite Z.add_0_r in Hr|].
  cbn [record_entries fold_left]. apply IH. apply room_add_row; [|done].
  cbn [List.length] in Hr. eapply room_mono; [exact Hr|lia].
Qed.

Lemma insert_history_run k w scope o name c :
  room k w -> 0 < k ->
  qx_stat_insert_history_row E scope o name c w =
  Ok tt (record_entry (MkEntry scope o name c) w).
Proof.
  intros Hr Hk. unfold qx_stat_insert_history_row.
  erewrite bind_run by reflexivity.
  rewrite (bind_run _ _ _ _ _ (insert_row_room k (set_ticks (S (w_ticks w)) w) _ _ Hr Hk)). done.
Qed.

Lemma snapshot_entity_run k w scope kind o class name :
  room k w -> 0 < k ->
  snapshot_entity E scope kind o class name w =
  Ok tt (record_entry (counted_entry (w_stat w) scope kind o class name) w).
Proof.
  intros Hr Hk. unfold snapshot_entity. erewrite bind_run by reflexivity.
  by apply (insert_history_run k).
Qed.

(** [m] returns [v] and records [es], when the statistics are [s], the visible
    catalogs [c] and there is room for the rows. *)
Definition records {A} (s : QxStatSharedState) (c : catalog) (m : M A) (v : A) (es : list entry) :
    Prop :=
  forall w, w_stat w = s -> w_vis w = c -> room (Z.of_nat (List.length es)) w ->
    m w = Ok v (record_entries es w).

Lemma records_ret {A} s c (v : A) : records s c (ret v) v [].
Proof. done. Qed.

Lemma records_bind {A B} s c (m : M A) (k : A -> M B) v u es fs :
  records s c m v es -> records s c (k v) u fs -> records s c (bind m k) u (es ++ fs).
Proof.
  intros Hm Hk w Hs Hc Hr. rewrite length_app in Hr.
  rewrite (bind_run _ _ _ _ _ (Hm w Hs Hc ltac:(eapply room_mono; [exact Hr|lia]))).
  rewrite record_entries_app. destruct (record_entries_frame es w) as (Hv & Hst & _).
  apply Hk; [congruence..|]. apply room_entries. eapply room_mono; [exact Hr|lia].
Qed.

Lemma records_gets_stat {A} s c (k : QxStatSharedState -> M A) v es :
  records s c (k s) v es -> records s c (bind (gets w_stat) k) v es.
Proof. intros Hk w Hs Hc Hr. erewrite bind_run by reflexivity. rewrite Hs. by apply Hk. Qed.

Lemma records_gets_vis {A} s c (k : catalog -> M A) v es :
  records s c (k c) v es -> records s c (bind (gets w_vis) k) v es.
Proof. intros Hk w Hs Hc Hr. erewrite bind_run by reflexivity. rewrite Hc. by apply Hk. Qed.

Lemma records_insert s c scope o name ct :
  records s c (qx_stat_insert_history_row E scope o name ct) tt [MkEntry scope o name ct].
Proof. intros w _ _ Hr. by apply (insert_history_run 1). Qed.

Lemma records_entity s c scope kind o class name :
  records s c (snapshot_entity E scope kind o class name) tt [counted_entry s scope kind o class name].
Proof. apply records_gets_stat, records_insert. Qed.

Lemma records_each {A} s c (f : A -> M unit) (g : A -> entry) l :
  (forall x, records s c (f x) tt [g x]) ->
  records s c (snapshot_each f l) (Z.of_nat (List.length l)) (g <$> l).
Proof.
  intros Hf. unfold snapshot_each. rewrite <- (app_nil_r (g <$> l)).
  apply (records_bind s c _ _ tt); [|apply records_ret].
  induction l as [|x l IH]; [apply records_ret|].
  rewrite fmap_cons. apply (records_bind s c _ _ tt _ [g x] (g <$> l)); auto.
Qed.

Lemma snapshot_all_records s c :
  records s c (pg_qx_stat_snapshot E None) (Z.of_nat (List.length (snapshot_plan s c)))
    (snapshot_plan s c).
Proof.
  unfold pg_qx_stat_snapshot, qx_stat_snapshot_scope. cbn [cstr_or].
  rewrite !(eq_refl : qx_stat_scope_matches (Some "all") (Some _) = true). cbn [orb].
  unfold snapshot_plan. rewrite !length_app, !length_fmap.
  eapply records_bind.
  { apply records_gets_vis, records_each. intros. apply records_entity. }
  eapply records_bind.
  { apply records_gets_vis, records_each. intros. apply records_entity. }
  eapply records_bind.
  { apply records_gets_vis, records_each. intros. apply records_entity. }
  apply (records_bind s c _ _ 1 _ [scheduler_entry s] [recovery_entry s]).
  { apply records_gets_stat. rewrite <- (app_nil_r [_]).
    apply (records_bind s c _ _ tt); [apply records_insert|apply records_ret]. }
  rewrite <- (app_nil_r [recovery_entry s]). apply (records_bind s c _ _ 1).
  { rewrite <- (app_nil_r [_]). apply (records_bind s c _ _ tt); [apply records_entity|apply records_ret]. }
  rewrite (eq_refl : existsb (pg_strcaseeq "all") snapshot_scopes = true), andb_false_r.
  intros w _ _ _. unfold ret. f_equal.
  rewrite (eq_refl : List.length (scheduler_entry s :: [recovery_entry s] ++ []) = 2%nat). unfold QxCatalogProviderInfo. lia.
Qed.

(** ** Snapshot, pruning and reading together *)

Definition shown (v : history_view) : string * Oid * cstr := (hv_scope v, hv_entityoid v, hv_entity v).

Definition named (name : string) : cstr := if String.eqb name "" then None else Some name.

Definition entry_shown (e : entry) : string * Oid * cstr * list Z :=
  (en_scope e, en_oid e, if is_blank (en_entity e) then None else en_entity e,
   (fun f => history_count (f (en_counters e))) <$>
     [submit_count; resume_count; verified_receipts; rejected_receipts; checkpoint_count;
      renew_count; reclaim_count; release_count; retry_dispatch_count; dead_letter_count;
      recovery_startup_scans; recovery_failover_rebuilds; recovery_tasks_requeued]).

Lemma entry_rows_captured es rowoid tick since r :
  (forall i, (i < List.length es)%nat -> since <= clock E (tick + i)%nat) ->
  r ∈ entry_rows es rowoid tick -> since <= qxstathistorycaptured r.
Proof.
  revert rowoid tick. induction es as [|e es IH]; intros rowoid tick Hc Hr; [by inversion Hr|].
  apply elem_of_cons in Hr as [->|Hr].
  - pose proof (Hc 0%nat ltac:(cbn; lia)) as H. rewrite Nat.add_0_r in H. exact H.
  - apply (IH (rowoid + 1) (S tick)); [|done]. intros i Hi.
    replace (S tick + i)%nat with (tick + S i)%nat by lia. apply Hc. cbn. lia.
Qed.

Lemma entry_row_output e captured rowoid :
  history_output E (Some "all") None (entry_row e captured rowoid) =
  Some (history_view_of (entry_row e captured rowoid) (en_scope e)).
Proof.
  unfold history_output. cbn [qxstathistorydbid qxstathistoryscope entry_row history_row].
  rewrite Z.eqb_refl. cbn [negb].
  rewrite (eq_refl : qx_stat_history_scope_matches (Some "all") (Some (en_scope e)) = true). done.
Qed.

Lemma entry_rows_output es rowoid tick :
  (fun v => (shown v, hv_counts v)) <$>
    omap (history_output E (Some "all") None) (entry_rows es rowoid tick) =
  entry_shown <$> es.
Proof.
  revert rowoid tick. induction es as [|e es IH]; intros rowoid tick; [done|].
  cbn [entry_rows omap list_omap]. rewrite entry_row_output, !fmap_cons. f_equal. apply IH.
Qed.

Lemma entry_rows_kept es rowoid tick since :
  (forall i, (i < List.length es)%nat -> since <= clock E (tick + i)%nat) ->
  List.filter (history_prunable E since) (entry_rows es rowoid tick) = [] /\
  List.filter (fun r => negb (history_prunable E since r)) (entry_rows es rowoid tick) =
  entry_rows es rowoid tick.
Proof.
  intros Hc.
  assert (forall r, r ∈ entry_rows es rowoid tick -> history_prunable E since r = false) as Hk.
  { intros r Hr%(entry_rows_captured es rowoid tick since r Hc). unfold history_prunable.
    rewrite (proj2 (Z.leb_le _ _) Hr). by destruct (negb _). }
  induction (entry_rows es rowoid tick) as [|r l IH]; [done|]. cbn.
  rewrite Hk by (apply elem_of_cons; by left). destruct IH as [-> ->]; [|done].
  intros r' Hr'. apply Hk. by apply elem_of_cons; right.
Qed.

(** What the view functions show, as lines of the history. *)
Definition provider_line (p : provider_stats) : string * Oid * cstr * list Z :=
  ("provider", vp_oid p, named (vp_name p), history_count <$> take 5 (vp_counts p)).
Definition principal_line (p : principal_stats) : string * Oid * cstr * list Z :=
  ("principal", vr_oid p, named (vr_name p), history_count <$> take 5 (vr_counts p)).
Definition class_line (p : string * list Z) : string * Oid * cstr * list Z :=
  ("runtime_class", InvalidOid, named (fst p), history_count <$> take 5 (snd p)).
Definition line (v : history_view) : string * Oid * cstr * list Z := (shown v, take 5 (hv_counts v)).

Lemma history_count_0 : history_count 0 = 0.
Proof. reflexivity. Qed.

Lemma counts_line (c : option QxStatCounters) :
  (fun f => history_count (f (default zero_counters c))) <$>
    [submit_count; resume_count; verified_receipts; rejected_receipts; checkpoint_count] =
  history_count <$>
    [count_of submit_count c; count_of resume_count c; count_of verified_receipts c;
     count_of rejected_receipts c; count_of checkpoint_count c].
Proof. by destruct c. Qed.

Definition entry_line (e : entry) : string * Oid * cstr * list Z :=
  let '(k, l) := entry_shown e in (k, take 5 l).

Lemma provider_entry_line s p : entry_line (provider_entry s p) = provider_line (provider_stats_row E s p).
Proof.
  unfold entry_line, entry_shown, provider_line. cbn -[history_count counted_entry entity_counters].
  unfold provider_entry, counted_entry. cbn -[history_count entity_counters].
  f_equal. apply (counts_line (entity_counters E s QX_STAT_PROVIDER (provider_oid p) None)).
Qed.

Lemma named_or v : named (cstr_or v "") = if is_blank v then None else v.
Proof. by destruct v as [[|]|]. Qed.

Lemma principal_entry_line s p :
  entry_line (principal_entry s p) = principal_line (principal_stats_row E s p).
Proof.
  unfold entry_line, entry_shown, principal_line. cbn -[history_count counted_entry entity_counters].
  unfold principal_entry, counted_entry. cbn -[history_count entity_counters named cstr_or is_blank].
  rewrite named_or. f_equal. apply (counts_line (entity_counters E s QX_STAT_PRINCIPAL (pr_oid p) None)).
Qed.

Lemma class_entry_line s c : entry_line (class_entry s c) = class_line (runtime_class_row E s c).
Proof.
  unfold entry_line, entry_shown, class_line. cbn -[history_count counted_entry entity_counters].
  unfold class_entry, counted_entry. cbn -[history_count entity_counters].
  f_equal. apply (counts_line (entity_counters E s QX_STAT_RUNTIME_CLASS InvalidOid (Some c))).
Qed.

Lemma shown_line (views : list history_view) (es : list entry) :
  (fun v => (shown v, hv_counts v)) <$> views = entry_shown <$> es -> line <$> views = entry_line <$> es.
Proof.
  intros H.
  change (line <$> views) with
    (((fun p => (fst p, take 5 (snd p))) ∘ (fun v => (shown v, hv_counts v))) <$> views).
  rewrite list_fmap_compose, H, <- list_fmap_compose. apply list_fmap_ext. intros _ e _.
  unfold entry_line, compose. by destruct (entry_shown e).
Qed.

Lemma other_databases_kept since rows :
  Forall (fun r => qxstathistorycaptured r < since) rows ->
  List.filter (fun r => negb (history_prunable E since r)) rows =
  List.filter (fun r => negb (qxstathistorydbid r =? MyDatabaseId E)) rows.
Proof.
  induction 1 as [|r rows Hr _ IH]; [done|]. cbn. rewrite IH. unfold history_prunable.
  rewrite (proj2 (Z.leb_gt _ _) Hr). by destruct (qxstathistorydbid r =? _).
Qed.

Lemma other_databases_hidden scope since rows :
  omap (history_output E scope since)
    (List.filter (fun r => negb (qxstathistorydbid r =? MyDatabaseId E)) rows) = [].
Proof.
  induction rows as [|r rows IH]; [done|]. cbn. destruct (qxstathistorydbid r =? _) eqn:Hd; [done|].
  cbn. unfold history_output at 1. rewrite Hd. exact IH.
Qed.

Lemma entry_rows_here es rowoid tick :
  List.filter (fun r => negb (qxstathistorydbid r =? MyDatabaseId E)) (entry_rows es rowoid tick) = [].
Proof.
  revert rowoid tick. induction es as [|e es IH]; intros; [done|]. cbn. rewrite Z.eqb_refl. apply IH.
Qed.

Lemma prune_run since w :
  w_new w = empty_catalog ->
  exists removed w', run_command (pg_qx_stat_prune_history E since) w = Ok removed w' /\
    c_histories (w_vis w') =
    List.filter (fun r => negb (history_prunable E since r)) (c_histories (w_vis w)).
Proof.
  intros Hn. eexists _, _. split; [reflexivity|]. cbn. rewrite Hn. apply app_nil_r.
Qed.

(** The lines of a reading that follows the plan, part by part. *)
Lemma plan_lines views s c :
  (fun v => (shown v, hv_counts v)) <$> views = entry_shown <$> snapshot_plan s c ->
  exists vp vr vc vs vy,
    views = vp ++ vr ++ vc ++ [vs; vy] /\
    line <$> vp = entry_line <$> (provider_entry s <$> QxCatalogBuildProviderInfoList c InvalidOid InvalidOid) /\
    line <$> vr = entry_line <$> (principal_entry s <$> QxCatalogBuildPrincipalInfoList c InvalidOid InvalidOid) /\
    line <$> vc = entry_line <$> (class_entry s <$> QxCatalogBuildDistinctRuntimeClassList c) /\
    (shown vs, hv_counts vs) = entry_shown (scheduler_entry s) /\
    (shown vy, hv_counts vy) = entry_shown (recovery_entry s).
Proof.
  unfold snapshot_plan. rewrite !fmap_app. intros H.
  apply fmap_app_inv in H as (vp & v1 & Hp & H & ->). symmetry in H.
  apply fmap_app_inv in H as (vr & v2 & Hr & H & ->). symmetry in H.
  apply fmap_app_inv in H as (vc & v3 & Hc & H & ->).
  destruct v3 as [|vs [|vy [|]]]; try discriminate H.
  exists vp, vr, vc, vs, vy. split; [done|]. split_and!; try (by apply shown_line).
  - exact (eq_sym (f_equal (fun l => hd (entry_shown (scheduler_entry s)) l) H)).
  - exact (eq_sym (f_equal (fun l => hd (entry_shown (recovery_entry s)) (tl l)) H)).
Qed.

(** C28. A snapshot of all statistics, a pruning of what is older, and a reading
    of the history: the snapshot succeeds when the identifiers last, the
    pruning removes exactly the older rows of this database, and the reading
    then returns one row for each provider, principal and runtime class and one
    each for the scheduler and the recovery, with the counts the statistics
    views show at that moment, cut off at the largest 32-bit number.  The
    database's other rows are gone and those of other databases are untouched. *)
Theorem history_keeps_snapshot w since providers principals classes scheduler recovery :
  w_new w = empty_catalog ->
  room (Z.of_nat (List.length (snapshot_plan (w_stat w) (w_vis w)))) w ->
  Forall (fun r => qxstathistorycaptured r < since) (c_histories (w_vis w)) ->
  (forall i, since <= clock E (w_ticks w + i)%nat) ->
  pg_qx_stat_get_provider_stats E w = Ok providers w ->
  pg_qx_stat_get_principal_stats E w = Ok principals w ->
  pg_qx_stat_get_runtime_class_stats E w = Ok classes w ->
  pg_qx_stat_get_scheduler_activity_stats E w = Ok scheduler w ->
  pg_qx_stat_get_recovery_stats E w = Ok recovery w ->
  exists n w1 removed w2 vp vr vc vs vy,
    run_command (pg_qx_stat_snapshot E None) w = Ok n w1 /\
    run_command (pg_qx_stat_prune_history E since) w1 = Ok removed w2 /\
    pg_qx_stat_get_history E None None w2 = Ok (vp ++ vr ++ vc ++ [vs; vy]) w2 /\
    n = Z.of_nat (List.length (vp ++ vr ++ vc ++ [vs; vy])) /\
    line <$> vp = provider_line <$> providers /\
    line <$> vr = principal_line <$> principals /\
    line <$> vc = class_line <$> classes /\
    shown vs = ("scheduler", InvalidOid, Some "scheduler_activity") /\
    take 5 (drop 5 (hv_counts vs)) = history_count <$> scheduler /\
    shown vy = ("recovery", InvalidOid, Some "recovery") /\
    drop 10 (hv_counts vy) = history_count <$> take 3 recovery /\
    List.filter (fun r => negb (qxstathistorydbid r =? MyDatabaseId E)) (c_histories (w_vis w2)) =
    List.filter (fun r => negb (qxstathistorydbid r =? MyDatabaseId E)) (c_histories (w_vis w)).
Proof.
  intros Hn Hr Hold Hclock HP HR HC HS HY.
  injection HP as <-. injection HR as <-. injection HC as <-. injection HS as <-. injection HY as <-.
  set (plan := snapshot_plan (w_stat w) (w_vis w)) in *.
  pose proof (snapshot_all_records (w_stat w) (w_vis w) w eq_refl eq_refl Hr) as Hsnap. fold plan in Hsnap.
  set (new := entry_rows plan (w_next_oid w) (w_ticks w)).
  set (w1 := cci_world (record_entries plan w)).
  assert (c_histories (w_vis w1) = c_histories (w_vis w) ++ new) as H1.
  { unfold w1. cbn. destruct (record_entries_frame plan w) as (-> & _ & _).
    rewrite record_entries_new, Hn. done. }
  destruct (prune_run since w1 eq_refl) as (removed & w2 & Hprune & H2).
  destruct (entry_rows_kept plan (w_next_oid w) (w_ticks w) since (fun i _ => Hclock i)) as [_ Hk].
  fold new in Hk. rewrite H1, List.filter_app, (other_databases_kept since _ Hold), Hk in H2.
  destruct (plan_lines (omap (history_output E (Some "all") None) new) (w_stat w) (w_vis w)
              (entry_rows_output plan (w_next_oid w) (w_ticks w)))
    as (vp & vr & vc & vs & vy & Hv & Hp & Hpr & Hc & Hs & Hy).
  exists (Z.of_nat (List.length plan)), w1, removed, w2, vp, vr, vc, vs, vy.
  split; [unfold run_command; by rewrite Hsnap|]. split; [exact Hprune|].
  split.
  { unfold pg_qx_stat_get_history, gets. cbn [cstr_or]. rewrite H2, omap_app, other_databases_hidden, Hv. done. }
  split.
  { pose proof (f_equal List.length (entry_rows_output plan (w_next_oid w) (w_ticks w))) as Hl.
    rewrite !length_fmap in Hl. fold new in Hl. rewrite Hv in Hl. by rewrite Hl. }
  rewrite <- list_fmap_compose in Hp. rewrite <- list_fmap_compose in Hpr.
  rewrite <- list_fmap_compose in Hc. split_and!.
  - rewrite Hp, <- list_fmap_compose. apply list_fmap_ext. intros. apply provider_entry_line.
  - rewrite Hpr, <- list_fmap_compose. apply list_fmap_ext. intros. apply principal_entry_line.
  - rewrite Hc, <- list_fmap_compose. apply list_fmap_ext. intros. apply class_entry_line.
  - exact (f_equal fst Hs).
  - rewrite (f_equal snd Hs : hv_counts vs = _). reflexivity.
  - exact (f_equal fst Hy).
  - rewrite (f_equal snd Hy : hv_counts vy = _). unfold recovery_entry, counted_entry.
    by destruct (entity_counters E (w_stat w) QX_STAT_RECOVERY InvalidOid None).
  - unfold new in H2. rewrite H2, List.filter_app, (entry_rows_here plan), app_nil_r.
    clear. induction (c_histories (w_vis w)) as [|r l IH]; [done|]. cbn.
    destruct (negb _) eqn:Hd; cbn; rewrite ?Hd, IH; done.
Qed.

End History.

(** *** An example: one provider with three submissions, and two older rows *)

Definition history_env : Env :=
  MkEnv 5 10 (fun n => 1000 + Z.of_nat n) (fun n => Z.of_nat n) true (fun a b => a =? b) 2200.

Definition older_row (database : Oid) (rowoid : Oid) : pg_qx_stat_history :=
  history_row (MkEnv database 10 (fun _ => 0) (fun _ => 0) true (fun a b => a =? b) 2200) 100
    "recovery" InvalidOid (Some "recovery") zero_counters rowoid.

Definition history_world : world :=
  let provider := Mk_qx_provider 20000 "docker" 2200 10 true false (Some "loopback")
                    (Some "local://runner") None None None None None in
  let submit := QxStatReportProviderExecution true 5 20000 false true in
  set_stat (submit (submit (submit QxStatShmemInit)))
    (set_vis (set_providers [provider]
                (set_histories [older_row 5 20001; older_row 6 20002] empty_catalog))
       (empty_world 20003)).

Lemma history_keeps_snapshot_witness :
  exists n w1 removed w2 views,
    run_command (pg_qx_stat_snapshot history_env None) history_world = Ok n w1 /\ n = 3 /\
    run_command (pg_qx_stat_prune_history history_env 500) w1 = Ok removed w2 /\
    pg_qx_stat_get_history history_env None None w2 = Ok views w2 /\
    line <$> take 1 views = [("provider", 20000, Some "docker", [3; 0; 3; 0; 0])] /\
    List.length (c_histories (w_vis w2)) = 4%nat.
Proof.
  destruct (history_keeps_snapshot history_env history_world 500
    [provider_stats_row history_env (w_stat history_world)
       (Mk_qx_provider 20000 "docker" 2200 10 true false (Some "loopback") (Some "local://runner")
          None None None None None)] [] [] [0; 0; 0; 0; 0] [0; 0; 0; 0; 0; 0])
    as (n & w1 & removed & w2 & vp & vr & vc & vs & vy & Hs & Hp & Hg & Hn & _).
  - reflexivity.
  - split; [|vm_compute; split; congruence].
    apply (proj1 (Forall_forall (fun o => o < w_next_oid history_world) _)), (bool_decide_unpack _).
    vm_compute. exact I.
  - apply (bool_decide_unpack _). vm_compute. exact I.
  - intros i. cbn. lia.
  - reflexivity.
  - reflexivity.
  - reflexivity.
  - vm_compute. reflexivity.
  - vm_compute. reflexivity.
  - generalize dependent (vp ++ vr ++ vc ++ [vs; vy]). intros views Hg _.
    exists n, w1, removed, w2, views. split; [exact Hs|].
    vm_compute in Hs. injection Hs as <- <-. split; [reflexivity|]. split; [exact Hp|].
    split; [exact Hg|]. vm_compute in Hp. injection Hp as <- <-.
    vm_compute in Hg. injection Hg as <-. vm_compute. split; reflexivity.
Defined.
