(* ===== verification/ObserveStats.v ===== *)
(** * Statistics records and trace summaries

    The rest of [qx_observe.c]: the records of one provider, principal or
    runtime class and how an execution is counted in them, the summary built
    from the traces of a task, and the texts both are rendered to.  The text
    buffer ([StringInfo]) is the string so far; pointers to records are not
    null.

    The theorem is about the composition of the three: what a rendered summary
    says of a key, read with the engine's own lookup, is the first value that
    any of the traces had for it. *)

From Stdlib Require Import Ascii String.
From S2P Require Import Prelude Text Stat Observe Tables World Catalog.
Open Scope string_scope.
Open Scope Z_scope.
Open Scope bool_scope.
Open Scope list_scope.

(** ** Records *)

Record QxObserveProviderStats := MkProviderStats {
  op_provider_oid : Oid; op_namespace_oid : Oid; op_owner_oid : Oid;
  op_provider_name : cstr; op_provider_kind : cstr; op_provider_endpoint : cstr; op_receipt_alg : cstr;
  op_enabled : bool; op_attestation_required : bool;
  op_principal_count : Z; op_submit_count : Z; op_resume_count : Z;
  op_verified_receipt_count : Z; op_rejected_receipt_count : Z;
  op_token_budget : Z; op_token_used : Z; op_cost_budget : Z; op_cost_used : Z
}.

Record QxObservePrincipalStats := MkPrincipalStats {
  on_principal_oid : Oid; on_namespace_oid : Oid; on_provider_oid : Oid; on_owner_oid : Oid;
  on_principal_name : cstr; on_provider_name : cstr; on_provider_kind : cstr;
  on_runtime_class : cstr; on_sandbox_name : cstr; on_program_name : cstr; on_receipt_signer : cstr;
  on_enabled : bool; on_has_signer : bool;
  on_task_count : Z; on_submit_count : Z; on_resume_count : Z; on_checkpoint_count : Z;
  on_token_budget : Z; on_token_used : Z; on_cost_budget : Z; on_cost_used : Z
}.

Record QxObserveRuntimeClassStats := MkRuntimeClassStats {
  oc_runtime_class : cstr; oc_provider_count : Z; oc_principal_count : Z; oc_task_count : Z;
  oc_submit_count : Z; oc_resume_count : Z; oc_checkpoint_count : Z;
  oc_token_budget : Z; oc_token_used : Z; oc_cost_budget : Z; oc_cost_used : Z
}.

Record QxObserveTraceSummary := MkTraceSummary {
  os_trace_name : cstr; os_record_kind : cstr; os_trace_state : cstr; os_phase : cstr;
  os_tool_name : cstr; os_principal_name : cstr; os_principal_runtime : cstr;
  os_provider_name : cstr; os_provider_kind : cstr; os_provider_endpoint : cstr;
  os_sandbox_name : cstr; os_profile_name : cstr; os_environment_mode : cstr;
  os_workdir_name : cstr; os_receipt_schema : cstr; os_receipt_alg : cstr;
  os_receipt_nonce : cstr; os_receipt_signature : cstr; os_attestation_mode : cstr;
  os_launch_mode : cstr; os_restricted_identity : cstr; os_checkpoint_label : cstr;
  os_semantic_lsn : cstr; os_wall_time_ms : cstr; os_timeout_ms : cstr;
  os_process_limit : cstr; os_token_charge : cstr; os_cost_charge : cstr;
  os_record_count : Z; os_event_count : Z; os_trace_count : Z; os_checkpoint_count : Z
}.

Definition QxObserveInitProviderStats : QxObserveProviderStats :=
  MkProviderStats 0 0 0 None None None None false false 0 0 0 0 0 0 0 0 0.
Definition QxObserveInitPrincipalStats : QxObservePrincipalStats :=
  MkPrincipalStats 0 0 0 0 None None None None None None None false false 0 0 0 0 0 0 0 0.
Definition QxObserveInitRuntimeClassStats : QxObserveRuntimeClassStats :=
  MkRuntimeClassStats None 0 0 0 0 0 0 0 0 0 0.
Definition QxObserveInitTraceSummary : QxObserveTraceSummary :=
  MkTraceSummary None None None None None None None None None None None None None None None None
    None None None None None None None None None None None None 0 0 0 0.

(** ** Counting an execution *)

(** [count++] on an [int64], when [b] holds. *)
Definition inc_if (b : bool) (count : Z) : Z := if b then int64 (count + 1) else count.

Section WithEnv.
Context (E : Env).

Definition QxObserveRecordProviderExecution (stats : QxObserveProviderStats) (resume : bool)
    (token_charge cost_charge : Z) (receipt_verified : bool) : M QxObserveProviderStats :=
  let stats' :=
    {| op_provider_oid := op_provider_oid stats; op_namespace_oid := op_namespace_oid stats;
       op_owner_oid := op_owner_oid stats; op_provider_name := op_provider_name stats;
       op_provider_kind := op_provider_kind stats; op_provider_endpoint := op_provider_endpoint stats;
       op_receipt_alg := op_receipt_alg stats; op_enabled := op_enabled stats;
       op_attestation_required := op_attestation_required stats;
       op_principal_count := op_principal_count stats;
       op_submit_count := inc_if (negb resume) (op_submit_count stats);
       op_resume_count := inc_if resume (op_resume_count stats);
       op_verified_receipt_count := inc_if receipt_verified (op_verified_receipt_count stats);
       op_rejected_receipt_count := inc_if (negb receipt_verified) (op_rejected_receipt_count stats);
       op_token_budget := op_token_budget stats;
       op_token_used := int64 (op_token_used stats + token_charge);
       op_cost_budget := op_cost_budget stats;
       op_cost_used := int64 (op_cost_used stats + cost_charge) |} in
  let* c := gets w_vis in
  (match op_provider_name stats with
   | Some name =>
       if qhapaqxian_track_stats E then
         match QxCatalogLookupProviderByName c (public_namespace E) (Some name) with
         | Some provider =>
             report_stat (QxStatReportProviderExecution true (MyDatabaseId E) (provider_oid provider)
                            resume receipt_verified)
         | None => ret tt
         end
       else ret tt
   | None => ret tt
   end) ;;;
  ret stats'.

Definition report_runtime_class (runtime_class : cstr) (resume checkpointed : bool) : M unit :=
  if qhapaqxian_track_stats E && negb (is_blank runtime_class)
  then report_stat (QxStatReportRuntimeClassExecution true (MyDatabaseId E) runtime_class resume
                      checkpointed false)
  else ret tt.

Definition QxObserveRecordPrincipalExecution (stats : QxObservePrincipalStats)
    (resume checkpointed : bool) (token_charge cost_charge : Z) : M QxObservePrincipalStats :=
  let stats' :=
    {| on_principal_oid := on_principal_oid stats; on_namespace_oid := on_namespace_oid stats;
       on_provider_oid := on_provider_oid stats; on_owner_oid := on_owner_oid stats;
       on_principal_name := on_principal_name stats; on_provider_name := on_provider_name stats;
       on_provider_kind := on_provider_kind stats; on_runtime_class := on_runtime_class stats;
       on_sandbox_name := on_sandbox_name stats; on_program_name := on_program_name stats;
       on_receipt_signer := on_receipt_signer stats; on_enabled := on_enabled stats;
       on_has_signer := on_has_signer stats; on_task_count := inc_if true (on_task_count stats);
       on_submit_count := inc_if (negb resume) (on_submit_count stats);
       on_resume_count := inc_if resume (on_resume_count stats);
       on_checkpoint_count := inc_if checkpointed (on_checkpoint_count stats);
       on_token_budget := on_token_budget stats;
       on_token_used := int64 (on_token_used stats + token_charge);
       on_cost_budget := on_cost_budget stats;
       on_cost_used := int64 (on_cost_used stats + cost_charge) |} in
  let* c := gets w_vis in
  (match on_principal_name stats with
   | Some name =>
       if qhapaqxian_track_stats E then
         match QxCatalogLookupPrincipalByName c (public_namespace E) (Some name) with
         | Some principal =>
             report_stat (QxStatReportPrincipalExecution true (MyDatabaseId E) (pr_oid principal)
                            resume checkpointed false)
         | None => ret tt
         end
       else ret tt
   | None => ret tt
   end) ;;;
  report_runtime_class (on_runtime_class stats) resume checkpointed ;;;
  ret stats'.

Definition QxObserveRecordRuntimeClassExecution (stats : QxObserveRuntimeClassStats)
    (resume checkpointed : bool) (token_charge cost_charge : Z) : M QxObserveRuntimeClassStats :=
  report_runtime_class (oc_runtime_class stats) resume checkpointed ;;;
  ret {| oc_runtime_class := oc_runtime_class stats; oc_provider_count := oc_provider_count stats;
         oc_principal_count := oc_principal_count stats;
         oc_task_count := inc_if true (oc_task_count stats);
         oc_submit_count := inc_if (negb resume) (oc_submit_count stats);
         oc_resume_count := inc_if resume (oc_resume_count stats);
         oc_checkpoint_count := inc_if checkpointed (oc_checkpoint_count stats);
         oc_token_budget := oc_token_budget stats;
         oc_token_used := int64 (oc_token_used stats + token_charge);
         oc_cost_budget := oc_cost_budget stats;
         oc_cost_used := int64 (oc_cost_used stats + cost_charge) |}.

End WithEnv.

(** ** The summary of some traces *)

Definition qx_observe_assign_text (target value : cstr) : cstr :=
  match target with
  | Some _ => target
  | None => if is_blank value then None else value
  end.

Definition qx_observe_trace_summary_add_text (target value : cstr) : cstr :=
  if is_blank value then target
  else match target with None => value | Some _ => target end.

Definition QxObserveTraceSummaryAdd (s : QxObserveTraceSummary) (trace_name trace_detail : cstr) :
    QxObserveTraceSummary :=
  let add target marker :=
    qx_observe_trace_summary_add_text target (qx_observe_contract_value trace_detail (Some marker)) in
  {| os_trace_name := qx_observe_assign_text (os_trace_name s) trace_name;
     os_record_kind := add (os_record_kind s) "record_kind=";
     os_trace_state := add (os_trace_state s) "state=";
     os_phase := add (os_phase s) "phase=";
     os_tool_name := add (os_tool_name s) "tool=";
     os_principal_name := add (os_principal_name s) "principal=";
     os_principal_runtime := add (os_principal_runtime s) "principal_runtime=";
     os_provider_name := add (os_provider_name s) "provider=";
     os_provider_kind := add (os_provider_kind s) "provider_kind=";
     os_provider_endpoint := add (os_provider_endpoint s) "provider_endpoint=";
     os_sandbox_name := add (os_sandbox_name s) "effective_sandbox=";
     os_profile_name := add (os_profile_name s) "profile=";
     os_environment_mode := add (os_environment_mode s) "env=";
     os_workdir_name := add (os_workdir_name s) "cwd=";
     os_receipt_schema := add (os_receipt_schema s) "receipt_schema=";
     os_receipt_alg := add (os_receipt_alg s) "receipt_alg=";
     os_receipt_nonce := add (os_receipt_nonce s) "receipt_nonce=";
     os_receipt_signature := add (os_receipt_signature s) "receipt_sig=";
     os_attestation_mode := add (os_attestation_mode s) "attestation=";
     os_launch_mode := add (os_launch_mode s) "launch_mode=";
     os_restricted_identity := add (os_restricted_identity s) "restricted_identity=";
     os_checkpoint_label := add (os_checkpoint_label s) "checkpoint=";
     os_semantic_lsn := add (os_semantic_lsn s) "semantic_lsn=";
     os_wall_time_ms := add (os_wall_time_ms s) "wall_ms=";
     os_timeout_ms := add (os_timeout_ms s) "timeout_ms=";
     os_process_limit := add (os_process_limit s) "process_limit=";
     os_token_charge := add (os_token_charge s) "tokens=";
     os_cost_charge := add (os_cost_charge s) "cost=";
     os_record_count := inc_if true (os_record_count s); os_event_count := os_event_count s;
     os_trace_count := inc_if true (os_trace_count s);
     os_checkpoint_count :=
       inc_if (cstr_is trace_name "runtime.checkpoint") (os_checkpoint_count s) |}.

(** ** Rendering *)

Definition qx_observe_append_bool (buf : string) (key : string) (value : bool) : string :=
  qx_observe_append_pair buf (Some key) (Some (if value then "true" else "false")).

Definition qx_observe_append_int (buf : string) (key : string) (value : Z) : string :=
  qx_observe_append_pair buf (Some key) (Some (show_d value)).

(** A rendering is a list of appended pairs. *)
Inductive observed := OText (value : cstr) | OBool (value : bool) | OInt (value : Z).

Definition append_observed (buf : string) (p : string * observed) : string :=
  match snd p with
  | OText value => qx_observe_append_pair buf (Some (fst p)) (Some (cstr_or value "<unknown>"))
  | OBool value => qx_observe_append_bool buf (fst p) value
  | OInt value => qx_observe_append_int buf (fst p) value
  end.

Definition QxObserveRenderProviderStats (buf : string) (s : QxObserveProviderStats) : string :=
  fold_left append_observed
    [("provider", OText (op_provider_name s)); ("kind", OText (op_provider_kind s));
     ("endpoint", OText (op_provider_endpoint s)); ("enabled", OBool (op_enabled s));
     ("attestation_required", OBool (op_attestation_required s));
     ("principal_count", OInt (op_principal_count s)); ("submit_count", OInt (op_submit_count s));
     ("resume_count", OInt (op_resume_count s));
     ("verified_receipts", OInt (op_verified_receipt_count s));
     ("rejected_receipts", OInt (op_rejected_receipt_count s));
     ("token_budget", OInt (op_token_budget s)); ("token_used", OInt (op_token_used s));
     ("cost_budget", OInt (op_cost_budget s)); ("cost_used", OInt (op_cost_used s))] buf.

Definition QxObserveRenderPrincipalStats (buf : string) (s : QxObservePrincipalStats) : string :=
  fold_left append_observed
    [("principal", OText (on_principal_name s)); ("provider", OText (on_provider_name s));
     ("provider_kind", OText (on_provider_kind s)); ("runtime_class", OText (on_runtime_class s));
     ("sandbox", OText (on_sandbox_name s)); ("program", OText (on_program_name s));
     ("enabled", OBool (on_enabled s)); ("has_signer", OBool (on_has_signer s));
     ("task_count", OInt (on_task_count s)); ("submit_count", OInt (on_submit_count s));
     ("resume_count", OInt (on_resume_count s)); ("checkpoint_count", OInt (on_checkpoint_count s));
     ("token_budget", OInt (on_token_budget s)); ("token_used", OInt (on_token_used s));
     ("cost_budget", OInt (on_cost_budget s)); ("cost_used", OInt (on_cost_used s))] buf.

Definition QxObserveRenderRuntimeClassStats (buf : string) (s : QxObserveRuntimeClassStats) : string :=
  fold_left append_observed
    [("runtime_class", OText (oc_runtime_class s)); ("provider_count", OInt (oc_provider_count s));
     ("principal_count", OInt (oc_principal_count s)); ("task_count", OInt (oc_task_count s));
     ("submit_count", OInt (oc_submit_count s)); ("resume_count", OInt (oc_resume_count s));
     ("checkpoint_count", OInt (oc_checkpoint_count s)); ("token_budget", OInt (oc_token_budget s));
     ("token_used", OInt (oc_token_used s)); ("cost_budget", OInt (oc_cost_budget s));
     ("cost_used", OInt (oc_cost_used s))] buf.

(** The fields of a summary, under the keys they are rendered with. *)
Definition summary_fields (s : QxObserveTraceSummary) : list (string * observed) :=
  [("trace_name", OText (os_trace_name s)); ("record_kind", OText (os_record_kind s));
   ("trace_state", OText (os_trace_state s)); ("phase", OText (os_phase s));
   ("tool", OText (os_tool_name s)); ("principal", OText (os_principal_name s));
   ("principal_runtime", OText (os_principal_runtime s)); ("provider", OText (os_provider_name s));
   ("provider_kind", OText (os_provider_kind s));
   ("provider_endpoint", OText (os_provider_endpoint s)); ("sandbox", OText (os_sandbox_name s));
   ("profile", OText (os_profile_name s)); ("env", OText (os_environment_mode s));
   ("cwd", OText (os_workdir_name s)); ("receipt_schema", OText (os_receipt_schema s));
   ("receipt_alg", OText (os_receipt_alg s)); ("receipt_nonce", OText (os_receipt_nonce s));
   ("receipt_sig", OText (os_receipt_signature s)); ("attestation", OText (os_attestation_mode s));
   ("launch_mode", OText (os_launch_mode s));
   ("restricted_identity", OText (os_restricted_identity s));
   ("checkpoint", OText (os_checkpoint_label s)); ("semantic_lsn", OText (os_semantic_lsn s));
   ("wall_ms", OText (os_wall_time_ms s)); ("timeout_ms", OText (os_timeout_ms s));
   ("process_limit", OText (os_process_limit s)); ("tokens", OText (os_token_charge s));
   ("cost", OText (os_cost_charge s)); ("record_count", OInt (os_record_count s));
   ("event_count", OInt (os_event_count s)); ("trace_count", OInt (os_trace_count s));
   ("checkpoint_count", OInt (os_checkpoint_count s))].

Definition QxObserveRenderTraceSummary (buf : string) (s : QxObserveTraceSummary) : string :=
  fold_left append_observed (summary_fields s) buf.

(** ** A rendering can be read back *)

(** A text in which no pair can start or end. *)
Definition word (s : string) : bool := all_chars (fun c => negb (pair_start (Some c))) s.

Definition observed_text (o : observed) : string :=
  match o with
  | OText value => cstr_or value "<unknown>"
  | OBool value => if value then "true" else "false"
  | OInt value => show_d value
  end.

Definition field_text (p : string * observed) : string :=
  fst p +:+ String "=" (observed_text (snd p)).

Fixpoint more_fields (fs : list (string * observed)) : string :=
  match fs with
  | [] => ""
  | p :: rest => String ";" (field_text p +:+ more_fields rest)
  end.

Lemma append_observed_text buf p :
  append_observed buf p = (if String.eqb buf "" then "" else buf +:+ ";") +:+ field_text p.
Proof.
  destruct p as [k []]; unfold append_observed, qx_observe_append_bool, qx_observe_append_int,
    qx_observe_append_pair, field_text, cat; cbn [fst snd foldr observed_text String.append];
    rewrite append_nil_r; done.
Qed.

Lemma render_more buf fs : buf <> "" -> fold_left append_observed fs buf = buf +:+ more_fields fs.
Proof.
  revert buf. induction fs as [|p fs IH]; intros buf Hb; cbn [fold_left more_fields];
    [by rewrite append_nil_r|].
  rewrite append_observed_text, (proj2 (String.eqb_neq buf "")) by done. rewrite IH.
  - by rewrite !append_assoc.
  - destruct buf; [done|]. discriminate.
Qed.

Lemma render_fields p fs :
  fst p <> "" -> fold_left append_observed (p :: fs) "" = field_text p +:+ more_fields fs.
Proof.
  intros Hp. cbn [fold_left]. rewrite append_observed_text. cbn [String.eqb String.append].
  apply render_more. unfold field_text. destruct (fst p); [done|]. discriminate.
Qed.

Lemma first_pair_word marker before s r :
  pair_start before = false -> word s = true ->
  first_pair marker before (s +:+ r) = first_pair marker (last_char before s) r /\
  pair_start (last_char before s) = false.
Proof.
  revert before. induction s as [|c s IH]; intros before Hb Hw; [done|].
  cbn [word all_chars] in Hw. apply andb_true_iff in Hw as [Hc Hw]. apply negb_true_iff in Hc.
  cbn [String.append last_char first_pair]. rewrite Hb. by apply IH.
Qed.

Lemma upto_word s r :
  word s = true -> match r with EmptyString => True | String c _ => pair_end c = true end ->
  upto_set pair_end (s +:+ r) = s.
Proof.
  intros Hw Hr. induction s as [|c s IH]; cbn [String.append].
  - destruct r; [done|]. cbn [upto_set]. by rewrite Hr.
  - cbn [word all_chars] in Hw. apply andb_true_iff in Hw as [Hc Hw]. apply negb_true_iff in Hc.
    cbn [upto_set]. unfold pair_end. cbn [pair_start] in Hc. apply orb_false_iff in Hc as [-> _].
    f_equal. by apply IH.
Qed.

Definition key_ok (k : string) : bool :=
  negb (String.eqb k "") && word k && negb (has_char "=" k).

Definition field_ok (p : string * observed) : bool := key_ok (fst p) && word (observed_text (snd p)).

Lemma word_app a b : word (a +:+ b) = word a && word b.
Proof. unfold word. induction a as [|c a IH]; [done|].
  cbn [String.append all_chars]. by rewrite IH, andb_assoc. Qed.

Lemma more_fields_end fs : match more_fields fs with EmptyString => True | String c _ => pair_end c = true end.
Proof. by destruct fs. Qed.

Fixpoint field_value (k : string) (fs : list (string * observed)) : cstr :=
  match fs with
  | [] => None
  | p :: rest => if String.eqb k (fst p) then Some (observed_text (snd p)) else field_value k rest
  end.

(** A field is matched as a whole or passed over. *)
Lemma first_pair_field k before p rest :
  has_char "=" k = false -> field_ok p = true -> pair_start before = true ->
  match rest with EmptyString => True | String c _ => pair_end c = true end ->
  if String.eqb k (fst p)
  then first_pair (k +:+ "=") before (field_text p +:+ rest) = Some (observed_text (snd p))
  else exists before', pair_start before' = false /\
    first_pair (k +:+ "=") before (field_text p +:+ rest) = first_pair (k +:+ "=") before' rest.
Proof.
  intros Hk Hp Hb Hr. unfold field_ok, key_ok in Hp. breflect. destruct p as [k1 o].
  cbn [fst snd] in *. unfold field_text. cbn [fst snd].
  pose proof (strip_prefix_sep "=" k k1 (observed_text o +:+ rest) Hk ltac:(assumption)) as Hs.
  rewrite append_assoc. cbn [String.append] in Hs |- *.
  destruct (k1 +:+ String "=" (observed_text o +:+ rest)) as [|c t] eqn:Ek1.
  { destruct k1; discriminate Ek1. }
  cbn [first_pair]. rewrite Hb. change (k +:+ String "=" "") with (k +:+ "=") in Hs. rewrite Hs.
  destruct (String.eqb k k1); [by rewrite upto_word|].
  destruct k1 as [|c1 k1]; [done|]. cbn [String.append] in Ek1. injection Ek1 as <- <-.
  assert (word (String c1 k1 +:+ String "=" (observed_text o)) = true) as Hw.
  { rewrite word_app. apply andb_true_iff. split; [done|]. cbn. assumption. }
  cbn [String.append word all_chars] in Hw. apply andb_true_iff in Hw as [Hc Hw].
  apply negb_true_iff in Hc.
  destruct (first_pair_word (k +:+ "=") (Some c1) _ rest Hc Hw) as [E Hl].
  eexists. split; [exact Hl|]. rewrite <- E. by rewrite append_assoc.
Qed.

Lemma first_pair_more k before fs :
  has_char "=" k = false -> Forall (fun p => field_ok p = true) fs -> pair_start before = false ->
  first_pair (k +:+ "=") before (more_fields fs) = field_value k fs.
Proof.
  intros Hk Hfs. revert before. induction Hfs as [|p fs Hp _ IH]; intros before Hb.
  { cbn. by rewrite Hb. }
  cbn [more_fields first_pair field_value]. rewrite Hb.
  pose proof (first_pair_field k (Some ";"%char) p (more_fields fs) Hk Hp eq_refl (more_fields_end fs)) as H.
  destruct (String.eqb k (fst p)); [exact H|]. destruct H as (before' & Hb' & ->). by apply IH.
Qed.

(** What the lookup finds in a rendering. *)
Lemma rendering_reads_back fs k :
  k <> "" -> has_char "=" k = false -> Forall (fun p => field_ok p = true) fs -> fs <> [] ->
  QxObserveTraceDetailValue (Some (fold_left append_observed fs "")) (Some k) = field_value k fs.
Proof.
  intros Hne Hk Hfs Hfs0. rewrite first_pair_lookup by done.
  destruct fs as [|p fs]; [done|]. apply Forall_cons in Hfs as [Hp Hfs].
  rewrite render_fields by (unfold field_ok, key_ok in Hp; breflect; done).
  pose proof (first_pair_field k None p (more_fields fs) Hk Hp eq_refl (more_fields_end fs)) as H.
  cbn [field_value]. destruct (String.eqb k (fst p)); [exact H|].
  destruct H as (before & Hb & ->). by apply first_pair_more.
Qed.

(** *** The summary holds the first values *)

Definition trace := (cstr * cstr)%type.       (* name and detail *)

Definition summarize (traces : list trace) : QxObserveTraceSummary :=
  fold_left (fun s t => QxObserveTraceSummaryAdd s (fst t) (snd t)) traces QxObserveInitTraceSummary.

(** The first value of a key that is not empty. *)
Definition first_value (key : string) (traces : list trace) : cstr :=
  fold_right (fun t found =>
      let value := QxObserveTraceDetailValue (snd t) (Some key) in
      if is_blank value then found else value) None traces.

(** A text of the summary: the key it is rendered with, the key it is read from
    and the field that holds it. *)
Definition summary_texts : list (string * string * (QxObserveTraceSummary -> cstr)) :=
  [("record_kind", "record_kind", os_record_kind); ("trace_state", "state", os_trace_state);
   ("phase", "phase", os_phase); ("tool", "tool", os_tool_name);
   ("principal", "principal", os_principal_name);
   ("principal_runtime", "principal_runtime", os_principal_runtime);
   ("provider", "provider", os_provider_name); ("provider_kind", "provider_kind", os_provider_kind);
   ("provider_endpoint", "provider_endpoint", os_provider_endpoint);
   ("sandbox", "effective_sandbox", os_sandbox_name); ("profile", "profile", os_profile_name);
   ("env", "env", os_environment_mode); ("cwd", "cwd", os_workdir_name);
   ("receipt_schema", "receipt_schema", os_receipt_schema);
   ("receipt_alg", "receipt_alg", os_receipt_alg);
   ("receipt_nonce", "receipt_nonce", os_receipt_nonce);
   ("receipt_sig", "receipt_sig", os_receipt_signature);
   ("attestation", "attestation", os_attestation_mode); ("launch_mode", "launch_mode", os_launch_mode);
   ("restricted_identity", "restricted_identity", os_restricted_identity);
   ("checkpoint", "checkpoint", os_checkpoint_label); ("semantic_lsn", "semantic_lsn", os_semantic_lsn);
   ("wall_ms", "wall_ms", os_wall_time_ms); ("timeout_ms", "timeout_ms", os_timeout_ms);
   ("process_limit", "process_limit", os_process_limit); ("tokens", "tokens", os_token_charge);
   ("cost", "cost", os_cost_charge)].

(** Adding a trace sets a field that is not set. *)
Definition collects (key : string) (field : QxObserveTraceSummary -> cstr) : Prop :=
  field QxObserveInitTraceSummary = None /\
  forall s name detail, field (QxObserveTraceSummaryAdd s name detail) =
    qx_observe_trace_summary_add_text (field s)
      (qx_observe_contract_value detail (Some (key +:+ "="))).

Lemma detail_value detail key :
  key <> "" -> QxObserveTraceDetailValue detail (Some key) =
  qx_observe_contract_value detail (Some (key +:+ "=")).
Proof.
  intros Hk. destruct detail as [d|]; [|done]. unfold QxObserveTraceDetailValue.
  by rewrite (proj2 (String.eqb_neq key "")).
Qed.

Lemma summary_collects key field traces :
  key <> "" -> collects key field -> field (summarize traces) = first_value key traces.
Proof.
  intros Hk [Hinit Hadd]. unfold summarize.
  assert (forall s, field (fold_left (fun s t => QxObserveTraceSummaryAdd s (fst t) (snd t)) traces s) =
    match field s with Some v => Some v | None => first_value key traces end) as H.
  { induction traces as [|t l IH]; intros s; cbn [fold_left first_value fold_right].
    - by destruct (field s).
    - rewrite IH, Hadd, detail_value by done. unfold qx_observe_trace_summary_add_text.
      destruct (is_blank (qx_observe_contract_value (snd t) (Some (key +:+ "=")))) eqn:Eb; [done|].
      destruct (field s); [done|]. by destruct (qx_observe_contract_value _ _). }
  by rewrite H, Hinit.
Qed.

Lemma summary_texts_collect :
  Forall (fun x => match x with (_, key, field) => key <> "" /\ collects key field end) summary_texts.
Proof. repeat constructor; discriminate. Qed.

Lemma summary_texts_rendered s :
  Forall (fun x => match x with (shown, _, field) =>
      shown <> "" /\ has_char "=" shown = false /\
      field_value shown (summary_fields s) = Some (cstr_or (field s) "<unknown>") end) summary_texts.
Proof. repeat constructor; discriminate. Qed.

Lemma summary_fields_ok s :
  Forall (fun p => word (observed_text (snd p)) = true) (summary_fields s) ->
  Forall (fun p => field_ok p = true) (summary_fields s).
Proof.
  intros H. assert (Forall (fun p => key_ok (fst p) = true) (summary_fields s)) as Hk
    by (repeat constructor).
  rewrite Forall_forall in H, Hk |- *. intros p Hp. unfold field_ok. rewrite (H p Hp), (Hk p Hp). done.
Qed.

(** A rendered summary of some traces, read with the engine's own lookup,
    says of each key what the traces say: the first value that is not empty
    which any of them has for it, in their order, or that none is known.  The
    texts must hold no blank, semicolon or line break, where a pair could
    start or end. *)
Theorem trace_summary_reads_back traces shown key field :
  (shown, key, field) ∈ summary_texts ->
  Forall (fun p => word (observed_text (snd p)) = true) (summary_fields (summarize traces)) ->
  QxObserveTraceDetailValue (Some (QxObserveRenderTraceSummary "" (summarize traces))) (Some shown) =
  Some (cstr_or (first_value key traces) "<unknown>").
Proof.
  intros Hin Hw.
  pose proof (proj1 (Forall_forall _ _) (summary_texts_rendered (summarize traces)) _ Hin) as (H1 & H2 & H3).
  pose proof (proj1 (Forall_forall _ _) summary_texts_collect _ Hin) as (H4 & H5).
  unfold QxObserveRenderTraceSummary.
  rewrite rendering_reads_back; [|done|done|by apply summary_fields_ok|discriminate].
  rewrite H3. by rewrite (summary_collects key field traces).
Qed.

Definition demo_traces : list trace :=
  [(Some "runtime.queue", Some "goal=x;priority=high");
   (Some "runtime.external_submit", Some "phase=submit;tool=grep;tokens=;receipt_sig=verified");
   (Some "runtime.external_resume", Some "phase=resume;tool=find;tokens=41")].

Lemma trace_summary_reads_back_witness :
  let shown k := QxObserveTraceDetailValue
    (Some (QxObserveRenderTraceSummary "" (summarize demo_traces))) (Some k) in
  shown "phase" = Some "submit" /\ shown "tokens" = Some "41" /\ shown "cost" = Some "<unknown>".
Proof.
  assert (Forall (fun p => word (observed_text (snd p)) = true) (summary_fields (summarize demo_traces)))
    as Hw by (vm_compute; repeat constructor).
  intros shown. unfold shown. split; [|split].
  - apply (trace_summary_reads_back demo_traces "phase" "phase" os_phase); [|exact Hw].
    apply list_elem_of_In. cbn. tauto.
  - apply (trace_summary_reads_back demo_traces "tokens" "tokens" os_token_charge); [|exact Hw].
    apply list_elem_of_In. cbn. tauto.
  - apply (trace_summary_reads_back demo_traces "cost" "cost" os_cost_charge); [|exact Hw].
    apply list_elem_of_In. cbn. tauto.
Defined.
