(* ===== verification/Decoding.v ===== *)
(** * The logical decoding plug-in

    [src/contrib/qhapaqxian_output/qhapaqxian_output.c]: the plug-in that turns
    the logical messages of the WAL into the stream a subscriber reads.  The
    callbacks for transactions and row changes do nothing; a message is checked
    for a known schema and written out when its prefix is the one asked for.
    What a callback writes is its result; [pnstrdup] copies up to the first
    zero byte. *)

From Stdlib Require Import Ascii String.
From S2P Require Import Prelude Text SemanticLog World.
Open Scope string_scope.
Open Scope Z_scope.
Open Scope bool_scope.
Open Scope list_scope.

Record QhapaqXianOutputData := MkOutputData { od_prefix : string }.

Definition qx_schema_v1 : string :=
  String quote ("schema" +:+ String quote (String ":" (String quote
    ("stage9.semantic.v1" +:+ String quote "")))).
Definition qx_schema_v2 : string :=
  String quote ("schema" +:+ String quote (String ":" (String quote
    ("stage31.semantic.v2" +:+ String quote "")))).

(** ** Starting *)

(** An option is a name and a value that may be missing. *)
Fixpoint startup_options (options : list (string * cstr)) (data : QhapaqXianOutputData) :
    pg_error + QhapaqXianOutputData :=
  match options with
  | [] => inr data
  | (name, arg) :: rest =>
      if String.eqb name "prefix" then
        startup_options rest (match arg with Some p => MkOutputData p | None => data end)
      else inl (PgError ERRCODE_INVALID_PARAMETER_VALUE
                  (cat ["option "; quoted name; " = "; quoted (cstr_or arg "(null)"); " is unknown"]) None)
  end.

Definition qx_decode_startup (options : list (string * cstr)) : pg_error + QhapaqXianOutputData :=
  startup_options options (MkOutputData "qhapaqxian").

(** ** Callbacks *)

Definition zero_byte : ascii := "000"%char.

(** The error, if there is one. *)
Definition qx_validate_semantic_schema (message : string) : option pg_error :=
  let text := upto zero_byte message in
  let supported := contains text qx_schema_v1 || contains text qx_schema_v2 in
  if negb supported
  then Some (PgError ERRCODE_INVALID_PARAMETER_VALUE
               "unsupported QhapaqXian semantic schema in logical message" None)
  else None.

Definition qx_write_message (data : QhapaqXianOutputData) (prefix message : string) : list string :=
  if negb (String.eqb prefix (od_prefix data)) then [] else [message].

Definition qx_decode_message (data : QhapaqXianOutputData) (prefix message : string) :
    pg_error + list string :=
  match qx_validate_semantic_schema message with
  | Some e => inl e
  | None => inr (qx_write_message data prefix message)
  end.

Definition qx_decode_stream_message (data : QhapaqXianOutputData) (prefix message : string) :
    pg_error + list string :=
  match qx_validate_semantic_schema message with
  | Some e => inl e
  | None => inr (qx_write_message data prefix message)
  end.

(** The changes a decoder sees. *)
Inductive logical_change :=
  | BeginTxn
  | CommitTxn
  | RowChange
  | TruncateChange
  | LogicalMessage (prefix message : string)
  | StreamMessage (prefix message : string).

Definition output_plugin_callback (data : QhapaqXianOutputData) (change : logical_change) :
    pg_error + list string :=
  match change with
  | BeginTxn | CommitTxn | RowChange | TruncateChange => inr []
  | LogicalMessage prefix message => qx_decode_message data prefix message
  | StreamMessage prefix message => qx_decode_stream_message data prefix message
  end.

(** Decoding goes on until a callback fails. *)
Fixpoint decode_changes (data : QhapaqXianOutputData) (changes : list logical_change) :
    list string * option pg_error :=
  match changes with
  | [] => ([], None)
  | change :: rest =>
      match output_plugin_callback data change with
      | inl e => ([], Some e)
      | inr out => let '(outs, e) := decode_changes data rest in (out ++ outs, e)
      end
  end.

(** ** What the engine logs can be decoded *)

(** A message of the engine: its prefix, and an object that starts with a
    schema the plug-in knows. *)
Definition schema_field (metadata : option QxSemanticExecutionMetadata) : json_field :=
  ("schema", JString (Some (schema_name metadata))).

Definition semantic_message (m : string * string) : Prop :=
  exists metadata (rest : list json_field),
    m = (QX_SEMANTIC_PREFIX, json_object_text (schema_field metadata :: rest)).

Lemma json_object_start f rest :
  exists tail, json_object_text (f :: rest) = String "{" (json_field_text f) +:+ tail.
Proof.
  unfold json_object_text. destruct rest as [|g rest].
  - exists "}". done.
  - rewrite json_fields_text_cons. exists (String "," (json_fields_text (g :: rest) +:+ "}")).
    cbn. by rewrite append_assoc.
Qed.

Lemma schema_field_text metadata :
  json_field_text (schema_field metadata) =
  match metadata with Some _ => qx_schema_v2 | None => qx_schema_v1 end.
Proof. by destruct metadata. Qed.

Lemma upto_prefix c s t : has_char c s = false -> upto c (s +:+ t) = s +:+ upto c t.
Proof.
  unfold upto. induction s as [|d s IH]; [done|]. cbn. intros [Hd Hs]%orb_false_iff.
  rewrite Hd. specialize (IH Hs). destruct (split_char c (s +:+ t)). cbn in *. by f_equal.
Qed.

Lemma semantic_message_supported m :
  semantic_message m -> fst m = QX_SEMANTIC_PREFIX /\ qx_validate_semantic_schema (snd m) = None.
Proof.
  intros (metadata & rest & ->). split; [done|]. cbn [snd]. unfold qx_validate_semantic_schema.
  destruct (json_object_start (schema_field metadata) rest) as [tail ->].
  rewrite schema_field_text.
  rewrite upto_prefix by (destruct metadata; reflexivity).
  assert (forall schema, contains (String "{" schema +:+ upto zero_byte tail) schema = true) as Hc.
  { intros schema. apply contains_true. by exists "{", (upto zero_byte tail). }
  destruct metadata; cbn beta iota zeta; rewrite Hc, ?orb_true_r; done.
Qed.

Lemma semantic_event_message eventoid sessionoid taskoid stepoid ownerid metadata kind payload :
  semantic_message (QX_SEMANTIC_PREFIX, json_object_text
    (semantic_event_fields eventoid sessionoid taskoid stepoid ownerid metadata kind payload)).
Proof. by eexists metadata, _. Qed.

Lemma semantic_trace_message traceoid sessionoid taskoid stepoid ownerid metadata state name detail :
  semantic_message (QX_SEMANTIC_PREFIX, json_object_text
    (semantic_trace_fields traceoid sessionoid taskoid stepoid ownerid metadata state name detail)).
Proof. by eexists metadata, _. Qed.

Lemma semantic_checkpoint_message checkpointoid sessionoid taskoid attemptoid stepoid ownerid metadata
    checkpoint_state task_state nextstepseqno label data :
  semantic_message (QX_SEMANTIC_PREFIX, json_object_text
    (semantic_checkpoint_fields checkpointoid sessionoid taskoid attemptoid stepoid ownerid metadata
       checkpoint_state task_state nextstepseqno label data)).
Proof. by eexists metadata, _. Qed.

#[export] Hint Resolve semantic_event_message semantic_trace_message semantic_checkpoint_message : qx.

Definition change_message (change : logical_change) : option (string * string) :=
  match change with
  | LogicalMessage prefix message | StreamMessage prefix message => Some (prefix, message)
  | _ => None
  end.

(** A stream whose messages are the engine's is decoded to its end, and what
    comes out are the messages, in order. *)
Lemma semantic_stream_decodes changes :
  Forall semantic_message (omap change_message changes) ->
  decode_changes (MkOutputData QX_SEMANTIC_PREFIX) changes =
  (snd <$> omap change_message changes, None).
Proof.
  induction changes as [|change changes IH]; [done|]. intros H.
  assert (forall p m, change_message change = Some (p, m) ->
    output_plugin_callback (MkOutputData QX_SEMANTIC_PREFIX) change = inr [m]) as Hm.
  { intros p m Hc. destruct change; try discriminate Hc; injection Hc as -> ->;
      cbn [omap list_omap change_message] in H;
      apply Forall_cons in H as [[Hp Hv]%semantic_message_supported _]; cbn in Hp, Hv; subst p;
      cbn; unfold qx_decode_message, qx_decode_stream_message; by rewrite Hv. }
  cbn [decode_changes]. destruct (change_message change) as [[p m]|] eqn:Hc.
  - rewrite (Hm p m eq_refl). cbn [omap list_omap] in *. rewrite Hc in *.
    apply Forall_cons in H as [_ H]. by rewrite IH.
  - cbn [omap list_omap] in *. rewrite Hc in *. by destruct change; try discriminate Hc; cbn; rewrite IH.
Qed.

(** A message that names no schema ends the decoding, whatever its prefix: the
    schema is looked for before the prefix. *)
Lemma foreign_message_stops_decoding data prefix message changes :
  contains (upto zero_byte message) qx_schema_v1 = false ->
  contains (upto zero_byte message) qx_schema_v2 = false ->
  exists e, decode_changes data (LogicalMessage prefix message :: changes) = ([], Some e).
Proof.
  intros H1 H2. cbn. unfold qx_decode_message, qx_validate_semantic_schema.
  rewrite H1, H2. cbn. by eexists.
Qed.
