(* ===== verification/TaskView.v ===== *)
(** * What the catalogs say about one task

    The lifecycle and scheduler code works on one task at a time.  [view] is
    the part of the world that concerns a task: its row, its attempts, steps,
    checkpoints, ledger rows and events, and the tables the code reads but does
    not write.  The lemmas say what each catalog operation does to the view;
    they are the rules with which the handlers are verified. *)

From Stdlib Require Import Ascii String.
From S2P Require Import Prelude Text Types Scheduler Stat Observe SemanticLog Tables World.
From S2P Require Import Catalog.
Open Scope string_scope.
Open Scope Z_scope.
Open Scope bool_scope.
Open Scope list_scope.

Record task_view := MkTaskView {
  v_next : Z;
  v_task : option pg_qx_task;
  v_attempts : list pg_qx_attempt;
  v_steps : list pg_qx_step;
  v_checkpoints : list pg_qx_checkpoint;
  v_queues : list pg_qx_scheduler_queue;
  v_leases : list pg_qx_scheduler_lease;
  v_heartbeats : list pg_qx_scheduler_heartbeat;
  v_events : list cstr;                  (* the kinds of its events, in order *)
  v_others : list pg_qx_task;            (* the other tasks *)
  v_attempt_rows : list pg_qx_attempt;   (* the attempts of all tasks *)
  v_checkpoint_rows : list pg_qx_checkpoint;
  v_agents : list pg_qx_agent;
  v_identities : list pg_qx_identity;
  v_policies : list pg_qx_namespace;
  v_providers : list pg_qx_provider;
  v_recovery : QxRuntimeRecoverySnapshot
}.

Section Task.
Context (tk : Oid).

Definition of_task {R} (taskid : R -> Oid) (l : list R) : list R :=
  List.filter (fun r => taskid r =? tk) l.

Definition view (w : world) : task_view :=
  {| v_next := w_next_oid w;
     v_task := find_oid tk (all_rows pg_qx_task w);
     v_attempts := of_task qxattempttaskid (all_rows pg_qx_attempt w);
     v_steps := of_task qxsteptaskid (all_rows pg_qx_step w);
     v_checkpoints := of_task qxcheckpointtaskid (all_rows pg_qx_checkpoint w);
     v_queues := of_task qxqueueledgertaskid (all_rows pg_qx_scheduler_queue w);
     v_leases := of_task qxleaseledgertaskid (all_rows pg_qx_scheduler_lease w);
     v_heartbeats := of_task qxheartbeatledgertaskid (all_rows pg_qx_scheduler_heartbeat w);
     v_events := qxeventkind <$> of_task qxeventtaskid (all_rows pg_qx_event w);
     v_others := List.filter (fun t => negb (task_oid t =? tk)) (all_rows pg_qx_task w);
     v_attempt_rows := all_rows pg_qx_attempt w;
     v_checkpoint_rows := all_rows pg_qx_checkpoint w;
     v_agents := all_rows pg_qx_agent w;
     v_identities := all_rows pg_qx_identity w;
     v_policies := all_rows pg_qx_namespace w;
     v_providers := all_rows pg_qx_provider w;
     v_recovery := w_recovery w |}.

(** No pending rows in the tables that are read back. *)
Definition settled (w : world) : Prop :=
  c_tasks (w_new w) = [] /\ c_attempts (w_new w) = [] /\ c_agents (w_new w) = [] /\
  c_identities (w_new w) = [] /\ c_namespaces (w_new w) = [] /\ c_providers (w_new w) = [].

(** [v] is what [w] says about the task, and [k] more rows can be inserted. *)
Definition viewed (k : Z) (v : task_view) (w : world) : Prop :=
  room k w /\ settled w /\ view w = v.

(** *** Changes of a view *)

Definition v_insert_attempt (r : pg_qx_attempt) (v : task_view) : task_view :=
  MkTaskView (v_next v + 1) (v_task v) (v_attempts v ++ [r]) (v_steps v) (v_checkpoints v)
    (v_queues v) (v_leases v) (v_heartbeats v) (v_events v) (v_others v)
    (v_attempt_rows v ++ [r]) (v_checkpoint_rows v) (v_agents v)
    (v_identities v) (v_policies v) (v_providers v) (v_recovery v).
Definition v_insert_step (r : pg_qx_step) (v : task_view) : task_view :=
  MkTaskView (v_next v + 1) (v_task v) (v_attempts v) (v_steps v ++ [r]) (v_checkpoints v)
    (v_queues v) (v_leases v) (v_heartbeats v) (v_events v) (v_others v)
    (v_attempt_rows v) (v_checkpoint_rows v) (v_agents v)
    (v_identities v) (v_policies v) (v_providers v) (v_recovery v).
Definition v_insert_checkpoint (r : pg_qx_checkpoint) (v : task_view) : task_view :=
  MkTaskView (v_next v + 1) (v_task v) (v_attempts v) (v_steps v) (v_checkpoints v ++ [r])
    (v_queues v) (v_leases v) (v_heartbeats v) (v_events v) (v_others v)
    (v_attempt_rows v) (v_checkpoint_rows v ++ [r]) (v_agents v)
    (v_identities v) (v_policies v) (v_providers v) (v_recovery v).
Definition v_insert_queue (r : pg_qx_scheduler_queue) (v : task_view) : task_view :=
  MkTaskView (v_next v + 1) (v_task v) (v_attempts v) (v_steps v) (v_checkpoints v)
    (v_queues v ++ [r]) (v_leases v) (v_heartbeats v) (v_events v) (v_others v)
    (v_attempt_rows v) (v_checkpoint_rows v) (v_agents v)
    (v_identities v) (v_policies v) (v_providers v) (v_recovery v).
Definition v_insert_lease (r : pg_qx_scheduler_lease) (v : task_view) : task_view :=
  MkTaskView (v_next v + 1) (v_task v) (v_attempts v) (v_steps v) (v_checkpoints v)
    (v_queues v) (v_leases v ++ [r]) (v_heartbeats v) (v_events v) (v_others v)
    (v_attempt_rows v) (v_checkpoint_rows v) (v_agents v)
    (v_identities v) (v_policies v) (v_providers v) (v_recovery v).
Definition v_insert_heartbeat (r : pg_qx_scheduler_heartbeat) (v : task_view) : task_view :=
  MkTaskView (v_next v + 1) (v_task v) (v_attempts v) (v_steps v) (v_checkpoints v)
    (v_queues v) (v_leases v) (v_heartbeats v ++ [r]) (v_events v) (v_others v)
    (v_attempt_rows v) (v_checkpoint_rows v) (v_agents v)
    (v_identities v) (v_policies v) (v_providers v) (v_recovery v).
(** A new event of the task; a trace only takes an identifier. *)
Definition v_insert_event (kind : cstr) (v : task_view) : task_view :=
  MkTaskView (v_next v + 1) (v_task v) (v_attempts v) (v_steps v) (v_checkpoints v)
    (v_queues v) (v_leases v) (v_heartbeats v) (v_events v ++ [kind]) (v_others v)
    (v_attempt_rows v) (v_checkpoint_rows v) (v_agents v)
    (v_identities v) (v_policies v) (v_providers v) (v_recovery v).
Definition v_insert_trace (v : task_view) : task_view :=
  MkTaskView (v_next v + 1) (v_task v) (v_attempts v) (v_steps v) (v_checkpoints v)
    (v_queues v) (v_leases v) (v_heartbeats v) (v_events v) (v_others v)
    (v_attempt_rows v) (v_checkpoint_rows v) (v_agents v)
    (v_identities v) (v_policies v) (v_providers v) (v_recovery v).
Definition v_insert_task (r : pg_qx_task) (v : task_view) : task_view :=
  MkTaskView (v_next v + 1) (Some r) (v_attempts v) (v_steps v) (v_checkpoints v)
    (v_queues v) (v_leases v) (v_heartbeats v) (v_events v) (v_others v)
    (v_attempt_rows v) (v_checkpoint_rows v) (v_agents v)
    (v_identities v) (v_policies v) (v_providers v) (v_recovery v).
Definition v_update_task (f : pg_qx_task -> pg_qx_task) (v : task_view) : task_view :=
  MkTaskView (v_next v) (f <$> v_task v) (v_attempts v) (v_steps v) (v_checkpoints v)
    (v_queues v) (v_leases v) (v_heartbeats v) (v_events v) (v_others v)
    (v_attempt_rows v) (v_checkpoint_rows v) (v_agents v)
    (v_identities v) (v_policies v) (v_providers v) (v_recovery v).
Definition v_update_attempt (a : Oid) (f : pg_qx_attempt -> pg_qx_attempt) (v : task_view) :
    task_view :=
  MkTaskView (v_next v) (v_task v)
    ((fun r => if attempt_oid r =? a then f r else r) <$> v_attempts v)
    (v_steps v) (v_checkpoints v) (v_queues v) (v_leases v) (v_heartbeats v) (v_events v)
    (v_others v)
    ((fun r => if attempt_oid r =? a then f r else r) <$> v_attempt_rows v)
    (v_checkpoint_rows v) (v_agents v) (v_identities v) (v_policies v) (v_providers v)
    (v_recovery v).

(** ** Rules *)

Lemma of_task_app {R} (taskid : R -> Oid) l r :
  of_task taskid (l ++ [r]) = of_task taskid l ++ (if taskid r =? tk then [r] else []).
Proof. unfold of_task. rewrite List.filter_app. simpl. destruct (taskid r =? tk); done. Qed.

Lemma view_same w w' : same_catalogs w w' -> view w' = view w.
Proof.
  intros (H1 & H2 & H3 & _ & H5). unfold view, all_rows. rewrite H1, H2, H3, H5. done.
Qed.

Lemma viewed_same k v w w' : same_catalogs w w' -> viewed k v w -> viewed k v w'.
Proof.
  intros Hs (Hr & Hn & Hv). pose proof (view_same w w' Hs) as E.
  destruct Hs as (H1 & H2 & H3 & _). unfold viewed. rewrite E. split_and!; [|..|done].
  - unfold room in *. rewrite H1, H2, H3. done.
  - unfold settled in *. rewrite H2. done.
Qed.

Lemma wp_keeps {A} (m : M A) k v Q X w :
  keeps m -> viewed k v w ->
  (forall a w', m w = Ok a w' -> viewed k v w' -> Q a w') ->
  (forall e w', m w = Err e w' -> X e w') -> wp m Q X w.
Proof.
  intros Hm Hv HQ HX. unfold wp. pose proof (Hm w) as Hw. destruct (m w) as [a w'|e w']; auto.
  apply HQ; [done|]. by eapply viewed_same.
Qed.

Lemma all_rows_cci R `{Table R} w : all_rows R (cci_world w) = all_rows R w.
Proof. unfold all_rows, cci_world. simpl. rewrite rows_merge, rows_empty, app_nil_r. done. Qed.

Lemma all_oids_merge a b o : o ∈ all_oids (merge_catalog a b) -> o ∈ all_oids a ++ all_oids b.
Proof.
  unfold all_oids, merge_catalog; cbn. rewrite !map_app, !elem_of_app. tauto.
Qed.

Lemma room_cci k w : room k w -> room k (cci_world w).
Proof.
  intros (Hb & Hf & Hk). split; [|done]. intros o Ho. apply Hb. simpl in Ho.
  apply elem_of_app in Ho as [Ho|Ho]; [by apply all_oids_merge|].
  exfalso. revert Ho. vm_compute. intros Ho. inversion Ho.
Qed.

Lemma viewed_cci k w : room k w -> viewed k (view w) (cci_world w).
Proof.
  intros Hr. split_and!; [by apply room_cci|done|].
  unfold view. rewrite !all_rows_cci. done.
Qed.

Lemma wp_cci k v (Q : unit -> world -> Prop) X w :
  room k w -> view w = v -> (forall w', viewed k v w' -> Q tt w') ->
  wp CommandCounterIncrement Q X w.
Proof. intros Hr <- HQ. apply wp_modify, HQ, viewed_cci, Hr. Qed.

(** *** Inserts *)

Lemma viewed_add_row k v R `{Table R} (r : R) (f : task_view -> task_view) w w' :
  viewed k v w -> 0 < k -> row_oid r = v_next v ->
  same_catalogs w w' \/ (exists l, w' = set_wal l w) ->
  settled (add_row r w') -> view (add_row r w') = f (view w') ->
  viewed (k - 1) (f v) (add_row r w').
Proof.
  intros (Hr & Hs & Hv) Hk Ho Hw Hs' Hf.
  assert (room k w' /\ view w' = v /\ w_next_oid w' = v_next v) as (Hr' & Hv' & Hn').
  { destruct Hw as [Hw|[l ->]]; [|subst v; done].
    destruct (viewed_same k v w w' Hw (conj Hr (conj Hs Hv))) as (? & _ & <-). done. }
  split_and!; [|done|by rewrite Hf, Hv'].
  apply room_add_row; [|congruence]. replace (k - 1 + 1) with k by lia. done.
Qed.

Lemma insert_row_unique_room k w R `{Table R} (conflict : R -> bool) index (mk : Oid -> R) :
  room k w -> 0 < k -> existsb conflict (all_rows R w) = false ->
  insert_row_unique conflict index mk w = Ok (w_next_oid w) (add_row (mk (w_next_oid w)) w).
Proof.
  intros Hr Hk Hc. unfold insert_row_unique, bind. rewrite (new_oid_room k) by done. unfold gets.
  change (all_rows R (set_next_oid _ w)) with (all_rows R w). rewrite Hc. done.
Qed.

Lemma room_add k w R `{Table R} (r : R) :
  room k w -> row_oid r = w_next_oid w -> room (k - 1) (add_row r w).
Proof. intros Hr Ho. apply room_add_row; [|done]. replace (k - 1 + 1) with k by lia. done. Qed.

Lemma wp_insert_row k v R `{Table R} (mk : Oid -> R)
    (f : task_view -> task_view) (Q : Oid -> world -> Prop) X w :
  viewed k v w -> 0 < k ->
  (forall o, row_oid (mk o) = o) ->
  settled (add_row (mk (v_next v)) w) ->
  view (add_row (mk (v_next v)) w) = f (view w) ->
  (forall w', viewed (k - 1) (f v) w' -> Q (v_next v) w') ->
  wp (insert_row mk) Q X w.
Proof.
  intros Hv Hk Ho Hs Hf HQ. pose proof (viewed_add_row k v R (mk (v_next v)) f w w Hv Hk (Ho _)
    (or_introl (same_catalogs_refl w)) Hs Hf) as Hv'.
  destruct Hv as (Hr & _ & <-). unfold wp. rewrite (insert_row_room k) by done. apply HQ, Hv'.
Qed.

(** The key of a unique index starts with the task. *)
Lemma existsb_of_task {R} (taskid : R -> Oid) (f : R -> bool) l :
  existsb (fun r => (taskid r =? tk) && f r) l = existsb f (of_task taskid l).
Proof.
  induction l as [|r l IH]; simpl; [done|]. rewrite IH. unfold of_task. simpl.
  destruct (taskid r =? tk); done.
Qed.

Section Ops.
Context (E : Env).

(** The new row of the table the lemma is about; the other tables are as before. *)
Ltac view_insert R :=
  unfold view; rewrite (all_rows_add_row R), ?of_task_app; cbn [qxattempttaskid qxsteptaskid
    qxcheckpointtaskid qxqueueledgertaskid qxleaseledgertaskid qxheartbeatledgertaskid qxeventtaskid
    attempt_row step_row queue_ledger_row lease_ledger_row heartbeat_ledger_row];
  rewrite ?Z.eqb_refl; reflexivity.

Lemma wp_insert_attempt k v sess owner resume seqno state strategy (Q : Oid -> world -> Prop) X w :
  viewed k v w -> 0 < k ->
  existsb (fun a => qxattemptseqno a =? seqno) (v_attempts v) = false ->
  (forall w', room (k - 1) w' ->
     view w' = v_insert_attempt (attempt_row E sess tk owner resume seqno state strategy (v_next v)) v ->
     Q (v_next v) w') ->
  wp (QxCatalogInsertAttempt E sess tk owner resume seqno state strategy) Q X w.
Proof.
  intros (Hr & Hs & <-) Hk Hc HQ. unfold wp, QxCatalogInsertAttempt.
  rewrite (insert_row_unique_room k); [|done|done|by rewrite existsb_of_task].
  apply HQ; [by apply room_add|]. view_insert pg_qx_attempt.
Qed.

Lemma wp_insert_step k v sess seqno name detail (Q : Oid -> world -> Prop) X w :
  viewed k v w -> 0 < k ->
  existsb (fun s => qxstepseqno s =? seqno) (v_steps v) = false ->
  (forall w', viewed (k - 1) (v_insert_step (step_row E sess tk seqno name detail (v_next v)) v) w' ->
     Q (v_next v) w') ->
  wp (QxCatalogInsertStep E sess tk seqno name detail) Q X w.
Proof.
  intros Hv Hk Hc HQ. pose proof Hv as (Hr & Hs & Ev). unfold wp, QxCatalogInsertStep.
  rewrite (insert_row_unique_room k); [|done|done|by rewrite existsb_of_task, <- Ev in *].
  subst v. apply HQ. apply (viewed_add_row k _ pg_qx_step _ _ w w); auto using same_catalogs_refl.
  view_insert pg_qx_step.
Qed.

Lemma wp_insert_queue k v q (Q : Oid -> world -> Prop) X w :
  viewed k v w -> 0 < k -> q_taskoid q = tk ->
  (forall w', viewed (k - 1) (v_insert_queue (queue_ledger_row E q (v_next v)) v) w' ->
     Q (v_next v) w') ->
  wp (QxCatalogInsertSchedulerQueue E q) Q X w.
Proof.
  intros Hv Hk Ht HQ. pose proof Hv as (_ & Hs & Ev). subst v.
  eapply (wp_insert_row k); [done|done|done|exact Hs| |exact HQ].
  unfold view. rewrite (all_rows_add_row pg_qx_scheduler_queue), of_task_app.
  cbn [qxqueueledgertaskid queue_ledger_row]. rewrite Ht, Z.eqb_refl. reflexivity.
Qed.

Lemma wp_insert_lease k v queueoid l (Q : Oid -> world -> Prop) X w :
  viewed k v w -> 0 < k -> l_taskoid l = tk ->
  (forall w', viewed (k - 1) (v_insert_lease (lease_ledger_row E queueoid l (v_next v)) v) w' ->
     Q (v_next v) w') ->
  wp (QxCatalogInsertSchedulerLease E queueoid l) Q X w.
Proof.
  intros Hv Hk Ht HQ. pose proof Hv as (_ & Hs & Ev). subst v.
  eapply (wp_insert_row k); [done|done|done|exact Hs| |exact HQ].
  unfold view. rewrite (all_rows_add_row pg_qx_scheduler_lease), of_task_app.
  cbn [qxleaseledgertaskid lease_ledger_row]. rewrite Ht, Z.eqb_refl. reflexivity.
Qed.

Lemma wp_insert_heartbeat k v leaseoid h (Q : Oid -> world -> Prop) X w :
  viewed k v w -> 0 < k -> h_taskoid h = tk ->
  (forall w', viewed (k - 1)
     (v_insert_heartbeat (heartbeat_ledger_row E leaseoid h (v_next v)) v) w' -> Q (v_next v) w') ->
  wp (QxCatalogInsertSchedulerHeartbeat E leaseoid h) Q X w.
Proof.
  intros Hv Hk Ht HQ. pose proof Hv as (_ & Hs & Ev). subst v.
  eapply (wp_insert_row k); [done|done|done|exact Hs| |exact HQ].
  unfold view. rewrite (all_rows_add_row pg_qx_scheduler_heartbeat), of_task_app.
  cbn [qxheartbeatledgertaskid heartbeat_ledger_row]. rewrite Ht, Z.eqb_refl. reflexivity.
Qed.

(** Events, traces and checkpoints are sent to the WAL before the row is written. *)
Lemma insert_event_room k w sess step owner meta kind payload :
  room k w -> 0 < k -> exists lsn l,
  QxCatalogInsertEvent E sess tk step owner meta kind payload w =
  Ok (w_next_oid w)
     (add_row (Mk_qx_event (w_next_oid w) (MyDatabaseId E) sess tk step owner lsn kind payload)
        (set_wal l w)).
Proof.
  intros Hr Hk. do 2 eexists. unfold QxCatalogInsertEvent, bind. rewrite (new_oid_room k) by done.
  reflexivity.
Qed.

Lemma wp_insert_event k v sess step owner meta kind payload (Q : Oid -> world -> Prop) X w :
  viewed k v w -> 0 < k ->
  (forall w', viewed (k - 1) (v_insert_event kind v) w' -> Q (v_next v) w') ->
  wp (QxCatalogInsertEvent E sess tk step owner meta kind payload) Q X w.
Proof.
  intros Hv Hk HQ. pose proof Hv as (Hr & Hs & Ev). subst v.
  destruct (insert_event_room k w sess step owner meta kind payload Hr Hk) as (lsn & l & Eq).
  unfold wp. rewrite Eq. apply HQ. eapply (viewed_add_row k _ pg_qx_event); eauto.
  unfold view. rewrite (all_rows_add_row pg_qx_event), of_task_app.
  cbn [qxeventtaskid]. rewrite Z.eqb_refl, fmap_app. reflexivity.
Qed.

Lemma insert_trace_room k w sess step owner meta state name detail :
  room k w -> 0 < k -> exists lsn l s,
  QxCatalogInsertTrace E sess tk step owner meta state name detail w =
  Ok (w_next_oid w)
     (set_stat s (add_row (Mk_qx_trace (w_next_oid w) (MyDatabaseId E) sess tk step owner state lsn
        name (stored_trace_detail name detail)) (set_wal l w))).
Proof.
  intros Hr Hk. unfold QxCatalogInsertTrace, bind. rewrite (new_oid_room k) by done. cbn.
  destruct (qhapaqxian_track_stats E); [do 3 eexists; reflexivity|].
  do 2 eexists. exists (w_stat w). reflexivity.
Qed.

Lemma wp_insert_trace k v sess step owner meta state name detail (Q : Oid -> world -> Prop) X w :
  viewed k v w -> 0 < k ->
  (forall w', viewed (k - 1) (v_insert_trace v) w' -> Q (v_next v) w') ->
  wp (QxCatalogInsertTrace E sess tk step owner meta state name detail) Q X w.
Proof.
  intros Hv Hk HQ. pose proof Hv as (Hr & Hs & Ev). subst v.
  destruct (insert_trace_room k w sess step owner meta state name detail Hr Hk) as (lsn & l & s & Eq).
  unfold wp. rewrite Eq. apply HQ.
  set (r := Mk_qx_trace _ _ _ _ _ _ _ _ _ _).
  apply (viewed_same _ _ (add_row r (set_wal l w))); [done|].
  apply (viewed_add_row k _ pg_qx_trace r v_insert_trace w); eauto.
Qed.

Lemma wp_insert_checkpoint k v sess att step owner meta state next label data
    (Q : Oid -> world -> Prop) X w :
  viewed k v w -> 0 < k ->
  (forall lsn w', viewed (k - 1) (v_insert_checkpoint
     (Mk_qx_checkpoint (v_next v) (MyDatabaseId E) sess tk att step owner
        QX_CHECKPOINT_STATE_DURABLE state next lsn label data) v) w' -> Q (v_next v) w') ->
  wp (QxCatalogInsertCheckpoint E sess tk att step owner meta state next label data) Q X w.
Proof.
  intros Hv Hk HQ. pose proof Hv as (Hr & Hs & Ev). subst v.
  unfold wp, QxCatalogInsertCheckpoint, bind. rewrite (new_oid_room k) by done.
  eapply (HQ _ (add_row (Mk_qx_checkpoint (w_next_oid w) (MyDatabaseId E) sess tk att step owner
    QX_CHECKPOINT_STATE_DURABLE state next (wal_lsn E (List.length (w_wal w))) label data)
    (set_wal _ w))).
  eapply (viewed_add_row k _ pg_qx_checkpoint); eauto.
  view_insert pg_qx_checkpoint.
Qed.

Lemma wp_insert_task k v p (Q : Oid -> world -> Prop) X w :
  viewed k v w -> 0 < k -> v_next v = tk -> v_task v = None ->
  (forall w', room (k - 1) w' -> view w' = v_insert_task (task_row E p tk) v -> Q tk w') ->
  wp (QxCatalogInsertTask E p) Q X w.
Proof.
  intros (Hr & Hs & <-) Hk Hn Ht HQ. unfold wp, QxCatalogInsertTask. simpl in Hn, Ht.
  rewrite (insert_row_room k) by done. rewrite Hn. apply HQ; [by apply room_add|].
  unfold view, v_insert_task. rewrite (all_rows_add_row pg_qx_task). cbn -[find_oid all_rows].
  f_equal.
  - unfold find_oid in *. revert Ht.
    induction (all_rows pg_qx_task w) as [|t l IH]; simpl; [by rewrite Z.eqb_refl|].
    destruct (task_oid t =? tk); [done|exact IH].
  - rewrite List.filter_app. simpl. rewrite Z.eqb_refl. simpl. apply app_nil_r.
Qed.

(** *** Updates *)

Lemma find_oid_update {R} `{Table R} o (f : R -> R) l :
  (forall r, row_oid (f r) = row_oid r) ->
  find_oid o ((fun r => if row_oid r =? o then f r else r) <$> l) = f <$> find_oid o l.
Proof.
  intros Hf. induction l as [|r l IH]; simpl; [done|]. unfold find_oid in *. simpl.
  destruct (row_oid r =? o) eqn:Er; [rewrite Hf, Er; done|]. rewrite Er. exact IH.
Qed.

Lemma filter_others_update o (f : pg_qx_task -> pg_qx_task) l :
  (forall r, task_oid (f r) = task_oid r) ->
  List.filter (fun t => negb (task_oid t =? o)) ((fun r => if task_oid r =? o then f r else r) <$> l) =
  List.filter (fun t => negb (task_oid t =? o)) l.
Proof.
  intros Hf. induction l as [|r l IH]; simpl; [done|].
  destruct (task_oid r =? o) eqn:Er; simpl; [rewrite Hf, Er; simpl; exact IH|].
  rewrite Er. simpl. f_equal. exact IH.
Qed.

Lemma viewed_update_task k v (f : pg_qx_task -> pg_qx_task) w :
  (forall r, task_oid (f r) = task_oid r) -> viewed k v w ->
  let w' := set_vis (set_rows ((fun r => if row_oid r =? tk then f r else r) <$> rows (w_vis w))
                       (w_vis w)) w in
  room k w' /\ view w' = v_update_task f v.
Proof.
  intros Hf (Hr & (Ht & _) & <-) w'. split.
  - destruct Hr as (Hb & Hn & Hk). split; [|done]. intros o Ho. apply Hb.
    apply elem_of_app in Ho as [Ho|Ho]; apply elem_of_app; [|by right]. left.
    apply set_rows_oids in Ho as [Ho|Ho]; [|done].
    apply elem_of_map in Ho as (r & -> & Hin). apply list_elem_of_fmap in Hin as (r' & -> & Hin).
    apply row_oid_in in Hin. destruct (row_oid r' =? tk); [|done].
    cbn [row_oid table_task] in *. rewrite Hf. done.
  - unfold view, v_update_task, all_rows. cbn -[find_oid]. rewrite Ht, !app_nil_r.
    f_equal; [exact (find_oid_update tk f _ Hf)|exact (filter_others_update tk f _ Hf)].
Qed.

Lemma of_task_update {R} (taskid oid : R -> Oid) a (f : R -> R) l :
  (forall r, taskid (f r) = taskid r) ->
  of_task taskid ((fun r => if oid r =? a then f r else r) <$> l) =
  (fun r => if oid r =? a then f r else r) <$> of_task taskid l.
Proof.
  intros Hf. unfold of_task. induction l as [|r l IH]; simpl; [done|].
  assert (taskid (if oid r =? a then f r else r) = taskid r) as -> by (destruct (oid r =? a); auto).
  destruct (taskid r =? tk); simpl; [f_equal|]; exact IH.
Qed.

Lemma viewed_update_attempt k v a (f : pg_qx_attempt -> pg_qx_attempt) w :
  (forall r, attempt_oid (f r) = attempt_oid r) ->
  (forall r, qxattempttaskid (f r) = qxattempttaskid r) -> viewed k v w ->
  let w' := set_vis (set_rows ((fun r => if row_oid r =? a then f r else r) <$> rows (w_vis w))
                       (w_vis w)) w in
  room k w' /\ view w' = v_update_attempt a f v.
Proof.
  intros Hf Hf' (Hr & (_ & Ha & _) & <-) w'. split.
  - destruct Hr as (Hb & Hn & Hk). split; [|done]. intros o Ho. apply Hb.
    apply elem_of_app in Ho as [Ho|Ho]; apply elem_of_app; [|by right]. left.
    apply set_rows_oids in Ho as [Ho|Ho]; [|done].
    apply elem_of_map in Ho as (r & -> & Hin). apply list_elem_of_fmap in Hin as (r' & -> & Hin).
    apply row_oid_in in Hin. destruct (row_oid r' =? a); [|done].
    cbn [row_oid table_attempt] in *. rewrite Hf. done.
  - unfold view, v_update_attempt, all_rows. cbn -[of_task]. rewrite Ha, !app_nil_r.
    f_equal. exact (of_task_update qxattempttaskid attempt_oid a f _ Hf').
Qed.

Lemma wp_update_task k v state la ra lc rc row (Q : unit -> world -> Prop) X w :
  viewed k v w -> v_task v = Some row ->
  (forall w', viewed k (v_update_task (set_task_runtime state la ra lc rc) v) w' -> Q tt w') ->
  wp (QxCatalogUpdateTaskRuntime tk state la ra lc rc) Q X w.
Proof.
  intros Hv Hrow HQ. unfold QxCatalogUpdateTaskRuntime. apply wp_bind, wp_gets.
  assert (find_oid tk (rows (w_vis w)) = Some row) as ->.
  { destruct Hv as (_ & (Ht & _) & <-). simpl in Hrow. unfold all_rows in Hrow. simpl in Hrow.
    rewrite Ht, app_nil_r in Hrow. exact Hrow. }
  apply wp_bind, wp_modify.
  destruct (viewed_update_task k v (set_task_runtime state la ra lc rc) w) as (H1 & H2); try done.
  eapply wp_cci; [exact H1|exact H2|exact HQ].
Qed.

(** An attempt of the task with identifier [a]. *)
Definition has_attempt (a : Oid) (v : task_view) : Prop :=
  exists r, r ∈ v_attempts v /\ attempt_oid r = a.

Lemma find_oid_exists {R} `{Table R} o (l : list R) :
  (exists r, r ∈ l /\ row_oid r = o) -> exists r, find_oid o l = Some r.
Proof.
  intros (r & Hin & Ho). destruct (find_oid o l) as [r'|] eqn:F; [eauto|].
  apply list_elem_of_In in Hin. apply (find_none _ _ F) in Hin. apply Z.eqb_neq in Hin. done.
Qed.

Lemma find_oid_row {R} `{Table R} o (l : list R) r : find_oid o l = Some r -> r ∈ l /\ row_oid r = o.
Proof.
  intros Hf. apply find_some in Hf as (Hin & Ho). apply Z.eqb_eq in Ho.
  apply list_elem_of_In in Hin. done.
Qed.

Lemma find_oid_NoDup {R} `{Table R} (l : list R) r :
  NoDup (row_oid <$> l) -> r ∈ l -> find_oid (row_oid r) l = Some r.
Proof.
  induction l as [|x l IH]; [intros _ Hr; inversion Hr|]. intros Hd Hr.
  apply NoDup_cons in Hd as [Hx Hd]. unfold find_oid. cbn [List.find].
  destruct (row_oid x =? row_oid r) eqn:Eq; breflect.
  - apply elem_of_cons in Hr as [->|Hr]; [done|]. exfalso. apply Hx. rewrite Eq.
    by apply list_elem_of_fmap_2.
  - apply elem_of_cons in Hr as [->|Hr]; [done|]. by apply IH.
Qed.

Lemma wp_update_attempt k v a state (Q : unit -> world -> Prop) X w :
  viewed k v w -> has_attempt a v ->
  (forall w', viewed k (v_update_attempt a (set_attempt_state state) v) w' -> Q tt w') ->
  wp (QxCatalogUpdateAttemptState a state) Q X w.
Proof.
  intros Hv (r & Hin & Ho) HQ. unfold QxCatalogUpdateAttemptState. apply wp_bind, wp_gets.
  destruct (find_oid_exists (R := pg_qx_attempt) a (rows (w_vis w))) as (r' & ->).
  { exists r. split; [|done]. destruct Hv as (_ & (_ & Ha & _) & <-). simpl in Hin.
    unfold all_rows in Hin. simpl in Hin. rewrite Ha, app_nil_r in Hin.
    apply list_elem_of_In, filter_In in Hin as (Hin & _). by apply list_elem_of_In. }
  apply wp_bind, wp_modify.
  destruct (viewed_update_attempt k v a (set_attempt_state state) w) as (H1 & H2); try done.
  eapply wp_cci; [exact H1|exact H2|exact HQ].
Qed.

(** *** Charges *)

(** The row after a charge, and whether the task's ceilings allow it. *)
Definition charge_row (tokens cost : Z) (t : pg_qx_task) : pg_qx_task :=
  set_task_consumed (int32 (qxtaskconsumedtokens t + tokens)) (int32 (qxtaskconsumedcost t + cost)) t.

Definition within_budget (t : pg_qx_task) : bool :=
  negb ((0 <? qxtaskbudgettokens t) && (qxtaskbudgettokens t <? qxtaskconsumedtokens t)) &&
  negb ((0 <? qxtaskbudgetcost t) && (qxtaskbudgetcost t <? qxtaskconsumedcost t)).

Lemma lookup_task k v row w :
  viewed k v w -> tk <> 0 -> v_task v = Some row ->
  find_oid tk (rows (w_vis w)) = Some row /\
  QxCatalogLookupTaskByOid (w_vis w) tk = Some (qx_catalog_fill_task_info (w_vis w) row).
Proof.
  intros (_ & (Ht & _) & <-) Hk Hrow. simpl in Hrow. unfold all_rows in Hrow. simpl in Hrow.
  rewrite Ht, app_nil_r in Hrow. split; [exact Hrow|].
  unfold QxCatalogLookupTaskByOid, lookup_by_oid. apply OidIsValid_true in Hk. rewrite Hk.
  simpl. rewrite Hrow. done.
Qed.

Lemma wp_charge k v row tokens cost name (Q : unit -> world -> Prop)
    (X : pg_error -> world -> Prop) w :
  viewed k v w -> tk <> 0 -> v_task v = Some row ->
  (within_budget (charge_row tokens cost row) = true ->
     forall w', viewed k (v_update_task (charge_row tokens cost) v) w' -> Q tt w') ->
  (within_budget (charge_row tokens cost row) = false ->
     forall e, err_code e = ERRCODE_CONFIGURATION_LIMIT_EXCEEDED -> X e w) ->
  wp (QxCatalogChargeTaskBudget tk tokens cost name) Q X w.
Proof.
  intros Hv Hk Hrow HQ HX. destruct (lookup_task k v row w Hv Hk Hrow) as (F1 & F2).
  unfold QxCatalogChargeTaskBudget. apply wp_bind, wp_gets. rewrite F2. cbn [ti_row qx_catalog_fill_task_info].
  unfold within_budget, charge_row in HQ, HX. simpl in HQ, HX.
  destruct ((0 <? qxtaskbudgettokens row) && _).
  { apply wp_throw, HX; done. }
  destruct ((0 <? qxtaskbudgetcost row) && _).
  { apply wp_throw, HX; done. }
  apply wp_bind, wp_gets. rewrite F1. apply wp_bind, wp_modify.
  destruct (viewed_update_task k v (set_task_consumed (int32 (qxtaskconsumedtokens row + tokens))
    (int32 (qxtaskconsumedcost row + cost))) w) as (H1 & H2); try done.
  eapply wp_cci; [exact H1| |exact (HQ eq_refl)].
  rewrite H2. unfold v_update_task. rewrite Hrow. done.
Qed.

End Ops.

End Task.

#[global] Arguments of_task : simpl never.
#[global] Arguments all_rows : simpl never.
#[global] Arguments find_oid : simpl never.
