(* ===== verification/Recovery.v ===== *)
(** * Startup scan and failover rebuild

    [src/src/backend/qx/recovery/qx_recovery.c]: summaries of the tasks,
    attempts and checkpoints of a database, the decisions which of them to
    requeue, fence and replay, and the two drivers that call the hooks.  The
    hooks are a record of functions, as in [qx_recovery.h]; what the C code
    passes as [userdata] is a state [U] the hooks thread through. *)

From Stdlib Require Import Ascii String.
From S2P Require Import Prelude Text Types Scheduler Stat Observe SemanticLog Tables World.
From S2P Require Import Catalog.
Open Scope string_scope.
Open Scope Z_scope.
Open Scope bool_scope.
Open Scope list_scope.

Record QxRecoveryHooks (U : Type) := MkHooks {
  hk_begin : option (QxRecoveryReport -> U -> M U);
  hk_task : option (QxRecoveryTaskSummary -> U -> M U);
  hk_attempt : option (QxRecoveryAttemptSummary -> U -> M U);
  hk_checkpoint : option (QxRecoveryCheckpointSummary -> U -> M U);
  hk_fence_attempt : option (QxRecoveryAttemptSummary -> U -> M U);
  hk_requeue_task : option (QxRecoveryTaskSummary -> U -> M U);
  hk_replay_checkpoint : option (QxRecoveryCheckpointSummary -> U -> M U);
  hk_finish : option (QxRecoveryReport -> U -> M U)
}.
Arguments MkHooks {U}.
Arguments hk_begin {U}.
Arguments hk_task {U}.
Arguments hk_attempt {U}.
Arguments hk_checkpoint {U}.
Arguments hk_fence_attempt {U}.
Arguments hk_requeue_task {U}.
Arguments hk_replay_checkpoint {U}.
Arguments hk_finish {U}.

(** ** Summaries *)

Definition set_ts_attempt (lastattempt nextstep : Z) (fence : bool) (s : QxRecoveryTaskSummary) :
    QxRecoveryTaskSummary :=
  MkTaskSummary (ts_taskoid s) (ts_sessionoid s) (ts_agentoid s) (ts_ownerid s)
    (ts_namespace_policy_oid s) (ts_identityoid s) lastattempt (ts_lastcheckpointoid s)
    (ts_attempt_count s) (ts_checkpoint_count s) nextstep (ts_taskstate s)
    (ts_needs_requeue s) fence (ts_scheduler_recovery_queued s) (ts_scheduler_reclaimed s)
    (ts_has_semantic_lsn s) (ts_semantic_lsn s) (ts_task_name s) (ts_goal s) (ts_priority s)
    (ts_recovery_reason s).

Definition count_ts_attempt (s : QxRecoveryTaskSummary) : QxRecoveryTaskSummary :=
  MkTaskSummary (ts_taskoid s) (ts_sessionoid s) (ts_agentoid s) (ts_ownerid s)
    (ts_namespace_policy_oid s) (ts_identityoid s) (ts_lastattemptoid s) (ts_lastcheckpointoid s)
    (int32 (ts_attempt_count s + 1)) (ts_checkpoint_count s) (ts_nextstepseqno s) (ts_taskstate s)
    (ts_needs_requeue s) (ts_needs_fence s) (ts_scheduler_recovery_queued s)
    (ts_scheduler_reclaimed s) (ts_has_semantic_lsn s) (ts_semantic_lsn s) (ts_task_name s)
    (ts_goal s) (ts_priority s) (ts_recovery_reason s).

Definition set_ts_needs_requeue (s : QxRecoveryTaskSummary) : QxRecoveryTaskSummary :=
  MkTaskSummary (ts_taskoid s) (ts_sessionoid s) (ts_agentoid s) (ts_ownerid s)
    (ts_namespace_policy_oid s) (ts_identityoid s) (ts_lastattemptoid s) (ts_lastcheckpointoid s)
    (ts_attempt_count s) (ts_checkpoint_count s) (ts_nextstepseqno s) (ts_taskstate s)
    true (ts_needs_fence s) (ts_scheduler_recovery_queued s)
    (ts_scheduler_reclaimed s) (ts_has_semantic_lsn s) (ts_semantic_lsn s) (ts_task_name s)
    (ts_goal s) (ts_priority s) (ts_recovery_reason s).

Definition set_ts_checkpoint (k : QxCatalogCheckpointInfo) (s : QxRecoveryTaskSummary) :
    QxRecoveryTaskSummary :=
  MkTaskSummary (ts_taskoid s) (ts_sessionoid s) (ts_agentoid s) (ts_ownerid s)
    (ts_namespace_policy_oid s) (ts_identityoid s) (ts_lastattemptoid s) (checkpoint_oid k)
    (ts_attempt_count s) (int32 (ts_checkpoint_count s + 1)) (qxcheckpointnextstepseqno k)
    (ts_taskstate s) (ts_needs_requeue s) (ts_needs_fence s) (ts_scheduler_recovery_queued s)
    (ts_scheduler_reclaimed s) (negb (qxcheckpointlsn k =? InvalidXLogRecPtr))
    (qxcheckpointlsn k) (ts_task_name s) (ts_goal s) (ts_priority s) (ts_recovery_reason s).

(** The scheduler's flags; a reclaimed attempt is not fenced again. *)
Definition set_ts_scheduler (queued reclaimed : bool) (s : QxRecoveryTaskSummary) :
    QxRecoveryTaskSummary :=
  MkTaskSummary (ts_taskoid s) (ts_sessionoid s) (ts_agentoid s) (ts_ownerid s)
    (ts_namespace_policy_oid s) (ts_identityoid s) (ts_lastattemptoid s) (ts_lastcheckpointoid s)
    (ts_attempt_count s) (ts_checkpoint_count s) (ts_nextstepseqno s) (ts_taskstate s)
    (ts_needs_requeue s) (if reclaimed then false else ts_needs_fence s) queued reclaimed
    (ts_has_semantic_lsn s) (ts_semantic_lsn s) (ts_task_name s) (ts_goal s) (ts_priority s)
    (ts_recovery_reason s).

Definition qx_recovery_task_would_requeue (s : QxRecoveryTaskSummary) : bool :=
  if Ascii.eqb (ts_taskstate s) QX_TASK_STATE_COMPLETED then false
  else ts_needs_requeue s || Ascii.eqb (ts_taskstate s) QX_TASK_STATE_CHECKPOINTED ||
       Ascii.eqb (ts_taskstate s) QX_TASK_STATE_RUNNING.

Definition qx_recovery_task_has_scheduler_recovery_queue (c : catalog)
    (databaseoid ownerid taskoid attemptoid : Oid) : bool :=
  if negb (OidIsValid taskoid) || negb (OidIsValid attemptoid) then false
  else match QxCatalogLookupLatestSchedulerQueue c databaseoid ownerid taskoid attemptoid with
       | None => false
       | Some q => bool_decide (q_queue_kind q = QX_SCHEDULER_QUEUE_RECOVERY)
       end.

Definition qx_recovery_attempt_has_scheduler_reclaim (c : catalog)
    (databaseoid ownerid taskoid attemptoid : Oid) : bool :=
  if negb (OidIsValid taskoid) || negb (OidIsValid attemptoid) then false
  else match QxCatalogLookupLatestSchedulerLease c databaseoid ownerid taskoid attemptoid with
       | None => false
       | Some l => bool_decide (l_state l = QX_SCHEDULER_LEASE_RECLAIMED) || l_needs_recovery l
       end.

Definition qx_recovery_task_summary_from_catalog (info : QxCatalogTaskInfo) :
    QxRecoveryTaskSummary :=
  let t := ti_row info in
  {| ts_taskoid := task_oid t; ts_sessionoid := qxtasksessionid t;
     ts_agentoid := qxtaskagentid t; ts_ownerid := qxtaskowner t;
     ts_namespace_policy_oid := qxtasknamespacepolicyid t;
     ts_identityoid := qxtaskidentityid t; ts_lastattemptoid := qxtasklastattemptid t;
     ts_lastcheckpointoid := qxtasklastcheckpointid t;
     ts_attempt_count := 0; ts_checkpoint_count := 0; ts_nextstepseqno := 0;
     ts_taskstate := qxtaskstate t; ts_needs_requeue := false; ts_needs_fence := false;
     ts_scheduler_recovery_queued := false; ts_scheduler_reclaimed := false;
     ts_has_semantic_lsn := false; ts_semantic_lsn := InvalidXLogRecPtr;
     ts_task_name := qxtaskname t; ts_goal := qxtaskgoal t; ts_priority := qxtaskpriority t;
     ts_recovery_reason := Some "startup scan" |}.

Definition qx_recovery_attempt_summary_from_catalog (reclaimed : bool) (a : QxCatalogAttemptInfo) :
    QxRecoveryAttemptSummary :=
  {| as_attemptoid := attempt_oid a; as_taskoid := qxattempttaskid a;
     as_sessionoid := qxattemptsessionid a; as_ownerid := qxattemptowner a;
     as_resume_checkpoint_oid := qxattemptresumecheckpointid a; as_seqno := qxattemptseqno a;
     as_state := qxattemptstate a;
     as_resumable := negb (Ascii.eqb (qxattemptstate a) QX_ATTEMPT_STATE_COMPLETED) &&
                     negb (Ascii.eqb (qxattemptstate a) QX_ATTEMPT_STATE_FAILED);
     as_scheduler_reclaimed := reclaimed; as_strategy := qxattemptstrategy a;
     as_recovery_reason := Some "attempt scan" |}.

Definition qx_recovery_checkpoint_summary_from_catalog (replayed : bool)
    (k : QxCatalogCheckpointInfo) : QxRecoveryCheckpointSummary :=
  {| cs_checkpointoid := checkpoint_oid k; cs_taskoid := qxcheckpointtaskid k;
     cs_attemptoid := qxcheckpointattemptid k; cs_stepoid := qxcheckpointstepid k;
     cs_ownerid := qxcheckpointowner k; cs_state := qxcheckpointstate k;
     cs_task_state := qxcheckpointtaskstate k;
     cs_nextstepseqno := qxcheckpointnextstepseqno k;
     cs_has_semantic_lsn := negb (qxcheckpointlsn k =? InvalidXLogRecPtr);
     cs_semantic_replayed := replayed; cs_semantic_lsn := qxcheckpointlsn k;
     cs_label := qxcheckpointlabel k; cs_data := qxcheckpointdata k |}.

Definition update_with_attempt (task : QxRecoveryTaskSummary) (a : QxCatalogAttemptInfo) :
    QxRecoveryTaskSummary :=
  if negb (qxattempttaskid a =? ts_taskoid task) then task
  else
    let task := count_ts_attempt task in
    let task :=
      if negb (OidIsValid (ts_lastattemptoid task)) || (ts_nextstepseqno task <=? qxattemptseqno a)
      then set_ts_attempt (attempt_oid a) (qxattemptseqno a)
             (Ascii.eqb (qxattemptstate a) QX_ATTEMPT_STATE_RUNNING) task
      else task in
    if Ascii.eqb (qxattemptstate a) QX_ATTEMPT_STATE_CHECKPOINTED
    then set_ts_needs_requeue task else task.

Definition qx_recovery_update_task_with_attempts (task : QxRecoveryTaskSummary)
    (attempts : list QxCatalogAttemptInfo) : QxRecoveryTaskSummary :=
  fold_left update_with_attempt attempts task.

Definition update_with_checkpoint (task : QxRecoveryTaskSummary) (k : QxCatalogCheckpointInfo) :
    QxRecoveryTaskSummary :=
  if negb (qxcheckpointtaskid k =? ts_taskoid task) then task
  else
    let task := set_ts_checkpoint k task in
    if Ascii.eqb (qxcheckpointtaskstate k) QX_TASK_STATE_CHECKPOINTED
    then set_ts_needs_requeue task else task.

Definition qx_recovery_update_task_with_checkpoints (task : QxRecoveryTaskSummary)
    (checkpoints : list QxCatalogCheckpointInfo) : QxRecoveryTaskSummary :=
  fold_left update_with_checkpoint checkpoints task.

Section WithEnv.
Context (E : Env).

Definition qx_recovery_effective_database_oid (request : option QxRecoveryStartupRequest) : Oid :=
  match request with
  | Some r => if OidIsValid (sr_databaseoid r) then sr_databaseoid r else MyDatabaseId E
  | None => MyDatabaseId E
  end.

Definition qx_recovery_effective_owner_oid (request : option QxRecoveryStartupRequest) : Oid :=
  match request with
  | Some r => if OidIsValid (sr_ownerid r) then sr_ownerid r else GetUserId E
  | None => GetUserId E
  end.

Definition build_task_summary (c : catalog) (databaseoid ownerid : Oid)
    (attempts : list QxCatalogAttemptInfo) (checkpoints : list QxCatalogCheckpointInfo)
    (task : QxCatalogTaskInfo) : QxRecoveryTaskSummary :=
  let summary :=
    qx_recovery_update_task_with_checkpoints
      (qx_recovery_update_task_with_attempts (qx_recovery_task_summary_from_catalog task) attempts)
      checkpoints in
  set_ts_scheduler
    (qx_recovery_task_has_scheduler_recovery_queue c databaseoid ownerid
       (ts_taskoid summary) (ts_lastattemptoid summary))
    (qx_recovery_attempt_has_scheduler_reclaim c databaseoid ownerid
       (ts_taskoid summary) (ts_lastattemptoid summary))
    summary.

Definition QxRecoveryBuildTaskSummaries (c : catalog) (request : option QxRecoveryStartupRequest) :
    list QxRecoveryTaskSummary :=
  let databaseoid := qx_recovery_effective_database_oid request in
  let ownerid := qx_recovery_effective_owner_oid request in
  build_task_summary c databaseoid ownerid
    (QxCatalogBuildAttemptInfoList c databaseoid ownerid)
    (QxCatalogBuildCheckpointInfoList c databaseoid ownerid)
  <$> QxCatalogBuildTaskInfoList c databaseoid ownerid.

Definition build_attempt_summary (c : catalog) (databaseoid ownerid : Oid)
    (a : QxCatalogAttemptInfo) : QxRecoveryAttemptSummary :=
  qx_recovery_attempt_summary_from_catalog
    (qx_recovery_attempt_has_scheduler_reclaim c databaseoid ownerid
       (qxattempttaskid a) (attempt_oid a)) a.

Definition QxRecoveryBuildAttemptSummaries (c : catalog) (request : option QxRecoveryStartupRequest) :
    list QxRecoveryAttemptSummary :=
  let databaseoid := qx_recovery_effective_database_oid request in
  let ownerid := qx_recovery_effective_owner_oid request in
  build_attempt_summary c databaseoid ownerid <$> QxCatalogBuildAttemptInfoList c databaseoid ownerid.

Definition build_checkpoint_summary (c : catalog) (databaseoid : Oid)
    (k : QxCatalogCheckpointInfo) : QxRecoveryCheckpointSummary :=
  qx_recovery_checkpoint_summary_from_catalog
    (QxCatalogCheckpointHasSemanticReplay c databaseoid (qxcheckpointtaskid k) (checkpoint_oid k)) k.

Definition QxRecoveryBuildCheckpointSummaries (c : catalog)
    (request : option QxRecoveryStartupRequest) : list QxRecoveryCheckpointSummary :=
  let databaseoid := qx_recovery_effective_database_oid request in
  let ownerid := qx_recovery_effective_owner_oid request in
  build_checkpoint_summary c databaseoid <$> QxCatalogBuildCheckpointInfoList c databaseoid ownerid.

(** ** Decisions *)

Definition QxRecoveryTaskNeedsRequeue (s : QxRecoveryTaskSummary) : bool :=
  if ts_scheduler_recovery_queued s then false
  else if Ascii.eqb (ts_taskstate s) QX_TASK_STATE_COMPLETED then false
  else ts_needs_requeue s || Ascii.eqb (ts_taskstate s) QX_TASK_STATE_CHECKPOINTED ||
       Ascii.eqb (ts_taskstate s) QX_TASK_STATE_RUNNING.

Definition QxRecoveryAttemptNeedsFence (s : QxRecoveryAttemptSummary) : bool :=
  if as_scheduler_reclaimed s then false
  else Ascii.eqb (as_state s) QX_ATTEMPT_STATE_RUNNING.

Definition QxRecoveryCheckpointNeedsReplay (s : QxRecoveryCheckpointSummary) : bool :=
  cs_has_semantic_lsn s && Ascii.eqb (cs_state s) QX_CHECKPOINT_STATE_DURABLE.

(** ** The report *)

Definition incr (n : Z) : Z := int32 (n + 1).
Definition incr_if (b : bool) (n : Z) : Z := if b then incr n else n.

Definition qx_recovery_init_report (databaseoid : Oid) (startup_scan failover_rebuild : bool) :
    QxRecoveryReport :=
  MkReport databaseoid startup_scan failover_rebuild 0 0 0 0 0 0 0 0 0 0 0.

Definition report_task (r : QxRecoveryReport) (t : QxRecoveryTaskSummary) : QxRecoveryReport :=
  let requeue := QxRecoveryTaskNeedsRequeue t in
  MkReport (r_databaseoid r) (r_startup_scan r) (r_failover_rebuild r)
    (incr (r_tasks_scanned r)) (r_attempts_scanned r) (r_checkpoints_scanned r)
    (incr_if requeue (r_tasks_requeued r)) (r_attempts_fenced r) (r_checkpoints_replayed r)
    (incr_if (ts_needs_fence t) (r_orphan_attempts r))
    (r_semantic_replay_candidates r) (r_checkpoints_replay_suppressed r)
    (incr_if (negb requeue && (qx_recovery_task_would_requeue t && ts_scheduler_recovery_queued t))
       (r_tasks_requeue_suppressed r))
    (r_attempts_fence_suppressed r).

Definition report_attempt (r : QxRecoveryReport) (a : QxRecoveryAttemptSummary) :
    QxRecoveryReport :=
  let fence := QxRecoveryAttemptNeedsFence a in
  MkReport (r_databaseoid r) (r_startup_scan r) (r_failover_rebuild r)
    (r_tasks_scanned r) (incr (r_attempts_scanned r)) (r_checkpoints_scanned r)
    (r_tasks_requeued r) (incr_if fence (r_attempts_fenced r)) (r_checkpoints_replayed r)
    (r_orphan_attempts r) (r_semantic_replay_candidates r) (r_checkpoints_replay_suppressed r)
    (r_tasks_requeue_suppressed r)
    (incr_if (negb fence && (Ascii.eqb (as_state a) QX_ATTEMPT_STATE_RUNNING &&
                             as_scheduler_reclaimed a))
       (r_attempts_fence_suppressed r)).

Definition report_checkpoint (r : QxRecoveryReport) (k : QxRecoveryCheckpointSummary) :
    QxRecoveryReport :=
  let replay := QxRecoveryCheckpointNeedsReplay k in
  MkReport (r_databaseoid r) (r_startup_scan r) (r_failover_rebuild r)
    (r_tasks_scanned r) (r_attempts_scanned r) (incr (r_checkpoints_scanned r))
    (r_tasks_requeued r) (r_attempts_fenced r)
    (incr_if (replay && negb (cs_semantic_replayed k)) (r_checkpoints_replayed r))
    (r_orphan_attempts r)
    (incr_if (Ascii.eqb (cs_state k) QX_CHECKPOINT_STATE_DURABLE) (r_semantic_replay_candidates r))
    (incr_if (replay && cs_semantic_replayed k) (r_checkpoints_replay_suppressed r))
    (r_tasks_requeue_suppressed r) (r_attempts_fence_suppressed r).

(** The caller passes exactly one of the two requests. *)
Definition QxRecoveryPopulateReport
    (request : QxRecoveryStartupRequest + QxRecoveryFailoverRequest)
    (tasks : list QxRecoveryTaskSummary) (attempts : list QxRecoveryAttemptSummary)
    (checkpoints : list QxRecoveryCheckpointSummary) : QxRecoveryReport :=
  let report :=
    match request with
    | inl r => qx_recovery_init_report (qx_recovery_effective_database_oid (Some r)) true false
    | inr r => qx_recovery_init_report
                 (if OidIsValid (fr_databaseoid r) then fr_databaseoid r else MyDatabaseId E)
                 false true
    end in
  fold_left report_checkpoint checkpoints
    (fold_left report_attempt attempts (fold_left report_task tasks report)).

(** ** The drivers *)

(** [if (hook != NULL) hook(summary, userdata)] *)
Definition call_hook {U S} (hook : option (S -> U -> M U)) (s : S) (u : U) : M U :=
  match hook with Some f => f s u | None => ret u end.

Fixpoint each_summary {U S} (f : S -> U -> M U) (l : list S) (u : U) : M U :=
  match l with
  | [] => ret u
  | s :: rest => let* u' := f s u in each_summary f rest u'
  end.

Definition hook_of {U A} (hooks : option (QxRecoveryHooks U)) (f : QxRecoveryHooks U -> option A) :
    option A :=
  match hooks with Some h => f h | None => None end.

Definition visit_task {U} (hooks : option (QxRecoveryHooks U)) (requeue : bool)
    (task : QxRecoveryTaskSummary) (u : U) : M U :=
  let* u := call_hook (hook_of hooks hk_task) task u in
  if requeue && QxRecoveryTaskNeedsRequeue task
  then call_hook (hook_of hooks hk_requeue_task) task u else ret u.

Definition visit_attempt {U} (hooks : option (QxRecoveryHooks U)) (fence : bool)
    (attempt : QxRecoveryAttemptSummary) (u : U) : M U :=
  let* u := call_hook (hook_of hooks hk_attempt) attempt u in
  if fence && QxRecoveryAttemptNeedsFence attempt
  then call_hook (hook_of hooks hk_fence_attempt) attempt u else ret u.

Definition visit_checkpoint {U} (hooks : option (QxRecoveryHooks U)) (replay : bool)
    (checkpoint : QxRecoveryCheckpointSummary) (u : U) : M U :=
  let* u := call_hook (hook_of hooks hk_checkpoint) checkpoint u in
  if replay && QxRecoveryCheckpointNeedsReplay checkpoint && negb (cs_semantic_replayed checkpoint)
  then call_hook (hook_of hooks hk_replay_checkpoint) checkpoint u else ret u.

Definition QxRecoveryRunStartupScan {U} (request : option QxRecoveryStartupRequest)
    (hooks : option (QxRecoveryHooks U)) (u : U) : M (QxRecoveryReport * U) :=
  match request with
  | None => elog_error "startup recovery request cannot be null"
  | Some req =>
      let* c := gets w_vis in
      let tasks := QxRecoveryBuildTaskSummaries c (Some req) in
      let attempts := if sr_include_attempts req
                      then QxRecoveryBuildAttemptSummaries c (Some req) else [] in
      let checkpoints := if sr_include_checkpoints req
                         then QxRecoveryBuildCheckpointSummaries c (Some req) else [] in
      let report := QxRecoveryPopulateReport (inl req) tasks attempts checkpoints in
      let* u := call_hook (hook_of hooks hk_begin) report u in
      let* u := each_summary (visit_task hooks (sr_requeue_checkpointed_tasks req)) tasks u in
      let* u := each_summary (visit_attempt hooks (sr_fence_stale_attempts req)) attempts u in
      let* u := each_summary (visit_checkpoint hooks (sr_rebuild_from_semantic_log req))
                  checkpoints u in
      let* u := call_hook (hook_of hooks hk_finish) report u in
      ret (report, u)
  end.

Definition startup_request_of_failover (r : QxRecoveryFailoverRequest) : QxRecoveryStartupRequest :=
  {| sr_databaseoid := fr_databaseoid r; sr_ownerid := fr_ownerid r;
     sr_include_attempts := fr_rebuild_attempt_graph r;
     sr_include_checkpoints := fr_rebuild_checkpoint_graph r;
     sr_fence_stale_attempts := fr_fence_orphaned_attempts r;
     sr_requeue_checkpointed_tasks := fr_requeue_checkpointed_tasks r;
     sr_rebuild_from_semantic_log := fr_replay_semantic_log r |}.

Definition QxRecoveryRunFailoverRebuild {U} (request : option QxRecoveryFailoverRequest)
    (hooks : option (QxRecoveryHooks U)) (u : U) : M (QxRecoveryReport * U) :=
  match request with
  | None => elog_error "failover recovery request cannot be null"
  | Some req =>
      let sreq := startup_request_of_failover req in
      let* c := gets w_vis in
      let tasks := QxRecoveryBuildTaskSummaries c (Some sreq) in
      let attempts := if sr_include_attempts sreq
                      then QxRecoveryBuildAttemptSummaries c (Some sreq) else [] in
      let checkpoints := if sr_include_checkpoints sreq
                         then QxRecoveryBuildCheckpointSummaries c (Some sreq) else [] in
      let report := QxRecoveryPopulateReport (inr req) tasks attempts checkpoints in
      let* u := call_hook (hook_of hooks hk_begin) report u in
      let* u := each_summary (visit_task hooks (fr_requeue_checkpointed_tasks req)) tasks u in
      let* u := each_summary (visit_attempt hooks (fr_fence_orphaned_attempts req)) attempts u in
      let* u := each_summary (visit_checkpoint hooks (fr_replay_semantic_log req)) checkpoints u in
      let* u := call_hook (hook_of hooks hk_finish) report u in
      ret (report, u)
  end.

End WithEnv.
