(* ===== verification/Policy.v ===== *)
(** * Runtime execution policy

    [src/src/backend/qx/runtime/qx_runtime_policy.c]: the policy a tool's
    capability tags ask for, the allow-lists of images and microVM assets, and
    the container profile compiled from it.  [getenv] is an argument. *)

From Stdlib Require Import Ascii String.
From S2P Require Import Prelude Text Types Scheduler Stat Observe SemanticLog Tables World.
From S2P Require Import Catalog.
Open Scope string_scope.
Open Scope Z_scope.
Open Scope bool_scope.
Open Scope list_scope.

Record QxRuntimePolicy := MkPolicy {
  po_allow_network : bool;
  po_allow_privilege_escalation : bool;
  po_readonly_rootfs : bool;
  po_image_ref : cstr;
  po_seccomp_mode : cstr;
  po_cgroup_mode : cstr;
  po_oci_profile : cstr;
  po_kernel_ref : cstr;
  po_initrd_ref : cstr;
  po_snapshot_ref : cstr
}.

Definition qx_runtime_policy_init : QxRuntimePolicy :=
  MkPolicy false false true None None None None None None None.

(** ** Tags *)

(** [scan == serialized], or the character before the match is a bar. *)
Definition tag_start (before : option ascii) : bool :=
  match before with None => true | Some c => Ascii.eqb c "|" end.

Fixpoint tag_scan (fuel : nat) (prefix : string) (before : option ascii) (scan : string) : cstr :=
  match fuel with
  | O => None
  | S fuel' =>
      match strstr scan prefix with
      | None => None
      | Some (pre, post) =>
          if tag_start (last_char before pre) then Some (upto "|" post)
          else tag_scan fuel' prefix (last_char (last_char before pre) prefix) post
      end
  end.

(** The value, cut to the size of the caller's buffer. *)
Definition qx_runtime_policy_tag_value (serialized : cstr) (prefix : string) (destlen : nat) : cstr :=
  match serialized with
  | None => None
  | Some s => strlcpy destlen <$> tag_scan (S (String.length s)) prefix None s
  end.

Definition qx_runtime_policy_parse_bool_tag (value : cstr) (default_value : bool) : bool :=
  if is_blank value then default_value
  else if cstr_case_is value "allow" || cstr_case_is value "true" ||
          cstr_case_is value "yes" || cstr_case_is value "1" then true
  else if cstr_case_is value "deny" || cstr_case_is value "false" ||
          cstr_case_is value "no" || cstr_case_is value "0" then false
  else default_value.

Definition qx_runtime_policy_mode_is (value : cstr) (expected : string) : bool :=
  cstr_case_is value expected.

(** A flag that is only raised by an explicit tag. *)
Definition flag_tag (tags : cstr) (prefix : string) : bool :=
  match qx_runtime_policy_tag_value tags prefix 64 with
  | Some v => pg_strcaseeq v "allow" || pg_strcaseeq v "true" || pg_strcaseeq v "yes"
  | None => false
  end.

(** A text that is only set by a tag with a value. *)
Definition text_tag (tags : cstr) (prefix : string) (destlen : nat) : cstr :=
  match qx_runtime_policy_tag_value tags prefix destlen with
  | Some v => if String.eqb v "" then None else Some v
  | None => None
  end.

Definition first_set (a b : cstr) : cstr := match a with Some _ => a | None => b end.

Section WithGetenv.
Context (getenv : string -> cstr).

Definition qx_runtime_policy_from_authz (tool_capability_tags : cstr) : QxRuntimePolicy :=
  let tags := tool_capability_tags in
  {| po_allow_network := flag_tag tags "network:";
     po_allow_privilege_escalation := flag_tag tags "privilege_escalation:";
     po_readonly_rootfs :=
       match qx_runtime_policy_tag_value tags "readonly_rootfs:" 64 with
       | Some v => qx_runtime_policy_parse_bool_tag (Some v) true
       | None => true
       end;
     po_image_ref :=
       first_set (text_tag tags "image:" 256)
         (Some (text_or (getenv "QX_CONTAINER_IMAGE") "alpine:3.20"));
     po_seccomp_mode := first_set (text_tag tags "seccomp_mode:" 64) (text_tag tags "seccomp:" 64);
     po_cgroup_mode := first_set (text_tag tags "cgroup_mode:" 64) (text_tag tags "cgroup:" 64);
     po_oci_profile := None;
     po_kernel_ref := text_tag tags "kernel:" 256;
     po_initrd_ref := text_tag tags "initrd:" 256;
     po_snapshot_ref := text_tag tags "snapshot:" 256 |}.

(** ** Allow-lists *)

(** The loop stops at an empty rest, so a last empty entry is not compared. *)
Fixpoint allowlist_scan (fuel : nat) (cursor : string) (value : string) : bool :=
  match fuel with
  | O => false
  | S fuel' =>
      if String.eqb cursor "" then false
      else
        let '(entry, rest) := split_char "," cursor in
        if String.eqb (skip_spaces entry) value then true
        else match rest with Some r => allowlist_scan fuel' r value | None => false end
  end.

Definition qx_runtime_policy_validate_allowlist_entry (value : cstr) (env_var label : string) :
    M unit :=
  if is_blank value then
    throw ERRCODE_INVALID_PARAMETER_VALUE
      (cat ["runtime policy requires a "; label; " reference"]) None
  else
    match getenv env_var with
    | None => ret tt
    | Some allowlist =>
        if String.eqb allowlist "" then ret tt
        else if allowlist_scan (S (String.length allowlist)) allowlist (cstr_or value "") then ret tt
        else throw ERRCODE_INSUFFICIENT_PRIVILEGE
               (cat [label; " "; quoted (cstr_or value ""); " is not in "; env_var]) None
    end.

Definition qx_runtime_policy_validate_image_ref (image_ref : cstr) : M unit :=
  qx_runtime_policy_validate_allowlist_entry image_ref "QX_CONTAINER_IMAGE_ALLOWLIST"
    "container image".

Definition qx_runtime_policy_validate_microvm_assets (kernel initrd snapshot : cstr) : M unit :=
  qx_runtime_policy_validate_allowlist_entry kernel "QX_MICROVM_KERNEL_ALLOWLIST" "microVM kernel" ;;;
  qx_runtime_policy_validate_allowlist_entry initrd "QX_MICROVM_INITRD_ALLOWLIST" "microVM initrd" ;;;
  if negb (is_blank snapshot)
  then qx_runtime_policy_validate_allowlist_entry snapshot "QX_MICROVM_SNAPSHOT_ALLOWLIST"
         "microVM snapshot"
  else ret tt.

(** ** Compiling *)

Definition container_profile (p : QxRuntimePolicy) (seccomp cgroup : string) : string :=
  cat ["network="; if po_allow_network p then "allow" else "deny";
       ";privilege_escalation="; if po_allow_privilege_escalation p then "allow" else "deny";
       ";readonly_rootfs="; show_bool (po_readonly_rootfs p);
       ";seccomp="; seccomp; ";cgroup="; cgroup; ";image="; cstr_or (po_image_ref p) ""].

Definition qx_runtime_policy_compile_container (p : QxRuntimePolicy) : M QxRuntimePolicy :=
  let* seccomp :=
    if is_blank (po_seccomp_mode p)
    then ret (if po_allow_privilege_escalation p then "unconfined" else "no-new-privileges")
    else if negb (qx_runtime_policy_mode_is (po_seccomp_mode p) "unconfined") &&
            negb (qx_runtime_policy_mode_is (po_seccomp_mode p) "no-new-privileges") &&
            negb (qx_runtime_policy_mode_is (po_seccomp_mode p) "runtime-default") &&
            negb (qx_runtime_policy_mode_is (po_seccomp_mode p) "strict")
    then throw ERRCODE_INVALID_PARAMETER_VALUE
           (cat ["unsupported container seccomp mode "; quoted (cstr_or (po_seccomp_mode p) "")]) None
    else ret (cstr_or (po_seccomp_mode p) "") in
  let* cgroup :=
    if is_blank (po_cgroup_mode p) then ret "private"
    else if negb (qx_runtime_policy_mode_is (po_cgroup_mode p) "host") &&
            negb (qx_runtime_policy_mode_is (po_cgroup_mode p) "private") &&
            negb (qx_runtime_policy_mode_is (po_cgroup_mode p) "isolated")
    then throw ERRCODE_INVALID_PARAMETER_VALUE
           (cat ["unsupported container cgroup mode "; quoted (cstr_or (po_cgroup_mode p) "")]) None
    else ret (cstr_or (po_cgroup_mode p) "") in
  ret (MkPolicy (po_allow_network p) (po_allow_privilege_escalation p) (po_readonly_rootfs p)
         (po_image_ref p) (Some seccomp) (Some cgroup)
         (Some (container_profile p seccomp cgroup))
         (po_kernel_ref p) (po_initrd_ref p) (po_snapshot_ref p)).

Definition resolve_asset (ref path default : cstr) : cstr :=
  if negb (is_blank ref) then ref
  else if negb (is_blank path) then path
  else if negb (is_blank default) then default
  else ref.

Definition qx_runtime_policy_resolve_microvm_assets (p : QxRuntimePolicy)
    (kernel_path initrd_path : cstr) : M QxRuntimePolicy :=
  let kernel := resolve_asset (po_kernel_ref p) kernel_path (getenv "QX_MICROVM_KERNEL") in
  let initrd := resolve_asset (po_initrd_ref p) initrd_path (getenv "QX_MICROVM_INITRD") in
  if is_blank kernel || is_blank initrd then
    throw ERRCODE_INVALID_PARAMETER_VALUE
      "runtime policy requires microVM kernel and initrd references" None
  else
    qx_runtime_policy_validate_microvm_assets kernel initrd (po_snapshot_ref p) ;;;
    ret (MkPolicy (po_allow_network p) (po_allow_privilege_escalation p) (po_readonly_rootfs p)
           (po_image_ref p) (po_seccomp_mode p) (po_cgroup_mode p) (po_oci_profile p)
           kernel initrd (po_snapshot_ref p)).

End WithGetenv.

(** ** The tag lookup reads one field *)

#[local] Arguments Ascii.eqb : simpl never.

(** Reference: the value of the first field with the prefix. *)
Fixpoint first_field (prefix : string) (fs : list string) : cstr :=
  match fs with
  | [] => None
  | f :: rest => match strip_prefix prefix f with Some v => Some v | None => first_field prefix rest end
  end.

(** The walk over all positions that the loop shortens. *)
Fixpoint first_tag (prefix : string) (before : option ascii) (s : string) : cstr :=
  match (if tag_start before then strip_prefix prefix s else None) with
  | Some post => Some (upto "|" post)
  | None =>
      match s with
      | EmptyString => None
      | String c t => first_tag prefix (Some c) t
      end
  end.

Lemma first_tag_none prefix before s :
  strstr s prefix = None -> first_tag prefix before s = None.
Proof.
  revert before. induction s as [|c t IH]; intros before; rewrite strstr_unfold; simpl;
    destruct (strip_prefix prefix _) eqn:E; try done.
  - destruct (tag_start before); done.
  - destruct (strstr t prefix) as [[p q]|]; [done|]. intros _.
    destruct (tag_start before); apply IH; done.
Qed.

(** No tag starts inside a text without bars. *)
Lemma first_tag_walk prefix before w post :
  has_char "|" w = false -> tag_start before = false ->
  first_tag prefix before (w +:+ post) = first_tag prefix (last_char before w) post.
Proof.
  revert before. induction w as [|c w IH]; intros before Hw Hb; [done|].
  simpl in Hw. apply orb_false_iff in Hw as [Hc Hw]. simpl. rewrite Hb.
  apply IH; [done|]. simpl. rewrite Ascii.eqb_sym. done.
Qed.

Lemma first_tag_some prefix before s pre post :
  has_char "|" prefix = false ->
  strstr s prefix = Some (pre, post) ->
  first_tag prefix before s =
  if tag_start (last_char before pre) then Some (upto "|" post)
  else first_tag prefix (last_char (last_char before pre) prefix) post.
Proof.
  intros Hp. revert before pre. induction s as [|c t IH]; intros before pre H; pose proof H as H0;
    rewrite strstr_unfold in H.
  - destruct (strip_prefix prefix "") as [r|] eqn:E; [|done]. injection H as <- <-. simpl.
    rewrite E. apply strip_prefix_Some in E. destruct prefix; [|done]. simpl in *. subst r.
    destruct (tag_start before) eqn:B; simpl; rewrite ?B; done.
  - destruct (strip_prefix prefix (String c t)) as [r|] eqn:E.
    + injection H as <- <-. cbn [last_char]. destruct (tag_start before) eqn:B.
      * simpl. rewrite B, E. done.
      * apply strip_prefix_Some in E. rewrite E. apply first_tag_walk; done.
    + destruct (strstr t prefix) as [[p q]|] eqn:E2; [|done]. injection H as <- <-.
      simpl. rewrite E. destruct (tag_start before); apply IH; done.
Qed.

Lemma tag_scan_first_tag prefix fuel before s :
  prefix <> "" -> has_char "|" prefix = false -> (String.length s < fuel)%nat ->
  tag_scan fuel prefix before s = first_tag prefix before s.
Proof.
  intros Hne Hp. revert before s. induction fuel as [|fuel IH]; intros before s Hlen; [lia|]. simpl.
  destruct (strstr s prefix) as [[pre post]|] eqn:E; [|by rewrite first_tag_none].
  rewrite (first_tag_some prefix before s pre post) by done.
  destruct (tag_start _); [done|]. apply IH. apply strstr_Some in E. subst s.
  rewrite !append_length in Hlen. destruct prefix; [done|]. simpl in Hlen. lia.
Qed.

Lemma strip_prefix_field prefix s :
  has_char "|" prefix = false ->
  strip_prefix prefix (upto "|" s) = upto "|" <$> strip_prefix prefix s.
Proof.
  revert s. induction prefix as [|c p IH]; intros s Hp; [done|].
  simpl in Hp. apply orb_false_iff in Hp as [Hc Hp]. destruct s as [|d s]; [done|].
  unfold upto. simpl. destruct (Ascii.eqb "|" d) eqn:Ed.
  - apply Ascii.eqb_eq in Ed as <-. rewrite Ascii.eqb_sym, Hc. done.
  - specialize (IH s Hp). unfold upto in IH. destruct (split_char "|" s) as [a b] eqn:Es. simpl in *.
    destruct (Ascii.eqb c d); [|done]. rewrite IH. done.
Qed.

Lemma first_tag_fields prefix before s :
  prefix <> "" -> has_char "|" prefix = false ->
  first_tag prefix before s =
  first_field prefix (if tag_start before then fields "|" s else tail (fields "|" s)).
Proof.
  intros Hne Hp. revert before. induction s as [|c t IH]; intros before.
  - destruct prefix; [done|]. simpl. destruct (tag_start before); done.
  - assert (first_tag prefix (Some c) t = first_field prefix (tail (fields "|" (String c t)))) as Ht.
    { rewrite IH. simpl. rewrite Ascii.eqb_sym. destruct (Ascii.eqb "|" c); [done|].
      destruct (fields "|" t) eqn:F; [|done]. destruct (fields_cons "|" t) as [r Hr]. congruence. }
    cbn [first_tag]. rewrite Ht. destruct (tag_start before); [|done].
    pose proof (strip_prefix_field prefix (String c t) Hp) as Hf.
    destruct (fields_cons "|" (String c t)) as [r Hr]. rewrite Hr in *. cbn [first_field tail].
    rewrite Hf. destruct (strip_prefix prefix (String c t)); done.
Qed.

(** The tag lookup returns the value of the first field between bars that
    starts with the prefix, cut to the buffer: text inside another tag's value
    is never taken for a tag. *)
Lemma tag_value_first_field tags prefix destlen :
  prefix <> "" -> has_char "|" prefix = false ->
  qx_runtime_policy_tag_value (Some tags) prefix destlen =
  strlcpy destlen <$> first_field prefix (fields "|" tags).
Proof.
  intros Hne Hp. unfold qx_runtime_policy_tag_value.
  rewrite tag_scan_first_tag by (done || lia). rewrite first_tag_fields by done. done.
Qed.

(** ** Permissions are explicit *)

(** [prefix] is the prefix of a field of the tags. *)
Definition has_tag (tags : cstr) (prefix : string) : bool :=
  match tags with
  | Some t => existsb (fun f => starts_with f prefix) (fields "|" t)
  | None => false
  end.

Lemma first_field_none prefix fs :
  existsb (fun f => starts_with f prefix) fs = false -> first_field prefix fs = None.
Proof.
  induction fs as [|f fs IH]; simpl; [done|]. unfold starts_with at 1.
  destruct (strip_prefix prefix f); [done|]. done.
Qed.

Lemma untagged_value tags prefix destlen :
  prefix <> "" -> has_char "|" prefix = false -> has_tag tags prefix = false ->
  qx_runtime_policy_tag_value tags prefix destlen = None.
Proof.
  intros Hne Hp Ht. destruct tags as [t|]; [|done]. simpl in Ht.
  unfold qx_runtime_policy_tag_value. rewrite tag_scan_first_tag by (done || lia).
  rewrite first_tag_fields by done. simpl. rewrite first_field_none by done. done.
Qed.

(** The tags that loosen the container profile. *)
Definition loosening_tags : list string :=
  ["network:"; "privilege_escalation:"; "readonly_rootfs:"; "seccomp_mode:"; "seccomp:";
   "cgroup_mode:"; "cgroup:"].

Definition untagged (tags : cstr) : bool := forallb (fun p => negb (has_tag tags p)) loosening_tags.

Lemma untagged_policy getenv tags :
  untagged tags = true ->
  let p := qx_runtime_policy_from_authz getenv tags in
  po_allow_network p = false /\ po_allow_privilege_escalation p = false /\
  po_readonly_rootfs p = true /\ po_seccomp_mode p = None /\ po_cgroup_mode p = None.
Proof.
  intros H. unfold untagged, loosening_tags in H. cbn [forallb] in H.
  repeat (apply andb_true_iff in H as [?%negb_true_iff H]).
  cbn -[qx_runtime_policy_tag_value]. unfold flag_tag, text_tag.
  rewrite !untagged_value by done. done.
Qed.

(** A tool whose capability tags do not ask for anything compiles, without
    error, to a container profile with no network, no privilege escalation, a
    read-only root, no new privileges and a private cgroup: every permission
    takes an explicit tag. *)
Theorem untagged_container_locked_down getenv tags w :
  untagged tags = true ->
  exists p,
    qx_runtime_policy_compile_container (qx_runtime_policy_from_authz getenv tags) w = Ok p w /\
    po_oci_profile p = Some (cat [
      "network=deny;privilege_escalation=deny;readonly_rootfs=true;";
      "seccomp=no-new-privileges;cgroup=private;image=";
      cstr_or (po_image_ref p) ""]).
Proof.
  intros H. destruct (untagged_policy getenv tags H) as (Hn & He & Hr & Hs & Hc).
  unfold qx_runtime_policy_compile_container. rewrite Hs, Hc, He. eexists. split; [reflexivity|].
  unfold container_profile. rewrite Hn, He, Hr. simpl. done.
Qed.

Lemma untagged_container_locked_down_witness :
  exists p,
    qx_runtime_policy_compile_container
      (qx_runtime_policy_from_authz (fun _ => None) (Some "image:busybox|note:network:allow"))
      (empty_world 20000) = Ok p (empty_world 20000) /\
    po_oci_profile p = Some (cat [
      "network=deny;privilege_escalation=deny;readonly_rootfs=true;";
      "seccomp=no-new-privileges;cgroup=private;image=";
      cstr_or (po_image_ref p) ""]).
Proof. apply untagged_container_locked_down. vm_compute. reflexivity. Defined.

(** ** The allow-list is a list of entries *)

Lemma allowlist_scan_fields fuel s value :
  value <> "" -> (String.length s < fuel)%nat ->
  allowlist_scan fuel s value =
  existsb (fun e => String.eqb (skip_spaces e) value) (fields "," s).
Proof.
  intros Hv. revert s. induction fuel as [|fuel IH]; intros s Hlen; [lia|]. cbn [allowlist_scan].
  destruct (String.eqb s "") eqn:Es.
  { apply String.eqb_eq in Es as ->. simpl. destruct value; done. }
  pose proof (split_char_spec "," s) as H. destruct (split_char "," s) as [pre [post|]].
  - destruct H as [-> Hp]. rewrite fields_app by done. cbn [existsb].
    rewrite append_length in Hlen. simpl in Hlen.
    rewrite IH by lia. destruct (String.eqb (skip_spaces pre) value); done.
  - destruct H as [-> Hp]. rewrite fields_single by done. cbn [existsb].
    destruct (String.eqb (skip_spaces s) value); done.
Qed.

(** An image or asset reference is accepted exactly when the allow-list is
    not set or one of its comma-separated entries, leading spaces dropped, is
    the reference; otherwise the operation fails with a permission error and
    changes nothing. *)
Lemma allowlist_exact getenv value env_var label w :
  is_blank (Some value) = false ->
  qx_runtime_policy_validate_allowlist_entry getenv (Some value) env_var label w =
  if is_blank (getenv env_var) ||
     existsb (fun e => String.eqb (skip_spaces e) value) (fields "," (cstr_or (getenv env_var) ""))
  then Ok tt w
  else Err (PgError ERRCODE_INSUFFICIENT_PRIVILEGE
              (cat [label; " "; quoted value; " is not in "; env_var]) None) w.
Proof.
  intros Hv. unfold qx_runtime_policy_validate_allowlist_entry. rewrite Hv.
  destruct (getenv env_var) as [l|]; [|done]. cbn [is_blank cstr_or].
  destruct (String.eqb l ""); [done|]. cbn [orb].
  assert (value <> "") as Hne by (intros ->; done).
  rewrite allowlist_scan_fields by (done || lia).
  destruct (existsb _ _); done.
Qed.
