(* ===== verification/Backends.v ===== *)
(** * Container and microVM backends

    [src/src/backend/qx/runtime/qx_container_backend.c] and
    [qx_microvm_backend.c]: the requests to the brokers, their validation, the
    launch text and the broker's answer.  The init and free functions that only
    clear or release memory have no counterpart. *)

From Stdlib Require Import Ascii String.
From S2P Require Import Prelude Text Numutils Types Scheduler Stat Observe SemanticLog Tables.
From S2P Require Import World.
Open Scope string_scope.
Open Scope Z_scope.
Open Scope bool_scope.
Open Scope list_scope.

(** ** What both files share *)

Definition backend_require (condition : bool) (message : string) : M unit :=
  if negb condition then throw ERRCODE_INVALID_PARAMETER_VALUE message None else ret tt.

(** [strstr(s, prefix) == s] *)
Definition at_start (s : cstr) (prefix : string) : bool :=
  match s with Some t => starts_with t prefix | None => false end.

(** A pair of the launch text and the line it is printed as. *)
Definition pair := (string * string)%type.
Definition pair_line (p : pair) : string := cat [fst p; "="; snd p; String newline ""].
Definition pairs_text (ps : list pair) : string := cat (pair_line <$> ps).

Definition field (key : string) (value : cstr) : pair := (key, cstr_or value "").
Definition bool_field (key : string) (value : bool) : pair := (key, show_bool value).
Definition int_field (key : string) (value : Z) : pair := (key, show_d value).

Definition backend_parse_bool (fieldname value : string) : M bool :=
  if pg_strcaseeq value "true" || String.eqb value "1" || pg_strcaseeq value "yes" then ret true
  else if pg_strcaseeq value "false" || String.eqb value "0" || pg_strcaseeq value "no" then ret false
  else throw ERRCODE_INVALID_PARAMETER_VALUE
         (cat ["invalid boolean value for "; fieldname; ": "; quoted value]) None.

Definition backend_parse_int32 (fieldname value : string) : M Z :=
  match strtol_whole value with
  | Some z =>
      if (z <? - 2 ^ 31) || (2 ^ 31 - 1 <? z)
      then throw ERRCODE_INVALID_PARAMETER_VALUE
             (cat ["invalid integer value for "; fieldname; ": "; quoted value]) None
      else ret z
  | None => throw ERRCODE_INVALID_PARAMETER_VALUE
              (cat ["invalid integer value for "; fieldname; ": "; quoted value]) None
  end.

(** The pairs of the broker's answer: the lines with an equals sign that are not
    comments, in order. *)
Definition line_pair (line : string) : option pair :=
  match line with
  | EmptyString => None
  | String c _ =>
      if Ascii.eqb c "#" then None
      else match split_char "=" line with
           | (key, Some value) => Some (key, value)
           | (_, None) => None
           end
  end.

Fixpoint payload_pairs (fuel : nat) (cursor : string) : list pair :=
  match fuel with
  | O => []
  | S fuel' =>
      if String.eqb cursor "" then []
      else
        let '(line, next) := split_char newline cursor in
        let rest := match next with Some n => payload_pairs fuel' n | None => [] end in
        match line_pair line with Some p => p :: rest | None => rest end
  end.

(** The loop over the pairs stops at the first flag or number it cannot read;
    a key that comes again replaces what was there. *)
Definition parse_pair (p : pair) : M unit :=
  let '(key, value) := p in
  if existsb (String.eqb key) ["accepted"; "launched"; "verified"]
  then backend_parse_bool key value ;;; ret tt
  else if existsb (String.eqb key) ["exit_code"; "wall_ms"; "token_charge"; "cost_charge"]
  then backend_parse_int32 key value ;;; ret tt
  else ret tt.

Definition last_value (ps : list pair) (key : string) : cstr :=
  fold_left (fun acc p => if String.eqb (fst p) key then Some (snd p) else acc) ps None.

Definition last_bool (ps : list pair) (key : string) : bool :=
  match last_value ps key with
  | Some v => pg_strcaseeq v "true" || String.eqb v "1" || pg_strcaseeq v "yes"
  | None => false
  end.

Definition last_int (ps : list pair) (key : string) : Z :=
  match last_value ps key with
  | Some v => match strtol_whole v with Some z => z | None => 0 end
  | None => 0
  end.

Definition response_pairs (payload : cstr) (empty_message : string) : M (list pair) :=
  backend_require (negb (is_blank payload)) empty_message ;;;
  let text := cstr_or payload "" in
  let ps := payload_pairs (S (String.length text)) text in
  mforeach parse_pair ps ;;; ret ps.

(** ** Containers *)

Module Container.

Definition QX_CONTAINER_BACKEND_PROTOCOL : string := "qx.container.backend.v1".
Definition QX_CONTAINER_BACKEND_PROVIDER_KIND : string := "container".
Definition QX_CONTAINER_BACKEND_RUNTIME_CLASS : string := "container".
Definition QX_CONTAINER_BACKEND_ENDPOINT_PREFIX : string := "container://".
Definition QX_CONTAINER_BACKEND_RECEIPT_SCHEMA : string := "qx.receipt.v1".
Definition QX_CONTAINER_BACKEND_EXPECTED_ATTESTATION : string := "container_receipt_verified".

Record QxContainerBackendRequest := MkRequest {
  rq_phase : cstr;
  rq_tool_name : cstr;
  rq_principal_name : cstr;
  rq_principal_runtime : cstr;
  rq_provider_name : cstr;
  rq_provider_kind : cstr;
  rq_provider_endpoint : cstr;
  rq_sandbox_name : cstr;
  rq_profile_name : cstr;
  rq_environment_mode : cstr;
  rq_workdir_name : cstr;
  rq_command_line : cstr;
  rq_image_ref : cstr;
  rq_seccomp_mode : cstr;
  rq_cgroup_mode : cstr;
  rq_oci_profile : cstr;
  rq_receipt_schema : cstr;
  rq_receipt_alg : cstr;
  rq_receipt_nonce : cstr;
  rq_attestation_mode : cstr;
  rq_detail : cstr;
  rq_timeout_ms : Z;
  rq_memory_kb : Z;
  rq_process_limit : Z;
  rq_token_charge : Z;
  rq_cost_charge : Z;
  rq_require_attestation : bool;
  rq_allow_network : bool;
  rq_allow_privilege_escalation : bool;
  rq_readonly_rootfs : bool
}.

Record QxContainerBackendResponse := MkResponse {
  rp_accepted : bool;
  rp_launched : bool;
  rp_verified : bool;
  rp_exit_code : Z;
  rp_wall_time_ms : Z;
  rp_token_charge : Z;
  rp_cost_charge : Z;
  rp_backend_protocol : cstr;
  rp_phase : cstr;
  rp_tool_name : cstr;
  rp_principal_name : cstr;
  rp_principal_runtime : cstr;
  rp_provider_name : cstr;
  rp_provider_kind : cstr;
  rp_provider_endpoint : cstr;
  rp_container_id : cstr;
  rp_sandbox_profile : cstr;
  rp_receipt_schema : cstr;
  rp_receipt_alg : cstr;
  rp_receipt_nonce : cstr;
  rp_receipt_signature : cstr;
  rp_attestation_mode : cstr;
  rp_detail : cstr
}.

Definition qx_container_backend_is_supported_provider_kind (provider_kind : cstr) : bool :=
  cstr_case_is provider_kind QX_CONTAINER_BACKEND_PROVIDER_KIND.
Definition qx_container_backend_is_supported_runtime_class (principal_runtime : cstr) : bool :=
  cstr_case_is principal_runtime QX_CONTAINER_BACKEND_RUNTIME_CLASS.

Definition qx_container_backend_validate_request (r : QxContainerBackendRequest) : M unit :=
  backend_require (negb (is_blank (rq_phase r))) "container backend request requires a phase" ;;;
  backend_require (negb (is_blank (rq_tool_name r)))
    "container backend request requires a tool name" ;;;
  backend_require (negb (is_blank (rq_principal_name r)))
    "container backend request requires a principal name" ;;;
  backend_require (qx_container_backend_is_supported_provider_kind (rq_provider_kind r))
    "container backend only accepts provider kind container" ;;;
  backend_require (qx_container_backend_is_supported_runtime_class (rq_principal_runtime r))
    "container backend only accepts principal runtime class container" ;;;
  backend_require (at_start (rq_provider_endpoint r) QX_CONTAINER_BACKEND_ENDPOINT_PREFIX)
    "container backend requires a container:// provider endpoint" ;;;
  backend_require (cstr_case_is (rq_sandbox_name r) "isolated")
    "container backend requires isolated sandboxing" ;;;
  backend_require (cstr_case_is (rq_receipt_schema r) QX_CONTAINER_BACKEND_RECEIPT_SCHEMA)
    "container backend requires qx.receipt.v1 receipts" ;;;
  backend_require (if rq_require_attestation r then cstr_case_is (rq_receipt_alg r) "ed25519" else true)
    "container backend requires ed25519 when attestation is enabled" ;;;
  backend_require (match rq_attestation_mode r with
                   | None => true
                   | m => cstr_case_is m QX_CONTAINER_BACKEND_EXPECTED_ATTESTATION
                   end)
    "container backend requires container_receipt_verified attestation" ;;;
  backend_require (negb (is_blank (rq_command_line r))) "container backend requires a command line".

Definition qx_container_backend_validate_response (request : QxContainerBackendRequest)
    (r : QxContainerBackendResponse) : M unit :=
  backend_require (rp_accepted r) "container backend response was not accepted by the broker" ;;;
  backend_require (rp_launched r) "container backend response did not report a launch" ;;;
  backend_require (rp_verified r) "container backend response did not verify attestation" ;;;
  backend_require (cstr_case_is (rp_backend_protocol r) QX_CONTAINER_BACKEND_PROTOCOL)
    "container backend response protocol mismatch" ;;;
  backend_require (qx_container_backend_is_supported_runtime_class (rp_principal_runtime r))
    "container backend response reported the wrong runtime class" ;;;
  backend_require (qx_container_backend_is_supported_provider_kind (rp_provider_kind r))
    "container backend response reported the wrong provider kind" ;;;
  backend_require (at_start (rp_provider_endpoint r) QX_CONTAINER_BACKEND_ENDPOINT_PREFIX)
    "container backend response reported an invalid provider endpoint" ;;;
  backend_require (cstr_case_is (rp_receipt_schema r) QX_CONTAINER_BACKEND_RECEIPT_SCHEMA)
    "container backend response reported an invalid receipt schema" ;;;
  backend_require (negb (is_blank (rp_receipt_signature r)))
    "container backend response is missing the receipt signature" ;;;
  backend_require (cstr_case_is (rp_attestation_mode r) QX_CONTAINER_BACKEND_EXPECTED_ATTESTATION)
    "container backend response reported the wrong attestation mode" ;;;
  backend_require (negb (is_blank (rp_container_id r)))
    "container backend response is missing a container identifier" ;;;
  backend_require (0 <=? rp_exit_code r)
    "container backend response exit code must be non-negative" ;;;
  if rq_require_attestation request
  then backend_require (cstr_case_is (rp_receipt_alg r) "ed25519")
         "container backend response must preserve ed25519 receipts"
  else ret tt.

Definition container_launch_pairs (r : QxContainerBackendRequest) : list pair :=
  [field "protocol" (Some QX_CONTAINER_BACKEND_PROTOCOL);
   field "backend" (Some QX_CONTAINER_BACKEND_PROVIDER_KIND);
   field "phase" (rq_phase r); field "tool" (rq_tool_name r);
   field "principal" (rq_principal_name r);
   field "principal_runtime" (rq_principal_runtime r);
   field "provider" (rq_provider_name r); field "provider_kind" (rq_provider_kind r);
   field "provider_endpoint" (rq_provider_endpoint r);
   field "sandbox" (rq_sandbox_name r); field "profile" (rq_profile_name r);
   field "environment" (rq_environment_mode r); field "workdir" (rq_workdir_name r);
   field "command" (rq_command_line r); field "image_ref" (rq_image_ref r);
   field "receipt_schema" (rq_receipt_schema r); field "receipt_alg" (rq_receipt_alg r);
   field "receipt_nonce" (rq_receipt_nonce r); field "attestation" (rq_attestation_mode r);
   int_field "timeout_ms" (rq_timeout_ms r); int_field "memory_kb" (rq_memory_kb r);
   int_field "process_limit" (rq_process_limit r);
   int_field "token_charge" (rq_token_charge r); int_field "cost_charge" (rq_cost_charge r);
   bool_field "require_attestation" (rq_require_attestation r);
   bool_field "allow_network" (rq_allow_network r);
   bool_field "allow_privilege_escalation" (rq_allow_privilege_escalation r);
   bool_field "readonly_rootfs" (rq_readonly_rootfs r);
   field "seccomp_mode" (rq_seccomp_mode r); field "cgroup_mode" (rq_cgroup_mode r);
   field "oci_profile" (rq_oci_profile r); field "detail" (rq_detail r)].

Definition qx_container_backend_build_launch_request (r : QxContainerBackendRequest) : M string :=
  qx_container_backend_validate_request r ;;; ret (pairs_text (container_launch_pairs r)).

Definition container_response_of (ps : list pair) : QxContainerBackendResponse :=
  let text := last_value ps in
  {| rp_accepted := last_bool ps "accepted"; rp_launched := last_bool ps "launched";
     rp_verified := last_bool ps "verified"; rp_exit_code := last_int ps "exit_code";
     rp_wall_time_ms := last_int ps "wall_ms"; rp_token_charge := last_int ps "token_charge";
     rp_cost_charge := last_int ps "cost_charge"; rp_backend_protocol := text "protocol";
     rp_phase := text "phase"; rp_tool_name := text "tool";
     rp_principal_name := text "principal"; rp_principal_runtime := text "principal_runtime";
     rp_provider_name := text "provider"; rp_provider_kind := text "provider_kind";
     rp_provider_endpoint := text "provider_endpoint"; rp_container_id := text "container_id";
     rp_sandbox_profile := text "sandbox"; rp_receipt_schema := text "receipt_schema";
     rp_receipt_alg := text "receipt_alg"; rp_receipt_nonce := text "receipt_nonce";
     rp_receipt_signature := text "receipt_signature";
     rp_attestation_mode := text "attestation"; rp_detail := text "detail" |}.

Definition qx_container_backend_parse_launch_response (payload : cstr) : M QxContainerBackendResponse :=
  let* ps := response_pairs payload "container backend response payload must not be empty" in
  ret (container_response_of ps).

End Container.

(** ** MicroVMs *)

Module Microvm.

Definition QX_MICROVM_BACKEND_PROTOCOL : string := "qx.microvm.backend.v1".
Definition QX_MICROVM_BACKEND_PROVIDER_KIND : string := "microvm".
Definition QX_MICROVM_BACKEND_RUNTIME_CLASS : string := "microvm".
Definition QX_MICROVM_BACKEND_ENDPOINT_PREFIX : string := "microvm://".
Definition QX_MICROVM_BACKEND_RECEIPT_SCHEMA : string := "qx.receipt.v1".
Definition QX_MICROVM_BACKEND_EXPECTED_ATTESTATION : string := "microvm_receipt_verified".

Record QxMicrovmBackendRequest := MkRequest {
  rq_phase : cstr;
  rq_tool_name : cstr;
  rq_principal_name : cstr;
  rq_principal_runtime : cstr;
  rq_provider_name : cstr;
  rq_provider_kind : cstr;
  rq_provider_endpoint : cstr;
  rq_sandbox_name : cstr;
  rq_profile_name : cstr;
  rq_environment_mode : cstr;
  rq_workdir_name : cstr;
  rq_command_line : cstr;
  rq_image_ref : cstr;
  rq_kernel_ref : cstr;
  rq_initrd_ref : cstr;
  rq_snapshot_ref : cstr;
  rq_receipt_schema : cstr;
  rq_receipt_alg : cstr;
  rq_receipt_nonce : cstr;
  rq_attestation_mode : cstr;
  rq_detail : cstr;
  rq_timeout_ms : Z;
  rq_memory_kb : Z;
  rq_process_limit : Z;
  rq_vcpu_count : Z;
  rq_token_charge : Z;
  rq_cost_charge : Z;
  rq_require_attestation : bool;
  rq_allow_network : bool;
  rq_allow_privilege_escalation : bool
}.

Record QxMicrovmBackendResponse := MkResponse {
  rp_accepted : bool;
  rp_launched : bool;
  rp_verified : bool;
  rp_exit_code : Z;
  rp_wall_time_ms : Z;
  rp_token_charge : Z;
  rp_cost_charge : Z;
  rp_backend_protocol : cstr;
  rp_phase : cstr;
  rp_tool_name : cstr;
  rp_principal_name : cstr;
  rp_principal_runtime : cstr;
  rp_provider_name : cstr;
  rp_provider_kind : cstr;
  rp_provider_endpoint : cstr;
  rp_vm_id : cstr;
  rp_snapshot_id : cstr;
  rp_sandbox_profile : cstr;
  rp_receipt_schema : cstr;
  rp_receipt_alg : cstr;
  rp_receipt_nonce : cstr;
  rp_receipt_signature : cstr;
  rp_attestation_mode : cstr;
  rp_attestation_report : cstr;
  rp_detail : cstr
}.

Definition qx_microvm_backend_is_supported_provider_kind (provider_kind : cstr) : bool :=
  cstr_case_is provider_kind QX_MICROVM_BACKEND_PROVIDER_KIND.
Definition qx_microvm_backend_is_supported_runtime_class (principal_runtime : cstr) : bool :=
  cstr_case_is principal_runtime QX_MICROVM_BACKEND_RUNTIME_CLASS.

Definition snapshot_well_formed (snapshot_ref : cstr) : bool :=
  if is_blank snapshot_ref then true
  else let s := cstr_or snapshot_ref "" in
       has_char "/" s || has_char "092"%char s || has_char ":" s.

Definition qx_microvm_backend_validate_request (r : QxMicrovmBackendRequest) : M unit :=
  backend_require (negb (is_blank (rq_phase r))) "microVM backend request requires a phase" ;;;
  backend_require (negb (is_blank (rq_tool_name r)))
    "microVM backend request requires a tool name" ;;;
  backend_require (negb (is_blank (rq_principal_name r)))
    "microVM backend request requires a principal name" ;;;
  backend_require (qx_microvm_backend_is_supported_provider_kind (rq_provider_kind r))
    "microVM backend only accepts provider kind microvm" ;;;
  backend_require (qx_microvm_backend_is_supported_runtime_class (rq_principal_runtime r))
    "microVM backend only accepts principal runtime class microvm" ;;;
  backend_require (at_start (rq_provider_endpoint r) QX_MICROVM_BACKEND_ENDPOINT_PREFIX)
    "microVM backend requires a microvm:// provider endpoint" ;;;
  backend_require (cstr_case_is (rq_sandbox_name r) "isolated")
    "microVM backend requires isolated sandboxing" ;;;
  backend_require (cstr_case_is (rq_receipt_schema r) QX_MICROVM_BACKEND_RECEIPT_SCHEMA)
    "microVM backend requires qx.receipt.v1 receipts" ;;;
  backend_require (if rq_require_attestation r then cstr_case_is (rq_receipt_alg r) "ed25519" else true)
    "microVM backend requires ed25519 when attestation is enabled" ;;;
  backend_require (match rq_attestation_mode r with
                   | None => true
                   | m => cstr_case_is m QX_MICROVM_BACKEND_EXPECTED_ATTESTATION
                   end)
    "microVM backend requires microvm_receipt_verified attestation" ;;;
  backend_require (negb (is_blank (rq_command_line r))) "microVM backend requires a command line" ;;;
  backend_require (negb (is_blank (rq_kernel_ref r))) "microVM backend requires a kernel reference" ;;;
  backend_require (negb (is_blank (rq_initrd_ref r))) "microVM backend requires an initrd reference" ;;;
  backend_require (snapshot_well_formed (rq_snapshot_ref r))
    "microVM backend requires a well-formed snapshot reference" ;;;
  backend_require (0 <? rq_vcpu_count r) "microVM backend requires a positive vCPU count".

Definition qx_microvm_backend_validate_response (request : QxMicrovmBackendRequest)
    (r : QxMicrovmBackendResponse) : M unit :=
  backend_require (rp_accepted r) "microVM backend response was not accepted by the broker" ;;;
  backend_require (rp_launched r) "microVM backend response did not report a launch" ;;;
  backend_require (rp_verified r) "microVM backend response did not verify attestation" ;;;
  backend_require (cstr_case_is (rp_backend_protocol r) QX_MICROVM_BACKEND_PROTOCOL)
    "microVM backend response protocol mismatch" ;;;
  backend_require (qx_microvm_backend_is_supported_runtime_class (rp_principal_runtime r))
    "microVM backend response reported the wrong runtime class" ;;;
  backend_require (qx_microvm_backend_is_supported_provider_kind (rp_provider_kind r))
    "microVM backend response reported the wrong provider kind" ;;;
  backend_require (at_start (rp_provider_endpoint r) QX_MICROVM_BACKEND_ENDPOINT_PREFIX)
    "microVM backend response reported an invalid provider endpoint" ;;;
  backend_require (cstr_case_is (rp_receipt_schema r) QX_MICROVM_BACKEND_RECEIPT_SCHEMA)
    "microVM backend response reported an invalid receipt schema" ;;;
  backend_require (negb (is_blank (rp_receipt_signature r)))
    "microVM backend response is missing the receipt signature" ;;;
  backend_require (cstr_case_is (rp_attestation_mode r) QX_MICROVM_BACKEND_EXPECTED_ATTESTATION)
    "microVM backend response reported the wrong attestation mode" ;;;
  backend_require (negb (is_blank (rp_vm_id r)))
    "microVM backend response is missing a VM identifier" ;;;
  backend_require (0 <=? rp_exit_code r)
    "microVM backend response exit code must be non-negative" ;;;
  if rq_require_attestation request
  then backend_require (cstr_case_is (rp_receipt_alg r) "ed25519")
         "microVM backend response must preserve ed25519 receipts"
  else ret tt.

Definition qx_microvm_backend_contract_attestation_mode (r : QxMicrovmBackendRequest) : string :=
  if negb (is_blank (rq_attestation_mode r)) then cstr_or (rq_attestation_mode r) ""
  else if rq_require_attestation r then QX_MICROVM_BACKEND_EXPECTED_ATTESTATION
  else "microvm_attestation_optional".

Definition qx_microvm_backend_build_attestation_mode (r : QxMicrovmBackendRequest) : string :=
  if negb (rq_require_attestation r) then "microvm_attestation_optional"
  else QX_MICROVM_BACKEND_EXPECTED_ATTESTATION.

Definition microvm_receipt_pairs (r : QxMicrovmBackendRequest) (phase : cstr) : list pair :=
  [field "schema" (Some (cstr_or (rq_receipt_schema r) QX_MICROVM_BACKEND_RECEIPT_SCHEMA));
   field "phase" phase; field "provider" (rq_provider_name r);
   field "provider_kind" (rq_provider_kind r); field "provider_endpoint" (rq_provider_endpoint r);
   field "principal" (rq_principal_name r); field "principal_runtime" (rq_principal_runtime r);
   field "sandbox" (rq_sandbox_name r); field "profile" (rq_profile_name r);
   field "image_ref" (rq_image_ref r); field "snapshot_ref" (rq_snapshot_ref r);
   field "receipt_nonce" (rq_receipt_nonce r);
   field "attestation" (Some (qx_microvm_backend_contract_attestation_mode r));
   int_field "timeout_ms" (rq_timeout_ms r); int_field "memory_kb" (rq_memory_kb r);
   int_field "process_limit" (rq_process_limit r); int_field "vcpu_count" (rq_vcpu_count r);
   int_field "token_charge" (rq_token_charge r); int_field "cost_charge" (rq_cost_charge r);
   field "detail" (rq_detail r)].

Definition qx_microvm_backend_build_receipt_payload (r : QxMicrovmBackendRequest) (phase : cstr) : M string :=
  qx_microvm_backend_validate_request r ;;; ret (pairs_text (microvm_receipt_pairs r phase)).

Definition microvm_launch_pairs (r : QxMicrovmBackendRequest) : list pair :=
  [field "protocol" (Some QX_MICROVM_BACKEND_PROTOCOL);
   field "backend" (Some QX_MICROVM_BACKEND_PROVIDER_KIND);
   field "phase" (rq_phase r); field "tool" (rq_tool_name r);
   field "principal" (rq_principal_name r);
   field "principal_runtime" (rq_principal_runtime r);
   field "provider" (rq_provider_name r); field "provider_kind" (rq_provider_kind r);
   field "provider_endpoint" (rq_provider_endpoint r); field "vm_id" (Some "pending");
   field "snapshot_ref" (rq_snapshot_ref r);
   field "sandbox" (rq_sandbox_name r); field "profile" (rq_profile_name r);
   field "environment" (rq_environment_mode r); field "workdir" (rq_workdir_name r);
   field "command" (rq_command_line r); field "image_ref" (rq_image_ref r);
   field "kernel_ref" (rq_kernel_ref r); field "initrd_ref" (rq_initrd_ref r);
   field "receipt_schema" (rq_receipt_schema r); field "receipt_alg" (rq_receipt_alg r);
   field "receipt_nonce" (rq_receipt_nonce r); field "attestation" (rq_attestation_mode r);
   int_field "timeout_ms" (rq_timeout_ms r); int_field "memory_kb" (rq_memory_kb r);
   int_field "process_limit" (rq_process_limit r); int_field "vcpu_count" (rq_vcpu_count r);
   int_field "token_charge" (rq_token_charge r); int_field "cost_charge" (rq_cost_charge r);
   bool_field "require_attestation" (rq_require_attestation r);
   bool_field "allow_network" (rq_allow_network r);
   bool_field "allow_privilege_escalation" (rq_allow_privilege_escalation r);
   field "detail" (rq_detail r)].

Definition qx_microvm_backend_build_launch_request (r : QxMicrovmBackendRequest) : M string :=
  qx_microvm_backend_validate_request r ;;; ret (pairs_text (microvm_launch_pairs r)).

Definition microvm_response_of (ps : list pair) : QxMicrovmBackendResponse :=
  let text := last_value ps in
  {| rp_accepted := last_bool ps "accepted"; rp_launched := last_bool ps "launched";
     rp_verified := last_bool ps "verified"; rp_exit_code := last_int ps "exit_code";
     rp_wall_time_ms := last_int ps "wall_ms"; rp_token_charge := last_int ps "token_charge";
     rp_cost_charge := last_int ps "cost_charge"; rp_backend_protocol := text "protocol";
     rp_phase := text "phase"; rp_tool_name := text "tool";
     rp_principal_name := text "principal"; rp_principal_runtime := text "principal_runtime";
     rp_provider_name := text "provider"; rp_provider_kind := text "provider_kind";
     rp_provider_endpoint := text "provider_endpoint"; rp_vm_id := text "vm_id";
     rp_snapshot_id := text "snapshot_id";
     rp_sandbox_profile := text "sandbox"; rp_receipt_schema := text "receipt_schema";
     rp_receipt_alg := text "receipt_alg"; rp_receipt_nonce := text "receipt_nonce";
     rp_receipt_signature := text "receipt_signature";
     rp_attestation_mode := text "attestation";
     rp_attestation_report := text "attestation_report"; rp_detail := text "detail" |}.

Definition qx_microvm_backend_parse_launch_response (payload : cstr) : M QxMicrovmBackendResponse :=
  let* ps := response_pairs payload "microVM backend response payload must not be empty" in
  ret (microvm_response_of ps).

End Microvm.

(** ** The launch text is read back *)

#[local] Arguments Ascii.eqb : simpl never.

(** A key that starts a line, and a value that stays on it. *)
Definition key_ok (k : string) : bool :=
  negb (String.eqb k "") && negb (starts_with k "#") && negb (has_char "=" k) &&
  negb (has_char newline k).

Definition pair_ok (p : pair) : bool := key_ok (fst p) && negb (has_char newline (snd p)).

Lemma pair_line_app k v rest :
  pair_line (k, v) +:+ rest = (k +:+ String "=" v) +:+ String newline rest.
Proof.
  unfold pair_line, cat. cbn [fst snd foldr]. rewrite !append_assoc. done.
Qed.

Lemma line_pair_ok k v : key_ok k = true -> line_pair (k +:+ String "=" v) = Some (k, v).
Proof.
  unfold key_ok. rewrite !andb_true_iff, !negb_true_iff. intros [[[Hk Hh] He] Hn].
  destruct k as [|c k]; [done|]. pose proof (split_char_app "=" (String c k) v He) as Hs.
  unfold line_pair. cbn [String.append] in *. rewrite Hs.
  unfold starts_with in Hh. cbn [strip_prefix] in Hh. rewrite Ascii.eqb_sym in Hh.
  destruct (Ascii.eqb c "#"); done.
Qed.

Lemma pair_line_read p rest fuel :
  pair_ok p = true ->
  payload_pairs (S fuel) (pair_line p +:+ rest) = p :: payload_pairs fuel rest.
Proof.
  destruct p as [k v]. unfold pair_ok. cbn [fst snd]. rewrite andb_true_iff, negb_true_iff.
  intros [Hk Hv]. rewrite pair_line_app. cbn [payload_pairs].
  assert (has_char newline (k +:+ String "=" v) = false) as Hn.
  { rewrite has_char_app. cbn [has_char]. rewrite Hv. unfold key_ok in Hk.
    rewrite !andb_true_iff, !negb_true_iff in Hk. destruct Hk as [_ ->]. done. }
  rewrite split_char_app, line_pair_ok by done.
  destruct k as [|c k]; [done|]. done.
Qed.

Lemma pairs_text_read ps fuel :
  forallb pair_ok ps = true -> (List.length ps < fuel)%nat ->
  payload_pairs fuel (pairs_text ps) = ps.
Proof.
  revert fuel. induction ps as [|p ps IH]; intros [|fuel] Hok Hlen; try (simpl in Hlen; lia); [done|].
  cbn [forallb] in Hok. apply andb_true_iff in Hok as [Hp Hps].
  change (pairs_text (p :: ps)) with (pair_line p +:+ pairs_text ps).
  rewrite pair_line_read by done. f_equal. apply IH; [done|]. simpl in Hlen. lia.
Qed.

Lemma pairs_text_length ps : (List.length ps <= String.length (pairs_text ps))%nat.
Proof.
  induction ps as [|p ps IH]; [done|].
  change (pairs_text (p :: ps)) with (pair_line p +:+ pairs_text ps).
  rewrite append_length. destruct p as [k v]. rewrite <- (append_nil_r (pair_line (k, v))).
  rewrite pair_line_app, append_length. simpl. lia.
Qed.

Lemma require_ok c msg w u w' : backend_require c msg w = Ok u w' -> c = true /\ w' = w.
Proof. unfold backend_require. destruct c; [|done]. intros [= _ <-]. done. Qed.

(** The values of a request stay on one line. *)
Definition one_line (ps : list pair) : bool := forallb (fun p => negb (has_char newline (snd p))) ps.

Lemma launch_readback ps :
  forallb (fun p => key_ok (fst p)) ps = true -> one_line ps = true ->
  payload_pairs (S (String.length (pairs_text ps))) (pairs_text ps) = ps.
Proof.
  intros Hk Hv. apply pairs_text_read; [|pose proof (pairs_text_length ps); lia].
  unfold one_line in Hv. revert Hk Hv. induction ps as [|p ps IH]; [done|].
  cbn [forallb]. rewrite !andb_true_iff. unfold pair_ok at 1. rewrite andb_true_iff. tauto.
Qed.

(** The two backends together. *)
Definition backend_request :=
  (Container.QxContainerBackendRequest + Microvm.QxMicrovmBackendRequest)%type.

Definition launch_pairs (r : backend_request) : list pair :=
  match r with
  | inl c => Container.container_launch_pairs c
  | inr m => Microvm.microvm_launch_pairs m
  end.

Definition build_launch_request (r : backend_request) : M string :=
  match r with
  | inl c => Container.qx_container_backend_build_launch_request c
  | inr m => Microvm.qx_microvm_backend_build_launch_request m
  end.

(** When a container or microVM launch request is built and its values have
    no line breaks, reading its text line by line, as the broker's answers are
    read, gives back exactly the request's pairs, in order. *)
Theorem launch_request_readback r text w w' :
  build_launch_request r w = Ok text w' -> one_line (launch_pairs r) = true ->
  payload_pairs (S (String.length text)) text = launch_pairs r.
Proof.
  intros H Hv. destruct r; apply bind_ok in H as (u & w1 & _ & [= <- _]); apply launch_readback; done.
Qed.

Definition demo_request : backend_request := inl
  (Container.MkRequest (Some "submit") (Some "grep") (Some "runner") (Some "container")
     (Some "docker") (Some "container") (Some "container://local") (Some "isolated")
     (Some "isolated") (Some "minimal") (Some "pg_qx_runtime") (Some "docker run --rm alpine true")
     (Some "alpine:3.20") (Some "no-new-privileges") (Some "private") (Some "network=deny")
     (Some "qx.receipt.v1") (Some "ed25519") (Some "submit:grep:runner")
     (Some "container_receipt_verified") (Some "task=9") 1200 65536 1 0 0 true false false true).

Lemma launch_request_readback_witness :
  exists text,
    build_launch_request demo_request (empty_world 20000) = Ok text (empty_world 20000) /\
    payload_pairs (S (String.length text)) text = launch_pairs demo_request.
Proof.
  eexists. split; [vm_compute; reflexivity|].
  apply (launch_request_readback _ _ (empty_world 20000) (empty_world 20000)); vm_compute; reflexivity.
Defined.
