(* ===== verification/ToolExec.v ===== *)
(** * Executing a tool contract

    The part of [src/src/backend/qx/runtime/qx_runtime.c] that runs the tool of
    a contract through its principal's program and checks what comes back
    (lines 533-614 and 1236-3631): contract values, sandboxes, receipts, the
    request and response files, and [qx_execute_tool_contract].

    The Unix branch of the file is modelled, built with OpenSSL.  What the code
    gets from the operating system and from the cryptographic libraries is the
    record [ToolEnv]: environment variables, the file system, the child process
    and its response file, HMAC-SHA256 and ed25519. *)

From Stdlib Require Import Ascii String.
From S2P Require Import Prelude Text Numutils Types Scheduler Stat Observe SemanticLog Tables.
From S2P Require Import World.
From S2P Require Import Catalog Policy Backends.
Open Scope string_scope.
Open Scope Z_scope.
Open Scope bool_scope.
Open Scope list_scope.

(** ** Texts *)

Definition qx_safe_runtime_text (value : cstr) : string := text_or value "<unknown>".
Definition qx_bool_literal (value : bool) : string := show_bool value.
Definition qx_effective_priority_name (priority : cstr) : string := text_or priority "normal".

(** The value after the first [key=] anywhere in the contract, up to the next
    semicolon. *)
Definition qx_contract_value (contract key : cstr) : cstr :=
  match contract, key with
  | Some c, Some k =>
      match strstr c (k +:+ "=") with
      | None => None
      | Some (_, start) => Some (upto ";" start)
      end
  | _, _ => None
  end.

Definition qx_default_runtime_for_provider_kind (provider_kind : cstr) : string :=
  if cstr_is provider_kind "container" then "container"
  else if cstr_is provider_kind "microvm" then "microvm"
  else "host".

Definition qx_expected_attestation_mode (provider_kind : cstr) (require_attestation : bool) : string :=
  if negb require_attestation then "optional"
  else if cstr_is provider_kind "microvm" then "microvm_receipt_verified"
  else if cstr_is provider_kind "container" then "container_receipt_verified"
  else if cstr_is provider_kind "remote" then "remote_broker_verified"
  else "loopback_verified".

(** ** Sandboxes *)

Record QxSandboxProfile := MkProfile {
  sp_name : string;
  sp_timeout_ms : Z;
  sp_memory_kb : Z;
  sp_file_kb : Z;
  sp_max_open_files : Z;
  sp_process_limit : Z
}.

Definition builtin_profile : QxSandboxProfile := MkProfile "builtin" 3000 262144 1024 64 2.
Definition restricted_profile : QxSandboxProfile := MkProfile "restricted" 2000 131072 256 32 1.
Definition isolated_profile : QxSandboxProfile := MkProfile "isolated" 1200 65536 64 16 1.

Definition qx_sandbox_rank (sandbox_name : cstr) : M Z :=
  match sandbox_name with
  | None => ret 0
  | Some s =>
      if String.eqb s "builtin" then ret 0
      else if String.eqb s "restricted" then ret 1
      else if String.eqb s "isolated" then ret 2
      else throw ERRCODE_INVALID_PARAMETER_VALUE (cat ["unsupported sandbox "; quoted s]) None
  end.

Definition qx_effective_sandbox_name (tool_sandbox principal_sandbox : cstr) : M string :=
  let* principal_rank := qx_sandbox_rank principal_sandbox in
  let* tool_rank := qx_sandbox_rank tool_sandbox in
  ret (if tool_rank <=? principal_rank then cstr_or principal_sandbox "builtin"
       else cstr_or tool_sandbox "builtin").

Definition qx_lookup_sandbox_profile (sandbox_name : string) : M QxSandboxProfile :=
  if String.eqb sandbox_name "builtin" then ret builtin_profile
  else if String.eqb sandbox_name "restricted" then ret restricted_profile
  else if String.eqb sandbox_name "isolated" then ret isolated_profile
  else throw ERRCODE_INVALID_PARAMETER_VALUE
         (cat ["unsupported sandbox profile "; quoted sandbox_name]) None.

(** ** Receipts *)

Record QxExternalToolResult := MkToolResult {
  xr_token_charge : Z;
  xr_cost_charge : Z;
  xr_timeout_ms : Z;
  xr_process_limit : Z;
  xr_wall_time_ms : Z;
  xr_path_present : bool;
  xr_restricted_identity : bool;
  xr_detail : cstr;
  xr_tool_name : cstr;
  xr_principal_name : cstr;
  xr_principal_runtime : cstr;
  xr_provider_name : cstr;
  xr_provider_kind : cstr;
  xr_provider_endpoint : cstr;
  xr_sandbox_name : cstr;
  xr_profile_name : cstr;
  xr_environment_mode : cstr;
  xr_workdir_name : cstr;
  xr_launch_mode : cstr;
  xr_receipt_schema : cstr;
  xr_receipt_alg : cstr;
  xr_receipt_nonce : cstr;
  xr_receipt_signature : cstr;
  xr_attestation_mode : cstr;
  xr_container_id : cstr;
  xr_vm_id : cstr
}.

Record QxSandboxObservation := MkObservation {
  so_wall_time_ms : Z;
  so_launch_mode : cstr;
  so_restricted_identity : bool
}.

Definition qx_hex_value (c : ascii) : option Z :=
  if is_digit c then Some (digit_value c)
  else if in_chars 97 102 c then Some (Z.of_N (N_of_ascii c) - 87)
  else if in_chars 65 70 c then Some (Z.of_N (N_of_ascii c) - 55)
  else None.

(** Two characters of the text for each byte. *)
Fixpoint hex_decode (hex : string) : option (list Z) :=
  match hex with
  | String h (String l rest) =>
      match qx_hex_value h, qx_hex_value l with
      | Some hi, Some lo => cons (Z.lor (Z.shiftl hi 4) lo) <$> hex_decode rest
      | _, _ => None
      end
  | _ => Some []
  end.

Definition qx_hex_decode_signature (hex : cstr) (expected_len : nat) : option (list Z) :=
  match hex with
  | None => None
  | Some h => if negb (String.length h =? expected_len * 2)%nat then None else hex_decode h
  end.

(** ["%02x"] of each byte. *)
Definition hex_char (n : Z) : ascii :=
  if n <? 10 then ascii_of_N (Z.to_N (n + 48)) else ascii_of_N (Z.to_N (n + 87)).

Fixpoint hex_encode (bytes : list Z) : string :=
  match bytes with
  | [] => ""
  | b :: rest => String (hex_char (b / 16)) (String (hex_char (b mod 16)) (hex_encode rest))
  end.

Definition QX_ED25519_SIG_BYTES : nat := 64.

Definition qx_receipt_payload (phase : cstr) (taskoid : Oid)
    (tool_name principal_name principal_runtime provider_name provider_kind provider_endpoint
     sandbox_name profile_name environment_mode workdir_name : cstr)
    (timeout_ms process_limit : Z) (path_present : bool)
    (receipt_schema receipt_alg receipt_nonce attestation_mode : cstr)
    (token_charge cost_charge : Z) (detail : cstr) : string :=
  cat ["phase="; cstr_or phase "submit"; ";task="; show_u taskoid;
       ";tool="; cstr_or tool_name "<unknown>";
       ";principal="; cstr_or principal_name "<unknown>";
       ";principal_runtime="; cstr_or principal_runtime "host";
       ";provider="; cstr_or provider_name "<unknown>";
       ";provider_kind="; cstr_or provider_kind "loopback";
       ";provider_endpoint="; cstr_or provider_endpoint "local://qhapaqxian-tool-runner";
       ";sandbox="; cstr_or sandbox_name "builtin"; ";profile="; cstr_or profile_name "builtin";
       ";env="; cstr_or environment_mode "minimal";
       ";workdir="; cstr_or workdir_name "pg_qx_runtime";
       ";timeout_ms="; show_d timeout_ms; ";process_limit="; show_d process_limit;
       ";path_present="; show_bool path_present;
       ";receipt_schema="; cstr_or receipt_schema "qx.receipt.v1";
       ";receipt_alg="; cstr_or receipt_alg "hmac-sha256";
       ";receipt_nonce="; cstr_or receipt_nonce "<unknown>";
       ";attestation="; cstr_or attestation_mode "optional";
       ";tokens="; show_d token_charge; ";cost="; show_d cost_charge;
       ";detail="; cstr_or detail "<none>"].

(** ** The principal's response file *)

Definition LINE_SIZE : nat := Z.to_nat 8192.

(** [fgets(line, size, file)]: up to [n] characters, a line break included; the
    file is at its end when no text is left. *)
Fixpoint fgets (n : nat) (s : string) : string * string :=
  match n, s with
  | O, _ => ("", s)
  | S _, EmptyString => ("", "")
  | S n', String c t =>
      if Ascii.eqb c newline then (String c "", t)
      else let '(line, rest) := fgets n' t in (String c line, rest)
  end.

Definition line_break (c : ascii) : bool := Ascii.eqb c "013"%char || Ascii.eqb c newline.

(** The chunks of a detail longer than the buffer, up to its line break. *)
Fixpoint detail_chunks (fuel : nat) (s : string) : string * string :=
  match fuel with
  | O => ("", s)
  | S fuel' =>
      if String.eqb s "" then ("", "")
      else
        let '(line, rest) := fgets (LINE_SIZE - 1) s in
        match split_char newline line with
        | (chunk, Some _) => (chunk, rest)
        | (chunk, None) =>
            let '(more, rest') := detail_chunks fuel' rest in (chunk +:+ more, rest')
        end
  end.

(** The keys and values of the file, in order. A value fills the buffer exactly
    when the line was cut; only DETAIL is then continued. *)
Fixpoint response_lines (fuel : nat) (s : string) : list pair :=
  match fuel with
  | O => []
  | S fuel' =>
      if String.eqb s "" then []
      else
        let '(line, rest) := fgets (LINE_SIZE - 1) s in
        match split_char "=" line with
        | (_, None) => response_lines fuel' rest
        | (key, Some v) =>
            let value := upto_set line_break v in
            let partial_line :=
              (String.length value =? LINE_SIZE - (String.length key + 1) - 1)%nat in
            if String.eqb key "DETAIL" && partial_line then
              let '(more, rest') := detail_chunks fuel' rest in
              (key, value +:+ more) :: response_lines fuel' rest'
            else (key, value) :: response_lines fuel' rest
        end
  end.

Definition read_int32 (s : string) : M Z :=
  match pg_strtoint32 s with
  | NumOk z => ret z
  | NumOutOfRange => throw ERRCODE_NUMERIC_VALUE_OUT_OF_RANGE
                       (cat ["value "; quoted s; " is out of range for type integer"]) None
  | NumInvalidSyntax => throw ERRCODE_INVALID_TEXT_REPRESENTATION
                          (cat ["invalid input syntax for type integer: "; quoted s]) None
  end.

(** Numbers are read, and a status other than ok ends the reading, as the lines
    come; a key that comes again replaces what was there. *)
Definition check_response_pair (p : pair) : M unit :=
  let '(key, value) := p in
  if existsb (String.eqb key) ["TOKENS"; "COST"; "TIMEOUT_MS"; "PROCESS_LIMIT"]
  then read_int32 value ;;; ret tt
  else if String.eqb key "STATUS" && negb (String.eqb value "ok")
  then throw ERRCODE_EXTERNAL_ROUTINE_EXCEPTION
         (cat ["principal response reported status "; quoted value]) None
  else ret tt.

Definition response_int (ps : list pair) (key : string) : Z :=
  match last_value ps key with
  | Some v => match pg_strtoint32 v with NumOk z => z | _ => 0 end
  | None => 0
  end.

Definition external_result_of (ps : list pair) : QxExternalToolResult :=
  let text := last_value ps in
  {| xr_token_charge := response_int ps "TOKENS"; xr_cost_charge := response_int ps "COST";
     xr_timeout_ms := response_int ps "TIMEOUT_MS";
     xr_process_limit := response_int ps "PROCESS_LIMIT"; xr_wall_time_ms := 0;
     xr_path_present := cstr_is (text "PATH_PRESENT") "true"; xr_restricted_identity := false;
     xr_detail := Some (cstr_or (text "DETAIL") "external tool execution completed");
     xr_tool_name := text "TOOL"; xr_principal_name := text "PRINCIPAL";
     xr_principal_runtime := text "PRINCIPAL_RUNTIME"; xr_provider_name := text "PROVIDER";
     xr_provider_kind := text "PROVIDER_KIND"; xr_provider_endpoint := None;
     xr_sandbox_name := text "SANDBOX"; xr_profile_name := text "PROFILE";
     xr_environment_mode := text "ENV"; xr_workdir_name := text "WORKDIR";
     xr_launch_mode := None; xr_receipt_schema := text "RECEIPT_SCHEMA";
     xr_receipt_alg := text "RECEIPT_ALG"; xr_receipt_nonce := text "RECEIPT_NONCE";
     xr_receipt_signature := text "RECEIPT_SIG"; xr_attestation_mode := text "ATTESTATION";
     xr_container_id := text "CONTAINER_ID"; xr_vm_id := text "VM_ID" |}.

(** [None] is a file that cannot be opened. *)
Definition qx_read_external_result (path : string) (contents : cstr) : M QxExternalToolResult :=
  match contents with
  | None => throw ERRCODE_FILE_ACCESS (cat ["could not read principal response file "; quoted path]) None
  | Some s =>
      let ps := response_lines (S (String.length s)) s in
      mforeach check_response_pair ps ;;; ret (external_result_of ps)
  end.

(** The runtime has its own copy of the functions of [qx_observe.c] that cut a
    detail. *)
Definition qx_strip_duplicate_receipt_tail_once (source : string) : cstr :=
  qx_observe_strip_duplicate_receipt_tail_once source.
Definition qx_strip_duplicate_receipt_tail (source : string) : string :=
  qx_observe_strip_duplicate_receipt_tail source.
Definition qx_truncate_detail_after_wall_ms (source : string) : string :=
  qx_observe_truncate_detail_after_wall_ms source.
Definition qx_strip_external_trace_payload (source : string) : string :=
  QxObserveNormalizeExternalTraceDetail source.

(** The text before the first [marker], or all of it. *)
Definition before_marker (marker source : string) : string :=
  match strstr source marker with Some (pre, _) => pre | None => source end.

Definition qx_format_external_execution_payload (phase : cstr) (r : QxExternalToolResult) : string :=
  let detail_for_payload :=
    qx_truncate_detail_after_wall_ms
      (before_marker ";tokens=" (qx_strip_duplicate_receipt_tail (cstr_or (xr_detail r) ""))) in
  let or_unknown v := cstr_or v "<unknown>" in
  qx_strip_external_trace_payload
    (cat ["phase="; cstr_or phase "submit"; ";tool="; or_unknown (xr_tool_name r);
          ";principal="; or_unknown (xr_principal_name r);
          ";principal_runtime="; or_unknown (xr_principal_runtime r);
          ";provider="; or_unknown (xr_provider_name r);
          ";provider_kind="; or_unknown (xr_provider_kind r);
          ";effective_sandbox="; or_unknown (xr_sandbox_name r);
          ";profile="; or_unknown (xr_profile_name r);
          ";env="; or_unknown (xr_environment_mode r);
          ";cwd="; or_unknown (xr_workdir_name r);
          ";process_limit="; show_d (xr_process_limit r);
          ";timeout_ms="; show_d (xr_timeout_ms r);
          ";receipt_schema="; or_unknown (xr_receipt_schema r);
          ";receipt_alg="; or_unknown (xr_receipt_alg r);
          ";receipt_nonce="; or_unknown (xr_receipt_nonce r);
          ";receipt_sig="; match xr_receipt_signature r with Some _ => "verified" | None => "missing" end;
          ";attestation="; or_unknown (xr_attestation_mode r);
          ";container_id="; cstr_or (xr_container_id r) ""; ";vm_id="; cstr_or (xr_vm_id r) "";
          ";tokens="; show_d (xr_token_charge r); ";cost="; show_d (xr_cost_charge r);
          ";detail="; detail_for_payload]).

Definition qx_build_semantic_execution_metadata (r : QxExternalToolResult) :
    QxSemanticExecutionMetadata :=
  {| sm_provider_name := xr_provider_name r; sm_provider_kind := xr_provider_kind r;
     sm_provider_endpoint := xr_provider_endpoint r; sm_principal_name := xr_principal_name r;
     sm_principal_runtime := xr_principal_runtime r; sm_sandbox_name := xr_sandbox_name r;
     sm_profile_name := xr_profile_name r; sm_environment_mode := xr_environment_mode r;
     sm_workdir_name := xr_workdir_name r; sm_launch_mode := xr_launch_mode r;
     sm_receipt_schema := xr_receipt_schema r; sm_receipt_alg := xr_receipt_alg r;
     sm_receipt_nonce := xr_receipt_nonce r; sm_attestation_mode := xr_attestation_mode r;
     sm_timeout_ms := xr_timeout_ms r; sm_process_limit := xr_process_limit r;
     sm_wall_time_ms := xr_wall_time_ms r; sm_token_charge := xr_token_charge r;
     sm_cost_charge := xr_cost_charge r; sm_path_present := xr_path_present r;
     sm_restricted_identity := xr_restricted_identity r |}.

(** ** What the operating system and the libraries provide *)

(** What is handed to the child process. *)
Record launch_call := MkLaunch {
  lc_program_path : string;
  lc_profile : QxSandboxProfile;
  lc_runtime_dir : string;
  lc_request_path : string;
  lc_request : string;                (* contents of the request file *)
  lc_launch_request : cstr;           (* contents of the launch request file *)
  lc_preserve_host_identity : bool
}.

Inductive launch_outcome :=
  | LaunchForkFailed
  | LaunchWaitFailed
  | LaunchTimedOut                                      (* killed after the profile's timeout *)
  | LaunchExited (status : option Z) (wall_ms : Z) (response : cstr).  (* [None]: by a signal *)

Record ToolEnv := MkToolEnv {
  te_getenv : string -> cstr;
  te_is_file : string -> bool;                  (* stat: exists and is not a directory *)
  te_exists : string -> bool;                   (* stat: exists *)
  te_access_x : string -> bool;                 (* access(path, X_OK) *)
  te_validate_exec : string -> bool;            (* validate_exec(path) == 0 *)
  te_canonicalize : string -> string;           (* canonicalize_path *)
  te_bindir : string;                           (* directory of the server program *)
  te_runtime_dir : cstr;                        (* DataDir/pg_qx_runtime, if it can be made *)
  te_temp_path : string -> TimestampTz -> string; (* a fresh file name in it, by suffix *)
  te_can_write : string -> bool;                (* the file can be opened and written *)
  te_hmac_sha256 : string -> string -> list Z;  (* key, message: 32 bytes *)
  te_ed25519_verify : string -> string -> list Z -> option bool;
    (* public key, message, signature; [None]: the library reports an error *)
  te_launch : launch_call -> launch_outcome
}.

Section WithEnv.
Context (E : Env) (T : ToolEnv).

(** ** Finding programs and assets *)

Definition join_path_components (head tail : string) : string :=
  if String.eqb tail "" then head
  else cat [head; if String.eqb head "" then "" else "/"; tail].

Definition is_absolute_path (p : string) : bool := starts_with p "/".

Definition path_is_prefix_of_path (path1 path2 : string) : bool :=
  match strip_prefix path1 path2 with
  | None => false
  | Some EmptyString => true
  | Some (String c _) => Ascii.eqb c "/"
  end.

Fixpoint search_path (dirs : list string) (program : string) : cstr :=
  match dirs with
  | [] => None
  | d :: rest =>
      let candidate := join_path_components d program in
      if te_access_x T candidate then Some candidate else search_path rest program
  end.

(** The search stops at an empty rest of PATH, so a last empty entry is skipped. *)
Definition path_entries (path : string) : list string :=
  match rev (fields ":" path) with
  | EmptyString :: r => rev r
  | r => rev r
  end.

Definition qx_resolve_docker_cli_path : string :=
  let override := te_getenv T "QX_DOCKER_CLI" in
  if negb (is_blank override) then cstr_or override ""
  else cstr_or
    (match te_getenv T "PATH" with
     | Some path => search_path (path_entries path) "docker"
     | None => None
     end) "/usr/bin/docker".

Definition qx_runtime_path_exists (path : string) : bool :=
  if String.eqb path "" then false else te_is_file T path.

Definition qx_resolve_microvm_asset_from_builddir (filename : string) : cstr :=
  let top_builddir := te_getenv T "top_builddir" in
  if is_blank top_builddir then None
  else
    let candidate := te_canonicalize T
      (join_path_components (join_path_components (cstr_or top_builddir "") "microvm-assets")
         filename) in
    if qx_runtime_path_exists candidate then Some candidate else None.

(** Kernel and initial ram disk. *)
Definition qx_resolve_microvm_runtime_paths : option (string * string) :=
  let kernel := text_or (te_getenv T "QX_MICROVM_KERNEL") "" in
  let initrd := text_or (te_getenv T "QX_MICROVM_INITRD") "" in
  if negb (String.eqb kernel "") && negb (String.eqb initrd "") &&
     qx_runtime_path_exists kernel && qx_runtime_path_exists initrd
  then Some (kernel, initrd)
  else match qx_resolve_microvm_asset_from_builddir "vmlinuz-virt" with
       | None => None
       | Some k =>
           match qx_resolve_microvm_asset_from_builddir "initramfs-qx-microvm.cpio.gz" with
           | Some i => Some (k, i)
           | None =>
               match qx_resolve_microvm_asset_from_builddir "initramfs-qx-microvm2.cpio.gz" with
               | Some i => Some (k, i)
               | None => None
               end
           end
       end.

Definition qx_resolve_microvm_qemu_path : string :=
  text_or (te_getenv T "QX_MICROVM_QEMU") "qemu-system-x86_64".

Definition qx_default_docker_host : string :=
  text_or (te_getenv T "DOCKER_HOST") "unix:///var/run/docker.sock".

(** A program or signer file below the server's own directory. *)
Definition below_bindir (name : string) : string :=
  te_canonicalize T (if is_absolute_path name then name else join_path_components (te_bindir T) name).

Definition qx_resolve_principal_program_path (program_name : cstr) : M string :=
  if is_blank program_name then
    throw ERRCODE_INVALID_PARAMETER_VALUE "principal program is not configured" None
  else
    let name := cstr_or program_name "" in
    let candidate := below_bindir name in
    if negb (path_is_prefix_of_path (te_bindir T) candidate) then
      throw ERRCODE_INSUFFICIENT_PRIVILEGE
        (cat ["principal program "; quoted name; " resolves outside the server bindir"])
        (Some "Only executables shipped with the QhapaqXian installation are allowed for external tool principals.")
    else if negb (te_validate_exec T candidate) then
      throw ERRCODE_FILE_ACCESS (cat ["principal program "; quoted candidate; " is not executable"]) None
    else ret candidate.

Definition qx_resolve_receipt_signer_path (signer_name : cstr) : M string :=
  if is_blank signer_name then
    throw ERRCODE_INVALID_PARAMETER_VALUE "principal receipt signer is not configured" None
  else
    let name := cstr_or signer_name "" in
    let candidate := below_bindir name in
    if negb (path_is_prefix_of_path (te_bindir T) candidate) then
      throw ERRCODE_INSUFFICIENT_PRIVILEGE
        (cat ["receipt signer "; quoted name; " resolves outside the server bindir"])
        (Some "Only signer files shipped with the QhapaqXian installation are allowed for asymmetric receipts.")
    else if negb (te_exists T candidate) then
      throw ERRCODE_FILE_ACCESS (cat ["receipt signer "; quoted candidate; " is not readable"]) None
    else if negb (te_is_file T candidate) then
      throw ERRCODE_WRONG_OBJECT_TYPE (cat ["receipt signer "; quoted candidate; " is not a file"]) None
    else ret candidate.

Definition qx_provider_receipt_key (provideroid : Oid) : M string :=
  let* c := gets w_vis in
  match QxCatalogLookupProviderByOid c provideroid with
  | None => throw ERRCODE_UNDEFINED_OBJECT
      (cat ["provider "; show_u provideroid; " no longer exists for runtime receipt verification"]) None
  | Some provider =>
      if negb (qxproviderenabled provider) then
        throw ERRCODE_OBJECT_NOT_IN_PREREQUISITE_STATE
          (cat ["provider "; show_u provideroid; " is disabled for runtime receipt verification"]) None
      else if is_blank (qxproviderreceiptkey provider) then
        throw ERRCODE_OBJECT_NOT_IN_PREREQUISITE_STATE
          (cat ["provider "; show_u provideroid; " has no receipt key configured"]) None
      else ret (cstr_or (qxproviderreceiptkey provider) "")
  end.

Definition qx_runtime_temp_dir : M string :=
  match te_runtime_dir T with
  | Some dir => ret dir
  | None => throw ERRCODE_FILE_ACCESS "could not create QhapaqXian runtime directory" None
  end.

Definition qx_write_text_file (path contents : string) : M unit :=
  if te_can_write T path then ret tt
  else throw ERRCODE_FILE_ACCESS (cat ["could not write runtime file "; quoted path]) None.

Definition qx_runtime_temp_path (suffix : string) : M string :=
  qx_runtime_temp_dir ;;;
  let* now := GetCurrentTimestamp E in
  ret (te_temp_path T suffix now).

(** ** Checking the response *)

Definition qx_receipt_hmac_signature_hex (receipt_key payload : string) : string :=
  hex_encode (te_hmac_sha256 T receipt_key payload).

Definition qx_verify_ed25519_receipt_signature (public_key_pem payload : string)
    (signature_hex : cstr) : M bool :=
  if String.eqb public_key_pem "" then
    throw ERRCODE_OBJECT_NOT_IN_PREREQUISITE_STATE
      "provider has no public key configured for ed25519 receipt verification" None
  else match qx_hex_decode_signature signature_hex QX_ED25519_SIG_BYTES with
       | None => ret false
       | Some signature =>
           match te_ed25519_verify T public_key_pem payload signature with
           | Some verified => ret verified
           | None => throw ERRCODE_EXTERNAL_ROUTINE_EXCEPTION
                       "could not load ed25519 receipt public key" None
           end
       end.

Definition or_null (v : cstr) : string := cstr_or v "<null>".

(** A value that has to be the expected one, when one is expected. *)
Definition expect (what noun : string) (expected actual : cstr) : M unit :=
  match expected with
  | None => ret tt
  | Some e =>
      if cstr_is actual e then ret tt
      else throw ERRCODE_EXTERNAL_ROUTINE_EXCEPTION
             (cat ["principal response returned "; what; " mismatch"])
             (Some (cat ["Expected "; noun; " "; quoted e; " but got "; quoted (or_null actual); "."]))
  end.

Definition external_error {A} (msg : string) (detail : cstr) : M A :=
  throw ERRCODE_EXTERNAL_ROUTINE_EXCEPTION msg detail.

Definition qx_validate_external_result (r : QxExternalToolResult) (profile : QxSandboxProfile)
    (phase : cstr) (taskoid : Oid)
    (expected_tool expected_principal expected_principal_runtime expected_provider
     expected_provider_kind expected_provider_endpoint expected_receipt_schema
     expected_receipt_alg expected_receipt_nonce : cstr)
    (receipt_key : string) (require_attestation : bool) : M unit :=
  expect "tool" "tool" expected_tool (xr_tool_name r) ;;;
  expect "principal" "principal" expected_principal (xr_principal_name r) ;;;
  expect "principal-runtime" "principal runtime" expected_principal_runtime (xr_principal_runtime r) ;;;
  expect "provider" "provider" expected_provider (xr_provider_name r) ;;;
  expect "provider-kind" "provider kind" expected_provider_kind (xr_provider_kind r) ;;;
  expect "sandbox profile" "profile" (Some (sp_name profile)) (xr_profile_name r) ;;;
  (if negb (cstr_is (xr_environment_mode r) "minimal") then
     external_error "principal response did not run under a minimal sandbox environment" None
   else ret tt) ;;;
  (if negb (cstr_is (xr_workdir_name r) "pg_qx_runtime") then
     external_error "principal response escaped the runtime workdir"
       (Some (cat ["Expected workdir basename "; quoted "pg_qx_runtime"; " but got ";
                   quoted (or_null (xr_workdir_name r)); "."]))
   else ret tt) ;;;
  (if negb (xr_timeout_ms r =? sp_timeout_ms profile) then
     external_error "principal response reported timeout mismatch"
       (Some (cat ["Expected "; show_d (sp_timeout_ms profile); " ms but got ";
                   show_d (xr_timeout_ms r); " ms."]))
   else ret tt) ;;;
  (if negb (xr_process_limit r =? sp_process_limit profile) then
     external_error "principal response reported process-limit mismatch"
       (Some (cat ["Expected "; show_d (sp_process_limit profile); " but got ";
                   show_d (xr_process_limit r); "."]))
   else ret tt) ;;;
  (if xr_path_present r then
     external_error "principal response observed PATH in sandbox environment"
       (Some "Stage 17 requires PATH to be stripped from external principal execution.")
   else ret tt) ;;;
  expect "receipt schema" "receipt schema" expected_receipt_schema (xr_receipt_schema r) ;;;
  expect "receipt algorithm" "receipt algorithm" expected_receipt_alg (xr_receipt_alg r) ;;;
  expect "receipt nonce" "receipt nonce" expected_receipt_nonce (xr_receipt_nonce r) ;;;
  let expected_attestation := qx_expected_attestation_mode expected_provider_kind require_attestation in
  (if negb (cstr_is (xr_attestation_mode r) expected_attestation) then
     external_error "principal response failed attestation requirements"
       (Some (cat ["Expected attestation mode "; quoted expected_attestation; " but got ";
                   quoted (or_null (xr_attestation_mode r)); "."]))
   else ret tt) ;;;
  match xr_receipt_signature r with
  | None => external_error "principal response omitted a signed receipt"
      (Some "Providers must return RECEIPT_SIG so the runtime can verify execution evidence.")
  | Some signature =>
      let receipt_payload :=
        qx_receipt_payload phase taskoid expected_tool expected_principal expected_principal_runtime
          expected_provider expected_provider_kind expected_provider_endpoint
          (xr_sandbox_name r) (xr_profile_name r) (xr_environment_mode r) (xr_workdir_name r)
          (xr_timeout_ms r) (xr_process_limit r) (xr_path_present r) (xr_receipt_schema r)
          (xr_receipt_alg r) (xr_receipt_nonce r) (xr_attestation_mode r)
          (xr_token_charge r) (xr_cost_charge r) (xr_detail r) in
      if cstr_is expected_receipt_alg "ed25519" then
        let* verified := qx_verify_ed25519_receipt_signature receipt_key receipt_payload (Some signature) in
        if negb verified then
          external_error "principal response returned an invalid ed25519 receipt signature" None
        else ret tt
      else
        let expected_signature := qx_receipt_hmac_signature_hex receipt_key receipt_payload in
        if negb (String.eqb signature expected_signature) then
          external_error "principal response returned an invalid receipt signature"
            (Some (cat ["Expected HMAC-SHA256 signature "; quoted expected_signature; " but got ";
                        quoted signature; "."]))
        else ret tt
  end.

(** ** The backend contracts *)

Definition QX_MICROVM_TIMEOUT_FLOOR_MS : Z := 120000.

(** The fields the two contract checks and the two launch requests share. *)
Record contract_view := MkView {
  cv_phase : cstr;
  cv_taskoid : Oid;
  cv_tool_name : cstr;
  cv_handler_name : cstr;
  cv_effective_sandbox : string;
  cv_principal_name : cstr;
  cv_principal_runtime : string;
  cv_provider_name : cstr;
  cv_provider_kind : cstr;
  cv_provider_endpoint : cstr;
  cv_receipt_schema : string;
  cv_receipt_alg : string;
  cv_receipt_nonce : string;
  cv_require_attestation : bool
}.

Definition safe_some (v : cstr) : cstr := Some (qx_safe_runtime_text v).

Definition contract_detail (v : contract_view) : string :=
  cat ["task="; show_u (cv_taskoid v); ";handler="; cstr_or (cv_handler_name v) "<unknown>"].

Definition qx_validate_container_runtime_contract (v : contract_view) (profile : QxSandboxProfile) :
    M unit :=
  if negb (Container.qx_container_backend_is_supported_provider_kind (cv_provider_kind v)) &&
     negb (Container.qx_container_backend_is_supported_runtime_class (Some (cv_principal_runtime v)))
  then ret tt
  else
    let image_ref := cstr_or (te_getenv T "QX_CONTAINER_IMAGE") "alpine:3.20" in
    Container.qx_container_backend_validate_request
      (Container.MkRequest (Some (cstr_or (cv_phase v) "submit")) (safe_some (cv_tool_name v))
         (safe_some (cv_principal_name v)) (safe_some (Some (cv_principal_runtime v)))
         (safe_some (cv_provider_name v)) (safe_some (cv_provider_kind v))
         (safe_some (cv_provider_endpoint v)) (safe_some (Some (cv_effective_sandbox v)))
         (Some (sp_name profile)) (Some "minimal") (Some "pg_qx_runtime")
         (Some (cat ["docker run --rm "; image_ref; " true"])) (Some image_ref)
         None None None
         (safe_some (Some (cv_receipt_schema v))) (safe_some (Some (cv_receipt_alg v)))
         (safe_some (Some (cv_receipt_nonce v)))
         (Some Container.QX_CONTAINER_BACKEND_EXPECTED_ATTESTATION) (Some (contract_detail v))
         (sp_timeout_ms profile) (sp_memory_kb profile) (sp_process_limit profile) 0 0
         (cv_require_attestation v) false false true).

Definition qx_validate_microvm_runtime_contract (v : contract_view) (profile : QxSandboxProfile) :
    M unit :=
  if negb (Microvm.qx_microvm_backend_is_supported_provider_kind (cv_provider_kind v)) &&
     negb (Microvm.qx_microvm_backend_is_supported_runtime_class (Some (cv_principal_runtime v)))
  then ret tt
  else match qx_resolve_microvm_runtime_paths with
  | None => ret tt
  | Some (kernel_path, initrd_path) =>
    let accel := cstr_or (te_getenv T "QX_MICROVM_ACCEL") "tcg" in
    Microvm.qx_microvm_backend_validate_request
      (Microvm.MkRequest (Some (cstr_or (cv_phase v) "submit")) (safe_some (cv_tool_name v))
         (safe_some (cv_principal_name v)) (safe_some (Some (cv_principal_runtime v)))
         (safe_some (cv_provider_name v)) (safe_some (cv_provider_kind v))
         (safe_some (cv_provider_endpoint v)) (safe_some (Some (cv_effective_sandbox v)))
         (Some (sp_name profile)) (Some "minimal") (Some "pg_qx_runtime")
         (Some (cat [qx_resolve_microvm_qemu_path; " -M microvm -accel "; accel;
                     " -kernel "; kernel_path; " -initrd "; initrd_path]))
         (Some (cat ["kernel="; kernel_path; ";initrd="; initrd_path]))
         (Some kernel_path) (Some initrd_path) None
         (safe_some (Some (cv_receipt_schema v))) (safe_some (Some (cv_receipt_alg v)))
         (safe_some (Some (cv_receipt_nonce v)))
         (Some Microvm.QX_MICROVM_BACKEND_EXPECTED_ATTESTATION) (Some (contract_detail v))
         (sp_timeout_ms profile) (sp_memory_kb profile) (sp_process_limit profile) 1 0 0
         (cv_require_attestation v) false false)
  end.

(** ** Running the program *)

Definition qx_launch_principal_program (call : launch_call) : M (QxSandboxObservation * cstr) :=
  let name := quoted (lc_program_path call) in
  match te_launch T call with
  | LaunchForkFailed => throw ERRCODE_FILE_ACCESS (cat ["could not fork principal program "; name]) None
  | LaunchWaitFailed => throw ERRCODE_FILE_ACCESS (cat ["could not wait for principal program "; name]) None
  | LaunchTimedOut =>
      throw ERRCODE_QUERY_CANCELED (cat ["principal program "; name; " exceeded sandbox timeout"])
        (Some (cat ["Sandbox profile "; quoted (sp_name (lc_profile call)); " allows at most ";
                    show_d (sp_timeout_ms (lc_profile call)); " ms of wall time."]))
  | LaunchExited status wall_ms response =>
      if negb (bool_decide (status = Some 0)) then
        throw ERRCODE_EXTERNAL_ROUTINE_EXCEPTION (cat ["principal program "; name; " failed"])
          (Some (cat ["Exit status was "; show_d (default (-1) status); "."]))
      else ret (MkObservation (int32 wall_ms) (Some "profiled_process") false, response)
  end.

(** The profile a microVM runs under. *)
Definition microvm_profile (p : QxSandboxProfile) : QxSandboxProfile :=
  MkProfile (sp_name p) (Z.max (sp_timeout_ms p) QX_MICROVM_TIMEOUT_FLOOR_MS)
    (Z.max (sp_memory_kb p) 262144) (sp_file_kb p) (sp_max_open_files p)
    (Z.max (sp_process_limit p) 4).

Definition container_launch_text (v : contract_view) (profile : QxSandboxProfile)
    (policy : QxRuntimePolicy) : M string :=
  let image_ref := cstr_or (po_image_ref policy) "" in
  qx_runtime_policy_validate_image_ref (te_getenv T) (po_image_ref policy) ;;;
  Container.qx_container_backend_build_launch_request
    (Container.MkRequest (Some (cstr_or (cv_phase v) "submit")) (safe_some (cv_tool_name v))
       (safe_some (cv_principal_name v)) (safe_some (Some (cv_principal_runtime v)))
       (safe_some (cv_provider_name v)) (safe_some (cv_provider_kind v))
       (safe_some (cv_provider_endpoint v)) (safe_some (Some (cv_effective_sandbox v)))
       (Some (sp_name profile)) (Some "minimal") (Some "pg_qx_runtime")
       (Some (cat ["docker run --rm "; image_ref; " true"])) (Some image_ref)
       (Some (cstr_or (po_seccomp_mode policy) "no-new-privileges"))
       (Some (cstr_or (po_cgroup_mode policy) "private"))
       (Some (cstr_or (po_oci_profile policy) ""))
       (Some (cv_receipt_schema v)) (Some (cv_receipt_alg v)) (Some (cv_receipt_nonce v))
       (Some Container.QX_CONTAINER_BACKEND_EXPECTED_ATTESTATION)
       (Some (cat ["task="; show_u (cv_taskoid v)]))
       (sp_timeout_ms profile) (sp_memory_kb profile) (sp_process_limit profile) 0 0
       (cv_require_attestation v) (po_allow_network policy)
       (po_allow_privilege_escalation policy) (po_readonly_rootfs policy)).

Definition microvm_launch_text (v : contract_view) (profile : QxSandboxProfile)
    (policy : QxRuntimePolicy) : M string :=
  let kernel := cstr_or (po_kernel_ref policy) "" in
  let initrd := cstr_or (po_initrd_ref policy) "" in
  Microvm.qx_microvm_backend_build_launch_request
    (Microvm.MkRequest (Some (cstr_or (cv_phase v) "submit")) (safe_some (cv_tool_name v))
       (safe_some (cv_principal_name v)) (safe_some (Some (cv_principal_runtime v)))
       (safe_some (cv_provider_name v)) (safe_some (cv_provider_kind v))
       (safe_some (cv_provider_endpoint v)) (safe_some (Some (cv_effective_sandbox v)))
       (Some (sp_name profile)) (Some "minimal") (Some "pg_qx_runtime")
       (Some (cat [qx_resolve_microvm_qemu_path; " -M microvm -kernel "; kernel; " -initrd "; initrd]))
       (Some (cat ["kernel="; kernel; ";initrd="; initrd]))
       (Some kernel) (Some initrd) (po_snapshot_ref policy)
       (Some (cv_receipt_schema v)) (Some (cv_receipt_alg v)) (Some (cv_receipt_nonce v))
       (Some Microvm.QX_MICROVM_BACKEND_EXPECTED_ATTESTATION)
       (Some (cat ["task="; show_u (cv_taskoid v)]))
       (sp_timeout_ms profile) (sp_memory_kb profile) (sp_process_limit profile) 1 0 0
       (cv_require_attestation v) (po_allow_network policy)
       (po_allow_privilege_escalation policy)).

(** One line of the request file. *)
Definition request_line (key value : string) : string := cat [key; "="; value; String newline ""].

Definition request_text (v : contract_view) (phase goal tool_sandbox : cstr) (input_present : bool)
    (receipt_key resolved_signer backend_lines launch_request_path : string) : string :=
  cat [request_line "PHASE" (cstr_or phase ""); request_line "TASK_OID" (show_u (cv_taskoid v));
       request_line "GOAL_LENGTH" (show_u (Z.of_nat (String.length (cstr_or goal ""))));
       request_line "INPUT_PRESENT" (show_bool input_present);
       request_line "TOOL" (cstr_or (cv_tool_name v) "");
       request_line "HANDLER" (cstr_or (cv_handler_name v) "");
       request_line "SANDBOX" (cstr_or tool_sandbox "builtin");
       request_line "PRINCIPAL" (cstr_or (cv_principal_name v) "");
       request_line "PRINCIPAL_RUNTIME" (cv_principal_runtime v);
       request_line "PROVIDER" (cstr_or (cv_provider_name v) "");
       request_line "PROVIDER_KIND" (cstr_or (cv_provider_kind v) "loopback");
       request_line "PROVIDER_ENDPOINT"
         (cstr_or (cv_provider_endpoint v) "local://qhapaqxian-tool-runner");
       request_line "REQUIRE_ATTESTATION" (show_bool (cv_require_attestation v));
       request_line "RECEIPT_SCHEMA" (cv_receipt_schema v);
       request_line "RECEIPT_ALG" (cv_receipt_alg v);
       request_line "RECEIPT_NONCE" (cv_receipt_nonce v);
       request_line "RECEIPT_KEY" receipt_key; request_line "RECEIPT_SIGNER" resolved_signer;
       backend_lines;
       if String.eqb launch_request_path "" then ""
       else request_line "LAUNCH_REQUEST_FILE" launch_request_path].

(** What an accepted response is completed with. *)
Definition complete_result (v : contract_view) (profile : QxSandboxProfile)
    (o : QxSandboxObservation) (r : QxExternalToolResult) : QxExternalToolResult :=
  let or_else a b := first_set a b in
  let launch_mode := cstr_or (so_launch_mode o) "profiled_process" in
  {| xr_token_charge := xr_token_charge r; xr_cost_charge := xr_cost_charge r;
     xr_timeout_ms := if xr_timeout_ms r =? 0 then sp_timeout_ms profile else xr_timeout_ms r;
     xr_process_limit :=
       if xr_process_limit r =? 0 then sp_process_limit profile else xr_process_limit r;
     xr_wall_time_ms := so_wall_time_ms o; xr_path_present := xr_path_present r;
     xr_restricted_identity := so_restricted_identity o;
     xr_detail :=
       match xr_detail r with
       | None => None
       | Some d =>
           let clean := before_marker ";launch_mode="
             (before_marker ";tokens=" (qx_strip_duplicate_receipt_tail d)) in
           Some (qx_truncate_detail_after_wall_ms
             (cat [clean; ";launch_mode="; launch_mode; ";restricted_identity=";
                   show_bool (so_restricted_identity o); ";wall_ms="; show_d (so_wall_time_ms o)]))
       end;
     xr_tool_name := or_else (xr_tool_name r) (cv_tool_name v);
     xr_principal_name := or_else (xr_principal_name r) (cv_principal_name v);
     xr_principal_runtime := or_else (xr_principal_runtime r) (Some (cv_principal_runtime v));
     xr_provider_name := or_else (xr_provider_name r) (cv_provider_name v);
     xr_provider_kind := or_else (xr_provider_kind r) (Some (cstr_or (cv_provider_kind v) "loopback"));
     xr_provider_endpoint := or_else (xr_provider_endpoint r) (cv_provider_endpoint v);
     xr_sandbox_name := or_else (xr_sandbox_name r) (Some (cv_effective_sandbox v));
     xr_profile_name := or_else (xr_profile_name r) (Some (sp_name profile));
     xr_environment_mode := or_else (xr_environment_mode r) (Some "minimal");
     xr_workdir_name := or_else (xr_workdir_name r) (Some "pg_qx_runtime");
     xr_launch_mode := or_else (xr_launch_mode r) (Some launch_mode);
     xr_receipt_schema := or_else (xr_receipt_schema r) (Some (cv_receipt_schema v));
     xr_receipt_alg := or_else (xr_receipt_alg r) (Some (cv_receipt_alg v));
     xr_receipt_nonce := or_else (xr_receipt_nonce r) (Some (cv_receipt_nonce v));
     xr_receipt_signature := or_else (xr_receipt_signature r) (Some "verified");
     xr_attestation_mode := or_else (xr_attestation_mode r)
       (Some (qx_expected_attestation_mode (cv_provider_kind v) (cv_require_attestation v)));
     xr_container_id := xr_container_id r; xr_vm_id := xr_vm_id r |}.

(** ** The supervisor's leases *)

Definition supervisor_register (taskoid : Oid) (instance_id : cstr) (kind : QxBackendLeaseKind) :
    M unit :=
  let* s := gets w_stat in
  match qx_backend_supervisor_register (qhapaqxian_track_stats E) (MyDatabaseId E) taskoid
          instance_id kind s with
  | Some s' => modify (set_stat s')
  | None => throw ERRCODE_NAME_TOO_LONG "backend instance identifier is too long"
              (Some (cat ["Backend instance identifiers must be shorter than ";
                          show_d (Z.of_nat QX_STAT_BACKEND_INSTANCE_ID_LEN); " bytes."]))
  end.

Definition supervisor_release (taskoid : Oid) (instance_id : cstr) : M unit :=
  report_stat (qx_backend_supervisor_release (qhapaqxian_track_stats E) (MyDatabaseId E) taskoid
                 instance_id).

Definition supervisor_fence_stale (taskoid : Oid) : M unit :=
  report_stat (qx_backend_supervisor_fence_stale (qhapaqxian_track_stats E) (MyDatabaseId E) taskoid).

(** The instance the response names, or a name made from the task. *)
Definition instance_of (id : cstr) (prefix : string) (taskoid : Oid) : cstr :=
  if is_blank id then Some (cat [prefix; show_u taskoid]) else id.

Definition register_backend (use_container use_microvm : bool) (taskoid : Oid)
    (r : QxExternalToolResult) : M unit :=
  let detail_has m := match xr_detail r with Some d => contains d m | None => false end in
  if use_container && detail_has "backend_launch=docker" then
    supervisor_register taskoid (instance_of (xr_container_id r) "qx-container-" taskoid)
      QX_BACKEND_LEASE_CONTAINER
  else if use_microvm && detail_has "backend_launch=qemu" then
    supervisor_register taskoid (instance_of (xr_vm_id r) "qx-microvm-" taskoid)
      QX_BACKEND_LEASE_MICROVM
  else ret tt.

Definition release_backend (use_container use_microvm : bool) (taskoid : Oid)
    (r : QxExternalToolResult) : M unit :=
  if negb (is_blank (xr_container_id r)) then supervisor_release taskoid (xr_container_id r)
  else if negb (is_blank (xr_vm_id r)) then supervisor_release taskoid (xr_vm_id r)
  else if use_container || use_microvm then supervisor_fence_stale taskoid
  else ret tt.

(** ** The contract, executed *)

(** The contract's values, before any check. *)
Definition view_of_contract (contract : cstr) (phase : cstr) (taskoid : Oid)
    (effective_sandbox : string) : contract_view :=
  let value k := qx_contract_value contract (Some k) in
  let provider_kind := value "provider_kind" in
  {| cv_phase := phase; cv_taskoid := taskoid; cv_tool_name := value "tool";
     cv_handler_name := value "handler"; cv_effective_sandbox := effective_sandbox;
     cv_principal_name := value "principal";
     cv_principal_runtime := text_or (value "principal_runtime")
                               (qx_default_runtime_for_provider_kind provider_kind);
     cv_provider_name := value "provider"; cv_provider_kind := provider_kind;
     cv_provider_endpoint := value "provider_endpoint";
     cv_receipt_schema := cstr_or (value "receipt_schema") "qx.receipt.v1";
     cv_receipt_alg := cstr_or (value "receipt_alg") "hmac-sha256";
     cv_receipt_nonce := cat [cstr_or phase "submit"; ":"; cstr_or (value "tool") "tool"; ":";
                              cstr_or (value "principal") "principal"];
     cv_require_attestation := cstr_is (value "provider_attestation") "required" |}.

(** The provider's key, and the signer file of asymmetric receipts. *)
Definition receipt_material (contract : cstr) : M (string * string) :=
  let value k := qx_contract_value contract (Some k) in
  let provider_oid_str := value "provider_oid" in
  if is_blank provider_oid_str then
    throw ERRCODE_OBJECT_NOT_IN_PREREQUISITE_STATE
      "tool contract is missing provider_oid for receipt verification" None
  else
    let provideroid := uint32 (strtoul (cstr_or provider_oid_str "")) in
    if negb (OidIsValid provideroid) then
      throw ERRCODE_OBJECT_NOT_IN_PREREQUISITE_STATE
        (cat ["tool contract carried an invalid provider_oid "; quoted (cstr_or provider_oid_str "")])
        None
    else
      let* receipt_key := qx_provider_receipt_key provideroid in
      if cstr_is (value "receipt_alg") "ed25519" then
        if is_blank (value "receipt_signer") then
          throw ERRCODE_OBJECT_NOT_IN_PREREQUISITE_STATE
            "tool contract is missing receipt_signer for ed25519 verification" None
        else
          let* signer := qx_resolve_receipt_signer_path (value "receipt_signer") in
          ret (receipt_key, signer)
      else ret (receipt_key, "").

(** The sandbox the tool runs in, at most the principal's. *)
Definition admit_sandbox (contract : cstr) : M string :=
  let value k := qx_contract_value contract (Some k) in
  let* tool_rank := qx_sandbox_rank (value "tool_sandbox") in
  let* principal_rank := qx_sandbox_rank (value "principal_sandbox") in
  if principal_rank <? tool_rank then
    throw ERRCODE_INSUFFICIENT_PRIVILEGE
      (cat ["tool "; quoted (cstr_or (value "tool") "<unknown>"); " exceeds principal ";
            quoted (cstr_or (value "principal") "<unknown>"); " sandbox ceiling"]) None
  else qx_effective_sandbox_name (value "tool_sandbox") (value "principal_sandbox").

(** The lines of the request file a backend reads, and its launch request. *)
Definition backend_lines (use_container use_microvm : bool) : string :=
  cat [if use_container then
         cat [request_line "DOCKER_CLI" qx_resolve_docker_cli_path;
              request_line "DOCKER_HOST" qx_default_docker_host;
              request_line "CONTAINER_IMAGE" (text_or (te_getenv T "QX_CONTAINER_IMAGE") "alpine:3.20")]
       else "";
       match use_microvm, qx_resolve_microvm_runtime_paths with
       | true, Some (kernel_path, initrd_path) =>
         cat [request_line "QEMU_CLI" qx_resolve_microvm_qemu_path;
              request_line "MICROVM_KERNEL" kernel_path;
              request_line "MICROVM_INITRD" initrd_path;
              request_line "MICROVM_ACCEL" (text_or (te_getenv T "QX_MICROVM_ACCEL") "tcg")]
       | _, _ => ""
       end].

Definition launch_request (use_container use_microvm : bool) (v : contract_view)
    (profile : QxSandboxProfile) (policy : QxRuntimePolicy) : M (string * cstr) :=
  if use_container then
    let* path := qx_runtime_temp_path "launch" in
    let* text := container_launch_text v profile policy in
    qx_write_text_file path text ;;; ret (path, Some text)
  else if use_microvm then
    let* path := qx_runtime_temp_path "launch" in
    let* text := microvm_launch_text v profile policy in
    qx_write_text_file path text ;;; ret (path, Some text)
  else ret ("", None).

Definition qx_execute_tool_contract (contract phase : cstr) (taskoid : Oid) (goal : cstr)
    (input_present : bool) : M QxExternalToolResult :=
  match contract with
  | None => throw ERRCODE_OBJECT_NOT_IN_PREREQUISITE_STATE
      (cat ["task "; show_u taskoid; " has no authorized tool contract to execute"]) None
  | Some _ =>
    let value k := qx_contract_value contract (Some k) in
    let policy := qx_runtime_policy_from_authz (te_getenv T) (value "tool_capability_tags") in
    let* keys := receipt_material contract in
    let '(receipt_key, signer_path) := keys in
    let* effective_sandbox := admit_sandbox contract in
    let v := view_of_contract contract phase taskoid effective_sandbox in
    let* profile := qx_lookup_sandbox_profile effective_sandbox in
    let microvm_paths := qx_resolve_microvm_runtime_paths in
    let use_container :=
      Container.qx_container_backend_is_supported_provider_kind (cv_provider_kind v) &&
      Container.qx_container_backend_is_supported_runtime_class (Some (cv_principal_runtime v)) in
    let use_microvm :=
      Microvm.qx_microvm_backend_is_supported_provider_kind (cv_provider_kind v) &&
      Microvm.qx_microvm_backend_is_supported_runtime_class (Some (cv_principal_runtime v)) &&
      bool_decide (is_Some microvm_paths) in
    let execution_profile := if use_microvm then microvm_profile profile else profile in
    let* policy := if use_container then qx_runtime_policy_compile_container policy else ret policy in
    let* policy :=
      if use_microvm
      then qx_runtime_policy_resolve_microvm_assets (te_getenv T) policy
             (fst <$> microvm_paths) (snd <$> microvm_paths)
      else ret policy in
    qx_validate_container_runtime_contract v execution_profile ;;;
    qx_validate_microvm_runtime_contract v execution_profile ;;;
    let* program_path := qx_resolve_principal_program_path (value "program") in
    let* runtime_dir := qx_runtime_temp_dir in
    let* request_path := qx_runtime_temp_path "req" in
    let* response_path := qx_runtime_temp_path "resp" in
    let* launch := launch_request use_container use_microvm v execution_profile policy in
    let '(launch_path, launch_text) := launch in
    let text :=
      request_text v phase goal (value "tool_sandbox") input_present
        (if cstr_is (value "receipt_alg") "ed25519" then "" else receipt_key) signer_path
        (backend_lines use_container use_microvm) launch_path in
    qx_write_text_file request_path text ;;;
    let* launched := qx_launch_principal_program
      (MkLaunch program_path execution_profile runtime_dir request_path text launch_text
         (use_container || use_microvm)) in
    let '(observation, response) := launched in
    let* r := qx_read_external_result response_path response in
    register_backend use_container use_microvm taskoid r ;;;
    qx_validate_external_result r execution_profile phase taskoid (cv_tool_name v)
      (cv_principal_name v) (Some (cv_principal_runtime v)) (cv_provider_name v)
      (Some (cstr_or (cv_provider_kind v) "loopback"))
      (Some (cstr_or (cv_provider_endpoint v) "local://qhapaqxian-tool-runner"))
      (Some (cv_receipt_schema v)) (Some (cv_receipt_alg v)) (Some (cv_receipt_nonce v))
      receipt_key (cv_require_attestation v) ;;;
    let r := complete_result v profile observation r in
    release_backend use_container use_microvm taskoid r ;;;
    ret r
  end.

End WithEnv.

(** ** Executing a tool leaves the catalogs alone *)

Section Frame.
Context (E : Env) (T : ToolEnv).

Lemma keeps_sandbox_rank s : keeps (qx_sandbox_rank s).
Proof. unfold qx_sandbox_rank. keeps_tac. Qed.

Lemma keeps_require c msg : keeps (backend_require c msg).
Proof. unfold backend_require. keeps_tac. Qed.

Lemma keeps_read_int32 s : keeps (read_int32 s).
Proof. unfold read_int32. keeps_tac. Qed.

Lemma keeps_allowlist value env_var label :
  keeps (qx_runtime_policy_validate_allowlist_entry (te_getenv T) value env_var label).
Proof. unfold qx_runtime_policy_validate_allowlist_entry. keeps_tac. Qed.

#[local] Hint Resolve keeps_sandbox_rank keeps_require keeps_read_int32 keeps_allowlist : qx.

Lemma keeps_validate_container r : keeps (Container.qx_container_backend_validate_request r).
Proof. unfold Container.qx_container_backend_validate_request. keeps_tac. Qed.

Lemma keeps_validate_microvm r : keeps (Microvm.qx_microvm_backend_validate_request r).
Proof. unfold Microvm.qx_microvm_backend_validate_request. keeps_tac. Qed.

Lemma keeps_receipt_material contract : keeps (receipt_material T contract).
Proof. unfold receipt_material, qx_provider_receipt_key, qx_resolve_receipt_signer_path. keeps_tac. Qed.

Lemma keeps_admit_sandbox contract : keeps (admit_sandbox contract).
Proof. unfold admit_sandbox, qx_effective_sandbox_name. keeps_tac. Qed.

Lemma keeps_lookup_profile s : keeps (qx_lookup_sandbox_profile s).
Proof. unfold qx_lookup_sandbox_profile. keeps_tac. Qed.

Lemma keeps_compile_container p : keeps (qx_runtime_policy_compile_container p).
Proof. unfold qx_runtime_policy_compile_container. keeps_tac. Qed.

Lemma keeps_resolve_assets p k i :
  keeps (qx_runtime_policy_resolve_microvm_assets (te_getenv T) p k i).
Proof.
  unfold qx_runtime_policy_resolve_microvm_assets, qx_runtime_policy_validate_microvm_assets. keeps_tac.
Qed.

#[local] Hint Resolve keeps_validate_container keeps_validate_microvm : qx.

Lemma keeps_container_contract v p : keeps (qx_validate_container_runtime_contract T v p).
Proof. unfold qx_validate_container_runtime_contract. keeps_tac. Qed.

Lemma keeps_microvm_contract v p : keeps (qx_validate_microvm_runtime_contract T v p).
Proof. unfold qx_validate_microvm_runtime_contract. keeps_tac. Qed.

Lemma keeps_program_path n : keeps (qx_resolve_principal_program_path T n).
Proof. unfold qx_resolve_principal_program_path. keeps_tac. Qed.

Lemma keeps_temp_dir : keeps (qx_runtime_temp_dir T).
Proof. unfold qx_runtime_temp_dir. keeps_tac. Qed.

Lemma keeps_write path s : keeps (qx_write_text_file T path s).
Proof. unfold qx_write_text_file. keeps_tac. Qed.

#[local] Hint Resolve keeps_temp_dir keeps_write : qx.

Lemma keeps_temp_path s : keeps (qx_runtime_temp_path E T s).
Proof. unfold qx_runtime_temp_path. keeps_tac. Qed.

#[local] Hint Resolve keeps_temp_path : qx.

Lemma keeps_launch_request uc um v p pol : keeps (launch_request E T uc um v p pol).
Proof.
  unfold launch_request, container_launch_text, microvm_launch_text,
    Container.qx_container_backend_build_launch_request,
    Microvm.qx_microvm_backend_build_launch_request, qx_runtime_policy_validate_image_ref.
  keeps_tac.
Qed.

Lemma keeps_launch call : keeps (qx_launch_principal_program T call).
Proof. unfold qx_launch_principal_program. keeps_tac. Qed.

Lemma keeps_read_result path c : keeps (qx_read_external_result path c).
Proof.
  unfold qx_read_external_result. keeps_tac.
  apply keeps_mforeach. intros p. unfold check_response_pair. keeps_tac.
Qed.

Lemma keeps_register uc um t r : keeps (register_backend E uc um t r).
Proof. unfold register_backend, supervisor_register. keeps_tac; apply (keeps_set_stat (fun _ => _)). Qed.

Lemma keeps_release uc um t r : keeps (release_backend E uc um t r).
Proof.
  unfold release_backend, supervisor_release, supervisor_fence_stale, report_stat. keeps_tac;
    apply (keeps_set_stat (fun w => _ (w_stat w))).
Qed.

Lemma keeps_expect what noun e a : keeps (expect what noun e a).
Proof. unfold expect. keeps_tac. Qed.

#[local] Hint Resolve keeps_expect : qx.

Lemma keeps_validate_result r p ph t e1 e2 e3 e4 e5 e6 e7 e8 e9 key att :
  keeps (qx_validate_external_result T r p ph t e1 e2 e3 e4 e5 e6 e7 e8 e9 key att).
Proof.
  unfold qx_validate_external_result, qx_verify_ed25519_receipt_signature, external_error. keeps_tac.
Qed.

#[local] Hint Resolve keeps_receipt_material keeps_admit_sandbox keeps_lookup_profile
  keeps_compile_container keeps_resolve_assets keeps_container_contract keeps_microvm_contract
  keeps_program_path keeps_launch_request keeps_launch keeps_read_result keeps_register keeps_release
  keeps_validate_result : qx.

(** Whatever the tool answers, and also when it fails, no row, identifier or
    message is added. *)
Lemma keeps_execute contract phase taskoid goal input :
  keeps (qx_execute_tool_contract E T contract phase taskoid goal input).
Proof. unfold qx_execute_tool_contract. keeps_tac. Qed.

End Frame.

(** ** Only signed responses are accepted *)

(** The receipt carries the signature the provider's algorithm asks for. *)
Definition receipt_signed (T : ToolEnv) (receipt_key receipt_alg payload signature : string) : Prop :=
  if String.eqb receipt_alg "ed25519"
  then exists bytes, qx_hex_decode_signature (Some signature) QX_ED25519_SIG_BYTES = Some bytes /\
         te_ed25519_verify T receipt_key payload bytes = Some true
  else signature = hex_encode (te_hmac_sha256 T receipt_key payload).

(** The text that is signed: what the contract asked for, and the limits, the
    charges and the detail the response reports. *)
Definition receipt_of (v : contract_view) (r : QxExternalToolResult) : string :=
  qx_receipt_payload (cv_phase v) (cv_taskoid v) (cv_tool_name v) (cv_principal_name v)
    (Some (cv_principal_runtime v)) (cv_provider_name v)
    (Some (cstr_or (cv_provider_kind v) "loopback"))
    (Some (cstr_or (cv_provider_endpoint v) "local://qhapaqxian-tool-runner"))
    (xr_sandbox_name r) (xr_profile_name r) (xr_environment_mode r) (xr_workdir_name r)
    (xr_timeout_ms r) (xr_process_limit r) (xr_path_present r) (xr_receipt_schema r)
    (xr_receipt_alg r) (xr_receipt_nonce r) (xr_attestation_mode r)
    (xr_token_charge r) (xr_cost_charge r) (xr_detail r).

(** What an accepted response has in common with the contract. *)
Record response_matches (v : contract_view) (p : QxSandboxProfile) (r : QxExternalToolResult) :
    Prop := {
  rm_tool : cv_tool_name v = None \/ xr_tool_name r = cv_tool_name v;
  rm_principal : cv_principal_name v = None \/ xr_principal_name r = cv_principal_name v;
  rm_runtime : xr_principal_runtime r = Some (cv_principal_runtime v);
  rm_provider : cv_provider_name v = None \/ xr_provider_name r = cv_provider_name v;
  rm_profile : xr_profile_name r = Some (sp_name p);
  rm_timeout : xr_timeout_ms r = sp_timeout_ms p;
  rm_process_limit : xr_process_limit r = sp_process_limit p;
  rm_path : xr_path_present r = false;
  rm_alg : xr_receipt_alg r = Some (cv_receipt_alg v);
  rm_nonce : xr_receipt_nonce r = Some (cv_receipt_nonce v);
  rm_attestation : xr_attestation_mode r =
    Some (qx_expected_attestation_mode (Some (cstr_or (cv_provider_kind v) "loopback"))
            (cv_require_attestation v))
}.

Lemma cstr_is_eq s lit : cstr_is s lit = true -> s = Some lit.
Proof. destruct s as [t|]; simpl; [|done]. intros ->%String.eqb_eq. done. Qed.

Lemma expect_ok what noun e a w u w' :
  expect what noun e a w = Ok u w' -> w' = w /\ (e = None \/ a = e).
Proof.
  unfold expect. destruct e as [e|]; [|intros [= _ <-]; auto].
  destruct (cstr_is a e) eqn:H; [|done]. apply cstr_is_eq in H. intros [= _ <-]. auto.
Qed.

Lemma guard_ok (b : bool) msg detail w u w' :
  (if b then external_error msg detail else ret tt) w = Ok u w' -> w' = w /\ b = false.
Proof. destruct b; [done|]. intros [= _ <-]. done. Qed.

Ltac step_ok H :=
  let w1 := fresh "w" in let H1 := fresh "H" in let u := fresh "u" in
  apply bind_ok in H as (u & w1 & H1 & H);
  first [apply expect_ok in H1 as [-> H1] | apply guard_ok in H1 as [-> H1]].

Lemma signature_ok T alg key payload signature w w' u :
  (if String.eqb alg "ed25519" then
     let* verified := qx_verify_ed25519_receipt_signature T key payload (Some signature) in
     if negb verified then
       external_error "principal response returned an invalid ed25519 receipt signature" None
     else ret tt
   else
     let expected_signature := qx_receipt_hmac_signature_hex T key payload in
     if negb (String.eqb signature expected_signature) then
       external_error "principal response returned an invalid receipt signature"
         (Some (cat ["Expected HMAC-SHA256 signature "; quoted expected_signature; " but got ";
                     quoted signature; "."]))
     else ret tt) w = Ok u w' ->
  receipt_signed T key alg payload signature.
Proof.
  unfold receipt_signed. destruct (String.eqb alg "ed25519").
  - intros ([] & w1 & H & H')%bind_ok; [|done]. unfold qx_verify_ed25519_receipt_signature in H.
    destruct (String.eqb key ""); [done|].
    destruct (qx_hex_decode_signature _ _) as [bytes|] eqn:D; [|done].
    destruct (te_ed25519_verify T key payload bytes) as [[]|] eqn:V; try done. eauto.
  - cbn zeta. destruct (String.eqb signature _) eqn:S; [|done]. apply String.eqb_eq in S. done.
Qed.

Lemma validated_response T v p r key w u w' :
  qx_validate_external_result T r p (cv_phase v) (cv_taskoid v) (cv_tool_name v)
    (cv_principal_name v) (Some (cv_principal_runtime v)) (cv_provider_name v)
    (Some (cstr_or (cv_provider_kind v) "loopback"))
    (Some (cstr_or (cv_provider_endpoint v) "local://qhapaqxian-tool-runner"))
    (Some (cv_receipt_schema v)) (Some (cv_receipt_alg v)) (Some (cv_receipt_nonce v))
    key (cv_require_attestation v) w = Ok u w' ->
  response_matches v p r /\
  exists signature, xr_receipt_signature r = Some signature /\
    receipt_signed T key (cv_receipt_alg v) (receipt_of v r) signature.
Proof.
  unfold qx_validate_external_result. cbn zeta. intros H. do 15 step_ok H.
  destruct (xr_receipt_signature r) as [signature|] eqn:Sig; [|done].
  apply signature_ok in H. split; [|eauto].
  repeat match goal with
  | H : negb _ = false |- _ => apply negb_false_iff in H
  | H : (_ =? _) = true |- _ => apply Z.eqb_eq in H
  | H : cstr_is _ _ = true |- _ => apply cstr_is_eq in H
  | H : Some _ = None \/ _ |- _ => destruct H as [H|H]; [discriminate H|]
  end. split; auto; intuition congruence.
Qed.

Definition contract_provider (contract : cstr) : Oid :=
  uint32 (strtoul (cstr_or (qx_contract_value contract (Some "provider_oid")) "")).

Lemma receipt_material_ok T contract w keys w' :
  receipt_material T contract w = Ok keys w' ->
  exists provider,
    QxCatalogLookupProviderByOid (w_vis w) (contract_provider contract) = Some provider /\
    qxproviderenabled provider = true /\ qxproviderreceiptkey provider = Some (fst keys).
Proof.
  unfold receipt_material. fold (contract_provider contract). destruct (is_blank _); [done|].
  destruct (negb _); [done|]. intros (key & w1 & H & H')%bind_ok.
  assert (fst keys = key) as ->.
  { destruct (cstr_is _ _); [|by injection H' as <- _]. destruct (is_blank _); [done|].
    apply bind_ok in H' as (s & w2 & _ & [= <- _]). done. }
  unfold qx_provider_receipt_key in H. apply bind_ok in H as (c & w2 & [= <- <-] & H).
  destruct (QxCatalogLookupProviderByOid _ _) as [provider|]; [|done]. exists provider.
  destruct (qxproviderenabled provider); [|done]. simpl in H.
  destruct (qxproviderreceiptkey provider) as [k|]; [|done].
  destruct (is_blank (Some k)); [done|]. injection H as <- _. done.
Qed.

Lemma program_path_ok T name w path w' :
  qx_resolve_principal_program_path T name w = Ok path w' ->
  path_is_prefix_of_path (te_bindir T) path = true /\ te_validate_exec T path = true.
Proof.
  unfold qx_resolve_principal_program_path. destruct (is_blank name); [done|].
  destruct (path_is_prefix_of_path _ _) eqn:P; [|done]. simpl.
  destruct (te_validate_exec T _) eqn:V; [|done]. intros [= <- _]. done.
Qed.

Lemma launch_ok T call w o response w' :
  qx_launch_principal_program T call w = Ok (o, response) w' ->
  exists wall_ms, te_launch T call = LaunchExited (Some 0) wall_ms response.
Proof.
  unfold qx_launch_principal_program. destruct (te_launch T call) as [| | |status wall_ms resp]; try done.
  destruct (decide (status = Some 0)) as [->|Hs].
  - rewrite bool_decide_eq_true_2 by done. intros [= _ -> _]. eauto.
  - rewrite bool_decide_eq_false_2 by done. done.
Qed.

Lemma admit_sandbox_ok contract w s w' :
  admit_sandbox contract w = Ok s w' ->
  s = cstr_or (qx_contract_value contract (Some "principal_sandbox")) "builtin".
Proof.
  unfold admit_sandbox. intros (tr & w1 & Ht & (pr & w2 & Hp & H)%bind_ok)%bind_ok.
  destruct (Z.ltb_spec pr tr); [done|]. unfold qx_effective_sandbox_name in H.
  apply bind_ok in H as (pr' & w3 & Hp' & (tr' & w4 & Ht' & [= <- _])%bind_ok).
  assert (forall n a w5 b w6 w7 w8, qx_sandbox_rank n w5 = Ok a w6 -> qx_sandbox_rank n w7 = Ok b w8 ->
    b = a) as Hdet.
  { intros n a w5 b w6 w7 w8. unfold qx_sandbox_rank, ret, throw.
    destruct n as [n|]; [|congruence]. repeat destruct (String.eqb n _); congruence. }
  rewrite (Hdet _ _ _ _ _ _ _ Hp Hp'), (Hdet _ _ _ _ _ _ _ Ht Ht').
  rewrite (proj2 (Z.leb_le _ _)) by done. done.
Qed.

Lemma lookup_profile_ok s w p w' : qx_lookup_sandbox_profile s w = Ok p w' -> sp_name p = s.
Proof.
  unfold qx_lookup_sandbox_profile. intros H.
  destruct (String.eqb s "builtin") eqn:E1; [apply String.eqb_eq in E1 as ->; by injection H as <- _|].
  destruct (String.eqb s "restricted") eqn:E2;
    [apply String.eqb_eq in E2 as ->; by injection H as <- _|].
  destruct (String.eqb s "isolated") eqn:E3; [|done].
  apply String.eqb_eq in E3 as ->; by injection H as <- _.
Qed.


(** ** Signatures in hexadecimal *)

Lemma hex_value_char n : 0 <= n < 16 -> qx_hex_value (hex_char n) = Some n.
Proof.
  intros H. assert (forallb (fun k => bool_decide (qx_hex_value (hex_char k) = Some k))
    [0;1;2;3;4;5;6;7;8;9;10;11;12;13;14;15] = true) as Hall by (vm_compute; reflexivity).
  rewrite forallb_forall in Hall. apply (bool_decide_eq_true_1 _ (Hall n ltac:(simpl; lia))).
Qed.

Lemma nibbles b : 0 <= b < 256 -> Z.lor (Z.shiftl (b / 16) 4) (b mod 16) = b.
Proof.
  intros H. assert (forallb (fun k => Z.lor (Z.shiftl (k / 16) 4) (k mod 16) =? k)
    (seqZ 0 256) = true) as Hall by (vm_compute; reflexivity).
  rewrite forallb_forall in Hall. apply Z.eqb_eq, Hall. apply list_elem_of_In, elem_of_seqZ. lia.
Qed.

Lemma hex_encode_length bytes : String.length (hex_encode bytes) = (List.length bytes * 2)%nat.
Proof. induction bytes; simpl; lia. Qed.

(** A signature printed byte by byte in hexadecimal is decoded to the same
    bytes. *)
Lemma hex_signature_roundtrip bytes :
  Forall (fun b => 0 <= b < 256) bytes ->
  qx_hex_decode_signature (Some (hex_encode bytes)) (List.length bytes) = Some bytes.
Proof.
  intros H. unfold qx_hex_decode_signature. rewrite hex_encode_length, Nat.eqb_refl. simpl.
  induction H as [|b bytes Hb _ IH]; [done|]. cbn [hex_encode hex_decode].
  assert (0 <= b / 16 < 16) by (split; [apply Z.div_pos; lia | apply Z.div_lt_upper_bound; lia]).
  assert (0 <= b mod 16 < 16) by (apply Z.mod_pos_bound; lia).
  rewrite !hex_value_char by done. rewrite IH. simpl. rewrite nibbles by done. done.
Qed.

(** ** A concrete execution *)

Definition demo_env : Env :=
  MkEnv 5 10 (fun n => 1000000 * Z.of_nat n) (fun n => 100 + Z.of_nat n) true
    (fun a b => a =? b) 2200.

Definition crlf_lines (ls : list string) : string := cat ((fun l => l +:+ String newline "") <$> ls).

Definition demo_response : string :=
  crlf_lines ["STATUS=ok"; "TOKENS=12"; "COST=3"; "TOOL=grep"; "PRINCIPAL=runner";
    "PRINCIPAL_RUNTIME=host"; "PROVIDER=local"; "PROVIDER_KIND=loopback"; "SANDBOX=restricted";
    "PROFILE=restricted"; "ENV=minimal"; "WORKDIR=pg_qx_runtime"; "TIMEOUT_MS=2000";
    "PROCESS_LIMIT=1"; "PATH_PRESENT=false"; "RECEIPT_SCHEMA=qx.receipt.v1";
    "RECEIPT_ALG=hmac-sha256"; "RECEIPT_NONCE=submit:grep:runner"; "ATTESTATION=optional";
    "RECEIPT_SIG=0102ff"; "DETAIL=matched 4 lines"].

Definition demo_tool_env (response : string) : ToolEnv :=
  MkToolEnv (fun _ => None) (fun _ => true) (fun _ => true) (fun _ => true) (fun _ => true)
    (fun p => p) "/usr/lib/qx/bin" (Some "/data/pg_qx_runtime")
    (fun suffix now => cat ["/data/pg_qx_runtime/qx_tool_1_"; show_d now; "_1."; suffix])
    (fun _ => true) (fun _ _ => [1; 2; 255]) (fun _ _ _ => Some false)
    (fun _ => LaunchExited (Some 0) 25 (Some response)).

Definition demo_contract : string :=
  cat ["tool=grep;handler=search;tool_sandbox=builtin;principal=runner;";
       "principal_sandbox=restricted;principal_runtime=host;program=qx-tool-runner;";
       "provider=local;provider_oid=16390;provider_kind=loopback;";
       "provider_attestation=optional;receipt_schema=qx.receipt.v1;receipt_alg=hmac-sha256"].

Definition demo_provider : pg_qx_provider :=
  Mk_qx_provider 16390 "local" 2200 10 true false (Some "loopback")
    (Some "local://qhapaqxian-tool-runner") (Some "hmac-sha256") (Some "s3cret") None None None.

Definition demo_world : world :=
  set_vis (set_rows [demo_provider] empty_catalog) (empty_world 20000).

