(* ===== verification/ToolRunner.v ===== *)
(** * The external tool runner

    [src/src/bin/qhapaqxian_tool_runner/qhapaqxian_tool_runner.c]: the program
    the engine starts for a tool.  It reads a request file, the environment it
    was started with and, for containers and microVMs, a launch request; it
    runs the backend, meters the call, signs a receipt and writes a response
    file.  [main_response] is [main]: [None] is an exit status other than 0.

    The files, the environment, [docker] and [qemu] and the cryptography are
    the argument [RunnerEnv].  The Unix branches of the program are modelled. *)

From Stdlib Require Import Ascii String.
From S2P Require Import Prelude Text Numutils Types Scheduler Stat Observe SemanticLog Tables World.
From S2P Require Import Catalog Policy Backends ToolExec.
Open Scope string_scope.
Open Scope Z_scope.
Open Scope bool_scope.
Open Scope list_scope.

(** What one [waitpid(pid, &status, WNOHANG)] reports. *)
Inductive wait_result :=
  | WaitRunning
  | WaitExited (status : option Z)       (* [None]: ended by a signal *)
  | WaitFailed.

Record RunnerEnv := MkRunnerEnv {
  re_getenv : string -> cstr;
  re_getcwd : cstr;                          (* [None]: the path does not fit or is unknown *)
  re_file : string -> cstr;                  (* contents of a file that can be opened *)
  re_fork : string -> option (nat -> wait_result);  (* [sh -c command]: its polls, or no process *)
  re_file_after : string -> cstr;            (* a file once the command has ended *)
  re_can_write : string -> bool;
  re_hmac_sha256 : string -> string -> list Z;       (* key and message *)
  re_ed25519_sign : string -> string -> option (list Z)  (* signer file and message *)
}.

Record Request := MkRequest {
  rq_phase : string;
  rq_tool : string;
  rq_handler : string;
  rq_sandbox : string;
  rq_principal : string;
  rq_principal_runtime : string;
  rq_provider : string;
  rq_provider_kind : string;
  rq_provider_endpoint : string;
  rq_docker_cli : string;
  rq_docker_host : string;
  rq_container_image : string;
  rq_qemu_cli : string;
  rq_microvm_kernel : string;
  rq_microvm_initrd : string;
  rq_microvm_accel : string;
  rq_receipt_schema : string;
  rq_receipt_alg : string;
  rq_receipt_nonce : string;
  rq_receipt_key : string;
  rq_receipt_signer : string;
  rq_profile : string;
  rq_workdir : string;
  rq_task_oid : Z;
  rq_goal_length : Z;
  rq_timeout_ms : Z;
  rq_memory_kb : Z;
  rq_process_limit : Z;
  rq_input_present : bool;
  rq_path_present : bool;
  rq_require_attestation : bool;
  rq_allow_network : bool;
  rq_allow_privilege_escalation : bool;
  rq_readonly_rootfs : bool;
  rq_seccomp_mode : string;
  rq_cgroup_mode : string;
  rq_launch_request_file : string
}.

(** [strtol(s, NULL, 10)] of a 64-bit [long]. *)
Definition strtol (s : string) : Z :=
  let '(neg, t) := signed_text s in
  let '(v, _) := digits_prefix 0 t in
  if neg then Z.max (- v) (- 2 ^ 63) else Z.min v (2 ^ 63 - 1).

(** [buffer[0] != '\0' ? buffer : d] *)
Definition or_text (s d : string) : string := if String.eqb s "" then d else s.

Section Runner.
Context (R : RunnerEnv).

(** ** Reading the request *)

(** The key and value of each line; [line] holds 511 characters. *)
Fixpoint request_pairs (fuel : nat) (s : string) : list pair :=
  match fuel with
  | O => []
  | S fuel' =>
      if String.eqb s "" then []
      else
        let '(line, rest) := fgets 511 s in
        match split_char "=" line with
        | (_, None) => request_pairs fuel' rest
        | (key, Some v) => (key, upto_set line_break v) :: request_pairs fuel' rest
        end
  end.

(** [snprintf(request->field, sizeof(request->field), "%s", value)] for each
    line with the key. *)
Definition field (ps : list pair) (key : string) (size : nat) : string :=
  match last_value ps key with Some v => strlcpy size v | None => "" end.
Definition number (ps : list pair) (key : string) : Z :=
  match last_value ps key with Some v => strtol v | None => 0 end.
Definition flag (ps : list pair) (key : string) : bool := cstr_is (last_value ps key) "true".

Definition environment_number (name : string) : Z :=
  match re_getenv R name with Some v => strtol v | None => 0 end.

(** The request as the file and then [parse_sandbox_environment] leave it. *)
Definition request_of_pairs (ps : list pair) : Request :=
  {| rq_phase := field ps "PHASE" 32; rq_tool := field ps "TOOL" 128;
     rq_handler := field ps "HANDLER" 256; rq_sandbox := field ps "SANDBOX" 64;
     rq_principal := field ps "PRINCIPAL" 128;
     rq_principal_runtime := field ps "PRINCIPAL_RUNTIME" 64;
     rq_provider := field ps "PROVIDER" 128; rq_provider_kind := field ps "PROVIDER_KIND" 64;
     rq_provider_endpoint := field ps "PROVIDER_ENDPOINT" 256;
     rq_docker_cli := field ps "DOCKER_CLI" 260; rq_docker_host := field ps "DOCKER_HOST" 260;
     rq_container_image := field ps "CONTAINER_IMAGE" 128; rq_qemu_cli := field ps "QEMU_CLI" 260;
     rq_microvm_kernel := field ps "MICROVM_KERNEL" 260;
     rq_microvm_initrd := field ps "MICROVM_INITRD" 260;
     rq_microvm_accel := field ps "MICROVM_ACCEL" 32;
     rq_receipt_schema := field ps "RECEIPT_SCHEMA" 64; rq_receipt_alg := field ps "RECEIPT_ALG" 64;
     rq_receipt_nonce := field ps "RECEIPT_NONCE" 256; rq_receipt_key := field ps "RECEIPT_KEY" 256;
     rq_receipt_signer := field ps "RECEIPT_SIGNER" 260;
     rq_profile := match re_getenv R "QX_SANDBOX_PROFILE" with Some v => strlcpy 64 v | None => "" end;
     rq_workdir := match re_getcwd R with Some d => d | None => "<unknown>" end;
     rq_task_oid := number ps "TASK_OID"; rq_goal_length := number ps "GOAL_LENGTH";
     rq_timeout_ms := environment_number "QX_SANDBOX_TIMEOUT_MS";
     rq_memory_kb := environment_number "QX_SANDBOX_MEMORY_KB";
     rq_process_limit := environment_number "QX_SANDBOX_PROCESS_LIMIT";
     rq_input_present := flag ps "INPUT_PRESENT";
     rq_path_present := negb (is_blank (re_getenv R "PATH"));
     rq_require_attestation := flag ps "REQUIRE_ATTESTATION";
     rq_allow_network := false; rq_allow_privilege_escalation := false; rq_readonly_rootfs := true;
     rq_seccomp_mode := ""; rq_cgroup_mode := "";
     rq_launch_request_file := field ps "LAUNCH_REQUEST_FILE" 260 |}.

(** ** The launch request *)

(** The keys and values of one line, between semicolons; the line break stays
    in the last value. *)
Definition line_pairs (line : string) : list pair :=
  omap (fun part => match split_char "=" part with
                    | (key, Some value) => Some (key, value)
                    | (_, None) => None
                    end) (fields ";" line).

Fixpoint launch_pairs (fuel : nat) (s : string) : list pair :=
  match fuel with
  | O => []
  | S fuel' =>
      if String.eqb s "" then []
      else let '(line, rest) := fgets 2047 s in line_pairs line ++ launch_pairs fuel' rest
  end.

(** The first value that is not empty. *)
Definition first_nonempty (ps : list pair) (key : string) (size : nat) (old : string) : string :=
  fold_left (fun acc p => if String.eqb (fst p) key && String.eqb acc ""
                          then strlcpy size (snd p) else acc) ps old.

Definition launch_number (ps : list pair) (key : string) (old : Z) : Z :=
  match last_value ps key with Some v => strtol v | None => old end.
Definition launch_flag (ps : list pair) (key : string) (old : bool) : bool :=
  match last_value ps key with Some v => String.eqb v "true" | None => old end.

Definition apply_launch_pairs (ps : list pair) (r : Request) : Request :=
  {| rq_phase := rq_phase r; rq_tool := rq_tool r; rq_handler := rq_handler r;
     rq_sandbox := rq_sandbox r; rq_principal := rq_principal r;
     rq_principal_runtime := rq_principal_runtime r; rq_provider := rq_provider r;
     rq_provider_kind := rq_provider_kind r; rq_provider_endpoint := rq_provider_endpoint r;
     rq_docker_cli := rq_docker_cli r; rq_docker_host := rq_docker_host r;
     rq_container_image := first_nonempty ps "image_ref" 128 (rq_container_image r);
     rq_qemu_cli := rq_qemu_cli r; rq_microvm_kernel := rq_microvm_kernel r;
     rq_microvm_initrd := rq_microvm_initrd r; rq_microvm_accel := rq_microvm_accel r;
     rq_receipt_schema := rq_receipt_schema r; rq_receipt_alg := rq_receipt_alg r;
     rq_receipt_nonce := rq_receipt_nonce r; rq_receipt_key := rq_receipt_key r;
     rq_receipt_signer := rq_receipt_signer r; rq_profile := rq_profile r;
     rq_workdir := rq_workdir r; rq_task_oid := rq_task_oid r; rq_goal_length := rq_goal_length r;
     rq_timeout_ms := launch_number ps "timeout_ms" (rq_timeout_ms r);
     rq_memory_kb := launch_number ps "memory_kb" (rq_memory_kb r);
     rq_process_limit := launch_number ps "process_limit" (rq_process_limit r);
     rq_input_present := rq_input_present r; rq_path_present := rq_path_present r;
     rq_require_attestation := rq_require_attestation r;
     rq_allow_network := launch_flag ps "allow_network" (rq_allow_network r);
     rq_allow_privilege_escalation :=
       launch_flag ps "allow_privilege_escalation" (rq_allow_privilege_escalation r);
     rq_readonly_rootfs := launch_flag ps "readonly_rootfs" (rq_readonly_rootfs r);
     rq_seccomp_mode := first_nonempty ps "seccomp_mode" 64 (rq_seccomp_mode r);
     rq_cgroup_mode := first_nonempty ps "cgroup_mode" 64 (rq_cgroup_mode r);
     rq_launch_request_file := rq_launch_request_file r |}.

(** A file that cannot be opened changes nothing. *)
Definition parse_launch_request_file (path : string) (r : Request) : Request :=
  if String.eqb path "" then r
  else match re_file R path with
       | None => r
       | Some s => apply_launch_pairs (launch_pairs (S (String.length s)) s) r
       end.

(** The file the request names, or else the one the environment names. *)
Definition apply_launch_request (r : Request) : Request :=
  if negb (String.eqb (rq_launch_request_file r) "")
  then parse_launch_request_file (rq_launch_request_file r) r
  else match re_getenv R "LAUNCH_REQUEST_FILE" with
       | None => r
       | Some path => parse_launch_request_file (strlcpy 260 path) r
       end.

(** Without a tool and a principal there is nothing to do. *)
Definition parse_request (path : string) : option Request :=
  match re_file R path with
  | None => None
  | Some s =>
      let request := apply_launch_request (request_of_pairs (request_pairs (S (String.length s)) s)) in
      if negb (String.eqb (rq_tool request) "") && negb (String.eqb (rq_principal request) "")
      then Some request else None
  end.

(** ** Running a command *)

(** The polls, 100 ms apart, while [elapsed_ms <= timeout_ms]. *)
Fixpoint supervise (polls : nat -> wait_result) (fuel : nat) (i : nat) (timeout_ms : Z) : option Z :=
  match fuel with
  | O => None
  | S fuel' =>
      if timeout_ms <? 100 * Z.of_nat i then None       (* killed *)
      else match polls i with
           | WaitExited status => Some (default (-1) status)
           | WaitFailed => None
           | WaitRunning => supervise polls fuel' (S i) timeout_ms
           end
  end.

Definition supervise_fuel (timeout_ms : Z) : nat := Z.to_nat (timeout_ms / 100 + 2).

(** The exit status; [None]: not started, not waited for, or killed. *)
Definition run_supervised_command (command : string) (timeout_ms : Z) : option Z :=
  match re_fork R command with
  | None => None
  | Some polls => supervise polls (supervise_fuel timeout_ms) 0 timeout_ms
  end.

Definition effective_timeout_ms (r : Request) : Z :=
  if 0 <? rq_timeout_ms r then rq_timeout_ms r else 30000.

(** ** Containers *)

Definition container_image_ref : string := text_or (re_getenv R "QX_CONTAINER_IMAGE") "alpine:3.20".

Definition container_image (r : Request) : string := or_text (rq_container_image r) container_image_ref.

Definition container_id (r : Request) : string :=
  strlcpy 128 (cat ["qx-container-"; show_d (rq_task_oid r)]).

Definition container_command (r : Request) : string :=
  let pids_limit :=
    strlcpy 32 (show_d (if 0 <? rq_process_limit r then rq_process_limit r else 1)) in
  let memory_limit :=
    strlcpy 64 (cat [show_d (if 0 <? rq_memory_kb r then rq_memory_kb r else 65536); "k"]) in
  let seccomp_opt :=
    if negb (String.eqb (rq_seccomp_mode r) "") then
      if String.eqb (rq_seccomp_mode r) "unconfined" then "seccomp=unconfined" else "no-new-privileges"
    else if rq_allow_privilege_escalation r then "seccomp=unconfined" else "no-new-privileges" in
  let readonly_flag := if rq_readonly_rootfs r then "--read-only " else "" in
  let cgroup_opt := if String.eqb (rq_cgroup_mode r) "host"
                    then "--cgroupns host " else "--cgroupns private " in
  strlcpy 1024 (cat
    [quoted (or_text (rq_docker_cli r) "docker"); " run --rm --name "; container_id r;
     " --network "; if rq_allow_network r then "bridge" else "none"; " "; readonly_flag;
     "--cap-drop ALL --security-opt "; seccomp_opt; " "; cgroup_opt; "--pids-limit "; pids_limit;
     " --memory "; memory_limit; " "; container_image r; " true"]).

(** What every detail starts with. *)
Definition call_text (r : Request) : string :=
  cat ["tool "; rq_tool r; " via "; rq_principal r; " for "; or_text (rq_phase r) "submit";
       " phase on task "; show_d (rq_task_oid r)].

(** The detail of a run that succeeded. *)
Definition run_real_container_backend (r : Request) : cstr :=
  if bool_decide (run_supervised_command (container_command r) (effective_timeout_ms r) = Some 0)
  then Some (strlcpy 2048 (cat [call_text r; ";backend_launch=docker;container_id="; container_id r;
                                ";container_image="; container_image r]))
  else None.

(** ** MicroVMs *)

Definition microvm_qemu_ref : string := text_or (re_getenv R "QX_MICROVM_QEMU") "qemu-system-x86_64".

Fixpoint lines_contain (fuel : nat) (s marker : string) : bool :=
  match fuel with
  | O => false
  | S fuel' =>
      if String.eqb s "" then false
      else let '(line, rest) := fgets 1023 s in
           if contains line marker then true else lines_contain fuel' rest marker
  end.

Definition file_contains_marker (path marker : string) : bool :=
  if String.eqb path "" || String.eqb marker "" then false
  else match re_file_after R path with
       | None => false
       | Some s => lines_contain (S (String.length s)) s marker
       end.

(** [buffer[0] != '\0' ? buffer : getenv(name)] *)
Definition or_getenv (s name : string) : cstr :=
  if String.eqb s "" then re_getenv R name else Some s.

Definition microvm_log (r : Request) (what : string) : string :=
  let workdir := if negb (String.eqb (rq_workdir r) "") && negb (String.eqb (rq_workdir r) "<unknown>")
                 then rq_workdir r else "." in
  strlcpy 512 (cat [workdir; "/qx-microvm-"; show_d (rq_task_oid r); what]).

Definition microvm_command (r : Request) (accel kernel initrd : string) : string :=
  let memory_mb :=
    Z.max 1 (if 0 <? rq_memory_kb r then Z.quot (int64 (rq_memory_kb r + 1023)) 1024 else 128) in
  strlcpy 2048 (cat
    [quoted (or_text (rq_qemu_cli r) microvm_qemu_ref); " -M microvm -accel "; accel;
     " -cpu qemu64 -m "; show_d memory_mb; " -nodefaults -no-user-config ";
     "-nographic -serial file:"; quoted (microvm_log r "-serial.log"); " -D ";
     quoted (microvm_log r "-qemu.log"); " -d guest_errors ";
     "-no-reboot -kernel "; quoted kernel; " -initrd "; quoted initrd; " ";
     "-append "; quoted "console=ttyS0 rdinit=/init reboot=t loglevel=7"]).

Definition vm_id (r : Request) : string := strlcpy 128 (cat ["qx-microvm-"; show_d (rq_task_oid r)]).

Definition run_real_microvm_backend (r : Request) : cstr :=
  let accel := text_or (or_getenv (rq_microvm_accel r) "QX_MICROVM_ACCEL") "tcg" in
  match or_getenv (rq_microvm_kernel r) "QX_MICROVM_KERNEL",
        or_getenv (rq_microvm_initrd r) "QX_MICROVM_INITRD" with
  | Some kernel, Some initrd =>
      if String.eqb kernel "" || String.eqb initrd "" then None
      else if negb (bool_decide (run_supervised_command (microvm_command r accel kernel initrd)
                                   (effective_timeout_ms r) = Some 0)) then None
      else if negb (file_contains_marker (microvm_log r "-serial.log") "QX-MICROVM-BOOT-OK") then None
      else Some (strlcpy 2048 (cat [call_text r; ";backend_launch=qemu;vm_id="; vm_id r;
                                    ";microvm_accel="; accel; ";microvm_kernel="; kernel]))
  | _, _ => None
  end.

(** ** The receipt *)

(** The text after the last slash or backslash. *)
Fixpoint after_last_separator (s best : string) : string :=
  match s with
  | EmptyString => best
  | String c t =>
      if Ascii.eqb c "/" || Ascii.eqb c "\" then after_last_separator t t
      else after_last_separator t best
  end.
Definition path_basename (path : string) : string :=
  if String.eqb path "" then "<unknown>" else after_last_separator path path.

Definition receipt_attestation_mode (r : Request) : string :=
  if negb (rq_require_attestation r) then "optional"
  else if String.eqb (rq_provider_kind r) "microvm" then "microvm_receipt_verified"
  else if String.eqb (rq_provider_kind r) "container" then "container_receipt_verified"
  else if String.eqb (rq_provider_kind r) "remote" then "remote_broker_verified"
  else "loopback_verified".

(** A buffer of [destlen] bytes, its terminator included. *)
Definition encode_signature_hex (signature : list Z) (destlen : nat) : cstr :=
  if (destlen <? length signature * 2 + 1)%nat then None else Some (hex_encode signature).

Definition QX_RECEIPT_SIG_HEX_MAXLEN : nat := 64 * 2 + 1.

Definition compute_hmac_receipt_signature (receipt_key payload : string) : cstr :=
  if String.eqb receipt_key "" then None
  else encode_signature_hex (re_hmac_sha256 R receipt_key payload) QX_RECEIPT_SIG_HEX_MAXLEN.

Definition compute_ed25519_receipt_signature (signer_path payload : string) : cstr :=
  if String.eqb signer_path "" then None
  else match re_ed25519_sign R signer_path payload with
       | None => None
       | Some signature => encode_signature_hex signature QX_RECEIPT_SIG_HEX_MAXLEN
       end.

Definition compute_receipt_signature (r : Request) (payload : string) : cstr :=
  if String.eqb (or_text (rq_receipt_alg r) "hmac-sha256") "ed25519"
  then compute_ed25519_receipt_signature (rq_receipt_signer r) payload
  else compute_hmac_receipt_signature (rq_receipt_key r) payload.

Definition environment_mode (r : Request) : string :=
  if rq_path_present r then "ambient" else "minimal".

Definition build_receipt_payload (r : Request) (environment_mode workdir_name attestation_mode
    receipt_schema receipt_alg : string) (tokens cost : Z) (detail : string) : string :=
  strlcpy 4096 (cat
    ["phase="; or_text (rq_phase r) "submit"; ";task="; show_d (rq_task_oid r);
     ";tool="; or_text (rq_tool r) "<unknown>"; ";principal="; or_text (rq_principal r) "<unknown>";
     ";principal_runtime="; or_text (rq_principal_runtime r) "host";
     ";provider="; or_text (rq_provider r) "<unknown>";
     ";provider_kind="; or_text (rq_provider_kind r) "loopback";
     ";provider_endpoint="; or_text (rq_provider_endpoint r) "local://qhapaqxian-tool-runner";
     ";sandbox="; or_text (rq_sandbox r) "builtin";
     ";profile="; or_text (rq_profile r) (rq_sandbox r);
     ";env="; environment_mode; ";workdir="; workdir_name;
     ";timeout_ms="; show_d (rq_timeout_ms r); ";process_limit="; show_d (rq_process_limit r);
     ";path_present="; show_bool (rq_path_present r);
     ";receipt_schema="; receipt_schema; ";receipt_alg="; receipt_alg;
     ";receipt_nonce="; or_text (rq_receipt_nonce r) "missing";
     ";attestation="; attestation_mode; ";tokens="; show_d tokens; ";cost="; show_d cost;
     ";detail="; detail]).

(** ** Metering *)

Definition sandbox_bonus (sandbox : string) : Z :=
  if String.eqb sandbox "isolated" then 13
  else if String.eqb sandbox "restricted" then 7 else 2.

Definition strlen (s : string) : Z := int32 (Z.of_nat (String.length s)).

Definition metered_tokens (r : Request) : Z :=
  let phase_bonus := if String.eqb (rq_phase r) "resume" then 11 else 5 in
  int32 (int32 (rq_goal_length r) + strlen (rq_tool r) + strlen (rq_handler r) +
         strlen (rq_principal r) + (if rq_input_present r then 11 else 3) +
         sandbox_bonus (rq_sandbox r) + phase_bonus).

Definition metered_cost (r : Request) (tokens : Z) : Z :=
  Z.max 1 (Z.quot tokens 5 + (if String.eqb (rq_phase r) "resume" then 4 else 2)).

(** ** [main] *)

(** The detail and the identifier of the instance that ran, if one did. *)
Definition run_backend (r : Request) : option (string * cstr * cstr) :=
  if String.eqb (rq_provider_kind r) "microvm" && String.eqb (rq_principal_runtime r) "microvm" then
    match run_real_microvm_backend r with Some d => Some (d, None, Some (vm_id r)) | None => None end
  else if String.eqb (rq_provider_kind r) "container" &&
          String.eqb (rq_principal_runtime r) "container" then
    match run_real_container_backend r with
    | Some d => Some (d, Some (container_id r), None)
    | None => None
    end
  else Some (strlcpy 2048 (call_text r), None, None).

Definition instance_pair (key : string) (id : cstr) : list pair :=
  match id with Some i => if String.eqb i "" then [] else [(key, i)] | None => [] end.

Definition response_pairs (r : Request) (receipt_schema receipt_alg attestation_mode signature : string)
    (tokens cost : Z) (detail : string) (container vm : cstr) : list pair :=
  [("STATUS", "ok"); ("TOOL", rq_tool r); ("PRINCIPAL", rq_principal r);
   ("PRINCIPAL_RUNTIME", or_text (rq_principal_runtime r) "host"); ("PROVIDER", rq_provider r);
   ("PROVIDER_KIND", or_text (rq_provider_kind r) "loopback"); ("SANDBOX", rq_sandbox r);
   ("PROFILE", or_text (rq_profile r) (rq_sandbox r)); ("ENV", environment_mode r);
   ("WORKDIR", path_basename (rq_workdir r)); ("TIMEOUT_MS", show_d (rq_timeout_ms r));
   ("PROCESS_LIMIT", show_d (rq_process_limit r)); ("PATH_PRESENT", show_bool (rq_path_present r));
   ("RECEIPT_SCHEMA", receipt_schema); ("RECEIPT_ALG", receipt_alg);
   ("RECEIPT_NONCE", or_text (rq_receipt_nonce r) "missing"); ("RECEIPT_SIG", signature);
   ("ATTESTATION", attestation_mode); ("TOKENS", show_d tokens); ("COST", show_d cost)] ++
  instance_pair "CONTAINER_ID" container ++ instance_pair "VM_ID" vm ++ [("DETAIL", detail)].

(** The text of the response for a parsed request. *)
Definition respond (r : Request) : cstr :=
  let tokens := metered_tokens r in
  let cost := metered_cost r tokens in
  let receipt_schema := or_text (rq_receipt_schema r) "qx.receipt.v1" in
  let receipt_alg := or_text (rq_receipt_alg r) "hmac-sha256" in
  let attestation_mode := receipt_attestation_mode r in
  match run_backend r with
  | None => None
  | Some (detail, container, vm) =>
      let payload := build_receipt_payload r (environment_mode r) (path_basename (rq_workdir r))
                       attestation_mode receipt_schema receipt_alg tokens cost detail in
      match compute_receipt_signature r payload with
      | None => None
      | Some signature =>
          Some (pairs_text (response_pairs r receipt_schema receipt_alg attestation_mode signature
                              tokens cost detail container vm))
      end
  end.

(** The command line: the last of each option counts. *)
Fixpoint parse_arguments (argv : list string) (paths : cstr * cstr) : cstr * cstr :=
  match argv with
  | a :: ((b :: rest) as tail) =>
      if String.eqb a "--request-file" then parse_arguments rest (Some b, snd paths)
      else if String.eqb a "--response-file" then parse_arguments rest (fst paths, Some b)
      else parse_arguments tail paths
  | _ => paths
  end.

(** The response file [main] writes and its contents; [None]: exit status 1. *)
Definition main_response (argv : list string) : option (string * string) :=
  match parse_arguments argv (None, None) with
  | (Some request_path, Some response_path) =>
      match parse_request request_path with
      | None => None
      | Some request =>
          match respond request with
          | None => None
          | Some text => if re_can_write R response_path then Some (response_path, text) else None
          end
      end
  | _ => None
  end.

End Runner.
