(* ===== verification/Envelope.v ===== *)
(** * Scheduler envelopes and payload texts of the runtime

    The helpers of [src/src/backend/qx/runtime/qx_runtime.c] that the task
    lifecycle, the recovery hooks and the scheduler workers share: choosing the
    contract of a phase, filling the scheduler envelope of an attempt, and the
    texts that go into events and traces. *)

From Stdlib Require Import Ascii String.
From S2P Require Import Prelude Text Types Scheduler Stat Observe SemanticLog Tables World.
From S2P Require Import Catalog Recovery Policy Backends ToolExec.
Open Scope string_scope.
Open Scope Z_scope.
Open Scope bool_scope.
Open Scope list_scope.

(** ** Requests *)

(** The list of authorized tool contracts holds string nodes. *)
Record QxRuntimeTaskRequest := MkTaskRequest {
  tr_sessionoid : Oid;
  tr_agentoid : Oid;
  tr_identityoid : Oid;
  tr_namespace_policy_oid : Oid;
  tr_ownerid : Oid;
  tr_task_name : cstr;
  tr_identity_name : cstr;
  tr_namespace_policy_name : cstr;
  tr_goal : cstr;
  tr_input : option pg_node;
  tr_priority : cstr;
  tr_authorized_tools : list string;
  tr_authorized_tool_oids : list Oid;
  tr_submit_contract : cstr;
  tr_resume_contract : cstr;
  tr_budget_tokens : Z;
  tr_budget_cost : Z;
  tr_estimated_tokens : Z;
  tr_estimated_cost : Z;
  tr_authorized_tool_tokens : Z;
  tr_authorized_tool_cost : Z
}.

Definition first_or_last {A} (last_one : bool) (l : list A) : option A :=
  if last_one then last l else head l.

Definition qx_runtime_request_phase_contract (request : QxRuntimeTaskRequest)
    (prefer_resume : bool) : cstr :=
  let selected_contract :=
    if prefer_resume then tr_resume_contract request else tr_submit_contract request in
  if negb (is_blank selected_contract) then selected_contract
  else first_or_last prefer_resume (tr_authorized_tools request).

(** A column with a list node; an empty list is stored as NULL. *)
Definition list_node (l : list string) : option pg_node :=
  match l with [] => None | _ => Some (NList (NString <$> l)) end.

Definition qx_runtime_fill_task_insert_params (request : QxRuntimeTaskRequest) :
    QxCatalogTaskInsertParams :=
  {| tp_sessionoid := tr_sessionoid request; tp_agentoid := tr_agentoid request;
     tp_identityoid := tr_identityoid request;
     tp_namespace_policy_oid := tr_namespace_policy_oid request;
     tp_ownerid := tr_ownerid request; tp_task_name := tr_task_name request;
     tp_goal := tr_goal request; tp_input := tr_input request;
     tp_priority := tr_priority request;
     tp_authorized_tools := list_node (tr_authorized_tools request);
     tp_submit_contract := qx_runtime_request_phase_contract request false;
     tp_resume_contract := qx_runtime_request_phase_contract request true;
     tp_budget_tokens := tr_budget_tokens request; tp_budget_cost := tr_budget_cost request;
     tp_authorized_tool_tokens := tr_authorized_tool_tokens request;
     tp_authorized_tool_cost := tr_authorized_tool_cost request;
     tp_estimated_tokens := tr_estimated_tokens request;
     tp_estimated_cost := tr_estimated_cost request |}.

(** ** Contracts of stored tasks *)

Definition qx_parse_task_authorized_contracts (serialized : option pg_node) : M (list pg_node) :=
  match serialized with
  | None => ret []
  | Some (NList elems) => ret elems
  | Some _ => elog_error "QhapaqXian authorized tool payload was not a List"
  end.

(** [strVal] of a node that is not a string is undefined in C; here it stops. *)
Definition strVal (node : pg_node) : M string :=
  match node with
  | NString s => ret s
  | _ => elog_error "node is not a String"
  end.

Definition qx_runtime_task_phase_contract (task : QxCatalogTaskInfo) (prefer_resume : bool) : M cstr :=
  let selected_contract :=
    if prefer_resume then qxtaskresumecontract (ti_row task)
    else qxtasksubmitcontract (ti_row task) in
  if negb (is_blank selected_contract) then ret selected_contract
  else
    let* authorized_contracts :=
      qx_parse_task_authorized_contracts (qxtaskauthorizedtools (ti_row task)) in
    match first_or_last prefer_resume authorized_contracts with
    | None => ret None
    | Some node => let* s := strVal node in ret (Some s)
    end.

Definition qx_runtime_recovery_selected_contract (task : QxCatalogTaskInfo) (prefer_resume : bool) :
    M cstr :=
  qx_runtime_task_phase_contract task prefer_resume.

Definition qx_runtime_recovery_checkpoint_label (c : catalog) (checkpointoid : Oid) : cstr :=
  if negb (OidIsValid checkpointoid) then None
  else match QxCatalogLookupCheckpointByOid c checkpointoid with
       | None => None
       | Some checkpoint => qxcheckpointlabel checkpoint
       end.

(** ** The scheduler envelope of an attempt *)

Definition QX_SCHEDULER_MAX_RETRIES : Z := 3.
Definition qx_runtime_scheduler_max_retries : Z := QX_SCHEDULER_MAX_RETRIES.

(** The four fields a contract sets; without a contract they are left alone. *)
Definition qx_scheduler_apply_contract (contract : cstr) (e : QxSchedulerTaskEnvelope) :
    QxSchedulerTaskEnvelope :=
  match contract with
  | None => e
  | Some _ =>
      let provider_kind := qx_contract_value contract (Some "provider_kind") in
      {| e_ownerid := e_ownerid e; e_sessionoid := e_sessionoid e; e_agentoid := e_agentoid e;
         e_identityoid := e_identityoid e; e_namespace_policy_oid := e_namespace_policy_oid e;
         e_taskoid := e_taskoid e; e_attemptoid := e_attemptoid e;
         e_task_name := e_task_name e; e_agent_name := e_agent_name e;
         e_identity_name := e_identity_name e;
         e_namespace_policy_name := e_namespace_policy_name e; e_priority := e_priority e;
         e_queue_name := e_queue_name e;
         e_principal_name := qx_contract_value contract (Some "principal");
         e_provider_name := qx_contract_value contract (Some "provider");
         e_provider_kind := provider_kind;
         e_principal_runtime :=
           match qx_contract_value contract (Some "principal_runtime") with
           | Some runtime => Some runtime
           | None => Some (qx_default_runtime_for_provider_kind provider_kind)
           end;
         e_checkpoint_label := e_checkpoint_label e; e_resume_label := e_resume_label e;
         e_resumable := e_resumable e; e_checkpointable := e_checkpointable e;
         e_urgent := e_urgent e; e_requires_heartbeat := e_requires_heartbeat e;
         e_is_retry := e_is_retry e; e_budget_tokens := e_budget_tokens e;
         e_budget_cost := e_budget_cost e; e_estimated_tokens := e_estimated_tokens e;
         e_estimated_cost := e_estimated_cost e;
         e_heartbeat_interval_ms := e_heartbeat_interval_ms e;
         e_lease_ttl_ms := e_lease_ttl_ms e; e_retry_count := e_retry_count e;
         e_max_retries := e_max_retries e |}
  end.

Definition set_envelope_times (interval ttl : Z) (e : QxSchedulerTaskEnvelope) :
    QxSchedulerTaskEnvelope :=
  {| e_ownerid := e_ownerid e; e_sessionoid := e_sessionoid e; e_agentoid := e_agentoid e;
     e_identityoid := e_identityoid e; e_namespace_policy_oid := e_namespace_policy_oid e;
     e_taskoid := e_taskoid e; e_attemptoid := e_attemptoid e; e_queue_name := e_queue_name e;
     e_task_name := e_task_name e; e_agent_name := e_agent_name e;
     e_identity_name := e_identity_name e; e_namespace_policy_name := e_namespace_policy_name e;
     e_principal_name := e_principal_name e; e_provider_name := e_provider_name e;
     e_provider_kind := e_provider_kind e; e_principal_runtime := e_principal_runtime e;
     e_priority := e_priority e; e_checkpoint_label := e_checkpoint_label e;
     e_resume_label := e_resume_label e; e_resumable := e_resumable e;
     e_checkpointable := e_checkpointable e; e_urgent := e_urgent e;
     e_requires_heartbeat := e_requires_heartbeat e; e_is_retry := e_is_retry e;
     e_budget_tokens := e_budget_tokens e; e_budget_cost := e_budget_cost e;
     e_estimated_tokens := e_estimated_tokens e; e_estimated_cost := e_estimated_cost e;
     e_retry_count := e_retry_count e; e_max_retries := e_max_retries e;
     e_heartbeat_interval_ms := interval; e_lease_ttl_ms := ttl |}.

Definition qx_scheduler_fill_envelope
    (ownerid sessionoid agentoid identityoid namespace_policy_oid taskoid attemptoid : Oid)
    (task_name agent_name identity_name namespace_policy_name priority checkpoint_label
     resume_label : cstr)
    (resumable checkpointable is_retry : bool)
    (budget_tokens budget_cost estimated_tokens estimated_cost retry_count : Z)
    (contract : cstr) : QxSchedulerTaskEnvelope :=
  let effective_priority := Some (qx_effective_priority_name priority) in
  let policy := Some (qx_safe_runtime_text namespace_policy_name) in
  let agent := Some (qx_safe_runtime_text agent_name) in
  let e := qx_scheduler_apply_contract contract
    {| e_ownerid := ownerid; e_sessionoid := sessionoid; e_agentoid := agentoid;
       e_identityoid := identityoid; e_namespace_policy_oid := namespace_policy_oid;
       e_taskoid := taskoid; e_attemptoid := attemptoid;
       e_queue_name := Some (QxSchedulerBuildQueueKey policy effective_priority agent);
       e_task_name := Some (qx_safe_runtime_text task_name);
       e_agent_name := agent;
       e_identity_name := Some (qx_safe_runtime_text identity_name);
       e_namespace_policy_name := policy;
       e_principal_name := None; e_provider_name := None; e_provider_kind := None;
       e_principal_runtime := None; e_priority := effective_priority;
       e_checkpoint_label := checkpoint_label; e_resume_label := resume_label;
       e_resumable := resumable; e_checkpointable := checkpointable;
       e_urgent := 80 <=? QxSchedulerPriorityWeight effective_priority;
       e_requires_heartbeat := true; e_is_retry := is_retry;
       e_budget_tokens := budget_tokens; e_budget_cost := budget_cost;
       e_estimated_tokens := estimated_tokens; e_estimated_cost := estimated_cost;
       e_retry_count := retry_count; e_max_retries := qx_runtime_scheduler_max_retries;
       e_heartbeat_interval_ms := 0; e_lease_ttl_ms := 0 |} in
  set_envelope_times (QxSchedulerDefaultHeartbeatIntervalMs (Some e))
    (QxSchedulerDefaultLeaseTtlMs (Some e)) e.

Definition qx_runtime_fill_recovery_scheduler_envelope (task : QxCatalogTaskInfo) (attemptoid : Oid)
    (retry_count : Z) (checkpoint_label resume_label : cstr)
    (resumable checkpointable is_retry : bool) (contract : cstr) : QxSchedulerTaskEnvelope :=
  let t := ti_row task in
  qx_scheduler_fill_envelope (qxtaskowner t) (qxtasksessionid t) (qxtaskagentid t)
    (qxtaskidentityid t) (qxtasknamespacepolicyid t) (task_oid t) attemptoid
    (qxtaskname t) (ti_agent_name task) (ti_identity_name task) (ti_policy_name task)
    (qxtaskpriority t) checkpoint_label resume_label resumable checkpointable is_retry
    (qxtaskbudgettokens t) (qxtaskbudgetcost t) (qxtaskestimatedtokens t) (qxtaskestimatedcost t)
    retry_count contract.

(** Two assignments the runtime makes to a fresh queue snapshot. *)
Definition set_queue_kind (kind : QxSchedulerQueueKind) (retry_count : Z)
    (q : QxSchedulerQueueSnapshot) : QxSchedulerQueueSnapshot :=
  {| q_queueoid := q_queueoid q; q_ownerid := q_ownerid q;
     q_namespace_policy_oid := q_namespace_policy_oid q; q_agentoid := q_agentoid q;
     q_sessionoid := q_sessionoid q; q_taskoid := q_taskoid q; q_attemptoid := q_attemptoid q;
     q_queue_kind := kind; q_queue_name := q_queue_name q; q_agent_name := q_agent_name q;
     q_identity_name := q_identity_name q; q_namespace_policy_name := q_namespace_policy_name q;
     q_priority := q_priority q; q_principal_name := q_principal_name q;
     q_provider_name := q_provider_name q; q_provider_kind := q_provider_kind q;
     q_principal_runtime := q_principal_runtime q; q_runnable_count := q_runnable_count q;
     q_leased_count := q_leased_count q; q_blocked_count := q_blocked_count q;
     q_retry_count := retry_count; q_enqueued_at := q_enqueued_at q;
     q_eligible_at := q_eligible_at q; q_updated_at := q_updated_at q |}.

(** The heartbeat of a reclaimed lease. *)
Definition set_heartbeat_missed (lag_ms : Z) (h : QxSchedulerHeartbeatSnapshot) :
    QxSchedulerHeartbeatSnapshot :=
  {| h_heartbeatoid := h_heartbeatoid h; h_leaseoid := h_leaseoid h; h_ownerid := h_ownerid h;
     h_workeroid := h_workeroid h; h_sessionoid := h_sessionoid h; h_taskoid := h_taskoid h;
     h_attemptoid := h_attemptoid h; h_state := QX_SCHEDULER_HEARTBEAT_MISSED;
     h_worker_name := h_worker_name h; h_queue_name := h_queue_name h;
     h_principal_runtime := h_principal_runtime h; h_provider_kind := h_provider_kind h;
     h_receipt_mode := h_receipt_mode h; h_lag_ms := lag_ms; h_observed_at := h_observed_at h;
     h_expected_before := h_expected_before h; h_stale := true |}.

Section WithEnv.
Context (E : Env).

(** ** Snapshots taken now *)

Definition queue_snapshot_now (e : QxSchedulerTaskEnvelope) : M QxSchedulerQueueSnapshot :=
  let* now := GetCurrentTimestamp E in ret (queue_snapshot_of now e).
Definition lease_snapshot_now (e : QxSchedulerTaskEnvelope) (workeroid : Oid) (worker_name : cstr) :
    M QxSchedulerLeaseSnapshot :=
  let* now := GetCurrentTimestamp E in ret (lease_snapshot_of now e workeroid worker_name).
Definition renew_lease_now (l : QxSchedulerLeaseSnapshot) (lease_ttl_ms : Z) :
    M QxSchedulerLeaseSnapshot :=
  let* now := GetCurrentTimestamp E in ret (renew_lease_of now l lease_ttl_ms).
Definition release_lease_now (l : QxSchedulerLeaseSnapshot) (needs_recovery : bool) :
    M QxSchedulerLeaseSnapshot :=
  let* now := GetCurrentTimestamp E in ret (release_lease_of now l needs_recovery).
Definition heartbeat_now (l : QxSchedulerLeaseSnapshot) : M QxSchedulerHeartbeatSnapshot :=
  let* now := GetCurrentTimestamp E in ret (heartbeat_of_lease now l).
Definition finalize_heartbeat_now (l : QxSchedulerLeaseSnapshot) (receipt_mode : cstr) :
    M QxSchedulerHeartbeatSnapshot :=
  let* now := GetCurrentTimestamp E in
  let* now' := GetCurrentTimestamp E in
  ret (finalize_heartbeat_of now now' l receipt_mode).

(** ** Payload texts *)

Definition qx_scheduler_append_runtime_payload (base_payload : cstr) (e : QxSchedulerTaskEnvelope)
    (include_lease : bool) : M string :=
  if negb (QxSchedulerRuntimeContractIsValid (Some e)) then
    throw ERRCODE_OBJECT_NOT_IN_PREREQUISITE_STATE
      "scheduler contract is incomplete for runtime admission"
      (Some "Stage 26 admission now requires a valid scheduler envelope before execution proceeds.")
  else
    let* queue_snapshot := queue_snapshot_now e in
    let* leased :=
      if include_lease then
        let* lease := lease_snapshot_now e InvalidOid (Some "embedded-runtime") in
        let* heartbeat := heartbeat_now lease in
        ret (Some (lease, heartbeat))
      else ret None in
    let base := cat
      [cstr_or base_payload "";
       ";scheduler_queue="; qx_safe_runtime_text (q_queue_name queue_snapshot);
       ";scheduler_queue_kind="; show_d (queue_kind_code (q_queue_kind queue_snapshot));
       ";scheduler_priority_weight="; show_d (QxSchedulerPriorityWeight (e_priority e));
       ";scheduler_runtime="; qx_safe_runtime_text (e_principal_runtime e);
       ";scheduler_provider="; qx_safe_runtime_text (e_provider_name e);
       ";scheduler_provider_kind="; qx_safe_runtime_text (e_provider_kind e);
       ";scheduler_resumable="; qx_bool_literal (e_resumable e);
       ";scheduler_checkpointable="; qx_bool_literal (e_checkpointable e);
       ";scheduler_urgent="; qx_bool_literal (e_urgent e);
       ";scheduler_retry="; show_d (e_retry_count e); "/"; show_d (e_max_retries e);
       ";scheduler_heartbeat_ms="; show_d (e_heartbeat_interval_ms e);
       ";scheduler_lease_ttl_ms="; show_d (e_lease_ttl_ms e);
       match e_checkpoint_label e with
       | Some _ => cat [";scheduler_checkpoint="; qx_safe_runtime_text (e_checkpoint_label e)]
       | None => ""
       end;
       match e_resume_label e with
       | Some _ => cat [";scheduler_resume="; qx_safe_runtime_text (e_resume_label e)]
       | None => ""
       end] in
    match leased with
    | None => ret base
    | Some (lease, heartbeat) =>
        let* now := GetCurrentTimestamp E in
        ret (cat
          [base;
           ";scheduler_worker="; qx_safe_runtime_text (l_worker_name lease);
           ";scheduler_lease_state="; show_d (lease_state_code (l_state lease));
           ";scheduler_lease_expired="; qx_bool_literal (QxSchedulerLeaseExpired (Some lease) now);
           ";scheduler_heartbeat_state="; show_d (heartbeat_state_code (h_state heartbeat));
           ";scheduler_heartbeat_stale=";
           qx_bool_literal (QxSchedulerHeartbeatStale (Some heartbeat) now);
           ";scheduler_receipt_mode="; qx_safe_runtime_text (h_receipt_mode heartbeat)])
    end.

Definition qx_runtime_append_recovery_payload (base_payload : cstr) : M string :=
  let* snapshot := gets w_recovery in
  let r := rs_report snapshot in
  ret (cat
    [cstr_or base_payload "";
     ";recovery_startup_scan="; qx_bool_literal (r_startup_scan r);
     ";recovery_tasks_scanned="; show_d (r_tasks_scanned r);
     ";recovery_attempts_scanned="; show_d (r_attempts_scanned r);
     ";recovery_checkpoints_scanned="; show_d (r_checkpoints_scanned r);
     ";recovery_tasks_requeued="; show_d (r_tasks_requeued r);
     ";recovery_attempts_fenced="; show_d (r_attempts_fenced r);
     ";recovery_orphan_attempts="; show_d (r_orphan_attempts r);
     ";recovery_semantic_candidates="; show_d (r_semantic_replay_candidates r);
     ";recovery_checkpoints_replay_suppressed="; show_d (r_checkpoints_replay_suppressed r);
     ";recovery_tasks_requeue_suppressed="; show_d (r_tasks_requeue_suppressed r);
     ";recovery_attempts_fence_suppressed="; show_d (r_attempts_fence_suppressed r)]).

Definition qx_runtime_failover_recovery_payload (base_payload : cstr) (r : QxRecoveryReport) : string :=
  cat
    [cstr_or base_payload "";
     ";recovery_startup_scan="; qx_bool_literal (r_startup_scan r);
     ";recovery_failover_rebuild="; qx_bool_literal (r_failover_rebuild r);
     ";recovery_tasks_scanned="; show_d (r_tasks_scanned r);
     ";recovery_attempts_scanned="; show_d (r_attempts_scanned r);
     ";recovery_checkpoints_scanned="; show_d (r_checkpoints_scanned r);
     ";recovery_tasks_requeued="; show_d (r_tasks_requeued r);
     ";recovery_attempts_fenced="; show_d (r_attempts_fenced r);
     ";recovery_checkpoints_replayed="; show_d (r_checkpoints_replayed r);
     ";recovery_orphan_attempts="; show_d (r_orphan_attempts r);
     ";recovery_semantic_candidates="; show_d (r_semantic_replay_candidates r);
     ";recovery_checkpoints_replay_suppressed="; show_d (r_checkpoints_replay_suppressed r);
     ";recovery_tasks_requeue_suppressed="; show_d (r_tasks_requeue_suppressed r);
     ";recovery_attempts_fence_suppressed="; show_d (r_attempts_fence_suppressed r)].

(** The text both functions end with. *)
Definition runtime_payload (text : string) (e : QxSchedulerTaskEnvelope) (include_lease : bool) :
    M string :=
  let* payload := qx_runtime_append_recovery_payload (Some text) in
  qx_scheduler_append_runtime_payload (Some payload) e include_lease.

(** An event and a trace with the same text. *)
Definition record_both (sessionoid taskoid stepoid ownerid : Oid)
    (metadata : option QxSemanticExecutionMetadata) (kind trace payload : string) : M unit :=
  let* _ := QxCatalogInsertEvent E sessionoid taskoid stepoid ownerid metadata (Some kind)
              (Some payload) in
  let* _ := QxCatalogInsertTrace E sessionoid taskoid stepoid ownerid metadata
              QX_TRACE_STATE_CLOSED (Some trace) (Some payload) in
  ret tt.

Definition report_scheduler_event (event_name : string) : M unit :=
  report_stat (QxStatReportSchedulerEvent (qhapaqxian_track_stats E) (MyDatabaseId E)
                 (Some event_name)).

(** A held lease and its heartbeat in the ledger; the lease's snapshot. *)
Definition open_lease (queueoid : Oid) (e : QxSchedulerTaskEnvelope) (worker_name : cstr) :
    M QxSchedulerLeaseSnapshot :=
  let* lease := lease_snapshot_now e InvalidOid worker_name in
  let* leaseoid := QxCatalogInsertSchedulerLease E queueoid lease in
  let* heartbeat := heartbeat_now lease in
  let* _ := QxCatalogInsertSchedulerHeartbeat E leaseoid heartbeat in
  CommandCounterIncrement ;;;
  ret lease.

(** The released lease and its last heartbeat in the ledger. *)
Definition close_lease (queueoid : Oid) (lease : QxSchedulerLeaseSnapshot) : M unit :=
  let* released := release_lease_now lease false in
  let* leaseoid := QxCatalogInsertSchedulerLease E queueoid released in
  let* heartbeat := finalize_heartbeat_now released (Some "scheduler-release") in
  let* _ := QxCatalogInsertSchedulerHeartbeat E leaseoid heartbeat in
  CommandCounterIncrement ;;;
  report_scheduler_event "release".

(** A queue entry in the ledger. *)
Definition enqueue (q : QxSchedulerQueueSnapshot) : M Oid :=
  let* queueoid := QxCatalogInsertSchedulerQueue E q in
  CommandCounterIncrement ;;;
  ret queueoid.

End WithEnv.
