(* ===== verification/Security.v ===== *)
(** * Namespace policies and tool authorization

    The model of [src/src/backend/qx/security/qx_security.c]: tool lists and
    budgets of agents, the objects that names refer to, the operational identity
    of an agent, the checks on a tool's registration, and the authorization that
    turns the tools of an agent into the contracts its tasks may run.

    What the code asks of PostgreSQL beyond [Env] is the record [DdlEnv]: the
    schemas and what a role may do in them.  A released string that a message
    still prints is read through [released]; a released info structure is zeroed
    before the message is built. *)

From Stdlib Require Import Ascii String.
From S2P Require Import Prelude Text Types Scheduler Stat Observe SemanticLog Tables World.
From S2P Require Import Catalog Recovery Policy Backends ToolExec Envelope.
Open Scope string_scope.
Open Scope Z_scope.
Open Scope bool_scope.
Open Scope list_scope.

(** A [RangeVar]: optionally a database and a schema, and a name. *)
Record RangeVar := MkRangeVar {
  rv_catalogname : cstr;
  rv_schemaname : cstr;
  rv_relname : string
}.

Inductive RoleSpec :=
  | ROLESPEC_CSTRING (rolename : string)
  | ROLESPEC_CURRENT_ROLE
  | ROLESPEC_CURRENT_USER
  | ROLESPEC_SESSION_USER
  | ROLESPEC_PUBLIC.

Record DdlEnv := MkDdlEnv {
  get_namespace_name : Oid -> cstr;
  LookupExplicitNamespace : string -> pg_error + Oid;
  RangeVarGetCreationNamespace : RangeVar -> pg_error + Oid;
  QualifiedNameGetCreationNamespace : string -> pg_error + Oid;
  fetch_search_path : list Oid;
  schema_create_allowed : Oid -> Oid -> bool;   (* [object_aclcheck(.., ACL_CREATE)] *)
  get_rolespec_oid : RoleSpec -> pg_error + Oid;
  GetUserNameFromId : Oid -> string;
  nodeToString : pg_node -> string;
  released : string -> string                   (* what a released string reads as *)
}.

(** A call that returns a value or raises an error. *)
Definition lift {A} (r : pg_error + A) : M A :=
  fun w => match r with inl e => Err e w | inr a => Ok a w end.

Definition raise_if (b : bool) (code : errcode) (msg : string) (detail : cstr) : M unit :=
  if b then throw code msg detail else ret tt.

(** [%s] of a name that may be NULL. *)
Definition printed (v : cstr) : string := cstr_or v "(null)".

(** ** Capability tags and policy contracts *)

Fixpoint trim_end (s : string) : string :=
  match s with
  | EmptyString => EmptyString
  | String c t =>
      match trim_end t with
      | EmptyString => if isspace c then EmptyString else String c EmptyString
      | t' => String c t'
      end
  end.

Definition trim (s : string) : string := trim_end (skip_spaces s).

(** The tag lists the file builds hold string nodes only. *)
Definition qx_join_string_list (values : list string) (separator : string) : string :=
  String.concat separator values.

Definition qx_split_capability_tags (serialized : cstr) : list string :=
  match serialized with
  | None => []
  | Some s => List.filter (fun tag => negb (String.eqb tag "")) (trim <$> fields "|" s)
  end.

Definition qx_string_list_contains (values : list string) (needle : cstr) : bool :=
  match needle with
  | None => false
  | Some n => existsb (String.eqb n) values
  end.

Fixpoint contract_entry (key : string) (entries : list string) : cstr :=
  match entries with
  | [] => None
  | e :: rest =>
      match strip_prefix (key +:+ "=") (trim e) with
      | Some value => Some (trim value)
      | None => contract_entry key rest
      end
  end.

Definition qx_policy_contract_value (contract key : cstr) : cstr :=
  if is_blank contract || is_blank key then None
  else contract_entry (cstr_or key "") (fields ";" (cstr_or contract "")).

Definition qx_default_capability_tags (tool_name handler_name tool_sandbox tool_sandbox_ceiling
    principal_runtime provider_kind provider_attestation receipt_alg : cstr) : list string :=
  let effective_sandbox := text_or tool_sandbox "builtin" in
  [ "tool:" +:+ text_or tool_name "<unknown>";
    "handler:" +:+ text_or handler_name "<none>";
    "sandbox:" +:+ effective_sandbox;
    "sandbox_ceiling:" +:+ text_or tool_sandbox_ceiling effective_sandbox;
    "runtime:" +:+ text_or principal_runtime "host";
    "provider_kind:" +:+ text_or provider_kind "loopback";
    "attestation:" +:+ text_or provider_attestation "optional";
    "receipt_alg:" +:+ text_or receipt_alg "hmac-sha256" ].

Definition qx_tool_name_in_list (tools : list pg_node) (tool_name : string) : bool :=
  existsb (fun t => match t with NString s => String.eqb s tool_name | _ => false end) tools.

(** ** A tool's registration *)

(** The runtime class, the sandbox and the signer a principal must have under
    its provider. *)
Definition qx_validate_principal_runtime_binding (principal_name provider_kind runtime_class
    sandbox_name receipt_signer receipt_alg : cstr) (context_name : string) : M unit :=
  let effective_kind := text_or provider_kind "loopback" in
  let effective_runtime :=
    text_or runtime_class (qx_default_runtime_for_provider_kind (Some effective_kind)) in
  let effective_alg := text_or receipt_alg "hmac-sha256" in
  let name := quoted (cstr_or principal_name "<unknown>") in
  let incompatible :=
    cat ["principal "; name; " runtime class "; quoted effective_runtime;
         " is incompatible with provider kind "; quoted effective_kind] in
  let is_runtime := String.eqb effective_runtime in
  let is_kind := String.eqb effective_kind in
  raise_if (negb (is_runtime "host") && negb (is_runtime "container") &&
            negb (is_runtime "microvm"))
    ERRCODE_OBJECT_NOT_IN_PREREQUISITE_STATE
    (cat [context_name; " saw unsupported runtime class "; quoted effective_runtime;
          " on principal "; name]) None ;;;
  raise_if ((is_kind "loopback" || is_kind "remote") && negb (is_runtime "host"))
    ERRCODE_OBJECT_NOT_IN_PREREQUISITE_STATE incompatible
    (Some "Loopback and remote providers currently back only host principals.") ;;;
  raise_if (is_kind "container" && negb (is_runtime "container"))
    ERRCODE_OBJECT_NOT_IN_PREREQUISITE_STATE incompatible
    (Some (cat ["Container providers require principals declared with runtime class ";
                quoted "container"; "."])) ;;;
  raise_if (is_kind "microvm" && negb (is_runtime "microvm"))
    ERRCODE_OBJECT_NOT_IN_PREREQUISITE_STATE incompatible
    (Some (cat ["MicroVM providers require principals declared with runtime class ";
                quoted "microvm"; "."])) ;;;
  raise_if (negb (is_runtime "host") && negb (cstr_is sandbox_name "isolated"))
    ERRCODE_OBJECT_NOT_IN_PREREQUISITE_STATE
    (cat ["principal "; name; " runtime class "; quoted effective_runtime;
          " requires sandbox "; quoted "isolated"]) None ;;;
  raise_if (String.eqb effective_alg "ed25519" && is_blank receipt_signer)
    ERRCODE_OBJECT_NOT_IN_PREREQUISITE_STATE
    (cat ["principal "; name; " has no signer for ed25519 receipts"])
    (Some (cat ["Bind SIGNER on the principal before authorizing tools under an ed25519 ";
                "provider."])).

Definition qx_tool_runtime_class_from_info (tool : QxCatalogToolInfo) : string :=
  text_or (tl_runtime_class tool)
    (text_or (tl_principal_runtime_class tool)
       (qx_default_runtime_for_provider_kind (tl_provider_kind tool))).

Definition qx_tool_sandbox_ceiling_from_info (tool : QxCatalogToolInfo) : string :=
  text_or (tl_sandbox_ceiling tool) (text_or (tl_principal_sandbox tool) "builtin").

Definition attestation_text (required : bool) : string :=
  if required then "required" else "optional".

Definition qx_tool_capability_tags_from_info (tool : QxCatalogToolInfo)
    (tool_runtime_class tool_sandbox_ceiling : string) : string :=
  match qx_split_capability_tags (tl_capability_tags tool) with
  | [] =>
      qx_join_string_list
        (qx_default_capability_tags (tl_name tool) (tl_handler tool) (tl_sandbox tool)
           (Some tool_sandbox_ceiling) (Some tool_runtime_class) (tl_provider_kind tool)
           (Some (attestation_text (tl_provider_attestation_required tool)))
           (tl_provider_receipt_alg tool)) "|"
  | tags => qx_join_string_list tags "|"
  end.

Definition qx_tool_contract_for_info (tool : QxCatalogToolInfo)
    (tool_runtime_class tool_sandbox_ceiling tool_capability_tags : string) : string :=
  cat ["tool="; cstr_or (tl_name tool) "<unknown>";
       ";handler="; cstr_or (tl_handler tool) "<none>";
       ";tool_sandbox="; cstr_or (tl_sandbox tool) "builtin";
       ";tool_sandbox_ceiling="; tool_sandbox_ceiling;
       ";tool_capability_tags="; tool_capability_tags;
       ";principal="; cstr_or (tl_principal_name tool) "<unknown>";
       ";principal_sandbox="; cstr_or (tl_principal_sandbox tool) "builtin";
       ";principal_runtime="; tool_runtime_class;
       ";program="; cstr_or (tl_principal_program tool) "";
       ";receipt_signer="; cstr_or (tl_principal_receipt_signer tool) "";
       ";provider="; cstr_or (tl_provider_name tool) "<unknown>";
       ";provider_oid="; show_u (tl_provideroid tool);
       ";provider_kind="; cstr_or (tl_provider_kind tool) "loopback";
       ";provider_endpoint="; cstr_or (tl_provider_endpoint tool) "local://qhapaqxian-tool-runner";
       ";provider_attestation="; attestation_text (tl_provider_attestation_required tool);
       ";receipt_schema=qx.receipt.v1";
       ";receipt_alg="; cstr_or (tl_provider_receipt_alg tool) "hmac-sha256"].

(** ** Policies on capabilities *)

(** The value of the first of two keys that the policy contract has. *)
Definition policy_tags (policy : cstr) (key alternative : string) : cstr :=
  match qx_policy_contract_value policy (Some key) with
  | Some v => Some v
  | None => qx_policy_contract_value policy (Some alternative)
  end.

Definition required_capabilities (policy : QxCatalogNamespacePolicyInfo) : cstr :=
  policy_tags (qxnamespacepolicy policy) "require_capabilities" "require_capability".
Definition denied_capabilities (policy : QxCatalogNamespacePolicyInfo) : cstr :=
  policy_tags (qxnamespacepolicy policy) "deny_capabilities" "deny_capability".

Definition qx_validate_tool_capability_policy (policy : QxCatalogNamespacePolicyInfo)
    (tool_name : string) (tool_capability_tags : string) : M unit :=
  let authorized_tags := text_or (Some tool_capability_tags) "<none>" in
  let detail := Some (cat ["Authorized capability tags: "; authorized_tags; "."]) in
  let in_policy := cat [" in namespace policy "; quoted (qxnamespacepolicyname policy)] in
  let tool_tags := qx_split_capability_tags (Some tool_capability_tags) in
  match required_capabilities policy, denied_capabilities policy with
  | None, None => ret tt
  | required_serialized, denied_serialized =>
      mforeach (fun tag =>
          raise_if (negb (qx_string_list_contains tool_tags (Some tag)))
            ERRCODE_INSUFFICIENT_PRIVILEGE
            (cat ["tool "; quoted tool_name; " does not satisfy capability requirement ";
                  quoted tag; in_policy]) detail)
        (qx_split_capability_tags required_serialized) ;;;
      mforeach (fun tag =>
          raise_if (qx_string_list_contains tool_tags (Some tag))
            ERRCODE_INSUFFICIENT_PRIVILEGE
            (cat ["tool "; quoted tool_name; " uses denied capability "; quoted tag; in_policy])
            detail)
        (qx_split_capability_tags denied_serialized)
  end.

(** ** Tool lists and budgets *)

Fixpoint validate_tool_list (seen : list string) (tools : list pg_node) : M unit :=
  match tools with
  | [] => ret tt
  | NString name :: rest =>
      raise_if (String.eqb name "") ERRCODE_INVALID_PARAMETER_VALUE
        "tool names must not be empty" None ;;;
      raise_if (existsb (String.eqb name) seen) ERRCODE_DUPLICATE_OBJECT
        (cat ["tool "; quoted name; " is listed more than once"]) None ;;;
      validate_tool_list (seen ++ [name]) rest
  | _ :: _ =>
      throw ERRCODE_INVALID_PARAMETER_VALUE "tool list contains a non-string entry" None
  end.

Definition QxValidateToolList (tools : list pg_node) : M unit := validate_tool_list [] tools.

Record QxBudgetPolicy := MkBudgetPolicy {
  bp_has_token_limit : bool;
  bp_has_cost_limit : bool;
  bp_token_limit : Z;
  bp_cost_limit : Z
}.

Definition no_budget_policy : QxBudgetPolicy := MkBudgetPolicy false false 0 0.

Definition defGetInt32 (defname : string) (arg : option pg_node) : M Z :=
  match arg with
  | Some (NInteger z) => ret (int32 z)
  | _ => throw ERRCODE_SYNTAX_ERROR (cat [defname; " requires an integer value"]) None
  end.

Fixpoint budget_from_options (policy : QxBudgetPolicy) (options : list pg_node) : M QxBudgetPolicy :=
  match options with
  | [] => ret policy
  | NDefElem defname arg :: rest =>
      if String.eqb defname "tokens" then
        let* limit := defGetInt32 defname arg in
        budget_from_options
          (MkBudgetPolicy true (bp_has_cost_limit policy) limit (bp_cost_limit policy)) rest
      else if String.eqb defname "cost" then
        let* limit := defGetInt32 defname arg in
        budget_from_options
          (MkBudgetPolicy (bp_has_token_limit policy) true (bp_token_limit policy) limit) rest
      else budget_from_options policy rest
  | _ :: _ => elog_error "node is not a DefElem"   (* [lfirst_node] is undefined here *)
  end.

Definition QxBudgetPolicyFromDefList (budget_options : list pg_node) : M QxBudgetPolicy :=
  budget_from_options no_budget_policy budget_options.

Definition QxBudgetPolicyFromSerialized (serialized : option pg_node) : M QxBudgetPolicy :=
  match serialized with
  | None => ret no_budget_policy
  | Some (NList l) => QxBudgetPolicyFromDefList l
  | Some _ => elog_error "QhapaqXian budget payload was not a List"
  end.

Definition QxDeserializeToolList (serialized : option pg_node) : M (list pg_node) :=
  match serialized with
  | None => ret []
  | Some (NList l) => ret l
  | Some _ => elog_error "QhapaqXian tool payload was not a List"
  end.

Definition QxIdentityNameById (identityoid : Oid) : M string :=
  let* c := gets w_vis in
  match QxCatalogLookupIdentityByOid c identityoid with
  | None => elog_error (cat ["cache lookup failed for QhapaqXian identity "; show_u identityoid])
  | Some identity => ret (qxidentityname identity)
  end.

Definition QxNamespacePolicyNameById (policyoid : Oid) : M string :=
  let* c := gets w_vis in
  match QxCatalogLookupNamespacePolicyByOid c policyoid with
  | None =>
      elog_error (cat ["cache lookup failed for QhapaqXian namespace policy "; show_u policyoid])
  | Some policy => ret (qxnamespacepolicyname policy)
  end.

(** ** Objects by name *)

Section WithEnv.
Context (E : Env) (D : DdlEnv).

Definition schema_text (namespaceoid : Oid) : string := quoted (printed (get_namespace_name D namespaceoid)).

(** The identifier of a named object, as the three lookup functions find it. *)
Definition lookup_named (kind : string) (detail : string) (name : cstr) (found : option Oid)
    (namespaceoid : Oid) (missing_ok : bool) : M Oid :=
  if is_blank name then
    throw ERRCODE_INVALID_PARAMETER_VALUE (cat [kind; " name must not be empty"]) None
  else match found with
       | Some o => ret o
       | None =>
           if missing_ok then ret InvalidOid
           else throw ERRCODE_UNDEFINED_OBJECT
                  (cat [kind; " "; quoted (cstr_or name ""); " does not exist in schema ";
                        schema_text namespaceoid]) (Some detail)
       end.

Definition QxLookupNamespacePolicy (namespaceoid : Oid) (policy_name : cstr) (missing_ok : bool) :
    M Oid :=
  let* c := gets w_vis in
  lookup_named "namespace policy"
    "Create the namespace policy before binding agents or tools to it." policy_name
    (namespace_oid <$> QxCatalogLookupNamespacePolicyByName c namespaceoid policy_name)
    namespaceoid missing_ok.

Definition QxLookupPrincipal (namespaceoid : Oid) (principal_name : cstr) (missing_ok : bool) :
    M Oid :=
  let* c := gets w_vis in
  lookup_named "principal" "Create the principal before binding it to a tool." principal_name
    (pr_oid <$> QxCatalogLookupPrincipalByName c namespaceoid principal_name)
    namespaceoid missing_ok.

Definition QxLookupProvider (namespaceoid : Oid) (provider_name : cstr) (missing_ok : bool) :
    M Oid :=
  let* c := gets w_vis in
  lookup_named "provider" "Create the provider before binding it to a principal." provider_name
    (provider_oid <$> QxCatalogLookupProviderByName c namespaceoid provider_name)
    namespaceoid missing_ok.

Definition QxEnsureOperationalIdentity (namespaceoid ownerid : Oid) (identity_name : cstr)
    (authrole : Oid) (policy_name : cstr) (budget_options : option pg_node) : M Oid :=
  let resolved_name := text_or identity_name "default" in
  let* c := gets w_vis in
  match QxCatalogLookupIdentityByName c namespaceoid (Some resolved_name) with
  | Some existing =>
      raise_if (negb (has_privs_of_role E ownerid (qxidentityowner existing)))
        ERRCODE_INSUFFICIENT_PRIVILEGE
        (cat ["permission denied to use identity "; quoted resolved_name])
        (Some (cat ["Only the identity owner or a member of that role may bind the identity ";
                    "to an agent."])) ;;;
      ret (identity_oid existing)
  | None =>
      QxCatalogInsertIdentity namespaceoid ownerid authrole resolved_name policy_name budget_options
  end.

(** ** Registered tools *)

Definition tool_principal_runtime (tool : QxCatalogToolInfo) : string :=
  text_or (tl_principal_runtime_class tool)
    (qx_default_runtime_for_provider_kind (tl_provider_kind tool)).

Definition ceiling_detail (sandbox ceiling : string) : cstr :=
  Some (cat ["Tool sandbox "; quoted sandbox; " is stricter than ceiling "; quoted ceiling; "."]).

Definition runtime_mismatch (tool_name : string) (tool : QxCatalogToolInfo) : string :=
  cat ["tool "; quoted tool_name; " runtime class ";
       quoted (qx_tool_runtime_class_from_info tool);
       " is incompatible with principal runtime "; quoted (tool_principal_runtime tool)].

(** Here the texts of the tool are released before the messages are built: the
    tool's sandbox is NULL by then and its ceiling a dangling string, and so are
    the two runtime classes. *)
Definition validate_enabled_tool (namespaceoid : Oid) (tool_name : string)
    (tool : QxCatalogToolInfo) : M unit :=
  let runtime := qx_tool_runtime_class_from_info tool in
  let ceiling := qx_tool_sandbox_ceiling_from_info tool in
  let principal_runtime := tool_principal_runtime tool in
  raise_if (negb (tl_enabled tool)) ERRCODE_OBJECT_NOT_IN_PREREQUISITE_STATE
    (cat ["tool "; quoted tool_name; " is disabled in schema "; schema_text namespaceoid])
    (Some "Enable the tool before binding it to an agent runtime.") ;;;
  raise_if (negb (OidIsValid (tl_principaloid tool))) ERRCODE_OBJECT_NOT_IN_PREREQUISITE_STATE
    (cat ["tool "; quoted tool_name; " has no principal binding"])
    (Some "Bind the tool to a namespace principal before enabling agent execution.") ;;;
  raise_if (negb (tl_principal_enabled tool)) ERRCODE_OBJECT_NOT_IN_PREREQUISITE_STATE
    (cat ["principal for tool "; quoted tool_name; " is disabled"])
    (Some "Enable the principal before binding the tool to an agent runtime.") ;;;
  raise_if (negb (OidIsValid (tl_provideroid tool))) ERRCODE_OBJECT_NOT_IN_PREREQUISITE_STATE
    (cat ["principal for tool "; quoted tool_name; " has no provider binding"])
    (Some "Bind the principal to a provider before enabling agent execution.") ;;;
  raise_if (negb (tl_provider_enabled tool)) ERRCODE_OBJECT_NOT_IN_PREREQUISITE_STATE
    (cat ["provider for tool "; quoted tool_name; " is disabled"])
    (Some "Enable the provider before binding the tool to an agent runtime.") ;;;
  let* tool_rank := qx_sandbox_rank (tl_sandbox tool) in
  let* ceiling_rank := qx_sandbox_rank (Some ceiling) in
  raise_if (ceiling_rank <? tool_rank) ERRCODE_INVALID_PARAMETER_VALUE
    (cat ["tool "; quoted tool_name; " exceeds its declared sandbox ceiling"])
    (ceiling_detail "builtin" (released D ceiling)) ;;;
  raise_if (negb (String.eqb runtime principal_runtime)) ERRCODE_INVALID_PARAMETER_VALUE
    (cat ["tool "; quoted tool_name; " runtime class "; quoted (released D runtime);
          " is incompatible with principal runtime "; quoted (released D principal_runtime)])
    (Some (cat ["Namespace authorization requires runtime-class alignment between the tool ";
                "and the bound principal."])) ;;;
  qx_validate_principal_runtime_binding (tl_principal_name tool) (tl_provider_kind tool)
    (Some principal_runtime) (tl_principal_sandbox tool) (tl_principal_receipt_signer tool)
    (tl_provider_receipt_alg tool) "tool registration validation".

Definition QxValidateRegisteredTools (namespaceoid : Oid) (tools : list pg_node)
    (require_enabled : bool) : M unit :=
  mforeach (fun node =>
      let* tool_name := strVal node in
      let* c := gets w_vis in
      match QxCatalogLookupToolByName c namespaceoid (Some tool_name) with
      | None =>
          throw ERRCODE_UNDEFINED_OBJECT
            (cat ["tool "; quoted tool_name; " is not registered in schema ";
                  schema_text namespaceoid])
            (Some (cat ["Register the tool with CREATE TOOL before referencing it from a ";
                        "namespace policy or agent."]))
      | Some tool =>
          if require_enabled then validate_enabled_tool namespaceoid tool_name tool else ret tt
      end)
    tools.

(** ** Authorization *)

Record QxToolAuthorization := MkAuthz {
  az_namespace_policy_oid : Oid;
  az_namespace_policy_name : cstr;
  az_require_known_tools : bool;
  az_enforce_budgets : bool;
  az_tool_count : Z;
  az_tool_token_cost : Z;
  az_tool_cost_units : Z;
  az_tool_oids : list Oid;
  az_tool_contracts : list string;
  az_tool_runtime_classes : list string;
  az_tool_sandbox_ceilings : list string;
  az_tool_capability_tags : list string
}.

Definition authz_start (policy : QxCatalogNamespacePolicyInfo) : QxToolAuthorization :=
  MkAuthz (namespace_oid policy) (Some (qxnamespacepolicyname policy))
    (qxrequireknowntools policy) (qxenforcebudgets policy) 0 0 0 [] [] [] [] [].

Definition tool_capability_tags (tool : QxCatalogToolInfo) : string :=
  qx_tool_capability_tags_from_info tool (qx_tool_runtime_class_from_info tool)
    (qx_tool_sandbox_ceiling_from_info tool).

Definition tool_contract (tool : QxCatalogToolInfo) : string :=
  qx_tool_contract_for_info tool (qx_tool_runtime_class_from_info tool)
    (qx_tool_sandbox_ceiling_from_info tool) (tool_capability_tags tool).

Definition authz_add (tool : QxCatalogToolInfo) (authz : QxToolAuthorization) :
    QxToolAuthorization :=
  MkAuthz (az_namespace_policy_oid authz) (az_namespace_policy_name authz)
    (az_require_known_tools authz) (az_enforce_budgets authz)
    (int32 (az_tool_count authz + 1))
    (int32 (az_tool_token_cost authz + tl_token_cost tool))
    (int32 (az_tool_cost_units authz + tl_cost_units tool))
    (az_tool_oids authz ++ [tl_oid tool])
    (az_tool_contracts authz ++ [tool_contract tool])
    (az_tool_runtime_classes authz ++ [qx_tool_runtime_class_from_info tool])
    (az_tool_sandbox_ceilings authz ++ [qx_tool_sandbox_ceiling_from_info tool])
    (az_tool_capability_tags authz ++ [tool_capability_tags tool]).

(** One tool.  The messages about the principal and the provider are built
    after their names were zeroed; the ceiling is still there, the tool's
    sandbox is not. *)
Definition authorize_tool (policy : QxCatalogNamespacePolicyInfo) (allowed_tools : list pg_node)
    (namespaceoid : Oid) (tool_name : string) : M QxCatalogToolInfo :=
  raise_if (qxrequireknowntools policy && negb (qx_tool_name_in_list allowed_tools tool_name))
    ERRCODE_INSUFFICIENT_PRIVILEGE
    (cat ["tool "; quoted tool_name; " is not allowed by namespace policy ";
          quoted (qxnamespacepolicyname policy)])
    (Some (cat ["Register the tool in the namespace policy before executing the agent ";
                "task."])) ;;;
  let* c := gets w_vis in
  match QxCatalogLookupToolByName c namespaceoid (Some tool_name) with
  | None =>
      throw ERRCODE_UNDEFINED_OBJECT
        (cat ["tool "; quoted tool_name; " is not registered in schema ";
              schema_text namespaceoid]) None
  | Some tool =>
      raise_if (negb (tl_enabled tool)) ERRCODE_OBJECT_NOT_IN_PREREQUISITE_STATE
        (cat ["tool "; quoted tool_name; " is disabled in schema "; schema_text namespaceoid])
        None ;;;
      raise_if (negb (OidIsValid (tl_principaloid tool))) ERRCODE_OBJECT_NOT_IN_PREREQUISITE_STATE
        (cat ["tool "; quoted tool_name; " has no principal binding"]) None ;;;
      raise_if (negb (tl_principal_enabled tool)) ERRCODE_OBJECT_NOT_IN_PREREQUISITE_STATE
        (cat ["principal "; quoted "<unknown>"; " is disabled in schema ";
              schema_text namespaceoid]) None ;;;
      raise_if (negb (OidIsValid (tl_provideroid tool))) ERRCODE_OBJECT_NOT_IN_PREREQUISITE_STATE
        (cat ["principal "; quoted "<unknown>"; " has no provider binding"]) None ;;;
      raise_if (negb (tl_provider_enabled tool)) ERRCODE_OBJECT_NOT_IN_PREREQUISITE_STATE
        (cat ["provider "; quoted "<unknown>"; " is disabled in schema ";
              schema_text namespaceoid]) None ;;;
      let* tool_rank := qx_sandbox_rank (tl_sandbox tool) in
      let* ceiling_rank := qx_sandbox_rank (Some (qx_tool_sandbox_ceiling_from_info tool)) in
      raise_if (ceiling_rank <? tool_rank) ERRCODE_INVALID_PARAMETER_VALUE
        (cat ["tool "; quoted tool_name; " exceeds its declared sandbox ceiling"])
        (ceiling_detail "builtin" (qx_tool_sandbox_ceiling_from_info tool)) ;;;
      raise_if (negb (String.eqb (qx_tool_runtime_class_from_info tool) (tool_principal_runtime tool)))
        ERRCODE_INVALID_PARAMETER_VALUE (runtime_mismatch tool_name tool)
        (Some (cat ["Tool authorization requires runtime-class alignment before the contract ";
                    "is emitted."])) ;;;
      qx_validate_principal_runtime_binding (tl_principal_name tool) (tl_provider_kind tool)
        (Some (tool_principal_runtime tool)) (tl_principal_sandbox tool)
        (tl_principal_receipt_signer tool) (tl_provider_receipt_alg tool)
        "namespace tool authorization" ;;;
      qx_validate_tool_capability_policy policy tool_name (tool_capability_tags tool) ;;;
      ret tool
  end.

Fixpoint authorize_tools (policy : QxCatalogNamespacePolicyInfo) (allowed_tools : list pg_node)
    (namespaceoid : Oid) (authz : QxToolAuthorization) (tools : list pg_node) :
    M QxToolAuthorization :=
  match tools with
  | [] => ret authz
  | node :: rest =>
      let* tool_name := strVal node in
      let* tool := authorize_tool policy allowed_tools namespaceoid tool_name in
      authorize_tools policy allowed_tools namespaceoid (authz_add tool authz) rest
  end.

Definition QxAuthorizeToolsForNamespace (namespacepolicyoid namespaceoid ownerid : Oid)
    (tools : list pg_node) : M QxToolAuthorization :=
  let* c := gets w_vis in
  match QxCatalogLookupNamespacePolicyByOid c namespacepolicyoid with
  | None =>
      elog_error (cat ["cache lookup failed for QhapaqXian namespace policy ";
                       show_u namespacepolicyoid])
  | Some policy =>
      raise_if (negb (has_privs_of_role E ownerid (qxnamespaceowner policy)) &&
                negb (has_privs_of_role E ownerid (qxnamespaceauthrole policy)))
        ERRCODE_INSUFFICIENT_PRIVILEGE
        (cat ["permission denied to authorize tools in schema "; schema_text namespaceoid])
        (Some (cat ["The caller must be able to assume the namespace policy owner or auth ";
                    "role."])) ;;;
      let* allowed_tools := QxDeserializeToolList (qxallowedtools policy) in
      authorize_tools policy allowed_tools namespaceoid (authz_start policy) tools
  end.

End WithEnv.

(** ** Runs that succeed

    What a successful run says about its parts; [inv_run] takes a run apart. *)

Lemma raise_if_ok b code msg detail w u w' :
  raise_if b code msg detail w = Ok u w' -> b = false /\ w' = w.
Proof. destruct b; unfold raise_if, throw, ret; intros H; simplify_eq; done. Qed.

Lemma lift_ok {A} (r : pg_error + A) w a w' : lift r w = Ok a w' -> r = inr a /\ w' = w.
Proof. unfold lift. destruct r; intros H; simplify_eq; done. Qed.

Lemma ret_ok {A} (a b : A) w w' : ret a w = Ok b w' -> b = a /\ w' = w.
Proof. unfold ret, gets. intros H. simplify_eq. done. Qed.

Lemma gets_ok {A} (f : world -> A) w a w' : gets f w = Ok a w' -> a = f w /\ w' = w.
Proof. unfold ret, gets. intros H. simplify_eq. done. Qed.

(** Code that only checks: it leaves the world alone and establishes [P]. *)
Definition checks (m : M unit) (P : Prop) : Prop := forall w u w', m w = Ok u w' -> w' = w /\ P.

Lemma checks_raise_if b code msg detail : checks (raise_if b code msg detail) (b = false).
Proof. intros w u w' [? ?]%raise_if_ok. done. Qed.

Lemma checks_ret : checks (ret tt) True.
Proof. intros w u w' [? ?]%ret_ok. done. Qed.

Lemma checks_bind m k (P Q : Prop) : checks m P -> (P -> checks k Q) -> checks (m ;;; k) (P /\ Q).
Proof.
  intros Hm Hk w u w' (x & w1 & H1 & H2)%bind_ok. apply Hm in H1 as [-> HP].
  apply Hk in H2 as [-> HQ]; done.
Qed.

Lemma checks_if b m k (P Q : Prop) :
  (b = true -> checks m P) -> (b = false -> checks k Q) ->
  checks (if b then m else k) (if b then P else Q).
Proof. destruct b; auto. Qed.

Lemma checks_mono m (P Q : Prop) : checks m P -> (P -> Q) -> checks m Q.
Proof. intros Hm HPQ w u w' H. apply Hm in H as [-> ?]. auto. Qed.

Lemma checks_mforeach {A} (f : A -> M unit) (P : A -> Prop) l :
  (forall x, x ∈ l -> checks (f x) (P x)) -> checks (mforeach f l) (Forall P l).
Proof.
  induction l as [|x l IH]; intros Hf; simpl; [eapply checks_mono; [apply checks_ret|constructor]|].
  eapply checks_mono; [apply checks_bind; [apply Hf; left|]|].
  - intros _. apply IH. intros y Hy. apply Hf. right. done.
  - intros [? ?]. constructor; done.
Qed.

#[export] Hint Resolve checks_raise_if checks_ret : qx.

Ltac inv_step :=
  match goal with
  | H : bind _ _ _ = Ok _ _ |- _ => apply bind_ok in H as (? & ? & ? & ?)
  | H : raise_if _ _ _ _ _ = Ok _ _ |- _ => apply raise_if_ok in H as [? ?]; subst
  | H : lift _ _ = Ok _ _ |- _ => apply lift_ok in H as [? ?]; subst
  | H : ret _ _ = Ok _ _ |- _ => apply ret_ok in H as [? ?]; subst
  | H : gets _ _ = Ok _ _ |- _ => apply gets_ok in H as [? ?]; subst
  | H : throw _ _ _ _ = Ok _ _ |- _ => discriminate H
  | H : elog_error _ _ = Ok _ _ |- _ => discriminate H
  end.
Ltac inv_run := repeat inv_step.
