(* ===== verification/PolicyCommands.v ===== *)
(** * DDL of providers, principals, tools and namespace policies

    The model of [src/src/backend/commands/qxpolicycmds.c], built with OpenSSL.
    An optional clause of a statement is an [option]: the grammar fills a field
    of the statement and its [set_] flag together (gram.y, [AlterProviderStmt]
    and the like).  The records of [pg_depend] and the object access hooks are
    outside the catalogs of the engine and are not modelled. *)

From Stdlib Require Import Ascii String.
From S2P Require Import Prelude Text Types Scheduler Stat Observe SemanticLog Tables World.
From S2P Require Import Catalog Recovery Policy Backends ToolExec Envelope Security.
Open Scope string_scope.
Open Scope Z_scope.
Open Scope bool_scope.
Open Scope list_scope.

(** ** Statements *)

Record CreateNamespacePolicyStmt := MkCreatePolicy {
  cn_policy_name : string;
  cn_schema_name : string;
  cn_auth_role : option RoleSpec;
  cn_allowed_tools : list pg_node;
  cn_policy_contract : cstr;
  cn_require_known_tools : bool;
  cn_enforce_budgets : bool
}.

Record AlterNamespacePolicyStmt := MkAlterPolicy {
  an_policy_name : string;
  an_schema_name : string;
  an_auth_role : option RoleSpec;
  an_allowed_tools : option (list pg_node);
  an_policy_contract : cstr;
  an_require_known_tools : option bool;
  an_enforce_budgets : option bool
}.

Record CreateProviderStmt := MkCreateProvider {
  cp_provider_name : RangeVar;
  cp_provider_kind : cstr;
  cp_endpoint_name : cstr;
  cp_receipt_alg : cstr;
  cp_receipt_key : cstr;
  cp_attestation_profile : cstr;
  cp_attestation_version : cstr;
  cp_attestation_policy : cstr;
  cp_attestation_required : bool
}.

Record AlterProviderStmt := MkAlterProvider {
  ap_provider_name : RangeVar;
  ap_provider_kind : cstr;
  ap_endpoint_name : cstr;
  ap_receipt_alg : cstr;
  ap_receipt_key : cstr;
  ap_attestation_profile : cstr;
  ap_attestation_version : cstr;
  ap_attestation_policy : cstr;
  ap_attestation_required : option bool;
  ap_enabled : option bool
}.

Record CreatePrincipalStmt := MkCreatePrincipal {
  cr_principal_name : RangeVar;
  cr_provider_name : option RangeVar;
  cr_program_name : cstr;
  cr_sandbox_name : cstr;
  cr_runtime_class : cstr;
  cr_receipt_signer : cstr;
  cr_attestation_profile : cstr;
  cr_attestation_version : cstr;
  cr_attestation_policy : cstr;
  cr_enabled : bool
}.

Record AlterPrincipalStmt := MkAlterPrincipal {
  ar_principal_name : RangeVar;
  ar_provider_name : option RangeVar;
  ar_program_name : cstr;
  ar_sandbox_name : cstr;
  ar_runtime_class : cstr;
  ar_receipt_signer : cstr;
  ar_attestation_profile : cstr;
  ar_attestation_version : cstr;
  ar_attestation_policy : cstr;
  ar_enabled : option bool
}.

Record CreateToolStmt := MkCreateTool {
  ct_tool_name : RangeVar;
  ct_handler_name : cstr;
  ct_sandbox_name : cstr;
  ct_principal_name : cstr;
  ct_policy_name : cstr;
  ct_token_cost : Z;
  ct_cost_units : Z;
  ct_enabled : bool
}.

Record AlterToolStmt := MkAlterTool {
  at_tool_name : RangeVar;
  at_handler_name : cstr;
  at_sandbox_name : cstr;
  at_principal_name : cstr;
  at_policy_name : cstr;
  at_token_cost : option Z;
  at_cost_units : option Z;
  at_enabled : option bool
}.

(** Whether a clause is there, and the value it gives a column; a text column
    that may be NULL is [first_set]. *)
Definition given {A} (v : option A) : bool := match v with Some _ => true | None => false end.
Definition or_old {A} (v : option A) (old : A) : A := match v with Some x => x | None => old end.

(** ** Validation *)

Definition invalid := ERRCODE_INVALID_PARAMETER_VALUE.
Definition not_ready := ERRCODE_OBJECT_NOT_IN_PREREQUISITE_STATE.

Definition qx_validate_tool_costs (token_cost cost_units : Z) (command_name : string) : M unit :=
  raise_if (token_cost <? 0) invalid
    (cat [command_name; " token cost must not be negative"]) None ;;;
  raise_if (cost_units <? 0) invalid
    (cat [command_name; " cost units must not be negative"]) None.

(** A line break or a semicolon. *)
Definition breaks_line (s : string) : bool := has_char newline s || has_char "013"%char s.
Definition unsupported_chars (s : string) : bool := breaks_line s || has_char ";" s.

Definition first_dir_separator (s : string) : bool := has_char "/" s.

(** Only the start of the path is looked at: the function wants a canonical
    path. *)
Definition path_contains_parent_reference (path : string) : bool :=
  match strip_prefix ".." path with
  | Some EmptyString => true
  | Some (String c _) => Ascii.eqb c "/"
  | None => false
  end.

Definition qx_validate_principal_program (program_name : cstr) (command_name : string) : M unit :=
  let program := cstr_or program_name "" in
  raise_if (is_blank program_name) invalid (cat [command_name; " program must not be empty"]) None ;;;
  raise_if (unsupported_chars program) invalid
    (cat [command_name; " program contains unsupported characters"])
    (Some "Programs must be bare executable names or absolute paths.") ;;;
  raise_if (negb (is_absolute_path program) &&
            (first_dir_separator program || path_contains_parent_reference program)) invalid
    (cat [command_name; " program must be a bare executable name or an absolute path"])
    (Some (cat ["Relative paths and parent-directory references are rejected for principal ";
                "programs."])) ;;;
  raise_if (path_contains_parent_reference program) invalid
    (cat [command_name; " program must not contain parent-directory references"]) None.

Definition qx_validate_principal_receipt_signer (receipt_signer : cstr) (command_name : string) :
    M unit :=
  let signer := cstr_or receipt_signer "" in
  raise_if (is_blank receipt_signer) invalid (cat [command_name; " signer must not be empty"])
    (Some "Asymmetric receipt principals need a signer file reference.") ;;;
  raise_if (unsupported_chars signer) invalid
    (cat [command_name; " signer contains unsupported characters"])
    (Some "Signer references must be bare filenames or absolute paths.") ;;;
  raise_if (negb (is_absolute_path signer) &&
            (first_dir_separator signer || path_contains_parent_reference signer)) invalid
    (cat [command_name; " signer must be a bare filename or an absolute path"])
    (Some (cat ["Relative paths and parent-directory references are rejected for receipt ";
                "signers."])) ;;;
  raise_if (path_contains_parent_reference signer) invalid
    (cat [command_name; " signer must not contain parent-directory references"]) None.

Definition qx_validate_provider_kind (provider_kind : cstr) (command_name : string) : M unit :=
  raise_if (is_blank provider_kind) invalid (cat [command_name; " kind must not be empty"]) None ;;;
  raise_if (negb (cstr_is provider_kind "loopback") && negb (cstr_is provider_kind "remote") &&
            negb (cstr_is provider_kind "container") && negb (cstr_is provider_kind "microvm"))
    invalid (cat ["unsupported provider kind "; quoted (cstr_or provider_kind "")])
    (Some (cat ["QhapaqXian providers currently support loopback, remote, container, and ";
                "microvm execution drivers."])).

Definition qx_validate_attestation_text (value : cstr) (field_name command_name : string) : M unit :=
  raise_if (is_blank value) invalid
    (cat [command_name; " "; field_name; " must not be empty"]) None ;;;
  raise_if (unsupported_chars (cstr_or value "")) invalid
    (cat [command_name; " "; field_name; " contains unsupported characters"])
    (Some "Attestation metadata must be a single-line contract token.").

(** Validate a text the statement or the row has. *)
Definition validate_text_if (value : cstr) (field_name command_name : string) : M unit :=
  if given value then qx_validate_attestation_text value field_name command_name else ret tt.

Definition validate_attestation_texts (profile version policy : cstr) (command_name : string) :
    M unit :=
  validate_text_if profile "attestation profile" command_name ;;;
  validate_text_if version "attestation version" command_name ;;;
  validate_text_if policy "attestation policy" command_name.

Definition qx_validate_attestation_metadata (profile version policy : cstr) (required : bool)
    (command_name : string) : M unit :=
  let any_set := given profile || given version || given policy in
  raise_if (any_set && (negb (given profile) || negb (given version) || negb (given policy))) invalid
    (cat [command_name; " attestation profile, version, and policy must be provided together"])
    (Some "The attestation contract is stored as an atomic bundle.") ;;;
  raise_if (required && negb any_set) not_ready
    (cat [command_name; " requires attestation profile, version, and policy"])
    (Some "Container and microVM contracts need explicit attestation metadata.") ;;;
  validate_attestation_texts profile version policy command_name.

Definition isolated_kind (kind : string) : bool :=
  String.eqb kind "container" || String.eqb kind "microvm".

Definition qx_validate_provider_isolation_contract (provider_kind receipt_alg
    attestation_profile attestation_version attestation_policy : cstr)
    (attestation_required : bool) (command_name : string) : M unit :=
  let effective_kind := text_or provider_kind "loopback" in
  let effective_alg := text_or receipt_alg "hmac-sha256" in
  qx_validate_attestation_metadata attestation_profile attestation_version attestation_policy
    (isolated_kind effective_kind) command_name ;;;
  if negb (isolated_kind effective_kind) then ret tt
  else
    raise_if (negb (String.eqb effective_alg "ed25519")) invalid
      (cat [command_name; " kind "; quoted effective_kind; " requires ed25519 receipts"])
      (Some (cat ["Container and microVM providers must use asymmetric receipts so the ";
                  "runtime can verify brokered isolation evidence."])) ;;;
    raise_if (negb attestation_required) invalid
      (cat [command_name; " kind "; quoted effective_kind; " requires attestation"])
      (Some (cat ["Container and microVM providers must declare ATTESTATION ENABLE so the ";
                  "runtime rejects unsigned broker responses."])).

Definition qx_validate_provider_receipt_alg (receipt_alg : cstr) (command_name : string) : M unit :=
  let effective_alg := text_or receipt_alg "hmac-sha256" in
  if String.eqb effective_alg "hmac-sha256" then ret tt
  else if String.eqb effective_alg "ed25519" then ret tt
  else throw invalid (cat ["unsupported provider receipt algorithm "; quoted effective_alg])
         (Some (cat ["QhapaqXian providers currently support only hmac-sha256 and ed25519 ";
                     "receipts."])).

(** The prefix an endpoint of a kind of provider has. *)
Definition endpoint_scheme (kind : cstr) : string :=
  if cstr_is kind "remote" then "remote://"
  else if cstr_is kind "container" then "container://"
  else if cstr_is kind "microvm" then "microvm://"
  else "local://".

Definition endpoint_error (kind : cstr) : string * string :=
  if cstr_is kind "remote" then
    (" for remote providers",
     "The brokered remote provider subsystem accepts only remote:// endpoints.")
  else if cstr_is kind "container" then
    (" for container providers", "Container providers accept only container:// broker endpoints.")
  else if cstr_is kind "microvm" then
    (" for microvm providers", "MicroVM providers accept only microvm:// broker endpoints.")
  else ("", "Loopback providers accept only local:// endpoints.").

Definition qx_validate_provider_endpoint (provider_kind endpoint_name : cstr)
    (command_name : string) : M unit :=
  let endpoint := cstr_or endpoint_name "" in
  raise_if (is_blank endpoint_name) invalid
    (cat [command_name; " endpoint must not be empty"]) None ;;;
  raise_if (unsupported_chars endpoint) invalid
    (cat [command_name; " endpoint contains unsupported characters"]) None ;;;
  raise_if (negb (starts_with endpoint (endpoint_scheme provider_kind))) invalid
    (cat [command_name; " endpoint must start with "; quoted (endpoint_scheme provider_kind);
          fst (endpoint_error provider_kind)])
    (Some (snd (endpoint_error provider_kind))).

Definition qx_validate_provider_receipt_key (receipt_alg receipt_key : cstr)
    (command_name : string) : M unit :=
  let effective_alg := text_or receipt_alg "hmac-sha256" in
  let key := cstr_or receipt_key "" in
  raise_if (is_blank receipt_key) invalid (cat [command_name; " receipt key must not be empty"])
    (Some "Providers need verification material for runtime receipts.") ;;;
  if String.eqb effective_alg "ed25519" then
    raise_if (negb (contains key "-----BEGIN PUBLIC KEY-----") ||
              negb (contains key "-----END PUBLIC KEY-----")) invalid
      (cat [command_name; " receipt key is not a PEM public key"])
      (Some "Ed25519 providers require a PEM-encoded public key in RECEIPT KEY.")
  else
    raise_if (Nat.ltb (String.length key) 8) invalid
      (cat [command_name; " receipt key is too short"])
      (Some "Use at least 8 characters for the bootstrap HMAC receipt key.") ;;;
    raise_if (breaks_line key) invalid
      (cat [command_name; " receipt key contains unsupported characters"]) None.

Definition qx_validate_principal_runtime_class (runtime_class : string) (command_name : string) :
    M unit :=
  raise_if (String.eqb runtime_class "") invalid
    (cat [command_name; " runtime class must not be empty"]) None ;;;
  raise_if (negb (String.eqb runtime_class "host") && negb (String.eqb runtime_class "container") &&
            negb (String.eqb runtime_class "microvm")) invalid
    (cat ["unsupported principal runtime class "; quoted runtime_class])
    (Some (cat ["QhapaqXian principals currently support host, container, or microvm runtime ";
                "classes."])).

(** A provider has all three texts or none, so [strcmp] never meets NULL. *)
Definition qx_validate_attestation_binding_values (provider_profile provider_version
    provider_policy principal_profile principal_version principal_policy : cstr)
    (command_name : string) : M unit :=
  let same (a b : cstr) := String.eqb (cstr_or a "") (cstr_or b "") in
  if negb (given provider_profile || given provider_version || given provider_policy) then ret tt
  else
    raise_if (negb (given principal_profile) || negb (given principal_version) ||
              negb (given principal_policy)) not_ready
      (cat [command_name; " attestation contract is incomplete"])
      (Some (cat ["Principals bound to providers with attestation metadata must carry ";
                  "matching profile, version, and policy values."])) ;;;
    raise_if (negb (same provider_profile principal_profile) ||
              negb (same provider_version principal_version) ||
              negb (same provider_policy principal_policy)) not_ready
      (cat [command_name; " attestation contract does not match provider"])
      (Some (cat ["Provider and principal attestation metadata must remain aligned for ";
                  "brokered container and microVM backends."])).

(** The receipt algorithm is a string here: the callers resolve NULL. *)
Definition qx_validate_principal_runtime_binding_values (provider_kind : cstr)
    (receipt_alg : string) (runtime_class sandbox_name receipt_signer attestation_profile
    attestation_version attestation_policy : cstr) (command_name : string) : M unit :=
  let kind := cstr_or provider_kind "" in
  let effective_runtime :=
    text_or runtime_class (qx_default_runtime_for_provider_kind provider_kind) in
  let is_runtime := String.eqb effective_runtime in
  let incompatible :=
    cat [command_name; " runtime class "; quoted effective_runtime;
         " is incompatible with provider kind "; quoted kind] in
  qx_validate_provider_kind provider_kind command_name ;;;
  qx_validate_provider_receipt_alg (Some receipt_alg) command_name ;;;
  qx_validate_principal_runtime_class effective_runtime command_name ;;;
  qx_validate_attestation_metadata attestation_profile attestation_version attestation_policy
    (negb (is_runtime "host")) command_name ;;;
  (if given receipt_signer then qx_validate_principal_receipt_signer receipt_signer command_name
   else ret tt) ;;;
  raise_if ((String.eqb kind "loopback" || String.eqb kind "remote") && negb (is_runtime "host"))
    not_ready incompatible
    (Some (cat ["Loopback and remote providers currently back only host principals. Use KIND ";
                "'container' or KIND 'microvm' for isolated principals."])) ;;;
  raise_if (String.eqb kind "container" && negb (is_runtime "container")) not_ready incompatible
    (Some "Container providers require principals declared with RUNTIME 'container'.") ;;;
  raise_if (String.eqb kind "microvm" && negb (is_runtime "microvm")) not_ready incompatible
    (Some "MicroVM providers require principals declared with RUNTIME 'microvm'.") ;;;
  raise_if (negb (is_runtime "host") && negb (cstr_is sandbox_name "isolated")) not_ready
    (cat [command_name; " runtime class "; quoted effective_runtime; " requires sandbox ";
          quoted "isolated"])
    (Some (cat ["Containerized and microVM-backed principals must run at the strongest local ";
                "sandbox ceiling before broker handoff."])) ;;;
  raise_if (String.eqb receipt_alg "ed25519" && is_blank receipt_signer) not_ready
    (cat [command_name; " requires SIGNER for principals bound to ed25519 providers"])
    (Some (cat ["The provider verifies receipts with a public key, so the principal must ";
                "reference a private signer file."])).

Definition qx_validate_tool_sandbox (sandbox_name : cstr) : M unit :=
  match sandbox_name with
  | None => ret tt
  | Some s =>
      raise_if (negb (String.eqb s "builtin" || String.eqb s "restricted" || String.eqb s "isolated"))
        invalid (cat ["unsupported tool sandbox "; quoted s])
        (Some (cat ["QhapaqXian sandboxes currently accept only builtin, restricted, or ";
                    "isolated."]))
  end.

(** ** Providers of principals *)

Definition provider_row (provideroid : Oid) : M pg_qx_provider :=
  let* found := SearchSysCache pg_qx_provider provideroid in
  match found with
  | None =>
      elog_error (cat ["cache lookup failed for QhapaqXian provider "; show_u provideroid])
  | Some p => ret p
  end.

Definition qx_provider_receipt_alg_by_oid (provideroid : Oid) : M string :=
  let* p := provider_row provideroid in ret (text_or (qxproviderreceiptalg p) "hmac-sha256").
Definition qx_provider_kind_by_oid (provideroid : Oid) : M string :=
  let* p := provider_row provideroid in ret (text_or (qxproviderkind p) "loopback").
Definition qx_provider_attestation_profile_by_oid (provideroid : Oid) : M cstr :=
  let* p := provider_row provideroid in ret (qxproviderattestationprofile p).
Definition qx_provider_attestation_version_by_oid (provideroid : Oid) : M cstr :=
  let* p := provider_row provideroid in ret (qxproviderattestationversion p).
Definition qx_provider_attestation_policy_by_oid (provideroid : Oid) : M cstr :=
  let* p := provider_row provideroid in ret (qxproviderattestationpolicy p).

(** [qx_validate_principal_runtime_binding] of this file. *)
Definition validate_binding_to_provider (provideroid : Oid) (runtime_class sandbox_name
    receipt_signer attestation_profile attestation_version attestation_policy : cstr)
    (command_name : string) : M unit :=
  let* provider_kind := qx_provider_kind_by_oid provideroid in
  let* receipt_alg := qx_provider_receipt_alg_by_oid provideroid in
  let* provider_profile := qx_provider_attestation_profile_by_oid provideroid in
  let* provider_version := qx_provider_attestation_version_by_oid provideroid in
  let* provider_policy := qx_provider_attestation_policy_by_oid provideroid in
  let effective_profile := first_set attestation_profile provider_profile in
  let effective_version := first_set attestation_version provider_version in
  let effective_policy := first_set attestation_policy provider_policy in
  qx_validate_principal_runtime_binding_values (Some provider_kind) receipt_alg runtime_class
    sandbox_name receipt_signer effective_profile effective_version effective_policy
    command_name ;;;
  qx_validate_attestation_binding_values provider_profile provider_version provider_policy
    effective_profile effective_version effective_policy command_name.

(** Each principal of the provider, against the provider's new columns. *)
Definition qx_validate_provider_bound_principals (provideroid : Oid) (provider_kind : cstr)
    (receipt_alg : string) (provider_profile provider_version provider_policy : cstr)
    (command_name : string) : M unit :=
  let* c := gets w_vis in
  mforeach (fun pr =>
      if negb (qxprincipalproviderid pr =? provideroid) then ret tt
      else
        let scope := cat [command_name; " principal "; quoted (qxprincipalname pr)] in
        qx_validate_principal_runtime_binding_values provider_kind receipt_alg
          (qxprincipalruntimeclass pr) (qxprincipalsandbox pr) (qxprincipalreceiptsigner pr)
          (qxprincipalattestationprofile pr) (qxprincipalattestationversion pr)
          (qxprincipalattestationpolicy pr) scope ;;;
        qx_validate_attestation_binding_values provider_profile provider_version provider_policy
          (qxprincipalattestationprofile pr) (qxprincipalattestationversion pr)
          (qxprincipalattestationpolicy pr) scope)
    (c_principals c).

(** ** Rows by name *)

Section WithEnv.
Context (E : Env) (D : DdlEnv).

Definition find_named {R} `{Table R} (name_of : R -> string) (nsp_of : R -> Oid) (name : string)
    (namespaceoid : Oid) (c : catalog) : option R :=
  List.find (fun r => String.eqb (name_of r) name && (nsp_of r =? namespaceoid)) (rows c).

Fixpoint find_on_path {R} `{Table R} (name_of : R -> string) (nsp_of : R -> Oid) (name : string)
    (path : list Oid) (c : catalog) : option (R * Oid) :=
  match path with
  | [] => None
  | nsp :: rest =>
      match find_named name_of nsp_of name nsp c with
      | Some r => Some (r, nsp)
      | None => find_on_path name_of nsp_of name rest c
      end
  end.

(** The row a qualified name stands for, and its schema. *)
Definition lookup_tuple {R} `{Table R} (name_of : R -> string) (nsp_of : R -> Oid) (rv : RangeVar) :
    M (option (R * Oid)) :=
  match rv_schemaname rv with
  | Some schema =>
      let* namespaceoid := lift (LookupExplicitNamespace D schema) in
      gets (fun w => (fun r => (r, namespaceoid)) <$>
                       find_named name_of nsp_of (rv_relname rv) namespaceoid (w_vis w))
  | None => gets (fun w => find_on_path name_of nsp_of (rv_relname rv) (fetch_search_path D) (w_vis w))
  end.

Definition qx_lookup_tool_tuple (rv : RangeVar) : M (option (pg_qx_tool * Oid)) :=
  lookup_tuple qxtoolname qxtoolnamespace rv.
Definition qx_lookup_provider_tuple (rv : RangeVar) : M (option (pg_qx_provider * Oid)) :=
  lookup_tuple qxprovidername qxprovidernamespace rv.
Definition qx_lookup_principal_tuple (rv : RangeVar) : M (option (pg_qx_principal * Oid)) :=
  lookup_tuple qxprincipalname qxprincipalnamespace rv.

(** [object_aclcheck] and [aclcheck_error]. *)
Definition check_create_in_schema (namespaceoid ownerid : Oid) : M unit :=
  raise_if (negb (schema_create_allowed D namespaceoid ownerid)) ERRCODE_INSUFFICIENT_PRIVILEGE
    (cat ["permission denied for schema "; printed (get_namespace_name D namespaceoid)]) None.

Definition check_owner (ownerid rowowner : Oid) (kind name : string) : M unit :=
  raise_if (negb (has_privs_of_role E ownerid rowowner)) ERRCODE_INSUFFICIENT_PRIVILEGE
    (cat ["permission denied to alter "; kind; " "; quoted name])
    (Some (cat ["Only the "; kind; " owner or a member of that role may alter it."])).

Definition already_exists {A} (kind name : string) (namespaceoid : Oid) : M A :=
  throw ERRCODE_DUPLICATE_OBJECT
    (cat [kind; " "; quoted name; " already exists in schema "; schema_text D namespaceoid]) None.

(** ** Bindings *)

Definition qx_validate_principal_provider_binding (namespaceoid ownerid : Oid)
    (provider_name : option RangeVar) : M Oid :=
  match provider_name with
  | None =>
      throw invalid "principal provider must not be omitted"
        (Some "Bind the principal to a CREATE PROVIDER object.")
  | Some rv =>
      let* provideroid := QxLookupProvider D namespaceoid (Some (rv_relname rv)) false in
      let* provider := provider_row provideroid in
      raise_if (negb (qxproviderenabled provider)) not_ready
        (cat ["provider "; quoted (rv_relname rv); " is disabled in schema ";
              schema_text D namespaceoid]) None ;;;
      raise_if (negb (has_privs_of_role E ownerid (qxproviderowner provider)))
        ERRCODE_INSUFFICIENT_PRIVILEGE
        (cat ["permission denied to bind provider "; quoted (rv_relname rv)])
        (Some (cat ["Only the provider owner or a member of that role may bind it to a ";
                    "principal."])) ;;;
      ret provideroid
  end.

Definition qx_validate_tool_principal_binding (namespaceoid ownerid : Oid)
    (principal_name tool_sandbox : cstr) : M Oid :=
  let* principaloid := QxLookupPrincipal D namespaceoid principal_name false in
  let* found := SearchSysCache pg_qx_principal principaloid in
  match found with
  | None =>
      elog_error (cat ["cache lookup failed for QhapaqXian principal "; show_u principaloid])
  | Some principal =>
      let name := quoted (cstr_or principal_name "") in
      raise_if (negb (qxprincipalenabled principal)) not_ready
        (cat ["principal "; name; " is disabled in schema "; schema_text D namespaceoid]) None ;;;
      raise_if (negb (has_privs_of_role E ownerid (qxprincipalowner principal)))
        ERRCODE_INSUFFICIENT_PRIVILEGE (cat ["permission denied to bind principal "; name])
        (Some (cat ["Only the principal owner or a member of that role may bind it to a ";
                    "tool."])) ;;;
      let* tool_rank := qx_sandbox_rank tool_sandbox in
      let* principal_rank := qx_sandbox_rank (qxprincipalsandbox principal) in
      raise_if (principal_rank <? tool_rank) invalid
        (cat ["tool sandbox "; quoted (printed tool_sandbox); " exceeds principal "; name;
              " sandbox ceiling"])
        (Some "A tool may only run at or below the sandbox configured on its principal.") ;;;
      ret principaloid
  end.

(** ** Namespace policies *)

(** A list column; an empty list is stored as NULL. *)
Definition nodes_column (l : list pg_node) : option pg_node :=
  match l with [] => None | _ => Some (NList l) end.

Definition check_auth_role (ownerid authrole : Oid) : M unit :=
  raise_if (negb (has_privs_of_role E ownerid authrole)) ERRCODE_INSUFFICIENT_PRIVILEGE
    (cat ["permission denied to use auth role "; quoted (GetUserNameFromId D authrole)])
    (Some "The namespace policy owner must be able to assume the auth role.").

Definition CreateNamespacePolicyCommand (stmt : CreateNamespacePolicyStmt) : M unit :=
  let* namespaceoid := lift (LookupExplicitNamespace D (cn_schema_name stmt)) in
  let ownerid := GetUserId E in
  let* authrole := match cn_auth_role stmt with
                   | Some r => lift (get_rolespec_oid D r)
                   | None => ret ownerid
                   end in
  check_create_in_schema namespaceoid ownerid ;;;
  check_auth_role ownerid authrole ;;;
  QxValidateToolList (cn_allowed_tools stmt) ;;;
  QxValidateRegisteredTools D namespaceoid (cn_allowed_tools stmt) false ;;;
  let* c := gets w_vis in
  match QxCatalogLookupNamespacePolicyByName c namespaceoid (Some (cn_policy_name stmt)) with
  | Some _ => already_exists "namespace policy" (cn_policy_name stmt) namespaceoid
  | None =>
      QxCatalogInsertNamespacePolicy (cn_policy_name stmt) namespaceoid ownerid authrole
        (cn_require_known_tools stmt) (cn_enforce_budgets stmt)
        (Some (cstr_or (cn_policy_contract stmt) (cn_policy_name stmt)))
        (nodes_column (cn_allowed_tools stmt)) ;;;
      ret tt
  end.

Definition alter_policy_row (stmt : AlterNamespacePolicyStmt) (authrole : option Oid)
    (r : pg_qx_namespace) : pg_qx_namespace :=
  {| namespace_oid := namespace_oid r; qxnamespacepolicyname := qxnamespacepolicyname r;
     qxnamespaceid := qxnamespaceid r; qxnamespaceowner := qxnamespaceowner r;
     qxnamespaceauthrole := or_old authrole (qxnamespaceauthrole r);
     qxrequireknowntools := or_old (an_require_known_tools stmt) (qxrequireknowntools r);
     qxenforcebudgets := or_old (an_enforce_budgets stmt) (qxenforcebudgets r);
     qxnamespacepolicy := first_set (an_policy_contract stmt) (qxnamespacepolicy r);
     qxallowedtools := match an_allowed_tools stmt with
                       | Some l => nodes_column l
                       | None => qxallowedtools r
                       end |}.

Definition AlterNamespacePolicyCommand (stmt : AlterNamespacePolicyStmt) : M unit :=
  raise_if (negb (given (an_auth_role stmt)) && negb (given (an_allowed_tools stmt)) &&
            negb (given (an_policy_contract stmt)) && negb (given (an_require_known_tools stmt)) &&
            negb (given (an_enforce_budgets stmt))) ERRCODE_SYNTAX_ERROR
    "ALTER NAMESPACE POLICY requires at least one change" None ;;;
  let* namespaceoid := lift (LookupExplicitNamespace D (an_schema_name stmt)) in
  let ownerid := GetUserId E in
  let* found := gets (fun w => find_named qxnamespacepolicyname qxnamespaceid
                                 (an_policy_name stmt) namespaceoid (w_vis w)) in
  match found with
  | None =>
      throw ERRCODE_UNDEFINED_OBJECT
        (cat ["namespace policy "; quoted (an_policy_name stmt); " does not exist in schema ";
              schema_text D namespaceoid]) None
  | Some old =>
      check_owner ownerid (qxnamespaceowner old) "namespace policy" (an_policy_name stmt) ;;;
      let* authrole := match an_auth_role stmt with
                       | None => ret None
                       | Some r =>
                           let* role := lift (get_rolespec_oid D r) in
                           check_auth_role ownerid role ;;;
                           ret (Some role)
                       end in
      match an_allowed_tools stmt with
      | None => ret tt
      | Some tools =>
          QxValidateToolList tools ;;;
          QxValidateRegisteredTools D namespaceoid tools false
      end ;;;
      update_row (namespace_oid old) (alter_policy_row stmt authrole)
  end.

(** ** Providers *)

Definition CreateProviderCommand (stmt : CreateProviderStmt) : M unit :=
  let name := rv_relname (cp_provider_name stmt) in
  let* namespaceoid := lift (RangeVarGetCreationNamespace D (cp_provider_name stmt)) in
  let ownerid := GetUserId E in
  let receipt_alg := Some (text_or (cp_receipt_alg stmt) "hmac-sha256") in
  check_create_in_schema namespaceoid ownerid ;;;
  qx_validate_provider_kind (cp_provider_kind stmt) "CREATE PROVIDER" ;;;
  qx_validate_provider_endpoint (cp_provider_kind stmt) (cp_endpoint_name stmt)
    "CREATE PROVIDER" ;;;
  qx_validate_provider_receipt_alg receipt_alg "CREATE PROVIDER" ;;;
  qx_validate_provider_receipt_key receipt_alg (cp_receipt_key stmt) "CREATE PROVIDER" ;;;
  qx_validate_provider_isolation_contract (cp_provider_kind stmt) receipt_alg
    (cp_attestation_profile stmt) (cp_attestation_version stmt) (cp_attestation_policy stmt)
    (cp_attestation_required stmt) "CREATE PROVIDER" ;;;
  let* c := gets w_vis in
  match QxCatalogLookupProviderByName c namespaceoid (Some name) with
  | Some _ => already_exists "provider" name namespaceoid
  | None =>
      QxCatalogInsertProvider name namespaceoid ownerid true (cp_attestation_required stmt)
        (cp_provider_kind stmt) (cp_endpoint_name stmt) receipt_alg (cp_receipt_key stmt)
        (cp_attestation_profile stmt) (cp_attestation_version stmt)
        (cp_attestation_policy stmt) ;;;
      ret tt
  end.

Definition alter_provider_row (stmt : AlterProviderStmt) (r : pg_qx_provider) : pg_qx_provider :=
  {| provider_oid := provider_oid r; qxprovidername := qxprovidername r;
     qxprovidernamespace := qxprovidernamespace r; qxproviderowner := qxproviderowner r;
     qxproviderenabled := or_old (ap_enabled stmt) (qxproviderenabled r);
     qxproviderattestationrequired :=
       or_old (ap_attestation_required stmt) (qxproviderattestationrequired r);
     qxproviderkind := first_set (ap_provider_kind stmt) (qxproviderkind r);
     qxproviderendpoint := first_set (ap_endpoint_name stmt) (qxproviderendpoint r);
     qxproviderreceiptalg := first_set (ap_receipt_alg stmt) (qxproviderreceiptalg r);
     qxproviderreceiptkey := first_set (ap_receipt_key stmt) (qxproviderreceiptkey r);
     qxproviderattestationprofile :=
       first_set (ap_attestation_profile stmt) (qxproviderattestationprofile r);
     qxproviderattestationversion :=
       first_set (ap_attestation_version stmt) (qxproviderattestationversion r);
     qxproviderattestationpolicy :=
       first_set (ap_attestation_policy stmt) (qxproviderattestationpolicy r) |}.

Definition alter_provider_empty (stmt : AlterProviderStmt) : bool :=
  negb (given (ap_provider_kind stmt)) && negb (given (ap_endpoint_name stmt)) &&
  negb (given (ap_receipt_alg stmt)) && negb (given (ap_receipt_key stmt)) &&
  negb (given (ap_attestation_profile stmt)) && negb (given (ap_attestation_version stmt)) &&
  negb (given (ap_attestation_policy stmt)) && negb (given (ap_attestation_required stmt)) &&
  negb (given (ap_enabled stmt)).

(** The checks of ALTER PROVIDER; what the row will hold is checked as it will
    be stored. *)
Definition check_altered_provider (stmt : AlterProviderStmt) (old : pg_qx_provider) : M unit :=
  let command := "ALTER PROVIDER" in
  let new := alter_provider_row stmt old in
  let effective_alg := text_or (qxproviderreceiptalg new) "hmac-sha256" in
  (if given (ap_provider_kind stmt)
   then qx_validate_provider_kind (ap_provider_kind stmt) command else ret tt) ;;;
  (if given (ap_receipt_alg stmt)
   then qx_validate_provider_receipt_alg (ap_receipt_alg stmt) command else ret tt) ;;;
  validate_attestation_texts (ap_attestation_profile stmt) (ap_attestation_version stmt)
    (ap_attestation_policy stmt) command ;;;
  (if given (ap_provider_kind stmt) || given (ap_endpoint_name stmt)
   then qx_validate_provider_endpoint (qxproviderkind new) (qxproviderendpoint new) command
   else ret tt) ;;;
  (if given (ap_receipt_alg stmt) || given (ap_receipt_key stmt)
   then qx_validate_provider_receipt_key (Some effective_alg) (qxproviderreceiptkey new) command
   else ret tt) ;;;
  qx_validate_provider_isolation_contract (qxproviderkind new) (Some effective_alg)
    (qxproviderattestationprofile new) (qxproviderattestationversion new)
    (qxproviderattestationpolicy new) (qxproviderattestationrequired new) command ;;;
  qx_validate_provider_bound_principals (provider_oid old) (qxproviderkind new) effective_alg
    (qxproviderattestationprofile new) (qxproviderattestationversion new)
    (qxproviderattestationpolicy new) command.

Definition AlterProviderCommand (stmt : AlterProviderStmt) : M unit :=
  let name := rv_relname (ap_provider_name stmt) in
  raise_if (alter_provider_empty stmt) ERRCODE_SYNTAX_ERROR
    "ALTER PROVIDER requires at least one change" None ;;;
  let ownerid := GetUserId E in
  let* found := qx_lookup_provider_tuple (ap_provider_name stmt) in
  match found with
  | None =>
      throw ERRCODE_UNDEFINED_OBJECT (cat ["provider "; quoted name; " does not exist"]) None
  | Some (old, _) =>
      check_owner ownerid (qxproviderowner old) "provider" name ;;;
      check_altered_provider stmt old ;;;
      update_row (provider_oid old) (alter_provider_row stmt)
  end.

(** ** Principals *)

Definition default_runtime_class (runtime_class : cstr) (provideroid : Oid) : M string :=
  if negb (is_blank runtime_class) then ret (cstr_or runtime_class "")
  else let* kind := qx_provider_kind_by_oid provideroid in
       ret (qx_default_runtime_for_provider_kind (Some kind)).

Definition CreatePrincipalCommand (stmt : CreatePrincipalStmt) : M unit :=
  let name := rv_relname (cr_principal_name stmt) in
  let* namespaceoid := lift (RangeVarGetCreationNamespace D (cr_principal_name stmt)) in
  let ownerid := GetUserId E in
  check_create_in_schema namespaceoid ownerid ;;;
  qx_validate_tool_sandbox (cr_sandbox_name stmt) ;;;
  qx_validate_principal_program (cr_program_name stmt) "CREATE PRINCIPAL" ;;;
  let* provideroid :=
    qx_validate_principal_provider_binding namespaceoid ownerid (cr_provider_name stmt) in
  let* provider_profile := qx_provider_attestation_profile_by_oid provideroid in
  let* provider_version := qx_provider_attestation_version_by_oid provideroid in
  let* provider_policy := qx_provider_attestation_policy_by_oid provideroid in
  let* runtime_class := default_runtime_class (cr_runtime_class stmt) provideroid in
  let profile := first_set (cr_attestation_profile stmt) provider_profile in
  let version := first_set (cr_attestation_version stmt) provider_version in
  let policy := first_set (cr_attestation_policy stmt) provider_policy in
  validate_binding_to_provider provideroid (Some runtime_class) (cr_sandbox_name stmt)
    (cr_receipt_signer stmt) profile version policy "CREATE PRINCIPAL" ;;;
  let* c := gets w_vis in
  match QxCatalogLookupPrincipalByName c namespaceoid (Some name) with
  | Some _ => already_exists "principal" name namespaceoid
  | None =>
      QxCatalogInsertPrincipal name namespaceoid ownerid provideroid (cr_enabled stmt)
        (cr_sandbox_name stmt) (cr_program_name stmt) (rv_relname <$> cr_provider_name stmt)
        (Some runtime_class) (cr_receipt_signer stmt) profile version policy ;;;
      ret tt
  end.

Definition alter_principal_row (stmt : AlterPrincipalStmt) (provideroid : option Oid)
    (profile version policy : cstr) (r : pg_qx_principal) : pg_qx_principal :=
  {| principal_oid := principal_oid r; qxprincipalname := qxprincipalname r;
     qxprincipalnamespace := qxprincipalnamespace r; qxprincipalowner := qxprincipalowner r;
     qxprincipalproviderid := or_old provideroid (qxprincipalproviderid r);
     qxprincipalenabled := or_old (ar_enabled stmt) (qxprincipalenabled r);
     qxprincipalsandbox := first_set (ar_sandbox_name stmt) (qxprincipalsandbox r);
     qxprincipalprogram := first_set (ar_program_name stmt) (qxprincipalprogram r);
     qxprincipalprovider := first_set (rv_relname <$> ar_provider_name stmt) (qxprincipalprovider r);
     qxprincipalruntimeclass := first_set (ar_runtime_class stmt) (qxprincipalruntimeclass r);
     qxprincipalreceiptsigner := first_set (ar_receipt_signer stmt) (qxprincipalreceiptsigner r);
     qxprincipalattestationprofile := profile;
     qxprincipalattestationversion := version;
     qxprincipalattestationpolicy := policy |}.

Definition alter_principal_empty (stmt : AlterPrincipalStmt) : bool :=
  negb (given (ar_provider_name stmt)) && negb (given (ar_program_name stmt)) &&
  negb (given (ar_sandbox_name stmt)) && negb (given (ar_runtime_class stmt)) &&
  negb (given (ar_receipt_signer stmt)) && negb (given (ar_attestation_profile stmt)) &&
  negb (given (ar_attestation_version stmt)) && negb (given (ar_attestation_policy stmt)) &&
  negb (given (ar_enabled stmt)).

Definition alter_principal (stmt : AlterPrincipalStmt) (old : pg_qx_principal)
    (namespaceoid ownerid : Oid) : M unit :=
  let* provideroid :=
    if given (ar_provider_name stmt)
    then let* o := qx_validate_principal_provider_binding namespaceoid ownerid
                     (ar_provider_name stmt) in ret (Some o)
    else ret None in
  (if given (ar_program_name stmt)
   then qx_validate_principal_program (ar_program_name stmt) "ALTER PRINCIPAL" else ret tt) ;;;
  qx_validate_tool_sandbox (ar_sandbox_name stmt) ;;;
  validate_attestation_texts (ar_attestation_profile stmt) (ar_attestation_version stmt)
    (ar_attestation_policy stmt) "ALTER PRINCIPAL" ;;;
  let effective_provider := or_old provideroid (qxprincipalproviderid old) in
  let* runtime_class :=
    default_runtime_class (first_set (ar_runtime_class stmt) (qxprincipalruntimeclass old))
      effective_provider in
  let* provider_profile := qx_provider_attestation_profile_by_oid effective_provider in
  let* provider_version := qx_provider_attestation_version_by_oid effective_provider in
  let* provider_policy := qx_provider_attestation_policy_by_oid effective_provider in
  let profile := first_set (first_set (ar_attestation_profile stmt)
                              (qxprincipalattestationprofile old)) provider_profile in
  let version := first_set (first_set (ar_attestation_version stmt)
                              (qxprincipalattestationversion old)) provider_version in
  let policy := first_set (first_set (ar_attestation_policy stmt)
                             (qxprincipalattestationpolicy old)) provider_policy in
  validate_binding_to_provider effective_provider (Some runtime_class)
    (first_set (ar_sandbox_name stmt) (qxprincipalsandbox old))
    (first_set (ar_receipt_signer stmt) (qxprincipalreceiptsigner old))
    profile version policy "ALTER PRINCIPAL" ;;;
  update_row (principal_oid old) (alter_principal_row stmt provideroid profile version policy).

Definition AlterPrincipalCommand (stmt : AlterPrincipalStmt) : M unit :=
  let name := rv_relname (ar_principal_name stmt) in
  raise_if (alter_principal_empty stmt) ERRCODE_SYNTAX_ERROR
    "ALTER PRINCIPAL requires at least one change" None ;;;
  let ownerid := GetUserId E in
  let* found := qx_lookup_principal_tuple (ar_principal_name stmt) in
  match found with
  | None =>
      throw ERRCODE_UNDEFINED_OBJECT (cat ["principal "; quoted name; " does not exist"]) None
  | Some (old, namespaceoid) =>
      check_owner ownerid (qxprincipalowner old) "principal" name ;;;
      alter_principal stmt old namespaceoid ownerid
  end.

(** ** Tools *)

Definition check_tool_policy (namespaceoid : Oid) (policy_name : cstr) : M unit :=
  if given policy_name
  then QxLookupNamespacePolicy D namespaceoid policy_name false ;;; ret tt
  else ret tt.

Definition CreateToolCommand (stmt : CreateToolStmt) : M unit :=
  let name := rv_relname (ct_tool_name stmt) in
  let* namespaceoid := lift (RangeVarGetCreationNamespace D (ct_tool_name stmt)) in
  let ownerid := GetUserId E in
  check_create_in_schema namespaceoid ownerid ;;;
  qx_validate_tool_costs (ct_token_cost stmt) (ct_cost_units stmt) "CREATE TOOL" ;;;
  qx_validate_tool_sandbox (ct_sandbox_name stmt) ;;;
  let* principaloid := qx_validate_tool_principal_binding namespaceoid ownerid
    (ct_principal_name stmt) (ct_sandbox_name stmt) in
  check_tool_policy namespaceoid (ct_policy_name stmt) ;;;
  let* c := gets w_vis in
  match QxCatalogLookupToolByName c namespaceoid (Some name) with
  | Some _ => already_exists "tool" name namespaceoid
  | None =>
      QxCatalogInsertTool name namespaceoid ownerid principaloid (ct_enabled stmt)
        (ct_token_cost stmt) (ct_cost_units stmt) (ct_handler_name stmt) (ct_sandbox_name stmt)
        (ct_principal_name stmt) (ct_policy_name stmt) ;;;
      ret tt
  end.

Definition alter_tool_row (stmt : AlterToolStmt) (principaloid : Oid) (r : pg_qx_tool) :
    pg_qx_tool :=
  {| tool_oid := tool_oid r; qxtoolname := qxtoolname r; qxtoolnamespace := qxtoolnamespace r;
     qxtoolowner := qxtoolowner r;
     qxtoolprincipalid :=
       if given (at_principal_name stmt) then principaloid else qxtoolprincipalid r;
     qxtoolenabled := or_old (at_enabled stmt) (qxtoolenabled r);
     qxtooltokencost := or_old (at_token_cost stmt) (qxtooltokencost r);
     qxtoolcostunits := or_old (at_cost_units stmt) (qxtoolcostunits r);
     qxtoolhandler := first_set (at_handler_name stmt) (qxtoolhandler r);
     qxtoolsandbox := first_set (at_sandbox_name stmt) (qxtoolsandbox r);
     qxtoolruntimeclass := qxtoolruntimeclass r;
     qxtoolsandboxceiling := qxtoolsandboxceiling r;
     qxtoolcapabilitytags := qxtoolcapabilitytags r;
     qxtoolprincipal := first_set (at_principal_name stmt) (qxtoolprincipal r);
     qxtoolpolicy := first_set (at_policy_name stmt) (qxtoolpolicy r) |}.

Definition alter_tool_empty (stmt : AlterToolStmt) : bool :=
  negb (given (at_handler_name stmt)) && negb (given (at_sandbox_name stmt)) &&
  negb (given (at_principal_name stmt)) && negb (given (at_policy_name stmt)) &&
  negb (given (at_token_cost stmt)) && negb (given (at_cost_units stmt)) &&
  negb (given (at_enabled stmt)).

Definition AlterToolCommand (stmt : AlterToolStmt) : M unit :=
  let name := rv_relname (at_tool_name stmt) in
  raise_if (alter_tool_empty stmt) ERRCODE_SYNTAX_ERROR
    "ALTER TOOL requires at least one change" None ;;;
  let ownerid := GetUserId E in
  let* found := qx_lookup_tool_tuple (at_tool_name stmt) in
  match found with
  | None => throw ERRCODE_UNDEFINED_OBJECT (cat ["tool "; quoted name; " does not exist"]) None
  | Some (old, namespaceoid) =>
      check_owner ownerid (qxtoolowner old) "tool" name ;;;
      qx_validate_tool_sandbox (at_sandbox_name stmt) ;;;
      (if given (at_token_cost stmt) || given (at_cost_units stmt)
       then qx_validate_tool_costs (or_old (at_token_cost stmt) (qxtooltokencost old))
              (or_old (at_cost_units stmt) (qxtoolcostunits old)) "ALTER TOOL"
       else ret tt) ;;;
      check_tool_policy namespaceoid (at_policy_name stmt) ;;;
      let* principaloid := qx_validate_tool_principal_binding namespaceoid ownerid
        (first_set (at_principal_name stmt) (qxtoolprincipal old))
        (first_set (at_sandbox_name stmt) (qxtoolsandbox old)) in
      update_row (tool_oid old) (alter_tool_row stmt principaloid)
  end.

End WithEnv.
