(* ===== verification/RecoveryHooks.v ===== *)
(** * The runtime's recovery hooks and the scans that use them

    The hooks of [src/src/backend/qx/runtime/qx_runtime.c] that write the
    ledger rows and the replayed records of a recovery pass, the startup scan a
    backend runs once, and the SQL functions that run a scan. *)

From Stdlib Require Import Ascii String.
From S2P Require Import Prelude Text Types Scheduler Stat Observe SemanticLog Tables World.
From S2P Require Import Catalog Recovery Policy Backends ToolExec Envelope.
Open Scope string_scope.
Open Scope Z_scope.
Open Scope bool_scope.
Open Scope list_scope.

(** The queue entries this pass has made, by task.  The other members of the
    C context are open relations and the owner, which no hook reads. *)
Definition QxRuntimeRecoveryHooksContext := list (Oid * Oid).

Fixpoint set_queue_entry (taskoid queueoid : Oid) (entries : QxRuntimeRecoveryHooksContext) :
    QxRuntimeRecoveryHooksContext :=
  match entries with
  | [] => [(taskoid, queueoid)]
  | (t, q) :: rest =>
      if t =? taskoid then (t, queueoid) :: rest else (t, q) :: set_queue_entry taskoid queueoid rest
  end.

Definition qx_runtime_remember_recovery_queueoid (taskoid queueoid : Oid)
    (context : QxRuntimeRecoveryHooksContext) : QxRuntimeRecoveryHooksContext :=
  if negb (OidIsValid taskoid) || negb (OidIsValid queueoid) then context
  else set_queue_entry taskoid queueoid context.

Definition qx_runtime_lookup_recovery_queueoid (context : QxRuntimeRecoveryHooksContext)
    (taskoid : Oid) : Oid :=
  if negb (OidIsValid taskoid) then InvalidOid
  else match List.find (fun entry => fst entry =? taskoid) context with
       | Some entry => snd entry
       | None => InvalidOid
       end.

Section WithEnv.
Context (E : Env).

(** ** Hooks *)

Definition qx_runtime_recovery_begin (report : QxRecoveryReport)
    (context : QxRuntimeRecoveryHooksContext) : M QxRuntimeRecoveryHooksContext :=
  ret [].

Definition recovery_task_missing {A} (taskoid : Oid) : M A :=
  elog_error (cat ["cache lookup failed for QhapaqXian recovery task "; show_u taskoid]).

Definition qx_runtime_recovery_requeue_task (summary : QxRecoveryTaskSummary)
    (context : QxRuntimeRecoveryHooksContext) : M QxRuntimeRecoveryHooksContext :=
  if negb (OidIsValid (ts_taskoid summary)) then ret context
  else if negb (OidIsValid (ts_lastattemptoid summary)) then ret context
  else
    let* c := gets w_vis in
    match QxCatalogLookupTaskByOid c (ts_taskoid summary) with
    | None => recovery_task_missing (ts_taskoid summary)
    | Some task =>
        let prefer_resume := OidIsValid (ts_lastcheckpointoid summary) in
        let checkpoint_label :=
          qx_runtime_recovery_checkpoint_label c (ts_lastcheckpointoid summary) in
        let* selected_contract := qx_runtime_recovery_selected_contract task prefer_resume in
        let retry_count := Z.max (ts_attempt_count summary) 0 in
        let envelope :=
          qx_runtime_fill_recovery_scheduler_envelope task (ts_lastattemptoid summary) retry_count
            checkpoint_label checkpoint_label true true (0 <? retry_count) selected_contract in
        let* snapshot := queue_snapshot_now E envelope in
        let* queueoid := enqueue E (set_queue_kind QX_SCHEDULER_QUEUE_RECOVERY retry_count snapshot) in
        ret (qx_runtime_remember_recovery_queueoid (ts_taskoid summary) queueoid context)
    end.

Definition qx_runtime_recovery_fence_attempt (summary : QxRecoveryAttemptSummary)
    (context : QxRuntimeRecoveryHooksContext) : M QxRuntimeRecoveryHooksContext :=
  if negb (OidIsValid (as_attemptoid summary)) || negb (OidIsValid (as_taskoid summary))
  then ret context
  else
    let* c := gets w_vis in
    match QxCatalogLookupTaskByOid c (as_taskoid summary) with
    | None => recovery_task_missing (as_taskoid summary)
    | Some task =>
        let prefer_resume := cstr_is (as_strategy summary) "resume" in
        let checkpoint_label :=
          qx_runtime_recovery_checkpoint_label c (qxtasklastcheckpointid (ti_row task)) in
        let resume_label := if prefer_resume then checkpoint_label else None in
        let* selected_contract := qx_runtime_recovery_selected_contract task prefer_resume in
        let retry_count := Z.max (as_seqno summary) 0 in
        let envelope :=
          qx_runtime_fill_recovery_scheduler_envelope task (as_attemptoid summary) retry_count
            checkpoint_label resume_label prefer_resume true (1 <? as_seqno summary)
            selected_contract in
        let known := qx_runtime_lookup_recovery_queueoid context (as_taskoid summary) in
        let* queued :=
          if negb (OidIsValid known) then
            let* snapshot := queue_snapshot_now E envelope in
            let* queueoid :=
              enqueue E (set_queue_kind QX_SCHEDULER_QUEUE_RECOVERY retry_count snapshot) in
            ret (queueoid,
                 qx_runtime_remember_recovery_queueoid (as_taskoid summary) queueoid context)
          else ret (known, context) in
        let '(queueoid, context) := queued in
        let* lease := lease_snapshot_now E envelope InvalidOid (Some "embedded-runtime") in
        let* reclaimed := release_lease_now E lease true in
        let* leaseoid := QxCatalogInsertSchedulerLease E queueoid reclaimed in
        let* heartbeat := finalize_heartbeat_now E reclaimed (Some "scheduler-reclaim") in
        let* _ := QxCatalogInsertSchedulerHeartbeat E leaseoid
                    (set_heartbeat_missed (e_heartbeat_interval_ms envelope) heartbeat) in
        CommandCounterIncrement ;;;
        ret context
    end.

(** The text of a replay trace. *)
Definition replay_detail (checkpointoid : Oid) (source_lsn replay_lsn : Z) : string :=
  cat ["checkpoint_oid="; show_u checkpointoid; ";source_lsn="; show_lsn source_lsn;
       ";replay_lsn="; show_lsn replay_lsn].

Definition QxEmitSemanticCheckpointRecord
    (checkpointoid sessionoid taskoid attemptoid stepoid ownerid : Oid)
    (checkpoint_state task_state : ascii) (nextstepseqno : Z) (label data : cstr) : M Z :=
  LogLogicalMessage E QX_SEMANTIC_PREFIX
    (json_object_text (semantic_checkpoint_fields checkpointoid sessionoid taskoid attemptoid
                         stepoid ownerid None checkpoint_state task_state nextstepseqno label data)).

Definition qx_runtime_recovery_replay_checkpoint (summary : QxRecoveryCheckpointSummary)
    (context : QxRuntimeRecoveryHooksContext) : M QxRuntimeRecoveryHooksContext :=
  if negb (OidIsValid (cs_checkpointoid summary)) then ret context
  else
    let* c := gets w_vis in
    match QxCatalogLookupCheckpointByOid c (cs_checkpointoid summary) with
    | None => elog_error (cat ["cache lookup failed for QhapaqXian checkpoint ";
                               show_u (cs_checkpointoid summary)])
    | Some k =>
        let* replay_lsn := QxEmitSemanticCheckpointRecord (cs_checkpointoid summary)
          (qxcheckpointsessionid k) (qxcheckpointtaskid k) (qxcheckpointattemptid k)
          (qxcheckpointstepid k) (qxcheckpointowner k) (qxcheckpointstate k)
          (qxcheckpointtaskstate k) (qxcheckpointnextstepseqno k) (qxcheckpointlabel k)
          (qxcheckpointdata k) in
        let* _ := QxCatalogInsertTrace E (qxcheckpointsessionid k) (qxcheckpointtaskid k)
          (qxcheckpointstepid k) (qxcheckpointowner k) None QX_TRACE_STATE_CLOSED
          (Some QX_RECOVERY_SEMANTIC_REPLAY_TRACE)
          (Some (replay_detail (cs_checkpointoid summary) (cs_semantic_lsn summary) replay_lsn)) in
        CommandCounterIncrement ;;;
        ret context
    end.

Definition qx_runtime_recovery_finish (report : QxRecoveryReport)
    (context : QxRuntimeRecoveryHooksContext) : M QxRuntimeRecoveryHooksContext :=
  report_stat (QxStatReportRecoveryScan (qhapaqxian_track_stats E) (MyDatabaseId E) (Some report)
                 (r_failover_rebuild report)) ;;;
  ret [].

Definition startup_hooks : QxRecoveryHooks QxRuntimeRecoveryHooksContext :=
  {| hk_begin := Some qx_runtime_recovery_begin; hk_task := None; hk_attempt := None;
     hk_checkpoint := None; hk_fence_attempt := Some qx_runtime_recovery_fence_attempt;
     hk_requeue_task := Some qx_runtime_recovery_requeue_task; hk_replay_checkpoint := None;
     hk_finish := Some qx_runtime_recovery_finish |}.

Definition failover_hooks : QxRecoveryHooks QxRuntimeRecoveryHooksContext :=
  {| hk_begin := Some qx_runtime_recovery_begin; hk_task := None; hk_attempt := None;
     hk_checkpoint := None; hk_fence_attempt := Some qx_runtime_recovery_fence_attempt;
     hk_requeue_task := Some qx_runtime_recovery_requeue_task;
     hk_replay_checkpoint := Some qx_runtime_recovery_replay_checkpoint;
     hk_finish := Some qx_runtime_recovery_finish |}.

Definition semantic_replay_hooks : QxRecoveryHooks QxRuntimeRecoveryHooksContext :=
  {| hk_begin := Some qx_runtime_recovery_begin; hk_task := None; hk_attempt := None;
     hk_checkpoint := None; hk_fence_attempt := None; hk_requeue_task := None;
     hk_replay_checkpoint := Some qx_runtime_recovery_replay_checkpoint;
     hk_finish := Some qx_runtime_recovery_finish |}.

(** ** The startup scan, once per database and owner *)

Definition startup_request (ownerid : Oid) : QxRecoveryStartupRequest :=
  {| sr_databaseoid := MyDatabaseId E; sr_ownerid := ownerid; sr_include_attempts := true;
     sr_include_checkpoints := true; sr_fence_stale_attempts := true;
     sr_requeue_checkpointed_tasks := true; sr_rebuild_from_semantic_log := false |}.

Definition qx_runtime_ensure_startup_recovery_scan (ownerid : Oid) : M unit :=
  let effective_ownerid := if OidIsValid ownerid then ownerid else GetUserId E in
  let* snapshot := gets w_recovery in
  if rs_valid snapshot && (rs_databaseoid snapshot =? MyDatabaseId E) &&
     (rs_ownerid snapshot =? effective_ownerid)
  then ret tt
  else
    let* scanned := QxRecoveryRunStartupScan E (Some (startup_request effective_ownerid))
                      (Some startup_hooks) [] in
    modify (set_recovery (MkRecoverySnapshot true (MyDatabaseId E) effective_ownerid (fst scanned))).

(** ** SQL functions *)

Definition pg_qx_recovery_scan : M QxRecoveryReport :=
  let* scanned := QxRecoveryRunStartupScan (U := unit) E (Some (startup_request (GetUserId E)))
                    None tt in
  ret (fst scanned).

Definition failover_request : QxRecoveryFailoverRequest :=
  {| fr_databaseoid := MyDatabaseId E; fr_ownerid := GetUserId E; fr_rebuild_task_graph := true;
     fr_rebuild_attempt_graph := true; fr_rebuild_checkpoint_graph := true;
     fr_replay_semantic_log := true; fr_fence_orphaned_attempts := true;
     fr_requeue_checkpointed_tasks := true |}.

Definition semantic_replay_request : QxRecoveryFailoverRequest :=
  {| fr_databaseoid := MyDatabaseId E; fr_ownerid := GetUserId E; fr_rebuild_task_graph := false;
     fr_rebuild_attempt_graph := false; fr_rebuild_checkpoint_graph := true;
     fr_replay_semantic_log := true; fr_fence_orphaned_attempts := false;
     fr_requeue_checkpointed_tasks := false |}.

Definition pg_qx_recovery_failover_scan : M QxRecoveryReport :=
  let* scanned := QxRecoveryRunFailoverRebuild (U := unit) E (Some failover_request) None tt in
  ret (fst scanned).

Definition set_recovery_valid (valid : bool) (s : QxRuntimeRecoverySnapshot) :
    QxRuntimeRecoverySnapshot :=
  MkRecoverySnapshot valid (rs_databaseoid s) (rs_ownerid s) (rs_report s).

Definition pg_qx_test_run_startup_recovery : M string :=
  modify (fun w => set_recovery (set_recovery_valid false (w_recovery w)) w) ;;;
  qx_runtime_ensure_startup_recovery_scan (GetUserId E) ;;;
  qx_runtime_append_recovery_payload (Some "test=startup_recovery").

Definition pg_qx_test_run_failover_rebuild : M string :=
  let* scanned := QxRecoveryRunFailoverRebuild E (Some failover_request) (Some failover_hooks) [] in
  ret (qx_runtime_failover_recovery_payload (Some "test=failover_rebuild") (fst scanned)).

Definition pg_qx_test_run_semantic_replay : M string :=
  let* scanned := QxRecoveryRunFailoverRebuild E (Some semantic_replay_request)
                    (Some semantic_replay_hooks) [] in
  ret (qx_runtime_failover_recovery_payload (Some "test=semantic_replay") (fst scanned)).

End WithEnv.
