(* ===== verification/Lifecycle.v ===== *)
(** * The task lifecycle: submit and resume

    [QxRuntimeSubmitTask] and [QxRuntimeResumeTask] of
    [src/src/backend/qx/runtime/qx_runtime.c], statement by statement, on the
    catalogs, the scheduler ledger, the semantic log and the statistics.  The
    stretches both functions share (the tool step, the checkpoint, handing the
    lease back) are definitions of their own. *)

From Stdlib Require Import Ascii String.
From S2P Require Import Prelude Text Types Scheduler Stat Observe SemanticLog Tables World.
From S2P Require Import Catalog Recovery Policy Backends ToolExec Envelope RecoveryHooks.
Open Scope string_scope.
Open Scope Z_scope.
Open Scope bool_scope.
Open Scope list_scope.

Definition or_unknown (v : cstr) : string := cstr_or v "<unknown>".
Definition or_unnamed (v : cstr) : string := cstr_or v "<unnamed>".
Definition is_present {A} (v : option A) : bool := match v with Some _ => true | None => false end.

Definition checkpoint_data_text (taskoid attemptoid sessionoid : Oid) (next_step : Z) : string :=
  cat ["task="; show_u taskoid; ";attempt="; show_u attemptoid; ";session="; show_u sessionoid;
       ";next_step="; show_d next_step].

Section WithEnv.
Context (E : Env) (T : ToolEnv).

Definition qx_fetch_agent_name (agentoid : Oid) : M string :=
  let* c := gets w_vis in
  match QxCatalogLookupAgentByOid c agentoid with
  | None => elog_error (cat ["cache lookup failed for QhapaqXian agent "; show_u agentoid])
  | Some agent => ret (qxagentname agent)
  end.

Definition qx_fetch_attempt_seqno (attemptoid : Oid) : M Z :=
  let* c := gets w_vis in
  match QxCatalogLookupAttemptByOid c attemptoid with
  | None => elog_error (cat ["cache lookup failed for QhapaqXian attempt "; show_u attemptoid])
  | Some attempt => ret (qxattemptseqno attempt)
  end.

(** ** Stretches of both functions *)

(** The step that executes the contract's tool, charges for it and records it. *)
Definition tool_step (sessionoid taskoid ownerid : Oid) (seqno : Z) (phase : string)
    (step_detail : string) (contract goal : cstr) (input_present : bool) :
    M QxSemanticExecutionMetadata :=
  let external := "external_" +:+ phase in
  let* stepoid := QxCatalogInsertStep E sessionoid taskoid seqno
                    (Some ("stage16." +:+ external)) (Some step_detail) in
  let* tool_result := qx_execute_tool_contract E T contract (Some phase) taskoid goal input_present in
  let semantic_meta := qx_build_semantic_execution_metadata tool_result in
  QxCatalogChargeTaskBudget taskoid (xr_token_charge tool_result) (xr_cost_charge tool_result)
    external ;;;
  record_both E sessionoid taskoid stepoid ownerid (Some semantic_meta) "TASK_TOOL_EXECUTED"
    ("runtime." +:+ external) (qx_format_external_execution_payload (Some phase) tool_result) ;;;
  ret semantic_meta.

(** A step with a fixed charge, then its event and trace. *)
Definition charged_step (sessionoid taskoid ownerid : Oid) (seqno : Z) (name detail : string)
    (tokens cost : Z) (charge : string) (metadata : option QxSemanticExecutionMetadata)
    (kind trace payload : string) : M Oid :=
  let* stepoid := QxCatalogInsertStep E sessionoid taskoid seqno (Some name) (Some detail) in
  QxCatalogChargeTaskBudget taskoid tokens cost charge ;;;
  record_both E sessionoid taskoid stepoid ownerid metadata kind trace payload ;;;
  ret stepoid.

(** The checkpoint row, the new states of attempt and task, the released lease. *)
Definition checkpoint_and_release (sessionoid taskoid attemptoid stepoid ownerid queueoid : Oid)
    (meta : QxSemanticExecutionMetadata) (task_state attempt_state : ascii) (next_step : Z)
    (label : string) (lease : QxSchedulerLeaseSnapshot) : M unit :=
  let* checkpointoid := QxCatalogInsertCheckpoint E sessionoid taskoid attemptoid stepoid ownerid
    (Some meta) task_state (int16 next_step) (Some label)
    (Some (checkpoint_data_text taskoid attemptoid sessionoid next_step)) in
  QxCatalogUpdateAttemptState attemptoid attempt_state ;;;
  QxCatalogUpdateTaskRuntime taskoid task_state attemptoid true checkpointoid true ;;;
  close_lease E queueoid lease.

(** ** Submit *)

Definition submit_admit (request : QxRuntimeTaskRequest) (taskoid attemptoid queueoid : Oid)
    (envelope : QxSchedulerTaskEnvelope) : M QxSchedulerLeaseSnapshot :=
  let sessionoid := tr_sessionoid request in
  let ownerid := tr_ownerid request in
  let* payload := runtime_payload E
    (cat ["goal="; cstr_or (tr_goal request) "(null)";
          ";priority="; qx_effective_priority_name (tr_priority request)]) envelope false in
  record_both E sessionoid taskoid InvalidOid ownerid None "TASK_QUEUED" "runtime.queue" payload ;;;
  QxCatalogUpdateTaskRuntime taskoid QX_TASK_STATE_RUNNING attemptoid true InvalidOid false ;;;
  let* stepoid := QxCatalogInsertStep E sessionoid taskoid 1 (Some "stage8.scheduler_admit")
    (Some "Stage 26 scheduler contract admitted attempt 1 into the embedded runtime") in
  QxCatalogChargeTaskBudget taskoid 16 17 "scheduler_admit" ;;;
  let* payload := runtime_payload E
    (cat ["attempt_opened;state="; String QX_TASK_STATE_RUNNING "";
          ";identity="; or_unknown (tr_identity_name request);
          ";namespace_policy="; or_unknown (tr_namespace_policy_name request);
          ";tools="; show_d (Z.of_nat (List.length (tr_authorized_tools request)));
          ";budget_cost="; show_d (tr_budget_cost request);
          ";budget_tokens="; show_d (tr_budget_tokens request)]) envelope true in
  let* lease := open_lease E queueoid envelope (Some "embedded-runtime") in
  record_both E sessionoid taskoid stepoid ownerid None "TASK_DISPATCHED" "runtime.dispatch"
    payload ;;;
  ret lease.

Definition submit_steps (request : QxRuntimeTaskRequest) (taskoid : Oid) (contract : cstr) :
    M (Oid * QxSemanticExecutionMetadata) :=
  let sessionoid := tr_sessionoid request in
  let ownerid := tr_ownerid request in
  let* stepoid := QxCatalogInsertStep E sessionoid taskoid 2 (Some "stage15.authorize_tools")
    (Some "Attempt 1 validated the runtime tool allowlist against namespace policy") in
  record_both E sessionoid taskoid stepoid ownerid None "TASK_TOOLS_AUTHORIZED"
    "runtime.authorize_tools"
    (cat ["namespace_policy="; or_unknown (tr_namespace_policy_name request);
          ";authorized_tools="; show_d (Z.of_nat (List.length (tr_authorized_tools request)));
          ";tool_tokens="; show_d (tr_authorized_tool_tokens request);
          ";tool_cost="; show_d (tr_authorized_tool_cost request)]) ;;;
  let* meta := tool_step sessionoid taskoid ownerid 3 "submit"
    "Attempt 1 executed the selected tool through its principal program"
    contract (tr_goal request) (is_present (tr_input request)) in
  let* _ := charged_step sessionoid taskoid ownerid 4 "stage8.capture_input"
    "Attempt 1 captured task goal and raw input"
    (if is_present (tr_input request) then 24 else 8) 13 "capture_input" None
    "TASK_INPUT_CAPTURED" "runtime.capture_input"
    (cat ["input_present="; show_bool (is_present (tr_input request));
          ";task_name="; cstr_or (tr_task_name request) "<anonymous>"]) in
  let* stepoid := charged_step sessionoid taskoid ownerid 5 "stage8.checkpoint_barrier"
    "Attempt 1 reached a resumable checkpoint barrier" 4 14 "checkpoint_barrier" (Some meta)
    "TASK_CHECKPOINTED" "runtime.checkpoint"
    (cat ["checkpoint=stage8.after_capture;task_state="; String QX_TASK_STATE_CHECKPOINTED ""]) in
  ret (stepoid, meta).

(** The event and the trace a paused task ends with. *)
Definition record_pause (sessionoid taskoid ownerid : Oid) : M unit :=
  let* _ := QxCatalogInsertEvent E sessionoid taskoid InvalidOid ownerid None
    (Some "TASK_READY_FOR_RESUME")
    (Some (cat ["checkpoint=stage8.after_capture;task_state=";
                String QX_TASK_STATE_CHECKPOINTED ""])) in
  let* _ := QxCatalogInsertTrace E sessionoid taskoid InvalidOid ownerid None
    QX_TRACE_STATE_CLOSED (Some "runtime.pause")
    (Some "Task paused at durable checkpoint and awaits RESUME TASK") in
  ret tt.

Definition QxRuntimeSubmitTask (request : QxRuntimeTaskRequest) : M Oid :=
  let sessionoid := tr_sessionoid request in
  let ownerid := tr_ownerid request in
  qx_runtime_ensure_startup_recovery_scan E ownerid ;;;
  let* taskoid := QxCatalogInsertTask E (qx_runtime_fill_task_insert_params request) in
  CommandCounterIncrement ;;;
  let* attemptoid := QxCatalogInsertAttempt E sessionoid taskoid ownerid InvalidOid 1
                       QX_ATTEMPT_STATE_RUNNING (Some "initial") in
  CommandCounterIncrement ;;;
  let selected_contract := qx_runtime_request_phase_contract request false in
  let* agent_name := qx_fetch_agent_name (tr_agentoid request) in
  let envelope :=
    qx_scheduler_fill_envelope ownerid sessionoid (tr_agentoid request) (tr_identityoid request)
      (tr_namespace_policy_oid request) taskoid attemptoid (tr_task_name request)
      (Some agent_name) (tr_identity_name request) (tr_namespace_policy_name request)
      (tr_priority request) (Some "stage8.after_capture") None false true false
      (tr_budget_tokens request) (tr_budget_cost request) (tr_estimated_tokens request)
      (tr_estimated_cost request) 0 selected_contract in
  let* snapshot := queue_snapshot_now E envelope in
  let* queueoid := enqueue E snapshot in
  let* lease := submit_admit request taskoid attemptoid queueoid envelope in
  let* captured := submit_steps request taskoid selected_contract in
  let '(stepoid, meta) := captured in
  checkpoint_and_release sessionoid taskoid attemptoid stepoid ownerid queueoid meta
    QX_TASK_STATE_CHECKPOINTED QX_ATTEMPT_STATE_CHECKPOINTED 6 "stage8.after_capture" lease ;;;
  record_pause sessionoid taskoid ownerid ;;;
  ret taskoid.

(** ** Resume *)

(** The checks: the task and the checkpoint it resumes from. *)
Definition resume_check (taskoid : Oid) (checkpoint_label : cstr) (ownerid : Oid) :
    M (QxCatalogTaskInfo * QxCatalogCheckpointInfo) :=
  let* c := gets w_vis in
  match QxCatalogLookupTaskByOid c taskoid with
  | None => throw ERRCODE_UNDEFINED_OBJECT (cat ["task "; show_u taskoid; " does not exist"]) None
  | Some task =>
      let t := ti_row task in
      if negb (has_privs_of_role E ownerid (qxtaskowner t)) then
        throw ERRCODE_INSUFFICIENT_PRIVILEGE
          (cat ["permission denied to resume task "; show_u taskoid])
          (Some "Only the task owner or a member of that role may resume the task.")
      else if negb (Ascii.eqb (qxtaskstate t) QX_TASK_STATE_CHECKPOINTED) then
        throw ERRCODE_OBJECT_NOT_IN_PREREQUISITE_STATE
          (cat ["task "; show_u taskoid; " is not resumable"])
          (Some "RESUME TASK only accepts tasks in checkpointed state.")
      else if negb (OidIsValid (qxtasklastcheckpointid t)) then
        throw ERRCODE_OBJECT_NOT_IN_PREREQUISITE_STATE
          (cat ["task "; show_u taskoid; " has no checkpoint to resume from"]) None
      else match QxCatalogLookupCheckpointByOid c (qxtasklastcheckpointid t) with
      | None =>
          (* printed after the info structure was released and zeroed *)
          elog_error (cat ["cache lookup failed for QhapaqXian checkpoint "; show_u 0])
      | Some checkpoint =>
          match checkpoint_label with
          | Some label =>
              if negb (cstr_is (qxcheckpointlabel checkpoint) label) then
                throw ERRCODE_INVALID_PARAMETER_VALUE
                  (cat ["checkpoint label "; quoted label;
                        " does not match the current resumable checkpoint for task ";
                        show_u taskoid]) None
              else ret (task, checkpoint)
          | None => ret (task, checkpoint)
          end
      end
  end.

Definition resume_dispatch (task : QxCatalogTaskInfo) (checkpoint : QxCatalogCheckpointInfo)
    (ownerid queueoid : Oid) (envelope : QxSchedulerTaskEnvelope) : M QxSchedulerLeaseSnapshot :=
  let sessionoid := qxtasksessionid (ti_row task) in
  let taskoid := task_oid (ti_row task) in
  let label := or_unnamed (qxcheckpointlabel checkpoint) in
  let* payload := runtime_payload E
    (cat ["checkpoint="; label; ";resume_requested;next_step=";
          show_d (qxcheckpointnextstepseqno checkpoint)]) envelope false in
  record_both E sessionoid taskoid InvalidOid ownerid None "TASK_RESUMED" "runtime.resume" payload ;;;
  let* stepoid := QxCatalogInsertStep E sessionoid taskoid (qxcheckpointnextstepseqno checkpoint)
    (Some "stage8.resume_dispatch")
    (Some "Attempt 2 resumed execution from the last durable checkpoint") in
  QxCatalogChargeTaskBudget taskoid 8 14 "resume_dispatch" ;;;
  let* payload := runtime_payload E
    (cat ["resume_from="; label; ";state="; String QX_TASK_STATE_RUNNING ""]) envelope true in
  let* lease := open_lease E queueoid envelope (Some "embedded-runtime") in
  record_both E sessionoid taskoid stepoid ownerid None "TASK_RESUME_DISPATCHED"
    "runtime.resume_dispatch" payload ;;;
  ret lease.

Definition QxRuntimeResumeTask (taskoid : Oid) (checkpoint_label : cstr) (ownerid : Oid) : M Oid :=
  let* checked := resume_check taskoid checkpoint_label ownerid in
  let '(task, checkpoint) := checked in
  let t := ti_row task in
  let sessionoid := qxtasksessionid t in
  let stored_label := qxcheckpointlabel checkpoint in
  let resume_stepseqno := qxcheckpointnextstepseqno checkpoint in
  let* nextattemptseqno :=
    if OidIsValid (qxtasklastattemptid t) then
      let* seqno := qx_fetch_attempt_seqno (qxtasklastattemptid t) in ret (int16 (seqno + 1))
    else ret 1 in
  if resume_stepseqno <=? 0 then
    throw ERRCODE_OBJECT_NOT_IN_PREREQUISITE_STATE
      (cat ["checkpoint "; quoted (or_unnamed stored_label); " for task "; show_u taskoid;
            " is not resumable"])
      (Some "The checkpoint does not advertise a valid next step sequence.")
  else
  qx_runtime_ensure_startup_recovery_scan E ownerid ;;;
  let* attemptoid := QxCatalogInsertAttempt E sessionoid taskoid ownerid
    (checkpoint_oid checkpoint) nextattemptseqno QX_ATTEMPT_STATE_RUNNING (Some "resume") in
  CommandCounterIncrement ;;;
  QxCatalogUpdateTaskRuntime taskoid QX_TASK_STATE_RUNNING attemptoid true InvalidOid false ;;;
  let* _ := qx_parse_task_authorized_contracts (qxtaskauthorizedtools t) in
  let* selected_contract := qx_runtime_task_phase_contract task true in
  let envelope :=
    qx_scheduler_fill_envelope ownerid sessionoid (qxtaskagentid t) (qxtaskidentityid t)
      (qxtasknamespacepolicyid t) taskoid attemptoid (qxtaskname t) (ti_agent_name task)
      (ti_identity_name task) (ti_policy_name task) (qxtaskpriority t) (Some "stage8.final")
      stored_label false true true (qxtaskbudgettokens t) (qxtaskbudgetcost t)
      (qxtaskestimatedtokens t) (qxtaskestimatedcost t) (nextattemptseqno - 1)
      selected_contract in
  let* snapshot := queue_snapshot_now E envelope in
  let* queueoid := enqueue E snapshot in
  let* lease := resume_dispatch task checkpoint ownerid queueoid envelope in
  let* meta := tool_step sessionoid taskoid ownerid (int16 (resume_stepseqno + 1)) "resume"
    "Attempt 2 executed the selected tool through its principal program"
    selected_contract (qxtaskgoal t) (is_present (qxtaskinput t)) in
  let payload := cat ["checkpoint=stage8.final;task_state="; String QX_TASK_STATE_COMPLETED ""] in
  let* stepoid := charged_step sessionoid taskoid ownerid (int16 (resume_stepseqno + 2))
    "stage8.complete" "Attempt 2 completed the task after resuming" 4 11 "final_checkpoint"
    (Some meta) "TASK_CHECKPOINTED" "runtime.final_checkpoint" payload in
  checkpoint_and_release sessionoid taskoid attemptoid stepoid ownerid queueoid meta
    QX_TASK_STATE_COMPLETED QX_ATTEMPT_STATE_COMPLETED 0 "stage8.final" lease ;;;
  let* _ := QxCatalogInsertEvent E sessionoid taskoid InvalidOid ownerid (Some meta)
    (Some "TASK_COMPLETED") (Some payload) in
  let* _ := QxCatalogInsertTrace E sessionoid taskoid InvalidOid ownerid (Some meta)
    QX_TRACE_STATE_CLOSED (Some "runtime.complete")
    (Some "Task completed after resumable attempt handoff") in
  ret taskoid.

End WithEnv.
