(* ===== verification/Planner.v ===== *)
(** * Agent plans

    The model of [src/src/backend/qx/planner/qx_agent_planner.c] and of
    [src/src/backend/qx/executor/qx_agent_executor.c]: the plan of a RUN TASK or
    RESUME TASK statement with its checks, the text EXPLAIN AGENT shows for it,
    the executor's checks on a plan and its choice of the contracts the two
    phases of a task run, and the commands of
    [src/src/backend/commands/taskcmds.c] that put the two together. *)

From Stdlib Require Import Ascii String.
From S2P Require Import Prelude Text Types Scheduler Stat Observe SemanticLog Tables World.
From S2P Require Import Catalog Recovery Policy Backends ToolExec Envelope Lifecycle Security.
Open Scope string_scope.
Open Scope Z_scope.
Open Scope bool_scope.
Open Scope list_scope.

(** ** Statements *)

Record RunTaskStmt := MkRunTask {
  rt_session_id : pg_node;
  rt_task_name : cstr;
  rt_goal : string;
  rt_input : option pg_node;
  rt_priority : cstr;
  rt_returning : bool
}.

Record ResumeTaskStmt := MkResumeTask {
  rs_task_id : pg_node;
  rs_checkpoint_label : cstr
}.

(** The statements a plan can be asked for. *)
Inductive agent_stmt :=
  | SRunTask (stmt : RunTaskStmt)
  | SResumeTask (stmt : ResumeTaskStmt)
  | SOther.

(** A literal identifier; hints are not part of [pg_error]. *)
Definition qx_extract_oid_literal (expr : pg_node) (subject detail : string) : M Oid :=
  match expr with
  | NAConst (Some (NInteger value)) =>
      raise_if (int32 value <=? 0) ERRCODE_INVALID_PARAMETER_VALUE
        (cat [subject; " identifier must be greater than zero"]) None ;;;
      ret (int32 value)
  | NAConst _ =>
      throw ERRCODE_INVALID_PARAMETER_VALUE
        (cat [subject; " identifier must be an integer literal"]) None
  | _ =>
      throw ERRCODE_INVALID_PARAMETER_VALUE
        (cat [subject; " currently requires a literal identifier"]) (Some detail)
  end.

(** ** Steps *)

Definition set_plan_steps (steps : list QxAgentPlanStep) (cost : Z) (p : QxAgentPlan) :
    QxAgentPlan :=
  {| p_kind := p_kind p; p_ownerid := p_ownerid p; p_agentoid := p_agentoid p;
     p_identityoid := p_identityoid p; p_namespace_policy_oid := p_namespace_policy_oid p;
     p_sessionoid := p_sessionoid p; p_taskoid := p_taskoid p;
     p_checkpointoid := p_checkpointoid p; p_input := p_input p;
     p_command_name := p_command_name p; p_identity_name := p_identity_name p;
     p_namespace_policy_name := p_namespace_policy_name p; p_task_name := p_task_name p;
     p_goal := p_goal p; p_priority := p_priority p;
     p_checkpoint_label := p_checkpoint_label p; p_target_state := p_target_state p;
     p_result_mode := p_result_mode p; p_input_present := p_input_present p;
     p_checkpointable := p_checkpointable p; p_resumable := p_resumable p;
     p_returning_requested := p_returning_requested p; p_budget_tokens := p_budget_tokens p;
     p_budget_cost := p_budget_cost p; p_estimated_tokens := p_estimated_tokens p;
     p_estimated_total_cost := cost; p_estimated_tool_calls := p_estimated_tool_calls p;
     p_authorized_tool_tokens := p_authorized_tool_tokens p;
     p_authorized_tool_cost := p_authorized_tool_cost p;
     p_runtime_decision := p_runtime_decision p; p_authorized_tools := p_authorized_tools p;
     p_authorized_tool_oids := p_authorized_tool_oids p;
     p_tool_decisions := p_tool_decisions p; p_steps := steps |}.

Definition qx_agent_plan_add_step (seqno : Z) (name detail : string) (estimated_cost : Z)
    (checkpoint_boundary retryable : bool) (plan : QxAgentPlan) : QxAgentPlan :=
  set_plan_steps
    (p_steps plan ++ [MkPlanStep seqno name detail estimated_cost checkpoint_boundary retryable])
    (int32 (p_estimated_total_cost plan + estimated_cost)) plan.

(** ** The contract EXPLAIN shows *)

Definition drop_last_semicolon (s : string) : string :=
  match last_char None s with
  | Some c => if Ascii.eqb c ";" then str_take (String.length s - 1) s else s
  | None => s
  end.

(** Cut out the first [key] with its value and the semicolon before it. *)
Definition remove_entry (key display : string) : cstr :=
  match strstr display key with
  | None => None
  | Some (pre, post) =>
      match split_char ";" post with
      | (_, None) => Some (drop_last_semicolon pre)
      | (_, Some rest) => Some (drop_last_semicolon pre +:+ String ";" rest)
      end
  end.

Definition remove_hidden (display : string) : cstr :=
  match remove_entry "provider_oid=" display with
  | Some d => Some d
  | None => remove_entry "receipt_signer=" display
  end.

Fixpoint display_loop (fuel : nat) (display : string) : string :=
  match fuel with
  | O => display
  | S fuel' =>
      match remove_hidden display with
      | None => display
      | Some d => display_loop fuel' d
      end
  end.

(** Every removal shortens the text: see [display_loop_done]. *)
Definition qx_plan_display_contract (contract : cstr) : string :=
  match contract with
  | None => "<null>"
  | Some c => display_loop (String.length c) c
  end.

(** ** Decisions *)

Definition qx_plan_capability_class (provider_kind : cstr) : string :=
  match provider_kind with
  | None => "unclassified"
  | Some k =>
      if String.eqb k "" then "unclassified"
      else if String.eqb k "loopback" then "host-local"
      else if String.eqb k "remote" then "remote-brokered"
      else if String.eqb k "container" then "container-brokered"
      else if String.eqb k "microvm" then "microvm-brokered"
      else k +:+ "-brokered"
  end.

Definition qx_make_tool_decision (contract : string) : QxAgentPlanToolDecision :=
  let value key := qx_contract_value (Some contract) (Some key) in
  let provider_kind := cstr_or (value "provider_kind") "loopback" in
  {| td_tool_name := value "tool";
     td_handler_name := value "handler";
     td_tool_sandbox_name := value "tool_sandbox";
     td_principal_name := value "principal";
     td_principal_runtime_class :=
       Some (cstr_or (value "principal_runtime")
               (qx_default_runtime_for_provider_kind (Some provider_kind)));
     td_provider_name := value "provider";
     td_provider_kind := value "provider_kind";
     td_provider_endpoint := value "provider_endpoint";
     td_receipt_schema := value "receipt_schema";
     td_receipt_alg := value "receipt_alg";
     td_attestation_mode := value "provider_attestation";
     td_capability_class := Some (qx_plan_capability_class (Some provider_kind));
     td_require_attestation :=
       String.eqb (cstr_or (value "provider_attestation") "optional") "required" |}.

Definition qx_plan_add_unique_string (value : cstr) (l : list string) : list string :=
  match value with
  | None => l
  | Some v => if String.eqb v "" then l else if existsb (String.eqb v) l then l else l ++ [v]
  end.

Definition no_runtime_decision : QxAgentPlanRuntimeDecision :=
  MkRuntimeDecision None [] [] [] false false false.

(** The plan's decisions so far and the summary of their providers. *)
Definition qx_plan_record_tool_decision
    (st : list QxAgentPlanToolDecision * QxAgentPlanRuntimeDecision)
    (decision : QxAgentPlanToolDecision) :
    list QxAgentPlanToolDecision * QxAgentPlanRuntimeDecision :=
  let '(decisions, rd) := st in
  (decisions ++ [decision],
   {| rd_execution_surface := rd_execution_surface rd;
      rd_provider_kinds :=
        qx_plan_add_unique_string (td_provider_kind decision) (rd_provider_kinds rd);
      rd_principal_runtime_classes :=
        qx_plan_add_unique_string (td_principal_runtime_class decision)
          (rd_principal_runtime_classes rd);
      rd_capability_tags :=
        qx_plan_add_unique_string (td_capability_class decision) (rd_capability_tags rd);
      rd_mixed_provider_kinds := rd_mixed_provider_kinds rd;
      rd_mixed_principal_runtime_classes := rd_mixed_principal_runtime_classes rd;
      rd_any_attestation_required :=
        rd_any_attestation_required rd || td_require_attestation decision |}).

(** Whether a list has a value that differs from its first. *)
Definition has_several (l : list string) : bool :=
  match l with
  | [] => false
  | x :: rest => existsb (fun y => negb (String.eqb x y)) rest
  end.

(** The kinds the plan lists are not empty, so the class of the only one is the
    name the code spells out. *)
Definition qx_plan_runtime_surface_name (decisions : list QxAgentPlanToolDecision)
    (rd : QxAgentPlanRuntimeDecision) : string :=
  match decisions with
  | [] => "unclassified"
  | _ =>
      if has_several (rd_provider_kinds rd) || has_several (rd_principal_runtime_classes rd)
      then "mixed-brokered"
      else match rd_provider_kinds rd with
           | [] => "unclassified"
           | k :: _ => qx_plan_capability_class (Some k)
           end
  end.

(** The loop over the authorized contracts and the surface it leads to. *)
Definition plan_decisions (contracts : list string) :
    list QxAgentPlanToolDecision * QxAgentPlanRuntimeDecision :=
  let '(decisions, rd) :=
    fold_left (fun st contract => qx_plan_record_tool_decision st (qx_make_tool_decision contract))
      contracts ([], no_runtime_decision) in
  (decisions,
   {| rd_execution_surface := Some (qx_plan_runtime_surface_name decisions rd);
      rd_provider_kinds := rd_provider_kinds rd;
      rd_principal_runtime_classes := rd_principal_runtime_classes rd;
      rd_capability_tags := rd_capability_tags rd;
      rd_mixed_provider_kinds := rd_mixed_provider_kinds rd;
      rd_mixed_principal_runtime_classes := rd_mixed_principal_runtime_classes rd;
      rd_any_attestation_required := rd_any_attestation_required rd |}).

Definition qx_estimate_token_usage (input_present : bool) (tool_token_cost : Z) : Z :=
  int32 (32 + (if input_present then 24 else 8) + tool_token_cost).

(** ** Plans *)

Section WithEnv.
Context (E : Env) (D : DdlEnv) (T : ToolEnv).

Definition no_session {A} (sessionoid : Oid) : M A :=
  throw ERRCODE_UNDEFINED_OBJECT (cat ["session "; show_u sessionoid; " does not exist"]) None.

(** The rows a session names.  The messages are built after the session was
    released and print its zeroed fields. *)
Definition run_task_rows (sessionoid : Oid) :
    M (pg_qx_session * QxCatalogAgentInfo * QxCatalogIdentityInfo) :=
  let* c := gets w_vis in
  match QxCatalogLookupSessionByOid c sessionoid with
  | None => no_session sessionoid
  | Some info =>
      let session := si_row info in
      match QxCatalogLookupAgentByOid c (qxsessionagentid session) with
      | None => elog_error (cat ["cache lookup failed for QhapaqXian agent "; show_u 0])
      | Some agent =>
          match QxCatalogLookupIdentityByOid c (qxsessionidentityid session) with
          | None => elog_error (cat ["cache lookup failed for QhapaqXian identity "; show_u 0])
          | Some identity_row => ret (session, agent, identity_row)
          end
      end
  end.

Definition check_run_task_session (sessionoid ownerid : Oid) (session : pg_qx_session) : M unit :=
  raise_if (negb (qxsessiondbid session =? MyDatabaseId E)) ERRCODE_INVALID_PARAMETER_VALUE
    (cat ["session "; show_u sessionoid; " belongs to a different database"]) None ;;;
  raise_if (negb (Ascii.eqb (qxsessionstatus session) QX_SESSION_STATUS_ACTIVE))
    ERRCODE_OBJECT_NOT_IN_PREREQUISITE_STATE
    (cat ["session "; show_u sessionoid; " is not active"])
    (Some "RUN TASK in Etapa 8 only accepts sessions in active state.") ;;;
  raise_if (negb (has_privs_of_role E ownerid (qxsessionowner session)))
    ERRCODE_INSUFFICIENT_PRIVILEGE
    (cat ["permission denied to run a task in session "; show_u sessionoid])
    (Some (cat ["Only the session owner or a member of that role may enqueue tasks in the ";
                "session."])).

(** The plan before its steps. *)
Definition run_task_shell (stmt : RunTaskStmt) (ownerid sessionoid : Oid)
    (session : pg_qx_session) (identity_row : QxCatalogIdentityInfo) (budget : QxBudgetPolicy)
    (toolauth : QxToolAuthorization) : QxAgentPlan :=
  let '(decisions, rd) := plan_decisions (az_tool_contracts toolauth) in
  let input_present := match rt_input stmt with Some _ => true | None => false end in
  {| p_kind := QX_AGENT_PLAN_RUN_TASK; p_ownerid := ownerid;
     p_agentoid := qxsessionagentid session; p_identityoid := qxsessionidentityid session;
     p_namespace_policy_oid := qxsessionnamespacepolicyid session;
     p_sessionoid := sessionoid; p_taskoid := InvalidOid; p_checkpointoid := InvalidOid;
     p_input := rt_input stmt; p_command_name := Some "RUN TASK";
     p_identity_name := Some (qxidentityname identity_row);
     p_namespace_policy_name := az_namespace_policy_name toolauth;
     p_task_name := rt_task_name stmt; p_goal := Some (rt_goal stmt);
     p_priority := Some (cstr_or (rt_priority stmt) "normal");
     p_checkpoint_label := Some "stage8.after_capture";
     p_target_state := Some "checkpointed";
     p_result_mode := Some (if rt_returning stmt then "returning requested but still deferred"
                            else "catalog inspection via pg_qx_*");
     p_input_present := input_present; p_checkpointable := true; p_resumable := false;
     p_returning_requested := rt_returning stmt;
     p_budget_tokens := bp_token_limit budget; p_budget_cost := bp_cost_limit budget;
     p_estimated_tokens := qx_estimate_token_usage input_present (az_tool_token_cost toolauth);
     p_estimated_total_cost := 0; p_estimated_tool_calls := az_tool_count toolauth;
     p_authorized_tool_tokens := az_tool_token_cost toolauth;
     p_authorized_tool_cost := az_tool_cost_units toolauth;
     p_runtime_decision := rd; p_authorized_tools := az_tool_contracts toolauth;
     p_authorized_tool_oids := az_tool_oids toolauth; p_tool_decisions := decisions;
     p_steps := [] |}.

Definition run_task_steps (tool_cost_units : Z) (plan : QxAgentPlan) : QxAgentPlan :=
  let plan := qx_agent_plan_add_step 1 "validate_session"
    "check session existence, ownership, database, and active state" 8 false false plan in
  let plan := qx_agent_plan_add_step 2 "snapshot_identity_policy"
    "freeze agent identity and policy/budget context for the attempt" 11 false false plan in
  let plan := qx_agent_plan_add_step 3 "authorize_tools"
    (cat ["validate the task tool allowlist against namespace policy and registered tool ";
          "catalog entries"]) (Z.max tool_cost_units 8) false false plan in
  let plan := qx_agent_plan_add_step 4 "enqueue_attempt"
    "persist the task shell and open attempt 1 in the embedded runtime" 17 false true plan in
  let plan := qx_agent_plan_add_step 5 "capture_input"
    "record task goal, priority, and raw input for deterministic resume" 13 false false plan in
  qx_agent_plan_add_step 6 "durable_checkpoint"
    "stop at a resumable checkpoint boundary before asynchronous continuation" 14 true true plan.

Definition check_plan_budget (toolauth : QxToolAuthorization) (budget : QxBudgetPolicy)
    (agent : QxCatalogAgentInfo) (identity_row : QxCatalogIdentityInfo) (plan : QxAgentPlan) : M unit :=
  let exceeded what := cat ["task plan exceeds the configured "; what; " budget for agent ";
                            quoted (qxagentname agent)] in
  let detail what estimate limit :=
    Some (cat ["Estimated "; what; " "; show_d estimate; " exceeds budget limit "; show_d limit;
               " under identity "; quoted (qxidentityname identity_row); "."]) in
  raise_if (az_enforce_budgets toolauth && bp_has_cost_limit budget &&
            (bp_cost_limit budget <? p_estimated_total_cost plan))
    ERRCODE_CONFIGURATION_LIMIT_EXCEEDED (exceeded "cost")
    (detail "cost" (p_estimated_total_cost plan) (bp_cost_limit budget)) ;;;
  raise_if (az_enforce_budgets toolauth && bp_has_token_limit budget &&
            (bp_token_limit budget <? p_estimated_tokens plan))
    ERRCODE_CONFIGURATION_LIMIT_EXCEEDED (exceeded "token")
    (detail "token usage" (p_estimated_tokens plan) (bp_token_limit budget)).

Definition qx_plan_run_task (stmt : RunTaskStmt) (ownerid : Oid) : M QxAgentPlan :=
  let* sessionoid := qx_extract_oid_literal (rt_session_id stmt) "RUN TASK"
    (cat ["Etapa 8 routes RUN TASK through AgentPlan planning, but IN SESSION still does not ";
          "evaluate arbitrary expressions."]) in
  let* found := run_task_rows sessionoid in
  let '(session, agent, identity_row) := found in
  check_run_task_session sessionoid ownerid session ;;;
  let* budget := QxBudgetPolicyFromSerialized (qxbudget agent) in
  let* authorized_tools := QxDeserializeToolList (qxtools agent) in
  QxValidateToolList authorized_tools ;;;
  let* toolauth := QxAuthorizeToolsForNamespace E D (qxsessionnamespacepolicyid session)
    (qxagentnamespace agent) ownerid authorized_tools in
  let plan := run_task_steps (az_tool_cost_units toolauth)
    (run_task_shell stmt ownerid sessionoid session identity_row budget toolauth) in
  check_plan_budget toolauth budget agent identity_row plan ;;;
  ret plan.

(** The stored contracts are string nodes. *)
Fixpoint str_values (nodes : list pg_node) : M (list string) :=
  match nodes with
  | [] => ret []
  | n :: rest => let* s := strVal n in let* ss := str_values rest in ret (s :: ss)
  end.

Definition name_or_lookup (name : cstr) (by_id : M string) : M string :=
  match name with Some n => ret n | None => by_id end.

(** As before, a released task prints its checkpoint as 0. *)
Definition resume_task_checkpoint (stmt : ResumeTaskStmt) (taskoid ownerid : Oid)
    (task : pg_qx_task) : M QxCatalogCheckpointInfo :=
  raise_if (negb (has_privs_of_role E ownerid (qxtaskowner task))) ERRCODE_INSUFFICIENT_PRIVILEGE
    (cat ["permission denied to resume task "; show_u taskoid])
    (Some "Only the task owner or a member of that role may resume the task.") ;;;
  raise_if (negb (Ascii.eqb (qxtaskstate task) QX_TASK_STATE_CHECKPOINTED))
    ERRCODE_OBJECT_NOT_IN_PREREQUISITE_STATE
    (cat ["task "; show_u taskoid; " is not resumable"])
    (Some "RESUME TASK only accepts tasks in checkpointed state.") ;;;
  raise_if (negb (OidIsValid (qxtasklastcheckpointid task)))
    ERRCODE_OBJECT_NOT_IN_PREREQUISITE_STATE
    (cat ["task "; show_u taskoid; " has no checkpoint to resume from"]) None ;;;
  let* c := gets w_vis in
  match QxCatalogLookupCheckpointByOid c (qxtasklastcheckpointid task) with
  | None => elog_error (cat ["cache lookup failed for QhapaqXian checkpoint "; show_u 0])
  | Some checkpoint =>
      match rs_checkpoint_label stmt with
      | None => ret checkpoint
      | Some label =>
          if cstr_is (qxcheckpointlabel checkpoint) label then ret checkpoint
          else throw ERRCODE_INVALID_PARAMETER_VALUE
                 (cat ["checkpoint label "; quoted label; " does not match the current ";
                       "resumable checkpoint for task "; show_u taskoid]) None
      end
  end.

Definition resume_task_shell (ownerid taskoid : Oid) (task : pg_qx_task)
    (checkpoint : QxCatalogCheckpointInfo) (identity_name policy_name : string)
    (tools : list string) : QxAgentPlan :=
  let '(decisions, rd) := plan_decisions tools in
  {| p_kind := QX_AGENT_PLAN_RESUME_TASK; p_ownerid := ownerid;
     p_agentoid := qxtaskagentid task; p_identityoid := qxtaskidentityid task;
     p_namespace_policy_oid := qxtasknamespacepolicyid task;
     p_sessionoid := qxtasksessionid task; p_taskoid := taskoid;
     p_checkpointoid := qxtasklastcheckpointid task;
     p_input := None; p_command_name := Some "RESUME TASK";
     p_identity_name := Some identity_name; p_namespace_policy_name := Some policy_name;
     p_task_name := None; p_goal := None; p_priority := None;
     p_checkpoint_label := Some (cstr_or (qxcheckpointlabel checkpoint) "<unnamed>");
     p_target_state := Some "completed";
     p_result_mode := Some "state transition via pg_qx_task";
     p_input_present := false; p_checkpointable := true; p_resumable := true;
     p_returning_requested := false;
     p_budget_tokens := qxtaskbudgettokens task; p_budget_cost := qxtaskbudgetcost task;
     p_estimated_tokens := qxtaskestimatedtokens task;
     p_estimated_total_cost := qxtaskestimatedcost task;
     p_estimated_tool_calls := int32 (Z.of_nat (List.length tools));
     p_authorized_tool_tokens := qxtaskauthorizedtooltokens task;
     p_authorized_tool_cost := qxtaskauthorizedtoolcost task;
     p_runtime_decision := rd; p_authorized_tools := tools;
     p_authorized_tool_oids := []; p_tool_decisions := decisions; p_steps := [] |}.

Definition resume_task_steps (plan : QxAgentPlan) : QxAgentPlan :=
  let plan := qx_agent_plan_add_step 1 "validate_task"
    "check task visibility, ownership, and checkpointed state" 7 false false plan in
  let plan := qx_agent_plan_add_step 2 "load_checkpoint"
    "load the latest durable checkpoint and verify the requested label" 10 true false plan in
  let plan := qx_agent_plan_add_step 3 "open_resume_attempt"
    "create a new runtime attempt linked to the resumable checkpoint" 12 false true plan in
  let plan := qx_agent_plan_add_step 4 "resume_dispatch"
    "dispatch the resumed attempt from the stored next-step boundary" 14 false true plan in
  qx_agent_plan_add_step 5 "final_checkpoint"
    "seal completion with a final durable checkpoint and completed task state" 11 true false plan.

Definition qx_plan_resume_task (stmt : ResumeTaskStmt) (ownerid : Oid) : M QxAgentPlan :=
  let* taskoid := qx_extract_oid_literal (rs_task_id stmt) "RESUME TASK"
    (cat ["Etapa 8 keeps RESUME TASK on the utility/planner path and does not yet evaluate ";
          "arbitrary expressions in TASK identifiers."]) in
  let* c := gets w_vis in
  match QxCatalogLookupTaskByOid c taskoid with
  | None =>
      throw ERRCODE_UNDEFINED_OBJECT (cat ["task "; show_u taskoid; " does not exist"]) None
  | Some info =>
      let task := ti_row info in
      let* checkpoint := resume_task_checkpoint stmt taskoid ownerid task in
      let* identity_name :=
        name_or_lookup (ti_identity_name info) (QxIdentityNameById (qxtaskidentityid task)) in
      let* policy_name :=
        name_or_lookup (ti_policy_name info)
          (QxNamespacePolicyNameById (qxtasknamespacepolicyid task)) in
      let* nodes := QxDeserializeToolList (qxtaskauthorizedtools task) in
      let* tools := str_values nodes in
      ret (resume_task_steps
             (resume_task_shell ownerid taskoid task checkpoint identity_name policy_name tools))
  end.

Definition QxBuildAgentPlan (stmt : agent_stmt) (ownerid : Oid) : M QxAgentPlan :=
  match stmt with
  | SRunTask s => qx_plan_run_task s ownerid
  | SResumeTask s => qx_plan_resume_task s ownerid
  | SOther =>
      throw ERRCODE_FEATURE_NOT_SUPPORTED "statement is not explainable as an agent command yet"
        (Some "Etapa 8 currently exposes AgentPlan only for RUN TASK and RESUME TASK.")
  end.

(** ** EXPLAIN AGENT *)

Definition text_line (label text : string) : string := cat [label; text; String newline ""].
Definition line_if (b : bool) (line : string) : string := if b then line else "".
Definition optional_line (label : string) (value : cstr) : string :=
  match value with None => "" | Some v => text_line label v end.

Definition qx_plan_append_string_list (label : string) (values : list string) : string :=
  text_line label (String.concat ", " values).

Definition nonempty {A} (l : list A) : bool := match l with [] => false | _ => true end.

Definition decision_line (d : QxAgentPlanToolDecision) : string :=
  let known v := cstr_or v "<unknown>" in
  text_line "    - "
    (cat ["tool="; known (td_tool_name d); ";handler="; known (td_handler_name d);
          ";principal="; known (td_principal_name d);
          ";principal_runtime="; known (td_principal_runtime_class d);
          ";provider="; known (td_provider_name d);
          ";provider_kind="; known (td_provider_kind d);
          ";provider_endpoint="; known (td_provider_endpoint d);
          ";sandbox="; known (td_tool_sandbox_name d);
          ";receipt_schema="; known (td_receipt_schema d);
          ";receipt_alg="; known (td_receipt_alg d);
          ";attestation="; cstr_or (td_attestation_mode d) "optional";
          ";capability="; cstr_or (td_capability_class d) "unclassified"]).

Definition step_lines (s : QxAgentPlanStep) : string :=
  text_line "    "
    (cat [show_d (ps_seqno s); ". "; ps_name s; " [cost="; show_d (ps_estimated_cost s);
          ", checkpoint="; show_bool (ps_checkpoint_boundary s);
          ", retry="; show_bool (ps_retryable s); "]"]) +:+
  text_line "       " (ps_detail s).

Definition qx_append_plan_text (plan : QxAgentPlan) : string :=
  let rd := p_runtime_decision plan in
  cat [text_line "AgentPlan v1" "";
       text_line "  Command: " (printed (p_command_name plan));
       optional_line "  Goal: " (p_goal plan);
       optional_line "  Identity: " (p_identity_name plan);
       optional_line "  Namespace Policy: " (p_namespace_policy_name plan);
       optional_line "  Task Name: " (p_task_name plan);
       optional_line "  Priority: " (p_priority plan);
       optional_line "  Checkpoint Label: " (p_checkpoint_label plan);
       text_line "  Input Present: " (show_bool (p_input_present plan));
       text_line "  Target State: " (printed (p_target_state plan));
       text_line "  Result Mode: " (printed (p_result_mode plan));
       text_line "  Checkpointable: " (show_bool (p_checkpointable plan));
       text_line "  Resumable: " (show_bool (p_resumable plan));
       line_if (0 <? p_budget_tokens plan)
         (text_line "  Budget Tokens: " (show_d (p_budget_tokens plan)));
       line_if (0 <? p_budget_cost plan)
         (text_line "  Budget Cost: " (show_d (p_budget_cost plan)));
       text_line "  Estimated Tokens: " (show_d (p_estimated_tokens plan));
       text_line "  Estimated Cost: " (show_d (p_estimated_total_cost plan));
       text_line "  Estimated Tool Calls: " (show_d (p_estimated_tool_calls plan));
       line_if ((0 <? p_authorized_tool_tokens plan) || (0 <? p_authorized_tool_cost plan))
         (text_line "  Authorized Tool Budget: "
            (cat ["tokens="; show_d (p_authorized_tool_tokens plan); " cost=";
                  show_d (p_authorized_tool_cost plan)]));
       line_if (nonempty (p_authorized_tools plan))
         (qx_plan_append_string_list "  Authorized Tools: "
            ((fun c => qx_plan_display_contract (Some c)) <$> p_authorized_tools plan));
       optional_line "  Execution Surface: " (rd_execution_surface rd);
       line_if (nonempty (rd_provider_kinds rd))
         (qx_plan_append_string_list "  Provider Kinds: " (rd_provider_kinds rd));
       line_if (nonempty (rd_principal_runtime_classes rd))
         (qx_plan_append_string_list "  Principal Runtime Classes: "
            (rd_principal_runtime_classes rd));
       line_if (nonempty (rd_capability_tags rd))
         (qx_plan_append_string_list "  Capability Tags: " (rd_capability_tags rd));
       text_line "  Any Attestation Required: " (show_bool (rd_any_attestation_required rd));
       line_if (nonempty (p_tool_decisions plan))
         (text_line "  Tool Decisions:" "" +:+ cat (decision_line <$> p_tool_decisions plan));
       text_line "  Steps:" "";
       cat (step_lines <$> p_steps plan)].

Definition QxExplainAgentCommand (stmt : agent_stmt) : M string :=
  let* plan := QxBuildAgentPlan stmt (GetUserId E) in
  ret (qx_append_plan_text plan).

(** ** The executor *)

Definition qx_plan_runtime_binding_is_valid (provider_kind principal_runtime_class : cstr) : bool :=
  match provider_kind, principal_runtime_class with
  | Some k, Some rc =>
      if (String.eqb k "loopback" || String.eqb k "remote") && String.eqb rc "host" then true
      else if String.eqb k "container" && String.eqb rc "container" then true
      else if String.eqb k "microvm" && String.eqb rc "microvm" then true
      else false
  | _, _ => false
  end.

Definition qx_validate_agent_plan_contract_alignment (plan : QxAgentPlan) : M unit :=
  raise_if (negb (Nat.eqb (List.length (p_tool_decisions plan))
                    (List.length (p_authorized_tools plan))))
    ERRCODE_INVALID_PARAMETER_VALUE
    "agent plan capability decisions do not align with authorized tools"
    (Some (cat ["Stage 29 phase routing requires one structured tool decision per authorized ";
                "contract."])).

Definition rank_of_class (capability_class : cstr) : option Z :=
  if cstr_is capability_class "host-local" then Some 0
  else if cstr_is capability_class "remote-brokered" then Some 1
  else if cstr_is capability_class "container-brokered" then Some 2
  else if cstr_is capability_class "microvm-brokered" then Some 3
  else None.
Definition rank_of_runtime (runtime_class : cstr) : option Z :=
  if cstr_is runtime_class "host" then Some 0
  else if cstr_is runtime_class "container" then Some 2
  else if cstr_is runtime_class "microvm" then Some 3
  else None.
Definition rank_of_kind (provider_kind : cstr) : option Z :=
  if cstr_is provider_kind "loopback" then Some 0
  else if cstr_is provider_kind "remote" then Some 1
  else if cstr_is provider_kind "container" then Some 2
  else if cstr_is provider_kind "microvm" then Some 3
  else None.

Definition qx_plan_route_rank (decision : QxAgentPlanToolDecision) : Z :=
  match rank_of_class (td_capability_class decision) with
  | Some r => r
  | None =>
      match rank_of_runtime (td_principal_runtime_class decision) with
      | Some r => r
      | None => match rank_of_kind (td_provider_kind decision) with Some r => r | None => 1 end
      end
  end.

(** The contract chosen so far, with its rank and its index. *)
Record phase_choice := MkChoice {
  ch_contract : cstr;
  ch_rank : Z;
  ch_index : Z
}.

Definition better_choice (prefer_resume : bool) (choice : phase_choice) (rank index : Z) : bool :=
  match ch_contract choice with
  | None => true
  | Some _ =>
      if prefer_resume
      then (ch_rank choice <? rank) || ((rank =? ch_rank choice) && (ch_index choice <? index))
      else (rank <? ch_rank choice) || ((rank =? ch_rank choice) && (index <? ch_index choice))
  end.

Fixpoint choose_phase_contract (prefer_resume : bool) (choice : phase_choice) (index : Z)
    (decisions : list QxAgentPlanToolDecision) (contracts : list string) : phase_choice :=
  match decisions, contracts with
  | d :: decisions', contract :: contracts' =>
      let rank := qx_plan_route_rank d in
      choose_phase_contract prefer_resume
        (if better_choice prefer_resume choice rank index
         then MkChoice (Some contract) rank index else choice)
        (index + 1) decisions' contracts'
  | _, _ => choice
  end.

Definition no_choice (prefer_resume : bool) : phase_choice :=
  let limit := if prefer_resume then INT32_MIN else INT32_MAX in MkChoice None limit limit.

Definition qx_resolve_plan_phase_contract (plan : QxAgentPlan) (prefer_resume : bool) : M cstr :=
  if negb (nonempty (p_tool_decisions plan)) || negb (nonempty (p_authorized_tools plan))
  then ret None
  else
    qx_validate_agent_plan_contract_alignment plan ;;;
    ret (ch_contract (choose_phase_contract prefer_resume (no_choice prefer_resume) 0
                        (p_tool_decisions plan) (p_authorized_tools plan))).

Definition validate_decision (d : QxAgentPlanToolDecision) : M unit :=
  let tool := quoted (cstr_or (td_tool_name d) "<unknown>") in
  let missing (v : cstr) := match v with None => true | Some _ => false end in
  raise_if (negb (qx_plan_runtime_binding_is_valid (td_provider_kind d)
                    (td_principal_runtime_class d)))
    ERRCODE_INVALID_PARAMETER_VALUE
    (cat ["tool "; tool; " has an invalid provider/runtime-class binding"])
    (Some (cat ["Provider kind "; quoted (cstr_or (td_provider_kind d) "<null>");
                " is not compatible with principal runtime class ";
                quoted (cstr_or (td_principal_runtime_class d) "<null>"); "."])) ;;;
  raise_if (missing (td_tool_name d) || missing (td_handler_name d) ||
            missing (td_principal_name d) || missing (td_provider_name d) ||
            missing (td_provider_endpoint d) || missing (td_capability_class d))
    ERRCODE_INVALID_PARAMETER_VALUE (cat ["tool decision for "; tool; " is incomplete"])
    (Some (cat ["The planner must record handler, principal, provider, provider endpoint, ";
                "and capability class for Stage 29 execution."])) ;;;
  raise_if (td_require_attestation d &&
            (is_blank (td_receipt_schema d) || is_blank (td_receipt_alg d)))
    ERRCODE_INVALID_PARAMETER_VALUE
    (cat ["tool "; tool; " requires receipt attestation metadata"])
    (Some (cat ["Structured capability planning must preserve both receipt schema and ";
                "algorithm for attested tools."])).

Definition qx_validate_agent_plan_capabilities (plan : QxAgentPlan) : M unit :=
  raise_if (negb (nonempty (p_tool_decisions plan))) ERRCODE_OBJECT_NOT_IN_PREREQUISITE_STATE
    "agent plan does not contain capability decisions"
    (Some (cat ["Stage 29 requires the planner to populate structured tool decisions before ";
                "execution."])) ;;;
  raise_if (match rd_execution_surface (p_runtime_decision plan) with
            | None => true | Some _ => false end)
    ERRCODE_OBJECT_NOT_IN_PREREQUISITE_STATE
    "agent plan does not contain a runtime execution surface"
    (Some (cat ["Stage 29 requires a planner-populated execution surface summary before ";
                "execution."])) ;;;
  qx_validate_agent_plan_contract_alignment plan ;;;
  mforeach validate_decision (p_tool_decisions plan).

Definition plan_request (plan : QxAgentPlan) (submit_contract resume_contract : cstr) :
    QxRuntimeTaskRequest :=
  {| tr_sessionoid := p_sessionoid plan; tr_agentoid := p_agentoid plan;
     tr_identityoid := p_identityoid plan;
     tr_namespace_policy_oid := p_namespace_policy_oid plan; tr_ownerid := p_ownerid plan;
     tr_task_name := p_task_name plan; tr_identity_name := p_identity_name plan;
     tr_namespace_policy_name := p_namespace_policy_name plan; tr_goal := p_goal plan;
     tr_input := p_input plan; tr_priority := p_priority plan;
     tr_authorized_tools := p_authorized_tools plan;
     tr_authorized_tool_oids := p_authorized_tool_oids plan;
     tr_submit_contract := submit_contract; tr_resume_contract := resume_contract;
     tr_budget_tokens := p_budget_tokens plan; tr_budget_cost := p_budget_cost plan;
     tr_estimated_tokens := p_estimated_tokens plan;
     tr_estimated_cost := p_estimated_total_cost plan;
     tr_authorized_tool_tokens := p_authorized_tool_tokens plan;
     tr_authorized_tool_cost := p_authorized_tool_cost plan |}.

Definition QxExecuteAgentPlan (plan : QxAgentPlan) : M Oid :=
  qx_validate_agent_plan_capabilities plan ;;;
  match p_kind plan with
  | QX_AGENT_PLAN_RUN_TASK =>
      let* submit_contract := qx_resolve_plan_phase_contract plan false in
      let* resume_contract := qx_resolve_plan_phase_contract plan true in
      QxRuntimeSubmitTask E T (plan_request plan submit_contract resume_contract)
  | QX_AGENT_PLAN_RESUME_TASK =>
      QxRuntimeResumeTask E T (p_taskoid plan) (p_checkpoint_label plan) (p_ownerid plan)
  end.

(** ** Commands *)

Definition RunTaskCommand (stmt : RunTaskStmt) : M unit :=
  raise_if (rt_returning stmt) ERRCODE_FEATURE_NOT_SUPPORTED
    "RUN TASK ... RETURNING TASK is not executable yet"
    (Some (cat ["Etapa 8 routes task execution through AgentPlan, but tuple-returning utility ";
                "execution is still deferred."])) ;;;
  let* plan := QxBuildAgentPlan (SRunTask stmt) (GetUserId E) in
  QxExecuteAgentPlan plan ;;;
  ret tt.

Definition ResumeTaskCommand (stmt : ResumeTaskStmt) : M unit :=
  let* plan := QxBuildAgentPlan (SResumeTask stmt) (GetUserId E) in
  QxExecuteAgentPlan plan ;;;
  ret tt.

End WithEnv.
