(* ===== verification/AgentCommands.v ===== *)
(** * CREATE AGENT, START SESSION, REMEMBER and FETCH MEMORY

    The model of [src/src/backend/commands/agentcmds.c], [sessioncmds.c] and
    [memorycmds.c] and of [src/src/backend/qx/memory/qx_memory.c].  A command
    that sends rows to a client returns them.  A scan of the index of agent,
    scope and identifier is the sorted list of the rows with that agent.  The
    records of [pg_depend] and the object access hooks are outside the catalogs
    of the engine and are not modelled. *)

From Stdlib Require Import Ascii String.
From stdpp Require Import sorting.
From S2P Require Import Prelude Text Types Scheduler Stat Observe SemanticLog Tables World.
From S2P Require Import Catalog Recovery Policy Backends ToolExec Envelope Security PolicyCommands.
From S2P Require Import Lifecycle Planner.
Open Scope string_scope.
Open Scope Z_scope.
Open Scope bool_scope.
Open Scope list_scope.

(** ** Statements *)

Record CreateAgentStmt := MkCreateAgent {
  ca_agent_name : string;
  ca_identity_name : cstr;
  ca_model_uri : cstr;
  ca_memory_profile : cstr;
  ca_tools : list pg_node;
  ca_policy_name : cstr;
  ca_budget_options : list pg_node
}.

Record StartSessionStmt := MkStartSession {
  ss_agent_name : string;
  ss_context : option pg_node;
  ss_returning : bool
}.

Record RememberStmt := MkRemember {
  rm_session_id : pg_node;
  rm_scope : ascii;
  rm_memory_key : string;
  rm_memory_value : pg_node;
  rm_tags : list string
}.

Record FetchMemoryStmt := MkFetchMemory {
  fm_agent_name : string;
  fm_scopes : list ascii;
  fm_match_text : cstr;
  fm_limit_count : Z
}.

(** The scope a name stands for, in the grammar. *)
Definition qx_parse_memory_scope (scope : string) : pg_error + ascii :=
  if pg_strcaseeq scope "working" || pg_strcaseeq scope "work" then inr "w"%char
  else if pg_strcaseeq scope "episodic" then inr "e"%char
  else if pg_strcaseeq scope "semantic" then inr "s"%char
  else inl (PgError ERRCODE_SYNTAX_ERROR
              (cat ["unrecognized QhapaqXian memory scope "; quoted scope])
              (Some "Valid scopes are WORKING, EPISODIC, and SEMANTIC.")).

(** ** Memory records *)

Definition QxMemoryScopeLabel (scope : ascii) : string :=
  if Ascii.eqb scope "w" then "working"
  else if Ascii.eqb scope "e" then "episodic"
  else if Ascii.eqb scope "s" then "semantic"
  else "unknown".

Definition qx_serialize_memory_tags (tags : list string) : cstr :=
  match tags with
  | [] => None
  | _ => Some (fold_left (fun buf tag =>
                 (if String.eqb buf "" then buf else buf +:+ ",") +:+ tag) tags "")
  end.

Definition qx_scope_is_requested (scope : ascii) (scopes : list ascii) : bool :=
  match scopes with [] => true | _ => existsb (fun s => Ascii.eqb s scope) scopes end.

Definition text_matches (text : cstr) (match_text : string) : bool :=
  match text with Some s => contains s match_text | None => false end.

Definition qx_memory_matches_filter (match_text key value tags : cstr) : bool :=
  match match_text with
  | None => true
  | Some m => text_matches key m || text_matches value m || text_matches tags m
  end.

(** The order of [pg_qx_memory_agent_scope_index] within an agent. *)
Definition memory_before (a b : pg_qx_memory) : Prop :=
  (N_of_ascii (qxmemoryscope a) < N_of_ascii (qxmemoryscope b))%N \/
  qxmemoryscope a = qxmemoryscope b /\ memory_oid a <= memory_oid b.

#[export] Instance memory_before_dec : RelDecision memory_before.
Proof. intros a b. unfold memory_before. apply _. Defined.

Definition agent_memories (c : catalog) (agentoid : Oid) : list pg_qx_memory :=
  merge_sort memory_before (List.filter (fun m => qxmemoryagentid m =? agentoid) (c_memories c)).

(** A row of the result: scope, key, value and tags. *)
Definition memory_result : Type := string * cstr * cstr * cstr.

Definition memory_row (m : pg_qx_memory) : memory_result :=
  (QxMemoryScopeLabel (qxmemoryscope m), qxmemorykey m, qxmemoryvalue m, qxmemorytags m).

Section WithEnv.
Context (E : Env) (D : DdlEnv).

Definition qx_serialize_memory_value (expr : pg_node) : string :=
  match expr with
  | NAConst None => "null"
  | NAConst (Some (NString s)) => s
  | NAConst (Some (NInteger z)) => show_d (int32 z)
  | NAConst (Some (NFloat s)) => s
  | NAConst (Some (NBoolean b)) => show_bool b
  | _ => nodeToString D expr
  end.

Definition QxRememberSessionMemory (sessionoid agentoid ownerid : Oid) (scope : ascii)
    (memory_key : string) (memory_value : pg_node) (tags : list string) : M Oid :=
  let* memoryoid := QxCatalogInsertMemory E agentoid sessionoid ownerid scope (Some memory_key)
    (Some (qx_serialize_memory_value memory_value)) (qx_serialize_memory_tags tags) in
  QxCatalogInsertEvent E sessionoid InvalidOid InvalidOid ownerid None (Some "MEMORY_RECORDED")
    (Some (cat ["memory="; show_u memoryoid; ";scope="; QxMemoryScopeLabel scope; ";key=";
                memory_key])) ;;;
  ret memoryoid.

Definition memory_visible (ownerid : Oid) (scopes : list ascii) (match_text : cstr)
    (m : pg_qx_memory) : bool :=
  (qxmemorydbid m =? MyDatabaseId E) && has_privs_of_role E ownerid (qxmemoryowner m) &&
  qx_scope_is_requested (qxmemoryscope m) scopes &&
  qx_memory_matches_filter match_text (qxmemorykey m) (qxmemoryvalue m) (qxmemorytags m).

Fixpoint fetch_loop (ownerid : Oid) (scopes : list ascii) (match_text : cstr)
    (limit_count emitted : Z) (scan : list pg_qx_memory) : list memory_result :=
  match scan with
  | [] => []
  | m :: rest =>
      if memory_visible ownerid scopes match_text m then
        memory_row m ::
          (if limit_count <=? emitted + 1 then []
           else fetch_loop ownerid scopes match_text limit_count (emitted + 1) rest)
      else fetch_loop ownerid scopes match_text limit_count emitted rest
  end.

Definition QxFetchMemoryRecords (c : catalog) (agentoid ownerid : Oid) (scopes : list ascii)
    (match_text : cstr) (limit_count : Z) : list memory_result :=
  fetch_loop ownerid scopes match_text limit_count 0 (agent_memories c agentoid).

(** ** The commands *)

(** The first agent of that name on the search path. *)
Fixpoint agent_on_path (c : catalog) (agent_name : string) (path : list Oid) :
    option QxCatalogAgentInfo :=
  match path with
  | [] => None
  | namespaceoid :: rest =>
      match QxCatalogLookupAgentByName c namespaceoid (Some agent_name) with
      | Some info => Some info
      | None => agent_on_path c agent_name rest
      end
  end.

Definition qx_lookup_agent_info (c : catalog) (agent_name : string) : option QxCatalogAgentInfo :=
  agent_on_path c agent_name (fetch_search_path D).

Definition no_agent {A} (agent_name : string) : M A :=
  throw ERRCODE_UNDEFINED_OBJECT (cat ["agent "; quoted agent_name; " does not exist"]) None.

Definition CreateAgentCommand (stmt : CreateAgentStmt) : M unit :=
  let ownerid := GetUserId E in
  let agentname := ca_agent_name stmt in
  let* namespaceoid := lift (QualifiedNameGetCreationNamespace D agentname) in
  check_create_in_schema D namespaceoid ownerid ;;;
  let* c := gets w_vis in
  match QxCatalogLookupAgentByName c namespaceoid (Some agentname) with
  | Some _ => already_exists D "agent" agentname namespaceoid
  | None =>
      QxValidateToolList (ca_tools stmt) ;;;
      QxValidateRegisteredTools D namespaceoid (ca_tools stmt) true ;;;
      raise_if (is_blank (ca_policy_name stmt)) ERRCODE_UNDEFINED_OBJECT
        (cat ["agent "; quoted agentname; " requires an explicit namespace policy"])
        (Some (cat ["QhapaqXian no longer auto-creates namespace policies during CREATE ";
                    "AGENT."])) ;;;
      let* namespacepolicyoid := QxLookupNamespacePolicy D namespaceoid (ca_policy_name stmt) false in
      QxAuthorizeToolsForNamespace E D namespacepolicyoid namespaceoid ownerid (ca_tools stmt) ;;;
      let* identityoid := QxEnsureOperationalIdentity E namespaceoid ownerid
        (ca_identity_name stmt) ownerid (ca_policy_name stmt)
        (nodes_column (ca_budget_options stmt)) in
      QxCatalogInsertAgent agentname namespaceoid namespacepolicyoid identityoid ownerid
        (ca_identity_name stmt) (ca_model_uri stmt) (ca_memory_profile stmt) (ca_policy_name stmt)
        (nodes_column (ca_tools stmt)) (nodes_column (ca_budget_options stmt)) ;;;
      ret tt
  end.

(** A session of an agent, with its event and its trace.  The messages about the
    identity are built after the rows were released. *)
Definition open_session (stmt : StartSessionStmt) (ownerid : Oid) (agent : QxCatalogAgentInfo)
    (identity_row : QxCatalogIdentityInfo) : M unit :=
  let* sessionoid := QxCatalogInsertSession E (agent_oid agent) (qxnamespacepolicyid agent)
    (identity_oid identity_row) ownerid QX_SESSION_STATUS_ACTIVE
    (nodeToString D <$> ss_context stmt) in
  let* namespace_policy_name := QxNamespacePolicyNameById (qxnamespacepolicyid agent) in
  QxCatalogInsertEvent E sessionoid InvalidOid InvalidOid ownerid None (Some "SESSION_STARTED")
    (Some (cat ["agent="; ss_agent_name stmt; ";owner="; show_u ownerid])) ;;;
  QxCatalogInsertTrace E sessionoid InvalidOid InvalidOid ownerid None QX_TRACE_STATE_OPEN
    (Some "session.root")
    (Some (cat ["session root opened for agent="; ss_agent_name stmt; ";identity=";
                qxidentityname identity_row; ";namespace_policy="; namespace_policy_name])) ;;;
  ret tt.

Definition StartSessionCommand (stmt : StartSessionStmt) : M unit :=
  raise_if (ss_returning stmt) ERRCODE_FEATURE_NOT_SUPPORTED
    "START SESSION ... RETURNING SESSION is not executable yet"
    (Some (cat ["Etapa 4 persists session rows in pg_qx_session, but tuple-returning utility ";
                "execution is still deferred."])) ;;;
  let* c := gets w_vis in
  match qx_lookup_agent_info c (ss_agent_name stmt) with
  | None => no_agent (ss_agent_name stmt)
  | Some agent =>
      let ownerid := GetUserId E in
      match QxCatalogLookupIdentityByOid c (qxidentityid agent) with
      | None => elog_error (cat ["cache lookup failed for QhapaqXian identity "; show_u 0])
      | Some identity_row =>
          raise_if (negb (has_privs_of_role E ownerid (qxagentowner agent)))
            ERRCODE_INSUFFICIENT_PRIVILEGE
            (cat ["permission denied to start a session for agent "; quoted (ss_agent_name stmt)])
            (Some "Only the agent owner or a member of that role may start agent sessions.") ;;;
          raise_if (negb (has_privs_of_role E ownerid (qxidentityauthrole identity_row)))
            ERRCODE_INSUFFICIENT_PRIVILEGE
            (cat ["permission denied to start a session as identity "; quoted (printed None)])
            (Some (cat ["The session owner must be able to assume the identity auth role bound ";
                        "to the agent."])) ;;;
          open_session stmt ownerid agent identity_row
      end
  end.

Definition RememberMemoryCommand (stmt : RememberStmt) : M unit :=
  let* sessionoid := qx_extract_oid_literal (rm_session_id stmt) "REMEMBER"
    (cat ["Stage 10 persists agent memory in engine-owned storage, but session identifiers ";
          "still require literal OID input on the utility path."]) in
  let* c := gets w_vis in
  match QxCatalogLookupSessionByOid c sessionoid with
  | None => no_session sessionoid
  | Some info =>
      let session := si_row info in
      let ownerid := GetUserId E in
      raise_if (negb (qxsessiondbid session =? MyDatabaseId E)) ERRCODE_INVALID_PARAMETER_VALUE
        (cat ["session "; show_u sessionoid; " belongs to a different database"]) None ;;;
      raise_if (negb (Ascii.eqb (qxsessionstatus session) QX_SESSION_STATUS_ACTIVE))
        ERRCODE_OBJECT_NOT_IN_PREREQUISITE_STATE
        (cat ["session "; show_u sessionoid; " is not active"])
        (Some "REMEMBER currently accepts active sessions only.") ;;;
      raise_if (negb (has_privs_of_role E ownerid (qxsessionowner session)))
        ERRCODE_INSUFFICIENT_PRIVILEGE
        (cat ["permission denied to remember data in session "; show_u sessionoid])
        (Some (cat ["Only the session owner or a member of that role may persist agent memory ";
                    "for the session."])) ;;;
      QxRememberSessionMemory sessionoid (qxsessionagentid session) ownerid (rm_scope stmt)
        (rm_memory_key stmt) (rm_memory_value stmt) (rm_tags stmt) ;;;
      ret tt
  end.

Definition FetchMemoryCommand (stmt : FetchMemoryStmt) : M (list memory_result) :=
  let* c := gets w_vis in
  match qx_lookup_agent_info c (fm_agent_name stmt) with
  | None => no_agent (fm_agent_name stmt)
  | Some agent =>
      let ownerid := GetUserId E in
      raise_if (negb (has_privs_of_role E ownerid (qxagentowner agent)))
        ERRCODE_INSUFFICIENT_PRIVILEGE
        (cat ["permission denied to fetch memory for agent "; quoted (fm_agent_name stmt)])
        (Some (cat ["Only the agent owner or a member of that role may inspect engine-owned ";
                    "memory for the agent."])) ;;;
      ret (QxFetchMemoryRecords c (agent_oid agent) ownerid (fm_scopes stmt) (fm_match_text stmt)
             (fm_limit_count stmt))
  end.

End WithEnv.
