(* ===== verification/Trace.v ===== *)
(** * SHOW TRACE

    The model of [src/src/backend/commands/tracecmds.c]: the rewriting of a
    trace detail into a text that does not depend on the run, and the command.
    Pointers into a text are the text from there on; the loops over a text have
    its length as fuel.  Rows with the same key of an index are scanned in the
    order of the table. *)

From Stdlib Require Import Ascii String.
From S2P Require Import Prelude Text Types Scheduler Stat Observe SemanticLog Tables World.
From S2P Require Import Catalog Recovery Policy Backends ToolExec Envelope Security Lifecycle Planner.
Open Scope string_scope.
Open Scope Z_scope.
Open Scope bool_scope.
Open Scope list_scope.

Record ShowTraceStmt := MkShowTrace {
  st_task_id : pg_node;
  st_limit_count : Z
}.

Definition qx_trace_state_label (state : ascii) : string :=
  if Ascii.eqb state QX_TRACE_STATE_OPEN then "open"
  else if Ascii.eqb state QX_TRACE_STATE_CLOSED then "closed"
  else "unknown".

(** ** Rewriting *)

Fixpoint replace_fragment_loop (fuel : nat) (cursor needle replacement : string) : string :=
  match fuel with
  | O => cursor
  | S fuel' =>
      match strstr cursor needle with
      | None => cursor
      | Some (prefix, rest) =>
          cat [prefix; replacement; replace_fragment_loop fuel' rest needle replacement]
      end
  end.

Definition qx_replace_trace_fragment (source needle replacement : string) : string :=
  if String.eqb needle "" then source
  else replace_fragment_loop (S (String.length source)) source needle replacement.

(** The text from the first character for which [f] fails. *)
Fixpoint skip_while (f : ascii -> bool) (s : string) : string :=
  match s with
  | EmptyString => EmptyString
  | String c t => if f c then skip_while f t else s
  end.

(** One value of a key is replaced, unless it is empty. *)
Definition replace_value (in_value : ascii -> bool) (source key replacement : string) : string :=
  match strstr source key with
  | None => source
  | Some (before, value_start) =>
      let value_end := skip_while in_value value_start in
      if String.eqb value_end value_start then source
      else cat [before; key; replacement; value_end]
  end.

Definition qx_replace_trace_numeric_value (source key replacement : string) : string :=
  replace_value is_digit source key replacement.

Definition not_semicolon (c : ascii) : bool := negb (Ascii.eqb c ";").

Definition qx_replace_trace_delimited_value (source key replacement : string) : string :=
  replace_value not_semicolon source key replacement.

(** The text written, whether a value was changed, and where the cursor stops. *)
Fixpoint replace_all_loop (fuel : nat) (key replacement cursor rewritten : string)
    (changed : bool) : string * bool * string :=
  match fuel with
  | O => (rewritten, changed, cursor)
  | S fuel' =>
      if String.eqb cursor "" then (rewritten, changed, cursor)
      else match strstr cursor key with
      | None => (rewritten +:+ cursor, changed, cursor)
      | Some (before, value_start) =>
          let value := upto ";" value_start in
          let value_end := skip_while not_semicolon value_start in
          let rewritten := cat [rewritten; before; key] in
          if String.eqb value "" || String.eqb value replacement
          then replace_all_loop fuel' key replacement value_end (rewritten +:+ value) changed
          else replace_all_loop fuel' key replacement value_end (rewritten +:+ replacement) true
      end
  end.

Definition qx_replace_trace_delimited_value_all (source key replacement : string) : string :=
  let '(rewritten, changed, cursor) :=
    replace_all_loop (S (String.length source)) key replacement source "" false in
  if negb changed then source else rewritten +:+ cursor.

(** ** The detail *)

Definition qx_normalize_trace_detail_strip_receipt_tail_once (source : string) : cstr :=
  match before_second ";detail=" source with
  | Some s => Some s
  | None =>
      match before_second ";tokens=" source with
      | Some s => Some s
      | None => before_second ";launch_mode=" source
      end
  end.

Fixpoint strip_receipt_loop (fuel : nat) (stripped : string) : string :=
  match fuel with
  | O => stripped
  | S fuel' =>
      match qx_normalize_trace_detail_strip_receipt_tail_once stripped with
      | None => stripped
      | Some next => strip_receipt_loop fuel' next
      end
  end.

Definition qx_normalize_trace_detail_strip_receipt_tail (source : string) : string :=
  strip_receipt_loop (String.length source) source.

Definition qx_normalize_trace_detail_truncate_after_wall_ms (source : string) : string :=
  match strstr source ";wall_ms=" with
  | None => source
  | Some (before, cursor) =>
      cat [before; ";wall_ms="; if starts_with cursor "<ms>" then "<ms>" else take_digits cursor]
  end.

(** The part of the detail that repeats a receipt is cut; positions are compared
    by the length of the text before them. *)
Definition cut_inner_detail (stripped : string) : string :=
  match strstr stripped ";detail=" with
  | None => stripped
  | Some (outer, inner_detail) =>
      let tokens_in_inner := fst <$> strstr inner_detail ";tokens=" in
      let detail_dup := fst <$> strstr inner_detail ";detail=" in
      let truncate_at :=
        match tokens_in_inner, detail_dup with
        | Some t, None => Some t
        | Some t, Some d => if (String.length t <? String.length d)%nat then Some t else Some d
        | None, d => d
        end in
      match truncate_at with
      | Some kept => cat [outer; ";detail="; kept]
      | None =>
          let clean_inner := qx_normalize_trace_detail_truncate_after_wall_ms inner_detail in
          if negb (String.eqb clean_inner inner_detail)
          then cat [outer; ";detail="; clean_inner]
          else stripped
      end
  end.

Definition qx_normalize_trace_detail (detail : string) (taskoid : Oid) : string :=
  let stripped := cut_inner_detail (qx_normalize_trace_detail_strip_receipt_tail detail) in
  let normalized := qx_replace_trace_fragment stripped (cat ["task "; show_u taskoid]) "task <task>" in
  let rewritten :=
    qx_replace_trace_fragment normalized (cat ["task="; show_u taskoid]) "task=<task>" in
  let microvm_accel := qx_replace_trace_delimited_value rewritten "microvm_accel=" "<accel>" in
  let microvm_kernel :=
    qx_replace_trace_delimited_value microvm_accel "microvm_kernel=" "<kernel>" in
  let container_id :=
    qx_replace_trace_delimited_value_all microvm_kernel "container_id=" "<container_id>" in
  let vm_id := qx_replace_trace_delimited_value_all container_id "vm_id=" "<vm_id>" in
  let vm_id := qx_replace_trace_delimited_value_all vm_id "vm_id=" "<vm_id>" in
  let restricted_identity :=
    qx_replace_trace_delimited_value vm_id "restricted_identity=" "<identity>" in
  let final_detail := qx_replace_trace_numeric_value restricted_identity "wall_ms=" "<ms>" in
  let stripped := qx_normalize_trace_detail_strip_receipt_tail final_detail in
  let final_detail := qx_replace_trace_delimited_value_all stripped "vm_id=" "<vm_id>" in
  qx_normalize_trace_detail_truncate_after_wall_ms final_detail.

(** ** The command *)

(** A row of the result. *)
Record trace_result := MkTraceResult {
  tr_state : string;
  tr_name : cstr;
  tr_detail : cstr;
  tr_summary : string;
  tr_has_step : bool;
  tr_has_semantic_lsn : bool
}.

Section WithEnv.
Context (E : Env).

Definition trace_row (taskoid : Oid) (t : pg_qx_trace) : trace_result :=
  let normalized_detail := (fun d => qx_normalize_trace_detail d taskoid) <$> qxtracedetail t in
  {| tr_state := qx_trace_state_label (qxtracestate t); tr_name := qxtracename t;
     tr_detail := normalized_detail;
     tr_summary := QxObserveSummarizeTraceDetail (qxtracename t) normalized_detail;
     tr_has_step := OidIsValid (qxtracestepid t);
     tr_has_semantic_lsn := negb (qxtracelsn t =? 0) |}.

Fixpoint show_trace_loop (taskoid : Oid) (limit_count emitted : Z) (scan : list pg_qx_trace) :
    list trace_result :=
  match scan with
  | [] => []
  | t :: rest =>
      if qxtracedbid t =? MyDatabaseId E then
        trace_row taskoid t ::
          (if limit_count <=? emitted + 1 then []
           else show_trace_loop taskoid limit_count (emitted + 1) rest)
      else show_trace_loop taskoid limit_count emitted rest
  end.

Definition ShowTraceCommand (stmt : ShowTraceStmt) : M (list trace_result) :=
  let* taskoid := qx_extract_oid_literal (st_task_id stmt) "SHOW TRACE"
    (cat ["Stage 10 exposes engine-owned trace rows directly, but task identifiers still ";
          "require literal OID input on the utility path."]) in
  let* c := gets w_vis in
  match QxCatalogLookupTaskByOid c taskoid with
  | None =>
      throw ERRCODE_UNDEFINED_OBJECT (cat ["task "; show_u taskoid; " does not exist"]) None
  | Some info =>
      raise_if (negb (has_privs_of_role E (GetUserId E) (qxtaskowner (ti_row info))))
        ERRCODE_INSUFFICIENT_PRIVILEGE
        (cat ["permission denied to inspect trace for task "; show_u taskoid])
        (Some (cat ["Only the task owner or a member of that role may read the engine-owned ";
                    "trace stream."])) ;;;
      ret (show_trace_loop taskoid (st_limit_count stmt) 0
             (List.filter (fun t => qxtracetaskid t =? taskoid) (c_traces c)))
  end.

End WithEnv.
