(* ===== verification/Supervisor.v ===== *)
(** * The scheduler workers

    The background side of [src/src/backend/qx/runtime/qx_runtime.c]: which
    worker slot owns a task, how long a failed attempt waits before it is
    retried, the supervision cycle that renews or reclaims leases, the retry
    cycle that dispatches or gives up on failed attempts, the iteration of a
    database worker, and the launcher's pass over databases and workers. *)

From Stdlib Require Import Ascii String.
From S2P Require Import Prelude Text Numutils Types Scheduler Stat Observe SemanticLog Tables.
From S2P Require Import World Catalog Recovery Policy Backends ToolExec Envelope RecoveryHooks.
From S2P Require Import Lifecycle.
Open Scope string_scope.
Open Scope Z_scope.
Open Scope bool_scope.
Open Scope list_scope.

Definition QX_SCHEDULER_WORKER_NAPTIME_MS : Z := 1000.
Definition QX_SCHEDULER_DB_WORKER_SLOTS_DEFAULT : Z := 2.
Definition QX_SCHEDULER_DB_WORKER_SLOTS_MIN : Z := 1.
Definition QX_SCHEDULER_DB_WORKER_SLOTS_MAX : Z := 8.

(** ** Slots *)

(** [slot_env] is [getenv("QX_SCHEDULER_DB_WORKER_SLOTS")]. *)
Definition qx_runtime_scheduler_slot_count (slot_env : cstr) : Z :=
  if is_blank slot_env then QX_SCHEDULER_DB_WORKER_SLOTS_DEFAULT
  else match strtol_whole (cstr_or slot_env "") with
       | None => QX_SCHEDULER_DB_WORKER_SLOTS_DEFAULT
       | Some slot_count =>
           if slot_count <? QX_SCHEDULER_DB_WORKER_SLOTS_MIN then QX_SCHEDULER_DB_WORKER_SLOTS_MIN
           else if QX_SCHEDULER_DB_WORKER_SLOTS_MAX <? slot_count
           then QX_SCHEDULER_DB_WORKER_SLOTS_MAX
           else int32 slot_count
       end.

(** The mixing steps, on 32-bit words. *)
Definition xor_shift (n : Z) (hash : Z) : Z := Z.lxor hash (Z.shiftr hash n).
Definition mix_slot_hash (taskoid : Oid) : Z :=
  let hash := xor_shift 16 (uint32 taskoid) in
  let hash := uint32 (hash * 2146121005) in       (* 0x7feb352d *)
  let hash := xor_shift 15 hash in
  let hash := uint32 (hash * 2221713035) in       (* 0x846ca68b *)
  xor_shift 16 hash.

Definition qx_runtime_scheduler_owner_slot (taskoid : Oid) (slot_count : Z) : Z :=
  if slot_count <=? 1 then 0
  else int32 (mix_slot_hash taskoid mod uint32 slot_count).

Definition qx_runtime_scheduler_worker_owns_task (taskoid : Oid) (slot_index slot_count : Z) : bool :=
  if slot_count <=? 1 then true
  else qx_runtime_scheduler_owner_slot taskoid slot_count =? slot_index.

(** ** Lease times and retry delays *)

Definition qx_runtime_lease_ttl_ms (snapshot : QxSchedulerLeaseSnapshot) : Z :=
  let ttl_usecs := int64 (l_expires_at snapshot - l_renewed_at snapshot) in
  if ttl_usecs <=? 0 then 1
  else Z.max (int32 (Z.quot ttl_usecs USECS_PER_MSEC)) 1.

(** The delay before the first retry, by priority. *)
Definition retry_base_ms (priority : cstr) (lease_ttl_ms : Z) : Z :=
  let nap := QX_SCHEDULER_WORKER_NAPTIME_MS in
  let base_ms := Z.max lease_ttl_ms nap in
  if is_blank priority then base_ms
  else if cstr_case_is priority "urgent" || cstr_case_is priority "critical"
  then Z.max (Z.quot base_ms 2) nap
  else if cstr_case_is priority "high"
  then Z.max (Z.quot (int32 (base_ms * 3)) 4) (nap * 2)
  else if cstr_case_is priority "normal" then Z.max base_ms (nap * 3)
  else if cstr_case_is priority "low" then Z.max (int32 (base_ms * 2)) (nap * 5)
  else if cstr_case_is priority "idle" then Z.max (int32 (base_ms * 3)) (nap * 8)
  else base_ms.

Definition qx_runtime_retry_backoff_ms (priority : cstr) (retry_count lease_ttl_ms : Z)
    (taskoid : Oid) : Z :=
  let retry_factor := Z.shiftl 1 (Z.min (Z.max retry_count 1 - 1) 3) in
  let base_ms := Z.min (int32 (retry_base_ms priority lease_ttl_ms * retry_factor)) 60000 in
  let jitter_window_ms := Z.min (Z.max (Z.quot base_ms 8) 1) 1500 in
  let jitter_seed :=
    Z.lxor (uint32 taskoid) (uint32 (uint32 (Z.max retry_count 1) * 2654435761)) in
  let jitter_ms := int32 (jitter_seed mod uint32 jitter_window_ms) in
  int32 (base_ms + jitter_ms).

(** ** Candidates for a retry *)

Record retry_candidate := MkCandidate {
  rc_task : QxCatalogTaskInfo;
  rc_attempt : QxCatalogAttemptInfo;
  rc_queue : QxSchedulerQueueSnapshot
}.

Definition qx_runtime_retry_candidate_better (candidate : retry_candidate)
    (best : option retry_candidate) : bool :=
  match best with
  | None => true
  | Some best =>
      let candidate_weight := QxSchedulerPriorityWeight (q_priority (rc_queue candidate)) in
      let best_weight := QxSchedulerPriorityWeight (q_priority (rc_queue best)) in
      if negb (candidate_weight =? best_weight) then best_weight <? candidate_weight
      else if negb (q_eligible_at (rc_queue candidate) =? q_eligible_at (rc_queue best))
      then q_eligible_at (rc_queue candidate) <? q_eligible_at (rc_queue best)
      else if negb (q_enqueued_at (rc_queue candidate) =? q_enqueued_at (rc_queue best))
      then q_enqueued_at (rc_queue candidate) <? q_enqueued_at (rc_queue best)
      else if negb (qxattemptseqno (rc_attempt candidate) =? qxattemptseqno (rc_attempt best))
      then qxattemptseqno (rc_attempt candidate) <? qxattemptseqno (rc_attempt best)
      else task_oid (ti_row (rc_task candidate)) <? task_oid (ti_row (rc_task best))
  end.

(** ** Counters of a cycle *)

Record QxRuntimeSchedulerCycleStats := MkCycleStats {
  cy_tasks_scanned : Z;
  cy_running_tasks : Z;
  cy_queued_retry_tasks : Z;
  cy_retry_ready_tasks : Z;
  cy_retry_waiting_tasks : Z;
  cy_ownership_skipped : Z;
  cy_leases_seen : Z;
  cy_leases_renewed : Z;
  cy_leases_reclaimed : Z;
  cy_leases_repaired : Z;
  cy_recovery_requeued : Z;
  cy_retry_dispatches : Z;
  cy_dead_lettered_tasks : Z;
  cy_heartbeats_written : Z;
  cy_last_retry_backoff_ms : Z;
  cy_max_retry_backoff_ms : Z
}.

Definition zero_cycle_stats : QxRuntimeSchedulerCycleStats :=
  MkCycleStats 0 0 0 0 0 0 0 0 0 0 0 0 0 0 0 0.

Inductive cycle_field :=
  | CY_tasks_scanned | CY_running_tasks | CY_queued_retry_tasks | CY_retry_ready_tasks
  | CY_retry_waiting_tasks | CY_ownership_skipped | CY_leases_seen | CY_leases_renewed
  | CY_leases_reclaimed | CY_leases_repaired | CY_recovery_requeued | CY_retry_dispatches
  | CY_dead_lettered_tasks | CY_heartbeats_written.

#[export] Instance cycle_field_eq_dec : EqDecision cycle_field.
Proof. solve_decision. Defined.

(** [stats->f += n] for each field of [fs]; the counters are [int32]. *)
Definition count_cycle (fs : list cycle_field) (n : Z) (s : QxRuntimeSchedulerCycleStats) :
    QxRuntimeSchedulerCycleStats :=
  let add f x := if bool_decide (f ∈ fs) then int32 (x + n) else x in
  {| cy_tasks_scanned := add CY_tasks_scanned (cy_tasks_scanned s);
     cy_running_tasks := add CY_running_tasks (cy_running_tasks s);
     cy_queued_retry_tasks := add CY_queued_retry_tasks (cy_queued_retry_tasks s);
     cy_retry_ready_tasks := add CY_retry_ready_tasks (cy_retry_ready_tasks s);
     cy_retry_waiting_tasks := add CY_retry_waiting_tasks (cy_retry_waiting_tasks s);
     cy_ownership_skipped := add CY_ownership_skipped (cy_ownership_skipped s);
     cy_leases_seen := add CY_leases_seen (cy_leases_seen s);
     cy_leases_renewed := add CY_leases_renewed (cy_leases_renewed s);
     cy_leases_reclaimed := add CY_leases_reclaimed (cy_leases_reclaimed s);
     cy_leases_repaired := add CY_leases_repaired (cy_leases_repaired s);
     cy_recovery_requeued := add CY_recovery_requeued (cy_recovery_requeued s);
     cy_retry_dispatches := add CY_retry_dispatches (cy_retry_dispatches s);
     cy_dead_lettered_tasks := add CY_dead_lettered_tasks (cy_dead_lettered_tasks s);
     cy_heartbeats_written := add CY_heartbeats_written (cy_heartbeats_written s);
     cy_last_retry_backoff_ms := cy_last_retry_backoff_ms s;
     cy_max_retry_backoff_ms := cy_max_retry_backoff_ms s |}.

(** The delay a queue entry was given. *)
Definition queue_delay_ms (q : QxSchedulerQueueSnapshot) : Z :=
  Z.quot (int64 (q_eligible_at q - q_enqueued_at q)) USECS_PER_MSEC.

Definition note_backoff (q : QxSchedulerQueueSnapshot) (s : QxRuntimeSchedulerCycleStats) :
    QxRuntimeSchedulerCycleStats :=
  let last_ms := int32 (queue_delay_ms q) in
  {| cy_tasks_scanned := cy_tasks_scanned s; cy_running_tasks := cy_running_tasks s;
     cy_queued_retry_tasks := cy_queued_retry_tasks s;
     cy_retry_ready_tasks := cy_retry_ready_tasks s;
     cy_retry_waiting_tasks := cy_retry_waiting_tasks s;
     cy_ownership_skipped := cy_ownership_skipped s; cy_leases_seen := cy_leases_seen s;
     cy_leases_renewed := cy_leases_renewed s; cy_leases_reclaimed := cy_leases_reclaimed s;
     cy_leases_repaired := cy_leases_repaired s; cy_recovery_requeued := cy_recovery_requeued s;
     cy_retry_dispatches := cy_retry_dispatches s;
     cy_dead_lettered_tasks := cy_dead_lettered_tasks s;
     cy_heartbeats_written := cy_heartbeats_written s;
     cy_last_retry_backoff_ms := last_ms;
     cy_max_retry_backoff_ms := Z.max (cy_max_retry_backoff_ms s) last_ms |}.

(** ** Changes to snapshots *)

Definition set_queue_eligible (at_ : TimestampTz) (q : QxSchedulerQueueSnapshot) :
    QxSchedulerQueueSnapshot :=
  {| q_queueoid := q_queueoid q; q_ownerid := q_ownerid q;
     q_namespace_policy_oid := q_namespace_policy_oid q; q_agentoid := q_agentoid q;
     q_sessionoid := q_sessionoid q; q_taskoid := q_taskoid q; q_attemptoid := q_attemptoid q;
     q_queue_kind := q_queue_kind q; q_queue_name := q_queue_name q;
     q_agent_name := q_agent_name q; q_identity_name := q_identity_name q;
     q_namespace_policy_name := q_namespace_policy_name q; q_priority := q_priority q;
     q_principal_name := q_principal_name q; q_provider_name := q_provider_name q;
     q_provider_kind := q_provider_kind q; q_principal_runtime := q_principal_runtime q;
     q_runnable_count := q_runnable_count q; q_leased_count := q_leased_count q;
     q_blocked_count := q_blocked_count q; q_retry_count := q_retry_count q;
     q_enqueued_at := q_enqueued_at q; q_eligible_at := at_; q_updated_at := q_updated_at q |}.

(** The queue entry of a task that is given up. *)
Definition dead_queue_of (now : TimestampTz) (q : QxSchedulerQueueSnapshot) :
    QxSchedulerQueueSnapshot :=
  {| q_queueoid := q_queueoid q; q_ownerid := q_ownerid q;
     q_namespace_policy_oid := q_namespace_policy_oid q; q_agentoid := q_agentoid q;
     q_sessionoid := q_sessionoid q; q_taskoid := q_taskoid q; q_attemptoid := q_attemptoid q;
     q_queue_kind := QX_SCHEDULER_QUEUE_MAINTENANCE; q_queue_name := q_queue_name q;
     q_agent_name := q_agent_name q; q_identity_name := q_identity_name q;
     q_namespace_policy_name := q_namespace_policy_name q; q_priority := q_priority q;
     q_principal_name := q_principal_name q; q_provider_name := q_provider_name q;
     q_provider_kind := q_provider_kind q; q_principal_runtime := q_principal_runtime q;
     q_runnable_count := 0; q_leased_count := 0; q_blocked_count := 1;
     q_retry_count := q_retry_count q; q_enqueued_at := q_enqueued_at q;
     q_eligible_at := now; q_updated_at := now |}.

Definition set_lease_worker (worker_name : cstr) (l : QxSchedulerLeaseSnapshot) :
    QxSchedulerLeaseSnapshot :=
  {| l_leaseoid := l_leaseoid l; l_queueoid := l_queueoid l; l_ownerid := l_ownerid l;
     l_workeroid := l_workeroid l; l_sessionoid := l_sessionoid l; l_taskoid := l_taskoid l;
     l_attemptoid := l_attemptoid l; l_state := l_state l; l_queue_name := l_queue_name l;
     l_worker_name := worker_name; l_lease_token := l_lease_token l;
     l_principal_name := l_principal_name l; l_provider_name := l_provider_name l;
     l_provider_kind := l_provider_kind l; l_principal_runtime := l_principal_runtime l;
     l_acquired_at := l_acquired_at l; l_renewed_at := l_renewed_at l;
     l_expires_at := l_expires_at l; l_last_heartbeat_at := l_last_heartbeat_at l;
     l_renewal_count := l_renewal_count l; l_needs_recovery := l_needs_recovery l |}.

Definition qx_runtime_set_heartbeat_receipt (receipt_mode : cstr) (h : QxSchedulerHeartbeatSnapshot) :
    QxSchedulerHeartbeatSnapshot :=
  {| h_heartbeatoid := h_heartbeatoid h; h_leaseoid := h_leaseoid h; h_ownerid := h_ownerid h;
     h_workeroid := h_workeroid h; h_sessionoid := h_sessionoid h; h_taskoid := h_taskoid h;
     h_attemptoid := h_attemptoid h; h_state := h_state h; h_worker_name := h_worker_name h;
     h_queue_name := h_queue_name h; h_principal_runtime := h_principal_runtime h;
     h_provider_kind := h_provider_kind h;
     h_receipt_mode := Some (qx_safe_runtime_text receipt_mode); h_lag_ms := h_lag_ms h;
     h_observed_at := h_observed_at h; h_expected_before := h_expected_before h;
     h_stale := h_stale h |}.

(** ** Cycles *)

(** Run over a list with a state; the first error stops. *)
Fixpoint mfold {A S} (f : A -> S -> M S) (l : list A) (s : S) : M S :=
  match l with
  | [] => ret s
  | x :: rest => let* s' := f x s in mfold f rest s'
  end.

Section WithEnv.
Context (E : Env) (T : ToolEnv).

(** The name of the running background worker, if it is one. *)
Context (bgw_name : cstr).

Definition worker_name : string := cstr_or bgw_name "qhapaqxian scheduler".

Definition attempt_missing {A} (attemptoid : Oid) : M A :=
  elog_error (cat ["cache lookup failed for QhapaqXian attempt "; show_u attemptoid]).

(** The envelope of a reclaimed attempt, and its queue entry. *)
Definition reclaim_requeue (task : QxCatalogTaskInfo) (attempt : QxCatalogAttemptInfo)
    (lease : QxSchedulerLeaseSnapshot) : M Oid :=
  let t := ti_row task in
  let seqno := qxattemptseqno attempt in
  if OidIsValid (qxtasklastcheckpointid t) then
    let* c := gets w_vis in
    let checkpoint_label := qx_runtime_recovery_checkpoint_label c (qxtasklastcheckpointid t) in
    let* contract := qx_runtime_recovery_selected_contract task true in
    let* snapshot := queue_snapshot_now E
      (qx_runtime_fill_recovery_scheduler_envelope task (attempt_oid attempt) (Z.max seqno 0)
         checkpoint_label checkpoint_label true true (1 <? seqno) contract) in
    enqueue E (set_queue_kind QX_SCHEDULER_QUEUE_RECOVERY (Z.max seqno 0) snapshot)
  else
    let* contract := qx_runtime_recovery_selected_contract task false in
    let* snapshot := queue_snapshot_now E
      (qx_runtime_fill_recovery_scheduler_envelope task (attempt_oid attempt) (Z.max seqno 1)
         None None false true true contract) in
    let snapshot := set_queue_kind QX_SCHEDULER_QUEUE_RETRY (Z.max seqno 1) snapshot in
    let retry_backoff_ms := qx_runtime_retry_backoff_ms (q_priority snapshot)
      (q_retry_count snapshot) (qx_runtime_lease_ttl_ms lease) (task_oid t) in
    enqueue E (set_queue_eligible
      (int64 (q_enqueued_at snapshot + retry_backoff_ms * USECS_PER_MSEC)) snapshot).

Definition qx_runtime_reclaim_running_attempt (task : QxCatalogTaskInfo)
    (attempt : QxCatalogAttemptInfo) (lease : QxSchedulerLeaseSnapshot)
    (stats : QxRuntimeSchedulerCycleStats) : M (bool * QxRuntimeSchedulerCycleStats) :=
  let t := ti_row task in
  let repairable := OidIsValid (qxtasklastcheckpointid t) in
  let* queueoid := reclaim_requeue task attempt lease in
  (if repairable then
     QxCatalogUpdateAttemptState (attempt_oid attempt) QX_ATTEMPT_STATE_CHECKPOINTED ;;;
     QxCatalogUpdateTaskRuntime (task_oid t) QX_TASK_STATE_CHECKPOINTED (attempt_oid attempt) true
       (qxtasklastcheckpointid t) true
   else
     QxCatalogUpdateAttemptState (attempt_oid attempt) QX_ATTEMPT_STATE_FAILED ;;;
     QxCatalogUpdateTaskRuntime (task_oid t) QX_TASK_STATE_QUEUED (attempt_oid attempt) true
       InvalidOid true) ;;;
  CommandCounterIncrement ;;;
  let* released := release_lease_now E lease true in
  let reclaimed :=
    if String.eqb worker_name "" then released else set_lease_worker (Some worker_name) released in
  let* leaseoid := QxCatalogInsertSchedulerLease E queueoid reclaimed in
  let* heartbeat := finalize_heartbeat_now E reclaimed (Some "scheduler-reclaim") in
  let* _ := QxCatalogInsertSchedulerHeartbeat E leaseoid
    (set_heartbeat_missed (Z.max (Z.quot (qx_runtime_lease_ttl_ms lease) 3) 1) heartbeat) in
  CommandCounterIncrement ;;;
  report_scheduler_event E "reclaim" ;;;
  supervisor_fence_stale E (task_oid t) ;;;
  ret (repairable,
       count_cycle [CY_recovery_requeued; CY_leases_repaired; CY_leases_reclaimed;
                    CY_heartbeats_written] 1 stats).

(** A renewed lease and its heartbeat. *)
Definition renew_running_lease (lease : QxSchedulerLeaseSnapshot) : M unit :=
  let* renewed := renew_lease_now E lease (qx_runtime_lease_ttl_ms lease) in
  let* leaseoid := QxCatalogInsertSchedulerLease E (l_queueoid lease) renewed in
  let* heartbeat := heartbeat_now E renewed in
  let* _ := QxCatalogInsertSchedulerHeartbeat E leaseoid
    (qx_runtime_set_heartbeat_receipt (Some "scheduler-renew") heartbeat) in
  CommandCounterIncrement.

Definition supervise_task (slot_index slot_count : Z) (now : TimestampTz) (task : QxCatalogTaskInfo)
    (stats : QxRuntimeSchedulerCycleStats) : M QxRuntimeSchedulerCycleStats :=
  let t := ti_row task in
  let stats := count_cycle [CY_tasks_scanned] 1 stats in
  if negb (Ascii.eqb (qxtaskstate t) QX_TASK_STATE_RUNNING) ||
     negb (OidIsValid (qxtasklastattemptid t)) then ret stats
  else if negb (qx_runtime_scheduler_worker_owns_task (task_oid t) slot_index slot_count) then
    ret (count_cycle [CY_ownership_skipped] 1 stats)
  else
    let stats := count_cycle [CY_running_tasks] 1 stats in
    let* c := gets w_vis in
    match QxCatalogLookupAttemptByOid c (qxtasklastattemptid t) with
    | None => attempt_missing (qxtasklastattemptid t)
    | Some attempt =>
        if negb (Ascii.eqb (qxattemptstate attempt) QX_ATTEMPT_STATE_RUNNING) then ret stats
        else match QxCatalogLookupLatestSchedulerLease c (MyDatabaseId E) InvalidOid (task_oid t)
                     (attempt_oid attempt) with
        | None => ret stats
        | Some lease =>
            let stats := count_cycle [CY_leases_seen] 1 stats in
            if negb (bool_decide (l_state lease = QX_SCHEDULER_LEASE_HELD)) ||
               negb (QxSchedulerLeaseNeedsReclaim (Some lease) now) then ret stats
            else if l_renewal_count lease <=? 0 then
              renew_running_lease lease ;;;
              report_scheduler_event E "renew" ;;;
              ret (count_cycle [CY_leases_renewed; CY_heartbeats_written] 1 stats)
            else
              let* reclaimed := qx_runtime_reclaim_running_attempt task attempt lease stats in
              ret (snd reclaimed)
        end
    end.

Definition qx_runtime_run_scheduler_cycle (slot_index slot_count : Z) :
    M QxRuntimeSchedulerCycleStats :=
  let* c := gets w_vis in
  let tasks := QxCatalogBuildTaskInfoList c (MyDatabaseId E) InvalidOid in
  let* now := GetCurrentTimestamp E in
  mfold (supervise_task slot_index slot_count now) tasks zero_cycle_stats.

(** ** Retries *)

Definition qx_runtime_dead_letter_retry_task (candidate : retry_candidate)
    (stats : QxRuntimeSchedulerCycleStats) : M (bool * QxRuntimeSchedulerCycleStats) :=
  let t := ti_row (rc_task candidate) in
  let attempt := rc_attempt candidate in
  let queue := rc_queue candidate in
  if negb (Ascii.eqb (qxtaskstate t) QX_TASK_STATE_QUEUED) ||
     negb (Ascii.eqb (qxattemptstate attempt) QX_ATTEMPT_STATE_FAILED) then ret (false, stats)
  else
    let* now := GetCurrentTimestamp E in
    let* queueoid := enqueue E (dead_queue_of now queue) in
    QxCatalogUpdateAttemptState (attempt_oid attempt) QX_ATTEMPT_STATE_FAILED ;;;
    QxCatalogUpdateTaskRuntime (task_oid t) QX_TASK_STATE_FAILED (attempt_oid attempt) true
      InvalidOid true ;;;
    let* payload := qx_runtime_append_recovery_payload (Some
      (cat ["retry_count="; show_d (q_retry_count queue);
            ";max_retries="; show_d qx_runtime_scheduler_max_retries;
            ";queueoid="; show_u queueoid; ";worker="; worker_name;
            ";task_state="; String QX_TASK_STATE_FAILED "";
            ";queue_kind="; show_d (queue_kind_code QX_SCHEDULER_QUEUE_MAINTENANCE)])) in
    record_both E (qxtasksessionid t) (task_oid t) InvalidOid (qxtaskowner t) None
      "TASK_DEAD_LETTERED" "runtime.dead_letter" payload ;;;
    ret (true, count_cycle [CY_dead_lettered_tasks] 1 stats).

(** The retried attempt's admission: queue entry, first step, lease. *)
Definition retry_admit (task : QxCatalogTaskInfo) (failed_seqno : Z) (tools : list pg_node)
    (queue : QxSchedulerQueueSnapshot) (stepseqbase : Z) (queueoid : Oid)
    (envelope : QxSchedulerTaskEnvelope) : M QxSchedulerLeaseSnapshot :=
  let t := ti_row task in
  let taskoid := task_oid t in
  let sessionoid := qxtasksessionid t in
  let ownerid := qxtaskowner t in
  let* payload := runtime_payload E
    (cat ["retry_from_attempt="; show_d failed_seqno;
          ";retry_delay_ms="; show_d (queue_delay_ms queue)]) envelope false in
  record_both E sessionoid taskoid InvalidOid ownerid None "TASK_RETRIED" "runtime.retry" payload ;;;
  let* stepoid := QxCatalogInsertStep E sessionoid taskoid stepseqbase
    (Some "stage8.retry_dispatch")
    (Some "Attempt retried execution after stale no-checkpoint reclaim") in
  QxCatalogChargeTaskBudget taskoid 8 14 "retry_dispatch" ;;;
  let* payload := runtime_payload E
    (cat ["attempt_opened;state="; String QX_TASK_STATE_RUNNING "";
          ";retry_from_attempt="; show_d failed_seqno;
          ";identity="; or_unknown (ti_identity_name task);
          ";namespace_policy="; or_unknown (ti_policy_name task);
          ";tools="; show_d (Z.of_nat (List.length tools));
          ";budget_cost="; show_d (qxtaskbudgetcost t);
          ";budget_tokens="; show_d (qxtaskbudgettokens t)]) envelope true in
  let* lease := open_lease E queueoid envelope (Some worker_name) in
  record_both E sessionoid taskoid stepoid ownerid None "TASK_RETRY_DISPATCHED"
    "runtime.retry_dispatch" payload ;;;
  ret lease.

Definition retry_steps (task : QxCatalogTaskInfo) (failed_seqno : Z) (tools : list pg_node)
    (stepseqbase : Z) (contract : cstr) : M (Oid * QxSemanticExecutionMetadata) :=
  let t := ti_row task in
  let taskoid := task_oid t in
  let sessionoid := qxtasksessionid t in
  let ownerid := qxtaskowner t in
  let* stepoid := QxCatalogInsertStep E sessionoid taskoid (int16 (stepseqbase + 1))
    (Some "stage15.authorize_tools")
    (Some "Retry dispatch reused the stored runtime tool allowlist") in
  record_both E sessionoid taskoid stepoid ownerid None "TASK_TOOLS_AUTHORIZED"
    "runtime.authorize_tools"
    (cat ["namespace_policy="; or_unknown (ti_policy_name task);
          ";authorized_tools="; show_d (Z.of_nat (List.length tools));
          ";tool_tokens="; show_d (qxtaskauthorizedtooltokens t);
          ";tool_cost="; show_d (qxtaskauthorizedtoolcost t);
          ";retry_from_attempt="; show_d failed_seqno]) ;;;
  let* meta := tool_step E T sessionoid taskoid ownerid (int16 (stepseqbase + 2)) "submit"
    "Retry attempt executed the selected tool through its principal program"
    contract (Some (cstr_or (qxtaskgoal t) "")) (is_present (qxtaskinput t)) in
  let* _ := charged_step E sessionoid taskoid ownerid (int16 (stepseqbase + 3))
    "stage8.capture_input" "Retry attempt captured task goal and raw input"
    (if is_present (qxtaskinput t) then 24 else 8) 13 "capture_input" None
    "TASK_INPUT_CAPTURED" "runtime.capture_input"
    (cat ["input_present="; show_bool (is_present (qxtaskinput t));
          ";task_name="; cstr_or (qxtaskname t) "<anonymous>"]) in
  let* stepoid := charged_step E sessionoid taskoid ownerid (int16 (stepseqbase + 4))
    "stage8.checkpoint_barrier" "Retry attempt reached a resumable checkpoint barrier"
    4 14 "checkpoint_barrier" (Some meta) "TASK_CHECKPOINTED" "runtime.checkpoint"
    (cat ["checkpoint=stage8.after_capture;task_state="; String QX_TASK_STATE_CHECKPOINTED ""]) in
  ret (stepoid, meta).

Definition qx_runtime_dispatch_retry_task (candidate : retry_candidate)
    (stats : QxRuntimeSchedulerCycleStats) : M (bool * QxRuntimeSchedulerCycleStats) :=
  let task := rc_task candidate in
  let t := ti_row task in
  let taskoid := task_oid t in
  let sessionoid := qxtasksessionid t in
  let ownerid := qxtaskowner t in
  let failed := rc_attempt candidate in
  if negb (Ascii.eqb (qxtaskstate t) QX_TASK_STATE_QUEUED) ||
     negb (Ascii.eqb (qxattemptstate failed) QX_ATTEMPT_STATE_FAILED) then ret (false, stats)
  else
  let* tools := qx_parse_task_authorized_contracts (qxtaskauthorizedtools t) in
  let* selected_contract := qx_runtime_task_phase_contract task false in
  match selected_contract with
  | None => throw ERRCODE_OBJECT_NOT_IN_PREREQUISITE_STATE
      (cat ["task "; show_u taskoid; " has no authorized retry contract"]) None
  | Some _ =>
    let nextattemptseqno := int16 (qxattemptseqno failed + 1) in
    let* c := gets w_vis in
    let stepseqbase := QxCatalogMaxStepSeqnoForTask c (MyDatabaseId E) taskoid in
    let* attemptoid := QxCatalogInsertAttempt E sessionoid taskoid ownerid InvalidOid
      nextattemptseqno QX_ATTEMPT_STATE_RUNNING (Some "retry") in
    CommandCounterIncrement ;;;
    QxCatalogUpdateTaskRuntime taskoid QX_TASK_STATE_RUNNING attemptoid true InvalidOid false ;;;
    let envelope :=
      qx_scheduler_fill_envelope ownerid sessionoid (qxtaskagentid t) (qxtaskidentityid t)
        (qxtasknamespacepolicyid t) taskoid attemptoid (qxtaskname t) (ti_agent_name task)
        (ti_identity_name task) (ti_policy_name task) (qxtaskpriority t)
        (Some "stage8.after_capture") None false true true (qxtaskbudgettokens t)
        (qxtaskbudgetcost t) (qxtaskestimatedtokens t) (qxtaskestimatedcost t)
        (nextattemptseqno - 1) selected_contract in
    let* snapshot := queue_snapshot_now E envelope in
    let* queueoid :=
      enqueue E (set_queue_kind QX_SCHEDULER_QUEUE_RETRY (nextattemptseqno - 1) snapshot) in
    let* lease := retry_admit task (qxattemptseqno failed) tools (rc_queue candidate) stepseqbase
                    queueoid envelope in
    let* captured := retry_steps task (qxattemptseqno failed) tools stepseqbase selected_contract in
    let '(stepoid, meta) := captured in
    checkpoint_and_release E sessionoid taskoid attemptoid stepoid ownerid queueoid meta
      QX_TASK_STATE_CHECKPOINTED QX_ATTEMPT_STATE_CHECKPOINTED (stepseqbase + 5)
      "stage8.after_capture" lease ;;;
    record_pause E sessionoid taskoid ownerid ;;;
    ret (true, count_cycle [CY_heartbeats_written] 2 (count_cycle [CY_retry_dispatches] 1 stats))
  end.

(** The retry a cycle has found so far, and its counters. *)
Record retry_scan := MkRetryScan {
  rsc_selected : option retry_candidate;
  rsc_stats : QxRuntimeSchedulerCycleStats
}.

Definition retry_scan_task (slot_index slot_count : Z) (now : TimestampTz)
    (task : QxCatalogTaskInfo) (s : retry_scan) : M retry_scan :=
  let t := ti_row task in
  let stats := rsc_stats s in
  if negb (Ascii.eqb (qxtaskstate t) QX_TASK_STATE_QUEUED) ||
     negb (OidIsValid (qxtasklastattemptid t)) || OidIsValid (qxtasklastcheckpointid t) then ret s
  else if negb (qx_runtime_scheduler_worker_owns_task (task_oid t) slot_index slot_count) then
    ret (MkRetryScan (rsc_selected s) (count_cycle [CY_ownership_skipped] 1 stats))
  else
    let* c := gets w_vis in
    match QxCatalogLookupAttemptByOid c (qxtasklastattemptid t) with
    | None => attempt_missing (qxtasklastattemptid t)
    | Some failed =>
        if negb (Ascii.eqb (qxattemptstate failed) QX_ATTEMPT_STATE_FAILED) then ret s
        else match QxCatalogLookupLatestSchedulerQueue c (MyDatabaseId E) InvalidOid (task_oid t)
                     (attempt_oid failed) with
        | None => ret s
        | Some queue =>
            if negb (bool_decide (q_queue_kind queue = QX_SCHEDULER_QUEUE_RETRY)) ||
               (q_runnable_count queue <=? 0) || (0 <? q_blocked_count queue) then ret s
            else if now <? q_eligible_at queue then
              ret (MkRetryScan (rsc_selected s)
                     (note_backoff queue
                        (count_cycle [CY_queued_retry_tasks; CY_retry_waiting_tasks] 1 stats)))
            else
              let stats := note_backoff queue
                (count_cycle [CY_queued_retry_tasks; CY_retry_ready_tasks] 1 stats) in
              let candidate := MkCandidate task failed queue in
              if qx_runtime_scheduler_max_retries <=? q_retry_count queue then
                let* dead := qx_runtime_dead_letter_retry_task candidate stats in
                ret (MkRetryScan (rsc_selected s) (snd dead))
              else if qx_runtime_retry_candidate_better candidate (rsc_selected s)
              then ret (MkRetryScan (Some candidate) stats)
              else ret (MkRetryScan (rsc_selected s) stats)
        end
    end.

Definition qx_runtime_run_scheduler_retry_cycle (slot_index slot_count : Z) :
    M QxRuntimeSchedulerCycleStats :=
  let* c := gets w_vis in
  let tasks := QxCatalogBuildTaskInfoList c (MyDatabaseId E) InvalidOid in
  let* now := GetCurrentTimestamp E in
  let* scan := mfold (retry_scan_task slot_index slot_count now) tasks
                 (MkRetryScan None zero_cycle_stats) in
  match rsc_selected scan with
  | None => ret (rsc_stats scan)
  | Some candidate =>
      let* dispatched := qx_runtime_dispatch_retry_task candidate (rsc_stats scan) in
      let stats := snd dispatched in
      ret (if 0 <? cy_retry_ready_tasks stats
           then count_cycle [CY_retry_waiting_tasks] (cy_retry_ready_tasks stats - 1) stats
           else stats)
  end.

(** One iteration of [QxRuntimeSchedulerDatabaseWorkerMain]: supervision in a
    transaction of its own, then the retry intake, whose errors are caught,
    logged and rolled back. *)
Definition worker_iteration (slot_index slot_count : Z) : M unit :=
  fun w =>
    match run_command (qx_runtime_run_scheduler_cycle slot_index slot_count) w with
    | Err e w1 => Err e w1
    | Ok _ w1 =>
        match run_command (qx_runtime_run_scheduler_retry_cycle slot_index slot_count) w1 with
        | Ok _ w2 => Ok tt w2
        | Err _ w2 => Ok tt w2
        end
    end.

(** ** Regression hooks *)

Definition tick_task (task : QxCatalogTaskInfo) (stats : QxRuntimeSchedulerCycleStats) :
    M QxRuntimeSchedulerCycleStats :=
  let t := ti_row task in
  let stats := count_cycle [CY_tasks_scanned] 1 stats in
  if negb (Ascii.eqb (qxtaskstate t) QX_TASK_STATE_RUNNING) ||
     negb (OidIsValid (qxtasklastattemptid t)) then ret stats
  else
    let stats := count_cycle [CY_running_tasks] 1 stats in
    let* c := gets w_vis in
    match QxCatalogLookupAttemptByOid c (qxtasklastattemptid t) with
    | None => attempt_missing (qxtasklastattemptid t)
    | Some attempt =>
        if negb (Ascii.eqb (qxattemptstate attempt) QX_ATTEMPT_STATE_RUNNING) then ret stats
        else match QxCatalogLookupLatestSchedulerLease c (MyDatabaseId E) InvalidOid (task_oid t)
                     (attempt_oid attempt) with
        | None => ret stats
        | Some lease =>
            if negb (bool_decide (l_state lease = QX_SCHEDULER_LEASE_HELD)) then ret stats
            else
              renew_running_lease lease ;;;
              ret (count_cycle [CY_leases_seen; CY_leases_renewed; CY_heartbeats_written] 1 stats)
        end
    end.

Definition pg_qx_test_run_scheduler_worker_tick : M string :=
  let* c := gets w_vis in
  let* stats := mfold tick_task (QxCatalogBuildTaskInfoList c (MyDatabaseId E) (GetUserId E))
                  zero_cycle_stats in
  ret (cat ["test=scheduler_worker_tick;tasks_scanned="; show_d (cy_tasks_scanned stats);
            ";running_tasks="; show_d (cy_running_tasks stats);
            ";leases_seen="; show_d (cy_leases_seen stats);
            ";leases_renewed="; show_d (cy_leases_renewed stats);
            ";heartbeats_written="; show_d (cy_heartbeats_written stats)]).

Definition pg_qx_test_start_recovery_attempt (taskoid : Oid) : M Oid :=
  let* c := gets w_vis in
  match QxCatalogLookupTaskByOid c taskoid with
  | None => elog_error (cat ["cache lookup failed for QhapaqXian task "; show_u taskoid])
  | Some task =>
    let t := ti_row task in
    if negb (qxtaskowner t =? GetUserId E) then
      throw ERRCODE_INSUFFICIENT_PRIVILEGE
        (cat ["permission denied for QhapaqXian task "; show_u taskoid]) None
    else if negb (Ascii.eqb (qxtaskstate t) QX_TASK_STATE_CHECKPOINTED) &&
            negb (Ascii.eqb (qxtaskstate t) QX_TASK_STATE_RUNNING) then
      throw ERRCODE_OBJECT_NOT_IN_PREREQUISITE_STATE
        (cat ["task "; show_u taskoid; " is not checkpointed or running"])
        (Some "The recovery test hook requires a resumable durable task shape.")
    else if negb (OidIsValid (qxtasklastcheckpointid t)) then
      throw ERRCODE_OBJECT_NOT_IN_PREREQUISITE_STATE
        (cat ["task "; show_u taskoid; " has no durable checkpoint"]) None
    else if negb (OidIsValid (qxtasklastattemptid t)) then
      throw ERRCODE_OBJECT_NOT_IN_PREREQUISITE_STATE
        (cat ["task "; show_u taskoid; " has no previous attempt"]) None
    else
    let* seqno := qx_fetch_attempt_seqno (qxtasklastattemptid t) in
    let nextattemptseqno := int16 (seqno + 1) in
    let* selected_contract := qx_runtime_recovery_selected_contract task true in
    let label := qx_runtime_recovery_checkpoint_label c (qxtasklastcheckpointid t) in
    match selected_contract with
    | None => throw ERRCODE_OBJECT_NOT_IN_PREREQUISITE_STATE
        (cat ["task "; show_u taskoid; " has no authorized resume contract"]) None
    | Some _ =>
      let* attemptoid := QxCatalogInsertAttempt E (qxtasksessionid t) taskoid (qxtaskowner t)
        (qxtasklastcheckpointid t) nextattemptseqno QX_ATTEMPT_STATE_RUNNING (Some "resume") in
      CommandCounterIncrement ;;;
      QxCatalogUpdateTaskRuntime taskoid QX_TASK_STATE_RUNNING attemptoid true InvalidOid false ;;;
      let envelope :=
        qx_runtime_fill_recovery_scheduler_envelope task attemptoid
          (Z.max (nextattemptseqno - 1) 0) label label true true true selected_contract in
      let* snapshot := queue_snapshot_now E envelope in
      let* queueoid := enqueue E snapshot in
      let* _ := open_lease E queueoid envelope (Some "embedded-runtime") in
      ret attemptoid
    end
  end.

End WithEnv.

(** ** The launcher *)

Record QxRuntimeSchedulerDbTarget := MkDbTarget {
  dt_dboid : Oid;
  dt_dbname : string
}.

Record QxRuntimeSchedulerDbWorker (H : Type) := MkDbWorker {
  dw_dboid : Oid;
  dw_dbname : string;
  dw_slot_index : Z;
  dw_slot_count : Z;
  dw_handle : H
}.
Arguments MkDbWorker {H}.
Arguments dw_dboid {H}.
Arguments dw_dbname {H}.
Arguments dw_slot_index {H}.
Arguments dw_slot_count {H}.
Arguments dw_handle {H}.

(** The columns of [pg_database] the launcher reads. *)
Record pg_database := MkDatabase {
  db_oid : Oid;
  datname : string;
  datallowconn : bool;
  datistemplate : bool
}.

Definition qx_runtime_scheduler_db_target_allowed (DataDir dbname : cstr) : bool :=
  match DataDir with
  | Some dir => if contains dir "testrun" then cstr_is dbname "regression" else true
  | None => true
  end.

Definition qx_runtime_scheduler_db_targets (DataDir : cstr) (databases : list pg_database) :
    list QxRuntimeSchedulerDbTarget :=
  (fun d => MkDbTarget (db_oid d) (datname d)) <$>
  List.filter (fun d =>
      if negb (datallowconn d) || datistemplate d then false
      else qx_runtime_scheduler_db_target_allowed DataDir (Some (datname d)))
    databases.

Inductive BgwHandleStatus := BGWH_STARTED | BGWH_NOT_YET_STARTED | BGWH_STOPPED | BGWH_POSTMASTER_DIED.

Section Launcher.
Context {H : Type}.

(** What the postmaster reports of a worker, and the handle it gives when a
    worker is registered (or not). *)
Context (GetBackgroundWorkerPid : H -> BgwHandleStatus)
        (RegisterDynamicBackgroundWorker : Oid -> Z -> Z -> option H).

Definition qx_runtime_find_scheduler_db_worker (workers : list (QxRuntimeSchedulerDbWorker H))
    (dboid : Oid) (slot_index : Z) : option (QxRuntimeSchedulerDbWorker H) :=
  List.find (fun w => (dw_dboid w =? dboid) && (dw_slot_index w =? slot_index)) workers.

Definition slot_indexes (slot_count : Z) : list Z := Z.of_nat <$> seq 0 (Z.to_nat slot_count).

(** A worker still wanted: of a target database, with a slot of the current count. *)
Definition worker_present (targets : list QxRuntimeSchedulerDbTarget) (current_slot_count : Z)
    (w : QxRuntimeSchedulerDbWorker H) : bool :=
  existsb (fun t =>
      (dt_dboid t =? dw_dboid w) &&
      existsb (fun i => (dw_slot_index w =? i) && (dw_slot_count w =? current_slot_count))
        (slot_indexes current_slot_count))
    targets.

(** The first loop: the workers kept and the handles terminated; [None] when
    the postmaster is gone. *)
Fixpoint check_workers (targets : list QxRuntimeSchedulerDbTarget) (current_slot_count : Z)
    (workers : list (QxRuntimeSchedulerDbWorker H)) :
    option (list (QxRuntimeSchedulerDbWorker H) * list H) :=
  match workers with
  | [] => Some ([], [])
  | w :: rest =>
      match GetBackgroundWorkerPid (dw_handle w) with
      | BGWH_POSTMASTER_DIED => None
      | BGWH_STOPPED => check_workers targets current_slot_count rest
      | _ =>
          match check_workers targets current_slot_count rest with
          | None => None
          | Some (alive, terminated) =>
              Some (if worker_present targets current_slot_count w
                    then (w :: alive, terminated) else (alive, dw_handle w :: terminated))
          end
      end
  end.

(** The second loop, one slot of one database. *)
Definition launch_slot (target : QxRuntimeSchedulerDbTarget) (current_slot_count : Z)
    (workers : list (QxRuntimeSchedulerDbWorker H)) (slot_index : Z) :
    list (QxRuntimeSchedulerDbWorker H) :=
  match qx_runtime_find_scheduler_db_worker workers (dt_dboid target) slot_index with
  | Some _ => workers
  | None =>
      match RegisterDynamicBackgroundWorker (dt_dboid target) slot_index current_slot_count with
      | None => workers                    (* logged, tried again at the next pass *)
      | Some handle =>
          workers ++ [MkDbWorker (dt_dboid target) (dt_dbname target) slot_index
                        current_slot_count handle]
      end
  end.

Definition launch_target (current_slot_count : Z) (workers : list (QxRuntimeSchedulerDbWorker H))
    (target : QxRuntimeSchedulerDbTarget) : list (QxRuntimeSchedulerDbWorker H) :=
  fold_left (launch_slot target current_slot_count) (slot_indexes current_slot_count) workers.

(** One pass of [QxRuntimeSchedulerLauncherMain]. *)
Definition launcher_pass (targets : list QxRuntimeSchedulerDbTarget) (current_slot_count : Z)
    (workers : list (QxRuntimeSchedulerDbWorker H)) :
    option (list (QxRuntimeSchedulerDbWorker H) * list H) :=
  match check_workers targets current_slot_count workers with
  | None => None
  | Some (alive, terminated) =>
      Some (fold_left (launch_target current_slot_count) targets alive, terminated)
  end.

End Launcher.
