(* ===== verification/TestHooks.v ===== *)
(** * The SQL functions for regression tests

    [qx_runtime.c] has SQL functions that put the catalogs into states a test
    wants to see handled: a task dispatched without a checkpoint, a task that
    has used up its retries, backend leases.  They go through the same catalog
    operations as the runtime, so the invariants of the engine cover them too
    ([EngineProps.v]).  The functions that show a compiled policy, the worker
    slots and the slot of a task are here as well. *)

From Stdlib Require Import Ascii String.
From S2P Require Import Prelude Text Types Scheduler Stat Observe Tables World Catalog Policy.
From S2P Require Import ToolExec Envelope Security RecoveryHooks Lifecycle Planner Supervisor.
Open Scope string_scope.
Open Scope Z_scope.
Open Scope bool_scope.
Open Scope list_scope.

Section WithEnv.
Context (E : Env) (D : DdlEnv) (getenv : string -> cstr).

(** ** A task without a checkpoint *)

(** The session, if it is the caller's, and its agent; the second message is
    built after the session was released and prints a zeroed field. *)
Definition test_session (sessionoid : Oid) : M (QxCatalogSessionInfo * QxCatalogAgentInfo) :=
  let* c := gets w_vis in
  match QxCatalogLookupSessionByOid c sessionoid with
  | None => throw ERRCODE_UNDEFINED_OBJECT (cat ["session "; show_u sessionoid; " does not exist"]) None
  | Some session =>
      if negb (qxsessionowner (si_row session) =? GetUserId E) then
        throw ERRCODE_INSUFFICIENT_PRIVILEGE
          (cat ["permission denied for QhapaqXian session "; show_u sessionoid]) None
      else match QxCatalogLookupAgentByOid c (qxsessionagentid (si_row session)) with
      | None => elog_error (cat ["cache lookup failed for QhapaqXian agent "; show_u 0])
      | Some agent => ret (session, agent)
      end
  end.

Definition test_request (info : QxCatalogSessionInfo) (budget : QxBudgetPolicy)
    (authz : QxToolAuthorization) (priority : cstr) : QxRuntimeTaskRequest :=
  let session := si_row info in
  {| tr_sessionoid := session_oid session; tr_agentoid := qxsessionagentid session;
     tr_identityoid := qxsessionidentityid session;
     tr_namespace_policy_oid := qxsessionnamespacepolicyid session;
     tr_ownerid := qxsessionowner session; tr_task_name := Some "extract_uncheckpointed";
     tr_identity_name := si_identity_name info; tr_namespace_policy_name := si_policy_name info;
     tr_goal := Some "leave running without checkpoint"; tr_input := None;
     tr_priority := Some (qx_effective_priority_name priority);
     tr_authorized_tools := az_tool_contracts authz; tr_authorized_tool_oids := az_tool_oids authz;
     tr_submit_contract := None; tr_resume_contract := None;
     tr_budget_tokens := if bp_has_token_limit budget then bp_token_limit budget else 1024;
     tr_budget_cost := if bp_has_cost_limit budget then bp_cost_limit budget else 128;
     tr_estimated_tokens := Z.max (int32 (az_tool_token_cost authz * 4)) 48;
     tr_estimated_cost := Z.max (int32 (az_tool_cost_units authz * 4)) 32;
     tr_authorized_tool_tokens := az_tool_token_cost authz;
     tr_authorized_tool_cost := az_tool_cost_units authz |}.

(** The task is queued, dispatched and leased; nothing is charged for it. *)
Definition test_dispatch (request : QxRuntimeTaskRequest) (taskoid attemptoid queueoid : Oid)
    (envelope : QxSchedulerTaskEnvelope) : M unit :=
  let sessionoid := tr_sessionoid request in
  let ownerid := tr_ownerid request in
  let* payload := runtime_payload E
    (cat ["goal="; cstr_or (tr_goal request) "(null)";
          ";priority="; qx_effective_priority_name (tr_priority request)]) envelope false in
  record_both E sessionoid taskoid InvalidOid ownerid None "TASK_QUEUED" "runtime.queue" payload ;;;
  QxCatalogUpdateTaskRuntime taskoid QX_TASK_STATE_RUNNING attemptoid true InvalidOid false ;;;
  let* stepoid := QxCatalogInsertStep E sessionoid taskoid 1 (Some "stage8.scheduler_admit")
    (Some (cat ["Scheduler regression hook admitted an initial attempt without writing a durable ";
                "checkpoint"])) in
  let* payload := runtime_payload E
    (cat ["attempt_opened;state="; String QX_TASK_STATE_RUNNING "";
          ";identity="; or_unknown (tr_identity_name request);
          ";namespace_policy="; or_unknown (tr_namespace_policy_name request);
          ";tools="; show_d (Z.of_nat (List.length (tr_authorized_tools request)));
          ";budget_cost="; show_d (tr_budget_cost request);
          ";budget_tokens="; show_d (tr_budget_tokens request)]) envelope true in
  let* _ := open_lease E queueoid envelope (Some "embedded-runtime") in
  record_both E sessionoid taskoid stepoid ownerid None "TASK_DISPATCHED" "runtime.dispatch" payload.

Definition qx_runtime_test_start_uncheckpointed_task (sessionoid : Oid) (priority : cstr) : M Oid :=
  let* found := test_session sessionoid in
  let '(session, agent) := found in
  qx_runtime_ensure_startup_recovery_scan E (qxsessionowner (si_row session)) ;;;
  let* budget := QxBudgetPolicyFromSerialized (qxbudget agent) in
  let* tools := QxDeserializeToolList (qxtools agent) in
  QxValidateToolList tools ;;;
  let* authz := QxAuthorizeToolsForNamespace E D (qxsessionnamespacepolicyid (si_row session))
    (qxagentnamespace agent) (qxsessionowner (si_row session)) tools in
  let request := test_request session budget authz priority in
  match qx_runtime_request_phase_contract request false with
  | None => throw ERRCODE_OBJECT_NOT_IN_PREREQUISITE_STATE
      (cat ["session "; show_u sessionoid; " has no authorized tool contract"]) None
  | Some selected_contract =>
      let* taskoid := QxCatalogInsertTask E (qx_runtime_fill_task_insert_params request) in
      CommandCounterIncrement ;;;
      let* attemptoid := QxCatalogInsertAttempt E (tr_sessionoid request) taskoid (tr_ownerid request)
        InvalidOid 1 QX_ATTEMPT_STATE_RUNNING (Some "initial") in
      CommandCounterIncrement ;;;
      let* agent_name := qx_fetch_agent_name (tr_agentoid request) in
      let envelope :=
        qx_scheduler_fill_envelope (tr_ownerid request) (tr_sessionoid request) (tr_agentoid request)
          (tr_identityoid request) (tr_namespace_policy_oid request) taskoid attemptoid
          (tr_task_name request) (Some agent_name) (tr_identity_name request)
          (tr_namespace_policy_name request) (tr_priority request) None None false true false
          (tr_budget_tokens request) (tr_budget_cost request) (tr_estimated_tokens request)
          (tr_estimated_cost request) 0 (Some selected_contract) in
      let* snapshot := queue_snapshot_now E envelope in
      let* queueoid := enqueue E snapshot in
      test_dispatch request taskoid attemptoid queueoid envelope ;;;
      ret taskoid
  end.

Definition pg_qx_test_start_uncheckpointed_task (sessionoid : Oid) : M Oid :=
  qx_runtime_test_start_uncheckpointed_task sessionoid (Some "high").

Definition pg_qx_test_start_uncheckpointed_task_priority (sessionoid : Oid) (priority : string) :
    M Oid :=
  qx_runtime_test_start_uncheckpointed_task sessionoid (Some priority).

(** ** A task out of retries *)

Definition exhausted_queue (q : QxSchedulerQueueSnapshot) : QxSchedulerQueueSnapshot :=
  {| q_queueoid := q_queueoid q; q_ownerid := q_ownerid q;
     q_namespace_policy_oid := q_namespace_policy_oid q; q_agentoid := q_agentoid q;
     q_sessionoid := q_sessionoid q; q_taskoid := q_taskoid q; q_attemptoid := q_attemptoid q;
     q_queue_kind := QX_SCHEDULER_QUEUE_RETRY; q_queue_name := q_queue_name q;
     q_agent_name := q_agent_name q; q_identity_name := q_identity_name q;
     q_namespace_policy_name := q_namespace_policy_name q; q_priority := q_priority q;
     q_principal_name := q_principal_name q; q_provider_name := q_provider_name q;
     q_provider_kind := q_provider_kind q; q_principal_runtime := q_principal_runtime q;
     q_runnable_count := 1; q_leased_count := 0; q_blocked_count := 0;
     q_retry_count := qx_runtime_scheduler_max_retries; q_enqueued_at := q_enqueued_at q;
     q_eligible_at := q_enqueued_at q; q_updated_at := q_enqueued_at q |}.

Definition qx_runtime_test_start_exhausted_retry_task (sessionoid : Oid) : M Oid :=
  let* taskoid := qx_runtime_test_start_uncheckpointed_task sessionoid (Some "low") in
  let* c := gets w_vis in
  match QxCatalogLookupTaskByOid c taskoid with
  | None => elog_error (cat ["cache lookup failed for QhapaqXian task "; show_u taskoid])
  | Some task =>
    let t := ti_row task in
    match QxCatalogLookupAttemptByOid c (qxtasklastattemptid t) with
    | None => elog_error (cat ["cache lookup failed for QhapaqXian attempt "; show_u 0])
    | Some attempt =>
      let* selected_contract := qx_runtime_recovery_selected_contract task false in
      let envelope := qx_runtime_fill_recovery_scheduler_envelope task (attempt_oid attempt)
        qx_runtime_scheduler_max_retries None None false true true selected_contract in
      let* snapshot := queue_snapshot_now E envelope in
      let retry_queue := exhausted_queue snapshot in
      QxCatalogUpdateAttemptState (attempt_oid attempt) QX_ATTEMPT_STATE_FAILED ;;;
      QxCatalogUpdateTaskRuntime taskoid QX_TASK_STATE_QUEUED (attempt_oid attempt) true
        InvalidOid true ;;;
      let* queueoid := enqueue E retry_queue in
      let* payload := runtime_payload E
        (cat ["test=exhausted_retry;retry_count="; show_d (q_retry_count retry_queue);
              ";max_retries="; show_d qx_runtime_scheduler_max_retries;
              ";queueoid="; show_u queueoid]) envelope false in
      record_both E (qxtasksessionid t) taskoid InvalidOid (qxtaskowner t) None
        "TASK_RETRY_EXHAUSTED_FIXTURE" "runtime.retry_exhausted_fixture" payload ;;;
      ret taskoid
    end
  end.

Definition pg_qx_test_start_exhausted_retry_task (sessionoid : Oid) : M Oid :=
  qx_runtime_test_start_exhausted_retry_task sessionoid.

(** ** Slots, policies and leases *)

Definition pg_qx_scheduler_worker_slot_count : Z :=
  qx_runtime_scheduler_slot_count (getenv "QX_SCHEDULER_DB_WORKER_SLOTS").

(** Slots are shown from one. *)
Definition pg_qx_scheduler_owner_slot (taskoid : Oid) : Z :=
  int32 (qx_runtime_scheduler_owner_slot taskoid pg_qx_scheduler_worker_slot_count + 1).

Definition pg_qx_policy_compile_container (capability_tags : string) : M string :=
  let* policy := qx_runtime_policy_compile_container
                   (qx_runtime_policy_from_authz getenv (Some capability_tags)) in
  ret (cstr_or (po_oci_profile policy) "").

Definition pg_qx_policy_validate_image (image_ref : string) : M unit :=
  qx_runtime_policy_validate_image_ref getenv (Some image_ref).

Definition pg_qx_policy_validate_microvm_assets (kernel initrd : string) : M unit :=
  qx_runtime_policy_validate_microvm_assets getenv (Some kernel) (Some initrd) None.

Definition pg_qx_test_register_backend_lease (taskoid : Oid) (instance_id kind_name : string) : M unit :=
  match QxBackendSupervisorLeaseKindFromName (Some kind_name) with
  | None => throw ERRCODE_INVALID_PARAMETER_VALUE
              (cat ["unsupported backend lease kind "; quoted kind_name]) None
  | Some kind => supervisor_register E taskoid (Some instance_id) kind
  end.

Definition pg_qx_test_release_backend_lease (taskoid : Oid) (instance_id : string) : M unit :=
  supervisor_release E taskoid (Some instance_id).

Definition pg_qx_test_fence_backend_leases (taskoid : Oid) : M unit :=
  supervisor_fence_stale E taskoid.

End WithEnv.
