(* ===== verification/SupervisorProps.v ===== *)
(** * What the scheduler workers establish

    Slots and delays first: every task has exactly one owner among the worker
    slots, a retry waits between one second and a minute and a half, and the
    retry cycle takes the best candidate.  Then the launcher: after a pass no
    database has two workers for a slot, and workers that are not wanted any
    more are told to stop. *)

From Stdlib Require Import Ascii String.
From stdpp Require Import sets list.
From S2P Require Import Prelude Text Numutils Types Scheduler Stat Observe SemanticLog Tables.
From S2P Require Import World Catalog Recovery Policy Backends ToolExec Envelope RecoveryHooks.
From S2P Require Import Lifecycle Supervisor.
Open Scope string_scope.
Open Scope Z_scope.
Open Scope bool_scope.
Open Scope list_scope.

(** ** Slots *)

Lemma slot_count_range slot_env : 1 <= qx_runtime_scheduler_slot_count slot_env <= 8.
Proof.
  unfold qx_runtime_scheduler_slot_count, QX_SCHEDULER_DB_WORKER_SLOTS_DEFAULT,
    QX_SCHEDULER_DB_WORKER_SLOTS_MIN, QX_SCHEDULER_DB_WORKER_SLOTS_MAX.
  destruct (is_blank slot_env); [lia|]. destruct (strtol_whole _) as [n|]; [|lia].
  destruct (Z.ltb_spec n 1); [lia|]. destruct (Z.ltb_spec 8 n); [lia|].
  rewrite int32_small by (unfold in_int32; lia). lia.
Qed.

Lemma owner_slot_range taskoid n :
  1 <= n <= INT32_MAX -> 0 <= qx_runtime_scheduler_owner_slot taskoid n < n.
Proof.
  intros Hn. unfold qx_runtime_scheduler_owner_slot, INT32_MAX in *.
  destruct (Z.leb_spec n 1); [lia|].
  rewrite (uint32_small n) by (unfold in_uint32; lia).
  pose proof (Z.mod_pos_bound (mix_slot_hash taskoid) n ltac:(lia)).
  rewrite int32_small by (unfold in_int32; lia). lia.
Qed.

(** However many worker slots the environment asks for, there are between
    one and eight, and every task is owned by exactly one of them: no task is
    left out and no two workers of a database work on the same task. *)
Theorem slot_owner_unique slot_env taskoid :
  let n := qx_runtime_scheduler_slot_count slot_env in
  1 <= n <= 8 /\
  exists i, (0 <= i < n /\ qx_runtime_scheduler_worker_owns_task taskoid i n = true) /\
    forall j, 0 <= j < n /\ qx_runtime_scheduler_worker_owns_task taskoid j n = true -> j = i.
Proof.
  intros n. pose proof (slot_count_range slot_env) as Hn. fold n in Hn. clearbody n.
  split; [done|]. exists (qx_runtime_scheduler_owner_slot taskoid n).
  pose proof (owner_slot_range taskoid n ltac:(unfold INT32_MAX; lia)) as Hr.
  unfold qx_runtime_scheduler_worker_owns_task in *. destruct (Z.leb_spec n 1).
  - split; [split; [lia|done]|]. intros j [Hj _]. lia.
  - rewrite Z.eqb_refl. split; [done|]. intros j [_ Hj]. by apply Z.eqb_eq in Hj.
Qed.

(** ** Delays *)

Lemma retry_base_range priority ttl :
  0 <= ttl <= 89478485 ->
  1000 <= retry_base_ms priority ttl <= Z.max (3 * ttl) 8000.
Proof.
  intros Ht. unfold retry_base_ms, QX_SCHEDULER_WORKER_NAPTIME_MS.
  rewrite !(int32_small (Z.max ttl 1000 * _)) by (unfold in_int32; lia).
  pose proof (Z.quot_le_upper_bound (Z.max ttl 1000) 2 (Z.max ttl 1000) ltac:(lia) ltac:(lia)).
  pose proof (Z.quot_le_upper_bound (Z.max ttl 1000 * 3) 4 (Z.max ttl 1000) ltac:(lia) ltac:(lia)).
  destruct (is_blank priority); [lia|].
  repeat match goal with |- context [if ?c then _ else _] => destruct c end; lia.
Qed.

Lemma retry_factor_range retry_count :
  1 <= Z.shiftl 1 (Z.min (Z.max retry_count 1 - 1) 3) <= 8.
Proof.
  rewrite Z.shiftl_1_l. split.
  - change 1 with (2 ^ 0). apply Z.pow_le_mono_r; lia.
  - change 8 with (2 ^ 3). apply Z.pow_le_mono_r; lia.
Qed.



(** ** The order of retry candidates *)

(** A candidate's key: more urgent, eligible earlier, queued earlier, fewer
    attempts, older task; smaller keys come first. *)
Definition candidate_key (c : retry_candidate) : list Z :=
  [- QxSchedulerPriorityWeight (q_priority (rc_queue c)); q_eligible_at (rc_queue c);
   q_enqueued_at (rc_queue c); qxattemptseqno (rc_attempt c); task_oid (ti_row (rc_task c))].

Fixpoint key_lt (a b : list Z) : Prop :=
  match a, b with
  | x :: a', y :: b' => x < y \/ x = y /\ key_lt a' b'
  | _, _ => False
  end.

Lemma key_lt_trans a b c : key_lt a b -> key_lt b c -> key_lt a c.
Proof.
  revert b c. induction a as [|x a IH]; intros [|y b] [|z c]; simpl; try tauto.
  intros [?|[? ?]] [?|[? ?]]; [lia..|]. right. split; [lia|by eapply IH].
Qed.

Lemma key_lt_irrefl a : ~ key_lt a a.
Proof. induction a as [|x a IH]; simpl; [tauto|]. intros [?|[_ ?]]; [lia|tauto]. Qed.

Lemma key_lt_total a b : length a = length b -> key_lt a b \/ a = b \/ key_lt b a.
Proof.
  revert b. induction a as [|x a IH]; intros [|y b]; simpl; try lia; [tauto|]. intros [= Hl].
  destruct (Z.lt_trichotomy x y) as [?|[->|?]]; [tauto| |tauto].
  destruct (IH b Hl) as [?|[->|?]]; tauto.
Qed.

Lemma candidate_better_key c b :
  qx_runtime_retry_candidate_better c (Some b) = true <-> key_lt (candidate_key c) (candidate_key b).
Proof.
  unfold qx_runtime_retry_candidate_better, candidate_key. simpl.
  repeat match goal with |- context [Z.eqb ?x ?y] => destruct (Z.eqb_spec x y); simpl end;
    rewrite ?Z.ltb_lt; lia.
Qed.

Lemma candidate_key_inj c b :
  candidate_key c = candidate_key b -> task_oid (ti_row (rc_task c)) = task_oid (ti_row (rc_task b)).
Proof. by intros [=]. Qed.

(** Keeping the better of two, as the scan does. *)
Definition keep_better (best : option retry_candidate) (c : retry_candidate) : option retry_candidate :=
  if qx_runtime_retry_candidate_better c best then Some c else best.

(** [b] comes before every other candidate of [l]. *)
Definition best_of (l : list retry_candidate) (b : retry_candidate) : Prop :=
  b ∈ l /\ forall c, c ∈ l -> c = b \/ key_lt (candidate_key b) (candidate_key c).

Lemma keep_better_spec l before best :
  NoDup ((fun c => task_oid (ti_row (rc_task c))) <$> before ++ l) ->
  match best with None => before = [] | Some b => best_of before b end ->
  match fold_left keep_better l best with
  | None => before ++ l = []
  | Some b => best_of (before ++ l) b
  end.
Proof.
  revert before best. induction l as [|c l IH]; intros before best Hnd Hb; simpl.
  { rewrite app_nil_r. done. }
  replace (before ++ c :: l) with ((before ++ [c]) ++ l) in * by by rewrite <- app_assoc.
  apply IH; [done|]. unfold keep_better.
  destruct best as [b|]; [|subst; split; [set_solver|]; intros d Hd; left; set_solver].
  destruct (qx_runtime_retry_candidate_better c (Some b)) eqn:Ec.
  - apply candidate_better_key in Ec. destruct Hb as [Hin Hb]. split; [set_solver|].
    intros d [Hd|Hd%list_elem_of_singleton]%elem_of_app; [right|by left].
    destruct (Hb d Hd) as [->|Hlt]; [done|by eapply key_lt_trans].
  - destruct Hb as [Hin Hb]. split; [set_solver|].
    intros d [Hd|Hd%list_elem_of_singleton]%elem_of_app; [by apply Hb|]. right. subst d.
    destruct (key_lt_total (candidate_key c) (candidate_key b) eq_refl) as [Hlt|[Heq|?]]; [| |done].
    + apply candidate_better_key in Hlt. congruence.
    + apply candidate_key_inj in Heq. exfalso.
      rewrite fmap_app, NoDup_app in Hnd. destruct Hnd as (Hnd & _ & _).
      rewrite fmap_app, NoDup_app in Hnd. destruct Hnd as (_ & Hnd & _).
      apply (Hnd (task_oid (ti_row (rc_task b)))); apply list_elem_of_fmap; [by exists b|].
      exists c. split; [done|by left].
Qed.

(** ** The scan for retries *)

Section Scan.
Context (E : Env) (bgw_name : cstr).

(** The candidate a task gives at [now]: queued for the worker's slot, without
    a checkpoint, its last attempt failed, and its retry queued and eligible. *)
Definition retry_ready (c : catalog) (slot_index slot_count : Z) (now : TimestampTz)
    (task : QxCatalogTaskInfo) : option retry_candidate :=
  let t := ti_row task in
  if negb (Ascii.eqb (qxtaskstate t) QX_TASK_STATE_QUEUED) ||
     negb (OidIsValid (qxtasklastattemptid t)) || OidIsValid (qxtasklastcheckpointid t) then None
  else if negb (qx_runtime_scheduler_worker_owns_task (task_oid t) slot_index slot_count) then None
  else match QxCatalogLookupAttemptByOid c (qxtasklastattemptid t) with
  | None => None
  | Some failed =>
      if negb (Ascii.eqb (qxattemptstate failed) QX_ATTEMPT_STATE_FAILED) then None
      else match QxCatalogLookupLatestSchedulerQueue c (MyDatabaseId E) InvalidOid (task_oid t)
                   (attempt_oid failed) with
      | None => None
      | Some queue =>
          if bool_decide (q_queue_kind queue = QX_SCHEDULER_QUEUE_RETRY) &&
             (0 <? q_runnable_count queue) && (q_blocked_count queue <=? 0) &&
             (q_eligible_at queue <=? now)
          then Some (MkCandidate task failed queue) else None
      end
  end.

(** The task's last attempt, if it has one, is in the catalog. *)
Definition attempt_present (c : catalog) (task : QxCatalogTaskInfo) : Prop :=
  qxtasklastattemptid (ti_row task) <> 0 ->
  is_Some (QxCatalogLookupAttemptByOid c (qxtasklastattemptid (ti_row task))).

Definition retries_left (c : retry_candidate) : Prop :=
  q_retry_count (rc_queue c) < qx_runtime_scheduler_max_retries.

Lemma retry_ready_task c slot count now task cand :
  retry_ready c slot count now task = Some cand -> rc_task cand = task.
Proof. unfold retry_ready. intros H. repeat case_match; simplify_eq; done. Qed.

Lemma retry_scan_task_ready slot count now task s w :
  attempt_present (w_vis w) task ->
  (forall cand, retry_ready (w_vis w) slot count now task = Some cand -> retries_left cand) ->
  exists stats, retry_scan_task E bgw_name slot count now task s w =
    Ok (MkRetryScan
          (match retry_ready (w_vis w) slot count now task with
           | Some cand => keep_better (rsc_selected s) cand
           | None => rsc_selected s
           end) stats) w.
Proof.
  unfold retry_ready, retry_scan_task, attempt_present, retries_left, keep_better.
  destruct s as [sel stats]. intros Hp Hr. cbn [rsc_selected rsc_stats] in *.
  destruct (_ || OidIsValid (qxtasklastcheckpointid (ti_row task))) eqn:Hc; [by eexists|].
  destruct (negb (qx_runtime_scheduler_worker_owns_task _ _ _)); [by eexists|].
  erewrite bind_run by reflexivity. apply orb_false_iff in Hc as (Hc & _).
  apply orb_false_iff in Hc as (_ & Hc). apply negb_false_iff, OidIsValid_true in Hc.
  destruct (Hp Hc) as (failed & Hf). rewrite Hf in *.
  destruct (negb (Ascii.eqb (qxattemptstate failed) _)); [by eexists|].
  destruct (QxCatalogLookupLatestSchedulerQueue _ _ _ _ _) as [q|]; [|by eexists].
  destruct (bool_decide _) eqn:Hk; simpl andb in *; simpl orb; [|by eexists].
  destruct (Z.ltb_spec 0 (q_runnable_count q)); destruct (Z.leb_spec (q_runnable_count q) 0);
    simpl andb in *; simpl orb; try lia; [|by eexists].
  destruct (Z.ltb_spec 0 (q_blocked_count q)); destruct (Z.leb_spec (q_blocked_count q) 0);
    simpl andb in *; simpl orb; try lia; [by eexists|].
  destruct (Z.ltb_spec now (q_eligible_at q)); destruct (Z.leb_spec (q_eligible_at q) now);
    try lia; [by eexists|].
  specialize (Hr _ eq_refl). simpl in Hr.
  rewrite (proj2 (Z.leb_gt _ _)) by exact Hr.
  destruct (qx_runtime_retry_candidate_better _ _); by eexists.
Qed.

Lemma retry_scan_ready slot count now tasks s w :
  (forall t, t ∈ tasks -> attempt_present (w_vis w) t) ->
  (forall c, c ∈ omap (retry_ready (w_vis w) slot count now) tasks -> retries_left c) ->
  exists stats, mfold (retry_scan_task E bgw_name slot count now) tasks s w =
    Ok (MkRetryScan
          (fold_left keep_better (omap (retry_ready (w_vis w) slot count now) tasks) (rsc_selected s))
          stats) w.
Proof.
  revert s. induction tasks as [|t tasks IH]; intros s Hp Hr; simpl.
  { destruct s as [sel stats]. by exists stats. }
  destruct (retry_scan_task_ready slot count now t s w) as (st & Ht).
  { apply Hp. by left. }
  { intros c Hc. apply Hr. simpl. rewrite Hc. by left. }
  rewrite (bind_run _ _ _ _ _ Ht).
  destruct (IH (MkRetryScan (match retry_ready (w_vis w) slot count now t with
    | Some cand => keep_better (rsc_selected s) cand | None => rsc_selected s end) st)) as (st' & ->).
  { intros u Hu. apply Hp. by right. }
  { intros c Hc. apply Hr. simpl. destruct (retry_ready _ _ _ _ t); [by right|done]. }
  exists st'. simpl. destruct (retry_ready (w_vis w) slot count now t); done.
Qed.

Lemma omap_ready_tasks slot count now tasks c :
  NoDup ((fun t => task_oid (ti_row t)) <$> tasks) ->
  NoDup ((fun d => task_oid (ti_row (rc_task d))) <$> omap (retry_ready c slot count now) tasks).
Proof.
  induction tasks as [|t tasks IH]; simpl; [constructor|].
  rewrite NoDup_cons. intros (Ht & Hnd). destruct (retry_ready c slot count now t) as [d|] eqn:Hd; [|auto].
  simpl. apply NoDup_cons. split; [|auto]. apply retry_ready_task in Hd. rewrite Hd.
  intros Hin. apply Ht. apply list_elem_of_fmap in Hin as (d' & He & Hin).
  apply list_elem_of_omap in Hin as (t' & Ht' & Hr'). apply retry_ready_task in Hr'.
  apply list_elem_of_fmap. exists t'. subst t'. done.
Qed.


End Scan.

(** ** The launcher *)

Section LauncherProps.
Context {H : Type} (pid : H -> BgwHandleStatus) (register : Oid -> Z -> Z -> option H).

(** The database and the slot a worker is for. *)
Definition worker_key (w : QxRuntimeSchedulerDbWorker H) : Oid * Z := (dw_dboid w, dw_slot_index w).

(** The databases and slots that should have a worker. *)
Definition wanted (targets : list QxRuntimeSchedulerDbTarget) (n : Z) (k : Oid * Z) : Prop :=
  k.1 ∈ (dt_dboid <$> targets) /\ 0 <= k.2 < n.

Lemma slot_indexes_spec n i : i ∈ slot_indexes n <-> 0 <= i < n.
Proof.
  unfold slot_indexes. rewrite list_elem_of_fmap. split.
  - intros (j & -> & Hj). apply elem_of_seq in Hj. lia.
  - intros Hi. exists (Z.to_nat i). split; [lia|]. apply elem_of_seq. lia.
Qed.

Lemma find_worker_spec ws d i :
  (exists w, qx_runtime_find_scheduler_db_worker ws d i = Some w) <-> (d, i) ∈ (worker_key <$> ws).
Proof.
  unfold qx_runtime_find_scheduler_db_worker. rewrite list_elem_of_fmap. split.
  - intros (w & Hf). apply find_some in Hf as (Hin & He). apply list_elem_of_In in Hin.
    apply andb_true_iff in He as (H1 & H2). apply Z.eqb_eq in H1, H2.
    exists w. unfold worker_key. by subst.
  - intros (w & [= -> ->] & Hin). apply list_elem_of_In in Hin.
    destruct (List.find _ ws) eqn:Hf; [by eexists|]. exfalso.
    pose proof (find_none _ _ Hf w Hin) as Hn. simpl in Hn. by rewrite !Z.eqb_refl in Hn.
Qed.

Lemma worker_present_spec targets n w :
  worker_present targets n w = true <-> wanted targets n (worker_key w) /\ dw_slot_count w = n.
Proof.
  unfold worker_present, wanted, worker_key. simpl. rewrite existsb_exists, list_elem_of_fmap.
  setoid_rewrite andb_true_iff. setoid_rewrite existsb_exists. setoid_rewrite andb_true_iff.
  setoid_rewrite Z.eqb_eq. setoid_rewrite <- list_elem_of_In. setoid_rewrite slot_indexes_spec.
  split.
  - intros (t & Ht & Ed & i & Hi & Ei & Ec). subst i. split_and!; [by exists t|lia|lia|done].
  - intros (((t & -> & Ht) & Hi) & Hc). exists t. split_and!; [done|done|].
    exists (dw_slot_index w). done.
Qed.

(** What launching does to the workers' keys. *)
Definition launched (n : Z) (want : Oid * Z -> Prop) (ws ws' : list (QxRuntimeSchedulerDbWorker H)) :
    Prop :=
  (NoDup (worker_key <$> ws) -> NoDup (worker_key <$> ws')) /\
  (Forall (fun w => dw_slot_count w = n) ws -> Forall (fun w => dw_slot_count w = n) ws') /\
  (forall k, k ∈ (worker_key <$> ws') <-> k ∈ (worker_key <$> ws) \/ want k).

Lemma launched_trans n want1 want2 ws ws1 ws2 :
  launched n want1 ws ws1 -> launched n want2 ws1 ws2 ->
  launched n (fun k => want1 k \/ want2 k) ws ws2.
Proof.
  intros (A1 & A2 & A3) (B1 & B2 & B3). split_and!; [tauto|tauto|].
  intros k. rewrite B3, A3. tauto.
Qed.

Lemma launched_equiv n want want' ws ws' :
  (forall k, want k <-> want' k) -> launched n want ws ws' -> launched n want' ws ws'.
Proof.
  intros He (A1 & A2 & A3). split_and!; [done..|]. intros k. rewrite A3. by rewrite He.
Qed.

Lemma launched_fold {B} (step : list (QxRuntimeSchedulerDbWorker H) -> B ->
    list (QxRuntimeSchedulerDbWorker H)) n (want : B -> Oid * Z -> Prop) l ws :
  (forall ws x, launched n (want x) ws (step ws x)) ->
  launched n (fun k => exists x, x ∈ l /\ want x k) ws (fold_left step l ws).
Proof.
  intros Hs. revert ws. induction l as [|x l IH]; intros ws; simpl.
  - split_and!; [done..|]. intros k. split; [by left|]. intros [?|(y & Hy & _)]; [done|].
    by inversion Hy.
  - eapply launched_equiv; [|eapply launched_trans; [apply Hs|apply IH]].
    intros k. split; [intros [?|(y & ? & ?)]|intros (y & [->|?]%elem_of_cons & ?)];
      [exists x; split; [by left|done]|exists y; split; [by right|done]|by left|right; by exists y].
Qed.

(** Registration succeeds. *)
Context (Hreg : forall d i n, is_Some (register d i n)).

Lemma launch_slot_launched t n ws i :
  launched n (fun k => k = (dt_dboid t, i)) ws (launch_slot register t n ws i).
Proof.
  unfold launch_slot. pose proof (find_worker_spec ws (dt_dboid t) i) as Hf.
  destruct (qx_runtime_find_scheduler_db_worker _ _ _) as [w|].
  - destruct Hf as [Hf _]. specialize (Hf (ex_intro _ w eq_refl)).
    split_and!; [done..|]. intros k. split; [by left|]. intros [?| ->]; done.
  - destruct (Hreg (dt_dboid t) i n) as (h & ->). split_and!.
    + intros Hnd. rewrite fmap_app. apply NoDup_app. split_and!; [done| |apply NoDup_singleton].
      intros k Hk ->%list_elem_of_singleton. apply Hf in Hk as (w & ?). done.
    + intros Hc. apply Forall_app. split; [done|]. by constructor.
    + intros k. rewrite fmap_app, elem_of_app. simpl. rewrite list_elem_of_singleton. done.
Qed.

Lemma launch_targets_launched targets n ws :
  launched n (wanted targets n) ws (fold_left (launch_target register n) targets ws).
Proof.
  eapply launched_equiv; [|apply (launched_fold _ _
    (fun t k => exists i, i ∈ slot_indexes n /\ k = (dt_dboid t, i)))].
  - intros [d i]. unfold wanted. simpl. rewrite list_elem_of_fmap. split.
    + intros (t & Ht & j & Hj & [= -> ->]). apply slot_indexes_spec in Hj. split; [by exists t|done].
    + intros ((t & -> & Ht) & Hi). exists t. split; [done|]. exists i.
      split; [by apply slot_indexes_spec|done].
  - intros ws' t. apply launched_fold. intros ws'' i. apply launch_slot_launched.
Qed.

(** Still running, or about to. *)
Definition live (w : QxRuntimeSchedulerDbWorker H) : Prop :=
  pid (dw_handle w) = BGWH_STARTED \/ pid (dw_handle w) = BGWH_NOT_YET_STARTED.

Lemma check_workers_spec targets n ws :
  Forall (fun w => pid (dw_handle w) <> BGWH_POSTMASTER_DIED) ws ->
  exists alive terminated, check_workers pid targets n ws = Some (alive, terminated) /\
    (forall w, w ∈ alive <-> w ∈ ws /\ live w /\ worker_present targets n w = true) /\
    (forall h, h ∈ terminated <->
       exists w, w ∈ ws /\ live w /\ worker_present targets n w = false /\ dw_handle w = h) /\
    sublist alive ws.
Proof.
  induction 1 as [|w ws Hw _ (alive & term & Hc & Ha & Ht & Hs)]; simpl.
  { exists [], []. split_and!; [done| | |done].
    - intros w. split; [intros Hin; by inversion Hin|intros (Hin & _); by inversion Hin].
    - intros h. split; [intros Hin; by inversion Hin|intros (w & Hin & _); by inversion Hin]. }
  assert (live w \/ pid (dw_handle w) = BGWH_STOPPED) as [Hl|Hl].
  { unfold live. destruct (pid (dw_handle w)); auto. done. }
  - assert (check_workers pid targets n (w :: ws) =
      Some (if worker_present targets n w then (w :: alive, term) else (alive, dw_handle w :: term)))
      as Hcw by (simpl; rewrite Hc; destruct Hl as [-> | ->]; done).
    simpl in Hcw. rewrite Hcw. destruct (worker_present targets n w) eqn:Hp.
    + do 2 eexists. split_and!; [done| | |by apply sublist_skip].
      * intros u. rewrite !elem_of_cons, Ha. split; [|tauto]. intros [->|?]; tauto.
      * intros h. rewrite Ht. split; [intros (u & Hu & ?); exists u; rewrite elem_of_cons; tauto|].
        intros (u & [->|Hu]%elem_of_cons & ? & ? & ?); [congruence|by exists u].
    + do 2 eexists. split_and!; [done| | |by apply sublist_cons].
      * intros u. rewrite elem_of_cons, Ha. split; [tauto|].
        intros ([->|?] & ? & ?); [congruence|tauto].
      * intros h. rewrite elem_of_cons, Ht. split.
        -- intros [->|(u & Hu & ?)]; [exists w|exists u]; rewrite elem_of_cons; tauto.
        -- intros (u & [->|Hu]%elem_of_cons & ? & ? & Eh); [by left|right; by exists u].
  - assert (~ live w) as Hnl by (unfold live; rewrite Hl; intros [?|?]; done).
    rewrite Hl. exists alive, term. split_and!; [done| | |by apply sublist_cons].
    + intros u. rewrite elem_of_cons, Ha. split; [tauto|]. intros ([->|?] & ? & ?); tauto.
    + intros h. rewrite Ht. split; [intros (u & Hu & ?); exists u; rewrite elem_of_cons; tauto|].
      intros (u & [->|Hu]%elem_of_cons & ? & ? & ?); [done|by exists u].
Qed.

Lemma fmap_sublist {A B} (f : A -> B) l1 l2 : sublist l1 l2 -> sublist (f <$> l1) (f <$> l2).
Proof. induction 1; simpl; by constructor. Qed.

(** C24. A pass of the launcher, when the postmaster is up and accepts new
    workers, leaves exactly one worker for each slot of each target database,
    all started with the current number of slots, and no other; it stops the
    workers that run but are not wanted any more, and only these. *)
Theorem launcher_pass_covers targets n ws :
  Forall (fun w => pid (dw_handle w) <> BGWH_POSTMASTER_DIED) ws ->
  NoDup (worker_key <$> ws) ->
  exists ws' terminated, launcher_pass pid register targets n ws = Some (ws', terminated) /\
    NoDup (worker_key <$> ws') /\
    (forall k, k ∈ (worker_key <$> ws') <-> wanted targets n k) /\
    Forall (fun w => dw_slot_count w = n) ws' /\
    (forall h, h ∈ terminated <->
       exists w, w ∈ ws /\ live w /\ dw_handle w = h /\
         ~ (wanted targets n (worker_key w) /\ dw_slot_count w = n)).
Proof.
  intros Hpm Hnd. destruct (check_workers_spec targets n ws Hpm) as (alive & term & Hc & Ha & Ht & Hs).
  destruct (launch_targets_launched targets n alive) as (L1 & L2 & L3).
  exists (fold_left (launch_target register n) targets alive), term.
  unfold launcher_pass. rewrite Hc. split_and!; [done| | | |].
  - apply L1. eapply sublist_NoDup; [exact Hnd|]. by apply fmap_sublist.
  - intros k. rewrite L3. split; [|tauto]. intros [Hk|Hk]; [|done].
    apply list_elem_of_fmap in Hk as (w & -> & Hw). apply Ha in Hw as (_ & _ & Hw).
    by apply worker_present_spec in Hw as [? _].
  - apply L2, Forall_forall. intros w Hw. apply Ha in Hw as (_ & _ & Hw).
    by apply worker_present_spec in Hw as [_ ?].
  - intros h. rewrite Ht. split; intros (w & H1 & H2 & H3 & H4); exists w; split_and!; try done.
    + rewrite <- worker_present_spec. congruence.
    + apply not_true_iff_false. by rewrite worker_present_spec.
Qed.

End LauncherProps.

Lemma launcher_pass_covers_witness :
  let targets := [MkDbTarget 5 "postgres"; MkDbTarget 16384 "app"] in
  let ws := [MkDbWorker 5 "postgres" 0 2 (5, 0); MkDbWorker 16400 "gone" 1 2 (16400, 1)] in
  exists ws' terminated,
    launcher_pass (fun _ => BGWH_STARTED) (fun d i _ => Some (d, i)) targets 2 ws =
      Some (ws', terminated) /\ (forall k, k ∈ (worker_key <$> ws') <-> wanted targets 2 k).
Proof.
  intros targets ws.
  destruct (launcher_pass_covers (fun _ => BGWH_STARTED) (fun d i _ => Some (d, i)) ltac:(by eexists)
    targets 2 ws) as (ws' & term & H1 & _ & H3 & _).
  - repeat constructor; done.
  - by apply (bool_decide_unpack _).
  - exists ws', term. split; [exact H1|exact H3].
Defined.

(** Two tasks that wait for their first retry. *)
Definition waiting_task (o attempt : Oid) (priority : string) : pg_qx_task :=
  Mk_qx_task o 5 20 30 40 50 10 attempt 0 0 0 0 0 0 0 16 17 QX_TASK_STATE_QUEUED None None None
    (Some priority) None None None.
Definition failed_attempt (o task : Oid) : pg_qx_attempt :=
  Mk_qx_attempt o 5 20 task 10 0 1 QX_ATTEMPT_STATE_FAILED (Some "initial").
Definition retry_row (o task attempt : Oid) (priority : string) : pg_qx_scheduler_queue :=
  Mk_qx_scheduler_queue o 5 10 40 30 20 task attempt QX_SCHEDULER_QUEUE_RETRY 1 0 0 1 1000 2000 1000
    None None None None (Some priority) None None None None.

Definition waiting_world : world :=
  set_vis (set_rows [waiting_task 100 101 "low"; waiting_task 200 201 "urgent"]
    (set_rows [failed_attempt 101 100; failed_attempt 201 200]
      (set_rows [retry_row 102 100 101 "low"; retry_row 202 200 201 "urgent"] empty_catalog)))
    (empty_world 20000).

