(* ===== verification/LifecycleRules.v ===== *)
(** * Rules for the stretches of the lifecycle

    What each stretch of [Lifecycle] does to the view of its task
    ([TaskView]): the helpers of [Envelope] that write the ledger, the tool
    step, the charged steps, the checkpoint.  The handlers are then verified by
    following their code with these rules. *)

From Stdlib Require Import Ascii String.
From S2P Require Import Prelude Text Types Scheduler Stat Observe SemanticLog Tables World.
From S2P Require Import Catalog TaskView Recovery Policy Backends ToolExec Envelope.
From S2P Require Import RecoveryHooks Lifecycle.
Open Scope string_scope.
Open Scope Z_scope.
Open Scope bool_scope.
Open Scope list_scope.

Section Rules.
Context (E : Env) (T : ToolEnv) (tk : Oid).

(** ** The clock and the texts *)

Lemma wp_clock k v (Q : TimestampTz -> world -> Prop) X w :
  viewed tk k v w -> (forall now w', viewed tk k v w' -> Q now w') ->
  wp (GetCurrentTimestamp E) Q X w.
Proof.
  intros Hv HQ. eapply wp_keeps; [apply keeps_clock|exact Hv|by intros; eapply HQ|done].
Qed.

Lemma wp_queue_snapshot k v e (Q : QxSchedulerQueueSnapshot -> world -> Prop) X w :
  viewed tk k v w -> (forall now w', viewed tk k v w' -> Q (queue_snapshot_of now e) w') ->
  wp (queue_snapshot_now E e) Q X w.
Proof. intros Hv HQ. apply wp_bind. eapply wp_clock; [done|]. intros. by apply wp_ret, HQ. Qed.

Lemma wp_lease_snapshot k v e o n (Q : QxSchedulerLeaseSnapshot -> world -> Prop) X w :
  viewed tk k v w -> (forall now w', viewed tk k v w' -> Q (lease_snapshot_of now e o n) w') ->
  wp (lease_snapshot_now E e o n) Q X w.
Proof. intros Hv HQ. apply wp_bind. eapply wp_clock; [done|]. intros. by apply wp_ret, HQ. Qed.

Lemma wp_renew_lease k v l ttl (Q : QxSchedulerLeaseSnapshot -> world -> Prop) X w :
  viewed tk k v w -> (forall now w', viewed tk k v w' -> Q (renew_lease_of now l ttl) w') ->
  wp (renew_lease_now E l ttl) Q X w.
Proof. intros Hv HQ. apply wp_bind. eapply wp_clock; [done|]. intros. by apply wp_ret, HQ. Qed.

Lemma wp_release_lease k v l b (Q : QxSchedulerLeaseSnapshot -> world -> Prop) X w :
  viewed tk k v w -> (forall now w', viewed tk k v w' -> Q (release_lease_of now l b) w') ->
  wp (release_lease_now E l b) Q X w.
Proof. intros Hv HQ. apply wp_bind. eapply wp_clock; [done|]. intros. by apply wp_ret, HQ. Qed.

Lemma wp_heartbeat k v l (Q : QxSchedulerHeartbeatSnapshot -> world -> Prop) X w :
  viewed tk k v w -> (forall now w', viewed tk k v w' -> Q (heartbeat_of_lease now l) w') ->
  wp (heartbeat_now E l) Q X w.
Proof. intros Hv HQ. apply wp_bind. eapply wp_clock; [done|]. intros. by apply wp_ret, HQ. Qed.

Lemma wp_finalize_heartbeat k v l r (Q : QxSchedulerHeartbeatSnapshot -> world -> Prop) X w :
  viewed tk k v w ->
  (forall now now' w', viewed tk k v w' -> Q (finalize_heartbeat_of now now' l r) w') ->
  wp (finalize_heartbeat_now E l r) Q X w.
Proof.
  intros Hv HQ. apply wp_bind. eapply wp_clock; [done|]. intros now w' Hv'.
  apply wp_bind. eapply wp_clock; [done|]. intros. by apply wp_ret, HQ.
Qed.

Lemma wp_runtime_payload k v text e b (Q : string -> world -> Prop) X w :
  viewed tk k v w -> QxSchedulerRuntimeContractIsValid (Some e) = true ->
  (forall p w', viewed tk k v w' -> Q p w') -> wp (runtime_payload E text e b) Q X w.
Proof.
  intros Hv He HQ. apply wp_bind. unfold qx_runtime_append_recovery_payload.
  apply wp_bind, wp_gets, wp_ret. unfold qx_scheduler_append_runtime_payload. rewrite He. simpl negb.
  apply wp_bind. eapply wp_queue_snapshot; [done|]. intros n1 w1 Hv1. apply wp_bind. destruct b.
  - apply wp_bind. eapply wp_lease_snapshot; [done|]. intros n2 w2 Hv2.
    apply wp_bind. eapply wp_heartbeat; [done|]. intros n3 w3 Hv3. apply wp_ret.
    apply wp_bind. eapply wp_clock; [done|]. intros n4 w4 Hv4. by apply wp_ret, HQ.
  - apply wp_ret. by apply wp_ret, HQ.
Qed.

(** ** Ledger and log *)

Lemma wp_record_both k v sess step owner meta kind trace payload (Q : unit -> world -> Prop) X w :
  viewed tk k v w -> 1 < k ->
  (forall w', viewed tk (k - 2) (v_insert_trace (v_insert_event (Some kind) v)) w' -> Q tt w') ->
  wp (record_both E sess tk step owner meta kind trace payload) Q X w.
Proof.
  intros Hv Hk HQ. apply wp_bind. eapply wp_insert_event; [done|lia|]. intros w1 Hv1.
  apply wp_bind. eapply wp_insert_trace; [done|lia|]. intros w2 Hv2. apply wp_ret, HQ.
  replace (k - 2) with (k - 1 - 1) by lia. done.
Qed.

Lemma wp_enqueue k v q (Q : Oid -> world -> Prop) X w :
  viewed tk k v w -> 0 < k -> q_taskoid q = tk ->
  (forall w', viewed tk (k - 1) (v_insert_queue (queue_ledger_row E q (v_next v)) v) w' ->
     Q (v_next v) w') ->
  wp (enqueue E q) Q X w.
Proof.
  intros Hv Hk Hq HQ. apply wp_bind. eapply wp_insert_queue; [done|done|done|]. intros w1 Hv1.
  apply wp_bind. destruct Hv1 as (Hr & _ & Ev). eapply wp_cci; [exact Hr|exact Ev|].
  intros w2 Hv2. by apply wp_ret, HQ.
Qed.

Definition v_open_lease (queueoid : Oid) (l : QxSchedulerLeaseSnapshot)
    (h : QxSchedulerHeartbeatSnapshot) (v : task_view) : task_view :=
  v_insert_heartbeat (heartbeat_ledger_row E (v_next v) h (v_next v + 1))
    (v_insert_lease (lease_ledger_row E queueoid l (v_next v)) v).

Lemma wp_open_lease k v queueoid e worker (Q : QxSchedulerLeaseSnapshot -> world -> Prop) X w :
  viewed tk k v w -> 1 < k -> e_taskoid e = tk ->
  (forall now now' w',
     let l := lease_snapshot_of now e InvalidOid worker in
     viewed tk (k - 2) (v_open_lease queueoid l (heartbeat_of_lease now' l) v) w' -> Q l w') ->
  wp (open_lease E queueoid e worker) Q X w.
Proof.
  intros Hv Hk He HQ. apply wp_bind. eapply wp_lease_snapshot; [done|]. intros now w1 Hv1.
  apply wp_bind. eapply wp_insert_lease; [done|lia|done|]. intros w2 Hv2.
  apply wp_bind. eapply wp_heartbeat; [done|]. intros now' w3 Hv3.
  apply wp_bind. eapply wp_insert_heartbeat; [done|lia|done|]. intros w4 Hv4.
  apply wp_bind. destruct Hv4 as (Hr & _ & Ev). eapply wp_cci; [exact Hr|exact Ev|].
  intros w5 Hv5. apply wp_ret, (HQ now now'). replace (k - 2) with (k - 1 - 1) by lia. exact Hv5.
Qed.

Lemma keeps_report_scheduler s : keeps (report_scheduler_event E s).
Proof. apply (keeps_set_stat (fun w => _ (w_stat w))). Qed.

Lemma wp_close_lease k v queueoid l (Q : unit -> world -> Prop) X w :
  viewed tk k v w -> 1 < k -> l_taskoid l = tk ->
  (forall now n1 n2 w',
     let l' := release_lease_of now l false in
     viewed tk (k - 2) (v_open_lease queueoid l'
       (finalize_heartbeat_of n1 n2 l' (Some "scheduler-release")) v) w' -> Q tt w') ->
  wp (close_lease E queueoid l) Q X w.
Proof.
  intros Hv Hk Hl HQ. apply wp_bind. eapply wp_release_lease; [done|]. intros now w1 Hv1.
  apply wp_bind. eapply wp_insert_lease; [done|lia|done|]. intros w2 Hv2.
  apply wp_bind. eapply wp_finalize_heartbeat; [done|]. intros n1 n2 w3 Hv3.
  apply wp_bind. eapply wp_insert_heartbeat; [done|lia|done|]. intros w4 Hv4.
  apply wp_bind. destruct Hv4 as (Hr & _ & Ev). eapply wp_cci; [exact Hr|exact Ev|].
  intros w5 Hv5. eapply wp_keeps; [apply keeps_report_scheduler|exact Hv5| |done].
  intros [] w6 _ Hv6. apply (HQ now n1 n2). replace (k - 2) with (k - 1 - 1) by lia. exact Hv6.
Qed.

(** ** Steps *)

(** The view after a step with its charge, event and trace. *)
Definition v_charged_step (r : pg_qx_step) (tokens cost : Z) (kind : string) (v : task_view) :
    task_view :=
  v_insert_trace (v_insert_event (Some kind)
    (v_update_task (charge_row tokens cost) (v_insert_step r v))).

Lemma wp_charged_step k v row sess owner seqno name detail tokens cost charge meta kind trace payload
    (Q : Oid -> world -> Prop) X w :
  viewed tk k v w -> 2 < k -> tk <> 0 -> v_task v = Some row ->
  existsb (fun s => qxstepseqno s =? seqno) (v_steps v) = false ->
  within_budget (charge_row tokens cost row) = true ->
  (forall w', viewed tk (k - 3)
     (v_charged_step (step_row E sess tk seqno (Some name) (Some detail) (v_next v)) tokens cost
        kind v) w' -> Q (v_next v) w') ->
  wp (charged_step E sess tk owner seqno name detail tokens cost charge meta kind trace payload) Q X w.
Proof.
  intros Hv Hk Htk Hrow Hseq Hb HQ. apply wp_bind. eapply wp_insert_step; [done|lia|done|].
  intros w1 Hv1. apply wp_bind. eapply wp_charge; [exact Hv1|done|exact Hrow| |by rewrite Hb].
  intros _ w2 Hv2. apply wp_bind. eapply wp_record_both; [done|lia|]. intros w3 Hv3.
  apply wp_ret, HQ. replace (k - 3) with (k - 1 - 2) by lia. exact Hv3.
Qed.

(** The tool of a contract can be executed, with these charges, whenever the
    providers are [providers]. *)
Definition tool_runs (providers : list pg_qx_provider) (contract : cstr) (phase : string)
    (goal : cstr) (input_present : bool) (tokens cost : Z) : Prop :=
  forall w, c_providers (w_vis w) = providers ->
  exists r w', qx_execute_tool_contract E T contract (Some phase) tk goal input_present w = Ok r w' /\
    xr_token_charge r = tokens /\ xr_cost_charge r = cost.

Lemma viewed_providers k v w : viewed tk k v w -> c_providers (w_vis w) = v_providers v.
Proof.
  intros (_ & (_ & _ & _ & _ & _ & Hp) & <-). unfold view, all_rows; cbn.
  rewrite Hp, app_nil_r. done.
Qed.

Lemma wp_tool_step k v row sess owner seqno phase detail contract goal input tokens cost
    (Q : QxSemanticExecutionMetadata -> world -> Prop) X w :
  viewed tk k v w -> 2 < k -> tk <> 0 -> v_task v = Some row ->
  existsb (fun s => qxstepseqno s =? seqno) (v_steps v) = false ->
  tool_runs (v_providers v) contract phase goal input tokens cost ->
  within_budget (charge_row tokens cost row) = true ->
  (forall m w', viewed tk (k - 3)
     (v_charged_step (step_row E sess tk seqno (Some ("stage16." +:+ ("external_" +:+ phase)))
        (Some detail) (v_next v)) tokens cost "TASK_TOOL_EXECUTED" v) w' -> Q m w') ->
  wp (tool_step E T sess tk owner seqno phase detail contract goal input) Q X w.
Proof.
  intros Hv Hk Htk Hrow Hseq Hrun Hb HQ. apply wp_bind. eapply wp_insert_step; [done|lia|done|].
  intros w1 Hv1. apply wp_bind.
  destruct (Hrun w1) as (r & w2 & Ex & Et & Ec); [rewrite (viewed_providers _ _ _ Hv1); done|].
  eapply wp_ok; [exact Ex|].
  assert (viewed tk (k - 1) (v_insert_step (step_row E sess tk seqno
    (Some ("stage16." +:+ ("external_" +:+ phase))) (Some detail) (v_next v)) v) w2) as Hv2
    by (eapply viewed_same; [eapply keeps_ok; [apply keeps_execute|exact Ex]|exact Hv1]).
  apply wp_bind. rewrite Et, Ec.
  eapply wp_charge; [exact Hv2|done|exact Hrow| |by rewrite Hb].
  intros _ w3 Hv3. apply wp_bind. eapply wp_record_both; [done|lia|]. intros w4 Hv4.
  apply wp_ret, HQ. replace (k - 3) with (k - 1 - 2) by lia. exact Hv4.
Qed.

(** ** The checkpoint *)

Definition v_checkpoint (r : pg_qx_checkpoint) (a : Oid) (ast tst : ascii) (v : task_view) :
    task_view :=
  v_update_task (set_task_runtime tst a true (v_next v) true)
    (v_update_attempt a (set_attempt_state ast) (v_insert_checkpoint r v)).

Lemma wp_checkpoint_and_release k v row sess att step owner queueoid meta tst ast next label lease
    (Q : unit -> world -> Prop) X w :
  viewed tk k v w -> 2 < k -> v_task v = Some row -> has_attempt att v -> l_taskoid lease = tk ->
  (forall lsn now n1 n2 w',
     let l' := release_lease_of now lease false in
     viewed tk (k - 3)
       (v_open_lease queueoid l' (finalize_heartbeat_of n1 n2 l' (Some "scheduler-release"))
         (v_checkpoint (Mk_qx_checkpoint (v_next v) (MyDatabaseId E) sess tk att step owner
            QX_CHECKPOINT_STATE_DURABLE tst (int16 next) lsn (Some label)
            (Some (checkpoint_data_text tk att sess next))) att ast tst v)) w' -> Q tt w') ->
  wp (checkpoint_and_release E sess tk att step owner queueoid meta tst ast next label lease) Q X w.
Proof.
  intros Hv Hk Hrow Hatt Hl HQ. apply wp_bind. eapply wp_insert_checkpoint; [done|lia|].
  intros lsn w1 Hv1. apply wp_bind. eapply wp_update_attempt; [exact Hv1|exact Hatt|].
  intros w2 Hv2. apply wp_bind. eapply wp_update_task; [exact Hv2|exact Hrow|].
  intros w3 Hv3. eapply wp_close_lease; [exact Hv3|lia|exact Hl|].
  intros now n1 n2 w4 l' Hv4. apply (HQ lsn now n1 n2). replace (k - 3) with (k - 1 - 2) by lia.
  exact Hv4.
Qed.

End Rules.
