(* ===== verification/LifecycleSpec.v ===== *)
(** * What submit and resume establish

    A submitted task ends at its checkpoint, a resumed one is completed, and
    the two compose.  The theorems are about total correctness: under stated
    conditions on the catalogs, the request and the tool, the handlers return,
    and what they leave behind is described row by row. *)

From Stdlib Require Import Ascii String.
From S2P Require Import Prelude Text Types Scheduler Stat Observe SemanticLog Tables World.
From S2P Require Import Catalog TaskView Recovery Policy Backends ToolExec Envelope.
From S2P Require Import RecoveryHooks Lifecycle LifecycleRules.
Open Scope string_scope.
Open Scope Z_scope.
Open Scope bool_scope.
Open Scope list_scope.

(** ** Budgets along a sequence of charges *)

(** The row's ceilings are [B] and [C], its consumption [a] and [b]. *)
Definition spent (B C a b : Z) (t : pg_qx_task) : Prop :=
  qxtaskbudgettokens t = B /\ qxtaskbudgetcost t = C /\
  qxtaskconsumedtokens t = a /\ qxtaskconsumedcost t = b.

(** A ceiling that is not positive does not limit. *)
Definition affordable (ceiling total : Z) : Prop := ceiling <= 0 \/ total <= ceiling.

Lemma spent_charge B C a b tokens cost t :
  spent B C a b t -> in_int32 (a + tokens) -> in_int32 (b + cost) ->
  spent B C (a + tokens) (b + cost) (charge_row tokens cost t).
Proof.
  intros (HB & HC & Ha & Hb) H1 H2. unfold spent, charge_row; simpl.
  rewrite Ha, Hb, !int32_small by done. done.
Qed.

Lemma spent_runtime B C a b st la ra lc rc t :
  spent B C a b t -> spent B C a b (set_task_runtime st la ra lc rc t).
Proof. done. Qed.

Lemma spent_within B C a b t :
  spent B C a b t -> affordable B a -> affordable C b -> within_budget t = true.
Proof.
  intros (HB & HC & Ha & Hb) H1 H2. unfold within_budget, affordable in *.
  rewrite HB, HC, Ha, Hb. rewrite !andb_true_iff, !negb_true_iff, !andb_false_iff, !Z.ltb_ge. lia.
Qed.

(** The charges of a tool, of capturing the input and of the barrier. *)
Lemma spent_steps B C a b tokens cost capture t :
  spent B C a b t -> 0 <= a -> 0 <= b -> 0 <= tokens -> 0 <= cost -> 0 <= capture ->
  in_int32 (a + tokens + capture + 4) -> in_int32 (b + cost + 13 + 14) ->
  let t3 := charge_row tokens cost t in
  let t4 := charge_row capture 13 t3 in
  spent B C (a + tokens) (b + cost) t3 /\
  spent B C (a + tokens + capture) (b + cost + 13) t4 /\
  spent B C (a + tokens + capture + 4) (b + cost + 13 + 14) (charge_row 4 14 t4).
Proof.
  intros Hs Ha Hb Ht Hc Hcap H1 H2 t3 t4. unfold in_int32 in *.
  assert (spent B C (a + tokens) (b + cost) t3) as S3
    by (apply spent_charge; [done|unfold in_int32; lia..]).
  assert (spent B C (a + tokens + capture) (b + cost + 13) t4) as S4
    by (apply spent_charge; [done|unfold in_int32; lia..]).
  split_and!; [done|done|]. apply spent_charge; [done|unfold in_int32; lia..].
Qed.

(** ** Envelopes of the runtime *)

Definition admissible (sess agent identity policy : Oid) (bt bc et ec : Z) : Prop :=
  sess <> 0 /\ agent <> 0 /\ identity <> 0 /\ policy <> 0 /\
  0 <= bt /\ 0 <= bc /\ 0 <= et /\ 0 <= ec.

Lemma fill_envelope_task owner sess agent ident pol t a n1 n2 n3 n4 pr cl rl b1 b2 b3 bt bc et ec
    rc contract :
  let e := qx_scheduler_fill_envelope owner sess agent ident pol t a n1 n2 n3 n4 pr cl rl b1 b2 b3
             bt bc et ec rc contract in
  e_taskoid e = t /\ e_attemptoid e = a /\ e_ownerid e = owner /\ e_retry_count e = rc.
Proof. destruct contract; done. Qed.

Lemma fill_envelope_valid owner sess agent ident pol t a n1 n2 n3 n4 pr cl rl b1 b2 b3 bt bc et ec
    rc contract :
  admissible sess agent ident pol bt bc et ec ->
  QxSchedulerRuntimeContractIsValid (Some
    (qx_scheduler_fill_envelope owner sess agent ident pol t a n1 n2 n3 n4 pr cl rl b1 b2 b3
       bt bc et ec rc contract)) = true.
Proof.
  intros (H1 & H2 & H3 & H4 & H5 & H6 & H7 & H8).
  apply Z.eqb_neq in H1, H2, H3, H4. apply Z.ltb_ge in H5, H6, H7, H8.
  destruct contract; cbn -[Z.eqb Z.ltb]; unfold InvalidOid;
    rewrite H1, H2, H3, H4, H5, H6, H7, H8; done.
Qed.

(** ** A task that does not exist yet *)

(** No row refers to an identifier that has not been handed out. *)
Definition refs_below (w : world) : Prop :=
  let n := w_next_oid w in
  Forall (fun r => qxattempttaskid r < n) (all_rows pg_qx_attempt w) /\
  Forall (fun r => qxsteptaskid r < n) (all_rows pg_qx_step w) /\
  Forall (fun r => qxcheckpointtaskid r < n) (all_rows pg_qx_checkpoint w) /\
  Forall (fun r => qxqueueledgertaskid r < n) (all_rows pg_qx_scheduler_queue w) /\
  Forall (fun r => qxleaseledgertaskid r < n) (all_rows pg_qx_scheduler_lease w) /\
  Forall (fun r => qxheartbeatledgertaskid r < n) (all_rows pg_qx_scheduler_heartbeat w) /\
  Forall (fun r => qxeventtaskid r < n) (all_rows pg_qx_event w).

Definition blank_view (v : task_view) : Prop :=
  v_task v = None /\ v_attempts v = [] /\ v_steps v = [] /\ v_checkpoints v = [] /\
  v_queues v = [] /\ v_leases v = [] /\ v_heartbeats v = [] /\ v_events v = [].

Lemma of_task_below {R} (taskid : R -> Oid) tk l :
  Forall (fun r => taskid r < tk) l -> of_task tk taskid l = [].
Proof.
  induction 1 as [|r l Hr _ IH]; unfold of_task in *; simpl; [done|].
  rewrite (proj2 (Z.eqb_neq _ _)) by lia. done.
Qed.

Lemma fresh_view k w : room k w -> refs_below w -> blank_view (view (w_next_oid w) w).
Proof.
  intros Hr (H1 & H2 & H3 & H4 & H5 & H6 & H7). unfold blank_view; cbn.
  rewrite !of_task_below by done. split_and!; try done.
  destruct (find_oid _ _) as [t|] eqn:F; [|done]. exfalso.
  apply find_some in F as (Hin & He). apply Z.eqb_eq in He. apply list_elem_of_In in Hin.
  apply (room_row k w pg_qx_task) in Hin; [|done]. lia.
Qed.

(** ** Submit *)

Section Submit.
Context (E : Env) (T : ToolEnv) (tk : Oid) (request : QxRuntimeTaskRequest).

(** The view after the admission of an attempt: an event, a change of the task
    row, a charged first step, the lease, a second event. *)
Definition v_admit (change : task_view -> task_view) (step : Oid -> pg_qx_step) (tokens cost : Z)
    (kind1 kind2 : string) (queueoid : Oid) (l : QxSchedulerLeaseSnapshot)
    (h : QxSchedulerHeartbeatSnapshot) (v : task_view) : task_view :=
  let v1 := change (v_insert_trace (v_insert_event (Some kind1) v)) in
  let v2 := v_update_task (charge_row tokens cost) (v_insert_step (step (v_next v1)) v1) in
  v_insert_trace (v_insert_event (Some kind2) (v_open_lease E queueoid l h v2)).

Definition no_step (seqno : Z) (v : task_view) : Prop :=
  existsb (fun s => qxstepseqno s =? seqno) (v_steps v) = false.

Lemma wp_submit_admit k v row att queueoid e (Q : QxSchedulerLeaseSnapshot -> world -> Prop) X w :
  viewed tk k v w -> 6 < k -> tk <> 0 -> v_task v = Some row -> no_step 1 v ->
  QxSchedulerRuntimeContractIsValid (Some e) = true -> e_taskoid e = tk ->
  within_budget (charge_row 16 17 (set_task_runtime QX_TASK_STATE_RUNNING att true 0 false row)) =
    true ->
  (forall name detail now now' w',
     let l := lease_snapshot_of now e InvalidOid (Some "embedded-runtime") in
     viewed tk (k - 7)
       (v_admit (v_update_task (set_task_runtime QX_TASK_STATE_RUNNING att true 0 false))
          (step_row E (tr_sessionoid request) tk 1 name detail) 16 17 "TASK_QUEUED"
          "TASK_DISPATCHED" queueoid l (heartbeat_of_lease now' l) v) w' -> Q l w') ->
  wp (submit_admit E request tk att queueoid e) Q X w.
Proof.
  intros Hv Hk Htk Hrow Hseq He Het Hb HQ. apply wp_bind.
  eapply wp_runtime_payload; [exact Hv|exact He|]. intros p1 w1 Hv1.
  apply wp_bind. eapply wp_record_both; [exact Hv1|lia|]. intros w2 Hv2.
  apply wp_bind. eapply wp_update_task; [exact Hv2|exact Hrow|]. intros w3 Hv3.
  apply wp_bind. eapply wp_insert_step; [exact Hv3|lia|exact Hseq|]. intros w4 Hv4.
  apply wp_bind.
  eapply wp_charge with (row := set_task_runtime QX_TASK_STATE_RUNNING att true 0 false row);
    [exact Hv4|exact Htk|simpl; by rewrite Hrow| |by rewrite Hb].
  intros _ w5 Hv5. apply wp_bind. eapply wp_runtime_payload; [exact Hv5|exact He|]. intros p2 w6 Hv6.
  apply wp_bind. eapply wp_open_lease; [exact Hv6|lia|exact Het|]. intros now now' w7 l Hv7.
  apply wp_bind. eapply wp_record_both; [exact Hv7|lia|]. intros w8 Hv8.
  eapply wp_ret, (HQ _ _ now now'). replace (k - 7) with (k - 2 - 1 - 2 - 2) by lia. exact Hv8.
Qed.

(** The view after the four steps between admission and checkpoint. *)
Definition v_steps_done (s2 s3 s4 s5 : Oid -> pg_qx_step) (tokens cost capture : Z) (v : task_view) :
    task_view :=
  let at_next (f : Oid -> pg_qx_step) (u : task_view) := f (v_next u) in
  let v2 := v_insert_trace (v_insert_event (Some "TASK_TOOLS_AUTHORIZED")
              (v_insert_step (at_next s2 v) v)) in
  let v3 := v_charged_step (at_next s3 v2) tokens cost "TASK_TOOL_EXECUTED" v2 in
  let v4 := v_charged_step (at_next s4 v3) capture 13 "TASK_INPUT_CAPTURED" v3 in
  v_charged_step (at_next s5 v4) 4 14 "TASK_CHECKPOINTED" v4.

Definition capture_tokens (input : option pg_node) : Z := if is_present input then 24 else 8.

(** The steps inserted so far have other numbers. *)
Ltac other_step H :=
  cbn -[existsb]; rewrite ?existsb_app;
  match goal with |- context [existsb (fun s => qxstepseqno s =? ?n) (v_steps _)] =>
    rewrite (H n ltac:(lia)) end;
  reflexivity.

Lemma wp_submit_steps k v row B C a b contract tokens cost
    (Q : Oid * QxSemanticExecutionMetadata -> world -> Prop) X w :
  viewed tk k v w -> 11 < k -> tk <> 0 -> v_task v = Some row -> spent B C a b row ->
  (forall n, 2 <= n <= 5 -> no_step n v) ->
  tool_runs E T tk (v_providers v) contract "submit" (tr_goal request)
    (is_present (tr_input request)) tokens cost ->
  0 <= a -> 0 <= b -> 0 <= tokens -> 0 <= cost ->
  let total := a + tokens + capture_tokens (tr_input request) + 4 in
  in_int32 total -> in_int32 (b + cost + 13 + 14) ->
  affordable B total -> affordable C (b + cost + 13 + 14) ->
  (forall s2 s3 s4 s5 step meta w',
     (forall o, qxstepseqno (s2 o) = 2) -> (forall o, qxstepseqno (s3 o) = 3) ->
     (forall o, qxstepseqno (s4 o) = 4) -> (forall o, qxstepseqno (s5 o) = 5) ->
     viewed tk (k - 12)
       (v_steps_done s2 s3 s4 s5 tokens cost (capture_tokens (tr_input request)) v) w' ->
     Q (step, meta) w') ->
  wp (submit_steps E T request tk contract) Q X w.
Proof.
  intros Hv Hk Htk Hrow Hsp Hseq Hrun Ha Hb Ht Hc total Hi1 Hi2 Hf1 Hf2 HQ.
  assert (8 <= capture_tokens (tr_input request) <= 24)
    by (unfold capture_tokens; destruct (is_present _); lia).
  unfold in_int32, affordable, total in *.
  destruct (spent_steps B C a b tokens cost (capture_tokens (tr_input request)) row)
    as (S3 & S4 & S5); [done|lia..|unfold in_int32; lia|unfold in_int32; lia|].
  set (row3 := charge_row tokens cost row) in *.
  set (row4 := charge_row (capture_tokens (tr_input request)) 13 row3) in *.
  apply wp_bind. eapply wp_insert_step; [exact Hv|lia|apply Hseq; lia|]. intros w1 Hv1.
  apply wp_bind. eapply wp_record_both; [exact Hv1|lia|]. intros w2 Hv2.
  apply wp_bind. eapply wp_tool_step with (row := row);
    [exact Hv2|lia|exact Htk|exact Hrow| |exact Hrun| |].
  { other_step Hseq. }
  { eapply spent_within; [exact S3|unfold affordable; lia..]. }
  intros meta w3 Hv3. apply wp_bind. eapply wp_charged_step with (row := row3);
    [exact Hv3|lia|exact Htk|simpl; by rewrite Hrow| | |].
  { other_step Hseq. }
  { eapply spent_within; [exact S4|unfold affordable; lia..]. }
  intros w4 Hv4. apply wp_bind. eapply wp_charged_step with (row := row4);
    [exact Hv4|lia|exact Htk|simpl; by rewrite Hrow| | |].
  { other_step Hseq. }
  { eapply spent_within; [exact S5|unfold affordable; lia..]. }
  intros w5 Hv5. apply wp_ret.
  eapply (HQ (step_row E (tr_sessionoid request) tk 2 _ _)
             (step_row E (tr_sessionoid request) tk 3 _ _)
             (step_row E (tr_sessionoid request) tk 4 _ _)
             (step_row E (tr_sessionoid request) tk 5 _ _)); [done..|].
  replace (k - 12) with (k - 1 - 2 - 3 - 3 - 3) by lia. exact Hv5.
Qed.

End Submit.

(** What is visible of a view's task row does not depend on pending rows. *)
Lemma viewed_agent tk k v w o :
  viewed tk k v w -> QxCatalogLookupAgentByOid (w_vis w) o =
  (if negb (OidIsValid o) then None else find_oid o (v_agents v)).
Proof.
  intros (_ & (_ & _ & Ha & _) & <-). unfold QxCatalogLookupAgentByOid, lookup_by_oid. cbn.
  unfold all_rows; cbn. rewrite Ha, app_nil_r. done.
Qed.

Lemma wp_record_pause E tk k v sess owner (Q : unit -> world -> Prop) X w :
  viewed tk k v w -> 1 < k ->
  (forall w', viewed tk (k - 2)
     (v_insert_trace (v_insert_event (Some "TASK_READY_FOR_RESUME") v)) w' -> Q tt w') ->
  wp (record_pause E sess tk owner) Q X w.
Proof.
  intros Hv Hk HQ. apply wp_bind. eapply wp_insert_event; [exact Hv|lia|]. intros w1 Hv1.
  apply wp_bind. eapply wp_insert_trace; [exact Hv1|lia|]. intros w2 Hv2. apply wp_ret, HQ.
  replace (k - 2) with (k - 1 - 1) by lia. exact Hv2.
Qed.

Lemma viewed_mono tk j k v w : viewed tk k v w -> j <= k -> viewed tk j v w.
Proof. intros (Hr & Hs & Ev) Hj. split_and!; [by eapply room_mono|done|done]. Qed.

Lemma viewed_attempts_below tk k v w :
  viewed tk k v w -> Forall (fun a => attempt_oid a < v_next v) (v_attempt_rows v) /\
    Forall (fun a => attempt_oid a < v_next v) (v_attempts v).
Proof.
  intros (Hr & _ & <-). split; apply Forall_forall; intros a Ha; cbn in Ha.
  - exact (room_row k w pg_qx_attempt a Hr Ha).
  - apply list_elem_of_In, filter_In in Ha as (Ha & _). apply list_elem_of_In in Ha.
    exact (room_row k w pg_qx_attempt a Hr Ha).
Qed.

Lemma update_attempts_below n f l :
  Forall (fun a => attempt_oid a < n) l ->
  (fun a => if attempt_oid a =? n then f a else a) <$> l = l.
Proof.
  induction 1 as [|a l Ha _ IH]; simpl; [done|]. rewrite (proj2 (Z.eqb_neq _ _)) by lia.
  f_equal. exact IH.
Qed.

(** Evaluate what the changes of a view do to one of its parts. *)
Ltac vcbn :=
  cbn [v_next v_task v_attempts v_steps v_checkpoints v_queues v_leases v_heartbeats v_events
       v_others v_attempt_rows v_checkpoint_rows v_agents v_identities v_policies v_providers v_recovery
       v_insert_attempt v_insert_step v_insert_checkpoint v_insert_queue v_insert_lease
       v_insert_heartbeat v_insert_event v_insert_trace v_insert_task v_update_task
       v_update_attempt v_open_lease v_charged_step v_checkpoint v_admit v_steps_done
       fmap option_fmap option_map].

(** The view of a task that has been submitted and has paused at its checkpoint. *)
Definition submitted (E : Env) (tk : Oid) (request : QxRuntimeTaskRequest) (tokens cost : Z)
    (before v : task_view) : Prop :=
  exists t a c,
    v_task v = Some t /\ v_attempts v = [a] /\ v_checkpoints v = [c] /\
    (exists ct cc, t = set_task_consumed ct cc
       (set_task_runtime QX_TASK_STATE_CHECKPOINTED (attempt_oid a) true (checkpoint_oid c) true
          (task_row E (qx_runtime_fill_task_insert_params request) tk))) /\
    qxtaskstate t = QX_TASK_STATE_CHECKPOINTED /\ qxtasklastattemptid t = attempt_oid a /\
    qxtasklastcheckpointid t = checkpoint_oid c /\
    qxtaskconsumedtokens t = 16 + tokens + capture_tokens (tr_input request) + 4 /\
    qxtaskconsumedcost t = 17 + cost + 13 + 14 /\
    qxattemptseqno a = 1 /\ qxattemptstate a = QX_ATTEMPT_STATE_CHECKPOINTED /\
    qxcheckpointattemptid c = attempt_oid a /\ qxcheckpointnextstepseqno c = 6 /\
    qxstepseqno <$> v_steps v = [1; 2; 3; 4; 5] /\
    qxleaseledgerstate <$> v_leases v = [QX_SCHEDULER_LEASE_HELD; QX_SCHEDULER_LEASE_RELEASED] /\
    v_events v = Some <$> ["TASK_QUEUED"; "TASK_DISPATCHED"; "TASK_TOOLS_AUTHORIZED";
      "TASK_TOOL_EXECUTED"; "TASK_INPUT_CAPTURED"; "TASK_CHECKPOINTED"; "TASK_READY_FOR_RESUME"] /\
    v_others v = v_others before /\
    v_attempt_rows v = v_attempt_rows before ++ [a] /\
    v_checkpoint_rows v = v_checkpoint_rows before ++ [c] /\
    v_next before <= attempt_oid a /\ v_next before <= checkpoint_oid c /\
    v_providers v = v_providers before /\ v_recovery v = v_recovery before.

Section SubmitSpec.
Context (E : Env) (T : ToolEnv) (request : QxRuntimeTaskRequest).

(** The conditions under which a request is carried out, in the world [w]
    after the startup scan. *)
Record submittable (spare tokens cost : Z) (w : world) : Prop := {
  sub_room : 0 <= spare /\ room (27 + spare) w;
  sub_settled : settled w;
  sub_refs : refs_below w;
  sub_admissible :
    admissible (tr_sessionoid request) (tr_agentoid request) (tr_identityoid request)
      (tr_namespace_policy_oid request) (tr_budget_tokens request) (tr_budget_cost request)
      (tr_estimated_tokens request) (tr_estimated_cost request);
  sub_agent : is_Some (QxCatalogLookupAgentByOid (w_vis w) (tr_agentoid request));
  sub_tool :
    tool_runs E T (w_next_oid w) (c_providers (w_vis w))
      (qx_runtime_request_phase_contract request false) "submit" (tr_goal request)
      (is_present (tr_input request)) tokens cost;
  sub_charges : 0 <= tokens /\ 0 <= cost;
  sub_tokens :
    let total := 16 + tokens + capture_tokens (tr_input request) + 4 in
    in_int32 total /\ affordable (tr_budget_tokens request) total;
  sub_cost :
    let total := 17 + cost + 13 + 14 in
    in_int32 total /\ affordable (tr_budget_cost request) total
}.

(** The rows the view ends up with, from the rows that were written. *)
Lemma submitted_view tk v att q l h s1 s2 s3 s4 s5 arow qrow c l' h' tokens cost :
  let row := task_row E (qx_runtime_fill_task_insert_params request) tk in
  blank_view v ->
  spent (tr_budget_tokens request) (tr_budget_cost request) 16 17
    (charge_row 16 17 (set_task_runtime QX_TASK_STATE_RUNNING att true 0 false row)) ->
  0 <= tokens -> 0 <= cost ->
  in_int32 (16 + tokens + capture_tokens (tr_input request) + 4) -> in_int32 (17 + cost + 13 + 14) ->
  (forall o, qxstepseqno (s1 o) = 1) -> (forall o, qxstepseqno (s2 o) = 2) ->
  (forall o, qxstepseqno (s3 o) = 3) -> (forall o, qxstepseqno (s4 o) = 4) ->
  (forall o, qxstepseqno (s5 o) = 5) ->
  l_state l = QX_SCHEDULER_LEASE_HELD -> l_state l' = QX_SCHEDULER_LEASE_RELEASED ->
  attempt_oid arow = att -> qxattemptseqno arow = 1 -> v_next v <= att ->
  Forall (fun a => attempt_oid a < att) (v_attempt_rows v) ->
  let u := v_steps_done s2 s3 s4 s5 tokens cost (capture_tokens (tr_input request))
    (v_admit E (v_update_task (set_task_runtime QX_TASK_STATE_RUNNING att true 0 false)) s1 16 17
       "TASK_QUEUED" "TASK_DISPATCHED" q l h
       (v_insert_queue qrow (v_insert_attempt arow (v_insert_task row v)))) in
  checkpoint_oid c = v_next u -> qxcheckpointattemptid c = att -> qxcheckpointnextstepseqno c = 6 ->
  submitted E tk request tokens cost v
    (v_insert_trace (v_insert_event (Some "TASK_READY_FOR_RESUME")
       (v_open_lease E q l' h'
          (v_checkpoint c att QX_ATTEMPT_STATE_CHECKPOINTED QX_TASK_STATE_CHECKPOINTED u)))).
Proof.
  intros row (_ & B1 & B2 & B3 & B4 & B5 & B6 & B7) S1 Ht Hc Hi1 Hi2 E1 E2 E3 E4 E5 El El' Ea Es
    Hatt Hbelow u Ec Eca En.
  assert (8 <= capture_tokens (tr_input request) <= 24)
    by (unfold capture_tokens; destruct (is_present _); lia).
  edestruct (spent_steps _ _ _ _ tokens cost (capture_tokens (tr_input request)) _ S1)
    as (_ & _ & S5); [lia..|unfold in_int32 in *; lia|unfold in_int32 in *; lia|].
  apply (spent_runtime _ _ _ _ QX_TASK_STATE_CHECKPOINTED att true (v_next u) true) in S5
    as (_ & _ & F1 & F2).
  do 2 eexists. exists c. split_and!.
  - unfold u. vcbn. fold u. reflexivity.
  - unfold u. vcbn. rewrite B1. cbn -[Z.eqb]. rewrite Ea, Z.eqb_refl. reflexivity.
  - unfold u. vcbn. rewrite B3. reflexivity.
  - rewrite Ec. unfold set_attempt_state. cbn [attempt_oid]. rewrite Ea. do 2 eexists. reflexivity.
  - reflexivity.
  - exact (eq_sym Ea).
  - exact (eq_sym Ec).
  - exact F1.
  - exact F2.
  - exact Es.
  - reflexivity.
  - rewrite Eca. exact (eq_sym Ea).
  - exact En.
  - unfold u. vcbn. rewrite B2. cbn. rewrite E1, E2, E3, E4, E5. reflexivity.
  - unfold u. vcbn. rewrite B5. cbn. rewrite El, El'. reflexivity.
  - unfold u. vcbn. rewrite B7. reflexivity.
  - reflexivity.
  - unfold u. vcbn. rewrite fmap_app, (update_attempts_below att) by exact Hbelow.
    cbn -[Z.eqb]. rewrite Ea, Z.eqb_refl. reflexivity.
  - reflexivity.
  - cbn [attempt_oid set_attempt_state]. lia.
  - rewrite Ec. unfold u. vcbn. lia.
  - reflexivity.
  - reflexivity.
Qed.

Lemma wp_submit spare tokens cost w0 w (Q : Oid -> world -> Prop) X :
  qx_runtime_ensure_startup_recovery_scan E (tr_ownerid request) w0 = Ok tt w ->
  submittable spare tokens cost w ->
  (forall v w', viewed (w_next_oid w) spare v w' ->
     submitted E (w_next_oid w) request tokens cost (view (w_next_oid w) w) v -> Q (w_next_oid w) w') ->
  wp (QxRuntimeSubmitTask E T request) Q X w0.
Proof.
  intros Hscan [[Hspare Hroom] Hset Hrefs Hadm (agent & Hagent) Hrun [Ht Hc] [Hi1 Hf1] [Hi2 Hf2]] HQ.
  pose proof (fresh_view _ w Hroom Hrefs) as Hblank. pose proof Hblank as (B0 & B1 & B2 & B3 & B4 & B5 & B6 & B7).
  set (tk := w_next_oid w) in *. set (v := view tk w) in *.
  assert (viewed tk (27 + spare) v w) as Hv by done. assert (v_next v = tk) as Hn by done.
  assert (tk <> 0) as Htk by (destruct Hroom as (_ & Hf & _); unfold FirstNormalObjectId in Hf; subst tk; lia).
  rewrite (viewed_agent _ _ _ _ _ Hv) in Hagent. rewrite (viewed_providers _ _ _ _ Hv) in Hrun.
  pose proof (viewed_attempts_below _ _ _ _ Hv) as (Hbelow & _). clearbody v tk.
  apply wp_bind. eapply wp_ok; [exact Hscan|].
  apply wp_bind. eapply wp_insert_task; [exact Hv|lia|exact Hn|exact B0|]. intros w1 Hr1 Ev1.
  apply wp_bind. eapply wp_cci; [exact Hr1|exact Ev1|]. intros w2 Hv2.
  apply wp_bind. eapply wp_insert_attempt; [exact Hv2|lia|simpl; by rewrite B1|]. intros w3 Hr3 Ev3.
  apply wp_bind. eapply wp_cci; [exact Hr3|exact Ev3|]. intros w4 Hv4.
  apply wp_bind, wp_bind, wp_gets. rewrite (viewed_agent _ _ _ _ _ Hv4).
  cbn [v_agents v_insert_attempt v_insert_task].
  rewrite Hagent. apply wp_ret.
  set (row0 := task_row E _ tk) in *. set (att := v_next (v_insert_task row0 v)) in *.
  match goal with |- context [queue_snapshot_now E ?x] => set (e := x) in * end.
  assert (e_taskoid e = tk) as Het by apply fill_envelope_task.
  assert (QxSchedulerRuntimeContractIsValid (Some e) = true) as Hval
    by (apply fill_envelope_valid; exact Hadm).
  apply wp_bind. eapply wp_queue_snapshot; [exact Hv4|]. intros now w5 Hv5.
  apply wp_bind. eapply wp_enqueue; [exact Hv5|lia|exact Het|]. intros w6 Hv6.
  assert (spent (tr_budget_tokens request) (tr_budget_cost request) (0 + 16) (0 + 17)
    (charge_row 16 17 (set_task_runtime QX_TASK_STATE_RUNNING att true 0 false row0))) as S1
    by (apply spent_charge; [done|unfold in_int32; lia..]).
  assert (8 <= capture_tokens (tr_input request) <= 24)
    by (unfold capture_tokens; destruct (is_present _); lia).
  apply wp_bind. eapply wp_submit_admit with (row := row0); [exact Hv6|lia|exact Htk|done| | | | |].
  { unfold no_step. simpl. rewrite B2. done. }
  { exact Hval. }
  { exact Het. }
  { eapply spent_within; [exact S1|unfold affordable in *; lia..]. }
  intros sn sd n1 n2 w7 l Hv7.
  apply wp_bind. eapply wp_submit_steps with
    (row := charge_row 16 17 (set_task_runtime QX_TASK_STATE_RUNNING att true 0 false row0));
    [exact Hv7|lia|exact Htk|done|exact S1| |exact Hrun|lia..| | | | |].
  { intros n Hn'. unfold no_step. cbn -[existsb Z.eqb]. rewrite B2. cbn -[Z.eqb].
    rewrite (proj2 (Z.eqb_neq _ _)) by lia. done. }
  1-4: unfold in_int32, affordable in *; lia.
  intros s2 s3 s4 s5 step meta w8 E2 E3 E4 E5 Hv8.
  apply wp_bind. eapply wp_checkpoint_and_release; [exact Hv8|lia|done| |exact Het|].
  { exists (attempt_row E (tr_sessionoid request) tk (tr_ownerid request) InvalidOid 1
      QX_ATTEMPT_STATE_RUNNING (Some "initial") att). split; [|done].
    simpl. rewrite B1. apply list_elem_of_singleton. done. }
  intros lsn n3 n4 n5 w9 l' Hv9.
  apply wp_bind. eapply wp_record_pause; [exact Hv9|lia|]. intros w10 Hv10.
  apply wp_ret. eapply HQ; [eapply viewed_mono; [exact Hv10|lia]|].
  apply submitted_view; try done.
  - subst att. simpl. lia.
  - eapply Forall_impl; [exact Hbelow|]. subst att. simpl. intros. lia.
Qed.

End SubmitSpec.

(** ** Resume *)

Section ResumeSpec.
Context (E : Env) (T : ToolEnv) (tk : Oid).

Lemma wp_resume_dispatch k v row ck task owner queueoid e B C a b
    (Q : QxSchedulerLeaseSnapshot -> world -> Prop) X w :
  viewed tk k v w -> 6 < k -> tk <> 0 -> task_oid (ti_row task) = tk -> v_task v = Some row ->
  no_step (qxcheckpointnextstepseqno ck) v ->
  QxSchedulerRuntimeContractIsValid (Some e) = true -> e_taskoid e = tk ->
  spent B C a b (charge_row 8 14 row) -> affordable B a -> affordable C b ->
  (forall name detail now now' w',
     let l := lease_snapshot_of now e InvalidOid (Some "embedded-runtime") in
     viewed tk (k - 7)
       (v_admit E (fun u => u)
          (step_row E (qxtasksessionid (ti_row task)) tk (qxcheckpointnextstepseqno ck) name detail)
          8 14 "TASK_RESUMED" "TASK_RESUME_DISPATCHED" queueoid l (heartbeat_of_lease now' l) v) w' ->
     Q l w') ->
  wp (resume_dispatch E task ck owner queueoid e) Q X w.
Proof.
  intros Hv Hk Htk Ht Hrow Hseq He Het Hsp Hf1 Hf2 HQ. unfold resume_dispatch. rewrite Ht.
  apply wp_bind. eapply wp_runtime_payload; [exact Hv|exact He|]. intros p1 w1 Hv1.
  apply wp_bind. eapply wp_record_both; [exact Hv1|lia|]. intros w2 Hv2.
  apply wp_bind. eapply wp_insert_step; [exact Hv2|lia|exact Hseq|]. intros w4 Hv4.
  apply wp_bind. eapply wp_charge with (row := row); [exact Hv4|exact Htk|exact Hrow| |].
  2: { rewrite (spent_within _ _ _ _ _ Hsp Hf1 Hf2). done. }
  intros _ w5 Hv5. apply wp_bind. eapply wp_runtime_payload; [exact Hv5|exact He|]. intros p2 w6 Hv6.
  apply wp_bind. eapply wp_open_lease; [exact Hv6|lia|exact Het|]. intros now now' w7 l Hv7.
  apply wp_bind. eapply wp_record_both; [exact Hv7|lia|]. intros w8 Hv8.
  eapply wp_ret, (HQ _ _ now now'). replace (k - 7) with (k - 2 - 1 - 2 - 2) by lia. exact Hv8.
Qed.

(** The conditions under which the task is resumed: [w0] is the world of the
    call, [w] the one after the startup scan. *)
Record resumable (label : cstr) (ownerid : Oid) (task : QxCatalogTaskInfo)
    (ck : QxCatalogCheckpointInfo) (seqno : Z) (contract : cstr) (tokens cost : Z)
    (w0 w : world) : Prop := {
  res_check : resume_check E tk label ownerid w0 = Ok (task, ck) w0;
  res_scan : qx_runtime_ensure_startup_recovery_scan E ownerid w0 = Ok tt w;
  res_room : room 20 w;
  res_settled : settled w;
  res_task : v_task (view tk w) = Some (ti_row task);
  res_attempt : qxtasklastattemptid (ti_row task) <> 0 /\
    qx_fetch_attempt_seqno (qxtasklastattemptid (ti_row task)) w0 = Ok seqno w0;
  res_seqno : in_int16 (seqno + 1) /\
    existsb (fun a => qxattemptseqno a =? seqno + 1) (v_attempts (view tk w)) = false;
  res_next : 0 < qxcheckpointnextstepseqno ck /\ in_int16 (qxcheckpointnextstepseqno ck + 2);
  res_steps : forall i, 0 <= i <= 2 -> no_step (qxcheckpointnextstepseqno ck + i) (view tk w);
  res_contract : forall u, qx_runtime_task_phase_contract task true u = Ok contract u;
  res_tools : forall u, exists l,
    qx_parse_task_authorized_contracts (qxtaskauthorizedtools (ti_row task)) u = Ok l u;
  res_admissible : let t := ti_row task in
    admissible (qxtasksessionid t) (qxtaskagentid t) (qxtaskidentityid t)
      (qxtasknamespacepolicyid t) (qxtaskbudgettokens t) (qxtaskbudgetcost t)
      (qxtaskestimatedtokens t) (qxtaskestimatedcost t);
  res_tool : tool_runs E T tk (c_providers (w_vis w)) contract "resume" (qxtaskgoal (ti_row task))
    (is_present (qxtaskinput (ti_row task))) tokens cost;
  res_charges : 0 <= tokens /\ 0 <= cost /\ 0 <= qxtaskconsumedtokens (ti_row task) /\
    0 <= qxtaskconsumedcost (ti_row task);
  res_tokens : let total := qxtaskconsumedtokens (ti_row task) + 8 + tokens + 4 in
    in_int32 total /\ affordable (qxtaskbudgettokens (ti_row task)) total;
  res_cost : let total := qxtaskconsumedcost (ti_row task) + 14 + cost + 11 in
    in_int32 total /\ affordable (qxtaskbudgetcost (ti_row task)) total
}.

(** The view of a task after it has been resumed, from the view before. *)
Definition resumed (task : QxCatalogTaskInfo) (ck : QxCatalogCheckpointInfo) (seqno tokens cost : Z)
    (before v : task_view) : Prop :=
  let next := qxcheckpointnextstepseqno ck in
  exists t a c,
    v_task v = Some t /\ v_attempts v = v_attempts before ++ [a] /\
    v_checkpoints v = v_checkpoints before ++ [c] /\
    qxtaskstate t = QX_TASK_STATE_COMPLETED /\ qxtasklastattemptid t = attempt_oid a /\
    qxtasklastcheckpointid t = checkpoint_oid c /\
    qxtaskconsumedtokens t = qxtaskconsumedtokens (ti_row task) + 8 + tokens + 4 /\
    qxtaskconsumedcost t = qxtaskconsumedcost (ti_row task) + 14 + cost + 11 /\
    qxattemptseqno a = seqno + 1 /\ qxattemptstate a = QX_ATTEMPT_STATE_COMPLETED /\
    qxattemptresumecheckpointid a = checkpoint_oid ck /\
    qxcheckpointattemptid c = attempt_oid a /\ qxcheckpointnextstepseqno c = 0 /\
    qxstepseqno <$> v_steps v = (qxstepseqno <$> v_steps before) ++ [next; next + 1; next + 2] /\
    qxleaseledgerstate <$> v_leases v =
      (qxleaseledgerstate <$> v_leases before) ++
      [QX_SCHEDULER_LEASE_HELD; QX_SCHEDULER_LEASE_RELEASED] /\
    v_events v = v_events before ++ (Some <$> ["TASK_RESUMED"; "TASK_RESUME_DISPATCHED";
      "TASK_TOOL_EXECUTED"; "TASK_CHECKPOINTED"; "TASK_COMPLETED"]) /\
    v_others v = v_others before.

Lemma view_task_oid w t : v_task (view tk w) = Some t -> task_oid t = tk.
Proof. cbn. intros F. apply find_some in F as (_ & F). apply Z.eqb_eq. exact F. Qed.

(** Consumption after the three charges of a resumption. *)
Lemma spent_resume B C a b tokens cost t :
  spent B C a b t -> 0 <= a -> 0 <= b -> 0 <= tokens -> 0 <= cost ->
  in_int32 (a + 8 + tokens + 4) -> in_int32 (b + 14 + cost + 11) ->
  let t1 := charge_row 8 14 t in
  let t2 := charge_row tokens cost t1 in
  spent B C (a + 8) (b + 14) t1 /\ spent B C (a + 8 + tokens) (b + 14 + cost) t2 /\
  spent B C (a + 8 + tokens + 4) (b + 14 + cost + 11) (charge_row 4 11 t2).
Proof.
  intros Hs Ha Hb Ht Hc H1 H2 t1 t2. unfold in_int32 in *.
  assert (spent B C (a + 8) (b + 14) t1) as S1
    by (apply spent_charge; [done|unfold in_int32; lia..]).
  assert (spent B C (a + 8 + tokens) (b + 14 + cost) t2) as S2
    by (apply spent_charge; [done|unfold in_int32; lia..]).
  split_and!; [done|done|]. apply spent_charge; [done|unfold in_int32; lia..].
Qed.

Lemma resumed_view v task ck seqno att q l h s1 s2 s3 arow qrow c l' h' tokens cost :
  let row := ti_row task in
  let next := qxcheckpointnextstepseqno ck in
  let run := set_task_runtime QX_TASK_STATE_RUNNING att true InvalidOid false in
  v_task v = Some row -> Forall (fun a => attempt_oid a < att) (v_attempts v) ->
  spent (qxtaskbudgettokens row) (qxtaskbudgetcost row)
    (qxtaskconsumedtokens row + 8 + tokens + 4) (qxtaskconsumedcost row + 14 + cost + 11)
    (charge_row 4 11 (charge_row tokens cost (charge_row 8 14 (run row)))) ->
  (forall o, qxstepseqno (s1 o) = next) -> (forall o, qxstepseqno (s2 o) = next + 1) ->
  (forall o, qxstepseqno (s3 o) = next + 2) ->
  l_state l = QX_SCHEDULER_LEASE_HELD -> l_state l' = QX_SCHEDULER_LEASE_RELEASED ->
  attempt_oid arow = att -> qxattemptseqno arow = seqno + 1 ->
  qxattemptresumecheckpointid arow = checkpoint_oid ck ->
  let u1 := v_admit E (fun u => u) s1 8 14 "TASK_RESUMED" "TASK_RESUME_DISPATCHED" q l h
       (v_insert_queue qrow (v_update_task run (v_insert_attempt arow v))) in
  let u2 := v_charged_step (s2 (v_next u1)) tokens cost "TASK_TOOL_EXECUTED" u1 in
  let u := v_charged_step (s3 (v_next u2)) 4 11 "TASK_CHECKPOINTED" u2 in
  checkpoint_oid c = v_next u -> qxcheckpointattemptid c = att -> qxcheckpointnextstepseqno c = 0 ->
  resumed task ck seqno tokens cost v
    (v_insert_trace (v_insert_event (Some "TASK_COMPLETED")
       (v_open_lease E q l' h'
          (v_checkpoint c att QX_ATTEMPT_STATE_COMPLETED QX_TASK_STATE_COMPLETED u)))).
Proof.
  intros row next run Hrow Hbelow S E1 E2 E3 El El' Ea Es Er u1 u2 u Ec Eca En.
  apply (spent_runtime _ _ _ _ QX_TASK_STATE_COMPLETED att true (v_next u) true) in S
    as (_ & _ & F1 & F2).
  do 2 eexists. exists c. split_and!.
  - unfold u, u2, u1. vcbn. fold u1 u2 u. rewrite Hrow. vcbn. reflexivity.
  - unfold u, u2, u1. vcbn. rewrite fmap_app. rewrite (update_attempts_below att) by exact Hbelow.
    cbn -[Z.eqb]. rewrite Ea, Z.eqb_refl. reflexivity.
  - unfold u, u2, u1. vcbn. reflexivity.
  - reflexivity.
  - exact (eq_sym Ea).
  - exact (eq_sym Ec).
  - exact F1.
  - exact F2.
  - exact Es.
  - reflexivity.
  - exact Er.
  - rewrite Eca. exact (eq_sym Ea).
  - exact En.
  - unfold u, u2, u1. vcbn. rewrite !fmap_app, <- !app_assoc. cbn -[Z.add]. rewrite E1, E2, E3.
    reflexivity.
  - unfold u, u2, u1. vcbn. rewrite !fmap_app, <- !app_assoc. cbn. rewrite El, El'. reflexivity.
  - unfold u, u2, u1. vcbn. rewrite <- !app_assoc. reflexivity.
  - reflexivity.
Qed.

Lemma wp_resume label ownerid task ck seqno contract tokens cost w0 w (Q : Oid -> world -> Prop) X :
  resumable label ownerid task ck seqno contract tokens cost w0 w ->
  (forall v w', viewed tk 0 v w' -> resumed task ck seqno tokens cost (view tk w) v -> Q tk w') ->
  wp (QxRuntimeResumeTask E T tk label ownerid) Q X w0.
Proof.
  intros [Hcheck Hscan Hroom Hset Hrow [Hla Hseqno] [Hi16 Hatts] [Hn0 Hn16] Hsteps Hcon Htools Hadm
          Hrun (Ht & Hc & Ha & Hb) [Hi1 Hf1] [Hi2 Hf2]] HQ.
  pose proof (view_task_oid w _ Hrow) as Htask. set (v := view tk w) in *.
  assert (viewed tk 20 v w) as Hv by done. rewrite (viewed_providers _ _ _ _ Hv) in Hrun.
  assert (tk <> 0) as Htk.
  { intros Hz. unfold resume_check, bind, gets in Hcheck. rewrite Hz in Hcheck. done. }
  pose proof (viewed_attempts_below _ _ _ _ Hv) as (_ & Hbelow). clearbody v.
  apply wp_bind. eapply wp_ok; [exact Hcheck|]. cbv zeta iota.
  apply OidIsValid_true in Hla. rewrite Hla.
  apply wp_bind, wp_bind. eapply wp_ok; [exact Hseqno|]. apply wp_ret.
  rewrite (proj2 (Z.leb_gt _ _)) by done. rewrite (int16_small (seqno + 1)) by done.
  apply wp_bind. eapply wp_ok; [exact Hscan|].
  apply wp_bind. eapply wp_insert_attempt; [exact Hv|lia|exact Hatts|]. intros w3 Hr3 Ev3.
  apply wp_bind. eapply wp_cci; [exact Hr3|exact Ev3|]. intros w4 Hv4.
  apply wp_bind. eapply wp_update_task; [exact Hv4|exact Hrow|]. intros w5 Hv5.
  apply wp_bind. destruct (Htools w5) as (tools & Etools). eapply wp_ok; [exact Etools|].
  apply wp_bind. eapply wp_ok; [exact (Hcon w5)|].
  set (row0 := ti_row task) in *. set (att := v_next v) in *.
  set (row1 := set_task_runtime QX_TASK_STATE_RUNNING att true InvalidOid false row0) in *.
  match goal with |- context [queue_snapshot_now E ?x] => set (e := x) in * end.
  assert (e_taskoid e = tk) as Het by apply fill_envelope_task.
  assert (QxSchedulerRuntimeContractIsValid (Some e) = true) as Hval
    by (apply fill_envelope_valid; exact Hadm).
  destruct (spent_resume _ _ _ _ tokens cost row1 (conj eq_refl (conj eq_refl (conj eq_refl eq_refl))))
    as (S1 & S2 & S3); [done..|].
  apply wp_bind. eapply wp_queue_snapshot; [exact Hv5|]. intros now w6 Hv6.
  apply wp_bind. eapply wp_enqueue; [exact Hv6|lia|exact Het|]. intros w7 Hv7.
  assert (v_task (v_update_task (set_task_runtime QX_TASK_STATE_RUNNING att true InvalidOid false) v)
          = Some row1) as Hrow1 by (vcbn; rewrite Hrow; done).
  apply wp_bind. eapply wp_resume_dispatch with (row := row1);
    [exact Hv7|lia|exact Htk|exact Htask|exact Hrow1| |exact Hval|exact Het|exact S1|
     unfold affordable in *; cbn in *; lia..|].
  { specialize (Hsteps 0 ltac:(lia)). rewrite Z.add_0_r in Hsteps. exact Hsteps. }
  intros sn sd n1 n2 w8 l Hv8.
  rewrite !int16_small by (unfold in_int16 in *; lia).
  apply wp_bind. eapply wp_tool_step with (row := charge_row 8 14 row1);
    [exact Hv8|lia|exact Htk|vcbn; rewrite Hrow; reflexivity| |exact Hrun| |].
  { vcbn. rewrite existsb_app. rewrite (Hsteps 1) by lia. cbn -[Z.eqb].
    rewrite (proj2 (Z.eqb_neq _ _)) by lia. done. }
  { eapply spent_within; [exact S2|unfold affordable in *; cbn in *; lia..]. }
  intros meta w9 Hv9. apply wp_bind.
  eapply wp_charged_step with (row := charge_row tokens cost (charge_row 8 14 row1));
    [exact Hv9|lia|exact Htk|vcbn; rewrite Hrow; reflexivity| | |].
  { vcbn. rewrite !existsb_app. rewrite (Hsteps 2) by lia. cbn -[Z.eqb].
    rewrite !(proj2 (Z.eqb_neq _ _)) by lia. done. }
  { eapply spent_within; [exact S3|unfold affordable in *; cbn in *; lia..]. }
  intros w10 Hv10. apply wp_bind.
  eapply wp_checkpoint_and_release; [exact Hv10|lia|vcbn; rewrite Hrow; reflexivity| |exact Het|].
  { eexists. split; [vcbn; apply elem_of_app; right; apply list_elem_of_singleton; reflexivity|done]. }
  intros lsn n3 n4 n5 w11 l' Hv11.
  apply wp_bind. eapply wp_insert_event; [exact Hv11|lia|]. intros w12 Hv12.
  apply wp_bind. eapply wp_insert_trace; [exact Hv12|lia|]. intros w13 Hv13.
  apply wp_ret. eapply HQ; [exact Hv13|].
  apply resumed_view; done.
Qed.

End ResumeSpec.
