(* ===== verification/LifecycleProps.v ===== *)
(** * The task lifecycle, verified

    The properties of submit and resume, and of the two in sequence, with
    witnesses that run the handlers on a small database. *)

From Stdlib Require Import Ascii String.
From S2P Require Import Prelude Text Types Scheduler Stat Observe SemanticLog Tables World.
From S2P Require Import Catalog TaskView Recovery Policy Backends ToolExec Envelope.
From S2P Require Import RecoveryHooks Lifecycle LifecycleRules LifecycleSpec.
Open Scope string_scope.
Open Scope Z_scope.
Open Scope bool_scope.
Open Scope list_scope.

Lemma wp_returns {A} (m : M A) Q w :
  wp m Q no_error w -> exists a w', m w = Ok a w' /\ Q a w'.
Proof. unfold wp. destruct (m w) as [a w'|e w']; [eauto|done]. Qed.

(** ** Contracts in the task row *)

Lemma first_or_last_fmap {A B} (f : A -> B) b l :
  first_or_last b (f <$> l) = f <$> first_or_last b l.
Proof. destruct b; simpl; [apply fmap_last|destruct l; done]. Qed.

Lemma parse_list_node l u :
  qx_parse_task_authorized_contracts (list_node l) u = Ok (NString <$> l) u.
Proof. destruct l; done. Qed.

Lemma stored_phase_contract request task prefer u :
  qxtasksubmitcontract (ti_row task) = qx_runtime_request_phase_contract request false ->
  qxtaskresumecontract (ti_row task) = qx_runtime_request_phase_contract request true ->
  qxtaskauthorizedtools (ti_row task) = list_node (tr_authorized_tools request) ->
  qx_runtime_task_phase_contract task prefer u =
  Ok (qx_runtime_request_phase_contract request prefer) u.
Proof.
  intros H1 H2 H3. unfold qx_runtime_task_phase_contract.
  replace (if prefer then _ else _) with (qx_runtime_request_phase_contract request prefer)
    by (destruct prefer; congruence).
  destruct (is_blank (qx_runtime_request_phase_contract request prefer)) eqn:Eb; [|done].
  cbv [negb]. rewrite H3, (bind_run _ _ _ _ _ (parse_list_node _ u)), first_or_last_fmap.
  unfold qx_runtime_request_phase_contract in *.
  destruct (is_blank (if prefer then _ else _)) eqn:Es; cbv [negb] in *.
  - destruct (first_or_last prefer (tr_authorized_tools request)); done.
  - congruence.
Qed.

(** ** The cached scan *)

Lemma scan_cached E owner w0 w w' :
  owner <> 0 -> qx_runtime_ensure_startup_recovery_scan E owner w0 = Ok tt w ->
  w_recovery w' = w_recovery w -> qx_runtime_ensure_startup_recovery_scan E owner w' = Ok tt w'.
Proof.
  intros Ho Hscan Hr. unfold qx_runtime_ensure_startup_recovery_scan in *.
  apply OidIsValid_true in Ho. rewrite Ho in *. unfold bind at 1, gets at 1. rewrite Hr.
  unfold bind at 1, gets at 1 in Hscan.
  destruct (rs_valid (w_recovery w0) && _ && _) eqn:Hc; [injection Hscan as <-; rewrite Hc; done|].
  apply bind_ok in Hscan as (rep & w1 & _ & Hm). injection Hm as <-. simpl.
  rewrite !Z.eqb_refl. done.
Qed.

Lemma find_oid_last {R} `{Table R} o (l : list R) r :
  Forall (fun x => row_oid x < o) l -> row_oid r = o -> find_oid o (l ++ [r]) = Some r.
Proof.
  intros Hl Ho. induction Hl as [|x l Hx _ IH]; unfold find_oid in *; simpl.
  - rewrite Ho, Z.eqb_refl. done.
  - rewrite (proj2 (Z.eqb_neq _ _)) by lia. exact IH.
Qed.

(** ** A small database *)

Definition demo_answer (phase : string) : string :=
  crlf_lines ["STATUS=ok"; "TOKENS=12"; "COST=3"; "TOOL=grep"; "PRINCIPAL=runner";
    "PRINCIPAL_RUNTIME=host"; "PROVIDER=local"; "PROVIDER_KIND=loopback"; "SANDBOX=restricted";
    "PROFILE=restricted"; "ENV=minimal"; "WORKDIR=pg_qx_runtime"; "TIMEOUT_MS=2000";
    "PROCESS_LIMIT=1"; "PATH_PRESENT=false"; "RECEIPT_SCHEMA=qx.receipt.v1";
    "RECEIPT_ALG=hmac-sha256"; cat ["RECEIPT_NONCE="; phase; ":grep:runner"];
    "ATTESTATION=optional"; "RECEIPT_SIG=0102ff"; "DETAIL=matched 4 lines"].

(** A tool runner that answers both phases. *)
Definition demo_runner : ToolEnv :=
  MkToolEnv (fun _ => None) (fun _ => true) (fun _ => true) (fun _ => true) (fun _ => true)
    (fun p => p) "/usr/lib/qx/bin" (Some "/data/pg_qx_runtime")
    (fun suffix _ => cat ["/data/pg_qx_runtime/qx_tool_1."; suffix])
    (fun _ => true) (fun _ _ => [1; 2; 255]) (fun _ _ _ => Some false)
    (fun call => LaunchExited (Some 0) 25
       (Some (demo_answer (if starts_with (lc_request call) "PHASE=resume" then "resume"
                           else "submit")))).

Definition demo_request : QxRuntimeTaskRequest :=
  {| tr_sessionoid := 16400; tr_agentoid := 16391; tr_identityoid := 16392;
     tr_namespace_policy_oid := 16393; tr_ownerid := 10; tr_task_name := Some "report";
     tr_identity_name := Some "ops"; tr_namespace_policy_name := Some "default";
     tr_goal := Some "find it"; tr_input := None; tr_priority := Some "high";
     tr_authorized_tools := [demo_contract]; tr_authorized_tool_oids := [16394];
     tr_submit_contract := None; tr_resume_contract := None;
     tr_budget_tokens := 400; tr_budget_cost := 0; tr_estimated_tokens := 48;
     tr_estimated_cost := 32; tr_authorized_tool_tokens := 12; tr_authorized_tool_cost := 3 |}.

Definition demo_agent : pg_qx_agent :=
  Mk_qx_agent 16391 "analyst" 2200 16393 16392 10 (Some "ops") None None None None None.

Definition demo_database : world :=
  set_recovery (MkRecoverySnapshot true 5 10 (MkReport 5 true false 0 0 0 0 0 0 0 0 0 0 0))
    (set_vis (set_rows [demo_agent] (set_rows [demo_provider] empty_catalog)) (empty_world 20000)).

Lemma demo_runs phase :
  phase = "submit" \/ phase = "resume" ->
  tool_runs demo_env demo_runner 20000 [demo_provider] (Some demo_contract) phase
    (Some "find it") false 12 3.
Proof.
  intros Hphase [vis new next ticks wal stat rec] Hp. simpl in Hp.
  destruct vis. simpl in Hp. subst.
  destruct Hphase as [-> | ->];
    (destruct (qx_execute_tool_contract _ _ _ _ _ _ _ _) as [r w'|e w'] eqn:H;
     vm_compute in H; [|discriminate H]; injection H as <- _; eexists _, _; done).
Qed.

Ltac small := unfold in_int32, in_int16, affordable; vm_compute; intuition (discriminate || congruence).

Lemma demo_submittable spare :
  0 <= spare <= 1000 -> submittable demo_env demo_runner demo_request spare 12 3 demo_database.
Proof.
  intros Hs. split.
  - split; [lia|]. split; [|unfold FirstNormalObjectId; simpl; lia].
    intros o Ho. vm_compute in Ho. repeat (apply elem_of_cons in Ho as [->|Ho]; [done|]).
    inversion Ho.
  - done.
  - repeat split; exact (Forall_nil_2 _).
  - vm_compute. intuition discriminate.
  - eexists. vm_compute. reflexivity.
  - apply demo_runs. auto.
  - lia.
  - small.
  - small.
Qed.

(** ** Properties *)

(** C8. Submitting a task, when there is room for its rows, the request is
    admissible and affordable and the tool runs, returns the new task and
    leaves it paused at its checkpoint: one attempt in state 'k', steps 1 to 5,
    one durable checkpoint that names step 6 as the next, the lease released,
    the charges of all steps and of the tool added up in the task row, and the
    seven events of the lifecycle in order; other tasks are untouched. *)
Theorem submit_reaches_checkpoint E T request spare tokens cost w0 w :
  qx_runtime_ensure_startup_recovery_scan E (tr_ownerid request) w0 = Ok tt w ->
  submittable E T request spare tokens cost w ->
  exists w', QxRuntimeSubmitTask E T request w0 = Ok (w_next_oid w) w' /\
    submitted E (w_next_oid w) request tokens cost (view (w_next_oid w) w)
      (view (w_next_oid w) w').
Proof.
  intros Hscan Hsub.
  destruct (wp_returns (QxRuntimeSubmitTask E T request)
    (fun o w' => o = w_next_oid w /\
       submitted E (w_next_oid w) request tokens cost (view (w_next_oid w) w)
         (view (w_next_oid w) w')) w0) as (o & w' & Ho & -> & Hs).
  { eapply wp_submit; [exact Hscan|exact Hsub|]. intros v w' (_ & _ & <-) Hs. done. }
  eauto.
Qed.

Lemma submit_reaches_checkpoint_witness :
  exists w', QxRuntimeSubmitTask demo_env demo_runner demo_request demo_database = Ok 20000 w' /\
    submitted demo_env 20000 demo_request 12 3 (view 20000 demo_database) (view 20000 w').
Proof.
  apply (submit_reaches_checkpoint demo_env demo_runner demo_request 0 12 3 demo_database
           demo_database); [reflexivity|apply demo_submittable; lia].
Defined.

(** C9. Resuming a checkpointed task, when its checks pass, there is room, the
    stored contract's tool runs and the budget allows it, completes the task:
    a new attempt numbered after the last one and in state 'c', three steps
    from the one the checkpoint names, a final checkpoint, the lease released
    and the charges added; everything the task had before is kept. *)
Theorem resume_completes_task E T tk label ownerid task ck seqno contract tokens cost w0 w :
  resumable E T tk label ownerid task ck seqno contract tokens cost w0 w ->
  exists w', QxRuntimeResumeTask E T tk label ownerid w0 = Ok tk w' /\
    resumed task ck seqno tokens cost (view tk w) (view tk w').
Proof.
  intros Hres.
  destruct (wp_returns (QxRuntimeResumeTask E T tk label ownerid)
    (fun o w' => o = tk /\ resumed task ck seqno tokens cost (view tk w) (view tk w')) w0)
    as (o & w' & Ho & -> & Hs).
  { eapply wp_resume; [exact Hres|]. intros v w' (_ & _ & <-) Hs. done. }
  eauto.
Qed.

(** *** A submitted task can be resumed *)

(** What the second command needs of the owner, the tool and the budget. *)
Definition continues (E : Env) (T : ToolEnv) (request : QxRuntimeTaskRequest)
    (tokens cost tokens' cost' : Z) (w : world) : Prop :=
  tr_ownerid request <> 0 /\ has_privs_of_role E (tr_ownerid request) (tr_ownerid request) = true /\
  tool_runs E T (w_next_oid w) (c_providers (w_vis w))
    (qx_runtime_request_phase_contract request true) "resume" (tr_goal request)
    (is_present (tr_input request)) tokens' cost' /\
  0 <= tokens' /\ 0 <= cost' /\
  (let total := 16 + tokens + capture_tokens (tr_input request) + 4 + 8 + tokens' + 4 in
   in_int32 total /\ affordable (tr_budget_tokens request) total) /\
  (let total := 17 + cost + 13 + 14 + 14 + cost' + 11 in
   in_int32 total /\ affordable (tr_budget_cost request) total).

Lemma all_rows_visible R `{Table R} w : w_new w = empty_catalog -> all_rows R w = rows (w_vis w).
Proof. intros Hw. unfold all_rows. rewrite Hw, rows_empty, app_nil_r. done. Qed.

Lemma viewed_checkpoints_below tk k v w :
  viewed tk k v w -> Forall (fun c => checkpoint_oid c < v_next v) (v_checkpoint_rows v).
Proof.
  intros (Hr & _ & <-). apply Forall_forall. intros c Hc.
  exact (room_row k w pg_qx_checkpoint c Hr Hc).
Qed.

Lemma check_submitted E tk w t c :
  tk <> 0 -> w_new w = empty_catalog ->
  v_task (view tk w) = Some t -> find_oid (checkpoint_oid c) (v_checkpoint_rows (view tk w)) = Some c ->
  has_privs_of_role E (qxtaskowner t) (qxtaskowner t) = true ->
  qxtaskstate t = QX_TASK_STATE_CHECKPOINTED -> qxtasklastcheckpointid t = checkpoint_oid c ->
  checkpoint_oid c <> 0 ->
  resume_check E tk None (qxtaskowner t) w = Ok (qx_catalog_fill_task_info (w_vis w) t, c) w.
Proof.
  intros Htk Hw Ht Hc Hp Hs Hl Hc0. cbn in Ht, Hc. rewrite all_rows_visible in Ht, Hc by done.
  apply OidIsValid_true in Htk, Hc0.
  unfold resume_check, bind, gets, QxCatalogLookupTaskByOid, lookup_by_oid. rewrite Htk. cbn [negb].
  rewrite Ht. cbn [fmap option_fmap option_map ti_row qx_catalog_fill_task_info].
  rewrite Hp, Hs, Hl, Hc0, Ascii.eqb_refl. cbn [negb].
  unfold QxCatalogLookupCheckpointByOid, lookup_by_oid, QxCatalogCheckpointInfo in *.
  rewrite Hc0. cbn [negb]. rewrite Hc. done.
Qed.

Lemma fetch_submitted tk w a :
  w_new w = empty_catalog -> find_oid (attempt_oid a) (v_attempt_rows (view tk w)) = Some a ->
  attempt_oid a <> 0 -> qx_fetch_attempt_seqno (attempt_oid a) w = Ok (qxattemptseqno a) w.
Proof.
  intros Hw Ha H0. cbn in Ha. rewrite all_rows_visible in Ha by done. apply OidIsValid_true in H0.
  unfold qx_fetch_attempt_seqno, bind, gets, QxCatalogLookupAttemptByOid, lookup_by_oid,
    QxCatalogAttemptInfo.
  rewrite H0. cbn [negb]. rewrite Ha. done.
Qed.

Lemma no_step_numbers n v l :
  qxstepseqno <$> v_steps v = l -> n ∉ l -> no_step n v.
Proof.
  intros <- Hn. unfold no_step. apply not_true_iff_false. rewrite existsb_exists.
  intros (s & Hs & E). apply Z.eqb_eq in E. apply Hn. subst n. apply list_elem_of_fmap.
  exists s. split; [done|]. by apply list_elem_of_In.
Qed.

Lemma submitted_resumable E T request spare tokens cost tokens' cost' w0 w w1 :
  let tk := w_next_oid w in
  qx_runtime_ensure_startup_recovery_scan E (tr_ownerid request) w0 = Ok tt w ->
  submittable E T request spare tokens cost w -> continues E T request tokens cost tokens' cost' w ->
  room 20 w1 -> w_new w1 = empty_catalog ->
  submitted E tk request tokens cost (view tk w) (view tk w1) ->
  exists task ck, resumable E T tk None (tr_ownerid request) task ck 1
    (qx_runtime_request_phase_contract request true) tokens' cost' w1 w1 /\
    qxcheckpointnextstepseqno ck = 6 /\
    qxtaskconsumedtokens (ti_row task) = 16 + tokens + capture_tokens (tr_input request) + 4 /\
    qxtaskconsumedcost (ti_row task) = 17 + cost + 13 + 14.
Proof.
  intros tk Hscan Hsub (Ho & Hp & Hrun & Ht' & Hc' & [Hi1 Hf1] & [Hi2 Hf2]) Hroom Hnew
    (t & a & c & Et & Ea & Ec & (ct & cc & Erow) & Est & Ela & Elc & Ect & Ecc & Eseq & _ & _ & Enext &
     Esteps & _ & _ & _ & Earows & Ecrows & Hna & Hnc & Eprov & Erec).
  destruct Hsub as [[Hsp Hr] Hset Hrefs Hadm _ _ [Ht Hc] _ _].
  assert (viewed tk (27 + spare) (view tk w) w) as Hv by done.
  pose proof (viewed_attempts_below _ _ _ _ Hv) as (Hab & _).
  pose proof (viewed_checkpoints_below _ _ _ _ Hv) as Hcb.
  assert (FirstNormalObjectId <= tk) as Hf by apply Hr. unfold FirstNormalObjectId in Hf.
  change (v_next (view tk w)) with tk in *.
  assert (8 <= capture_tokens (tr_input request) <= 24)
    by (unfold capture_tokens; destruct (is_present _); lia).
  assert (find_oid (attempt_oid a) (v_attempt_rows (view tk w1)) = Some a) as Fa.
  { rewrite Earows. apply find_oid_last; [|done]. eapply Forall_impl; [exact Hab|]. cbn. lia. }
  assert (find_oid (checkpoint_oid c) (v_checkpoint_rows (view tk w1)) = Some c) as Fc.
  { rewrite Ecrows. apply find_oid_last; [|done]. eapply Forall_impl; [exact Hcb|]. cbn. lia. }
  assert (qxtaskowner t = tr_ownerid request) as Eow by (rewrite Erow; done).
  exists (qx_catalog_fill_task_info (w_vis w1) t), c. split; [|done]. split; cbn [ti_row qx_catalog_fill_task_info].
  - rewrite <- Eow. apply check_submitted; auto; try lia. rewrite Eow. done.
  - eapply scan_cached; [exact Ho|exact Hscan|exact Erec].
  - done.
  - unfold settled. rewrite Hnew. done.
  - done.
  - rewrite Ela. split; [lia|]. rewrite <- Eseq. apply (fetch_submitted tk); [done|done|lia].
  - split; [unfold in_int16; lia|]. rewrite Ea. cbn. rewrite Eseq. done.
  - rewrite Enext. unfold in_int16. lia.
  - intros i Hi. eapply no_step_numbers; [exact Esteps|]. rewrite Enext, !elem_of_cons, elem_of_nil. lia.
  - intros u. apply stored_phase_contract; rewrite Erow; done.
  - intros u. rewrite Erow. eexists. apply parse_list_node.
  - rewrite Erow. exact Hadm.
  - rewrite (viewed_providers tk 20 (view tk w1) w1), Eprov, <- (viewed_providers _ _ _ _ Hv), Erow;
      [exact Hrun|]. split_and!; [done|unfold settled; rewrite Hnew; done|done].
  - rewrite Ect, Ecc. lia.
  - rewrite Ect. rewrite Erow. split; [exact Hi1|exact Hf1].
  - rewrite Ecc. rewrite Erow. split; [exact Hi2|exact Hf2].
Qed.

(** The first of two commands, with what the second needs. *)
Lemma submit_command E T request spare tokens cost w0 w :
  qx_runtime_ensure_startup_recovery_scan E (tr_ownerid request) w0 = Ok tt w ->
  submittable E T request spare tokens cost w ->
  exists w1, run_command (QxRuntimeSubmitTask E T request) w0 = Ok (w_next_oid w) w1 /\
    room spare w1 /\ w_new w1 = empty_catalog /\
    submitted E (w_next_oid w) request tokens cost (view (w_next_oid w) w) (view (w_next_oid w) w1).
Proof.
  intros Hscan Hsub.
  destruct (wp_returns (QxRuntimeSubmitTask E T request)
    (fun o w' => o = w_next_oid w /\ room spare w' /\
       submitted E (w_next_oid w) request tokens cost (view (w_next_oid w) w)
         (view (w_next_oid w) w')) w0) as (o & w' & Ho & -> & Hr & Hs).
  { eapply wp_submit; [exact Hscan|exact Hsub|]. intros v w' (Hr & _ & <-) Hs. done. }
  exists (cci_world w'). unfold run_command. rewrite Ho.
  destruct (viewed_cci (w_next_oid w) spare w' Hr) as (Hr' & _ & Ev). split_and!; [done..|].
  rewrite Ev. exact Hs.
Qed.

Lemma demo_continues :
  continues demo_env demo_runner demo_request 12 3 12 3 demo_database.
Proof. split_and!; try done; [apply demo_runs; auto|small|small]. Qed.

Lemma resume_completes_task_witness :
  exists w1 task ck w',
    run_command (QxRuntimeSubmitTask demo_env demo_runner demo_request) demo_database =
      Ok 20000 w1 /\
    QxRuntimeResumeTask demo_env demo_runner 20000 None 10 w1 = Ok 20000 w' /\
    resumed task ck 1 12 3 (view 20000 w1) (view 20000 w').
Proof.
  destruct (submit_command demo_env demo_runner demo_request 20 12 3 demo_database demo_database)
    as (w1 & Hrun & Hr & Hn & Hs); [reflexivity|apply demo_submittable; lia|].
  destruct (submitted_resumable demo_env demo_runner demo_request 20 12 3 12 3 demo_database
    demo_database w1) as (task & ck & Hres & _); [reflexivity|apply demo_submittable; lia|
    apply demo_continues|exact Hr|exact Hn|exact Hs|].
  destruct (resume_completes_task _ _ _ _ _ _ _ _ _ _ _ _ _ Hres) as (w' & Hw' & Hend).
  exists w1, task, ck, w'. split_and!; [exact Hrun|exact Hw'|exact Hend].
Defined.

(** C1. From submission to completion: submitting a task and resuming it in a
    later command, with enough room and budget and a tool that runs in both
    phases, carries the task through the states of its lifecycle: it ends
    completed, with attempts 1 and 2, steps 1 to 8, two checkpoints, every
    lease released, the exact sum of all charges and its twelve events in
    order, and no other task is changed. *)
Theorem submit_then_resume E T request tokens cost tokens' cost' w0 w :
  let tk := w_next_oid w in
  qx_runtime_ensure_startup_recovery_scan E (tr_ownerid request) w0 = Ok tt w ->
  submittable E T request 20 tokens cost w ->
  continues E T request tokens cost tokens' cost' w ->
  exists w1 w2 t,
    run_command (QxRuntimeSubmitTask E T request) w0 = Ok tk w1 /\
    run_command (QxRuntimeResumeTask E T tk None (tr_ownerid request)) w1 = Ok tk w2 /\
    let v := view tk w2 in
    v_task v = Some t /\ qxtaskstate t = QX_TASK_STATE_COMPLETED /\
    qxtaskconsumedtokens t = 16 + tokens + capture_tokens (tr_input request) + 4 + 8 + tokens' + 4 /\
    qxtaskconsumedcost t = 17 + cost + 13 + 14 + 14 + cost' + 11 /\
    qxattemptseqno <$> v_attempts v = [1; 2] /\
    qxattemptstate <$> v_attempts v = [QX_ATTEMPT_STATE_CHECKPOINTED; QX_ATTEMPT_STATE_COMPLETED] /\
    qxcheckpointnextstepseqno <$> v_checkpoints v = [6; 0] /\
    qxstepseqno <$> v_steps v = [1; 2; 3; 4; 5; 6; 7; 8] /\
    qxleaseledgerstate <$> v_leases v =
      [QX_SCHEDULER_LEASE_HELD; QX_SCHEDULER_LEASE_RELEASED;
       QX_SCHEDULER_LEASE_HELD; QX_SCHEDULER_LEASE_RELEASED] /\
    v_events v = Some <$> ["TASK_QUEUED"; "TASK_DISPATCHED"; "TASK_TOOLS_AUTHORIZED";
      "TASK_TOOL_EXECUTED"; "TASK_INPUT_CAPTURED"; "TASK_CHECKPOINTED"; "TASK_READY_FOR_RESUME";
      "TASK_RESUMED"; "TASK_RESUME_DISPATCHED"; "TASK_TOOL_EXECUTED"; "TASK_CHECKPOINTED";
      "TASK_COMPLETED"] /\
    v_others v = v_others (view tk w).
Proof.
  intros tk Hscan Hsub Hcont.
  destruct (submit_command E T request 20 tokens cost w0 w Hscan Hsub) as (w1 & Hrun & Hr & Hn & Hs).
  destruct (submitted_resumable E T request 20 tokens cost tokens' cost' w0 w w1 Hscan Hsub Hcont
    Hr Hn Hs) as (task & ck & Hres & Hnext & Htok & Hcost).
  destruct (wp_returns (QxRuntimeResumeTask E T tk None (tr_ownerid request))
    (fun o w' => o = tk /\ room 0 w' /\
       resumed task ck 1 tokens' cost' (view tk w1) (view tk w')) w1) as (o & w' & Ho & -> & Hr' & Hend).
  { eapply wp_resume; [exact Hres|]. intros v w' (Hr' & _ & <-) Hs'. done. }
  exists w1, (cci_world w').
  destruct Hend as (t & a & c & Et & Ea & Ec & Est & _ & _ & Ect & Ecc & Eseq & Eas & _ & _ & Ecn &
                    Esteps & El & Ev & Eo).
  destruct Hs as (t1 & a1 & c1 & _ & Ea1 & Ec1 & _ & _ & _ & _ & _ & _ & Eseq1 & Eas1 & _ & Ecn1 &
                  Esteps1 & El1 & Ev1 & Eo1 & _).
  destruct (viewed_cci tk 0 w' Hr') as (_ & _ & Hview). fold tk in Ea1, Ec1, Esteps1, El1, Ev1, Eo1.
  exists t. cbv zeta. rewrite Hview. unfold run_command at 2. rewrite Ho. split_and!; try done.
  - rewrite Ect, Htok. done.
  - rewrite Ecc, Hcost. done.
  - rewrite Ea, Ea1. cbn. rewrite Eseq, Eseq1. done.
  - rewrite Ea, Ea1. cbn. rewrite Eas, Eas1. done.
  - rewrite Ec, Ec1. cbn. rewrite Ecn, Ecn1. done.
  - rewrite Esteps, Esteps1, Hnext. done.
  - rewrite El, El1. done.
  - rewrite Ev, Ev1. done.
  - rewrite Eo. exact Eo1.
Qed.

Lemma submit_then_resume_witness :
  exists w1 w2 t,
    run_command (QxRuntimeSubmitTask demo_env demo_runner demo_request) demo_database = Ok 20000 w1 /\
    run_command (QxRuntimeResumeTask demo_env demo_runner 20000 None 10) w1 = Ok 20000 w2 /\
    v_task (view 20000 w2) = Some t /\ qxtaskstate t = QX_TASK_STATE_COMPLETED /\
    qxtaskconsumedtokens t = 64.
Proof.
  destruct (submit_then_resume demo_env demo_runner demo_request 12 3 12 3 demo_database demo_database)
    as (w1 & w2 & t & H1 & H2 & H3 & H4 & H5 & _);
    [reflexivity|apply demo_submittable; lia|apply demo_continues|].
  exists w1, w2, t. split_and!; [exact H1|exact H2|exact H3|exact H4|exact H5].
Defined.

(** A contract chosen for a phase when the task is submitted is the one the
    stored task gives back for that phase, whether it was named in the request
    or taken from the list of authorized contracts. *)
Lemma stored_contract_is_requested E request tk c prefer u :
  qx_runtime_task_phase_contract
    (qx_catalog_fill_task_info c (task_row E (qx_runtime_fill_task_insert_params request) tk))
    prefer u =
  Ok (qx_runtime_request_phase_contract request prefer) u.
Proof. apply stored_phase_contract; done. Qed.
