(* ===== verification/ReclaimProps.v ===== *)
(** * Reclaiming, retrying and giving up

    What the background workers do with an attempt whose worker is gone
    ([Supervisor]): its lease is handed back, the task returns to its
    checkpoint or is queued for a retry, the retry runs to a checkpoint of its
    own, and a task out of retries is put aside.  The theorems describe the
    rows each of these leaves, and that what the supervision cycle queues is
    what the retry cycle finds. *)

From Stdlib Require Import Ascii String.
From S2P Require Import Prelude Text Types Scheduler Stat Observe SemanticLog Tables World.
From S2P Require Import Catalog TaskView Recovery Policy Backends ToolExec Envelope.
From S2P Require Import RecoveryHooks Lifecycle Supervisor SupervisorProps LifecycleRules.
From S2P Require Import LifecycleSpec LifecycleProps.
Open Scope string_scope.
Open Scope Z_scope.
Open Scope bool_scope.
Open Scope list_scope.

(** ** The latest row of a ledger *)

Lemma pick_latest_below {R} `{Table R} o (l : list R) best :
  Forall (fun r => row_oid r < o) l -> (forall b, best = Some b -> row_oid b < o) ->
  forall b, fold_left pick_latest l best = Some b -> row_oid b < o.
Proof.
  intros Hl. revert best. induction Hl as [|r l Hr _ IH]; intros best Hb; simpl; [done|].
  apply IH. intros b. unfold pick_latest.
  destruct (_ || _); [by intros [= <-]|apply Hb].
Qed.

(** The row written last is the latest one. *)
Lemma latest_last {R} `{Table R} (l : list R) r :
  Forall (fun x => row_oid x < row_oid r) l -> latest (l ++ [r]) = Some r.
Proof.
  intros Hl. unfold latest. rewrite fold_left_app. simpl.
  destruct (fold_left pick_latest l None) as [b|] eqn:Hf; unfold pick_latest; [|done].
  rewrite (proj2 (Z.ltb_lt _ _)); [by rewrite orb_true_r|].
  eapply (pick_latest_below _ l None); [exact Hl|done|exact Hf].
Qed.

Lemma latest_filter_last {R} `{Table R} (p : R -> bool) (l : list R) r :
  Forall (fun x => row_oid x < row_oid r) l -> p r = true ->
  latest (List.filter p (l ++ [r])) = Some r.
Proof.
  intros Hl Hp. rewrite List.filter_app. simpl. rewrite Hp. apply latest_last.
  rewrite Forall_forall in *. intros x Hx. apply Hl.
  apply list_elem_of_In, filter_In in Hx as (Hx & _). by apply list_elem_of_In.
Qed.

(** ** Reclaiming *)

Section Reclaim.
Context (E : Env) (bgw_name : cstr) (tk : Oid).

Lemma keeps_fence o : keeps (supervisor_fence_stale E o).
Proof. apply (keeps_set_stat (fun w => _ (w_stat w))). Qed.

(** The queue entry a reclaimed attempt gets: for recovery from the task's
    checkpoint, or for a retry after a delay. *)
Definition requeued (task : QxCatalogTaskInfo) (attempt : QxCatalogAttemptInfo)
    (lease : QxSchedulerLeaseSnapshot) (q : QxSchedulerQueueSnapshot) : Prop :=
  let t := ti_row task in
  q_taskoid q = task_oid t /\ q_attemptoid q = attempt_oid attempt /\ q_ownerid q = qxtaskowner t /\
  q_runnable_count q = 1 /\ q_blocked_count q = 0 /\
  if OidIsValid (qxtasklastcheckpointid t) then
    q_queue_kind q = QX_SCHEDULER_QUEUE_RECOVERY /\ q_retry_count q = Z.max (qxattemptseqno attempt) 0
  else
    q_queue_kind q = QX_SCHEDULER_QUEUE_RETRY /\ q_retry_count q = Z.max (qxattemptseqno attempt) 1 /\
    q_eligible_at q = int64 (q_enqueued_at q + USECS_PER_MSEC *
      qx_runtime_retry_backoff_ms (q_priority q) (Z.max (qxattemptseqno attempt) 1)
        (qx_runtime_lease_ttl_ms lease) (task_oid t)).

(** A fresh entry of the task's attempt. *)
Definition fresh_entry (task : QxCatalogTaskInfo) (a : Oid) (q : QxSchedulerQueueSnapshot) : Prop :=
  q_taskoid q = task_oid (ti_row task) /\ q_attemptoid q = a /\
  q_ownerid q = qxtaskowner (ti_row task) /\ q_runnable_count q = 1 /\ q_blocked_count q = 0.

Lemma fresh_recovery_entry now task a n cl rl b1 b2 b3 contract :
  fresh_entry task a (queue_snapshot_of now
    (qx_runtime_fill_recovery_scheduler_envelope task a n cl rl b1 b2 b3 contract)).
Proof. destruct contract; done. Qed.

Lemma requeued_recovery task attempt lease q :
  OidIsValid (qxtasklastcheckpointid (ti_row task)) = true ->
  fresh_entry task (attempt_oid attempt) q ->
  requeued task attempt lease
    (set_queue_kind QX_SCHEDULER_QUEUE_RECOVERY (Z.max (qxattemptseqno attempt) 0) q).
Proof. intros Ho (F1 & F2 & F3 & F4 & F5). unfold requeued. rewrite Ho. done. Qed.

Lemma requeued_retry task attempt lease q at_ :
  OidIsValid (qxtasklastcheckpointid (ti_row task)) = false ->
  fresh_entry task (attempt_oid attempt) q ->
  at_ = int64 (q_enqueued_at q +
    qx_runtime_retry_backoff_ms (q_priority q) (Z.max (qxattemptseqno attempt) 1)
      (qx_runtime_lease_ttl_ms lease) (task_oid (ti_row task)) * USECS_PER_MSEC) ->
  requeued task attempt lease (set_queue_eligible at_
    (set_queue_kind QX_SCHEDULER_QUEUE_RETRY (Z.max (qxattemptseqno attempt) 1) q)).
Proof.
  intros Ho (F1 & F2 & F3 & F4 & F5) Hat. unfold requeued. rewrite Ho. split_and!; try done.
  rewrite (Z.mul_comm USECS_PER_MSEC). exact Hat.
Qed.

Lemma wp_reclaim_requeue k v task attempt lease (Q : Oid -> world -> Prop) X w :
  viewed tk k v w -> 0 < k -> task_oid (ti_row task) = tk ->
  (forall prefer u, exists c, qx_runtime_recovery_selected_contract task prefer u = Ok c u) ->
  (forall q w', requeued task attempt lease q ->
     viewed tk (k - 1) (v_insert_queue (queue_ledger_row E q (v_next v)) v) w' -> Q (v_next v) w') ->
  wp (reclaim_requeue E task attempt lease) Q X w.
Proof.
  intros Hv Hk Ht Hc HQ. unfold reclaim_requeue.
  destruct (OidIsValid (qxtasklastcheckpointid (ti_row task))) eqn:Ho.
  - apply wp_bind, wp_gets. apply wp_bind. destruct (Hc true w) as (c & Ec).
    eapply wp_ok; [exact Ec|]. apply wp_bind. eapply wp_queue_snapshot; [exact Hv|].
    intros now w1 Hv1.
    match goal with |- context [queue_snapshot_of now (qx_runtime_fill_recovery_scheduler_envelope
      task ?a ?n ?cl ?rl ?b1 ?b2 ?b3 c)] =>
      pose proof (fresh_recovery_entry now task a n cl rl b1 b2 b3 c) as F end.
    set (q := queue_snapshot_of now _) in *. clearbody q.
    eapply wp_enqueue; [exact Hv1|lia|rewrite <- Ht; apply F|]. intros w2 Hv2.
    eapply HQ; [apply requeued_recovery; [exact Ho|exact F]|exact Hv2].
  - apply wp_bind. destruct (Hc false w) as (c & Ec).
    eapply wp_ok; [exact Ec|]. apply wp_bind. eapply wp_queue_snapshot; [exact Hv|].
    intros now w1 Hv1.
    match goal with |- context [queue_snapshot_of now (qx_runtime_fill_recovery_scheduler_envelope
      task ?a ?n ?cl ?rl ?b1 ?b2 ?b3 c)] =>
      pose proof (fresh_recovery_entry now task a n cl rl b1 b2 b3 c) as F end.
    set (q := queue_snapshot_of now _) in *. clearbody q.
    eapply wp_enqueue; [exact Hv1|lia|rewrite <- Ht; apply F|]. intros w2 Hv2.
    eapply HQ; [apply requeued_retry; [exact Ho|exact F|reflexivity]|exact Hv2].
Qed.

(** The view after a reclaim: the new queue entry, the states of attempt and
    task, the lease handed back and its missed heartbeat. *)
Definition v_reclaim (task : QxCatalogTaskInfo) (attempt : QxCatalogAttemptInfo)
    (q : QxSchedulerQueueSnapshot) (l : QxSchedulerLeaseSnapshot) (h : QxSchedulerHeartbeatSnapshot)
    (v : task_view) : task_view :=
  let ck := qxtasklastcheckpointid (ti_row task) in
  let a := attempt_oid attempt in
  let ast := if OidIsValid ck then QX_ATTEMPT_STATE_CHECKPOINTED else QX_ATTEMPT_STATE_FAILED in
  let tst := if OidIsValid ck then QX_TASK_STATE_CHECKPOINTED else QX_TASK_STATE_QUEUED in
  v_open_lease E (v_next v) l h
    (v_update_task (set_task_runtime tst a true (if OidIsValid ck then ck else InvalidOid) true)
       (v_update_attempt a (set_attempt_state ast)
          (v_insert_queue (queue_ledger_row E q (v_next v)) v))).

Lemma wp_reclaim_states k v row task attempt (Q : unit -> world -> Prop) X w :
  viewed tk k v w -> task_oid (ti_row task) = tk -> v_task v = Some row ->
  has_attempt (attempt_oid attempt) v ->
  let ck := qxtasklastcheckpointid (ti_row task) in
  let a := attempt_oid attempt in
  (forall w', viewed tk k
     (v_update_task (set_task_runtime
          (if OidIsValid ck then QX_TASK_STATE_CHECKPOINTED else QX_TASK_STATE_QUEUED) a true
          (if OidIsValid ck then ck else InvalidOid) true)
       (v_update_attempt a (set_attempt_state
          (if OidIsValid ck then QX_ATTEMPT_STATE_CHECKPOINTED else QX_ATTEMPT_STATE_FAILED)) v)) w' ->
     Q tt w') ->
  wp (if OidIsValid ck then
        QxCatalogUpdateAttemptState a QX_ATTEMPT_STATE_CHECKPOINTED ;;;
        QxCatalogUpdateTaskRuntime (task_oid (ti_row task)) QX_TASK_STATE_CHECKPOINTED a true ck true
      else
        QxCatalogUpdateAttemptState a QX_ATTEMPT_STATE_FAILED ;;;
        QxCatalogUpdateTaskRuntime (task_oid (ti_row task)) QX_TASK_STATE_QUEUED a true InvalidOid true)
    Q X w.
Proof.
  intros Hv Ht Hrow Ha ck a HQ. rewrite Ht.
  destruct (OidIsValid ck); apply wp_bind; (eapply wp_update_attempt; [exact Hv|exact Ha|]);
    intros w1 Hv1; (eapply wp_update_task; [exact Hv1|exact Hrow|]); exact HQ.
Qed.

Lemma wp_reclaim k v row task attempt lease stats
    (Q : bool * QxRuntimeSchedulerCycleStats -> world -> Prop) X w :
  viewed tk k v w -> 2 < k -> task_oid (ti_row task) = tk -> v_task v = Some row ->
  has_attempt (attempt_oid attempt) v -> l_taskoid lease = tk ->
  (forall prefer u, exists c, qx_runtime_recovery_selected_contract task prefer u = Ok c u) ->
  (forall q l h w',
     requeued task attempt lease q ->
     l_state l = QX_SCHEDULER_LEASE_RECLAIMED -> l_taskoid l = tk ->
     l_attemptoid l = l_attemptoid lease -> h_state h = QX_SCHEDULER_HEARTBEAT_MISSED ->
     viewed tk (k - 3) (v_reclaim task attempt q l h v) w' ->
     Q (OidIsValid (qxtasklastcheckpointid (ti_row task)),
        count_cycle [CY_recovery_requeued; CY_leases_repaired; CY_leases_reclaimed;
                     CY_heartbeats_written] 1 stats) w') ->
  wp (qx_runtime_reclaim_running_attempt E bgw_name task attempt lease stats) Q X w.
Proof.
  intros Hv Hk Ht Hrow Ha Hl Hc HQ. unfold qx_runtime_reclaim_running_attempt.
  apply wp_bind. eapply wp_reclaim_requeue; [exact Hv|lia|exact Ht|exact Hc|]. intros q w1 Hq Hv1.
  apply wp_bind. eapply wp_reclaim_states; [exact Hv1|exact Ht|exact Hrow|exact Ha|]. intros w2 Hv2.
  apply wp_bind. destruct Hv2 as (Hr2 & _ & Ev2). eapply wp_cci; [exact Hr2|exact Ev2|]. intros w3 Hv3.
  apply wp_bind. eapply wp_release_lease; [exact Hv3|]. intros now w4 Hv4.
  set (l := if String.eqb _ _ then _ else _).
  assert (l_taskoid l = tk /\ l_state l = QX_SCHEDULER_LEASE_RECLAIMED /\
          l_attemptoid l = l_attemptoid lease) as (L1 & L2 & L3)
    by (subst l; destruct (String.eqb _ _); done).
  clearbody l. apply wp_bind. eapply wp_insert_lease; [exact Hv4|lia|exact L1|]. intros w5 Hv5.
  apply wp_bind. eapply wp_finalize_heartbeat; [exact Hv5|]. intros n1 n2 w6 Hv6.
  set (h := finalize_heartbeat_of n1 n2 l _). assert (h_taskoid h = tk) as Hh by done. clearbody h.
  apply wp_bind. eapply wp_insert_heartbeat; [exact Hv6|lia|exact Hh|]. intros w7 Hv7.
  apply wp_bind. destruct Hv7 as (Hr7 & _ & Ev7). eapply wp_cci; [exact Hr7|exact Ev7|]. intros w8 Hv8.
  apply wp_bind. eapply wp_keeps; [apply keeps_report_scheduler|exact Hv8| |done]. intros [] w9 _ Hv9.
  apply wp_bind. eapply wp_keeps; [apply keeps_fence|exact Hv9| |done]. intros [] w10 _ Hv10.
  apply wp_ret. eapply (HQ q l (set_heartbeat_missed _ h) w10 Hq L2 L1 L3 eq_refl).
  replace (k - 3) with (k - 1 - 1 - 1) by lia. exact Hv10.
Qed.

End Reclaim.

(** ** From the supervision cycle to the retry cycle *)

Section HandOver.
Context (E : Env) (bgw_name : cstr) (tk : Oid).

(** A running attempt of the task, as a transaction of the worker finds it. *)
Record reclaimable (task : QxCatalogTaskInfo) (attempt : QxCatalogAttemptInfo)
    (lease : QxSchedulerLeaseSnapshot) (w : world) : Prop := {
  rec_room : room 3 w;
  rec_new : w_new w = empty_catalog;
  rec_oid : tk <> 0;
  rec_task : QxCatalogLookupTaskByOid (w_vis w) tk = Some task;
  rec_attempt : attempt_oid attempt <> 0 /\ qxattempttaskid attempt = tk /\
    QxCatalogLookupAttemptByOid (w_vis w) (attempt_oid attempt) = Some attempt;
  rec_lease : l_taskoid lease = tk;
  rec_contract : forall prefer u, exists c,
    qx_runtime_recovery_selected_contract task prefer u = Ok c u
}.

Lemma reclaimable_view task attempt lease w :
  reclaimable task attempt lease w ->
  viewed tk 3 (view tk w) w /\ v_task (view tk w) = Some (ti_row task) /\
  task_oid (ti_row task) = tk /\ has_attempt (attempt_oid attempt) (view tk w) /\
  find_oid (attempt_oid attempt) (v_attempt_rows (view tk w)) = Some attempt.
Proof.
  intros [Hr Hn Htk Ht (Ha0 & Hat & Ha) Hl _]. apply OidIsValid_true in Htk, Ha0.
  unfold QxCatalogLookupTaskByOid, QxCatalogLookupAttemptByOid, lookup_by_oid, QxCatalogAttemptInfo in *.
  rewrite Htk in Ht. rewrite Ha0 in Ha. cbn [negb] in *.
  destruct (find_oid tk (rows (w_vis w))) as [row|] eqn:Ft; [|done]. injection Ht as <-.
  assert (settled w) as Hs by (unfold settled; rewrite Hn; done).
  pose proof (find_oid_row _ _ _ Ft) as (_ & Ho). pose proof (find_oid_row _ _ _ Ha) as (Hin & _).
  split; [split; [exact Hr|split; [exact Hs|reflexivity]]|]. split; [|split; [|split]].
  - cbn. rewrite all_rows_visible by done. exact Ft.
  - exact Ho.
  - exists attempt. split; [|done]. cbn. rewrite all_rows_visible by done. apply list_elem_of_In, filter_In.
    split; [by apply list_elem_of_In|]. apply Z.eqb_eq. exact Hat.
  - cbn. rewrite all_rows_visible by done. exact Ha.
Qed.

Lemma reclaim_command task attempt lease stats w :
  reclaimable task attempt lease w ->
  exists q l h stats' w',
    run_command (qx_runtime_reclaim_running_attempt E bgw_name task attempt lease stats) w =
      Ok (OidIsValid (qxtasklastcheckpointid (ti_row task)), stats') w' /\
    w_new w' = empty_catalog /\ requeued task attempt lease q /\
    l_state l = QX_SCHEDULER_LEASE_RECLAIMED /\ l_attemptoid l = l_attemptoid lease /\
    h_state h = QX_SCHEDULER_HEARTBEAT_MISSED /\
    view tk w' = v_reclaim E task attempt q l h (view tk w).
Proof.
  intros Hr. pose proof (reclaimable_view _ _ _ _ Hr) as (Hv & Hrow & Ho & Hatt & _).
  destruct Hr as [_ _ _ _ _ Hl Hc].
  destruct (wp_returns (qx_runtime_reclaim_running_attempt E bgw_name task attempt lease stats)
    (fun r w' => exists q l h stats',
       r = (OidIsValid (qxtasklastcheckpointid (ti_row task)), stats') /\
       room 0 w' /\ requeued task attempt lease q /\ l_state l = QX_SCHEDULER_LEASE_RECLAIMED /\
       l_attemptoid l = l_attemptoid lease /\ h_state h = QX_SCHEDULER_HEARTBEAT_MISSED /\
       view tk w' = v_reclaim E task attempt q l h (view tk w)) w)
    as (r & w' & Hrun & q & l & h & stats' & -> & Hroom & H1 & H2 & H3 & H4 & H5).
  - eapply wp_reclaim; [exact Hv|lia|exact Ho|exact Hrow|exact Hatt|exact Hl|exact Hc|].
    intros q l h w' H1 H2 _ H3 H4 (Hr' & _ & Ev). eexists q, l, h, _. done.
  - exists q, l, h, stats', (cci_world w'). unfold run_command. rewrite Hrun.
    destruct (viewed_cci tk 0 w' Hroom) as (_ & _ & Ev). rewrite Ev. done.
Qed.

Lemma latest_queue_of_task w q o a db :
  w_new w = empty_catalog ->
  v_queues (view tk w) = o ++ [q] -> Forall (fun r => queue_row_oid r < queue_row_oid q) o ->
  queue_row_matches db InvalidOid tk a q = true ->
  QxCatalogLookupLatestSchedulerQueue (w_vis w) db InvalidOid tk a =
    Some (qx_catalog_copy_scheduler_queue_snapshot q).
Proof.
  intros Hn Hv Hlt Hm. unfold QxCatalogLookupLatestSchedulerQueue. cbn in Hv.
  rewrite all_rows_visible in Hv by done. cbn in Hv.
  replace (List.filter (queue_row_matches db InvalidOid tk a) (c_queues (w_vis w)))
    with (List.filter (queue_row_matches db InvalidOid tk a) (o ++ [q])).
  - rewrite (latest_filter_last _ o q); [done|exact Hlt|exact Hm].
  - rewrite <- Hv. clear Hv. unfold of_task. induction (c_queues (w_vis w)) as [|r l IH]; simpl; [done|].
    destruct (qxqueueledgertaskid r =? tk) eqn:Er; simpl; rewrite IH; [done|].
    destruct (queue_row_matches db InvalidOid tk a r) eqn:Em; [|done].
    unfold queue_row_matches in Em. rewrite Er, orb_true_r in Em. done.
Qed.

Lemma viewed_queues_below k v w :
  viewed tk k v w -> Forall (fun r => queue_row_oid r < v_next v) (v_queues v).
Proof.
  intros (Hr & _ & <-). apply Forall_forall. intros r Hin. cbn in Hin.
  apply list_elem_of_In, filter_In in Hin as (Hin & _). apply list_elem_of_In in Hin.
  exact (room_row k w pg_qx_scheduler_queue r Hr Hin).
Qed.

Lemma find_attempt_update a (f : pg_qx_attempt -> pg_qx_attempt) l :
  (forall r, attempt_oid (f r) = attempt_oid r) ->
  find_oid a ((fun r => if attempt_oid r =? a then f r else r) <$> l) = f <$> find_oid a l.
Proof. exact (find_oid_update a f l). Qed.

(** After a reclaim without a checkpoint, the retry cycle finds the task as
    soon as its delay is over. *)
Lemma reclaimed_ready task attempt lease q l h w w' slot count now :
  reclaimable task attempt lease w -> qxtasklastcheckpointid (ti_row task) = 0 ->
  requeued task attempt lease q -> w_new w' = empty_catalog ->
  view tk w' = v_reclaim E task attempt q l h (view tk w) ->
  qx_runtime_scheduler_worker_owns_task tk slot count = true -> q_eligible_at q <= now ->
  let row := set_task_runtime QX_TASK_STATE_QUEUED (attempt_oid attempt) true 0 true (ti_row task) in
  QxCatalogLookupTaskByOid (w_vis w') tk = Some (qx_catalog_fill_task_info (w_vis w') row) /\
  retry_ready E (w_vis w') slot count now (qx_catalog_fill_task_info (w_vis w') row) =
    Some (MkCandidate (qx_catalog_fill_task_info (w_vis w') row)
            (set_attempt_state QX_ATTEMPT_STATE_FAILED attempt)
            (qx_catalog_copy_scheduler_queue_snapshot (queue_ledger_row E q (w_next_oid w)))).
Proof.
  intros Hrec Hck Hq Hn Ev Hown Hel row. unfold requeued in Hq. rewrite Hck in Hq. cbn -[int64] in Hq.
  destruct Hq as (Q1 & Q2 & _ & Q4 & Q5 & Q6 & _).
  pose proof (reclaimable_view _ _ _ _ Hrec) as (Hv & Hrow & Ho & _ & Hfa).
  destruct Hrec as [_ _ Htk _ (Ha0 & _) _ _].
  assert (v_task (view tk w') = Some row) as Hrow'
    by (rewrite Ev; unfold v_reclaim; rewrite Hck; vcbn; rewrite Hrow; reflexivity).
  assert (find_oid (attempt_oid attempt) (v_attempt_rows (view tk w')) =
    Some (set_attempt_state QX_ATTEMPT_STATE_FAILED attempt)) as Hfa'.
  { rewrite Ev. unfold v_reclaim. rewrite Hck. vcbn. change (OidIsValid 0) with false. cbv iota.
    rewrite find_attempt_update by done. rewrite Hfa. done. }
  assert (QxCatalogLookupLatestSchedulerQueue (w_vis w') (MyDatabaseId E) InvalidOid tk
    (attempt_oid attempt) =
    Some (qx_catalog_copy_scheduler_queue_snapshot (queue_ledger_row E q (w_next_oid w)))) as Hlq.
  { eapply latest_queue_of_task; [exact Hn|rewrite Ev; unfold v_reclaim; vcbn; reflexivity| |].
    - exact (viewed_queues_below _ _ _ Hv).
    - unfold queue_row_matches. cbn -[Z.eqb]. rewrite Q1, Q2, Ho, !Z.eqb_refl. done. }
  cbn in Hrow', Hfa'. rewrite all_rows_visible in Hrow', Hfa' by done.
  apply OidIsValid_true in Htk, Ha0. split.
  - unfold QxCatalogLookupTaskByOid, lookup_by_oid. rewrite Htk. cbn [negb]. rewrite Hrow'. done.
  - unfold retry_ready, QxCatalogLookupAttemptByOid, lookup_by_oid, QxCatalogAttemptInfo.
    cbn [qx_catalog_fill_task_info ti_row row set_task_runtime qxtaskstate qxtasklastattemptid
         qxtasklastcheckpointid task_oid].
    rewrite Ha0, Ho, Hown, Ascii.eqb_refl. cbn [negb orb OidIsValid Z.eqb].
    rewrite Hfa'. cbn [set_attempt_state qxattemptstate attempt_oid]. rewrite Ascii.eqb_refl, Hlq.
    cbn [negb qx_catalog_copy_scheduler_queue_snapshot queue_ledger_row q_queue_kind q_runnable_count
         q_blocked_count q_eligible_at qxqueueledgerkind qxqueueledgerrunnablecount
         qxqueueledgerblockedcount qxqueueledgereligibleat].
    rewrite Q4, Q5, Q6, (proj2 (Z.leb_le _ _) Hel). done.
Qed.

(** C12. Reclaiming the attempt of a lost worker succeeds and hands the task
    over: the lease is marked reclaimed, the attempt is queued again under its
    own number of retries, and nothing else of the task or of other tasks
    changes.  A task with a checkpoint returns to it, ready to be resumed; one
    without is queued with its attempt failed, and the retry cycle of the slot
    that owns it finds exactly this entry once its delay is over. *)
Theorem reclaim_hands_over task attempt lease stats w :
  reclaimable task attempt lease w ->
  exists q stats' w',
    let ck := qxtasklastcheckpointid (ti_row task) in
    let a := attempt_oid attempt in
    let v := view tk w in
    let v' := view tk w' in
    run_command (qx_runtime_reclaim_running_attempt E bgw_name task attempt lease stats) w =
      Ok (OidIsValid ck, stats') w' /\
    requeued task attempt lease q /\ v_queues v' = v_queues v ++ [queue_ledger_row E q (v_next v)] /\
    qxleaseledgerstate <$> v_leases v' =
      (qxleaseledgerstate <$> v_leases v) ++ [QX_SCHEDULER_LEASE_RECLAIMED] /\
    v_steps v' = v_steps v /\ v_checkpoints v' = v_checkpoints v /\ v_events v' = v_events v /\
    v_others v' = v_others v /\
    (ck <> 0 ->
       v_task v' = Some (set_task_runtime QX_TASK_STATE_CHECKPOINTED a true ck true (ti_row task)) /\
       find_oid a (v_attempt_rows v') = Some (set_attempt_state QX_ATTEMPT_STATE_CHECKPOINTED attempt)) /\
    (ck = 0 ->
       let task' := qx_catalog_fill_task_info (w_vis w')
         (set_task_runtime QX_TASK_STATE_QUEUED a true 0 true (ti_row task)) in
       QxCatalogLookupTaskByOid (w_vis w') tk = Some task' /\
       forall slot count now,
         qx_runtime_scheduler_worker_owns_task tk slot count = true -> q_eligible_at q <= now ->
         retry_ready E (w_vis w') slot count now task' =
           Some (MkCandidate task' (set_attempt_state QX_ATTEMPT_STATE_FAILED attempt)
             (qx_catalog_copy_scheduler_queue_snapshot (queue_ledger_row E q (v_next v))))).
Proof.
  intros Hrec. pose proof (reclaimable_view _ _ _ _ Hrec) as (_ & Hrow & Ho & _ & Hfa).
  destruct (reclaim_command task attempt lease stats w Hrec)
    as (q & l & h & stats' & w' & Hrun & Hn & Hq & Hl & _ & _ & Ev).
  exists q, stats', w'. intros ck a v v'. unfold v'. split; [exact Hrun|]. split; [exact Hq|].
  split; [rewrite Ev; unfold v_reclaim; vcbn; reflexivity|].
  split; [rewrite Ev; unfold v_reclaim; vcbn; rewrite fmap_app; cbn; rewrite Hl; reflexivity|].
  do 4 (split; [rewrite Ev; reflexivity|]). split.
  - intros Hck. apply OidIsValid_true in Hck. rewrite Ev. unfold v_reclaim. fold ck. rewrite Hck. vcbn.
    split; [rewrite Hrow; reflexivity|]. fold a. rewrite find_attempt_update by done.
    unfold a. rewrite Hfa. reflexivity.
  - intros Hck. split.
    + apply (reclaimed_ready task attempt lease q l h w w' 0 1 (q_eligible_at q)); done.
    + intros slot count now Hown Hel.
      apply (reclaimed_ready task attempt lease q l h w w' slot count now); done.
Qed.

End HandOver.

(** ** A task in a small database *)

Definition demo_task (state : ascii) : pg_qx_task :=
  Mk_qx_task 20000 5 16400 16391 16393 16392 10 20001 0 400 0 12 3 48 32 16 17 state (Some "report")
    (Some "find it") None (Some "high") None (Some demo_contract) (Some demo_contract).
Definition demo_attempt (state : ascii) : pg_qx_attempt :=
  Mk_qx_attempt 20001 5 16400 20000 10 0 1 state (Some "initial").
Definition demo_step : pg_qx_step :=
  Mk_qx_step 20002 5 16400 20000 1 QX_STEP_STATE_COMPLETED (Some "stage8.scheduler_admit") None.

Definition demo_world (task_state attempt_state : ascii) : world :=
  set_next_oid 20010 (set_vis (set_rows [demo_task task_state] (set_rows [demo_attempt attempt_state]
    (set_rows [demo_step] (w_vis demo_database)))) demo_database).

Definition demo_info (state : ascii) : QxCatalogTaskInfo :=
  qx_catalog_fill_task_info (w_vis demo_database) (demo_task state).

Lemma demo_room k st ast : 0 <= k <= 1000 -> room k (demo_world st ast).
Proof.
  intros Hk. split; [|unfold FirstNormalObjectId; simpl; lia].
  intros o Ho. vm_compute in Ho. repeat (apply elem_of_cons in Ho as [->|Ho]; [done|]). inversion Ho.
Qed.

Lemma reclaim_hands_over_witness :
  let w := demo_world QX_TASK_STATE_RUNNING QX_ATTEMPT_STATE_RUNNING in
  let lease := lease_snapshot_of 0 (qx_runtime_fill_recovery_scheduler_envelope
    (demo_info QX_TASK_STATE_RUNNING) 20001 0 None None false true false (Some demo_contract))
    InvalidOid (Some "w") in
  exists q stats' w',
    run_command (qx_runtime_reclaim_running_attempt demo_env None (demo_info QX_TASK_STATE_RUNNING)
      (demo_attempt QX_ATTEMPT_STATE_RUNNING) lease zero_cycle_stats) w = Ok (false, stats') w' /\
    requeued (demo_info QX_TASK_STATE_RUNNING) (demo_attempt QX_ATTEMPT_STATE_RUNNING) lease q.
Proof.
  intros w lease.
  destruct (reclaim_hands_over demo_env None 20000 (demo_info QX_TASK_STATE_RUNNING)
    (demo_attempt QX_ATTEMPT_STATE_RUNNING) lease zero_cycle_stats w)
    as (q & stats' & w' & H1 & H2 & _).
  - split; [apply demo_room; lia|reflexivity|lia|reflexivity| |reflexivity|].
    + split; [|split; reflexivity]. simpl. lia.
    + intros prefer u. destruct prefer; by eexists.
  - exists q, stats', w'. split; [exact H1|exact H2].
Defined.
