(* ===== verification/RetryProps.v ===== *)
(** * The retry of a failed attempt

    [qx_runtime_dispatch_retry_task] and [qx_runtime_dead_letter_retry_task]
    ([Supervisor]): a retry runs the task's stored contract in a new attempt,
    with steps numbered after all steps the task has, and ends at a checkpoint
    as a submission does; a task that has used up its retries is put aside as
    failed. *)

From Stdlib Require Import Ascii String.
From S2P Require Import Prelude Text Types Scheduler Stat Observe SemanticLog Tables World.
From S2P Require Import Catalog TaskView Recovery Policy Backends ToolExec Envelope.
From S2P Require Import RecoveryHooks Lifecycle Supervisor SupervisorProps LifecycleRules.
From S2P Require Import LifecycleSpec LifecycleProps ReclaimProps.
Open Scope string_scope.
Open Scope Z_scope.
Open Scope bool_scope.
Open Scope list_scope.

(** ** Step numbers *)

Definition step_max (p : pg_qx_step -> bool) (l : list pg_qx_step) (m : Z) : Z :=
  fold_left (fun m s => if p s then m else if m <? qxstepseqno s then qxstepseqno s else m) l m.

Lemma step_max_spec p l m0 :
  m0 <= step_max p l m0 /\
  (forall s, s ∈ l -> p s = false -> qxstepseqno s <= step_max p l m0) /\
  (step_max p l m0 = m0 \/ exists s, s ∈ l /\ p s = false /\ qxstepseqno s = step_max p l m0).
Proof.
  revert m0. induction l as [|s l IH]; intros m0.
  { split; [simpl; lia|]. split; [intros s Hs; inversion Hs|by left]. }
  unfold step_max. simpl. fold (step_max p l (if p s then m0 else
    if m0 <? qxstepseqno s then qxstepseqno s else m0)).
  destruct (p s) eqn:Hp; [|destruct (Z.ltb_spec m0 (qxstepseqno s))].
  - destruct (IH m0) as (H1 & H2 & H3). split; [done|]. split.
    + intros r [->|Hr]%elem_of_cons Hpr; [congruence|auto].
    + destruct H3 as [->|(r & ? & ?)]; [by left|right; exists r; split; [by right|done]].
  - destruct (IH (qxstepseqno s)) as (H1 & H2 & H3). split; [lia|]. split.
    + intros r [->|Hr]%elem_of_cons Hpr; [done|auto].
    + right. destruct H3 as [->|(r & ? & ?)]; [exists s|exists r]; (split; [|done]); [by left|by right].
  - destruct (IH m0) as (H1 & H2 & H3). split; [done|]. split.
    + intros r [->|Hr]%elem_of_cons Hpr; [lia|auto].
    + destruct H3 as [->|(r & ? & ?)]; [by left|right; exists r; split; [by right|done]].
Qed.

Section Retry.
Context (E : Env) (T : ToolEnv) (bgw_name : cstr) (tk : Oid).

(** The first number of a retry is above every number the task has used. *)
Lemma max_step_above w :
  let base := QxCatalogMaxStepSeqnoForTask (w_vis w) (MyDatabaseId E) tk in
  w_new w = empty_catalog ->
  Forall (fun s => qxstepdbid s = MyDatabaseId E /\ qxstepseqno s < 32767) (v_steps (view tk w)) ->
  0 < base /\ forall n, base <= n -> no_step n (view tk w).
Proof.
  intros base Hn Hall. unfold base, QxCatalogMaxStepSeqnoForTask.
  set (p := fun s => negb (qxstepdbid s =? MyDatabaseId E) || negb (qxsteptaskid s =? tk)).
  change (fold_left _ (c_steps (w_vis w)) 0) with (step_max p (c_steps (w_vis w)) 0).
  destruct (step_max_spec p (c_steps (w_vis w)) 0) as (H1 & H2 & H3).
  assert (forall s, s ∈ c_steps (w_vis w) /\ p s = false <->
    s ∈ v_steps (view tk w) /\ qxstepdbid s = MyDatabaseId E) as Hp.
  { intros s. cbn. rewrite all_rows_visible by done. unfold of_task.
    rewrite !list_elem_of_In, filter_In. unfold p. cbn.
    rewrite orb_false_iff, !negb_false_iff, !Z.eqb_eq. tauto. }
  rewrite Forall_forall in Hall. set (m := step_max p _ 0) in *.
  assert (m < 32767).
  { destruct H3 as [->|(s & Hs & Hps & <-)]; [lia|]. apply Hall. by apply (Hp s). }
  rewrite int16_small by (unfold in_int16; lia). split; [lia|]. intros n Hbn.
  unfold no_step. apply not_true_iff_false. rewrite existsb_exists. intros (s & Hs & En).
  apply list_elem_of_In in Hs. apply Z.eqb_eq in En. pose proof (Hall s Hs) as (Hd & _).
  destruct (proj2 (Hp s) (conj Hs Hd)) as (Hin & Hps). specialize (H2 s Hin Hps). lia.
Qed.

(** ** Admission *)

Lemma wp_retry_admit k v row task failed tools queue base queueoid e B C a b
    (Q : QxSchedulerLeaseSnapshot -> world -> Prop) X w :
  viewed tk k v w -> 6 < k -> tk <> 0 -> task_oid (ti_row task) = tk -> v_task v = Some row ->
  no_step base v -> QxSchedulerRuntimeContractIsValid (Some e) = true -> e_taskoid e = tk ->
  spent B C a b (charge_row 8 14 row) -> affordable B a -> affordable C b ->
  (forall name detail now now' w',
     let l := lease_snapshot_of now e InvalidOid (Some (worker_name bgw_name)) in
     viewed tk (k - 7)
       (v_admit E (fun u => u) (step_row E (qxtasksessionid (ti_row task)) tk base name detail)
          8 14 "TASK_RETRIED" "TASK_RETRY_DISPATCHED" queueoid l (heartbeat_of_lease now' l) v) w' ->
     Q l w') ->
  wp (retry_admit E bgw_name task failed tools queue base queueoid e) Q X w.
Proof.
  intros Hv Hk Htk Ht Hrow Hseq He Het Hsp Hf1 Hf2 HQ. unfold retry_admit. rewrite Ht.
  apply wp_bind. eapply wp_runtime_payload; [exact Hv|exact He|]. intros p1 w1 Hv1.
  apply wp_bind. eapply wp_record_both; [exact Hv1|lia|]. intros w2 Hv2.
  apply wp_bind. eapply wp_insert_step; [exact Hv2|lia|exact Hseq|]. intros w4 Hv4.
  apply wp_bind. eapply wp_charge with (row := row); [exact Hv4|exact Htk|exact Hrow| |].
  2: { rewrite (spent_within _ _ _ _ _ Hsp Hf1 Hf2). done. }
  intros _ w5 Hv5. apply wp_bind. eapply wp_runtime_payload; [exact Hv5|exact He|]. intros p2 w6 Hv6.
  apply wp_bind. eapply wp_open_lease; [exact Hv6|lia|exact Het|]. intros now now' w7 l Hv7.
  apply wp_bind. eapply wp_record_both; [exact Hv7|lia|]. intros w8 Hv8.
  eapply wp_ret, (HQ _ _ now now'). replace (k - 7) with (k - 2 - 1 - 2 - 2) by lia. exact Hv8.
Qed.

(** ** The steps between admission and checkpoint *)

(** A step number above those used so far. *)
Ltac later_step H :=
  cbn -[existsb]; rewrite ?existsb_app;
  match goal with |- context [existsb (fun s => qxstepseqno s =? ?n) (v_steps _)] =>
    rewrite (H n ltac:(lia)) end;
  cbn -[Z.eqb]; rewrite ?(proj2 (Z.eqb_neq _ _)) by lia; reflexivity.

Lemma wp_retry_steps k v row task failed tools base contract B C a b tokens cost
    (Q : Oid * QxSemanticExecutionMetadata -> world -> Prop) X w :
  let capture := capture_tokens (qxtaskinput (ti_row task)) in
  let total := a + tokens + capture + 4 in
  viewed tk k v w -> 11 < k -> tk <> 0 -> task_oid (ti_row task) = tk -> v_task v = Some row ->
  spent B C a b row -> 0 < base -> in_int16 (base + 4) ->
  (forall n, base < n -> no_step n v) ->
  tool_runs E T tk (v_providers v) contract "submit" (Some (cstr_or (qxtaskgoal (ti_row task)) ""))
    (is_present (qxtaskinput (ti_row task))) tokens cost ->
  0 <= a -> 0 <= b -> 0 <= tokens -> 0 <= cost ->
  in_int32 total -> in_int32 (b + cost + 13 + 14) ->
  affordable B total -> affordable C (b + cost + 13 + 14) ->
  (forall s1 s2 s3 s4 step meta w',
     (forall o, qxstepseqno (s1 o) = base + 1) -> (forall o, qxstepseqno (s2 o) = base + 2) ->
     (forall o, qxstepseqno (s3 o) = base + 3) -> (forall o, qxstepseqno (s4 o) = base + 4) ->
     viewed tk (k - 12) (v_steps_done s1 s2 s3 s4 tokens cost capture v) w' -> Q (step, meta) w') ->
  wp (retry_steps E T task failed tools base contract) Q X w.
Proof.
  intros capture total Hv Hk Htk Ho Hrow Hsp Hb0 Hb16 Hseq Hrun Ha Hb Ht Hc Hi1 Hi2 Hf1 Hf2 HQ.
  assert (8 <= capture <= 24) by (unfold capture, capture_tokens; destruct (is_present _); lia).
  unfold in_int32, affordable, total in *.
  destruct (spent_steps B C a b tokens cost capture row) as (S3 & S4 & S5);
    [done|lia..|unfold in_int32; lia|unfold in_int32; lia|].
  set (row3 := charge_row tokens cost row) in *. set (row4 := charge_row capture 13 row3) in *.
  unfold retry_steps. rewrite Ho, !int16_small by (unfold in_int16 in *; lia).
  apply wp_bind. eapply wp_insert_step; [exact Hv|lia|apply Hseq; lia|]. intros w1 Hv1.
  apply wp_bind. eapply wp_record_both; [exact Hv1|lia|]. intros w2 Hv2.
  apply wp_bind. eapply wp_tool_step with (row := row);
    [exact Hv2|lia|exact Htk|exact Hrow| |exact Hrun| |].
  { later_step Hseq. }
  { eapply spent_within; [exact S3|unfold affordable; lia..]. }
  intros meta w3 Hv3. apply wp_bind. eapply wp_charged_step with (row := row3);
    [exact Hv3|lia|exact Htk|simpl; by rewrite Hrow| | |].
  { later_step Hseq. }
  { eapply spent_within; [exact S4|unfold affordable; lia..]. }
  intros w4 Hv4. apply wp_bind. eapply wp_charged_step with (row := row4);
    [exact Hv4|lia|exact Htk|simpl; by rewrite Hrow| | |].
  { later_step Hseq. }
  { eapply spent_within; [exact S5|unfold affordable; lia..]. }
  intros w5 Hv5. apply wp_ret. set (sess := qxtasksessionid (ti_row task)) in *.
  eapply (HQ (step_row E sess tk (base + 1) _ _) (step_row E sess tk (base + 2) _ _)
             (step_row E sess tk (base + 3) _ _) (step_row E sess tk (base + 4) _ _)); [done..|].
  replace (k - 12) with (k - 1 - 2 - 3 - 3 - 3) by lia. exact Hv5.
Qed.

(** ** The whole retry *)

(** The conditions under which a candidate of the retry cycle is dispatched. *)
Record retriable (cand : retry_candidate) (contract : string) (tokens cost : Z) (w : world) : Prop := {
  rty_room : room 26 w;
  rty_new : w_new w = empty_catalog;
  rty_oid : tk <> 0;
  rty_task : v_task (view tk w) = Some (ti_row (rc_task cand));
  rty_states : qxtaskstate (ti_row (rc_task cand)) = QX_TASK_STATE_QUEUED /\
    qxattemptstate (rc_attempt cand) = QX_ATTEMPT_STATE_FAILED;
  rty_seqno : let n := qxattemptseqno (rc_attempt cand) + 1 in
    in_int16 n /\ existsb (fun a => qxattemptseqno a =? n) (v_attempts (view tk w)) = false;
  rty_steps : Forall (fun s => qxstepdbid s = MyDatabaseId E /\ qxstepseqno s < 32767)
    (v_steps (view tk w));
  rty_base : in_int16 (QxCatalogMaxStepSeqnoForTask (w_vis w) (MyDatabaseId E) tk + 5);
  rty_tools : forall u, exists l,
    qx_parse_task_authorized_contracts (qxtaskauthorizedtools (ti_row (rc_task cand))) u = Ok l u;
  rty_contract : forall u, qx_runtime_task_phase_contract (rc_task cand) false u = Ok (Some contract) u;
  rty_admissible : let t := ti_row (rc_task cand) in
    admissible (qxtasksessionid t) (qxtaskagentid t) (qxtaskidentityid t)
      (qxtasknamespacepolicyid t) (qxtaskbudgettokens t) (qxtaskbudgetcost t)
      (qxtaskestimatedtokens t) (qxtaskestimatedcost t);
  rty_tool : tool_runs E T tk (c_providers (w_vis w)) (Some contract) "submit"
    (Some (cstr_or (qxtaskgoal (ti_row (rc_task cand))) ""))
    (is_present (qxtaskinput (ti_row (rc_task cand)))) tokens cost;
  rty_charges : 0 <= tokens /\ 0 <= cost /\ 0 <= qxtaskconsumedtokens (ti_row (rc_task cand)) /\
    0 <= qxtaskconsumedcost (ti_row (rc_task cand));
  rty_tokens : let t := ti_row (rc_task cand) in
    let total := qxtaskconsumedtokens t + 8 + tokens + capture_tokens (qxtaskinput t) + 4 in
    in_int32 total /\ affordable (qxtaskbudgettokens t) total;
  rty_cost : let t := ti_row (rc_task cand) in
    let total := qxtaskconsumedcost t + 14 + cost + 13 + 14 in
    in_int32 total /\ affordable (qxtaskbudgetcost t) total
}.

(** The view of a task after its retry, from the view before. *)
Definition retried (cand : retry_candidate) (base tokens cost : Z) (before v : task_view) : Prop :=
  let row := ti_row (rc_task cand) in
  exists t a c,
    v_task v = Some t /\ v_attempts v = v_attempts before ++ [a] /\
    v_checkpoints v = v_checkpoints before ++ [c] /\
    qxtaskstate t = QX_TASK_STATE_CHECKPOINTED /\ qxtasklastattemptid t = attempt_oid a /\
    qxtasklastcheckpointid t = checkpoint_oid c /\
    qxtaskconsumedtokens t =
      qxtaskconsumedtokens row + 8 + tokens + capture_tokens (qxtaskinput row) + 4 /\
    qxtaskconsumedcost t = qxtaskconsumedcost row + 14 + cost + 13 + 14 /\
    qxattemptseqno a = qxattemptseqno (rc_attempt cand) + 1 /\
    qxattemptstate a = QX_ATTEMPT_STATE_CHECKPOINTED /\
    qxcheckpointattemptid c = attempt_oid a /\ qxcheckpointnextstepseqno c = base + 5 /\
    qxstepseqno <$> v_steps v =
      (qxstepseqno <$> v_steps before) ++ [base; base + 1; base + 2; base + 3; base + 4] /\
    qxleaseledgerstate <$> v_leases v =
      (qxleaseledgerstate <$> v_leases before) ++
      [QX_SCHEDULER_LEASE_HELD; QX_SCHEDULER_LEASE_RELEASED] /\
    v_events v = v_events before ++ (Some <$> ["TASK_RETRIED"; "TASK_RETRY_DISPATCHED";
      "TASK_TOOLS_AUTHORIZED"; "TASK_TOOL_EXECUTED"; "TASK_INPUT_CAPTURED"; "TASK_CHECKPOINTED";
      "TASK_READY_FOR_RESUME"]) /\
    v_others v = v_others before.

Lemma retried_view v cand base att q l h s1 s2 s3 s4 s5 arow qrow c l' h' tokens cost :
  let row := ti_row (rc_task cand) in
  let capture := capture_tokens (qxtaskinput row) in
  let run := set_task_runtime QX_TASK_STATE_RUNNING att true InvalidOid false in
  v_task v = Some row -> Forall (fun a => attempt_oid a < att) (v_attempts v) ->
  spent (qxtaskbudgettokens row) (qxtaskbudgetcost row)
    (qxtaskconsumedtokens row + 8 + tokens + capture + 4) (qxtaskconsumedcost row + 14 + cost + 13 + 14)
    (charge_row 4 14 (charge_row capture 13 (charge_row tokens cost (charge_row 8 14 (run row))))) ->
  (forall o, qxstepseqno (s1 o) = base) -> (forall o, qxstepseqno (s2 o) = base + 1) ->
  (forall o, qxstepseqno (s3 o) = base + 2) -> (forall o, qxstepseqno (s4 o) = base + 3) ->
  (forall o, qxstepseqno (s5 o) = base + 4) ->
  l_state l = QX_SCHEDULER_LEASE_HELD -> l_state l' = QX_SCHEDULER_LEASE_RELEASED ->
  attempt_oid arow = att -> qxattemptseqno arow = qxattemptseqno (rc_attempt cand) + 1 ->
  let u := v_steps_done s2 s3 s4 s5 tokens cost capture
    (v_admit E (fun u => u) s1 8 14 "TASK_RETRIED" "TASK_RETRY_DISPATCHED" q l h
       (v_insert_queue qrow (v_update_task run (v_insert_attempt arow v)))) in
  checkpoint_oid c = v_next u -> qxcheckpointattemptid c = att ->
  qxcheckpointnextstepseqno c = base + 5 ->
  retried cand base tokens cost v
    (v_insert_trace (v_insert_event (Some "TASK_READY_FOR_RESUME")
       (v_open_lease E q l' h'
          (v_checkpoint c att QX_ATTEMPT_STATE_CHECKPOINTED QX_TASK_STATE_CHECKPOINTED u)))).
Proof.
  intros row capture run Hrow Hbelow S E1 E2 E3 E4 E5 El El' Ea Es u Ec Eca En.
  apply (spent_runtime _ _ _ _ QX_TASK_STATE_CHECKPOINTED att true (v_next u) true) in S
    as (_ & _ & F1 & F2).
  do 2 eexists. exists c. split_and!.
  - unfold u. vcbn. fold u. rewrite Hrow. vcbn. reflexivity.
  - unfold u. vcbn. rewrite fmap_app. rewrite (update_attempts_below att) by exact Hbelow.
    cbn -[Z.eqb]. rewrite Ea, Z.eqb_refl. reflexivity.
  - unfold u. vcbn. reflexivity.
  - reflexivity.
  - exact (eq_sym Ea).
  - exact (eq_sym Ec).
  - exact F1.
  - exact F2.
  - exact Es.
  - reflexivity.
  - rewrite Eca. exact (eq_sym Ea).
  - exact En.
  - unfold u. vcbn. rewrite !fmap_app, <- !app_assoc. cbn -[Z.add]. rewrite E1, E2, E3, E4, E5.
    reflexivity.
  - unfold u. vcbn. rewrite !fmap_app, <- !app_assoc. cbn. rewrite El, El'. reflexivity.
  - unfold u. vcbn. rewrite <- !app_assoc. reflexivity.
  - reflexivity.
Qed.

Lemma wp_dispatch_retry cand contract tokens cost stats w
    (Q : bool * QxRuntimeSchedulerCycleStats -> world -> Prop) X :
  retriable cand contract tokens cost w ->
  (forall v w' stats',
     viewed tk 0 v w' ->
     retried cand (QxCatalogMaxStepSeqnoForTask (w_vis w) (MyDatabaseId E) tk) tokens cost
       (view tk w) v -> Q (true, stats') w') ->
  wp (qx_runtime_dispatch_retry_task E T bgw_name cand stats) Q X w.
Proof.
  intros [Hroom Hnew Htk Hrow [Hst1 Hst2] [Hi16 Hatts] Hsteps Hb16 Htools Hcon Hadm Hrun
          (Ht & Hc & Ha & Hb) [Hi1 Hf1] [Hi2 Hf2]] HQ.
  destruct (max_step_above w Hnew Hsteps) as (Hbase & Hfree).
  pose proof (view_task_oid tk w _ Hrow) as Htask. set (v := view tk w) in *.
  assert (settled w) as Hset by (unfold settled; rewrite Hnew; done).
  assert (viewed tk 26 v w) as Hv by done. rewrite (viewed_providers _ _ _ _ Hv) in Hrun.
  pose proof (viewed_attempts_below _ _ _ _ Hv) as (_ & Hbelow).
  set (base := QxCatalogMaxStepSeqnoForTask (w_vis w) (MyDatabaseId E) tk) in *.
  unfold qx_runtime_dispatch_retry_task. rewrite Hst1, Hst2, !Ascii.eqb_refl. cbn [negb orb].
  apply wp_bind. destruct (Htools w) as (tools & Etools). eapply wp_ok; [exact Etools|].
  apply wp_bind. eapply wp_ok; [exact (Hcon w)|].
  rewrite Htask, (int16_small (_ + 1)) by done. apply wp_bind, wp_gets. fold base. clearbody v base.
  apply wp_bind. eapply wp_insert_attempt; [exact Hv|lia|exact Hatts|]. intros w3 Hr3 Ev3.
  apply wp_bind. eapply wp_cci; [exact Hr3|exact Ev3|]. intros w4 Hv4.
  apply wp_bind. eapply wp_update_task; [exact Hv4|exact Hrow|]. intros w5 Hv5.
  set (row0 := ti_row (rc_task cand)) in *. set (att := v_next v) in *.
  set (row1 := set_task_runtime QX_TASK_STATE_RUNNING att true InvalidOid false row0) in *.
  match goal with |- context [queue_snapshot_now E ?x] => set (e := x) in * end.
  assert (e_taskoid e = tk) as Het by apply fill_envelope_task.
  assert (QxSchedulerRuntimeContractIsValid (Some e) = true) as Hval
    by (apply fill_envelope_valid; exact Hadm). clearbody e.
  assert (8 <= capture_tokens (qxtaskinput row0) <= 24)
    by (unfold capture_tokens; destruct (is_present _); lia).
  assert (spent (qxtaskbudgettokens row0) (qxtaskbudgetcost row0) (qxtaskconsumedtokens row0 + 8)
    (qxtaskconsumedcost row0 + 14) (charge_row 8 14 row1)) as S1
    by (apply spent_charge; [done|unfold in_int32 in *; lia..]).
  edestruct (spent_steps _ _ _ _ tokens cost (capture_tokens (qxtaskinput row0)) _ S1)
    as (_ & _ & S5); [lia..|unfold in_int32 in *; lia|unfold in_int32 in *; lia|].
  apply wp_bind. eapply wp_queue_snapshot; [exact Hv5|]. intros now w6 Hv6.
  apply wp_bind. eapply wp_enqueue; [exact Hv6|lia|exact Het|]. intros w7 Hv7.
  assert (v_task (v_update_task (set_task_runtime QX_TASK_STATE_RUNNING att true InvalidOid false) v)
          = Some row1) as Hrow1 by (vcbn; rewrite Hrow; done).
  apply wp_bind. eapply wp_retry_admit with (row := row1);
    [exact Hv7|lia|exact Htk|exact Htask|exact Hrow1|apply Hfree; lia|exact Hval|exact Het|exact S1|
     unfold affordable in *; lia..|].
  intros sn sd n1 n2 w8 l Hv8.
  apply wp_bind. eapply wp_retry_steps with (row := charge_row 8 14 row1);
    [exact Hv8|lia|exact Htk|exact Htask|vcbn; rewrite Hrow; reflexivity|exact S1|exact Hbase|
     unfold in_int16 in *; lia| |exact Hrun|lia..|exact Hi1|exact Hi2|exact Hf1|exact Hf2|].
  { intros n Hn. unfold no_step. vcbn. rewrite existsb_app. rewrite (Hfree n) by lia. cbn -[Z.eqb].
    rewrite (proj2 (Z.eqb_neq _ _)) by lia. done. }
  intros s2 s3 s4 s5 step meta w9 E2 E3 E4 E5 Hv9. apply wp_bind.
  eapply wp_checkpoint_and_release; [exact Hv9|lia|vcbn; rewrite Hrow; reflexivity| |exact Het|].
  { eexists. split; [vcbn; apply elem_of_app; right; apply list_elem_of_singleton; reflexivity|done]. }
  intros lsn n3 n4 n5 w10 l' Hv10.
  apply wp_bind. eapply wp_record_pause; [exact Hv10|lia|]. intros w11 Hv11.
  apply wp_ret. eapply HQ; [exact Hv11|].
  apply retried_view; try done. apply int16_small. done.
Qed.

(** C11. A retry that is dispatched, when there is room, the stored contract's
    tool runs and the budget allows it, takes the task to a checkpoint: a new
    attempt numbered after the failed one, five steps numbered after every step
    the task has, a checkpoint that names the next one, the lease released, the
    charges added and the seven events of a retry; all earlier rows are kept
    and no other task is changed. *)
Theorem retry_reaches_checkpoint cand contract tokens cost stats w :
  retriable cand contract tokens cost w ->
  exists stats' w', qx_runtime_dispatch_retry_task E T bgw_name cand stats w = Ok (true, stats') w' /\
    retried cand (QxCatalogMaxStepSeqnoForTask (w_vis w) (MyDatabaseId E) tk) tokens cost
      (view tk w) (view tk w').
Proof.
  intros Hr.
  destruct (wp_returns (qx_runtime_dispatch_retry_task E T bgw_name cand stats)
    (fun r w' => exists stats', r = (true, stats') /\
       retried cand (QxCatalogMaxStepSeqnoForTask (w_vis w) (MyDatabaseId E) tk) tokens cost
         (view tk w) (view tk w')) w) as (r & w' & Hrun & stats' & -> & Hd).
  - eapply wp_dispatch_retry; [exact Hr|]. intros v w' stats' (_ & _ & <-) Hd. by exists stats'.
  - by exists stats', w'.
Qed.

(** ** Giving up *)

(** C26. A task that has used up its retries is put aside: it ends failed,
    without a checkpoint to resume from, the maintenance queue gets its blocked
    entry, and one event records it.  The retry cycle does not find it again,
    whatever the slot and the time. *)
Theorem dead_letter_final cand stats w :
  let t := ti_row (rc_task cand) in
  let a := attempt_oid (rc_attempt cand) in
  room 3 w -> settled w -> v_task (view tk w) = Some t -> has_attempt a (view tk w) ->
  q_taskoid (rc_queue cand) = tk ->
  qxtaskstate t = QX_TASK_STATE_QUEUED -> qxattemptstate (rc_attempt cand) = QX_ATTEMPT_STATE_FAILED ->
  exists now stats' w', qx_runtime_dead_letter_retry_task E bgw_name cand stats w = Ok (true, stats') w' /\
    let v := view tk w in
    let v' := view tk w' in
    let t' := set_task_runtime QX_TASK_STATE_FAILED a true InvalidOid true t in
    v_task v' = Some t' /\
    v_queues v' = v_queues v ++ [queue_ledger_row E (dead_queue_of now (rc_queue cand)) (v_next v)] /\
    v_events v' = v_events v ++ [Some "TASK_DEAD_LETTERED"] /\
    v_leases v' = v_leases v /\ v_steps v' = v_steps v /\ v_others v' = v_others v /\
    forall c slot count now', retry_ready E c slot count now' (qx_catalog_fill_task_info c t') = None.
Proof.
  intros t a Hroom Hset Hrow Ha Hq Hst1 Hst2. pose proof (view_task_oid tk w _ Hrow) as Htask.
  destruct (wp_returns (qx_runtime_dead_letter_retry_task E bgw_name cand stats)
    (fun r w' => exists now stats', r = (true, stats') /\
       view tk w' = v_insert_trace (v_insert_event (Some "TASK_DEAD_LETTERED")
         (v_update_task (set_task_runtime QX_TASK_STATE_FAILED a true InvalidOid true)
            (v_update_attempt a (set_attempt_state QX_ATTEMPT_STATE_FAILED)
               (v_insert_queue (queue_ledger_row E (dead_queue_of now (rc_queue cand))
                  (v_next (view tk w))) (view tk w)))))) w)
    as (r & w' & Hrun & now & stats' & -> & Ev).
  - assert (viewed tk 3 (view tk w) w) as Hv by done. unfold qx_runtime_dead_letter_retry_task.
    fold t. rewrite Hst1, Hst2, !Ascii.eqb_refl, Htask. cbn [negb orb].
    apply wp_bind. eapply wp_clock; [exact Hv|]. intros now w1 Hv1.
    apply wp_bind. eapply wp_enqueue; [exact Hv1|lia|exact Hq|]. intros w2 Hv2.
    apply wp_bind. eapply wp_update_attempt; [exact Hv2|exact Ha|]. intros w3 Hv3.
    apply wp_bind. eapply wp_update_task; [exact Hv3|exact Hrow|]. intros w4 Hv4.
    apply wp_bind. unfold qx_runtime_append_recovery_payload. apply wp_bind, wp_gets, wp_ret.
    apply wp_bind. eapply wp_record_both; [exact Hv4|lia|]. intros w5 (_ & _ & Ev5).
    apply wp_ret. do 2 eexists. split; [reflexivity|exact Ev5].
  - exists now, stats', w'. split; [exact Hrun|]. cbv zeta. rewrite Ev. vcbn. rewrite Hrow.
    split_and!; reflexivity.
Qed.

End Retry.

(** ** A candidate in a small database *)

Definition demo_candidate : retry_candidate :=
  MkCandidate (demo_info QX_TASK_STATE_QUEUED) (demo_attempt QX_ATTEMPT_STATE_FAILED)
    (qx_catalog_copy_scheduler_queue_snapshot (retry_row 20003 20000 20001 "high")).

Lemma demo_retriable :
  retriable demo_env demo_runner 20000 demo_candidate demo_contract 12 3
    (demo_world QX_TASK_STATE_QUEUED QX_ATTEMPT_STATE_FAILED).
Proof.
  split.
  - apply demo_room. lia.
  - reflexivity.
  - lia.
  - reflexivity.
  - split; reflexivity.
  - split; [small|reflexivity].
  - repeat constructor; reflexivity.
  - small.
  - intros u. by eexists.
  - intros u. reflexivity.
  - vm_compute. intuition discriminate.
  - apply demo_runs. auto.
  - vm_compute. intuition discriminate.
  - small.
  - small.
Qed.

Lemma retry_reaches_checkpoint_witness :
  exists stats' w',
    qx_runtime_dispatch_retry_task demo_env demo_runner None demo_candidate zero_cycle_stats
      (demo_world QX_TASK_STATE_QUEUED QX_ATTEMPT_STATE_FAILED) = Ok (true, stats') w' /\
    retried demo_candidate 2 12 3
      (view 20000 (demo_world QX_TASK_STATE_QUEUED QX_ATTEMPT_STATE_FAILED)) (view 20000 w').
Proof.
  exact (retry_reaches_checkpoint demo_env demo_runner None 20000 demo_candidate demo_contract 12 3
           zero_cycle_stats _ demo_retriable).
Defined.

Lemma dead_letter_final_witness :
  let w := demo_world QX_TASK_STATE_QUEUED QX_ATTEMPT_STATE_FAILED in
  exists stats' w',
    qx_runtime_dead_letter_retry_task demo_env None demo_candidate zero_cycle_stats w =
      Ok (true, stats') w' /\
    v_events (view 20000 w') = v_events (view 20000 w) ++ [Some "TASK_DEAD_LETTERED"].
Proof.
  intros w.
  destruct (dead_letter_final demo_env None 20000 demo_candidate zero_cycle_stats w)
    as (now & stats' & w' & H1 & _ & _ & H2 & _).
  - apply demo_room. lia.
  - repeat split.
  - reflexivity.
  - exists (demo_attempt QX_ATTEMPT_STATE_FAILED). split; [by left|reflexivity].
  - reflexivity.
  - reflexivity.
  - reflexivity.
  - exists stats', w'. split; [exact H1|exact H2].
Defined.
