(* ===== verification/BudgetProps.v ===== *)
(** * Budgets

    A task's budget over a whole run: however many charges are made and in
    whatever order, the consumption the catalog shows never exceeds a ceiling
    that is set. *)

From Stdlib Require Import Ascii String.
From S2P Require Import Prelude Text Types Scheduler Stat Observe SemanticLog Tables World.
From S2P Require Import Catalog TaskView Recovery Policy Backends ToolExec Envelope.
From S2P Require Import RecoveryHooks Lifecycle LifecycleRules LifecycleSpec LifecycleProps.
From S2P Require Import ReclaimProps.
Open Scope string_scope.
Open Scope Z_scope.
Open Scope list_scope.

Record charge := MkCharge { ch_tokens : Z; ch_cost : Z; ch_name : string }.

Definition make_charge (tk : Oid) (c : charge) : M unit :=
  QxCatalogChargeTaskBudget tk (ch_tokens c) (ch_cost c) (ch_name c).

(** The task row after some charges. *)
Definition charged (t : pg_qx_task) (cs : list charge) : pg_qx_task :=
  fold_left (fun t c => charge_row (ch_tokens c) (ch_cost c) t) cs t.

Definition total (f : charge -> Z) (cs : list charge) : Z := fold_right Z.add 0 (f <$> cs).

Lemma charged_snoc t cs c :
  charged t (cs ++ [c]) = charge_row (ch_tokens c) (ch_cost c) (charged t cs).
Proof. unfold charged. rewrite fold_left_app. done. Qed.

Lemma total_cons f c cs : total f (c :: cs) = f c + total f cs.
Proof. done. Qed.

(** Without overflow, the consumption is the sum of the charges. *)
Lemma charged_total t cs :
  Forall (fun c => 0 <= ch_tokens c /\ 0 <= ch_cost c) cs ->
  0 <= qxtaskconsumedtokens t -> 0 <= qxtaskconsumedcost t ->
  in_int32 (qxtaskconsumedtokens t + total ch_tokens cs) ->
  in_int32 (qxtaskconsumedcost t + total ch_cost cs) ->
  qxtaskconsumedtokens (charged t cs) = qxtaskconsumedtokens t + total ch_tokens cs /\
  qxtaskconsumedcost (charged t cs) = qxtaskconsumedcost t + total ch_cost cs.
Proof.
  intros Hcs. revert t. induction Hcs as [|c cs (H1 & H2) Hcs IH]; intros t Ht Hc Hi1 Hi2.
  { unfold total. simpl. lia. }
  assert (0 <= total ch_tokens cs /\ 0 <= total ch_cost cs) as (P1 & P2).
  { clear -Hcs. induction Hcs as [|d ds (? & ?) _ IH]; [done|]. rewrite !total_cons. lia. }
  rewrite !total_cons in *.
  unfold in_int32 in *. set (t1 := charge_row (ch_tokens c) (ch_cost c) t).
  assert (qxtaskconsumedtokens t1 = qxtaskconsumedtokens t + ch_tokens c /\
          qxtaskconsumedcost t1 = qxtaskconsumedcost t + ch_cost c) as (T1 & T2)
    by (split; apply int32_small; unfold in_int32; lia).
  destruct (IH t1) as (E1 & E2); [lia..|]. change (charged t (c :: cs)) with (charged t1 cs). lia.
Qed.

(** What is known after the charges [done] of [cs]. *)
Definition charged_so_far (tk : Oid) (row : pg_qx_task) (w : world) (done : list charge) (w' : world) :
    Prop :=
  viewed tk 0 (view tk w') w' /\ v_task (view tk w') = Some (charged row done) /\
  within_budget (charged row done) = true /\ v_others (view tk w') = v_others (view tk w).

Definition charge_refused (tk : Oid) (row : pg_qx_task) (cs : list charge) (e : pg_error) (w' : world) :
    Prop :=
  err_code e = ERRCODE_CONFIGURATION_LIMIT_EXCEEDED /\
  exists done c rest, cs = done ++ c :: rest /\
    v_task (view tk w') = Some (charged row done) /\ within_budget (charged row done) = true /\
    within_budget (charged row (done ++ [c])) = false.

Lemma wp_charges tk cs row w :
  tk <> 0 -> room 0 w -> settled w -> v_task (view tk w) = Some row -> within_budget row = true ->
  wp (mforeach (make_charge tk) cs) (fun _ w' => charged_so_far tk row w cs w')
    (charge_refused tk row cs) w.
Proof.
  intros Htk Hr Hs Hrow Hb. apply wp_mforeach; [done|].
  intros done c rest u Hcs (Hv & H1 & H2 & H3).
  eapply wp_charge; [exact Hv|exact Htk|exact H1| |].
  - rewrite <- charged_snoc. intros Hok w' (Hr' & Hs' & Ev).
    split; [done|]. rewrite Ev. vcbn.
    split_and!; [rewrite H1, charged_snoc; reflexivity|exact Hok|exact H3].
  - rewrite <- charged_snoc. intros Hno e He. split; [done|]. by exists done, c, rest.
Qed.

(** C20. Charging a task's budget keeps its ceilings, whatever the sequence of
    charges: either all charges are made, and the task row shows them and is
    within its ceilings, or the first charge that would exceed one is refused
    with a limit error and the row shows the charges before it.  As long as the
    32-bit counters do not overflow, the consumption is the exact sum. *)
Theorem budget_ceilings_hold tk cs row w :
  tk <> 0 -> room 0 w -> settled w -> v_task (view tk w) = Some row -> within_budget row = true ->
  match mforeach (make_charge tk) cs w with
  | Ok _ w' =>
      v_task (view tk w') = Some (charged row cs) /\ within_budget (charged row cs) = true /\
      v_others (view tk w') = v_others (view tk w) /\
      (Forall (fun c => 0 <= ch_tokens c /\ 0 <= ch_cost c) cs ->
       0 <= qxtaskconsumedtokens row -> 0 <= qxtaskconsumedcost row ->
       in_int32 (qxtaskconsumedtokens row + total ch_tokens cs) ->
       in_int32 (qxtaskconsumedcost row + total ch_cost cs) ->
       qxtaskconsumedtokens (charged row cs) = qxtaskconsumedtokens row + total ch_tokens cs /\
       qxtaskconsumedcost (charged row cs) = qxtaskconsumedcost row + total ch_cost cs)
  | Err e w' => charge_refused tk row cs e w'
  end.
Proof.
  intros Htk Hr Hs Hrow Hb. pose proof (wp_charges tk cs row w Htk Hr Hs Hrow Hb) as Hwp.
  unfold wp in Hwp. destruct (mforeach (make_charge tk) cs w) as [[] w'|e w']; [|exact Hwp].
  destruct Hwp as (_ & H1 & H2 & H3). split_and!; [done..|]. apply charged_total.
Qed.

Lemma budget_ceilings_hold_witness :
  let cs := [MkCharge 100 0 "a"; MkCharge 300 5 "b"] in
  let w := demo_world QX_TASK_STATE_RUNNING QX_ATTEMPT_STATE_RUNNING in
  match mforeach (make_charge 20000) cs w with
  | Ok _ _ => False
  | Err e w' => charge_refused 20000 (demo_task QX_TASK_STATE_RUNNING) cs e w'
  end.
Proof.
  intros cs w.
  assert (exists e w', mforeach (make_charge 20000) cs w = Err e w') as (e & w' & He)
    by (do 2 eexists; vm_compute; reflexivity).
  pose proof (budget_ceilings_hold 20000 cs (demo_task QX_TASK_STATE_RUNNING) w ltac:(lia)
    ltac:(apply demo_room; lia) ltac:(repeat split) eq_refl eq_refl) as H.
  rewrite He in *. exact H.
Defined.
