(* ===== verification/ReplayProps.v ===== *)
(** * Replaying checkpoints from the semantic log

    A failover pass sends every durable checkpoint to the log again and leaves
    a trace that says so ([Recovery], [RecoveryHooks]).  The trace is found by
    its text.  The theorem of this file says that the text identifies the
    checkpoint, so that a pass replays exactly the checkpoints that no earlier
    pass has replayed, and a second pass writes nothing. *)

From Stdlib Require Import Ascii String.
From S2P Require Import Prelude Text Types Scheduler Stat Observe SemanticLog Tables World.
From S2P Require Import Catalog TaskView Recovery Policy Backends ToolExec Envelope.
From S2P Require Import RecoveryHooks.
Open Scope string_scope.
Open Scope Z_scope.
Open Scope bool_scope.
Open Scope list_scope.

(** ** The mark of a replay *)

Definition is_upper_hex (c : ascii) : bool :=
  is_digit c || (let n := N_of_ascii c in (65 <=? n)%N && (n <=? 70)%N).

Lemma hex_upper_range n : 0 <= n < 16 -> is_upper_hex (hex_upper n) = true.
Proof.
  intros Hn. destruct (Z.to_nat n) as [|m] eqn:Em; [replace n with 0 by lia; done|].
  do 15 (destruct m as [|m]; [replace n with (Z.of_nat (Z.to_nat n)) by lia; rewrite Em; done|]).
  lia.
Qed.

Lemma hex_digits_upper fuel z acc :
  all_chars is_upper_hex acc = true -> all_chars is_upper_hex (hex_digits fuel z acc) = true.
Proof.
  revert z acc. induction fuel as [|fuel IH]; intros z acc Ha; [done|]. cbn [hex_digits].
  assert (all_chars is_upper_hex (String (hex_upper (z mod 16)) acc) = true) as Hc.
  { cbn [all_chars]. rewrite hex_upper_range by (apply Z.mod_pos_bound; lia). done. }
  destruct (z <? 16); [done|]. by apply IH.
Qed.

Lemma show_X_no_char c z : is_upper_hex c = false -> has_char c (show_X z) = false.
Proof. apply all_chars_no_char. apply hex_digits_upper. done. Qed.

Lemma show_lsn_no_h lsn : has_char "h" (show_lsn lsn) = false.
Proof.
  unfold show_lsn. cbn -[show_X]. rewrite has_char_app, show_X_no_char by done. cbn -[show_X].
  rewrite has_char_app, show_X_no_char by done. done.
Qed.

(** The first two characters of the mark occur nowhere else in the text. *)
Lemma contains_at_start (a b : ascii) rest needle :
  a <> b -> has_char b rest = false ->
  contains (String a (String b rest)) (String a (String b needle)) = true ->
  exists post, rest = needle +:+ post.
Proof.
  intros Hab Hb (pre & post & Eq)%contains_true. simpl in Eq.
  destruct pre as [|c [|d pre]]; simpl in Eq.
  - injection Eq as ->. by exists post.
  - injection Eq as -> E. congruence.
  - injection Eq as -> -> ->. exfalso. revert Hb. rewrite has_char_app. simpl.
    rewrite Ascii.eqb_refl, !orb_true_r. done.
Qed.

Lemma replay_mark_exact n m a b :
  0 <= n -> 0 <= m -> contains (replay_detail n a b) (replay_key m) = (n =? m).
Proof.
  intros Hn Hm. apply eq_true_iff_eq. rewrite Z.eqb_eq. split.
  - intros H. unfold replay_detail, replay_key in H.
    apply (contains_at_start "c" "h") in H as (post & Eq); [|done|].
    + cbn -[show_u show_lsn] in Eq. rewrite append_assoc in Eq. cbn -[show_u show_lsn] in Eq.
      injection Eq as Eq. apply sep_inj in Eq as [Eq _];
        [by apply show_u_inj|by apply show_u_no_char|by apply show_u_no_char].
    + cbn -[show_u show_lsn]. rewrite !has_char_app. cbn -[show_u show_lsn].
      rewrite show_u_no_char, !has_char_app, show_lsn_no_h by done. cbn -[show_lsn].
      rewrite has_char_app, show_lsn_no_h. done.
  - intros ->. apply contains_true. exists "".
    exists (cat ["source_lsn="; show_lsn a; ";replay_lsn="; show_lsn b]).
    unfold replay_detail, replay_key. cbn -[show_u show_lsn]. rewrite append_assoc. done.
Qed.

(** ** One pass *)

Section Replay.
Context (E : Env).

(** The caller's checkpoints, those a replay is about, and those of them that
    have no mark yet. *)
Definition own_checkpoints (c : catalog) : list pg_qx_checkpoint :=
  QxCatalogBuildCheckpointInfoList c (MyDatabaseId E) (GetUserId E).

Definition durable (k : pg_qx_checkpoint) : bool :=
  negb (qxcheckpointlsn k =? InvalidXLogRecPtr) &&
  Ascii.eqb (qxcheckpointstate k) QX_CHECKPOINT_STATE_DURABLE.

Definition marked (c : catalog) (k : pg_qx_checkpoint) : bool :=
  QxCatalogCheckpointHasSemanticReplay c (MyDatabaseId E) (qxcheckpointtaskid k) (checkpoint_oid k).

Definition pending (c : catalog) (k : pg_qx_checkpoint) : bool := durable k && negb (marked c k).

(** What replaying a checkpoint writes: the record, as the checkpoint's own
    row has it, and a trace with the mark; [n] messages were sent before and
    the trace's identifier is [o]. *)
Definition replay_message (k : pg_qx_checkpoint) : string * string :=
  (QX_SEMANTIC_PREFIX,
   json_object_text (semantic_checkpoint_fields (checkpoint_oid k) (qxcheckpointsessionid k)
     (qxcheckpointtaskid k) (qxcheckpointattemptid k) (qxcheckpointstepid k) (qxcheckpointowner k)
     None (qxcheckpointstate k) (qxcheckpointtaskstate k) (qxcheckpointnextstepseqno k)
     (qxcheckpointlabel k) (qxcheckpointdata k))).

Definition mark_detail (n : nat) (k : pg_qx_checkpoint) : cstr :=
  Some (replay_detail (checkpoint_oid k) (qxcheckpointlsn k) (wal_lsn E n)).

Definition mark_message (n : nat) (o : Oid) (k : pg_qx_checkpoint) : string * string :=
  (QX_SEMANTIC_PREFIX,
   json_object_text (semantic_trace_fields o (qxcheckpointsessionid k) (qxcheckpointtaskid k)
     (qxcheckpointstepid k) (qxcheckpointowner k) None QX_TRACE_STATE_CLOSED
     (Some QX_RECOVERY_SEMANTIC_REPLAY_TRACE) (mark_detail n k))).

Definition mark_row (n : nat) (o : Oid) (k : pg_qx_checkpoint) : pg_qx_trace :=
  Mk_qx_trace o (MyDatabaseId E) (qxcheckpointsessionid k) (qxcheckpointtaskid k)
    (qxcheckpointstepid k) (qxcheckpointowner k) QX_TRACE_STATE_CLOSED (wal_lsn E (S n))
    (Some QX_RECOVERY_SEMANTIC_REPLAY_TRACE) (mark_detail n k).

Fixpoint replay_messages (n : nat) (o : Oid) (ks : list pg_qx_checkpoint) : list (string * string) :=
  match ks with
  | [] => []
  | k :: rest => replay_message k :: mark_message n o k :: replay_messages (S (S n)) (o + 1) rest
  end.

Fixpoint mark_rows (n : nat) (o : Oid) (ks : list pg_qx_checkpoint) : list pg_qx_trace :=
  match ks with
  | [] => []
  | k :: rest => mark_row n o k :: mark_rows (S (S n)) (o + 1) rest
  end.

Lemma replay_messages_snoc n o ks k :
  replay_messages n o (ks ++ [k]) =
  replay_messages n o ks ++
    [replay_message k; mark_message (n + 2 * length ks) (o + Z.of_nat (length ks)) k].
Proof.
  revert n o. induction ks as [|k' ks IH]; intros n o; cbn [replay_messages length app].
  - rewrite Nat.add_0_r, Z.add_0_r. done.
  - rewrite IH.
    replace (S (S n) + 2 * length ks)%nat with (n + 2 * S (length ks))%nat by lia.
    replace (o + 1 + Z.of_nat (length ks)) with (o + Z.of_nat (S (length ks))) by lia. done.
Qed.

Lemma replay_messages_length n o ks : length (replay_messages n o ks) = (2 * length ks)%nat.
Proof. revert n o. induction ks as [|k ks IH]; intros; simpl; [done|]. rewrite IH. lia. Qed.

Lemma mark_rows_snoc n o ks k :
  mark_rows n o (ks ++ [k]) =
  mark_rows n o ks ++ [mark_row (n + 2 * length ks) (o + Z.of_nat (length ks)) k].
Proof.
  revert n o. induction ks as [|k' ks IH]; intros n o; cbn [mark_rows length app].
  - rewrite Nat.add_0_r, Z.add_0_r. done.
  - rewrite IH.
    replace (S (S n) + 2 * length ks)%nat with (n + 2 * S (length ks))%nat by lia.
    replace (o + 1 + Z.of_nat (length ks)) with (o + Z.of_nat (S (length ks))) by lia. done.
Qed.

(** The world after a pass that replayed [ks]. *)
Record replayed (K : Z) (w0 : world) (ks : list pg_qx_checkpoint) (w : world) : Prop := {
  rp_room : room (K - Z.of_nat (length ks)) w;
  rp_new : w_new w = empty_catalog;
  rp_next : w_next_oid w = w_next_oid w0 + Z.of_nat (length ks);
  rp_wal : w_wal w = w_wal w0 ++ replay_messages (length (w_wal w0)) (w_next_oid w0) ks;
  rp_vis : w_vis w = set_rows (c_traces (w_vis w0) ++
             mark_rows (length (w_wal w0)) (w_next_oid w0) ks) (w_vis w0)
}.

Lemma merge_trace c r :
  merge_catalog c (set_rows (rows empty_catalog ++ [r]) empty_catalog) =
  set_rows (c_traces c ++ [r : pg_qx_trace]) c.
Proof. destruct c. unfold merge_catalog. cbn. rewrite !app_nil_r. done. Qed.

Lemma insert_mark_room K w k :
  room K w -> 0 < K -> exists st,
  QxCatalogInsertTrace E (qxcheckpointsessionid k) (qxcheckpointtaskid k) (qxcheckpointstepid k)
    (qxcheckpointowner k) None QX_TRACE_STATE_CLOSED (Some QX_RECOVERY_SEMANTIC_REPLAY_TRACE)
    (mark_detail (length (w_wal w)) k) (set_wal (w_wal w ++ [replay_message k]) w) =
  Ok (w_next_oid w)
    (set_stat st (add_row (mark_row (length (w_wal w)) (w_next_oid w) k)
      (set_wal (w_wal w ++ [replay_message k; mark_message (length (w_wal w)) (w_next_oid w) k]) w))).
Proof.
  intros Hr Hk. unfold QxCatalogInsertTrace. set (w1 := set_wal _ w).
  erewrite bind_run by (apply (new_oid_room K w1 pg_qx_trace); done).
  erewrite bind_run by reflexivity. cbn [w_wal set_next_oid w1 set_wal].
  rewrite length_app, Nat.add_1_r, <- app_assoc. unfold bind.
  destruct (qhapaqxian_track_stats E); [eexists; reflexivity|]. exists (w_stat w). reflexivity.
Qed.

(** Replaying one more checkpoint. *)
Lemma wp_replay_checkpoint K w0 ks k s ctx w :
  replayed K w0 ks w -> Z.of_nat (length ks) < K ->
  QxCatalogLookupCheckpointByOid (w_vis w0) (checkpoint_oid k) = Some k ->
  wp (qx_runtime_recovery_replay_checkpoint E (qx_recovery_checkpoint_summary_from_catalog s k) ctx)
     (fun _ => replayed K w0 (ks ++ [k])) no_error w.
Proof.
  intros [Hr Hn Ho Hw Hv] Hk Hf. unfold wp, qx_runtime_recovery_replay_checkpoint.
  assert (OidIsValid (checkpoint_oid k) = true) as Hvalid.
  { revert Hf. unfold QxCatalogLookupCheckpointByOid, lookup_by_oid. by destruct (OidIsValid _). }
  cbn [cs_checkpointoid qx_recovery_checkpoint_summary_from_catalog]. rewrite Hvalid. cbn [negb].
  erewrite bind_run by reflexivity.
  assert (QxCatalogLookupCheckpointByOid (w_vis w) (checkpoint_oid k) = Some k) as ->.
  { rewrite Hv. exact Hf. }
  erewrite bind_run by reflexivity.
  destruct (insert_mark_room (K - Z.of_nat (length ks)) w k Hr ltac:(lia)) as (st & Eq).
  erewrite bind_run by exact Eq. erewrite bind_run by reflexivity. simpl.
  split.
  - apply room_cci. rewrite length_app.
    replace (K - Z.of_nat (length ks + length [k])) with (K - Z.of_nat (length ks) - 1)
      by (simpl; lia).
    apply (room_add _ (set_wal _ w) pg_qx_trace); done.
  - done.
  - cbn. rewrite Ho, length_app. simpl. lia.
  - cbn [w_wal cci_world set_new set_vis set_stat add_row set_next_oid set_wal].
    rewrite replay_messages_snoc, app_assoc, <- Hw, Ho.
    do 4 f_equal. rewrite Hw, length_app, replay_messages_length. done.
  - cbn [w_vis w_new cci_world set_new set_vis set_stat add_row set_next_oid set_wal].
    rewrite Hn, merge_trace, mark_rows_snoc, Hv, Hw, Ho, length_app, replay_messages_length.
    rewrite app_assoc. done.
Qed.

Lemma wp_each_summary {U S} (f : S -> U -> M U) (I : list S -> world -> Prop) X l u w :
  I [] w ->
  (forall pre x post u w, l = pre ++ x :: post -> I pre w ->
     wp (f x u) (fun _ w' => I (pre ++ [x]) w') X w) ->
  wp (each_summary f l u) (fun _ w' => I l w') X w.
Proof.
  intros H0 Hstep.
  assert (forall pre post u w, l = pre ++ post -> I pre w ->
            wp (each_summary f post u) (fun _ w' => I l w') X w) as Hgen.
  { intros pre post. revert pre. induction post as [|x post IH]; intros pre u' w' Hl HI; simpl.
    - rewrite app_nil_r in Hl. subst. apply wp_ret. done.
    - apply wp_bind. eapply wp_mono; [by apply (Hstep pre x post)| |done].
      intros u'' w'' HI'. apply (IH (pre ++ [x])); [|done]. rewrite Hl, <- app_assoc. done. }
  apply (Hgen [] l); done.
Qed.

Lemma each_summary_skip {U S} (f : S -> U -> M U) l u w :
  (forall s u w, s ∈ l -> f s u w = Ok u w) -> each_summary f l u w = Ok u w.
Proof.
  induction l as [|s l IH]; intros Hf; simpl; [done|]. erewrite bind_run by (apply Hf; left).
  apply IH. intros. apply Hf. by right.
Qed.

(** Rows have identifiers of their own. *)
Definition numbered (w : world) : Prop :=
  NoDup (checkpoint_oid <$> c_checkpoints (w_vis w)) /\
  Forall (fun k => 0 < checkpoint_oid k /\ 0 < qxcheckpointtaskid k) (c_checkpoints (w_vis w)).

Lemma own_checkpoint_in c k : k ∈ own_checkpoints c -> k ∈ c_checkpoints c.
Proof. intros Hk%list_elem_of_In. apply filter_In in Hk as [Hk _]. by apply list_elem_of_In. Qed.

Lemma lookup_own_checkpoint w k :
  numbered w -> k ∈ own_checkpoints (w_vis w) ->
  QxCatalogLookupCheckpointByOid (w_vis w) (checkpoint_oid k) = Some k.
Proof.
  intros [Hd Hv] Hk%own_checkpoint_in. rewrite Forall_forall in Hv. specialize (Hv k Hk).
  unfold QxCatalogLookupCheckpointByOid, lookup_by_oid.
  rewrite (proj2 (OidIsValid_true _)) by lia. exact (find_oid_NoDup (c_checkpoints (w_vis w)) k Hd Hk).
Qed.

Lemma cci_empty w : w_new w = empty_catalog -> cci_world w = w.
Proof.
  destruct w as [vis new n t l s r]. cbn. intros ->. unfold cci_world. cbn. f_equal.
  destruct vis. unfold merge_catalog. cbn. rewrite !app_nil_r. done.
Qed.

Lemma replay_visit K w0 pre k ctx w :
  numbered w0 -> k ∈ own_checkpoints (w_vis w0) ->
  replayed K w0 (List.filter (pending (w_vis w0)) pre) w ->
  Z.of_nat (length (List.filter (pending (w_vis w0)) (pre ++ [k]))) <= K ->
  wp (visit_checkpoint (Some (semantic_replay_hooks E)) true
        (build_checkpoint_summary (w_vis w0) (MyDatabaseId E) k) ctx)
     (fun _ => replayed K w0 (List.filter (pending (w_vis w0)) (pre ++ [k]))) no_error w.
Proof.
  intros Hn Hk Hp Hl. unfold visit_checkpoint. cbn [hook_of hk_checkpoint semantic_replay_hooks call_hook].
  apply wp_bind, wp_ret. rewrite List.filter_app in *. cbn [List.filter] in *.
  change (true && QxRecoveryCheckpointNeedsReplay (build_checkpoint_summary (w_vis w0) (MyDatabaseId E) k) &&
    negb (cs_semantic_replayed (build_checkpoint_summary (w_vis w0) (MyDatabaseId E) k)))
    with (pending (w_vis w0) k).
  destruct (pending (w_vis w0) k).
  - cbn [hook_of hk_replay_checkpoint semantic_replay_hooks call_hook].
    apply wp_replay_checkpoint; [done| |by apply lookup_own_checkpoint].
    rewrite length_app in Hl. simpl in Hl. lia.
  - rewrite app_nil_r. by apply wp_ret.
Qed.

Lemma own_summaries c :
  QxRecoveryBuildCheckpointSummaries E c
    (Some (startup_request_of_failover (semantic_replay_request E))) =
  build_checkpoint_summary c (MyDatabaseId E) <$> own_checkpoints c.
Proof.
  unfold QxRecoveryBuildCheckpointSummaries, qx_recovery_effective_database_oid,
    qx_recovery_effective_owner_oid, own_checkpoints. cbn.
  destruct (OidIsValid (MyDatabaseId E)), (OidIsValid (GetUserId E)); done.
Qed.

Lemma replay_summaries K w ctx w1 :
  numbered w -> replayed K w [] w1 ->
  Z.of_nat (length (List.filter (pending (w_vis w)) (own_checkpoints (w_vis w)))) <= K ->
  wp (each_summary (visit_checkpoint (Some (semantic_replay_hooks E)) true)
        (build_checkpoint_summary (w_vis w) (MyDatabaseId E) <$> own_checkpoints (w_vis w)) ctx)
     (fun _ => replayed K w (List.filter (pending (w_vis w)) (own_checkpoints (w_vis w))))
     no_error w1.
Proof.
  intros Hn Hr HK. set (f := build_checkpoint_summary (w_vis w) (MyDatabaseId E)).
  set (p := pending (w_vis w)) in *.
  eapply wp_mono; [apply (wp_each_summary _ (fun done w' => exists ks rest,
    done = f <$> ks /\ own_checkpoints (w_vis w) = ks ++ rest /\
    replayed K w (List.filter p ks) w'))| |done].
  - exists [], (own_checkpoints (w_vis w)). done.
  - intros pre x post u w' Hl (ks & rest & -> & Eo & Hks).
    destruct rest as [|k rest].
    + exfalso. apply (f_equal length) in Hl.
      rewrite length_app, !length_fmap in Hl. rewrite Eo, app_nil_r in Hl. simpl in Hl. lia.
    + rewrite Eo, fmap_app in Hl. apply app_inv_head in Hl. injection Hl as <- _.
      eapply wp_mono; [apply replay_visit; [done| |exact Hks|]| |done].
      * rewrite Eo. apply elem_of_app. right. left.
      * fold p. etrans; [|exact HK]. rewrite Eo, !List.filter_app, !length_app. cbn [List.filter].
        destruct (p k); simpl; lia.
      * intros ? w'' Hw. exists (ks ++ [k]), rest. rewrite fmap_app, <- app_assoc. done.
  - intros ? w' (ks & rest & Ek & Eo & Hks). apply (f_equal length) in Ek.
    rewrite !length_fmap, Eo, length_app in Ek. unfold QxCatalogCheckpointInfo in *.
    destruct rest; [|simpl in Ek; lia].
    rewrite app_nil_r in Eo. rewrite Eo. done.
Qed.

(** A pass replays the checkpoints that are pending when it starts. *)
Lemma replay_pass w :
  let ks := List.filter (pending (w_vis w)) (own_checkpoints (w_vis w)) in
  numbered w -> w_new w = empty_catalog -> room (Z.of_nat (length ks)) w ->
  exists text w', run_command (pg_qx_test_run_semantic_replay E) w = Ok text w' /\
    replayed (Z.of_nat (length ks)) w ks w'.
Proof.
  intros ks Hn Hnew Hr.
  assert (wp (pg_qx_test_run_semantic_replay E) (fun _ => replayed (Z.of_nat (length ks)) w ks)
            no_error w) as Hwp.
  2: { unfold wp in Hwp. unfold run_command.
       destruct (pg_qx_test_run_semantic_replay E w) as [t w'|e w']; [|done].
       rewrite (cci_empty w') by apply Hwp. eauto. }
  unfold pg_qx_test_run_semantic_replay, QxRecoveryRunFailoverRebuild.
  apply wp_bind, wp_bind, wp_gets. rewrite own_summaries.
  set (tasks := QxRecoveryBuildTaskSummaries E _ _). cbn [sr_include_attempts sr_include_checkpoints
    startup_request_of_failover semantic_replay_request fr_rebuild_attempt_graph
    fr_rebuild_checkpoint_graph fr_requeue_checkpointed_tasks fr_fence_orphaned_attempts
    fr_replay_semantic_log].
  apply wp_bind, wp_ret, wp_bind. eapply wp_ok; [by apply each_summary_skip|].
  apply wp_bind, wp_ret, wp_bind. eapply wp_mono; [apply (replay_summaries (Z.of_nat (length ks)))|
    |done]; [done| |fold ks; lia|].
  - split; cbn; rewrite ?Z.sub_0_r, ?Z.add_0_r, ?app_nil_r; try done. by destruct (w_vis w).
  - intros u w' [H1 H2 H3 H4 H5]. fold ks in H1, H3, H4, H5.
    apply wp_bind. unfold call_hook, hook_of, semantic_replay_hooks, hk_finish,
      qx_runtime_recovery_finish, report_stat.
    apply wp_bind, wp_modify, wp_ret, wp_ret, wp_ret. split; done.
Qed.

(** ** What is marked afterwards *)

Lemma existsb_mark_rows p n o ks :
  existsb p (mark_rows n o ks) = true <->
  exists i k, ks !! i = Some k /\ p (mark_row (n + 2 * i) (o + Z.of_nat i) k) = true.
Proof.
  revert n o. induction ks as [|k ks IH]; intros n o; cbn [mark_rows existsb].
  - split; [done|]. intros (i & k & Hi & _). done.
  - rewrite orb_true_iff, IH. split.
    + intros [Hp|(i & k' & Hi & Hp)]; [exists 0%nat, k; by rewrite Nat.add_0_r, Z.add_0_r|].
      exists (S i), k'. split; [done|]. rewrite <- Hp. f_equal. f_equal; lia.
    + intros ([|i] & k' & Hi & Hp); simpl in Hi; [left|right].
      * injection Hi as ->. rewrite Nat.add_0_r, Z.add_0_r in Hp. done.
      * exists i, k'. split; [done|]. rewrite <- Hp. f_equal. f_equal; lia.
Qed.

Lemma marked_after K w ks w' k :
  OidIsValid (MyDatabaseId E) = true -> 0 < checkpoint_oid k -> 0 < qxcheckpointtaskid k ->
  Forall (fun k => 0 < checkpoint_oid k) ks -> replayed K w ks w' ->
  marked (w_vis w') k =
  marked (w_vis w) k ||
    existsb (fun k' => (qxcheckpointtaskid k' =? qxcheckpointtaskid k) &&
                       (checkpoint_oid k' =? checkpoint_oid k)) ks.
Proof.
  intros Hdb Hk Ht Hks [_ _ _ _ ->]. unfold marked, QxCatalogCheckpointHasSemanticReplay.
  rewrite Hdb, !(proj2 (OidIsValid_true _)) by lia. cbn [negb orb].
  change (c_traces (set_rows ?l _)) with l. rewrite existsb_app. f_equal.
  apply eq_true_iff_eq. rewrite existsb_mark_rows, existsb_exists. setoid_rewrite <- list_elem_of_In.
  rewrite Forall_forall in Hks.
  assert (forall n o k', k' ∈ ks ->
    (if negb (qxtracedbid (mark_row n o k') =? MyDatabaseId E)
        || negb (qxtracetaskid (mark_row n o k') =? qxcheckpointtaskid k) then false
     else if negb (cstr_is (qxtracename (mark_row n o k')) QX_RECOVERY_SEMANTIC_REPLAY_TRACE)
          then false
          else match qxtracedetail (mark_row n o k') with
               | Some detail => contains detail (replay_key (checkpoint_oid k))
               | None => false
               end) =
    (qxcheckpointtaskid k' =? qxcheckpointtaskid k) && (checkpoint_oid k' =? checkpoint_oid k))
    as Hrow.
  { intros n o k' Hin. specialize (Hks k' Hin). unfold mark_row, mark_detail.
    cbn -[replay_detail replay_key contains]. rewrite Z.eqb_refl. cbn [negb orb].
    rewrite replay_mark_exact by lia. destruct (_ =? qxcheckpointtaskid k); done. }
  split.
  - intros (i & k' & Hi & Hp). pose proof (list_elem_of_lookup_2 _ _ _ Hi) as Hin.
    exists k'. rewrite Hrow in Hp by done. done.
  - intros (k' & Hin & Hp). apply list_elem_of_lookup_1 in Hin as Hi. destruct Hi as [i Hi].
    exists i, k'. rewrite Hrow by done. done.
Qed.

Lemma filter_none {A} (p : A -> bool) l : (forall x, x ∈ l -> p x = false) -> List.filter p l = [].
Proof.
  induction l as [|x l IH]; intros Hp; simpl; [done|]. rewrite Hp by left. apply IH.
  intros y Hy. apply Hp. by right.
Qed.

Lemma own_pending w k :
  numbered w -> k ∈ own_checkpoints (w_vis w) ->
  marked (w_vis w) k ||
    existsb (fun k' => (qxcheckpointtaskid k' =? qxcheckpointtaskid k) &&
                       (checkpoint_oid k' =? checkpoint_oid k))
      (List.filter (pending (w_vis w)) (own_checkpoints (w_vis w))) =
  durable k || marked (w_vis w) k.
Proof.
  intros Hn Hk. apply eq_true_iff_eq. rewrite !orb_true_iff, existsb_exists. split.
  - intros [Hm|(k' & Hin & Hp)]; [by right|]. apply filter_In in Hin as [Hin Hpend].
    breflect. apply list_elem_of_In in Hin. apply lookup_own_checkpoint in Hin as Hl; [|done].
    apply lookup_own_checkpoint in Hk as Hl'; [|done].
    assert (k' = k) as -> by congruence. unfold pending in Hpend. breflect. by left.
  - intros [Hd|Hm]; [|by left]. destruct (marked (w_vis w) k) eqn:Hm; [by left|]. right.
    exists k. rewrite !Z.eqb_refl. split; [|done]. apply filter_In.
    split; [by apply list_elem_of_In|]. unfold pending. rewrite Hd, Hm. done.
Qed.

(** C14. A semantic replay pass sends exactly those of the caller's durable
    checkpoints to the log again that no trace marks as replayed, in their
    order, each followed by its mark, and changes no other table.  Afterwards a
    checkpoint is marked if it was durable or already marked, and no other one
    is: the text of a mark identifies its checkpoint.  A second pass writes
    neither a record nor a row. *)
Theorem semantic_replay_once w :
  let ks := List.filter (pending (w_vis w)) (own_checkpoints (w_vis w)) in
  OidIsValid (MyDatabaseId E) = true -> numbered w -> w_new w = empty_catalog ->
  room (Z.of_nat (length ks)) w ->
  exists text w', run_command (pg_qx_test_run_semantic_replay E) w = Ok text w' /\
    w_wal w' = w_wal w ++ replay_messages (length (w_wal w)) (w_next_oid w) ks /\
    w_vis w' = set_rows (c_traces (w_vis w) ++
      mark_rows (length (w_wal w)) (w_next_oid w) ks) (w_vis w) /\
    (forall k, k ∈ own_checkpoints (w_vis w) ->
       marked (w_vis w') k = durable k || marked (w_vis w) k) /\
    exists text' w'', run_command (pg_qx_test_run_semantic_replay E) w' = Ok text' w'' /\
      w_wal w'' = w_wal w' /\ w_vis w'' = w_vis w'.
Proof.
  intros ks Hdb Hn Hnew Hr. destruct (replay_pass w Hn Hnew Hr) as (text & w' & Hrun & Hw').
  fold ks in Hw'. exists text, w'. pose proof Hw' as [H1 H2 H3 H4 H5].
  do 3 (split; [done|]).
  assert (Forall (fun k => 0 < checkpoint_oid k) ks) as Hpos.
  { rewrite Forall_forall. intros k Hk%list_elem_of_In. apply filter_In in Hk as [Hk _].
    apply list_elem_of_In, own_checkpoint_in in Hk. destruct Hn as [_ Hv].
    rewrite Forall_forall in Hv. by apply Hv. }
  assert (forall k, k ∈ own_checkpoints (w_vis w) ->
    marked (w_vis w') k = durable k || marked (w_vis w) k) as Hmark.
  { intros k Hk. pose proof (own_checkpoint_in _ _ Hk) as Hin. pose proof Hn as [_ Hv].
    rewrite Forall_forall in Hv. destruct (Hv k Hin) as [Hk0 Hk1].
    rewrite (marked_after _ w ks w') by done. apply own_pending; done. }
  split; [done|].
  assert (List.filter (pending (w_vis w')) (own_checkpoints (w_vis w')) = []) as Hnil.
  { rewrite H5. change (own_checkpoints (set_rows ?l ?c)) with (own_checkpoints c). rewrite <- H5.
    apply filter_none. intros k Hk. unfold pending. rewrite Hmark by done. by destruct (durable k). }
  destruct (replay_pass w') as (text' & w'' & Hrun' & Hw''); [|done|rewrite Hnil; eapply room_mono; [exact H1|simpl; lia]|].
  - unfold numbered. rewrite H5. exact Hn.
  - exists text', w''. split; [done|]. rewrite Hnil in Hw''. destruct Hw'' as [_ _ _ F4 F5].
    rewrite app_nil_r in F4. split; [done|]. rewrite F5, app_nil_r. by destruct (w_vis w').
Qed.
End Replay.

(** A durable checkpoint, one that is not durable, and one of another owner. *)
Definition replay_demo : world :=
  set_vis (set_rows
    [Mk_qx_checkpoint 101 5 20 30 40 50 10 QX_CHECKPOINT_STATE_DURABLE QX_TASK_STATE_CHECKPOINTED 2 77
       (Some "checkpoint-1") (Some "data");
     Mk_qx_checkpoint 10 5 20 30 40 50 10 QX_CHECKPOINT_STATE_DURABLE QX_TASK_STATE_CHECKPOINTED 1 70
       (Some "checkpoint-0") (Some "data");
     Mk_qx_checkpoint 103 5 20 31 41 51 11 QX_CHECKPOINT_STATE_DURABLE QX_TASK_STATE_COMPLETED 3 90
       (Some "checkpoint-2") None] empty_catalog) (empty_world 20000).

Lemma semantic_replay_once_witness :
  exists text w', run_command (pg_qx_test_run_semantic_replay demo_env) replay_demo = Ok text w' /\
    length (w_wal w') = 4%nat.
Proof.
  edestruct (semantic_replay_once demo_env replay_demo) as (text & w' & Hrun & Hwal & _).
  - reflexivity.
  - split.
    + apply (bool_decide_unpack _). vm_compute. exact I.
    + repeat constructor.
  - reflexivity.
  - split; [|vm_compute; split; [discriminate|reflexivity]]. intros o Ho.
    assert (Forall (fun o => o < w_next_oid replay_demo)
              (all_oids (w_vis replay_demo) ++ all_oids (w_new replay_demo))) as Hf
      by (vm_compute; repeat constructor).
    rewrite Forall_forall in Hf. by apply Hf.
  - exists text, w'. split; [exact Hrun|]. rewrite Hwal. reflexivity.
Defined.
