(* ===== verification/ScanProps.v ===== *)
(** * The startup scan

    What the scan a backend runs at startup leaves behind ([Recovery],
    [RecoveryHooks]): every task that waits for recovery has an entry in the
    recovery queue, every attempt that was running has a reclaimed lease.  Both
    are found again by the next scan, which therefore writes nothing. *)

From Stdlib Require Import Ascii String.
From S2P Require Import Prelude Text Types Scheduler Stat Observe SemanticLog Tables World.
From S2P Require Import Catalog TaskView Recovery Policy Backends ToolExec Envelope.
From S2P Require Import RecoveryHooks Lifecycle Supervisor SupervisorProps LifecycleRules.
From S2P Require Import LifecycleSpec LifecycleProps ReclaimProps ReplayProps.
Open Scope string_scope.
Open Scope Z_scope.
Open Scope bool_scope.
Open Scope list_scope.

Section Scan.
Context (E : Env).

(** ** The ledgers *)

Definition set_ledgers (q : list pg_qx_scheduler_queue) (l : list pg_qx_scheduler_lease)
    (h : list pg_qx_scheduler_heartbeat) (c : catalog) : catalog :=
  set_rows q (set_rows l (set_rows h c)).

(** The marks of earlier scans the decisions look at. *)
Definition queued (c : catalog) (t a : Oid) : bool :=
  qx_recovery_task_has_scheduler_recovery_queue c (MyDatabaseId E) (GetUserId E) t a.
Definition reclaimed (c : catalog) (t a : Oid) : bool :=
  qx_recovery_attempt_has_scheduler_reclaim c (MyDatabaseId E) (GetUserId E) t a.

(** [w] is [w0] with more rows in the ledgers, and all marks are still there. *)
Record grown (k : Z) (w0 w : world) : Prop := {
  gr_room : room k w;
  gr_new : w_new w = empty_catalog;
  gr_wal : w_wal w = w_wal w0;
  gr_vis : exists q l h, w_vis w = set_ledgers q l h (w_vis w0);
  gr_queued : forall t a, queued (w_vis w0) t a = true -> queued (w_vis w) t a = true;
  gr_reclaimed : forall t a, reclaimed (w_vis w0) t a = true -> reclaimed (w_vis w) t a = true
}.

Lemma grown_refl k w : room k w -> w_new w = empty_catalog -> grown k w w.
Proof.
  intros Hr Hn. split; try done. exists (c_queues (w_vis w)), (c_leases (w_vis w)), (c_heartbeats (w_vis w)).
  by destruct (w_vis w).
Qed.

Lemma grown_trans k1 k w0 w1 w2 : grown k1 w0 w1 -> grown k w1 w2 -> grown k w0 w2.
Proof.
  intros [A1 A2 A3 (q & l & h & A4) A5 A6] [B1 B2 B3 (q' & l' & h' & B4) B5 B6].
  split; auto; [congruence|]. exists q', l', h'. rewrite B4, A4. by destruct (w_vis w0).
Qed.

(** The clock may have moved. *)
Lemma grown_same k w0 w w' : same_catalogs w w' -> grown k w0 w -> grown k w0 w'.
Proof.
  intros (S1 & S2 & S3 & S4 & _) [A1 A2 A3 A4 A5 A6].
  split; rewrite ?S1, ?S2, ?S4; auto. unfold room in *. rewrite S1, S2, S3. done.
Qed.

(** A new row with the largest identifier is the latest of those it matches. *)
Lemma latest_filter_snoc {R} `{Table R} (p : R -> bool) l r :
  Forall (fun x => row_oid x < row_oid r) l ->
  latest (List.filter p (l ++ [r])) = if p r then Some r else latest (List.filter p l).
Proof.
  intros Hl. destruct (p r) eqn:Hp; [by apply latest_filter_last|].
  rewrite List.filter_app. simpl. rewrite Hp, app_nil_r. done.
Qed.

Lemma rows_below k w R `{Table R} :
  room k w -> Forall (fun x : R => row_oid x < w_next_oid w) (rows (w_vis w)).
Proof.
  intros Hr. rewrite Forall_forall. intros x Hx. apply (room_row k w R); [done|].
  unfold all_rows. apply elem_of_app. by left.
Qed.

Lemma queued_snoc c l h r t a :
  Forall (fun x : pg_qx_scheduler_queue => row_oid x < row_oid r) (c_queues c) ->
  qxqueueledgerkind r = QX_SCHEDULER_QUEUE_RECOVERY ->
  queued (set_ledgers (c_queues c ++ [r]) l h c) t a =
  (OidIsValid t && OidIsValid a && queue_row_matches (MyDatabaseId E) (GetUserId E) t a r) ||
  queued c t a.
Proof.
  intros Hl Hk. unfold queued, qx_recovery_task_has_scheduler_recovery_queue,
    QxCatalogLookupLatestSchedulerQueue.
  change (c_queues (set_ledgers ?q l h c)) with q. rewrite latest_filter_snoc by done.
  destruct (OidIsValid t), (OidIsValid a); try done. cbn [negb orb andb].
  destruct (queue_row_matches _ _ t a r); cbn [fmap option_fmap option_map orb]; [|done].
  cbn. rewrite Hk. done.
Qed.

Lemma reclaimed_snoc c q h r t a :
  Forall (fun x : pg_qx_scheduler_lease => row_oid x < row_oid r) (c_leases c) ->
  qxleaseledgerstate r = QX_SCHEDULER_LEASE_RECLAIMED ->
  reclaimed (set_ledgers q (c_leases c ++ [r]) h c) t a =
  (OidIsValid t && OidIsValid a && lease_row_matches (MyDatabaseId E) (GetUserId E) t a r) ||
  reclaimed c t a.
Proof.
  intros Hl Hk. unfold reclaimed, qx_recovery_attempt_has_scheduler_reclaim,
    QxCatalogLookupLatestSchedulerLease.
  change (c_leases (set_ledgers q ?l h c)) with l. rewrite latest_filter_snoc by done.
  destruct (OidIsValid t), (OidIsValid a); try done. cbn [negb orb andb].
  destruct (lease_row_matches _ _ t a r); cbn [fmap option_fmap option_map orb]; [|done].
  cbn. rewrite Hk. done.
Qed.

(** *** A recovery entry *)

Lemma wp_grow_queue k w0 w q (Q : Oid -> world -> Prop) X :
  grown k w0 w -> 0 < k -> q_queue_kind q = QX_SCHEDULER_QUEUE_RECOVERY ->
  (forall w', grown (k - 1) w0 w' ->
     (forall t a, OidIsValid t = true -> OidIsValid a = true ->
        queue_row_matches (MyDatabaseId E) (GetUserId E) t a (queue_ledger_row E q (w_next_oid w))
          = true -> queued (w_vis w') t a = true) ->
     Q (w_next_oid w) w') ->
  wp (enqueue E q) Q X w.
Proof.
  intros Hg Hk Hq HQ. unfold enqueue. apply wp_bind.
  pose proof Hg as [A1 A2 A3 (q0 & l0 & h0 & A4) A5 A6].
  eapply wp_ok; [apply (insert_row_room k); done|]. apply wp_bind, wp_modify, wp_ret.
  set (r := queue_ledger_row E q (w_next_oid w)).
  set (w' := cci_world _).
  assert (w_vis w' = set_ledgers (c_queues (w_vis w) ++ [r]) (c_leases (w_vis w))
            (c_heartbeats (w_vis w)) (w_vis w)) as Ev.
  { subst w'. cbn. rewrite A2. destruct (w_vis w). unfold merge_catalog. cbn.
    rewrite !app_nil_r. done. }
  assert (forall t a, queued (w_vis w') t a =
    (OidIsValid t && OidIsValid a && queue_row_matches (MyDatabaseId E) (GetUserId E) t a r) ||
    queued (w_vis w) t a) as Eq.
  { intros t a. rewrite Ev. apply queued_snoc; [|done]. exact (rows_below k w pg_qx_scheduler_queue A1). }
  apply HQ.
  - apply (grown_trans k _ _ w); [done|]. split; try done.
    + apply room_cci. by apply (room_add _ _ pg_qx_scheduler_queue).
    + eauto.
    + intros t a Ht. rewrite Eq, Ht, orb_true_r. done.
    + intros t a Ht. rewrite Ev. exact Ht.
  - intros t a Ht Ha Hm. fold r in Hm. rewrite Eq, Ht, Ha, Hm. done.
Qed.

(** *** A reclaimed lease *)

Definition hand_back (queueoid : Oid) (l : QxSchedulerLeaseSnapshot) (lag : Z)
    (context : QxRuntimeRecoveryHooksContext) : M QxRuntimeRecoveryHooksContext :=
  let* leaseoid := QxCatalogInsertSchedulerLease E queueoid l in
  let* heartbeat := finalize_heartbeat_now E l (Some "scheduler-reclaim") in
  let* _ := QxCatalogInsertSchedulerHeartbeat E leaseoid (set_heartbeat_missed lag heartbeat) in
  CommandCounterIncrement ;;;
  ret context.

Lemma wp_grow_lease k w0 w queueoid l lag context
    (Q : QxRuntimeRecoveryHooksContext -> world -> Prop) X :
  grown k w0 w -> 1 < k -> l_state l = QX_SCHEDULER_LEASE_RECLAIMED ->
  (forall w', grown (k - 2) w0 w' ->
     (forall t a, OidIsValid t = true -> OidIsValid a = true ->
        lease_row_matches (MyDatabaseId E) (GetUserId E) t a
          (lease_ledger_row E queueoid l (w_next_oid w)) = true ->
        reclaimed (w_vis w') t a = true) ->
     Q context w') ->
  wp (hand_back queueoid l lag context) Q X w.
Proof.
  intros Hg Hk Hl HQ. unfold hand_back. apply wp_bind.
  pose proof Hg as [A1 A2 A3 (q0 & l0 & h0 & A4) A5 A6].
  eapply wp_ok; [apply (insert_row_room k); [done|lia]|].
  set (r := lease_ledger_row E queueoid l (w_next_oid w)).
  assert (room (k - 1) (add_row r w)) as Hr by (by apply (room_add _ _ pg_qx_scheduler_lease)).
  apply wp_bind. eapply wp_ok; [reflexivity|].
  match goal with |- context [set_heartbeat_missed lag ?x] => set (h := x) end.
  set (w1 := set_ticks _ _). apply wp_bind.
  eapply wp_ok; [apply (insert_row_room (k - 1) w1 pg_qx_scheduler_heartbeat); [exact Hr|lia]|].
  set (w' := add_row _ w1). apply wp_bind, wp_modify, wp_ret.
  assert (exists h', w_vis (cci_world w') =
            set_ledgers (c_queues (w_vis w)) (c_leases (w_vis w) ++ [r]) h' (w_vis w)) as [h' Ev].
  { exists (c_heartbeats (w_vis w) ++ [heartbeat_ledger_row E (w_next_oid w)
      (set_heartbeat_missed lag h) (w_next_oid w1)]).
    cbn. rewrite A2. destruct (w_vis w). unfold merge_catalog. cbn.
    rewrite !app_nil_r. reflexivity. }
  assert (forall t a, reclaimed (w_vis (cci_world w')) t a =
    (OidIsValid t && OidIsValid a && lease_row_matches (MyDatabaseId E) (GetUserId E) t a r) ||
    reclaimed (w_vis w) t a) as Eq.
  { intros t a. rewrite Ev. apply reclaimed_snoc; [|done].
    exact (rows_below k w pg_qx_scheduler_lease A1). }
  apply HQ.
  - apply (grown_trans k _ _ w); [done|]. split; try done.
    + apply room_cci. replace (k - 2) with (k - 1 - 1) by lia.
      by apply (room_add _ w1 pg_qx_scheduler_heartbeat).
    + eauto.
    + intros t a Ht. rewrite Ev. exact Ht.
    + intros t a Ht. rewrite Eq, Ht, orb_true_r. done.
  - intros t a Ht Ha Hm. fold r in Hm. rewrite Eq, Ht, Ha, Hm. done.
Qed.

(** ** The hooks *)

(** What a scan finds: every task of the owner has a readable contract, and
    every attempt of the owner belongs to a task of the owner. *)
Record scannable (w : world) : Prop := {
  sc_db : MyDatabaseId E <> 0;
  sc_task_oids : NoDup (task_oid <$> c_tasks (w_vis w));
  sc_valid : Forall (fun t => task_oid t <> 0) (c_tasks (w_vis w));
  sc_attempts : forall a, a ∈ QxCatalogBuildAttemptInfoList (w_vis w) (MyDatabaseId E) (GetUserId E) ->
    attempt_oid a <> 0 /\ exists t, t ∈ c_tasks (w_vis w) /\ task_oid t = qxattempttaskid a /\
      (OidIsValid (GetUserId E) = true -> qxtaskowner t = GetUserId E);
  sc_contract : forall t prefer u, t ∈ c_tasks (w_vis w) ->
    exists c, qx_runtime_recovery_selected_contract (qx_catalog_fill_task_info (w_vis w) t) prefer u
              = Ok c u
}.

Lemma lookup_scanned w0 w t :
  scannable w0 -> (exists q l h, w_vis w = set_ledgers q l h (w_vis w0)) -> t ∈ c_tasks (w_vis w0) ->
  QxCatalogLookupTaskByOid (w_vis w) (task_oid t) = Some (qx_catalog_fill_task_info (w_vis w0) t).
Proof.
  intros Hs (q & l & h & ->) Ht. unfold QxCatalogLookupTaskByOid.
  change (lookup_by_oid (set_ledgers q l h (w_vis w0)) (task_oid t))
    with (lookup_by_oid (R := pg_qx_task) (w_vis w0) (task_oid t)).
  unfold lookup_by_oid. destruct Hs as [_ Hd Hv _ _]. rewrite Forall_forall in Hv.
  rewrite (proj2 (OidIsValid_true _)) by (by apply Hv). cbn [negb].
  pose proof (find_oid_NoDup (c_tasks (w_vis w0)) t Hd Ht) as Hf.
  change (row_oid t) with (task_oid t) in Hf. cbn in Hf. cbn. rewrite Hf. done.
Qed.

Lemma wp_requeue k w0 s ctx w t :
  scannable w0 -> grown k w0 w -> 0 < k -> t ∈ c_tasks (w_vis w0) -> ts_taskoid s = task_oid t ->
  (OidIsValid (GetUserId E) = true -> qxtaskowner t = GetUserId E) ->
  wp (qx_runtime_recovery_requeue_task E s ctx)
     (fun _ w' => grown (k - 1) w0 w' /\
        (OidIsValid (ts_lastattemptoid s) = true ->
         queued (w_vis w') (ts_taskoid s) (ts_lastattemptoid s) = true)) no_error w.
Proof.
  intros Hs Hg Hk Ht Es Hown. unfold qx_runtime_recovery_requeue_task. rewrite Es.
  pose proof (sc_valid _ Hs) as Hv. rewrite Forall_forall in Hv. specialize (Hv t Ht).
  apply OidIsValid_true in Hv. rewrite Hv. cbn [negb].
  destruct (OidIsValid (ts_lastattemptoid s)) eqn:Ha; cbn [negb].
  2: { apply wp_ret. split; [|done]. destruct Hg as [A1 A2 A3 A4 A5 A6].
       split; auto. eapply room_mono; [exact A1|lia]. }
  apply wp_bind, wp_gets. rewrite (lookup_scanned w0) by (done || apply Hg).
  apply wp_bind. edestruct (sc_contract _ Hs t) as (c & Ec); [exact Ht|].
  eapply wp_ok; [exact Ec|]. apply wp_bind. eapply wp_ok; [reflexivity|].
  match goal with |- context [queue_snapshot_of ?now (qx_runtime_fill_recovery_scheduler_envelope
      ?task ?a ?n ?cl ?rl ?b1 ?b2 ?b3 c)] =>
    pose proof (fresh_recovery_entry now task a n cl rl b1 b2 b3 c) as F end.
  set (q := queue_snapshot_of _ _) in *. clearbody q. apply wp_bind.
  eapply wp_grow_queue; [eapply grown_same; [|exact Hg]; done|done|done|].
  intros w' Hg' Hq. apply wp_ret. split; [done|]. intros _. apply Hq; [done|done|].
  destruct F as (F1 & F2 & F3 & _). unfold queue_row_matches. cbn.
  rewrite F1, F2, F3, !Z.eqb_refl. cbn. destruct (OidIsValid (GetUserId E)); [|done].
  rewrite Hown, Z.eqb_refl by done. done.
Qed.

Lemma fence_lease now now' task a n cl rl b1 b2 b3 contract worker :
  let l := release_lease_of now (lease_snapshot_of now'
    (qx_runtime_fill_recovery_scheduler_envelope task a n cl rl b1 b2 b3 contract) InvalidOid worker)
    true in
  l_state l = QX_SCHEDULER_LEASE_RECLAIMED /\ l_taskoid l = task_oid (ti_row task) /\
  l_attemptoid l = a /\ l_ownerid l = qxtaskowner (ti_row task).
Proof. destruct contract; done. Qed.

Lemma wp_fence k w0 s ctx w t :
  scannable w0 -> grown k w0 w -> 2 < k -> t ∈ c_tasks (w_vis w0) -> as_taskoid s = task_oid t ->
  as_attemptoid s <> 0 -> (OidIsValid (GetUserId E) = true -> qxtaskowner t = GetUserId E) ->
  wp (qx_runtime_recovery_fence_attempt E s ctx)
     (fun _ w' => grown (k - 3) w0 w' /\
        reclaimed (w_vis w') (as_taskoid s) (as_attemptoid s) = true) no_error w.
Proof.
  intros Hs Hg Hk Ht Es Ha%OidIsValid_true Hown. unfold qx_runtime_recovery_fence_attempt.
  rewrite Es, Ha. pose proof (sc_valid _ Hs) as Hv. rewrite Forall_forall in Hv. specialize (Hv t Ht).
  apply OidIsValid_true in Hv. rewrite Hv. cbn [negb orb].
  apply wp_bind, wp_gets. rewrite (lookup_scanned w0) by (done || apply Hg).
  apply wp_bind. edestruct (sc_contract _ Hs t) as (c & Ec); [exact Ht|].
  eapply wp_ok; [exact Ec|]. apply wp_bind.
  match goal with |- context [qx_runtime_fill_recovery_scheduler_envelope
      ?task ?a ?n ?cl ?rl ?b1 ?b2 ?b3 c] =>
    pose proof (fun now now' => fence_lease now now' task a n cl rl b1 b2 b3 c) as F end.
  set (e := qx_runtime_fill_recovery_scheduler_envelope _ _ _ _ _ _ _ _ c) in *.
  set (known := qx_runtime_lookup_recovery_queueoid _ _). clearbody e.
  match goal with |- wp (if _ then ?m else _) _ _ _ => set (entry := m) end.
  assert (forall w1 o ctx', grown (k - 1) w0 w1 ->
    wp (let* lease := lease_snapshot_now E e InvalidOid (Some "embedded-runtime") in
        let* reclaimed := release_lease_now E lease true in
        hand_back o reclaimed (e_heartbeat_interval_ms e) ctx')
     (fun _ w' => grown (k - 3) w0 w' /\ reclaimed (w_vis w') (task_oid t) (as_attemptoid s) = true)
     no_error w1) as Htail.
  { intros w1 o ctx' Hg1. apply wp_bind. eapply wp_ok; [reflexivity|].
    apply wp_bind. eapply wp_ok; [reflexivity|].
    match goal with |- context [release_lease_of ?n1 (lease_snapshot_of ?n2 _ _ ?wk) true] =>
      destruct (F n1 n2 wk) as (F1 & F2 & F3 & F4) end.
    set (l := release_lease_of _ _ true) in *. clearbody l.
    eapply wp_grow_lease; [eapply grown_same; [|exact Hg1]; done|lia|exact F1|].
    intros w' Hg' Hq. replace (k - 3) with (k - 1 - 2) by lia. split; [done|].
    apply Hq; [done|done|]. unfold lease_row_matches. cbn. rewrite F2, F3, F4, !Z.eqb_refl. cbn.
    destruct (OidIsValid (GetUserId E)); [|done]. rewrite Hown, Z.eqb_refl by done. done. }
  destruct (negb (OidIsValid known)).
  - unfold entry. apply wp_bind. eapply wp_ok; [reflexivity|]. apply wp_bind.
    eapply wp_grow_queue; [eapply grown_same; [|exact Hg]; done|lia|done|].
    intros w1 Hg1 _. apply wp_ret. apply Htail. done.
  - apply wp_ret. apply Htail. destruct Hg as [A1 A2 A3 A4 A5 A6].
    split; auto. eapply room_mono; [exact A1|lia].
Qed.

(** ** The scan *)

Definition own_tasks (c : catalog) : list QxCatalogTaskInfo :=
  QxCatalogBuildTaskInfoList c (MyDatabaseId E) (GetUserId E).
Definition own_attempts (c : catalog) : list QxCatalogAttemptInfo :=
  QxCatalogBuildAttemptInfoList c (MyDatabaseId E) (GetUserId E).
Definition task_summary (c : catalog) : QxCatalogTaskInfo -> QxRecoveryTaskSummary :=
  build_task_summary c (MyDatabaseId E) (GetUserId E) (own_attempts c)
    (QxCatalogBuildCheckpointInfoList c (MyDatabaseId E) (GetUserId E)).
Definition attempt_summary (c : catalog) : QxCatalogAttemptInfo -> QxRecoveryAttemptSummary :=
  build_attempt_summary c (MyDatabaseId E) (GetUserId E).

Lemma effective_oids :
  qx_recovery_effective_database_oid E (Some (startup_request E (GetUserId E))) = MyDatabaseId E /\
  qx_recovery_effective_owner_oid E (Some (startup_request E (GetUserId E))) = GetUserId E.
Proof. cbn. destruct (OidIsValid (MyDatabaseId E)), (OidIsValid (GetUserId E)); done. Qed.

Lemma own_task_summaries c :
  QxRecoveryBuildTaskSummaries E c (Some (startup_request E (GetUserId E))) =
  task_summary c <$> own_tasks c.
Proof. unfold QxRecoveryBuildTaskSummaries. by rewrite !(proj1 effective_oids), !(proj2 effective_oids). Qed.

Lemma own_attempt_summaries c :
  QxRecoveryBuildAttemptSummaries E c (Some (startup_request E (GetUserId E))) =
  attempt_summary c <$> own_attempts c.
Proof. unfold QxRecoveryBuildAttemptSummaries. by rewrite !(proj1 effective_oids), !(proj2 effective_oids). Qed.

Lemma filter_owner d o row_db row_owner :
  qx_catalog_matches_filter row_db row_owner d o = true -> OidIsValid o = true -> row_owner = o.
Proof.
  unfold qx_catalog_matches_filter. intros H Ho. rewrite Ho in H.
  destruct (OidIsValid d && _); [done|]. simpl in H.
  destruct (row_owner =? o) eqn:Eq; [|done]. by apply Z.eqb_eq.
Qed.

Lemma own_task c info :
  info ∈ own_tasks c -> exists t, info = qx_catalog_fill_task_info c t /\ t ∈ c_tasks c /\
    (OidIsValid (GetUserId E) = true -> qxtaskowner t = GetUserId E).
Proof.
  intros (t & -> & Ht)%list_elem_of_fmap. apply list_elem_of_In, filter_In in Ht as [Ht Hf].
  exists t. split; [done|]. split; [by apply list_elem_of_In|]. eapply filter_owner, Hf.
Qed.

(** The visits change only what the ledgers add to a summary. *)
Lemma update_attempts_oid l s :
  ts_taskoid (qx_recovery_update_task_with_attempts s l) = ts_taskoid s.
Proof.
  revert s. induction l as [|a l IH]; intros s; [done|].
  etransitivity; [apply (IH (update_with_attempt s a))|]. unfold update_with_attempt.
  destruct (negb _); [done|]. destruct (_ || _), (Ascii.eqb _ QX_ATTEMPT_STATE_CHECKPOINTED); done.
Qed.

Lemma update_checkpoints_oid l s :
  ts_taskoid (qx_recovery_update_task_with_checkpoints s l) = ts_taskoid s.
Proof.
  revert s. induction l as [|a l IH]; intros s; [done|].
  etransitivity; [apply (IH (update_with_checkpoint s a))|]. unfold update_with_checkpoint.
  destruct (negb _); [done|]. destruct (Ascii.eqb _ QX_TASK_STATE_CHECKPOINTED); done.
Qed.

Lemma task_summary_oid c info : ts_taskoid (task_summary c info) = task_oid (ti_row info).
Proof.
  unfold task_summary, build_task_summary, set_ts_scheduler. cbn [ts_taskoid].
  rewrite update_checkpoints_oid, update_attempts_oid. done.
Qed.

Lemma scannable_grown w0 w :
  scannable w0 -> (exists q l h, w_vis w = set_ledgers q l h (w_vis w0)) -> scannable w.
Proof. intros [A1 A2 A3 A4 A5] (q & l & h & Ev). split; rewrite ?Ev; assumption. Qed.

(** A loop that grows the ledgers and leaves a mark for each summary. *)
Lemma wp_scan_loop {S} (f : S -> QxRuntimeRecoveryHooksContext ->
      M QxRuntimeRecoveryHooksContext) (n K : Z) (ss : list S) (P : S -> catalog -> Prop) ctx w :
  0 <= n -> scannable w -> grown K w w -> n * Z.of_nat (length ss) <= K ->
  (forall s w1 w2 k, grown k w1 w2 -> P s (w_vis w1) -> P s (w_vis w2)) ->
  (forall s u k w1, s ∈ ss -> grown k w w1 -> n <= k ->
     wp (f s u) (fun _ w2 => grown (k - n) w1 w2 /\ P s (w_vis w2)) no_error w1) ->
  wp (each_summary f ss ctx)
     (fun _ w' => grown (K - n * Z.of_nat (length ss)) w w' /\
        forall s, s ∈ ss -> P s (w_vis w')) no_error w.
Proof.
  intros Hn Hs Hg HK Hmono Hstep.
  apply (wp_each_summary _ (fun pre w' => grown (K - n * Z.of_nat (length pre)) w w' /\
    forall s, s ∈ pre -> P s (w_vis w'))).
  - simpl. rewrite Z.mul_0_r, Z.sub_0_r. split; [done|]. intros s Hin. inversion Hin.
  - intros pre s post u w' Hl [Hg' Hp]. rewrite Hl, length_app in HK. simpl in HK.
    eapply wp_mono; [apply (Hstep s u (K - n * Z.of_nat (length pre)) w')| |done].
    + rewrite Hl. apply elem_of_app. right. left.
    + done.
    + nia.
    + intros u' w2 [Hg2 Hp2]. split.
      * eapply grown_trans; [exact Hg'|]. rewrite length_app. simpl.
        replace (K - n * Z.of_nat (length pre + 1)) with (K - n * Z.of_nat (length pre) - n) by lia.
        exact Hg2.
      * intros s' [Hs'|Hs']%elem_of_app; [eapply Hmono; [exact Hg2|by apply Hp]|].
        apply list_elem_of_singleton in Hs' as ->. done.
Qed.

Definition task_mark (s : QxRecoveryTaskSummary) (c : catalog) : Prop :=
  QxRecoveryTaskNeedsRequeue s = true -> OidIsValid (ts_lastattemptoid s) = true ->
  queued c (ts_taskoid s) (ts_lastattemptoid s) = true.
Definition attempt_mark (s : QxRecoveryAttemptSummary) (c : catalog) : Prop :=
  QxRecoveryAttemptNeedsFence s = true -> reclaimed c (as_taskoid s) (as_attemptoid s) = true.

Lemma grown_self k w0 w : grown k w0 w -> grown k w w.
Proof. intros [A1 A2 _ _ _ _]. by apply grown_refl. Qed.

Lemma grown_mono j k w0 w : grown k w0 w -> j <= k -> grown j w0 w.
Proof. intros [A1 A2 A3 A4 A5 A6] Hj. split; auto. by eapply room_mono. Qed.

Lemma scan_tasks K w ctx :
  scannable w -> grown K w w -> Z.of_nat (length (own_tasks (w_vis w))) <= K ->
  let ss := task_summary (w_vis w) <$> own_tasks (w_vis w) in
  wp (each_summary (visit_task (Some (startup_hooks E)) true) ss ctx)
     (fun _ w' => grown (K - 1 * Z.of_nat (length ss)) w w' /\
        forall s, s ∈ ss -> task_mark s (w_vis w')) no_error w.
Proof.
  intros Hs Hg HK ss. apply wp_scan_loop; [lia|done|done| | |].
  - subst ss. rewrite length_fmap. lia.
  - intros s w1 w2 k Hg12 Hm Hn Hv. apply Hg12. by apply Hm.
  - intros s u k w1 Hin Hg1 Hk.
    apply list_elem_of_fmap in Hin as (info & -> & (t & -> & Ht & Hown)%own_task).
    unfold visit_task. apply wp_bind, wp_ret. cbn [andb].
    destruct (QxRecoveryTaskNeedsRequeue _) eqn:Hn.
    + cbn [call_hook hook_of hk_requeue_task startup_hooks].
      pose proof (gr_vis _ _ _ Hg1) as Hv1.
      eapply wp_mono; [eapply (wp_requeue k w1 _ u w1 t);
        [by eapply scannable_grown|by eapply grown_self|lia| |apply task_summary_oid|done]| |done].
      * destruct Hv1 as (q & l & h & ->). exact Ht.
      * intros u' w2 [Hg2 Hq]. split; [done|]. intros _. exact Hq.
    + apply wp_ret. split; [eapply grown_mono; [by eapply grown_self|lia]|]. intros Hn'. congruence.
Qed.

Lemma scan_attempts K w w1 ctx :
  scannable w1 -> grown K w1 w1 -> (exists q l h, w_vis w1 = set_ledgers q l h (w_vis w)) ->
  3 * Z.of_nat (length (own_attempts (w_vis w))) <= K ->
  let ss := attempt_summary (w_vis w) <$> own_attempts (w_vis w) in
  wp (each_summary (visit_attempt (Some (startup_hooks E)) true) ss ctx)
     (fun _ w' => grown (K - 3 * Z.of_nat (length ss)) w1 w' /\
        forall s, s ∈ ss -> attempt_mark s (w_vis w')) no_error w1.
Proof.
  intros Hs Hg Hw HK ss. apply wp_scan_loop; [lia|done|done| | |].
  - subst ss. rewrite length_fmap. lia.
  - intros s w2 w3 k Hg12 Hm Hn. apply Hg12. by apply Hm.
  - intros s u k w2 Hin Hg2 Hk. apply list_elem_of_fmap in Hin as (a & -> & Hin).
    assert (a ∈ own_attempts (w_vis w1)) as Ha by (destruct Hw as (q & l & h & ->); exact Hin).
    destruct (sc_attempts _ Hs a Ha) as (Ha0 & t & Ht & Et & Hown).
    unfold visit_attempt. apply wp_bind, wp_ret. cbn [andb].
    destruct (QxRecoveryAttemptNeedsFence _) eqn:Hn.
    + cbn [call_hook hook_of hk_fence_attempt startup_hooks].
      pose proof (gr_vis _ _ _ Hg2) as Hv2.
      eapply wp_mono; [eapply (wp_fence k w2 _ u w2 t);
        [by eapply scannable_grown|by eapply grown_self|lia| |exact (eq_sym Et)|exact Ha0|done]| |done].
      * destruct Hv2 as (q & l & h & ->). exact Ht.
      * intros u' w3 [Hg3 Hq]. split; [done|]. intros _. exact Hq.
    + apply wp_ret. split; [eapply grown_mono; [by eapply grown_self|lia]|]. intros Hn'. congruence.
Qed.

(** *** The whole scan *)

Lemma grown_base k w0 w0' w :
  w_vis w0 = w_vis w0' -> w_wal w0 = w_wal w0' -> grown k w0 w -> grown k w0' w.
Proof. intros Ev Ew [A1 A2 A3 A4 A5 A6]. rewrite Ev in *. rewrite Ew in A3. split; done. Qed.

Lemma grown_world k w0 w w' :
  w_vis w' = w_vis w -> w_new w' = w_new w -> w_next_oid w' = w_next_oid w -> w_wal w' = w_wal w ->
  grown k w0 w -> grown k w0 w'.
Proof.
  intros S1 S2 S3 S4 [A1 A2 A3 A4 A5 A6].
  split; rewrite ?S1, ?S2, ?S4; auto. unfold room in *. rewrite S1, S2, S3. done.
Qed.

Definition rows_needed (c : catalog) : Z :=
  Z.of_nat (length (own_tasks c)) + 3 * Z.of_nat (length (own_attempts c)).

(** Every task and attempt of the owner has the mark it needs. *)
Definition all_marked (c0 c : catalog) : Prop :=
  (forall s, s ∈ task_summary c0 <$> own_tasks c0 -> task_mark s c) /\
  (forall s, s ∈ attempt_summary c0 <$> own_attempts c0 -> attempt_mark s c).

Lemma visit_checkpoint_skip (s : QxRecoveryCheckpointSummary) u w :
  visit_checkpoint (Some (startup_hooks E)) false s u w = Ok u w.
Proof. reflexivity. Qed.

Lemma wp_startup_scan w :
  scannable w -> w_new w = empty_catalog -> room (rows_needed (w_vis w)) w ->
  wp (QxRecoveryRunStartupScan E (Some (startup_request E (GetUserId E))) (Some (startup_hooks E)) [])
     (fun _ w' => grown 0 w w' /\ all_marked (w_vis w) (w_vis w')) no_error w.
Proof.
  intros Hs Hn Hr. unfold QxRecoveryRunStartupScan. apply wp_bind, wp_gets.
  rewrite own_task_summaries, own_attempt_summaries.
  cbn [sr_include_attempts sr_include_checkpoints sr_requeue_checkpointed_tasks
    sr_fence_stale_attempts sr_rebuild_from_semantic_log startup_request].
  apply wp_bind, wp_ret, wp_bind. pose proof (grown_refl _ w Hr Hn) as Hg.
  eapply wp_mono; [apply (scan_tasks _ w _ Hs Hg); unfold rows_needed; lia| |done].
  rewrite length_fmap. intros u w1 [Hg1 Hm1].
  assert (scannable w1) as Hs1 by (eapply scannable_grown; [exact Hs|apply Hg1]).
  apply wp_bind. eapply wp_mono; [eapply (scan_attempts _ w w1 _ Hs1 (grown_self _ _ _ Hg1));
    [apply Hg1|unfold rows_needed; lia]| |done].
  rewrite length_fmap. intros u2 w2 [Hg2 Hm2]. apply wp_bind.
  eapply wp_ok; [apply each_summary_skip; intros; apply visit_checkpoint_skip|].
  apply wp_bind. unfold call_hook, hook_of, startup_hooks, hk_finish, qx_runtime_recovery_finish,
    report_stat. apply wp_bind, wp_modify, wp_ret, wp_ret. split.
  - apply (grown_world _ w w2); try done. eapply grown_trans; [exact Hg1|].
    eapply grown_mono; [exact Hg2|unfold rows_needed; lia].
  - split; [|exact Hm2]. intros s Hin Hneed Hv. apply Hg2. by apply Hm1.
Qed.

Lemma run_startup_scan w :
  scannable w -> w_new w = empty_catalog -> room (rows_needed (w_vis w)) w ->
  exists text w', run_command (pg_qx_test_run_startup_recovery E) w = Ok text w' /\
    grown 0 w w' /\ all_marked (w_vis w) (w_vis w').
Proof.
  intros Hs Hn Hr.
  assert (wp (pg_qx_test_run_startup_recovery E)
    (fun _ w' => grown 0 w w' /\ all_marked (w_vis w) (w_vis w')) no_error w) as Hwp.
  2: { unfold wp in Hwp. unfold run_command.
       destruct (pg_qx_test_run_startup_recovery E w) as [t w'|e w']; [|done].
       rewrite (cci_empty w') by apply Hwp. eauto. }
  unfold pg_qx_test_run_startup_recovery. apply wp_bind, wp_modify.
  set (w1 := set_recovery _ w). apply wp_bind. unfold qx_runtime_ensure_startup_recovery_scan.
  apply wp_bind, wp_gets. cbn [rs_valid set_recovery_valid w_recovery set_recovery w1 andb].
  replace (if OidIsValid (GetUserId E) then GetUserId E else GetUserId E) with (GetUserId E)
    by (by destruct (OidIsValid _)).
  apply wp_bind. eapply wp_mono; [apply (wp_startup_scan w1); [|done|exact Hr]| |done].
  - eapply scannable_grown; [exact Hs|]. apply (grown_refl _ w Hr Hn).
  - intros [report u] w2 [Hg Hm]. apply wp_modify. unfold qx_runtime_append_recovery_payload.
    apply wp_bind, wp_gets, wp_ret. split; [|exact Hm].
    apply (grown_world _ _ w2); try done. by apply (grown_base _ w1).
Qed.

(** ** The next scan *)

Lemma marked_tasks_settle c q l h info :
  (forall t a, queued c t a = true -> queued (set_ledgers q l h c) t a = true) ->
  task_mark (task_summary c info) (set_ledgers q l h c) ->
  QxRecoveryTaskNeedsRequeue (task_summary (set_ledgers q l h c) info) = true ->
  OidIsValid (ts_lastattemptoid (task_summary (set_ledgers q l h c) info)) = false.
Proof.
  intros Hmono Hm.
  set (b := qx_recovery_update_task_with_checkpoints (qx_recovery_update_task_with_attempts
    (qx_recovery_task_summary_from_catalog info) (own_attempts c))
    (QxCatalogBuildCheckpointInfoList c (MyDatabaseId E) (GetUserId E))).
  change (task_summary (set_ledgers q l h c) info) with
    (set_ts_scheduler (queued (set_ledgers q l h c) (ts_taskoid b) (ts_lastattemptoid b))
       (reclaimed (set_ledgers q l h c) (ts_taskoid b) (ts_lastattemptoid b)) b).
  unfold task_mark in Hm. change (task_summary c info) with
    (set_ts_scheduler (queued c (ts_taskoid b) (ts_lastattemptoid b))
       (reclaimed c (ts_taskoid b) (ts_lastattemptoid b)) b) in Hm.
  specialize (Hmono (ts_taskoid b) (ts_lastattemptoid b)). clearbody b.
  unfold QxRecoveryTaskNeedsRequeue in *. cbn [ts_scheduler_recovery_queued set_ts_scheduler
    ts_taskstate ts_needs_requeue ts_lastattemptoid ts_taskoid] in *.
  destruct (queued c _ _); [rewrite Hmono by done; done|].
  destruct (queued (set_ledgers q l h c) _ _); [done|]. intros Hn.
  destruct (OidIsValid (ts_lastattemptoid b)); [|done]. discriminate (Hm Hn eq_refl).
Qed.

Lemma marked_attempts_settle c q l h a :
  (forall t a, reclaimed c t a = true -> reclaimed (set_ledgers q l h c) t a = true) ->
  attempt_mark (attempt_summary c a) (set_ledgers q l h c) ->
  QxRecoveryAttemptNeedsFence (attempt_summary (set_ledgers q l h c) a) = false.
Proof.
  intros Hmono Hm. unfold attempt_mark, QxRecoveryAttemptNeedsFence in *.
  cbn [as_scheduler_reclaimed attempt_summary build_attempt_summary as_state as_taskoid as_attemptoid
    qx_recovery_attempt_summary_from_catalog] in *.
  fold (reclaimed c (qxattempttaskid a) (attempt_oid a)) in Hm.
  fold (reclaimed (set_ledgers q l h c) (qxattempttaskid a) (attempt_oid a)).
  specialize (Hmono (qxattempttaskid a) (attempt_oid a)).
  destruct (reclaimed c _ _); [rewrite Hmono by done; done|].
  destruct (reclaimed (set_ledgers q l h c) _ _); [done|].
  destruct (Ascii.eqb _ _); [|done]. discriminate (Hm eq_refl).
Qed.

Lemma idle_scan w :
  (forall info, info ∈ own_tasks (w_vis w) ->
     QxRecoveryTaskNeedsRequeue (task_summary (w_vis w) info) = true ->
     OidIsValid (ts_lastattemptoid (task_summary (w_vis w) info)) = false) ->
  (forall a, a ∈ own_attempts (w_vis w) ->
     QxRecoveryAttemptNeedsFence (attempt_summary (w_vis w) a) = false) ->
  w_new w = empty_catalog ->
  exists text w', run_command (pg_qx_test_run_startup_recovery E) w = Ok text w' /\
    w_vis w' = w_vis w /\ w_wal w' = w_wal w.
Proof.
  intros Ht Ha Hn.
  assert (wp (pg_qx_test_run_startup_recovery E)
    (fun _ w' => w_vis w' = w_vis w /\ w_wal w' = w_wal w /\ w_new w' = empty_catalog) no_error w) as Hwp.
  2: { unfold wp in Hwp. unfold run_command.
       destruct (pg_qx_test_run_startup_recovery E w) as [t w'|e w']; [|done].
       destruct Hwp as (H1 & H2 & H3). rewrite (cci_empty w') by done. eauto. }
  unfold pg_qx_test_run_startup_recovery. apply wp_bind, wp_modify.
  set (w1 := set_recovery _ w). apply wp_bind. unfold qx_runtime_ensure_startup_recovery_scan.
  apply wp_bind, wp_gets. cbn [rs_valid set_recovery_valid w_recovery set_recovery w1 andb].
  replace (if OidIsValid (GetUserId E) then GetUserId E else GetUserId E) with (GetUserId E)
    by (by destruct (OidIsValid _)).
  apply wp_bind. unfold QxRecoveryRunStartupScan. apply wp_bind, wp_gets.
  rewrite own_task_summaries, own_attempt_summaries. change (w_vis w1) with (w_vis w).
  cbn [sr_include_attempts sr_include_checkpoints sr_requeue_checkpointed_tasks
    sr_fence_stale_attempts sr_rebuild_from_semantic_log startup_request].
  apply wp_bind, wp_ret, wp_bind.
  eapply wp_ok; [apply each_summary_skip|].
  { intros s u w2 (info & -> & Hin)%list_elem_of_fmap. unfold visit_task, bind, call_hook, ret. cbn [hook_of
      startup_hooks hk_task hk_requeue_task andb]. specialize (Ht info Hin).
    destruct (QxRecoveryTaskNeedsRequeue _); [|done]. unfold qx_runtime_recovery_requeue_task.
    rewrite Ht by done. destruct (negb _); done. }
  apply wp_bind. eapply wp_ok; [apply each_summary_skip|].
  { intros s u w2 (a & -> & Hin)%list_elem_of_fmap. unfold visit_attempt. rewrite Ha by done. done. }
  apply wp_bind. eapply wp_ok; [apply each_summary_skip; intros; apply visit_checkpoint_skip|].
  done.
Qed.

(** C13. The startup scan puts every task of the owner that waits for recovery
    and has an attempt into the recovery queue, and marks the lease of every
    attempt that was still running as reclaimed; it writes to the three
    scheduler ledgers only.  Running it again, on what it left, writes nothing:
    neither a task nor an attempt is recovered twice. *)
Theorem startup_recovery_idempotent w :
  scannable w -> w_new w = empty_catalog -> room (rows_needed (w_vis w)) w ->
  exists text w', run_command (pg_qx_test_run_startup_recovery E) w = Ok text w' /\
    (exists q l h, w_vis w' = set_ledgers q l h (w_vis w)) /\
    (forall info, info ∈ own_tasks (w_vis w) ->
       let s := task_summary (w_vis w) info in
       qx_recovery_task_would_requeue s = true -> OidIsValid (ts_lastattemptoid s) = true ->
       queued (w_vis w') (task_oid (ti_row info)) (ts_lastattemptoid s) = true) /\
    (forall a, a ∈ own_attempts (w_vis w) -> qxattemptstate a = QX_ATTEMPT_STATE_RUNNING ->
       reclaimed (w_vis w') (qxattempttaskid a) (attempt_oid a) = true) /\
    exists text' w'', run_command (pg_qx_test_run_startup_recovery E) w' = Ok text' w'' /\
      w_vis w'' = w_vis w' /\ w_wal w'' = w_wal w'.
Proof.
  intros Hs Hn Hr. destruct (run_startup_scan w Hs Hn Hr) as (text & w' & Hrun & Hg & Hmt & Hma).
  exists text, w'. split; [done|]. pose proof Hg as [G1 G2 G3 G4 G5 G6]. split; [done|].
  split; [|split].
  - intros info Hin s Hw Hv. rewrite <- (task_summary_oid (w_vis w)). fold s.
    destruct (ts_scheduler_recovery_queued s) eqn:Hq; [by apply G5|].
    apply (Hmt s); [by apply list_elem_of_fmap_2| |done].
    unfold QxRecoveryTaskNeedsRequeue. rewrite Hq. exact Hw.
  - intros a Hin Hst. destruct (reclaimed (w_vis w) (qxattempttaskid a) (attempt_oid a)) eqn:Hrec;
      [by apply G6|]. apply (Hma (attempt_summary (w_vis w) a)); [by apply list_elem_of_fmap_2|].
    unfold QxRecoveryAttemptNeedsFence, attempt_summary, build_attempt_summary. cbn.
    fold (reclaimed (w_vis w) (qxattempttaskid a) (attempt_oid a)). rewrite Hrec, Hst. done.
  - destruct G4 as (q & l & h & Ev). apply idle_scan; [| |done]; rewrite Ev in *.
    + intros info Hin. apply marked_tasks_settle; [done|]. apply Hmt. by apply list_elem_of_fmap_2.
    + intros a Hin. apply marked_attempts_settle; [done|]. apply Hma. by apply list_elem_of_fmap_2.
Qed.
End Scan.

Lemma startup_recovery_idempotent_witness :
  let w := demo_world QX_TASK_STATE_RUNNING QX_ATTEMPT_STATE_RUNNING in
  exists text w', run_command (pg_qx_test_run_startup_recovery demo_env) w = Ok text w' /\
    queued demo_env (w_vis w') 20000 20001 = true /\ reclaimed demo_env (w_vis w') 20000 20001 = true.
Proof.
  intros w. destruct (startup_recovery_idempotent demo_env w) as (text & w' & Hrun & _ & Ht & Ha & _).
  - split.
    + discriminate.
    + repeat constructor. intros Hin. inversion Hin.
    + repeat constructor. discriminate.
    + intros a Hin. apply list_elem_of_singleton in Hin as ->. split; [discriminate|].
      exists (demo_task QX_TASK_STATE_RUNNING). split; [left|]. done.
    + intros t prefer u Hin. apply list_elem_of_singleton in Hin as ->. destruct prefer; by eexists.
  - reflexivity.
  - apply demo_room. vm_compute. split; discriminate.
  - exists text, w'. split; [exact Hrun|]. split.
    + apply (Ht (demo_info QX_TASK_STATE_RUNNING)); [left|reflexivity|reflexivity].
    + apply (Ha (demo_attempt QX_ATTEMPT_STATE_RUNNING)); [left|reflexivity].
Defined.
