(* ===== verification/RunnerProps.v ===== *)
(** * The engine and the tool runner agree

    The engine writes a request file, starts the runner with an environment of
    its own making, reads the response file and checks the receipt in it
    ([ToolExec]); the runner does the other half ([ToolRunner]).  The first
    theorem says that the two halves fit: what the runner answers to the
    engine's request is accepted.  The second says what a container is started
    with when the runner reads the engine's launch request. *)

From Stdlib Require Import Ascii String.
From S2P Require Import Prelude Text Numutils Types Scheduler Stat Observe SemanticLog Tables World.
From S2P Require Import Catalog Policy Backends ToolExec ToolRunner.
Open Scope string_scope.
Open Scope Z_scope.
Open Scope bool_scope.
Open Scope list_scope.

#[local] Arguments Ascii.eqb : simpl never.

(** ** Lines *)

Definition carriage_return : ascii := "013"%char.

(** Text that fits a buffer of [n] bytes and stays on its line. *)
Definition plain (n : nat) (s : string) : bool :=
  (String.length s <? n)%nat && negb (has_char newline s) && negb (has_char carriage_return s).

Lemma plain_spec n s :
  plain n s = true <->
  (String.length s < n)%nat /\ has_char newline s = false /\ has_char carriage_return s = false.
Proof. unfold plain. rewrite !andb_true_iff, !negb_true_iff, Nat.ltb_lt. tauto. Qed.

Lemma plain_weaken m n s : (m <= n)%nat -> plain m s = true -> plain n s = true.
Proof. rewrite !plain_spec. intros Hmn (H1 & H2 & H3). split; [lia|done]. Qed.

Lemma fgets_line n line rest :
  (String.length line < n)%nat -> has_char newline line = false ->
  fgets n (line +:+ String newline rest) = (line +:+ String newline "", rest).
Proof.
  revert n. induction line as [|c line IH]; intros [|n] Hl Hn; simpl in Hl; try lia.
  - done.
  - simpl in Hn. apply orb_false_iff in Hn as [Hc Hn]. simpl. rewrite Ascii.eqb_sym, Hc.
    rewrite IH by (done || lia). done.
Qed.

Lemma upto_line v :
  has_char newline v = false -> has_char carriage_return v = false ->
  upto_set line_break (v +:+ String newline "") = v.
Proof.
  induction v as [|c v IH]; simpl; [done|]. intros [H1 H2]%orb_false_iff [H3 H4]%orb_false_iff.
  unfold line_break at 1. rewrite (Ascii.eqb_sym c), (Ascii.eqb_sym c newline).
  unfold carriage_return in H3. rewrite H3, H1. simpl. rewrite IH by done. done.
Qed.

(** A pair whose line fits into a buffer of [n] characters. *)
Definition pair_fits (n : nat) (p : pair) : bool :=
  negb (has_char "=" (fst p)) && negb (has_char newline (fst p)) &&
  plain (n - String.length (fst p) - 1) (snd p).

Lemma pair_fits_line n k v rest :
  pair_fits n (k, v) = true ->
  fgets n (pair_line (k, v) +:+ rest) = (k +:+ String "=" (v +:+ String newline ""), rest) /\
  split_char "=" (k +:+ String "=" (v +:+ String newline "")) = (k, Some (v +:+ String newline "")) /\
  upto_set line_break (v +:+ String newline "") = v /\
  (String.length v < n - String.length k - 1)%nat /\
  String.eqb (pair_line (k, v) +:+ rest) "" = false.
Proof.
  unfold pair_fits. cbn [fst snd]. rewrite !andb_true_iff, !negb_true_iff, plain_spec.
  intros [[He Hk] (Hl & Hn & Hc)]. rewrite pair_line_app. split; [|split; [|split; [|split]]].
  - rewrite fgets_line.
    + rewrite append_assoc. done.
    + rewrite append_length. simpl. lia.
    + rewrite has_char_app. cbn [has_char]. rewrite Hk, Hn. done.
  - by apply split_char_app.
  - by apply upto_line.
  - done.
  - destruct k; done.
Qed.

(** Both programs read back the pairs that were written. *)
Lemma request_pairs_read ps fuel :
  forallb (pair_fits 511) ps = true -> (length ps < fuel)%nat ->
  request_pairs fuel (pairs_text ps) = ps.
Proof.
  revert fuel. induction ps as [|[k v] ps IH]; intros [|fuel] Hok Hl; simpl in Hl; try lia; [done|].
  cbn [forallb] in Hok. apply andb_true_iff in Hok as [Hp Hps].
  change (pairs_text ((k, v) :: ps)) with (pair_line (k, v) +:+ pairs_text ps).
  destruct (pair_fits_line 511 k v (pairs_text ps) Hp) as (E1 & E2 & E3 & _ & E5).
  cbn [request_pairs]. rewrite E5, E1, E2, E3, IH by (done || lia). done.
Qed.

Lemma response_lines_read ps fuel :
  forallb (pair_fits (LINE_SIZE - 1)) ps = true -> (length ps < fuel)%nat ->
  response_lines fuel (pairs_text ps) = ps.
Proof.
  revert fuel. induction ps as [|[k v] ps IH]; intros [|fuel] Hok Hl; simpl in Hl; try lia; [done|].
  cbn [forallb] in Hok. apply andb_true_iff in Hok as [Hp Hps].
  change (pairs_text ((k, v) :: ps)) with (pair_line (k, v) +:+ pairs_text ps).
  destruct (pair_fits_line _ k v (pairs_text ps) Hp) as (E1 & E2 & E3 & E4 & E5).
  cbn [response_lines]. rewrite E5, E1, E2, E3.
  assert ((String.length v =? LINE_SIZE - (String.length k + 1) - 1)%nat = false) as ->
    by (apply Nat.eqb_neq; lia).
  rewrite andb_false_r, IH by (done || lia). done.
Qed.

(** ** Numbers *)

Lemma pretty_N_go_bound k x s :
  (x < 10 ^ N.of_nat k)%N -> (String.length (pretty_N_go x s) <= k + String.length s)%nat.
Proof.
  revert x s. induction k as [|k IH]; intros x s Hx.
  - assert (x = 0)%N as -> by (simpl in Hx; lia). rewrite pretty_N_go_0. lia.
  - destruct (decide (x = 0)%N) as [->|Hne]; [rewrite pretty_N_go_0; lia|].
    rewrite pretty_N_go_step by lia. etransitivity; [apply IH|simpl; lia].
    apply N.Div0.div_lt_upper_bound. rewrite Nat2N.inj_succ, N.pow_succ_r' in Hx. lia.
Qed.

Lemma show_u_length z : 0 <= z < 2 ^ 32 -> (String.length (show_u z) <= 10)%nat.
Proof.
  intros Hz. unfold show_u, pretty, pretty_N. case_decide; [simpl; lia|].
  etransitivity; [apply (pretty_N_go_bound 10); lia|]. done.
Qed.

Lemma show_d_nonneg z : 0 <= z -> show_d z = show_u z.
Proof. intros Hz. unfold show_d, show_u, pretty, pretty_Z. destruct z; done. Qed.

Lemma show_d_length z : in_int32 z -> (String.length (show_d z) <= 11)%nat.
Proof.
  intros Hz. unfold in_int32 in Hz. destruct (Z.le_gt_cases 0 z) as [H|H].
  - rewrite show_d_nonneg by done. pose proof (show_u_length z ltac:(lia)). lia.
  - assert (show_d z = String "-" (show_u (- z))) as ->.
    { unfold show_d, show_u, pretty, pretty_Z. destruct z; done. }
    pose proof (show_u_length (- z) ltac:(lia)). simpl. lia.
Qed.

Lemma show_d_no_char c z : is_digit c = false -> c <> "-"%char -> has_char c (show_d z) = false.
Proof.
  intros Hc Hm. destruct (Z.le_gt_cases 0 z) as [H|H].
  - rewrite show_d_nonneg by done. by apply show_u_no_char.
  - assert (show_d z = String "-" (show_u (- z))) as ->.
    { unfold show_d, show_u, pretty, pretty_Z. destruct z; done. }
    cbn [has_char]. rewrite show_u_no_char by done. apply Ascii.eqb_neq in Hm. rewrite Hm. done.
Qed.

Lemma digits_prefix_all acc s :
  all_chars is_digit s = true -> digits_prefix acc s = (decimal acc s, "").
Proof.
  revert acc. induction s as [|c s IH]; intros acc Hs; [done|]. cbn [all_chars] in Hs.
  apply andb_true_iff in Hs as [Hc Hs]. cbn [digits_prefix decimal]. unfold isdigit. rewrite Hc.
  by apply IH.
Qed.

Lemma digit_plain c : is_digit c = true -> isspace c = false /\ Ascii.eqb c "-" = false /\
  Ascii.eqb c "+" = false.
Proof.
  destruct c as [[] [] [] [] [] [] [] []]; vm_compute; intros H; try discriminate H; done.
Qed.

Lemma strtol_show z : 0 <= z < 2 ^ 63 -> strtol (show_d z) = z.
Proof.
  intros Hz. rewrite show_d_nonneg by lia. pose proof (show_u_digits z) as Hd.
  pose proof (show_u_nonempty z) as Hn. destruct (show_u z) as [|c t] eqn:Es; [done|].
  pose proof Hd as Hc. cbn [all_chars] in Hc. apply andb_true_iff in Hc as [Hc _].
  apply digit_plain in Hc as (H1 & H2 & H3). unfold strtol, signed_text. cbn [skip_spaces].
  rewrite H1, H2, H3, digits_prefix_all by done.
  rewrite <- Es. unfold show_u. rewrite decimal_pretty. lia.
Qed.

(** ** What the engine hands over *)

(** [envp] and [argv] of [qx_launch_principal_program]. *)
Definition principal_environment (p : QxSandboxProfile) (runtime_dir launch_request_path : string) :
    list pair :=
  [("QX_SANDBOX_PROFILE", sp_name p); ("QX_SANDBOX_TIMEOUT_MS", show_d (sp_timeout_ms p));
   ("QX_SANDBOX_MEMORY_KB", show_d (sp_memory_kb p));
   ("QX_SANDBOX_PROCESS_LIMIT", show_d (sp_process_limit p));
   ("QX_SANDBOX_MAX_OPEN_FILES", show_d (sp_max_open_files p));
   ("QX_RUNTIME_ROOT", runtime_dir); ("TMPDIR", runtime_dir)] ++
  (if String.eqb launch_request_path "" then [] else [("LAUNCH_REQUEST_FILE", launch_request_path)]) ++
  [("LANG", "C")].

Definition principal_argv (request_path response_path : string) : list string :=
  ["--request-file"; request_path; "--response-file"; response_path].

Definition getenv_in (env : list pair) (name : string) : cstr :=
  snd <$> List.find (fun p => String.eqb (fst p) name) env.

(** A value that is missing or can be sent, and one that is there. *)
Definition given (n : nat) (s : cstr) : bool :=
  match s with None => true | Some t => negb (String.eqb t "") && plain n t end.
Definition named (n : nat) (s : cstr) : bool :=
  match s with None => false | Some t => negb (String.eqb t "") && plain n t end.

(** The contract's values fit the runner's buffers and stay on their lines. *)
Record sendable (v : contract_view) (goal tool_sandbox : cstr) (key signer : string) : Prop := {
  sd_task : 0 <= cv_taskoid v < 2 ^ 32;
  sd_goal : Z.of_nat (String.length (cstr_or goal "")) < 2 ^ 32;
  sd_phase : given 32 (cv_phase v) = true;
  sd_tool : named 128 (cv_tool_name v) = true;
  sd_handler : plain 256 (cstr_or (cv_handler_name v) "") = true;
  sd_sandbox : given 64 tool_sandbox = true;
  sd_principal : named 128 (cv_principal_name v) = true;
  sd_runtime : named 64 (Some (cv_principal_runtime v)) = true;
  sd_provider : given 128 (cv_provider_name v) = true;
  sd_kind : given 64 (cv_provider_kind v) = true;
  sd_endpoint : given 256 (cv_provider_endpoint v) = true;
  sd_schema : named 64 (Some (cv_receipt_schema v)) = true;
  sd_alg : named 64 (Some (cv_receipt_alg v)) = true;
  sd_nonce : named 256 (Some (cv_receipt_nonce v)) = true;
  sd_key : plain 256 key = true;
  sd_signer : plain 260 signer = true
}.

(** One of the engine's profiles, or the one of a microVM made from it. *)
Record profile_ok (p : QxSandboxProfile) : Prop := {
  po_name : named 64 (Some (sp_name p)) = true;
  po_timeout : 0 <= sp_timeout_ms p < 2 ^ 31;
  po_memory : 0 <= sp_memory_kb p < 2 ^ 31;
  po_process_limit : 0 <= sp_process_limit p < 2 ^ 31
}.

Lemma given_plain n s d : given n s = true -> plain n d = true -> plain n (cstr_or s d) = true.
Proof. destruct s; simpl; [|done]. rewrite andb_true_iff. tauto. Qed.

Lemma named_plain n s d : named n s = true -> plain n (cstr_or s d) = true.
Proof. destruct s; simpl; [|done]. rewrite andb_true_iff. tauto. Qed.

Lemma named_some n s : named n (Some s) = true -> s <> "" /\ plain n s = true.
Proof. simpl. rewrite andb_true_iff, negb_true_iff, String.eqb_neq. done. Qed.

Lemma or_text_named n s d : named n (Some s) = true -> or_text s d = s.
Proof. intros [Hs _]%named_some. unfold or_text. by rewrite (proj2 (String.eqb_neq _ _)). Qed.

(** The two programs print the same text for a missing value. *)
Lemma or_text_given n s d : given n s = true -> or_text (cstr_or s "") d = cstr_or s d.
Proof. destruct s as [t|]; [|done]. intros H. by apply (or_text_named n). Qed.

Lemma or_text_default n s d d' : given n s = true -> d <> "" -> or_text (cstr_or s d) d' = cstr_or s d.
Proof.
  destruct s as [t|]; [intros H _; by apply (or_text_named n)|]. intros _ Hd. unfold or_text. simpl.
  by rewrite (proj2 (String.eqb_neq _ _)).
Qed.

Lemma plain_id n s : plain n s = true -> strlcpy n s = s.
Proof. rewrite plain_spec. intros [H _]. by apply strlcpy_id. Qed.

Lemma plain_show_d z : in_int32 z -> plain 12 (show_d z) = true.
Proof.
  intros Hz. apply plain_spec. pose proof (show_d_length z Hz).
  rewrite !show_d_no_char by done. split; [lia|done].
Qed.

Lemma plain_show_u z : 0 <= z < 2 ^ 32 -> plain 12 (show_u z) = true.
Proof.
  intros Hz. apply plain_spec. pose proof (show_u_length z Hz).
  rewrite !show_u_no_char by done. split; [lia|done].
Qed.

Lemma pair_fits_plain n m k s :
  has_char "=" k || has_char newline k = false -> (m + String.length k + 1 <= n)%nat ->
  plain m s = true -> pair_fits n (k, s) = true.
Proof.
  intros [H1 H2]%orb_false_iff Hl Hs. unfold pair_fits. cbn [fst snd]. rewrite H1, H2.
  cbn [negb andb]. eapply plain_weaken; [|exact Hs]. lia.
Qed.

Lemma fits_cons n x l :
  pair_fits n x = true -> forallb (pair_fits n) l = true -> forallb (pair_fits n) (x :: l) = true.
Proof. intros Hx Hl. cbn [forallb]. by rewrite Hx, Hl. Qed.

Lemma respond_eq R r detail container vm payload signature :
  run_backend R r = Some (detail, container, vm) ->
  build_receipt_payload r (environment_mode r) (path_basename (rq_workdir r))
    (receipt_attestation_mode r) (or_text (rq_receipt_schema r) "qx.receipt.v1")
    (or_text (rq_receipt_alg r) "hmac-sha256") (metered_tokens r) (metered_cost r (metered_tokens r))
    detail = payload ->
  compute_receipt_signature R r payload = Some signature ->
  respond R r = Some (pairs_text (response_pairs r (or_text (rq_receipt_schema r) "qx.receipt.v1")
    (or_text (rq_receipt_alg r) "hmac-sha256") (receipt_attestation_mode r) signature
    (metered_tokens r) (metered_cost r (metered_tokens r)) detail container vm)).
Proof. intros Hb Hp Hs. unfold respond. rewrite Hb, Hp, Hs. reflexivity. Qed.

(** *** Reading and checking step by step *)

Lemma mforeach_ok {A} (f : A -> M unit) l w :
  Forall (fun x => f x w = Ok tt w) l -> mforeach f l w = Ok tt w.
Proof. induction 1 as [|x l Hx _ IH]; cbn [mforeach]; [done|]. erewrite bind_run by exact Hx. done. Qed.

Lemma check_text k s w :
  existsb (String.eqb k) ["TOKENS"; "COST"; "TIMEOUT_MS"; "PROCESS_LIMIT"; "STATUS"] = false ->
  check_response_pair (k, s) w = Ok tt w.
Proof.
  cbn [existsb]. rewrite !orb_false_iff. intros (H1 & H2 & H3 & H4 & H5 & _).
  unfold check_response_pair. cbn [existsb]. rewrite H1, H2, H3, H4, H5. done.
Qed.

Lemma check_number k z w :
  existsb (String.eqb k) ["TOKENS"; "COST"; "TIMEOUT_MS"; "PROCESS_LIMIT"] = true ->
  in_int32 z -> check_response_pair (k, show_d z) w = Ok tt w.
Proof.
  intros Hk Hz. unfold check_response_pair. rewrite Hk. unfold bind, read_int32.
  rewrite strtoint32_roundtrip by done. done.
Qed.

Lemma expect_same what noun e a w : a = e \/ e = None -> expect what noun e a w = Ok tt w.
Proof.
  unfold expect. destruct e as [e|]; [|done]. intros [->|Hn]; [|done]. simpl. by rewrite String.eqb_refl.
Qed.

Section Protocol.
Context (R : RunnerEnv) (T : ToolEnv).
Context (v : contract_view) (goal tool_sandbox : cstr) (input_present : bool).
Context (key signer : string) (p : QxSandboxProfile) (dir : string).

Definition sent_key : string := if String.eqb (cv_receipt_alg v) "ed25519" then "" else key.

Definition sent_pairs : list pair :=
  [("PHASE", cstr_or (cv_phase v) ""); ("TASK_OID", show_u (cv_taskoid v));
   ("GOAL_LENGTH", show_u (Z.of_nat (String.length (cstr_or goal ""))));
   ("INPUT_PRESENT", show_bool input_present); ("TOOL", cstr_or (cv_tool_name v) "");
   ("HANDLER", cstr_or (cv_handler_name v) ""); ("SANDBOX", cstr_or tool_sandbox "builtin");
   ("PRINCIPAL", cstr_or (cv_principal_name v) ""); ("PRINCIPAL_RUNTIME", cv_principal_runtime v);
   ("PROVIDER", cstr_or (cv_provider_name v) "");
   ("PROVIDER_KIND", cstr_or (cv_provider_kind v) "loopback");
   ("PROVIDER_ENDPOINT", cstr_or (cv_provider_endpoint v) "local://qhapaqxian-tool-runner");
   ("REQUIRE_ATTESTATION", show_bool (cv_require_attestation v));
   ("RECEIPT_SCHEMA", cv_receipt_schema v); ("RECEIPT_ALG", cv_receipt_alg v);
   ("RECEIPT_NONCE", cv_receipt_nonce v); ("RECEIPT_KEY", sent_key); ("RECEIPT_SIGNER", signer)].

Lemma request_is_pairs :
  request_text v (cv_phase v) goal tool_sandbox input_present sent_key signer "" "" =
  pairs_text sent_pairs.
Proof. reflexivity. Qed.

Hypothesis Hsend : sendable v goal tool_sandbox key signer.
Hypothesis Hprofile : profile_ok p.

Lemma sent_key_plain : plain 256 sent_key = true.
Proof. unfold sent_key. destruct (String.eqb _ _); [done|apply Hsend]. Qed.

Lemma sent_pairs_fit : forallb (pair_fits 511) sent_pairs = true.
Proof.
  destruct Hsend. pose proof sent_key_plain. unfold sent_pairs.
  repeat apply fits_cons; try done.
  - apply (pair_fits_plain _ 32); [done|simpl; lia|by apply given_plain].
  - apply (pair_fits_plain _ 12); [done|simpl; lia|by apply plain_show_u].
  - apply (pair_fits_plain _ 12); [done|simpl; lia|apply plain_show_u; lia].
  - destruct input_present; done.
  - apply (pair_fits_plain _ 128); [done|simpl; lia|by apply named_plain].
  - apply (pair_fits_plain _ 256); [done|simpl; lia|done].
  - apply (pair_fits_plain _ 64); [done|simpl; lia|by apply given_plain].
  - apply (pair_fits_plain _ 128); [done|simpl; lia|by apply named_plain].
  - apply (pair_fits_plain _ 64); [done|simpl; lia|by apply named_some].
  - apply (pair_fits_plain _ 128); [done|simpl; lia|by apply given_plain].
  - apply (pair_fits_plain _ 64); [done|simpl; lia|by apply given_plain].
  - apply (pair_fits_plain _ 256); [done|simpl; lia|by apply given_plain].
  - destruct (cv_require_attestation v); done.
  - apply (pair_fits_plain _ 64); [done|simpl; lia|by apply named_some].
  - apply (pair_fits_plain _ 64); [done|simpl; lia|by apply named_some].
  - apply (pair_fits_plain _ 256); [done|simpl; lia|by apply named_some].
  - apply (pair_fits_plain _ 256); [done|simpl; lia|done].
  - apply (pair_fits_plain _ 260); [done|simpl; lia|done].
Qed.

(** The request as the runner has it after reading the file and its
    environment. *)
Definition sent_request : Request :=
  {| rq_phase := cstr_or (cv_phase v) ""; rq_tool := cstr_or (cv_tool_name v) "";
     rq_handler := cstr_or (cv_handler_name v) ""; rq_sandbox := cstr_or tool_sandbox "builtin";
     rq_principal := cstr_or (cv_principal_name v) ""; rq_principal_runtime := cv_principal_runtime v;
     rq_provider := cstr_or (cv_provider_name v) "";
     rq_provider_kind := cstr_or (cv_provider_kind v) "loopback";
     rq_provider_endpoint := cstr_or (cv_provider_endpoint v) "local://qhapaqxian-tool-runner";
     rq_docker_cli := ""; rq_docker_host := ""; rq_container_image := ""; rq_qemu_cli := "";
     rq_microvm_kernel := ""; rq_microvm_initrd := ""; rq_microvm_accel := "";
     rq_receipt_schema := cv_receipt_schema v; rq_receipt_alg := cv_receipt_alg v;
     rq_receipt_nonce := cv_receipt_nonce v; rq_receipt_key := sent_key; rq_receipt_signer := signer;
     rq_profile := sp_name p; rq_workdir := dir; rq_task_oid := cv_taskoid v;
     rq_goal_length := Z.of_nat (String.length (cstr_or goal ""));
     rq_timeout_ms := sp_timeout_ms p; rq_memory_kb := sp_memory_kb p;
     rq_process_limit := sp_process_limit p; rq_input_present := input_present;
     rq_path_present := false; rq_require_attestation := cv_require_attestation v;
     rq_allow_network := false; rq_allow_privilege_escalation := false; rq_readonly_rootfs := true;
     rq_seccomp_mode := ""; rq_cgroup_mode := ""; rq_launch_request_file := "" |}.

(** The runner was started by the engine, in the runtime directory. *)
Record started (request_path response_path : string) : Prop := {
  st_env : re_getenv R = getenv_in (principal_environment p dir "");
  st_cwd : re_getcwd R = Some dir;
  st_dir : path_basename dir = "pg_qx_runtime";
  st_request : re_file R request_path =
    Some (request_text v (cv_phase v) goal tool_sandbox input_present sent_key signer "" "");
  st_response : re_can_write R response_path = true
}.

Lemma sent_request_read req_path resp_path :
  started req_path resp_path -> request_of_pairs R sent_pairs = sent_request.
Proof.
  intros [Henv Hcwd _ _ _]. pose proof sent_key_plain as Hkey. destruct Hsend, Hprofile.
  unfold request_of_pairs, field, number, flag, environment_number. rewrite Henv, Hcwd.
  lazy [last_value fold_left sent_pairs String.eqb Ascii.eqb Bool.eqb fst snd getenv_in
    principal_environment app List.find fmap option_fmap option_map is_blank negb].
  rewrite <- !show_d_nonneg by lia.
  rewrite !strtol_show by lia.
  repeat rewrite plain_id by (first [done | by apply given_plain | by apply named_plain |
    by apply named_some]).
  unfold sent_request. destruct input_present, (cv_require_attestation v); done.
Qed.

Lemma parse_sent req_path resp_path :
  started req_path resp_path -> parse_request R req_path = Some sent_request.
Proof.
  intros Hst. pose proof (sent_request_read _ _ Hst) as Hread. destruct Hst as [Henv _ _ Hreq _].
  unfold parse_request. rewrite Hreq, request_is_pairs.
  rewrite request_pairs_read; [|apply sent_pairs_fit|pose proof (pairs_text_length sent_pairs); lia].
  rewrite Hread. unfold apply_launch_request.
  change (rq_launch_request_file sent_request) with "". cbn [String.eqb negb]. rewrite Henv.
  change (getenv_in (principal_environment p dir "") "LAUNCH_REQUEST_FILE") with (@None string).
  cbn [rq_tool rq_principal sent_request].
  pose proof (sd_tool _ _ _ _ _ Hsend) as Ht. pose proof (sd_principal _ _ _ _ _ Hsend) as Hp.
  destruct (cv_tool_name v) as [t|]; [|done]. destruct (cv_principal_name v) as [pr|]; [|done].
  cbn [cstr_or]. apply named_some in Ht as [Ht _]. apply named_some in Hp as [Hp _].
  rewrite !(proj2 (String.eqb_neq _ _)) by done. done.
Qed.

(** ** The receipt *)

(** The principal has no container or microVM of its own. *)
Definition on_host : Prop :=
  forall kind, kind = "container" \/ kind = "microvm" ->
  cstr_or (cv_provider_kind v) "loopback" = kind -> cv_principal_runtime v <> kind.

Lemma run_backend_host : on_host -> run_backend R sent_request = Some (call_text sent_request, None, None).
Proof.
  intros Hh. unfold run_backend. cbn [rq_provider_kind rq_principal_runtime sent_request].
  assert (forall kind, kind = "container" \/ kind = "microvm" ->
    String.eqb (cstr_or (cv_provider_kind v) "loopback") kind &&
    String.eqb (cv_principal_runtime v) kind = false) as Hf.
  { intros kind Hk. destruct (String.eqb _ kind) eqn:E1; [|done].
    apply String.eqb_eq in E1. cbn [andb]. apply String.eqb_neq. by apply Hh. }
  rewrite !Hf by auto. rewrite strlcpy_id; [done|].
  destruct Hsend. unfold call_text. cbn [rq_tool rq_principal rq_phase rq_task_oid sent_request].
  rewrite (or_text_given 32) by done.
  pose proof (named_plain _ _ "" sd_tool0) as H1%plain_spec.
  pose proof (named_plain _ _ "" sd_principal0) as H2%plain_spec.
  pose proof (given_plain _ _ "submit" sd_phase0 eq_refl) as H3%plain_spec.
  pose proof (show_u_length (cv_taskoid v) sd_task0). rewrite show_d_nonneg by lia.
  unfold cat. cbn [foldr]. rewrite !append_length. simpl String.length. lia.
Qed.

#[local] Abbreviation sent_tokens := (metered_tokens sent_request).
#[local] Abbreviation sent_cost := (metered_cost sent_request (metered_tokens sent_request)).
#[local] Abbreviation sent_detail := (call_text sent_request).
Definition sent_attestation : string :=
  qx_expected_attestation_mode (Some (cstr_or (cv_provider_kind v) "loopback"))
    (cv_require_attestation v).

(** The text both programs sign. *)
Definition agreed_receipt : string :=
  qx_receipt_payload (cv_phase v) (cv_taskoid v) (cv_tool_name v) (cv_principal_name v)
    (Some (cv_principal_runtime v)) (cv_provider_name v)
    (Some (cstr_or (cv_provider_kind v) "loopback"))
    (Some (cstr_or (cv_provider_endpoint v) "local://qhapaqxian-tool-runner"))
    (Some (cstr_or tool_sandbox "builtin")) (Some (sp_name p)) (Some "minimal")
    (Some "pg_qx_runtime") (sp_timeout_ms p) (sp_process_limit p) false
    (Some (cv_receipt_schema v)) (Some (cv_receipt_alg v)) (Some (cv_receipt_nonce v))
    (Some sent_attestation) sent_tokens sent_cost (Some sent_detail).

Lemma sent_charges : in_int32 sent_tokens /\ in_int32 sent_cost.
Proof.
  assert (in_int32 sent_tokens) as Ht by apply int32_range. split; [done|].
  unfold metered_cost. unfold in_int32 in *.
  pose proof (Z.quot_rem' sent_tokens 5). pose proof (Z.rem_bound_abs sent_tokens 5 ltac:(lia)).
  assert (Z.abs (Z.quot sent_tokens 5) <= 2 ^ 31 / 5).
  { rewrite <- Z.quot_abs by lia. rewrite Z.quot_div_nonneg by lia. apply Z.div_le_mono; lia. }
  destruct (String.eqb _ _); lia.
Qed.

Lemma attestation_length kind att : (String.length (qx_expected_attestation_mode kind att) <= 26)%nat.
Proof.
  unfold qx_expected_attestation_mode. destruct att; simpl; [|lia].
  repeat (destruct (cstr_is _ _); [simpl; lia|]). simpl; lia.
Qed.

Lemma attestation_plain : plain 27 sent_attestation = true.
Proof.
  unfold sent_attestation, qx_expected_attestation_mode. destruct (cv_require_attestation v); [|done].
  simpl negb. repeat (destruct (cstr_is _ _); [done|]). done.
Qed.

Lemma call_text_length : (String.length sent_detail < 400)%nat.
Proof.
  destruct Hsend. unfold call_text.
  cbn [rq_tool rq_principal rq_phase rq_task_oid sent_request]. rewrite (or_text_given 32) by done.
  pose proof (named_plain _ _ "" sd_tool0) as [H1 _]%plain_spec.
  pose proof (named_plain _ _ "" sd_principal0) as [H2 _]%plain_spec.
  pose proof (given_plain _ _ "submit" sd_phase0 eq_refl) as [H3 _]%plain_spec.
  pose proof (show_u_length (cv_taskoid v) sd_task0). rewrite show_d_nonneg by lia.
  unfold cat. cbn [foldr]. rewrite !append_length. simpl String.length. lia.
Qed.

Lemma sent_detail_plain : plain 400 sent_detail = true.
Proof.
  pose proof call_text_length. destruct Hsend. apply plain_spec. split; [done|]. unfold call_text.
  cbn [rq_tool rq_principal rq_phase rq_task_oid sent_request]. rewrite (or_text_given 32) by done.
  pose proof (named_plain _ _ "" sd_tool0) as (_ & H1 & H2)%plain_spec.
  pose proof (named_plain _ _ "" sd_principal0) as (_ & H3 & H4)%plain_spec.
  pose proof (given_plain _ _ "submit" sd_phase0 eq_refl) as (_ & H5 & H6)%plain_spec.
  unfold cat. cbn [foldr]. rewrite !has_char_app, H1, H2, H3, H4, H5, H6, !show_d_no_char by done. done.
Qed.

Lemma agreed_receipt_length : (String.length agreed_receipt < 4096)%nat.
Proof.
  pose proof call_text_length as Hdet. destruct sent_charges as [Ht Hc].
  pose proof (show_d_length _ Ht). pose proof (show_d_length _ Hc). destruct Hsend, Hprofile.
  pose proof (show_d_length (sp_timeout_ms p) ltac:(unfold in_int32; lia)).
  pose proof (show_d_length (sp_process_limit p) ltac:(unfold in_int32; lia)).
  pose proof (show_u_length (cv_taskoid v) sd_task0).
  pose proof (attestation_length (Some (cstr_or (cv_provider_kind v) "loopback"))
    (cv_require_attestation v)).
  pose proof (given_plain _ _ "submit" sd_phase0 eq_refl) as [? _]%plain_spec.
  pose proof (named_plain _ _ "<unknown>" sd_tool0) as [? _]%plain_spec.
  pose proof (named_plain _ _ "<unknown>" sd_principal0) as [? _]%plain_spec.
  pose proof (named_some _ _ sd_runtime0) as [_ [? _]%plain_spec].
  pose proof (given_plain _ _ "<unknown>" sd_provider0 eq_refl) as [? _]%plain_spec.
  pose proof (given_plain _ _ "loopback" sd_kind0 eq_refl) as [? _]%plain_spec.
  pose proof (given_plain _ _ "local://qhapaqxian-tool-runner" sd_endpoint0 eq_refl) as [? _]%plain_spec.
  pose proof (given_plain _ _ "builtin" sd_sandbox0 eq_refl) as [? _]%plain_spec.
  pose proof (named_some _ _ po_name0) as [_ [? _]%plain_spec].
  pose proof (named_some _ _ sd_schema0) as [_ [? _]%plain_spec].
  pose proof (named_some _ _ sd_alg0) as [_ [? _]%plain_spec].
  pose proof (named_some _ _ sd_nonce0) as [_ [? _]%plain_spec].
  unfold agreed_receipt, qx_receipt_payload, cat, sent_attestation, show_bool.
  cbn [foldr]. rewrite !append_length. cbn [cstr_or].
  repeat match goal with |- context [String.length ?x] =>
    lazymatch x with String _ _ => let n := eval cbv in (String.length x) in
      change (String.length x) with n end end.
  change (String.length "") with 0%nat. lia.
Qed.

Lemma receipt_agreed :
  path_basename dir = "pg_qx_runtime" ->
  build_receipt_payload sent_request (environment_mode sent_request) (path_basename (rq_workdir sent_request))
    (receipt_attestation_mode sent_request) (or_text (rq_receipt_schema sent_request) "qx.receipt.v1")
    (or_text (rq_receipt_alg sent_request) "hmac-sha256") sent_tokens sent_cost sent_detail =
  agreed_receipt.
Proof.
  intros Hdir. pose proof agreed_receipt_length as Hlen. unfold build_receipt_payload.
  cbn [rq_phase rq_task_oid rq_tool rq_principal rq_principal_runtime rq_provider rq_provider_kind
    rq_provider_endpoint rq_sandbox rq_profile rq_timeout_ms rq_process_limit rq_path_present
    rq_receipt_nonce rq_receipt_schema rq_receipt_alg rq_workdir sent_request environment_mode].
  rewrite Hdir. destruct Hsend, Hprofile.
  rewrite (or_text_given 32), (or_text_given 128 (cv_provider_name v)) by done.
  rewrite (or_text_default 64 (cv_provider_kind v)), (or_text_default 256 (cv_provider_endpoint v)),
    (or_text_default 64 tool_sandbox) by done.
  rewrite (or_text_named 64 (cv_principal_runtime v)), (or_text_named 64 (sp_name p)),
    (or_text_named 64 (cv_receipt_schema v)), (or_text_named 64 (cv_receipt_alg v)),
    (or_text_named 256 (cv_receipt_nonce v)) by done.
  assert (forall d, or_text (cstr_or (cv_tool_name v) "") d = cstr_or (cv_tool_name v) d) as ->.
  { intros d. apply (or_text_given 128). by destruct (cv_tool_name v). }
  assert (forall d, or_text (cstr_or (cv_principal_name v) "") d = cstr_or (cv_principal_name v) d) as ->.
  { intros d. apply (or_text_given 128). by destruct (cv_principal_name v). }
  rewrite (show_d_nonneg (cv_taskoid v)) by lia.
  change (receipt_attestation_mode sent_request) with sent_attestation.
  apply strlcpy_id. exact Hlen.
Qed.

(** ** The response *)

(** The runner holds what the provider's algorithm asks for, and the engine's
    library accepts what the runner's library makes. *)
Definition can_sign : Prop :=
  key <> "" /\
  exists signature : list Z, (length signature <= 64)%nat /\ Forall (fun b => 0 <= b < 256) signature /\
    if String.eqb (cv_receipt_alg v) "ed25519" then
      signer <> "" /\ length signature = QX_ED25519_SIG_BYTES /\
      re_ed25519_sign R signer agreed_receipt = Some signature /\
      te_ed25519_verify T key agreed_receipt signature = Some true
    else
      re_hmac_sha256 R key agreed_receipt = signature /\ te_hmac_sha256 T key agreed_receipt = signature.

Lemma hex_char_hex n : 0 <= n < 16 -> has_char (hex_char n) "0123456789abcdef" = true.
Proof.
  intros Hn. destruct (Z.to_nat n) as [|m] eqn:Em; [replace n with 0 by lia; done|].
  do 15 (destruct m as [|m]; [replace n with (Z.of_nat (Z.to_nat n)) by lia; rewrite Em; done|]).
  lia.
Qed.

Lemma hex_encode_no_char c bytes :
  Forall (fun b => 0 <= b < 256) bytes -> has_char c "0123456789abcdef" = false ->
  has_char c (hex_encode bytes) = false.
Proof.
  intros Hb Hc. induction Hb as [|b bytes Hb _ IH]; [done|]. cbn [hex_encode has_char]. rewrite IH.
  assert (forall n, 0 <= n < 16 -> Ascii.eqb c (hex_char n) = false) as Hn.
  { intros n Hn. apply Ascii.eqb_neq. intros ->. rewrite hex_char_hex in Hc; done. }
  rewrite !Hn; [done|apply Z.mod_pos_bound; lia|]. split; [apply Z.div_pos; lia|].
  apply Z.div_lt_upper_bound; lia.
Qed.

Lemma plain_hex signature :
  (length signature <= 64)%nat -> Forall (fun b => 0 <= b < 256) signature ->
  plain 129 (hex_encode signature) = true.
Proof.
  intros Hl Hb. apply plain_spec. rewrite hex_encode_length.
  rewrite !hex_encode_no_char by done. split; [lia|done].
Qed.

Lemma compute_signature signature :
  key <> "" -> (length signature <= 64)%nat ->
  (if String.eqb (cv_receipt_alg v) "ed25519" then
     signer <> "" /\ length signature = QX_ED25519_SIG_BYTES /\
     re_ed25519_sign R signer agreed_receipt = Some signature /\
     te_ed25519_verify T key agreed_receipt signature = Some true
   else re_hmac_sha256 R key agreed_receipt = signature /\ te_hmac_sha256 T key agreed_receipt = signature) ->
  compute_receipt_signature R sent_request agreed_receipt = Some (hex_encode signature).
Proof.
  intros Hk Hl Hs. unfold compute_receipt_signature. cbn [rq_receipt_alg rq_receipt_signer
    rq_receipt_key sent_request]. rewrite (or_text_named 64) by apply Hsend. unfold sent_key.
  assert (encode_signature_hex signature QX_RECEIPT_SIG_HEX_MAXLEN = Some (hex_encode signature)) as He.
  { unfold encode_signature_hex, QX_RECEIPT_SIG_HEX_MAXLEN. destruct (Nat.ltb_spec (64 * 2 + 1)
      (length signature * 2 + 1)); [lia|done]. }
  destruct (String.eqb (cv_receipt_alg v) "ed25519").
  - destruct Hs as (Hne & _ & Hsign & _). unfold compute_ed25519_receipt_signature.
    rewrite (proj2 (String.eqb_neq _ _)), Hsign by done. exact He.
  - destruct Hs as (Hsign & _). unfold compute_hmac_receipt_signature.
    rewrite (proj2 (String.eqb_neq _ _)), Hsign by done. exact He.
Qed.

Definition answered (signature : list Z) : list pair :=
  [("STATUS", "ok"); ("TOOL", cstr_or (cv_tool_name v) ""); ("PRINCIPAL", cstr_or (cv_principal_name v) "");
   ("PRINCIPAL_RUNTIME", cv_principal_runtime v); ("PROVIDER", cstr_or (cv_provider_name v) "");
   ("PROVIDER_KIND", cstr_or (cv_provider_kind v) "loopback");
   ("SANDBOX", cstr_or tool_sandbox "builtin"); ("PROFILE", sp_name p); ("ENV", "minimal");
   ("WORKDIR", "pg_qx_runtime"); ("TIMEOUT_MS", show_d (sp_timeout_ms p));
   ("PROCESS_LIMIT", show_d (sp_process_limit p)); ("PATH_PRESENT", "false");
   ("RECEIPT_SCHEMA", cv_receipt_schema v); ("RECEIPT_ALG", cv_receipt_alg v);
   ("RECEIPT_NONCE", cv_receipt_nonce v); ("RECEIPT_SIG", hex_encode signature);
   ("ATTESTATION", sent_attestation); ("TOKENS", show_d sent_tokens); ("COST", show_d sent_cost);
   ("DETAIL", sent_detail)].

Lemma respond_sent signature :
  on_host -> path_basename dir = "pg_qx_runtime" ->
  compute_receipt_signature R sent_request agreed_receipt = Some (hex_encode signature) ->
  respond R sent_request = Some (pairs_text (answered signature)).
Proof.
  intros Hh Hdir Hsig.
  rewrite (respond_eq R sent_request _ _ _ _ _ (run_backend_host Hh) (receipt_agreed Hdir) Hsig).
  do 2 f_equal.
  unfold response_pairs, answered. cbn [instance_pair app rq_tool rq_principal rq_principal_runtime
    rq_provider rq_provider_kind rq_sandbox rq_profile rq_workdir rq_timeout_ms rq_process_limit
    rq_path_present rq_receipt_nonce rq_receipt_schema rq_receipt_alg sent_request environment_mode].
  rewrite Hdir. destruct Hsend, Hprofile.
  rewrite (or_text_named 64 (cv_principal_runtime v)), (or_text_named 64 (sp_name p)),
    (or_text_named 64 (cv_receipt_schema v)), (or_text_named 64 (cv_receipt_alg v)),
    (or_text_named 256 (cv_receipt_nonce v)), (or_text_default 64 (cv_provider_kind v)) by done.
  reflexivity.
Qed.

Lemma answered_fits signature :
  (length signature <= 64)%nat -> Forall (fun b => 0 <= b < 256) signature ->
  forallb (pair_fits (LINE_SIZE - 1)) (answered signature) = true.
Proof.
  intros Hl Hb. assert (forall m k s, (m <= 1000)%nat -> (String.length k <= 100)%nat ->
    has_char "=" k || has_char newline k = false -> plain m s = true ->
    pair_fits (LINE_SIZE - 1) (k, s) = true) as Hfit.
  { intros m k s Hm Hk Hc Hs. apply (pair_fits_plain _ m); [done|unfold LINE_SIZE; lia|done]. }
  destruct sent_charges as [Ht Hc]. pose proof sent_detail_plain. destruct Hsend, Hprofile.
  unfold answered. repeat apply fits_cons.
  - apply (Hfit 10%nat); [lia|simpl; lia|done|done].
  - apply (Hfit 128%nat); [lia|simpl; lia|done|by apply named_plain].
  - apply (Hfit 128%nat); [lia|simpl; lia|done|by apply named_plain].
  - apply (Hfit 64%nat); [lia|simpl; lia|done|by apply named_some].
  - apply (Hfit 128%nat); [lia|simpl; lia|done|by apply given_plain].
  - apply (Hfit 64%nat); [lia|simpl; lia|done|by apply given_plain].
  - apply (Hfit 64%nat); [lia|simpl; lia|done|by apply given_plain].
  - apply (Hfit 64%nat); [lia|simpl; lia|done|by apply named_some].
  - apply (Hfit 10%nat); [lia|simpl; lia|done|done].
  - apply (Hfit 20%nat); [lia|simpl; lia|done|done].
  - apply (Hfit 12%nat); [lia|simpl; lia|done|apply plain_show_d; unfold in_int32; lia].
  - apply (Hfit 12%nat); [lia|simpl; lia|done|apply plain_show_d; unfold in_int32; lia].
  - apply (Hfit 10%nat); [lia|simpl; lia|done|done].
  - apply (Hfit 64%nat); [lia|simpl; lia|done|by apply named_some].
  - apply (Hfit 64%nat); [lia|simpl; lia|done|by apply named_some].
  - apply (Hfit 256%nat); [lia|simpl; lia|done|by apply named_some].
  - apply (Hfit 129%nat); [lia|simpl; lia|done|by apply plain_hex].
  - apply (Hfit 27%nat); [lia|simpl; lia|done|apply attestation_plain].
  - apply (Hfit 12%nat); [lia|simpl; lia|done|by apply plain_show_d].
  - apply (Hfit 12%nat); [lia|simpl; lia|done|by apply plain_show_d].
  - apply (Hfit 400%nat); [lia|simpl; lia|done|done].
  - done.
Qed.

Lemma answered_checks signature w :
  mforeach check_response_pair (answered signature) w = Ok tt w.
Proof.
  destruct sent_charges as [Ht Hc]. destruct Hprofile. apply mforeach_ok.
  unfold answered. repeat apply Forall_cons_2; try (by apply check_text); try done.
  - apply check_number; [done|unfold in_int32; lia].
  - apply check_number; [done|unfold in_int32; lia].
  - by apply check_number.
  - by apply check_number.
Qed.

(** What the engine reads in the response. *)
Definition read_result (signature : list Z) : QxExternalToolResult :=
  {| xr_token_charge := sent_tokens; xr_cost_charge := sent_cost; xr_timeout_ms := sp_timeout_ms p;
     xr_process_limit := sp_process_limit p; xr_wall_time_ms := 0; xr_path_present := false;
     xr_restricted_identity := false; xr_detail := Some sent_detail;
     xr_tool_name := Some (cstr_or (cv_tool_name v) "");
     xr_principal_name := Some (cstr_or (cv_principal_name v) "");
     xr_principal_runtime := Some (cv_principal_runtime v);
     xr_provider_name := Some (cstr_or (cv_provider_name v) "");
     xr_provider_kind := Some (cstr_or (cv_provider_kind v) "loopback"); xr_provider_endpoint := None;
     xr_sandbox_name := Some (cstr_or tool_sandbox "builtin"); xr_profile_name := Some (sp_name p);
     xr_environment_mode := Some "minimal"; xr_workdir_name := Some "pg_qx_runtime";
     xr_launch_mode := None; xr_receipt_schema := Some (cv_receipt_schema v);
     xr_receipt_alg := Some (cv_receipt_alg v); xr_receipt_nonce := Some (cv_receipt_nonce v);
     xr_receipt_signature := Some (hex_encode signature); xr_attestation_mode := Some sent_attestation;
     xr_container_id := None; xr_vm_id := None |}.

Lemma answered_result signature : external_result_of (answered signature) = read_result signature.
Proof.
  destruct sent_charges as [Ht Hc]. destruct Hprofile.
  assert (forall k z, last_value (answered signature) k = Some (show_d z) -> in_int32 z ->
    response_int (answered signature) k = z) as Hint.
  { intros k z Hk Hz. unfold response_int. rewrite Hk, strtoint32_roundtrip by done. done. }
  unfold external_result_of.
  rewrite (Hint "TOKENS" sent_tokens), (Hint "COST" sent_cost), (Hint "TIMEOUT_MS" (sp_timeout_ms p)),
    (Hint "PROCESS_LIMIT" (sp_process_limit p)); try done; unfold in_int32; lia.
Qed.

Lemma read_answer path signature w :
  (length signature <= 64)%nat -> Forall (fun b => 0 <= b < 256) signature ->
  qx_read_external_result path (Some (pairs_text (answered signature))) w =
  Ok (read_result signature) w.
Proof.
  intros Hl Hb. unfold qx_read_external_result.
  rewrite response_lines_read; [|by apply answered_fits|].
  - erewrite bind_run by apply answered_checks. rewrite answered_result. done.
  - pose proof (pairs_text_length (answered signature)). lia.
Qed.

Lemma signature_accepted signature w :
  key <> "" -> Forall (fun b => 0 <= b < 256) signature ->
  (if String.eqb (cv_receipt_alg v) "ed25519" then
     signer <> "" /\ length signature = QX_ED25519_SIG_BYTES /\
     re_ed25519_sign R signer agreed_receipt = Some signature /\
     te_ed25519_verify T key agreed_receipt signature = Some true
   else re_hmac_sha256 R key agreed_receipt = signature /\ te_hmac_sha256 T key agreed_receipt = signature) ->
  (if String.eqb (cv_receipt_alg v) "ed25519" then
     let* verified := qx_verify_ed25519_receipt_signature T key agreed_receipt
                        (Some (hex_encode signature)) in
     if negb verified then
       external_error "principal response returned an invalid ed25519 receipt signature" None
     else ret tt
   else
     let expected_signature := qx_receipt_hmac_signature_hex T key agreed_receipt in
     if negb (String.eqb (hex_encode signature) expected_signature) then
       external_error "principal response returned an invalid receipt signature"
         (Some (cat ["Expected HMAC-SHA256 signature "; quoted expected_signature; " but got ";
                     quoted (hex_encode signature); "."]))
     else ret tt) w = Ok tt w.
Proof.
  intros Hk Hb. destruct (String.eqb (cv_receipt_alg v) "ed25519").
  - intros (_ & Hl & _ & Hv). unfold bind, qx_verify_ed25519_receipt_signature.
    rewrite (proj2 (String.eqb_neq key "")) by done. rewrite <- Hl.
    rewrite hex_signature_roundtrip, Hv by done. done.
  - intros (_ & Hv). unfold qx_receipt_hmac_signature_hex. rewrite Hv. cbn zeta.
    rewrite String.eqb_refl. done.
Qed.

Lemma answer_validated signature w :
  key <> "" -> Forall (fun b => 0 <= b < 256) signature ->
  (if String.eqb (cv_receipt_alg v) "ed25519" then
     signer <> "" /\ length signature = QX_ED25519_SIG_BYTES /\
     re_ed25519_sign R signer agreed_receipt = Some signature /\
     te_ed25519_verify T key agreed_receipt signature = Some true
   else re_hmac_sha256 R key agreed_receipt = signature /\ te_hmac_sha256 T key agreed_receipt = signature) ->
  qx_validate_external_result T (read_result signature) p (cv_phase v) (cv_taskoid v) (cv_tool_name v)
    (cv_principal_name v) (Some (cv_principal_runtime v)) (cv_provider_name v)
    (Some (cstr_or (cv_provider_kind v) "loopback"))
    (Some (cstr_or (cv_provider_endpoint v) "local://qhapaqxian-tool-runner"))
    (Some (cv_receipt_schema v)) (Some (cv_receipt_alg v)) (Some (cv_receipt_nonce v))
    key (cv_require_attestation v) w = Ok tt w.
Proof.
  intros Hk Hb Hs. unfold qx_validate_external_result.
  assert (forall s : cstr, Some (cstr_or s "") = s \/ s = None) as Hsame by (intros []; auto).
  do 6 (erewrite bind_run by (apply expect_same; first [apply Hsame | by left])).
  erewrite bind_run by reflexivity. erewrite bind_run by reflexivity.
  erewrite bind_run by (cbn [xr_timeout_ms read_result]; rewrite Z.eqb_refl; reflexivity).
  erewrite bind_run by (cbn [xr_process_limit read_result]; rewrite Z.eqb_refl; reflexivity).
  erewrite bind_run by reflexivity.
  do 3 (erewrite bind_run by (apply expect_same; by left)).
  cbn zeta. fold sent_attestation.
  erewrite bind_run by (cbn [xr_attestation_mode read_result cstr_is]; rewrite String.eqb_refl; reflexivity).
  exact (signature_accepted signature w Hk Hb Hs).
Qed.

(** C7. The runner's answer to the engine's request is accepted.  For a
    principal that runs on the host, with values that fit the runner's buffers
    and stay on their lines, and signing material that matches, the runner
    exits with success; the engine reads its response without error, and every
    check of the response, the signature of the receipt included, succeeds.
    The two programs build the signed text from their own copies of the data. *)
Theorem runner_response_accepted request_path response_path :
  started request_path response_path -> on_host -> can_sign ->
  exists text r,
    main_response R (principal_argv request_path response_path) = Some (response_path, text) /\
    forall w,
      qx_read_external_result response_path (Some text) w = Ok r w /\
      xr_token_charge r = metered_tokens sent_request /\
      qx_validate_external_result T r p (cv_phase v) (cv_taskoid v) (cv_tool_name v)
        (cv_principal_name v) (Some (cv_principal_runtime v)) (cv_provider_name v)
        (Some (cstr_or (cv_provider_kind v) "loopback"))
        (Some (cstr_or (cv_provider_endpoint v) "local://qhapaqxian-tool-runner"))
        (Some (cv_receipt_schema v)) (Some (cv_receipt_alg v)) (Some (cv_receipt_nonce v))
        key (cv_require_attestation v) w = Ok tt w.
Proof.
  intros Hst Hh (Hk & signature & Hl & Hb & Hs).
  exists (pairs_text (answered signature)), (read_result signature). split.
  - unfold main_response.
    change (parse_arguments (principal_argv request_path response_path) (None, None))
      with (Some request_path, Some response_path). cbv iota beta.
    rewrite (parse_sent _ _ Hst).
    rewrite (respond_sent signature Hh (st_dir _ _ Hst)) by (by apply compute_signature).
    rewrite (st_response _ _ Hst). done.
  - intros w. split; [by apply read_answer|]. split; [done|]. by apply answer_validated.
Qed.
End Protocol.

(** ** A request and its answer *)

Definition demo_view : contract_view := view_of_contract (Some demo_contract) (Some "submit") 17000 "restricted".

Definition demo_runner_env : RunnerEnv :=
  MkRunnerEnv (getenv_in (principal_environment restricted_profile "/data/pg_qx_runtime" ""))
    (Some "/data/pg_qx_runtime")
    (fun _ => Some (request_text demo_view (Some "submit") (Some "find it") (Some "builtin") true
                      "s3cret" "" "" ""))
    (fun _ => None) (fun _ => None) (fun _ => true) (fun _ _ => [1; 2; 255]) (fun _ _ => None).

Lemma runner_response_accepted_witness :
  exists text r,
    main_response demo_runner_env (principal_argv "q" "a") = Some ("a", text) /\
    qx_read_external_result "a" (Some text) (empty_world 20000) = Ok r (empty_world 20000) /\
    xr_token_charge r = 41.
Proof.
  edestruct (runner_response_accepted demo_runner_env (demo_tool_env "") demo_view (Some "find it")
    (Some "builtin") true "s3cret" "" restricted_profile "/data/pg_qx_runtime")
    as (text & r & Hmain & Hread).
  - split; try reflexivity; vm_compute; split; first [discriminate | reflexivity].
  - split; try reflexivity; vm_compute; split; first [discriminate | reflexivity].
  - split; reflexivity.
  - intros kind Hk E. vm_compute in E. destruct Hk as [-> | ->]; discriminate E.
  - split; [discriminate|]. exists [1; 2; 255]. split; [simpl; lia|]. split; [repeat constructor; lia|].
    vm_compute. split; reflexivity.
  - exists text, r. destruct (Hread (empty_world 20000)) as (H1 & H2 & _).
    split; [exact Hmain|]. split; [exact H1|]. rewrite H2. vm_compute. reflexivity.
Defined.
