(* ===== verification/Launch.v ===== *)
(** * Launching a principal's program

    [qx_launch_principal_program] on POSIX systems: what the child does between
    [fork] and [execve], and the loop in which the backend waits for it.
    [ToolExec.v] has the outcome of a launch as the parameter [te_launch]; here
    it is computed from what the operating system answers, call by call: the
    polls of [waitpid] and the readings of the clock.

    The theorem is that the loop ends, however the program behaves: within a
    number of polls that the profile's timeout bounds, the backend either has
    the program's own exit status or has killed and reaped it, and a program is
    only killed after the whole timeout has passed.  The Windows branch of the
    function is not modelled. *)

From Stdlib Require Import Ascii String.
From S2P Require Import Prelude Text Scheduler World Backends ToolExec ToolRunner RunnerProps.
Open Scope string_scope.
Open Scope Z_scope.
Open Scope bool_scope.
Open Scope list_scope.

(** ** The child *)

Inductive rlimit_resource := RLIMIT_NOFILE | RLIMIT_FSIZE | RLIMIT_AS | RLIMIT_CPU.

Inductive child_action :=
  | ChildChdir (path : string)
  | ChildSetrlimit (resource : rlimit_resource) (limit : Z)     (* soft and hard *)
  | ChildClose (fd : Z)
  | ChildExecve (path : string) (argv : list string) (envp : list pair)
  | ChildExit (status : Z).

Definition cpu_seconds (timeout_ms : Z) : Z :=
  let seconds := Z.quot (int32 (timeout_ms + 999)) 1000 in if seconds <=? 0 then 1 else seconds.

(** [rlim_t] is an unsigned 64-bit integer. *)
Definition kilobytes (kb : Z) : Z := (kb mod 2 ^ 64 * 1024) mod 2 ^ 64.

Definition child_limits (p : QxSandboxProfile) (preserve_host_identity : bool) : list child_action :=
  ChildSetrlimit RLIMIT_NOFILE (sp_max_open_files p) ::
  if preserve_host_identity then []
  else [ChildSetrlimit RLIMIT_FSIZE (kilobytes (sp_file_kb p));
        ChildSetrlimit RLIMIT_AS (kilobytes (sp_memory_kb p));
        ChildSetrlimit RLIMIT_CPU (cpu_seconds (sp_timeout_ms p))].

(** [sysconf(_SC_OPEN_MAX)], at most 1024. *)
Definition close_limit (open_max : Z) : Z :=
  if (open_max <? 0) || (1024 <? open_max) then 1024 else open_max.

Definition child_closes (open_max : Z) : list child_action :=
  (fun i => ChildClose (Z.of_nat i)) <$> seq 3 (Z.to_nat (close_limit open_max - 3)).

(** What the child does, up to the point where it becomes the program or
    exits. *)
Definition child_actions (call : launch_call) (response_path launch_request_path : string)
    (chdir_ok : bool) (open_max : Z) (exec_ok : bool) : list child_action :=
  ChildChdir (lc_runtime_dir call) ::
  if negb chdir_ok then [ChildExit 126]
  else child_limits (lc_profile call) (lc_preserve_host_identity call) ++ child_closes open_max ++
       [ChildExecve (lc_program_path call)
          (lc_program_path call :: principal_argv (lc_request_path call) response_path)
          (principal_environment (lc_profile call) (lc_runtime_dir call) launch_request_path)] ++
       (if exec_ok then [] else [ChildExit 127]).

(** ** The parent *)

Definition TimestampDifferenceExceeds (start_time stop_time : TimestampTz) (msec : Z) : bool :=
  msec * 1000 <=? int64 (stop_time - start_time).

Definition TimestampDifferenceMilliseconds (start_time stop_time : TimestampTz) : Z :=
  if stop_time <=? start_time then 0
  else if negb ((- 2 ^ 63 <=? stop_time - start_time) && (stop_time - start_time <? 2 ^ 63))
  then INT32_MAX
  else if INT32_MAX * 1000 - 999 <=? stop_time - start_time then INT32_MAX
  else Z.quot (stop_time - start_time + 999) 1000.

Record LaunchOS := MkLaunchOS {
  os_fork : bool;                  (* fork() made a process *)
  os_polls : nat -> wait_result;   (* waitpid(pid, WNOHANG), call by call *)
  os_now : nat -> TimestampTz;     (* GetCurrentTimestamp, call by call *)
  os_response : cstr               (* the response file afterwards *)
}.

Inductive parent_action := ParentPoll | ParentSleep (microsec : Z) | ParentKill | ParentReap.

Inductive wait_end :=
  | EndExited (status : option Z)
  | EndWaitFailed
  | EndTimedOut.

(** The loop from its [n]-th round on: how it ends, how often the clock was read
    by then, and what the parent did. *)
Fixpoint wait_child (os : LaunchOS) (timeout_ms : Z) (fuel n : nat) :
    option (wait_end * nat * list parent_action) :=
  match fuel with
  | O => None
  | S fuel' =>
      match os_polls os n with
      | WaitExited status => Some (EndExited status, S n, [ParentPoll])
      | WaitFailed => Some (EndWaitFailed, S n, [ParentPoll])
      | WaitRunning =>
          if TimestampDifferenceExceeds (os_now os 0) (os_now os (S n)) timeout_ms
          then Some (EndTimedOut, S (S n), [ParentPoll; ParentKill; ParentReap])
          else match wait_child os timeout_ms fuel' (S n) with
               | Some (e, reads, actions) =>
                   Some (e, reads, ParentPoll :: ParentSleep 10000 :: actions)
               | None => None
               end
      end
  end.

(** Rounds of ten milliseconds: enough to see the timeout pass. *)
Definition launch_fuel (timeout_ms : Z) : nat := S (Z.to_nat ((timeout_ms + 9) / 10)).

Definition end_outcome (os : LaunchOS) (e : wait_end) (reads : nat) : launch_outcome :=
  match e with
  | EndExited status =>
      LaunchExited status (TimestampDifferenceMilliseconds (os_now os 0) (os_now os reads))
        (os_response os)
  | EndWaitFailed => LaunchWaitFailed
  | EndTimedOut => LaunchTimedOut
  end.

(** The outcome [qx_launch_principal_program] reports on ([te_launch]). *)
Definition posix_launch (os : LaunchOS) (call : launch_call) : option launch_outcome :=
  if negb (os_fork os) then Some LaunchForkFailed
  else match wait_child os (sp_timeout_ms (lc_profile call))
               (launch_fuel (sp_timeout_ms (lc_profile call))) 0 with
       | None => None
       | Some (e, reads, _) => Some (end_outcome os e reads)
       end.

(** ** The wait ends *)

Section Wait.
Context (os : LaunchOS) (timeout_ms : Z).

Definition expired (n : nat) : bool :=
  TimestampDifferenceExceeds (os_now os 0) (os_now os (S n)) timeout_ms.

Definition stops (n : nat) : Prop := os_polls os n <> WaitRunning \/ expired n = true.

(** The round the loop stops in, and how. *)
Definition stopped_at (k : nat) (e : wait_end) : Prop :=
  (forall j, (j < k)%nat -> os_polls os j = WaitRunning /\ expired j = false) /\
  match os_polls os k with
  | WaitExited status => e = EndExited status
  | WaitFailed => e = EndWaitFailed
  | WaitRunning => expired k = true /\ e = EndTimedOut
  end.

Lemma wait_child_stops fuel n m :
  (n <= m < n + fuel)%nat -> stops m ->
  (forall j, (j < n)%nat -> os_polls os j = WaitRunning /\ expired j = false) ->
  exists k e reads actions,
    wait_child os timeout_ms fuel n = Some (e, reads, actions) /\ (k <= m)%nat /\ stopped_at k e /\
    (e = EndTimedOut -> exists before, actions = before ++ [ParentPoll; ParentKill; ParentReap]).
Proof.
  revert n. induction fuel as [|fuel IH]; intros n Hm Hs Hbefore; [lia|]. cbn [wait_child].
  unfold stopped_at. destruct (os_polls os n) as [|status|] eqn:P.
  - fold (expired n). destruct (expired n) eqn:X.
    + exists n, EndTimedOut. do 2 eexists. split; [done|]. split; [lia|]. rewrite P. split; [done|].
      intros _. by exists [].
    + assert (n <> m) by (intros ->; destruct Hs; congruence).
      destruct (IH (S n)) as (k & e & reads & actions & -> & Hk & Hst & Ha); [lia|done| |].
      { intros j Hj. destruct (decide (j = n)) as [->|]; [done|]. apply Hbefore. lia. }
      exists k, e, reads. eexists. split; [done|]. split; [done|]. split; [exact Hst|].
      intros He. destruct (Ha He) as (before & ->). by exists (ParentPoll :: ParentSleep 10000 :: before).
  - exists n, (EndExited status). do 2 eexists. split; [done|]. split; [lia|]. by rewrite P.
  - exists n, EndWaitFailed. do 2 eexists. split; [done|]. split; [lia|]. by rewrite P.
Qed.

(** Each round sleeps for ten milliseconds or more, and the clock shows it. *)
Definition clock_advances (rounds : nat) : Prop :=
  os_now os 0 <= os_now os 1 /\
  (forall n, (S n <= rounds)%nat -> os_now os (S n) + 10000 <= os_now os (S (S n))) /\
  (forall n, (n <= S rounds)%nat -> 0 <= os_now os n < 2 ^ 63).

Lemma clock_after rounds n :
  clock_advances rounds -> (n <= rounds)%nat ->
  os_now os 0 + 10000 * Z.of_nat n <= os_now os (S n).
Proof.
  intros (H0 & Hstep & _). induction n as [|n IH]; intros Hn; [lia|].
  specialize (IH ltac:(lia)). specialize (Hstep n ltac:(lia)). lia.
Qed.

End Wait.

Definition launch_rounds (timeout_ms : Z) : nat := Z.to_nat ((timeout_ms + 9) / 10).

Lemma expires os timeout_ms :
  0 <= timeout_ms <= INT32_MAX -> clock_advances os (launch_rounds timeout_ms) ->
  expired os timeout_ms (launch_rounds timeout_ms) = true.
Proof.
  intros Ht Hc. pose proof (clock_after os _ _ Hc (le_n _)) as Ha.
  destruct Hc as (_ & _ & Hr). pose proof (Hr 0%nat ltac:(lia)) as H0.
  pose proof (Hr (S (launch_rounds timeout_ms)) ltac:(lia)) as H1.
  unfold expired, TimestampDifferenceExceeds. rewrite int64_small by (unfold in_int64; lia).
  apply Z.leb_le. unfold launch_rounds in *.
  rewrite Z2Nat.id in Ha by (apply Z.div_pos; lia).
  pose proof (Z.div_mod (timeout_ms + 9) 10 ltac:(lia)).
  pose proof (Z.mod_pos_bound (timeout_ms + 9) 10 ltac:(lia)). lia.
Qed.

(** What a launch comes to when the loop stops in round [k]. *)
Definition launch_ends (os : LaunchOS) (call : launch_call) (k : nat)
    (run : M (QxSandboxObservation * cstr)) : Prop :=
  forall w,
  match os_polls os k with
  | WaitExited (Some 0) => exists wall_ms,
      run w = Ok (MkObservation wall_ms (Some "profiled_process") false, os_response os) w
  | WaitExited _ => exists e, run w = Err e w /\ err_code e = ERRCODE_EXTERNAL_ROUTINE_EXCEPTION
  | WaitFailed => exists e, run w = Err e w /\ err_code e = ERRCODE_FILE_ACCESS
  | WaitRunning =>
      sp_timeout_ms (lc_profile call) * 1000 <= os_now os (S k) - os_now os 0 /\
      exists e, run w = Err e w /\ err_code e = ERRCODE_QUERY_CANCELED
  end.

Lemma launch_reports os T call k e reads :
  clock_advances os (launch_rounds (sp_timeout_ms (lc_profile call))) ->
  (k <= launch_rounds (sp_timeout_ms (lc_profile call)))%nat ->
  stopped_at os (sp_timeout_ms (lc_profile call)) k e -> te_launch T call = end_outcome os e reads ->
  launch_ends os call k (qx_launch_principal_program T call).
Proof.
  intros (_ & _ & Hr) Hk [_ He] Ho w. unfold qx_launch_principal_program. rewrite Ho.
  destruct (os_polls os k) as [|status|].
  - destruct He as [Hx ->]. cbn [end_outcome]. split; [|by eexists].
    unfold expired, TimestampDifferenceExceeds in Hx. apply Z.leb_le in Hx.
    pose proof (Hr 0%nat ltac:(lia)). pose proof (Hr (S k) ltac:(lia)).
    rewrite int64_small in Hx by (unfold in_int64; lia). exact Hx.
  - subst e. cbn [end_outcome].
    destruct status as [z|]; [|by eexists]. destruct (decide (z = 0)) as [->|Hz]; [by eexists|].
    rewrite bool_decide_eq_false_2 by congruence. destruct z; [done|by eexists|by eexists].
  - subst e. by eexists.
Qed.

(** C15. Waiting for a principal's program ends, whatever the program does: when
    each round's sleep of ten milliseconds shows on the clock, the backend's
    loop stops after at most one poll for every ten milliseconds of the
    profile's timeout and one more.  The program ran on at every earlier poll,
    and the launch succeeds with the response file exactly when the program
    exits with status zero; it is cancelled exactly when the program is found
    running after the whole timeout has passed, and then the program has been
    killed and reaped. *)
Theorem principal_launch_ends os call :
  let timeout_ms := sp_timeout_ms (lc_profile call) in
  0 <= timeout_ms <= INT32_MAX -> os_fork os = true ->
  clock_advances os (launch_rounds timeout_ms) ->
  exists k out e reads actions,
    (k <= launch_rounds timeout_ms)%nat /\
    (forall j, (j < k)%nat -> os_polls os j = WaitRunning) /\
    posix_launch os call = Some out /\
    (forall T, te_launch T call = out -> launch_ends os call k (qx_launch_principal_program T call)) /\
    wait_child os timeout_ms (launch_fuel timeout_ms) 0 = Some (e, reads, actions) /\
    (os_polls os k = WaitRunning ->
     exists before, actions = before ++ [ParentPoll; ParentKill; ParentReap]).
Proof.
  intros timeout_ms Ht Hf Hc. pose proof (expires os timeout_ms Ht Hc) as Hx.
  destruct (wait_child_stops os timeout_ms (launch_fuel timeout_ms) 0 (launch_rounds timeout_ms))
    as (k & e & reads & actions & Hw & Hk & [Hj He] & Ha);
    [unfold launch_fuel, launch_rounds; lia|by right|lia|].
  exists k, (end_outcome os e reads), e, reads, actions.
  split; [exact Hk|]. split; [intros j Hlt; by apply Hj|].
  split; [unfold posix_launch; rewrite Hf; fold timeout_ms; by rewrite Hw|].
  split; [intros T Ho; by eapply launch_reports|]. split; [exact Hw|].
  intros P. apply Ha. rewrite P in He. by destruct He.
Qed.

(** A program that never answers, under the restricted profile: after 200 rounds
    of ten milliseconds it is killed. *)
Definition silent_os : LaunchOS :=
  MkLaunchOS true (fun _ => WaitRunning) (fun n => 10000 * Z.of_nat n) None.

Definition demo_call : launch_call :=
  MkLaunch "/usr/lib/qx/bin/runner" restricted_profile "/data/pg_qx_runtime" "request" "" None false.

Lemma silent_clock : clock_advances silent_os (launch_rounds 2000).
Proof.
  split; [done|]. split; intros n Hn; cbn [os_now silent_os]; [lia|].
  change (launch_rounds 2000) with 200%nat in Hn. lia.
Qed.

Lemma principal_launch_ends_witness :
  exists k out, (k <= 200)%nat /\ posix_launch silent_os demo_call = Some out /\
    out = LaunchTimedOut.
Proof.
  destruct (principal_launch_ends silent_os demo_call) as (k & out & e & reads & actions & Hk & _ & Ho & _);
    [split; discriminate|reflexivity|exact silent_clock|].
  exists k, out. split; [exact Hk|]. split; [exact Ho|].
  assert (posix_launch silent_os demo_call = Some LaunchTimedOut) as H by (vm_compute; reflexivity).
  congruence.
Defined.
