(* ===== verification/ContainerProps.v ===== *)
(** * What a container is started with

    The engine writes a container's launch request, one pair on each line
    ([Backends], [Policy]); the runner reads it as pairs between semicolons and
    keeps the line break in the last value of a line ([ToolRunner]).  The
    theorem works out what is left of the policy: the limits and the read-only
    root arrive, the permissions do not. *)

From Stdlib Require Import Ascii String.
From S2P Require Import Prelude Text Numutils Types Scheduler Stat Observe SemanticLog Tables World.
From S2P Require Import Catalog Policy Backends ToolExec ToolRunner RunnerProps.
Open Scope string_scope.
Open Scope Z_scope.
Open Scope bool_scope.
Open Scope list_scope.

#[local] Arguments Ascii.eqb : simpl never.

(** ** Reading the launch request *)

Definition with_break (s : string) : string := s +:+ String newline "".

Definition line_of (p : pair) : string := fst p +:+ String "=" (with_break (snd p)).

(** A line that is read as a whole. *)
Definition line_fits (p : pair) : bool :=
  (String.length (fst p) + String.length (snd p) + 1 <? 2047)%nat &&
  negb (has_char newline (fst p)) && negb (has_char newline (snd p)).

Lemma launch_pairs_read ps fuel :
  forallb line_fits ps = true -> (length ps < fuel)%nat ->
  ToolRunner.launch_pairs fuel (pairs_text ps) = concat ((fun p => line_pairs (line_of p)) <$> ps).
Proof.
  revert fuel. induction ps as [|[k v] ps IH]; intros [|fuel] Hok Hl; simpl in Hl; try lia; [done|].
  cbn [forallb] in Hok. apply andb_true_iff in Hok as [Hp Hps].
  change (pairs_text ((k, v) :: ps)) with (pair_line (k, v) +:+ pairs_text ps).
  unfold line_fits in Hp. cbn [fst snd] in Hp.
  rewrite !andb_true_iff, !negb_true_iff, Nat.ltb_lt in Hp. destruct Hp as [[Hlen Hk] Hv].
  rewrite pair_line_app. cbn [ToolRunner.launch_pairs].
  assert (String.eqb ((k +:+ String "=" v) +:+ String newline (pairs_text ps)) "" = false) as ->
    by (destruct k; done).
  rewrite fgets_line.
  - rewrite IH by (done || lia). rewrite append_assoc. reflexivity.
  - rewrite append_length. simpl. lia.
  - rewrite has_char_app. cbn [has_char]. rewrite Hk, Hv. done.
Qed.

(** A value without semicolons is one pair, with its line break. *)
Definition one_pair (p : pair) : bool :=
  negb (has_char "=" (fst p)) && negb (has_char ";" (fst p)) && negb (has_char ";" (snd p)).

Lemma line_pairs_one p : one_pair p = true -> line_pairs (line_of p) = [(fst p, with_break (snd p))].
Proof.
  destruct p as [k v]. unfold one_pair, line_of, line_pairs, with_break. cbn [fst snd].
  rewrite !andb_true_iff, !negb_true_iff. intros [[He Hk] Hv].
  rewrite fields_single.
  - cbn [omap list_omap]. rewrite split_char_app by done. done.
  - rewrite has_char_app, Hk. cbn [has_char]. rewrite has_char_app, Hv. done.
Qed.

Lemma concat_one ps :
  forallb one_pair ps = true ->
  concat ((fun p => line_pairs (line_of p)) <$> ps) = (fun p => (fst p, with_break (snd p))) <$> ps.
Proof.
  induction ps as [|p ps IH]; [done|]. cbn [forallb]. intros [Hp Hps]%andb_true_iff.
  rewrite !fmap_cons. cbn [concat]. rewrite line_pairs_one, IH by done. done.
Qed.

(** The profile's line falls apart at its semicolons. *)
Lemma line_pairs_profile p seccomp cgroup :
  has_char ";" seccomp = false -> has_char ";" cgroup = false ->
  has_char ";" (cstr_or (po_image_ref p) "") = false ->
  line_pairs (line_of ("oci_profile", container_profile p seccomp cgroup)) =
  [("oci_profile", "network=" +:+ (if po_allow_network p then "allow" else "deny"));
   ("privilege_escalation", if po_allow_privilege_escalation p then "allow" else "deny");
   ("readonly_rootfs", show_bool (po_readonly_rootfs p)); ("seccomp", seccomp); ("cgroup", cgroup);
   ("image", with_break (cstr_or (po_image_ref p) ""))].
Proof.
  intros Hs Hc Hi. unfold line_pairs, line_of, container_profile, with_break. cbn [fst snd].
  set (img := cstr_or (po_image_ref p) "") in *. clearbody img.
  set (net := if po_allow_network p then "allow" else "deny").
  set (esc := if po_allow_privilege_escalation p then "allow" else "deny").
  set (ro := show_bool (po_readonly_rootfs p)).
  assert (has_char ";" net = false /\ has_char ";" esc = false /\ has_char ";" ro = false)
    as (Hn & He & Hr).
  { subst net esc ro. destruct (po_allow_network p), (po_allow_privilege_escalation p),
      (po_readonly_rootfs p); done. }
  clearbody net esc ro.
  transitivity (omap (fun part => match split_char "=" part with
                    | (key, Some value) => Some (key, value)
                    | (_, None) => None
                    end) ["oci_profile" +:+ String "=" ("network=" +:+ net);
    "privilege_escalation" +:+ String "=" esc; "readonly_rootfs" +:+ String "=" ro;
    "seccomp" +:+ String "=" seccomp; "cgroup" +:+ String "=" cgroup;
    "image" +:+ String "=" (img +:+ String newline "")]).
  - f_equal. unfold cat. cbn [foldr]. rewrite <- (fields_single ";" ("image" +:+ _)).
    + rewrite <- !fields_app; [|rewrite has_char_app; cbn [has_char]; by rewrite ?Hc, ?Hs, ?Hr, ?He, ?Hn..].
      f_equal. repeat (progress (rewrite ?append_assoc; cbn [String.append])). reflexivity.
    + rewrite has_char_app. cbn [has_char]. by rewrite has_char_app, Hi.
  - cbn [omap list_omap]. rewrite !split_char_app by done. reflexivity.
Qed.

(** ** The request the container is started from *)

Lemma digits_prefix_break acc s :
  all_chars is_digit s = true ->
  digits_prefix acc (s +:+ String newline "") = (decimal acc s, String newline "").
Proof.
  revert acc. induction s as [|c s IH]; intros acc Hs; [done|]. cbn [all_chars] in Hs.
  apply andb_true_iff in Hs as [Hc Hs]. cbn [String.append digits_prefix decimal]. unfold isdigit.
  rewrite Hc. by apply IH.
Qed.

Lemma strtol_line z : 0 <= z < 2 ^ 63 -> strtol (with_break (show_d z)) = z.
Proof.
  intros Hz. rewrite show_d_nonneg by lia. pose proof (show_u_digits z) as Hd.
  pose proof (show_u_nonempty z) as Hn. destruct (show_u z) as [|c t] eqn:Es; [done|].
  pose proof Hd as Hc. cbn [all_chars] in Hc. apply andb_true_iff in Hc as [Hc _].
  apply digit_plain in Hc as (H1 & H2 & H3). unfold strtol, signed_text, with_break.
  cbn [String.append skip_spaces]. rewrite H1, H2, H3.
  change (String c (t +:+ String newline "")) with (String c t +:+ String newline "").
  rewrite digits_prefix_break by done. rewrite <- Es. unfold show_u. rewrite decimal_pretty. lia.
Qed.

Lemma break_neq s lit : has_char newline lit = false -> String.eqb (with_break s) lit = false.
Proof.
  intros Hl. apply String.eqb_neq. intros <-. revert Hl. unfold with_break. rewrite has_char_app.
  cbn [has_char]. rewrite orb_true_r. done.
Qed.

Import Container.

(** The values stay on their lines, and have no semicolons but the profile's. *)
Record launch_clean (q : QxContainerBackendRequest) (p : QxRuntimePolicy) (seccomp cgroup : string) :
    Prop := {
  lc_profile : rq_oci_profile q = Some (container_profile p seccomp cgroup);
  lc_lines : forallb line_fits (container_launch_pairs q) = true;
  lc_pairs : forallb one_pair (take 30 (container_launch_pairs q)) = true;
  lc_detail : one_pair ("detail", cstr_or (rq_detail q) "") = true;
  lc_modes : has_char ";" seccomp || has_char ";" cgroup ||
             has_char ";" (cstr_or (po_image_ref p) "") = false;
  lc_short : (String.length (cstr_or (rq_seccomp_mode q) "") < 63)%nat /\
             (String.length (cstr_or (rq_cgroup_mode q) "") < 63)%nat;
  lc_limits : 0 <= rq_timeout_ms q < 2 ^ 31 /\ 0 <= rq_memory_kb q < 2 ^ 31 /\
              0 <= rq_process_limit q < 2 ^ 31
}.

(** The pairs the runner finds in the text. *)
Lemma container_pairs_read q p seccomp cgroup fuel :
  launch_clean q p seccomp cgroup -> (32 < fuel)%nat ->
  ToolRunner.launch_pairs fuel (pairs_text (container_launch_pairs q)) =
  ((fun x => (fst x, with_break (snd x))) <$> take 30 (container_launch_pairs q)) ++
  [("oci_profile", "network=" +:+ (if po_allow_network p then "allow" else "deny"));
   ("privilege_escalation", if po_allow_privilege_escalation p then "allow" else "deny");
   ("readonly_rootfs", show_bool (po_readonly_rootfs p)); ("seccomp", seccomp); ("cgroup", cgroup);
   ("image", with_break (cstr_or (po_image_ref p) ""));
   ("detail", with_break (cstr_or (rq_detail q) ""))].
Proof.
  intros [Hprof Hl Hone Hdet Hm _ _] Hf. rewrite launch_pairs_read by done.
  assert (container_launch_pairs q = take 30 (container_launch_pairs q) ++
    [("oci_profile", container_profile p seccomp cgroup); ("detail", cstr_or (rq_detail q) "")]) as Eq.
  { unfold container_launch_pairs at 1. rewrite Hprof. reflexivity. }
  rewrite Eq at 1. rewrite fmap_app, concat_app, concat_one by done. f_equal.
  apply orb_false_iff in Hm as [[H1 H2]%orb_false_iff H3].
  cbn [fmap list_fmap concat]. rewrite line_pairs_profile by done.
  rewrite line_pairs_one by done. reflexivity.
Qed.

Lemma strlcpy_break s : (String.length s < 63)%nat -> strlcpy 64 (with_break s) = with_break s.
Proof. intros Hs. apply strlcpy_id. unfold with_break. rewrite append_length. simpl. lia. Qed.

(** The fields a clean launch request sets. *)
Lemma launch_fields R path q p seccomp cgroup req :
  launch_clean q p seccomp cgroup -> path <> "" ->
  re_file R path = Some (pairs_text (container_launch_pairs q)) ->
  ToolRunner.rq_seccomp_mode req = "" -> ToolRunner.rq_cgroup_mode req = "" ->
  let r := parse_launch_request_file R path req in
  ToolRunner.rq_timeout_ms r = rq_timeout_ms q /\ ToolRunner.rq_memory_kb r = rq_memory_kb q /\
  ToolRunner.rq_process_limit r = rq_process_limit q /\
  ToolRunner.rq_allow_network r = false /\ ToolRunner.rq_allow_privilege_escalation r = false /\
  ToolRunner.rq_readonly_rootfs r = po_readonly_rootfs p /\
  ToolRunner.rq_seccomp_mode r = with_break (cstr_or (rq_seccomp_mode q) "") /\
  ToolRunner.rq_cgroup_mode r = with_break (cstr_or (rq_cgroup_mode q) "").
Proof.
  intros Hc Hp Hf Hs Hg. cbn zeta. unfold parse_launch_request_file.
  rewrite (proj2 (String.eqb_neq _ _)), Hf by done.
  pose proof (pairs_text_length (container_launch_pairs q)) as Hlen.
  change (length (container_launch_pairs q)) with 32%nat in Hlen.
  rewrite (container_pairs_read q p seccomp cgroup) by (done || lia).
  destruct Hc as [_ _ _ _ _ [Hs1 Hs2] (Ht & Hm & Hl)].
  set (ps := (_ <$> _) ++ _).
  cbn [ToolRunner.rq_timeout_ms ToolRunner.rq_memory_kb ToolRunner.rq_process_limit
    ToolRunner.rq_allow_network ToolRunner.rq_allow_privilege_escalation
    ToolRunner.rq_readonly_rootfs ToolRunner.rq_seccomp_mode ToolRunner.rq_cgroup_mode apply_launch_pairs].
  unfold launch_number, launch_flag.
  change (last_value ps "timeout_ms") with (Some (with_break (show_d (rq_timeout_ms q)))).
  change (last_value ps "memory_kb") with (Some (with_break (show_d (rq_memory_kb q)))).
  change (last_value ps "process_limit") with (Some (with_break (show_d (rq_process_limit q)))).
  change (last_value ps "allow_network") with (Some (with_break (show_bool (rq_allow_network q)))).
  change (last_value ps "allow_privilege_escalation")
    with (Some (with_break (show_bool (rq_allow_privilege_escalation q)))).
  change (last_value ps "readonly_rootfs") with (Some (show_bool (po_readonly_rootfs p))).
  rewrite Hs, Hg.
  change (first_nonempty ps "seccomp_mode" 64 "")
    with (strlcpy 64 (with_break (cstr_or (rq_seccomp_mode q) ""))).
  change (first_nonempty ps "cgroup_mode" 64 "")
    with (strlcpy 64 (with_break (cstr_or (rq_cgroup_mode q) ""))).
  rewrite !strtol_line, !break_neq, !strlcpy_break by (done || lia).
  split_and!; try done. by destruct (po_readonly_rootfs p).
Qed.

(** C34. The command that starts a container, for a launch request the engine
    built from a policy: the request's memory and process limits, no network,
    no new privileges, a private cgroup namespace and all capabilities dropped,
    whatever the policy permits, and a read-only root exactly when the policy
    asks for one.  Permissions the policy grants never reach the container,
    because their values are compared with the line break still attached. *)
Theorem container_launch_confined R path q p seccomp cgroup req :
  launch_clean q p seccomp cgroup -> path <> "" ->
  re_file R path = Some (pairs_text (container_launch_pairs q)) ->
  ToolRunner.rq_seccomp_mode req = "" -> ToolRunner.rq_cgroup_mode req = "" ->
  let r := parse_launch_request_file R path req in
  ToolRunner.rq_timeout_ms r = rq_timeout_ms q /\
  container_command R r = strlcpy 1024 (cat
    [quoted (or_text (rq_docker_cli r) "docker"); " run --rm --name "; container_id r;
     " --network "; "none"; " "; if po_readonly_rootfs p then "--read-only " else "";
     "--cap-drop ALL --security-opt "; "no-new-privileges"; " "; "--cgroupns private ";
     "--pids-limit ";
     strlcpy 32 (show_d (if 0 <? rq_process_limit q then rq_process_limit q else 1));
     " --memory ";
     strlcpy 64 (cat [show_d (if 0 <? rq_memory_kb q then rq_memory_kb q else 65536); "k"]);
     " "; container_image R r; " true"]).
Proof.
  intros Hc Hp Hf Hs Hg r.
  destruct (launch_fields R path q p seccomp cgroup req Hc Hp Hf Hs Hg)
    as (H1 & H2 & H3 & H4 & H5 & H6 & H7 & H8). fold r in H1, H2, H3, H4, H5, H6, H7, H8.
  split; [exact H1|]. unfold container_command. rewrite H2, H3, H4, H6, H7, H8.
  rewrite !break_neq by done. reflexivity.
Qed.

Definition demo_launch_policy : QxRuntimePolicy :=
  MkPolicy true false true (Some "alpine:3.20") (Some "no-new-privileges") (Some "private") None
    None None None.

Definition demo_launch : QxContainerBackendRequest :=
  MkRequest (Some "submit") (Some "grep") (Some "runner") (Some "container")
     (Some "docker") (Some "container") (Some "container://local") (Some "isolated")
     (Some "isolated") (Some "minimal") (Some "pg_qx_runtime") (Some "docker run --rm alpine:3.20 true")
     (Some "alpine:3.20") (Some "no-new-privileges") (Some "private")
     (Some (container_profile demo_launch_policy "no-new-privileges" "private"))
     (Some "qx.receipt.v1") (Some "ed25519") (Some "submit:grep:runner")
     (Some "container_receipt_verified") (Some "task=9") 1200 65536 1 0 0 true true false true.

Definition demo_launch_env : RunnerEnv :=
  MkRunnerEnv (fun _ => None) None (fun _ => Some (pairs_text (container_launch_pairs demo_launch)))
    (fun _ => None) (fun _ => None) (fun _ => true) (fun _ _ => []) (fun _ _ => None).

Lemma container_launch_confined_witness :
  let r := parse_launch_request_file demo_launch_env "launch"
             (request_of_pairs demo_launch_env [("TASK_OID", "9"); ("DOCKER_CLI", "/usr/bin/docker");
                ("CONTAINER_IMAGE", "alpine:3.20")]) in
  po_allow_network demo_launch_policy = true /\
  container_command demo_launch_env r =
  cat [quoted "/usr/bin/docker"; " run --rm --name qx-container-9 --network none --read-only ";
       "--cap-drop ALL --security-opt no-new-privileges --cgroupns private --pids-limit 1 ";
       "--memory 65536k alpine:3.20 true"].
Proof.
  intros r. split; [reflexivity|].
  destruct (container_launch_confined demo_launch_env "launch" demo_launch demo_launch_policy
    "no-new-privileges" "private"
    (request_of_pairs demo_launch_env [("TASK_OID", "9"); ("DOCKER_CLI", "/usr/bin/docker");
                ("CONTAINER_IMAGE", "alpine:3.20")]))
    as [_ Hcmd]; [|discriminate|reflexivity|reflexivity|reflexivity|].
  - split; try reflexivity; vm_compute; repeat split; first [lia | discriminate].
  - fold r in Hcmd. rewrite Hcmd. vm_compute. reflexivity.
Defined.
