(* ===== verification/PolicyProps.v ===== *)
(** * What the DDL keeps true of providers, principals and tools

    The catalogs the policy commands maintain have an invariant: every provider
    is well formed, every principal is bound to a provider it fits, every tool
    to a principal that exists.  All eight commands preserve it, whether they
    succeed or fail, and it is what the authorization of tools relies on. *)

From stdpp Require Import relations.
From Stdlib Require Import Ascii String.
From S2P Require Import Prelude Text Types Scheduler Stat Observe SemanticLog Tables World.
From S2P Require Import Catalog TaskView Recovery Policy Backends ToolExec Envelope Security PolicyCommands.
Open Scope string_scope.
Open Scope Z_scope.
Open Scope bool_scope.
Open Scope list_scope.

(** ** The invariant *)

(** A text of an attestation contract: not empty, on one line, no separator. *)
Definition token (v : cstr) : Prop :=
  exists s, v = Some s /\ s <> "" /\ unsupported_chars s = false.

Definition bundle (profile version policy : cstr) : Prop :=
  (profile = None /\ version = None /\ policy = None) \/
  (token profile /\ token version /\ token policy).

Definition effective_alg (alg : cstr) : string := text_or alg "hmac-sha256".

Definition key_fits (alg : string) (key : cstr) : Prop :=
  exists k, key = Some k /\ k <> "" /\
    if String.eqb alg "ed25519"
    then contains k "-----BEGIN PUBLIC KEY-----" = true /\ contains k "-----END PUBLIC KEY-----" = true
    else (8 <= String.length k)%nat /\ breaks_line k = false.

Definition known_kind (kind : cstr) : Prop :=
  kind = Some "loopback" \/ kind = Some "remote" \/ kind = Some "container" \/ kind = Some "microvm".

Definition isolated_contract (kind : cstr) (alg : string) (profile : cstr) (required : bool) : Prop :=
  isolated_kind (text_or kind "loopback") = true ->
  alg = "ed25519" /\ required = true /\ token profile.

Record provider_ok (p : pg_qx_provider) : Prop := {
  po_valid : OidIsValid (provider_oid p) = true;
  po_kind : known_kind (qxproviderkind p);
  po_endpoint : exists e, qxproviderendpoint p = Some e /\ unsupported_chars e = false /\
    starts_with e (endpoint_scheme (qxproviderkind p)) = true;
  po_alg : effective_alg (qxproviderreceiptalg p) = "hmac-sha256" \/
           effective_alg (qxproviderreceiptalg p) = "ed25519";
  po_key : key_fits (effective_alg (qxproviderreceiptalg p)) (qxproviderreceiptkey p);
  po_isolated : isolated_contract (qxproviderkind p) (effective_alg (qxproviderreceiptalg p))
    (qxproviderattestationprofile p) (qxproviderattestationrequired p);
  po_bundle : bundle (qxproviderattestationprofile p) (qxproviderattestationversion p)
    (qxproviderattestationpolicy p)
}.

Definition provider_runtime (kind : cstr) : string := qx_default_runtime_for_provider_kind kind.

(** How a principal fits a provider: the runtime class is the one of the
    provider's kind, isolation and signing are as the provider asks, and the
    attestation contract is the provider's. *)
Record fits (kind : cstr) (alg : string) (profile version policy : cstr)
    (runtime_class sandbox signer pr_profile pr_version pr_policy : cstr) : Prop := {
  fi_kind : known_kind kind;
  fi_runtime : text_or runtime_class (provider_runtime kind) = provider_runtime kind;
  fi_sandbox : provider_runtime kind <> "host" -> sandbox = Some "isolated";
  fi_signer : alg = "ed25519" -> is_blank signer = false;
  fi_bundle : bundle pr_profile pr_version pr_policy;
  fi_isolated : provider_runtime kind <> "host" -> token pr_profile;
  fi_attested : given profile || given version || given policy = true ->
    bundle profile version policy ->
    pr_profile = profile /\ pr_version = version /\ pr_policy = policy
}.

Definition bound (p : pg_qx_provider) (pr : pg_qx_principal) : Prop :=
  fits (qxproviderkind p) (effective_alg (qxproviderreceiptalg p))
    (qxproviderattestationprofile p) (qxproviderattestationversion p)
    (qxproviderattestationpolicy p)
    (qxprincipalruntimeclass pr) (qxprincipalsandbox pr) (qxprincipalreceiptsigner pr)
    (qxprincipalattestationprofile pr) (qxprincipalattestationversion pr)
    (qxprincipalattestationpolicy pr).

Definition sandbox_known (s : cstr) : Prop :=
  s = None \/ s = Some "builtin" \/ s = Some "restricted" \/ s = Some "isolated".

Record principal_ok (ps : list pg_qx_provider) (pr : pg_qx_principal) : Prop := {
  ro_valid : OidIsValid (principal_oid pr) = true;
  ro_provider : exists p, find_oid (qxprincipalproviderid pr) ps = Some p /\ bound p pr;
  ro_sandbox : sandbox_known (qxprincipalsandbox pr);
  ro_program : token (qxprincipalprogram pr)
}.

Record tool_ok (prs : list pg_qx_principal) (t : pg_qx_tool) : Prop := {
  to_principal : exists pr, find_oid (qxtoolprincipalid t) prs = Some pr;
  to_sandbox : sandbox_known (qxtoolsandbox t);
  to_costs : 0 <= qxtooltokencost t /\ 0 <= qxtoolcostunits t;
  to_plain : qxtoolruntimeclass t = None /\ qxtoolsandboxceiling t = None /\
             qxtoolcapabilitytags t = None
}.

Record tables_ok (ps : list pg_qx_provider) (prs : list pg_qx_principal) (ts : list pg_qx_tool) :
    Prop := {
  ok_provider_oids : NoDup (row_oid <$> ps);
  ok_principal_oids : NoDup (row_oid <$> prs);
  ok_tool_oids : NoDup (row_oid <$> ts);
  ok_providers : Forall provider_ok ps;
  ok_principals : Forall (principal_ok ps) prs;
  ok_tools : Forall (tool_ok prs) ts
}.

Definition policy_ok (c : catalog) : Prop := tables_ok (c_providers c) (c_principals c) (c_tools c).

(** ** What the checks establish *)

Lemma is_blank_false v : is_blank v = false -> exists s, v = Some s /\ s <> "".
Proof. destruct v as [s|]; simpl; [|done]. intros H%String.eqb_neq. eauto. Qed.

Lemma cstr_is_true v s : cstr_is v s = true -> v = Some s.
Proof. destruct v; simpl; [|done]. intros ->%String.eqb_eq. done. Qed.

Lemma checks_kind kind name : checks (qx_validate_provider_kind kind name) (known_kind kind).
Proof.
  eapply checks_mono; [apply checks_bind; [apply checks_raise_if|intros _; apply checks_raise_if]|].
  intros [_ H]. unfold known_kind.
  destruct (cstr_is kind "loopback") eqn:?; [left; by apply cstr_is_true|].
  destruct (cstr_is kind "remote") eqn:?; [right; left; by apply cstr_is_true|].
  destruct (cstr_is kind "container") eqn:?; [right; right; left; by apply cstr_is_true|].
  destruct (cstr_is kind "microvm") eqn:?; [|done]. right; right; right. by apply cstr_is_true.
Qed.

Lemma checks_text v field name : checks (qx_validate_attestation_text v field name) (token v).
Proof.
  eapply checks_mono; [apply checks_bind; [apply checks_raise_if|intros _; apply checks_raise_if]|].
  intros [(s & -> & ?)%is_blank_false ?]. exists s. done.
Qed.

Lemma checks_text_if v field name :
  checks (validate_text_if v field name) (v = None \/ token v).
Proof.
  unfold validate_text_if. destruct v as [s|]; simpl.
  - eapply checks_mono; [apply checks_text|]. auto.
  - eapply checks_mono; [apply checks_ret|]. auto.
Qed.

Lemma checks_texts profile version policy name :
  checks (validate_attestation_texts profile version policy name)
    ((profile = None \/ token profile) /\ (version = None \/ token version) /\
     (policy = None \/ token policy)).
Proof.
  apply checks_bind; [apply checks_text_if|intros _].
  apply checks_bind; [apply checks_text_if|intros _]. apply checks_text_if.
Qed.

Lemma token_given v : token v -> given v = true.
Proof. intros (s & -> & _). done. Qed.

Lemma checks_metadata profile version policy required name :
  checks (qx_validate_attestation_metadata profile version policy required name)
    (bundle profile version policy /\ (required = true -> token profile)).
Proof.
  eapply checks_mono.
  { apply checks_bind; [apply checks_raise_if|intros _].
    apply checks_bind; [apply checks_raise_if|intros _]. apply checks_texts. }
  unfold bundle. intros (H1 & H2 & Hp & Hv & Hq).
  destruct profile as [a|], version as [b|], policy as [d|]; simpl in *; try done.
  - destruct Hp as [|Hp], Hv as [|Hv], Hq as [|Hq]; try done. split; [right; done|done].
  - split; [left; done|]. intros ->. done.
Qed.

Lemma checks_isolation kind alg profile version policy required name :
  checks (qx_validate_provider_isolation_contract kind alg profile version policy required name)
    (bundle profile version policy /\
     isolated_contract kind (effective_alg alg) profile required).
Proof.
  unfold qx_validate_provider_isolation_contract, isolated_contract, effective_alg.
  destruct (isolated_kind (text_or kind "loopback")) eqn:K; cbn [negb].
  - eapply checks_mono.
    { apply checks_bind; [apply checks_metadata|intros _].
      apply checks_bind; [apply checks_raise_if|intros _]. apply checks_raise_if. }
    intros ((Hb & Hp) & Ha & Hr). breflect. auto.
  - eapply checks_mono; [apply checks_bind; [apply checks_metadata|intros _; apply checks_ret]|].
    intros ((Hb & _) & _). split; [done|]. intros. done.
Qed.

Lemma checks_alg alg name :
  checks (qx_validate_provider_receipt_alg alg name)
    (effective_alg alg = "hmac-sha256" \/ effective_alg alg = "ed25519").
Proof.
  unfold qx_validate_provider_receipt_alg, effective_alg. intros w u w'.
  destruct (String.eqb _ "hmac-sha256") eqn:E1; breflect; [intros [? ->]%ret_ok; auto|].
  destruct (String.eqb _ "ed25519") eqn:E2; breflect; [intros [? ->]%ret_ok; auto|].
  intros H. discriminate H.
Qed.

Lemma checks_endpoint kind endpoint name :
  checks (qx_validate_provider_endpoint kind endpoint name)
    (exists e, endpoint = Some e /\ unsupported_chars e = false /\
       starts_with e (endpoint_scheme kind) = true).
Proof.
  eapply checks_mono.
  { apply checks_bind; [apply checks_raise_if|intros _].
    apply checks_bind; [apply checks_raise_if|intros _]. apply checks_raise_if. }
  intros ((e & -> & _)%is_blank_false & ? & ?). breflect. exists e. done.
Qed.

Lemma checks_key alg key name :
  checks (qx_validate_provider_receipt_key alg key name) (key_fits (effective_alg alg) key).
Proof.
  unfold qx_validate_provider_receipt_key, key_fits, effective_alg.
  destruct (String.eqb (text_or alg "hmac-sha256") "ed25519") eqn:E.
  - eapply checks_mono; [apply checks_bind; [apply checks_raise_if|intros _; apply checks_raise_if]|].
    intros [(k & -> & ?)%is_blank_false ?]. breflect. exists k. done.
  - eapply checks_mono.
    { apply checks_bind; [apply checks_raise_if|intros _].
      apply checks_bind; [apply checks_raise_if|intros _]. apply checks_raise_if. }
    intros ((k & -> & ?)%is_blank_false & Hl & ?). apply Nat.ltb_ge in Hl. exists k. done.
Qed.

Lemma checks_runtime_class rc name :
  checks (qx_validate_principal_runtime_class rc name) (rc = "host" \/ rc = "container" \/ rc = "microvm").
Proof.
  eapply checks_mono; [apply checks_bind; [apply checks_raise_if|intros _; apply checks_raise_if]|].
  intros [_ H].
  destruct (String.eqb_spec rc "host"); [auto|].
  destruct (String.eqb_spec rc "container"); [auto|].
  destruct (String.eqb_spec rc "microvm"); [auto|done].
Qed.

Lemma checks_signer signer name :
  checks (qx_validate_principal_receipt_signer signer name)
    (token signer).
Proof.
  eapply checks_mono.
  { apply checks_bind; [apply checks_raise_if|intros _].
    apply checks_bind; [apply checks_raise_if|intros _].
    apply checks_bind; [apply checks_raise_if|intros _; apply checks_raise_if]. }
  intros ((s & -> & ?)%is_blank_false & ? & _). exists s. done.
Qed.

Lemma checks_program program name :
  checks (qx_validate_principal_program program name)
    (token program).
Proof.
  eapply checks_mono.
  { apply checks_bind; [apply checks_raise_if|intros _].
    apply checks_bind; [apply checks_raise_if|intros _].
    apply checks_bind; [apply checks_raise_if|intros _; apply checks_raise_if]. }
  intros ((s & -> & ?)%is_blank_false & ? & _). exists s. done.
Qed.

Lemma checks_sandbox s : checks (qx_validate_tool_sandbox s) (sandbox_known s).
Proof.
  unfold sandbox_known. destruct s as [s|]; cbn [qx_validate_tool_sandbox].
  - eapply checks_mono; [apply checks_raise_if|]. intros H%negb_false_iff.
    rewrite !orb_true_iff, !String.eqb_eq in H. naive_solver.
  - eapply checks_mono; [apply checks_ret|]. auto.
Qed.

Lemma checks_costs tokens cost name :
  checks (qx_validate_tool_costs tokens cost name) (0 <= tokens /\ 0 <= cost).
Proof.
  eapply checks_mono; [apply checks_bind; [apply checks_raise_if|intros _; apply checks_raise_if]|].
  intros [? ?]. breflect. done.
Qed.

Lemma checks_attested profile version policy pr_profile pr_version pr_policy name :
  checks (qx_validate_attestation_binding_values profile version policy
            pr_profile pr_version pr_policy name)
    (given profile || given version || given policy = true -> bundle profile version policy ->
     pr_profile = profile /\ pr_version = version /\ pr_policy = policy).
Proof.
  unfold qx_validate_attestation_binding_values.
  destruct (given profile || given version || given policy) eqn:G; cbn [negb].
  - eapply checks_mono; [apply checks_bind; [apply checks_raise_if|intros _; apply checks_raise_if]|].
    intros [Hg Hs] _ Hb.
    destruct pr_profile as [a|], pr_version as [b|], pr_policy as [d|]; try done.
    destruct Hb as [(-> & -> & ->)|((x & -> & _) & (y & -> & _) & (z & -> & _))]; [done|].
    simpl in Hs. breflect. subst. done.
  - eapply checks_mono; [apply checks_ret|]. done.
Qed.

Lemma checks_given {A} (v : option A) m P :
  (v <> None -> checks m P) -> checks (if given v then m else ret tt) (v <> None -> P).
Proof.
  destruct v as [a|]; simpl; intros H; [|eapply checks_mono; [apply checks_ret|done]].
  eapply checks_mono; [apply H; done|]. done.
Qed.

(** The checks on a principal's binding establish that it fits. *)
Lemma checks_binding_values kind alg runtime_class sandbox signer pr_profile pr_version pr_policy
    name :
  checks (qx_validate_principal_runtime_binding_values kind alg runtime_class sandbox signer
            pr_profile pr_version pr_policy name)
    (known_kind kind /\
     text_or runtime_class (provider_runtime kind) = provider_runtime kind /\
     (provider_runtime kind <> "host" -> sandbox = Some "isolated") /\
     (alg = "ed25519" -> is_blank signer = false) /\
     bundle pr_profile pr_version pr_policy /\
     (provider_runtime kind <> "host" -> token pr_profile)).
Proof.
  unfold qx_validate_principal_runtime_binding_values. fold (provider_runtime kind).
  set (rc := text_or runtime_class (provider_runtime kind)).
  eapply checks_mono.
  { apply checks_bind; [apply checks_kind|intros _].
    apply checks_bind; [apply checks_alg|intros _].
    apply checks_bind; [apply checks_runtime_class|intros _].
    apply checks_bind; [apply checks_metadata|intros _].
    apply checks_bind; [apply checks_given; intros _; apply checks_signer|intros _].
    apply checks_bind; [apply checks_raise_if|intros _].
    apply checks_bind; [apply checks_raise_if|intros _].
    apply checks_bind; [apply checks_raise_if|intros _].
    apply checks_bind; [apply checks_raise_if|intros _]. apply checks_raise_if. }
  intros (Hk & _ & Hrc & (Hb & Hp) & _ & Hhost & Hcont & Hvm & Hsb & Hsig).
  assert (rc = provider_runtime kind) as Hrt.
  { destruct Hk as [->|[->|[->| ->]]]; simpl in *; by apply negb_false_iff, String.eqb_eq in Hhost
      || by apply negb_false_iff, String.eqb_eq in Hcont
      || by apply negb_false_iff, String.eqb_eq in Hvm. }
  rewrite <- Hrt. split_and!; try done.
  - intros Hne%String.eqb_neq. rewrite Hne in Hsb. simpl in Hsb.
    apply negb_false_iff, cstr_is_true in Hsb. done.
  - intros ->. simpl in Hsig. done.
  - intros Hne%String.eqb_neq. apply Hp. rewrite Hne. done.
Qed.

(** ** Rows added and rows changed *)

Definition change_row {R} `{Table R} (o : Oid) (f : R -> R) (l : list R) : list R :=
  (fun r => if row_oid r =? o then f r else r) <$> l.

Section Rows.
Context {R : Type} {HT : Table R}.

Lemma find_oid_app o (l l' : list R) r : find_oid o l = Some r -> find_oid o (l ++ l') = Some r.
Proof.
  unfold find_oid. induction l as [|x l IH]; simpl; [done|]. destruct (row_oid x =? o); auto.
Qed.

Lemma find_change o o' (f : R -> R) l :
  (forall r, row_oid (f r) = row_oid r) ->
  find_oid o' (change_row o f l) = (fun r => if row_oid r =? o then f r else r) <$> find_oid o' l.
Proof.
  intros Hf. unfold find_oid. induction l as [|x l IH]; simpl; [done|].
  destruct (row_oid x =? o) eqn:Eo; simpl.
  - rewrite Hf. destruct (row_oid x =? o'); [|exact IH]. simpl. rewrite Eo. done.
  - destruct (row_oid x =? o'); [|exact IH]. simpl. rewrite Eo. done.
Qed.

Lemma change_oids o (f : R -> R) l :
  (forall r, row_oid (f r) = row_oid r) -> row_oid <$> change_row o f l = row_oid <$> l.
Proof.
  intros Hf. unfold change_row. rewrite <- list_fmap_compose. apply list_fmap_ext. intros _ r _.
  unfold compose. destruct (row_oid r =? o); [apply Hf|done].
Qed.

Lemma NoDup_add (l : list R) r :
  NoDup (row_oid <$> l) -> row_oid r ∉ row_oid <$> l -> NoDup (row_oid <$> l ++ [r]).
Proof.
  intros Hd Hr. rewrite fmap_app. apply NoDup_app. split; [done|]. split; [|apply NoDup_singleton].
  intros o Ho ->%list_elem_of_singleton. done.
Qed.

(** The changed row is the only one with its identifier. *)
Lemma Forall_change (P : R -> Prop) old (f : R -> R) l :
  NoDup (row_oid <$> l) -> old ∈ l -> Forall P l -> P (f old) ->
  Forall P (change_row (row_oid old) f l).
Proof.
  intros Hd Ho Hl Hf. apply Forall_forall. intros r' (r & -> & Hr)%list_elem_of_fmap.
  destruct (row_oid r =? row_oid old) eqn:Eo; breflect.
  - pose proof (find_oid_NoDup l r Hd Hr) as H1. rewrite Eo, (find_oid_NoDup l old Hd Ho) in H1.
    injection H1 as <-. done.
  - rewrite Forall_forall in Hl. auto.
Qed.

End Rows.

Lemma add_provider ps prs ts p :
  tables_ok ps prs ts -> provider_ok p -> row_oid p ∉ row_oid <$> ps ->
  tables_ok (ps ++ [p]) prs ts.
Proof.
  intros [H1 H2 H3 Hp Hr Ht] Hok Hf. constructor; auto using NoDup_add.
  - apply Forall_app. auto.
  - eapply Forall_impl; [exact Hr|]. intros pr [? (q & Hq & Hb) ? ?]. constructor; auto.
    exists q. auto using find_oid_app.
Qed.

Lemma add_principal ps prs ts pr :
  tables_ok ps prs ts -> principal_ok ps pr -> row_oid pr ∉ row_oid <$> prs ->
  tables_ok ps (prs ++ [pr]) ts.
Proof.
  intros [H1 H2 H3 Hp Hr Ht] Hok Hf. constructor; auto using NoDup_add.
  - apply Forall_app. auto.
  - eapply Forall_impl; [exact Ht|]. intros t [(q & Hq) ? ? ?]. constructor; auto.
    exists q. auto using find_oid_app.
Qed.

Lemma add_tool ps prs ts t :
  tables_ok ps prs ts -> tool_ok prs t -> row_oid t ∉ row_oid <$> ts ->
  tables_ok ps prs (ts ++ [t]).
Proof.
  intros [H1 H2 H3 Hp Hr Ht] Hok Hf. constructor; auto using NoDup_add. apply Forall_app. auto.
Qed.

Lemma change_provider ps prs ts old f :
  tables_ok ps prs ts -> old ∈ ps -> (forall p, provider_oid (f p) = provider_oid p) ->
  provider_ok (f old) ->
  Forall (fun pr => qxprincipalproviderid pr = provider_oid old -> bound (f old) pr) prs ->
  tables_ok (change_row (provider_oid old) f ps) prs ts.
Proof.
  intros [H1 H2 H3 Hp Hr Ht] Ho Hf Hok Hb. constructor; auto.
  - rewrite (change_oids (R := pg_qx_provider)); done.
  - change (provider_oid old) with (row_oid old). by apply Forall_change.
  - rewrite Forall_forall in Hr, Hb |- *. intros pr Hpr. destruct (Hr pr Hpr) as [? (p & Hfind & Hbd) ? ?].
    constructor; auto. rewrite find_change, Hfind by done. eexists. split; [done|].
    destruct (row_oid p =? provider_oid old) eqn:Eo; breflect; [|done].
    pose proof (find_oid_row _ _ _ Hfind) as [Hin Hoid].
    pose proof (find_oid_NoDup ps old H1 Ho) as Hold. change (row_oid old) with (provider_oid old) in Hold.
    rewrite <- Eo, Hoid, Hfind in Hold. injection Hold as ->. apply Hb; [done|]. rewrite <- Hoid. done.
Qed.

Lemma change_principal ps prs ts old f :
  tables_ok ps prs ts -> old ∈ prs -> (forall p, principal_oid (f p) = principal_oid p) ->
  principal_ok ps (f old) -> tables_ok ps (change_row (principal_oid old) f prs) ts.
Proof.
  intros [H1 H2 H3 Hp Hr Ht] Ho Hf Hok. constructor; auto.
  - rewrite (change_oids (R := pg_qx_principal)); done.
  - change (principal_oid old) with (row_oid old). by apply Forall_change.
  - eapply Forall_impl; [exact Ht|]. intros t [(q & Hq) ? ? ?]. constructor; auto.
    rewrite find_change, Hq by done. eauto.
Qed.

Lemma change_tool ps prs ts old f :
  tables_ok ps prs ts -> old ∈ ts -> (forall t, tool_oid (f t) = tool_oid t) ->
  tool_ok prs (f old) -> tables_ok ps prs (change_row (tool_oid old) f ts).
Proof.
  intros [H1 H2 H3 Hp Hr Ht] Ho Hf Hok. constructor; auto.
  - rewrite (change_oids (R := pg_qx_tool)); done.
  - change (tool_oid old) with (row_oid old). by apply Forall_change.
Qed.

(** ** The commands *)

Lemma normal_oid_valid o : FirstNormalObjectId <= o -> OidIsValid o = true.
Proof. unfold FirstNormalObjectId. intros. apply OidIsValid_true. lia. Qed.

(** Use a check that succeeded. *)
Ltac use_check lemma :=
  match goal with H : _ = Ok _ _ |- _ => apply lemma in H as [? ?]; subst end.

Ltac use_checks :=
  repeat first [use_check checks_kind | use_check checks_endpoint | use_check checks_alg
               | use_check checks_key | use_check checks_isolation | use_check checks_texts
               | use_check checks_sandbox | use_check checks_program | use_check checks_costs].

Lemma fresh_row {R} `{Table R} w (o : Oid) :
  w_new w = empty_catalog -> oid_taken R w o = false -> o ∉ row_oid <$> rows (w_vis w).
Proof.
  intros Hn Ht Ho. apply not_true_iff_false in Ht. apply Ht, oid_taken_spec.
  unfold all_rows. rewrite Hn, rows_empty, app_nil_r. exact Ho.
Qed.

Section Commands.
Context (E : Env) (D : DdlEnv).

(** Between commands nothing is pending. *)
Definition settled (w : world) : Prop := w_new w = empty_catalog /\ policy_ok (w_vis w).

Lemma cci_tables w :
  tables_ok (all_rows pg_qx_provider w) (all_rows pg_qx_principal w) (all_rows pg_qx_tool w) ->
  settled (cci_world w).
Proof. intros H. split; [done|]. exact H. Qed.

Ltac new_tables :=
  apply cci_tables; unfold all_rows; cbn -[namein];
  match goal with Hn : w_new ?w = empty_catalog |- _ => rewrite Hn end;
  cbn -[namein]; rewrite ?app_nil_r.

Lemma create_provider_ok stmt w u w' :
  settled w -> CreateProviderCommand E D stmt w = Ok u w' -> settled (cci_world w').
Proof.
  intros [Hn Hok] H. unfold CreateProviderCommand, check_create_in_schema in H. inv_run.
  use_checks.
  destruct (QxCatalogLookupProviderByName _ _ _); [discriminate|]. inv_run.
  match goal with H : QxCatalogInsertProvider _ _ _ _ _ _ _ _ _ _ _ _ _ = Ok ?o _ |- _ =>
    apply insert_unique_ok in H as (Ht & Hf & _ & n & ->);
    pose proof (fresh_row (R := pg_qx_provider) w o Hn Ht) end.
  new_tables. apply add_provider; [exact Hok| |assumption].
  destruct_and?. constructor; try done. simpl. by apply normal_oid_valid.
Qed.

Lemma find_named_in {R} `{Table R} (name_of : R -> string) nsp_of name nsp c r :
  find_named name_of nsp_of name nsp c = Some r -> r ∈ rows c.
Proof. intros [Hin _]%find_some. by apply list_elem_of_In. Qed.

Lemma lookup_tuple_ok {R} `{Table R} (name_of : R -> string) nsp_of rv w x w' :
  lookup_tuple D name_of nsp_of rv w = Ok x w' ->
  w' = w /\ forall r nsp, x = Some (r, nsp) -> r ∈ rows (w_vis w).
Proof.
  unfold lookup_tuple. destruct (rv_schemaname rv); intros Hl; inv_run.
  - split; [done|]. intros r nsp (r' & Hf & E')%fmap_Some. injection E' as <- _.
    by apply find_named_in in Hf.
  - split; [done|]. intros r nsp. induction (fetch_search_path D) as [|n path IH]; simpl; [done|].
    destruct (find_named _ _ _ n _) eqn:F; [|exact IH]. intros [= <- _]. by apply find_named_in in F.
Qed.

Lemma checks_bound_principals o kind alg profile version policy name w u w' :
  qx_validate_provider_bound_principals o kind alg profile version policy name w = Ok u w' ->
  w' = w /\ Forall (fun pr => qxprincipalproviderid pr = o ->
    fits kind alg profile version policy (qxprincipalruntimeclass pr) (qxprincipalsandbox pr)
      (qxprincipalreceiptsigner pr) (qxprincipalattestationprofile pr)
      (qxprincipalattestationversion pr) (qxprincipalattestationpolicy pr))
    (c_principals (w_vis w)).
Proof.
  unfold qx_validate_provider_bound_principals. intros H. inv_run.
  eapply checks_mforeach in H0; [exact H0|]. intros pr _ w1 u1 w2. cbv beta.
  destruct (qxprincipalproviderid pr =? o) eqn:Eo; cbn [negb]; intros Hr; inv_run.
  - use_check checks_binding_values. use_check checks_attested.
    split; [done|]. intros _. destruct_and?. constructor; done.
  - split; [done|]. breflect. done.
Qed.

Lemma first_set_given (v old : cstr) : given v = false -> first_set v old = old.
Proof. destruct v; done. Qed.

(** An effective algorithm is its own. *)
Lemma effective_alg_idem alg : effective_alg (Some (effective_alg alg)) = effective_alg alg.
Proof.
  unfold effective_alg, text_or. destruct (is_blank alg) eqn:B; [done|].
  destruct alg as [s|]; simpl in *; [|done]. rewrite B. done.
Qed.

Lemma alter_provider_row_ok stmt old w u w' :
  provider_ok old -> check_altered_provider stmt old w = Ok u w' ->
  w' = w /\ provider_ok (alter_provider_row stmt old) /\
  Forall (fun pr => qxprincipalproviderid pr = provider_oid old ->
            bound (alter_provider_row stmt old) pr) (c_principals (w_vis w)).
Proof.
  intros [Kv Kk Ke Ka Ky Ki Kb] H. unfold check_altered_provider in H.
  set (new := alter_provider_row stmt old) in *.
  apply bind_ok in H as (u1 & w1 & H1 & H). apply (checks_given (ap_provider_kind stmt) _ _
    (fun _ => checks_kind _ _)) in H1 as [-> H1].
  apply bind_ok in H as (u2 & w2 & H2 & H). apply (checks_given (ap_receipt_alg stmt) _ _
    (fun _ => checks_alg _ _)) in H2 as [-> H2].
  apply bind_ok in H as (u3 & w3 & H3 & H). apply checks_texts in H3 as [-> _].
  apply bind_ok in H as (u4 & w4 & H4 & H).
  apply (checks_if _ _ _ _ True (fun _ => checks_endpoint _ _ _) (fun _ => checks_ret)) in H4
    as [-> H4].
  apply bind_ok in H as (u5 & w5 & H5 & H).
  apply (checks_if _ _ _ _ True (fun _ => checks_key _ _ _) (fun _ => checks_ret)) in H5
    as [-> H5].
  apply bind_ok in H as (u6 & w6 & H6 & H). apply checks_isolation in H6 as [-> [Hb Hi]].
  apply checks_bound_principals in H as [-> Hpr]. fold (effective_alg (qxproviderreceiptalg new)) in *.
  rewrite effective_alg_idem in *. split; [done|]. split; [|exact Hpr].
  constructor; try done; simpl.
  - destruct (ap_provider_kind stmt); [by apply H1|done].
  - unfold new in H4. simpl in H4. destruct (ap_provider_kind stmt), (ap_endpoint_name stmt); done.
  - unfold new. simpl. destruct (ap_receipt_alg stmt); [by apply H2|done].
  - unfold new in *. simpl in *. destruct (ap_receipt_alg stmt), (ap_receipt_key stmt); done.
Qed.


(** Follow the lookup of the row an ALTER is about. *)
Ltac altered_row Hin :=
  match goal with H : _ D _ ?w = Ok ?x _ |- _ =>
    apply lookup_tuple_ok in H as [? Hin]; subst; destruct x as [[? ?]|]; [|discriminate];
    specialize (Hin _ _ eq_refl); inv_run
  end.

Lemma alter_provider_ok stmt w u w' :
  settled w -> AlterProviderCommand E D stmt w = Ok u w' -> settled (cci_world w').
Proof.
  intros [Hn Hok] H. unfold AlterProviderCommand, check_owner in H. inv_run. altered_row Hin.
  pose proof Hok as [_ _ _ Hp _ _]. rewrite Forall_forall in Hp.
  match goal with H : check_altered_provider _ _ _ = Ok _ _ |- _ =>
    apply alter_provider_row_ok in H as (-> & Hrow & Hb); [|by apply Hp] end.
  match goal with H : update_row _ _ _ = Ok _ _ |- _ => injection H as <- <- end.
  new_tables. by apply change_provider.
Qed.

Lemma provider_row_ok o w p w' :
  provider_row o w = Ok p w' -> w' = w /\ find_oid o (c_providers (w_vis w)) = Some p.
Proof.
  unfold provider_row, SearchSysCache. intros H. inv_run.
  destruct (find_oid o _) as [q|] eqn:F; [|discriminate]. inv_run. done.
Qed.

Lemma known_kind_text kind : known_kind kind -> Some (text_or kind "loopback") = kind.
Proof. intros [->|[->|[->| ->]]]; done. Qed.

Ltac provider_fields p :=
  repeat match goal with
  | H : provider_row _ _ = Ok ?q _, Hf : find_oid _ _ = Some p |- _ =>
      let Hq := fresh in
      apply provider_row_ok in H as [-> Hq]; rewrite Hf in Hq; injection Hq as <-
  end.

Lemma binding_ok o p rc sandbox signer profile version policy name w u w' :
  find_oid o (c_providers (w_vis w)) = Some p -> provider_ok p ->
  validate_binding_to_provider o rc sandbox signer profile version policy name w = Ok u w' ->
  w' = w /\
  fits (qxproviderkind p) (effective_alg (qxproviderreceiptalg p))
    (qxproviderattestationprofile p) (qxproviderattestationversion p)
    (qxproviderattestationpolicy p) rc sandbox signer
    (first_set profile (qxproviderattestationprofile p))
    (first_set version (qxproviderattestationversion p))
    (first_set policy (qxproviderattestationpolicy p)).
Proof.
  intros Hf [_ Hk _ _ _ _ _] H. unfold validate_binding_to_provider, qx_provider_kind_by_oid,
    qx_provider_receipt_alg_by_oid, qx_provider_attestation_profile_by_oid,
    qx_provider_attestation_version_by_oid, qx_provider_attestation_policy_by_oid in H.
  inv_run. provider_fields p. rewrite (known_kind_text _ Hk) in *.
  use_check checks_binding_values. use_check checks_attested. destruct_and?.
  split; [done|]. constructor; done.
Qed.

Lemma provider_binding_ok nsp owner rv w o w' :
  qx_validate_principal_provider_binding E D nsp owner rv w = Ok o w' ->
  w' = w /\ exists p, find_oid o (c_providers (w_vis w)) = Some p.
Proof.
  unfold qx_validate_principal_provider_binding. destruct rv as [rv|]; [|done].
  unfold QxLookupProvider, lookup_named. intros H. inv_run.
  destruct (is_blank _); [discriminate|]. destruct (provider_oid <$> _) as [q|]; [|discriminate].
  inv_run. use_check provider_row_ok. eauto.
Qed.

(** The runtime class that stands for a missing one. *)
Lemma default_runtime_ok rc o p w x w' :
  find_oid o (c_providers (w_vis w)) = Some p -> provider_ok p ->
  default_runtime_class rc o w = Ok x w' ->
  w' = w /\ x = text_or rc (provider_runtime (qxproviderkind p)).
Proof.
  intros Hf [_ Hk _ _ _ _ _] H. unfold default_runtime_class, qx_provider_kind_by_oid in H.
  unfold text_or. destruct (is_blank rc) eqn:B; cbn [negb] in H; inv_run.
  - provider_fields p. rewrite (known_kind_text _ Hk). done.
  - destruct rc; done.
Qed.

Lemma text_or_default rc d : text_or (Some (text_or rc d)) d = text_or rc d.
Proof.
  unfold text_or. destruct rc as [s|]; simpl; [destruct (String.eqb s "") eqn:B; simpl|];
    try (destruct (String.eqb d "") eqn:?; done). rewrite B. done.
Qed.

Lemma fits_stored_runtime kind alg pf vs pl rc sb sg pf' vs' pl' :
  fits kind alg pf vs pl (Some (text_or rc (provider_runtime kind))) sb sg pf' vs' pl' ->
  fits kind alg pf vs pl rc sb sg pf' vs' pl'.
Proof. intros []. constructor; try done. rewrite text_or_default in *. done. Qed.

Lemma first_set_idem (v d : cstr) : first_set (first_set v d) d = first_set v d.
Proof. destruct v; [done|]. simpl. destruct d; done. Qed.

Lemma create_principal_ok stmt w u w' :
  settled w -> CreatePrincipalCommand E D stmt w = Ok u w' -> settled (cci_world w').
Proof.
  intros [Hn Hok] H. unfold CreatePrincipalCommand, check_create_in_schema in H. inv_run.
  use_checks.
  match goal with H : qx_validate_principal_provider_binding _ _ _ _ _ _ = Ok _ _ |- _ =>
    apply provider_binding_ok in H as (-> & p & Hp) end.
  pose proof (find_oid_row _ _ _ Hp) as [Hin _]. pose proof Hok as [_ _ _ Hps _ _].
  rewrite Forall_forall in Hps. specialize (Hps p Hin).
  unfold qx_provider_attestation_profile_by_oid, qx_provider_attestation_version_by_oid,
    qx_provider_attestation_policy_by_oid in *. inv_run. provider_fields p.
  match goal with H : default_runtime_class _ _ _ = Ok _ _ |- _ =>
    apply (default_runtime_ok _ _ p) in H as [-> _]; [|done|done] end.
  match goal with H : validate_binding_to_provider _ _ _ _ _ _ _ _ _ = Ok _ _ |- _ =>
    apply (binding_ok _ p) in H as [-> Hfit]; [|done|done] end.
  rewrite !first_set_idem in Hfit.
  destruct (QxCatalogLookupPrincipalByName _ _ _); [discriminate|]. inv_run.
  match goal with H : QxCatalogInsertPrincipal _ _ _ _ _ _ _ _ _ _ _ _ _ _ = Ok ?o _ |- _ =>
    apply insert_unique_ok in H as (Ht & Hf & _ & n & ->);
    pose proof (fresh_row (R := pg_qx_principal) w o Hn Ht) end.
  new_tables. apply add_principal; [exact Hok| |assumption].
  constructor; simpl; [by apply normal_oid_valid|by exists p|done|done].
Qed.

(** The row ALTER PRINCIPAL leaves. *)
Lemma alter_principal_run_ok stmt old nsp owner w u w' :
  Forall provider_ok (c_providers (w_vis w)) -> principal_ok (c_providers (w_vis w)) old ->
  alter_principal E D stmt old nsp owner w = Ok u w' ->
  exists provideroid profile version policy,
    let f := alter_principal_row stmt provideroid profile version policy in
    update_row (principal_oid old) f w = Ok u w' /\ principal_ok (c_providers (w_vis w)) (f old).
Proof.
  intros Hps [Hv0 (p0 & Hp0 & Hb0) Hsb0 Hprog0] H. unfold alter_principal in H. cbv zeta in H.
  apply bind_ok in H as (provideroid & w1 & Hpv & H).
  assert (w1 = w /\ exists p, find_oid (or_old provideroid (qxprincipalproviderid old))
            (c_providers (w_vis w)) = Some p) as (-> & p & Hp).
  { destruct (given (ar_provider_name stmt)); inv_run; [|eauto].
    use_check provider_binding_ok. eauto. }
  apply bind_ok in H as (u1 & w1 & Hprog & H).
  apply (checks_given (ar_program_name stmt) _ _ (fun _ => checks_program _ _)) in Hprog as [-> Hprog].
  inv_run. use_checks.
  pose proof (find_oid_row _ _ _ Hp) as [Hin _]. rewrite Forall_forall in Hps. specialize (Hps p Hin).
  unfold qx_provider_attestation_profile_by_oid, qx_provider_attestation_version_by_oid,
    qx_provider_attestation_policy_by_oid in *. inv_run.
  match goal with H : default_runtime_class _ _ _ = Ok _ _ |- _ =>
    apply (default_runtime_ok _ _ p) in H as [-> ->]; [|done|done] end.
  provider_fields p.
  match goal with H : validate_binding_to_provider _ _ _ _ _ _ _ _ _ = Ok _ _ |- _ =>
    apply (binding_ok _ p) in H as [-> Hfit]; [|done|done] end.
  rewrite !first_set_idem in Hfit. apply fits_stored_runtime in Hfit.
  do 4 eexists. split; [eassumption|]. constructor; simpl.
  - done.
  - exists p. done.
  - destruct (ar_sandbox_name stmt); done.
  - destruct (ar_program_name stmt); [by apply Hprog|done].
Qed.

Lemma alter_principal_ok stmt w u w' :
  settled w -> AlterPrincipalCommand E D stmt w = Ok u w' -> settled (cci_world w').
Proof.
  intros [Hn Hok] H. unfold AlterPrincipalCommand, check_owner in H. inv_run. altered_row Hin.
  pose proof Hok as [_ _ _ Hp Hpr _]. rewrite Forall_forall in Hpr.
  match goal with H : alter_principal _ _ _ _ _ _ _ = Ok _ _ |- _ =>
    apply alter_principal_run_ok in H as (po & pf & vs & pl & Hup & Hrow); [|done|by apply Hpr] end.
  injection Hup as <- <-. new_tables. by apply change_principal.
Qed.

Lemma tool_binding_ok nsp owner principal_name sandbox w o w' :
  qx_validate_tool_principal_binding E D nsp owner principal_name sandbox w = Ok o w' ->
  w' = w /\ exists pr, find_oid o (c_principals (w_vis w)) = Some pr.
Proof.
  unfold qx_validate_tool_principal_binding, QxLookupPrincipal, lookup_named, SearchSysCache.
  intros H. inv_run. destruct (is_blank _); [discriminate|].
  destruct (pr_oid <$> _) as [q|]; [|discriminate]. inv_run.
  destruct (find_oid q _) as [pr|] eqn:F; [|discriminate]. inv_run.
  assert (forall s v r v', qx_sandbox_rank s v = Ok r v' -> v' = v) as Hrank.
  { intros [s|] v r v'; unfold qx_sandbox_rank; [|intros; by inv_run].
    repeat (case_match; try (intros; by inv_run)). }
  repeat match goal with H : qx_sandbox_rank _ _ = Ok _ _ |- _ => apply Hrank in H as -> end. eauto.
Qed.

Lemma check_tool_policy_ok nsp name w u w' : check_tool_policy D nsp name w = Ok u w' -> w' = w.
Proof.
  unfold check_tool_policy, QxLookupNamespacePolicy, lookup_named.
  destruct (given name); intros H; inv_run; [|done].
  destruct (is_blank _); [discriminate|]. destruct (namespace_oid <$> _); [|discriminate]. by inv_run.
Qed.

Lemma create_tool_ok stmt w u w' :
  settled w -> CreateToolCommand E D stmt w = Ok u w' -> settled (cci_world w').
Proof.
  intros [Hn Hok] H. unfold CreateToolCommand, check_create_in_schema in H. inv_run. use_checks.
  match goal with H : qx_validate_tool_principal_binding _ _ _ _ _ _ _ = Ok _ _ |- _ =>
    apply tool_binding_ok in H as (-> & pr & Hpr) end.
  match goal with H : check_tool_policy _ _ _ _ = Ok _ _ |- _ => apply check_tool_policy_ok in H as -> end.
  destruct (QxCatalogLookupToolByName _ _ _); [discriminate|]. inv_run.
  match goal with H : QxCatalogInsertTool _ _ _ _ _ _ _ _ _ _ _ _ = Ok ?o _ |- _ =>
    apply insert_unique_ok in H as (Ht & Hf & _ & n & ->);
    pose proof (fresh_row (R := pg_qx_tool) w o Hn Ht) end.
  new_tables. apply add_tool; [exact Hok| |assumption].
  constructor; simpl; [by exists pr|done|done|done].
Qed.

Lemma alter_tool_ok stmt w u w' :
  settled w -> AlterToolCommand E D stmt w = Ok u w' -> settled (cci_world w').
Proof.
  intros [Hn Hok] H. unfold AlterToolCommand, check_owner in H. inv_run. altered_row Hin.
  pose proof Hok as [_ _ _ _ _ Ht]. rewrite Forall_forall in Ht.
  match goal with H : (if _ then qx_validate_tool_costs _ _ _ else _) _ = Ok _ _ |- _ =>
    apply (checks_if _ _ _ _ True (fun _ => checks_costs _ _ _) (fun _ => checks_ret)) in H
      as [? Hcost]; subst end.
  use_checks.
  match goal with H : check_tool_policy _ _ _ _ = Ok _ _ |- _ => apply check_tool_policy_ok in H as -> end.
  match goal with H : qx_validate_tool_principal_binding _ _ _ _ _ _ _ = Ok _ _ |- _ =>
    apply tool_binding_ok in H as (-> & pr & Hpr) end.
  match goal with H : update_row _ _ _ = Ok _ _ |- _ => injection H as <- <- end.
  new_tables. apply change_tool; [exact Hok|done|done|].
  destruct (Ht _ Hin) as [Hold Hsb Hc Hpl]. constructor; simpl; [| | |done].
  - destruct (at_principal_name stmt); simpl; eauto.
  - destruct (at_sandbox_name stmt); done.
  - destruct (at_token_cost stmt), (at_cost_units stmt); done.
Qed.

(** *** Namespace policies are in another table *)

Lemma keeps_raise_if b code msg detail : keeps (raise_if b code msg detail).
Proof. destruct b; [apply keeps_throw|apply keeps_ret]. Qed.

Lemma keeps_lift {A} (r : pg_error + A) : keeps (lift r).
Proof. intros w. destruct r; apply same_catalogs_refl. Qed.

#[local] Hint Resolve keeps_raise_if keeps_lift : qx.

Lemma keeps_tool_list seen tools : keeps (validate_tool_list seen tools).
Proof.
  revert seen. induction tools as [|t tools IH]; intros seen; simpl; [apply keeps_ret|].
  destruct t; auto with qx.
Qed.

Lemma keeps_registered nsp tools : keeps (QxValidateRegisteredTools D nsp tools false).
Proof.
  apply keeps_mforeach. intros t. apply keeps_bind; [destruct t; apply keeps_ret || apply keeps_throw|].
  intros name. apply keeps_bind; [apply keeps_gets|]. intros c.
  destruct (QxCatalogLookupToolByName _ _ _); [apply keeps_ret|apply keeps_throw].
Qed.

Lemma same_settled w w1 : settled w -> same_catalogs w w1 -> settled w1.
Proof. intros [Hn Hok] (Hv & Hw & _). split; [by rewrite Hw|by rewrite Hv]. Qed.

(** A step that keeps the catalogs keeps the tables settled. *)
Lemma keeps_settled {A} (m : M A) w a w1 : keeps m -> settled w -> m w = Ok a w1 -> settled w1.
Proof. intros Hm Hs H. eapply same_settled; [exact Hs|]. by eapply keeps_ok. Qed.

Lemma create_policy_ok stmt w u w' :
  settled w -> CreateNamespacePolicyCommand E D stmt w = Ok u w' -> settled (cci_world w').
Proof.
  intros Hs H. unfold CreateNamespacePolicyCommand, check_create_in_schema, check_auth_role in H.
  apply bind_ok in H as (nsp & w0 & [_ ->]%lift_ok & H). cbv zeta in H.
  apply bind_ok in H as (role & w1 & H1 & H).
  apply (keeps_settled _ w) in H1; [|destruct (cn_auth_role stmt); auto with qx|done].
  clear Hs. inv_run.
  match goal with H : QxValidateToolList _ _ = Ok _ _ |- _ =>
    apply (keeps_settled _ _ _ _ (keeps_tool_list [] _)) in H; [|done] end.
  match goal with H : QxValidateRegisteredTools _ _ _ _ _ = Ok _ _ |- _ =>
    apply (keeps_settled _ _ _ _ (keeps_registered _ _)) in H as [Hn Hok]; [|done] end.
  destruct (QxCatalogLookupNamespacePolicyByName _ _ _); [discriminate|]. inv_run.
  match goal with H : QxCatalogInsertNamespacePolicy _ _ _ _ _ _ _ _ _ = Ok ?o _ |- _ =>
    apply insert_unique_ok in H as (_ & _ & _ & n & ->) end.
  new_tables. exact Hok.
Qed.

Lemma alter_policy_ok stmt w u w' :
  settled w -> AlterNamespacePolicyCommand E D stmt w = Ok u w' -> settled (cci_world w').
Proof.
  intros Hs H. unfold AlterNamespacePolicyCommand, check_owner, check_auth_role in H.
  apply bind_ok in H as (u0 & w0 & [_ ->]%raise_if_ok & H).
  apply bind_ok in H as (nsp & w0 & [_ ->]%lift_ok & H). cbv zeta in H.
  apply bind_ok in H as (found & w0 & [_ ->]%gets_ok & H). destruct found as [old|]; [|discriminate].
  apply bind_ok in H as (u1 & w1 & [_ ->]%raise_if_ok & H).
  apply bind_ok in H as (role & w1 & H1 & H).
  apply (keeps_settled _ w) in H1; [|destruct (an_auth_role stmt); auto 6 with qx|done].
  apply bind_ok in H as (u2 & w2 & H2 & H).
  apply (keeps_settled _ w1) in H2 as [Hn Hok]; [| |done].
  2:{ destruct (an_allowed_tools stmt); [|apply keeps_ret].
      apply keeps_bind; [apply keeps_tool_list|intros _; apply keeps_registered]. }
  injection H as <- <-. new_tables. exact Hok.
Qed.

(** *** All of them *)

Inductive ddl :=
  | DCreatePolicy (s : CreateNamespacePolicyStmt)
  | DAlterPolicy (s : AlterNamespacePolicyStmt)
  | DCreateProvider (s : CreateProviderStmt)
  | DAlterProvider (s : AlterProviderStmt)
  | DCreatePrincipal (s : CreatePrincipalStmt)
  | DAlterPrincipal (s : AlterPrincipalStmt)
  | DCreateTool (s : CreateToolStmt)
  | DAlterTool (s : AlterToolStmt).

Definition ddl_command (d : ddl) : M unit :=
  match d with
  | DCreatePolicy s => CreateNamespacePolicyCommand E D s
  | DAlterPolicy s => AlterNamespacePolicyCommand E D s
  | DCreateProvider s => CreateProviderCommand E D s
  | DAlterProvider s => AlterProviderCommand E D s
  | DCreatePrincipal s => CreatePrincipalCommand E D s
  | DAlterPrincipal s => AlterPrincipalCommand E D s
  | DCreateTool s => CreateToolCommand E D s
  | DAlterTool s => AlterToolCommand E D s
  end.

(** One statement: its effects stay if it succeeds, and are undone if not. *)
Inductive ddl_step (w : world) : world -> Prop :=
  | step_ok d w' : run_command (ddl_command d) w = Ok tt w' -> ddl_step w w'
  | step_error d e w' : run_command (ddl_command d) w = Err e w' -> ddl_step w w'.

Lemma ddl_step_settled w w' : settled w -> ddl_step w w' -> settled w'.
Proof.
  intros Hs [d w1 H|d e w1 H]; unfold run_command in H.
  - destruct (ddl_command d w) as [[] w2|] eqn:R; [|discriminate]. injection H as <-.
    destruct d; cbn [ddl_command] in R;
      eauto using create_policy_ok, alter_policy_ok, create_provider_ok, alter_provider_ok,
        create_principal_ok, alter_principal_ok, create_tool_ok, alter_tool_ok.
  - destruct (ddl_command d w) as [|e2 w2]; [discriminate|]. injection H as _ <-. exact Hs.
Qed.

Lemma ddl_steps_settled w w' : settled w -> rtc ddl_step w w' -> settled w'.
Proof. intros Hs. induction 1 as [|w1 w2 w3 Hstep _ IH]; eauto using ddl_step_settled. Qed.

End Commands.

(** *** An example *)

Fixpoint ddl_run (E : Env) (D : DdlEnv) (w : world) (ds : list ddl) : world :=
  match ds with
  | [] => w
  | d :: rest =>
      match run_command (ddl_command E D d) w with
      | Ok _ w' => ddl_run E D w' rest
      | Err _ w' => ddl_run E D w' rest
      end
  end.

Lemma ddl_run_steps E D w ds : rtc (ddl_step E D) w (ddl_run E D w ds).
Proof.
  revert w. induction ds as [|d ds IH]; intros w; simpl; [done|].
  destruct (run_command (ddl_command E D d) w) as [[] w1|e w1] eqn:R;
    (eapply rtc_l; [|apply IH]); econstructor; exact R.
Qed.

Definition ddl_env : DdlEnv :=
  {| get_namespace_name := fun _ => Some "public";
     LookupExplicitNamespace := fun _ => inr 2200;
     RangeVarGetCreationNamespace := fun _ => inr 2200;
     QualifiedNameGetCreationNamespace := fun _ => inr 2200;
     fetch_search_path := [2200];
     schema_create_allowed := fun _ _ => true;
     get_rolespec_oid := fun _ => inr 10;
     GetUserNameFromId := fun _ => "owner";
     nodeToString := fun _ => "";
     released := fun s => s |}.

Definition local_name (name : string) : RangeVar := MkRangeVar None None name.

(** A loopback provider, a principal, a tool, a policy that allows it, and two
    statements that are refused. *)
Definition demo_ddl : list ddl :=
  [ DCreateProvider (MkCreateProvider (local_name "local_runner") (Some "loopback")
      (Some "local://qhapaqxian-tool-runner") None (Some "demo-receipt-key") None None None true);
    DCreatePrincipal (MkCreatePrincipal (local_name "runner") (Some (local_name "local_runner"))
      (Some "qhapaqxian_tool_runner") (Some "restricted") None None None None None true);
    DCreateTool (MkCreateTool (local_name "search") (Some "builtin.search") (Some "restricted")
      (Some "runner") None 40 9 true);
    DCreateTool (MkCreateTool (local_name "shell") (Some "builtin.shell") (Some "isolated")
      (Some "runner") None 40 9 true);
    DAlterProvider (MkAlterProvider (local_name "local_runner") (Some "container") None None None
      None None None None None);
    DCreatePolicy (MkCreatePolicy "default_policy" "public" None [NString "search"]
      (Some "require_capabilities=runtime:host") true true) ].

Lemma empty_policy_ok : policy_ok empty_catalog.
Proof. constructor; constructor. Qed.
