(* ===== verification/SecurityProps.v ===== *)
(** * What authorization lets through

    The exact condition under which the tools of an agent are authorized, the
    agreement of the checks made at DDL time with those made at run time, and the
    contract text as a round trip: what authorization writes is what the planner
    and the runtime read. *)

From Stdlib Require Import Ascii String.
From S2P Require Import Prelude Text Types Scheduler Stat Observe SemanticLog Tables World.
From S2P Require Import Catalog TaskView Recovery Policy Backends ToolExec Envelope Security.
From S2P Require Import PolicyCommands PolicyProps.
Open Scope string_scope.
Open Scope Z_scope.
Open Scope bool_scope.
Open Scope list_scope.

(** ** Checks with an exact condition *)

Definition decides (m : M unit) (P : Prop) : Prop :=
  forall w, (P -> m w = Ok tt w) /\ (forall u w', m w = Ok u w' -> w' = w /\ P).

Lemma decides_raise_if b code msg detail : decides (raise_if b code msg detail) (b = false).
Proof. intros w. split; [intros ->; done|]. intros u w' [? ?]%raise_if_ok. done. Qed.

Lemma decides_ret : decides (ret tt) True.
Proof. intros w. split; [done|]. intros u w' [_ ?]%ret_ok. done. Qed.

Lemma decides_bind m k P Q : decides m P -> decides k Q -> decides (m ;;; k) (P /\ Q).
Proof.
  intros Hm Hk w. split.
  - intros [HP HQ]. unfold bind. rewrite (proj1 (Hm w) HP). apply Hk, HQ.
  - intros u w' (x & w1 & H1 & H2)%bind_ok. apply Hm in H1 as [-> HP].
    apply Hk in H2 as [-> HQ]. done.
Qed.

Lemma decides_iff m P Q : decides m P -> (P <-> Q) -> decides m Q.
Proof.
  intros Hm HPQ w. destruct (Hm w) as [H1 H2]. split; [intros HQ; apply H1, HPQ, HQ|].
  intros u w' H. apply H2 in H as [-> HP]. split; [done|]. apply HPQ, HP.
Qed.

Lemma decides_mforeach {A} (f : A -> M unit) (P : A -> Prop) l :
  (forall x, decides (f x) (P x)) -> decides (mforeach f l) (Forall P l).
Proof.
  intros Hf. induction l as [|x l IH]; simpl; [eapply decides_iff; [apply decides_ret|]|].
  - split; [constructor|done].
  - eapply decides_iff; [apply decides_bind; [apply Hf|exact IH]|]. by rewrite Forall_cons.
Qed.

Lemma decides_run m P w : decides m P -> (m w = Ok tt w <-> P).
Proof.
  intros Hm. destruct (Hm w) as [H1 H2]. split; [intros H; by apply H2 in H as [_ ?]|exact H1].
Qed.

(** A check in front of a computation. *)
Lemma decides_then {A} m (k : M A) P w a w' :
  decides m P -> ((m ;;; k) w = Ok a w' <-> P /\ k w = Ok a w').
Proof.
  intros Hm. destruct (Hm w) as [H1 H2]. split.
  - intros (x & w1 & Hx & Hk)%bind_ok. apply H2 in Hx as [-> HP]. done.
  - intros [HP Hk]. unfold bind. rewrite (H1 HP). done.
Qed.

(** ** The conditions *)

Definition sandbox_rank_of (s : cstr) : option Z :=
  if is_blank s then (match s with None => Some 0 | Some _ => None end)
  else if cstr_is s "builtin" then Some 0
  else if cstr_is s "restricted" then Some 1
  else if cstr_is s "isolated" then Some 2 else None.

Lemma sandbox_rank_iff s w r w' :
  qx_sandbox_rank s w = Ok r w' <-> w' = w /\ sandbox_rank_of s = Some r.
Proof.
  unfold qx_sandbox_rank, sandbox_rank_of. destruct s as [s|]; simpl.
  - destruct (String.eqb_spec s "") as [->|]; simpl; [split; [discriminate|naive_solver]|].
    repeat case_match; unfold ret; naive_solver.
  - unfold ret. naive_solver.
Qed.

(** The principal fits its provider, as the check at run time has it. *)
Record runtime_fits (kind runtime : string) (sandbox signer : cstr) (alg : string) : Prop := {
  rf_known : runtime = "host" \/ runtime = "container" \/ runtime = "microvm";
  rf_local : kind = "loopback" \/ kind = "remote" -> runtime = "host";
  rf_container : kind = "container" -> runtime = "container";
  rf_microvm : kind = "microvm" -> runtime = "microvm";
  rf_isolated : runtime <> "host" -> sandbox = Some "isolated";
  rf_signer : alg = "ed25519" -> is_blank signer = false
}.

Lemma negb_eqb_false a b : negb (String.eqb a b) = false <-> a = b.
Proof. rewrite negb_false_iff. apply String.eqb_eq. Qed.

Lemma cstr_is_iff v s : cstr_is v s = true <-> v = Some s.
Proof. destruct v; simpl; [|done]. rewrite String.eqb_eq. naive_solver. Qed.

Lemma decides_runtime_binding name kind rc sandbox signer alg context :
  decides (qx_validate_principal_runtime_binding name kind rc sandbox signer alg context)
    (runtime_fits (text_or kind "loopback")
       (text_or rc (qx_default_runtime_for_provider_kind (Some (text_or kind "loopback"))))
       sandbox signer (text_or alg "hmac-sha256")).
Proof.
  unfold qx_validate_principal_runtime_binding.
  generalize (text_or rc (qx_default_runtime_for_provider_kind (Some (text_or kind "loopback")))).
  intros runtime. generalize (text_or kind "loopback") (text_or alg "hmac-sha256"). intros k a.
  eapply decides_iff.
  { repeat (apply decides_bind; [apply decides_raise_if|]). apply decides_raise_if. }
  split.
  - intros (H1 & H2 & H3 & H4 & H5 & H6). constructor.
    + destruct (String.eqb_spec runtime "host"); [auto|].
      destruct (String.eqb_spec runtime "container"); [auto|].
      destruct (String.eqb_spec runtime "microvm"); [auto|done].
    + intros [-> | ->]; by apply negb_eqb_false in H2.
    + intros ->. by apply negb_eqb_false in H3.
    + intros ->. by apply negb_eqb_false in H4.
    + intros Hne%String.eqb_neq. rewrite Hne in H5. simpl in H5.
      by apply negb_false_iff, cstr_is_iff in H5.
    + intros ->. exact H6.
  - intros [Hk Hl Hc Hm Hi Hs]. split_and!.
    + destruct Hk as [->|[->| ->]]; done.
    + destruct (String.eqb_spec k "loopback"), (String.eqb_spec k "remote"); simpl; try done;
        apply negb_eqb_false; auto.
    + destruct (String.eqb_spec k "container"); simpl; [|done]. apply negb_eqb_false; auto.
    + destruct (String.eqb_spec k "microvm"); simpl; [|done]. apply negb_eqb_false; auto.
    + destruct (String.eqb_spec runtime "host"); simpl; [done|]. rewrite Hi by done. done.
    + destruct (String.eqb_spec a "ed25519"); simpl; [|done]. auto.
Qed.

(** What a policy asks of the capability tags of a tool. *)
Definition capabilities_allowed (policy : pg_qx_namespace) (tags : string) : Prop :=
  (forall tag, tag ∈ qx_split_capability_tags (required_capabilities policy) ->
     tag ∈ qx_split_capability_tags (Some tags)) /\
  (forall tag, tag ∈ qx_split_capability_tags (denied_capabilities policy) ->
     tag ∉ qx_split_capability_tags (Some tags)).

Lemma list_contains_iff l s : qx_string_list_contains l (Some s) = true <-> s ∈ l.
Proof.
  simpl. rewrite existsb_exists. split.
  - intros (x & Hx & ->%String.eqb_eq). by apply list_elem_of_In.
  - intros H. exists s. rewrite String.eqb_refl. split; [by apply list_elem_of_In|done].
Qed.

Lemma decides_capability_policy policy name tags :
  decides (qx_validate_tool_capability_policy policy name tags) (capabilities_allowed policy tags).
Proof.
  unfold qx_validate_tool_capability_policy, capabilities_allowed.
  set (have := qx_split_capability_tags (Some tags)).
  assert (decides
    (mforeach (fun tag => raise_if (negb (qx_string_list_contains have (Some tag)))
       ERRCODE_INSUFFICIENT_PRIVILEGE
       (cat ["tool "; quoted name; " does not satisfy capability requirement "; quoted tag;
             cat [" in namespace policy "; quoted (qxnamespacepolicyname policy)]])
       (Some (cat ["Authorized capability tags: "; text_or (Some tags) "<none>"; "."])))
       (qx_split_capability_tags (required_capabilities policy)) ;;;
     mforeach (fun tag => raise_if (qx_string_list_contains have (Some tag))
       ERRCODE_INSUFFICIENT_PRIVILEGE
       (cat ["tool "; quoted name; " uses denied capability "; quoted tag;
             cat [" in namespace policy "; quoted (qxnamespacepolicyname policy)]])
       (Some (cat ["Authorized capability tags: "; text_or (Some tags) "<none>"; "."])))
       (qx_split_capability_tags (denied_capabilities policy)))
    ((forall tag, tag ∈ qx_split_capability_tags (required_capabilities policy) -> tag ∈ have) /\
     (forall tag, tag ∈ qx_split_capability_tags (denied_capabilities policy) -> tag ∉ have))) as H.
  { eapply decides_iff.
    { apply decides_bind; apply decides_mforeach; intros tag; apply decides_raise_if. }
    rewrite !Forall_forall. f_equiv; apply forall_proper; intros tag.
    - rewrite negb_false_iff, list_contains_iff. done.
    - rewrite <- not_true_iff_false, list_contains_iff. done. }
  destruct (required_capabilities policy), (denied_capabilities policy); exact H.
Qed.

(** Everything authorization asks of a tool found under a name. *)
Record admitted (policy : pg_qx_namespace) (allowed : list pg_node) (name : string)
    (tool : QxCatalogToolInfo) : Prop := {
  ad_listed : qxrequireknowntools policy = true -> NString name ∈ allowed;
  ad_enabled : tl_enabled tool = true;
  ad_principal : tl_principaloid tool <> 0 /\ tl_principal_enabled tool = true;
  ad_provider : tl_provideroid tool <> 0 /\ tl_provider_enabled tool = true;
  ad_sandbox : exists r s, sandbox_rank_of (tl_sandbox tool) = Some r /\
    sandbox_rank_of (Some (qx_tool_sandbox_ceiling_from_info tool)) = Some s /\ r <= s;
  ad_runtime : qx_tool_runtime_class_from_info tool = tool_principal_runtime tool;
  ad_fits : runtime_fits (text_or (tl_provider_kind tool) "loopback") (tool_principal_runtime tool)
    (tl_principal_sandbox tool) (tl_principal_receipt_signer tool)
    (text_or (tl_provider_receipt_alg tool) "hmac-sha256");
  ad_capabilities : capabilities_allowed policy (tool_capability_tags tool)
}.

Lemma name_in_list_iff tools name : qx_tool_name_in_list tools name = true <-> NString name ∈ tools.
Proof.
  unfold qx_tool_name_in_list. rewrite existsb_exists. split.
  - intros (x & Hx & E). destruct x; try done. apply String.eqb_eq in E as ->. by apply list_elem_of_In.
  - intros H. exists (NString name). rewrite String.eqb_refl. split; [by apply list_elem_of_In|done].
Qed.

(** A runtime class the code has filled in is not replaced again. *)
Lemma tool_principal_runtime_text tool d :
  text_or (Some (tool_principal_runtime tool)) d = tool_principal_runtime tool.
Proof.
  unfold tool_principal_runtime, text_or, qx_default_runtime_for_provider_kind.
  destruct (is_blank (tl_principal_runtime_class tool)) eqn:B; [by repeat case_match|].
  destruct (tl_principal_runtime_class tool); simpl in *; [by rewrite B|done].
Qed.

Section Authorize.
Context (E : Env) (D : DdlEnv).

Lemma authorize_tool_iff policy allowed nsp name w tool w' :
  authorize_tool D policy allowed nsp name w = Ok tool w' <->
  w' = w /\ QxCatalogLookupToolByName (w_vis w) nsp (Some name) = Some tool /\
  admitted policy allowed name tool.
Proof.
  unfold authorize_tool. rewrite (decides_then _ _ _ _ _ _ (decides_raise_if _ _ _ _)).
  rewrite (bind_run (gets w_vis) _ w (w_vis w) w) by done.
  destruct (QxCatalogLookupToolByName (w_vis w) nsp (Some name)) as [t|];
    [|split; [intros [_ H]; discriminate H|intros (_ & H & _); discriminate H]].
  do 5 rewrite (decides_then _ _ _ _ _ _ (decides_raise_if _ _ _ _)).
  split.
  - intros (Hl & H1 & H2 & H3 & H4 & H5 & H). apply bind_ok in H as (r & w1 & Hr & H).
    apply sandbox_rank_iff in Hr as [-> Hr]. apply bind_ok in H as (s & w1 & Hs & H).
    apply sandbox_rank_iff in Hs as [-> Hs].
    do 2 rewrite (decides_then _ _ _ _ _ _ (decides_raise_if _ _ _ _)) in H.
    rewrite (decides_then _ _ _ _ _ _ (decides_runtime_binding _ _ _ _ _ _ _)) in H.
    rewrite (decides_then _ _ _ _ _ _ (decides_capability_policy _ _ _)) in H.
    destruct H as (Hle & Hrt & Hfit & Hcap & [-> ->]%ret_ok). breflect.
    apply OidIsValid_true in H2, H4. split; [done|]. split; [done|].
    rewrite tool_principal_runtime_text in Hfit. constructor; try done; [|eauto].
    intros Hk. destruct Hl as [Hl|Hl]; [congruence|]. by apply negb_false_iff, name_in_list_iff in Hl.
  - intros (-> & [= ->] & [Hl He [Hpo Hpe] [Hvo Hve] (r & s & Hr & Hs & Hle) Hrt Hfit Hcap]).
    rewrite He, Hpe, Hve. apply OidIsValid_true in Hpo, Hvo. rewrite Hpo, Hvo.
    split_and!; try done.
    + destruct (qxrequireknowntools policy); simpl; [|done].
      apply negb_false_iff, name_in_list_iff. auto.
    + rewrite (bind_run _ _ _ r w) by (by apply sandbox_rank_iff).
      rewrite (bind_run _ _ _ s w) by (by apply sandbox_rank_iff).
      do 2 rewrite (decides_then _ _ _ _ _ _ (decides_raise_if _ _ _ _)).
      rewrite (decides_then _ _ _ _ _ _ (decides_runtime_binding _ _ _ _ _ _ _)).
      rewrite (decides_then _ _ _ _ _ _ (decides_capability_policy _ _ _)).
      rewrite tool_principal_runtime_text. split_and!; try done; [by apply Z.ltb_ge|by apply negb_eqb_false].
Qed.

(** The tools of a list of names, each admitted. *)
Definition all_admitted (policy : pg_qx_namespace) (allowed : list pg_node) (nsp : Oid) (c : catalog)
    (tools : list pg_node) (infos : list QxCatalogToolInfo) : Prop :=
  Forall2 (fun node tool => exists name, node = NString name /\
    QxCatalogLookupToolByName c nsp (Some name) = Some tool /\ admitted policy allowed name tool)
    tools infos.

Lemma authorize_tools_iff policy allowed nsp az tools w az' w' :
  authorize_tools D policy allowed nsp az tools w = Ok az' w' <->
  w' = w /\ exists infos, all_admitted policy allowed nsp (w_vis w) tools infos /\
    az' = fold_left (fun a t => authz_add t a) infos az.
Proof.
  revert az. induction tools as [|node tools IH]; intros az; simpl.
  - split; [intros [-> ->]%ret_ok; split; [done|]; exists []; split; [constructor|done]|].
    intros (-> & infos & Hall & ->). inversion Hall. done.
  - split.
    + intros (name & w1 & Hn & H)%bind_ok. destruct node; try discriminate Hn.
      apply ret_ok in Hn as [-> ->]. apply bind_ok in H as (tool & w1 & Ht & H).
      apply authorize_tool_iff in Ht as (-> & Hlk & Had). apply IH in H as (-> & infos & Hall & ->).
      split; [done|]. exists (tool :: infos). split; [constructor; eauto|done].
    + intros (-> & infos & Hall & ->). inversion Hall as [|? tool ? rest (name & -> & Hlk & Had) Hrest]; subst.
      simpl. rewrite (bind_run _ _ _ name w) by done.
      rewrite (bind_run _ _ _ tool w) by (apply authorize_tool_iff; done). apply IH. eauto.
Qed.

End Authorize.

Definition tool_list_of (column : option pg_node) : option (list pg_node) :=
  match column with None => Some [] | Some (NList l) => Some l | Some _ => None end.

Lemma authorize_iff E D policyoid nsp owner tools w az w' :
  QxAuthorizeToolsForNamespace E D policyoid nsp owner tools w = Ok az w' <->
  w' = w /\ exists policy allowed infos,
    QxCatalogLookupNamespacePolicyByOid (w_vis w) policyoid = Some policy /\
    (has_privs_of_role E owner (qxnamespaceowner policy) = true \/
     has_privs_of_role E owner (qxnamespaceauthrole policy) = true) /\
    tool_list_of (qxallowedtools policy) = Some allowed /\
    all_admitted policy allowed nsp (w_vis w) tools infos /\
    az = fold_left (fun a t => authz_add t a) infos (authz_start policy).
Proof.
  unfold QxAuthorizeToolsForNamespace. rewrite (bind_run (gets w_vis) _ w (w_vis w) w) by done.
  destruct (QxCatalogLookupNamespacePolicyByOid (w_vis w) policyoid) as [policy|];
    [|split; [intros H; discriminate H|intros (_ & ? & ? & ? & H & _); discriminate H]].
  rewrite (decides_then _ _ _ _ _ _ (decides_raise_if _ _ _ _)).
  rewrite andb_false_iff, !negb_false_iff. unfold QxDeserializeToolList, tool_list_of. split.
  - intros (Hp & H). apply bind_ok in H as (allowed & w1 & Hd & H).
    assert (w1 = w /\ tool_list_of (qxallowedtools policy) = Some allowed) as [-> Ha].
    { unfold tool_list_of. repeat case_match; try discriminate; apply ret_ok in Hd as [-> ->]; done. }
    apply authorize_tools_iff in H as (-> & infos & Hall & ->). split; [done|].
    exists policy, allowed, infos. done.
  - intros (-> & p & allowed & infos & [= <-] & Hp & Ha & Hall & ->). split; [done|].
    rewrite (bind_run _ _ _ allowed w).
    + apply authorize_tools_iff. eauto.
    + repeat case_match; try discriminate; injection Ha as <-; done.
Qed.

(** C22. Authorization succeeds exactly when the policy exists, the caller can
    assume its owner or its auth role, and every tool of the list is registered
    under its name, listed by the policy where the policy knows its tools, enabled
    together with its principal and its provider, at or below its sandbox ceiling,
    of its principal's runtime class, fit for its provider, with every required
    capability and none of the denied ones.  It then changes nothing, and returns
    the contracts of exactly those tools, in order, with their costs added up at
    32 bits. *)
Theorem tools_authorized_iff E D policyoid nsp owner tools w az w' :
  QxAuthorizeToolsForNamespace E D policyoid nsp owner tools w = Ok az w' <->
  w' = w /\ exists policy allowed infos,
    QxCatalogLookupNamespacePolicyByOid (w_vis w) policyoid = Some policy /\
    (has_privs_of_role E owner (qxnamespaceowner policy) = true \/
     has_privs_of_role E owner (qxnamespaceauthrole policy) = true) /\
    tool_list_of (qxallowedtools policy) = Some allowed /\
    all_admitted policy allowed nsp (w_vis w) tools infos /\
    az = fold_left (fun a t => authz_add t a) infos (authz_start policy).
Proof. apply authorize_iff. Qed.

Lemma tools_authorized_world E D policyoid nsp owner tools w az w' :
  QxAuthorizeToolsForNamespace E D policyoid nsp owner tools w = Ok az w' -> w' = w.
Proof. intros [-> _]%authorize_iff. done. Qed.

(** ** DDL time and run time *)

(** What is left to check for a tool the DDL has registered. *)
Record admissible (policy : pg_qx_namespace) (allowed : list pg_node) (name : string)
    (tool : QxCatalogToolInfo) : Prop := {
  am_listed : qxrequireknowntools policy = true -> NString name ∈ allowed;
  am_enabled : tl_enabled tool = true /\ tl_principal_enabled tool = true /\
    tl_provider_enabled tool = true;
  am_sandbox : exists r s, sandbox_rank_of (tl_sandbox tool) = Some r /\
    sandbox_rank_of (tl_principal_sandbox tool) = Some s /\ r <= s;
  am_capabilities : capabilities_allowed policy (tool_capability_tags tool)
}.

Lemma lookup_by_oid_find {R} `{Table R} c o : OidIsValid o = true -> lookup_by_oid c o = find_oid o (rows c : list R).
Proof. unfold lookup_by_oid. intros ->. done. Qed.

(** The rows behind a tool of a well-formed catalog. *)
Lemma registered_tool c nsp name tool :
  policy_ok c -> QxCatalogLookupToolByName c nsp (Some name) = Some tool ->
  exists t pr p, t ∈ c_tools c /\ tool_ok (c_principals c) t /\
    find_oid (qxtoolprincipalid t) (c_principals c) = Some pr /\ principal_ok (c_providers c) pr /\
    find_oid (qxprincipalproviderid pr) (c_providers c) = Some p /\ provider_ok p /\ bound p pr /\
    tl_name tool = Some (qxtoolname t) /\ tl_handler tool = qxtoolhandler t /\
    tl_sandbox tool = qxtoolsandbox t /\
    tl_principaloid tool = principal_oid pr /\ tl_provideroid tool = provider_oid p /\
    tl_runtime_class tool = None /\ tl_sandbox_ceiling tool = None /\ tl_capability_tags tool = None /\
    tl_principal_sandbox tool = qxprincipalsandbox pr /\
    tl_principal_runtime_class tool = qxprincipalruntimeclass pr /\
    tl_principal_receipt_signer tool = qxprincipalreceiptsigner pr /\
    tl_provider_kind tool = qxproviderkind p /\ tl_provider_receipt_alg tool = qxproviderreceiptalg p.
Proof.
  intros [_ _ _ Hps Hprs Hts] (t & Hl & ->)%fmap_Some.
  unfold lookup_by_name in Hl. destruct (negb _ || _); [discriminate|].
  apply find_some in Hl as [Hin%list_elem_of_In _].
  rewrite Forall_forall in Hps. rewrite Forall_forall in Hprs. rewrite Forall_forall in Hts.
  pose proof (Hts t Hin) as Ht. destruct Ht as [(pr & Hpr) ? ? (Hrc & Hce & Hta)].
  pose proof (find_oid_row _ _ _ Hpr) as [Hprin Hproid].
  pose proof (Hprs pr Hprin) as [Hv (p & Hp & Hb) ? ?].
  pose proof (find_oid_row _ _ _ Hp) as [Hpin Hpoid]. pose proof (Hps p Hpin) as Hpok.
  assert (OidIsValid (qxtoolprincipalid t) = true) as Hvt by (rewrite <- Hproid; exact Hv).
  assert (OidIsValid (qxprincipalproviderid pr) = true) as Hvp by (rewrite <- Hpoid; apply Hpok).
  exists t, pr, p. split; [done|]. split; [by apply Hts|]. split; [done|]. split; [by apply Hprs|].
  split; [done|]. split; [done|]. split; [done|].
  unfold qx_catalog_fill_tool_info, QxCatalogLookupPrincipalByOid.
  assert (lookup_by_oid c (qxtoolprincipalid t) = Some pr) as Hlr
    by (rewrite lookup_by_oid_find by done; exact Hpr).
  assert (QxCatalogLookupProviderByOid c (qxprincipalproviderid pr) = Some p) as Hlp
    by (unfold QxCatalogLookupProviderByOid; rewrite lookup_by_oid_find by done; exact Hp).
  rewrite Hvt, Hlr. unfold qx_catalog_fill_principal_info.
  cbn -[QxCatalogLookupProviderByOid]. rewrite Hvp, Hlp. split_and!; done.
Qed.

Lemma sandbox_known_rank s : sandbox_known s -> exists r, sandbox_rank_of s = Some r.
Proof. intros [->|[->|[->| ->]]]; eexists; reflexivity. Qed.

Lemma known_sandbox_text s : sandbox_known s -> sandbox_rank_of (Some (text_or s "builtin")) = sandbox_rank_of s.
Proof. intros [->|[->|[->| ->]]]; reflexivity. Qed.

(** A principal that fits its provider passes the check made at run time. *)
Lemma fits_runtime kind alg pf vs pl rc sandbox signer pf' vs' pl' :
  fits kind (effective_alg alg) pf vs pl rc sandbox signer pf' vs' pl' ->
  runtime_fits (text_or kind "loopback") (text_or rc (qx_default_runtime_for_provider_kind kind))
    sandbox signer (text_or alg "hmac-sha256").
Proof.
  intros [Hk Hrt Hsb Hsg _ _ _]. unfold provider_runtime in *. rewrite Hrt.
  assert (qx_default_runtime_for_provider_kind kind <> "host" -> sandbox = Some "isolated") by done.
  destruct Hk as [->|[->|[->| ->]]]; constructor; simpl; auto; try (intros [?|?]; done); done.
Qed.


(** *** An example *)

Definition demo_registry : catalog := w_vis (ddl_run demo_env ddl_env (empty_world 20000) demo_ddl).

Lemma demo_registry_ok : policy_ok demo_registry.
Proof.
  eapply (ddl_steps_settled demo_env ddl_env (empty_world 20000)); [|apply ddl_run_steps].
  split; [reflexivity|apply empty_policy_ok].
Qed.

Definition demo_policy : pg_qx_namespace :=
  Mk_qx_namespace 20003 "default_policy" 2200 10 10 true true
    (Some "require_capabilities=runtime:host|sandbox:restricted;deny_capability=runtime:microvm")
    (Some (NList [NString "search"])).


(** ** Contracts as texts

    A contract is a text [key=value;key=value;...]; a value is read back by
    searching [key=] anywhere in it. *)

Definition contract_fields (tool : QxCatalogToolInfo) : list (string * string) :=
  [ ("tool", cstr_or (tl_name tool) "<unknown>");
    ("handler", cstr_or (tl_handler tool) "<none>");
    ("tool_sandbox", cstr_or (tl_sandbox tool) "builtin");
    ("tool_sandbox_ceiling", qx_tool_sandbox_ceiling_from_info tool);
    ("tool_capability_tags", tool_capability_tags tool);
    ("principal", cstr_or (tl_principal_name tool) "<unknown>");
    ("principal_sandbox", cstr_or (tl_principal_sandbox tool) "builtin");
    ("principal_runtime", qx_tool_runtime_class_from_info tool);
    ("program", cstr_or (tl_principal_program tool) "");
    ("receipt_signer", cstr_or (tl_principal_receipt_signer tool) "");
    ("provider", cstr_or (tl_provider_name tool) "<unknown>");
    ("provider_oid", show_u (tl_provideroid tool));
    ("provider_kind", cstr_or (tl_provider_kind tool) "loopback");
    ("provider_endpoint", cstr_or (tl_provider_endpoint tool) "local://qhapaqxian-tool-runner");
    ("provider_attestation", attestation_text (tl_provider_attestation_required tool));
    ("receipt_schema", "qx.receipt.v1");
    ("receipt_alg", cstr_or (tl_provider_receipt_alg tool) "hmac-sha256") ].

(** The text after a value. *)
Fixpoint contract_text (ps : list (string * string)) : string :=
  match ps with
  | [] => ""
  | (k, v) :: rest =>
      k +:+ String "=" (v +:+ match rest with [] => "" | _ => String ";" (contract_text rest) end)
  end.

Lemma tool_contract_text tool : tool_contract tool = contract_text (contract_fields tool).
Proof. reflexivity. Qed.

Definition unbroken (s : string) : Prop := has_char "=" s = false /\ has_char ";" s = false.

Lemma suffixb_after_sep c k v key :
  has_char c k = false -> suffixb k (v +:+ String c key) = suffixb k key.
Proof.
  intros Hk. assert (forall x, has_char c x = true -> String.eqb k x = false) as Hne.
  { intros x Hx. apply String.eqb_neq. intros ->. congruence. }
  induction v as [|d v IH]; simpl.
  - rewrite Hne; [done|]. simpl. rewrite Ascii.eqb_refl. done.
  - rewrite Hne, IH; [done|]. simpl. rewrite has_char_app. simpl. rewrite Ascii.eqb_refl.
    rewrite orb_true_r. apply orb_true_r.
Qed.

Lemma strstr_absent k s : has_char "=" s = false -> strstr s (k +:+ "=") = None.
Proof.
  intros Hs. apply strstr_None. intros pre post ->. rewrite !has_char_app in Hs. simpl in Hs.
  rewrite orb_true_r in Hs. simpl in Hs. rewrite orb_true_r in Hs. done.
Qed.

(** The text the search finds behind [k=]. *)
Fixpoint text_behind (k : string) (ps : list (string * string)) : cstr :=
  match ps with
  | [] => None
  | (key, v) :: rest =>
      if suffixb k key
      then Some (v +:+ match rest with [] => "" | _ => String ";" (contract_text rest) end)
      else text_behind k rest
  end.

Definition all_unbroken (ps : list (string * string)) : Prop :=
  Forall (fun p => unbroken (fst p) /\ unbroken (snd p)) ps.

Lemma strstr_contract k ps pre :
  unbroken k -> all_unbroken ps -> has_char "=" pre = false ->
  (pre = "" \/ exists v, pre = v +:+ ";") ->
  option_map snd (strstr (pre +:+ contract_text ps) (k +:+ "=")) = text_behind k ps.
Proof.
  intros [Hk1 Hk2] Hps. revert pre. induction Hps as [|[key v] rest [[Hq _] [Hv _]] _ IH];
    intros pre Hpre Hsep; cbn [contract_text text_behind fst snd] in *.
  - rewrite append_nil_r, strstr_absent; done.
  - rewrite <- append_assoc, (strstr_sep "=") by (try done; by rewrite has_char_app, Hpre, Hq).
    replace (suffixb k (pre +:+ key)) with (suffixb k key).
    2:{ destruct Hsep as [->|[u ->]]; [done|]. rewrite append_assoc. symmetry.
        by apply suffixb_after_sep. }
    destruct (suffixb k key); [done|]. destruct rest as [|p rest].
    + rewrite append_nil_r, strstr_absent; done.
    + change (v +:+ String ";" (contract_text (p :: rest)))
        with (v +:+ (";" +:+ contract_text (p :: rest))).
      rewrite <- append_assoc. apply IH; [|eauto]. rewrite has_char_app, Hv. done.
Qed.

Lemma upto_field v rest :
  has_char ";" v = false ->
  upto ";" (v +:+ match rest with [] => "" | _ => String ";" (contract_text rest) end) = v.
Proof.
  intros Hv. unfold upto. destruct rest as [|p rest].
  - rewrite append_nil_r. induction v as [|c v IH]; simpl in *; [done|].
    apply orb_false_iff in Hv as [Hc Hv]. rewrite Hc. specialize (IH Hv).
    destruct (split_char ";" v). simpl in *. by f_equal.
  - rewrite split_char_app; done.
Qed.

Lemma contract_value_find k ps :
  unbroken k -> all_unbroken ps ->
  qx_contract_value (Some (contract_text ps)) (Some k) =
  snd <$> List.find (fun p => suffixb k (fst p)) ps.
Proof.
  intros Hk Hps. pose proof (strstr_contract k ps "" Hk Hps eq_refl (or_introl eq_refl)) as H.
  unfold qx_contract_value. simpl in H.
  destruct (strstr (contract_text ps) (k +:+ "=")) as [[pre post]|]; simpl in H.
  - clear Hk. induction Hps as [|[key v] rest [_ [_ Hv]] _ IH]; cbn in *; [discriminate|].
    destruct (suffixb k key); [|auto]. injection H as ->. simpl. f_equal. by apply upto_field.
  - clear Hk. induction Hps as [|[key v] rest _ _ IH]; cbn in *; [done|].
    destruct (suffixb k key); [discriminate|auto].
Qed.

Lemma contract_keys_distinct tool :
  Forall (fun p => unbroken (fst p) /\
    snd <$> List.find (fun q => suffixb (fst p) (fst q)) (contract_fields tool) = Some (snd p))
    (contract_fields tool).
Proof. repeat constructor. Qed.

Lemma contract_reads tool :
  Forall (fun p => unbroken (snd p)) (contract_fields tool) ->
  Forall (fun p => qx_contract_value (Some (tool_contract tool)) (Some (fst p)) = Some (snd p))
    (contract_fields tool).
Proof.
  intros Hu. rewrite tool_contract_text.
  pose proof (contract_keys_distinct tool) as Hk.
  assert (all_unbroken (contract_fields tool)) as Hall.
  { eapply Forall_impl; [apply Forall_and; split; [exact Hk|exact Hu]|]. intros p [[? _] ?]. done. }
  eapply Forall_impl; [exact Hk|]. intros p [Hp Hf]. rewrite contract_value_find; done.
Qed.

(** What authorization writes into a contract is what the planner and the
    runtime read out of it: for every key of the contract of a tool whose fields
    hold no semicolon and no equals sign, the value found is the one written. *)
Theorem contract_roundtrip tool :
  Forall (fun p => unbroken (snd p)) (contract_fields tool) ->
  Forall (fun p => qx_contract_value (Some (tool_contract tool)) (Some (fst p)) = Some (snd p))
    (contract_fields tool).
Proof. apply contract_reads. Qed.

Definition demo_tool : QxCatalogToolInfo :=
  {| tl_oid := 20002; tl_name := Some "search"; tl_namespaceoid := 2200; tl_ownerid := 10;
     tl_principaloid := 20001; tl_provideroid := 20000; tl_enabled := true; tl_token_cost := 40;
     tl_cost_units := 9; tl_principal_enabled := true; tl_provider_enabled := true;
     tl_handler := Some "builtin.search"; tl_sandbox := Some "restricted";
     tl_runtime_class := None; tl_sandbox_ceiling := None; tl_capability_tags := None;
     tl_principal_name := Some "runner"; tl_principal_sandbox := Some "restricted";
     tl_principal_runtime_class := Some "host"; tl_principal_program := Some "qhapaqxian_tool_runner";
     tl_principal_receipt_signer := None; tl_provider_name := Some "local_runner";
     tl_provider_kind := Some "loopback"; tl_provider_endpoint := Some "local://qhapaqxian-tool-runner";
     tl_provider_receipt_alg := Some "hmac-sha256"; tl_provider_attestation_required := true;
     tl_policy := None |}.

Lemma demo_tool_registered :
  QxCatalogLookupToolByName demo_registry 2200 (Some "search") = Some demo_tool.
Proof. vm_compute. reflexivity. Qed.

Lemma demo_tool_unbroken : Forall (fun p => unbroken (snd p)) (contract_fields demo_tool).
Proof. repeat constructor. Qed.

Lemma contract_roundtrip_witness :
  Forall (fun p => qx_contract_value (Some (tool_contract demo_tool)) (Some (fst p)) = Some (snd p))
    (contract_fields demo_tool) /\
  ("principal", "runner") ∈ contract_fields demo_tool.
Proof. split; [apply (contract_roundtrip demo_tool), demo_tool_unbroken|]. do 5 right. left. Defined.

(** A name with a semicolon and an equals sign forges the fields behind it. *)
Definition forged_tool : QxCatalogToolInfo :=
  {| tl_oid := 20002; tl_name := Some "t;provider_kind=microvm"; tl_namespaceoid := 2200;
     tl_ownerid := 10; tl_principaloid := 20001; tl_provideroid := 20000; tl_enabled := true;
     tl_token_cost := 40; tl_cost_units := 9; tl_principal_enabled := true;
     tl_provider_enabled := true; tl_handler := Some "builtin.search"; tl_sandbox := Some "restricted";
     tl_runtime_class := None; tl_sandbox_ceiling := None; tl_capability_tags := None;
     tl_principal_name := Some "runner"; tl_principal_sandbox := Some "restricted";
     tl_principal_runtime_class := Some "host"; tl_principal_program := Some "qhapaqxian_tool_runner";
     tl_principal_receipt_signer := None; tl_provider_name := Some "local_runner";
     tl_provider_kind := Some "loopback"; tl_provider_endpoint := Some "local://qhapaqxian-tool-runner";
     tl_provider_receipt_alg := Some "hmac-sha256"; tl_provider_attestation_required := true;
     tl_policy := None |}.

Example quoted_name_forges_contract :
  tl_provider_kind forged_tool = Some "loopback" /\
  qx_contract_value (Some (tool_contract forged_tool)) (Some "provider_kind") = Some "microvm".
Proof. split; vm_compute; reflexivity. Qed.
