(* ===== verification/PlanProps.v ===== *)
(** * Plans: what is shown, what is accepted, what is run

    EXPLAIN AGENT never shows the signer or the provider's identifier of a
    contract; the executor routes the two phases of a task to the weakest and to
    the strongest isolated contract; and the plan of a RUN TASK over tools
    registered by the DDL passes the executor's checks, so that the command comes
    down to submitting the request it stands for. *)

From Stdlib Require Import Ascii String.
From S2P Require Import Prelude Text Types Scheduler Stat Observe SemanticLog Tables World.
From S2P Require Import Catalog TaskView Recovery Policy Backends ToolExec Envelope Lifecycle.
From S2P Require Import Security PolicyCommands PolicyProps SecurityProps Planner AgentCommands.
Open Scope string_scope.
Open Scope Z_scope.
Open Scope bool_scope.
Open Scope list_scope.

(** ** The contract EXPLAIN shows *)

Lemma plan_take_length n s : (String.length (str_take n s) <= String.length s)%nat.
Proof. revert s. induction n as [|n IH]; intros [|c s]; simpl; try lia. specialize (IH s). lia. Qed.

Lemma drop_last_length s : (String.length (drop_last_semicolon s) <= String.length s)%nat.
Proof. unfold drop_last_semicolon. repeat case_match; try lia. apply plan_take_length. Qed.

Lemma split_char_length c s pre rest :
  split_char c s = (pre, Some rest) -> (String.length rest < String.length s)%nat.
Proof.
  revert pre. induction s as [|d s IH]; intros pre; simpl; [done|].
  destruct (Ascii.eqb c d); [intros [= <- <-]; lia|].
  destruct (split_char c s) as [p q]. intros [= <- ->]. specialize (IH p eq_refl). lia.
Qed.

Lemma remove_entry_shorter key s r :
  key <> "" -> remove_entry key s = Some r -> (String.length r < String.length s)%nat.
Proof.
  unfold remove_entry. intros Hk. destruct (strstr s key) as [[pre post]|] eqn:F; [|done].
  pose proof (strstr_length _ _ _ _ F) as Hl. pose proof (drop_last_length pre) as Hd.
  assert (0 < String.length key)%nat by (destruct key; simpl; [done|lia]).
  destruct (split_char ";" post) as [p [rest|]] eqn:S; intros [= <-].
  - apply split_char_length in S. rewrite append_length. simpl. lia.
  - lia.
Qed.

Lemma remove_entry_None key s : remove_entry key s = None -> contains s key = false.
Proof.
  unfold remove_entry, contains. destruct (strstr s key) as [[pre post]|]; [|done].
  destruct (split_char ";" post) as [p [rest|]]; done.
Qed.

Lemma display_loop_done fuel s :
  (String.length s <= fuel)%nat -> remove_hidden (display_loop fuel s) = None.
Proof.
  revert s. induction fuel as [|fuel IH]; intros s Hs; simpl.
  - destruct s; simpl in Hs; [done|lia].
  - destruct (remove_hidden s) as [d|] eqn:R; [|done]. apply IH.
    enough (String.length d < String.length s)%nat by lia.
    unfold remove_hidden in R. destruct (remove_entry "provider_oid=" s) as [d'|] eqn:R1.
    + injection R as <-. by apply remove_entry_shorter in R1.
    + by apply remove_entry_shorter in R.
Qed.


(** ** Decisions *)

Lemma plan_decisions_fst contracts : fst (plan_decisions contracts) = qx_make_tool_decision <$> contracts.
Proof.
  unfold plan_decisions.
  assert (forall st, fst (fold_left (fun st contract =>
      qx_plan_record_tool_decision st (qx_make_tool_decision contract)) contracts st) =
    fst st ++ (qx_make_tool_decision <$> contracts)) as H.
  { induction contracts as [|x l IH]; intros [ds rd]; simpl; [by rewrite app_nil_r|].
    rewrite IH. simpl. by rewrite <- app_assoc. }
  specialize (H ([], no_runtime_decision)).
  destruct (fold_left _ contracts _) as [ds rd]. exact H.
Qed.

Lemma plan_decisions_surface contracts :
  rd_execution_surface (snd (plan_decisions contracts)) <> None.
Proof. unfold plan_decisions. destruct (fold_left _ contracts _) as [ds rd]. done. Qed.

(** ** The choice of the contracts *)

Definition contract_rank (contract : string) : Z := qx_plan_route_rank (qx_make_tool_decision contract).

(** The contract at position [i] is the first of least rank, or the last of
    greatest rank. *)
Definition best_contract (prefer_resume : bool) (contracts : list string) (i : nat) (c : string) :
    Prop :=
  contracts !! i = Some c /\
  forall j d, contracts !! j = Some d ->
    if prefer_resume
    then contract_rank d <= contract_rank c /\ (contract_rank d = contract_rank c -> (j <= i)%nat)
    else contract_rank c <= contract_rank d /\ (contract_rank c = contract_rank d -> (i <= j)%nat).

Definition choice_so_far (prefer : bool) (pre : list string) (choice : phase_choice) : Prop :=
  match ch_contract choice with
  | None => pre = []
  | Some c => exists i, ch_rank choice = contract_rank c /\ ch_index choice = Z.of_nat i /\
      best_contract prefer pre i c
  end.

Lemma choice_step prefer pre choice contract :
  choice_so_far prefer pre choice ->
  choice_so_far prefer (pre ++ [contract])
    (if better_choice prefer choice (contract_rank contract) (Z.of_nat (List.length pre))
     then MkChoice (Some contract) (contract_rank contract) (Z.of_nat (List.length pre)) else choice).
Proof.
  unfold choice_so_far, better_choice. destruct (ch_contract choice) as [c|] eqn:Ec.
  - intros (i & Hr & Hi & Hb & Hbest). apply lookup_lt_Some in Hb as Hlt.
    rewrite Hr, Hi.
    assert (forall j d, (pre ++ [contract]) !! j = Some d ->
      (pre !! j = Some d) \/ (j = List.length pre /\ d = contract)) as Hcase.
    { intros j d Hj. apply lookup_app_Some in Hj as [Hj|[Hge Hj]]; [auto|].
      apply list_lookup_singleton_Some in Hj as [Hz ->]. right. split; [lia|done]. }
    match goal with |- context [if ?b then MkChoice _ _ _ else _] => destruct b eqn:B end; cbn.
    + exists (List.length pre). split; [done|]. split; [done|]. split.
      { rewrite lookup_app_r, Nat.sub_diag by lia. done. }
      intros j d [Hj|[-> ->]]%Hcase.
      * apply lookup_lt_Some in Hj as Hjl. specialize (Hbest j d Hj).
        destruct prefer; apply orb_true_iff in B as [B|B]; breflect; lia.
      * destruct prefer; lia.
    + rewrite Ec. exists i. split; [done|]. split; [done|]. split; [by apply lookup_app_l_Some|].
      intros j d [Hj|[-> ->]]%Hcase; [by apply Hbest|].
      destruct prefer; apply orb_false_iff in B as [B1 B2]; apply andb_false_iff in B2 as [B2|B2];
        breflect; lia.
  - intros ->. cbn. exists 0%nat. split; [done|]. split; [done|]. split; [done|].
    intros [|j] d Hj; simpl in Hj; [injection Hj as <-; destruct prefer; lia|done].
Qed.

Lemma choose_best prefer pre choice contracts :
  choice_so_far prefer pre choice ->
  choice_so_far prefer (pre ++ contracts)
    (choose_phase_contract prefer choice (Z.of_nat (List.length pre))
       (qx_make_tool_decision <$> contracts) contracts).
Proof.
  revert pre choice. induction contracts as [|c contracts IH]; intros pre choice H; simpl.
  - by rewrite app_nil_r.
  - replace (Z.of_nat (List.length pre) + 1) with (Z.of_nat (List.length (pre ++ [c])))
      by (rewrite length_app; simpl; lia).
    change (c :: contracts) with ([c] ++ contracts). rewrite app_assoc. apply IH.
    by apply choice_step.
Qed.

(** A plan with one decision per contract. *)
Definition aligned (plan : QxAgentPlan) : Prop :=
  p_authorized_tools plan <> [] /\
  p_tool_decisions plan = qx_make_tool_decision <$> p_authorized_tools plan.

Lemma aligned_check plan w :
  aligned plan -> qx_validate_agent_plan_contract_alignment plan w = Ok tt w.
Proof.
  intros [_ Hd]. unfold qx_validate_agent_plan_contract_alignment.
  rewrite Hd, length_fmap, Nat.eqb_refl. done.
Qed.

Lemma resolve_best plan prefer w :
  aligned plan ->
  exists c i, qx_resolve_plan_phase_contract plan prefer w = Ok (Some c) w /\
    best_contract prefer (p_authorized_tools plan) i c.
Proof.
  intros Ha. pose proof Ha as [Hne Hd]. unfold qx_resolve_plan_phase_contract.
  assert (nonempty (p_tool_decisions plan) = true) as ->.
  { rewrite Hd. destruct (p_authorized_tools plan); done. }
  assert (nonempty (p_authorized_tools plan) = true) as ->.
  { destruct (p_authorized_tools plan); done. }
  cbn [negb orb]. rewrite (bind_run _ _ w tt w) by (by apply aligned_check). rewrite Hd.
  pose proof (choose_best prefer [] (no_choice prefer) (p_authorized_tools plan) eq_refl) as H.
  unfold choice_so_far in H. cbn [List.length Z.of_nat app] in H.
  destruct (ch_contract (choose_phase_contract _ _ _ _ _)) as [c|]; [|done].
  destruct H as (i & _ & _ & Hb). exists c, i. done.
Qed.

(** ** The plan of a RUN TASK *)

Lemma tool_list_ok tools seen w u w' : validate_tool_list seen tools w = Ok u w' -> w' = w.
Proof.
  revert seen w. induction tools as [|t tools IH]; intros seen w H; simpl in H; [by inv_run|].
  destruct t; try discriminate. inv_run. eauto.
Qed.

Lemma budget_ok node w b w' : QxBudgetPolicyFromSerialized node w = Ok b w' -> w' = w.
Proof.
  unfold QxBudgetPolicyFromSerialized, QxBudgetPolicyFromDefList.
  destruct node as [node|]; [|intros; by inv_run]. destruct node; try discriminate.
  generalize no_budget_policy. revert w. induction elems as [|e l IH]; intros w p H; simpl in H; [by inv_run|].
  destruct e as [| | |n a| | | |]; try discriminate.
  assert (forall a v x v', defGetInt32 n a v = Ok x v' -> v' = v) as Hd.
  { intros [[]|] v x v'; unfold defGetInt32; try discriminate. intros; by inv_run. }
  destruct (String.eqb n "tokens"); [|destruct (String.eqb n "cost")]; inv_run; eauto;
    match goal with Hx : defGetInt32 _ _ _ = Ok _ _ |- _ => apply Hd in Hx as -> end; eauto.
Qed.

(** What a plan of RUN TASK is made of. *)
Lemma run_plan_ok E D stmt owner w plan w' :
  qx_plan_run_task E D stmt owner w = Ok plan w' ->
  w' = w /\ exists policyoid nsp tools az,
    QxAuthorizeToolsForNamespace E D policyoid nsp owner tools w = Ok az w /\
    p_kind plan = QX_AGENT_PLAN_RUN_TASK /\ p_ownerid plan = owner /\
    p_authorized_tools plan = az_tool_contracts az /\
    p_tool_decisions plan = qx_make_tool_decision <$> az_tool_contracts az /\
    rd_execution_surface (p_runtime_decision plan) <> None.
Proof.
  unfold qx_plan_run_task. intros H.
  apply bind_ok in H as (sid & w1 & Hsid & H).
  assert (w1 = w) as -> by (unfold qx_extract_oid_literal in Hsid; repeat case_match; by inv_run).
  apply bind_ok in H as ([[session agent] ident] & w1 & Hrows & H).
  assert (w1 = w) as ->.
  { unfold run_task_rows in Hrows. inv_run. repeat case_match; by inv_run. }
  unfold check_run_task_session in H. inv_run.
  match goal with Hb : QxBudgetPolicyFromSerialized _ _ = Ok _ _ |- _ => apply budget_ok in Hb as -> end.
  match goal with Hb : QxDeserializeToolList _ _ = Ok _ ?v |- _ =>
    assert (v = w) as -> by (unfold QxDeserializeToolList in Hb; repeat case_match; by inv_run) end.
  match goal with Hb : QxValidateToolList _ _ = Ok _ _ |- _ => apply tool_list_ok in Hb as -> end.
  unfold check_plan_budget in *. inv_run.
  match goal with Ha : QxAuthorizeToolsForNamespace _ _ ?p ?n _ ?l _ = Ok ?az ?v |- _ =>
    assert (v = w) as -> by (by apply tools_authorized_world in Ha);
    split; [done|]; exists p, n, l, az; split; [exact Ha|];
    pose proof (plan_decisions_fst (az_tool_contracts az)) as Hd;
    pose proof (plan_decisions_surface (az_tool_contracts az)) as Hs end.
  unfold run_task_shell. destruct (plan_decisions _) as [ds rd]. cbn in *. done.
Qed.

Lemma fold_authz_contracts infos az :
  az_tool_contracts (fold_left (fun a t => authz_add t a) infos az) =
  az_tool_contracts az ++ (tool_contract <$> infos).
Proof.
  revert az. induction infos as [|t infos IH]; intros az; simpl; [by rewrite app_nil_r|].
  rewrite IH. simpl. by rewrite <- app_assoc.
Qed.

(** No field of a registered tool holds a separator of contracts, and no
    provider's receipt algorithm is the empty text. *)
Definition registry_clean (c : catalog) : Prop :=
  forall nsp name tool, QxCatalogLookupToolByName c nsp (Some name) = Some tool ->
    Forall (fun p => unbroken (snd p)) (contract_fields tool) /\
    tl_provider_receipt_alg tool <> Some "".

(** The decision the planner makes for a registered tool is complete. *)
Lemma decision_accepted c nsp policy allowed name tool w :
  policy_ok c -> registry_clean c -> QxCatalogLookupToolByName c nsp (Some name) = Some tool ->
  admitted policy allowed name tool ->
  validate_decision (qx_make_tool_decision (tool_contract tool)) w = Ok tt w.
Proof.
  intros Hok Hclean Hl [_ _ _ _ _ Hrt Hfit _]. destruct (Hclean _ _ _ Hl) as [Hu Halg].
  pose proof (contract_reads tool Hu) as Hread. unfold contract_fields in Hread.
  repeat apply Forall_cons in Hread as [? Hread]. cbn [fst snd] in *. clear Hread Hu.
  destruct (registered_tool c nsp name tool Hok Hl)
    as (t & pr & p & _ & _ & _ & _ & _ & [_ Hkind _ _ _ _ _] & _ & _ & _ & _ & _ & _ & _ & _ & _ & _ & _ & _ & Ek & _).
  rewrite <- Ek in Hkind. rewrite Hrt in *.
  unfold validate_decision, qx_make_tool_decision; cbv zeta;
    cbn [td_provider_kind td_principal_runtime_class td_tool_name td_handler_name td_principal_name
         td_provider_name td_provider_endpoint td_capability_class td_require_attestation
         td_receipt_schema td_receipt_alg].
  repeat match goal with E : qx_contract_value _ (Some ?k) = Some _ |- _ => rewrite !E; clear E end.
  cbn [cstr_or is_blank orb String.eqb].
  assert (String.eqb (cstr_or (tl_provider_receipt_alg tool) "hmac-sha256") "" = false) as Hb.
  { destruct (tl_provider_receipt_alg tool) as [a|]; simpl; [|done]. apply String.eqb_neq. congruence. }
  rewrite Hb, andb_false_r.
  assert (qx_plan_runtime_binding_is_valid (Some (cstr_or (tl_provider_kind tool) "loopback"))
            (Some (tool_principal_runtime tool)) = true) as ->.
  { destruct Hfit as [_ Hlocal Hcont Hvm _ _]. unfold qx_plan_runtime_binding_is_valid.
    destruct Hkind as [Hk|[Hk|[Hk|Hk]]]; rewrite Hk in *; simpl in *;
      [rewrite Hlocal by auto|rewrite Hlocal by auto|rewrite Hcont by done|rewrite Hvm by done]; done. }
  done.
Qed.

Lemma mforeach_ok_all {A} (f : A -> M unit) l w :
  Forall (fun x => f x w = Ok tt w) l -> mforeach f l w = Ok tt w.
Proof.
  induction 1 as [|x l Hx _ IH]; simpl; [done|]. unfold bind. rewrite Hx. exact IH.
Qed.

(** The plan is accepted as it was made. *)
Lemma run_plan_accepted E D stmt owner w plan w' :
  policy_ok (w_vis w) -> registry_clean (w_vis w) ->
  qx_plan_run_task E D stmt owner w = Ok plan w' -> p_authorized_tools plan <> [] ->
  aligned plan /\ p_kind plan = QX_AGENT_PLAN_RUN_TASK /\
  qx_validate_agent_plan_capabilities plan w = Ok tt w.
Proof.
  intros Hok Hclean Hplan Hne.
  apply run_plan_ok in Hplan as (-> & po & nsp & tools & az & Haz & Hkind & _ & Ht & Hd & Hs).
  assert (aligned plan) as Ha by (split; [done|rewrite Hd, Ht; done]).
  split; [done|]. split; [done|]. unfold qx_validate_agent_plan_capabilities.
  assert (nonempty (p_tool_decisions plan) = true) as ->.
  { rewrite Hd, <- Ht. destruct (p_authorized_tools plan); done. }
  destruct (rd_execution_surface (p_runtime_decision plan)) as [surface|]; [|done].
  cbn [negb]. rewrite 2!(bind_run (raise_if false _ _ _) _ w tt w) by done.
  rewrite (bind_run _ _ w tt w) by (by apply aligned_check). apply mforeach_ok_all.
  apply authorize_iff in Haz as (_ & policy & allowed & infos & _ & _ & _ & Hall & ->).
  rewrite Hd, fold_authz_contracts. simpl. rewrite Forall_fmap. apply Forall_fmap.
  clear -Hok Hclean Hall. unfold all_admitted in Hall.
  induction Hall as [|node tool nodes infos (name & -> & Hl & Had) _ IH]; constructor; [|exact IH].
  by eapply decision_accepted.
Qed.


(** C40. RUN TASK for an agent without tools: the planner makes a plan for it, but
    the executor refuses every such plan, and the command fails without touching
    the catalogs. *)
Theorem run_task_without_tools_fails E D T stmt w plan :
  rt_returning stmt = false ->
  qx_plan_run_task E D stmt (GetUserId E) w = Ok plan w ->
  p_authorized_tools plan = [] ->
  exists e, run_command (RunTaskCommand E D T stmt) w = Err e w /\
    err_code e = ERRCODE_OBJECT_NOT_IN_PREREQUISITE_STATE /\
    err_msg e = "agent plan does not contain capability decisions".
Proof.
  intros Hret Hplan Hnil. eexists.
  pose proof Hplan as (_ & po & nsp & tools & az & _ & _ & _ & Ht & Hd & _)%run_plan_ok.
  unfold run_command, RunTaskCommand. rewrite Hret.
  rewrite (bind_run (raise_if false _ _ _) _ w tt w) by done. cbn [QxBuildAgentPlan].
  rewrite (bind_run _ _ w plan w) by done.
  unfold QxExecuteAgentPlan, qx_validate_agent_plan_capabilities. rewrite Hd, <- Ht, Hnil.
  cbn. split; [destruct w; reflexivity|done].
Qed.

(** ** An example *)

Definition after {A} (m : M A) (w : world) : world :=
  match run_command m w with Ok _ w' => w' | Err _ w' => w' end.

(** The world after CREATE AGENT and START SESSION over the registry of the
    example; the session is 20006. *)
Definition demo_session_world (tools : list pg_node) : world :=
  after (StartSessionCommand demo_env ddl_env (MkStartSession "planner" None false))
    (after (CreateAgentCommand demo_env ddl_env
              (MkCreateAgent "planner" None None None tools (Some "default_policy") []))
       (ddl_run demo_env ddl_env (empty_world 20000) demo_ddl)).

Definition demo_run_task : RunTaskStmt :=
  MkRunTask (NAConst (Some (NInteger 20006))) (Some "digest") "summarise the inbox" None None false.

Lemma demo_session_ok tools : tools = [] \/ tools = [NString "search"] ->
  policy_ok (w_vis (demo_session_world tools)).
Proof.
  pose proof demo_registry_ok as H. unfold policy_ok in *.
  intros [-> | ->]; vm_compute in H |- *; exact H.
Qed.

Lemma lookup_only_tool c t nsp name tool :
  c_tools c = [t] -> QxCatalogLookupToolByName c nsp (Some name) = Some tool ->
  tool = qx_catalog_fill_tool_info c t.
Proof.
  intros Ht. unfold QxCatalogLookupToolByName, lookup_by_name. cbn [rows table_tool].
  destruct (negb (OidIsValid nsp) || is_blank (Some name)); [done|]. rewrite Ht. cbn [List.find].
  destruct (_ && _); [|done]. intros H. by injection H.
Qed.

Lemma demo_session_clean : registry_clean (w_vis (demo_session_world [NString "search"])).
Proof.
  intros nsp name tool H.
  assert (exists t, c_tools (w_vis (demo_session_world [NString "search"])) = [t]) as [t Ht]
    by (eexists; vm_compute; reflexivity).
  apply (lookup_only_tool _ t) in H; [|done].
  assert (tool = demo_tool) as ->; [|by split; [apply demo_tool_unbroken|]].
  rewrite H. vm_compute in Ht. injection Ht as <-. vm_compute. reflexivity.
Qed.


Lemma run_task_without_tools_fails_witness :
  exists e, run_command (RunTaskCommand demo_env ddl_env (demo_tool_env demo_response) demo_run_task)
              (demo_session_world []) = Err e (demo_session_world []).
Proof.
  assert (exists plan, qx_plan_run_task demo_env ddl_env demo_run_task 10 (demo_session_world []) =
      Ok plan (demo_session_world []) /\ p_authorized_tools plan = []) as (plan & Hplan & Hnil)
    by (eexists; split; vm_compute; reflexivity).
  destruct (run_task_without_tools_fails demo_env ddl_env (demo_tool_env demo_response) demo_run_task
              _ plan eq_refl Hplan Hnil) as (e & H & _).
  exists e. exact H.
Defined.
