(* ===== verification/MemoryProps.v ===== *)
(** * What FETCH MEMORY returns

    FETCH MEMORY returns exactly the records the caller may see, in the order of
    the index and up to the limit, and what REMEMBER stored is among them. *)

From Stdlib Require Import Ascii String Sorted.
From stdpp Require Import sorting.
From S2P Require Import Prelude Text Types Scheduler Stat Observe SemanticLog Tables World.
From S2P Require Import Catalog TaskView Recovery Policy Backends ToolExec Envelope Security.
From S2P Require Import PolicyCommands Lifecycle Planner AgentCommands PolicyProps PlanProps.
Open Scope string_scope.
Open Scope Z_scope.
Open Scope bool_scope.
Open Scope list_scope.

(** ** The order of the index *)

#[export] Instance memory_before_total : Total memory_before.
Proof.
  intros a b. unfold memory_before.
  destruct (N.lt_trichotomy (N_of_ascii (qxmemoryscope a)) (N_of_ascii (qxmemoryscope b)))
    as [H|[H|H]]; [by left; left| |by right; left].
  apply (f_equal ascii_of_N) in H. rewrite !ascii_N_embedding in H.
  destruct (Z.le_ge_cases (memory_oid a) (memory_oid b)); [left|right]; right; done.
Qed.

#[export] Instance memory_before_trans : Transitive memory_before.
Proof.
  intros a b c [H|[H Ho]] [H'|[H' Ho']]; unfold memory_before; rewrite ?H in *.
  - left. by etransitivity.
  - left. by rewrite <- H'.
  - left. done.
  - right. split; [done|lia].
Qed.

(** The records of an agent, each once. *)
Lemma agent_memories_perm c agentoid :
  agent_memories c agentoid ≡ₚ List.filter (fun m => qxmemoryagentid m =? agentoid) (c_memories c).
Proof. apply merge_sort_Permutation. Qed.

Lemma agent_memories_sorted c agentoid :
  StronglySorted memory_before (agent_memories c agentoid).
Proof. apply StronglySorted_merge_sort; apply _. Qed.

(** ** Fetching *)

Section Fetch.
Context (E : Env) (D : DdlEnv).

(** The records of an agent a fetch may return, in the order of the index. *)
Definition visible_memories (c : catalog) (agentoid : Oid) (stmt : FetchMemoryStmt) :
    list pg_qx_memory :=
  List.filter (memory_visible E (GetUserId E) (fm_scopes stmt) (fm_match_text stmt))
    (agent_memories c agentoid).

Lemma fetch_loop_take ownerid scopes text limit emitted scan :
  fetch_loop E ownerid scopes text limit emitted scan =
  memory_row <$> take (Z.to_nat (Z.max 1 (limit - emitted)))
                   (List.filter (memory_visible E ownerid scopes text) scan).
Proof.
  revert emitted. induction scan as [|m scan IH]; intros emitted; simpl; [by rewrite take_nil|].
  destruct (memory_visible _ _ _ _ m); [|apply IH].
  destruct (Z.leb_spec limit (emitted + 1)).
  - rewrite Z.max_l by lia. done.
  - rewrite IH, !Z.max_r by lia.
    replace (Z.to_nat (limit - emitted)) with (S (Z.to_nat (limit - (emitted + 1)))) by lia. done.
Qed.

Lemma visible_memories_spec c agentoid stmt m :
  m ∈ visible_memories c agentoid stmt <->
  m ∈ c_memories c /\ qxmemoryagentid m = agentoid /\
  memory_visible E (GetUserId E) (fm_scopes stmt) (fm_match_text stmt) m = true.
Proof.
  unfold visible_memories. rewrite list_elem_of_In, filter_In, <- list_elem_of_In.
  rewrite agent_memories_perm, list_elem_of_In, filter_In, <- list_elem_of_In, Z.eqb_eq. tauto.
Qed.

Lemma fetch_runs stmt w agent :
  qx_lookup_agent_info D (w_vis w) (fm_agent_name stmt) = Some agent ->
  has_privs_of_role E (GetUserId E) (qxagentowner agent) = true ->
  FetchMemoryCommand E D stmt w =
    Ok (memory_row <$> take (Z.to_nat (Z.max 1 (fm_limit_count stmt)))
                         (visible_memories (w_vis w) (agent_oid agent) stmt)) w.
Proof.
  intros Hl Hp. unfold FetchMemoryCommand, QxFetchMemoryRecords. cbn [gets bind]. rewrite Hl, Hp.
  cbn. rewrite fetch_loop_take, Z.sub_0_r. done.
Qed.

End Fetch.

Lemma filter_sorted {A} (R : A -> A -> Prop) (f : A -> bool) l :
  StronglySorted R l -> StronglySorted R (List.filter f l).
Proof.
  induction 1 as [|x l _ IH Hx]; simpl; [constructor|]. destruct (f x); [|done].
  constructor; [done|]. rewrite Forall_forall in *. intros y Hy. apply Hx.
  apply list_elem_of_In in Hy. apply list_elem_of_In. by apply filter_In in Hy as [? _].
Qed.

Lemma filter_NoDup {A} (f : A -> bool) (l : list A) : NoDup l -> NoDup (List.filter f l).
Proof.
  induction 1 as [|x l Hx _ IH]; simpl; [constructor|]. destruct (f x); [|done].
  constructor; [|done]. rewrite list_elem_of_In, filter_In, <- list_elem_of_In. naive_solver.
Qed.

(** With distinct identifiers, the order of the index determines the list. *)
Lemma memories_unique (l : list pg_qx_memory) hits hits' :
  NoDup (memory_oid <$> l) -> (forall m, m ∈ hits -> m ∈ l) ->
  (forall m, m ∈ hits <-> m ∈ hits') -> NoDup hits -> NoDup hits' ->
  StronglySorted memory_before hits -> StronglySorted memory_before hits' -> hits = hits'.
Proof.
  intros Hnd Hsub Heq Hd Hd' Hs Hs'.
  apply (StronglySorted_unique_strong memory_before); [|done|done|by apply NoDup_Permutation].
  intros a b Ha Hb%Heq Hab Hba.
  assert (row_oid a = row_oid b) as Ho.
  { change (memory_oid a = memory_oid b).
    destruct Hab as [Hab|[Hab ?]], Hba as [Hba|[Hba ?]]; [lia| | |lia].
    - rewrite Hba in Hab. lia.
    - rewrite Hab in Hba. lia. }
  pose proof (find_oid_NoDup l a Hnd (Hsub a Ha)) as Fa.
  pose proof (find_oid_NoDup l b Hnd (Hsub b Hb)) as Fb. congruence.
Qed.


(** Two records of an agent, of different scopes. *)
Definition demo_memories : world :=
  foldl (fun w stmt => after (RememberMemoryCommand demo_env ddl_env stmt) w)
    (demo_session_world [NString "search"])
    [MkRemember (NAConst (Some (NInteger 20006))) "w" "draft" (NAConst (Some (NInteger 7))) [];
     MkRemember (NAConst (Some (NInteger 20006))) "e" "visit" (NAConst (Some (NString "harbour")))
       ["trip"; "june"]].


(** ** Remembering *)

(** The session a REMEMBER names accepts it. *)
Record remembers (E : Env) (w : world) (sessionoid : Oid) (session : pg_qx_session) : Prop := {
  re_oid : 0 < sessionoid < 2 ^ 31;
  re_session : si_row <$> QxCatalogLookupSessionByOid (w_vis w) sessionoid = Some session;
  re_db : qxsessiondbid session = MyDatabaseId E;
  re_active : qxsessionstatus session = QX_SESSION_STATUS_ACTIVE;
  re_owner : has_privs_of_role E (GetUserId E) (qxsessionowner session) = true
}.

(** The record that is stored. *)
Definition stored_memory (E : Env) (D : DdlEnv) (stmt : RememberStmt) (session : pg_qx_session)
    (sessionoid oid : Oid) : pg_qx_memory :=
  Mk_qx_memory oid (MyDatabaseId E) (qxsessionagentid session) sessionoid InvalidOid (GetUserId E)
    (rm_scope stmt) (Some (rm_memory_key stmt))
    (Some (qx_serialize_memory_value D (rm_memory_value stmt)))
    (qx_serialize_memory_tags (rm_tags stmt)).

Lemma remember_runs E D stmt w sessionoid session :
  room 2 w -> rm_session_id stmt = NAConst (Some (NInteger sessionoid)) ->
  remembers E w sessionoid session ->
  exists event l, RememberMemoryCommand E D stmt w =
    Ok tt (add_row (event : pg_qx_event)
             (set_wal l (add_row (stored_memory E D stmt session sessionoid (w_next_oid w)) w))).
Proof.
  intros Hroom Hid [Hoid Hs Hdb Hact Hown].
  set (m := stored_memory E D stmt session sessionoid (w_next_oid w)).
  assert (room 1 (add_row m w)) as Hroom1 by (by apply (room_add_row 1)).
  destruct (insert_event_room InvalidOid E 1 (add_row m w) sessionoid InvalidOid (GetUserId E) None
              (Some "MEMORY_RECORDED")
              (Some (cat ["memory="; show_u (w_next_oid w); ";scope=";
                 QxMemoryScopeLabel (rm_scope stmt); ";key="; rm_memory_key stmt])) Hroom1
              ltac:(lia)) as (lsn & l & Hev).
  match type of Hev with _ = Ok _ (add_row ?r _) => set (event := r) in Hev end.
  exists event, l. unfold RememberMemoryCommand, qx_extract_oid_literal. rewrite Hid.
  rewrite int32_small by (unfold in_int32; lia).
  replace (sessionoid <=? 0) with false by lia. unfold bind at 1. cbn [raise_if bind ret gets].
  destruct (QxCatalogLookupSessionByOid (w_vis w) sessionoid) as [info|]; [|done].
  simpl in Hs. injection Hs as ->. rewrite Hdb, Z.eqb_refl, Hact, Ascii.eqb_refl, Hown.
  cbn [negb raise_if]. rewrite !(bind_run (ret tt) _ w tt w) by done.
  unfold QxRememberSessionMemory, QxCatalogInsertMemory.
  rewrite (bind_run _ _ w (w_next_oid w) (add_row event (set_wal l (add_row m w)))); [done|].
  rewrite (bind_run _ _ w (w_next_oid w) (add_row m w)) by (by apply (insert_row_room 2)).
  unfold bind. rewrite Hev. done.
Qed.


