(* ===== verification/TraceProps.v ===== *)
(** * What SHOW TRACE shows

    The masking of all values of a key compared with a definition over the fields
    of the text, the values a shown detail never holds, and the rows the command
    returns. *)

From Stdlib Require Import Ascii String.
From S2P Require Import Prelude Text Types Scheduler Stat Observe SemanticLog Tables World.
From S2P Require Import Catalog Recovery Policy Backends ToolExec Envelope Security Lifecycle Planner.
From S2P Require Import Trace LifecycleProps ReclaimProps.
Open Scope string_scope.
Open Scope Z_scope.
Open Scope bool_scope.
Open Scope list_scope.

(** ** Masking, field by field *)

(** A field with a non-empty value of [key] keeps what is before the value. *)
Definition mask_field (key replacement field : string) : string :=
  match strstr field key with
  | Some (before, value) =>
      if String.eqb value "" then field else before +:+ (key +:+ replacement)
  | None => field
  end.

Fixpoint join (c : ascii) (l : list string) : string :=
  match l with
  | [] => ""
  | [x] => x
  | x :: rest => x +:+ String c (join c rest)
  end.

Definition mask_all (key replacement source : string) : string :=
  join ";" (mask_field key replacement <$> fields ";" source).

(** What follows the last field that has [key], from its separator on. *)
Fixpoint trailing (key : string) (l : list string) : option string :=
  match l with
  | [] => None
  | x :: rest =>
      match trailing key rest with
      | Some t => Some t
      | None =>
          if contains x key
          then Some (match rest with [] => "" | _ => String ";" (join ";" rest) end)
          else None
      end
  end.

Lemma fields_ne c s : fields c s <> [].
Proof. destruct (fields_cons c s) as [r ->]. done. Qed.

Lemma join_cons c x l : l <> [] -> join c (x :: l) = x +:+ String c (join c l).
Proof. destruct l; done. Qed.

(** Induction on the fields of a text. *)
Lemma fields_ind c (P : string -> Prop) :
  (forall x, has_char c x = false -> P x) ->
  (forall x t, has_char c x = false -> P t -> P (x +:+ String c t)) -> forall s, P s.
Proof.
  intros Hlast Hmore s. enough (forall x, has_char c x = false -> P (x +:+ s)) as H by exact (H "" eq_refl).
  induction s as [|d s IH]; intros x Hx; [rewrite append_nil_r; auto|].
  destruct (Ascii.eqb_spec c d) as [<-|Hd].
  - apply Hmore; [done|]. exact (IH "" eq_refl).
  - change (String d s) with (String d "" +:+ s). rewrite <- append_assoc. apply IH.
    rewrite has_char_app, Hx. simpl. rewrite (proj2 (Ascii.eqb_neq c d)) by done. done.
Qed.

Lemma join_fields c s : join c (fields c s) = s.
Proof.
  induction s as [x Hx|x t Hx IH] using (fields_ind c).
  - by rewrite fields_single.
  - rewrite fields_app by done. rewrite join_cons by apply fields_ne. by rewrite IH.
Qed.

Lemma fields_join c l :
  l <> [] -> Forall (fun x => has_char c x = false) l -> fields c (join c l) = l.
Proof.
  intros Hne Hl. induction Hl as [|x l Hx Hl IH]; [done|].
  destruct l as [|y l]; [by apply fields_single|].
  rewrite join_cons by done. rewrite fields_app by done. rewrite IH; done.
Qed.

Lemma fields_no_char c s : Forall (fun x => has_char c x = false) (fields c s).
Proof.
  induction s as [x Hx|x t Hx IH] using (fields_ind c).
  - rewrite fields_single by done. by constructor.
  - rewrite fields_app by done. by constructor.
Qed.

(** ** Searching a text for a key without separators *)

Section Key.
Context (key : string) (Hne : key <> "") (Hkey : has_char ";" key = false).

(** A key that starts in the first field ends in it. *)
Lemma strip_prefix_first_field x t r :
  has_char ";" key = false -> strip_prefix key (x +:+ String ";" t) = Some r ->
  exists v, strip_prefix key x = Some v.
Proof.
  clear Hne Hkey. revert x. induction key as [|c k IH]; intros x Hk H; [by eexists|].
  cbn [has_char] in Hk. apply orb_false_iff in Hk as [Hc Hk].
  destruct x as [|d x]; cbn [strip_prefix String.append] in H |- *.
  - rewrite Ascii.eqb_sym, Hc in H. done.
  - destruct (Ascii.eqb c d); [|done]. eauto.
Qed.

Lemma strstr_skip_field x t :
  strstr x key = None ->
  strstr (x +:+ String ";" t) key =
  match strstr t key with Some (b, p) => Some (x +:+ String ";" b, p) | None => None end.
Proof.
  induction x as [|c x IH]; intros Hx; rewrite strstr_unfold.
  - destruct (strip_prefix key ("" +:+ String ";" t)) as [r|] eqn:P.
    + apply strip_prefix_first_field in P as [v P]; [|done]. destruct key; done.
    + simpl. destruct (strstr t key) as [[b p]|]; done.
  - rewrite strstr_unfold in Hx.
    destruct (strip_prefix key (String c x +:+ String ";" t)) as [r|] eqn:P.
    + apply strip_prefix_first_field in P as [v P]; [|done]. rewrite P in Hx. done.
    + destruct (strip_prefix key (String c x)); [done|]. simpl.
      destruct (strstr x key) as [[b p]|] eqn:E; [done|]. rewrite IH by done.
      destruct (strstr t key) as [[b p]|]; done.
Qed.

Lemma skip_value x t : has_char ";" x = false ->
  skip_while not_semicolon (x +:+ String ";" t) = String ";" t.
Proof.
  induction x as [|d x IH]; cbn [has_char String.append skip_while]; [done|].
  intros [Hd Hx]%orb_false_iff. unfold not_semicolon at 1. rewrite Ascii.eqb_sym, Hd. auto.
Qed.

Lemma skip_value_end x : has_char ";" x = false -> skip_while not_semicolon x = "".
Proof.
  induction x as [|d x IH]; cbn [has_char String.append skip_while]; [done|].
  intros [Hd Hx]%orb_false_iff. unfold not_semicolon at 1. rewrite Ascii.eqb_sym, Hd. auto.
Qed.

Lemma skip_value_split s : s = upto ";" s +:+ skip_while not_semicolon s.
Proof.
  pose proof (split_char_spec ";" s) as H. unfold upto.
  destruct (split_char ";" s) as [pre [post|]]; destruct H as [-> Hp]; simpl.
  - by rewrite skip_value.
  - by rewrite skip_value_end, append_nil_r.
Qed.

Context (replacement : string).

Lemma mask_all_cons x t : has_char ";" x = false ->
  mask_all key replacement (x +:+ String ";" t) =
  mask_field key replacement x +:+ String ";" (mask_all key replacement t).
Proof.
  intros Hx. unfold mask_all. rewrite fields_app by done. rewrite fmap_cons.
  apply join_cons. intros [= E%fmap_nil_inv]. by apply fields_ne in E.
Qed.

Lemma mask_all_single x : has_char ";" x = false ->
  mask_all key replacement x = mask_field key replacement x.
Proof. intros Hx. unfold mask_all. rewrite fields_single by done. done. Qed.

Lemma strstr_empty : strstr "" key = None.
Proof. destruct key; done. Qed.

Lemma mask_all_sep t : mask_all key replacement (String ";" t) = String ";" (mask_all key replacement t).
Proof.
  pose proof (mask_all_cons "" t eq_refl) as H. unfold mask_field in H.
  rewrite strstr_empty in H. exact H.
Qed.

Lemma mask_all_none s : strstr s key = None -> mask_all key replacement s = s.
Proof.
  induction s as [x Hx|x t Hx IH] using (fields_ind ";"); intros H.
  - rewrite mask_all_single by done. unfold mask_field. by rewrite H.
  - rewrite mask_all_cons by done. unfold mask_field.
    rewrite (strstr_None_prefix x _ key ltac:(by eexists) H).
    rewrite IH; [done|]. rewrite strstr_skip_field in H by (by eapply strstr_None_prefix; [eexists|]).
    destruct (strstr t key) as [[b p]|]; done.
Qed.

Lemma mask_all_some s before post :
  strstr s key = Some (before, post) ->
  mask_all key replacement s =
  before +:+ (key +:+ ((if String.eqb (upto ";" post) "" then "" else replacement) +:+
                       mask_all key replacement (skip_while not_semicolon post))).
Proof.
  revert before. induction s as [x Hx|x t Hx IH] using (fields_ind ";"); intros before H.
  - rewrite mask_all_single by done. unfold mask_field. rewrite H.
    apply strstr_Some in H as ->. rewrite !has_char_app in Hx.
    apply orb_false_iff in Hx as [_ Hx]. apply orb_false_iff in Hx as [_ Hx].
    rewrite upto_id, skip_value_end by done.
    change (mask_all key replacement "") with (mask_field key replacement "").
    unfold mask_field. rewrite strstr_empty. rewrite append_nil_r.
    destruct (String.eqb_spec post ""); [by subst|done].
  - rewrite mask_all_cons by done. unfold mask_field. destruct (strstr x key) as [[b v]|] eqn:E.
    + rewrite (strstr_app_r _ _ (String ";" t) _ _ E) in H. injection H as <- <-.
      apply strstr_Some in E as ->. rewrite !has_char_app in Hx.
      apply orb_false_iff in Hx as [_ Hx]. apply orb_false_iff in Hx as [_ Hx].
      rewrite upto_app, skip_value, mask_all_sep by done.
      destruct (String.eqb_spec v ""); [subst; rewrite !append_assoc; done|].
      by rewrite !append_assoc.
    + rewrite strstr_skip_field in H by done.
      destruct (strstr t key) as [[b p]|] eqn:Et; [|done]. injection H as <- <-.
      rewrite (IH b eq_refl), append_assoc. done.
Qed.

(** *** What follows the last field with the key *)

Lemma trailing_sep t : trailing key ("" :: fields ";" t) = trailing key (fields ";" t).
Proof.
  simpl. destruct (trailing key (fields ";" t)); [done|]. unfold contains. rewrite strstr_empty. done.
Qed.

Lemma trailing_none s : strstr s key = None -> trailing key (fields ";" s) = None.
Proof.
  induction s as [x Hx|x t Hx IH] using (fields_ind ";"); intros H.
  - rewrite fields_single by done. simpl. unfold contains. by rewrite H.
  - assert (strstr x key = None) as Ex by (by eapply strstr_None_prefix; [eexists|]).
    rewrite strstr_skip_field in H by done. rewrite fields_app by done. simpl.
    rewrite IH by (destruct (strstr t key) as [[b p]|]; done). unfold contains. by rewrite Ex.
Qed.

Lemma trailing_some s before post :
  strstr s key = Some (before, post) ->
  trailing key (fields ";" s) =
  Some (default (skip_while not_semicolon post)
          (trailing key (fields ";" (skip_while not_semicolon post)))).
Proof.
  revert before. induction s as [x Hx|x t Hx IH] using (fields_ind ";"); intros before H.
  - rewrite fields_single by done. simpl. unfold contains. rewrite H.
    apply strstr_Some in H as ->. rewrite !has_char_app in Hx.
    apply orb_false_iff in Hx as [_ Hx]. apply orb_false_iff in Hx as [_ Hx].
    rewrite skip_value_end by done. simpl. unfold contains. rewrite strstr_empty. done.
  - rewrite fields_app by done. destruct (strstr x key) as [[b v]|] eqn:E.
    + rewrite (strstr_app_r _ _ (String ";" t) _ _ E) in H. injection H as <- <-. simpl.
      unfold contains at 1. rewrite E. apply strstr_Some in E as ->. rewrite !has_char_app in Hx.
      apply orb_false_iff in Hx as [_ Hx]. apply orb_false_iff in Hx as [_ Hx].
      rewrite skip_value by done.
      change (fields ";" (String ";" t)) with ("" :: fields ";" t). rewrite trailing_sep.
      destruct (trailing key (fields ";" t)); [done|]. simpl. rewrite join_fields.
      destruct (fields ";" t) eqn:F; [by apply fields_ne in F|done].
    + rewrite strstr_skip_field in H by done.
      destruct (strstr t key) as [[b p]|] eqn:Et; [|done]. injection H as <- <-.
      simpl. rewrite (IH b eq_refl). done.
Qed.

(** *** The loop *)

Context (Hrep : has_char ";" replacement = false).

(** What is left after a value starts with a separator, before and after masking. *)
Lemma upto_masked_rest post v :
  has_char ";" v = false ->
  upto ";" (v +:+ mask_all key replacement (skip_while not_semicolon post)) = v.
Proof.
  intros Hv. pose proof (split_char_spec ";" post) as H.
  destruct (split_char ";" post) as [pre [t|]]; destruct H as [-> Hp].
  - rewrite skip_value, mask_all_sep by done. by apply upto_app.
  - rewrite skip_value_end by done.
    rewrite mask_all_none, append_nil_r by apply strstr_empty. by apply upto_id.
Qed.

Lemma mask_all_eqb s before post :
  strstr s key = Some (before, post) ->
  String.eqb (mask_all key replacement s) s =
  (String.eqb (upto ";" post) "" || String.eqb (upto ";" post) replacement) &&
  String.eqb (mask_all key replacement (skip_while not_semicolon post))
             (skip_while not_semicolon post).
Proof.
  intros H. rewrite (mask_all_some s before post) by done. apply strstr_Some in H as ->.
  set (rest := skip_while not_semicolon post). set (v := upto ";" post).
  assert (post = v +:+ rest) as Hpost by apply skip_value_split.
  assert (has_char ";" v = false) as Hv by apply upto_no_char.
  apply eq_true_iff_eq. rewrite andb_true_iff, orb_true_iff, !String.eqb_eq. split.
  - intros E. do 2 apply append_inj_l in E. rewrite Hpost in E.
    assert (v = "" \/ v = replacement) as Hor.
    { destruct (String.eqb_spec v ""); [by left|right].
      apply (f_equal (upto ";")) in E. rewrite <- Hpost in E.
      pose proof (upto_masked_rest post replacement Hrep). by etransitivity. }
    split; [done|]. destruct (String.eqb_spec v "") as [Hv0|]; [rewrite Hv0 in E; exact E|].
    destruct Hor as [?|Hvr]; [done|]. rewrite Hvr in E. by apply append_inj_l in E.
  - intros [Hor ->]. rewrite Hpost. do 2 f_equal. f_equal.
    destruct (String.eqb_spec v ""); [done|]. by destruct Hor as [?|<-].
Qed.

Lemma skip_while_length f s : (String.length (skip_while f s) <= String.length s)%nat.
Proof. induction s as [|c s IH]; simpl; [done|]. destruct (f c); simpl; lia. Qed.

Lemma replace_all_loop_masks fuel cursor rewritten changed :
  (String.length cursor < fuel)%nat ->
  replace_all_loop fuel key replacement cursor rewritten changed =
  (rewritten +:+ mask_all key replacement cursor,
   changed || negb (String.eqb (mask_all key replacement cursor) cursor),
   default cursor (trailing key (fields ";" cursor))).
Proof.
  revert cursor rewritten changed. induction fuel as [|fuel IH]; intros cursor rewritten changed Hl;
    [lia|]. cbn [replace_all_loop]. destruct (String.eqb_spec cursor "") as [->|Hc].
  - rewrite mask_all_none, append_nil_r, orb_false_r by apply strstr_empty.
    rewrite trailing_none by apply strstr_empty. done.
  - destruct (strstr cursor key) as [[before post]|] eqn:E.
    + pose proof (skip_while_length not_semicolon post) as Hsk.
      assert (String.length (skip_while not_semicolon post) < fuel)%nat as Hf.
      { apply strstr_length in E. destruct key; [done|]. simpl in E. lia. }
      rewrite !IH by done. rewrite (mask_all_eqb cursor before post) by done.
      rewrite (mask_all_some cursor before post), (trailing_some cursor before post) by done.
      unfold cat. simpl. rewrite append_nil_r.
      destruct (String.eqb_spec (upto ";" post) "") as [Hv|Hv]; simpl.
      * rewrite Hv, !append_assoc. done.
      * destruct (String.eqb_spec (upto ";" post) replacement) as [Hr|Hr]; simpl;
          rewrite ?Hr, !append_assoc, ?orb_true_r; done.
    + rewrite mask_all_none, trailing_none by done.
      by rewrite String.eqb_refl, orb_false_r.
Qed.

End Key.

(** C38. Masking all values of a key: the loop ends within its fuel, and the
    result is the text in which every field with a value of the key holds the
    placeholder instead, compared with the definition over fields; when a value
    was changed, what follows the last field with the key comes a second time. *)
Theorem replace_all_masks source key replacement :
  key <> "" -> has_char ";" key = false -> has_char ";" replacement = false ->
  qx_replace_trace_delimited_value_all source key replacement =
  mask_all key replacement source +:+
  (if String.eqb (mask_all key replacement source) source then ""
   else default "" (trailing key (fields ";" source))).
Proof.
  intros Hne Hkey Hrep. unfold qx_replace_trace_delimited_value_all.
  rewrite replace_all_loop_masks by (done || lia). cbn [orb].
  destruct (String.eqb_spec (mask_all key replacement source) source) as [E|E]; cbn [negb].
  - by rewrite append_nil_r.
  - f_equal. destruct (strstr source key) as [[b p]|] eqn:S; [by erewrite trailing_some|].
    by rewrite mask_all_none in E.
Qed.

Lemma replace_all_masks_witness :
  qx_replace_trace_delimited_value_all "backend=docker;container_id=4f2a;exit=0" "container_id="
    "<container_id>" = "backend=docker;container_id=<container_id>;exit=0;exit=0".
Proof.
  refine (eq_trans (replace_all_masks _ "container_id=" "<container_id>" _ _ _) _);
    [discriminate|reflexivity|reflexivity|vm_compute; reflexivity].
Defined.

(** ** Values that are not shown *)

(** Every value of [key] is a beginning of the placeholder. *)
Definition masked (key replacement s : string) : Prop :=
  Forall (fun f => forall b v, strstr f key = Some (b, v) -> is_prefix v replacement) (fields ";" s).

Lemma fields_prefix c p s : is_prefix p s ->
  Forall (fun f => exists g, g ∈ fields c s /\ is_prefix f g) (fields c p).
Proof.
  revert s. induction p as [x Hx|x t Hx IH] using (fields_ind c); intros s [r ->].
  - rewrite (fields_single c x Hx). constructor; [|constructor].
    destruct (fields_cons c (x +:+ r)) as [l ->]. eexists. split; [left|].
    pose proof (split_char_spec c r) as H. destruct (split_char c r) as [pre [post|]];
      destruct H as [-> Hp].
    + exists pre. rewrite <- append_assoc. apply upto_app. by rewrite has_char_app, Hx.
    + exists r. apply upto_id. by rewrite has_char_app, Hx.
  - rewrite append_assoc. change (String c t +:+ r) with (String c (t +:+ r)).
    rewrite !fields_app by done. constructor; [exists x; split; [left|apply is_prefix_refl]|].
    eapply Forall_impl; [apply IH; by eexists|]. intros f (g & Hg & Hp). exists g. split; [by right|done].
Qed.

Lemma masked_prefix key replacement p s :
  is_prefix p s -> masked key replacement s -> masked key replacement p.
Proof.
  intros Hp Hs. unfold masked in *. eapply Forall_impl; [apply (fields_prefix ";" p s Hp)|].
  intros f (g & Hg & [x ->]) b v Hf. rewrite Forall_forall in Hs.
  destruct (Hs _ Hg b (v +:+ x) (strstr_app_r _ _ x _ _ Hf)) as [y ->].
  exists (x +:+ y). by rewrite append_assoc.
Qed.

(** A masked field holds the placeholder. *)
Lemma mask_field_masked key replacement f b v :
  strstr (mask_field key replacement f) key = Some (b, v) -> is_prefix v replacement.
Proof.
  unfold mask_field. destruct (strstr f key) as [[b' v']|] eqn:E; [|congruence].
  destruct (String.eqb_spec v' "") as [->|_].
  - rewrite E. intros [= _ <-]. by exists replacement.
  - pose proof (strstr_Some _ _ _ _ E) as Hf.
    assert (strstr (b' +:+ key) key = Some (b', "")) as Hk.
    { apply (strstr_keep _ _ _ _ v'); [|by rewrite append_nil_r].
      rewrite append_assoc, <- Hf. exact E. }
    apply (strstr_app_r _ _ replacement) in Hk. rewrite append_assoc in Hk. rewrite Hk.
    intros [= _ <-]. apply is_prefix_refl.
Qed.

Lemma mask_field_no_char key replacement f :
  has_char ";" key = false -> has_char ";" replacement = false -> has_char ";" f = false ->
  has_char ";" (mask_field key replacement f) = false.
Proof.
  intros Hk Hr Hf. unfold mask_field. destruct (strstr f key) as [[b v]|] eqn:E; [|done].
  destruct (String.eqb v ""); [done|]. apply strstr_Some in E as ->.
  rewrite !has_char_app in *. rewrite Hk, Hr. apply orb_false_iff in Hf as [-> _]. done.
Qed.

Lemma trailing_fields key l : match trailing key l with
  | None => Forall (fun x => contains x key = false) l
  | Some t => t = "" \/ exists rest, t = String ";" (join ";" rest) /\ rest <> [] /\
                Forall (fun x => contains x key = false) rest /\ (forall x, x ∈ rest -> x ∈ l)
  end.
Proof.
  induction l as [|x l IH]; simpl; [constructor|]. destruct (trailing key l) as [t|].
  - destruct IH as [->|(rest & -> & H1 & H2 & H3)]; [by left|right].
    exists rest. split_and!; [done|done|done|]. intros y Hy. right. auto.
  - destruct (contains x key) eqn:Hc; [|by constructor].
    destruct l as [|y l]; [by left|right]. exists (y :: l). split_and!; [done|done|done|].
    intros z Hz. by right.
Qed.

Lemma fields_mask_all key replacement s :
  has_char ";" key = false -> has_char ";" replacement = false ->
  fields ";" (mask_all key replacement s) = mask_field key replacement <$> fields ";" s /\
  Forall (fun x => has_char ";" x = false) (mask_field key replacement <$> fields ";" s).
Proof.
  intros Hk Hr. assert (Forall (fun x => has_char ";" x = false)
    (mask_field key replacement <$> fields ";" s)) as H.
  { apply Forall_fmap. eapply Forall_impl; [apply fields_no_char|].
    intros f Hf. by apply mask_field_no_char. }
  split; [|done]. apply fields_join; [|done]. intros E%fmap_nil_inv. by apply fields_ne in E.
Qed.

Lemma mask_all_masked key replacement s :
  has_char ";" key = false -> has_char ";" replacement = false ->
  masked key replacement (mask_all key replacement s).
Proof.
  intros Hk Hr. unfold masked. rewrite (proj1 (fields_mask_all key replacement s Hk Hr)).
  apply Forall_fmap, Forall_true. intros f b v. apply mask_field_masked.
Qed.

Lemma join_app_sep l l' : l <> [] -> l' <> [] ->
  join ";" l +:+ String ";" (join ";" l') = join ";" (l ++ l').
Proof.
  intros Hl Hl'. induction l as [|x l IH]; [done|]. destruct l as [|y l].
  - simpl. destruct l'; done.
  - cbn [app]. rewrite !join_cons by done. rewrite append_assoc. f_equal.
    change (String ";" (join ";" (y :: l)) +:+ String ";" (join ";" l'))
      with (String ";" (join ";" (y :: l) +:+ String ";" (join ";" l'))). by rewrite IH.
Qed.

(** Also with its repeated end. *)
Lemma replace_all_masked key replacement s :
  key <> "" -> has_char ";" key = false -> has_char ";" replacement = false ->
  masked key replacement (qx_replace_trace_delimited_value_all s key replacement).
Proof.
  intros Hne Hk Hr. unfold qx_replace_trace_delimited_value_all.
  rewrite replace_all_loop_masks by (done || lia). cbn [orb].
  destruct (String.eqb_spec (mask_all key replacement s) s) as [E|E]; cbn [negb].
  { rewrite <- E. by apply mask_all_masked. }
  pose proof (trailing_fields key (fields ";" s)) as Ht.
  destruct (trailing key (fields ";" s)) as [t|] eqn:T; cbn [default].
  2:{ destruct (strstr s key) as [[b p]|] eqn:S; [by rewrite (trailing_some key Hne Hk s b p) in T|].
      by rewrite mask_all_none in E. }
  change ("" +:+ mask_all key replacement s) with (mask_all key replacement s). unfold id.
  destruct Ht as [->|(rest & -> & Hrest & Hnone & Hsub)].
  { rewrite append_nil_r. by apply mask_all_masked. }
  destruct (fields_mask_all key replacement s Hk Hr) as [Hf Hnc].
  pose proof (mask_all_masked key replacement s Hk Hr) as Hm. unfold masked in *. rewrite Hf in Hm.
  unfold mask_all. rewrite join_app_sep; [|intros X%fmap_nil_inv; by apply fields_ne in X|done].
  rewrite fields_join.
  - apply Forall_app. split; [done|]. eapply Forall_impl; [exact Hnone|].
    intros x Hx b v Hs. unfold contains in Hx. by rewrite Hs in Hx.
  - intros [X%fmap_nil_inv _]%app_eq_nil. by apply fields_ne in X.
  - apply Forall_app. split; [done|]. apply Forall_forall. intros x Hx.
    pose proof (fields_no_char ";" s) as Hall. rewrite Forall_forall in Hall. auto.
Qed.

Lemma truncate_trace_prefix s : is_prefix (qx_normalize_trace_detail_truncate_after_wall_ms s) s.
Proof.
  unfold qx_normalize_trace_detail_truncate_after_wall_ms, starts_with.
  destruct (strstr s ";wall_ms=") as [[pre post]|] eqn:E; [|apply is_prefix_refl].
  apply strstr_Some in E as ->. cbn [cat foldr]. rewrite append_nil_r.
  apply is_prefix_app, is_prefix_app.
  destruct (strip_prefix "<ms>" post) as [r|] eqn:P; [|apply take_digits_prefix].
  apply strip_prefix_Some in P as ->. by exists r.
Qed.

Lemma normalized_masked detail taskoid :
  masked "vm_id=" "<vm_id>" (qx_normalize_trace_detail detail taskoid).
Proof.
  unfold qx_normalize_trace_detail. cbv zeta. eapply masked_prefix; [apply truncate_trace_prefix|].
  by apply replace_all_masked.
Qed.

(** ** The rows of the result *)

Lemma trace_row_detail taskoid t :
  tr_detail (trace_row taskoid t) =
  match qxtracedetail t with
  | Some d => Some (qx_normalize_trace_detail d taskoid)
  | None => None
  end.
Proof. unfold trace_row. cbv zeta. cbn [tr_detail]. destruct (qxtracedetail t); reflexivity. Qed.

Lemma trace_row_masked taskoid t d :
  tr_detail (trace_row taskoid t) = Some d -> masked "vm_id=" "<vm_id>" d.
Proof.
  rewrite trace_row_detail. generalize (fun d => normalized_masked d taskoid).
  generalize (fun d => qx_normalize_trace_detail d taskoid) as f.
  intros f Hf H. destruct (qxtracedetail t); [|done]. injection H as <-. apply Hf.
Qed.

Section Show.
Context (E : Env).

(** The rows of a task in this database. *)
Definition task_traces (c : catalog) (taskoid : Oid) : list pg_qx_trace :=
  List.filter (fun t => qxtracedbid t =? MyDatabaseId E)
    (List.filter (fun t => qxtracetaskid t =? taskoid) (c_traces c)).

Lemma show_trace_loop_take taskoid limit emitted scan :
  show_trace_loop E taskoid limit emitted scan =
  trace_row taskoid <$> take (Z.to_nat (Z.max 1 (limit - emitted)))
    (List.filter (fun t => qxtracedbid t =? MyDatabaseId E) scan).
Proof.
  revert emitted. induction scan as [|t scan IH]; intros emitted; simpl; [by rewrite take_nil|].
  destruct (qxtracedbid t =? MyDatabaseId E); [|apply IH].
  destruct (Z.leb_spec limit (emitted + 1)).
  - rewrite Z.max_l by lia. done.
  - rewrite IH, !Z.max_r by lia.
    replace (Z.to_nat (limit - emitted)) with (S (Z.to_nat (limit - (emitted + 1)))) by lia. done.
Qed.

End Show.

(** C37. SHOW TRACE: the command succeeds exactly for a task that exists and
    belongs to a role the caller has; it changes nothing and returns the first
    [LIMIT] traces (at least one) of the task in this database, in the order of the
    table; and in every detail it shows, each value of [vm_id=] is a beginning of
    its placeholder, whatever was stored. *)
Theorem show_trace_exact E stmt taskoid w result w' :
  0 < taskoid < 2 ^ 31 -> st_task_id stmt = NAConst (Some (NInteger taskoid)) ->
  (ShowTraceCommand E stmt w = Ok result w' <->
   w' = w /\ (exists info, QxCatalogLookupTaskByOid (w_vis w) taskoid = Some info /\
     has_privs_of_role E (GetUserId E) (qxtaskowner (ti_row info)) = true) /\
   result = trace_row taskoid <$>
     take (Z.to_nat (Z.max 1 (st_limit_count stmt))) (task_traces E (w_vis w) taskoid)) /\
  (ShowTraceCommand E stmt w = Ok result w' ->
   Forall (fun r => forall d, tr_detail r = Some d -> masked "vm_id=" "<vm_id>" d) result).
Proof.
  intros Ht Hid.
  assert (forall rows w1, ShowTraceCommand E stmt w = Ok rows w1 <->
    w1 = w /\ (exists info, QxCatalogLookupTaskByOid (w_vis w) taskoid = Some info /\
      has_privs_of_role E (GetUserId E) (qxtaskowner (ti_row info)) = true) /\
    rows = trace_row taskoid <$>
      take (Z.to_nat (Z.max 1 (st_limit_count stmt))) (task_traces E (w_vis w) taskoid)) as Hrun.
  { intros rows w1. unfold ShowTraceCommand, qx_extract_oid_literal. rewrite Hid.
    rewrite int32_small by (unfold in_int32; lia). replace (taskoid <=? 0) with false by lia.
    unfold bind at 1. cbn [raise_if bind ret gets].
    destruct (QxCatalogLookupTaskByOid (w_vis w) taskoid) as [info|].
    2:{ split; [discriminate|]. intros (_ & (i & Hi & _) & _). discriminate Hi. }
    destruct (has_privs_of_role E (GetUserId E) (qxtaskowner (ti_row info))) eqn:Hp;
      cbn [negb raise_if throw].
    2:{ split; [discriminate|]. intros (_ & (i & [= <-] & Hi) & _). congruence. }
    rewrite show_trace_loop_take, Z.sub_0_r. unfold task_traces.
    split; [intros [= <- <-]; eauto|intros (-> & _ & ->); done]. }
  split; [apply Hrun|]. intros (_ & _ & ->)%Hrun. apply Forall_fmap, Forall_true.
  intros t d Hd. by eapply trace_row_masked.
Qed.

(** A trace of the task of the example, with the identifier of a machine in it. *)
Definition demo_trace_world : world :=
  let w := demo_world QX_TASK_STATE_RUNNING QX_ATTEMPT_STATE_RUNNING in
  set_vis (set_rows [Mk_qx_trace 20005 5 16400 20000 0 10 QX_TRACE_STATE_OPEN 7
                       (Some "runtime.external_submit")
                       (Some "task=20000;vm_id=qx-vm-81;wall_ms=1200;cost=3")] (w_vis w)) w.

Lemma show_trace_exact_witness :
  let stmt := MkShowTrace (NAConst (Some (NInteger 20000))) 50 in
  exists result, ShowTraceCommand demo_env stmt demo_trace_world = Ok result demo_trace_world /\
    tr_detail <$> result = [Some "task=<task>;vm_id=<vm_id>;wall_ms=<ms>"] /\
    Forall (fun r => forall d, tr_detail r = Some d -> masked "vm_id=" "<vm_id>" d) result.
Proof.
  intros stmt.
  assert (exists result, ShowTraceCommand demo_env stmt demo_trace_world = Ok result demo_trace_world /\
    tr_detail <$> result = [Some "task=<task>;vm_id=<vm_id>;wall_ms=<ms>"])
    as (result & Hrun & Hd) by (eexists; split; vm_compute; reflexivity).
  exists result. split; [exact Hrun|]. split; [exact Hd|].
  exact (proj2 (show_trace_exact demo_env stmt 20000 demo_trace_world result demo_trace_world
                  ltac:(lia) eq_refl) Hrun).
Defined.
