(* ===== verification/WinLauncher.v ===== *)
(** * The launcher for Windows

    [src/src/bin/qhapaqxian_launcher/qhapaqxian_db_launcher.c]: an entry point
    that runs the [postgres.exe] beside it with its own arguments.  The file
    system and the start of a process are parameters.

    [_spawnv] hands the child one command line, its arguments with blanks in
    between, and the child's C runtime takes it apart again; neither quotes.
    The theorems say where the launcher looks and when the child receives the
    arguments the launcher was given. *)

From Stdlib Require Import Ascii String.
From S2P Require Import Prelude Text Types.
Open Scope string_scope.
Open Scope Z_scope.
Open Scope bool_scope.
Open Scope list_scope.

Record WinOS := MkWinOS {
  module_file_name : string;                  (* of this executable *)
  file_attributes : string -> option Z;       (* [None] is INVALID_FILE_ATTRIBUTES *)
  calloc_ok : bool;
  run_child : string -> string -> option Z    (* program and command line; [None] is -1 *)
}.

Definition slen (s : string) : Z := Z.of_nat (String.length s).
Definition MAX_PATH : Z := 260.
Definition FILE_ATTRIBUTE_DIRECTORY : Z := 16.
Definition backslash : ascii := "\".
Definition blank : ascii := " ".

(** The text up to the last backslash, which is included. *)
Fixpoint upto_backslash (s : string) : option string :=
  match s with
  | EmptyString => None
  | String c rest =>
      match upto_backslash rest with
      | Some p => Some (String c p)
      | None => if Ascii.eqb c backslash then Some (String c EmptyString) else None
      end
  end.

Section Launcher.
Context (W : WinOS).

(** [GetModuleFileNameA] returns the size of the buffer when the name does not
    fit, and [strcpy_s] fails when the rest of the buffer is too small. *)
Definition find_postgres_sibling (target_len : Z) : option string :=
  let name := module_file_name W in
  let len := Z.min (slen name) target_len in
  if (len =? 0) || (target_len <=? len) then None
  else match upto_backslash name with
       | None => None
       | Some dir =>
           if target_len - slen dir <? slen "postgres.exe" + 1 then None
           else
             let target := dir +:+ "postgres.exe" in
             match file_attributes W target with
             | None => None
             | Some attrs => if negb (Z.land attrs FILE_ATTRIBUTE_DIRECTORY =? 0) then None else Some target
             end
       end.

(** What [_spawnv] makes of the arguments. *)
Fixpoint command_line (args : list string) : string :=
  match args with
  | [] => ""
  | [a] => a
  | a :: rest => a +:+ String blank (command_line rest)
  end.

(** The exit code and what is written to the standard error. *)
Definition main (argv : list string) : Z * string :=
  match find_postgres_sibling MAX_PATH with
  | None => (1, "QhapaqXian DB launcher could not find postgres.exe next to this executable.")
  | Some target =>
      if negb (calloc_ok W) then (1, "QhapaqXian DB launcher ran out of memory.")
      else match run_child W target (command_line (target :: tail argv)) with
           | None => (1, "QhapaqXian DB launcher failed to start postgres.exe.")
           | Some rc => (rc, "")
           end
  end.

End Launcher.

(** ** Where the launcher looks *)

Lemma upto_backslash_spec s p :
  upto_backslash s = Some p -> exists d f, p = d +:+ String backslash "" /\ s = p +:+ f /\ has_char backslash f = false.
Proof.
  revert p. induction s as [|c s IH]; intros p; cbn [upto_backslash]; [done|].
  destruct (upto_backslash s) as [q|] eqn:E.
  - intros [= <-]. destruct (IH q eq_refl) as (d & f & -> & -> & Hf).
    exists (String c d), f. done.
  - destruct (Ascii.eqb c backslash) eqn:Ec; [|done]. intros [= <-]. apply Ascii.eqb_eq in Ec as ->.
    exists "", s. split_and!; [done..|]. clear IH. induction s as [|d s IHs]; [done|].
    cbn [upto_backslash has_char] in *. destruct (upto_backslash s); [done|].
    rewrite (Ascii.eqb_sym backslash d). destruct (Ascii.eqb d backslash); [done|]. by apply IHs.
Qed.

(** The program that is started is the [postgres.exe] of the launcher's own
    directory, and its path fits into the buffer with its terminator. *)
Lemma sibling_beside W n target :
  find_postgres_sibling W n = Some target ->
  exists dir file attrs, module_file_name W = dir +:+ String backslash file /\
    target = dir +:+ String backslash "postgres.exe" /\ has_char backslash file = false /\
    slen target < n /\ file_attributes W target = Some attrs /\ Z.testbit attrs 4 = false.
Proof.
  unfold find_postgres_sibling. destruct (_ || _); [done|].
  destruct (upto_backslash _) as [p|] eqn:E; [|done]. apply upto_backslash_spec in E as (d & f & -> & E & Hf).
  destruct (Z.ltb_spec (n - slen (d +:+ String backslash "")) (slen "postgres.exe" + 1)) as [|Hn]; [done|].
  destruct (file_attributes W _) as [attrs|] eqn:Ea; [|done].
  destruct (Z.eqb_spec (Z.land attrs FILE_ATTRIBUTE_DIRECTORY) 0) as [E0|]; [|done]. intros [= <-].
  exists d, f, attrs. unfold slen in *. rewrite !append_assoc in *. cbn [String.append] in *.
  split_and!; try done.
  - rewrite !append_length in *. cbn in *. lia.
  - apply (f_equal (fun z => Z.testbit z 4)) in E0. rewrite Z.land_spec in E0. cbn in E0.
    by rewrite andb_true_r in E0.
Qed.

(** ** What the child receives *)

Definition blank_char (c : ascii) : bool := Ascii.eqb c blank || Ascii.eqb c "009".

(** The words of a text. *)
Fixpoint split_args (cur s : string) : list string :=
  match s with
  | EmptyString => if String.eqb cur "" then [] else [cur]
  | String c rest =>
      if blank_char c then (if String.eqb cur "" then [] else [cur]) ++ split_args "" rest
      else split_args (cur +:+ String c "") rest
  end.

Definition solid (s : string) : bool := negb (String.eqb s "") && all_chars (fun c => negb (blank_char c)) s.

Lemma all_chars_append f a b : all_chars f (a +:+ b) = all_chars f a && all_chars f b.
Proof. induction a as [|c a IH]; [done|]. cbn. by rewrite IH, andb_assoc. Qed.

Lemma split_args_solid cur s a :
  all_chars (fun c => negb (blank_char c)) cur = true -> a ∈ split_args cur s -> solid a = true.
Proof.
  revert cur. induction s as [|c s IH]; intros cur Hc; cbn [split_args].
  - destruct (String.eqb cur "") eqn:E; [by intros ?%elem_of_nil|].
    intros ->%list_elem_of_singleton. unfold solid. by rewrite E, Hc.
  - destruct (blank_char c) eqn:Eb; [|apply IH; by rewrite all_chars_append, Hc; cbn; rewrite Eb].
    intros [Ha|Ha]%elem_of_app; [|by eapply (IH "")].
    destruct (String.eqb cur "") eqn:E; [by apply elem_of_nil in Ha|].
    apply list_elem_of_singleton in Ha as ->. unfold solid. by rewrite E, Hc.
Qed.

Lemma split_args_word a cur s :
  all_chars (fun c => negb (blank_char c)) a = true -> split_args cur (a +:+ s) = split_args (cur +:+ a) s.
Proof.
  revert cur. induction a as [|c a IH]; intros cur; cbn [all_chars]; [by rewrite append_nil_r|].
  intros [Hc Ha]%andb_prop. apply negb_true_iff in Hc. cbn [String.append split_args].
  rewrite Hc, IH, append_assoc by done. done.
Qed.

Lemma split_command_line args :
  Forall (fun a => solid a = true) args -> split_args "" (command_line args) = args.
Proof.
  induction 1 as [|a args [Hne Ha]%andb_prop Hargs IH]; [done|]. apply negb_true_iff in Hne.
  destruct args as [|b args].
  - cbn [command_line]. rewrite <- (append_nil_r a) at 1. rewrite split_args_word by done. cbn. by rewrite Hne.
  - change (command_line (a :: b :: args)) with (a +:+ String blank (command_line (b :: args))).
    rewrite split_args_word by done. cbn [String.append split_args].
    change (blank_char blank) with true. cbv iota. rewrite Hne, IH. done.
Qed.

(** The launcher's arguments arrive unchanged exactly when none is empty or
    has a blank in it.  [crt_args] is how the child's C runtime takes a command
    line apart, which on a line without quotes is at its blanks; the path of the
    program is one of the arguments. *)
Lemma arguments_forwarded_iff (crt_args : string -> list string) target args :
  (forall line, has_char "034" line = false -> crt_args line = split_args "" line) ->
  has_char "034" (command_line (target :: args)) = false ->
  crt_args (command_line (target :: args)) = target :: args <->
  Forall (fun a => solid a = true) (target :: args).
Proof.
  intros Hcrt Hq. rewrite Hcrt by done. split; [|apply split_command_line].
  intros E. apply Forall_forall. intros a Ha. rewrite <- E in Ha. by apply (split_args_solid "" (command_line (target :: args))).
Qed.
