(* ===== verification/Utility.v ===== *)
(** * Utility statements

    The part of [backend/tcop/utility.c] that handles the agent statements: how
    each is classified ([ClassifyUtilityCommandAsReadOnly]), the guard that
    refuses it in a read-only transaction, in a parallel operation or in
    recovery, the command it is dispatched to ([standard_ProcessUtility]), and
    its tag and log level.  The other statements of the grammar are
    PostgreSQL's own.

    The main theorem is about the composition with the commands: in a read-only
    transaction no agent statement changes a catalog row or the log, whether it
    returns or fails, and those that are refused are refused before they run. *)

From Stdlib Require Import Ascii String.
From S2P Require Import Prelude Text Types Scheduler Stat Observe Tables World Catalog Policy.
From S2P Require Import ToolExec Envelope Security PolicyCommands RecoveryHooks Lifecycle Planner.
From S2P Require Import AgentCommands Trace PolicyProps SecurityProps PlanProps.
Open Scope string_scope.
Open Scope Z_scope.
Open Scope bool_scope.
Open Scope list_scope.

(** The agent statements among the nodes a [PlannedStmt] can carry. *)
Inductive UtilityStmt :=
  | T_CreateAgentStmt (stmt : CreateAgentStmt)
  | T_CreateNamespacePolicyStmt (stmt : CreateNamespacePolicyStmt)
  | T_AlterNamespacePolicyStmt (stmt : AlterNamespacePolicyStmt)
  | T_CreateProviderStmt (stmt : CreateProviderStmt)
  | T_AlterProviderStmt (stmt : AlterProviderStmt)
  | T_CreatePrincipalStmt (stmt : CreatePrincipalStmt)
  | T_AlterPrincipalStmt (stmt : AlterPrincipalStmt)
  | T_CreateToolStmt (stmt : CreateToolStmt)
  | T_AlterToolStmt (stmt : AlterToolStmt)
  | T_StartSessionStmt (stmt : StartSessionStmt)
  | T_RunTaskStmt (stmt : RunTaskStmt)
  | T_ResumeTaskStmt (stmt : ResumeTaskStmt)
  | T_RememberStmt (stmt : RememberStmt)
  | T_FetchMemoryStmt (stmt : FetchMemoryStmt)
  | T_ShowTraceStmt (stmt : ShowTraceStmt)
  | T_ExplainAgentStmt (stmt : agent_stmt).

(** ** Classification *)

Definition COMMAND_OK_IN_READ_ONLY_TXN : Z := 0x0001.
Definition COMMAND_OK_IN_PARALLEL_MODE : Z := 0x0002.
Definition COMMAND_OK_IN_RECOVERY : Z := 0x0004.
Definition COMMAND_IS_STRICTLY_READ_ONLY : Z :=
  Z.lor (Z.lor COMMAND_OK_IN_READ_ONLY_TXN COMMAND_OK_IN_RECOVERY) COMMAND_OK_IN_PARALLEL_MODE.
Definition COMMAND_IS_NOT_READ_ONLY : Z := 0.

Definition ClassifyUtilityCommandAsReadOnly (parsetree : UtilityStmt) : Z :=
  match parsetree with
  | T_AlterNamespacePolicyStmt _ | T_AlterPrincipalStmt _ | T_AlterProviderStmt _
  | T_AlterToolStmt _ | T_CreateAgentStmt _ | T_CreateNamespacePolicyStmt _
  | T_CreatePrincipalStmt _ | T_CreateProviderStmt _ | T_CreateToolStmt _ | T_RememberStmt _
  | T_ResumeTaskStmt _ | T_RunTaskStmt _ | T_StartSessionStmt _ => COMMAND_IS_NOT_READ_ONLY
  | T_ExplainAgentStmt _ | T_FetchMemoryStmt _ | T_ShowTraceStmt _ => COMMAND_IS_STRICTLY_READ_ONLY
  end.

Inductive CommandTag :=
  | CMDTAG_ALTER_NAMESPACE_POLICY | CMDTAG_ALTER_PRINCIPAL | CMDTAG_ALTER_PROVIDER
  | CMDTAG_ALTER_TOOL | CMDTAG_CREATE_AGENT | CMDTAG_CREATE_NAMESPACE_POLICY
  | CMDTAG_CREATE_PRINCIPAL | CMDTAG_CREATE_PROVIDER | CMDTAG_CREATE_TOOL | CMDTAG_EXPLAIN_AGENT
  | CMDTAG_FETCH_MEMORY | CMDTAG_REMEMBER | CMDTAG_RESUME_TASK | CMDTAG_RUN_TASK
  | CMDTAG_SHOW_TRACE | CMDTAG_START_SESSION.

Definition GetCommandTagName (commandTag : CommandTag) : string :=
  match commandTag with
  | CMDTAG_ALTER_NAMESPACE_POLICY => "ALTER NAMESPACE POLICY"
  | CMDTAG_ALTER_PRINCIPAL => "ALTER PRINCIPAL"
  | CMDTAG_ALTER_PROVIDER => "ALTER PROVIDER"
  | CMDTAG_ALTER_TOOL => "ALTER TOOL"
  | CMDTAG_CREATE_AGENT => "CREATE AGENT"
  | CMDTAG_CREATE_NAMESPACE_POLICY => "CREATE NAMESPACE POLICY"
  | CMDTAG_CREATE_PRINCIPAL => "CREATE PRINCIPAL"
  | CMDTAG_CREATE_PROVIDER => "CREATE PROVIDER"
  | CMDTAG_CREATE_TOOL => "CREATE TOOL"
  | CMDTAG_EXPLAIN_AGENT => "EXPLAIN AGENT"
  | CMDTAG_FETCH_MEMORY => "AGENT FETCH MEMORY"
  | CMDTAG_REMEMBER => "REMEMBER"
  | CMDTAG_RESUME_TASK => "RESUME TASK"
  | CMDTAG_RUN_TASK => "RUN TASK"
  | CMDTAG_SHOW_TRACE => "SHOW TRACE"
  | CMDTAG_START_SESSION => "START SESSION"
  end.

Definition CreateCommandTag (parsetree : UtilityStmt) : CommandTag :=
  match parsetree with
  | T_CreateAgentStmt _ => CMDTAG_CREATE_AGENT
  | T_CreateNamespacePolicyStmt _ => CMDTAG_CREATE_NAMESPACE_POLICY
  | T_AlterNamespacePolicyStmt _ => CMDTAG_ALTER_NAMESPACE_POLICY
  | T_CreateProviderStmt _ => CMDTAG_CREATE_PROVIDER
  | T_AlterProviderStmt _ => CMDTAG_ALTER_PROVIDER
  | T_CreatePrincipalStmt _ => CMDTAG_CREATE_PRINCIPAL
  | T_AlterPrincipalStmt _ => CMDTAG_ALTER_PRINCIPAL
  | T_CreateToolStmt _ => CMDTAG_CREATE_TOOL
  | T_AlterToolStmt _ => CMDTAG_ALTER_TOOL
  | T_StartSessionStmt _ => CMDTAG_START_SESSION
  | T_RunTaskStmt _ => CMDTAG_RUN_TASK
  | T_ResumeTaskStmt _ => CMDTAG_RESUME_TASK
  | T_RememberStmt _ => CMDTAG_REMEMBER
  | T_FetchMemoryStmt _ => CMDTAG_FETCH_MEMORY
  | T_ShowTraceStmt _ => CMDTAG_SHOW_TRACE
  | T_ExplainAgentStmt _ => CMDTAG_EXPLAIN_AGENT
  end.

Inductive LogStmtLevel := LOGSTMT_DDL | LOGSTMT_ALL.

Definition GetCommandLogLevel (parsetree : UtilityStmt) : LogStmtLevel :=
  match parsetree with
  | T_CreateAgentStmt _ | T_CreateNamespacePolicyStmt _ | T_AlterNamespacePolicyStmt _
  | T_CreateProviderStmt _ | T_AlterProviderStmt _ | T_CreatePrincipalStmt _
  | T_AlterPrincipalStmt _ | T_CreateToolStmt _ | T_AlterToolStmt _ => LOGSTMT_DDL
  | T_StartSessionStmt _ | T_ExplainAgentStmt _ | T_FetchMemoryStmt _ | T_RememberStmt _
  | T_ResumeTaskStmt _ | T_RunTaskStmt _ | T_ShowTraceStmt _ => LOGSTMT_ALL
  end.

Definition UtilityReturnsTuples (parsetree : UtilityStmt) : bool :=
  match parsetree with
  | T_ExplainAgentStmt _ => true
  | T_FetchMemoryStmt _ => true
  | T_ShowTraceStmt _ => true
  | _ => false
  end.

(** ** The guards *)

(** The state of the transaction the statement runs in. *)
Record XactState := MkXactState {
  XactReadOnly : bool;
  IsInParallelMode : bool;
  RecoveryInProgress : bool
}.

Section Dispatch.
Context (E : Env) (D : DdlEnv) (T : ToolEnv) (X : XactState).

Definition PreventCommandIfReadOnly (cmdname : string) : M unit :=
  raise_if (XactReadOnly X) ERRCODE_READ_ONLY_SQL_TRANSACTION
    (cat ["cannot execute "; cmdname; " in a read-only transaction"]) None.

Definition PreventCommandIfParallelMode (cmdname : string) : M unit :=
  raise_if (IsInParallelMode X) ERRCODE_INVALID_TRANSACTION_STATE
    (cat ["cannot execute "; cmdname; " during a parallel operation"]) None.

Definition PreventCommandDuringRecovery (cmdname : string) : M unit :=
  raise_if (RecoveryInProgress X) ERRCODE_READ_ONLY_SQL_TRANSACTION
    (cat ["cannot execute "; cmdname; " during recovery"]) None.

Definition prohibit_in_read_only_states (parsetree : UtilityStmt) : M unit :=
  let readonly_flags := ClassifyUtilityCommandAsReadOnly parsetree in
  if negb (readonly_flags =? COMMAND_IS_STRICTLY_READ_ONLY) &&
     (XactReadOnly X || IsInParallelMode X) then
    let cmdname := GetCommandTagName (CreateCommandTag parsetree) in
    (if Z.land readonly_flags COMMAND_OK_IN_READ_ONLY_TXN =? 0
     then PreventCommandIfReadOnly cmdname else ret tt) ;;;
    (if Z.land readonly_flags COMMAND_OK_IN_PARALLEL_MODE =? 0
     then PreventCommandIfParallelMode cmdname else ret tt) ;;;
    (if Z.land readonly_flags COMMAND_OK_IN_RECOVERY =? 0
     then PreventCommandDuringRecovery cmdname else ret tt)
  else ret tt.

(** What a statement sends to its destination. *)
Inductive utility_output :=
  | NoTuples
  | MemoryTuples (l : list memory_result)
  | TraceTuples (l : list trace_result)
  | PlanText (text : string).

Definition dispatch_statement (parsetree : UtilityStmt) : M utility_output :=
  match parsetree with
  | T_CreateAgentStmt stmt => CreateAgentCommand E D stmt ;;; ret NoTuples
  | T_CreateNamespacePolicyStmt stmt => CreateNamespacePolicyCommand E D stmt ;;; ret NoTuples
  | T_AlterNamespacePolicyStmt stmt => AlterNamespacePolicyCommand E D stmt ;;; ret NoTuples
  | T_CreateProviderStmt stmt => CreateProviderCommand E D stmt ;;; ret NoTuples
  | T_AlterProviderStmt stmt => AlterProviderCommand E D stmt ;;; ret NoTuples
  | T_CreatePrincipalStmt stmt => CreatePrincipalCommand E D stmt ;;; ret NoTuples
  | T_AlterPrincipalStmt stmt => AlterPrincipalCommand E D stmt ;;; ret NoTuples
  | T_CreateToolStmt stmt => CreateToolCommand E D stmt ;;; ret NoTuples
  | T_AlterToolStmt stmt => AlterToolCommand E D stmt ;;; ret NoTuples
  | T_StartSessionStmt stmt => StartSessionCommand E D stmt ;;; ret NoTuples
  | T_RunTaskStmt stmt => RunTaskCommand E D T stmt ;;; ret NoTuples
  | T_ResumeTaskStmt stmt => ResumeTaskCommand E D T stmt ;;; ret NoTuples
  | T_RememberStmt stmt => RememberMemoryCommand E D stmt ;;; ret NoTuples
  | T_FetchMemoryStmt stmt => let* l := FetchMemoryCommand E D stmt in ret (MemoryTuples l)
  | T_ShowTraceStmt stmt => let* l := ShowTraceCommand E stmt in ret (TraceTuples l)
  | T_ExplainAgentStmt stmt => let* text := QxExplainAgentCommand E D stmt in ret (PlanText text)
  end.

Definition standard_ProcessUtility (parsetree : UtilityStmt) : M utility_output :=
  prohibit_in_read_only_states parsetree ;;;
  let* output := dispatch_statement parsetree in
  CommandCounterIncrement ;;;
  ret output.

End Dispatch.

(** ** Commands that only read *)

Ltac head_of t := lazymatch t with ?f _ => head_of f | _ => t end.

(** [keeps_tac], unfolding the operations that have no lemma of their own. *)
Ltac keeps_unfold := match goal with |- keeps ?m => let h := head_of m in unfold h end.
Ltac keeps_deep :=
  repeat first [keeps_step | apply keeps_mforeach | progress keeps_unfold; cbv beta zeta].

Lemma keeps_raised b code msg detail : keeps (raise_if b code msg detail).
Proof. unfold raise_if. keeps_tac. Qed.

#[export] Hint Resolve keeps_raised : qx.

Lemma keeps_tools_listed seen tools : keeps (validate_tool_list seen tools).
Proof. revert seen. induction tools as [|t tools IH]; intros seen; simpl; keeps_deep. Qed.

Lemma keeps_budget policy options : keeps (budget_from_options policy options).
Proof. revert policy. induction options as [|o l IH]; intros policy; simpl; keeps_deep. Qed.

Lemma keeps_str_values nodes : keeps (str_values nodes).
Proof. induction nodes as [|n l IH]; simpl; keeps_deep. Qed.

#[export] Hint Resolve keeps_tools_listed keeps_budget keeps_str_values : qx.

Section Readers.
Context (E : Env) (D : DdlEnv).

Lemma keeps_authorize policy allowed nsp auth tools :
  keeps (authorize_tools D policy allowed nsp auth tools).
Proof. revert auth. induction tools as [|t l IH]; intros auth; simpl; keeps_deep. Qed.

#[local] Hint Resolve keeps_authorize : qx.

Lemma keeps_plan_run stmt owner : keeps (qx_plan_run_task E D stmt owner).
Proof. keeps_deep. Qed.

Lemma keeps_plan_resume stmt owner : keeps (qx_plan_resume_task E stmt owner).
Proof. keeps_deep. Qed.

#[local] Hint Resolve keeps_plan_run keeps_plan_resume : qx.

Lemma keeps_build_plan stmt owner : keeps (QxBuildAgentPlan E D stmt owner).
Proof. keeps_deep. Qed.

Lemma keeps_explain stmt : keeps (QxExplainAgentCommand E D stmt).
Proof. keeps_deep. Qed.

Lemma keeps_fetch stmt : keeps (FetchMemoryCommand E D stmt).
Proof. keeps_deep. Qed.

Lemma keeps_show_trace stmt : keeps (ShowTraceCommand E stmt).
Proof. keeps_deep. Qed.

End Readers.

#[export] Hint Resolve keeps_lift keeps_authorize keeps_build_plan keeps_explain keeps_fetch keeps_show_trace : qx.

(** ** Read-only transactions *)

Definition outcome_world {A} (o : outcome A) : world :=
  match o with Ok _ w => w | Err _ w => w end.

Definition strictly_read_only (stmt : UtilityStmt) : bool :=
  ClassifyUtilityCommandAsReadOnly stmt =? COMMAND_IS_STRICTLY_READ_ONLY.

Lemma prohibit_keeps X stmt : keeps (prohibit_in_read_only_states X stmt).
Proof. keeps_deep. Qed.

Lemma reading_keeps E D T stmt :
  strictly_read_only stmt = true -> keeps (dispatch_statement E D T stmt).
Proof. intros Hs. destruct stmt; try discriminate Hs; keeps_deep. Qed.

Lemma merge_empty c : merge_catalog c empty_catalog = c.
Proof. destruct c. unfold merge_catalog. cbn. by rewrite !app_nil_r. Qed.

Lemma cci_nothing_new w : w_new w = empty_catalog -> cci_world w = w.
Proof. destruct w. unfold cci_world. cbn. intros ->. by rewrite merge_empty. Qed.

Lemma cci_twice w : cci_world (cci_world w) = cci_world w.
Proof. by apply cci_nothing_new. Qed.

Lemma reading_changes_nothing E D T X stmt w :
  strictly_read_only stmt = true -> w_new w = empty_catalog ->
  same_catalogs w (outcome_world (standard_ProcessUtility E D T X stmt w)).
Proof.
  intros Hs Hn. unfold standard_ProcessUtility.
  pose proof (prohibit_keeps X stmt w) as H1. unfold bind at 1.
  destruct (prohibit_in_read_only_states X stmt w) as [[] w1|e w1]; [|exact H1].
  pose proof (reading_keeps E D T stmt Hs w1) as H2. unfold bind at 1.
  destruct (dispatch_statement E D T stmt w1) as [u w2|e w2];
    [|by eapply same_catalogs_trans].
  assert (same_catalogs w w2) as H by by eapply same_catalogs_trans.
  cbn. rewrite cci_nothing_new; [done|]. destruct H as (_ & -> & _). exact Hn.
Qed.

(** The error a writing statement gets. *)
Definition read_only_error (X : XactState) (stmt : UtilityStmt) : pg_error :=
  let name := GetCommandTagName (CreateCommandTag stmt) in
  if XactReadOnly X
  then PgError ERRCODE_READ_ONLY_SQL_TRANSACTION
         (cat ["cannot execute "; name; " in a read-only transaction"]) None
  else PgError ERRCODE_INVALID_TRANSACTION_STATE
         (cat ["cannot execute "; name; " during a parallel operation"]) None.

Lemma writing_refused E D T X stmt w :
  XactReadOnly X || IsInParallelMode X = true -> strictly_read_only stmt = false ->
  standard_ProcessUtility E D T X stmt w = Err (read_only_error X stmt) w.
Proof.
  intros HX Hs. assert (ClassifyUtilityCommandAsReadOnly stmt = 0) as C by (destruct stmt; done).
  unfold standard_ProcessUtility, prohibit_in_read_only_states, read_only_error. rewrite C, HX.
  destruct X as [[] [] r]; try discriminate; reflexivity.
Qed.

(** C16. In a read-only transaction, and in a parallel operation, no agent
    statement that starts with nothing pending changes a catalog row, the identifier counter, the semantic log
    or the recovery state, whether it returns or fails: the statements that
    write are refused with an error that names them, before they run, and those
    that return tuples (EXPLAIN AGENT, AGENT FETCH MEMORY, SHOW TRACE) only
    read. *)
Theorem read_only_transaction_changes_nothing E D T X stmt w :
  XactReadOnly X || IsInParallelMode X = true -> w_new w = empty_catalog ->
  same_catalogs w (outcome_world (standard_ProcessUtility E D T X stmt w)) /\
  (UtilityReturnsTuples stmt = false ->
   standard_ProcessUtility E D T X stmt w = Err (read_only_error X stmt) w).
Proof.
  intros HX Hn. destruct (strictly_read_only stmt) eqn:S.
  - split; [by apply reading_changes_nothing|]. by destruct stmt.
  - rewrite (writing_refused _ _ _ _ _ _ HX S). split; [apply same_catalogs_refl|done].
Qed.

(** A RUN TASK that would be executed outside a read-only transaction. *)
Lemma read_only_transaction_changes_nothing_witness :
  let w := demo_session_world [NString "search"] in
  let run X := standard_ProcessUtility demo_env ddl_env (demo_tool_env demo_response) X
                 (T_RunTaskStmt demo_run_task) in
  run (MkXactState true false false) w =
    Err (PgError ERRCODE_READ_ONLY_SQL_TRANSACTION
           "cannot execute RUN TASK in a read-only transaction" None) w /\
  List.length (w_wal (outcome_world (run (MkXactState false false false) w))) <> 0%nat.
Proof.
  intros w run. split.
  - apply (read_only_transaction_changes_nothing demo_env ddl_env (demo_tool_env demo_response)
             (MkXactState true false false) (T_RunTaskStmt demo_run_task) w); reflexivity.
  - vm_compute. discriminate.
Defined.
