(* ===== verification/Keywords.v ===== *)
(** * Keywords and identifiers

    The tables of keywords and the part of the scanner that reads a name:
    [kwlist] is the table of [src/src/include/parser/kwlist.h], from which
    [ScanKeywordLookup] ([src/src/common/kwlookup.c]) finds a keyword through a
    generated perfect hash; the productions [unreserved_keyword] and its
    siblings are those of [src/src/backend/parser/gram.y], which decide where a
    keyword may stand for a name.  The two are kept in step by hand.
    [quote_identifier] ([src/src/backend/utils/adt/ruleutils.c]) consults the
    first table when it writes a name; the grammar consults the second when the
    name is read again, and the theorem says for which names that works. *)

From Stdlib Require Import Ascii String.
From S2P Require Import Prelude Text Stat Catalog.
Open Scope string_scope.
Open Scope Z_scope.
Open Scope bool_scope.
Open Scope list_scope.

(** The words of a text, between blanks and line breaks. *)
Fixpoint words_from (cur s : string) : list string :=
  match s with
  | EmptyString => if String.eqb cur "" then [] else [cur]
  | String c rest =>
      if isspace c then (if String.eqb cur "" then [] else [cur]) ++ words_from "" rest
      else words_from (cur +:+ String c "") rest
  end.
Definition words (s : string) : list string := words_from "" s.

(** ** The table of keywords *)

Inductive KeywordCategory :=
  | UNRESERVED_KEYWORD | COL_NAME_KEYWORD | TYPE_FUNC_NAME_KEYWORD | RESERVED_KEYWORD.

#[export] Instance keyword_category_eq_dec : EqDecision KeywordCategory.
Proof. solve_decision. Defined.

Inductive BareLabel := BARE_LABEL | AS_LABEL.

Module KwTable.
Definition U := UNRESERVED_KEYWORD.
Definition C := COL_NAME_KEYWORD.
Definition T := TYPE_FUNC_NAME_KEYWORD.
Definition R := RESERVED_KEYWORD.
Definition B := BARE_LABEL.
Definition A := AS_LABEL.

Definition entries : list (string * KeywordCategory * BareLabel) :=
  [("abort",U,B); ("absent",U,B); ("absolute",U,B); ("access",U,B); ("action",U,B); ("add",U,B);
   ("admin",U,B); ("after",U,B); ("agent",U,B); ("aggregate",U,B); ("all",R,B); ("also",U,B);
   ("alter",U,B); ("always",U,B); ("analyse",R,B); ("analyze",R,B); ("and",R,B); ("any",R,B);
   ("array",R,A); ("as",R,A); ("asc",R,B); ("asensitive",U,B); ("assertion",U,B);
   ("assignment",U,B); ("asymmetric",R,B); ("at",U,B); ("atomic",U,B); ("attach",U,B);
   ("attestation",U,B); ("attribute",U,B); ("authorization",T,B); ("backward",U,B);
   ("before",U,B); ("begin",U,B); ("between",C,B); ("bigint",C,B); ("binary",T,B); ("bit",C,B);
   ("boolean",C,B); ("both",R,B); ("breadth",U,B); ("budget",U,B); ("by",U,B); ("cache",U,B);
   ("call",U,B); ("called",U,B); ("cascade",U,B); ("cascaded",U,B); ("case",R,B); ("cast",R,B);
   ("catalog",U,B); ("chain",U,B); ("char",C,A); ("character",C,A); ("characteristics",U,B);
   ("check",R,B); ("checkpoint",U,B); ("class",U,B); ("close",U,B); ("cluster",U,B);
   ("coalesce",C,B); ("collate",R,B); ("collation",T,B); ("column",R,B); ("columns",U,B);
   ("comment",U,B); ("comments",U,B); ("commit",U,B); ("committed",U,B); ("compression",U,B);
   ("concurrently",T,B); ("conditional",U,B); ("configuration",U,B); ("conflict",U,B);
   ("connection",U,B); ("constraint",R,B); ("constraints",U,B); ("content",U,B); ("context",U,B);
   ("continue",U,B); ("conversion",U,B); ("copy",U,B); ("cost",U,B); ("create",R,A);
   ("cross",T,B); ("csv",U,B); ("cube",U,B); ("current",U,B); ("current_catalog",R,B);
   ("current_date",R,B); ("current_role",R,B); ("current_schema",T,B); ("current_time",R,B);
   ("current_timestamp",R,B); ("current_user",R,B); ("cursor",U,B); ("cycle",U,B); ("data",U,B);
   ("database",U,B); ("day",U,A); ("deallocate",U,B); ("dec",C,B); ("decimal",C,B);
   ("declare",U,B); ("default",R,B); ("defaults",U,B); ("deferrable",R,B); ("deferred",U,B);
   ("definer",U,B); ("delete",U,B); ("delimiter",U,B); ("delimiters",U,B); ("depends",U,B);
   ("depth",U,B); ("desc",R,B); ("detach",U,B); ("dictionary",U,B); ("disable",U,B);
   ("discard",U,B); ("distinct",R,B); ("do",R,B); ("document",U,B); ("domain",U,B);
   ("double",U,B); ("drop",U,B); ("each",U,B); ("else",R,B); ("empty",U,B); ("enable",U,B);
   ("encoding",U,B); ("encrypted",U,B); ("end",R,B); ("endpoint",U,B); ("enum",U,B);
   ("error",U,B); ("escape",U,B); ("event",U,B); ("except",R,A); ("exclude",U,B);
   ("excluding",U,B); ("exclusive",U,B); ("execute",U,B); ("exists",C,B); ("explain",U,B);
   ("expression",U,B); ("extension",U,B); ("external",U,B); ("extract",C,B); ("false",R,B);
   ("family",U,B); ("fetch",R,A); ("filter",U,A); ("finalize",U,B); ("first",U,B); ("float",C,B);
   ("following",U,B); ("for",R,A); ("force",U,B); ("foreign",R,B); ("format",U,B);
   ("forward",U,B); ("freeze",T,B); ("from",R,A); ("full",T,B); ("function",U,B);
   ("functions",U,B); ("generated",U,B); ("global",U,B); ("goal",U,B); ("grant",R,A);
   ("granted",U,B); ("greatest",C,B); ("group",R,A); ("grouping",C,B); ("groups",U,B);
   ("handler",U,B); ("having",R,A); ("header",U,B); ("hold",U,B); ("hour",U,A); ("identity",U,B);
   ("if",U,B); ("ilike",T,B); ("immediate",U,B); ("immutable",U,B); ("implicit",U,B);
   ("import",U,B); ("in",R,B); ("include",U,B); ("including",U,B); ("increment",U,B);
   ("indent",U,B); ("index",U,B); ("indexes",U,B); ("inherit",U,B); ("inherits",U,B);
   ("initially",R,B); ("inline",U,B); ("inner",T,B); ("inout",C,B); ("input",U,B);
   ("insensitive",U,B); ("insert",U,B); ("instead",U,B); ("int",C,B); ("integer",C,B);
   ("intersect",R,A); ("interval",C,B); ("into",R,A); ("invoker",U,B); ("is",T,B);
   ("isnull",T,A); ("isolation",U,B); ("join",T,B); ("json",C,B); ("json_array",C,B);
   ("json_arrayagg",C,B); ("json_exists",C,B); ("json_object",C,B); ("json_objectagg",C,B);
   ("json_query",C,B); ("json_scalar",C,B); ("json_serialize",C,B); ("json_table",C,B);
   ("json_value",C,B); ("keep",U,B); ("key",U,B); ("keys",U,B); ("kind",U,B); ("known",U,B);
   ("label",U,B); ("language",U,B); ("large",U,B); ("last",U,B); ("lateral",R,B);
   ("leading",R,B); ("leakproof",U,B); ("least",C,B); ("left",T,B); ("level",U,B); ("like",T,B);
   ("limit",R,A); ("listen",U,B); ("load",U,B); ("local",U,B); ("localtime",R,B);
   ("localtimestamp",R,B); ("location",U,B); ("lock",U,B); ("locked",U,B); ("logged",U,B);
   ("mapping",U,B); ("match",U,B); ("matched",U,B); ("materialized",U,B); ("maxvalue",U,B);
   ("memory",U,B); ("merge",U,B); ("merge_action",C,B); ("method",U,B); ("minute",U,A);
   ("minvalue",U,B); ("mode",U,B); ("model",U,B); ("month",U,A); ("move",U,B); ("name",U,B);
   ("names",U,B); ("namespace",U,B); ("national",C,B); ("natural",T,B); ("nchar",C,B);
   ("nested",U,B); ("new",U,B); ("next",U,B); ("nfc",U,B); ("nfd",U,B); ("nfkc",U,B);
   ("nfkd",U,B); ("no",U,B); ("none",C,B); ("normalize",C,B); ("normalized",U,B); ("not",R,B);
   ("nothing",U,B); ("notify",U,B); ("notnull",T,A); ("nowait",U,B); ("null",R,B);
   ("nullif",C,B); ("nulls",U,B); ("numeric",C,B); ("object",U,B); ("of",U,B); ("off",U,B);
   ("offset",R,A); ("oids",U,B); ("old",U,B); ("omit",U,B); ("on",R,A); ("only",R,B);
   ("operator",U,B); ("option",U,B); ("options",U,B); ("or",R,B); ("order",R,A);
   ("ordinality",U,B); ("others",U,B); ("out",C,B); ("outer",T,B); ("over",U,A);
   ("overlaps",T,A); ("overlay",C,B); ("overriding",U,B); ("owned",U,B); ("owner",U,B);
   ("parallel",U,B); ("parameter",U,B); ("parser",U,B); ("partial",U,B); ("partition",U,B);
   ("passing",U,B); ("password",U,B); ("path",U,B); ("placing",R,B); ("plan",U,B); ("plans",U,B);
   ("policy",U,B); ("position",C,B); ("preceding",U,B); ("precision",C,A); ("prepare",U,B);
   ("prepared",U,B); ("preserve",U,B); ("primary",R,B); ("principal",U,B); ("prior",U,B);
   ("priority",U,B); ("privileges",U,B); ("procedural",U,B); ("procedure",U,B);
   ("procedures",U,B); ("profile",U,B); ("program",U,B); ("provider",U,B); ("publication",U,B);
   ("quote",U,B); ("quotes",U,B); ("range",U,B); ("read",U,B); ("real",C,B); ("reassign",U,B);
   ("receipt",U,B); ("recheck",U,B); ("recursive",U,B); ("ref",U,B); ("references",R,B);
   ("referencing",U,B); ("refresh",U,B); ("reindex",U,B); ("relative",U,B); ("release",U,B);
   ("remember",U,B); ("rename",U,B); ("repeatable",U,B); ("replace",U,B); ("replica",U,B);
   ("reset",U,B); ("restart",U,B); ("restrict",U,B); ("resume",U,B); ("return",U,B);
   ("returning",R,A); ("returns",U,B); ("revoke",U,B); ("right",T,B); ("role",U,B);
   ("rollback",U,B); ("rollup",U,B); ("routine",U,B); ("routines",U,B); ("row",C,B);
   ("rows",U,B); ("rule",U,B); ("run",U,B); ("runtime",U,B); ("sandbox",U,B); ("savepoint",U,B);
   ("scalar",U,B); ("schema",U,B); ("schemas",U,B); ("scope",U,B); ("scroll",U,B);
   ("search",U,B); ("second",U,A); ("security",U,B); ("select",R,B); ("sequence",U,B);
   ("sequences",U,B); ("serializable",U,B); ("server",U,B); ("session",U,B);
   ("session_user",R,B); ("set",U,B); ("setof",C,B); ("sets",U,B); ("share",U,B); ("show",U,B);
   ("signer",U,B); ("similar",T,B); ("simple",U,B); ("skip",U,B); ("smallint",C,B);
   ("snapshot",U,B); ("some",R,B); ("source",U,B); ("sql",U,B); ("stable",U,B);
   ("standalone",U,B); ("start",U,B); ("statement",U,B); ("statistics",U,B); ("stdin",U,B);
   ("stdout",U,B); ("storage",U,B); ("stored",U,B); ("strict",U,B); ("string",U,B);
   ("strip",U,B); ("subscription",U,B); ("substring",C,B); ("support",U,B); ("symmetric",R,B);
   ("sysid",U,B); ("system",U,B); ("system_user",R,B); ("table",R,B); ("tables",U,B);
   ("tablesample",T,B); ("tablespace",U,B); ("tags",U,B); ("target",U,B); ("task",U,B);
   ("temp",U,B); ("template",U,B); ("temporary",U,B); ("text",U,B); ("then",R,B); ("ties",U,B);
   ("time",C,B); ("timestamp",C,B); ("to",R,A); ("token",U,B); ("tool",U,B); ("tools",U,B);
   ("trace",U,B); ("trailing",R,B); ("transaction",U,B); ("transform",U,B); ("treat",C,B);
   ("trigger",U,B); ("trim",C,B); ("true",R,B); ("truncate",U,B); ("trusted",U,B); ("type",U,B);
   ("types",U,B); ("uescape",U,B); ("unbounded",U,B); ("uncommitted",U,B); ("unconditional",U,B);
   ("unencrypted",U,B); ("union",R,A); ("unique",R,B); ("unknown",U,B); ("unlisten",U,B);
   ("unlogged",U,B); ("until",U,B); ("update",U,B); ("user",R,B); ("using",R,B); ("vacuum",U,B);
   ("valid",U,B); ("validate",U,B); ("validator",U,B); ("value",U,B); ("values",C,B);
   ("varchar",C,B); ("variadic",R,B); ("varying",U,A); ("verbose",T,B); ("version",U,B);
   ("view",U,B); ("views",U,B); ("volatile",U,B); ("when",R,B); ("where",R,A);
   ("whitespace",U,B); ("window",R,A); ("with",R,A); ("within",U,A); ("without",U,A);
   ("work",U,B); ("wrapper",U,B); ("write",U,B); ("xml",U,B); ("xmlattributes",C,B);
   ("xmlconcat",C,B); ("xmlelement",C,B); ("xmlexists",C,B); ("xmlforest",C,B);
   ("xmlnamespaces",C,B); ("xmlparse",C,B); ("xmlpi",C,B); ("xmlroot",C,B); ("xmlserialize",C,B);
   ("xmltable",C,B); ("year",U,A); ("yes",U,B); ("zone",U,B)].

End KwTable.

Definition kwlist := KwTable.entries.
Definition kw_name (e : string * KeywordCategory * BareLabel) : string := fst (fst e).
Definition kw_names : list string := kw_name <$> kwlist.
Definition GetScanKeyword (n : Z) : string := default "" (kw_names !! Z.to_nat n).
Definition ScanKeywordCategories (n : Z) : KeywordCategory :=
  default RESERVED_KEYWORD ((fun e => snd (fst e)) <$> kwlist !! Z.to_nat n).
Definition num_keywords : Z := Z.of_nat (List.length kwlist).
Definition max_kw_len : nat := foldr Nat.max 0%nat (String.length <$> kw_names).

(** ** The productions of the grammar that list keywords *)

Definition unreserved_keyword : list string := words
  "abort absent absolute access action add admin after agent aggregate also alter always
   asensitive assertion assignment at attestation atomic attach attribute backward before begin
   breadth by budget cache call called cascade cascaded catalog chain characteristics checkpoint
   class close cluster columns comment comments commit committed compression conditional
   configuration conflict connection constraints content context continue conversion copy cost
   csv cube current cursor cycle data database day deallocate declare defaults deferred definer
   delete delimiter delimiters depends depth detach dictionary disable discard document domain
   double drop each empty enable encoding encrypted endpoint enum error escape event exclude
   excluding exclusive execute explain expression extension external family filter finalize first
   following force format forward function functions generated global goal granted groups handler
   header hold hour identity if immediate immutable implicit import include including increment
   indent index indexes inherit inherits inline input insensitive insert instead invoker
   isolation keep key keys kind known label language large last leakproof level listen load local
   location lock locked logged mapping match matched materialized maxvalue memory merge method
   minute minvalue mode model month move name names namespace nested new next nfc nfd nfkc nfkd
   no normalized nothing notify nowait nulls object of off oids old omit operator option options
   ordinality others over overriding owned owner parallel parameter parser partial partition
   passing password path plan plans policy preceding prepare prepared preserve principal prior
   priority privileges procedural procedure procedures profile program provider publication quote
   quotes range read reassign recheck receipt recursive ref referencing refresh reindex relative
   release remember rename repeatable replace replica reset restart restrict resume return
   returns revoke role rollback rollup routine routines rows rule run sandbox savepoint scalar
   schema schemas scope scroll search second security sequence sequences serializable server
   session set sets share show simple skip snapshot source sql stable standalone start statement
   statistics stdin stdout storage stored strict string strip subscription support sysid system
   tables tablespace tags target task temp template temporary text ties token tool tools trace
   transaction transform trigger truncate trusted type types uescape unbounded uncommitted
   unconditional unencrypted unknown unlisten unlogged until update vacuum valid validate
   validator value varying version view views volatile whitespace within without work wrapper
   write xml year yes zone".

Definition col_name_keyword : list string := words
  "between bigint bit boolean char character coalesce dec decimal exists extract float greatest
   grouping inout int integer interval json json_array json_arrayagg json_exists json_object
   json_objectagg json_query json_scalar json_serialize json_table json_value least merge_action
   national nchar none normalize nullif numeric out overlay position precision real row setof
   smallint substring time timestamp treat trim values varchar xmlattributes xmlconcat xmlelement
   xmlexists xmlforest xmlnamespaces xmlparse xmlpi xmlroot xmlserialize xmltable".

Definition type_func_name_keyword : list string := words
  "authorization binary collation concurrently cross current_schema freeze full ilike inner is
   isnull join left like natural notnull outer overlaps right similar tablesample verbose".

Definition reserved_keyword : list string := words
  "all analyse analyze and any array as asc asymmetric both case cast check collate column
   constraint create current_catalog current_date current_role current_time current_timestamp
   current_user default deferrable desc distinct do else end except false fetch for foreign from
   grant group having in initially intersect into lateral leading limit localtime localtimestamp
   not null offset on only or order placing primary references returning select session_user some
   symmetric system_user table then to trailing true union unique user using variadic when where
   window with".

Definition bare_label_keyword : list string := words
  "abort absent absolute access action add admin after aggregate all also alter always analyse
   analyze and any asc asensitive assertion assignment asymmetric at attestation atomic attach
   attribute authorization backward before begin between bigint binary bit boolean both breadth
   by cache call called cascade cascaded case cast catalog chain characteristics check checkpoint
   class close cluster coalesce collate collation column columns comment comments commit
   committed compression concurrently conditional configuration conflict connection constraint
   constraints content continue conversion copy cost cross csv cube current current_catalog
   current_date current_role current_schema current_time current_timestamp current_user cursor
   cycle data database deallocate dec decimal declare default defaults deferrable deferred
   definer delete delimiter delimiters depends depth desc detach dictionary disable discard
   distinct do document domain double drop each else empty enable encoding encrypted endpoint end
   enum error escape event exclude excluding exclusive execute exists explain expression
   extension external extract false family finalize first float following force foreign format
   forward freeze full function functions generated global granted greatest grouping groups
   handler header hold identity if ilike immediate immutable implicit import in include including
   increment indent index indexes inherit inherits initially inline inner inout input insensitive
   insert instead int integer interval invoker is isolation join json json_array json_arrayagg
   json_exists json_object json_objectagg json_query json_scalar json_serialize json_table
   json_value keep key keys kind known label language large last lateral leading leakproof least
   left level like listen load local localtime localtimestamp location lock locked logged mapping
   match matched materialized maxvalue merge merge_action method minvalue mode move name names
   namespace national natural nchar nested new next nfc nfd nfkc nfkd no none normalize
   normalized not nothing notify nowait null nullif nulls numeric object of off oids old omit
   only operator option options or ordinality others out outer overlay overriding owned owner
   parallel parameter parser partial partition passing password path placing plan plans policy
   position preceding prepare prepared preserve principal primary prior privileges procedural
   procedure procedures program provider publication quote quotes range read real reassign
   recheck receipt recursive ref references referencing refresh reindex relative release remember
   rename repeatable replace replica reset restart restrict resume return returns revoke right
   role rollback rollup routine routines row rows rule run sandbox savepoint scalar schema
   schemas scope scroll search security select sequence sequences serializable server session
   session_user set setof sets share show similar simple skip smallint snapshot some source sql
   stable standalone start statement statistics stdin stdout storage stored strict string strip
   subscription substring support symmetric sysid system system_user table tables tablesample
   tablespace tags target temp template temporary text then ties time timestamp token tool tools
   trace trailing transaction transform treat trigger trim true truncate trusted type types
   uescape unbounded uncommitted unconditional unencrypted unique unknown unlisten unlogged until
   update user using vacuum valid validate validator value values varchar variadic verbose
   version view views volatile when whitespace work wrapper write xml xmlattributes xmlconcat
   xmlelement xmlexists xmlforest xmlnamespaces xmlparse xmlpi xmlroot xmlserialize xmltable yes
   zone".

Definition listed (l : list string) (word : string) : bool := existsb (String.eqb word) l.

#[global] Arguments listed : simpl never.
#[global] Arguments kwlist : simpl never.
#[global] Arguments kw_names : simpl never.

(** ** The scanner *)

Inductive token :=
  | IDENT (s : string)
  | SCONST (s : string)
  | ICONST (z : Z)
  | FCONST (s : string)
  | KEYWORD (word : string)
  | CHAR (c : ascii)
  | FORMAT_LA
  | OTHER (code : Z).            (* any other token *)

(** The generated hash function, the locale and the database encoding. *)
Record ScanEnv := MkScanEnv {
  kw_hash : string -> Z;
  enc_is_single_byte : bool;
  isupper : ascii -> bool;
  tolower : ascii -> ascii;
  pg_mbcliplen : string -> nat -> nat
}.

Fixpoint keyword_matches (str kw : string) : bool :=
  match str, kw with
  | EmptyString, EmptyString => true
  | String ch str', String k kw' => if Ascii.eqb (ascii_lower ch) k then keyword_matches str' kw' else false
  | _, _ => false
  end.

Section Scanner.
Context (S : ScanEnv).

Definition ScanKeywordLookup (str : string) : Z :=
  if Nat.ltb max_kw_len (String.length str) then -1
  else let h := kw_hash S str in
       if (h <? 0) || (num_keywords <=? h) then -1
       else if keyword_matches str (GetScanKeyword h) then h else -1.

Definition IS_HIGHBIT_SET (ch : ascii) : bool := (128 <=? N_of_ascii ch)%N.

Definition downcase_char (ch : ascii) : ascii :=
  let n := N_of_ascii ch in
  if (65 <=? n)%N && (n <=? 90)%N then ascii_of_N (n + 32)
  else if enc_is_single_byte S && IS_HIGHBIT_SET ch && isupper S ch then tolower S ch
  else ch.

Fixpoint downcase (s : string) : string :=
  match s with EmptyString => EmptyString | String ch t => String (downcase_char ch) (downcase t) end.

Definition truncate_identifier (ident : string) : string :=
  if Nat.leb NAMEDATALEN (String.length ident)
  then str_take (pg_mbcliplen S ident (NAMEDATALEN - 1)) ident else ident.

Definition downcase_truncate_identifier (ident : string) : string :=
  truncate_identifier (downcase ident).

(** The action of the rule for identifiers. *)
Definition scan_identifier (yytext : string) : token :=
  let kwnum := ScanKeywordLookup yytext in
  if 0 <=? kwnum then KEYWORD (GetScanKeyword kwnum)
  else IDENT (downcase_truncate_identifier yytext).

Definition dquote : ascii := "034"%char.

Definition ident_start (c : ascii) : bool :=
  let n := N_of_ascii c in
  ((65 <=? n)%N && (n <=? 90)%N) || ((97 <=? n)%N && (n <=? 122)%N) || (128 <=? n)%N || (n =? 95)%N.
Definition ident_cont (c : ascii) : bool :=
  ident_start c || is_digit c || Ascii.eqb c "$".

(** The state [xd], from after the opening quote: a doubled quote is a quote, a
    single one ends the identifier, which is to be the end of the text. *)
Fixpoint scan_xd (s : string) : option string :=
  match s with
  | EmptyString => None                         (* unterminated *)
  | String c rest =>
      if Ascii.eqb c dquote then
        match rest with
        | String d rest' => if Ascii.eqb d dquote then String dquote <$> scan_xd rest' else None
        | EmptyString => Some EmptyString
        end
      else String c <$> scan_xd rest
  end.

(** The token a text is, if it is one name, quoted or not. *)
Definition scan_name (text : string) : option token :=
  match text with
  | EmptyString => None
  | String c rest =>
      if Ascii.eqb c dquote then
        match scan_xd rest with
        | Some EmptyString => None               (* zero-length delimited identifier *)
        | Some ident => Some (IDENT (truncate_identifier ident))
        | None => None
        end
      else if ident_start c && all_chars ident_cont rest then Some (scan_identifier text)
      else None
  end.

(** ** Writing a name *)

Definition lower_letter (c : ascii) : bool :=
  let n := N_of_ascii c in (97 <=? n)%N && (n <=? 122)%N.

Definition plain_char (c : ascii) : bool := lower_letter c || is_digit c || Ascii.eqb c "_".

Fixpoint double_quotes (s : string) : string :=
  match s with
  | EmptyString => EmptyString
  | String c t => if Ascii.eqb c dquote then String dquote (String c (double_quotes t))
                  else String c (double_quotes t)
  end.

Definition safe_identifier (quote_all_identifiers : bool) (ident : string) : bool :=
  let starts := match ident with
                | EmptyString => false
                | String c _ => lower_letter c || Ascii.eqb c "_"
                end in
  if starts && all_chars plain_char ident && negb quote_all_identifiers then
    let kwnum := ScanKeywordLookup ident in
    negb ((0 <=? kwnum) && negb (bool_decide (ScanKeywordCategories kwnum = UNRESERVED_KEYWORD)))
  else false.

Definition quote_identifier (quote_all_identifiers : bool) (ident : string) : string :=
  if safe_identifier quote_all_identifiers ident then ident
  else String dquote (double_quotes ident +:+ String dquote "").

End Scanner.

(** ** Names in the grammar *)

Definition ColId (t : token) : option string :=
  match t with
  | IDENT s => Some s
  | KEYWORD k => if listed unreserved_keyword k || listed col_name_keyword k then Some k else None
  | _ => None
  end.

Definition NonReservedWord (t : token) : option string :=
  match t with
  | IDENT s => Some s
  | KEYWORD k => if listed unreserved_keyword k || listed col_name_keyword k ||
                    listed type_func_name_keyword k then Some k else None
  | _ => None
  end.

Definition ColLabel (t : token) : option string :=
  match t with
  | IDENT s => Some s
  | KEYWORD k => if listed unreserved_keyword k || listed col_name_keyword k ||
                    listed type_func_name_keyword k || listed reserved_keyword k then Some k else None
  | _ => None
  end.

#[global] Arguments ColId : simpl never.
#[global] Arguments NonReservedWord : simpl never.
#[global] Arguments ColLabel : simpl never.

(** ** Finding keywords *)

(** What the generated hash promises: it is perfect and ignores case. *)
Definition perfect_hash (S : ScanEnv) : Prop :=
  forall i s kw, kw_names !! i = Some kw -> keyword_matches s kw = true -> kw_hash S s = Z.of_nat i.

Lemma keyword_matches_length s kw :
  keyword_matches s kw = true -> String.length s = String.length kw.
Proof.
  revert kw. induction s as [|c s IH]; intros [|k kw]; cbn; try done.
  destruct (Ascii.eqb _ _); [|done]. intros H. f_equal. by apply IH.
Qed.

Lemma keyword_lengths : forallb (fun k => Nat.leb (String.length k) max_kw_len) kw_names = true.
Proof. vm_compute. reflexivity. Qed.

Lemma kw_names_length : List.length kw_names = List.length kwlist.
Proof. apply length_fmap. Qed.

Lemma lookup_keyword S s i kw :
  perfect_hash S -> kw_names !! i = Some kw -> keyword_matches s kw = true ->
  ScanKeywordLookup S s = Z.of_nat i.
Proof.
  intros Hp Hi Hm. unfold ScanKeywordLookup.
  assert (String.length s <= max_kw_len)%nat as Hl.
  { rewrite (keyword_matches_length _ _ Hm). apply Nat.leb_le.
    pose proof keyword_lengths as Hk. rewrite forallb_forall in Hk. apply Hk.
    apply list_elem_of_In. by eapply list_elem_of_lookup_2. }
  rewrite (proj2 (Nat.ltb_ge _ _)) by done. rewrite (Hp i s kw Hi Hm).
  pose proof (lookup_lt_Some _ _ _ Hi) as Hlt. rewrite kw_names_length in Hlt.
  rewrite (proj2 (Z.ltb_ge _ _)) by lia. unfold num_keywords.
  rewrite (proj2 (Z.leb_gt _ _)) by lia. unfold GetScanKeyword.
  rewrite Nat2Z.id, Hi. cbn. by rewrite Hm.
Qed.

Lemma lookup_found S s :
  0 <= ScanKeywordLookup S s -> keyword_matches s (GetScanKeyword (ScanKeywordLookup S s)) = true.
Proof.
  unfold ScanKeywordLookup. destruct (Nat.ltb _ _); [lia|].
  destruct (_ || _); [lia|]. destruct (keyword_matches _ _) eqn:E; [done|lia].
Qed.

Lemma lookup_range S s : ScanKeywordLookup S s < num_keywords.
Proof.
  unfold ScanKeywordLookup. destruct (Nat.ltb _ _); [done|].
  destruct ((_ <? _) || _) eqn:E; [done|]. apply orb_false_iff in E as [_ E%Z.leb_gt].
  by destruct (keyword_matches _ _).
Qed.

(** A keyword is found in any mixture of cases, so keywords can be written in
    capitals. *)
Lemma scan_keyword S s i kw :
  perfect_hash S -> kw_names !! i = Some kw -> keyword_matches s kw = true ->
  scan_identifier S s = KEYWORD kw.
Proof.
  intros Hp Hi Hm. unfold scan_identifier. rewrite (lookup_keyword _ _ _ _ Hp Hi Hm).
  rewrite (proj2 (Z.leb_le _ _)) by lia. unfold GetScanKeyword. by rewrite Nat2Z.id, Hi.
Qed.

(** ** Reading a written name *)

Lemma scan_xd_quoted s : scan_xd (double_quotes s +:+ String dquote "") = Some s.
Proof.
  induction s as [|c s IH]; [done|]. cbn [double_quotes]. destruct (Ascii.eqb c dquote) eqn:E.
  - apply Ascii.eqb_eq in E as ->. cbn [String.append scan_xd]. rewrite Ascii.eqb_refl, IH. done.
  - cbn [String.append scan_xd]. by rewrite E, IH.
Qed.

Lemma truncate_short S ident :
  (String.length ident < NAMEDATALEN)%nat -> truncate_identifier S ident = ident.
Proof. intros H. unfold truncate_identifier. by rewrite (proj2 (Nat.leb_gt _ _)). Qed.

Lemma scan_quoted_name S ident :
  ident <> "" -> (String.length ident < NAMEDATALEN)%nat ->
  scan_name S (String dquote (double_quotes ident +:+ String dquote "")) = Some (IDENT ident).
Proof.
  intros Hne Hl. cbn [scan_name]. rewrite Ascii.eqb_refl, scan_xd_quoted.
  destruct ident; [done|]. by rewrite truncate_short.
Qed.

(** The characters of an unquoted name are no capitals and have no high bit. *)
Lemma plain_char_same S c :
  plain_char c = true -> ascii_lower c = c /\ downcase_char S c = c /\ ident_cont c = true.
Proof.
  unfold plain_char, lower_letter, is_digit, ascii_lower, downcase_char, ident_cont, ident_start,
    IS_HIGHBIT_SET, is_digit.
  intros [[[H1 H2]%andb_true_iff|[H1 H2]%andb_true_iff]%orb_true_iff|H]%orb_true_iff;
    [apply N.leb_le in H1, H2..|apply Ascii.eqb_eq in H as ->; by destruct (enc_is_single_byte S)].
  all: rewrite (proj2 (N.leb_gt 128 _)), andb_false_r by lia; cbn [andb].
  - rewrite (proj2 (N.leb_gt _ 90)), andb_false_r by lia.
    rewrite (proj2 (N.leb_le 97 _)), (proj2 (N.leb_le _ 122)) by lia. done.
  - rewrite (proj2 (N.leb_gt 65 _)) by lia. cbn [andb].
    rewrite (proj2 (N.leb_le 48 _)), (proj2 (N.leb_le _ 57)) by lia.
    split; [done|]. split; [done|]. apply orb_true_iff. left. apply orb_true_r.
Qed.

Lemma plain_same S s :
  all_chars plain_char s = true ->
  downcase S s = s /\ all_chars ident_cont s = true /\
  (forall kw, keyword_matches s kw = true -> kw = s) /\ keyword_matches s s = true.
Proof.
  induction s as [|c s IH]; cbn [all_chars downcase].
  - intros _. split; [done|]. split; [done|]. split; [|done]. by intros [|].
  - intros [Hc Hs]%andb_true_iff. destruct (plain_char_same S c Hc) as (E1 & E2 & E3).
    destruct (IH Hs) as (F1 & F2 & F3 & F4). rewrite E2, F1, E3, F2. split; [done|].
    split; [done|]. cbn [keyword_matches]. rewrite E1, Ascii.eqb_refl. split; [|done].
    intros [|k kw]; [done|]. destruct (Ascii.eqb c k) eqn:E; [|done].
    apply Ascii.eqb_eq in E as ->. intros H. by rewrite (F3 _ H).
Qed.

(** The keywords the table calls unreserved and the grammar does not list. *)
Definition misfiled (e : string * KeywordCategory * BareLabel) : bool :=
  bool_decide (snd (fst e) = UNRESERVED_KEYWORD) &&
  negb (listed unreserved_keyword (kw_name e) || listed col_name_keyword (kw_name e)).

Lemma misfiled_keywords : kw_name <$> List.filter misfiled kwlist = ["runtime"; "signer"].
Proof. vm_compute. reflexivity. Qed.

(** The keywords the table calls bare labels and the grammar does not list. *)
Lemma missing_bare_labels :
  kw_name <$> List.filter (fun e => match snd e with
                                    | BARE_LABEL => negb (listed bare_label_keyword (kw_name e))
                                    | AS_LABEL => false
                                    end) kwlist =
  ["agent"; "budget"; "context"; "goal"; "memory"; "model"; "priority"; "profile"; "runtime"; "signer"; "task"].
Proof. vm_compute. reflexivity. Qed.

Lemma filtered_names (f : string * KeywordCategory * BareLabel -> bool) l k :
  k ∈ kw_name <$> List.filter f l <-> exists i e, l !! i = Some e /\ kw_name e = k /\ f e = true.
Proof.
  rewrite list_elem_of_fmap. split.
  - intros (e & -> & [He%list_elem_of_In Hf]%list_elem_of_In%filter_In).
    apply list_elem_of_lookup_1 in He as [i Hi]. by exists i, e.
  - intros (i & e & Hi & <- & Hf). exists e. split; [done|].
    apply list_elem_of_In, filter_In. split; [|done]. apply list_elem_of_In. by eapply list_elem_of_lookup_2.
Qed.

Lemma misfiled_iff k :
  k = "runtime" \/ k = "signer" <->
  exists i e, kwlist !! i = Some e /\ kw_name e = k /\ misfiled e = true.
Proof.
  rewrite <- filtered_names, misfiled_keywords, list_elem_of_In. cbn. intuition congruence.
Qed.

Lemma misfiled_categories k :
  k = "runtime" \/ k = "signer" ->
  exists i e, kwlist !! i = Some e /\ kw_name e = k /\ snd (fst e) = UNRESERVED_KEYWORD /\
    listed unreserved_keyword k || listed col_name_keyword k = false.
Proof.
  intros (i & e & Hi & <- & [H1 H2]%andb_true_iff)%misfiled_iff. exists i, e.
  split; [done|]. split; [done|]. split; [by apply bool_decide_eq_true in H1|by apply negb_true_iff].
Qed.

Lemma unreserved_listed i e :
  kwlist !! i = Some e -> snd (fst e) = UNRESERVED_KEYWORD ->
  kw_name e <> "runtime" -> kw_name e <> "signer" ->
  listed unreserved_keyword (kw_name e) || listed col_name_keyword (kw_name e) = true.
Proof.
  intros Hi Hu H1 H2. destruct (_ || _) eqn:E; [done|]. exfalso.
  assert (kw_name e = "runtime" \/ kw_name e = "signer") as [?|?]; [|done..].
  apply misfiled_iff. exists i, e. split; [done|]. split; [done|].
  unfold misfiled. by rewrite bool_decide_true, E.
Qed.

Definition read_name (S : ScanEnv) (text : string) : option string :=
  t ← scan_name S text; ColId t.

Lemma scan_plain_name S c s :
  lower_letter c || Ascii.eqb c "_" = true -> all_chars plain_char (String c s) = true ->
  scan_name S (String c s) = Some (scan_identifier S (String c s)).
Proof.
  intros Hc Hs. destruct (plain_same S _ Hs) as (_ & Hi & _). cbn [scan_name].
  assert (Ascii.eqb c dquote = false) as ->.
  { destruct (Ascii.eqb c dquote) eqn:E; [|done]. apply Ascii.eqb_eq in E as ->. done. }
  cbn [all_chars] in Hi. apply andb_true_iff in Hi as [_ ->].
  assert (ident_start c = true) as ->; [|done].
  unfold ident_start, lower_letter in *. apply orb_true_iff in Hc as [Hc|Hc].
  - rewrite Hc, orb_true_r. done.
  - apply Ascii.eqb_eq in Hc as ->. done.
Qed.

Section ReadBack.
Context (S : ScanEnv) (Hhash : perfect_hash S).

(** A plain name that is a keyword is found as itself. *)
Lemma plain_keyword ident :
  all_chars plain_char ident = true -> 0 <= ScanKeywordLookup S ident ->
  exists i e, kwlist !! i = Some e /\ kw_name e = ident /\ ScanKeywordLookup S ident = Z.of_nat i.
Proof.
  intros Hp Hk. pose proof (lookup_found S ident Hk) as Hm. pose proof (lookup_range S ident) as Hr.
  destruct (plain_same S _ Hp) as (_ & _ & Hs & _). apply Hs in Hm.
  unfold GetScanKeyword, kw_names in Hm. unfold num_keywords in Hr.
  destruct (lookup_lt_is_Some_2 kwlist (Z.to_nat (ScanKeywordLookup S ident))) as [e He]; [lia|].
  rewrite list_lookup_fmap, He in Hm. cbn in Hm.
  exists (Z.to_nat (ScanKeywordLookup S ident)), e. rewrite Z2Nat.id by done. done.
Qed.

Lemma safe_reads_back ident :
  (String.length ident < NAMEDATALEN)%nat -> safe_identifier S false ident = true ->
  ident <> "runtime" -> ident <> "signer" -> read_name S ident = Some ident.
Proof.
  intros Hl Hsafe H1 H2. unfold safe_identifier in Hsafe. destruct ident as [|c s]; [done|].
  destruct (_ && _ && _) eqn:E in Hsafe; [|done].
  apply andb_true_iff in E as [[Hc Hp]%andb_true_iff _].
  unfold read_name. rewrite (scan_plain_name S c s Hc Hp). cbn [mbind option_bind].
  unfold scan_identifier. destruct (0 <=? ScanKeywordLookup S (String c s)) eqn:Hk.
  - apply Z.leb_le in Hk. destruct (plain_keyword _ Hp Hk) as (i & e & Hi & He & Hn).
    rewrite Hn in *. cbn [andb negb] in Hsafe. apply negb_true_iff, negb_false_iff in Hsafe.
    apply bool_decide_eq_true in Hsafe. unfold ScanKeywordCategories in Hsafe.
    rewrite Nat2Z.id, Hi in Hsafe. cbn in Hsafe. unfold GetScanKeyword, kw_names.
    rewrite Nat2Z.id, list_lookup_fmap, Hi. cbn [fmap option_fmap option_map default from_option id]. unfold ColId.
    rewrite <- He in H1, H2. rewrite (unreserved_listed i e Hi Hsafe H1 H2). by rewrite He.
  - unfold ColId. f_equal. unfold downcase_truncate_identifier.
    rewrite (proj1 (plain_same S _ Hp)). by apply truncate_short.
Qed.

Lemma misfiled_unreadable ident :
  ident = "runtime" \/ ident = "signer" ->
  safe_identifier S false ident = true /\ read_name S ident = None.
Proof.
  intros Hid. destruct (misfiled_categories ident Hid) as (i & e & Hi & He & Hu & Hn).
  assert (kw_names !! i = Some ident) as Hw by (unfold kw_names; rewrite list_lookup_fmap, Hi; cbn; by rewrite He).
  assert (keyword_matches ident ident = true) as Hm by (destruct Hid as [->| ->]; reflexivity).
  pose proof (lookup_keyword S ident i ident Hhash Hw Hm) as Hk.
  assert (scan_name S ident = Some (scan_identifier S ident)) as Hs
    by (destruct Hid as [->| ->]; reflexivity).
  split.
  - unfold safe_identifier. rewrite Hk, (proj2 (Z.leb_le _ _)) by lia.
    unfold ScanKeywordCategories. rewrite Nat2Z.id, Hi. cbn [fmap option_fmap option_map default from_option id].
    rewrite Hu, bool_decide_true by done. by destruct Hid as [->| ->].
  - unfold read_name. rewrite Hs, (scan_keyword S ident i ident Hhash Hw Hm).
    cbn [mbind option_bind]. unfold ColId. by rewrite Hn.
Qed.

End ReadBack.

(** C19. A name written with [quote_identifier] is read back by the scanner and
    the grammar as the same name, quoted or not, with two exceptions: "runtime"
    and "signer" are filed as unreserved in the table of keywords, so they are
    written without quotes, but the grammar does not list them among the
    keywords that can be names, so what was written is not a name at all. *)
Theorem written_name_read_back_iff S quote_all ident :
  perfect_hash S -> ident <> "" -> (String.length ident < NAMEDATALEN)%nat ->
  read_name S (quote_identifier S quote_all ident) = Some ident <->
  quote_all = true \/ (ident <> "runtime" /\ ident <> "signer").
Proof.
  intros Hh Hne Hl. unfold quote_identifier.
  assert (read_name S (String dquote (double_quotes ident +:+ String dquote "")) = Some ident) as Hq
    by (unfold read_name; by rewrite scan_quoted_name).
  destruct quote_all.
  - assert (safe_identifier S true ident = false) as ->
      by (unfold safe_identifier; by rewrite andb_false_r). split; [by left|done].
  - destruct (decide (ident = "runtime" \/ ident = "signer")) as [Hid|Hid].
    + destruct (misfiled_unreadable S Hh ident Hid) as [-> ->]. split; naive_solver.
    + split; [intros _; right; tauto|]. intros _. destruct (safe_identifier S false ident) eqn:Hs; [|done].
      apply safe_reads_back; tauto.
Qed.

(** The hash as a search of the table, in a multi-byte encoding. *)
Definition table_hash (s : string) : Z :=
  match list_find (fun kw => keyword_matches s kw = true) kw_names with
  | Some (i, _) => Z.of_nat i
  | None => -1
  end.

Definition utf8_scan : ScanEnv :=
  MkScanEnv table_hash false (fun _ => false) (fun c => c) (fun _ n => n).

Lemma keyword_matches_inj s a b :
  keyword_matches s a = true -> keyword_matches s b = true -> a = b.
Proof.
  revert a b. induction s as [|c s IH]; intros [|x a] [|y b]; cbn; try done.
  destruct (Ascii.eqb _ x) eqn:E1; [|done]. destruct (Ascii.eqb _ y) eqn:E2; [|done].
  apply Ascii.eqb_eq in E1 as <-, E2 as <-. intros Ha Hb. by rewrite (IH a b).
Qed.

Fixpoint distinct (l : list string) : bool :=
  match l with [] => true | x :: t => negb (listed t x) && distinct t end.

Lemma distinct_NoDup l : distinct l = true -> NoDup l.
Proof.
  induction l as [|x l IH]; cbn; [constructor|]. intros [Hx Hl]%andb_true_iff.
  constructor; [|by apply IH]. intros H%list_elem_of_In. apply negb_true_iff in Hx.
  unfold listed in Hx. rewrite (proj2 (existsb_exists _ l)) in Hx; [done|].
  exists x. split; [done|apply String.eqb_refl].
Qed.

Lemma kw_names_NoDup : NoDup kw_names.
Proof. apply distinct_NoDup. vm_compute. reflexivity. Qed.

Lemma utf8_scan_perfect : perfect_hash utf8_scan.
Proof.
  intros i s kw Hi Hm. cbn [kw_hash utf8_scan]. unfold table_hash.
  destruct (list_find _ kw_names) as [[j k]|] eqn:F.
  - apply list_find_Some in F as (Hj & Hk & _).
    assert (k = kw) as -> by by eapply keyword_matches_inj.
    f_equal. eapply NoDup_lookup; [apply kw_names_NoDup|done|done].
  - eapply list_find_None in F. rewrite Forall_forall in F. exfalso. eapply F; [|exact Hm].
    by eapply list_elem_of_lookup_2.
Qed.

Lemma written_name_read_back_iff_witness :
  read_name utf8_scan (quote_identifier utf8_scan false "Daily report") = Some "Daily report" /\
  read_name utf8_scan (quote_identifier utf8_scan false "runtime") = None.
Proof.
  split; [|vm_compute; reflexivity].
  apply (written_name_read_back_iff utf8_scan false "Daily report" utf8_scan_perfect);
    [discriminate|vm_compute; lia|right; split; discriminate].
Defined.
