(* ===== verification/Grammar.v ===== *)
(** * Grammars with one token of look-ahead

    The rules of [src/src/backend/parser/gram.y] as data ([gram]): tokens,
    sequences, alternatives, optional clauses, lists and semantic actions.  A
    rule has two meanings: the token sequences it derives, with their values
    ([derives]), and the run of the generated parser over it ([parse]), which
    decides by the next token alone and, where the grammar leaves a choice
    between reading on and taking a clause as empty, reads on, as Bison does
    for a conflict between shift and reduce.

    The parser accepts only what the rule derives.  The converse holds for a
    rule without such conflicts, which [safe] tests: it computes the tokens that
    can follow each clause and compares them with those the clause starts with.

    Expressions are PostgreSQL's own; the class [ExprGrammar] says what the
    rules rely on. *)

From Stdlib Require Import Ascii String.
From S2P Require Import Prelude Text Types World Keywords.
Open Scope string_scope.
Open Scope Z_scope.
Open Scope bool_scope.
Open Scope list_scope.

(** ** Symbols *)

(** What a rule asks of one token. *)
Inductive symbol :=
  | S_SCONST | S_ICONST | S_FCONST
  | S_KW (word : string)
  | S_CHAR (c : ascii)
  | S_FORMAT_LA
  | S_NAME                       (* ColId *)
  | S_WORD                       (* NonReservedWord *)
  | S_LABEL                      (* ColLabel *)
  | S_ANY.

Definition given_by (f : token -> option string) (t : token) : bool :=
  match f t with Some _ => true | None => false end.

Definition symbol_matches (s : symbol) (t : token) : bool :=
  match s, t with
  | S_SCONST, SCONST _ => true
  | S_ICONST, ICONST _ => true
  | S_FCONST, FCONST _ => true
  | S_KW a, KEYWORD b => String.eqb a b
  | S_CHAR c, CHAR d => Ascii.eqb c d
  | S_FORMAT_LA, FORMAT_LA => true
  | S_NAME, _ => given_by ColId t
  | S_WORD, _ => given_by NonReservedWord t
  | S_LABEL, _ => given_by ColLabel t
  | S_ANY, _ => true
  | _, _ => false
  end.

Definition starts_in (F : list symbol) (t : token) : bool := existsb (fun s => symbol_matches s t) F.

Definition follows (F : list symbol) (rest : list token) : Prop :=
  match rest with [] => True | t :: _ => starts_in F t = true end.

Definition named (s : symbol) : option (token -> option string) :=
  match s with
  | S_NAME => Some ColId | S_WORD => Some NonReservedWord | S_LABEL => Some ColLabel
  | _ => None
  end.

(** Whether some token can be both. *)
Definition overlap (s s' : symbol) : bool :=
  match s, s' with
  | S_ANY, _ | _, S_ANY => true
  | S_KW a, S_KW b => String.eqb a b
  | S_CHAR c, S_CHAR d => Ascii.eqb c d
  | S_SCONST, S_SCONST | S_ICONST, S_ICONST | S_FCONST, S_FCONST | S_FORMAT_LA, S_FORMAT_LA => true
  | S_KW a, _ => match named s' with Some f => given_by f (KEYWORD a) | None => false end
  | _, S_KW b => match named s with Some f => given_by f (KEYWORD b) | None => false end
  | _, _ => match named s, named s' with Some _, Some _ => true | _, _ => false end
  end.

Definition disjoint_from (F G : list symbol) : bool :=
  forallb (fun s => forallb (fun s' => negb (overlap s s')) G) F.

Lemma overlap_complete s s' t :
  symbol_matches s t = true -> symbol_matches s' t = true -> overlap s s' = true.
Proof.
  destruct s, s', t; cbn; try done; intros H1 H2;
    repeat match goal with
    | H : String.eqb _ _ = true |- _ => apply String.eqb_eq in H as ->
    | H : Ascii.eqb _ _ = true |- _ => apply Ascii.eqb_eq in H as ->
    end; auto using String.eqb_refl, Ascii.eqb_refl.
Qed.

Lemma disjoint_starts F G t :
  disjoint_from F G = true -> starts_in G t = true -> starts_in F t = false.
Proof.
  unfold disjoint_from, starts_in. intros Hd (s' & Hs' & Ht')%existsb_exists.
  destruct (existsb _ F) eqn:E; [|done]. apply existsb_exists in E as (s & Hs & Ht).
  rewrite forallb_forall in Hd. specialize (Hd s Hs). rewrite forallb_forall in Hd.
  specialize (Hd s' Hs'). by rewrite (overlap_complete s s' t) in Hd.
Qed.

Lemma starts_app F G t : starts_in (F ++ G) t = starts_in F t || starts_in G t.
Proof. apply existsb_app. Qed.

(** ** Rules *)

Inductive parse_error :=
  | SyntaxError (rest : list token)             (* where it was noticed *)
  | Reported (e : pg_error).                    (* by a semantic action *)

Definition parser (A : Type) : Type := list token -> parse_error + A * list token.

(** The keywords and characters that end an expression in the agent
    statements. *)
Definition expr_follow : list symbol :=
  [S_KW "goal"; S_KW "priority"; S_KW "returning"; S_KW "from"; S_KW "scope"; S_KW "tags"; S_KW "limit";
   S_CHAR ";"].

(** PostgreSQL's rule [a_expr]: it reads a prefix of the tokens that is an
    expression, and all of it when what follows cannot go on with it. *)
Class ExprGrammar := {
  expr_derives : list token -> pg_node -> Prop;
  a_expr : parser pg_node;
  a_expr_sound : forall ts n rest, a_expr ts = inr (n, rest) ->
    exists w, ts = w ++ rest /\ expr_derives w n;
  a_expr_complete : forall w n rest, expr_derives w n -> follows expr_follow rest ->
    a_expr (w ++ rest) = inr (n, rest);
  expr_nonempty : forall n, ~ expr_derives [] n
}.

Inductive gram : Type -> Type :=
  | Tok (s : symbol) : gram token
  | Expr : gram pg_node
  | Empty {A} (a : A) : gram A
  | Seq {A B} (g : gram A) (h : gram B) : gram (A * B)
  | Opt {A} (g : gram A) (a : A) : gram A                (* g | EMPTY *)
  | Alt {A} (g h : gram A) : gram A
  | Act {A B} (f : A -> pg_error + B) (g : gram A) : gram B
  | Sep {A} (g : gram A) : gram (list A)                 (* g, g, ... *)
  | Many {A} (g : gram A) : gram (list A).               (* g g ..., or nothing *)

(** *** What a rule derives *)

Inductive sep_derives {A} (P : list token -> A -> Prop) : list token -> list A -> Prop :=
  | sep_one w a : P w a -> sep_derives P w [a]
  | sep_more w a w' l : P w a -> sep_derives P w' l ->
      sep_derives P (w ++ CHAR "," :: w') (a :: l).

Inductive many_derives {A} (P : list token -> A -> Prop) : list token -> list A -> Prop :=
  | many_none : many_derives P [] []
  | many_more w a w' l : P w a -> many_derives P w' l -> many_derives P (w ++ w') (a :: l).

Section Meaning.
Context `{ExprGrammar}.

Fixpoint derives {A} (g : gram A) : list token -> A -> Prop :=
  match g in gram A return list token -> A -> Prop with
  | Tok s => fun w t => w = [t] /\ symbol_matches s t = true
  | Expr => expr_derives
  | Empty a => fun w v => w = [] /\ v = a
  | Seq g h => fun w v => exists w1 w2, w = w1 ++ w2 /\ derives g w1 (fst v) /\ derives h w2 (snd v)
  | Opt g a => fun w v => (w = [] /\ v = a) \/ derives g w v
  | Alt g h => fun w v => derives g w v \/ derives h w v
  | Act f g => fun w v => exists a, derives g w a /\ f a = inr v
  | Sep g => sep_derives (derives g)
  | Many g => many_derives (derives g)
  end.

(** *** How a rule is parsed *)

Fixpoint nullable {A} (g : gram A) : bool :=
  match g with
  | Tok _ => false
  | Expr => false
  | Empty _ => true
  | Seq g h => nullable g && nullable h
  | Opt _ _ => true
  | Alt g h => nullable g || nullable h
  | Act _ g => nullable g
  | Sep g => nullable g
  | Many _ => true
  end.

Fixpoint first {A} (g : gram A) : list symbol :=
  match g with
  | Tok s => [s]
  | Expr => [S_ANY]
  | Empty _ => []
  | Seq g h => first g ++ (if nullable g then first h else [])
  | Opt g _ => first g
  | Alt g h => first g ++ first h
  | Act _ g => first g
  | Sep g => first g ++ (if nullable g then [S_CHAR ","] else [])
  | Many g => first g
  end.

Definition starts {A} (g : gram A) (ts : list token) : bool :=
  match ts with [] => false | t :: _ => starts_in (first g) t end.

Fixpoint sep_loop {A} (p : parser A) (fuel : nat) (ts : list token) :
    parse_error + list A * list token :=
  match fuel with
  | O => inl (SyntaxError ts)
  | S fuel' =>
      match p ts with
      | inl e => inl e
      | inr (a, rest) =>
          match rest with
          | CHAR c :: rest' =>
              if Ascii.eqb c "," then
                match sep_loop p fuel' rest' with
                | inl e => inl e
                | inr (l, rest'') => inr (a :: l, rest'')
                end
              else inr ([a], rest)
          | _ => inr ([a], rest)
          end
      end
  end.

Fixpoint many_loop {A} (starting : list token -> bool) (p : parser A) (fuel : nat) (ts : list token) :
    parse_error + list A * list token :=
  match fuel with
  | O => inl (SyntaxError ts)
  | S fuel' =>
      if starting ts then
        match p ts with
        | inl e => inl e
        | inr (a, rest) =>
            match many_loop starting p fuel' rest with
            | inl e => inl e
            | inr (l, rest') => inr (a :: l, rest')
            end
        end
      else inr ([], ts)
  end.

Fixpoint parse {A} (g : gram A) : parser A :=
  match g in gram A return parser A with
  | Tok s => fun ts =>
      match ts with
      | t :: rest => if symbol_matches s t then inr (t, rest) else inl (SyntaxError ts)
      | [] => inl (SyntaxError [])
      end
  | Expr => a_expr
  | Empty a => fun ts => inr (a, ts)
  | Seq g h => fun ts =>
      match parse g ts with
      | inl e => inl e
      | inr (a, rest) =>
          match parse h rest with
          | inl e => inl e
          | inr (b, rest') => inr ((a, b), rest')
          end
      end
  | Opt g a => fun ts => if starts g ts then parse g ts else inr (a, ts)
  | Alt g h => fun ts => if starts g ts then parse g ts else parse h ts
  | Act f g => fun ts =>
      match parse g ts with
      | inl e => inl e
      | inr (a, rest) => match f a with inl e => inl (Reported e) | inr b => inr (b, rest) end
      end
  | Sep g => fun ts => sep_loop (parse g) (S (List.length ts)) ts
  | Many g => fun ts => many_loop (starts g) (parse g) (S (List.length ts)) ts
  end.

(** *** Rules without conflicts *)

Definition symbol_in (F : list symbol) (s : symbol) : bool :=
  existsb (fun s' => match s, s' with
                     | S_KW a, S_KW b => String.eqb a b
                     | S_CHAR c, S_CHAR d => Ascii.eqb c d
                     | _, _ => false
                     end) F.

(** [F] are the tokens that can come after. *)
Fixpoint safe {A} (g : gram A) (F : list symbol) : bool :=
  match g with
  | Tok _ => true
  | Expr => forallb (symbol_in expr_follow) F
  | Empty _ => true
  | Seq g h => safe g (first h ++ if nullable h then F else []) && safe h F
  | Opt g _ => negb (nullable g) && disjoint_from (first g) F && safe g F
  | Alt g h => negb (nullable g) && negb (nullable h) && disjoint_from (first g) (first h) &&
               safe g F && safe h F
  | Act _ g => safe g F
  | Sep g => disjoint_from [S_CHAR ","] F && safe g (S_CHAR "," :: F)
  | Many g => negb (nullable g) && disjoint_from (first g) F && safe g (first g ++ F)
  end.

End Meaning.

(** ** The parser reads what the rule derives *)

Section Correct.
Context `{EG : ExprGrammar}.

Lemma sep_loop_sound {A} (P : list token -> A -> Prop) (p : parser A) fuel ts l rest :
  (forall ts a rest, p ts = inr (a, rest) -> exists w, ts = w ++ rest /\ P w a) ->
  sep_loop p fuel ts = inr (l, rest) -> exists w, ts = w ++ rest /\ sep_derives P w l.
Proof.
  intros Hp. revert ts l rest. induction fuel as [|fuel IH]; intros ts l rest; cbn; [done|].
  destruct (p ts) as [e|[a r]] eqn:E; [done|]. apply Hp in E as (w & -> & Hw).
  assert (inr ([a], r) = (inr (l, rest) : parse_error + _) ->
          exists w0, w ++ r = w0 ++ rest /\ sep_derives P w0 l) as Hone
    by (intros [= <- <-]; exists w; split; [done|by constructor]).
  destruct r as [|t r']; [done|]. destruct t as [| | | | |c| |]; try done.
  destruct (Ascii.eqb c ",") eqn:Ec; [|done]. apply Ascii.eqb_eq in Ec as ->.
  destruct (sep_loop p fuel r') as [e|[l' r'']] eqn:E; [done|]. intros [= <- <-].
  apply IH in E as (w' & -> & Hw'). exists (w ++ CHAR "," :: w').
  split; [by rewrite <- app_assoc|by constructor].
Qed.

Lemma many_loop_sound {A} (P : list token -> A -> Prop) starting (p : parser A) fuel ts l rest :
  (forall ts a rest, p ts = inr (a, rest) -> exists w, ts = w ++ rest /\ P w a) ->
  many_loop starting p fuel ts = inr (l, rest) -> exists w, ts = w ++ rest /\ many_derives P w l.
Proof.
  intros Hp. revert ts l rest. induction fuel as [|fuel IH]; intros ts l rest; cbn; [done|].
  destruct (starting ts); [|intros [= <- <-]; exists []; split; [done|constructor]].
  destruct (p ts) as [e|[a r]] eqn:E; [done|]. apply Hp in E as (w & -> & Hw).
  destruct (many_loop _ p fuel r) as [e|[l' r']] eqn:E; [done|]. intros [= <- <-].
  apply IH in E as (w' & -> & Hw'). exists (w ++ w').
  split; [by rewrite app_assoc|by constructor].
Qed.

Lemma parse_sound {A} (g : gram A) ts v rest :
  parse g ts = inr (v, rest) -> exists w, ts = w ++ rest /\ derives g w v.
Proof.
  revert ts v rest. induction g as [s| |A a|A B g IHg h IHh|A g IHg a|A g IHg h IHh|A B f g IHg|A g IHg|A g IHg];
    intros ts v rest; cbn [parse derives].
  - destruct ts as [|t ts]; [done|]. destruct (symbol_matches s t) eqn:E; [|done].
    intros [= <- <-]. by exists [t].
  - apply a_expr_sound.
  - intros [= <- <-]. by exists [].
  - destruct (parse g ts) as [e|[x r]] eqn:E1; [done|].
    destruct (parse h r) as [e|[y r']] eqn:E2; [done|]. intros [= <- <-].
    apply IHg in E1 as (w1 & -> & H1). apply IHh in E2 as (w2 & -> & H2).
    exists (w1 ++ w2). split; [by rewrite app_assoc|]. by exists w1, w2.
  - destruct (starts g ts); [|intros [= <- <-]; exists []; auto].
    intros (w & -> & Hw)%IHg. exists w. auto.
  - destruct (starts g ts); [intros (w & -> & Hw)%IHg|intros (w & -> & Hw)%IHh]; exists w; auto.
  - destruct (parse g ts) as [e|[x r]] eqn:E1; [done|]. destruct (f x) as [e|y] eqn:E2; [done|].
    intros [= <- <-]. apply IHg in E1 as (w & -> & Hw). exists w. split; [done|]. by exists x.
  - by apply sep_loop_sound.
  - by apply many_loop_sound.
Qed.

(** ** A rule without conflicts is parsed whenever it derives *)

(** The first token of what is derived. *)
Definition head_ok (empty : bool) (F : list symbol) (w : list token) : Prop :=
  match w with [] => empty = true | t :: _ => starts_in F t = true end.

Lemma head_ok_app n F w n' F' w' :
  head_ok n F w -> head_ok n' F' w' ->
  head_ok (n && n') (F ++ if n then F' else []) (w ++ w').
Proof.
  destruct w as [|t w]; cbn.
  - intros ->. destruct w' as [|t' w']; cbn; [done|]. rewrite starts_app. intros ->. apply orb_true_r.
  - intros Ht _. by rewrite starts_app, Ht.
Qed.

Lemma head_ok_weaken n n' F F' w :
  head_ok n F w -> (n = true -> n' = true) -> (forall t, starts_in F t = true -> starts_in F' t = true) ->
  head_ok n' F' w.
Proof. destruct w; cbn; auto. Qed.

Lemma many_head {A} (P : list token -> A -> Prop) n F w l :
  (forall w a, P w a -> head_ok n F w) -> many_derives P w l -> head_ok true F w.
Proof.
  intros HP. induction 1 as [|w a w' l Hw _ IH]; [done|].
  destruct w as [|t w]; [exact IH|]. exact (HP _ _ Hw).
Qed.

Lemma first_derives {A} (g : gram A) w v : derives g w v -> head_ok (nullable g) (first g) w.
Proof.
  revert w v. induction g as [s| |A a|A B g IHg h IHh|A g IHg a|A g IHg h IHh|A B f g IHg|A g IHg|A g IHg];
    intros w v; cbn [derives nullable first].
  - intros [-> Ht]. cbn. by rewrite Ht.
  - destruct w as [|t w]; cbn; [|done]. by intros ?%expr_nonempty.
  - by intros [-> _].
  - intros (w1 & w2 & -> & H1 & H2). eapply head_ok_app; eauto.
  - intros [[-> _]|H]; [done|]. eapply head_ok_weaken; eauto.
  - intros [H|H]; (eapply head_ok_weaken; [eauto|..]).
    2,4: intros t; rewrite starts_app; intros ->; auto using orb_true_r.
    all: intros ->; auto using orb_true_r.
  - intros (a & H & _). eauto.
  - destruct 1 as [w a Hw|w a w' l Hw _].
    + eapply head_ok_weaken; [eauto|done|]. intros t. rewrite starts_app. by intros ->.
    + pose proof (head_ok_app (nullable g) (first g) w false [S_CHAR ","] (CHAR "," :: w')) as Hh.
      eapply head_ok_weaken; [by apply Hh; [eapply IHg|]|by rewrite andb_false_r|done].
  - intros Hm. eapply many_head; eauto.
Qed.

Lemma follow_head n F G w rest :
  head_ok n F w -> follows G rest -> follows (F ++ if n then G else []) (w ++ rest).
Proof.
  destruct w as [|t w]; cbn.
  - intros ->. destruct rest as [|t rest]; cbn; [done|]. rewrite starts_app. intros ->. apply orb_true_r.
  - intros Ht _. by rewrite starts_app, Ht.
Qed.

Lemma starts_derived {A} (g : gram A) w v rest :
  nullable g = false -> derives g w v -> starts g (w ++ rest) = true.
Proof.
  intros Hn Hd%first_derives. rewrite Hn in Hd. destruct w as [|t w]; [done|]. exact Hd.
Qed.

Lemma starts_not {A} (g : gram A) F rest :
  disjoint_from (first g) F = true -> follows F rest -> starts g rest = false.
Proof. destruct rest as [|t rest]; cbn; [done|]. apply disjoint_starts. Qed.

Lemma follows_weaken F F' rest :
  follows F rest -> (forall t, starts_in F t = true -> starts_in F' t = true) -> follows F' rest.
Proof. destruct rest; cbn; auto. Qed.

Lemma symbol_in_starts F G t :
  forallb (symbol_in G) F = true -> starts_in F t = true -> starts_in G t = true.
Proof.
  intros HF (s & Hs & Ht)%existsb_exists. rewrite forallb_forall in HF. specialize (HF s Hs).
  unfold symbol_in in HF. apply existsb_exists in HF as (s' & Hs' & E).
  apply existsb_exists. exists s'. split; [done|].
  destruct s, s'; try discriminate E.
  - apply String.eqb_eq in E as ->. done.
  - apply Ascii.eqb_eq in E as ->. done.
Qed.

Section Loops.
Context {A : Type} (P : list token -> A -> Prop) (p : parser A) (F : list symbol).

Lemma sep_loop_complete fuel w l rest :
  (forall w a rest, P w a -> follows (S_CHAR "," :: F) rest -> p (w ++ rest) = inr (a, rest)) ->
  disjoint_from [S_CHAR ","] F = true -> follows F rest ->
  sep_derives P w l -> (List.length w < fuel)%nat ->
  sep_loop p fuel (w ++ rest) = inr (l, rest).
Proof.
  intros Hp Hd Hf Hw. revert fuel. induction Hw as [w a Hw|w a w' l Hw _ IH]; intros fuel Hl;
    (destruct fuel as [|fuel]; [lia|]); cbn [sep_loop].
  - rewrite (Hp w a rest Hw).
    + destruct rest as [|[] rest']; try done. cbn in Hf. apply (disjoint_starts _ _ _ Hd) in Hf.
      cbn [starts_in existsb symbol_matches] in Hf. rewrite orb_false_r, Ascii.eqb_sym in Hf.
      by rewrite Hf.
    + eapply follows_weaken; [exact Hf|]. intros t Ht. apply orb_true_iff. by right.
  - rewrite <- app_assoc. rewrite (Hp w a _ Hw) by done. cbn [app].
    rewrite Ascii.eqb_refl, IH; [done|]. rewrite length_app in Hl. cbn in Hl. lia.
Qed.

Lemma many_loop_complete starting fuel w l rest G :
  (forall w a rest, P w a -> follows (G ++ F) rest -> p (w ++ rest) = inr (a, rest)) ->
  (forall w a rest, P w a -> starting (w ++ rest) = true /\ w <> []) ->
  (forall w l, many_derives P w l -> head_ok true G w) ->
  starting rest = false -> follows F rest ->
  many_derives P w l -> (List.length w < fuel)%nat ->
  many_loop starting p fuel (w ++ rest) = inr (l, rest).
Proof.
  intros Hp Hs Hh Hn Hf Hw. revert fuel. induction Hw as [|w a w' l Hw Hw' IH]; intros fuel Hl;
    (destruct fuel as [|fuel]; [cbn in Hl; lia|]); cbn [many_loop].
  - cbn [app]. by rewrite Hn.
  - rewrite <- app_assoc. destruct (Hs w a (w' ++ rest) Hw) as [-> Hne].
    rewrite (Hp w a _ Hw) by exact (follow_head true _ _ _ _ (Hh _ _ Hw') Hf).
    rewrite IH; [done|]. destruct w; [done|]. rewrite length_app in Hl. cbn in Hl. lia.
Qed.

End Loops.

Lemma parse_complete {A} (g : gram A) F w v rest :
  safe g F = true -> derives g w v -> follows F rest -> parse g (w ++ rest) = inr (v, rest).
Proof.
  revert F w v rest.
  induction g as [s| |A a|A B g IHg h IHh|A g IHg a|A g IHg h IHh|A B f g IHg|A g IHg|A g IHg];
    intros F w v rest; cbn [safe derives parse]; intros Hs Hd Hf;
    rewrite ?andb_true_iff, ?negb_true_iff in Hs.
  - destruct Hd as [-> Ht]. cbn. by rewrite Ht.
  - apply a_expr_complete; [done|]. eapply follows_weaken; [exact Hf|].
    intros t. by apply symbol_in_starts.
  - by destruct Hd as [-> ->].
  - destruct Hs as [Hg Hh]. destruct Hd as (w1 & w2 & -> & H1 & H2), v as [x y].
    rewrite <- app_assoc. erewrite IHg; [|exact Hg|exact H1|].
    + by erewrite IHh.
    + apply follow_head; [by eapply first_derives|done].
  - destruct Hs as [[Hn Hdis] Hg]. destruct Hd as [[-> ->]|Hd].
    + cbn [app]. by rewrite (starts_not g F).
    + rewrite (starts_derived g w v) by done. by eapply IHg.
  - destruct Hs as [[[[Hn Hn'] Hdis] Hg] Hh]. destruct Hd as [Hd|Hd].
    + rewrite (starts_derived g w v) by done. by eapply IHg.
    + pose proof (first_derives _ _ _ Hd) as Hw. rewrite Hn' in Hw.
      destruct w as [|t w]; [done|]. cbn [app].
      rewrite (starts_not g (first h)) by done. by eapply (IHh F (t :: w)).
  - destruct Hd as (x & Hd & Hfx). erewrite IHg by eauto. by rewrite Hfx.
  - destruct Hs as [Hdis Hg].
    eapply (sep_loop_complete (derives g)); [|done|done|done|rewrite length_app; lia].
    intros w' a rest' Hw Hr. by eapply IHg.
  - destruct Hs as [[Hn Hdis] Hg].
    eapply (many_loop_complete (derives g) _ F _ _ _ _ _ (first g));
      [| | |by eapply starts_not|done|done|rewrite length_app; lia].
    + intros w' a rest' Hw Hr. by eapply IHg.
    + intros w' a rest' Hw. split; [by eapply starts_derived|].
      apply first_derives in Hw. rewrite Hn in Hw. by intros ->.
    + intros w' l' Hw. eapply many_head; [|exact Hw]. intros w'' a. apply first_derives.
Qed.

(** Without conflicts the parser computes the meaning of the rule, so the rule
    is unambiguous. *)
Lemma parse_iff {A} (g : gram A) F ts v rest :
  safe g F = true -> follows F rest ->
  parse g ts = inr (v, rest) <-> exists w, ts = w ++ rest /\ derives g w v.
Proof.
  intros Hs Hf. split; [apply parse_sound|]. intros (w & -> & Hd). by eapply parse_complete.
Qed.

End Correct.
