(* ===== verification/AgentGrammar.v ===== *)
(** * The grammar of the agent statements

    The rules of [src/src/backend/parser/gram.y] for the sixteen agent
    statements, with their semantic actions, over the tokens the scanner
    returns.  A keyword is the token of its text; the clauses of a statement
    have a fixed order and most are optional.

    Two of the rules have a conflict, which the file declares with
    [%expect 2]: in CREATE and ALTER PROVIDER the clauses ATTESTATION PROFILE
    and ATTESTATION ENABLE begin with the same keyword, and all that is between
    them is optional.  The theorems say that the fourteen other statements are
    parsed exactly when the grammar derives them, and what the conflict costs
    the two. *)

From Stdlib Require Import Ascii String.
From S2P Require Import Prelude Text Types Stat Tables World Catalog Security PolicyCommands.
From S2P Require Import Planner AgentCommands Trace Utility Keywords Grammar.
Open Scope string_scope.
Open Scope Z_scope.
Open Scope bool_scope.
Open Scope list_scope.

(** ** Ways to write rules *)

Definition value {A B} (f : A -> B) (g : gram A) : gram B := Act (fun a => inr (f a)) g.
Definition Ap {A B} (f : gram (A -> B)) (g : gram A) : gram B := value (fun p => fst p (snd p)) (Seq f g).
Definition Skip {A B} (f : gram A) (g : gram B) : gram A := value fst (Seq f g).

Declare Scope gram_scope.
Delimit Scope gram_scope with gram.
Notation "f <*> g" := (Ap f g) (at level 61, left associativity) : gram_scope.
Notation "f <* g" := (Skip f g) (at level 61, left associativity) : gram_scope.
Open Scope gram_scope.

Definition kw (word : string) : gram token := Tok (S_KW word).
Definition ch (c : ascii) : gram token := Tok (S_CHAR c).

(** [g] after some keywords. *)
Definition after {A} (kws : list string) (g : gram A) : gram A :=
  foldr (fun k h => value snd (Seq (kw k) h)) g kws.

(** A clause that may be missing. *)
Definition opt_clause {A} (kws : list string) (g : gram A) : gram (option A) :=
  Opt (value Some (after kws g)) None.

(** ** Names, constants and lists *)

Definition Sconst : gram string :=
  value (fun t => match t with SCONST s => s | _ => "" end) (Tok S_SCONST).
Definition Iconst : gram Z :=
  value (fun t => match t with ICONST z => z | _ => 0 end) (Tok S_ICONST).
Definition Fconst : gram string :=
  value (fun t => match t with FCONST s => s | _ => "" end) (Tok S_FCONST).
Definition name : gram string := value (fun t => default "" (ColId t)) (Tok S_NAME).
Definition attr_name : gram string := value (fun t => default "" (ColLabel t)) (Tok S_LABEL).
Definition nonreserved_word : gram string :=
  value (fun t => default "" (NonReservedWord t)) (Tok S_WORD).

Definition name_list : gram (list pg_node) := Sep (value NString name).

(** Dots with names; a [*] or a subscript is refused by [check_qualified_name]
    with the same syntax error as here. *)
Definition indirection : gram (list string) := Many (value snd (Seq (ch ".") attr_name)).

Fixpoint NameListToString (names : list string) : string :=
  match names with
  | [] => ""
  | [n] => n
  | n :: rest => n +:+ String "." (NameListToString rest)
  end.

Definition makeRangeVarFromQualifiedName (n : string) (namelist : list string) : pg_error + RangeVar :=
  match namelist with
  | [] => inr (MkRangeVar None None n)
  | [a] => inr (MkRangeVar None (Some n) a)
  | [a; b] => inr (MkRangeVar (Some n) (Some a) b)
  | _ => inl (PgError ERRCODE_SYNTAX_ERROR
                (cat ["improper qualified name (too many dotted names): ";
                      NameListToString (n :: namelist)]) None)
  end.

Definition qualified_name : gram RangeVar :=
  Act (fun p => makeRangeVarFromQualifiedName (fst p) (snd p)) (Seq name indirection).

Definition role_of_word (w : string) : pg_error + RoleSpec :=
  if String.eqb w "public" then inr ROLESPEC_PUBLIC
  else if String.eqb w "none"
  then inl (PgError ERRCODE_RESERVED_NAME (cat ["role name "; quoted "none"; " is reserved"]) None)
  else inr (ROLESPEC_CSTRING w).

Definition RoleSpec_rule : gram RoleSpec :=
  Alt (Act role_of_word nonreserved_word)
  (Alt (value (fun _ => ROLESPEC_CURRENT_ROLE) (kw "current_role"))
  (Alt (value (fun _ => ROLESPEC_CURRENT_USER) (kw "current_user"))
       (value (fun _ => ROLESPEC_SESSION_USER) (kw "session_user")))).

(** *** Options in parentheses *)

Definition doNegateFloat (v : string) : string :=
  let oldval := match v with String "+" rest => rest | _ => v end in
  match oldval with String "-" rest => rest | _ => String "-" oldval end.

(** The rules for a signed number, factored by the sign. *)
Definition NumericOnly : gram pg_node :=
  Alt (value NFloat Fconst)
  (Alt (value NInteger Iconst)
  (Alt (value snd (Seq (ch "+") (Alt (value NFloat Fconst) (value NInteger Iconst))))
       (value snd (Seq (ch "-") (Alt (value (fun s => NFloat (doNegateFloat s)) Fconst)
                                     (value (fun z => NInteger (- z)) Iconst)))))).

Definition opt_boolean_or_string : gram string :=
  Alt (value (fun _ => "true") (kw "true"))
  (Alt (value (fun _ => "false") (kw "false"))
  (Alt (value (fun _ => "on") (kw "on"))
  (Alt nonreserved_word Sconst))).

Definition utility_option_name : gram string :=
  Alt nonreserved_word
  (Alt (value (fun _ => "analyze") (Alt (kw "analyze") (kw "analyse")))
       (value (fun _ => "format") (Tok S_FORMAT_LA))).

Definition utility_option_arg : gram (option pg_node) :=
  Opt (value Some (Alt (value NString opt_boolean_or_string) NumericOnly)) None.

Definition utility_option_list : gram (list pg_node) :=
  Sep (Empty NDefElem <*> utility_option_name <*> utility_option_arg).

(** ** Clauses *)

Definition in_parens {A} (g : gram A) : gram A := value snd (Seq (ch "(") g) <* ch ")".

(** ENABLE and DISABLE, as numbers. *)
Definition switch : gram Z := Alt (value (fun _ => 1) (kw "enable")) (value (fun _ => 0) (kw "disable")).
Definition opt_switch (kws : list string) (empty : Z) : gram Z := Opt (after kws switch) empty.

(** [set_x] and [x] from such a number, and from a cost. *)
Definition set_flag (z : Z) : option bool := if 0 <=? z then Some (0 <? z) else None.
Definition set_cost (z : Z) : option Z := if 0 <=? z then Some z else None.
Definition set_list {A} (l : list A) : option (list A) := match l with [] => None | _ => Some l end.

Definition qx_opt_agent_identity := opt_clause ["identity"] name.
Definition qx_opt_agent_model := opt_clause ["model"] Sconst.
Definition qx_opt_agent_memory_profile := opt_clause ["memory"; "profile"] name.
Definition qx_opt_agent_tools : gram (list pg_node) := Opt (after ["tools"] (in_parens name_list)) [].
Definition qx_opt_agent_policy := opt_clause ["policy"] name.
Definition qx_opt_agent_budget : gram (list pg_node) :=
  Opt (after ["budget"] (in_parens utility_option_list)) [].

Definition qx_opt_namespace_auth_role : gram (option RoleSpec) :=
  Opt (value Some (after ["authorization"; "role"] (value snd (Seq (ch "=") RoleSpec_rule)))) None.
Definition qx_namespace_allowed_tools : gram (list pg_node) :=
  Opt (after ["tools"] (in_parens name_list)) [].
Definition qx_opt_namespace_policy_contract := opt_clause ["using"] Sconst.
Definition qx_namespace_known_tools_mode := opt_switch ["known"; "tools"] 1.
Definition qx_namespace_budget_mode := opt_switch ["budget"] 1.
Definition qx_opt_alter_namespace_tools : gram (list pg_node) :=
  Opt (after ["set"; "tools"] (in_parens name_list)) [].
Definition qx_opt_alter_namespace_known_tools := opt_switch ["known"; "tools"] (-1).
Definition qx_opt_alter_namespace_budget := opt_switch ["budget"] (-1).

Definition qx_opt_provider_kind := opt_clause ["kind"] Sconst.
Definition qx_opt_provider_endpoint := opt_clause ["endpoint"] Sconst.
Definition qx_opt_provider_receipt_alg := opt_clause ["using"] Sconst.
Definition qx_opt_provider_receipt_key := opt_clause ["receipt"; "key"] Sconst.
Definition qx_opt_attestation_profile : gram cstr := opt_clause ["attestation"; "profile"] Sconst.
Definition qx_opt_attestation_version : gram cstr := opt_clause ["version"] Sconst.
Definition qx_opt_attestation_policy : gram cstr := opt_clause ["policy"] name.
Definition qx_opt_provider_attestation := opt_switch ["attestation"] 0.
Definition qx_opt_alter_provider_attestation := opt_switch ["attestation"] (-1).

Definition qx_opt_principal_runtime := opt_clause ["runtime"] Sconst.
Definition qx_opt_principal_signer := opt_clause ["signer"] Sconst.
Definition qx_opt_alter_principal_provider := opt_clause ["provider"] qualified_name.
Definition qx_opt_alter_principal_program := opt_clause ["program"] Sconst.
Definition qx_opt_alter_principal_sandbox := opt_clause ["sandbox"] Sconst.

Definition qx_opt_alter_tool_handler := opt_clause ["handler"] Sconst.
Definition qx_opt_alter_tool_principal := opt_clause ["principal"] Sconst.
Definition qx_opt_alter_tool_token_cost : gram Z := Opt (after ["token"; "cost"] Iconst) (-1).
Definition qx_opt_alter_tool_cost_units : gram Z := Opt (after ["cost"] Iconst) (-1).
Definition qx_opt_alter_enabled := opt_switch [] (-1).

(** ** Statements *)

Definition CreateAgentStmt_rule : gram UtilityStmt :=
  value T_CreateAgentStmt (after ["create"; "agent"]
    (Empty MkCreateAgent <*> name <*> qx_opt_agent_identity <*> qx_opt_agent_model <*>
     qx_opt_agent_memory_profile <*> qx_opt_agent_tools <*> qx_opt_agent_policy <*>
     qx_opt_agent_budget)).

Definition CreateNamespacePolicyStmt_rule : gram UtilityStmt :=
  value T_CreateNamespacePolicyStmt (after ["create"; "namespace"; "policy"]
    (Empty (fun policy schema role tools contract known budget =>
              MkCreatePolicy policy schema role tools contract (negb (known =? 0)) (negb (budget =? 0)))
     <*> name <* kw "for" <* kw "schema" <*> name <*> qx_opt_namespace_auth_role <*>
     qx_namespace_allowed_tools <*> qx_opt_namespace_policy_contract <*>
     qx_namespace_known_tools_mode <*> qx_namespace_budget_mode)).

Definition AlterNamespacePolicyStmt_rule : gram UtilityStmt :=
  value T_AlterNamespacePolicyStmt (after ["alter"; "namespace"; "policy"]
    (Empty (fun policy schema role tools contract known budget =>
              MkAlterPolicy policy schema role (set_list tools) contract (set_flag known) (set_flag budget))
     <*> name <* kw "for" <* kw "schema" <*> name <*> qx_opt_namespace_auth_role <*>
     qx_opt_alter_namespace_tools <*> qx_opt_namespace_policy_contract <*>
     qx_opt_alter_namespace_known_tools <*> qx_opt_alter_namespace_budget)).

(** The attestation clauses, after what comes before them. *)
Definition attested {B} (head : gram (cstr -> cstr -> cstr -> Z -> B)) (attestation : gram Z) : gram B :=
  head <*> qx_opt_attestation_profile <*> qx_opt_attestation_version <*> qx_opt_attestation_policy <*>
  attestation.

Definition create_provider_head : gram (cstr -> cstr -> cstr -> Z -> UtilityStmt) :=
  after ["create"; "provider"]
    (Empty (fun provider kind endpoint alg key profile version policy attestation =>
              T_CreateProviderStmt
                (MkCreateProvider provider (Some kind) (Some endpoint) alg key profile version policy
                   (negb (attestation =? 0))))
     <*> qualified_name <* kw "kind" <*> Sconst <* kw "endpoint" <*> Sconst <*>
     qx_opt_provider_receipt_alg <*> qx_opt_provider_receipt_key).

Definition CreateProviderStmt_rule : gram UtilityStmt :=
  attested create_provider_head qx_opt_provider_attestation.

Definition alter_provider_head : gram (cstr -> cstr -> cstr -> Z -> Z -> UtilityStmt) :=
  after ["alter"; "provider"]
    (Empty (fun provider kind endpoint alg key profile version policy attestation enabled =>
              T_AlterProviderStmt
                (MkAlterProvider provider kind endpoint alg key profile version policy
                   (set_flag attestation) (set_flag enabled)))
     <*> qualified_name <*> qx_opt_provider_kind <*> qx_opt_provider_endpoint <*>
     qx_opt_provider_receipt_alg <*> qx_opt_provider_receipt_key).

Definition AlterProviderStmt_rule : gram UtilityStmt :=
  attested alter_provider_head qx_opt_alter_provider_attestation <*> qx_opt_alter_enabled.

Definition CreatePrincipalStmt_rule : gram UtilityStmt :=
  value T_CreatePrincipalStmt (after ["create"; "principal"]
    (Empty (fun principal program sandbox runtime provider signer profile version policy =>
              MkCreatePrincipal principal (Some provider) (Some program) (Some sandbox) runtime signer
                profile version policy true)
     <*> qualified_name <* kw "program" <*> Sconst <* kw "sandbox" <*> Sconst <*>
     qx_opt_principal_runtime <* kw "provider" <*> qualified_name <*> qx_opt_principal_signer <*>
     qx_opt_attestation_profile <*> qx_opt_attestation_version <*> qx_opt_attestation_policy)).

Definition AlterPrincipalStmt_rule : gram UtilityStmt :=
  value T_AlterPrincipalStmt (after ["alter"; "principal"]
    (Empty (fun principal provider program sandbox runtime signer profile version policy enabled =>
              MkAlterPrincipal principal provider program sandbox runtime signer profile version policy
                (set_flag enabled))
     <*> qualified_name <*> qx_opt_alter_principal_provider <*> qx_opt_alter_principal_program <*>
     qx_opt_alter_principal_sandbox <*> qx_opt_principal_runtime <*> qx_opt_principal_signer <*>
     qx_opt_attestation_profile <*> qx_opt_attestation_version <*> qx_opt_attestation_policy <*>
     qx_opt_alter_enabled)).

Definition CreateToolStmt_rule : gram UtilityStmt :=
  value T_CreateToolStmt (after ["create"; "tool"]
    (Empty (fun tool handler sandbox principal token_cost cost_units policy =>
              MkCreateTool tool (Some handler) (Some sandbox) (Some principal) policy token_cost
                cost_units true)
     <*> qualified_name <* kw "handler" <*> Sconst <* kw "sandbox" <*> Sconst <* kw "principal" <*>
     Sconst <* kw "token" <* kw "cost" <*> Iconst <* kw "cost" <*> Iconst <*> qx_opt_agent_policy)).

Definition AlterToolStmt_rule : gram UtilityStmt :=
  value T_AlterToolStmt (after ["alter"; "tool"]
    (Empty (fun tool handler sandbox principal token_cost cost_units policy enabled =>
              MkAlterTool tool handler sandbox principal policy (set_cost token_cost)
                (set_cost cost_units) (set_flag enabled))
     <*> qualified_name <*> qx_opt_alter_tool_handler <*> qx_opt_alter_principal_sandbox <*>
     qx_opt_alter_tool_principal <*> qx_opt_alter_tool_token_cost <*> qx_opt_alter_tool_cost_units <*>
     qx_opt_agent_policy <*> qx_opt_alter_enabled)).

Definition flag_clause (kws : list string) : gram bool :=
  Opt (after kws (Empty true)) false.

Definition StartSessionStmt_rule : gram UtilityStmt :=
  value T_StartSessionStmt (after ["start"; "session"; "for"; "agent"]
    (Empty MkStartSession <*> name <*> opt_clause ["with"; "context"] Expr <*>
     flag_clause ["returning"; "session"])).

Definition run_task : gram RunTaskStmt :=
  after ["run"; "task"]
    (Empty (fun task session goal input priority returning =>
              MkRunTask session task goal input priority returning)
     <*> Opt (value Some name) None <* kw "in" <* kw "session" <*> Expr <* kw "goal" <*> Sconst <*>
     opt_clause ["input"] Expr <*> opt_clause ["priority"] name <*> flag_clause ["returning"; "task"]).

Definition resume_task : gram ResumeTaskStmt :=
  after ["resume"; "task"]
    (Empty MkResumeTask <*> Expr <*> opt_clause ["from"; "checkpoint"] Sconst).

Definition RunTaskStmt_rule : gram UtilityStmt := value T_RunTaskStmt run_task.
Definition ResumeTaskStmt_rule : gram UtilityStmt := value T_ResumeTaskStmt resume_task.

Definition ExplainAgentStmt_rule : gram UtilityStmt :=
  value T_ExplainAgentStmt (after ["explain"; "agent"]
    (Alt (value SRunTask run_task) (value SResumeTask resume_task))).

Definition memory_tags : gram (list string) := Opt (after ["tags"] (in_parens (Sep Sconst))) [].

Definition RememberStmt_rule : gram UtilityStmt :=
  Act (fun stmt => stmt) (after ["remember"; "in"; "session"]
    (Empty (fun session scope key val tags =>
              match qx_parse_memory_scope scope with
              | inl e => inl e
              | inr s => inr (T_RememberStmt (MkRemember session s key val tags))
              end)
     <*> Expr <* kw "scope" <*> name <* kw "key" <*> Sconst <* kw "value" <*> Expr <*> memory_tags)).

Definition qx_memory_scope : gram ascii := Act qx_parse_memory_scope name.
Definition qx_opt_memory_scopes : gram (list ascii) := Opt (after ["scope"] (Sep qx_memory_scope)) [].

Definition FetchMemoryStmt_rule : gram UtilityStmt :=
  value T_FetchMemoryStmt (after ["fetch"; "memory"; "for"; "agent"]
    (Empty MkFetchMemory <*> name <*> qx_opt_memory_scopes <*> opt_clause ["match"] Sconst <*>
     Opt (after ["limit"] Iconst) 10)).

Definition ShowTraceStmt_rule : gram UtilityStmt :=
  value T_ShowTraceStmt (after ["show"; "trace"; "for"; "task"]
    (Empty MkShowTrace <*> Expr <*> Opt (after ["limit"] Iconst) 50)).

(** ** The agent statements *)

(** The keywords that tell a statement, and its rule. *)
Definition plain_rules : list (list string * gram UtilityStmt) :=
  [(["create"; "agent"], CreateAgentStmt_rule);
   (["create"; "namespace"], CreateNamespacePolicyStmt_rule);
   (["alter"; "namespace"], AlterNamespacePolicyStmt_rule);
   (["create"; "principal"], CreatePrincipalStmt_rule);
   (["alter"; "principal"], AlterPrincipalStmt_rule);
   (["create"; "tool"], CreateToolStmt_rule);
   (["alter"; "tool"], AlterToolStmt_rule);
   (["start"; "session"], StartSessionStmt_rule);
   (["run"], RunTaskStmt_rule);
   (["resume"], ResumeTaskStmt_rule);
   (["explain"; "agent"], ExplainAgentStmt_rule);
   (["remember"], RememberStmt_rule);
   (["fetch"; "memory"; "for"], FetchMemoryStmt_rule);
   (["show"; "trace"; "for"], ShowTraceStmt_rule)].

Definition provider_rules : list (list string * gram UtilityStmt) :=
  [(["create"; "provider"], CreateProviderStmt_rule);
   (["alter"; "provider"], AlterProviderStmt_rule)].

Definition agent_rules := plain_rules ++ provider_rules.

Fixpoint begins (kws : list string) (ts : list token) : bool :=
  match kws, ts with
  | [], _ => true
  | k :: kws', KEYWORD w :: ts' => String.eqb k w && begins kws' ts'
  | _, _ => false
  end.

Definition statement_end : list symbol := [S_CHAR ";"].

Section Parsing.
Context `{EG : ExprGrammar}.

Definition parse_rule (g : gram UtilityStmt) (ts : list token) :
    parse_error + UtilityStmt * list token :=
  match parse g ts with
  | inl e => inl e
  | inr (stmt, rest) =>
      match rest with
      | [] => inr (stmt, rest)
      | t :: _ => if starts_in statement_end t then inr (stmt, rest) else inl (SyntaxError rest)
      end
  end.

(** The statement, with the tokens after it; [None] when it is none of the
    agents'. *)
Definition parse_agent_stmt (ts : list token) : option (parse_error + UtilityStmt * list token) :=
  match List.find (fun r => begins (fst r) ts) agent_rules with
  | Some (_, g) => Some (parse_rule g ts)
  | None => None
  end.

End Parsing.

(** ** The rules have the conflicts that were declared, and no others *)

Lemma plain_rules_safe : forallb (fun r => safe (snd r) statement_end) plain_rules = true.
Proof. vm_compute. reflexivity. Qed.

Lemma provider_rules_conflict : forallb (fun r => negb (safe (snd r) statement_end)) provider_rules = true.
Proof. vm_compute. reflexivity. Qed.

(** ** Derivations of the combinators *)

(** The keywords a rule always begins with. *)
Fixpoint lead {A} (g : gram A) : list string * bool :=
  match g with
  | Tok (S_KW k) => ([k], true)
  | Empty _ => ([], true)
  | Seq g h => let '(a, only) := lead g in
               if only then let '(b, only') := lead h in (a ++ b, only') else (a, false)
  | Act _ g => lead g
  | _ => ([], false)
  end.

Section Derivations.
Context `{EG : ExprGrammar}.

Lemma derives_value {A B} (f : A -> B) g w b :
  derives (value f g) w b <-> exists a, derives g w a /\ b = f a.
Proof. cbn. split; intros (a & H & E); exists a; split; try done; congruence. Qed.

Lemma derives_Ap {A B} (f : gram (A -> B)) g w b :
  derives (f <*> g) w b <->
  exists w1 w2 h a, w = w1 ++ w2 /\ derives f w1 h /\ derives g w2 a /\ b = h a.
Proof.
  unfold Ap. rewrite derives_value. split.
  - intros ([h a] & (w1 & w2 & -> & H1 & H2) & ->). by exists w1, w2, h, a.
  - intros (w1 & w2 & h & a & -> & H1 & H2 & ->). exists (h, a). split; [|done]. by exists w1, w2.
Qed.

Lemma parse_Ap {A B} (f : gram (A -> B)) g ts :
  parse (f <*> g) ts =
  match parse f ts with
  | inl e => inl e
  | inr (h, rest) => match parse g rest with inl e => inl e | inr (a, rest') => inr (h a, rest') end
  end.
Proof.
  unfold Ap, value. cbn [parse]. destruct (parse f ts) as [|[h rest]]; [done|].
  by destruct (parse g rest) as [|[a rest']].
Qed.

Lemma derives_lead {A} (g : gram A) w v :
  derives g w v ->
  exists w', w = (KEYWORD <$> fst (lead g)) ++ w' /\ (snd (lead g) = true -> w' = []).
Proof.
  revert w v. induction g as [s| |A a|A B g IHg h IHh|A g IHg a|A g IHg h IHh|A B f g IHg|A g IHg|A g IHg];
    intros w v; cbn [derives lead].
  - intros [-> Hm]. destruct s; try (exists [v]; done). destruct v; try done.
    apply String.eqb_eq in Hm as ->. by exists [].
  - intros _. by exists w.
  - intros [-> _]. by exists [].
  - intros (w1 & w2 & -> & (w1' & -> & H1)%IHg & (w2' & -> & H2)%IHh).
    destruct (lead g) as [a []]; cbn in *.
    + rewrite (H1 eq_refl), app_nil_r. destruct (lead h) as [b c]. cbn in *.
      exists w2'. by rewrite fmap_app, <- app_assoc.
    + exists (w1' ++ (KEYWORD <$> fst (lead h)) ++ w2'). by rewrite <- app_assoc.
  - intros _. by exists w.
  - intros _. by exists w.
  - intros (a & H & _). by eapply IHg.
  - intros _. by exists w.
  - intros _. by exists w.
Qed.

Lemma parse_rule_ok g ts stmt rest :
  parse_rule g ts = inr (stmt, rest) <-> parse g ts = inr (stmt, rest) /\ follows statement_end rest.
Proof.
  unfold parse_rule. destruct (parse g ts) as [e|[s r]]; [split; [done|by intros [? _]]|].
  destruct r as [|t r].
  - split; [intros [= <- <-]; done|by intros [? _]].
  - destruct (starts_in statement_end t) eqn:E.
    + split; [intros [= <- <-]; done|by intros [? _]].
    + split; [done|]. intros [[= <- <-] Hf]. cbn [follows] in Hf. congruence.
Qed.

(** A statement of the grammar. *)
Definition agent_derives (w : list token) (stmt : UtilityStmt) : Prop :=
  exists r, r ∈ agent_rules /\ derives (snd r) w stmt.

(** What a rule derives is parsed with that rule. *)
Lemma agent_rule_chosen r w stmt rest :
  r ∈ agent_rules -> derives (snd r) w stmt ->
  parse_agent_stmt (w ++ rest) = Some (parse_rule (snd r) (w ++ rest)).
Proof.
  intros Hr Hd. apply derives_lead in Hd as (w' & -> & _). rewrite <- app_assoc.
  apply list_elem_of_In in Hr. unfold agent_rules, plain_rules, provider_rules in Hr. cbn in Hr.
  decompose [or] Hr; try done; subst r; reflexivity.
Qed.

Definition provider_statement (stmt : UtilityStmt) : bool :=
  match stmt with T_CreateProviderStmt _ | T_AlterProviderStmt _ => true | _ => false end.

Lemma derives_after {A} kws (g : gram A) w v :
  derives (after kws g) w v -> exists w', w = (KEYWORD <$> kws) ++ w' /\ derives g w' v.
Proof.
  revert w. induction kws as [|k kws IH]; intros w; [by exists w|].
  cbn [after foldr]. rewrite derives_value.
  intros ([t a] & (w1 & w2 & -> & [-> Ht] & Hd) & ->). cbn in Hd.
  destruct t; try done. apply String.eqb_eq in Ht as ->. apply IH in Hd as (w' & -> & Hd).
  by exists w'.
Qed.

Lemma attested_derives {B} (head : gram (cstr -> cstr -> cstr -> Z -> B)) att w b :
  derives (attested head att) w b ->
  exists w0 wp wv wo wa f p v o a, w = w0 ++ wp ++ wv ++ wo ++ wa /\ b = f p v o a /\
    derives head w0 f /\ derives qx_opt_attestation_profile wp p /\
    derives qx_opt_attestation_version wv v /\ derives qx_opt_attestation_policy wo o /\
    derives att wa a.
Proof.
  unfold attested. rewrite derives_Ap. intros (w4 & wa & f4 & a & -> & H4 & Ha & ->).
  apply derives_Ap in H4 as (w3 & wo & f3 & o & -> & H3 & Ho & ->).
  apply derives_Ap in H3 as (w2 & wv & f2 & v & -> & H2 & Hv & ->).
  apply derives_Ap in H2 as (w0 & wp & f & p & -> & H0 & Hp & ->).
  exists w0, wp, wv, wo, wa, f, p, v, o, a. rewrite <- !app_assoc. done.
Qed.

Lemma derives_Skip {A B} (f : gram A) (g : gram B) w a :
  derives (f <* g) w a -> exists w1 w2 b, w = w1 ++ w2 /\ derives f w1 a /\ derives g w2 b.
Proof.
  unfold Skip. rewrite derives_value.
  intros ([a' b] & (w1 & w2 & -> & H1 & H2) & ->). by exists w1, w2, b.
Qed.

(** The semantic action of a rule. *)
Ltac invert_rule :=
  repeat match goal with
  | H : derives (_ <*> _) _ _ |- _ => apply derives_Ap in H as (? & ? & ? & ? & -> & H & ? & ->)
  | H : derives (_ <* _) _ _ |- _ => apply derives_Skip in H as (? & ? & ? & -> & H & ?)
  | H : derives (after _ _) _ _ |- _ => apply derives_after in H as (? & -> & H)
  | H : derives (Empty _) _ _ |- _ => destruct H as [-> ->]
  end.

Lemma create_provider_value w f :
  derives create_provider_head w f ->
  exists provider kind endpoint alg key, f = fun profile version policy attestation =>
    T_CreateProviderStmt (MkCreateProvider provider (Some kind) (Some endpoint) alg key profile version
                            policy (negb (attestation =? 0))).
Proof. unfold create_provider_head. intros H. invert_rule. eauto 10. Qed.

Lemma alter_provider_value w f :
  derives alter_provider_head w f ->
  exists provider kind endpoint alg key, f = fun profile version policy attestation enabled =>
    T_AlterProviderStmt (MkAlterProvider provider kind endpoint alg key profile version policy
                           (set_flag attestation) (set_flag enabled)).
Proof. unfold alter_provider_head. intros H. invert_rule. eauto 10. Qed.

Lemma provider_rules_values r w stmt :
  r ∈ provider_rules -> derives (snd r) w stmt -> provider_statement stmt = true.
Proof.
  intros Hr Hd. apply list_elem_of_In in Hr. destruct Hr as [<-|[<-|[]]]; cbn [snd] in Hd.
  - apply attested_derives in Hd as (w0 & wp & wv & wo & wa & f & p & v & o & a & -> & -> & H & _).
    by apply create_provider_value in H as (? & ? & ? & ? & ? & ->).
  - apply derives_Ap in Hd as (w1 & w2 & h & e & -> & Hd & _ & ->).
    apply attested_derives in Hd as (w0 & wp & wv & wo & wa & f & p & v & o & a & -> & -> & H & _).
    by apply alter_provider_value in H as (? & ? & ? & ? & ? & ->).
Qed.

Lemma parsed_by_rule ts stmt rest :
  parse_agent_stmt ts = Some (inr (stmt, rest)) ->
  follows statement_end rest /\ exists w, ts = w ++ rest /\ agent_derives w stmt.
Proof.
  unfold parse_agent_stmt. destruct (List.find _ _) as [[pre g]|] eqn:E; [|done].
  intros [= [Hp Hf]%parse_rule_ok]. split; [done|]. apply parse_sound in Hp as (w & -> & Hd).
  exists w. split; [done|]. exists (pre, g). split; [|done].
  apply List.find_some in E as [E _]. by apply list_elem_of_In.
Qed.

(** C17. For every list of tokens the parser returns an agent statement, other
    than one about a provider, with the tokens after it exactly when those end
    the statement and the rules of the grammar derive the statement from the
    tokens before: nothing the grammar describes is refused, nothing else is
    accepted, and the statement is the one the semantic actions build. *)
Theorem agent_statement_parsed_iff ts stmt rest :
  provider_statement stmt = false ->
  parse_agent_stmt ts = Some (inr (stmt, rest)) <->
  follows statement_end rest /\ exists w, ts = w ++ rest /\ agent_derives w stmt.
Proof.
  intros Hnp. split; [apply parsed_by_rule|].
  intros (Hf & w & -> & r & Hr & Hd). rewrite (agent_rule_chosen r w stmt rest) by done.
  f_equal. apply parse_rule_ok. split; [|done].
  apply elem_of_app in Hr as [Hr|Hr]; [|by rewrite (provider_rules_values r w) in Hnp].
  eapply parse_complete; [|done|exact Hf].
  pose proof plain_rules_safe as Hs. rewrite forallb_forall in Hs. apply Hs.
  by apply list_elem_of_In.
Qed.

Lemma clause_after {A} kws (g : gram A) w v :
  kws <> [] -> derives (opt_clause kws g) w v ->
  (w = [] /\ v = None) \/
  exists w', w = (KEYWORD <$> kws) ++ w' /\ exists a, v = Some a /\ derives g w' a.
Proof.
  intros Hk [[-> ->]|(a & Hd & [= <-])]; [by left|right].
  apply derives_after in Hd as (w' & -> & Hd). exists w'. split; [done|]. by exists a.
Qed.

Lemma clause_follow {A} k kws (g : gram A) F w v rest :
  derives (opt_clause (k :: kws) g) w v -> symbol_in F (S_KW k) = true -> follows F rest ->
  follows F (w ++ rest).
Proof.
  intros Hd Hk Hf. apply clause_after in Hd as [[-> ->]|(w' & -> & _)]; [done| |done]. cbn.
  apply (symbol_in_starts [S_KW k]); cbn [forallb]; [by rewrite Hk|]. cbn. by rewrite String.eqb_refl.
Qed.

Lemma switch_token w z : derives switch w z -> w = [KEYWORD "enable"] \/ w = [KEYWORD "disable"].
Proof.
  intros [(t & [-> Ht] & _)|(t & [-> Ht] & _)]; destruct t; try done;
    apply String.eqb_eq in Ht as <-; auto.
Qed.

(** *** The attestation clauses *)

(** The tokens have the clause ATTESTATION ENABLE or DISABLE right after the
    head of the statement. *)
Definition attestation_alone {B} (head : gram (cstr -> cstr -> cstr -> Z -> B)) (w : list token) : Prop :=
  exists w0 f t w1, w = w0 ++ KEYWORD "attestation" :: t :: w1 /\ derives head w0 f /\
    symbol_matches (S_KW "profile") t = false.

Lemma attestation_clause none w a :
  derives (opt_switch ["attestation"] none) w a ->
  (w = [] /\ a = none) \/
  exists t, w = [KEYWORD "attestation"; t] /\ symbol_matches (S_KW "profile") t = false.
Proof.
  intros [Ha|Ha]; [by left|right]. apply derives_after in Ha as (w' & -> & Ha).
  apply switch_token in Ha as [->| ->]; eexists; split; reflexivity.
Qed.

Lemma alone_intro {B} (head : gram (cstr -> cstr -> cstr -> Z -> B)) w0 f t w1 :
  derives head w0 f -> symbol_matches (S_KW "profile") t = false ->
  attestation_alone head (w0 ++ [KEYWORD "attestation"; t] ++ w1).
Proof. intros Hd Ht. by exists w0, f, t, w1. Qed.

(** What can follow the head, by the conflict-free clauses. *)
Definition after_profile (F : list symbol) : list symbol := [S_KW "version"; S_KW "policy"; S_KW "attestation"] ++ F.

Section Attested.
Context {B : Type} (head : gram (cstr -> cstr -> cstr -> Z -> B)) (none : Z) (F : list symbol).
Let att := opt_switch ["attestation"] none.
Context (Hhead : safe head (after_profile F) = true)
        (Hrest : safe (Seq qx_opt_attestation_version (Seq qx_opt_attestation_policy att)) F = true)
        (HF : disjoint_from [S_KW "attestation"] F = true).

Lemma attestation_alone_error w rest :
  attestation_alone head w -> exists r, parse (attested head att) (w ++ rest) = inl (SyntaxError r).
Proof.
  intros (w0 & f & t & w1 & -> & Hd & Ht). exists (t :: w1 ++ rest).
  rewrite <- app_assoc. cbn [app]. unfold attested. rewrite !parse_Ap.
  erewrite (parse_complete head (after_profile F)) by (done || exact Hhead).
  unfold qx_opt_attestation_profile, opt_clause, after, value, kw. cbn [foldr parse starts first nullable app].
  change (starts_in _ _) with true. cbv iota beta.
  change (symbol_matches (S_KW "attestation") (KEYWORD "attestation")) with true. cbv iota beta.
  by rewrite Ht.
Qed.

(** The clauses without a conflict. *)
Lemma attestation_rest_parsed wv wo wa v o a rest :
  derives qx_opt_attestation_version wv v -> derives qx_opt_attestation_policy wo o ->
  derives att wa a -> follows F rest ->
  parse qx_opt_attestation_version (wv ++ wo ++ wa ++ rest) = inr (v, wo ++ wa ++ rest) /\
  parse qx_opt_attestation_policy (wo ++ wa ++ rest) = inr (o, wa ++ rest) /\
  parse att (wa ++ rest) = inr (a, rest).
Proof.
  intros Hv Ho Ha Hf. cbn [safe] in Hrest. apply andb_true_iff in Hrest as [Sv [So Sa]%andb_true_iff].
  pose proof (first_derives (Seq qx_opt_attestation_policy att) (wo ++ wa) (o, a)) as Hoa.
  split_and!; (eapply parse_complete; [eassumption|done|]); [|by apply follow_head; [eapply first_derives|]|done].
  rewrite app_assoc. apply follow_head; [|done]. apply Hoa. by exists wo, wa.
Qed.

Lemma profile_not_next wv wo wa v o a rest w0 f :
  derives head w0 f ->
  derives qx_opt_attestation_version wv v -> derives qx_opt_attestation_policy wo o ->
  derives att wa a -> follows F rest ->
  attestation_alone head (w0 ++ wv ++ wo ++ wa) \/
  starts qx_opt_attestation_profile (wv ++ wo ++ wa ++ rest) = false.
Proof.
  intros H0 Hv Ho Ha Hf.
  apply clause_after in Hv as [[-> ->]|(w' & -> & _)]; [|by right|done].
  apply clause_after in Ho as [[-> ->]|(w' & -> & _)]; [|by right|done].
  apply attestation_clause in Ha as [[-> ->]|(t & -> & Ht)]; [right; by apply (starts_not _ F)|left].
  by apply (alone_intro head w0 f t []).
Qed.

(** The clauses are read as derived, unless ATTESTATION comes first. *)
Lemma attested_parsed w b rest :
  derives (attested head att) w b -> follows F rest ->
  attestation_alone head w \/ parse (attested head att) (w ++ rest) = inr (b, rest).
Proof.
  intros (w0 & wp & wv & wo & wa & f & p & v & o & a & -> & -> & H0 & Hp & Hv & Ho & Ha)%attested_derives Hf.
  destruct (attestation_rest_parsed wv wo wa v o a rest) as (Pv & Po & Pa); try done.
  pose proof (profile_not_next wv wo wa v o a rest w0 f) as Hn.
  assert (parse qx_opt_attestation_profile (wp ++ wv ++ wo ++ wa ++ rest) = inr (p, wv ++ wo ++ wa ++ rest) ->
          parse (attested head att) ((w0 ++ wp ++ wv ++ wo ++ wa) ++ rest) = inr (f p v o a, rest)) as Hall.
  { intros Pp. unfold attested. rewrite <- !app_assoc, !parse_Ap.
    rewrite (parse_complete head (after_profile F) w0 f); [|done|done|].
    - by rewrite Pp, Pv, Po, Pa.
    - do 3 (eapply clause_follow; [eassumption|reflexivity|]).
      destruct Ha as [[-> ->]|Ha].
      + eapply follows_weaken; [exact Hf|]. intros t Ht. unfold after_profile. rewrite starts_app, Ht.
        apply orb_true_r.
      + by apply derives_after in Ha as (w' & -> & _). }
  destruct Hp as [[-> ->]|Hp].
  - destruct Hn as [Hn|Hn]; [done..|by left|right]. apply Hall. cbn [app].
    unfold qx_opt_attestation_profile, opt_clause. cbn [parse].
    replace (starts _ _) with false by (symmetry; exact Hn). done.
  - right. apply Hall. unfold qx_opt_attestation_profile, opt_clause. cbn [parse].
    rewrite (starts_derived _ wp p) by done. apply (parse_complete _ [S_ANY]); [done..|].
    by destruct (wv ++ wo ++ wa ++ rest).
Qed.

End Attested.

(** *** Statements about providers *)

Definition attestation_only (w : list token) : Prop :=
  attestation_alone create_provider_head w \/ attestation_alone alter_provider_head w.

(** The statement asks for attestation, or says it is not needed, and names no
    profile, version or policy. *)
Definition uncontracted (stmt : UtilityStmt) : bool :=
  match stmt with
  | T_CreateProviderStmt (MkCreateProvider _ _ _ _ _ None None None required) => required
  | T_AlterProviderStmt (MkAlterProvider _ _ _ _ _ None None None (Some _) _) => true
  | _ => false
  end.

Lemma plain_rules_values r w stmt :
  r ∈ plain_rules -> derives (snd r) w stmt -> provider_statement stmt = false.
Proof.
  intros Hr Hd. apply list_elem_of_In in Hr. unfold plain_rules in Hr. cbn [In] in Hr.
  decompose [or] Hr; try done; subst r; cbn [snd] in Hd; try (by destruct Hd as (a & _ & [= <-])).
  destruct Hd as (a & Hd & E). invert_rule. revert E. cbv beta.
  match goal with |- context [qx_parse_memory_scope ?s] => by destruct (qx_parse_memory_scope s); intros [= <-] end.
Qed.

Lemma create_uncontracted w stmt :
  derives CreateProviderStmt_rule w stmt -> uncontracted stmt = true -> attestation_only w.
Proof.
  intros (w0 & wp & wv & wo & wa & f & p & v & o & a & -> & -> & H0 & Hp & Hv & Ho & Ha)%attested_derives.
  destruct (create_provider_value _ _ H0) as (? & ? & ? & ? & ? & ->). cbn.
  apply clause_after in Hp as [[-> ->]|(? & _ & ? & -> & _)]; [|done..].
  apply clause_after in Hv as [[-> ->]|(? & _ & ? & -> & _)]; [|done..].
  apply clause_after in Ho as [[-> ->]|(? & _ & ? & -> & _)]; [|done..].
  apply attestation_clause in Ha as [[-> ->]|(t & -> & Ht)]; [done|].
  intros _. left. by apply (alone_intro _ _ _ t [] H0).
Qed.

Lemma alter_uncontracted w stmt :
  derives AlterProviderStmt_rule w stmt -> uncontracted stmt = true -> attestation_only w.
Proof.
  intros (w1 & we & h & e & -> & Hd & _ & ->)%derives_Ap.
  apply attested_derives in Hd as (w0 & wp & wv & wo & wa & f & p & v & o & a & -> & -> & H0 & Hp & Hv & Ho & Ha).
  destruct (alter_provider_value _ _ H0) as (? & ? & ? & ? & ? & ->). cbn.
  apply clause_after in Hp as [[-> ->]|(? & _ & ? & -> & _)]; [|done..].
  apply clause_after in Hv as [[-> ->]|(? & _ & ? & -> & _)]; [|done..].
  apply clause_after in Ho as [[-> ->]|(? & _ & ? & -> & _)]; [|done..].
  apply attestation_clause in Ha as [[-> ->]|(t & -> & Ht)]; [done|].
  intros _. right. cbn [app]. rewrite <- app_assoc. by apply (alone_intro _ _ _ t we H0).
Qed.

Definition alter_follow : list symbol := [S_KW "enable"; S_KW "disable"] ++ statement_end.

Lemma provider_rules_safe :
  safe create_provider_head (after_profile statement_end) = true /\
  safe alter_provider_head (after_profile alter_follow) = true.
Proof. split; vm_compute; reflexivity. Qed.

Lemma attestation_only_refused w rest :
  attestation_only w -> exists r, parse_agent_stmt (w ++ rest) = Some (inl (SyntaxError r)).
Proof.
  destruct provider_rules_safe as [Sc Sa].
  intros [Ha|Ha]; pose proof Ha as (w0 & f & t & w1 & -> & Hd & _);
    apply derives_lead in Hd as (w' & -> & _).
  - destruct (attestation_alone_error _ 0 _ Sc _ rest Ha) as [r Hr]. exists r.
    rewrite <- !app_assoc in *. cbn [create_provider_head] in *.
    change (Some (parse_rule CreateProviderStmt_rule
      ((KEYWORD <$> ["create"; "provider"]) ++ w' ++ (KEYWORD "attestation" :: t :: w1) ++ rest)) =
      Some (inl (SyntaxError r))).
    unfold parse_rule, CreateProviderStmt_rule. change (fst (lead _)) with ["create"; "provider"] in Hr.
    unfold qx_opt_provider_attestation. by rewrite Hr.
  - destruct (attestation_alone_error _ (-1) _ Sa _ rest Ha) as [r Hr]. exists r.
    rewrite <- !app_assoc in *.
    change (Some (parse_rule AlterProviderStmt_rule
      ((KEYWORD <$> ["alter"; "provider"]) ++ w' ++ (KEYWORD "attestation" :: t :: w1) ++ rest)) =
      Some (inl (SyntaxError r))).
    unfold parse_rule, AlterProviderStmt_rule. rewrite parse_Ap.
    change (fst (lead _)) with ["alter"; "provider"] in Hr.
    unfold qx_opt_alter_provider_attestation. by rewrite Hr.
Qed.

Lemma create_provider_parsed w stmt rest :
  derives CreateProviderStmt_rule w stmt -> follows statement_end rest ->
  attestation_only w \/ parse CreateProviderStmt_rule (w ++ rest) = inr (stmt, rest).
Proof.
  intros Hd Hf. destruct provider_rules_safe as [Sc _].
  destruct (attested_parsed create_provider_head 0 statement_end Sc) with w stmt rest as [H|H];
    [reflexivity..|done|done|by left; left|by right].
Qed.

Lemma alter_provider_parsed w stmt rest :
  derives AlterProviderStmt_rule w stmt -> follows statement_end rest ->
  attestation_only w \/ parse AlterProviderStmt_rule (w ++ rest) = inr (stmt, rest).
Proof.
  intros (w1 & we & h & e & -> & Hd & He & ->)%derives_Ap Hf. destruct provider_rules_safe as [_ Sa].
  pose proof (follow_head _ _ _ _ _ (first_derives _ _ _ He) Hf) as Hfe.
  destruct (attested_parsed alter_provider_head (-1) alter_follow Sa) with w1 h (we ++ rest) as [H|H];
    [reflexivity..|done|exact Hfe| |].
  - left. right. destruct H as (w0 & f & t & w2 & -> & H). exists w0, f, t, (w2 ++ we).
    split; [by rewrite <- app_assoc|done].
  - right. unfold AlterProviderStmt_rule. rewrite parse_Ap, <- app_assoc.
    unfold qx_opt_alter_provider_attestation. rewrite H.
    by rewrite (parse_complete qx_opt_alter_enabled statement_end we e).
Qed.

Lemma provider_rule_of w stmt :
  agent_derives w stmt -> provider_statement stmt = true ->
  derives CreateProviderStmt_rule w stmt \/ derives AlterProviderStmt_rule w stmt.
Proof.
  intros (r & Hr & Hd) Hp. apply elem_of_app in Hr as [Hr|Hr].
  - by rewrite (plain_rules_values r w) in Hp.
  - apply list_elem_of_In in Hr. destruct Hr as [<-|[<-|[]]]; auto.
Qed.

(** C18. CREATE PROVIDER and ALTER PROVIDER as the grammar derives them are
    parsed to their statement, with one exception: ATTESTATION ENABLE or DISABLE
    with no PROFILE, VERSION or POLICY before it is a syntax error, because the
    parser takes ATTESTATION for the beginning of ATTESTATION PROFILE.  So no
    statement the parser returns asks for attestation without naming a part of
    the contract. *)
Theorem provider_attestation_needs_contract :
  (forall w stmt rest,
     agent_derives w stmt -> provider_statement stmt = true -> follows statement_end rest ->
     (attestation_only w /\ exists r, parse_agent_stmt (w ++ rest) = Some (inl (SyntaxError r))) \/
     (~ attestation_only w /\ parse_agent_stmt (w ++ rest) = Some (inr (stmt, rest)))) /\
  (forall ts stmt rest, parse_agent_stmt ts = Some (inr (stmt, rest)) -> uncontracted stmt = false).
Proof.
  split.
  - intros w stmt rest Hd Hp Hf.
    assert (attestation_only w \/ parse_agent_stmt (w ++ rest) = Some (inr (stmt, rest))) as [Ho|Ho].
    { destruct (provider_rule_of w stmt) as [H|H]; try done.
      - destruct (create_provider_parsed w stmt rest) as [?|E]; auto. right.
        rewrite (agent_rule_chosen (["create"; "provider"], CreateProviderStmt_rule) w stmt rest);
          [|by apply list_elem_of_In; cbn; auto 20|done]. f_equal. by apply parse_rule_ok.
      - destruct (alter_provider_parsed w stmt rest) as [?|E]; auto. right.
        rewrite (agent_rule_chosen (["alter"; "provider"], AlterProviderStmt_rule) w stmt rest);
          [|by apply list_elem_of_In; cbn; auto 20|done]. f_equal. by apply parse_rule_ok. }
    + left. split; [done|]. by apply attestation_only_refused.
    + right. split; [|done]. intros [r Hr]%(attestation_only_refused _ rest). congruence.
  - intros ts stmt rest Hp. destruct (uncontracted stmt) eqn:E; [|done].
    pose proof Hp as (_ & w & -> & Hd)%parsed_by_rule.
    assert (attestation_only w) as [r Hr]%(attestation_only_refused _ rest); [|congruence].
    destruct (provider_rule_of w stmt) as [H|H];
      [done|by destruct stmt|by eapply create_uncontracted|by eapply alter_uncontracted].
Qed.

End Derivations.

(** ** Statements whose expressions are constants *)

Definition literal (t : token) : option pg_node :=
  match t with
  | ICONST z => Some (NAConst (Some (NInteger z)))
  | FCONST s => Some (NAConst (Some (NFloat s)))
  | SCONST s => Some (NAConst (Some (NString s)))
  | KEYWORD w => if String.eqb w "true" then Some (NAConst (Some (NBoolean true)))
                 else if String.eqb w "false" then Some (NAConst (Some (NBoolean false)))
                 else if String.eqb w "null" then Some (NAConst None) else None
  | _ => None
  end.

Definition parse_literal : parser pg_node := fun ts =>
  match ts with
  | t :: rest => match literal t with Some n => inr (n, rest) | None => inl (SyntaxError ts) end
  | [] => inl (SyntaxError [])
  end.

Program Definition LiteralExpr : ExprGrammar := {|
  expr_derives w n := exists t, w = [t] /\ literal t = Some n;
  a_expr := parse_literal
|}.
Next Obligation.
  intros [|t ts] n rest; cbn; [done|]. destruct (literal t) eqn:E; [|done].
  intros [= <- <-]. exists [t]. split; [done|]. by exists t.
Qed.
Next Obligation. intros w n rest (t & -> & E) _. cbn. by rewrite E. Qed.
Next Obligation. by intros n (t & ? & _). Qed.

(** RUN TASK IN SESSION 7 GOAL 'sum' PRIORITY high RETURNING TASK; *)
Definition run_task_tokens : list token :=
  [KEYWORD "run"; KEYWORD "task"; KEYWORD "in"; KEYWORD "session"; ICONST 7; KEYWORD "goal"; SCONST "sum";
   KEYWORD "priority"; IDENT "high"; KEYWORD "returning"; KEYWORD "task"; CHAR ";"].

Definition run_task_read : UtilityStmt :=
  T_RunTaskStmt (MkRunTask (NAConst (Some (NInteger 7))) None "sum" None (Some "high") true).

Lemma agent_statement_parsed_iff_witness :
  provider_statement run_task_read = false /\
  follows statement_end [CHAR ";"] /\
  exists w, run_task_tokens = w ++ [CHAR ";"] /\ @agent_derives LiteralExpr w run_task_read.
Proof.
  split; [reflexivity|].
  apply (proj1 (@agent_statement_parsed_iff LiteralExpr run_task_tokens run_task_read [CHAR ";"] eq_refl)).
  vm_compute. reflexivity.
Defined.

(** CREATE PROVIDER p KIND 'k' ENDPOINT 'e' VERSION '1' ATTESTATION ENABLE *)
Definition create_provider_tokens : list token :=
  [KEYWORD "create"; KEYWORD "provider"; IDENT "p"; KEYWORD "kind"; SCONST "k"; KEYWORD "endpoint";
   SCONST "e"; KEYWORD "version"; SCONST "1"; KEYWORD "attestation"; KEYWORD "enable"].

Definition create_provider_read : UtilityStmt :=
  T_CreateProviderStmt (MkCreateProvider (MkRangeVar None None "p") (Some "k") (Some "e") None None None
                          (Some "1") None true).

Lemma provider_attestation_needs_contract_witness :
  @parse_agent_stmt LiteralExpr create_provider_tokens = Some (inr (create_provider_read, [])) /\
  uncontracted create_provider_read = false.
Proof.
  assert (@parse_agent_stmt LiteralExpr create_provider_tokens = Some (inr (create_provider_read, [])))
    as Hp by (vm_compute; reflexivity).
  split; [exact Hp|].
  exact (proj2 (@provider_attestation_needs_contract LiteralExpr) create_provider_tokens create_provider_read [] Hp).
Defined.
