(* ===== verification/Effects.v ===== *)
(** * What engine code may do to the world

    A command of the engine is many catalog operations deep.  This file gives
    the small vocabulary of effects they are made of: rows added to a table, a
    row rewritten, a message logged, a task's counters charged, a task moved
    from one state to the next, rows made visible.  [does T m] says that every
    successful run of [m] is a sequence of such effects that moves no task
    outside [T]; it is closed under [bind] and loops, so [does_tac] proves it of
    a command from the lemmas of the operations it calls.  [moves o s s' m] adds
    what happens to one task: started with [o] in state [s], [m] leaves it in
    [s'].

    The invariants at the end are proved once, of each effect: identifiers of
    tasks stay unique, no task passes a ceiling it has, the log grows by
    messages of the engine's own schemas only, tasks are never lost and change
    state along [task_step] only. *)

From Stdlib Require Import Ascii String.
From stdpp Require Import relations.
From S2P Require Import Prelude Text Types Scheduler Stat Observe SemanticLog Tables World Catalog.
From S2P Require Import Decoding TaskView PolicyProps Utility.
Open Scope string_scope.
Open Scope Z_scope.
Open Scope bool_scope.
Open Scope list_scope.

(** ** The state of a task *)

Inductive task_step : ascii -> ascii -> Prop :=
  | step_dispatch : task_step QX_TASK_STATE_QUEUED QX_TASK_STATE_RUNNING
  | step_checkpoint : task_step QX_TASK_STATE_RUNNING QX_TASK_STATE_CHECKPOINTED
  | step_resume : task_step QX_TASK_STATE_CHECKPOINTED QX_TASK_STATE_RUNNING
  | step_complete : task_step QX_TASK_STATE_RUNNING QX_TASK_STATE_COMPLETED
  | step_reclaim : task_step QX_TASK_STATE_RUNNING QX_TASK_STATE_QUEUED
  | step_redispatch : task_step QX_TASK_STATE_RUNNING QX_TASK_STATE_RUNNING
  | step_dead_letter : task_step QX_TASK_STATE_QUEUED QX_TASK_STATE_FAILED.

Definition task_state (w : world) (o : Oid) : option ascii :=
  qxtaskstate <$> find_oid o (c_tasks (w_vis w)).

(** No two tasks, visible or not, share an identifier. *)
Definition unique_tasks (w : world) : Prop := NoDup (row_oid <$> all_rows pg_qx_task w).

(** ** Effects *)

(** The tables the policy rules are about. *)
Definition registry (c : catalog) :=
  (c_providers c, c_principals c, c_namespaces c, c_tools c).

(** Tables whose rows are neither tasks nor, outside DDL, of the registry. *)
Class Unwatched (ddl : bool) (R : Type) `{Table R} := {
  unwatched_tasks : forall l c, c_tasks (set_rows l c) = c_tasks c;
  unwatched_registry : ddl = false -> forall l c, registry (set_rows l c) = registry c
}.

#[export] Instance unwatched_agent ddl : Unwatched ddl pg_qx_agent.
Proof. done. Qed.
#[export] Instance unwatched_identity ddl : Unwatched ddl pg_qx_identity.
Proof. done. Qed.
#[export] Instance unwatched_session ddl : Unwatched ddl pg_qx_session.
Proof. done. Qed.
#[export] Instance unwatched_attempt ddl : Unwatched ddl pg_qx_attempt.
Proof. done. Qed.
#[export] Instance unwatched_step ddl : Unwatched ddl pg_qx_step.
Proof. done. Qed.
#[export] Instance unwatched_event ddl : Unwatched ddl pg_qx_event.
Proof. done. Qed.
#[export] Instance unwatched_trace ddl : Unwatched ddl pg_qx_trace.
Proof. done. Qed.
#[export] Instance unwatched_checkpoint ddl : Unwatched ddl pg_qx_checkpoint.
Proof. done. Qed.
#[export] Instance unwatched_memory ddl : Unwatched ddl pg_qx_memory.
Proof. done. Qed.
#[export] Instance unwatched_queue ddl : Unwatched ddl pg_qx_scheduler_queue.
Proof. done. Qed.
#[export] Instance unwatched_lease ddl : Unwatched ddl pg_qx_scheduler_lease.
Proof. done. Qed.
#[export] Instance unwatched_heartbeat ddl : Unwatched ddl pg_qx_scheduler_heartbeat.
Proof. done. Qed.
#[export] Instance unwatched_history ddl : Unwatched ddl pg_qx_stat_history.
Proof. done. Qed.
#[export] Instance unwatched_provider : Unwatched true pg_qx_provider.
Proof. done. Qed.
#[export] Instance unwatched_principal : Unwatched true pg_qx_principal.
Proof. done. Qed.
#[export] Instance unwatched_namespace : Unwatched true pg_qx_namespace.
Proof. done. Qed.
#[export] Instance unwatched_tool : Unwatched true pg_qx_tool.
Proof. done. Qed.

Definition append_new {R} `{Table R} (r : R) (w : world) : world :=
  set_new (set_rows (rows (w_new w) ++ [r]) (w_new w)) w.

Definition rewrite_rows {R} `{Table R} (l : list R) (w : world) : world :=
  set_vis (set_rows l (w_vis w)) w.

(** [update_row] on the tasks. *)
Definition rewrite_task (o : Oid) (f : pg_qx_task -> pg_qx_task) (w : world) : world :=
  rewrite_rows (change_row o f (c_tasks (w_vis w))) w.

Inductive effect (ddl : bool) (T : Oid -> Prop) (w : world) : world -> Prop :=
  | eff_keep w' : same_catalogs w w' -> effect ddl T w w'
  | eff_oid n : effect ddl T w (set_next_oid n w)
  | eff_recovery r : effect ddl T w (set_recovery r w)
  | eff_log m : semantic_message m -> effect ddl T w (set_wal (w_wal w ++ [m]) w)
  | eff_insert R `{Unwatched ddl R} (r : R) : effect ddl T w (append_new r w)
  | eff_rows R `{Unwatched ddl R} (l : list R) : effect ddl T w (rewrite_rows l w)
  | eff_insert_task t :
      oid_taken pg_qx_task w (task_oid t) = false -> qxtaskstate t = QX_TASK_STATE_QUEUED ->
      qxtaskconsumedtokens t = 0 -> qxtaskconsumedcost t = 0 ->
      effect ddl T w (append_new t w)
  | eff_move o t state att set_att ck set_ck :
      T o -> find_oid o (c_tasks (w_vis w)) = Some t -> task_step (qxtaskstate t) state ->
      effect ddl T w (rewrite_task o (set_task_runtime state att set_att ck set_ck) w)
  | eff_charge o t tokens cost :
      find_oid o (c_tasks (w_vis w)) = Some t -> within_budget (charge_row tokens cost t) = true ->
      effect ddl T w (rewrite_task o (set_task_consumed (qxtaskconsumedtokens (charge_row tokens cost t))
                                        (qxtaskconsumedcost (charge_row tokens cost t))) w)
  | eff_cci : effect ddl T w (cci_world w).

(** ** What an effect does to the tasks *)

Definition retains_oid (f : pg_qx_task -> pg_qx_task) : Prop :=
  forall t, task_oid (f t) = task_oid t.

Inductive task_change (T : Oid -> Prop) (w w' : world) : Prop :=
  | change_none :
      c_tasks (w_vis w') = c_tasks (w_vis w) -> c_tasks (w_new w') = c_tasks (w_new w) ->
      task_change T w w'
  | change_insert t :
      oid_taken pg_qx_task w (task_oid t) = false -> qxtaskstate t = QX_TASK_STATE_QUEUED ->
      within_budget t = true -> c_tasks (w_vis w') = c_tasks (w_vis w) ->
      c_tasks (w_new w') = c_tasks (w_new w) ++ [t] -> task_change T w w'
  | change_rewrite t f :
      t ∈ c_tasks (w_vis w) -> retains_oid f ->
      (forall s, qxtaskstate s = qxtaskstate t -> qxtaskstate (f s) = qxtaskstate s \/
         T (task_oid t) /\ task_step (qxtaskstate s) (qxtaskstate (f s))) ->
      (within_budget t = true -> within_budget (f t) = true) ->
      find_oid (task_oid t) (c_tasks (w_vis w)) = Some t ->
      c_tasks (w_vis w') = change_row (task_oid t) f (c_tasks (w_vis w)) ->
      c_tasks (w_new w') = c_tasks (w_new w) -> task_change T w w'
  | change_visible :
      c_tasks (w_vis w') = c_tasks (w_vis w) ++ c_tasks (w_new w) -> c_tasks (w_new w') = [] ->
      task_change T w w'.

Lemma fresh_within t :
  qxtaskconsumedtokens t = 0 -> qxtaskconsumedcost t = 0 -> within_budget t = true.
Proof.
  intros H1 H2. unfold within_budget. rewrite H1, H2.
  destruct (0 <? qxtaskbudgettokens t) eqn:A, (0 <? qxtaskbudgetcost t) eqn:B; simpl; breflect;
    repeat match goal with |- context [?a <? ?b] => destruct (a <? b) eqn:?; breflect; try lia end;
    done.
Qed.

Lemma effect_tasks ddl T w w' : effect ddl T w w' -> task_change T w w'.
Proof.
  destruct 1 as [w' (Hv & Hn & _)|n|r|m _|R ? ? r|R ? ? l|t Hf Hs H1 H2
    |o t state att sa ck sc HT Hf Hst|o t tokens cost Hf Hb|].
  - apply change_none; congruence.
  - by apply change_none.
  - by apply change_none.
  - by apply change_none.
  - apply change_none; [done|]. simpl. by rewrite (unwatched_tasks (ddl := ddl)).
  - apply change_none; [|done]. simpl. by rewrite (unwatched_tasks (ddl := ddl)).
  - apply (change_insert _ _ _ t); auto using fresh_within.
  - apply find_oid_row in Hf as Hin. destruct Hin as [Hin <-].
    apply (change_rewrite _ _ _ t (set_task_runtime state att sa ck sc)); try done.
    intros s Hs. right. by rewrite Hs.
  - apply find_oid_row in Hf as Hin. destruct Hin as [Hin <-].
    eapply (change_rewrite _ _ _ t (set_task_consumed _ _)); try done. intros s Hs. by left.
  - by apply change_visible; simpl; rewrite ?(rows_merge (R := pg_qx_task)).
Qed.

Section Invariants.
Context (ddl : bool) (T : Oid -> Prop).

Lemma change_unique w w' : unique_tasks w -> task_change T w w' -> unique_tasks w'.
Proof.
  unfold unique_tasks, all_rows. change (@rows pg_qx_task _) with c_tasks.
  intros Hu [Hv Hn|t Hf _ _ Hv Hn|t f _ Hr _ _ _ Hv Hn|Hv Hn]; rewrite Hv, Hn.
  - done.
  - rewrite app_assoc. apply (NoDup_add (R := pg_qx_task)); [done|]. intros Hin.
    assert (oid_taken pg_qx_task w (task_oid t) = true) as H; [by apply oid_taken_spec|congruence].
  - rewrite fmap_app, (change_oids (R := pg_qx_task)) by done. by rewrite <- fmap_app.
  - by rewrite app_nil_r.
Qed.

Lemma change_within w w' :
  unique_tasks w -> task_change T w w' -> Forall (fun t => within_budget t = true) (all_rows pg_qx_task w) ->
  Forall (fun t => within_budget t = true) (all_rows pg_qx_task w').
Proof.
  unfold unique_tasks, all_rows. change (@rows pg_qx_task _) with c_tasks.
  intros Hu [Hv Hn|t _ _ Hb Hv Hn|t f Hin _ _ Hb _ Hv Hn|Hv Hn] H; rewrite Hv, Hn.
  - done.
  - rewrite app_assoc. apply Forall_app. split; [done|]. by apply Forall_singleton.
  - apply Forall_app in H as [H1 H2]. apply Forall_app. split; [|done].
    rewrite fmap_app in Hu. apply NoDup_app in Hu as (Hu & _ & _).
    change (task_oid t) with (row_oid t). apply Forall_change; try done. apply Hb. rewrite Forall_forall in H1. auto.
  - by rewrite app_nil_r.
Qed.

(** A visible task stays; its state changes along [task_step] if [T] has it. *)
Lemma change_state w w' o s :
  task_change T w w' -> task_state w o = Some s ->
  exists s', task_state w' o = Some s' /\ (s' = s \/ T o /\ task_step s s').
Proof.
  unfold task_state. intros Hc (r & Hr & Hs)%fmap_Some. subst s.
  destruct Hc as [Hv _|t _ _ _ Hv _|t f _ Hrt Hst _ Hft Hv _|Hv _]; rewrite Hv.
  1,2: rewrite Hr; eauto.
  - rewrite (find_change (R := pg_qx_task)), Hr by done. cbn [fmap option_fmap option_map].
    apply find_oid_row in Hr as Hin. destruct Hin as [_ <-]. cbn [row_oid table_task] in *.
    destruct (task_oid r =? task_oid t) eqn:Eo; breflect; [|eauto].
    rewrite Eo, Hft in Hr. injection Hr as <-. eexists. split; [done|]. by apply Hst.
  - erewrite find_oid_app by exact Hr. eauto.
Qed.

Definition logs_only (w w' : world) : Prop :=
  exists ms, w_wal w' = w_wal w ++ ms /\ Forall semantic_message ms.

Lemma effect_logs w w' : effect ddl T w w' -> logs_only w w'.
Proof.
  destruct 1 as [w' (_ & _ & _ & Hw & _)|n|r|m Hm|R ? ? r|R ? ? l|t|o t state|o t tokens cost|];
    try (exists []; split; [by rewrite app_nil_r|done]).
  exists [m]. split; [done|]. by apply Forall_singleton.
Qed.

Lemma effect_registry w w' :
  ddl = false -> registry (w_new w) = registry empty_catalog -> effect ddl T w w' ->
  registry (w_vis w') = registry (w_vis w) /\ registry (w_new w') = registry empty_catalog.
Proof.
  intros Hd Hr. destruct 1 as [w' (Hv & Hn & _)|n|r|m Hm|R ? ? r|R ? ? l|t|o t state|o t tokens cost|];
    try done.
  - by rewrite Hv, Hn.
  - split; [done|]. simpl. by rewrite unwatched_registry.
  - split; [|done]. simpl. by rewrite unwatched_registry.
  - split; [|done]. unfold registry in *. cbn in Hr |- *. injection Hr as -> -> -> ->.
    by rewrite !app_nil_r.
Qed.

End Invariants.

(** ** Sequences of effects *)

Lemma effects_unique ddl T w w' : unique_tasks w -> rtc (effect ddl T) w w' -> unique_tasks w'.
Proof.
  intros Hu. induction 1 as [|w1 w2 w3 H _ IH]; [done|].
  apply IH. eapply change_unique; [exact Hu|]. by eapply effect_tasks.
Qed.

Lemma effects_state ddl T w w' o s :
  rtc (effect ddl T) w w' -> task_state w o = Some s ->
  exists s', task_state w' o = Some s' /\ rtc task_step s s' /\ (s' = s \/ T o).
Proof.
  intros Hr. revert s. induction Hr as [|w1 w2 w3 H _ IH]; intros s Hs.
  { exists s. split; [done|]. split; [apply rtc_refl|by left]. }
  destruct (change_state T w1 w2 o s (effect_tasks _ _ _ _ H) Hs) as (s1 & H1 & Hstep).
  destruct (IH s1 H1) as (s' & H2 & Hr & HT). exists s'. split; [done|].
  destruct Hstep as [->|[Ho Hst]]; [done|]. split; [|auto]. by eapply rtc_l.
Qed.

(** Tasks outside [T] keep their state. *)
Lemma effects_other ddl T w w' o s :
  rtc (effect ddl T) w w' -> ~ T o -> task_state w o = Some s -> task_state w' o = Some s.
Proof.
  intros Hr HT Hs. by destruct (effects_state _ _ _ _ _ _ Hr Hs) as (s' & H & _ & [->|]).
Qed.

Lemma effect_mono ddl (T T' : Oid -> Prop) w w' :
  (forall o, T o -> T' o) -> effect ddl T w w' -> effect ddl T' w w'.
Proof.
  intros HT. destruct 1; [by apply eff_keep|apply eff_oid|apply eff_recovery|by apply eff_log
    |by eapply eff_insert|by eapply eff_rows|by apply eff_insert_task|eapply eff_move; eauto
    |by apply eff_charge|apply eff_cci].
Qed.

Lemma effects_mono ddl (T T' : Oid -> Prop) w w' :
  (forall o, T o -> T' o) -> rtc (effect ddl T) w w' -> rtc (effect ddl T') w w'.
Proof. intros HT. apply rtc_subrel. intros x y. by apply effect_mono. Qed.

(** *** Code whose runs are effects *)

Definition does (ddl : bool) (T : Oid -> Prop) {A} (m : M A) : Prop :=
  forall w a w', unique_tasks w -> m w = Ok a w' -> rtc (effect ddl T) w w'.

Definition moves (o : Oid) (s s' : ascii) {A} (m : M A) : Prop :=
  forall w a w', unique_tasks w -> task_state w o = Some s -> m w = Ok a w' ->
    rtc (effect false (eq o)) w w' /\ task_state w' o = Some s'.

Lemma lookup_task_row c o info :
  QxCatalogLookupTaskByOid c o = Some info ->
  exists t, find_oid o (c_tasks c) = Some t /\ info = qx_catalog_fill_task_info c t.
Proof.
  unfold QxCatalogLookupTaskByOid, lookup_by_oid. intros (t & Ht & ->)%fmap_Some. exists t.
  destruct (OidIsValid o); [|discriminate Ht]. done.
Qed.

Section Does.
Context (ddl : bool) (T : Oid -> Prop).

Lemma does_keeps {A} (m : M A) : keeps m -> does ddl T m.
Proof. intros Hm w a w' _ H. apply rtc_once, eff_keep. by eapply keeps_ok. Qed.

Lemma does_ret {A} (a : A) : does ddl T (ret a).
Proof. apply does_keeps, keeps_ret. Qed.

Lemma does_throw {A} code msg detail : does ddl T (@throw A code msg detail).
Proof. by intros w a w'. Qed.

Lemma does_bind {A B} (m : M A) (k : A -> M B) :
  does ddl T m -> (forall a, does ddl T (k a)) -> does ddl T (bind m k).
Proof.
  intros Hm Hk w b w' Hu (a & w1 & H1 & H2)%bind_ok. apply Hm in H1; [|done].
  etrans; [exact H1|]. eapply Hk; [|exact H2]. by eapply effects_unique.
Qed.

Lemma does_mforeach {A} (f : A -> M unit) l :
  (forall x, does ddl T (f x)) -> does ddl T (mforeach f l).
Proof. intros Hf. induction l as [|x l IH]; [apply does_ret|]. by apply does_bind. Qed.

Lemma does_cci : does ddl T CommandCounterIncrement.
Proof. intros w a w' _ H. injection H as _ <-. apply rtc_once, eff_cci. Qed.

Lemma does_recovery f : does ddl T (modify (fun w => set_recovery (f w) w)).
Proof. intros w a w' _ H. injection H as _ <-. apply rtc_once, eff_recovery. Qed.

Lemma does_log E prefix text : semantic_message (prefix, text) -> does ddl T (LogLogicalMessage E prefix text).
Proof. intros Hm w a w' _ H. injection H as _ <-. by apply rtc_once, eff_log. Qed.

Lemma does_new_oid R `{Table R} : does ddl T (GetNewOidWithIndex R).
Proof. intros w a w' _ (_ & _ & n & ->)%new_oid_loop_ok. apply rtc_once, eff_oid. Qed.

Section Rows.
Context (R : Type) `{Unwatched ddl R}.

Lemma does_insert_tuple (r : R) : does ddl T (CatalogTupleInsert r).
Proof. intros w a w' _ H'. injection H' as _ <-. by apply rtc_once, (eff_insert _ _ _ R). Qed.

Lemma does_insert_row (mk : Oid -> R) : does ddl T (insert_row mk).
Proof.
  unfold insert_row. apply does_bind; [apply does_new_oid|]. intros o.
  apply does_bind; [apply does_insert_tuple|]. intros _. apply does_ret.
Qed.

Lemma does_insert_unique conflict index (mk : Oid -> R) :
  does ddl T (insert_row_unique conflict index mk).
Proof.
  unfold insert_row_unique. apply does_bind; [apply does_new_oid|]. intros o.
  apply does_bind; [apply does_keeps, keeps_gets|]. intros clash. destruct clash; [apply does_throw|].
  apply does_bind; [apply does_insert_tuple|]. intros _. apply does_ret.
Qed.

Lemma does_update_row o (f : R -> R) : does ddl T (update_row o f).
Proof. intros w a w' _ H'. injection H' as _ <-. by apply rtc_once, (eff_rows _ _ _ R). Qed.

Lemma does_delete_rows (p : R -> bool) : does ddl T (delete_rows p).
Proof. intros w a w' _ H'. injection H' as _ <-. by apply rtc_once, (eff_rows _ _ _ R). Qed.

End Rows.

Lemma does_charge o tokens cost name : does ddl T (QxCatalogChargeTaskBudget o tokens cost name).
Proof.
  intros w a w' _ (c & w1 & H1 & H)%bind_ok. injection H1 as <- <-.
  destruct (QxCatalogLookupTaskByOid (w_vis w) o) as [info|] eqn:L; [|discriminate H].
  apply lookup_task_row in L as (t & Hf & ->).
  cbn [ti_row qx_catalog_fill_task_info] in H.
  destruct ((0 <? qxtaskbudgettokens t) && _) eqn:B1; [discriminate H|].
  destruct ((0 <? qxtaskbudgetcost t) && _) eqn:B2; [discriminate H|].
  unfold bind, SearchSysCache, gets in H. cbn [rows table_task] in H. rewrite Hf in H.
  injection H as _ <-. eapply rtc_l; [|apply rtc_once, eff_cci].
  apply (eff_charge _ _ _ o t tokens cost Hf).
  unfold within_budget, charge_row. cbn -[int32]. by rewrite B1, B2.
Qed.

End Does.

Create HintDb effects.
#[export] Hint Resolve does_ret does_throw does_mforeach does_cci does_recovery does_log does_new_oid
  does_insert_tuple does_insert_row does_insert_unique does_update_row does_delete_rows
  does_charge : effects.
#[export] Hint Extern 2 (does _ _ _) => apply does_keeps; solve [auto with qx nocore] : effects.
#[export] Hint Resolve semantic_event_message semantic_trace_message semantic_checkpoint_message
  : effects.
#[export] Hint Extern 1 (Unwatched _ _) => typeclasses eauto : effects.

(** Follow binds and case distinctions; unfold what has no lemma. *)
Ltac does_step :=
  match goal with
  | |- forall _, _ => intros
  | |- does _ _ (bind _ _) => apply does_bind
  | |- does _ _ (match ?x with _ => _ end) => destruct x
  | |- does _ _ _ => solve [auto with effects nocore]
  | |- does _ _ (mforeach _ _) => apply does_mforeach
  | |- does _ _ ?m => let h := head_of m in progress unfold h; cbv beta zeta
  end.
Ltac does_tac := repeat does_step.

(** *** One task *)

Section Moves.
Context (o : Oid).

Lemma moves_does {A} (m : M A) s : does false (fun _ => False) m -> moves o s s m.
Proof.
  intros Hm w a w' Hu Hs H. apply Hm in H; [|done]. split; [by eapply effects_mono; [|exact H]|].
  eapply effects_other; [exact H| |exact Hs]. tauto.
Qed.

Lemma moves_bind {A B} (m : M A) (k : A -> M B) s s1 s2 :
  moves o s s1 m -> (forall a, moves o s1 s2 (k a)) -> moves o s s2 (bind m k).
Proof.
  intros Hm Hk w b w' Hu Hs (a & w1 & H1 & H2)%bind_ok.
  apply Hm in H1 as [He Hs1]; [|done..].
  apply Hk in H2 as [He2 Hs2]; [|by eapply effects_unique|done]. split; [by etrans|done].
Qed.

Lemma moves_throw {A} s s' code msg detail : moves o s s' (@throw A code msg detail).
Proof. by intros w a w'. Qed.

Lemma moves_runtime s s' att set_att ck set_ck :
  task_step s s' -> moves o s s' (QxCatalogUpdateTaskRuntime o s' att set_att ck set_ck).
Proof.
  intros Hst w a w' Hu (t & Hf & ->)%fmap_Some H.
  unfold QxCatalogUpdateTaskRuntime, bind, SearchSysCache, gets in H. cbn [rows table_task] in H.
  rewrite Hf in H. injection H as _ <-.
  set (w1 := rewrite_task o (set_task_runtime s' att set_att ck set_ck) w).
  assert (effect false (eq o) w w1) as H1 by (by eapply eff_move).
  split; [eapply rtc_l; [exact H1|]; apply rtc_once, eff_cci|].
  assert (task_state w1 o = Some s') as Hs.
  { unfold task_state, w1. cbn. change (change_row o ?f ?l) with (change_row (R := pg_qx_task) o f l).
    rewrite (find_change (R := pg_qx_task)), Hf by done. cbn.
    apply find_oid_row in Hf as [_ Ho]. cbn in Ho. by rewrite Ho, Z.eqb_refl. }
  eapply (effects_other false (fun _ => False)); [apply rtc_once, eff_cci| |exact Hs]. tauto.
Qed.

End Moves.

(** As [moves], without the state the task ends in. *)
Definition handles (o : Oid) (s : ascii) {A} (m : M A) : Prop :=
  forall w a w', unique_tasks w -> task_state w o = Some s -> m w = Ok a w' ->
    rtc (effect false (eq o)) w w'.

Lemma handles_moves o s s' {A} (m : M A) : moves o s s' m -> handles o s m.
Proof. intros Hm w a w' Hu Hs H. by apply Hm in H as [H _]. Qed.

Lemma handles_does o s {A} (m : M A) : does false (fun _ => False) m -> handles o s m.
Proof. intros Hm. by eapply handles_moves, moves_does. Qed.

Lemma handles_throw {A} o s code msg detail : handles o s (@throw A code msg detail).
Proof. by intros w a w'. Qed.

Lemma handles_bind {A B} o s s1 (m : M A) (k : A -> M B) :
  moves o s s1 m -> (forall a, handles o s1 (k a)) -> handles o s (bind m k).
Proof.
  intros Hm Hk w b w' Hu Hs (a & w1 & H1 & H2)%bind_ok.
  apply Hm in H1 as [He Hs1]; [|done..]. etrans; [exact He|].
  eapply Hk; [by eapply effects_unique|exact Hs1|exact H2].
Qed.

Lemma handles_tail {A B} o s (m : M A) (k : A -> M B) :
  handles o s m -> (forall a, does false (fun _ => False) (k a)) -> handles o s (bind m k).
Proof.
  intros Hm Hk w b w' Hu Hs (a & w1 & H1 & H2)%bind_ok. apply Hm in H1; [|done..].
  etrans; [exact H1|]. eapply effects_mono; [|eapply Hk; [by eapply effects_unique|exact H2]]. done.
Qed.

(** Code that finds the task in state [s] before it handles it. *)
Lemma does_found {A B} (oid_of : A -> Oid) s (m : M A) (k : A -> M B) :
  (forall w a w1, unique_tasks w -> m w = Ok a w1 ->
     rtc (effect false (fun _ => True)) w w1 /\ task_state w1 (oid_of a) = Some s) ->
  (forall a, handles (oid_of a) s (k a)) -> does false (fun _ => True) (bind m k).
Proof.
  intros Hm Hk w b w' Hu (a & w1 & H1 & H2)%bind_ok. apply Hm in H1 as [He Hs]; [|done].
  etrans; [exact He|]. eapply effects_mono; [|eapply Hk; [by eapply effects_unique|exact Hs|exact H2]].
  done.
Qed.

Lemma find_oid_fresh o (l : list pg_qx_task) t :
  existsb (fun r => row_oid r =? o) l = false -> task_oid t = o -> find_oid o (l ++ [t]) = Some t.
Proof.
  intros Hl Ho. unfold find_oid. induction l as [|x l IH].
  - cbn. by rewrite Ho, Z.eqb_refl.
  - cbn [existsb] in Hl. apply orb_false_iff in Hl as [Hx Hl]. cbn [app List.find]. rewrite Hx. auto.
Qed.

Lemma inserted_state w t :
  oid_taken pg_qx_task w (task_oid t) = false ->
  task_state (cci_world (append_new t w)) (task_oid t) = Some (qxtaskstate t).
Proof.
  intros Hf. unfold task_state. cbn -[find_oid]. rewrite app_assoc, find_oid_fresh; done.
Qed.

(** Inserting a task and making it visible. *)
Lemma insert_task_queued E p w o w1 :
  QxCatalogInsertTask E p w = Ok o w1 ->
  rtc (effect false (fun _ => True)) w (cci_world w1) /\
  task_state (cci_world w1) o = Some QX_TASK_STATE_QUEUED.
Proof.
  intros (o' & w0 & (Hf & _ & n & ->)%new_oid_loop_ok & H1)%bind_ok.
  injection H1 as <- <-. set (t := task_row E p o'). set (w0 := set_next_oid n w) in *.
  assert (oid_taken pg_qx_task w0 (task_oid t) = false) as Hf0 by exact Hf.
  split; [|by apply (inserted_state w0 t)].
  eapply rtc_l; [apply (eff_oid _ _ w n)|]. eapply rtc_l; [by apply (eff_insert_task _ _ w0 t)|].
  apply rtc_once, eff_cci.
Qed.

(** Code that handles a task it has inserted. *)
Lemma does_inserted {B} E p s (k : Oid -> M B) :
  s = QX_TASK_STATE_QUEUED -> (forall o, handles o s (k o)) ->
  does false (fun _ => True)
    (let* o := QxCatalogInsertTask E p in CommandCounterIncrement ;;; k o)%qx.
Proof.
  intros -> Hk w b w' Hu (o & w1 & [He Hs]%insert_task_queued & H2)%bind_ok.
  apply bind_ok in H2 as ([] & w2 & Hc & H2). injection Hc as <-.
  etrans; [exact He|]. eapply effects_mono; [|eapply (Hk o); [by eapply effects_unique|exact Hs|exact H2]].
  done.
Qed.

(** Code that returns a task it has inserted and moved to [s]. *)
Definition starts (s : ascii) (m : M Oid) : Prop :=
  forall w o w', unique_tasks w -> m w = Ok o w' ->
    rtc (effect false (fun _ => True)) w w' /\ task_state w' o = Some s.

Definition returns {A} (a : A) (m : M A) : Prop := forall w b w', m w = Ok b w' -> b = a.

Lemma returns_ret {A} (a : A) : returns a (ret a).
Proof. intros w b w' H. by injection H. Qed.

Lemma returns_bind {A B} (b : B) (m : M A) (k : A -> M B) :
  (forall a, returns b (k a)) -> returns b (bind m k).
Proof. intros Hk w c w' (a & w1 & _ & H)%bind_ok. by eapply Hk. Qed.

Lemma starts_bind {A} s (m : M A) (k : A -> M Oid) :
  does false (fun _ => True) m -> (forall a, starts s (k a)) -> starts s (bind m k).
Proof.
  intros Hm Hk w o w' Hu (a & w1 & H1 & H2)%bind_ok. apply Hm in H1; [|done].
  apply Hk in H2 as [He Hs]; [|by eapply effects_unique]. split; [by etrans|done].
Qed.

Lemma starts_inserted E p s (k : Oid -> M Oid) :
  (forall o, moves o QX_TASK_STATE_QUEUED s (k o)) -> (forall o, returns o (k o)) ->
  starts s (let* o := QxCatalogInsertTask E p in CommandCounterIncrement ;;; k o)%qx.
Proof.
  intros Hk Hr w b w' Hu (o & w1 & [He Hs]%insert_task_queued & H2)%bind_ok.
  apply bind_ok in H2 as ([] & w2 & Hc & H2). injection Hc as <-.
  apply Hr in H2 as Eb. subst b.
  apply Hk in H2 as [He2 Hs2]; [|by eapply effects_unique|done]. split; [|done].
  etrans; [exact He|]. eapply effects_mono; [|exact He2]. done.
Qed.

Ltac moves_step :=
  match goal with
  | |- forall _, _ => intros
  | |- moves _ _ _ (throw _ _ _) => apply moves_throw
  | |- handles _ _ (throw _ _ _) => apply handles_throw
  | |- moves _ _ _ _ => solve [eauto with moves nocore]
  | |- moves _ _ _ (QxCatalogUpdateTaskRuntime _ _ _ _ _ _) => apply moves_runtime; constructor
  | |- moves _ _ _ (bind _ _) => eapply moves_bind
  | |- handles _ _ (bind _ _) => apply handles_tail; [solve [eauto with moves nocore]|solve [does_tac]]
  | |- handles _ _ (bind _ _) => eapply handles_bind
  | |- moves _ _ _ (match ?x with _ => _ end) => destruct x
  | |- handles _ _ (match ?x with _ => _ end) => destruct x
  | |- moves _ _ _ _ => apply moves_does; solve [does_tac]
  | |- handles _ _ _ => apply handles_does; solve [does_tac]
  end.
Ltac moves_tac := repeat moves_step.

Create HintDb moves.
