(* ===== verification/EngineEffects.v ===== *)
(** * The effects of the engine's commands

    Every operation and command of the engine is a sequence of the effects of
    [Effects.v].  Most of them move no task; the lemmas about submission,
    resumption, reclaiming, retrying and dead-lettering say along which steps of
    the task state machine they move theirs. *)

From Stdlib Require Import Ascii String.
From stdpp Require Import relations.
From S2P Require Import Prelude Text Types Scheduler Stat Observe SemanticLog Tables World Catalog.
From S2P Require Import StatHistory Decoding TaskView Recovery Policy Backends ToolExec Envelope.
From S2P Require Import Security PolicyCommands RecoveryHooks Lifecycle Planner AgentCommands Trace.
From S2P Require Import Supervisor TestHooks PolicyProps Utility Effects.
Open Scope string_scope.
Open Scope Z_scope.
Open Scope bool_scope.
Open Scope list_scope.

(** ** Operations that move no task *)

Section Quiet.
Context (E : Env).

Lemma does_update_attempt ddl T o state : does ddl T (QxCatalogUpdateAttemptState o state).
Proof. does_tac. Qed.

Lemma does_insert_event ddl T sess task step owner meta kind payload :
  does ddl T (QxCatalogInsertEvent E sess task step owner meta kind payload).
Proof. does_tac. Qed.

Lemma does_report_trace ddl T name detail : does ddl T (QxStatReportTrace E name detail).
Proof. apply does_keeps. intros w. done. Qed.

#[local] Hint Resolve does_report_trace : effects.

Lemma does_insert_trace ddl T sess task step owner meta state name detail :
  does ddl T (QxCatalogInsertTrace E sess task step owner meta state name detail).
Proof. does_tac. Qed.

Lemma does_insert_checkpoint ddl T sess task att step owner meta state next label data :
  does ddl T (QxCatalogInsertCheckpoint E sess task att step owner meta state next label data).
Proof. does_tac. Qed.

Lemma does_insert_queue ddl T q : does ddl T (QxCatalogInsertSchedulerQueue E q).
Proof. does_tac. Qed.

Lemma does_insert_lease ddl T q l : does ddl T (QxCatalogInsertSchedulerLease E q l).
Proof. does_tac. Qed.

Lemma does_insert_heartbeat ddl T l h : does ddl T (QxCatalogInsertSchedulerHeartbeat E l h).
Proof. does_tac. Qed.

End Quiet.

#[export] Hint Resolve does_update_attempt does_insert_event does_insert_trace does_insert_checkpoint
  does_insert_queue does_insert_lease does_insert_heartbeat : effects.

(** *** Leases, queues and payloads *)

Section Envelopes.
Context (E : Env).

Lemma does_runtime_payload ddl T s e b : does ddl T (runtime_payload E s e b).
Proof. does_tac. Qed.

Lemma does_record_both ddl T sess task step owner meta kind name payload :
  does ddl T (record_both E sess task step owner meta kind name payload).
Proof. does_tac. Qed.

Lemma does_report_scheduler ddl T s : does ddl T (report_scheduler_event E s).
Proof. does_tac. Qed.

Lemma does_open_lease ddl T q e worker : does ddl T (open_lease E q e worker).
Proof. does_tac. Qed.

Lemma does_close_lease ddl T q l : does ddl T (close_lease E q l).
Proof. does_tac. Qed.

Lemma does_enqueue ddl T q : does ddl T (enqueue E q).
Proof. does_tac. Qed.

End Envelopes.

#[export] Hint Resolve does_runtime_payload does_record_both does_report_scheduler does_open_lease
  does_close_lease does_enqueue : effects.

(** *** Recovery *)

Lemma does_set_recovery ddl T r : does ddl T (modify (set_recovery r)).
Proof. exact (does_recovery ddl T (fun _ => r)). Qed.

Lemma does_each_summary ddl T {U S} (f : S -> U -> M U) l u :
  (forall s u, does ddl T (f s u)) -> does ddl T (each_summary f l u).
Proof. intros Hf. revert u. induction l as [|s l IH]; intros u; simpl; does_tac; apply Hf. Qed.

Lemma does_mfold ddl T {A S} (f : A -> S -> M S) l s :
  (forall x s, does ddl T (f x s)) -> does ddl T (mfold f l s).
Proof. intros Hf. revert s. induction l as [|x l IH]; intros s; simpl; does_tac; apply Hf. Qed.

#[export] Hint Resolve does_set_recovery : effects.

Section Scans.
Context (E : Env).

Lemma does_requeue ddl T s u : does ddl T (qx_runtime_recovery_requeue_task E s u).
Proof. does_tac. Qed.

Lemma does_fence ddl T s u : does ddl T (qx_runtime_recovery_fence_attempt E s u).
Proof. does_tac. Qed.

Lemma does_replay ddl T s u : does ddl T (qx_runtime_recovery_replay_checkpoint E s u).
Proof. does_tac. Qed.

Lemma does_finish ddl T s u : does ddl T (qx_runtime_recovery_finish E s u).
Proof. does_tac. Qed.

#[local] Hint Resolve does_requeue does_fence does_replay does_finish : effects.

(** Hooks that move no task. *)
Record quiet_hooks ddl T {U} (hooks : QxRecoveryHooks U) : Prop := {
  quiet_begin : forall f, hk_begin hooks = Some f -> forall s u, does ddl T (f s u);
  quiet_task : forall f, hk_task hooks = Some f -> forall s u, does ddl T (f s u);
  quiet_attempt : forall f, hk_attempt hooks = Some f -> forall s u, does ddl T (f s u);
  quiet_checkpoint : forall f, hk_checkpoint hooks = Some f -> forall s u, does ddl T (f s u);
  quiet_fence : forall f, hk_fence_attempt hooks = Some f -> forall s u, does ddl T (f s u);
  quiet_requeue : forall f, hk_requeue_task hooks = Some f -> forall s u, does ddl T (f s u);
  quiet_replay : forall f, hk_replay_checkpoint hooks = Some f -> forall s u, does ddl T (f s u);
  quiet_finish : forall f, hk_finish hooks = Some f -> forall s u, does ddl T (f s u)
}.

Lemma does_call_hook ddl T {U S} (hook : option (S -> U -> M U)) s u :
  (forall f, hook = Some f -> forall s u, does ddl T (f s u)) -> does ddl T (call_hook hook s u).
Proof. intros H. destruct hook as [f|]; [by apply H|apply does_ret]. Qed.

Ltac scan_tac :=
  repeat match goal with
  | |- forall _, _ => intros
  | |- does _ _ (call_hook (hook_of (Some _) _) _ _) => apply does_call_hook
  | |- does _ _ (call_hook (hook_of None _) _ _) => apply does_ret
  | |- does _ _ (each_summary _ _ _) => apply does_each_summary
  | |- does _ _ (visit_task _ _ _ _) => unfold visit_task
  | |- does _ _ (visit_attempt _ _ _ _) => unfold visit_attempt
  | |- does _ _ (visit_checkpoint _ _ _ _) => unfold visit_checkpoint
  | |- does _ _ _ => does_step
  end; eauto using quiet_begin, quiet_task, quiet_attempt, quiet_checkpoint, quiet_fence,
         quiet_requeue, quiet_replay, quiet_finish.

Lemma does_startup_scan ddl T {U} req (hooks : QxRecoveryHooks U) u :
  quiet_hooks ddl T hooks -> does ddl T (QxRecoveryRunStartupScan E req (Some hooks) u).
Proof. intros H. unfold QxRecoveryRunStartupScan. scan_tac. Qed.

Lemma does_failover ddl T {U} req (hooks : QxRecoveryHooks U) u :
  quiet_hooks ddl T hooks -> does ddl T (QxRecoveryRunFailoverRebuild E req (Some hooks) u).
Proof. intros H. unfold QxRecoveryRunFailoverRebuild. scan_tac. Qed.

Lemma quiet_startup ddl T : quiet_hooks ddl T (startup_hooks E).
Proof. split; intros f Hf; cbn in Hf; try discriminate Hf; injection Hf as <-; does_tac. Qed.

Lemma quiet_failover ddl T : quiet_hooks ddl T (failover_hooks E).
Proof. split; intros f Hf; cbn in Hf; try discriminate Hf; injection Hf as <-; does_tac. Qed.

Lemma quiet_replaying ddl T : quiet_hooks ddl T (semantic_replay_hooks E).
Proof. split; intros f Hf; cbn in Hf; try discriminate Hf; injection Hf as <-; does_tac. Qed.

#[local] Hint Resolve does_startup_scan does_failover quiet_startup quiet_failover
  quiet_replaying : effects.

Lemma does_ensure_scan ddl T owner : does ddl T (qx_runtime_ensure_startup_recovery_scan E owner).
Proof. does_tac. Qed.

#[local] Hint Resolve does_ensure_scan : effects.

Lemma does_recovery_scan ddl T : does ddl T (pg_qx_recovery_scan E).
Proof. unfold pg_qx_recovery_scan, QxRecoveryRunStartupScan. scan_tac. Qed.

Lemma does_failover_scan ddl T : does ddl T (pg_qx_recovery_failover_scan E).
Proof. unfold pg_qx_recovery_failover_scan, QxRecoveryRunFailoverRebuild. scan_tac. Qed.

Lemma does_test_startup ddl T : does ddl T (pg_qx_test_run_startup_recovery E).
Proof. does_tac. Qed.

Lemma does_test_failover ddl T : does ddl T (pg_qx_test_run_failover_rebuild E).
Proof. does_tac. Qed.

Lemma does_test_replay ddl T : does ddl T (pg_qx_test_run_semantic_replay E).
Proof. does_tac. Qed.

End Scans.

#[export] Hint Resolve does_ensure_scan does_recovery_scan does_failover_scan does_test_startup
  does_test_failover does_test_replay : effects.

(** ** Submission and resumption *)

#[export] Hint Resolve keeps_execute : qx.

Section Runs.
Context (E : Env) (X : ToolEnv).

Lemma does_tool_step ddl T sess task owner seqno phase detail contract goal input :
  does ddl T (tool_step E X sess task owner seqno phase detail contract goal input).
Proof. does_tac. Qed.

Lemma does_charged_step ddl T sess task owner seqno name detail tokens cost charge meta kind trace text :
  does ddl T (charged_step E sess task owner seqno name detail tokens cost charge meta kind trace text).
Proof. does_tac. Qed.

#[local] Hint Resolve does_tool_step does_charged_step : effects.

Lemma does_submit_steps ddl T req task contract : does ddl T (submit_steps E X req task contract).
Proof. does_tac. Qed.

Lemma does_record_pause ddl T sess task owner : does ddl T (record_pause E sess task owner).
Proof. does_tac. Qed.

Lemma does_resume_dispatch ddl T task ck owner queue env :
  does ddl T (resume_dispatch E task ck owner queue env).
Proof. does_tac. Qed.

#[local] Hint Resolve does_submit_steps does_record_pause does_resume_dispatch : effects.

Lemma moves_checkpoint sess o att step owner queue meta s ast next label lease :
  task_step QX_TASK_STATE_RUNNING s ->
  moves o QX_TASK_STATE_RUNNING s
    (checkpoint_and_release E sess o att step owner queue meta s ast next label lease).
Proof.
  intros Hs. unfold checkpoint_and_release.
  eapply moves_bind; [moves_tac|]. intros ck. eapply moves_bind; [moves_tac|]. intros _.
  eapply moves_bind; [by apply moves_runtime|]. intros _. moves_tac.
Qed.

Lemma moves_admit req o att queue env :
  moves o QX_TASK_STATE_QUEUED QX_TASK_STATE_RUNNING (submit_admit E req o att queue env).
Proof. unfold submit_admit. moves_tac. Qed.

#[local] Hint Resolve moves_checkpoint moves_admit step_checkpoint step_complete : moves.

Lemma does_submit req : does false (fun _ => True) (QxRuntimeSubmitTask E X req).
Proof.
  unfold QxRuntimeSubmitTask. cbv zeta. apply does_bind; [does_tac|]. intros _.
  eapply does_inserted; [done|]. moves_tac.
Qed.

Lemma resume_check_found o label owner w x w1 :
  resume_check E o label owner w = Ok x w1 ->
  w1 = w /\ task_state w o = Some QX_TASK_STATE_CHECKPOINTED.
Proof.
  unfold resume_check, bind, gets. intros H.
  destruct (QxCatalogLookupTaskByOid (w_vis w) o) as [info|] eqn:L; [|discriminate H].
  apply lookup_task_row in L as (t & Hf & ->). cbn [ti_row qx_catalog_fill_task_info] in H.
  destruct (negb (has_privs_of_role E owner (qxtaskowner t))); [discriminate H|].
  destruct (Ascii.eqb (qxtaskstate t) QX_TASK_STATE_CHECKPOINTED) eqn:S; [|discriminate H].
  apply Ascii.eqb_eq in S. unfold task_state. rewrite Hf. cbn. rewrite S.
  cbn [negb] in H. destruct (negb (OidIsValid _)); [discriminate H|].
  destruct (QxCatalogLookupCheckpointByOid _ _); [|discriminate H].
  destruct label as [l|]; [destruct (negb _); [discriminate H|]|]; by injection H.
Qed.

Lemma does_resume o label owner :
  does false (fun _ => True) (QxRuntimeResumeTask E X o label owner).
Proof.
  unfold QxRuntimeResumeTask. eapply (does_found (fun _ => o)).
  - intros w a w1 _ [-> H]%resume_check_found. split; [apply rtc_refl|exact H].
  - intros [task ck]. cbv zeta. moves_tac.
Qed.

End Runs.

#[export] Hint Resolve does_submit does_resume : effects.

(** ** Statements *)

Section Statements.
Context (E : Env) (D : DdlEnv) (X : ToolEnv).

Lemma does_execute_plan plan : does false (fun _ => True) (QxExecuteAgentPlan E X plan).
Proof. does_tac. Qed.

#[local] Hint Resolve does_execute_plan : effects.

Lemma does_run_task stmt : does false (fun _ => True) (RunTaskCommand E D X stmt).
Proof. does_tac. Qed.

Lemma does_resume_task stmt : does false (fun _ => True) (ResumeTaskCommand E D X stmt).
Proof. does_tac. Qed.

Lemma does_ensure_identity ddl T nsp owner role name policy budget :
  does ddl T (QxEnsureOperationalIdentity E nsp owner role name policy budget).
Proof. does_tac. Qed.

#[local] Hint Resolve does_ensure_identity : effects.

Lemma does_create_agent ddl T stmt : does ddl T (CreateAgentCommand E D stmt).
Proof. does_tac. Qed.

Lemma does_start_session ddl T stmt : does ddl T (StartSessionCommand E D stmt).
Proof. does_tac. Qed.

Lemma does_remember ddl T stmt : does ddl T (RememberMemoryCommand E D stmt).
Proof. does_tac. Qed.

Lemma does_create_policy T stmt : does true T (CreateNamespacePolicyCommand E D stmt).
Proof. does_tac. Qed.

Lemma does_alter_policy T stmt : does true T (AlterNamespacePolicyCommand E D stmt).
Proof. does_tac. Qed.

Lemma does_create_provider T stmt : does true T (CreateProviderCommand E D stmt).
Proof. does_tac. Qed.

Lemma does_alter_provider T stmt : does true T (AlterProviderCommand E D stmt).
Proof. does_tac. Qed.

Lemma does_create_principal T stmt : does true T (CreatePrincipalCommand E D stmt).
Proof. does_tac. Qed.

Lemma does_alter_principal T stmt : does true T (AlterPrincipalCommand E D stmt).
Proof. does_tac. Qed.

Lemma does_create_tool T stmt : does true T (CreateToolCommand E D stmt).
Proof. does_tac. Qed.

Lemma does_alter_tool T stmt : does true T (AlterToolCommand E D stmt).
Proof. does_tac. Qed.

End Statements.

#[export] Hint Resolve does_run_task does_resume_task does_create_agent does_start_session
  does_remember does_create_policy does_alter_policy does_create_provider does_alter_provider
  does_create_principal does_alter_principal does_create_tool does_alter_tool : effects.

(** ** The scheduler *)

Definition info_oid (info : QxCatalogTaskInfo) : Oid := task_oid (ti_row info).

(** [info] shows the state its task has in [w]. *)
Definition current (w : world) (info : QxCatalogTaskInfo) : Prop :=
  task_state w (info_oid info) = Some (qxtaskstate (ti_row info)).

Lemma filter_fmap_NoDup {R} `{Table R} (f : R -> bool) l :
  NoDup (row_oid <$> l) -> NoDup (row_oid <$> List.filter f l).
Proof.
  induction l as [|x l IH]; [done|]. intros [Hx Hl]%NoDup_cons. cbn [List.filter].
  destruct (f x); [|auto]. apply NoDup_cons. split; [|auto].
  intros (y & Ey & Hy)%list_elem_of_fmap. apply Hx. rewrite Ey.
  apply list_elem_of_fmap_2. apply list_elem_of_In in Hy. apply list_elem_of_In.
  by apply filter_In in Hy as [Hy _].
Qed.

Lemma listed_current w db owner :
  unique_tasks w ->
  NoDup (info_oid <$> QxCatalogBuildTaskInfoList (w_vis w) db owner) /\
  Forall (current w) (QxCatalogBuildTaskInfoList (w_vis w) db owner).
Proof.
  unfold unique_tasks, all_rows. change (@rows pg_qx_task _) with c_tasks.
  rewrite fmap_app. intros (Hu & _ & _)%NoDup_app. unfold QxCatalogBuildTaskInfoList. split.
  - rewrite <- list_fmap_compose. change (info_oid ∘ _) with (@row_oid pg_qx_task _).
    by apply filter_fmap_NoDup.
  - apply Forall_fmap, Forall_forall. intros t Ht.
    apply list_elem_of_In, filter_In in Ht as [Ht%list_elem_of_In _].
    unfold compose, current, task_state, info_oid. cbn [ti_row qx_catalog_fill_task_info].
    change (task_oid t) with (row_oid t). by rewrite find_oid_NoDup.
Qed.

Section Scheduler.
Context (E : Env) (X : ToolEnv) (bgw : cstr).

Lemma does_renew ddl T lease : does ddl T (renew_running_lease E lease).
Proof. does_tac. Qed.

Lemma does_reclaim_requeue ddl T task attempt lease :
  does ddl T (reclaim_requeue E task attempt lease).
Proof. does_tac. Qed.

#[local] Hint Resolve does_renew does_reclaim_requeue : effects.

Lemma handles_reclaim task attempt lease stats :
  handles (info_oid task) QX_TASK_STATE_RUNNING
    (qx_runtime_reclaim_running_attempt E bgw task attempt lease stats).
Proof.
  unfold qx_runtime_reclaim_running_attempt, info_oid. cbv zeta.
  destruct (OidIsValid (qxtasklastcheckpointid _)); moves_tac.
Qed.

#[local] Hint Resolve handles_reclaim : moves.

Lemma handles_supervise slot n now task stats :
  handles (info_oid task) (qxtaskstate (ti_row task)) (supervise_task E bgw slot n now task stats).
Proof.
  unfold supervise_task. cbv zeta.
  destruct (Ascii.eqb (qxtaskstate (ti_row task)) QX_TASK_STATE_RUNNING) eqn:S; cbn [negb orb];
    [|moves_tac].
  apply Ascii.eqb_eq in S. rewrite S. moves_tac.
Qed.

Lemma handles_dead_letter cand stats s :
  qxtaskstate (ti_row (rc_task cand)) = s ->
  handles (info_oid (rc_task cand)) s (qx_runtime_dead_letter_retry_task E bgw cand stats).
Proof.
  intros Hs. unfold qx_runtime_dead_letter_retry_task. cbv zeta. rewrite Hs.
  destruct (Ascii.eqb s QX_TASK_STATE_QUEUED) eqn:S; cbn [negb orb]; [|moves_tac].
  apply Ascii.eqb_eq in S. subst s. rewrite S. moves_tac.
Qed.

Lemma does_retry_admit ddl T task seqno tools queue base queueoid env :
  does ddl T (retry_admit E bgw task seqno tools queue base queueoid env).
Proof. does_tac. Qed.

Lemma does_retry_steps ddl T task seqno tools base contract :
  does ddl T (retry_steps E X task seqno tools base contract).
Proof. does_tac. Qed.

#[local] Hint Resolve does_retry_admit does_retry_steps moves_checkpoint step_checkpoint : effects moves.

Lemma handles_dispatch_retry cand stats :
  handles (info_oid (rc_task cand)) (qxtaskstate (ti_row (rc_task cand)))
    (qx_runtime_dispatch_retry_task E X bgw cand stats).
Proof.
  unfold qx_runtime_dispatch_retry_task, info_oid. cbv zeta.
  destruct (Ascii.eqb (qxtaskstate (ti_row (rc_task cand))) QX_TASK_STATE_QUEUED) eqn:S;
    cbn [negb orb]; [|moves_tac].
  apply Ascii.eqb_eq in S. rewrite S. moves_tac.
Qed.

(** *** Loops over the tasks *)

(** The loop's body handles one task; the others stay as they were listed. *)
Lemma current_other w w' info info' :
  rtc (effect false (eq (info_oid info))) w w' -> info_oid info' <> info_oid info ->
  current w info' -> current w' info'.
Proof. intros He Hne. apply (effects_other _ _ _ _ _ _ He). congruence. Qed.

Lemma fold_handles {S} (f : QxCatalogTaskInfo -> S -> M S) l s w a w' :
  (forall info s, handles (info_oid info) (qxtaskstate (ti_row info)) (f info s)) ->
  unique_tasks w -> NoDup (info_oid <$> l) -> Forall (current w) l -> mfold f l s w = Ok a w' ->
  rtc (effect false (fun _ => True)) w w'.
Proof.
  intros Hf. revert s w. induction l as [|info l IH]; intros s w Hu Hd Hc H.
  { injection H as _ <-. apply rtc_refl. }
  cbn [mfold] in H. apply bind_ok in H as (s1 & w1 & H1 & H2).
  apply NoDup_cons in Hd as [Hi Hd]. apply Forall_cons in Hc as [Hc Hl].
  apply Hf in H1; [|done..].
  etrans; [eapply effects_mono; [|exact H1]; done|].
  eapply IH; [by eapply effects_unique|done| |exact H2].
  rewrite Forall_forall in Hl |- *. intros info' Hin. eapply current_other; [exact H1| |by apply Hl].
  intros Eq. apply Hi. rewrite <- Eq. by apply list_elem_of_fmap_2.
Qed.

Lemma does_scheduler_cycle slot n :
  does false (fun _ => True) (qx_runtime_run_scheduler_cycle E bgw slot n).
Proof.
  intros w a w' Hu H. apply bind_ok in H as (c & w1 & H1 & H). injection H1 as <- <-.
  apply bind_ok in H as (now & w1 & H1 & H). injection H1 as <- <-.
  destruct (listed_current w (MyDatabaseId E) InvalidOid Hu) as [Hd Hc].
  etrans; [apply rtc_once, (eff_keep _ _ w (set_ticks (Datatypes.S (w_ticks w)) w)); done|].
  eapply fold_handles; [| | | |exact H]; [|exact Hu|exact Hd|exact Hc].
  intros info s. apply handles_supervise.
Qed.

(** *** The retry scan remembers a candidate *)

Lemma retry_scan_step slot n now task s w s' w' :
  unique_tasks w -> current w task -> retry_scan_task E bgw slot n now task s w = Ok s' w' ->
  rtc (effect false (eq (info_oid task))) w w' /\
  (rsc_selected s' = rsc_selected s \/
   w' = w /\ exists cand, rsc_selected s' = Some cand /\ rc_task cand = task).
Proof.
  intros Hu Hc. unfold retry_scan_task. cbv zeta.
  destruct (_ || _); [intros H; injection H as <- <-; auto using rtc_refl|].
  destruct (negb (qx_runtime_scheduler_worker_owns_task _ _ _));
    [intros H; injection H as <- <-; auto using rtc_refl|].
  rewrite (bind_run (gets w_vis) _ w (w_vis w) w eq_refl).
  destruct (QxCatalogLookupAttemptByOid _ _) as [failed|]; [|discriminate].
  destruct (negb (Ascii.eqb (qxattemptstate failed) _));
    [intros H; injection H as <- <-; auto using rtc_refl|].
  destruct (QxCatalogLookupLatestSchedulerQueue _ _ _ _ _) as [queue|];
    [|intros H; injection H as <- <-; auto using rtc_refl].
  destruct (_ || _); [intros H; injection H as <- <-; auto using rtc_refl|].
  destruct (now <? q_eligible_at queue); [intros H; injection H as <- <-; auto using rtc_refl|].
  destruct (qx_runtime_scheduler_max_retries <=? q_retry_count queue).
  - intros (dead & w1 & H1 & H2)%bind_ok. injection H2 as <- <-. split; [|by left].
    eapply (handles_dead_letter (MkCandidate task failed queue)); [done|exact Hu|exact Hc|exact H1].
  - destruct (qx_runtime_retry_candidate_better _ _); intros H; injection H as <- <-.
    + split; [apply rtc_refl|]. right. eauto.
    + auto using rtc_refl.
Qed.

Definition selected_current (w : world) (l : list QxCatalogTaskInfo) (s : retry_scan) : Prop :=
  forall cand, rsc_selected s = Some cand ->
    current w (rc_task cand) /\ info_oid (rc_task cand) ∉ info_oid <$> l.

Lemma retry_scan_fold slot n now l s w s' w' :
  unique_tasks w -> NoDup (info_oid <$> l) -> Forall (current w) l -> selected_current w l s ->
  mfold (retry_scan_task E bgw slot n now) l s w = Ok s' w' ->
  rtc (effect false (fun _ => True)) w w' /\ selected_current w' [] s'.
Proof.
  revert s w. induction l as [|info l IH]; intros s w Hu Hd Hc Hs H.
  { injection H as <- <-. split; [apply rtc_refl|exact Hs]. }
  cbn [mfold] in H. apply bind_ok in H as (s1 & w1 & H1 & H2).
  apply NoDup_cons in Hd as [Hi Hd]. apply Forall_cons in Hc as [Hc Hl].
  apply retry_scan_step in H1 as [He Hsel]; [|done..].
  assert (forall i, i ∈ l -> info_oid i <> info_oid info) as Hne.
  { intros i Hin Eq. apply Hi. rewrite <- Eq. by apply list_elem_of_fmap_2. }
  destruct (IH s1 w1) as [Hr Hf]; [by eapply effects_unique|done| | |exact H2|].
  - rewrite Forall_forall in Hl |- *. intros i Hin. eapply current_other; eauto.
  - intros cand Hcand. destruct Hsel as [Eq|(-> & cand' & Eq & Ht)].
    + rewrite Eq in Hcand. destruct (Hs cand Hcand) as [Hcur Hnot].
      rewrite fmap_cons, not_elem_of_cons in Hnot. destruct Hnot as [Hn1 Hn2].
      split; [by eapply current_other|done].
    + rewrite Eq in Hcand. injection Hcand as <-. by rewrite Ht.
  - split; [|done]. etrans; [eapply effects_mono; [|exact He]; done|exact Hr].
Qed.

Lemma does_retry_cycle slot n :
  does false (fun _ => True) (qx_runtime_run_scheduler_retry_cycle E X bgw slot n).
Proof.
  intros w a w' Hu H. apply bind_ok in H as (c & w1 & H1 & H). injection H1 as <- <-.
  apply bind_ok in H as (now & w1 & H1 & H). injection H1 as <- <-.
  apply bind_ok in H as (scan & w1 & H1 & H).
  destruct (listed_current w (MyDatabaseId E) InvalidOid Hu) as [Hd Hc].
  apply retry_scan_fold in H1 as [He Hsel]; [|exact Hu|exact Hd|exact Hc|by intros cand].
  etrans; [apply rtc_once, (eff_keep _ _ w (set_ticks (Datatypes.S (w_ticks w)) w)); done|].
  etrans; [exact He|].
  destruct (rsc_selected scan) as [cand|] eqn:Hcand; [|injection H as _ <-; apply rtc_refl].
  apply bind_ok in H as (d & w2 & H1 & H2). injection H2 as _ <-.
  destruct (Hsel cand Hcand) as [Hcur _].
  apply handles_dispatch_retry in H1; [|by eapply effects_unique; [|exact He]|exact Hcur].
  eapply effects_mono; [|exact H1]. done.
Qed.

Lemma does_tick ddl T : does ddl T (pg_qx_test_run_scheduler_worker_tick E).
Proof.
  unfold pg_qx_test_run_scheduler_worker_tick. apply does_bind; [does_tac|]. intros c.
  apply does_bind; [|does_tac]. apply does_mfold. intros info s. does_tac.
Qed.

Lemma does_start_recovery_attempt o :
  does false (fun _ => True) (pg_qx_test_start_recovery_attempt E o).
Proof.
  intros w a w' Hu H. apply bind_ok in H as (c & w1 & H1 & H). injection H1 as <- <-.
  destruct (QxCatalogLookupTaskByOid (w_vis w) o) as [info|] eqn:L; [|discriminate H].
  apply lookup_task_row in L as (t & Hf & ->). cbv zeta in H.
  cbn [ti_row qx_catalog_fill_task_info] in H.
  assert (task_state w o = Some (qxtaskstate t)) as Hs by (unfold task_state; by rewrite Hf).
  eapply effects_mono; [|eapply (handles_bind o (qxtaskstate t) _ (ret tt) (fun _ => _));
    [apply moves_does, does_ret| |exact Hu|exact Hs|exact H]]; [done|]. intros _.
  destruct (negb (qxtaskowner t =? GetUserId E)); [apply handles_throw|].
  destruct (Ascii.eqb (qxtaskstate t) QX_TASK_STATE_CHECKPOINTED) eqn:S1; cbn [negb andb].
  - apply Ascii.eqb_eq in S1. rewrite S1. moves_tac.
  - destruct (Ascii.eqb (qxtaskstate t) QX_TASK_STATE_RUNNING) eqn:S2; [|apply handles_throw].
    apply Ascii.eqb_eq in S2. rewrite S2. moves_tac.
Qed.

End Scheduler.

#[export] Hint Resolve does_scheduler_cycle does_retry_cycle does_tick does_start_recovery_attempt
  : effects.

(** ** Test functions *)

Section TestFunctions.
Context (E : Env) (D : DdlEnv) (getenv : string -> cstr).

Lemma moves_test_dispatch req o att queue env :
  moves o QX_TASK_STATE_QUEUED QX_TASK_STATE_RUNNING (test_dispatch E req o att queue env).
Proof. unfold test_dispatch. moves_tac. Qed.

#[local] Hint Resolve moves_test_dispatch : moves.

Lemma starts_uncheckpointed sess priority :
  starts QX_TASK_STATE_RUNNING (qx_runtime_test_start_uncheckpointed_task E D sess priority).
Proof.
  unfold qx_runtime_test_start_uncheckpointed_task. cbv zeta.
  apply starts_bind; [does_tac|]. intros [session agent].
  do 5 (apply starts_bind; [does_tac|]; intros ?).
  destruct (qx_runtime_request_phase_contract _ _) as [contract|]; [|by intros w o w'].
  apply starts_inserted; [moves_tac|]. intros o. repeat (apply returns_bind; intros ?).
  apply returns_ret.
Qed.

Lemma does_starts s (m : M Oid) : starts s m -> does false (fun _ => True) m.
Proof. intros Hm w o w' Hu H. by apply Hm in H as [H _]. Qed.

Lemma does_start_uncheckpointed sess priority :
  does false (fun _ => True) (qx_runtime_test_start_uncheckpointed_task E D sess priority).
Proof. eapply does_starts, starts_uncheckpointed. Qed.

Lemma does_start_exhausted sess :
  does false (fun _ => True) (pg_qx_test_start_exhausted_retry_task E D sess).
Proof.
  unfold pg_qx_test_start_exhausted_retry_task, qx_runtime_test_start_exhausted_retry_task.
  apply (does_found id QX_TASK_STATE_RUNNING).
  - intros w o w1 Hu H. by apply starts_uncheckpointed in H.
  - intros o. unfold id. cbv zeta. moves_tac.
Qed.

Lemma does_register_lease ddl T task instance kind :
  does ddl T (pg_qx_test_register_backend_lease E task instance kind).
Proof.
  apply does_keeps. unfold pg_qx_test_register_backend_lease, supervisor_register.
  keeps_tac; apply (keeps_set_stat (fun _ => _)).
Qed.

End TestFunctions.

#[export] Hint Resolve does_start_uncheckpointed does_start_exhausted does_register_lease : effects.
