(* ===== verification/EngineProps.v ===== *)
(** * The engine as a whole

    Sessions and scheduler workers take turns: a client runs an agent statement
    or one of the SQL functions, a worker runs an iteration of its loop, each as
    its own command that leaves its effects behind or, when it fails, none.
    [engine_step] is one such turn, with whatever environment, tool runner and
    transaction state.  The theorems are about every sequence of turns: no
    interleaving of statements, retries, recovery and supervision breaks the
    policy rules, takes a task past a ceiling, moves it outside its state
    machine, or logs a message the decoding plug-in cannot read.  They hold of
    each effect ([Effects.v]), hence of each command ([EngineEffects.v]), hence
    of each turn. *)

From Stdlib Require Import Ascii String.
From stdpp Require Import relations.
From S2P Require Import Prelude Text Types Scheduler Stat Observe SemanticLog Tables World Catalog.
From S2P Require Import StatHistory Decoding TaskView Recovery ToolExec Security PolicyCommands.
From S2P Require Import RecoveryHooks Lifecycle Planner AgentCommands Trace Supervisor TestHooks.
From S2P Require Import ToolRunner PolicyProps RunnerProps PlanProps Utility Effects EngineEffects.
Open Scope string_scope.
Open Scope Z_scope.
Open Scope bool_scope.
Open Scope list_scope.

(** ** Turns *)

(** What a client can run: a statement, or a SQL function of the engine. *)
Inductive engine_call :=
  | CallStatement (X : XactState) (stmt : UtilityStmt)
  | CallRecoveryScan
  | CallFailoverScan
  | CallTestStartupRecovery
  | CallTestFailoverRebuild
  | CallTestSemanticReplay
  | CallTestWorkerTick
  | CallTestStartRecoveryAttempt (taskoid : Oid)
  | CallTestStartUncheckpointedTask (sessionoid : Oid) (priority : cstr)
  | CallTestStartExhaustedRetryTask (sessionoid : Oid)
  | CallTestRegisterBackendLease (taskoid : Oid) (instance_id kind_name : string)
  | CallTestReleaseBackendLease (taskoid : Oid) (instance_id : string)
  | CallTestFenceBackendLeases (taskoid : Oid)
  | CallStatSnapshot (scope : cstr)
  | CallStatHistory (scope : cstr) (since : option TimestampTz)
  | CallStatPruneHistory (before : TimestampTz)
  | CallStatReset (scope : cstr).

Definition run_call (E : Env) (D : DdlEnv) (T : ToolEnv) (call : engine_call) : M unit :=
  match call with
  | CallStatement X stmt => standard_ProcessUtility E D T X stmt ;;; ret tt
  | CallRecoveryScan => pg_qx_recovery_scan E ;;; ret tt
  | CallFailoverScan => pg_qx_recovery_failover_scan E ;;; ret tt
  | CallTestStartupRecovery => pg_qx_test_run_startup_recovery E ;;; ret tt
  | CallTestFailoverRebuild => pg_qx_test_run_failover_rebuild E ;;; ret tt
  | CallTestSemanticReplay => pg_qx_test_run_semantic_replay E ;;; ret tt
  | CallTestWorkerTick => pg_qx_test_run_scheduler_worker_tick E ;;; ret tt
  | CallTestStartRecoveryAttempt o => pg_qx_test_start_recovery_attempt E o ;;; ret tt
  | CallTestStartUncheckpointedTask sess priority =>
      qx_runtime_test_start_uncheckpointed_task E D sess priority ;;; ret tt
  | CallTestStartExhaustedRetryTask sess => pg_qx_test_start_exhausted_retry_task E D sess ;;; ret tt
  | CallTestRegisterBackendLease o instance kind => pg_qx_test_register_backend_lease E o instance kind
  | CallTestReleaseBackendLease o instance => pg_qx_test_release_backend_lease E o instance
  | CallTestFenceBackendLeases o => pg_qx_test_fence_backend_leases E o
  | CallStatSnapshot scope => pg_qx_stat_snapshot E scope ;;; ret tt
  | CallStatHistory scope since => pg_qx_stat_get_history E scope since ;;; ret tt
  | CallStatPruneHistory before => pg_qx_stat_prune_history E before ;;; ret tt
  | CallStatReset scope => stat_reset scope
  end.

Inductive engine_step (w : world) : world -> Prop :=
  | turn_client E D T call : engine_step w (outcome_world (run_command (run_call E D T call) w))
  | turn_worker E T bgw slot_index slot_count :
      engine_step w (outcome_world (worker_iteration E T bgw slot_index slot_count w)).

(** ** Each turn is a sequence of effects *)

Section Calls.
Context (E : Env) (D : DdlEnv) (T : ToolEnv).

Definition writes_registry (stmt : UtilityStmt) : bool :=
  match stmt with
  | T_CreateNamespacePolicyStmt _ | T_AlterNamespacePolicyStmt _ | T_CreateProviderStmt _
  | T_AlterProviderStmt _ | T_CreatePrincipalStmt _ | T_AlterPrincipalStmt _ | T_CreateToolStmt _
  | T_AlterToolStmt _ => true
  | _ => false
  end.

Definition call_ddl (call : engine_call) : bool :=
  match call with CallStatement _ stmt => writes_registry stmt | _ => false end.

Lemma does_statement X stmt :
  does (writes_registry stmt) (fun _ => True) (standard_ProcessUtility E D T X stmt).
Proof.
  unfold standard_ProcessUtility. apply does_bind; [destruct (writes_registry stmt); does_tac|].
  intros _. apply does_bind; [|intros output; apply does_bind; [apply does_cci|does_tac]].
  unfold dispatch_statement. destruct stmt; cbn [writes_registry]; does_tac.
Qed.

Lemma does_snapshot T' scope : does false T' (pg_qx_stat_snapshot E scope).
Proof. does_tac. Qed.

Lemma does_call call : does (call_ddl call) (fun _ => True) (run_call E D T call).
Proof.
  destruct call; cbn [run_call call_ddl]; try (apply does_bind; [|does_tac]);
    auto using does_statement, does_snapshot with effects nocore; does_tac.
Qed.

End Calls.

Lemma effect_ddl T w w' : effect false T w w' -> effect true T w w'.
Proof.
  destruct 1; [by apply eff_keep|apply eff_oid|apply eff_recovery|by apply eff_log| |
    |by apply eff_insert_task|by eapply eff_move|by apply eff_charge|apply eff_cci].
  - eapply (eff_insert true _ _ R). Unshelve. split; [apply (unwatched_tasks (ddl := false))|done].
  - eapply (eff_rows true _ _ R). Unshelve. split; [apply (unwatched_tasks (ddl := false))|done].
Qed.

Lemma effects_ddl ddl T w w' : rtc (effect ddl T) w w' -> rtc (effect true T) w w'.
Proof. destruct ddl; [done|]. apply rtc_subrel. intros x y. apply effect_ddl. Qed.

(** A command that fails is undone. *)
Lemma undone_effects ddl T w w' :
  rtc (effect ddl T) w (set_wal (w_wal w) (set_new (w_new w) (set_vis (w_vis w) w'))).
Proof.
  eapply rtc_l; [apply (eff_oid _ _ w (w_next_oid w'))|].
  eapply rtc_l; [apply (eff_recovery _ _ _ (w_recovery w'))|]. apply rtc_once, eff_keep. done.
Qed.

Lemma command_effects {A} ddl (m : M A) w :
  does ddl (fun _ => True) m -> unique_tasks w ->
  rtc (effect ddl (fun _ => True)) w (outcome_world (run_command m w)).
Proof.
  intros Hm Hu. unfold run_command. destruct (m w) as [a w1|e w1] eqn:H; cbn [outcome_world].
  - eapply rtc_r; [by eapply Hm|]. apply eff_cci.
  - apply undone_effects.
Qed.

Lemma worker_effects E T bgw slot n w :
  unique_tasks w ->
  rtc (effect false (fun _ => True)) w (outcome_world (worker_iteration E T bgw slot n w)).
Proof.
  intros Hu. unfold worker_iteration.
  pose proof (command_effects false _ w (does_scheduler_cycle E bgw slot n) Hu) as H1.
  destruct (run_command (qx_runtime_run_scheduler_cycle E bgw slot n) w) as [a w1|e w1];
    cbn [outcome_world] in H1 |- *; [|done].
  etrans; [exact H1|].
  pose proof (command_effects false _ w1 (does_retry_cycle E T bgw slot n)
                (effects_unique _ _ _ _ Hu H1)) as H2.
  by destruct (run_command (qx_runtime_run_scheduler_retry_cycle E T bgw slot n) w1).
Qed.

Lemma turn_effects w w' :
  unique_tasks w -> engine_step w w' -> rtc (effect true (fun _ => True)) w w'.
Proof.
  intros Hu [E D T call|E T bgw slot n]; eapply effects_ddl;
    [apply command_effects; [apply does_call|done]|by apply worker_effects].
Qed.

Lemma turns_effects w w' :
  unique_tasks w -> rtc engine_step w w' -> rtc (effect true (fun _ => True)) w w'.
Proof.
  intros Hu Hr. revert Hu. induction Hr as [|w1 w2 w3 H _ IH]; intros Hu; [done|].
  apply turn_effects in H; [|done]. etrans; [exact H|]. apply IH. by eapply effects_unique.
Qed.

(** ** Budgets *)

Lemma effects_within ddl T w w' :
  unique_tasks w -> rtc (effect ddl T) w w' ->
  Forall (fun t => within_budget t = true) (all_rows pg_qx_task w) ->
  Forall (fun t => within_budget t = true) (all_rows pg_qx_task w').
Proof.
  intros Hu Hr. revert Hu. induction Hr as [|w1 w2 w3 H _ IH]; intros Hu Hb; [done|].
  apply effect_tasks in H. eauto using change_unique, change_within.
Qed.

(** C3. No sequence of turns takes a task past a token or cost ceiling that was
    set for it: if the tasks of a database have distinct identifiers and are
    within their budgets, the tasks it has after any statements, SQL functions
    and worker iterations have and are, whichever of them failed. *)
Theorem engine_keeps_budgets w w' :
  unique_tasks w -> Forall (fun t => within_budget t = true) (all_rows pg_qx_task w) ->
  rtc engine_step w w' ->
  unique_tasks w' /\ Forall (fun t => within_budget t = true) (all_rows pg_qx_task w').
Proof.
  intros Hu Hb Hr. apply turns_effects in Hr; [|done].
  split; [by eapply effects_unique|by eapply effects_within].
Qed.

(** ** Task states *)

Lemma final_step s s' : s = QX_TASK_STATE_COMPLETED \/ s = QX_TASK_STATE_FAILED -> ~ task_step s s'.
Proof. intros [->| ->] H; inversion H. Qed.

(** C2. A task that exists is never lost, and its state changes only along the
    steps of the task state machine (queued to running or failed, running to
    checkpointed, completed or back to queued, checkpointed to running), whatever
    sequence of turns runs: sessions and workers that race on a task cannot take
    it outside.  In particular a completed or failed task stays as it is. *)
Theorem engine_follows_state_machine w w' o s :
  unique_tasks w -> rtc engine_step w w' -> task_state w o = Some s ->
  exists s', task_state w' o = Some s' /\ rtc task_step s s' /\
    (s = QX_TASK_STATE_COMPLETED \/ s = QX_TASK_STATE_FAILED -> s' = s).
Proof.
  intros Hu Hr Hs. apply turns_effects in Hr; [|done].
  destruct (effects_state _ _ _ _ _ _ Hr Hs) as (s' & Hs' & Hsteps & _).
  exists s'. split; [done|]. split; [done|]. intros Hfin.
  destruct Hsteps as [|s s1 s2 H]; [done|]. by apply final_step in H.
Qed.

(** ** The log *)

Lemma effects_logs ddl T w w' : rtc (effect ddl T) w w' -> logs_only w w'.
Proof.
  induction 1 as [|w1 w2 w3 H _ (ms' & E2 & H2)]; [exists []; by rewrite app_nil_r|].
  apply effect_logs in H as (ms & E1 & H1). exists (ms ++ ms').
  rewrite E2, E1, app_assoc. split; [done|by apply Forall_app].
Qed.

(** C5. The semantic log only grows, and a decoding session can read all that
    the engine writes: whatever turns run, each message added since is one the
    output plug-in accepts, so a stream of changes that carries those messages,
    streamed or not, among any other changes, is decoded to its end by a plug-in
    started without options, and its output is the messages in the order they
    were logged. *)
Theorem engine_log_decodes w w' :
  unique_tasks w -> rtc engine_step w w' ->
  exists ms, w_wal w' = w_wal w ++ ms /\
    forall data changes,
      qx_decode_startup [] = inr data -> omap change_message changes = ms ->
      decode_changes data changes = (snd <$> ms, None).
Proof.
  intros Hu Hr. apply turns_effects in Hr; [|done]. apply effects_logs in Hr as (ms & E & H).
  exists ms. split; [exact E|]. intros data changes Hd <-. injection Hd as <-.
  by apply semantic_stream_decodes.
Qed.

(** ** The policy rules *)

Lemma effects_registry T w w' :
  registry (w_new w) = registry empty_catalog -> rtc (effect false T) w w' ->
  registry (w_vis w') = registry (w_vis w) /\ registry (w_new w') = registry empty_catalog.
Proof.
  intros Hn Hr. revert Hn. induction Hr as [|w1 w2 w3 H _ IH]; intros Hn; [done|].
  apply effect_registry in H as [Hv Hn2]; [|done..]. destruct (IH Hn2) as [Hv3 Hn3].
  split; [congruence|done].
Qed.

Lemma registry_policy c c' : registry c' = registry c -> policy_ok c -> policy_ok c'.
Proof. unfold registry, policy_ok. intros H. injection H as -> -> _ ->. done. Qed.

(** No row waits to be made visible between two turns. *)
Lemma command_new {A} (m : M A) w :
  w_new w = empty_catalog -> w_new (outcome_world (run_command m w)) = empty_catalog.
Proof. intros Hn. unfold run_command. destruct (m w); done. Qed.

Lemma worker_new E T bgw slot n w :
  w_new w = empty_catalog -> w_new (outcome_world (worker_iteration E T bgw slot n w)) = empty_catalog.
Proof.
  intros Hn. unfold worker_iteration.
  pose proof (command_new (qx_runtime_run_scheduler_cycle E bgw slot n) w Hn) as H1.
  destruct (run_command (qx_runtime_run_scheduler_cycle E bgw slot n) w) as [a w1|e w1];
    cbn [outcome_world] in H1 |- *; [|done].
  pose proof (command_new (qx_runtime_run_scheduler_retry_cycle E T bgw slot n) w1 H1) as H2.
  by destruct (run_command (qx_runtime_run_scheduler_retry_cycle E T bgw slot n) w1).
Qed.

(** The DDL statement a call runs. *)
Definition statement_ddl (stmt : UtilityStmt) : option ddl :=
  match stmt with
  | T_CreateNamespacePolicyStmt s => Some (DCreatePolicy s)
  | T_AlterNamespacePolicyStmt s => Some (DAlterPolicy s)
  | T_CreateProviderStmt s => Some (DCreateProvider s)
  | T_AlterProviderStmt s => Some (DAlterProvider s)
  | T_CreatePrincipalStmt s => Some (DCreatePrincipal s)
  | T_AlterPrincipalStmt s => Some (DAlterPrincipal s)
  | T_CreateToolStmt s => Some (DCreateTool s)
  | T_AlterToolStmt s => Some (DAlterTool s)
  | _ => None
  end.

Lemma ddl_statement_runs E D T X stmt d w u w' :
  statement_ddl stmt = Some d -> standard_ProcessUtility E D T X stmt w = Ok u w' ->
  exists w1 w2, same_catalogs w w1 /\ ddl_command E D d w1 = Ok tt w2 /\ w' = cci_world w2.
Proof.
  intros Hd (a & w1 & H1 & H2)%bind_ok. apply keeps_ok in H1; [|apply prohibit_keeps].
  apply bind_ok in H2 as (out & w2 & H2 & H3). injection H3 as _ <-.
  exists w1, w2. split; [done|]. split; [|done]. unfold dispatch_statement in H2.
  destruct stmt; try discriminate Hd; injection Hd as <-;
    apply bind_ok in H2 as ([] & w3 & H2 & H3); injection H3 as _ <-; exact H2.
Qed.

Lemma statement_settled E D T X stmt w :
  settled w -> writes_registry stmt = true ->
  settled (outcome_world (run_command (run_call E D T (CallStatement X stmt)) w)).
Proof.
  intros Hs Hw. unfold run_command, run_call, bind.
  destruct (standard_ProcessUtility E D T X stmt w) as [u w1|e w1] eqn:R; cbn [outcome_world];
    [|exact Hs].
  assert (exists d, statement_ddl stmt = Some d) as [d Hd]
    by (destruct stmt; try discriminate Hw; by eexists).
  destruct (ddl_statement_runs E D T X stmt d w u w1 Hd R) as (w0 & w2 & Hk & Hrun & ->).
  change (settled (cci_world (cci_world w2))). rewrite cci_twice.
  apply (ddl_step_settled E D w0); [by eapply same_settled|].
  apply (step_ok E D w0 d). unfold run_command. by rewrite Hrun.
Qed.

Lemma quiet_settled w w' :
  settled w -> w_new w' = empty_catalog -> rtc (effect false (fun _ => True)) w w' -> settled w'.
Proof.
  intros [Hn Hp] Hn' Hr. split; [done|].
  apply effects_registry in Hr as [Hv _]; [|by rewrite Hn]. by eapply registry_policy.
Qed.

Lemma turn_settled w w' : unique_tasks w -> settled w -> engine_step w w' -> settled w'.
Proof.
  intros Hu Hs [E D T call|E T bgw slot n].
  - destruct (call_ddl call) eqn:Hd.
    + destruct call; try discriminate Hd. by apply statement_settled.
    + apply (quiet_settled w); [done|apply command_new, Hs|]. apply command_effects; [|done].
      rewrite <- Hd. apply does_call.
  - apply (quiet_settled w); [done|apply worker_new, Hs|]. by apply worker_effects.
Qed.

Lemma turns_settled w w' : unique_tasks w -> settled w -> rtc engine_step w w' -> settled w'.
Proof.
  intros Hu Hs Hr. revert Hu Hs. induction Hr as [|w1 w2 w3 H _ IH]; intros Hu Hs; [done|].
  apply IH; [|by eapply turn_settled]. eapply effects_unique; [exact Hu|]. by apply turn_effects.
Qed.


(** ** An example: the engine and the tool runner together *)

(** The runner's process, as the engine starts it: the request file it reads is
    the one the engine wrote, and its environment the one the engine set up. *)
Definition runner_env_of (call : launch_call) : RunnerEnv :=
  MkRunnerEnv (getenv_in (principal_environment (lc_profile call) (lc_runtime_dir call) ""))
    (Some (lc_runtime_dir call))
    (fun path => if String.eqb path (lc_request_path call) then Some (lc_request call) else None)
    (fun _ => None) (fun _ => None) (fun _ => true) (fun _ _ => [1; 2; 255]) (fun _ _ => None).

Definition launch_runner (call : launch_call) : launch_outcome :=
  match main_response (runner_env_of call) (principal_argv (lc_request_path call) "response") with
  | Some (_, text) => LaunchExited (Some 0) 25 (Some text)
  | None => LaunchExited (Some 1) 25 None
  end.

Definition runner_tool_env : ToolEnv :=
  MkToolEnv (fun _ => None) (fun _ => true) (fun _ => true) (fun _ => true) (fun _ => true)
    (fun p => p) "/usr/lib/qx/bin" (Some "/data/pg_qx_runtime")
    (fun suffix now => cat ["/data/pg_qx_runtime/qx_tool_1_"; show_d now; "_1."; suffix])
    (fun _ => true) (fun _ _ => [1; 2; 255]) (fun _ _ _ => Some false) launch_runner.

Inductive turn := Client (call : engine_call) | Worker (slot_index slot_count : Z).

Definition run_turn (w : world) (t : turn) : world :=
  match t with
  | Client call => outcome_world (run_command (run_call demo_env ddl_env runner_tool_env call) w)
  | Worker i n => outcome_world (worker_iteration demo_env runner_tool_env (Some "worker") i n w)
  end.

Lemma run_turns_steps w l : rtc engine_step w (fold_left run_turn l w).
Proof.
  revert w. induction l as [|t l IH]; intros w; [apply rtc_refl|]. cbn [fold_left].
  eapply rtc_l; [|apply IH]. destruct t; [apply turn_client|apply turn_worker].
Qed.

Definition statement (stmt : UtilityStmt) : turn :=
  Client (CallStatement (MkXactState false false false) stmt).

Definition ddl_turn (d : ddl) : turn :=
  statement match d with
  | DCreatePolicy s => T_CreateNamespacePolicyStmt s
  | DAlterPolicy s => T_AlterNamespacePolicyStmt s
  | DCreateProvider s => T_CreateProviderStmt s
  | DAlterProvider s => T_AlterProviderStmt s
  | DCreatePrincipal s => T_CreatePrincipalStmt s
  | DAlterPrincipal s => T_AlterPrincipalStmt s
  | DCreateTool s => T_CreateToolStmt s
  | DAlterTool s => T_AlterToolStmt s
  end.

(** A registry, an agent with a ceiling, a session, a task that is run and
    checkpointed, with a worker's iteration and a snapshot of the statistics in
    between. *)
Definition demo_turns (ceiling : Z) : list turn :=
  (ddl_turn <$> demo_ddl) ++
  [ statement (T_CreateAgentStmt (MkCreateAgent "planner" None None None [NString "search"]
      (Some "default_policy") [NDefElem "tokens" (Some (NInteger ceiling))]));
    statement (T_StartSessionStmt (MkStartSession "planner" None false));
    statement (T_RunTaskStmt demo_run_task);
    Worker 0 1;
    Client (CallStatSnapshot None) ].

Definition demo_engine (ceiling : Z) : world :=
  fold_left run_turn (demo_turns ceiling) (empty_world 20000).

Definition resume_turn : turn :=
  statement (T_ResumeTaskStmt (MkResumeTask (NAConst (Some (NInteger 20009))) None)).

Lemma empty_unique n : unique_tasks (empty_world n).
Proof. constructor. Qed.

(** With a ceiling of 250 tokens the task is resumed, once. *)
Definition demo_completed : world := fold_left run_turn [resume_turn; resume_turn] (demo_engine 250).

Lemma demo_reached : rtc engine_step (empty_world 20000) demo_completed.
Proof.
  transitivity (demo_engine 250);
    [exact (run_turns_steps (empty_world 20000) (demo_turns 250))
    |exact (run_turns_steps (demo_engine 250) [resume_turn; resume_turn])].
Qed.

(** A ceiling of 150 tokens lets the task run, and refuses to resume it. *)
Definition demo_refused : world :=
  fold_left run_turn (demo_turns 150 ++ [resume_turn]) (empty_world 20000).

Lemma engine_keeps_budgets_witness :
  Forall (fun t => within_budget t = true) (all_rows pg_qx_task demo_refused) /\
  (fun t => (qxtaskstate t, qxtaskconsumedtokens t, qxtaskbudgettokens t)) <$>
    c_tasks (w_vis demo_refused) = [(QX_TASK_STATE_CHECKPOINTED, 88, 150)].
Proof.
  split; [|vm_compute; reflexivity].
  exact (proj2 (engine_keeps_budgets (empty_world 20000) demo_refused (empty_unique _)
    (Forall_nil_2 _) (run_turns_steps _ (demo_turns 150 ++ [resume_turn])))).
Defined.

Lemma demo_unique : unique_tasks (demo_engine 250).
Proof. vm_compute. apply NoDup_singleton. Qed.

Lemma demo_checkpointed : task_state (demo_engine 250) 20009 = Some QX_TASK_STATE_CHECKPOINTED.
Proof. vm_compute. reflexivity. Qed.

Lemma engine_follows_state_machine_witness :
  (exists s, task_state demo_completed 20009 = Some s /\ rtc task_step QX_TASK_STATE_CHECKPOINTED s) /\
  task_state demo_completed 20009 = Some QX_TASK_STATE_COMPLETED.
Proof.
  split; [|vm_compute; reflexivity].
  destruct (engine_follows_state_machine (demo_engine 250) demo_completed 20009
    QX_TASK_STATE_CHECKPOINTED demo_unique
    (run_turns_steps (demo_engine 250) [resume_turn; resume_turn]) demo_checkpointed)
    as (s & Hs & Hr & _).
  exists s. split; [exact Hs|exact Hr].
Defined.

Lemma demo_log_length : List.length (w_wal demo_completed) = 28%nat.
Proof. vm_compute. reflexivity. Qed.

Lemma plain_stream (ms : list (string * string)) :
  omap change_message (BeginTxn :: (uncurry LogicalMessage <$> ms) ++ [CommitTxn]) = ms.
Proof. induction ms as [|[p m] ms IH]; [done|]. cbn in IH |- *. by rewrite IH. Qed.

Lemma engine_log_decodes_witness :
  exists ms, List.length ms = 28%nat /\
    decode_changes (MkOutputData "qhapaqxian")
      (BeginTxn :: (uncurry LogicalMessage <$> ms) ++ [CommitTxn]) = (snd <$> ms, None).
Proof.
  destruct (engine_log_decodes (empty_world 20000) demo_completed (empty_unique _) demo_reached)
    as (ms & E & H).
  exists ms. split; [rewrite <- demo_log_length, E; reflexivity|].
  apply (H _ _ eq_refl (plain_stream ms)).
Defined.


(** A task out of retries is dead-lettered by the next worker that owns it; a
    task that runs without a checkpoint is left alone while its lease holds. *)
Lemma demo_dead_letter :
  (fun t => (qxtaskname t, qxtaskstate t)) <$>
    c_tasks (w_vis (fold_left run_turn
      [Client (CallTestStartExhaustedRetryTask 20006);
       Client (CallTestStartUncheckpointedTask 20006 (Some "high")); Worker 0 1] (demo_engine 250))) =
  [(Some "digest", QX_TASK_STATE_CHECKPOINTED); (Some "extract_uncheckpointed", QX_TASK_STATE_FAILED);
   (Some "extract_uncheckpointed", QX_TASK_STATE_RUNNING)].
Proof. vm_compute. reflexivity. Qed.
