(* ===== verification/Sql.v ===== *)
(** * Queries

    The part of SQL the statistics views are written in: comparisons with NULL,
    joins, GROUP BY with aggregates, and DISTINCT ON over an ORDER BY.  A
    relation is the list of its rows; SQL leaves the order of a result open
    where the query does not fix it, so the theorems about views speak of
    membership and of sums.  NULL is [None]; a condition that is NULL selects
    nothing. *)

From Stdlib Require Import Ascii String.
From stdpp Require Import sorting.
From S2P Require Import Prelude Text Types.
Open Scope Z_scope.
Open Scope bool_scope.
Open Scope list_scope.

(** ** Comparisons *)

(** [a = b] *)
Definition sql_eq {A} `{EqDecision A} (a b : option A) : bool :=
  match a, b with Some x, Some y => bool_decide (x = y) | _, _ => false end.

(** [a IS NOT DISTINCT FROM b] *)
Definition not_distinct {A} `{EqDecision A} (a b : option A) : bool := bool_decide (a = b).

Definition coalesce {A} (l : list (option A)) : option A :=
  foldr (fun a b => match a with Some x => Some x | None => b end) None l.

(** A condition over a column that may be NULL. *)
Definition holds {A} (p : A -> bool) (a : option A) : bool :=
  match a with Some x => p x | None => false end.

Definition is_null {A} (a : option A) : bool := match a with Some _ => false | None => true end.

(** ** Aggregates *)

(** [count( * ) FILTER (WHERE p)] *)
Definition count_where {A} (p : A -> bool) (l : list A) : Z := Z.of_nat (List.length (List.filter p l)).
Definition count_all {A} (l : list A) : Z := Z.of_nat (List.length l).

(** [count(DISTINCT f)] *)
Definition count_distinct {A K} `{EqDecision K} (f : A -> option K) (l : list A) : Z :=
  count_all (remove_dups (omap f l)).

Definition fold_option (op : Z -> Z -> Z) (l : list (option Z)) : option Z :=
  foldr (fun a b => match a, b with
                    | Some x, Some y => Some (op x y)
                    | Some x, None => Some x
                    | None, _ => b
                    end) None l.
Definition sql_min {A} (f : A -> option Z) (l : list A) : option Z := fold_option Z.min (map f l).
Definition sql_max {A} (f : A -> option Z) (l : list A) : option Z := fold_option Z.max (map f l).

(** [COALESCE(sum(f), 0)] *)
Definition sum_of {A} (f : A -> Z) (l : list A) : Z := foldr (fun a s => f a + s) 0 l.

(** ** Joins and groups *)

Definition join_on {A B} (p : A -> B -> bool) (l : list A) (r : list B) : list (A * B) :=
  a ← l; pair a <$> List.filter (p a) r.

(** What a row is joined with in a LEFT JOIN. *)
Definition left_matches {B} (p : B -> bool) (r : list B) : list (option B) :=
  match List.filter p r with [] => [None] | l => Some <$> l end.

Definition group_by {A K} `{EqDecision K} (key : A -> K) (l : list A) : list (K * list A) :=
  (fun k => (k, List.filter (fun a => bool_decide (key a = k)) l)) <$> remove_dups (key <$> l).

(** The first row of each key. *)
Fixpoint keep_first {A K} `{EqDecision K} (key : A -> K) (seen : list K) (l : list A) : list A :=
  match l with
  | [] => []
  | a :: rest =>
      if bool_decide (key a ∈ seen) then keep_first key seen rest
      else a :: keep_first key (key a :: seen) rest
  end.

(** [SELECT DISTINCT ON (key) ... ORDER BY ...] *)
Definition distinct_on {A K} `{EqDecision K} (key : A -> K) (R : relation A)
    `{forall x y, Decision (R x y)} (l : list A) : list A :=
  keep_first key [] (merge_sort R l).

(** ** Facts about counts *)

Lemma count_where_nonneg {A} (p : A -> bool) l : 0 <= count_where p l.
Proof. unfold count_where. lia. Qed.

Lemma count_where_le {A} (p : A -> bool) l : count_where p l <= count_all l.
Proof. unfold count_where, count_all. pose proof (List.filter_length_le p l). lia. Qed.

Lemma count_where_cons {A} (p : A -> bool) a l :
  count_where p (a :: l) = (if p a then 1 else 0) + count_where p l.
Proof. unfold count_where. cbn. destruct (p a); cbn; lia. Qed.

Lemma count_where_mono {A} (p q : A -> bool) l :
  (forall a, a ∈ l -> p a = true -> q a = true) -> count_where p l <= count_where q l.
Proof.
  induction l as [|a l IH]; intros H; [done|]. rewrite !count_where_cons.
  assert (count_where p l <= count_where q l) by (apply IH; intros b Hb; apply H; by right).
  specialize (H a). destruct (p a); [|destruct (q a); lia]. rewrite H by (done || by left). lia.
Qed.

Lemma count_where_ext {A} (p q : A -> bool) l :
  (forall a, a ∈ l -> p a = q a) -> count_where p l = count_where q l.
Proof.
  intros H. apply Z.le_antisymm; apply count_where_mono; intros a Ha; rewrite (H a Ha); done.
Qed.

Lemma count_where_filter {A} (p q : A -> bool) l :
  count_where p (List.filter q l) = count_where (fun a => q a && p a) l.
Proof.
  induction l as [|a l IH]; [done|]. rewrite (count_where_cons _ a l). cbn [List.filter].
  destruct (q a); cbn [andb]; [rewrite count_where_cons|]; lia.
Qed.

Lemma count_all_filter {A} (p : A -> bool) l : count_all (List.filter p l) = count_where p l.
Proof. done. Qed.

Lemma sum_of_cons {A} (f : A -> Z) a l : sum_of f (a :: l) = f a + sum_of f l.
Proof. done. Qed.

Lemma sum_of_ext {A} (f g : A -> Z) l : (forall a, a ∈ l -> f a = g a) -> sum_of f l = sum_of g l.
Proof.
  induction l as [|a l IH]; intros H; [done|]. rewrite !sum_of_cons, (H a) by left.
  rewrite IH; [done|]. intros b Hb. apply H. by right.
Qed.

Lemma sum_of_fmap {A B} (f : B -> Z) (g : A -> B) l : sum_of f (g <$> l) = sum_of (fun a => f (g a)) l.
Proof. induction l as [|a l IH]; [done|]. rewrite fmap_cons, !sum_of_cons. by rewrite IH. Qed.

Lemma sum_of_app {A} (f : A -> Z) l l' : sum_of f (l ++ l') = sum_of f l + sum_of f l'.
Proof. induction l as [|a l IH]; [done|]. cbn [app]. rewrite !sum_of_cons, IH. lia. Qed.

Lemma sum_of_plus {A} (f g : A -> Z) l : sum_of (fun a => f a + g a) l = sum_of f l + sum_of g l.
Proof. induction l as [|a l IH]; [done|]. rewrite !sum_of_cons, IH. lia. Qed.

Lemma sum_of_zero {A} (l : list A) : sum_of (fun _ => 0) l = 0.
Proof. induction l as [|a l IH]; [done|]. rewrite sum_of_cons, IH. done. Qed.

Lemma sql_min_ext {A} (f g : A -> option Z) l : (forall a, a ∈ l -> f a = g a) -> sql_min f l = sql_min g l.
Proof.
  intros H. unfold sql_min. rewrite (List.map_ext_in f g); [done|].
  intros a Ha. by apply H, list_elem_of_In.
Qed.

Lemma elem_of_list_filter {A} (p : A -> bool) l a : a ∈ List.filter p l <-> a ∈ l /\ p a = true.
Proof. by rewrite !list_elem_of_In, List.filter_In. Qed.

(** Each row is counted for one key. *)
Lemma indicator_sum {K} `{EqDecision K} (ks : list K) k :
  NoDup ks -> sum_of (fun k' => if bool_decide (k = k') then 1 else 0) ks =
              if bool_decide (k ∈ ks) then 1 else 0.
Proof.
  induction 1 as [|k' ks Hn _ IH]; [done|]. rewrite sum_of_cons, IH.
  destruct (decide (k = k')) as [->|Hne].
  - rewrite bool_decide_true by done. rewrite bool_decide_false by done.
    by rewrite bool_decide_true by left.
  - rewrite (bool_decide_false (k = k')) by done.
    destruct (decide (k ∈ ks)) as [Hin|Hin].
    + rewrite !bool_decide_true by (done || by right). lia.
    + rewrite !bool_decide_false; [lia| |done]. by intros [?|?]%elem_of_cons.
Qed.

(** Counts over disjoint keys add up. *)
Lemma count_by_key {A K} `{EqDecision K} (key : A -> K) (p : A -> bool) (ks : list K) l :
  NoDup ks ->
  sum_of (fun k => count_where (fun a => bool_decide (key a = k) && p a) l) ks =
  count_where (fun a => bool_decide (key a ∈ ks) && p a) l.
Proof.
  intros Hn. induction l as [|a l IH].
  - apply sum_of_zero.
  - rewrite count_where_cons, <- IH.
    rewrite (sum_of_ext _ (fun k => (if bool_decide (key a = k) && p a then 1 else 0) +
                                    count_where (fun b => bool_decide (key b = k) && p b) l))
      by (intros; by rewrite count_where_cons).
    rewrite sum_of_plus. f_equal. destruct (p a) eqn:Hp.
    + rewrite (sum_of_ext _ (fun k => if bool_decide (key a = k) then 1 else 0))
        by (intros; by rewrite andb_true_r).
      rewrite indicator_sum by done. by rewrite andb_true_r.
    + rewrite andb_false_r.
      rewrite (sum_of_ext _ (fun _ => 0)) by (intros; by rewrite andb_false_r).
      apply sum_of_zero.
Qed.

(** The groups of a GROUP BY hold every row once. *)
Lemma group_by_counts {A K} `{EqDecision K} (key : A -> K) (p : A -> bool) l :
  sum_of (fun g => count_where p (snd g)) (group_by key l) = count_where p l.
Proof.
  unfold group_by. rewrite sum_of_fmap. cbn.
  rewrite (sum_of_ext _ (fun k => count_where (fun a => bool_decide (key a = k) && p a) l))
    by (intros; apply count_where_filter).
  rewrite count_by_key by apply NoDup_remove_dups.
  apply count_where_ext. intros a Ha. rewrite bool_decide_true; [done|].
  apply elem_of_remove_dups, list_elem_of_fmap. eauto.
Qed.

Lemma group_by_keys {A K} `{EqDecision K} (key : A -> K) l : NoDup (fst <$> group_by key l).
Proof.
  unfold group_by. rewrite <- list_fmap_compose. unfold compose. cbn. rewrite list_fmap_id.
  apply NoDup_remove_dups.
Qed.

Lemma group_by_ext {A K} `{EqDecision K} (key key' : A -> K) l :
  (forall a, key a = key' a) -> group_by key l = group_by key' l.
Proof.
  intros H. unfold group_by. rewrite (list_fmap_ext key key') by (intros; apply H).
  apply list_fmap_ext. intros _ k _. f_equal. apply List.filter_ext. intros a. by rewrite H.
Qed.

Lemma elem_of_group_by {A K} `{EqDecision K} (key : A -> K) l k g :
  (k, g) ∈ group_by key l <->
  k ∈ key <$> l /\ g = List.filter (fun a => bool_decide (key a = k)) l.
Proof.
  unfold group_by. rewrite list_elem_of_fmap. split.
  - intros (k' & [= -> ->] & Hk). split; [|done]. by rewrite elem_of_remove_dups in Hk.
  - intros [Hk ->]. exists k. split; [done|]. by apply elem_of_remove_dups.
Qed.

(** ** Facts about DISTINCT ON *)

Lemma keep_first_key {A K} `{EqDecision K} (key : A -> K) seen l a :
  a ∈ keep_first key seen l -> a ∈ l /\ key a ∉ seen.
Proof.
  revert seen. induction l as [|b l IH]; intros seen; cbn [keep_first]; [by intros ?%elem_of_nil|].
  case_bool_decide as E.
  - intros [Ha Hs]%IH. split; [by right|done].
  - intros [->|[Ha Hs]%IH]%elem_of_cons; [split; [by left|done]|].
    split; [by right|]. intros Hk. apply Hs. by right.
Qed.

Lemma keep_first_nodup {A K} `{EqDecision K} (key : A -> K) seen l :
  NoDup (key <$> keep_first key seen l).
Proof.
  revert seen. induction l as [|b l IH]; intros seen; cbn [keep_first]; [constructor|].
  destruct (bool_decide (key b ∈ seen)); [done|]. rewrite fmap_cons. constructor; [|done].
  intros (a & E & [_ Ha]%keep_first_key)%list_elem_of_fmap. apply Ha. rewrite E. by left.
Qed.

Lemma keep_first_covers {A K} `{EqDecision K} (key : A -> K) seen l a :
  a ∈ l -> key a ∉ seen -> exists b, b ∈ keep_first key seen l /\ key b = key a.
Proof.
  revert seen. induction l as [|b l IH]; intros seen; [by intros ?%elem_of_nil|].
  cbn [keep_first]. intros Ha Hs. destruct (decide (key b = key a)) as [E|E].
  - rewrite bool_decide_false by congruence. exists b. split; [by left|done].
  - apply elem_of_cons in Ha as [->|Ha]; [done|].
    destruct (bool_decide (key b ∈ seen)); [by apply IH|].
    destruct (IH (key b :: seen) Ha) as (x & Hx & Ex); [|exists x; split; [by right|done]].
    by intros [?|?]%elem_of_cons.
Qed.

Lemma keep_first_first {A K} `{EqDecision K} (key : A -> K) R seen l a b :
  StronglySorted R l -> a ∈ keep_first key seen l -> b ∈ l -> key b = key a -> a = b \/ R a b.
Proof.
  intros Hs. revert seen. induction Hs as [|c l Hs IH Hc]; intros seen; cbn [keep_first];
    [by intros ?%elem_of_nil|].
  intros Ha Hb E. rewrite Forall_forall in Hc.
  case_bool_decide as Es.
  - apply elem_of_cons in Hb as [->|Hb]; [|by eapply IH].
    apply keep_first_key in Ha as [_ Ha]. congruence.
  - apply elem_of_cons in Ha as [->|Ha]; apply elem_of_cons in Hb as [->|Hb]; auto.
    + apply keep_first_key in Ha as [_ Ha]. destruct Ha. rewrite E. by left.
    + by eapply IH.
Qed.

Section DistinctOn.
Context {A K : Type} `{EqDecision K} (key : A -> K) (R : relation A)
        `{forall x y, Decision (R x y)} `{!Transitive R} `{!Total R}.

Lemma distinct_on_elem l a : a ∈ distinct_on key R l -> a ∈ l.
Proof. intros [Ha _]%keep_first_key. by rewrite merge_sort_Permutation in Ha. Qed.

Lemma distinct_on_nodup l : NoDup (key <$> distinct_on key R l).
Proof. apply keep_first_nodup. Qed.

Lemma distinct_on_first l a b :
  a ∈ distinct_on key R l -> b ∈ l -> key b = key a -> a = b \/ R a b.
Proof.
  intros Ha Hb. eapply keep_first_first; [by apply StronglySorted_merge_sort|exact Ha|].
  by rewrite merge_sort_Permutation.
Qed.

Lemma distinct_on_covers l a : a ∈ l -> exists b, b ∈ distinct_on key R l /\ key b = key a.
Proof.
  intros Ha. apply keep_first_covers; [|apply not_elem_of_nil]. by rewrite merge_sort_Permutation.
Qed.

(** DISTINCT ON keeps of each key the row the order puts first. *)
Lemma elem_of_distinct_on l a :
  (forall b, b ∈ l -> key b = key a -> R a b -> R b a -> b = a) ->
  a ∈ distinct_on key R l <-> a ∈ l /\ forall b, b ∈ l -> key b = key a -> R a b.
Proof.
  intros Hanti. split.
  - intros Ha. pose proof (distinct_on_elem _ _ Ha) as Hl. split; [done|].
    intros b Hb E. destruct (distinct_on_first l a b) as [->|]; try done.
    by destruct (total R b b).
  - intros [Ha Hmin]. destruct (distinct_on_covers l a Ha) as (b & Hb & E).
    pose proof (distinct_on_elem _ _ Hb) as Hbl.
    destruct (distinct_on_first l b a) as [->|HR]; [done|done|done|done|].
    by rewrite <- (Hanti b Hbl E (Hmin b Hbl E) HR).
Qed.

End DistinctOn.

(** ** Facts about joins *)

Lemma elem_of_join {A B} (p : A -> B -> bool) l r a b :
  (a, b) ∈ join_on p l r <-> a ∈ l /\ b ∈ r /\ p a b = true.
Proof.
  unfold join_on. rewrite list_elem_of_bind. split.
  - intros (a' & Hb & Ha). apply list_elem_of_fmap in Hb as (b' & [= -> ->] & Hb).
    by apply elem_of_list_filter in Hb as [Hb Hp].
  - intros (Ha & Hb & Hp). exists a. split; [|done]. apply list_elem_of_fmap. exists b. split; [done|].
    by apply elem_of_list_filter.
Qed.

Lemma filter_nil {A} (p : A -> bool) l : (forall a, a ∈ l -> p a = false) -> List.filter p l = [].
Proof.
  induction l as [|a l IH]; intros H; [done|]. cbn. rewrite (H a) by left. apply IH.
  intros b Hb. apply H. by right.
Qed.

(** A row joined on a column that has each value at most once. *)
Lemma filter_unique {A K} `{EqDecision K} (key : A -> K) (l : list A) a :
  NoDup (key <$> l) -> a ∈ l -> List.filter (fun b => bool_decide (key b = key a)) l = [a].
Proof.
  induction l as [|b l IH]; [by intros _ ?%elem_of_nil|]. rewrite fmap_cons.
  intros [Hb Hn]%NoDup_cons [->|Ha]%elem_of_cons; cbn [List.filter].
  - rewrite bool_decide_true by done. f_equal. apply filter_nil. intros c Hc.
    apply bool_decide_false. intros E. apply Hb. rewrite <- E. by apply list_elem_of_fmap_2.
  - rewrite bool_decide_false; [by apply IH|]. intros E. apply Hb. rewrite E.
    by apply list_elem_of_fmap_2.
Qed.

Lemma left_matches_one {B} (p : B -> bool) r b : List.filter p r = [b] -> left_matches p r = [Some b].
Proof. unfold left_matches. by intros ->. Qed.

Lemma left_matches_none {B} (p : B -> bool) r :
  (forall b, b ∈ r -> p b = false) -> left_matches p r = [None].
Proof. intros H. unfold left_matches. by rewrite filter_nil. Qed.

Lemma filter_fmap {A B} (p : B -> bool) (f : A -> B) l :
  List.filter p (f <$> l) = f <$> List.filter (fun a => p (f a)) l.
Proof. induction l as [|a l IH]; [done|]. cbn. destruct (p (f a)); cbn; by rewrite <- IH. Qed.

(** The group of a key. *)
Lemma group_of_key {A K} `{EqDecision K} (key : A -> K) l k :
  List.filter (fun g => bool_decide (fst g = k)) (group_by key l) =
  if bool_decide (k ∈ key <$> l) then [(k, List.filter (fun a => bool_decide (key a = k)) l)] else [].
Proof.
  case_bool_decide as Hk.
  - apply (filter_unique fst _ (k, _)); [apply group_by_keys|]. by apply elem_of_group_by.
  - apply filter_nil. intros [k' g] [Hk' _]%elem_of_group_by. apply bool_decide_false.
    cbn. congruence.
Qed.

(** Rows with a key of their own under each of several different keys. *)
Lemma bind_of_key {A K} `{EqDecision K} (key : A -> K) (f : K -> list A) ks k :
  NoDup ks -> k ∈ ks -> (forall k' a, a ∈ f k' -> key a = k') ->
  List.filter (fun a => bool_decide (key a = k)) (ks ≫= f) = f k.
Proof.
  intros Hn Hk Hf. assert (forall k', List.filter (fun a => bool_decide (key a = k)) (f k') =
                                      if bool_decide (k' = k) then f k else []) as Hfilter.
  { intros k'. case_bool_decide as E; [subst k'|].
    - rewrite (List.filter_ext_in _ (fun _ => true)), List.filter_true; [done|].
      intros a Ha%list_elem_of_In. apply bool_decide_true. by apply Hf.
    - apply filter_nil. intros a Ha. apply bool_decide_false. by rewrite (Hf k' a). }
  induction Hn as [|k' ks Hk' _ IH]; [by apply elem_of_nil in Hk|].
  rewrite bind_cons, List.filter_app, Hfilter. apply elem_of_cons in Hk as [->|Hk].
  - rewrite bool_decide_true by done. rewrite filter_nil; [apply app_nil_r|].
    intros a (k'' & Ha & Hk'')%list_elem_of_bind. apply bool_decide_false.
    rewrite (Hf k'' a) by done. by intros ->.
  - rewrite bool_decide_false by (by intros ->). by apply IH.
Qed.

Lemma bind_singletons {A B} (f : A -> list B) (P : A -> B -> Prop) l :
  (forall a, a ∈ l -> exists b, f a = [b] /\ P a b) -> Forall2 P l (l ≫= f).
Proof.
  induction l as [|a l IH]; intros H; [constructor|].
  destruct (H a) as (b & E & Hb); [by left|]. rewrite bind_cons, E. cbn [app].
  constructor; [done|]. apply IH. intros a' Ha'. apply H. by right.
Qed.

Lemma sum_of_forall2 {A B} (f : A -> Z) (g : B -> Z) l l' :
  Forall2 (fun a b => g b = f a) l l' -> sum_of g l' = sum_of f l.
Proof. induction 1 as [|a b l l' E _ IH]; [done|]. rewrite !sum_of_cons. congruence. Qed.

Lemma elem_of_left_matches {B} (p : B -> bool) r b :
  Some b ∈ left_matches p r -> b ∈ r /\ p b = true.
Proof.
  unfold left_matches. destruct (List.filter p r) as [|x l] eqn:E.
  - intros H. by apply list_elem_of_singleton in H.
  - rewrite <- E. intros (b' & [= <-] & Hb)%list_elem_of_fmap. by apply elem_of_list_filter in Hb.
Qed.

Lemma left_matches_null {B} (p : B -> bool) r b : None ∈ left_matches p r -> b ∈ left_matches p r -> b = None.
Proof.
  unfold left_matches. destruct (List.filter p r) as [|x l].
  - intros _ H. by apply list_elem_of_singleton in H.
  - by intros (b' & ? & _)%list_elem_of_fmap.
Qed.
