(* ===== verification/Views.v ===== *)
(** * The statistics views

    The views [pg_stat_qx_*] of [src/src/backend/catalog/system_views.sql], as
    functions of the viewer and of the world.  Most show the viewer the rows
    whose owner's privileges it has, or all rows to a member of
    [pg_read_all_stats].

    A column that only copies one of a row stands for itself: where a view or a
    subquery projects a row, the model keeps the row.  [clock_timestamp()] is
    read anew in every expression and for every row; [v_clock] gives what each
    of these readings returns, by the place in the view and the row. *)

From Stdlib Require Import Ascii String.
From S2P Require Import Prelude Text Types Scheduler Stat Observe Tables World Catalog StatHistory.
From S2P Require Import Supervisor TestHooks Sql.
Open Scope string_scope.
Open Scope Z_scope.
Open Scope bool_scope.
Open Scope list_scope.

Record Viewer := MkViewer {
  v_usage : Oid -> bool;             (* pg_has_role(SESSION_USER, role, 'USAGE') *)
  v_reads_all : bool;                (* pg_has_role(SESSION_USER, 'pg_read_all_stats', 'MEMBER') *)
  v_clock : nat -> Oid -> TimestampTz;
  v_lower : string -> string;        (* lower, in the database's collation *)
  v_nspname : Oid -> cstr;           (* pg_namespace *)
  v_userbyid : Oid -> string;        (* pg_get_userbyid *)
  v_database : string;               (* current_database() *)
  v_getenv : string -> cstr          (* the server's environment *)
}.

(** ** The order of the scheduler's ledger *)

(** [ORDER BY task, a.qxattemptseqno DESC, oid DESC]: NULLs come first in a
    descending order. *)
Record ledger_key := MkLedgerKey { lk_task : Oid; lk_seqno : option Z; lk_oid : Oid }.

Definition key_before (a b : ledger_key) : bool :=
  if lk_task a <? lk_task b then true
  else if lk_task b <? lk_task a then false
  else match lk_seqno a, lk_seqno b with
       | None, Some _ => true
       | Some _, None => false
       | Some x, Some y => if y <? x then true else if x <? y then false else lk_oid b <=? lk_oid a
       | None, None => lk_oid b <=? lk_oid a
       end.

(** [LEFT JOIN pg_qx_attempt a ON (a.oid = attemptid)] *)
Definition attempt_seqno (c : catalog) (attemptid : Oid) : option Z :=
  qxattemptseqno <$> find_oid attemptid (c_attempts c).

Definition queue_key (c : catalog) (q : pg_qx_scheduler_queue) : ledger_key :=
  MkLedgerKey (qxqueueledgertaskid q) (attempt_seqno c (qxqueueledgerattemptid q)) (queue_row_oid q).
Definition lease_key (c : catalog) (l : pg_qx_scheduler_lease) : ledger_key :=
  MkLedgerKey (qxleaseledgertaskid l) (attempt_seqno c (qxleaseledgerattemptid l)) (lease_row_oid l).
Definition heartbeat_key (c : catalog) (h : pg_qx_scheduler_heartbeat) : ledger_key :=
  MkLedgerKey (qxheartbeatledgertaskid h) (attempt_seqno c (qxheartbeatledgerattemptid h))
    (heartbeat_row_oid h).

Definition ledger_order {A} (key : A -> ledger_key) : relation A :=
  fun a b => key_before (key a) (key b) = true.
#[export] Instance ledger_order_dec {A} (key : A -> ledger_key) a b : Decision (ledger_order key a b).
Proof. unfold ledger_order. apply _. Defined.

Section Views.
Context (E : Env) (V : Viewer).

(** The WHERE clause of the views. *)
Definition visible (owner : Oid) : bool := v_usage V owner || v_reads_all V.

Definition is_state (c : ascii) (s : ascii) : bool := Ascii.eqb s c.

(** ** Agents, sessions and tasks *)

Record agent_view := MkAgentView {
  ag_agent : pg_qx_agent;
  ag_schemaname : cstr;
  ag_owner_name : string;
  ag_namespace_policy_name : cstr;
  ag_session_count : Z;
  ag_active_session_count : Z;
  ag_task_count : Z;
  ag_checkpointed_task_count : Z;
  ag_completed_task_count : Z;
  ag_memory_count : Z
}.

Definition agent_stat_row (c : catalog) (a : pg_qx_agent) : agent_view :=
  let of_agent := fun t => qxtaskagentid t =? agent_oid a in
  {| ag_agent := a;
     ag_schemaname := v_nspname V (qxagentnamespace a);
     ag_owner_name := v_userbyid V (qxagentowner a);
     ag_namespace_policy_name := qxnamespacepolicyname <$> find_oid (qxnamespacepolicyid a) (c_namespaces c);
     ag_session_count := count_where (fun s => qxsessionagentid s =? agent_oid a) (c_sessions c);
     ag_active_session_count :=
       count_where (fun s => (qxsessionagentid s =? agent_oid a) && is_state "a" (qxsessionstatus s))
         (c_sessions c);
     ag_task_count := count_where of_agent (c_tasks c);
     ag_checkpointed_task_count := count_where (fun t => of_agent t && is_state "k" (qxtaskstate t)) (c_tasks c);
     ag_completed_task_count := count_where (fun t => of_agent t && is_state "c" (qxtaskstate t)) (c_tasks c);
     ag_memory_count := count_where (fun m => qxmemoryagentid m =? agent_oid a) (c_memories c) |}.

Definition pg_stat_qx_agents (c : catalog) : list agent_view :=
  agent_stat_row c <$> List.filter (fun a => visible (qxagentowner a)) (c_agents c).

Record session_view := MkSessionView {
  se_session : pg_qx_session;
  se_agent_name : string;
  se_owner_name : string;
  se_identity_name : string;
  se_namespace_policy_name : string;
  se_session_status : string;
  se_has_context : bool;
  se_task_count : Z;
  se_completed_task_count : Z;
  se_event_count : Z;
  se_trace_count : Z;
  se_checkpoint_count : Z;
  se_memory_count : Z
}.

Definition session_stat_row (c : catalog) (s : pg_qx_session) : option session_view :=
  let of_session := fun t => qxtasksessionid t =? session_oid s in
  match find_oid (qxsessionagentid s) (c_agents c), find_oid (qxsessionidentityid s) (c_identities c),
        find_oid (qxsessionnamespacepolicyid s) (c_namespaces c) with
  | Some a, Some qxi, Some qxn => Some
    {| se_session := s;
       se_agent_name := qxagentname a;
       se_owner_name := v_userbyid V (qxsessionowner s);
       se_identity_name := qxidentityname qxi;
       se_namespace_policy_name := qxnamespacepolicyname qxn;
       se_session_status := if is_state "a" (qxsessionstatus s) then "active" else "unknown";
       se_has_context := negb (is_null (qxcontext s));
       se_task_count := count_where of_session (c_tasks c);
       se_completed_task_count :=
         count_where (fun t => of_session t && is_state "c" (qxtaskstate t)) (c_tasks c);
       se_event_count := count_where (fun e => qxeventsessionid e =? session_oid s) (c_events c);
       se_trace_count := count_where (fun tr => qxtracesessionid tr =? session_oid s) (c_traces c);
       se_checkpoint_count :=
         count_where (fun k => qxcheckpointsessionid k =? session_oid s) (c_checkpoints c);
       se_memory_count := count_where (fun m => qxmemorysessionid m =? session_oid s) (c_memories c) |}
  | _, _, _ => None
  end.

Definition pg_stat_qx_sessions (c : catalog) : list session_view :=
  omap (session_stat_row c) (List.filter (fun s => visible (qxsessionowner s)) (c_sessions c)).

Definition task_state_name (s : ascii) : string :=
  if is_state "p" s then "pending" else if is_state "q" s then "queued"
  else if is_state "r" s then "running" else if is_state "k" s then "checkpointed"
  else if is_state "c" s then "completed" else if is_state "f" s then "failed" else "unknown".

(** The traces that tell where the scheduler put a task. *)
Definition scheduler_trace (t : pg_qx_task) (tr : pg_qx_trace) : bool :=
  (qxtracetaskid tr =? task_oid t) &&
  holds (fun n => existsb (String.eqb n)
           ["runtime.queue"; "runtime.dispatch"; "runtime.resume"; "runtime.resume_dispatch"])
    (qxtracename tr).

(** [ORDER BY tr.oid DESC LIMIT 1] *)
Fixpoint newest_trace (l : list pg_qx_trace) : option pg_qx_trace :=
  match l with
  | [] => None
  | tr :: rest =>
      match newest_trace rest with
      | Some best => if trace_oid tr <? trace_oid best then Some best else Some tr
      | None => Some tr
      end
  end.

Record task_stat := MkTaskStat {
  ts_task : pg_qx_task;
  ts_agent_name : string;
  ts_owner_name : string;
  ts_identity_name : string;
  ts_namespace_policy_name : string;
  ts_task_state : string;
  ts_remaining_tokens : Z;
  ts_remaining_cost : Z;
  ts_has_attempt : bool;
  ts_has_checkpoint : bool;
  ts_attempt_count : Z;
  ts_step_count : Z;
  ts_event_count : Z;
  ts_trace_count : Z;
  ts_checkpoint_count : Z;
  ts_scheduler_queue : cstr;
  ts_scheduler_runtime : cstr;
  ts_scheduler_provider : cstr;
  ts_scheduler_worker : cstr;
  ts_scheduler_retry : cstr;
  ts_memory_count : Z
}.

Definition task_stat_row (c : catalog) (t : pg_qx_task) : option task_stat :=
  let sched := newest_trace (List.filter (scheduler_trace t) (c_traces c)) in
  let detail := fun key =>
    match sched with
    | Some tr => QxObserveTraceDetailValue (qxtracedetail tr) (Some key)
    | None => None
    end in
  match find_oid (qxtaskagentid t) (c_agents c), find_oid (qxtaskidentityid t) (c_identities c),
        find_oid (qxtasknamespacepolicyid t) (c_namespaces c) with
  | Some a, Some qxi, Some qxn => Some
    {| ts_task := t;
       ts_agent_name := qxagentname a;
       ts_owner_name := v_userbyid V (qxtaskowner t);
       ts_identity_name := qxidentityname qxi;
       ts_namespace_policy_name := qxnamespacepolicyname qxn;
       ts_task_state := task_state_name (qxtaskstate t);
       ts_remaining_tokens := Z.max (qxtaskbudgettokens t - qxtaskconsumedtokens t) 0;
       ts_remaining_cost := Z.max (qxtaskbudgetcost t - qxtaskconsumedcost t) 0;
       ts_has_attempt := OidIsValid (qxtasklastattemptid t);
       ts_has_checkpoint := OidIsValid (qxtasklastcheckpointid t);
       ts_attempt_count := count_where (fun x => qxattempttaskid x =? task_oid t) (c_attempts c);
       ts_step_count := count_where (fun x => qxsteptaskid x =? task_oid t) (c_steps c);
       ts_event_count := count_where (fun x => qxeventtaskid x =? task_oid t) (c_events c);
       ts_trace_count := count_where (fun x => qxtracetaskid x =? task_oid t) (c_traces c);
       ts_checkpoint_count := count_where (fun x => qxcheckpointtaskid x =? task_oid t) (c_checkpoints c);
       ts_scheduler_queue := detail "scheduler_queue";
       ts_scheduler_runtime := detail "scheduler_runtime";
       ts_scheduler_provider := detail "scheduler_provider";
       ts_scheduler_worker := detail "scheduler_worker";
       ts_scheduler_retry := detail "scheduler_retry";
       ts_memory_count := count_where (fun m => qxmemorytaskid m =? task_oid t) (c_memories c) |}
  | _, _, _ => None
  end.

Definition pg_stat_qx_tasks (c : catalog) : list task_stat :=
  omap (task_stat_row c) (List.filter (fun t => visible (qxtaskowner t)) (c_tasks c)).

(** ** The latest entries of the scheduler's ledger *)

Definition visible_queue (c : catalog) : list pg_qx_scheduler_queue :=
  List.filter (fun q => visible (qxqueueledgerowner q)) (c_queues c).
Definition visible_lease (c : catalog) : list pg_qx_scheduler_lease :=
  List.filter (fun l => visible (qxleaseledgerowner l)) (c_leases c).
Definition visible_heartbeat (c : catalog) : list pg_qx_scheduler_heartbeat :=
  List.filter (fun h => visible (qxheartbeatledgerowner h)) (c_heartbeats c).

Definition latest_queue (c : catalog) : list pg_qx_scheduler_queue :=
  distinct_on qxqueueledgertaskid (ledger_order (queue_key c)) (visible_queue c).
Definition latest_lease (c : catalog) : list pg_qx_scheduler_lease :=
  distinct_on qxleaseledgertaskid (ledger_order (lease_key c)) (visible_lease c).
Definition latest_heartbeat (c : catalog) : list pg_qx_scheduler_heartbeat :=
  distinct_on qxheartbeatledgertaskid (ledger_order (heartbeat_key c)) (visible_heartbeat c).

(** ** Queues and workers *)

Definition scheduler_task_state (s : ascii) : string :=
  if is_state "q" s then "queued" else if is_state "r" s then "running"
  else if is_state "k" s then "checkpointed" else if is_state "c" s then "completed"
  else if is_state "f" s then "failed" else "other".

Definition in_state (name : string) (t : pg_qx_task) : bool :=
  String.eqb (scheduler_task_state (qxtaskstate t)) name.

(** [lower(priority) IN (...)] *)
Definition lower_in (p : string) (words : list string) : bool := existsb (String.eqb (v_lower V p)) words.

Definition view_priority_weight (priority : cstr) : Z :=
  match priority with
  | None => 40
  | Some p =>
      if String.eqb p "" then 40
      else if lower_in p ["urgent"; "critical"] then 100
      else if lower_in p ["high"] then 80
      else if lower_in p ["normal"] then 60
      else if lower_in p ["low"] then 35
      else if lower_in p ["idle"] then 10
      else 50
  end.

Definition view_heartbeat_interval_ms (priority : cstr) : Z :=
  match priority with
  | None => 5000
  | Some p =>
      if String.eqb p "" then 5000
      else if lower_in p ["urgent"; "critical"; "high"] then 1500
      else if lower_in p ["normal"] then 3000
      else if lower_in p ["low"] then 5000
      else if lower_in p ["idle"] then 8000
      else 3000
  end.

Definition view_lease_ttl_ms (priority : cstr) : Z :=
  match priority with
  | None => 15000
  | Some p =>
      if String.eqb p "" then 15000
      else if lower_in p ["urgent"; "critical"; "high"] then 4500
      else if lower_in p ["normal"] then 9000
      else if lower_in p ["low"] then 15000
      else if lower_in p ["idle"] then 24000
      else 9000
  end.

(** Tasks with their latest queue entry. *)
Definition queued_tasks (c : catalog) : list (pg_qx_task * pg_qx_scheduler_queue) :=
  join_on (fun t lq => qxqueueledgertaskid lq =? task_oid t) (c_tasks c) (latest_queue c).

Record queue_view := MkQueueView {
  qv_queue_name : cstr;
  qv_namespace_policy_name : cstr;
  qv_queue_kind : option Z;
  qv_priority_weight : option Z;
  qv_runtime_class : cstr;
  qv_provider_name : cstr;
  qv_provider_kind : cstr;
  qv_task_count : Z;
  qv_queued_task_count : Z;
  qv_running_task_count : Z;
  qv_checkpointed_task_count : Z;
  qv_completed_task_count : Z;
  qv_retrying_task_count : Z;
  qv_max_retries : Z;
  qv_heartbeat_interval_ms : option Z;
  qv_lease_ttl_ms : option Z
}.

Definition queue_group_key (r : pg_qx_task * pg_qx_scheduler_queue) : cstr * cstr * cstr * cstr * cstr :=
  let q := snd r in
  (qxqueueledgername q, qxqueueledgernamespacepolicyname q, qxqueueledgerprincipalruntime q,
   qxqueueledgerprovidername q, qxqueueledgerproviderkind q).

Definition queue_view_row
    (g : (cstr * cstr * cstr * cstr * cstr) * list (pg_qx_task * pg_qx_scheduler_queue)) : queue_view :=
  let '((queue, namespace, runtime, provider, kind), rows) := g in
  let in_task_state := fun name => count_where (fun r => in_state name (fst r)) rows in
  let over_priority := fun f => sql_min (fun r => Some (f (qxqueueledgerpriority (snd r)))) rows in
  {| qv_queue_name := queue;
     qv_namespace_policy_name := namespace;
     qv_queue_kind := sql_min (fun r => Some (queue_kind_code (qxqueueledgerkind (snd r)))) rows;
     qv_priority_weight := over_priority view_priority_weight;
     qv_runtime_class := runtime;
     qv_provider_name := provider;
     qv_provider_kind := kind;
     qv_task_count := count_all rows;
     qv_queued_task_count := in_task_state "queued";
     qv_running_task_count := in_task_state "running";
     qv_checkpointed_task_count := in_task_state "checkpointed";
     qv_completed_task_count := in_task_state "completed";
     qv_retrying_task_count := count_where (fun r => 0 <? qxqueueledgerretrycount (snd r)) rows;
     qv_max_retries := 3;
     qv_heartbeat_interval_ms := over_priority view_heartbeat_interval_ms;
     qv_lease_ttl_ms := over_priority view_lease_ttl_ms |}.

Definition pg_stat_qx_scheduler_queues (c : catalog) : list queue_view :=
  queue_view_row <$> group_by queue_group_key
    (List.filter (fun r => negb (is_null (qxqueueledgername (snd r)))) (queued_tasks c)).

(** The column [lease_expired]; [at_] is the place of the clock reading. *)
Definition view_lease_expired (at_ : nat) (l : pg_qx_scheduler_lease) : bool :=
  let state := lease_state_code (qxleaseledgerstate l) in
  if (state =? 3) || (state =? 4) then false
  else if state =? 2 then true
  else qxleaseledgerexpiresat l <? v_clock V at_ (lease_row_oid l).

Record worker_task := MkWorkerTask {
  wt_task : pg_qx_task;
  wt_lease : pg_qx_scheduler_lease;
  wt_queue : option pg_qx_scheduler_queue;
  wt_heartbeat : option pg_qx_scheduler_heartbeat
}.

Definition leased_tasks (c : catalog) : list worker_task :=
  tl ← join_on (fun t ll => qxleaseledgertaskid ll =? task_oid t) (c_tasks c) (latest_lease c);
  lq ← left_matches (fun q => qxqueueledgertaskid q =? task_oid (fst tl)) (latest_queue c);
  lh ← left_matches (fun h => qxheartbeatledgertaskid h =? task_oid (fst tl)) (latest_heartbeat c);
  [MkWorkerTask (fst tl) (snd tl) lq lh].

Record worker_view := MkWorkerView {
  wv_worker_name : cstr;
  wv_runtime_class : cstr;
  wv_provider_name : cstr;
  wv_provider_kind : cstr;
  wv_dispatched_task_count : Z;
  wv_queue_count : Z;
  wv_running_task_count : Z;
  wv_checkpointed_task_count : Z;
  wv_completed_task_count : Z;
  wv_retrying_task_count : Z;
  wv_expired_lease_count : Z;
  wv_stale_heartbeat_count : Z;
  wv_lease_state : option Z;
  wv_heartbeat_state : option Z
}.

Definition worker_group_key (r : worker_task) : cstr * cstr * cstr * cstr :=
  let l := wt_lease r in
  (qxleaseledgerworkername l, qxleaseledgerprincipalruntime l, qxleaseledgerprovidername l,
   qxleaseledgerproviderkind l).

Definition worker_view_row (g : (cstr * cstr * cstr * cstr) * list worker_task) : worker_view :=
  let '((worker, runtime, provider, kind), rows) := g in
  let in_task_state := fun name => count_where (fun r => in_state name (wt_task r)) rows in
  {| wv_worker_name := worker;
     wv_runtime_class := runtime;
     wv_provider_name := provider;
     wv_provider_kind := kind;
     wv_dispatched_task_count := count_all rows;
     wv_queue_count :=
       count_distinct (fun r => coalesce [qxleaseledgerqueuename (wt_lease r);
                                          wt_queue r ≫= qxqueueledgername]) rows;
     wv_running_task_count := in_task_state "running";
     wv_checkpointed_task_count := in_task_state "checkpointed";
     wv_completed_task_count := in_task_state "completed";
     wv_retrying_task_count := count_where (fun r => holds (fun q => 0 <? qxqueueledgerretrycount q) (wt_queue r)) rows;
     wv_expired_lease_count := count_where (fun r => view_lease_expired 0 (wt_lease r)) rows;
     wv_stale_heartbeat_count := count_where (fun r => holds qxheartbeatledgerstale (wt_heartbeat r)) rows;
     wv_lease_state := sql_max (fun r => Some (lease_state_code (qxleaseledgerstate (wt_lease r)))) rows;
     wv_heartbeat_state :=
       sql_max (fun r => (fun h => heartbeat_state_code (qxheartbeatledgerstate h)) <$> wt_heartbeat r) rows |}.

Definition pg_stat_qx_scheduler_workers (c : catalog) : list worker_view :=
  worker_view_row <$> group_by worker_group_key
    (List.filter (fun r => negb (is_null (qxleaseledgerworkername (wt_lease r)))) (leased_tasks c)).

(** ** Activity by queue, runtime class and provider *)

Definition activity_key := (cstr * cstr * cstr * cstr)%type.

Definition queue_name_of (k : activity_key) : cstr := let '(queue, _, _, _) := k in queue.

(** The ON clause of the joins with the metrics. *)
Definition same_activity (a b : activity_key) : bool :=
  let '(queue, runtime, provider, kind) := a in
  let '(queue', runtime', provider', kind') := b in
  sql_eq queue queue' && sql_eq runtime runtime' && not_distinct provider provider' &&
  not_distinct kind kind'.

Definition queue_activity (q : pg_qx_scheduler_queue) : activity_key :=
  (qxqueueledgername q, qxqueueledgerprincipalruntime q, qxqueueledgerprovidername q,
   qxqueueledgerproviderkind q).
Definition lease_activity (l : pg_qx_scheduler_lease) : activity_key :=
  (qxleaseledgerqueuename l, qxleaseledgerprincipalruntime l, qxleaseledgerprovidername l,
   qxleaseledgerproviderkind l).

(** A heartbeat with the visible lease it belongs to. *)
Definition heartbeat_lease (c : catalog) (h : pg_qx_scheduler_heartbeat) : option pg_qx_scheduler_lease :=
  find_oid (qxheartbeatledgerleaseid h) (visible_lease c).
Definition heartbeat_activity (c : catalog) (h : pg_qx_scheduler_heartbeat) : activity_key :=
  let l := heartbeat_lease c h in
  (coalesce [l ≫= qxleaseledgerqueuename; qxheartbeatledgerqueuename h],
   coalesce [l ≫= qxleaseledgerprincipalruntime; qxheartbeatledgerprincipalruntime h],
   l ≫= qxleaseledgerprovidername,
   coalesce [l ≫= qxleaseledgerproviderkind; qxheartbeatledgerproviderkind h]).

Record activity_task := MkActivityTask {
  at_task : pg_qx_task;
  at_queue : option pg_qx_scheduler_queue;
  at_lease : option pg_qx_scheduler_lease;
  at_heartbeat : option pg_qx_scheduler_heartbeat
}.

Definition activity_tasks (c : catalog) : list activity_task :=
  t ← c_tasks c;
  lq ← left_matches (fun q => qxqueueledgertaskid q =? task_oid t) (latest_queue c);
  ll ← left_matches (fun l => qxleaseledgertaskid l =? task_oid t) (latest_lease c);
  lh ← left_matches (fun h => qxheartbeatledgertaskid h =? task_oid t) (latest_heartbeat c);
  [MkActivityTask t lq ll lh].

(** The COALESCE of the three entries, column by column. *)
Definition task_activity (c : catalog) (r : activity_task) : activity_key :=
  let column := fun f => coalesce [at_queue r ≫= (fun q => f (queue_activity q));
                                   at_lease r ≫= (fun l => f (lease_activity l));
                                   at_heartbeat r ≫= (fun h => f (heartbeat_activity c h))] in
  (column (fun '(a, _, _, _) => a), column (fun '(_, a, _, _) => a), column (fun '(_, _, a, _) => a),
   column (fun '(_, _, _, a) => a)).

Record task_metrics := MkTaskMetrics {
  tm_queued_task_count : Z;
  tm_eligible_task_count : Z;
  tm_queued_retry_task_count : Z;
  tm_queued_recovery_task_count : Z;
  tm_running_task_count : Z;
  tm_checkpointed_task_count : Z;
  tm_completed_task_count : Z;
  tm_active_lease_count : Z;
  tm_expired_lease_count : Z;
  tm_stale_heartbeat_task_count : Z;
  tm_missed_heartbeat_task_count : Z
}.

Definition task_metrics_of (rows : list activity_task) : task_metrics :=
  let queued := fun r => is_state "q" (qxtaskstate (at_task r)) in
  let count_state := fun s => count_where (fun r => is_state s (qxtaskstate (at_task r))) rows in
  let now := fun place l => v_clock V place (lease_row_oid l) in
  {| tm_queued_task_count := count_state "q"%char;
     tm_eligible_task_count := count_where (fun r => queued r && holds (fun q =>
       negb (is_null (qxqueueledgername q)) && (0 <? qxqueueledgerrunnablecount q) &&
       (qxqueueledgerblockedcount q =? 0) &&
       (qxqueueledgereligibleat q <=? v_clock V 1 (queue_row_oid q))) (at_queue r)) rows;
     tm_queued_retry_task_count := count_where (fun r => queued r &&
       holds (fun q => queue_kind_code (qxqueueledgerkind q) =? 1) (at_queue r)) rows;
     tm_queued_recovery_task_count := count_where (fun r => queued r &&
       holds (fun q => queue_kind_code (qxqueueledgerkind q) =? 2) (at_queue r)) rows;
     tm_running_task_count := count_state "r"%char;
     tm_checkpointed_task_count := count_state "k"%char;
     tm_completed_task_count := count_state "c"%char;
     tm_active_lease_count := count_where (fun r => holds (fun l =>
       (lease_state_code (qxleaseledgerstate l) =? 1) && (now 2%nat l <=? qxleaseledgerexpiresat l))
       (at_lease r)) rows;
     tm_expired_lease_count := count_where (fun r => holds (view_lease_expired 3) (at_lease r)) rows;
     tm_stale_heartbeat_task_count := count_where (fun r => holds qxheartbeatledgerstale (at_heartbeat r)) rows;
     tm_missed_heartbeat_task_count := count_where (fun r => holds (fun h =>
       heartbeat_state_code (qxheartbeatledgerstate h) =? 3) (at_heartbeat r)) rows |}.

Definition current_task_metrics (c : catalog) : list (activity_key * task_metrics) :=
  (fun g => (fst g, task_metrics_of (snd g))) <$> group_by (task_activity c)
    (List.filter (fun r => negb (is_null (queue_name_of (task_activity c r)))) (activity_tasks c)).

Record queue_metrics := MkQueueMetrics {
  qm_queue_snapshot_count : Z;
  qm_retry_queue_snapshot_count : Z;
  qm_recovery_queue_snapshot_count : Z;
  qm_last_queue_update_at : option TimestampTz
}.

Definition queue_event_metrics (c : catalog) : list (activity_key * queue_metrics) :=
  (fun g => (fst g,
     {| qm_queue_snapshot_count := count_all (snd g);
        qm_retry_queue_snapshot_count :=
          count_where (fun q => queue_kind_code (qxqueueledgerkind q) =? 1) (snd g);
        qm_recovery_queue_snapshot_count :=
          count_where (fun q => queue_kind_code (qxqueueledgerkind q) =? 2) (snd g);
        qm_last_queue_update_at := sql_max (fun q => Some (qxqueueledgerupdatedat q)) (snd g) |})) <$>
  group_by queue_activity (visible_queue c).

Record lease_metrics := MkLeaseMetrics {
  lm_lease_snapshot_count : Z;
  lm_released_lease_snapshot_count : Z;
  lm_reclaimed_lease_snapshot_count : Z;
  lm_max_lease_renewal_count : option Z;
  lm_last_lease_renewed_at : option TimestampTz
}.

Definition lease_event_metrics (c : catalog) : list (activity_key * lease_metrics) :=
  (fun g => (fst g,
     {| lm_lease_snapshot_count := count_all (snd g);
        lm_released_lease_snapshot_count :=
          count_where (fun l => lease_state_code (qxleaseledgerstate l) =? 3) (snd g);
        lm_reclaimed_lease_snapshot_count :=
          count_where (fun l => lease_state_code (qxleaseledgerstate l) =? 4) (snd g);
        lm_max_lease_renewal_count := sql_max (fun l => Some (qxleaseledgerrenewalcount l)) (snd g);
        lm_last_lease_renewed_at := sql_max (fun l => Some (qxleaseledgerrenewedat l)) (snd g) |})) <$>
  group_by lease_activity (visible_lease c).

Record heartbeat_metrics := MkHeartbeatMetrics {
  hm_heartbeat_snapshot_count : Z;
  hm_renew_event_count : Z;
  hm_reclaim_event_count : Z;
  hm_release_event_count : Z;
  hm_last_heartbeat_observed_at : option TimestampTz
}.

Definition heartbeat_event_metrics (c : catalog) : list (activity_key * heartbeat_metrics) :=
  (fun g =>
     let mode := fun m => count_where (fun h => holds (String.eqb m) (qxheartbeatledgerreceiptmode h)) (snd g) in
     (fst g,
      {| hm_heartbeat_snapshot_count := count_all (snd g);
         hm_renew_event_count := mode "scheduler-renew";
         hm_reclaim_event_count := mode "scheduler-reclaim";
         hm_release_event_count := mode "scheduler-release";
         hm_last_heartbeat_observed_at := sql_max (fun h => Some (qxheartbeatledgerobservedat h)) (snd g) |})) <$>
  group_by (heartbeat_activity c) (visible_heartbeat c).

Definition activity_keys (c : catalog) : list activity_key :=
  remove_dups ((fst <$> current_task_metrics c) ++ (fst <$> queue_event_metrics c) ++
               (fst <$> lease_event_metrics c) ++ (fst <$> heartbeat_event_metrics c)).

Record activity_view := MkActivityView {
  av_key : activity_key;
  av_tasks : task_metrics;
  av_queue_snapshot_count : Z;
  av_lease_snapshot_count : Z;
  av_heartbeat_snapshot_count : Z;
  av_renew_event_count : Z;
  av_reclaim_event_count : Z;
  av_release_event_count : Z;
  av_retry_queue_snapshot_count : Z;
  av_recovery_queue_snapshot_count : Z;
  av_released_lease_snapshot_count : Z;
  av_reclaimed_lease_snapshot_count : Z;
  av_max_lease_renewal_count : Z;
  av_last_queue_update_at : option TimestampTz;
  av_last_lease_renewed_at : option TimestampTz;
  av_last_heartbeat_observed_at : option TimestampTz
}.

Definition no_task_metrics : task_metrics := MkTaskMetrics 0 0 0 0 0 0 0 0 0 0 0.

(** [COALESCE(m.f, 0)] over a left join. *)
Definition or_zero {M} (f : M -> Z) (m : option (activity_key * M)) : Z :=
  match m with Some p => f (snd p) | None => 0 end.

Definition activity_view_row (k : activity_key) (ctm : option (activity_key * task_metrics))
    (qem : option (activity_key * queue_metrics)) (lem : option (activity_key * lease_metrics))
    (hem : option (activity_key * heartbeat_metrics)) : activity_view :=
  {| av_key := k;
     av_tasks := match ctm with Some p => snd p | None => no_task_metrics end;
     av_queue_snapshot_count := or_zero qm_queue_snapshot_count qem;
     av_lease_snapshot_count := or_zero lm_lease_snapshot_count lem;
     av_heartbeat_snapshot_count := or_zero hm_heartbeat_snapshot_count hem;
     av_renew_event_count := or_zero hm_renew_event_count hem;
     av_reclaim_event_count := or_zero hm_reclaim_event_count hem;
     av_release_event_count := or_zero hm_release_event_count hem;
     av_retry_queue_snapshot_count := or_zero qm_retry_queue_snapshot_count qem;
     av_recovery_queue_snapshot_count := or_zero qm_recovery_queue_snapshot_count qem;
     av_released_lease_snapshot_count := or_zero lm_released_lease_snapshot_count lem;
     av_reclaimed_lease_snapshot_count := or_zero lm_reclaimed_lease_snapshot_count lem;
     av_max_lease_renewal_count := default 0 (lem ≫= (fun p => lm_max_lease_renewal_count (snd p)));
     av_last_queue_update_at := qem ≫= (fun p => qm_last_queue_update_at (snd p));
     av_last_lease_renewed_at := lem ≫= (fun p => lm_last_lease_renewed_at (snd p));
     av_last_heartbeat_observed_at := hem ≫= (fun p => hm_last_heartbeat_observed_at (snd p)) |}.

Definition pg_stat_qx_scheduler_activity (c : catalog) : list activity_view :=
  k ← activity_keys c;
  ctm ← left_matches (fun m => same_activity (fst m) k) (current_task_metrics c);
  qem ← left_matches (fun m => same_activity (fst m) k) (queue_event_metrics c);
  lem ← left_matches (fun m => same_activity (fst m) k) (lease_event_metrics c);
  hem ← left_matches (fun m => same_activity (fst m) k) (heartbeat_event_metrics c);
  [activity_view_row k ctm qem lem hem].

(** ** Retries and slots *)

(** [pg_qx_scheduler_worker_slot_count()] and [pg_qx_scheduler_owner_slot(task)] *)
Definition slot_count : Z := pg_qx_scheduler_worker_slot_count (v_getenv V).
Definition owner_slot (taskoid : Oid) : Z := pg_qx_scheduler_owner_slot (v_getenv V) taskoid.

(** [(EXTRACT(EPOCH FROM interval) * 1000)::bigint] of an interval in
    microseconds: rounded, halves away from zero. *)
Definition epoch_ms (usecs : Z) : Z :=
  if 0 <=? usecs then (usecs + 500) / 1000 else - ((- usecs + 500) / 1000).

Record backoff_view := MkBackoffView {
  bv_queue : pg_qx_scheduler_queue;
  bv_attempt_seqno : option Z;
  bv_owner_slot : Z;
  bv_slot_count : Z;
  bv_retry_delay_ms : Z;
  bv_remaining_backoff_ms : Z;
  bv_eligible_now : bool
}.

Definition backoff_view_row (c : catalog) (lq : pg_qx_scheduler_queue) : backoff_view :=
  {| bv_queue := lq;
     bv_attempt_seqno := attempt_seqno c (qxqueueledgerattemptid lq);
     bv_owner_slot := owner_slot (qxqueueledgertaskid lq);
     bv_slot_count := slot_count;
     bv_retry_delay_ms := Z.max (epoch_ms (qxqueueledgereligibleat lq - qxqueueledgerenqueuedat lq)) 0;
     bv_remaining_backoff_ms :=
       Z.max (epoch_ms (qxqueueledgereligibleat lq - v_clock V 4 (queue_row_oid lq))) 0;
     bv_eligible_now := qxqueueledgereligibleat lq <=? v_clock V 5 (queue_row_oid lq) |}.

Definition pg_stat_qx_scheduler_retry_backoff (c : catalog) : list backoff_view :=
  (fun r => backoff_view_row c (snd r)) <$>
    List.filter (fun r => is_state "q" (qxtaskstate (fst r)) &&
                          (queue_kind_code (qxqueueledgerkind (snd r)) =? 1)) (queued_tasks c).

Definition slot_series : list Z := Z.of_nat <$> seq 1 (Z.to_nat slot_count).

Record slot_metrics := MkSlotMetrics {
  sm_owned_task_count : Z;
  sm_owned_queued_task_count : Z;
  sm_owned_retry_task_count : Z;
  sm_owned_retry_ready_count : Z;
  sm_owned_retry_waiting_count : Z;
  sm_owned_running_task_count : Z;
  sm_owned_checkpointed_task_count : Z;
  sm_last_queue_update_at : option TimestampTz;
  sm_oldest_retry_eligible_at : option TimestampTz
}.

Definition owner_key (r : pg_qx_task * pg_qx_scheduler_queue) : Z * activity_key :=
  (owner_slot (task_oid (fst r)), queue_activity (snd r)).

Definition queued_retry (r : pg_qx_task * pg_qx_scheduler_queue) : bool :=
  in_state "queued" (fst r) && (queue_kind_code (qxqueueledgerkind (snd r)) =? 1).

Definition slot_metrics_of (rows : list (pg_qx_task * pg_qx_scheduler_queue)) : slot_metrics :=
  let in_task_state := fun name => count_where (fun r => in_state name (fst r)) rows in
  let now := fun place r => v_clock V place (queue_row_oid (snd r)) in
  {| sm_owned_task_count := count_all rows;
     sm_owned_queued_task_count := in_task_state "queued";
     sm_owned_retry_task_count := count_where queued_retry rows;
     sm_owned_retry_ready_count :=
       count_where (fun r => queued_retry r && (qxqueueledgereligibleat (snd r) <=? now 6%nat r)) rows;
     sm_owned_retry_waiting_count :=
       count_where (fun r => queued_retry r && (now 7%nat r <? qxqueueledgereligibleat (snd r))) rows;
     sm_owned_running_task_count := in_task_state "running";
     sm_owned_checkpointed_task_count := in_task_state "checkpointed";
     sm_last_queue_update_at := sql_max (fun r => Some (qxqueueledgerupdatedat (snd r))) rows;
     sm_oldest_retry_eligible_at :=
       sql_min (fun r => Some (qxqueueledgereligibleat (snd r))) (List.filter queued_retry rows) |}.

Definition slot_metrics_groups (c : catalog) : list ((Z * activity_key) * slot_metrics) :=
  (fun g => (fst g, slot_metrics_of (snd g))) <$> group_by owner_key (queued_tasks c).

Record balance_view := MkBalanceView {
  ba_owner_slot : Z;
  ba_slot_count : Z;
  ba_worker_name : string;
  ba_key : activity_key;
  ba_metrics : slot_metrics
}.

Definition no_slot_metrics : slot_metrics := MkSlotMetrics 0 0 0 0 0 0 0 None None.

Definition balance_keys (c : catalog) : list activity_key :=
  remove_dups (queue_activity <$>
    List.filter (fun q => negb (is_null (qxqueueledgername q))) (latest_queue c)).

(** A queue's row for a slot. *)
Definition balance_row (c : catalog) (ak : activity_key) (slot : Z) : list balance_view :=
  sm ← left_matches (fun m => (fst (fst m) =? slot) && same_activity (snd (fst m)) ak)
         (slot_metrics_groups c);
  [{| ba_owner_slot := slot;
      ba_slot_count := slot_count;
      ba_worker_name := cat ["qhapaqxian scheduler db "; v_database V; " slot "; show_d slot; "/";
                             show_d slot_count];
      ba_key := ak;
      ba_metrics := match sm with Some m => snd m | None => no_slot_metrics end |}].

Definition pg_stat_qx_scheduler_worker_balance (c : catalog) : list balance_view :=
  ak ← balance_keys c; slot ← slot_series; balance_row c ak slot.

(** ** The ledger itself *)

Definition pg_stat_qx_scheduler_ledger_queues (c : catalog) : list (pg_qx_scheduler_queue * option Z) :=
  (fun q => (q, attempt_seqno c (qxqueueledgerattemptid q))) <$> visible_queue c.

(** The entry, the number of its attempt, and [lease_expired]. *)
Definition pg_stat_qx_scheduler_ledger_leases (c : catalog) :
    list (pg_qx_scheduler_lease * option Z * bool) :=
  (fun l => (l, attempt_seqno c (qxleaseledgerattemptid l), view_lease_expired 8 l)) <$> visible_lease c.

(** [needs_attention]; the lease here need not be visible itself. *)
Definition view_needs_attention (c : catalog) (h : pg_qx_scheduler_heartbeat) : bool :=
  if holds (fun l => (lease_state_code (qxleaseledgerstate l) =? 3) ||
                     (lease_state_code (qxleaseledgerstate l) =? 4))
       (find_oid (qxheartbeatledgerleaseid h) (c_leases c))
  then false
  else qxheartbeatledgerstale h || (qxheartbeatledgerexpectedbefore h <? v_clock V 9 (heartbeat_row_oid h)).

Definition pg_stat_qx_scheduler_ledger_heartbeats (c : catalog) :
    list (pg_qx_scheduler_heartbeat * option Z * bool) :=
  (fun h => (h, attempt_seqno c (qxheartbeatledgerattemptid h), view_needs_attention c h)) <$>
    visible_heartbeat c.

(** ** Providers, principals and runtime classes *)

(** The rows of a set-returning function, and the row of one that returns a
    record. *)
Definition srf {A} (f : M (list A)) (w : world) : list A :=
  match f w with Ok rows _ => rows | Err _ _ => [] end.
Definition one_row {A} (f : M A) : M (list A) :=
  fun w => match f w with Ok r w' => Ok [r] w' | Err e w' => Err e w' end.

Definition count_at (i : nat) (counts : list Z) : Z := nth i counts 0.

Record usage_counts := MkUsageCounts {
  us_task_count : Z;
  us_submit_count : Z;
  us_resume_count : Z;
  us_verified_receipt_count : Z
}.

(** [COALESCE(stats.x, 0)] over the columns of the collector's functions. *)
Definition usage_of (counts : option (list Z)) : usage_counts :=
  let column := fun i => match counts with Some l => count_at i l | None => 0 end in
  MkUsageCounts (column 5%nat) (column 0%nat) (column 1%nat) (column 2%nat).

Record provider_view := MkProviderView {
  pv_provider : pg_qx_provider;
  pv_schemaname : cstr;
  pv_owner_name : string;
  pv_principal_count : Z;
  pv_usage : usage_counts
}.

Definition provider_stat_row (w : world) (p : pg_qx_provider) : list provider_view :=
  stats ← left_matches (fun s => vp_oid s =? provider_oid p) (srf (pg_qx_stat_get_provider_stats E) w);
  [{| pv_provider := p;
      pv_schemaname := v_nspname V (qxprovidernamespace p);
      pv_owner_name := v_userbyid V (qxproviderowner p);
      pv_principal_count :=
        count_where (fun pr => qxprincipalproviderid pr =? provider_oid p) (c_principals (w_vis w));
      pv_usage := usage_of (vp_counts <$> stats) |}].

Definition pg_stat_qx_providers (w : world) : list provider_view :=
  List.filter (fun p => visible (qxproviderowner p)) (c_providers (w_vis w)) ≫= provider_stat_row w.

Record principal_view := MkPrincipalView {
  pp_principal : pg_qx_principal;
  pp_schemaname : cstr;
  pp_owner_name : string;
  pp_provider_kind : cstr;
  pp_has_signer : bool;
  pp_usage : usage_counts
}.

Definition principal_stat_row (w : world) (p : pg_qx_principal) : list principal_view :=
  stats ← left_matches (fun s => vr_oid s =? principal_oid p) (srf (pg_qx_stat_get_principal_stats E) w);
  [{| pp_principal := p;
      pp_schemaname := v_nspname V (qxprincipalnamespace p);
      pp_owner_name := v_userbyid V (qxprincipalowner p);
      pp_provider_kind := find_oid (qxprincipalproviderid p) (c_providers (w_vis w)) ≫= qxproviderkind;
      pp_has_signer := negb (is_null (qxprincipalreceiptsigner p));
      pp_usage := usage_of (vr_counts <$> stats) |}].

Definition pg_stat_qx_principals (w : world) : list principal_view :=
  List.filter (fun p => visible (qxprincipalowner p)) (c_principals (w_vis w)) ≫= principal_stat_row w.

Record class_view := MkClassView {
  cv_runtime_class : cstr;
  cv_principal_count : Z;
  cv_provider_count : Z;
  cv_usage : usage_counts
}.

Definition pg_stat_qx_runtime_classes (w : world) : list class_view :=
  g ← group_by qxprincipalruntimeclass
        (List.filter (fun p => visible (qxprincipalowner p)) (c_principals (w_vis w)));
  stats ← left_matches (fun s => sql_eq (Some (fst s)) (fst g)) (srf (pg_qx_stat_get_runtime_class_stats E) w);
  [{| cv_runtime_class := fst g;
      cv_principal_count := count_all (snd g);
      cv_provider_count := count_distinct (fun p => Some (qxprincipalproviderid p)) (snd g);
      cv_usage := usage_of (snd <$> stats) |}].

(** ** The collector *)

(** Two rows of counters side by side: the collector's and the ledger's. *)
Definition pg_stat_qx_scheduler_collected (w : world) : list (list Z * list Z) :=
  let activity := pg_stat_qx_scheduler_activity (w_vis w) in
  (fun stats =>
     (stats, [sum_of av_renew_event_count activity; sum_of av_reclaim_event_count activity;
              sum_of av_release_event_count activity; sum_of av_retry_queue_snapshot_count activity;
              sum_of av_recovery_queue_snapshot_count activity])) <$>
  srf (one_row (pg_qx_stat_get_scheduler_activity_stats E)) w.

Definition pg_stat_qx_backend_supervisor (w : world) : list (list Z) :=
  srf (one_row (pg_qx_stat_get_backend_supervisor_stats E)) w.

Definition pg_stat_qx_recovery (w : world) : list (list Z) :=
  srf (one_row (pg_qx_stat_get_recovery_stats E)) w.

Definition pg_stat_qx_stat_history (w : world) : list history_view :=
  srf (pg_qx_stat_get_history E (Some "all") None) w.

(** [round(100.0 * part / whole, 2)], in hundredths of a percent; the quotient
    is rounded once. *)
Definition percent (part whole : Z) : option Z :=
  if 0 <? whole then Some ((2 * 10000 * part + whole) / (2 * whole)) else None.

Record slo_view := MkSloView {
  sl_provider : pg_qx_provider;
  sl_usage : usage_counts;
  sl_rejected_receipt_count : Z;
  sl_receipt_verification_pct : option Z;
  sl_checkpoint_coverage_pct : option Z
}.

Definition slo_row (w : world) (p : provider_view) : list slo_view :=
  s ← left_matches (fun s => vp_oid s =? provider_oid (pv_provider p)) (srf (pg_qx_stat_get_provider_stats E) w);
  let column := fun i => match s with Some r => count_at i (vp_counts r) | None => 0 end in
  [{| sl_provider := pv_provider p;
      sl_usage := pv_usage p;
      sl_rejected_receipt_count := column 3%nat;
      sl_receipt_verification_pct := percent (column 2%nat) (column 2%nat + column 3%nat);
      sl_checkpoint_coverage_pct := percent (column 4%nat) (column 0%nat + column 1%nat) |}].

Definition pg_stat_qx_slo_providers (w : world) : list slo_view := pg_stat_qx_providers w ≫= slo_row w.

Record dashboard_view := MkDashboardView {
  db_surface : string;
  db_entity_count : Z;
  db_execution_count : Z;
  db_verified_receipts : Z;
  db_rejected_receipts : Z;
  db_last_snapshot_at : option TimestampTz
}.

Definition last_snapshot (w : world) (scope : string) : option TimestampTz :=
  sql_max (fun h => Some (hv_captured h))
    (List.filter (fun h => String.eqb (hv_scope h) scope) (pg_stat_qx_stat_history w)).

(** A surface whose entities have the usual counters. *)
Definition entity_surface {A} (surface scope : string) (counts : A -> list Z) (rows : list A) (w : world) :
    dashboard_view :=
  let total := fun i => sum_of (fun r => count_at i (counts r)) rows in
  MkDashboardView surface (count_all rows) (total 5%nat) (total 2%nat) (total 3%nat) (last_snapshot w scope).

Definition pg_stat_qx_operator_dashboard (w : world) : list dashboard_view :=
  [entity_surface "providers" "provider" vp_counts (srf (pg_qx_stat_get_provider_stats E) w) w;
   entity_surface "principals" "principal" vr_counts (srf (pg_qx_stat_get_principal_stats E) w) w;
   entity_surface "runtime_classes" "runtime_class" snd (srf (pg_qx_stat_get_runtime_class_stats E) w) w] ++
  ((fun stats => MkDashboardView "scheduler" 1 (sum_of (fun i => count_at i stats) [0; 1; 2; 3; 4]%nat) 0 0
                   (last_snapshot w "scheduler")) <$>
     srf (one_row (pg_qx_stat_get_scheduler_activity_stats E)) w) ++
  ((fun stats => MkDashboardView "recovery" 1 (count_at 0 stats + count_at 1 stats) (count_at 2 stats)
                   (count_at 3 stats) (last_snapshot w "recovery")) <$>
     srf (one_row (pg_qx_stat_get_recovery_stats E)) w).

End Views.
