(* ===== verification/ViewProps.v ===== *)
(** * What the statistics views show

    Theorems about [Views]: the scheduler's views depend on no row of the ledger
    their viewer may not see; the groups of a view hold each task once; the
    weights and times the views compute are those of the scheduler; the entry a
    view takes for the latest of a task is the one the scheduler's workers
    read; and what the percentages of the service levels can be. *)

From Stdlib Require Import Ascii String.
From S2P Require Import Prelude Text Types Scheduler Stat Tables World Catalog StatHistory.
From S2P Require Import TaskView Supervisor TestHooks SupervisorProps Sql Views.
Open Scope string_scope.
Open Scope Z_scope.
Open Scope bool_scope.
Open Scope list_scope.

(** ** The order of the ledger *)

Lemma key_before_trans a b c : key_before a b = true -> key_before b c = true -> key_before a c = true.
Proof.
  unfold key_before. destruct (lk_seqno a), (lk_seqno b), (lk_seqno c);
    repeat (case_match; breflect); try done; try lia.
Qed.

Lemma key_before_total a b : key_before a b = true \/ key_before b a = true.
Proof.
  unfold key_before. destruct (lk_seqno a), (lk_seqno b);
    repeat (case_match; breflect); auto; rewrite ?Z.leb_le; lia.
Qed.

#[export] Instance ledger_order_trans {A} (key : A -> ledger_key) : Transitive (ledger_order key).
Proof. intros a b c. apply key_before_trans. Qed.

#[export] Instance ledger_order_total {A} (key : A -> ledger_key) : Total (ledger_order key).
Proof. intros a b. apply key_before_total. Qed.

(** ** Rows that are not visible *)

Section Visibility.
Context (E : Env) (V : Viewer).

(** The viewer may see an entry of the task in the ledger. *)
Definition has_entry (c : catalog) (t : pg_qx_task) : bool :=
  existsb (fun q => qxqueueledgertaskid q =? task_oid t) (visible_queue V c) ||
  existsb (fun l => qxleaseledgertaskid l =? task_oid t) (visible_lease V c) ||
  existsb (fun h => qxheartbeatledgertaskid h =? task_oid t) (visible_heartbeat V c).

(** What is left of the catalogs without the entries, and the tasks, the viewer
    may not see. *)
Definition seen (c : catalog) : catalog :=
  {| c_agents := []; c_identities := []; c_providers := []; c_principals := []; c_namespaces := [];
     c_tools := []; c_sessions := []; c_tasks := List.filter (has_entry c) (c_tasks c);
     c_attempts := c_attempts c; c_steps := []; c_events := []; c_traces := []; c_checkpoints := [];
     c_memories := []; c_queues := visible_queue V c; c_leases := visible_lease V c;
     c_heartbeats := visible_heartbeat V c; c_histories := [] |}.

Lemma filter_twice {A} (p : A -> bool) l : List.filter p (List.filter p l) = List.filter p l.
Proof. induction l as [|a l IH]; cbn; [done|]. destruct (p a) eqn:Hp; cbn; [rewrite Hp|]; congruence. Qed.

Lemma seen_queue c : visible_queue V (seen c) = visible_queue V c.
Proof. apply filter_twice. Qed.
Lemma seen_lease c : visible_lease V (seen c) = visible_lease V c.
Proof. apply filter_twice. Qed.
Lemma seen_heartbeat c : visible_heartbeat V (seen c) = visible_heartbeat V c.
Proof. apply filter_twice. Qed.

Lemma seen_latest_queue c : latest_queue V (seen c) = latest_queue V c.
Proof. unfold latest_queue. by rewrite seen_queue. Qed.
Lemma seen_latest_lease c : latest_lease V (seen c) = latest_lease V c.
Proof. unfold latest_lease. by rewrite seen_lease. Qed.
Lemma seen_latest_heartbeat c : latest_heartbeat V (seen c) = latest_heartbeat V c.
Proof. unfold latest_heartbeat. by rewrite seen_heartbeat. Qed.

Lemma bind_restrict {A B} (keep : A -> bool) (f : A -> list B) (p : B -> bool) l :
  (forall a, a ∈ l -> keep a = false -> List.filter p (f a) = []) ->
  List.filter p (List.filter keep l ≫= f) = List.filter p (l ≫= f).
Proof.
  induction l as [|a l IH]; intros H; [done|]. cbn [List.filter].
  rewrite bind_cons, List.filter_app, <- IH by (intros b Hb; apply H; by right).
  destruct (keep a) eqn:Hk.
  - by rewrite bind_cons, List.filter_app.
  - rewrite (H a) by (done || left). done.
Qed.

Lemma filter_all {A} (l : list A) : List.filter (fun _ => true) l = l.
Proof. induction l as [|a l IH]; cbn; congruence. Qed.

Lemma join_restrict {A B} (keep : A -> bool) (p : A -> B -> bool) l r :
  (forall a b, a ∈ l -> b ∈ r -> p a b = true -> keep a = true) ->
  join_on p (List.filter keep l) r = join_on p l r.
Proof.
  intros H. rewrite <- (filter_all (join_on p l r)), <- (filter_all (join_on p (List.filter keep l) r)).
  apply bind_restrict. intros a Ha Hk. rewrite filter_all, filter_nil; [done|].
  intros b Hb. destruct (p a b) eqn:Hp; [|done]. specialize (H a b Ha Hb Hp). congruence.
Qed.

Lemma existsb_entry {A} (f : A -> Oid) l a o : a ∈ l -> f a = o -> existsb (fun x => f x =? o) l = true.
Proof. intros Ha <-. apply existsb_exists. exists a. split; [by apply list_elem_of_In|apply Z.eqb_refl]. Qed.

Lemma seen_queued_tasks c : queued_tasks V (seen c) = queued_tasks V c.
Proof.
  unfold queued_tasks. rewrite seen_latest_queue. apply join_restrict.
  intros t q _ Hq Ht. apply Z.eqb_eq in Ht. unfold has_entry.
  rewrite (existsb_entry qxqueueledgertaskid _ q) by (done || by eapply distinct_on_elem). done.
Qed.

Lemma seen_leased_tasks c : leased_tasks V (seen c) = leased_tasks V c.
Proof.
  unfold leased_tasks. rewrite seen_latest_queue, seen_latest_lease, seen_latest_heartbeat. f_equal.
  apply join_restrict. intros t l _ Hl Ht. apply Z.eqb_eq in Ht. unfold has_entry.
  rewrite (existsb_entry qxleaseledgertaskid _ l) by (done || by eapply distinct_on_elem).
  by rewrite orb_true_r.
Qed.

Lemma no_entry {A} (f : A -> Oid) (R : relation A) `{forall x y, Decision (R x y)} l o :
  existsb (fun x => f x =? o) l = false ->
  left_matches (fun x => f x =? o) (distinct_on f R l) = [None].
Proof.
  intros He. apply left_matches_none. intros a Ha. apply distinct_on_elem in Ha.
  destruct (f a =? o) eqn:Ho; [|done].
  apply Z.eqb_eq in Ho. by rewrite (existsb_entry f l a) in He.
Qed.

Lemma seen_heartbeat_activity c h : heartbeat_activity V (seen c) h = heartbeat_activity V c h.
Proof. unfold heartbeat_activity, heartbeat_lease. by rewrite seen_lease. Qed.

Lemma seen_task_activity c r : task_activity V (seen c) r = task_activity V c r.
Proof.
  unfold task_activity. destruct (at_heartbeat r) as [h|]; [|done]. cbn [mbind option_bind].
  by rewrite seen_heartbeat_activity.
Qed.

Lemma seen_activity_tasks c :
  List.filter (fun r => negb (is_null (queue_name_of (task_activity V c r)))) (activity_tasks V (seen c)) =
  List.filter (fun r => negb (is_null (queue_name_of (task_activity V c r)))) (activity_tasks V c).
Proof.
  unfold activity_tasks. rewrite seen_latest_queue, seen_latest_lease, seen_latest_heartbeat.
  apply bind_restrict. intros t _ [[Hq Hl]%orb_false_iff Hh]%orb_false_iff.
  unfold latest_queue, latest_lease, latest_heartbeat.
  rewrite (no_entry qxqueueledgertaskid), (no_entry qxleaseledgertaskid),
    (no_entry qxheartbeatledgertaskid) by done. done.
Qed.

Lemma seen_task_metrics c : current_task_metrics V (seen c) = current_task_metrics V c.
Proof.
  unfold current_task_metrics. rewrite (group_by_ext _ (task_activity V c)) by apply seen_task_activity.
  rewrite (List.filter_ext _ (fun r => negb (is_null (queue_name_of (task_activity V c r)))))
    by (intros r; by rewrite seen_task_activity).
  by rewrite seen_activity_tasks.
Qed.

Lemma seen_activity c : pg_stat_qx_scheduler_activity V (seen c) = pg_stat_qx_scheduler_activity V c.
Proof.
  unfold pg_stat_qx_scheduler_activity, activity_keys.
  assert (heartbeat_event_metrics V (seen c) = heartbeat_event_metrics V c) as ->.
  { unfold heartbeat_event_metrics. rewrite seen_heartbeat.
    by rewrite (group_by_ext _ (heartbeat_activity V c)) by apply seen_heartbeat_activity. }
  assert (queue_event_metrics V (seen c) = queue_event_metrics V c) as ->.
  { unfold queue_event_metrics. by rewrite seen_queue. }
  assert (lease_event_metrics V (seen c) = lease_event_metrics V c) as ->.
  { unfold lease_event_metrics. by rewrite seen_lease. }
  by rewrite seen_task_metrics.
Qed.


End Visibility.

(** ** Tasks by slot *)

Section Balance.
Context (V : Viewer) (c : catalog).
Let n := slot_count V.

Lemma view_owner_slot taskoid :
  owner_slot V taskoid = qx_runtime_scheduler_owner_slot taskoid n + 1 /\
  owner_slot V taskoid ∈ slot_series V.
Proof.
  assert (1 <= n <= 8) as Hn by apply slot_count_range.
  pose proof (owner_slot_range taskoid n ltac:(unfold INT32_MAX; lia)) as Hr.
  unfold owner_slot, pg_qx_scheduler_owner_slot. change (pg_qx_scheduler_worker_slot_count _) with n. rewrite int32_small by (unfold in_int32; lia).
  split; [done|]. unfold slot_series. fold n.
  apply list_elem_of_fmap. exists (Z.to_nat (qx_runtime_scheduler_owner_slot taskoid n + 1)).
  split; [lia|]. apply elem_of_seq. lia.
Qed.

Lemma slot_owned taskoid slot :
  slot ∈ slot_series V ->
  qx_runtime_scheduler_worker_owns_task taskoid (slot - 1) n =
  bool_decide (owner_slot V taskoid = slot).
Proof.
  intros (i & -> & Hi%elem_of_seq)%list_elem_of_fmap. destruct (view_owner_slot taskoid) as [-> _].
  assert (1 <= n <= 8) as Hn by apply slot_count_range.
  fold n in Hi.
  unfold qx_runtime_scheduler_worker_owns_task. apply eq_bool_prop_intro. rewrite bool_decide_spec.
  unfold qx_runtime_scheduler_owner_slot. destruct (Z.leb_spec n 1).
  - split; [lia|done].
  - rewrite Is_true_true, Z.eqb_eq. lia.
Qed.

Definition null_runtime (ak : activity_key) : bool := let '(_, runtime, _, _) := ak in is_null runtime.

Lemma same_activity_iff k ak :
  queue_name_of ak <> None ->
  same_activity k ak = negb (null_runtime ak) && bool_decide (k = ak).
Proof.
  destruct k as [[[q r] p] d], ak as [[[q' r'] p'] d']. cbn. intros Hq.
  destruct q' as [q'|]; [|done]. apply eq_bool_prop_intro.
  rewrite !andb_True, negb_True, bool_decide_spec. unfold sql_eq, not_distinct.
  destruct q as [q|], r as [r|], r' as [r'|]; cbn; rewrite ?bool_decide_spec; naive_solver.
Qed.

(** The columns that count tasks, with what they count. *)
Definition slot_columns : list ((slot_metrics -> Z) * (pg_qx_task * pg_qx_scheduler_queue -> bool)) :=
  [(sm_owned_task_count, fun _ => true);
   (sm_owned_queued_task_count, fun r => in_state "queued" (fst r));
   (sm_owned_retry_task_count, queued_retry);
   (sm_owned_running_task_count, fun r => in_state "running" (fst r));
   (sm_owned_checkpointed_task_count, fun r => in_state "checkpointed" (fst r))].

Lemma slot_column_counts f p rows :
  (f, p) ∈ slot_columns -> f (slot_metrics_of V rows) = count_where p rows /\ f no_slot_metrics = 0.
Proof.
  intros H. apply list_elem_of_In in H. cbn [slot_columns In] in H. decompose [or] H; simplify_eq; try done.
  split; [|done]. cbn. unfold count_all, count_where. by rewrite filter_all.
Qed.

(** A column of a queue's row for a slot. *)
Lemma balance_row_counts ak slot f p :
  (f, p) ∈ slot_columns -> queue_name_of ak <> None ->
  exists r, balance_row V c ak slot = [r] /\ ba_key r = ak /\ ba_owner_slot r = slot /\
    f (ba_metrics r) =
    if null_runtime ak then 0
    else count_where (fun x => bool_decide (owner_key V x = (slot, ak)) && p x) (queued_tasks V c).
Proof.
  intros Hf Hq. unfold balance_row.
  assert (List.filter (fun m => (fst (fst m) =? slot) && same_activity (snd (fst m)) ak)
            (slot_metrics_groups V c) =
          if null_runtime ak then []
          else List.filter (fun m => bool_decide (fst m = (slot, ak))) (slot_metrics_groups V c)) as Hm.
  { destruct (null_runtime ak) eqn:Hr.
    - apply filter_nil. intros m _. rewrite same_activity_iff, Hr by done. apply andb_false_r.
    - apply List.filter_ext. intros [[s k] m]. cbn. rewrite same_activity_iff, Hr by done.
      apply eq_bool_prop_intro. rewrite andb_True, !bool_decide_spec, Is_true_true, Z.eqb_eq. naive_solver. }
  unfold left_matches. rewrite Hm. destruct (null_runtime ak).
  { eexists. split; [reflexivity|]. split_and!; [done..|]. by apply (slot_column_counts f p []). }
  unfold slot_metrics_groups. rewrite filter_fmap. cbn [fst]. rewrite group_of_key, <- count_where_filter.
  case_bool_decide as Hin; (eexists; split; [reflexivity|]; split_and!; [done..|]); cbn.
  - by apply slot_column_counts.
  - rewrite (filter_nil _ (queued_tasks V c)); [by apply (slot_column_counts f p [])|].
    intros x Hx. apply bool_decide_false. intros E. apply Hin. rewrite <- E. by apply list_elem_of_fmap_2.
Qed.

Lemma balance_key_named ak : ak ∈ balance_keys V c -> queue_name_of ak <> None.
Proof.
  intros (q & -> & Hq)%elem_of_remove_dups%list_elem_of_fmap.
  apply elem_of_list_filter in Hq as [_ Hq]. cbn. by destruct (qxqueueledgername q).
Qed.

Lemma slot_series_nodup : NoDup (slot_series V).
Proof. unfold slot_series. apply NoDup_fmap_2; [intros ? ?; lia|apply NoDup_seq]. Qed.

(** The rows of a queue. *)
Definition balance_rows (ak : activity_key) : list balance_view :=
  List.filter (fun r => bool_decide (ba_key r = ak)) (pg_stat_qx_scheduler_worker_balance V c).

Lemma balance_rows_slots ak :
  ak ∈ balance_keys V c -> balance_rows ak = slot_series V ≫= balance_row V c ak.
Proof.
  intros Hak. apply (bind_of_key ba_key (fun ak => slot_series V ≫= balance_row V c ak)).
  - apply NoDup_remove_dups.
  - done.
  - intros k r (slot & Hr & _)%list_elem_of_bind. unfold balance_row in Hr.
    apply list_elem_of_bind in Hr as (sm & Hr & _). by apply list_elem_of_singleton in Hr as ->.
Qed.

(** The tasks of a queue a column counts. *)
Definition of_queue (ak : activity_key) (p : pg_qx_task * pg_qx_scheduler_queue -> bool)
    (x : pg_qx_task * pg_qx_scheduler_queue) : bool :=
  bool_decide (queue_activity (snd x) = ak) && p x.

Definition owned_by (slot : Z) (x : pg_qx_task * pg_qx_scheduler_queue) : bool :=
  qx_runtime_scheduler_worker_owns_task (task_oid (fst x)) (slot - 1) n.

Lemma owner_key_owned slot ak p x :
  slot ∈ slot_series V ->
  bool_decide (owner_key V x = (slot, ak)) && p x = owned_by slot x && of_queue ak p x.
Proof.
  intros Hs. unfold owned_by, of_queue. rewrite slot_owned by done.
  apply eq_bool_prop_intro. rewrite !andb_True, !bool_decide_spec. unfold owner_key. naive_solver.
Qed.


End Balance.

(** ** Priorities *)

Fixpoint lower_text (s : string) : string :=
  match s with EmptyString => EmptyString | String ch rest => String (ascii_lower ch) (lower_text rest) end.

Definition ascii_text (s : string) : bool := all_chars (fun ch => (nat_of_ascii ch <? 128)%nat) s.

(** What every collation does. *)
Definition lowers_ascii (lower : string -> string) : Prop :=
  forall s, ascii_text s = true -> lower s = lower_text s.

Lemma strcaseeq_lower a b : pg_strcaseeq a b = String.eqb (lower_text a) (lower_text b).
Proof.
  revert b. induction a as [|ch a IH]; intros [|d b]; try done.
  cbn [pg_strcaseeq lower_text String.eqb]. rewrite IH. by destruct (Ascii.eqb _ _).
Qed.

Section Priorities.
Context (V : Viewer) (Hlower : lowers_ascii (v_lower V)).

Lemma lower_in_words p words :
  ascii_text p = true -> Forall (fun w => lower_text w = w) words ->
  lower_in V p words = existsb (pg_strcaseeq p) words.
Proof.
  intros Hp Hw. unfold lower_in. rewrite Hlower by done.
  induction Hw as [|w words E _ IH]; [done|]. cbn. rewrite IH, strcaseeq_lower. by rewrite E.
Qed.

(** The view's CASE expressions compute the scheduler's functions. *)
Lemma view_priorities_agree priority :
  holds ascii_text priority = true \/ priority = None ->
  view_priority_weight V priority = QxSchedulerPriorityWeight priority /\
  view_heartbeat_interval_ms V priority = heartbeat_interval_for_priority priority /\
  view_lease_ttl_ms V priority = int32 (heartbeat_interval_for_priority priority * 3).
Proof.
  intros [Hp| ->]; [|done]. destruct priority as [p|]; [|done]. cbn in Hp.
  unfold view_priority_weight, view_heartbeat_interval_ms, view_lease_ttl_ms,
    QxSchedulerPriorityWeight, heartbeat_interval_for_priority, qx_scheduler_priority_weight_internal.
  rewrite !lower_in_words by (done || by repeat constructor). cbn [existsb]. rewrite !orb_false_r.
  destruct (String.eqb p ""); [done|]. destruct (pg_strcaseeq p "urgent"), (pg_strcaseeq p "critical"); try done.
  destruct (pg_strcaseeq p "high"); [done|]. destruct (pg_strcaseeq p "normal"); [done|].
  destruct (pg_strcaseeq p "low"); [done|]. by destruct (pg_strcaseeq p "idle").
Qed.

End Priorities.

(** ** Queues *)

(** A task with its latest entry. *)
Lemma queued_tasks_elem V c t q :
  (t, q) ∈ queued_tasks V c ->
  t ∈ c_tasks c /\ q ∈ c_queues c /\ visible V (qxqueueledgerowner q) = true /\
  qxqueueledgertaskid q = task_oid t /\ q ∈ latest_queue V c.
Proof.
  intros (Ht & Hq & E%Z.eqb_eq)%elem_of_join. pose proof (distinct_on_elem _ _ _ _ Hq) as Hv.
  by apply elem_of_list_filter in Hv as [Hv Ho].
Qed.

Section Queues.
Context (V : Viewer) (c : catalog).

Definition named_tasks : list (pg_qx_task * pg_qx_scheduler_queue) :=
  List.filter (fun x => negb (is_null (qxqueueledgername (snd x)))) (queued_tasks V c).

Definition queue_view_key (r : queue_view) : cstr * cstr * cstr * cstr * cstr :=
  (qv_queue_name r, qv_namespace_policy_name r, qv_runtime_class r, qv_provider_name r, qv_provider_kind r).

(** The columns that count tasks, with what they count. *)
Definition queue_columns : list ((queue_view -> Z) * (pg_qx_task * pg_qx_scheduler_queue -> bool)) :=
  [(qv_task_count, fun _ => true);
   (qv_queued_task_count, fun x => is_state "q" (qxtaskstate (fst x)));
   (qv_running_task_count, fun x => is_state "r" (qxtaskstate (fst x)));
   (qv_checkpointed_task_count, fun x => is_state "k" (qxtaskstate (fst x)));
   (qv_completed_task_count, fun x => is_state "c" (qxtaskstate (fst x)));
   (qv_retrying_task_count, fun x => 0 <? qxqueueledgerretrycount (snd x))].

Lemma in_state_code name s (t : pg_qx_task) :
  (name, s) ∈ [("queued", "q"%char); ("running", "r"%char); ("checkpointed", "k"%char); ("completed", "c"%char)] ->
  in_state name t = is_state s (qxtaskstate t).
Proof.
  intros H. apply list_elem_of_In in H. unfold in_state, scheduler_task_state, is_state.
  cbn [In] in H. decompose [or] H; simplify_eq; destruct (qxtaskstate t) as [[] [] [] [] [] [] [] []]; done.
Qed.

Lemma queue_view_row_key g : queue_view_key (queue_view_row V g) = fst g.
Proof. by destruct g as [[[[[q ns] r] p] k] rows]. Qed.

Lemma queue_column_counts f p g :
  (f, p) ∈ queue_columns -> f (queue_view_row V g) = count_where p (snd g).
Proof.
  destruct g as [[[[[q ns] r] pn] k] rows]. intros H. apply list_elem_of_In in H.
  cbn [queue_columns In] in H. decompose [or] H; simplify_eq; cbn; try done.
  - unfold count_all, count_where. by rewrite filter_all.
  - apply count_where_ext. intros x _. apply in_state_code. by left.
  - apply count_where_ext. intros x _. apply in_state_code. right. by left.
  - apply count_where_ext. intros x _. apply in_state_code. do 2 right. by left.
  - apply count_where_ext. intros x _. apply in_state_code. do 3 right. by left.
Qed.


End Queues.

(** ** Retries *)

(** The scan for the latest row keeps the one with the largest identifier. *)
Lemma latest_max {R} `{Table R} (l : list R) :
  (forall r, r ∈ l -> 0 < row_oid r) -> l <> [] ->
  exists q, q ∈ l /\ latest l = Some q /\ forall r, r ∈ l -> row_oid r <= row_oid q.
Proof.
  intros Hpos Hne. induction l as [|r l IH] using rev_ind; [done|].
  unfold latest. rewrite fold_left_app. cbn [fold_left]. fold (latest l).
  destruct (decide (l = [])) as [->|Hl].
  - exists r. split_and!; [by left|done|]. intros r' Hr'. apply list_elem_of_singleton in Hr' as ->. lia.
  - destruct IH as (q & Hq & E & Hmax); [intros r' Hr'; apply Hpos, elem_of_app; by left|done|].
    rewrite E. unfold pick_latest, OidIsValid, InvalidOid.
    pose proof (Hpos q ltac:(apply elem_of_app; by left)).
    destruct (Z.eqb_spec (row_oid q) 0); [lia|]. cbn [negb orb].
    destruct (Z.ltb_spec (row_oid q) (row_oid r)); [exists r|exists q].
    + split_and!; [apply elem_of_app; right; by left|done|].
      intros r' [Hr'%Hmax| ->%list_elem_of_singleton]%elem_of_app; lia.
    + split_and!; [apply elem_of_app; by left|done|].
      intros r' [Hr'%Hmax| ->%list_elem_of_singleton]%elem_of_app; lia.
Qed.

Section Retries.
Context (E : Env) (V : Viewer) (c : catalog).

(** A task whose last attempt is its latest one in the ledger, which the viewer
    may see. *)
Record retry_ledger (t : pg_qx_task) (f : pg_qx_attempt) : Prop := {
  rl_task : t ∈ c_tasks c;
  rl_tasks : NoDup (task_oid <$> c_tasks c);
  rl_last : find_oid (qxtasklastattemptid t) (c_attempts c) = Some f;
  rl_oids : NoDup (queue_row_oid <$> c_queues c);
  rl_entry : exists q, q ∈ c_queues c /\ qxqueueledgertaskid q = task_oid t /\
    qxqueueledgerattemptid q = attempt_oid f;
  rl_entries : forall q, q ∈ c_queues c -> qxqueueledgertaskid q = task_oid t ->
    qxqueueledgerdbid q = MyDatabaseId E /\ 0 < queue_row_oid q /\
    visible V (qxqueueledgerowner q) = true /\
    exists a, find_oid (qxqueueledgerattemptid q) (c_attempts c) = Some a /\
      qxattemptseqno a <= qxattemptseqno f /\
      (qxattemptseqno a = qxattemptseqno f -> qxqueueledgerattemptid q = attempt_oid f)
}.

Definition attempt_entries (t : pg_qx_task) (f : pg_qx_attempt) : list pg_qx_scheduler_queue :=
  List.filter (queue_row_matches (MyDatabaseId E) InvalidOid (task_oid t) (attempt_oid f)) (c_queues c).

Lemma queue_oid_inj q q' :
  NoDup (queue_row_oid <$> c_queues c) -> q ∈ c_queues c -> q' ∈ c_queues c ->
  queue_row_oid q = queue_row_oid q' -> q = q'.
Proof.
  intros Hn Hq Hq' Eo. pose proof (filter_unique queue_row_oid _ q Hn Hq) as Hu.
  assert (q' ∈ [q]) as Hin; [|by apply list_elem_of_singleton in Hin].
  rewrite <- Hu. apply elem_of_list_filter. split; [done|]. by apply bool_decide_true.
Qed.

(** The view and the workers take the same entry for the task's latest. *)
Lemma latest_entry_agrees t f :
  retry_ledger t f -> exists q, latest (attempt_entries t f) = Some q /\ q ∈ latest_queue V c /\
    qxqueueledgertaskid q = task_oid t.
Proof.
  intros [Ht Htn Hl Hn (q0 & Hq0 & Et0 & Ea0) Hall].
  assert (forall q, q ∈ attempt_entries t f <->
            q ∈ c_queues c /\ qxqueueledgertaskid q = task_oid t /\ qxqueueledgerattemptid q = attempt_oid f)
    as Hent.
  { intros q. unfold attempt_entries. rewrite elem_of_list_filter. unfold queue_row_matches. split.
    - intros [Hq Hm]. split; [done|]. dms; breflect; naive_solver.
    - intros (Hq & E1 & E2). destruct (Hall q Hq E1) as (E3 & _). split; [done|].
      rewrite E1, E2, E3, !Z.eqb_refl. done. }
  destruct (latest_max (attempt_entries t f)) as (q & Hq & El & Hmax).
  { intros r (Hr & Er & _)%Hent. by destruct (Hall r Hr Er) as (_ & ? & _). }
  { intros En. assert (q0 ∈ attempt_entries t f) as H0 by by apply Hent.
    rewrite En in H0. by apply elem_of_nil in H0. }
  exists q. split; [done|]. apply Hent in Hq as (Hq & Et & Ea). split; [|done].
  destruct (find_oid_row _ _ _ Hl) as [_ Ef]. cbn in Ef.
  assert (attempt_seqno c (qxqueueledgerattemptid q) = Some (qxattemptseqno f)) as Eseq.
  { unfold attempt_seqno. by rewrite Ea, Ef, Hl. }
  apply elem_of_distinct_on; [apply _..| |].
  - intros b [Hb _]%elem_of_list_filter Ek H1 H2. apply queue_oid_inj; [done..|].
    revert H1 H2. unfold ledger_order, key_before, queue_key. cbn [lk_task lk_seqno lk_oid].
    rewrite Eseq, Ek, !Z.ltb_irrefl. destruct (Hall b Hb) as (_ & _ & _ & ab & Eb & _); [congruence|].
    unfold attempt_seqno. rewrite Eb. cbn. dms; breflect; lia.
  - split.
    { apply elem_of_list_filter. by destruct (Hall q Hq Et) as (_ & _ & ? & _). }
    intros b [Hb _]%elem_of_list_filter Ek. rewrite Et in Ek.
    destruct (Hall b Hb Ek) as (_ & _ & _ & ab & Eb & Hle & Heq).
    unfold ledger_order, key_before, queue_key. cbn [lk_task lk_seqno lk_oid].
    rewrite Eseq, Et, Ek, !Z.ltb_irrefl. unfold attempt_seqno. rewrite Eb. cbn.
    destruct (Z.ltb_spec (qxattemptseqno ab) (qxattemptseqno f)); [done|].
    destruct (Z.ltb_spec (qxattemptseqno f) (qxattemptseqno ab)); [lia|].
    apply Z.leb_le. apply Hmax, Hent. split_and!; [done..|]. apply Heq. lia.
Qed.

Lemma latest_queue_unique q q' :
  q ∈ latest_queue V c -> q' ∈ latest_queue V c -> qxqueueledgertaskid q = qxqueueledgertaskid q' -> q = q'.
Proof.
  intros Hq Hq' Et. pose proof (filter_unique qxqueueledgertaskid _ q
    (distinct_on_nodup qxqueueledgertaskid (ledger_order (queue_key c)) (visible_queue V c)) Hq) as Hu.
  assert (q' ∈ [q]) as Hin; [|by apply list_elem_of_singleton in Hin].
  rewrite <- Hu. apply elem_of_list_filter. split; [done|]. by apply bool_decide_true.
Qed.

Lemma task_oid_inj t t' :
  NoDup (task_oid <$> c_tasks c) -> t ∈ c_tasks c -> t' ∈ c_tasks c -> task_oid t = task_oid t' -> t = t'.
Proof.
  intros Hn Ht Ht' Eo. pose proof (filter_unique task_oid _ t Hn Ht) as Hu.
  assert (t' ∈ [t]) as Hin; [|by apply list_elem_of_singleton in Hin].
  rewrite <- Hu. apply elem_of_list_filter. split; [done|]. by apply bool_decide_true.
Qed.

(** The entry the workers of the scheduler look up for a task. *)
Definition workers_entry (t : pg_qx_task) (f : pg_qx_attempt) : option QxSchedulerQueueSnapshot :=
  QxCatalogLookupLatestSchedulerQueue c (MyDatabaseId E) InvalidOid (task_oid t) (attempt_oid f).


End Retries.

(** ** Service levels *)

(** What changes the statistics in shared memory. *)
Inductive stat_step (s : QxStatSharedState) : QxStatSharedState -> Prop :=
  | step_provider track db provider resume verified :
      stat_step s (QxStatReportProviderExecution track db provider resume verified s)
  | step_principal track db principal resume checkpointed verified :
      stat_step s (QxStatReportPrincipalExecution track db principal resume checkpointed verified s)
  | step_runtime_class track db class resume checkpointed verified :
      stat_step s (QxStatReportRuntimeClassExecution track db class resume checkpointed verified s)
  | step_scheduler track db event : stat_step s (QxStatReportSchedulerEvent track db event s)
  | step_recovery track db report failover : stat_step s (QxStatReportRecoveryScan track db report failover s)
  | step_register track db task id kind s' :
      qx_backend_supervisor_register track db task id kind s = Some s' -> stat_step s s'
  | step_release track db task id : stat_step s (qx_backend_supervisor_release track db task id s)
  | step_fence track db task : stat_step s (qx_backend_supervisor_fence_stale track db task s)
  | step_reset scope s' : pg_qx_stat_reset scope s = Some s' -> stat_step s s'.

Inductive stat_reachable : QxStatSharedState -> Prop :=
  | reach_init : stat_reachable QxStatShmemInit
  | reach_step s s' : stat_reachable s -> stat_step s s' -> stat_reachable s'.

(** A provider's execution is counted once as a call and once as a receipt, and
    never as a checkpoint. *)
Definition provider_counters (c : QxStatCounters) : Prop :=
  checkpoint_count c = 0 /\ int64 (verified_receipts c + rejected_receipts c) = call_count c.

Definition provider_slot (s : QxStatSlot) : Prop :=
  slot_kind s = QX_STAT_PROVIDER -> provider_counters (slot_counters s).

Lemma int64_add_l a b : int64 (int64 a + b) = int64 (a + b).
Proof.
  unfold int64, wrap_signed. f_equal.
  replace ((a + 2 ^ (64 - 1)) mod 2 ^ 64 - 2 ^ (64 - 1) + b + 2 ^ (64 - 1))
    with ((a + 2 ^ (64 - 1)) mod 2 ^ 64 + b) by lia.
  rewrite Zplus_mod_idemp_l. f_equal. lia.
Qed.

Lemma int64_add_r a b : int64 (a + int64 b) = int64 (a + b).
Proof. by rewrite Z.add_comm, int64_add_l, Z.add_comm. Qed.

Lemma mutate_provider_counters resume verified c :
  provider_counters c -> provider_counters (qx_stat_mutate_provider resume verified c).
Proof.
  unfold provider_counters, call_count, qx_stat_mutate_provider. intros [Hk Hv].
  apply (f_equal (fun z => int64 (z + 1))) in Hv. rewrite !int64_add_l in Hv.
  destruct resume, verified; cbn; (split; [done|]); repeat case_decide; try done;
    rewrite ?int64_add_l, ?int64_add_r;
    (transitivity (int64 (verified_receipts c + rejected_receipts c + 1));
       [|rewrite Hv]; apply (f_equal int64); lia).
Qed.

Lemma with_entry_provider k create mutate slots :
  (key_kind k = QX_STAT_PROVIDER -> forall c, provider_counters c -> provider_counters (mutate c)) ->
  Forall provider_slot slots -> Forall provider_slot (qx_stat_with_entry k create mutate slots).
Proof.
  intros Hm Hs. unfold qx_stat_with_entry.
  pose proof (scan_slots_post k create slots 0 None) as Hp.
  destruct (scan_slots k create slots 0 None) as [i|[i|]]; [|destruct create; [|done]|done].
  - destruct Hp as (j & s & -> & Hj & [_ <-]%slot_matches_spec & _). cbn [Nat.add].
    apply Forall_alter; [done|]. intros s' Hs'. rewrite Hj in Hs'. injection Hs' as <-.
    intros Hslot Hk. cbn in *. by apply Hm, Hslot.
  - apply Forall_insert; [done|]. intros Hk. cbn in *. by apply Hm.
Qed.

Lemma reset_provider scope s s' :
  pg_qx_stat_reset scope s = Some s' ->
  s' = QxStatResetAll s \/ exists kind, s' = QxStatReset kind s.
Proof. unfold pg_qx_stat_reset. intros H. repeat case_match; simplify_eq; eauto. Qed.

Lemma stat_step_provider s s' :
  stat_step s s' -> Forall provider_slot (st_slots s) -> Forall provider_slot (st_slots s').
Proof.
  assert (forall track db event s0, Forall provider_slot (st_slots s0) ->
            Forall provider_slot (st_slots (QxStatReportBackendSupervisorEvent track db event s0))) as Hsup.
  { intros track db event s0 H. unfold QxStatReportBackendSupervisorEvent. dms. by apply with_entry_provider. }
  intros Hstep H. destruct Hstep.
  - unfold QxStatReportProviderExecution. dms. apply with_entry_provider; [|done].
    intros _ c. apply mutate_provider_counters.
  - unfold QxStatReportPrincipalExecution. dms. by apply with_entry_provider.
  - unfold QxStatReportRuntimeClassExecution. dms. by apply with_entry_provider.
  - unfold QxStatReportSchedulerEvent. dms. by apply with_entry_provider.
  - unfold QxStatReportRecoveryScan. dms. by apply with_entry_provider.
  - unfold qx_backend_supervisor_register in *. dms. by apply Hsup.
  - unfold qx_backend_supervisor_release. dms. by apply Hsup.
  - unfold qx_backend_supervisor_fence_stale. dms. by apply Hsup.
  - destruct (reset_provider scope s s') as [->|[kind ->]]; [done|by apply Forall_replicate|].
    apply Forall_fmap. eapply Forall_impl; [exact H|]. intros slot Hslot. cbn. case_match; [done|].
    intros _. by split.
Qed.

Lemma stat_reachable_provider s : stat_reachable s -> Forall provider_slot (st_slots s).
Proof.
  induction 1 as [|s s' _ IH Hstep]; [by apply Forall_replicate|by eapply stat_step_provider].
Qed.

(** *** The percentages *)

Section Slo.
Context (E : Env) (V : Viewer) (w : world).

Definition provider_counts (o : Oid) : list Z :=
  let counters := entity_counters E (w_stat w) QX_STAT_PROVIDER o None in
  [count_of submit_count counters; count_of resume_count counters; count_of verified_receipts counters;
   count_of rejected_receipts counters; count_of checkpoint_count counters; count_of call_count counters; 0; 0].

Lemma provider_stats_counts s :
  s ∈ srf (pg_qx_stat_get_provider_stats E) w -> vp_counts s = provider_counts (vp_oid s).
Proof. by intros (info & -> & _)%list_elem_of_fmap. Qed.

Lemma provider_counts_ok o :
  stat_reachable (w_stat w) ->
  count_at 4 (provider_counts o) = 0 /\
  int64 (count_at 2 (provider_counts o) + count_at 3 (provider_counts o)) = count_at 5 (provider_counts o).
Proof.
  intros Hr%stat_reachable_provider. unfold provider_counts, entity_counters, qx_stat_lookup_entry.
  pose proof (scan_slots_post (mk_key (MyDatabaseId E) QX_STAT_PROVIDER o None) false (st_slots (w_stat w)) 0 None)
    as Hp.
  destruct (scan_slots _ false _ 0 None) as [i|]; [|done].
  destruct Hp as (j & s & -> & Hj & [_ Hk]%slot_matches_spec & _). cbn [Nat.add]. rewrite Hj. cbn.
  rewrite Forall_forall in Hr. apply (Hr s); [by eapply list_elem_of_lookup_2|].
  by injection Hk as _ -> _ _.
Qed.

(** A row's counters are those of its provider, or nothing. *)
Lemma slo_row_counts r :
  r ∈ pg_stat_qx_slo_providers E V w ->
  exists a, (a = provider_counts (provider_oid (sl_provider r)) \/ a = []) /\
    sl_usage r = usage_of (Some a) /\
    sl_rejected_receipt_count r = count_at 3 a /\
    sl_receipt_verification_pct r = percent (count_at 2 a) (count_at 2 a + count_at 3 a) /\
    sl_checkpoint_coverage_pct r = percent (count_at 4 a) (count_at 0 a + count_at 1 a).
Proof.
  intros (p & (s & Hr%list_elem_of_singleton & Hs)%list_elem_of_bind & Hp)%list_elem_of_bind. subst r.
  apply list_elem_of_bind in Hp as (prov & (s' & Hp%list_elem_of_singleton & Hs')%list_elem_of_bind & _).
  subst p. cbn [pv_provider] in *. destruct s as [x|], s' as [y|].
  - apply elem_of_left_matches in Hs as [Hx Ox%Z.eqb_eq], Hs' as [Hy Oy%Z.eqb_eq].
    exists (vp_counts x). split; [left; by rewrite provider_stats_counts, Ox|]. split_and!; [|done..]. cbn.
    by rewrite !provider_stats_counts, Ox, Oy by done.
  - by pose proof (left_matches_null _ _ _ Hs' Hs).
  - by pose proof (left_matches_null _ _ _ Hs Hs').
  - exists []. split; [by right|]. done.
Qed.

(** C33. In every state the collector can reach, the rows of the service levels
    account for each execution of a provider by one receipt, verified or
    rejected, up to the wraparound of the counters, and while these are not
    negative the percentage of verified receipts is between 0 and 100.  The
    checkpoint coverage is NULL or zero whatever happened: a provider's
    executions are never counted as checkpoints. *)
Theorem slo_percentages r :
  stat_reachable (w_stat w) -> r ∈ pg_stat_qx_slo_providers E V w ->
  let verified := us_verified_receipt_count (sl_usage r) in
  let rejected := sl_rejected_receipt_count r in
  int64 (verified + rejected) = us_task_count (sl_usage r) /\
  (0 <= verified -> 0 <= rejected ->
   match sl_receipt_verification_pct r with Some pct => 0 <= pct <= 10000 | None => verified + rejected = 0 end) /\
  (sl_checkpoint_coverage_pct r = None \/ sl_checkpoint_coverage_pct r = Some 0).
Proof.
  intros Hs Hr. destruct (slo_row_counts r Hr) as (a & Ha & -> & -> & -> & ->).
  assert (count_at 4 a = 0 /\ int64 (count_at 2 a + count_at 3 a) = count_at 5 a) as [H4 H5].
  { destruct Ha as [-> | ->]; [by apply provider_counts_ok|done]. }
  clear Ha. rewrite H4. split_and!; [done| |].
  - cbn. intros Hv Hj. unfold percent. destruct (Z.ltb_spec 0 (count_at 2 a + count_at 3 a)); [|lia].
    split; [apply Z.div_pos; lia|]. apply Z.lt_succ_r, Z.div_lt_upper_bound; lia.
  - unfold percent. destruct (Z.ltb_spec 0 (count_at 0 a + count_at 1 a)); [right|by left].
    f_equal. apply Z.div_small. lia.
Qed.

End Slo.

(** ** A small instance *)

Definition demo_viewer : Viewer :=
  MkViewer (fun owner => owner =? 10) false (fun _ _ => 9000) lower_text (fun _ => Some "public")
    (fun _ => "alice") "postgres" (fun _ => None).

Definition demo_env : Env := MkEnv 5 10 (fun _ => 0) (fun _ => 0) true (fun _ _ => true) 2200.

Definition demo_task : pg_qx_task :=
  Mk_qx_task 50 5 40 30 20 21 10 60 0 0 0 0 0 0 0 0 0 "q" (Some "t") (Some "g") None (Some "High") None None None.

Definition demo_attempt (oid seqno : Z) : pg_qx_attempt :=
  Mk_qx_attempt oid 5 40 50 10 0 seqno "f" None.

Definition demo_queue (oid attempt : Oid) (kind : QxSchedulerQueueKind) : pg_qx_scheduler_queue :=
  Mk_qx_scheduler_queue oid 5 10 20 30 40 50 attempt kind 1 0 0 1 1000 5000 1000 (Some "q1") (Some "a")
    (Some "i") (Some "ns") (Some "High") (Some "p") (Some "prov") (Some "local") (Some "host").

(** The task was submitted, failed, and is in the retry queue. *)
Definition demo_catalog : catalog :=
  set_rows [demo_task]
    (set_rows [demo_attempt 59 1; demo_attempt 60 2]
      (set_rows [demo_queue 69 59 QX_SCHEDULER_QUEUE_PRIMARY; demo_queue 70 60 QX_SCHEDULER_QUEUE_RETRY]
        empty_catalog)).

Definition demo_key : activity_key := (Some "q1", Some "host", Some "prov", Some "local").



Lemma demo_retry_ledger : retry_ledger demo_env demo_viewer demo_catalog demo_task (demo_attempt 60 2).
Proof.
  split.
  - left.
  - apply NoDup_singleton.
  - reflexivity.
  - apply (bool_decide_unpack _). vm_compute. exact I.
  - exists (demo_queue 70 60 QX_SCHEDULER_QUEUE_RETRY). split_and!; [right; left|reflexivity..].
  - intros q Hq _. apply list_elem_of_In in Hq as [<-|[<-|[]]]; (split_and!; [reflexivity..|]).
    + exists (demo_attempt 59 1). split_and!; [reflexivity|done|done].
    + exists (demo_attempt 60 2). split_and!; [reflexivity|done|done].
Qed.


(** A provider whose first execution had its receipt verified. *)
Definition demo_stat : QxStatSharedState :=
  QxStatReportProviderExecution true 5 80 false true QxStatShmemInit.

Definition demo_provider : pg_qx_provider :=
  Mk_qx_provider 80 "prov" 2200 10 true false (Some "local") (Some "e") None None None None None.

Definition demo_world : world :=
  set_stat demo_stat (set_vis (set_rows [demo_provider] empty_catalog) (empty_world 20000)).

Definition demo_slo : slo_view := MkSloView demo_provider (MkUsageCounts 1 1 0 1) 0 (Some 10000) (Some 0).

Lemma slo_percentages_witness :
  stat_reachable (w_stat demo_world) /\ demo_slo ∈ pg_stat_qx_slo_providers demo_env demo_viewer demo_world /\
  int64 (us_verified_receipt_count (sl_usage demo_slo) + sl_rejected_receipt_count demo_slo) =
  us_task_count (sl_usage demo_slo).
Proof.
  assert (stat_reachable (w_stat demo_world)) as Hs.
  { exact (reach_step _ _ reach_init (step_provider QxStatShmemInit true 5 80 false true)). }
  assert (demo_slo ∈ pg_stat_qx_slo_providers demo_env demo_viewer demo_world) as Hr by (vm_compute; left).
  split; [exact Hs|]. split; [exact Hr|].
  exact (proj1 (slo_percentages demo_env demo_viewer demo_world demo_slo Hs Hr)).
Defined.
